(* ===== verification/_CoqProject ===== *)
-Q . S2P
Prelude.v
GoStrings.v
Paths.v
IPNet.v
Types.v
Store.v
Crypto.v
RouteAuth.v
Json.v
JsonDecode.v
Config.v
PrivateNet.v
Memory.v
World.v
FileCopy.v
Host.v
Manager.v
ManagerLocks.v
ManagerConcurrent.v
ManagerDisk.v
ManagerInvariant.v
ManagerLifecycle.v
ManagerEffects.v
ManagerExamples.v
Proxy.v
ProxySafety.v
Caddy.v
Dns.v
Monitors.v
SnapshotBundle.v
Usage.v
Cgroup.v
Wireguard.v
SaveFile.v
ConfigInit.v
RestartWake.v
Api.v
ApiSafety.v
HostWireguard.v
Firewall.v
TcpWake.v
ClientArgs.v
Daemon.v
ClientWG.v
ClientConfig.v
Systemd.v
ClientShell.v
ClientTables.v
ClientRequests.v
GuestMemory.v
ClientCommands.v
ClientSystem.v
Hello.v
ImageText.v
ImageFS.v
ImageBuild.v
