(* ===== verification/Prelude.v ===== *)
(** * Firedoze: a verification library for the daemon, its client and its images

    Firedoze runs Firecracker microVMs on one host: the daemon (cmd/firedozed)
    keeps their records in SQLite, starts, stops, suspends and archives them,
    exposes them over HTTP through Caddy and a wake proxy that starts a sleeping
    VM on demand, and resolves their names.  The client (cmd/firedoze) talks to
    its API through WireGuard; the image builder (cmd/firedoze-image-builder)
    makes the root file system of the guests.  This library translates that code
    into Rocq functions and proves what makes it correct.

    ** The model

    A Go function that reads and writes state and returns an error is a function
    in the monad [M S A] of this file: it takes a state and gives a [result] and
    the new state; a failing call keeps the changes made before it.  [defer] is
    [deferring], an ignored or inspected error is [attempt].  Integers are [Z];
    where Go's 64-bit arithmetic can leave its range the wrap-around ([wrap64],
    [u64]) is written out.  Strings are byte strings.

    Every call that leaves the program (a SQL statement, a system call, a netlink
    or Firecracker request, a command, a wait) is an [ext] of World.v: the
    environment [Env] decides, call by call, whether it proceeds, fails before
    its effect or fails after it.  Nothing is assumed of these decisions, so a
    theorem about an operation covers every pattern of failures and
    cancellations in it.  In these models operations run one after another;
    ManagerConcurrent.v lets any number of goroutines interleave and shows that
    the locks keep the operations that take them apart.

    Third-party code is a parameter with its documented behaviour as named laws:
    [FirecrackerVMM], [Toml], [TomlPrint], [Captcha], [Exchange] (DNS),
    [UuidLib], [UuidText], [Timestamps] (SQLite's clock and time.Parse),
    [CommandsLocal] (debugfs, resize2fs, ssh-keygen), [BundleCodec] (gzip, tar
    and the JSON text of a manifest), [WgTypes] and [WgDevice] (WireGuard),
    [Netfilter] (ip6tables) and [PacketVerdicts] (what the kernel makes of a
    packet), [CaddyRouting] (which route a request takes), [Kernel] (/proc and cgroup files), [CgroupCalls]
    (the control files of cgroups), [ApiJSON] (the decoder of request bodies,
    of which ClientRequests.v and GuestMemory.v give Go's), [TcpNet] (sockets),
    [ClientToml], [ClientProcess] (environment variables and standard input),
    [ClientNet] (host names, bytes of keys), [GoURL] and [GoTargets] (URLs with
    escapes, users or queries), [GoFloats], [Transport] and [WireText] (HTTP),
    [LocalCommands] (ssh and rsync), [BrokerProcess], [NotifySocket] (systemd),
    [Machine] (what the demonstration page shows); of the image builder [Ext4]
    and [Ext4Image] (go-diskfs), [Untar], [Decompressors], [Downloads],
    [UserDatabase] and [GuestTexts] (scripts copied into the guest).  Each law
    has an instance, and each theorem that uses one a witness.  Unicode case
    folding is [GoUnicode]; only ASCII text is computed.

    ** Files, and the code they model (under src/)

    - Prelude.v: results, the monad, weakest preconditions [wp], frames
      [Keeps], invariants [Pres], and the tactics over them.
    - GoStrings.v, Paths.v, IPNet.v, Json.v, JsonDecode.v, Crypto.v: what the
      source uses of Go's strings, strconv, path, net, net/netip,
      encoding/json (printing and reading), crypto/sha256, crypto/hmac and
      encoding/base64, executable.
    - Types.v, Store.v: internal/model, internal/store.  The four tables as
      finite maps with the constraints of the schema.
    - RouteAuth.v: internal/routeauth (keys, tokens, cookies, signed URLs).
    - Config.v, ConfigInit.v: internal/config (configuration, and the first
      file written by -init-config).
    - PrivateNet.v, Memory.v, FileCopy.v, Host.v: the pure helpers, the copies
      and the host set-up of internal/firecracker/manager.go and
      internal/cgroup; Cgroup.v: the set-up of cgroups at start.
    - World.v: the manager's state and what it drives (database, files,
      processes, TAP devices, cgroups).
    - Manager.v: every operation of firecracker.Manager (manager.go,
      cold_storage.go).  ManagerLocks.v, ManagerDisk.v, ManagerInvariant.v,
      ManagerLifecycle.v and ManagerEffects.v hold its theorems,
      ManagerExamples.v runs of it.
    - ManagerConcurrent.v: the sections under [m.mu] as a step relation on a
      pool of goroutines, with an executable scheduler.
    - Proxy.v, ProxySafety.v, Caddy.v: internal/proxy (wake.go, wake_gate.go,
      caddy.go).  The proxy meets the manager through the class [VMStarter] and
      its contract [StarterSpec], which the manager discharges.
    - Dns.v: internal/dns.
    - Monitors.v: the rounds of the idle and cold-storage monitors (idle.go,
      cold_storage.go); the proxy they notify is the class [Reconciler], which
      Caddy's [Reconcile] satisfies.
    - SnapshotBundle.v: export and import of snapshots (snapshot_bundle.go).
    - Usage.v: resource_usage.go and the statistics of internal/cgroup.
    - Wireguard.v, HostWireguard.v: internal/wireguard and
      internal/host/wireguard.go (new peers, the interface and its peers).
    - SaveFile.v: files replaced whole, of the client and of the daemon.
    - Api.v, ApiSafety.v: internal/api: every handler, the routes, and the
      invariant of the daemon as a whole ([daemon_step]: requests, guest
      reports, monitors, wake-ups, exits, shutdown and restart).
    - Firewall.v: internal/host/firewall.go and ksm.go.
    - TcpWake.v: internal/proxy/tcp_wake.go.
    - Daemon.v, RestartWake.v, Systemd.v: cmd/firedozed and internal/systemd:
      the start of the daemon, the watch on its configuration, the VMs it wakes
      after a planned restart, its messages to systemd.
    - GuestMemory.v: firedoze-memd, the script of the guest that asks for
      memory, its report, and the loop it forms with the host.
    - ClientArgs.v, ClientShell.v, ClientTables.v, ClientRequests.v,
      ClientCommands.v: cmd/firedoze/main.go: arguments, ssh and rsync command
      lines and the heartbeat, tables, request bodies, the commands.
      ClientSystem.v puts the API behind them.
    - ClientConfig.v: cmd/firedoze/client_config.go: the client's file and the
      [firedoze server] commands.
    - ClientWG.v: internal/clientwg: the tunnel's configuration, the broker's
      protocol, accept loop and lock.
    - ImageText.v, ImageFS.v, ImageBuild.v: cmd/firedoze-image-builder: packages
      and text edits, the guest's file system, the build and the installation.
    - Hello.v: cmd/firedoze-hello.

    ** What the theorems show

    - The manager: in every state reachable by its operations, process exits
      and restarts, whatever fails, the database invariant holds, memory ranges
      are valid, every process belongs to a row and the locks are free; locks
      are released on every path and busy VMs are refused without an effect.
    - Goroutines: under every interleaving at most one is inside a start, a
      deletion, a saved snapshot or an archive of a VM, a cancelled archive gives
      way, and every call returns.  Stop, sleep, update, create and restore take
      no lock and may run beside them.
    - Lifecycle: what a start, a sleep and a resume achieve; a guest that sleeps
      and wakes is the same guest.  Creation, deletion, snapshots and start-up
      reconciliation do what they promise and nothing else.
    - Disks: copies are exact; archiving, fetching back and whole rounds of the
      cold-storage monitor lose no disk at any point of failure, where the state
      and the cold directory are absolute clean paths that are kept apart
      ([dirs_ok], [dirs_apart]; Validate accepts others, and
      [cold_dir_in_state_dir_loses_disk] shows a disk lost with one), VM names
      are single path components and archived disks are in the current cold
      directory.
    - Bundles: an import is confined to its directory whoever wrote the bundle;
      export and import are inverse.
    - The edge: tokens are accepted exactly when signed, current and for the
      host; protected hosts and wake-ups need one; the configuration given to
      Caddy, its routes tried in order, exposes exactly the hosts meant; VM names never leave the DNS server.
    - The API: names are accepted exactly as the regular expressions of the
      source say; every request is answered with a status that fits its outcome,
      and one refused with 400 or 405 changes nothing, changes of settings and
      imports apart; every history of the daemon keeps the manager's invariant
      and accepted names of VMs, routes and snapshots, of which the theorems on
      disks use those of VMs.
    - The daemon: it serves only when the WireGuard device has the configured
      peers and, where the firewall is enabled, the filter isolates the VMs; a
      tick of the watch on the configuration file leaves the device with the
      peers believed in or those of the file; a planned restart whose list was
      written wakes exactly the VMs that were running, if the next daemon's
      reconciliation succeeds and it can read the list.
    - WireGuard and the firewall: adding a peer cannot damage the configuration
      file; updating the device by a difference equals setting it up anew; the
      rules installed by an enabled firewall drop strangers' connections to the
      VMs.
    - The client: every history of [firedoze server] commands leaves a
      well-formed configuration, replaced whole or not at all; the bodies it
      sends are read as it meant them; with the API behind it, "vm up" ends with
      ssh against the running VM of that name, created as asked if it was
      missing; a session keeps a VM with a threshold of two seconds or more awake;
      an export puts a body that arrived to its end in place or nothing (the
      server ends a broken export like a complete one); the broker dials what it was asked to and a
      live broker keeps its lock.
    - Images: whatever an archive holds, unpacking names no path with a ".."
      component, and leaves the overlay's files to the overlay where no name
      begins with two slashes; the guest's accounts
      are exactly those meant; a build or an installation replaces a file by
      the verified one or not at all.
    - Configuration: Validate accepts exactly the valid configurations, and
      Load returns only those.
    - Addresses and memory: allocation terminates with the first free address,
      links are disjoint; memory below 2^43 MiB adds up and fits the host; what
      the host asks the guest to plug is within the VM's range, and grows and
      shrinks as meant where the guest's kernel keeps less than 128 MiB and
      reports are carried out.

    ** Fuel

    [next_loop] (PrivateNet.v) gets one more round than there are candidates or
    used addresses and is proved never to run out; the copy loops of FileCopy.v
    get one round per byte and more, and are proved to finish; [begin_loop]
    (Manager.v) counts the archives an operation meets in a row, which is one
    because a new archive cannot begin while the operation holds the lock
    (ManagerConcurrent.v has the loop without fuel and proves that it ends);
    [peer_loop] (Wireguard.v) gets one more round than there are used addresses
    and is proved never to run out; [parse_value] (JsonDecode.v) gets two steps
    per byte, proved enough ([parse_fuel]); [ar_loop] and [elf_search]
    (ImageText.v) and [find_root] (ImageBuild.v) are proved to reach their end;
    [wait_loop] (TcpWake.v) and the loops of the client that wait for a port
    try as often as the environment's time limit allows; [acquire_loop]
    (ClientWG.v) gets any number of rounds, and running out is a result of its
    own.

    ** Not modelled

    The migrations and the opening of the database (internal/store/store.go),
    whose schema is the invariant of Store.v; the texts of the guest scripts
    other than firedoze-memd (internal/guestfiles, the table of customizeGuest);
    the ext4 library, the archive and compression formats and HTTP itself; the
    client's user-space WireGuard device, its spinner and the copying of bytes
    between connections; the loop over signals of the daemon; the original
    destination of a redirected socket.  Interleavings are modelled for the
    locks, not inside the bodies of the operations.  The JSON of the API's
    answers is kept as the data it encodes, seconds of CPU time as arguments.
    Error messages are kept without their interpolated values; logging is left
    out. *)

From stdpp Require Export prelude strings gmap.
From Stdlib Require Export ZArith Lia.
From Stdlib Require Export Ascii.

#[export] Set Warnings "-clear-no-such-hyp".

(** ** Go errors

    A Go [error] is modelled by what [errors.Is] and the handlers can observe:
    the sentinel it wraps.  [fmt.Errorf("%w: ...", ErrX, ...)] is the
    constructor of [ErrX]; an error that wraps no sentinel of the program is
    [ErrOther] with its fixed text. *)
Inductive error :=
  | ErrNotFound                    (* store.ErrNotFound *)
  | ErrStoreAlreadyExists          (* store.ErrAlreadyExists *)
  | ErrAlreadyExists               (* firecracker.ErrAlreadyExists *)
  | ErrAlreadyRunning
  | ErrNotRunning
  | ErrRunning
  | ErrNotStopped
  | ErrInvalidSnapshotBundle
  | ErrUnsupportedSnapshotExport
  | ErrCanceled                    (* context.Canceled / DeadlineExceeded *)
  | ErrNotExist                    (* os.IsNotExist *)
  | ErrConstraint                  (* a SQL constraint violation *)
  | ErrAPI (status : Z) (msg : string)   (* the client's apiError *)
  | ErrOther (msg : string).

#[global] Instance error_eq_dec : EqDecision error.
Proof. solve_decision. Defined.

(** ** Results and the state-and-error monad

    [M S A] is a Go function that reads and writes a state [S] and returns
    [(A, error)].  A failing call keeps the state changes made before it. *)
Inductive result (A : Type) :=
  | Ok (a : A)
  | Err (e : error).
Arguments Ok {_} _.
Arguments Err {_} _.

#[global] Instance result_eq_dec {A} `{EqDecision A} : EqDecision (result A).
Proof. solve_decision. Defined.

#[global] Instance result_mret : MRet result := λ A a, Ok a.
#[global] Instance result_mbind : MBind result := λ A B f r,
  match r with Ok a => f a | Err e => Err e end.

Definition is_ok {A} (r : result A) : bool :=
  match r with Ok _ => true | Err _ => false end.

Definition M (S A : Type) : Type := S → result A * S.

#[global] Instance M_mret {S} : MRet (M S) := λ A a s, (Ok a, s).
#[global] Instance M_mbind {S} : MBind (M S) := λ A B f m s,
  match m s with
  | (Ok a, s') => f a s'
  | (Err e, s') => (Err e, s')
  end.

Definition fail {S A} (e : error) : M S A := λ s, (Err e, s).
Definition gets {S A} (f : S → A) : M S A := λ s, (Ok (f s), s).
Definition modify {S} (f : S → S) : M S unit := λ s, (Ok tt, f s).

(** [attempt m] is a call whose error the caller inspects or drops. *)
Definition attempt {S A} (m : M S A) : M S (result A) := λ s,
  let '(r, s') := m s in (Ok r, s').

(** [m `deferring` d]: [d] runs after [m], whatever [m] returned. *)
Definition deferring {S A} (m : M S A) (d : M S unit) : M S A := λ s,
  let '(r, s') := m s in (r, snd (d s')).

(** [lift_result r] is a call that does not touch the state. *)
Definition lift_result {S A} (r : result A) : M S A := λ s, (r, s).

(** ** Reasoning about [M]

    [wp m Q s]: running [m] in [s] ends with a result and a state in [Q]. *)
Definition wp {S A} (m : M S A) (Q : result A → S → Prop) (s : S) : Prop :=
  Q (m s).1 (m s).2.

Section wp.
Context {S : Type}.
Implicit Types s : S.

Lemma wp_mono {A} (m : M S A) (Q Q' : result A → S → Prop) s :
  wp m Q s → (∀ r s', Q r s' → Q' r s') → wp m Q' s.
Proof. unfold wp. auto. Qed.

Lemma wp_and {A} (m : M S A) (Q Q' : result A → S → Prop) s :
  wp m Q s → wp m Q' s → wp m (λ r s', Q r s' ∧ Q' r s') s.
Proof. done. Qed.

Lemma wp_ret {A} (a : A) (Q : result A → S → Prop) s : Q (Ok a) s → wp (mret a) Q s.
Proof. done. Qed.

Lemma wp_fail {A} e (Q : result A → S → Prop) s : Q (Err e) s → wp (fail e) Q s.
Proof. done. Qed.

Lemma wp_gets {A} (f : S → A) Q s : Q (Ok (f s)) s → wp (gets f) Q s.
Proof. done. Qed.

Lemma wp_modify (f : S → S) Q s : Q (Ok tt) (f s) → wp (modify f) Q s.
Proof. done. Qed.

Lemma wp_lift_result {A} (r : result A) (Q : result A → S → Prop) s :
  Q r s → wp (lift_result r) Q s.
Proof. done. Qed.

(** The continuation runs after a success; an error is passed on. *)
Lemma wp_bind {A B} (m : M S A) (k : A → M S B) Q s :
  wp m (λ r s', match r with Ok a => wp (k a) Q s' | Err e => Q (Err e) s' end) s →
  wp (m ≫= k) Q s.
Proof.
  unfold wp, mbind, M_mbind. destruct (m s) as [[a|e] s']; simpl; done.
Qed.

Lemma wp_attempt {A} (m : M S A) (Q : result (result A) → S → Prop) s :
  wp m (λ r s', Q (Ok r) s') s → wp (attempt m) Q s.
Proof. unfold wp, attempt. by destruct (m s). Qed.

Lemma wp_deferring {A} (m : M S A) d (Q : result A → S → Prop) s :
  wp m (λ r s', wp d (λ _ s'', Q r s'') s') s → wp (deferring m d) Q s.
Proof. unfold wp, deferring. by destruct (m s). Qed.
End wp.

(** ** Framing

    [Keeps f m]: [m] does not change the part [f] of the state, whatever it
    returns.  The instances compose through the monad, so that a function's
    frame is found from the frames of its calls. *)
Class Keeps {S A B : Type} (f : S → B) (m : M S A) : Prop :=
  keeps : ∀ s, f (m s).2 = f s.

Section keeps.
Context {S B : Type} (f : S → B).

#[global] Instance keeps_ret {A} (a : A) : Keeps f (mret a : M S A).
Proof. done. Qed.
#[global] Instance keeps_fail {A} e : Keeps f (fail e : M S A).
Proof. done. Qed.
#[global] Instance keeps_gets {A} (g : S → A) : Keeps f (gets g).
Proof. done. Qed.
#[global] Instance keeps_lift {A} (r : result A) : Keeps f (lift_result r : M S A).
Proof. done. Qed.
#[global] Instance keeps_bind {A C} (m : M S A) (k : A → M S C) :
  Keeps f m → (∀ a, Keeps f (k a)) → Keeps f (m ≫= k).
Proof.
  intros Hm Hk s. specialize (Hm s). unfold mbind, M_mbind.
  destruct (m s) as [[a|e] s']; simpl in *; [|done]. by rewrite (Hk a s').
Qed.
(** With what is known of the value of [m]. *)
Lemma keeps_bind_val {A C} (R : A → Prop) (m : M S A) (k : A → M S C) :
  Keeps f m → (∀ s a s', m s = (Ok a, s') → R a) → (∀ a, R a → Keeps f (k a)) → Keeps f (m ≫= k).
Proof.
  intros Hm HR Hk s. specialize (Hm s). specialize (HR s). unfold mbind, M_mbind.
  destruct (m s) as [[a|e] s'] eqn:E; simpl in *; [|done]. by rewrite (Hk a (HR a s' eq_refl) s').
Qed.
#[global] Instance keeps_attempt {A} (m : M S A) : Keeps f m → Keeps f (attempt m).
Proof. intros Hm s. specialize (Hm s). unfold attempt. by destruct (m s). Qed.
#[global] Instance keeps_deferring {A} (m : M S A) d :
  Keeps f m → Keeps f d → Keeps f (deferring m d).
Proof.
  intros Hm Hd s. specialize (Hm s). unfold deferring. destruct (m s) as [r s'].
  simpl in *. by rewrite (Hd s').
Qed.
#[global] Instance keeps_if {A} (b : bool) (m1 m2 : M S A) :
  Keeps f m1 → Keeps f m2 → Keeps f (if b then m1 else m2).
Proof. by destruct b. Qed.
#[global] Instance keeps_option {A C} (o : option C) (k : C → M S A) (m : M S A) :
  (∀ c, Keeps f (k c)) → Keeps f m → Keeps f (match o with Some c => k c | None => m end).
Proof. by destruct o. Qed.
#[global] Instance keeps_result {A C} (r : result C) (k : C → M S A) (h : error → M S A) :
  (∀ c, Keeps f (k c)) → (∀ e, Keeps f (h e)) →
  Keeps f (match r with Ok c => k c | Err e => h e end).
Proof. by destruct r. Qed.
#[global] Instance keeps_pair {A C D} (p : C * D) (k : C → D → M S A) :
  (∀ c d, Keeps f (k c d)) → Keeps f (let '(c, d) := p in k c d).
Proof. by destruct p. Qed.
End keeps.

(** ** Invariants

    [Pres I m]: a run of [m] that starts in [I] ends in [I], whatever it
    returns.  Found from the calls of [m] like [Keeps]. *)
Class Pres {S A : Type} (I : S → Prop) (m : M S A) : Prop :=
  pres : ∀ s, I s → I (m s).2.

Section pres.
Context {S : Type} (I : S → Prop).

#[global] Instance pres_ret {A} (a : A) : Pres I (mret a : M S A).
Proof. by intros s. Qed.
#[global] Instance pres_fail {A} e : Pres I (fail e : M S A).
Proof. by intros s. Qed.
#[global] Instance pres_gets {A} (g : S → A) : Pres I (gets g).
Proof. by intros s. Qed.
#[global] Instance pres_lift {A} (r : result A) : Pres I (lift_result r : M S A).
Proof. by intros s. Qed.
#[global] Instance pres_bind {A C} (m : M S A) (k : A → M S C) :
  Pres I m → (∀ a, Pres I (k a)) → Pres I (m ≫= k).
Proof.
  intros Hm Hk s Hs. specialize (Hm s Hs). unfold mbind, M_mbind.
  destruct (m s) as [[a|e] s']; simpl in *; [|done]. by apply Hk.
Qed.
#[global] Instance pres_attempt {A} (m : M S A) : Pres I m → Pres I (attempt m).
Proof. intros Hm s Hs. specialize (Hm s Hs). unfold attempt. by destruct (m s). Qed.
#[global] Instance pres_deferring {A} (m : M S A) d :
  Pres I m → Pres I d → Pres I (deferring m d).
Proof.
  intros Hm Hd s Hs. specialize (Hm s Hs). unfold deferring. destruct (m s) as [r s'].
  by apply (Hd s').
Qed.
#[global] Instance pres_if {A} (b : bool) (m1 m2 : M S A) :
  Pres I m1 → Pres I m2 → Pres I (if b then m1 else m2).
Proof. by destruct b. Qed.
#[global] Instance pres_option {A C} (o : option C) (k : C → M S A) (m : M S A) :
  (∀ c, Pres I (k c)) → Pres I m → Pres I (match o with Some c => k c | None => m end).
Proof. by destruct o. Qed.
#[global] Instance pres_result {A C} (r : result C) (k : C → M S A) (h : error → M S A) :
  (∀ c, Pres I (k c)) → (∀ e, Pres I (h e)) →
  Pres I (match r with Ok c => k c | Err e => h e end).
Proof. by destruct r. Qed.
#[global] Instance pres_pair {A C D} (p : C * D) (k : C → D → M S A) :
  (∀ c d, Pres I (k c d)) → Pres I (let '(c, d) := p in k c d).
Proof. by destruct p. Qed.

(** With what is known of the value of [m]. *)
Lemma pres_bind_val {A C} (R : A → Prop) (m : M S A) (k : A → M S C) :
  Pres I m → (∀ s a s', I s → m s = (Ok a, s') → R a) → (∀ a, R a → Pres I (k a)) →
  Pres I (m ≫= k).
Proof.
  intros Hm HR Hk s Hs. specialize (Hm s Hs). specialize (HR s). unfold mbind, M_mbind.
  destruct (m s) as [[a|e] s']; simpl in *; [|done]. eapply Hk; [|done]. by eapply HR.
Qed.

(** After a run, by its equation. *)
Lemma pres_run {A} (m : M S A) `{!Pres I m} s r s' : m s = (r, s') → I s → I s'.
Proof. intros E Hs. pose proof (pres (I := I) (m := m) s Hs) as Hp. by rewrite E in Hp. Qed.
End pres.

(** [frame_auto]: a frame by the instances, after unfolding the function. *)
Ltac frame_auto := intros; repeat intro; apply keeps; apply _.

(** ** Inverting a successful run *)
Lemma bind_Ok {S A B} (m : M S A) (k : A → M S B) s b s' :
  (m ≫= k) s = (Ok b, s') ↔ ∃ a s1, m s = (Ok a, s1) ∧ k a s1 = (Ok b, s').
Proof.
  unfold mbind, M_mbind. destruct (m s) as [[a|e] s1].
  - split; [eauto|]. by intros (? & ? & [= <- <-] & ?).
  - split; [done|]. by intros (? & ? & ? & _).
Qed.

Lemma attempt_Ok {S A} (m : M S A) s r s' : attempt m s = (Ok r, s') → m s = (r, s').
Proof. unfold attempt. destruct (m s). by intros [= <- <-]. Qed.

Lemma keeps_Ok {S A B} (f : S → B) (m : M S A) `{!Keeps f m} s r s' :
  m s = (r, s') → f s' = f s.
Proof. intros E. pose proof (keeps (f := f) (m := m) s) as Hk. by rewrite E in Hk. Qed.

(** [inv_ok H]: split the successful run [H] of a sequence into its calls. *)
Ltac inv_ok H :=
  lazymatch type of H with
  | (_ ≫= _) _ = (Ok _, _) =>
      let a := fresh "a" in let s := fresh "w" in let E := fresh "E" in
      apply bind_Ok in H as (a & s & E & H); inv_ok H
  | mret _ _ = (Ok _, _) => injection H as H; try subst
  | _ => idtac
  end.

(** ** Machine integers *)

(** Go's [int] (64 bits, two's complement) and [uint64]. *)
Definition wrap64 (z : Z) : Z := ((z + 2 ^ 63) mod 2 ^ 64 - 2 ^ 63)%Z.
Definition u64 (z : Z) : Z := (z mod 2 ^ 64)%Z.

(** [t.Sub(u)] of two times in nanoseconds: clamped to the range of a [time.Duration]. *)
Definition time_Sub (t u : Z) : Z := Z.max (- 2 ^ 63) (Z.min (2 ^ 63 - 1) (t - u))%Z.

Lemma wrap64_id z : (- 2 ^ 63 ≤ z < 2 ^ 63)%Z → wrap64 z = z.
Proof. intros Hz. unfold wrap64. rewrite Z.mod_small by lia. lia. Qed.

Lemma u64_id z : (0 ≤ z < 2 ^ 64)%Z → u64 z = z.
Proof. apply Z.mod_small. Qed.

(** Enter the result of a call by its equation. *)
Lemma wp_run {S A} (m : M S A) (Q : result A → S → Prop) s :
  (∀ r s', m s = (r, s') → Q r s') → wp m Q s.
Proof. intros HQ. apply HQ, surjective_pairing. Qed.

Lemma wp_bind_run {S A B} (m : M S A) (k : A → M S B) Q s :
  (∀ a s', m s = (Ok a, s') → wp (k a) Q s') →
  (∀ e s', m s = (Err e, s') → Q (Err e) s') →
  wp (m ≫= k) Q s.
Proof. intros Ha He. apply wp_bind, wp_run. intros [a|e] s' E; auto. Qed.

Lemma wp_bind_attempt {S A B} (m : M S A) (k : result A → M S B) Q s :
  (∀ r s', m s = (r, s') → wp (k r) Q s') → wp (attempt m ≫= k) Q s.
Proof.
  intros Hk. apply wp_bind, wp_attempt, wp_run. auto.
Qed.

Lemma wp_bind_gets {S A B} (f : S → A) (k : A → M S B) Q s :
  wp (k (f s)) Q s → wp (gets f ≫= k) Q s.
Proof. done. Qed.
