(* ===== verification/GoStrings.v ===== *)
(** * The Go string library the program uses

    Go strings are byte sequences: [string] with one [ascii] per byte.  This
    file holds the functions of [strings], [strconv], [path] and [net] (host
    and port syntax) the source calls, with the lemmas the components share.

    [strings.ToLower], [strings.TrimSpace] and [strings.Fields] have an ASCII
    path and a Unicode path in Go.  The ASCII path is written out; the Unicode
    path, which needs the Unicode tables, is the class [GoUnicode], so that no
    theorem depends on what it does to non-ASCII text. *)

From S2P Require Import Prelude.
From Stdlib Require Import DecimalString DecimalZ.

(** ** Append *)

Lemma str_app_nil_l s : "" +:+ s = s.
Proof. done. Qed.

Lemma str_app_cons c s t : String c s +:+ t = String c (s +:+ t).
Proof. done. Qed.

Lemma str_app_nil_r s : s +:+ "" = s.
Proof. induction s as [|c s IH]; [done|]. by rewrite str_app_cons, IH. Qed.

Lemma str_app_assoc s t u : (s +:+ t) +:+ u = s +:+ (t +:+ u).
Proof. induction s as [|c s IH]; [done|]. by rewrite !str_app_cons, IH. Qed.

Lemma str_length_app s t :
  String.length (s +:+ t) = String.length s + String.length t.
Proof. induction s as [|c s IH]; [done|]. rewrite str_app_cons. simpl. by rewrite IH. Qed.

Lemma str_app_inj_r s t u : s +:+ u = t +:+ u → s = t.
Proof.
  revert t. induction s as [|c s IH]; intros [|d t] H; [done|..].
  - apply (f_equal String.length) in H. rewrite !str_length_app in H. simpl in H. lia.
  - apply (f_equal String.length) in H. rewrite !str_length_app in H. simpl in H. lia.
  - rewrite !str_app_cons in H. injection H as -> H. f_equal. eauto.
Qed.

Lemma str_app_eq_nil s t : s +:+ t = "" ↔ s = "" ∧ t = "".
Proof. destruct s; split; [by intros H; split|by intros [_ ->]|done|by intros [? _]]. Qed.

(** ** Characters of a string *)

Fixpoint str_forall (P : ascii → bool) (s : string) : bool :=
  match s with
  | "" => true
  | String c s' => P c && str_forall P s'
  end.

Fixpoint str_map (f : ascii → ascii) (s : string) : string :=
  match s with
  | "" => ""
  | String c s' => String (f c) (str_map f s')
  end.

Fixpoint str_mem (c : ascii) (s : string) : bool :=
  match s with
  | "" => false
  | String d s' => bool_decide (c = d) || str_mem c s'
  end.

Lemma str_forall_app P s t : str_forall P (s +:+ t) = str_forall P s && str_forall P t.
Proof.
  induction s as [|c s IH]; [done|]. rewrite str_app_cons. simpl. rewrite IH.
  by rewrite andb_assoc.
Qed.

Lemma str_map_app f s t : str_map f (s +:+ t) = str_map f s +:+ str_map f t.
Proof. induction s as [|c s IH]; [done|]. rewrite !str_app_cons. simpl. by rewrite IH. Qed.

Lemma str_mem_app c s t : str_mem c (s +:+ t) = str_mem c s || str_mem c t.
Proof.
  induction s as [|d s IH]; [done|]. rewrite str_app_cons. simpl. rewrite IH.
  by rewrite orb_assoc.
Qed.

Lemma str_map_id P f s :
  (∀ c, P c = true → f c = c) → str_forall P s = true → str_map f s = s.
Proof.
  intros Hf. induction s as [|c s IH]; simpl; [done|].
  intros [Hc Hs]%andb_true_iff. by rewrite Hf, IH.
Qed.

Lemma str_forall_impl (P Q : ascii → bool) s :
  (∀ c, P c = true → Q c = true) → str_forall P s = true → str_forall Q s = true.
Proof.
  intros HPQ. induction s as [|c s IH]; simpl; [done|].
  rewrite !andb_true_iff. intros [? ?]. split; auto.
Qed.

Lemma str_mem_forall P c s :
  P c = false → str_forall P s = true → str_mem c s = false.
Proof.
  intros Hc. induction s as [|d s IH]; simpl; [done|].
  intros [Hd Hs]%andb_true_iff. rewrite IH by done.
  case_bool_decide; [congruence|done].
Qed.

(** ** strings.HasPrefix, HasSuffix, TrimPrefix, TrimSuffix *)

Fixpoint HasPrefix (s p : string) {struct p} : bool :=
  match p, s with
  | "", _ => true
  | String c p', String d s' => bool_decide (c = d) && HasPrefix s' p'
  | String _ _, "" => false
  end.

Fixpoint str_drop (n : nat) (s : string) : string :=
  match n, s with
  | S n', String _ s' => str_drop n' s'
  | _, _ => s
  end.

Fixpoint str_take (n : nat) (s : string) : string :=
  match n, s with
  | S n', String c s' => String c (str_take n' s')
  | _, _ => ""
  end.

Definition TrimPrefix (s p : string) : string :=
  if HasPrefix s p then str_drop (String.length p) s else s.

Fixpoint HasSuffix (s p : string) : bool :=
  bool_decide (s = p) ||
  match s with
  | "" => false
  | String _ s' => HasSuffix s' p
  end.

Definition TrimSuffix (s p : string) : string :=
  if HasSuffix s p then str_take (String.length s - String.length p) s else s.

Lemma str_drop_app s t : str_drop (String.length s) (s +:+ t) = t.
Proof. induction s as [|c s IH]; [by destruct t|done]. Qed.

Lemma str_take_app s t : str_take (String.length s) (s +:+ t) = s.
Proof. induction s as [|c s IH]; [by destruct t|]. rewrite str_app_cons. simpl. by rewrite IH. Qed.

Lemma str_take_all n s : (String.length s ≤ n)%nat → str_take n s = s.
Proof.
  revert n. induction s as [|c s IH]; intros [|n] Hn; simpl in *; try done; [lia|].
  f_equal. apply IH. lia.
Qed.

Lemma length_str_take n s : String.length (str_take n s) = (n `min` String.length s)%nat.
Proof. revert s. induction n; intros [|c s]; simpl; auto. Qed.

Lemma HasPrefix_spec s p : HasPrefix s p = true ↔ ∃ t, s = p +:+ t.
Proof.
  revert s. induction p as [|c p IH]; intros s; simpl.
  { split; [intros _; by exists s|by intros _]. }
  destruct s as [|d s].
  { split; [done|]. intros [t Ht]. by rewrite str_app_cons in Ht. }
  rewrite andb_true_iff, bool_decide_eq_true, IH. split.
  - intros [-> [t ->]]. by exists t.
  - intros [t Ht]. rewrite str_app_cons in Ht. injection Ht as -> ->. eauto.
Qed.

Lemma HasSuffix_spec s p : HasSuffix s p = true ↔ ∃ t, s = t +:+ p.
Proof.
  induction s as [|c s IH].
  - simpl. rewrite orb_false_r, bool_decide_eq_true. split.
    + intros <-. by exists "".
    + intros [t Ht]. symmetry in Ht. by apply str_app_eq_nil in Ht as [_ ->].
  - change (HasSuffix (String c s) p)
      with (bool_decide (String c s = p) || HasSuffix s p).
    rewrite orb_true_iff, bool_decide_eq_true, IH. split.
    + intros [<-|[t ->]]; [by exists ""|]. by exists (String c t).
    + intros [[|d t] Ht]; [by left|right].
      rewrite str_app_cons in Ht. injection Ht as -> ->. eauto.
Qed.

Lemma TrimPrefix_app p t : TrimPrefix (p +:+ t) p = t.
Proof.
  unfold TrimPrefix. rewrite (proj2 (HasPrefix_spec _ _)) by eauto. apply str_drop_app.
Qed.

Lemma TrimSuffix_app t p : TrimSuffix (t +:+ p) p = t.
Proof.
  unfold TrimSuffix. rewrite (proj2 (HasSuffix_spec _ _)) by eauto.
  rewrite str_length_app, Nat.add_sub. apply str_take_app.
Qed.

Lemma TrimSuffix_none s p : HasSuffix s p = false → TrimSuffix s p = s.
Proof. unfold TrimSuffix. by intros ->. Qed.

Lemma HasSuffix_decompose s p :
  HasSuffix s p = true → s = TrimSuffix s p +:+ p.
Proof. intros [t ->]%HasSuffix_spec. by rewrite TrimSuffix_app. Qed.

Lemma HasSuffix_app t p : HasSuffix (t +:+ p) p = true.
Proof. apply HasSuffix_spec. eauto. Qed.

(** The last byte decides a one-byte suffix. *)
Lemma HasSuffix_char_false s c :
  str_mem c s = false → HasSuffix s (String c "") = false.
Proof.
  intros Hm. apply not_true_is_false. intros [t ->]%HasSuffix_spec.
  rewrite str_mem_app in Hm. simpl in Hm. rewrite bool_decide_eq_true_2 in Hm by done.
  by rewrite orb_true_r in Hm.
Qed.

(** ** strings.Cut, Contains, ContainsAny, Split, Join, ReplaceAll *)

Fixpoint Cut (s sep : string) : option (string * string) :=
  if HasPrefix s sep then Some ("", str_drop (String.length sep) s)
  else match s with
       | "" => None
       | String c s' =>
           match Cut s' sep with
           | Some (a, b) => Some (String c a, b)
           | None => None
           end
       end.

Definition Contains (s sub : string) : bool :=
  match Cut s sub with Some _ => true | None => false end.

Definition ContainsAny (s chars : string) : bool :=
  negb (str_forall (λ c, negb (str_mem c chars)) s).

(** [strings.Split(s, sep)] for a one-byte separator. *)
Fixpoint Split (s : string) (sep : ascii) : list string :=
  match s with
  | "" => [""]
  | String c s' =>
      if bool_decide (c = sep) then "" :: Split s' sep
      else match Split s' sep with
           | [] => [String c ""]
           | x :: l => String c x :: l
           end
  end.

Fixpoint Join (l : list string) (sep : string) : string :=
  match l with
  | [] => ""
  | [x] => x
  | x :: l' => x +:+ sep +:+ Join l' sep
  end.

(** [strings.ReplaceAll(s, old, new)] for a one-byte [old]. *)
Fixpoint ReplaceAll (s : string) (old : ascii) (new : string) : string :=
  match s with
  | "" => ""
  | String c s' =>
      if bool_decide (c = old) then new +:+ ReplaceAll s' old new
      else String c (ReplaceAll s' old new)
  end.

Lemma Cut_Some s sep a b : Cut s sep = Some (a, b) → s = a +:+ sep +:+ b.
Proof.
  revert a b. induction s as [|c s IH]; intros a b; cbn [Cut];
    destruct (HasPrefix _ sep) eqn:Hp.
  - intros [= <- <-]. apply HasPrefix_spec in Hp as [t Ht].
    rewrite str_app_nil_l. by rewrite Ht, str_drop_app.
  - done.
  - intros [= <- <-]. apply HasPrefix_spec in Hp as [t Ht].
    rewrite str_app_nil_l. by rewrite Ht, str_drop_app.
  - destruct (Cut s sep) as [[x y]|]; [|done]. intros [= <- <-].
    rewrite str_app_cons. f_equal. auto.
Qed.

Lemma Cut_app_char a b c :
  str_mem c a = false → Cut (a +:+ String c b) (String c "") = Some (a, b).
Proof.
  induction a as [|d a IH]; intros Hm.
  - rewrite str_app_nil_l. cbn [Cut HasPrefix]. rewrite bool_decide_eq_true_2 by done. done.
  - rewrite str_app_cons. cbn [Cut HasPrefix].
    cbn [str_mem] in Hm. apply orb_false_iff in Hm as [Hd Hm].
    rewrite Hd. cbn [andb]. by rewrite IH.
Qed.

Lemma Cut_None_char s c : str_mem c s = false → Cut s (String c "") = None.
Proof.
  induction s as [|d s IH]; intros Hm; [done|].
  cbn [Cut HasPrefix]. cbn [str_mem] in Hm. apply orb_false_iff in Hm as [Hd Hm].
  rewrite Hd. cbn [andb]. by rewrite IH.
Qed.

Lemma Contains_char s c : Contains s (String c "") = str_mem c s.
Proof.
  unfold Contains. destruct (str_mem c s) eqn:E; [|by rewrite Cut_None_char].
  induction s as [|d s IH]; [done|]. cbn [str_mem] in E. cbn [Cut HasPrefix]. rewrite andb_true_r.
  destruct (decide (c = d)) as [->|Hc]; [by rewrite bool_decide_eq_true_2|].
  rewrite bool_decide_eq_false_2 in E |- * by congruence. specialize (IH E). by destruct (Cut s _) as [[]|].
Qed.

Lemma Cut_char_left s c a b : Cut s (String c "") = Some (a, b) → str_mem c a = false.
Proof.
  revert a b. induction s as [|d s IH]; intros a b; [done|]. cbn [Cut HasPrefix].
  destruct (bool_decide (c = d)) eqn:Hd; cbn [andb].
  { by intros [= <- _]. }
  destruct (Cut s _) as [[x y]|] eqn:E; [|done]. intros [= <- <-].
  cbn [str_mem]. rewrite Hd. by eapply IH.
Qed.

Lemma Split_not_nil s sep : Split s sep ≠ [].
Proof. destruct s; simpl; [done|]. case_bool_decide; [done|]. by destruct (Split _ _). Qed.

Lemma Split_none s sep : str_mem sep s = false → Split s sep = [s].
Proof.
  induction s as [|c s IH]; simpl; [done|].
  intros [Hc Hs]%orb_false_iff. rewrite IH by done.
  apply bool_decide_eq_false in Hc. by rewrite bool_decide_eq_false_2 by congruence.
Qed.

Lemma Split_app_sep a b sep :
  str_mem sep a = false → Split (a +:+ String sep b) sep = a :: Split b sep.
Proof.
  induction a as [|c a IH]; intros Hm.
  - rewrite str_app_nil_l. simpl. by rewrite bool_decide_eq_true_2.
  - rewrite str_app_cons. simpl in *. apply orb_false_iff in Hm as [Hc Hm].
    rewrite IH by done. apply bool_decide_eq_false in Hc.
    by rewrite bool_decide_eq_false_2 by congruence.
Qed.

Lemma Split_Join s sep : Join (Split s sep) (String sep "") = s.
Proof.
  induction s as [|c s IH]; simpl; [done|].
  pose proof (Split_not_nil s sep) as Hne.
  case_bool_decide as Hc.
  - subst. destruct (Split s sep) as [|x l]; [done|].
    change (Join ("" :: x :: l) (String sep ""))
      with (String sep (Join (x :: l) (String sep ""))). by rewrite IH.
  - destruct (Split s sep) as [|x [|y l]]; [done|..]; simpl in *.
    + by rewrite <-IH.
    + rewrite <-IH. by rewrite str_app_cons.
Qed.

Lemma Split_parts s sep x : x ∈ Split s sep → str_mem sep x = false.
Proof.
  revert x. induction s as [|c s IH]; simpl; intros x.
  { by intros ->%list_elem_of_singleton. }
  case_bool_decide as Hc.
  - intros [->|Hx]%elem_of_cons; [done|auto].
  - pose proof (Split_not_nil s sep) as Hne.
    destruct (Split s sep) as [|y l]; [done|].
    intros [->|Hx]%elem_of_cons.
    + simpl. rewrite bool_decide_eq_false_2 by congruence. apply IH. by left.
    + apply IH. by right.
Qed.

Lemma ReplaceAll_mem s c new : str_mem c new = false → str_mem c (ReplaceAll s c new) = false.
Proof.
  intros Hn. induction s as [|d s IH]; simpl; [done|]. case_bool_decide as Hd.
  - by rewrite str_mem_app, Hn, IH.
  - simpl. by rewrite bool_decide_eq_false_2, IH by congruence.
Qed.

(** ** ToLower, TrimSpace, Fields *)

Definition ascii_code (c : ascii) : Z := Z.of_N (Ascii.N_of_ascii c).
Definition byte_chr (z : Z) : ascii := Ascii.ascii_of_N (Z.to_N z).

Definition in_range (lo hi : Z) (c : ascii) : bool :=
  bool_decide (lo ≤ ascii_code c ≤ hi)%Z.

Definition is_ascii_char : ascii → bool := in_range 0 127.
Definition is_lower : ascii → bool := in_range 97 122.
Definition is_upper : ascii → bool := in_range 65 90.
Definition is_digit : ascii → bool := in_range 48 57.

(** Tab, newline, vertical tab, form feed, carriage return, space. *)
Definition is_space (c : ascii) : bool :=
  in_range 9 13 c || bool_decide (ascii_code c = 32)%Z.

Definition lower_char (c : ascii) : ascii :=
  if is_upper c then byte_chr (ascii_code c + 32) else c.

Definition is_ascii : string → bool := str_forall is_ascii_char.

(** What Go does with text outside ASCII: an argument of the functions below. *)
Class GoUnicode := {
  unicode_to_lower : string → string;
  unicode_trim_space : string → string;
  unicode_fields : string → list string;
}.

(** An instance for the executable examples, whose text is ASCII. *)
Definition ascii_only : GoUnicode :=
  {| unicode_to_lower s := s; unicode_trim_space s := s; unicode_fields s := [s] |}.

Section unicode.
Context `{GoUnicode}.

Definition ToLower (s : string) : string :=
  if is_ascii s then str_map lower_char s else unicode_to_lower s.

Fixpoint trim_left (s : string) : string :=
  match s with
  | "" => ""
  | String c s' => if is_space c then trim_left s' else s
  end.

Fixpoint trim_right (s : string) : string :=
  match s with
  | "" => ""
  | String c s' =>
      match trim_right s' with
      | "" => if is_space c then "" else String c ""
      | t => String c t
      end
  end.

Definition TrimSpace (s : string) : string :=
  if is_ascii s then trim_right (trim_left s) else unicode_trim_space s.

Fixpoint fields_go (cur s : string) : list string :=
  match s with
  | "" => if bool_decide (cur = "") then [] else [cur]
  | String c s' =>
      if is_space c then
        (if bool_decide (cur = "") then fields_go "" s' else cur :: fields_go "" s')
      else fields_go (cur +:+ String c "") s'
  end.

Definition Fields (s : string) : list string :=
  if is_ascii s then fields_go "" s else unicode_fields s.

End unicode.

Lemma ascii_code_bound c : (0 ≤ ascii_code c < 256)%Z.
Proof. unfold ascii_code. pose proof (Ascii.N_ascii_bounded c). lia. Qed.

Lemma byte_chr_code c : byte_chr (ascii_code c) = c.
Proof. unfold byte_chr, ascii_code. rewrite N2Z.id. apply Ascii.ascii_N_embedding. Qed.

Lemma ascii_code_chr z : (0 ≤ z < 256)%Z → ascii_code (byte_chr z) = z.
Proof.
  intros Hz. unfold byte_chr, ascii_code.
  rewrite Ascii.N_ascii_embedding; lia.
Qed.

#[global] Instance ascii_code_inj : Inj (=) (=) ascii_code.
Proof. intros a b Hab. rewrite <-(byte_chr_code a), <-(byte_chr_code b). by f_equal. Qed.

Lemma in_range_true lo hi c : in_range lo hi c = true ↔ (lo ≤ ascii_code c ≤ hi)%Z.
Proof. unfold in_range. by rewrite bool_decide_eq_true. Qed.

Lemma in_range_false lo hi c : in_range lo hi c = false ↔ ¬ (lo ≤ ascii_code c ≤ hi)%Z.
Proof. unfold in_range. by rewrite bool_decide_eq_false. Qed.

Lemma lower_char_idemp c : lower_char (lower_char c) = lower_char c.
Proof.
  unfold lower_char, is_upper. destruct (in_range 65 90 c) eqn:Hu; [|by rewrite Hu].
  apply in_range_true in Hu.
  rewrite (proj2 (in_range_false _ _ _)); [done|].
  rewrite ascii_code_chr by lia. lia.
Qed.

Lemma lower_char_ascii c : is_ascii_char (lower_char c) = is_ascii_char c.
Proof.
  unfold lower_char, is_ascii_char, is_upper.
  destruct (in_range 65 90 c) eqn:Hu; [|done]. apply in_range_true in Hu.
  rewrite !(proj2 (in_range_true _ _ _)); [done|..]; rewrite ?ascii_code_chr; lia.
Qed.

Lemma str_map_lower_idemp s : str_map lower_char (str_map lower_char s) = str_map lower_char s.
Proof. induction s; simpl; [done|]. by rewrite lower_char_idemp, IHs. Qed.

Lemma str_map_lower_ascii s : is_ascii (str_map lower_char s) = is_ascii s.
Proof.
  unfold is_ascii. induction s as [|c s IH]; simpl; [done|]. by rewrite lower_char_ascii, IH.
Qed.

Lemma ToLower_ascii `{GoUnicode} s : is_ascii s = true → ToLower s = str_map lower_char s.
Proof. unfold ToLower. by intros ->. Qed.

(** A string with no upper-case byte and no byte outside ASCII is left alone. *)
Definition is_lower_text : string → bool :=
  str_forall (λ c, is_ascii_char c && negb (is_upper c)).

Lemma is_lower_text_ascii s : is_lower_text s = true → is_ascii s = true.
Proof. apply str_forall_impl. intros c. by intros [? _]%andb_true_iff. Qed.

Lemma str_map_lower_id s : is_lower_text s = true → str_map lower_char s = s.
Proof.
  apply str_map_id. intros c [_ Hu]%andb_true_iff. apply negb_true_iff in Hu.
  unfold lower_char. by rewrite Hu.
Qed.

Lemma ToLower_id `{GoUnicode} s : is_lower_text s = true → ToLower s = s.
Proof.
  intros Hs. rewrite ToLower_ascii by by apply is_lower_text_ascii.
  by apply str_map_lower_id.
Qed.

Lemma trim_left_id c s : is_space c = false → trim_left (String c s) = String c s.
Proof. simpl. by intros ->. Qed.

Lemma trim_right_id s :
  str_forall (λ c, negb (is_space c)) s = true → trim_right s = s.
Proof.
  induction s as [|c s IH]; simpl; [done|].
  intros [Hc%negb_true_iff Hs]%andb_true_iff. rewrite IH by done. rewrite Hc.
  by destruct s.
Qed.

Definition no_space : string → bool := str_forall (λ c, negb (is_space c)).

Lemma TrimSpace_id `{GoUnicode} s :
  is_ascii s = true → no_space s = true → TrimSpace s = s.
Proof.
  intros Ha Hs. unfold TrimSpace. rewrite Ha.
  assert (trim_left s = s) as ->; [|by apply trim_right_id].
  destruct s as [|c s]; [done|]. unfold no_space in Hs. simpl in *.
  apply andb_true_iff in Hs as [Hc%negb_true_iff _]. by rewrite Hc.
Qed.

(** ** strconv *)

Definition int_min (bits : Z) : Z := (- 2 ^ (bits - 1))%Z.
Definition int_max (bits : Z) : Z := (2 ^ (bits - 1) - 1)%Z.

(** [strconv.Itoa] and [strconv.FormatInt(z, 10)]. *)
Definition FormatInt (z : Z) : string := NilZero.string_of_int (Z.to_int z).
Abbreviation Itoa := FormatInt (only parsing).

(** The digits of [s] (at least one), as a number. *)
Definition parse_digits (s : string) : option Z :=
  match NilZero.uint_of_string s with
  | Some d => Some (Z.of_uint d)
  | None => None
  end.

(** [strconv.ParseInt(s, 10, 64)]: an optional sign, digits, range check. *)
Definition ParseInt (s : string) : option Z :=
  z ← match s with
      | String "+"%char s' => parse_digits s'
      | String "-"%char s' => Z.opp <$> parse_digits s'
      | _ => parse_digits s
      end;
  if bool_decide (int_min 64 ≤ z ≤ int_max 64)%Z then Some z else None.

(** [strconv.ParseUint(s, 10, 64)]: digits only. *)
Definition ParseUint (s : string) : option Z :=
  z ← parse_digits s;
  if bool_decide (z < 2 ^ 64)%Z then Some z else None.

Lemma string_of_uint_head d :
  ∃ c s, NilZero.string_of_uint d = String c s ∧ is_digit c = true.
Proof. destruct d; eexists _, _; split; try reflexivity. Qed.

Lemma parse_digits_pos p : parse_digits (NilZero.string_of_uint (Pos.to_uint p)) = Some (Z.pos p).
Proof.
  unfold parse_digits. rewrite NilZero.usu by apply DecimalPos.Unsigned.to_uint_nonnil.
  f_equal. exact (of_to (Z.pos p)).
Qed.

(** Parsing inverts printing on the whole range of [int64]. *)
Lemma ParseInt_FormatInt z :
  (int_min 64 ≤ z ≤ int_max 64)%Z → ParseInt (FormatInt z) = Some z.
Proof.
  intros Hz. unfold ParseInt.
  assert (match FormatInt z with
          | String "+"%char s' => parse_digits s'
          | String "-"%char s' => Z.opp <$> parse_digits s'
          | _ => parse_digits (FormatInt z)
          end = Some z) as ->; [|simpl; by rewrite bool_decide_eq_true_2].
  destruct z as [|p|p]; [done|..].
  - change (FormatInt (Z.pos p)) with (NilZero.string_of_uint (Pos.to_uint p)).
    rewrite <-parse_digits_pos.
    destruct (string_of_uint_head (Pos.to_uint p)) as (c & s & -> & Hc).
    destruct c as [[] [] [] [] [] [] [] []]; try done.
  - change (FormatInt (Z.neg p)) with (String "-" (NilZero.string_of_uint (Pos.to_uint p))).
    cbv beta iota. pose proof (parse_digits_pos p) as E. unfold fmap, option_fmap, option_map.
    by rewrite E.
Qed.

Lemma ParseUint_FormatInt z : (0 ≤ z < 2 ^ 64)%Z → ParseUint (FormatInt z) = Some z.
Proof.
  intros Hz. unfold ParseUint. destruct z as [|p|p]; [done| |lia].
  change (FormatInt (Z.pos p)) with (NilZero.string_of_uint (Pos.to_uint p)). rewrite parse_digits_pos.
  cbn [mbind option_bind]. by rewrite bool_decide_eq_true_2 by lia.
Qed.

Lemma FormatInt_inj z1 z2 : FormatInt z1 = FormatInt z2 → z1 = z2.
Proof.
  intros H. apply (f_equal NilZero.int_of_string) in H. unfold FormatInt in H.
  rewrite !NilZero.isi in H; [by apply to_int_inj; congruence|..];
    match goal with |- Z.to_int ?z ≠ _ => destruct z end; try done;
    intros [= E]; by apply DecimalPos.Unsigned.to_uint_nonnil in E.
Qed.

(** Decimal text of any size, for the example clock. *)
Definition parse_decimal (s : string) : option Z := Z.of_int <$> NilZero.int_of_string s.

Lemma parse_decimal_FormatInt z : parse_decimal (FormatInt z) = Some z.
Proof.
  unfold parse_decimal, FormatInt. rewrite NilZero.isi; [simpl; by rewrite of_to|..];
    destruct z; try done; intros [= E]; by apply DecimalPos.Unsigned.to_uint_nonnil in E.
Qed.

Lemma FormatInt_nonempty z : FormatInt z ≠ "".
Proof.
  destruct z as [|p|p]; [done| |done].
  change (FormatInt (Z.pos p)) with (NilZero.string_of_uint (Pos.to_uint p)).
  by destruct (string_of_uint_head (Pos.to_uint p)) as (c & s & -> & _).
Qed.

Lemma uint_digits d : str_forall is_digit (NilEmpty.string_of_uint d) = true.
Proof. induction d; simpl; rewrite ?IHd; done. Qed.

Lemma string_of_uint_digits d : str_forall is_digit (NilZero.string_of_uint d) = true.
Proof. destruct d; try apply uint_digits. done. Qed.

Lemma FormatInt_digits z : (0 ≤ z)%Z → str_forall is_digit (FormatInt z) = true.
Proof. destruct z; intros; [done| |lia]. apply string_of_uint_digits. Qed.

(** ** net.SplitHostPort and net.JoinHostPort *)

(** Around the last occurrence of [c]. *)
Fixpoint CutLast (s : string) (c : ascii) : option (string * string) :=
  match s with
  | "" => None
  | String d s' =>
      match CutLast s' c with
      | Some (a, b) => Some (String d a, b)
      | None => if bool_decide (d = c) then Some ("", s') else None
      end
  end.

Definition SplitHostPort (hostport : string) : option (string * string) :=
  match CutLast hostport ":" with
  | None => None                                       (* missing port *)
  | Some (before, port) =>
      match hostport with
      | String "["%char rest =>
          match Cut rest "]" with
          | None => None                               (* missing ']' *)
          | Some (host, after) =>
              if bool_decide (after = String ":" port) then
                if str_mem "[" rest || str_mem "]" after then None
                else Some (host, port)
              else None
          end
      | _ =>
          if str_mem ":" before || str_mem "[" hostport || str_mem "]" hostport
          then None else Some (before, port)
      end
  end.

Definition JoinHostPort (host port : string) : string :=
  if str_mem ":" host then "[" +:+ host +:+ "]:" +:+ port
  else host +:+ ":" +:+ port.

Lemma CutLast_None s c : CutLast s c = None ↔ str_mem c s = false.
Proof.
  induction s as [|d s IH]; simpl; [done|].
  destruct (CutLast s c) as [[a b]|].
  - split; [done|]. rewrite orb_false_iff. intros [_ Hs]. by apply IH in Hs.
  - rewrite (proj1 IH) by done. rewrite orb_false_r.
    case_bool_decide; case_bool_decide; split; congruence.
Qed.

Lemma CutLast_app a b c : str_mem c b = false → CutLast (a +:+ String c b) c = Some (a, b).
Proof.
  intros Hb. induction a as [|d a IH].
  - rewrite str_app_nil_l. simpl. rewrite (proj2 (CutLast_None _ _)) by done.
    by rewrite bool_decide_eq_true_2.
  - rewrite str_app_cons. simpl. by rewrite IH.
Qed.

Lemma SplitHostPort_plain host port :
  str_mem ":" host = false → str_mem "[" host = false → str_mem "]" host = false →
  str_forall is_digit port = true →
  SplitHostPort (host +:+ ":" +:+ port) = Some (host, port).
Proof.
  intros Hc Hl Hr Hp. unfold SplitHostPort.
  change (":" +:+ port) with (String ":" port).
  rewrite CutLast_app by by apply (str_mem_forall is_digit).
  assert (str_mem "[" (host +:+ String ":" port) = false) as Hl'.
  { rewrite str_mem_app, Hl. simpl. by apply (str_mem_forall is_digit). }
  assert (str_mem "]" (host +:+ String ":" port) = false) as Hr'.
  { rewrite str_mem_app, Hr. simpl. by apply (str_mem_forall is_digit). }
  rewrite Hc, Hl', Hr'.
  destruct host as [|h host]; [done|].
  rewrite str_app_cons. destruct (decide (h = "["%char)) as [->|Hh]; [done|].
  destruct h as [[] [] [] [] [] [] [] []]; try done.
Qed.

Lemma SplitHostPort_no_colon host :
  str_mem ":" host = false → SplitHostPort host = None.
Proof. intros Hc. unfold SplitHostPort. by rewrite (proj2 (CutLast_None _ _) Hc). Qed.

(** ** path.Clean and filepath.Join (Unix) *)

Fixpoint clean_parts (rooted : bool) (out : list string) (parts : list string) : list string :=
  match parts with
  | [] => reverse out
  | p :: parts' =>
      if bool_decide (p = "" ∨ p = ".") then clean_parts rooted out parts'
      else if bool_decide (p = "..") then
        match out with
        | top :: out' =>
            if bool_decide (top = "..") then clean_parts rooted (".." :: out) parts'
            else clean_parts rooted out' parts'
        | [] => if rooted then clean_parts rooted [] parts'
                else clean_parts rooted [".."] parts'
        end
      else clean_parts rooted (p :: out) parts'
  end.

Definition IsAbs (p : string) : bool := HasPrefix p "/".

Definition Clean (p : string) : string :=
  let rooted := IsAbs p in
  let parts := clean_parts rooted [] (Split p "/") in
  if rooted then "/" +:+ Join parts "/"
  else if bool_decide (parts = []) then "." else Join parts "/".

(** [filepath.Join]: empty elements are dropped, the rest is joined and cleaned. *)
Definition path_Join (elems : list string) : string :=
  match filter (λ e, e ≠ "") elems with
  | [] => ""
  | es => Clean (Join es "/")
  end.

(** [filepath.Dir] of a cleaned path with a directory part. *)
Definition path_Dir (p : string) : string :=
  match CutLast p "/" with
  | Some (d, _) => Clean (d +:+ "/")
  | None => "."
  end.

Definition path_Base (p : string) : string :=
  match CutLast p "/" with
  | Some (_, b) => b
  | None => p
  end.

(** [strings.Trim(s, "[]")]. *)
Definition is_bracket (c : ascii) : bool := bool_decide (c = "["%char ∨ c = "]"%char).
Fixpoint trim_left_brackets (s : string) : string :=
  match s with String c s' => if is_bracket c then trim_left_brackets s' else s | "" => "" end.
Fixpoint trim_right_brackets (s : string) : string :=
  match s with
  | "" => ""
  | String c s' =>
      match trim_right_brackets s' with
      | "" => if is_bracket c then "" else String c ""
      | t => String c t
      end
  end.
Definition trim_brackets (s : string) : string := trim_right_brackets (trim_left_brackets s).
