(* ===== verification/Paths.v ===== *)
(** * Clean absolute paths

    The program builds its paths with [filepath.Join] from a configured
    directory and fixed or validated components.  Here such paths are
    [abs parts], and joining, taking the directory and the prefix test are
    list operations on the components. *)

From S2P Require Import Prelude GoStrings.

(** A component that [path.Clean] keeps. *)
Definition good_part (p : string) : Prop :=
  p ≠ "" ∧ str_mem "/" p = false ∧ p ≠ "." ∧ p ≠ "..".

#[global] Instance good_part_dec p : Decision (good_part p).
Proof. unfold good_part. apply _. Defined.

Definition abs (parts : list string) : string := "/" +:+ Join parts "/".

(** [d] itself or something below it. *)
Definition under (d p : string) : bool := bool_decide (p = d) || HasPrefix p (d +:+ "/").

Lemma Join_cons x y l sep : Join (x :: y :: l) sep = x +:+ sep +:+ Join (y :: l) sep.
Proof. done. Qed.

Lemma Join_app l1 l2 sep :
  l1 ≠ [] → l2 ≠ [] → Join (l1 ++ l2) sep = Join l1 sep +:+ sep +:+ Join l2 sep.
Proof.
  intros H1 H2. induction l1 as [|x l1 IH]; [done|]. destruct l1 as [|y l1].
  - simpl. destruct l2 as [|z l2]; [done|]. apply Join_cons.
  - simpl app. rewrite !Join_cons, !str_app_assoc. f_equal. f_equal. by apply IH.
Qed.

Lemma Split_Join_parts l :
  l ≠ [] → Forall (λ p, str_mem "/" p = false) l → Split (Join l "/") "/" = l.
Proof.
  intros Hne Hl. induction Hl as [|x l Hx Hl IH]; [done|]. destruct l as [|y l].
  - by apply Split_none.
  - rewrite Join_cons. change ("/" +:+ ?s) with (String "/" s).
    rewrite Split_app_sep by done. f_equal. by apply IH.
Qed.

Lemma clean_parts_good rooted out l :
  Forall good_part l → clean_parts rooted out l = reverse out ++ l.
Proof.
  intros Hl. revert out. induction Hl as [|x l (H1 & _ & H2 & H3) Hl IH]; intros out; simpl.
  - by rewrite app_nil_r.
  - rewrite !bool_decide_eq_false_2 by naive_solver.
    by rewrite IH, reverse_cons, <-(assoc (++)).
Qed.

Lemma good_no_slash l : Forall good_part l → Forall (λ p, str_mem "/" p = false) l.
Proof. intros Hl. eapply Forall_impl; [exact Hl|]. by intros p (_ & ? & _). Qed.

Lemma Split_abs l : l ≠ [] → Forall good_part l → Split (abs l) "/" = "" :: l.
Proof.
  intros Hne Hl. change (abs l) with (String "/" (Join l "/")). cbn [Split].
  rewrite bool_decide_eq_true_2 by done. f_equal.
  apply Split_Join_parts; [done|by apply good_no_slash].
Qed.

Lemma Clean_abs l : l ≠ [] → Forall good_part l → Clean (abs l) = abs l.
Proof.
  intros Hne Hl. unfold Clean. change (IsAbs (abs l)) with true. cbv iota beta.
  rewrite Split_abs by done. cbn [clean_parts].
  rewrite bool_decide_eq_true_2 by auto. by rewrite clean_parts_good.
Qed.

Lemma abs_nonempty l : abs l ≠ "".
Proof. done. Qed.

Lemma path_Join_abs l cs :
  l ≠ [] → Forall good_part l → Forall good_part cs → path_Join (abs l :: cs) = abs (l ++ cs).
Proof.
  intros Hne Hl Hcs. unfold path_Join.
  assert (filter (λ e, e ≠ "") (abs l :: cs) = abs l :: cs) as ->.
  { rewrite filter_cons_True by done. f_equal.
    induction Hcs as [|c cs (Hc & _) _ IH]; [done|]. by rewrite filter_cons_True, IH. }
  rewrite <-(Clean_abs (l ++ cs)) by (by apply Forall_app || by destruct l).
  f_equal. destruct cs as [|c cs]; [by rewrite app_nil_r|].
  change (abs l :: c :: cs) with ([abs l] ++ c :: cs).
  rewrite Join_app by done. unfold abs. rewrite (Join_app l) by done.
  change (Join [?x] "/") with x. by rewrite str_app_assoc.
Qed.

Lemma abs_inj l1 l2 :
  l1 ≠ [] → l2 ≠ [] → Forall good_part l1 → Forall good_part l2 → abs l1 = abs l2 → l1 = l2.
Proof.
  intros H1 H2 G1 G2 E. apply (f_equal (λ s, Split s "/")) in E.
  rewrite !Split_abs in E by done. congruence.
Qed.

Lemma path_Dir_abs l x :
  l ≠ [] → Forall good_part l → good_part x → path_Dir (abs (l ++ [x])) = abs l.
Proof.
  intros Hne Hl (_ & Hx & _). unfold path_Dir, abs. rewrite Join_app by done.
  change (Join [x] "/") with x. rewrite <-str_app_assoc. change ("/" +:+ x) with (String "/" x).
  rewrite CutLast_app by done. fold (abs l). rewrite <-(Clean_abs l) at 2 by done.
  unfold Clean. change (IsAbs (abs l +:+ "/")) with true. change (IsAbs (abs l)) with true.
  cbv iota beta. rewrite Split_abs by done. f_equal. f_equal.
  assert (Split (abs l +:+ "/") "/" = "" :: l ++ [""]) as ->.
  { change (abs l +:+ "/") with (String "/" (Join l "/" +:+ "/")). cbn [Split].
    rewrite bool_decide_eq_true_2 by done. f_equal.
    rewrite <-(Join_app l [""] "/" Hne ltac:(done) : Join (l ++ [""]) "/" = Join l "/" +:+ "/").
    apply Split_Join_parts; [by destruct l|]. apply Forall_app. split; [by apply good_no_slash|].
    by repeat constructor. }
  cbn [clean_parts]. rewrite bool_decide_eq_true_2 by auto.
  assert (∀ out, clean_parts true out (l ++ [""]) = clean_parts true out l) as Hgen; [|done].
  clear Hne. revert Hl. induction l as [|y l IH]; intros Hl out.
  { cbn [app clean_parts]. by rewrite bool_decide_eq_true_2 by auto. }
  apply Forall_cons in Hl as [(H1 & _ & H2 & H3) Hl]. cbn [app clean_parts].
  rewrite !bool_decide_eq_false_2 by naive_solver. by apply IH.
Qed.

(** ** Paths below a directory *)

Lemma Split_app a b sep : Split (a +:+ String sep b) sep = Split a sep ++ Split b sep.
Proof.
  induction a as [|c a IH]; simpl; [by rewrite bool_decide_eq_true_2|].
  case_bool_decide; [by rewrite IH|]. rewrite IH.
  destruct (Split a sep) eqn:E; [by apply Split_not_nil in E|done].
Qed.

Lemma under_abs l1 l2 :
  l1 ≠ [] → l2 ≠ [] → Forall good_part l1 → Forall good_part l2 →
  under (abs l1) (abs l2) = true → l1 `prefix_of` l2.
Proof.
  intros N1 N2 G1 G2. unfold under. rewrite orb_true_iff, bool_decide_eq_true.
  intros [E|(t & E)%HasPrefix_spec]; [by rewrite (abs_inj l2 l1)|].
  rewrite str_app_assoc in E. apply (f_equal (λ s, Split s "/")) in E.
  change ("/" +:+ t) with (String "/" t) in E. rewrite Split_app, !Split_abs in E by done.
  injection E as ->. by apply prefix_app_r.
Qed.

(** ** The last element of a path *)

Lemma Join_last l p sep : ∃ x, Join (l ++ [p]) sep = x +:+ p.
Proof.
  induction l as [|y [|z l] [x IH]]; [by exists ""|by exists (y +:+ sep); rewrite str_app_assoc|].
  exists (y +:+ sep +:+ x). cbn [app] in *. by rewrite Join_cons, IH, !str_app_assoc.
Qed.

Lemma clean_parts_last rooted p parts : p ≠ "" → p ≠ "." → p ≠ ".." →
  ∀ out, ∃ l, clean_parts rooted out (parts ++ [p]) = l ++ [p].
Proof.
  intros P1 P2 P3. induction parts as [|q parts IH]; intros out; cbn [app clean_parts].
  - rewrite !bool_decide_eq_false_2 by naive_solver. exists (reverse out). by rewrite reverse_cons.
  - repeat case_match; apply IH.
Qed.

Lemma Clean_last y p : str_mem "/" p = false → p ≠ "" → p ≠ "." → p ≠ ".." →
  ∃ x, Clean (y +:+ String "/" p) = x +:+ p.
Proof.
  intros Hp P1 P2 P3. unfold Clean. rewrite Split_app, (Split_none p) by done.
  destruct (clean_parts_last (IsAbs (y +:+ String "/" p)) p (Split y "/") P1 P2 P3 []) as [l ->].
  destruct (Join_last l p "/") as [x ->]. destruct (IsAbs _).
  - exists ("/" +:+ x). by rewrite str_app_assoc.
  - rewrite bool_decide_eq_false_2 by by destruct l. by exists x.
Qed.

Lemma Clean_base p : str_mem "/" p = false → p ≠ "" → p ≠ "." → p ≠ ".." → ∃ x, Clean p = x +:+ p.
Proof.
  intros Hp P1 P2 P3. unfold Clean. rewrite (Split_none p) by done.
  destruct (clean_parts_last (IsAbs p) p [] P1 P2 P3 []) as [l E]. cbn [app] in E. rewrite E.
  destruct (Join_last l p "/") as [x ->]. destruct (IsAbs _).
  - exists ("/" +:+ x). by rewrite str_app_assoc.
  - rewrite bool_decide_eq_false_2 by by destruct l. by exists x.
Qed.

Lemma last_char_inj s t c d : s +:+ String c "" = t +:+ String d "" → c = d.
Proof.
  revert t. induction s as [|x s IH]; intros [|y t].
  - by intros [= <-].
  - rewrite str_app_cons, str_app_nil_l. intros [= _ E]. symmetry in E. by apply str_app_eq_nil in E as [_ ?].
  - rewrite str_app_cons, str_app_nil_l. intros [= _ E]. by apply str_app_eq_nil in E as [_ ?].
  - rewrite !str_app_cons. intros [= _ E]. by apply (IH t).
Qed.
