(* ===== verification/IPNet.v ===== *)
(** * IP addresses and networks (Go's [net] and [net/netip])

    A [net.IP] is kept as the number of its 16-byte form; an IPv4 address is
    its IPv4-mapped value, so [ip.To4() != nil] is [is_v4].  Parsing and
    printing follow [netip.ParseAddr] and [netip.Addr.String]; the arithmetic
    helpers of the program ([addToIP], [addToIPv4], [decrementIP]) are here too
    because four packages use them. *)

From S2P Require Import Prelude GoStrings.
From Stdlib Require DecimalString.
Open Scope Z_scope.

Definition v4_prefix : Z := 0xffff * 2 ^ 32.

Definition ip_valid (ip : Z) : Prop := 0 ≤ ip < 2 ^ 128.

(** [ip.To4() != nil]. *)
Definition is_v4 (ip : Z) : bool := bool_decide (ip / 2 ^ 32 = 0xffff).

(** [net.IPv4(a, b, c, d)] for the 32-bit value [x]. *)
Definition of_v4 (x : Z) : Z := v4_prefix + x.
Definition v4_value (ip : Z) : Z := ip mod 2 ^ 32.

(** ** Printing *)

Definition hex_digit (d : Z) : ascii :=
  if bool_decide (d < 10) then byte_chr (48 + d) else byte_chr (87 + d).

Definition hex16 (g : Z) : string :=
  if bool_decide (g < 16) then String (hex_digit g) ""
  else if bool_decide (g < 256) then
    String (hex_digit (g / 16)) (String (hex_digit (g mod 16)) "")
  else if bool_decide (g < 4096) then
    String (hex_digit (g / 256)) (String (hex_digit (g / 16 mod 16)) (String (hex_digit (g mod 16)) ""))
  else
    String (hex_digit (g / 4096)) (String (hex_digit (g / 256 mod 16))
      (String (hex_digit (g / 16 mod 16)) (String (hex_digit (g mod 16)) ""))).

(** The eight 16-bit groups, most significant first. *)
Definition groups (ip : Z) : list Z :=
  (λ i, ip / 2 ^ (16 * i) mod 2 ^ 16) <$> [7; 6; 5; 4; 3; 2; 1; 0].

Definition of_groups (gs : list Z) : Z := fold_left (λ acc g, acc * 2 ^ 16 + g) gs 0.

(** The length of the run of zeros at the head. *)
Fixpoint zero_run (gs : list Z) : nat :=
  match gs with
  | g :: gs' => if bool_decide (g = 0) then S (zero_run gs') else O
  | [] => O
  end.

(** The first longest run of at least two zero groups: (start, length). *)
Fixpoint best_run (i : nat) (gs : list Z) (best : nat * nat) : nat * nat :=
  match gs with
  | [] => best
  | _ :: gs' =>
      let l := zero_run gs in
      best_run (S i) gs'
        (if bool_decide (2 ≤ l ∧ best.2 < l)%nat then (i, l) else best)
  end.

Definition join_groups (gs : list Z) : string := Join (hex16 <$> gs) ":".

Definition v6_String (ip : Z) : string :=
  let gs := groups ip in
  let '(start, len) := best_run 0 gs (0, 0)%nat in
  if bool_decide (len = 0%nat) then join_groups gs
  else join_groups (take start gs) +:+ "::" +:+ join_groups (drop (start + len) gs).

Definition v4_String (x : Z) : string :=
  FormatInt (x / 2 ^ 24 mod 256) +:+ String "." (FormatInt (x / 2 ^ 16 mod 256) +:+ String "."
  (FormatInt (x / 2 ^ 8 mod 256) +:+ String "." (FormatInt (x mod 256)))).

(** [net.IP.String]. *)
Definition IP_String (ip : Z) : string :=
  if is_v4 ip then v4_String (v4_value ip) else v6_String ip.

(** ** Parsing *)

Definition hex_value (c : ascii) : option Z :=
  let z := ascii_code c in
  if bool_decide (48 ≤ z ≤ 57) then Some (z - 48)
  else if bool_decide (97 ≤ z ≤ 102) then Some (z - 87)
  else if bool_decide (65 ≤ z ≤ 70) then Some (z - 55)
  else None.

(** Up to four hex digits: (number of digits, value, rest); a fifth digit is an
    error. *)
Fixpoint take_hex (off : nat) (acc : Z) (s : string) : option (nat * Z * string) :=
  match s with
  | "" => Some (off, acc, s)
  | String c s' =>
      match hex_value c with
      | None => Some (off, acc, s)
      | Some d => if bool_decide (3 < off)%nat then None else take_hex (S off) (acc * 16 + d) s'
      end
  end.

(** One dotted field: one to three digits without a leading zero, at most 255. *)
Definition parse_octet (s : string) : option Z :=
  match s with
  | "" => None
  | String c s' =>
      if negb (str_forall is_digit s) then None
      else if bool_decide (c = "0"%char ∧ s' ≠ "") then None
      else v ← parse_digits s; if bool_decide (v ≤ 255) then Some v else None
  end.

Definition parse_v4 (s : string) : option Z :=
  match Split s "." with
  | [a; b; c; d] =>
      a ← parse_octet a; b ← parse_octet b; c ← parse_octet c; d ← parse_octet d;
      Some (a * 2 ^ 24 + b * 2 ^ 16 + c * 2 ^ 8 + d)
  | _ => None
  end.

(** The loop of [parseIPv6]: [gs] are the groups read so far (reversed), [ell]
    the position of the ellipsis.  Eight iterations suffice. *)
Fixpoint parse_v6_loop (fuel : nat) (gs : list Z) (ell : option nat) (s : string)
    : option (list Z * option nat * string) :=
  match fuel with
  | O => Some (gs, ell, s)
  | S fuel' =>
      if bool_decide (8 ≤ length gs)%nat then Some (gs, ell, s) else
      '(off, acc, rest) ← take_hex 0 0 s;
      if bool_decide (off = 0%nat) then None else
      match rest with
      | String "."%char _ =>
          if bool_decide (ell = None ∧ length gs ≠ 6%nat) then None
          else if bool_decide (6 < length gs)%nat then None
          else x ← parse_v4 s; Some ((x mod 2 ^ 16) :: (x / 2 ^ 16) :: gs, ell, "")
      | "" => Some (acc :: gs, ell, "")
      | String ":"%char "" => None
      | String ":"%char (String ":"%char rest'') =>
          match ell with
          | Some _ => None
          | None =>
              let ell' := Some (S (length gs)) in
              if bool_decide (rest'' = "") then Some (acc :: gs, ell', "")
              else parse_v6_loop fuel' (acc :: gs) ell' rest''
          end
      | String ":"%char rest' => parse_v6_loop fuel' (acc :: gs) ell rest'
      | String _ _ => None
      end
  end.

Definition parse_v6 (s : string) : option Z :=
  let '(ell, s) := if HasPrefix s "::" then (Some 0%nat, str_drop 2 s) else (None, s) in
  if bool_decide (ell = Some 0%nat ∧ s = "") then Some 0 else
  '(rgs, ell, rest) ← parse_v6_loop 8 [] ell s;
  if negb (bool_decide (rest = "")) then None else
  let gs := reverse rgs in
  let n := length gs in
  if bool_decide (n < 8)%nat then
    match ell with
    | None => None
    | Some e => Some (of_groups (take e gs ++ replicate (8 - n) 0 ++ drop e gs))
    end
  else match ell with
       | Some _ => None
       | None => Some (of_groups gs)
       end.

(** Which of ['.'], [':'], ['%'] comes first decides the syntax. *)
Fixpoint addr_syntax (s : string) : option ascii :=
  match s with
  | "" => None
  | String c s' =>
      if bool_decide (c = "."%char ∨ c = ":"%char ∨ c = "%"%char) then Some c else addr_syntax s'
  end.

(** [net.ParseIP]: also the address part of [net.ParseCIDR]; a zone is refused.
    The result carries the bit length of the parsed form. *)
Definition parse_addr (s : string) : option (Z * Z) :=
  match addr_syntax s with
  | Some "."%char => x ← parse_v4 s; Some (of_v4 x, 32)
  | Some ":"%char => if str_mem "%" s then None else x ← parse_v6 s; Some (x, 128)
  | _ => None
  end.

Definition ParseIP (s : string) : option Z := fst <$> parse_addr s.

(** ** Networks *)

Record IPNet := MkIPNet { net_ip : Z; net_ones : Z; net_bits : Z }.

(** Clears all but the first [ones] of [bits] low bits. *)
Definition mask_ip (ip ones bits : Z) : Z := ip / 2 ^ (bits - ones) * 2 ^ (bits - ones).

Definition ParseCIDR (s : string) : option (Z * IPNet) :=
  match Cut s "/" with
  | None => None
  | Some (addr, m) =>
      '(ip, bits) ← parse_addr addr;
      ones ← parse_digits m;
      if bool_decide (ones ≤ bits) then Some (ip, MkIPNet (mask_ip ip ones bits) ones bits)
      else None
  end.

(** [net.IPNet.Contains]. *)
Definition Contains (n : IPNet) (ip : Z) : bool :=
  let sh := net_bits n - net_ones n in
  bool_decide (is_v4 ip = is_v4 (net_ip n)) &&
  bool_decide (ip / 2 ^ sh = net_ip n / 2 ^ sh).

(** [net.IPNet.String]: a mapped IPv4 network prints with a 32-bit mask. *)
Definition IPNet_String (n : IPNet) : string :=
  let ones := if is_v4 (net_ip n) && bool_decide (net_bits n = 128)
              then Z.max 0 (net_ones n - 96) else net_ones n in
  IP_String (net_ip n) +:+ "/" +:+ FormatInt ones.

(** ** Address arithmetic of the program *)

(** [firecracker.addToIP] and [wireguard.addToIP]: 128-bit addition, an error
    below zero or beyond 16 bytes. *)
Definition addToIP (ip offset : Z) : option Z :=
  let value := ip + offset in
  if bool_decide (value < 0) then None
  else if bool_decide (2 ^ 128 ≤ value) then None
  else Some value.

Definition decrementIP (ip : Z) : option Z := addToIP ip (-1).

(** [firecracker.addToIPv4] on the 32-bit value of an IPv4 address. *)
Definition addToIPv4 (ip offset : Z) : option Z :=
  if negb (is_v4 ip) then None else
  let value := v4_value ip + offset in
  if bool_decide (value < 0 ∨ 0xffffffff < value) then None
  else Some (of_v4 value).

(** ** Groups *)

Lemma of_groups_groups ip : ip_valid ip → of_groups (groups ip) = ip.
Proof.
  intros Hip. unfold groups, of_groups. cbn [fmap list_fmap fold_left].
  assert (∀ a, 0 ≤ a → ip / 2 ^ (16 * (a + 1)) * 2 ^ 16 + ip / 2 ^ (16 * a) mod 2 ^ 16
                       = ip / 2 ^ (16 * a)) as Hstep.
  { intros a Ha. replace (16 * (a + 1)) with (16 * a + 16) by lia.
    rewrite Z.pow_add_r, <-Z.div_div by lia.
    rewrite Z.mul_comm. symmetry. apply Z.div_mod. lia. }
  assert (ip / 2 ^ (16 * (7 + 1)) = 0) as Hz by (apply Z.div_small; exact Hip).
  pose proof (Hstep 7 ltac:(lia)) as E. rewrite Hz in E. rewrite E.
  change (16 * 7) with (16 * (6 + 1)). rewrite (Hstep 6) by lia.
  change (16 * 6) with (16 * (5 + 1)). rewrite (Hstep 5) by lia.
  change (16 * 5) with (16 * (4 + 1)). rewrite (Hstep 4) by lia.
  change (16 * 4) with (16 * (3 + 1)). rewrite (Hstep 3) by lia.
  change (16 * 3) with (16 * (2 + 1)). rewrite (Hstep 2) by lia.
  change (16 * 2) with (16 * (1 + 1)). rewrite (Hstep 1) by lia.
  change (16 * 1) with (16 * (0 + 1)). rewrite (Hstep 0) by lia.
  apply Z.div_1_r.
Qed.

Definition group_valid (g : Z) : Prop := 0 ≤ g < 2 ^ 16.

Lemma groups_valid ip : Forall group_valid (groups ip).
Proof.
  apply Forall_forall. intros g Hg. unfold groups in Hg.
  apply list_elem_of_fmap in Hg as (i & -> & _). apply Z.mod_pos_bound. lia.
Qed.

Lemma groups_length ip : length (groups ip) = 8%nat.
Proof. done. Qed.

(** ** Hex round trip *)

Lemma hex_digit_code d :
  0 ≤ d < 16 → ascii_code (hex_digit d) = if bool_decide (d < 10) then 48 + d else 87 + d.
Proof. intros Hd. unfold hex_digit. case_bool_decide; apply ascii_code_chr; lia. Qed.

Lemma hex_value_digit d : 0 ≤ d < 16 → hex_value (hex_digit d) = Some d.
Proof.
  intros Hd. unfold hex_value. rewrite hex_digit_code by done.
  case_bool_decide as H10; repeat case_bool_decide; try lia; f_equal; lia.
Qed.

(** [s] does not start with a hex digit. *)
Definition hex_stop (s : string) : Prop :=
  match s with "" => True | String c _ => hex_value c = None end.

Lemma take_hex_stop off acc s : hex_stop s → take_hex off acc s = Some (off, acc, s).
Proof. destruct s as [|c s]; simpl; [done|]. by intros ->. Qed.

Lemma take_hex_step off acc d s :
  0 ≤ d < 16 → (off ≤ 3)%nat →
  take_hex off acc (String (hex_digit d) s) = take_hex (S off) (acc * 16 + d) s.
Proof.
  intros Hd Hoff. cbn [take_hex]. rewrite hex_value_digit by done.
  by rewrite bool_decide_eq_false_2 by lia.
Qed.

Lemma take_hex_hex16 g rest :
  group_valid g → hex_stop rest →
  ∃ n, take_hex 0 0 (hex16 g +:+ rest) = Some (S n, g, rest).
Proof.
  intros Hg Hr. unfold group_valid in Hg. unfold hex16.
  pose proof (Z.div_mod g 16). pose proof (Z.mod_pos_bound g 16).
  pose proof (Z.div_mod (g / 16) 16). pose proof (Z.mod_pos_bound (g / 16) 16).
  pose proof (Z.div_mod (g / 256) 16). pose proof (Z.mod_pos_bound (g / 256) 16).
  assert (g / 16 / 16 = g / 256) by by rewrite Z.div_div.
  assert (g / 256 / 16 = g / 4096) by by rewrite Z.div_div.
  repeat case_bool_decide; rewrite ?str_app_cons, str_app_nil_l;
    rewrite ?take_hex_step by lia; rewrite take_hex_stop by done;
    eexists; do 3 f_equal; lia.
Qed.

Lemma hex16_head g :
  group_valid g → ∃ d s, hex16 g = String (hex_digit d) s ∧ 0 ≤ d < 16.
Proof.
  intros Hg. unfold group_valid in Hg. unfold hex16.
  repeat case_bool_decide; eexists _, _; (split; [done|]);
    split; try (apply Z.div_pos; lia); try lia; apply Z.div_lt_upper_bound; lia.
Qed.

(** ** The IPv6 text round trip *)

Lemma hex_digit_not_colon d : 0 ≤ d < 16 → hex_digit d ≠ ":"%char ∧ hex_digit d ≠ "."%char.
Proof.
  intros Hd. split; intros E; apply (f_equal ascii_code) in E;
    rewrite hex_digit_code in E by done;
    vm_compute (ascii_code ":") in E; vm_compute (ascii_code ".") in E;
    case_bool_decide; lia.
Qed.

Lemma join_groups_cons g g' gs :
  join_groups (g :: g' :: gs) = hex16 g +:+ String ":" (join_groups (g' :: gs)).
Proof. done. Qed.

Lemma join_groups_head g gs :
  group_valid g → ∃ d s, join_groups (g :: gs) = String (hex_digit d) s ∧ 0 ≤ d < 16.
Proof.
  intros Hg. destruct (hex16_head g Hg) as (d & s & E & Hd).
  destruct gs as [|g' gs]; [by exists d, s|].
  rewrite join_groups_cons, E, str_app_cons. eauto.
Qed.

(** One group followed by a single colon and another group. *)
Lemma parse_v6_loop_colon fuel gs ell g d s :
  group_valid g → 0 ≤ d < 16 → (length gs < 8)%nat →
  parse_v6_loop (S fuel) gs ell (hex16 g +:+ String ":" (String (hex_digit d) s)) =
  parse_v6_loop fuel (g :: gs) ell (String (hex_digit d) s).
Proof.
  intros Hg Hd Hlen. cbn [parse_v6_loop]. rewrite bool_decide_eq_false_2 by lia.
  destruct (take_hex_hex16 g (String ":" (String (hex_digit d) s)) Hg) as [n Hn]; [done|].
  rewrite Hn. cbn [mbind option_bind]. rewrite bool_decide_eq_false_2 by lia.
  pose proof (hex_digit_not_colon d Hd) as [Hne _].
  destruct (hex_digit d) as [[] [] [] [] [] [] [] []]; first [done|by destruct Hne].
Qed.

Lemma parse_v6_loop_last fuel gs ell g :
  group_valid g → (length gs < 8)%nat →
  parse_v6_loop (S fuel) gs ell (hex16 g) = Some (g :: gs, ell, "").
Proof.
  intros Hg Hlen. cbn [parse_v6_loop]. rewrite bool_decide_eq_false_2 by lia.
  destruct (take_hex_hex16 g "" Hg) as [n Hn]; [done|]. rewrite str_app_nil_r in Hn.
  rewrite Hn. cbn [mbind option_bind]. by rewrite bool_decide_eq_false_2 by lia.
Qed.

Lemma parse_v6_loop_ellipsis fuel gs g tl :
  group_valid g → (length gs < 8)%nat →
  parse_v6_loop (S fuel) gs None (hex16 g +:+ "::" +:+ tl) =
  if bool_decide (tl = "") then Some (g :: gs, Some (S (length gs)), "")
  else parse_v6_loop fuel (g :: gs) (Some (S (length gs))) tl.
Proof.
  intros Hg Hlen. cbn [parse_v6_loop]. rewrite bool_decide_eq_false_2 by lia.
  change ("::" +:+ tl) with (String ":" (String ":" tl)).
  destruct (take_hex_hex16 g (String ":" (String ":" tl)) Hg) as [n Hn]; [done|].
  rewrite Hn. cbn [mbind option_bind]. by rewrite bool_decide_eq_false_2 by lia.
Qed.

Lemma parse_v6_loop_join gs : ∀ fuel acc ell,
  gs ≠ [] → Forall group_valid gs → (length gs ≤ fuel)%nat → (length acc + length gs ≤ 8)%nat →
  parse_v6_loop fuel acc ell (join_groups gs) = Some (reverse gs ++ acc, ell, "").
Proof.
  induction gs as [|g gs IH]; intros fuel acc ell Hne Hv Hfuel Hlen; [done|].
  apply Forall_cons in Hv as [Hg Hv]. destruct fuel as [|fuel]; [simpl in *; lia|].
  rewrite reverse_cons, <-(assoc (++)). simpl in Hlen, Hfuel.
  destruct gs as [|g' gs].
  - change (join_groups [g]) with (hex16 g). by rewrite parse_v6_loop_last by (done || lia).
  - pose proof (proj1 (Forall_cons _ _ _) Hv) as [Hg' _].
    destruct (join_groups_head g' gs Hg') as (d & s & E & Hd).
    rewrite join_groups_cons, E, parse_v6_loop_colon by (done || simpl in *; lia).
    rewrite <-E. apply IH; simpl in *; (done || lia).
Qed.

Lemma parse_v6_loop_join_ellipsis gs tl : ∀ fuel acc,
  gs ≠ [] → Forall group_valid gs → (length gs ≤ fuel)%nat → (length acc + length gs ≤ 8)%nat →
  parse_v6_loop fuel acc None (join_groups gs +:+ "::" +:+ tl) =
  if bool_decide (tl = "")
  then Some (reverse gs ++ acc, Some (length gs + length acc)%nat, "")
  else parse_v6_loop (fuel - length gs) (reverse gs ++ acc) (Some (length gs + length acc)%nat) tl.
Proof.
  induction gs as [|g gs IH]; intros fuel acc Hne Hv Hfuel Hlen; [done|].
  apply Forall_cons in Hv as [Hg Hv]. destruct fuel as [|fuel]; [simpl in *; lia|].
  rewrite reverse_cons, <-!(assoc (++)). simpl in Hlen, Hfuel. simpl length.
  destruct gs as [|g' gs].
  - change (join_groups [g]) with (hex16 g).
    rewrite parse_v6_loop_ellipsis by (done || lia). simpl. by rewrite Nat.sub_0_r.
  - pose proof (proj1 (Forall_cons _ _ _) Hv) as [Hg' _].
    destruct (join_groups_head g' gs Hg') as (d & s & E & Hd).
    rewrite join_groups_cons, E, str_app_assoc, !str_app_cons.
    rewrite parse_v6_loop_colon by (done || simpl in *; lia).
    rewrite <-str_app_cons, <-E. rewrite IH by (simpl in *; done || lia).
    replace (length (g' :: gs) + length (g :: acc))%nat
      with (S (length (g' :: gs)) + length acc)%nat by (simpl; lia). done.
Qed.

(** What [best_run] finds is a run of zeros. *)
Lemma zero_run_spec gs : take (zero_run gs) gs = replicate (zero_run gs) 0.
Proof.
  induction gs as [|g gs IH]; simpl; [done|]. case_bool_decide; simpl; [|done].
  subst. by f_equal.
Qed.

Lemma zero_run_length gs : (zero_run gs ≤ length gs)%nat.
Proof. induction gs as [|g gs IH]; simpl; [done|]. case_bool_decide; simpl; lia. Qed.

Definition run_ok (gs : list Z) (r : nat * nat) : Prop :=
  r.2 = 0%nat ∨ (2 ≤ r.2 ∧ r.1 + r.2 ≤ length gs)%nat ∧ take r.2 (drop r.1 gs) = replicate r.2 0.

Lemma best_run_spec gs : ∀ pre best,
  run_ok (pre ++ gs) best → run_ok (pre ++ gs) (best_run (length pre) gs best).
Proof.
  induction gs as [|g gs IH]; intros pre best Hbest; [done|].
  cbn [best_run]. set (l := zero_run (g :: gs)).
  pose proof (zero_run_length (g :: gs)) as Hle. pose proof (zero_run_spec (g :: gs)) as Hz.
  fold l in Hle, Hz. specialize (IH (pre ++ [g])).
  replace (length (pre ++ [g])) with (S (length pre)) in IH by (rewrite length_app; simpl; lia).
  replace ((pre ++ [g]) ++ gs) with (pre ++ g :: gs) in IH by by rewrite <-(assoc (++)).
  apply IH. case_bool_decide as Hl; [|done]. right. simpl.
  rewrite drop_app_length, length_app. simpl in *. split; [lia|done].
Qed.

Lemma v6_String_parts ip :
  ∃ start len, best_run 0 (groups ip) (0, 0)%nat = (start, len) ∧ run_ok (groups ip) (start, len).
Proof.
  pose proof (best_run_spec (groups ip) [] (0, 0)%nat) as H.
  destruct (best_run _ _ _) as [start len]. exists start, len. split; [done|].
  apply H. by left.
Qed.

(** The pieces the parser produces for a compressed address put back together. *)
Lemma refill_groups ip start len :
  ip_valid ip → run_ok (groups ip) (start, len) → len ≠ 0%nat →
  let pre := take start (groups ip) in
  let post := drop (start + len) (groups ip) in
  Forall group_valid pre ∧ Forall group_valid post ∧
  length pre = start ∧ (length post + (start + len) = 8)%nat ∧ (2 ≤ len)%nat ∧
  of_groups (pre ++ replicate (8 - length (pre ++ post)) 0 ++ post) = ip.
Proof.
  intros Hip [?|[[Hl2 Hsl] Hz]] Hl0 pre post; [done|]. simpl in *.
  pose proof (groups_valid ip) as Hv. pose proof (groups_length ip) as Hlen.
  assert (length pre = start) as Hpre by (unfold pre; rewrite length_take; lia).
  assert (length post + (start + len) = 8)%nat as Hpost
    by (unfold post; rewrite length_drop; lia).
  split_and!; [by apply Forall_take|by apply Forall_drop|done|done|done|].
  rewrite length_app. replace (8 - (length pre + length post))%nat with len by lia.
  unfold pre, post.
  rewrite <-Hz, <-drop_drop, take_drop, take_drop. by apply of_groups_groups.
Qed.

Lemma join_groups_no_prefix gs tl :
  gs ≠ [] → Forall group_valid gs → HasPrefix (join_groups gs +:+ tl) "::" = false.
Proof.
  intros Hne Hv. destruct gs as [|g gs]; [done|]. apply Forall_cons in Hv as [Hg _].
  destruct (join_groups_head g gs Hg) as (d & s & -> & Hd).
  pose proof (hex_digit_not_colon d Hd) as [Hc _]. rewrite str_app_cons.
  simpl. by rewrite bool_decide_eq_false_2 by congruence.
Qed.

Lemma join_groups_nil gs : Forall group_valid gs → join_groups gs = "" ↔ gs = [].
Proof.
  intros Hv. destruct gs as [|g gs]; [done|]. apply Forall_cons in Hv as [Hg _].
  destruct (join_groups_head g gs Hg) as (d & s & -> & _). done.
Qed.

Lemma parse_v6_full ip :
  ip_valid ip → parse_v6 (join_groups (groups ip)) = Some ip.
Proof.
  intros Hip. pose proof (groups_valid ip) as Hv. pose proof (groups_length ip) as Hlen.
  pose proof (of_groups_groups ip Hip) as Hof. set (gs := groups ip) in *. clearbody gs.
  assert (gs ≠ []) as Hne by by intros ->.
  unfold parse_v6. pose proof (join_groups_no_prefix gs "" Hne Hv) as Hp.
  rewrite str_app_nil_r in Hp. rewrite Hp, bool_decide_eq_false_2 by (by intros [??]).
  rewrite parse_v6_loop_join by (done || simpl; lia).
  cbn [mbind option_bind]. rewrite app_nil_r, reverse_involutive, Hlen.
  by rewrite bool_decide_eq_true_2, bool_decide_eq_false_2 by (done || lia); simpl; f_equal.
Qed.

(** Parsing [pre::post]: the ellipsis position and the groups read around it. *)
Lemma parse_v6_compressed pre post :
  Forall group_valid pre → Forall group_valid post → (length pre + length post ≤ 6)%nat →
  parse_v6 (join_groups pre +:+ "::" +:+ join_groups post) =
  Some (of_groups (pre ++ replicate (8 - length (pre ++ post)) 0 ++ post)).
Proof.
  intros Hvp Hvq Hlen. pose proof (join_groups_nil post Hvq) as Hnil.
  assert (∀ rgs, rgs = reverse post ++ reverse pre →
    (let gs0 := reverse rgs in let n := length gs0 in
     if bool_decide (n < 8)%nat
     then Some (of_groups (take (length pre) gs0 ++ replicate (8 - n) 0 ++ drop (length pre) gs0))
     else None) = Some (of_groups (pre ++ replicate (8 - length (pre ++ post)) 0 ++ post))) as Hfin.
  { intros rgs ->. cbv zeta. rewrite <-reverse_app, reverse_involutive.
    rewrite bool_decide_eq_true_2 by (rewrite length_app; lia).
    by rewrite take_app_length, drop_app_length. }
  unfold parse_v6. destruct (decide (pre = [])) as [->|Hpre].
  - change (join_groups [] +:+ "::" +:+ join_groups post)
      with (String ":" (String ":" (join_groups post))).
    cbn [HasPrefix str_drop]. rewrite !bool_decide_eq_true_2 by done. cbn [andb].
    destruct (decide (post = [])) as [->|Hp]; [done|].
    rewrite bool_decide_eq_false_2 by (intros [_ ?%Hnil]; done).
    simpl in Hlen. rewrite parse_v6_loop_join by (done || simpl; lia). cbn [mbind option_bind].
    rewrite bool_decide_eq_true_2 by done. exact (Hfin _ eq_refl).
  - rewrite join_groups_no_prefix, bool_decide_eq_false_2 by (done || by intros [??]).
    rewrite parse_v6_loop_join_ellipsis by (done || simpl; lia).
    rewrite app_nil_r. simpl length. rewrite Nat.add_0_r.
    assert ((if bool_decide (join_groups post = "")
             then Some (reverse pre, Some (length pre), "")
             else parse_v6_loop (8 - length pre) (reverse pre) (Some (length pre)) (join_groups post))
            = Some (reverse post ++ reverse pre, Some (length pre), "")) as ->.
    { case_bool_decide as Hp; [by apply Hnil in Hp as ->|].
      rewrite parse_v6_loop_join; [done| |done|lia|rewrite length_reverse; lia].
      intros E. by apply Hp, Hnil. }
    cbn [mbind option_bind]. rewrite bool_decide_eq_true_2 by done. exact (Hfin _ eq_refl).
Qed.

Lemma parse_v6_String ip : ip_valid ip → parse_v6 (v6_String ip) = Some ip.
Proof.
  intros Hip. unfold v6_String.
  destruct (v6_String_parts ip) as (start & len & -> & Hrun).
  case_bool_decide as Hl; [by apply parse_v6_full|].
  destruct (refill_groups ip start len Hip Hrun Hl) as (Hvp & Hvq & Hpre & Hpost & Hl2 & Hof).
  rewrite parse_v6_compressed by (done || lia). by f_equal.
Qed.

(** The text of an IPv6 address is made of hex digits and colons, one at least. *)
Definition is_v6_char (c : ascii) : bool :=
  bool_decide (c = ":"%char ∨ is_Some (hex_value c)).

Lemma hex16_chars g : group_valid g → str_forall is_v6_char (hex16 g) = true.
Proof.
  intros Hg. unfold group_valid in Hg.
  assert (∀ d, 0 ≤ d < 16 → is_v6_char (hex_digit d) = true) as Hd.
  { intros d Hd. apply bool_decide_eq_true_2. right. rewrite hex_value_digit; eauto. }
  unfold hex16. pose proof (Z.mod_pos_bound g 16). pose proof (Z.mod_pos_bound (g / 16) 16).
  pose proof (Z.mod_pos_bound (g / 256) 16).
  pose proof (Z.div_pos g 16). pose proof (Z.div_pos g 256). pose proof (Z.div_pos g 4096).
  repeat case_bool_decide; simpl; rewrite ?Hd; try done; try lia;
    split; try lia; apply Z.div_lt_upper_bound; lia.
Qed.

Lemma join_groups_chars gs :
  Forall group_valid gs → str_forall is_v6_char (join_groups gs) = true.
Proof.
  induction 1 as [|g gs Hg Hgs IH]; [done|]. destruct gs as [|g' gs]; [by apply hex16_chars|].
  rewrite join_groups_cons, str_forall_app, hex16_chars by done.
  cbn [str_forall andb]. by rewrite IH.
Qed.

Lemma v6_String_chars ip :
  str_forall is_v6_char (v6_String ip) = true ∧ str_mem ":" (v6_String ip) = true.
Proof.
  pose proof (groups_valid ip) as Hv. unfold v6_String.
  destruct (best_run _ _ _) as [start len]. case_bool_decide.
  - split; [by apply join_groups_chars|]. change (groups ip) with
      (ip / 2 ^ (16 * 7) mod 2 ^ 16 :: ip / 2 ^ (16 * 6) mod 2 ^ 16 ::
       ((λ i, ip / 2 ^ (16 * i) mod 2 ^ 16) <$> [5; 4; 3; 2; 1; 0])).
    rewrite join_groups_cons, str_mem_app. simpl. by rewrite orb_true_r.
  - rewrite !str_forall_app, !join_groups_chars by (by apply Forall_take || by apply Forall_drop).
    split; [done|]. rewrite str_mem_app. simpl. by rewrite orb_true_r.
Qed.

Lemma addr_syntax_v6 s :
  str_forall is_v6_char s = true → str_mem ":" s = true → addr_syntax s = Some ":"%char.
Proof.
  induction s as [|c s IH]; simpl; [done|]. rewrite andb_true_iff. intros [Hc Hs] Hm.
  destruct (decide (c = ":"%char)) as [->|Hcol].
  - by rewrite bool_decide_eq_true_2 by auto.
  - apply bool_decide_eq_true in Hc as [->|[v Hv]]; [done|].
    rewrite bool_decide_eq_false_2 by (intros [->|[->| ->]]; done).
    apply IH; [done|]. rewrite bool_decide_eq_false_2 in Hm; [done|congruence].
Qed.

(** Dotted fields: all 256 of them. *)
Lemma parse_octet_FormatInt v : 0 ≤ v < 256 → parse_octet (FormatInt v) = Some v.
Proof.
  intros Hv.
  assert (forallb (λ z, bool_decide (parse_octet (FormatInt z) = Some z)) (seqZ 0 256) = true)
    as Hall by by vm_compute.
  rewrite forallb_forall in Hall. eapply bool_decide_eq_true_1, Hall.
  apply list_elem_of_In, elem_of_seqZ. lia.
Qed.

Lemma FormatInt_no_char v c :
  0 ≤ v → is_digit c = false → str_mem c (FormatInt v) = false.
Proof. intros Hv Hc. eapply str_mem_forall; [exact Hc|]. by apply FormatInt_digits. Qed.

Lemma parse_v4_String x : 0 ≤ x < 2 ^ 32 → parse_v4 (v4_String x) = Some x.
Proof.
  intros Hx. unfold parse_v4, v4_String.
  set (a := x / 2 ^ 24 mod 256). set (b := x / 2 ^ 16 mod 256).
  set (c := x / 2 ^ 8 mod 256). set (d := x mod 256).
  assert (0 ≤ a < 256 ∧ 0 ≤ b < 256 ∧ 0 ≤ c < 256 ∧ 0 ≤ d < 256) as (?&?&?&?)
    by (split_and!; apply Z.mod_pos_bound; lia).
  rewrite !Split_app_sep, Split_none by (apply FormatInt_no_char; [lia|done]).
  rewrite !parse_octet_FormatInt by lia. cbn [mbind option_bind]. f_equal.
  assert (a = x / 2 ^ 24) by (apply Z.mod_small; split; [apply Z.div_pos|apply Z.div_lt_upper_bound]; lia).
  pose proof (Z.div_mod x 256). pose proof (Z.div_mod (x / 2 ^ 8) 256).
  pose proof (Z.div_mod (x / 2 ^ 16) 256).
  rewrite Z.div_div in * by lia. change (2 ^ 8 * 256) with (2 ^ 16) in *.
  change (2 ^ 16 * 256) with (2 ^ 24) in *. change (2 ^ 8) with 256 in *. lia.
Qed.

Lemma addr_syntax_digits s t :
  str_forall is_digit s = true → addr_syntax (s +:+ String "." t) = Some "."%char.
Proof.
  induction s as [|c s IH]; [done|]. rewrite str_app_cons. simpl. rewrite andb_true_iff.
  intros [Hc Hs]. rewrite bool_decide_eq_false_2; [by apply IH|].
  intros [->|[->| ->]]; done.
Qed.

(** [net.ParseIP] inverts [net.IP.String] on every address. *)
Lemma ParseIP_String ip : ip_valid ip → ParseIP (IP_String ip) = Some ip.
Proof.
  intros Hip. unfold ParseIP, parse_addr, IP_String. destruct (is_v4 ip) eqn:Hv4.
  - pose proof (Z.mod_pos_bound ip (2 ^ 32) ltac:(lia)).
    pose proof (Z.mod_pos_bound (v4_value ip / 2 ^ 24) 256 ltac:(lia)).
    unfold v4_String at 1. rewrite addr_syntax_digits by (apply FormatInt_digits; lia).
    rewrite parse_v4_String by done. simpl. f_equal. unfold of_v4, v4_prefix, v4_value.
    apply bool_decide_eq_true in Hv4. pose proof (Z.div_mod ip (2 ^ 32)). lia.
  - destruct (v6_String_chars ip) as [Hc Hm]. rewrite addr_syntax_v6 by done.
    rewrite (str_mem_forall _ _ _ (eq_refl : is_v6_char "%" = false) Hc).
    by rewrite parse_v6_String.
Qed.

(** ** Parsed addresses are addresses *)

Lemma hex_value_bound c d : hex_value c = Some d → 0 ≤ d < 16.
Proof. unfold hex_value. repeat case_bool_decide; intros [= <-]; lia. Qed.

Lemma take_hex_bound s : ∀ off acc o a r,
  (off ≤ 4)%nat → 0 ≤ acc < 16 ^ Z.of_nat off → take_hex off acc s = Some (o, a, r) → group_valid a.
Proof.
  assert (∀ off acc, (off ≤ 4)%nat → 0 ≤ acc < 16 ^ Z.of_nat off → group_valid acc) as Hend.
  { intros off acc Ho Ha. unfold group_valid. change (2 ^ 16) with (16 ^ 4).
    split; [lia|]. eapply Z.lt_le_trans; [apply Ha|]. apply Z.pow_le_mono_r; lia. }
  induction s as [|c s IH]; intros off acc o a r Ho Ha; cbn [take_hex].
  - intros [= _ <- _]. by eapply Hend.
  - destruct (hex_value c) as [d|] eqn:Hd; [|intros [= _ <- _]; by eapply Hend].
    case_bool_decide; [done|]. apply IH; [lia|]. apply hex_value_bound in Hd.
    rewrite Nat2Z.inj_succ, Z.pow_succ_r by lia. lia.
Qed.

Lemma parse_octet_bound s v : parse_octet s = Some v → 0 ≤ v ≤ 255.
Proof.
  unfold parse_octet. destruct s as [|c s]; [done|]. destruct (negb _); [done|]. case_bool_decide; [done|].
  destruct (parse_digits (String c s)) as [x|] eqn:Hx; [|done]. cbn [mbind option_bind].
  case_bool_decide; [|done]. intros [= <-]. split; [|done]. unfold parse_digits in Hx.
  destruct (DecimalString.NilZero.uint_of_string _); [|done]. injection Hx as <-. apply N2Z.is_nonneg.
Qed.

Lemma parse_v4_bound s x : parse_v4 s = Some x → 0 ≤ x < 2 ^ 32.
Proof.
  unfold parse_v4. destruct (Split s ".") as [|a [|b [|c [|d [|]]]]]; try done. intros E.
  apply bind_Some in E as (a' & Ha%parse_octet_bound & E). apply bind_Some in E as (b' & Hb%parse_octet_bound & E).
  apply bind_Some in E as (c' & Hc%parse_octet_bound & E). apply bind_Some in E as (d' & Hd%parse_octet_bound & E).
  injection E as <-. lia.
Qed.

Lemma of_groups_valid gs : length gs = 8%nat → Forall group_valid gs → ip_valid (of_groups gs).
Proof.
  intros Hl Hg. do 8 (destruct gs as [|? gs]; [done|]). destruct gs; [|done].
  repeat (apply Forall_cons in Hg as [? Hg]). unfold group_valid in *. unfold ip_valid, of_groups. simpl. lia.
Qed.

Lemma parse_v6_loop_valid fuel : ∀ gs ell s rgs ell' rest,
  (length gs ≤ 8)%nat → Forall group_valid gs → parse_v6_loop fuel gs ell s = Some (rgs, ell', rest) →
  (length rgs ≤ 8)%nat ∧ Forall group_valid rgs.
Proof.
  induction fuel as [|fuel IH]; intros gs ell s rgs ell' rest Hl Hg; cbn [parse_v6_loop].
  { by intros [= <- _ _]. }
  case_bool_decide as H8; [by intros [= <- _ _]|]. intros E.
  apply bind_Some in E as ([[off acc] r] & Ht & E).
  apply take_hex_bound in Ht; [|lia|done].
  assert (length (acc :: gs) ≤ 8)%nat as Hl' by (simpl; lia).
  assert (Forall group_valid (acc :: gs)) as Hg' by by apply Forall_cons_2.
  case_bool_decide; [done|]. destruct r as [|ch r]; [by injection E as <- _ _|].
  destruct (decide (ch = "."%char)) as [->|Hdot].
  { case_bool_decide; [done|]. case_bool_decide; [done|].
    apply bind_Some in E as (x & Hx%parse_v4_bound & E). injection E as <- _ _. split; [simpl; lia|].
    apply Forall_cons_2; [|apply Forall_cons_2; [|done]]; unfold group_valid.
    - apply Z.mod_pos_bound. lia.
    - split; [apply Z.div_pos; lia|apply Z.div_lt_upper_bound; lia]. }
  destruct (decide (ch = ":"%char)) as [->|Hcol].
  - destruct r as [|ch2 r2]; [done|]. destruct (decide (ch2 = ":"%char)) as [->|Hc2].
    + destruct ell; [done|]. case_bool_decide; [by injection E as <- _ _|]. by eapply IH.
    + assert (parse_v6_loop fuel (acc :: gs) ell (String ch2 r2) = Some (rgs, ell', rest)) as E'
        by (destruct ch2 as [[][][][][][][][]]; done || exact E). by eapply IH.
  - destruct ch as [[][][][][][][][]]; done.
Qed.

Lemma parse_v6_valid s x : parse_v6 s = Some x → ip_valid x.
Proof.
  unfold parse_v6. destruct (if HasPrefix s "::" then _ else _) as [ell s'].
  case_bool_decide; [intros [= <-]; done|]. intros E. apply bind_Some in E as ([[rgs ell'] rest] & Hl & E).
  apply parse_v6_loop_valid in Hl as [Hlen Hg]; [|simpl; lia|apply Forall_nil_2].
  destruct (negb _); [done|]. case_bool_decide as Hn; destruct ell' as [e|]; try done; injection E as <-.
  - apply of_groups_valid.
    + rewrite !length_app, length_replicate, length_take, length_drop. lia.
    + rewrite !Forall_app. split; [by apply Forall_take, Forall_reverse|]. split; [|by apply Forall_drop, Forall_reverse].
      apply Forall_replicate. unfold group_valid. lia.
  - apply of_groups_valid; [rewrite length_reverse in *; lia|by apply Forall_reverse].
Qed.

Lemma parse_addr_valid s ip bits : parse_addr s = Some (ip, bits) →
  ip_valid ip ∧ (bits = 32 ∧ is_v4 ip = true ∨ bits = 128).
Proof.
  unfold parse_addr. destruct (addr_syntax s) as [c|]; [|done].
  destruct (decide (c = "."%char)) as [->|Hd].
  { intros E. apply bind_Some in E as (x & Hx%parse_v4_bound & E). injection E as <- <-. split.
    - unfold ip_valid, of_v4, v4_prefix. lia.
    - left. split; [done|]. apply bool_decide_eq_true. unfold of_v4, v4_prefix.
      rewrite Z.add_comm, Z.div_add by lia. rewrite Z.div_small by lia. done. }
  destruct (decide (c = ":"%char)) as [->|Hc].
  { destruct (str_mem _ _); [done|]. intros E. apply bind_Some in E as (x & Hx%parse_v6_valid & E).
    injection E as <- <-. auto. }
  destruct c as [[][][][][][][][]]; done.
Qed.

(** A single IPv6 address reads back as itself. *)
Lemma ParseCIDR_single ip : ip_valid ip → is_v4 ip = false →
  ParseCIDR (IP_String ip +:+ "/128") = Some (ip, MkIPNet ip 128 128).
Proof.
  intros Hip Hv. unfold IP_String. rewrite Hv. destruct (v6_String_chars ip) as [Hc Hm].
  unfold ParseCIDR. change ("/128") with (String "/" "128").
  rewrite Cut_app_char by exact (str_mem_forall _ _ _ (eq_refl : is_v6_char "/" = false) Hc).
  unfold parse_addr. rewrite addr_syntax_v6 by done.
  rewrite (str_mem_forall _ _ _ (eq_refl : is_v6_char "%" = false) Hc), parse_v6_String by done.
  cbn [mbind option_bind]. change (parse_digits "128") with (Some 128). cbn [mbind option_bind].
  rewrite bool_decide_eq_true_2 by lia. unfold mask_ip. change (128 - 128) with 0. rewrite Z.pow_0_r, Z.div_1_r, Z.mul_1_r.
  done.
Qed.

Lemma v4_String_no_slash x : str_mem "/" (v4_String x) = false.
Proof.
  assert (∀ x y, 0 < y → 0 ≤ x mod y) as Hm by (intros a b Hb; pose proof (Z.mod_pos_bound a b Hb); lia).
  unfold v4_String. rewrite !str_mem_app. cbn [str_mem]. rewrite !str_mem_app. cbn [str_mem].
  rewrite !str_mem_app. cbn [str_mem]. rewrite !FormatInt_no_char by (done || (apply Hm; lia)). done.
Qed.

(** An IPv4-mapped address prints as dotted quad, which takes no /128. *)
Lemma ParseCIDR_v4_128 ip : is_v4 ip = true → ParseCIDR (IP_String ip +:+ "/128") = None.
Proof.
  intros Hv. unfold IP_String. rewrite Hv. unfold ParseCIDR. change ("/128") with (String "/" "128").
  rewrite Cut_app_char by apply v4_String_no_slash. unfold parse_addr. unfold v4_String at 1.
  rewrite addr_syntax_digits by (apply FormatInt_digits; apply Z.mod_pos_bound; lia).
  rewrite parse_v4_String by (apply Z.mod_pos_bound; lia). done.
Qed.

(** ** The text of a network *)

Lemma parse_digits_FormatInt z : 0 ≤ z → parse_digits (FormatInt z) = Some z.
Proof. intros Hz. destruct z as [|p|p]; [reflexivity|apply parse_digits_pos|lia]. Qed.

Lemma parse_digits_nonneg s z : parse_digits s = Some z → 0 ≤ z.
Proof.
  unfold parse_digits. destruct (DecimalString.NilZero.uint_of_string s) as [d|]; [|done]. intros [= <-].
  unfold Z.of_uint. lia.
Qed.

Lemma mask_ip_idem ip ones bits : ones ≤ bits → mask_ip (mask_ip ip ones bits) ones bits = mask_ip ip ones bits.
Proof. intros Ho. unfold mask_ip. rewrite Z.div_mul; [done|]. apply Z.pow_nonzero; lia. Qed.

Lemma mask_ip_valid ip ones bits : ip_valid ip → ones ≤ bits → ip_valid (mask_ip ip ones bits).
Proof.
  intros Hip Ho. unfold mask_ip, ip_valid in *. assert (0 < 2 ^ (bits - ones)) by (apply Z.pow_pos_nonneg; lia).
  pose proof (Z.mul_div_le ip (2 ^ (bits - ones)) ltac:(lia)).
  assert (0 ≤ ip / 2 ^ (bits - ones)) by (apply Z.div_pos; lia). nia.
Qed.

Lemma mask_v6 ip ones : 0 ≤ ones ≤ 128 → is_v4 ip = false → is_v4 (mask_ip ip ones 128) = false.
Proof.
  intros Ho Hv. unfold is_v4 in *. apply bool_decide_eq_false in Hv. apply bool_decide_eq_false. intros E. apply Hv.
  unfold mask_ip in E. destruct (decide (96 ≤ ones)) as [Hge|Hlt].
  - rewrite <-E. replace (2 ^ 32) with (2 ^ (128 - ones) * 2 ^ (32 - (128 - ones)))
      by (rewrite <-Z.pow_add_r by lia; f_equal; lia).
    rewrite <-!Z.div_div by (try apply Z.pow_nonzero; try apply Z.pow_pos_nonneg; lia).
    rewrite Z.div_mul by (apply Z.pow_nonzero; lia). done.
  - exfalso. replace (2 ^ (128 - ones)) with (2 ^ 32 * (2 * 2 ^ (95 - ones))) in E at 2
      by (rewrite <-Z.pow_succ_r, <-Z.pow_add_r by lia; f_equal; lia).
    rewrite (Z.mul_comm (2 ^ 32)), Z.mul_assoc, Z.div_mul in E by lia. lia.
Qed.

Lemma ParseCIDR_text ip ones :
  ip_valid ip → is_v4 ip = false → 0 ≤ ones ≤ 128 →
  ParseCIDR (IP_String ip +:+ "/" +:+ FormatInt ones) = Some (ip, MkIPNet (mask_ip ip ones 128) ones 128).
Proof.
  intros Hip Hv Ho. unfold IP_String. rewrite Hv. destruct (v6_String_chars ip) as [Hc Hm].
  unfold ParseCIDR. change ("/" +:+ FormatInt ones) with (String "/" (FormatInt ones)).
  rewrite Cut_app_char by exact (str_mem_forall _ _ _ (eq_refl : is_v6_char "/" = false) Hc).
  unfold parse_addr. rewrite addr_syntax_v6 by done.
  rewrite (str_mem_forall _ _ _ (eq_refl : is_v6_char "%" = false) Hc), parse_v6_String by done.
  cbn [mbind option_bind]. rewrite parse_digits_FormatInt by lia. cbn [mbind option_bind].
  by rewrite bool_decide_eq_true_2 by lia.
Qed.

(** The network of a parsed IPv6 CIDR reads back from its text. *)
Lemma ParseCIDR_IPNet_String s ip n :
  ParseCIDR s = Some (ip, n) → is_v4 ip = false →
  ParseCIDR (IPNet_String n) = Some (net_ip n, n) ∧ is_v4 (net_ip n) = false ∧ net_bits n = 128.
Proof.
  unfold ParseCIDR at 1. destruct (Cut s "/") as [[addr m]|]; [|done].
  destruct (parse_addr addr) as [[ip' bits]|] eqn:Hp; [|done]. cbn [mbind option_bind].
  destruct (parse_digits m) as [ones|] eqn:Hd; [|done]. cbn [mbind option_bind]. case_bool_decide as Ho; [|done].
  intros [= <- <-] Hv. apply parse_digits_nonneg in Hd.
  apply parse_addr_valid in Hp as [Hip [[_ ?]| ->]]; [congruence|]. cbn [net_ip net_ones net_bits].
  pose proof (mask_v6 ip' ones ltac:(lia) Hv) as Hm. split; [|done].
  unfold IPNet_String. cbn [net_ip net_ones net_bits]. rewrite Hm. cbn [andb].
  rewrite ParseCIDR_text, mask_ip_idem by (done || lia || by apply mask_ip_valid). done.
Qed.

Lemma mask_v4 ip ones : 0 ≤ ones ≤ 32 → is_v4 ip = true → is_v4 (mask_ip ip ones 32) = true.
Proof.
  intros Ho Hv. unfold is_v4 in *. apply bool_decide_eq_true in Hv. apply bool_decide_eq_true.
  rewrite <-Hv. unfold mask_ip.
  replace (2 ^ 32) with (2 ^ (32 - ones) * 2 ^ ones) by (rewrite <-Z.pow_add_r by lia; f_equal; lia).
  rewrite <-!Z.div_div by (try apply Z.pow_nonzero; try apply Z.pow_pos_nonneg; lia).
  rewrite Z.div_mul by (apply Z.pow_nonzero; lia). done.
Qed.

(** The same of an IPv4 CIDR in dotted notation. *)
Lemma ParseCIDR_IPNet_String_v4 s ip n :
  ParseCIDR s = Some (ip, n) → is_v4 ip = true → net_bits n = 32 →
  ParseCIDR (IPNet_String n) = Some (net_ip n, n) ∧ is_v4 (net_ip n) = true.
Proof.
  unfold ParseCIDR at 1. destruct (Cut s "/") as [[addr m]|]; [|done].
  destruct (parse_addr addr) as [[ip' bits]|] eqn:Hp; [|done]. cbn [mbind option_bind].
  destruct (parse_digits m) as [ones|] eqn:Hd; [|done]. cbn [mbind option_bind]. case_bool_decide as Ho; [|done].
  intros [= <- <-] Hv Hb. cbn [net_ip net_ones net_bits] in *. subst bits. apply parse_digits_nonneg in Hd.
  pose proof (mask_v4 ip' ones ltac:(lia) Hv) as Hm. split; [|done].
  unfold IPNet_String, IP_String. cbn [net_ip net_ones net_bits]. rewrite Hm. cbn [andb].
  rewrite bool_decide_eq_false_2 by done. unfold ParseCIDR.
  change ("/" +:+ FormatInt ones) with (String "/" (FormatInt ones)).
  rewrite Cut_app_char by apply v4_String_no_slash. unfold parse_addr. unfold v4_String at 1.
  rewrite addr_syntax_digits by (apply FormatInt_digits; apply Z.mod_pos_bound; lia).
  rewrite parse_v4_String by (apply Z.mod_pos_bound; lia). cbn [mbind option_bind].
  rewrite parse_digits_FormatInt by lia. cbn [mbind option_bind]. rewrite bool_decide_eq_true_2 by lia.
  assert (of_v4 (v4_value (mask_ip ip' ones 32)) = mask_ip ip' ones 32) as ->; [|by rewrite mask_ip_idem].
  apply bool_decide_eq_true in Hm. unfold of_v4, v4_prefix, v4_value.
  pose proof (Z.div_mod (mask_ip ip' ones 32) (2 ^ 32)). lia.
Qed.
