(* ===== verification/Types.v ===== *)
(** * The shared data model (internal/model/types.go, internal/store)

    The records that travel between the components, field by field, the
    parameter records of the store's operations, and the two third-party
    interfaces the store relies on: UUID parsing and SQLite's clock text. *)

From S2P Require Import Prelude GoStrings.

(** ** model.VM *)
Record VM := MkVM {
  vm_UUID : string;
  vm_Name : string;
  vm_State : string;
  vm_PrivateIP : string;
  vm_VCPUs : Z;
  vm_MemoryMinMiB : Z;
  vm_MemoryMaxMiB : Z;
  vm_DiskBytes : Z;
  vm_DefaultHTTPPort : Z;
  vm_IdleSleepAfterSeconds : Z;
  vm_LastStartedAt : string;
  vm_LastActivityAt : string;
  vm_StoppedAt : string;
  vm_ArchivedDiskPath : string;
  vm_BaseImageID : string;
  vm_KernelID : string;
  vm_BaseImageMetadata : string;
  vm_AutoWake : bool;
  vm_PublicHTTP : bool;
}.

(** ** model.Route and the [routes] table row it is read from *)
Record Route := MkRoute {
  rt_Name : string;
  rt_VMUUID : string;
  rt_VMName : string;
  rt_Port : Z;
  rt_IsDefault : bool;
}.

Record route_row := MkRouteRow {
  rr_vm_uuid : string;
  rr_port : Z;
  rr_is_default : Z;
}.

(** ** model.Snapshot *)
Record Snapshot := MkSnapshot {
  sn_Name : string;
  sn_SourceVMUUID : string;
  sn_SourceVM : string;
  sn_StatePath : string;
  sn_MemPath : string;
  sn_DiskPath : string;
  sn_BaseImageID : string;
  sn_KernelID : string;
  sn_BaseImageMetadata : string;
  sn_CreatedAt : string;
}.

(** ** store.CreateVMParams, UpdateVMParams, CreateRouteParams, CreateSnapshotParams *)
Record CreateVMParams := MkCreateVMParams {
  p_Name : string;
  p_PrivateIP : string;
  p_VCPUs : Z;
  p_MemoryMinMiB : Z;
  p_MemoryMaxMiB : Z;
  p_DiskBytes : Z;
  p_DefaultHTTPPort : Z;
  p_IdleSleepAfterSeconds : Z;
  p_BaseImageID : string;
  p_KernelID : string;
  p_BaseImageMetadata : string;
  p_AutoWake : bool;
  p_AutoWakeSet : bool;
  p_PublicHTTP : bool;
}.

(** A Go pointer field that may be nil is an [option]. *)
Record UpdateVMParams := MkUpdateVMParams {
  u_DefaultHTTPPort : option Z;
  u_IdleSleepAfterSeconds : option Z;
  u_AutoWake : option bool;
  u_PublicHTTP : option bool;
}.

Record CreateRouteParams := MkCreateRouteParams {
  cr_Name : string;
  cr_VMUUID : string;
  cr_Port : Z;
  cr_IsDefault : bool;
}.

Record CreateSnapshotParams := MkCreateSnapshotParams {
  cs_Name : string;
  cs_SourceVMUUID : string;
  cs_SourceVM : string;
  cs_StatePath : string;
  cs_MemPath : string;
  cs_DiskPath : string;
  cs_BaseImageID : string;
  cs_KernelID : string;
  cs_BaseImageMetadata : string;
}.

(** ** firecracker.BaseImageMetadata *)
Record ArtifactMetadata := MkArtifact {
  am_Path : string;
  am_Basename : string;
  am_SHA256 : string;
  am_Size : Z;
  am_ModTime : string;
}.

Record BaseImageMetadata := MkBaseImage {
  bm_Rootfs : ArtifactMetadata;
  bm_Kernel : ArtifactMetadata;
  bm_Initrd : option ArtifactMetadata;
  bm_Manifest : gmap string string;
}.

#[global] Instance VM_eq_dec : EqDecision VM.
Proof. solve_decision. Defined.
#[global] Instance Route_eq_dec : EqDecision Route.
Proof. solve_decision. Defined.
#[global] Instance route_row_eq_dec : EqDecision route_row.
Proof. solve_decision. Defined.
#[global] Instance Snapshot_eq_dec : EqDecision Snapshot.
Proof. solve_decision. Defined.

(** ** Third-party interfaces *)

(** [uuid.Parse] of github.com/google/uuid, as the program uses it: does the
    text parse? *)
Class UuidLib := { uuid_Parse_ok : string → bool }.

(** The text of [strftime('%Y-%m-%dT%H:%M:%fZ', 'now')] (SQLite, milliseconds
    since the epoch) and [time.Parse(time.RFC3339Nano, _)] (nanoseconds).
    Documented behaviour: the text parses back to its instant, and is never
    empty. *)
Class Timestamps := {
  strftime : Z → string;
  time_Parse : string → option Z;
}.

Class TimestampLaws `{Timestamps} := {
  time_Parse_strftime ms : time_Parse (strftime ms) = Some (ms * 1000000)%Z;
  strftime_nonempty ms : strftime ms ≠ "";
}.

(** An instance for the executable examples: decimal milliseconds. *)
Definition decimal_stamps : Timestamps := {|
  strftime := FormatInt;
  time_Parse s := (λ ms, ms * 1000000)%Z <$> parse_decimal s;
|}.

Lemma decimal_stamps_laws : @TimestampLaws decimal_stamps.
Proof.
  split.
  - intros ms. simpl. by rewrite parse_decimal_FormatInt.
  - intros ms. apply FormatInt_nonempty.
Qed.

(** For the examples: canonical UUID text is 36 bytes with dashes at 8, 13, 18
    and 23. *)
Definition uuid_shape : UuidLib := {|
  uuid_Parse_ok s :=
    bool_decide (String.length s = 36%nat) &&
    forallb (λ i, bool_decide (String.get i s = Some "-"%char)) [8; 13; 18; 23]%nat
|}.
