(* ===== verification/Store.v ===== *)
(** * The metadata store (internal/store)

    The SQLite database as four tables ([migrations/000001_initial_schema]),
    and every method of [store.Store] that reads or writes them.  A table is a
    finite map from its primary key; the constraints of the schema (primary
    and unique keys, the foreign key with its cascade, the CHECKs and the
    partial unique index) are part of the statements that can violate them.
    [created_at]/[updated_at] of [vms] and [routes] and the [metadata] table
    are written but never read by the program and are left out; the integer
    columns [auto_wake] and [public_http] hold [boolToInt] of the flag and are
    read back with [!= 0], so they are kept as booleans.

    The clock, the generated UUID and the failures of the driver are not
    decided here: the first two are arguments, the third is added by
    [World.v], where a store call can fail before or after its effect. *)

From S2P Require Import Prelude GoStrings Types.
From stdpp Require Import sorting.

Record Store := MkStore {
  vms : gmap string VM;
  routes : gmap string route_row;
  snapshots : gmap string Snapshot;
  route_protections : gset string;
}.

Definition empty_store : Store := MkStore ∅ ∅ ∅ ∅.

Definition set_vms (f : gmap string VM → gmap string VM) (s : Store) : Store :=
  MkStore (f (vms s)) (routes s) (snapshots s) (route_protections s).
Definition set_routes (f : gmap string route_row → gmap string route_row) (s : Store) : Store :=
  MkStore (vms s) (f (routes s)) (snapshots s) (route_protections s).
Definition set_snapshots (f : gmap string Snapshot → gmap string Snapshot) (s : Store) : Store :=
  MkStore (vms s) (routes s) (f (snapshots s)) (route_protections s).
Definition set_protections (f : gset string → gset string) (s : Store) : Store :=
  MkStore (vms s) (routes s) (snapshots s) (f (route_protections s)).

(** The rows of [vms], in the order of the scan. *)
Definition vm_rows (s : Store) : list VM := (map_to_list (vms s)).*2.

(** [select ... from vms where P] read with [QueryRow]: the first row. *)
Definition select_vm (P : VM → Prop) `{∀ v, Decision (P v)} (s : Store) : result VM :=
  match filter P (vm_rows s) with
  | vm :: _ => Ok vm
  | [] => Err ErrNotFound
  end.

(** [select exists(select 1 from vms where name = ?)]. *)
Definition vm_name_taken (name : string) (s : Store) : bool :=
  is_ok (select_vm (λ v, vm_Name v = name) s).

(** ** vms.go *)

Definition GetVM (vmUUID : string) : M Store VM := λ s,
  (match vms s !! vmUUID with Some vm => Ok vm | None => Err ErrNotFound end, s).

Definition GetVMByName (name : string) : M Store VM := λ s,
  (select_vm (λ v, vm_Name v = name) s, s).

Definition GetVMByPrivateIP (privateIP : string) : M Store VM := λ s,
  (select_vm (λ v, vm_PrivateIP v = privateIP) s, s).

Definition CountVMs : M Store Z := gets (λ s, Z.of_nat (size (vms s))).

(** The row [insert into vms] writes. *)
Definition new_vm (vmUUID now : string) (p : CreateVMParams) : VM :=
  MkVM vmUUID (p_Name p) "stopped" (p_PrivateIP p) (p_VCPUs p) (p_MemoryMinMiB p)
       (p_MemoryMaxMiB p) (p_DiskBytes p) (p_DefaultHTTPPort p)
       (p_IdleSleepAfterSeconds p) "" "" now "" (p_BaseImageID p) (p_KernelID p)
       (p_BaseImageMetadata p) (p_AutoWake p) (p_PublicHTTP p).

Definition CreateVM `{UuidLib} (vmUUID now : string) (p : CreateVMParams) : M Store VM := λ s,
  if uuid_Parse_ok (p_Name p) then (Err (ErrOther "vm name must not be UUID-shaped"), s)
  else if bool_decide (is_Some (routes s !! p_Name p)) then (Err ErrStoreAlreadyExists, s)
  else if bool_decide (is_Some (vms s !! vmUUID)) || vm_name_taken (p_Name p) s
  then (Err ErrConstraint, s)
  else GetVM vmUUID (set_vms <[vmUUID := new_vm vmUUID now p]> s).

(** [update vms set ... where uuid = ?] and the [RowsAffected] check. *)
Definition update_vm (vmUUID : string) (f : VM → VM) : M Store unit := λ s,
  match vms s !! vmUUID with
  | Some vm => (Ok tt, set_vms <[vmUUID := f vm]> s)
  | None => (Err ErrNotFound, s)
  end.

Definition with_state (now state : string) (v : VM) : VM :=
  MkVM (vm_UUID v) (vm_Name v) state (vm_PrivateIP v) (vm_VCPUs v) (vm_MemoryMinMiB v)
       (vm_MemoryMaxMiB v) (vm_DiskBytes v) (vm_DefaultHTTPPort v)
       (vm_IdleSleepAfterSeconds v)
       (if bool_decide (state = "running") then now else vm_LastStartedAt v)
       (if bool_decide (state = "running") then now else vm_LastActivityAt v)
       (if bool_decide (state = "stopped") then now else "")
       (vm_ArchivedDiskPath v) (vm_BaseImageID v) (vm_KernelID v)
       (vm_BaseImageMetadata v) (vm_AutoWake v) (vm_PublicHTTP v).

Definition with_activity (now : string) (v : VM) : VM :=
  MkVM (vm_UUID v) (vm_Name v) (vm_State v) (vm_PrivateIP v) (vm_VCPUs v) (vm_MemoryMinMiB v)
       (vm_MemoryMaxMiB v) (vm_DiskBytes v) (vm_DefaultHTTPPort v)
       (vm_IdleSleepAfterSeconds v) (vm_LastStartedAt v) now (vm_StoppedAt v)
       (vm_ArchivedDiskPath v) (vm_BaseImageID v) (vm_KernelID v)
       (vm_BaseImageMetadata v) (vm_AutoWake v) (vm_PublicHTTP v).

Definition with_archived (path : string) (v : VM) : VM :=
  MkVM (vm_UUID v) (vm_Name v) (vm_State v) (vm_PrivateIP v) (vm_VCPUs v) (vm_MemoryMinMiB v)
       (vm_MemoryMaxMiB v) (vm_DiskBytes v) (vm_DefaultHTTPPort v)
       (vm_IdleSleepAfterSeconds v) (vm_LastStartedAt v) (vm_LastActivityAt v)
       (vm_StoppedAt v) path (vm_BaseImageID v) (vm_KernelID v)
       (vm_BaseImageMetadata v) (vm_AutoWake v) (vm_PublicHTTP v).

Definition with_settings (port idle : Z) (autoWake publicHTTP : bool) (v : VM) : VM :=
  MkVM (vm_UUID v) (vm_Name v) (vm_State v) (vm_PrivateIP v) (vm_VCPUs v) (vm_MemoryMinMiB v)
       (vm_MemoryMaxMiB v) (vm_DiskBytes v) port idle (vm_LastStartedAt v)
       (vm_LastActivityAt v) (vm_StoppedAt v) (vm_ArchivedDiskPath v) (vm_BaseImageID v)
       (vm_KernelID v) (vm_BaseImageMetadata v) autoWake publicHTTP.

Definition SetVMState (now vmUUID state : string) : M Store unit :=
  update_vm vmUUID (with_state now state).

Definition TouchVMActivity (now vmUUID : string) : M Store unit :=
  update_vm vmUUID (with_activity now).

Definition SetVMArchivedDiskPath (vmUUID path : string) : M Store unit :=
  update_vm vmUUID (with_archived path).

Definition UpdateVM (vmUUID : string) (u : UpdateVMParams) : M Store VM :=
  vm ← GetVM vmUUID;
  let port := default (vm_DefaultHTTPPort vm) (u_DefaultHTTPPort u) in
  let idle := default (vm_IdleSleepAfterSeconds vm) (u_IdleSleepAfterSeconds u) in
  let autoWake := default (vm_AutoWake vm) (u_AutoWake u) in
  let publicHTTP := default (vm_PublicHTTP vm) (u_PublicHTTP u) in
  update_vm vmUUID (with_settings port idle autoWake publicHTTP) ;;
  GetVM vmUUID.

(** [delete from vms where uuid = ?]: [on delete cascade] removes the routes. *)
Definition DeleteVM (vmUUID : string) : M Store unit := λ s,
  match vms s !! vmUUID with
  | Some _ =>
      (Ok tt, set_routes (filter (λ r, rr_vm_uuid r.2 ≠ vmUUID)) (set_vms (delete vmUUID) s))
  | None => (Err ErrNotFound, s)
  end.

(** ** ListVMs, ListVMsMatching and the LIKE patterns *)

Definition name_le (a b : VM) : Prop := String.le (vm_Name a) (vm_Name b).
#[global] Instance name_le_dec : RelDecision name_le.
Proof. intros a b. apply _. Defined.

Fixpoint GlobToLike (pattern : string) : string :=
  match pattern with
  | "" => ""
  | String r rest =>
      (if bool_decide (r = "*"%char) then "%"
       else if bool_decide (r = "?"%char) then "_"
       else if bool_decide (r = "%"%char ∨ r = "_"%char ∨ r = "\"%char)
       then String "\" (String r "")
       else String r "") +:+ GlobToLike rest
  end.

(** SQLite's [x LIKE p ESCAPE '\']: [%] any text, [_] one character, ASCII
    case folded; a pattern that ends in the escape character matches nothing.
    Names and patterns are ASCII here, where characters are bytes. *)
Definition same_char (a b : ascii) : bool := bool_decide (lower_char a = lower_char b).

Fixpoint like_match (p : string) : string → bool :=
  match p with
  | "" => λ s, bool_decide (s = "")
  | String c p' =>
      if bool_decide (c = "%"%char) then
        (fix go (s : string) : bool :=
           like_match p' s || match s with "" => false | String _ s' => go s' end)
      else if bool_decide (c = "_"%char) then
        λ s, match s with "" => false | String _ s' => like_match p' s' end
      else if bool_decide (c = "\"%char) then
        match p' with
        | "" => λ _, false
        | String d p'' =>
            λ s, match s with "" => false | String e s' => same_char d e && like_match p'' s' end
        end
      else
        λ s, match s with "" => false | String e s' => same_char c e && like_match p' s' end
  end.

Definition ListVMsMatching (namePatterns : list string) : M Store (list VM) := λ s,
  let matches vm :=
    match namePatterns with
    | [] => true
    | ps => existsb (λ p, like_match (GlobToLike p) (vm_Name vm)) ps
    end in
  (Ok (merge_sort name_le (filter (λ vm, matches vm = true) (vm_rows s))), s).

Definition ListVMs : M Store (list VM) := ListVMsMatching [].

(** ** routes.go *)

Definition boolInt (b : bool) : Z := if b then 1%Z else 0%Z.

(** [select ... from routes join vms on vms.uuid = routes.vm_uuid]: a row with
    no VM is not in the join. *)
Definition scanRoute (name : string) (r : route_row) (s : Store) : option Route :=
  vm ← vms s !! rr_vm_uuid r;
  Some (MkRoute name (rr_vm_uuid r) (vm_Name vm) (rr_port r) (negb (bool_decide (rr_is_default r = 0)%Z))).

Definition GetRoute (name : string) : M Store Route := λ s,
  (match routes s !! name ≫= λ r, scanRoute name r s with
   | Some r => Ok r
   | None => Err ErrNotFound
   end, s).

(** The schema's constraints on a new [routes] row. *)
Definition route_row_ok (name : string) (r : route_row) (s : Store) : bool :=
  bool_decide (routes s !! name = None) &&
  bool_decide (is_Some (vms s !! rr_vm_uuid r)) &&
  bool_decide (1 ≤ rr_port r ≤ 65535)%Z &&
  bool_decide (rr_is_default r = 0 ∨ rr_is_default r = 1)%Z &&
  (bool_decide (rr_is_default r ≠ 1)%Z ||
   bool_decide (map_Forall (λ _ r', rr_is_default r' = 1%Z → rr_vm_uuid r' ≠ rr_vm_uuid r) (routes s))).

Definition CreateRoute (p : CreateRouteParams) : M Store Route := λ s,
  if vm_name_taken (cr_Name p) s then (Err ErrStoreAlreadyExists, s)
  else if bool_decide (vms s !! cr_VMUUID p = None) then (Err ErrNotFound, s)
  else
    let row := MkRouteRow (cr_VMUUID p) (cr_Port p) (boolInt (cr_IsDefault p)) in
    if route_row_ok (cr_Name p) row s
    then GetRoute (cr_Name p) (set_routes <[cr_Name p := row]> s)
    else (Err ErrConstraint, s).

Definition route_le (a b : Route) : Prop := String.le (rt_Name a) (rt_Name b).
#[global] Instance route_le_dec : RelDecision route_le.
Proof. intros a b. apply _. Defined.

Definition ListRoutes : M Store (list Route) := λ s,
  (Ok (merge_sort route_le
         (omap (λ nr, scanRoute nr.1 nr.2 s) (map_to_list (routes s)))), s).

Definition DeleteRoute (name : string) : M Store unit := λ s,
  if bool_decide (is_Some (routes s !! name))
  then (Ok tt, set_routes (delete name) s)
  else (Err ErrNotFound, s).

Definition DeleteRoutesForVM (vmUUID : string) : M Store unit :=
  modify (set_routes (filter (λ r, rr_vm_uuid r.2 ≠ vmUUID))).

Definition VMExists (name : string) : M Store bool := gets (vm_name_taken name).

Definition RouteExists (name : string) : M Store bool :=
  gets (λ s, bool_decide (is_Some (routes s !! name))).

(** ** snapshots.go *)

Definition GetSnapshot (name : string) : M Store Snapshot := λ s,
  (match snapshots s !! name with Some sn => Ok sn | None => Err ErrNotFound end, s).

Definition CreateSnapshot (now : string) (p : CreateSnapshotParams) : M Store Snapshot := λ s,
  match snapshots s !! cs_Name p with
  | Some _ => (Err ErrConstraint, s)
  | None =>
      GetSnapshot (cs_Name p)
        (set_snapshots <[cs_Name p :=
           MkSnapshot (cs_Name p) (cs_SourceVMUUID p) (cs_SourceVM p) (cs_StatePath p)
             (cs_MemPath p) (cs_DiskPath p) (cs_BaseImageID p) (cs_KernelID p)
             (cs_BaseImageMetadata p) now]> s)
  end.

Definition SnapshotExists (name : string) : M Store bool :=
  gets (λ s, bool_decide (is_Some (snapshots s !! name))).

Definition snapshot_le (a b : Snapshot) : Prop := String.le (sn_Name a) (sn_Name b).
#[global] Instance snapshot_le_dec : RelDecision snapshot_le.
Proof. intros a b. apply _. Defined.

Definition ListSnapshots : M Store (list Snapshot) := λ s,
  (Ok (merge_sort snapshot_le (map_to_list (snapshots s)).*2), s).

Definition DeleteSnapshot (name : string) : M Store unit := λ s,
  if bool_decide (is_Some (snapshots s !! name))
  then (Ok tt, set_snapshots (delete name) s)
  else (Err ErrNotFound, s).

(** ** route_protections.go *)

Section protections.
Context `{GoUnicode}.

Definition NormalizeHostname (hostname : string) : string :=
  TrimSuffix (ToLower (TrimSpace hostname)) ".".

Definition ProtectRouteHostname (hostname : string) : M Store unit :=
  modify (set_protections (λ ps, {[NormalizeHostname hostname]} ∪ ps)).

Definition UnprotectRouteHostname (hostname : string) : M Store unit :=
  modify (set_protections (λ ps, ps ∖ {[NormalizeHostname hostname]})).

Definition IsRouteHostnameProtected (hostname : string) : M Store bool :=
  gets (λ s, bool_decide (NormalizeHostname hostname ∈ route_protections s)).

Definition ListRouteProtections : M Store (list string) :=
  gets (λ s, merge_sort String.le (elements (route_protections s))).

End protections.

(** ** The invariant of the database *)

Record store_ok (s : Store) : Prop := {
  ok_uuid u vm : vms s !! u = Some vm → vm_UUID vm = u;
  ok_name u1 u2 v1 v2 :
    vms s !! u1 = Some v1 → vms s !! u2 = Some v2 → vm_Name v1 = vm_Name v2 → u1 = u2;
  ok_route n r :
    routes s !! n = Some r →
    is_Some (vms s !! rr_vm_uuid r) ∧ (1 ≤ rr_port r ≤ 65535)%Z ∧
    (rr_is_default r = 0 ∨ rr_is_default r = 1)%Z;
  ok_default n1 n2 r1 r2 :
    routes s !! n1 = Some r1 → routes s !! n2 = Some r2 →
    rr_is_default r1 = 1%Z → rr_is_default r2 = 1%Z →
    rr_vm_uuid r1 = rr_vm_uuid r2 → n1 = n2;
  ok_disjoint u vm n : vms s !! u = Some vm → is_Some (routes s !! n) → vm_Name vm ≠ n;
  ok_snapshot n sn : snapshots s !! n = Some sn → sn_Name sn = n;
  ok_stopped u vm : vms s !! u = Some vm → (vm_State vm = "stopped" ↔ vm_StoppedAt vm ≠ "");
}.

(** ** Reading rows *)

Lemma elem_of_vm_rows s vm : vm ∈ vm_rows s ↔ ∃ u, vms s !! u = Some vm.
Proof.
  unfold vm_rows. rewrite list_elem_of_fmap. split.
  - intros ([u v] & -> & Hin%elem_of_map_to_list). by exists u.
  - intros [u Hu]. exists (u, vm). split; [done|]. by apply elem_of_map_to_list.
Qed.

Section select.
Context (P : VM → Prop) `{∀ v, Decision (P v)}.

Lemma select_vm_Ok s vm : select_vm P s = Ok vm → P vm ∧ ∃ u, vms s !! u = Some vm.
Proof.
  unfold select_vm. destruct (filter P (vm_rows s)) as [|x l] eqn:E; [done|].
  intros [= ->]. assert (vm ∈ filter P (vm_rows s)) as Hin by (rewrite E; left).
  apply list_elem_of_filter in Hin as [? ?%elem_of_vm_rows]. done.
Qed.

Lemma select_vm_Err s e : select_vm P s = Err e → e = ErrNotFound ∧ ∀ u vm, vms s !! u = Some vm → ¬ P vm.
Proof.
  unfold select_vm. destruct (filter P (vm_rows s)) as [|x l] eqn:E; [|done].
  intros [= <-]. split; [done|]. intros u vm Hu HP.
  assert (vm ∈ filter P (vm_rows s)) as Hin.
  { apply list_elem_of_filter. split; [done|]. apply elem_of_vm_rows. by exists u. }
  rewrite E in Hin. by apply not_elem_of_nil in Hin.
Qed.

Lemma select_vm_unique s u vm :
  vms s !! u = Some vm → P vm →
  (∀ u' vm', vms s !! u' = Some vm' → P vm' → u' = u) →
  select_vm P s = Ok vm.
Proof.
  intros Hu HP Huniq. destruct (select_vm P s) as [v|e] eqn:E.
  - apply select_vm_Ok in E as [HPv [u' Hu']].
    pose proof (Huniq _ _ Hu' HPv) as ->. congruence.
  - apply select_vm_Err in E as [_ Hn]. by destruct (Hn u vm).
Qed.
End select.

Lemma vm_name_taken_false name s :
  vm_name_taken name s = false ↔ ∀ u vm, vms s !! u = Some vm → vm_Name vm ≠ name.
Proof.
  unfold vm_name_taken. destruct (select_vm _ s) as [v|e] eqn:E; simpl.
  - apply select_vm_Ok in E as [HP [u Hu]]. split; [done|]. intros Hn. by destruct (Hn u v).
  - apply select_vm_Err in E as [_ Hn]. split; [|done]. intros _ u vm Hu. by apply (Hn u).
Qed.

Lemma vm_name_taken_true name s :
  vm_name_taken name s = true ↔ ∃ u vm, vms s !! u = Some vm ∧ vm_Name vm = name.
Proof.
  unfold vm_name_taken. destruct (select_vm _ s) as [v|e] eqn:E; simpl.
  - apply select_vm_Ok in E as [HP [u Hu]]. split; [|done]. eauto.
  - apply select_vm_Err in E as [_ Hn]. split; [done|]. intros (u & vm & Hu & HP).
    by destruct (Hn u vm).
Qed.

Lemma GetVMByName_spec s name vm :
  store_ok s →
  (GetVMByName name s).1 = Ok vm ↔ vms s !! vm_UUID vm = Some vm ∧ vm_Name vm = name.
Proof.
  intros Hok. unfold GetVMByName. simpl. split.
  - intros [Hn [u Hu]]%select_vm_Ok. split; [|done]. by rewrite (ok_uuid s Hok u vm Hu).
  - intros [Hu Hn]. eapply select_vm_unique; [done..|].
    intros u' vm' Hu' Hn'. eapply (ok_name s Hok); [done..|congruence].
Qed.

(** ** Preservation *)

Lemma update_vm_ok f u s :
  (∀ v, vm_UUID (f v) = vm_UUID v) →
  (∀ v, vm_Name (f v) = vm_Name v) →
  (∀ v, (vm_State v = "stopped" ↔ vm_StoppedAt v ≠ "") →
        (vm_State (f v) = "stopped" ↔ vm_StoppedAt (f v) ≠ "")) →
  store_ok s → store_ok (update_vm u f s).2.
Proof.
  intros Hu Hn Hs Hok. unfold update_vm. destruct (vms s !! u) as [vm|] eqn:E; [|done].
  destruct Hok as [H1 H2 H3 H4 H5 H6 H7].
  assert (∀ k v, <[u:=f vm]> (vms s) !! k = Some v →
    ∃ w, vms s !! k = Some w ∧ vm_UUID v = vm_UUID w ∧ vm_Name v = vm_Name w ∧
      ((vm_State w = "stopped" ↔ vm_StoppedAt w ≠ "") →
       (vm_State v = "stopped" ↔ vm_StoppedAt v ≠ ""))) as Hback.
  { intros k v. rewrite lookup_insert_Some. intros [[<- <-]|[_ Hk]]; eauto 10. }
  split; simpl; try done.
  - intros k v (w & Hw & -> & _)%Hback. eauto.
  - intros k1 k2 v1 v2 (w1 & Hw1 & _ & -> & _)%Hback (w2 & Hw2 & _ & -> & _)%Hback. eauto.
  - intros n r Hr. destruct (H3 n r Hr) as [Hs' ?]. split; [|done].
    destruct (decide (u = rr_vm_uuid r)) as [->|?]; simplify_map_eq; eauto.
  - intros k v n (w & Hw & _ & -> & _)%Hback. eauto.
  - intros k v (w & Hw & _ & _ & Hst)%Hback. eauto.
Qed.

Lemma SetVMState_ok now u st s :
  now ≠ "" → store_ok s → store_ok (SetVMState now u st s).2.
Proof.
  intros Hnow. apply update_vm_ok; [done..|]. intros v _. simpl.
  case_bool_decide; by split.
Qed.

Lemma TouchVMActivity_ok now u s : store_ok s → store_ok (TouchVMActivity now u s).2.
Proof. by apply update_vm_ok. Qed.

Lemma SetVMArchivedDiskPath_ok u p s : store_ok s → store_ok (SetVMArchivedDiskPath u p s).2.
Proof. by apply update_vm_ok. Qed.

Lemma CreateVM_ok `{UuidLib} u now p s :
  now ≠ "" → store_ok s → store_ok (CreateVM u now p s).2.
Proof.
  intros Hnow Hok. unfold CreateVM. destruct (uuid_Parse_ok _); [done|].
  case_bool_decide as Hr; [done|]. case_bool_decide as Hu; simpl; [done|].
  destruct (vm_name_taken _ s) eqn:Hn; simpl; [done|].
  apply eq_None_not_Some in Hr, Hu. rewrite vm_name_taken_false in Hn.
  destruct Hok as [H1 H2 H3 H4 H5 H6 H7]. split; simpl; try done.
  - intros k v. rewrite lookup_insert_Some. intros [[<- <-]|[? Hk]]; [done|eauto].
  - intros k1 k2 v1 v2. rewrite !lookup_insert_Some.
    intros [[<- <-]|[? Hk1]] [[<- <-]|[? Hk2]] Heq; simpl in *; try done.
    + by destruct (Hn k2 v2).
    + by destruct (Hn k1 v1).
    + eauto.
  - intros n r Hnr. destruct (H3 n r Hnr) as [Hs' ?]. split; [|done].
    destruct (decide (u = rr_vm_uuid r)) as [->|?]; simplify_map_eq; eauto.
  - intros k v n. rewrite lookup_insert_Some. intros [[<- <-]|[? Hk]] Hrn; simpl.
    + intros <-. rewrite Hr in Hrn. by destruct Hrn.
    + eauto.
  - intros k v. rewrite lookup_insert_Some. intros [[<- <-]|[? Hk]]; [by split|eauto].
Qed.

Lemma filter_routes_ok (P : string * route_row → Prop) `{∀ x, Decision (P x)} s :
  store_ok s → store_ok (set_routes (filter P) s).
Proof.
  intros [H1 H2 H3 H4 H5 H6 H7].
  assert (∀ n r, filter P (routes s) !! n = Some r → routes s !! n = Some r) as Hf.
  { intros n r [? _]%map_lookup_filter_Some. done. }
  split; simpl; try done; eauto.
  intros u vm n Hu [r Hr%Hf]. eauto.
Qed.

Lemma DeleteVM_ok u s : store_ok s → store_ok (DeleteVM u s).2.
Proof.
  intros Hok. unfold DeleteVM. destruct (vms s !! u) as [vm|] eqn:E; [|done]. simpl.
  destruct Hok as [H1 H2 H3 H4 H5 H6 H7]. split; simpl.
  - intros k v [_ Hk]%lookup_delete_Some. eauto.
  - intros k1 k2 v1 v2 [_ ?]%lookup_delete_Some [_ ?]%lookup_delete_Some. eauto.
  - intros n r [Hr Hne]%map_lookup_filter_Some. simpl in Hne.
    destruct (H3 n r Hr) as [Hs ?]. split; [|done]. by rewrite lookup_delete_ne by congruence.
  - intros n1 n2 r1 r2 [? _]%map_lookup_filter_Some [? _]%map_lookup_filter_Some. eauto.
  - intros k v n [_ Hk]%lookup_delete_Some [r [Hr _]%map_lookup_filter_Some]. eauto.
  - done.
  - intros k v [_ Hk]%lookup_delete_Some. eauto.
Qed.

Lemma route_row_ok_spec name r s :
  route_row_ok name r s = true →
  routes s !! name = None ∧ is_Some (vms s !! rr_vm_uuid r) ∧ (1 ≤ rr_port r ≤ 65535)%Z ∧
  (rr_is_default r = 0 ∨ rr_is_default r = 1)%Z ∧
  (rr_is_default r = 1%Z → ∀ n' r', routes s !! n' = Some r' → rr_is_default r' = 1%Z →
   rr_vm_uuid r' ≠ rr_vm_uuid r).
Proof.
  unfold route_row_ok. rewrite !andb_true_iff, orb_true_iff, !bool_decide_eq_true.
  intros ((((?&?)&[??])&?)&Hd). repeat split; try done. intros Hone n' r' Hr'.
  destruct Hd as [Hd|Hd]; [done|]. by apply (Hd n' r').
Qed.

Lemma CreateRoute_ok p s : store_ok s → store_ok (CreateRoute p s).2.
Proof.
  intros Hok. unfold CreateRoute. destruct (vm_name_taken _ s) eqn:Hn; [done|].
  case_bool_decide as Hu; [done|].
  destruct (route_row_ok _ _ s) eqn:Hr; simpl; [|done].
  apply route_row_ok_spec in Hr as (Hfree & Hvm & Hport & Hdef & Huniq).
  rewrite vm_name_taken_false in Hn. destruct Hok as [H1 H2 H3 H4 H5 H6 H7].
  split; simpl; try done.
  - intros n r. rewrite lookup_insert_Some. intros [[<- <-]|[? Hk]]; [done|eauto].
  - intros n1 n2 r1 r2. rewrite !lookup_insert_Some.
    intros [[<- <-]|[? Hk1]] [[<- <-]|[? Hk2]] Hd1 Hd2 Heq; simpl in *; try done.
    + by destruct (Huniq Hd1 n2 r2 Hk2 Hd2).
    + by destruct (Huniq Hd2 n1 r1 Hk1 Hd1).
    + eauto.
  - intros u vm n Hvm' [r Hr]. rewrite lookup_insert_Some in Hr.
    destruct Hr as [[<- <-]|[? Hr]]; [eauto|]. eapply H5; eauto.
Qed.

Lemma DeleteRoute_ok name s : store_ok s → store_ok (DeleteRoute name s).2.
Proof.
  intros Hok. unfold DeleteRoute. case_bool_decide; [|done]. simpl.
  destruct Hok as [H1 H2 H3 H4 H5 H6 H7]. split; simpl; try done.
  - intros n r [_ ?]%lookup_delete_Some. eauto.
  - intros n1 n2 r1 r2 [_ ?]%lookup_delete_Some [_ ?]%lookup_delete_Some. eauto.
  - intros u vm n Hu [r [_ Hr]%lookup_delete_Some]. eauto.
Qed.

Lemma set_snapshots_ok f s :
  (∀ n sn, f (snapshots s) !! n = Some sn → sn_Name sn = n) →
  store_ok s → store_ok (set_snapshots f s).
Proof. intros Hf [H1 H2 H3 H4 H5 H6 H7]. by split. Qed.

Lemma set_protections_ok f s : store_ok s → store_ok (set_protections f s).
Proof. intros [H1 H2 H3 H4 H5 H6 H7]. by split. Qed.

Lemma CreateSnapshot_ok now p s : store_ok s → store_ok (CreateSnapshot now p s).2.
Proof.
  intros Hok. unfold CreateSnapshot. destruct (snapshots s !! _); [done|]. simpl.
  apply set_snapshots_ok; [|done]. intros n sn. rewrite lookup_insert_Some.
  intros [[<- <-]|[_ Hn]]; [done|]. by apply (ok_snapshot s Hok).
Qed.

Lemma DeleteSnapshot_ok name s : store_ok s → store_ok (DeleteSnapshot name s).2.
Proof.
  intros Hok. unfold DeleteSnapshot. case_bool_decide; [|done]. simpl.
  apply set_snapshots_ok; [|done]. intros n sn [_ Hn]%lookup_delete_Some.
  by apply (ok_snapshot s Hok).
Qed.

(** [UpdateVM] is a read, an update and a read. *)
Lemma UpdateVM_state u p s :
  (UpdateVM u p s).2 =
  match vms s !! u with
  | Some vm =>
      (update_vm u (with_settings (default (vm_DefaultHTTPPort vm) (u_DefaultHTTPPort p))
         (default (vm_IdleSleepAfterSeconds vm) (u_IdleSleepAfterSeconds p))
         (default (vm_AutoWake vm) (u_AutoWake p))
         (default (vm_PublicHTTP vm) (u_PublicHTTP p))) s).2
  | None => s
  end.
Proof.
  unfold UpdateVM, mbind, M_mbind, GetVM. simpl.
  destruct (vms s !! u) as [vm|] eqn:E; [|done]. unfold update_vm. by rewrite E.
Qed.

Lemma UpdateVM_ok u p s : store_ok s → store_ok (UpdateVM u p s).2.
Proof.
  intros Hok. rewrite UpdateVM_state. destruct (vms s !! u); [|done]. by apply update_vm_ok.
Qed.

(** ** Reachable databases

    The operations of the store as steps; every statement the program issues
    is one of them. *)
Inductive store_step `{UuidLib, Timestamps, GoUnicode} (s : Store) : Store → Prop :=
  | step_CreateVM u now p : store_step s (CreateVM u (strftime now) p s).2
  | step_SetVMState now u st : store_step s (SetVMState (strftime now) u st s).2
  | step_TouchVMActivity now u : store_step s (TouchVMActivity (strftime now) u s).2
  | step_UpdateVM u p : store_step s (UpdateVM u p s).2
  | step_SetVMArchivedDiskPath u p : store_step s (SetVMArchivedDiskPath u p s).2
  | step_DeleteVM u : store_step s (DeleteVM u s).2
  | step_CreateRoute p : store_step s (CreateRoute p s).2
  | step_DeleteRoute n : store_step s (DeleteRoute n s).2
  | step_DeleteRoutesForVM u : store_step s (DeleteRoutesForVM u s).2
  | step_CreateSnapshot now p : store_step s (CreateSnapshot (strftime now) p s).2
  | step_DeleteSnapshot n : store_step s (DeleteSnapshot n s).2
  | step_Protect h : store_step s (ProtectRouteHostname h s).2
  | step_Unprotect h : store_step s (UnprotectRouteHostname h s).2.

Create HintDb store.
#[export] Hint Resolve CreateVM_ok SetVMState_ok TouchVMActivity_ok UpdateVM_ok
  SetVMArchivedDiskPath_ok DeleteVM_ok CreateRoute_ok DeleteRoute_ok filter_routes_ok
  CreateSnapshot_ok DeleteSnapshot_ok set_protections_ok strftime_nonempty : store.

Lemma empty_store_ok : store_ok empty_store.
Proof. split; simpl; intros *; by rewrite ?lookup_empty. Qed.

Lemma store_step_ok `{UuidLib, TimestampLaws, GoUnicode} s s' :
  store_step s s' → store_ok s → store_ok s'.
Proof.
  intros [] ?; eauto with store; unfold DeleteRoutesForVM, ProtectRouteHostname,
    UnprotectRouteHostname, modify; simpl; auto with store.
Qed.

Lemma rtc_store_ok `{UuidLib, TimestampLaws, GoUnicode} s :
  rtc store_step empty_store s → store_ok s.
Proof.
  apply (rtc_ind_r store_ok); [apply empty_store_ok|]. intros s1 s2 _ Hstep.
  by apply store_step_ok.
Qed.

(** C9.  Every database the program can reach from the freshly migrated one
    satisfies the store's invariant: rows are keyed by their own UUID, VM names
    are unique, every route points at an existing VM with a port in range and
    at most one default route per VM, no route shares its name with a VM (the
    two live in the same public host name space), and [stopped_at] is set
    exactly on stopped VMs. *)
Theorem store_reachable_ok `{UuidLib, TimestampLaws, GoUnicode} s :
  rtc store_step empty_store s → store_ok s.
Proof. apply rtc_store_ok. Qed.

(** A small database: two VMs, a default route to the first. *)
Definition example_params (name ip : string) : CreateVMParams :=
  MkCreateVMParams name ip 2 512 2048 (10 * 2 ^ 30) 8080 0 "base" "kernel" "" true true true.

Definition example_store : Store :=
  let run {A} (m : M Store A) s := (m s).2 in
  let s1 := run (@CreateVM uuid_shape "u-1" "1000" (example_params "web" "fd00::3")) empty_store in
  let s2 := run (@CreateVM uuid_shape "u-2" "2000" (example_params "api" "fd00::5")) s1 in
  run (CreateRoute (MkCreateRouteParams "www" "u-1" 80 true)) s2.

Lemma example_store_reachable :
  rtc (@store_step uuid_shape decimal_stamps ascii_only) empty_store example_store.
Proof.
  eapply rtc_l; [apply (@step_CreateVM uuid_shape decimal_stamps ascii_only _ "u-1" 1000 (example_params "web" "fd00::3"))|].
  eapply rtc_l; [apply (@step_CreateVM uuid_shape decimal_stamps ascii_only _ "u-2" 2000 (example_params "api" "fd00::5"))|].
  eapply rtc_once. exact (@step_CreateRoute uuid_shape decimal_stamps ascii_only _
    (MkCreateRouteParams "www" "u-1" 80 true)).
Qed.

Lemma example_store_ok : store_ok example_store.
Proof.
  exact (@rtc_store_ok uuid_shape decimal_stamps decimal_stamps_laws ascii_only _
           example_store_reachable).
Qed.

Lemma store_reachable_ok_witness :
  rtc (@store_step uuid_shape decimal_stamps ascii_only) empty_store example_store ∧
  store_ok example_store.
Proof.
  split; [exact example_store_reachable|].
  apply (@store_reachable_ok uuid_shape decimal_stamps decimal_stamps_laws ascii_only).
  exact example_store_reachable.
Defined.

(** ** Functional behaviour *)

(** A created VM is read back as it was inserted, by UUID and by name, stopped
    since the moment of its creation; the other VMs are untouched. *)
Lemma CreateVM_Ok `{UuidLib} u now p s vm s' :
  store_ok s → now ≠ "" → CreateVM u now p s = (Ok vm, s') →
  vm = new_vm u now p ∧ vms s' = <[u := vm]> (vms s) ∧ vms s !! u = None ∧
  routes s' = routes s ∧ GetVMByName (p_Name p) s' = (Ok vm, s').
Proof.
  intros Hok Hnow Hc. pose proof (CreateVM_ok u now p s Hnow Hok) as Hok'.
  rewrite Hc in Hok'. simpl in Hok'. revert Hc. unfold CreateVM.
  destruct (uuid_Parse_ok _); [done|]. case_bool_decide; [done|].
  case_bool_decide as Hu; simpl; [done|].
  destruct (vm_name_taken _ s); [done|]. unfold GetVM. simpl. rewrite lookup_insert_eq.
  intros [= <- <-]. split_and!; try done; [by apply eq_None_not_Some|].
  unfold GetVMByName. f_equal.
  eapply select_vm_unique; [apply lookup_insert_eq|done|].
  intros u' vm' Hu' Hn'. eapply (ok_name _ Hok'); [exact Hu'|apply lookup_insert_eq|done].
Qed.

(** Deleting a VM removes its row and exactly its own routes. *)
Lemma DeleteVM_Ok u s s' :
  DeleteVM u s = (Ok tt, s') →
  vms s' = delete u (vms s) ∧
  (∀ n r, routes s' !! n = Some r ↔ routes s !! n = Some r ∧ rr_vm_uuid r ≠ u) ∧
  snapshots s' = snapshots s.
Proof.
  unfold DeleteVM. destruct (vms s !! u); [|done]. intros [= <-]. split_and!; [done| |done].
  intros n r. simpl. by rewrite map_lookup_filter_Some.
Qed.

(** ** Name patterns *)

(** What a glob means: [*] any text, [?] one character, anything else itself
    (up to ASCII case, which SQLite's LIKE folds). *)
Fixpoint glob_match (p : string) : string → bool :=
  match p with
  | "" => λ s, bool_decide (s = "")
  | String c p' =>
      if bool_decide (c = "*"%char) then
        (fix go (s : string) : bool :=
           glob_match p' s || match s with "" => false | String _ s' => go s' end)
      else if bool_decide (c = "?"%char) then
        λ s, match s with "" => false | String _ s' => glob_match p' s' end
      else
        λ s, match s with "" => false | String e s' => same_char c e && glob_match p' s' end
  end.

Lemma like_match_glob p s : like_match (GlobToLike p) s = glob_match p s.
Proof.
  revert s. induction p as [|c p IH]; intros s; [done|]. cbn [GlobToLike glob_match].
  destruct (bool_decide (c = "*"%char)) eqn:E1.
  { change ("%" +:+ GlobToLike p) with (String "%" (GlobToLike p)). cbn [like_match].
    rewrite bool_decide_eq_true_2 by done.
    induction s as [|e s IHs]; simpl; rewrite IH; [done|]. by rewrite IHs. }
  destruct (bool_decide (c = "?"%char)) eqn:E2.
  { change ("_" +:+ GlobToLike p) with (String "_" (GlobToLike p)). cbn [like_match].
    rewrite bool_decide_eq_false_2, bool_decide_eq_true_2 by done.
    destruct s as [|e s]; [done|]. apply IH. }
  apply bool_decide_eq_false in E1, E2.
  destruct (bool_decide (_ ∨ _)) eqn:E3.
  - change (String "\" (String c "") +:+ GlobToLike p)
      with (String "\" (String c (GlobToLike p))). cbn [like_match].
    rewrite !bool_decide_eq_false_2, bool_decide_eq_true_2 by done.
    destruct s as [|e s]; [done|]. by rewrite IH.
  - change (String c "" +:+ GlobToLike p) with (String c (GlobToLike p)). cbn [like_match].
    apply bool_decide_eq_false in E3.
    rewrite !bool_decide_eq_false_2 by tauto. destruct s as [|e s]; [done|]. by rewrite IH.
Qed.

(** [ListVMsMatching] returns exactly the VMs whose name one of the glob
    patterns matches (every VM when there is no pattern), each once, ordered by
    name: the escaping of [GlobToLike] makes SQLite's LIKE, with its own
    wildcards and case folding, decide glob matching. *)
Theorem ListVMsMatching_correct s ps :
  store_ok s →
  ∃ l, ListVMsMatching ps s = (Ok l, s) ∧ Sorted name_le l ∧ NoDup l ∧
    ∀ vm, vm ∈ l ↔
      (∃ u, vms s !! u = Some vm) ∧
      (ps = [] ∨ ∃ p, p ∈ ps ∧ glob_match p (vm_Name vm) = true).
Proof.
  intros Hok. unfold ListVMsMatching. eexists. split; [done|].
  split; [|split].
  - apply Sorted_merge_sort. intros a b. apply String.le_total.
  - rewrite merge_sort_Permutation. apply NoDup_filter. unfold vm_rows.
    apply NoDup_fmap_2_strong; [|apply NoDup_map_to_list].
    intros [u1 v1] [u2 v2] H1%elem_of_map_to_list H2%elem_of_map_to_list. simpl. intros <-.
    f_equal. by rewrite <-(ok_uuid s Hok u1 v1 H1), <-(ok_uuid s Hok u2 v1 H2).
  - intros vm. rewrite merge_sort_Permutation, list_elem_of_filter, elem_of_vm_rows.
    assert (∀ qs, existsb (λ p, like_match (GlobToLike p) (vm_Name vm)) qs = true ↔
              ∃ p, p ∈ qs ∧ glob_match p (vm_Name vm) = true) as Hex.
    { intros qs. rewrite existsb_exists.
      setoid_rewrite <-list_elem_of_In. by setoid_rewrite like_match_glob. }
    destruct ps as [|p ps]; [|rewrite Hex]; split.
    + intros [_ Hu]. split; [done|by left].
    + by intros [Hu _].
    + intros [Hp Hu]. split; [done|by right].
    + by intros [Hu [?|Hp]].
Qed.

Lemma ListVMsMatching_correct_witness :
  store_ok example_store ∧
  ∃ l, ListVMsMatching ["w*"] example_store = (Ok l, example_store) ∧ vm_Name <$> l = ["web"].
Proof.
  split; [exact example_store_ok|].
  destruct (ListVMsMatching_correct example_store ["w*"] example_store_ok) as (l & Hl & _).
  exists l. split; [exact Hl|]. vm_compute in Hl. by injection Hl as <-.
Defined.
