(* ===== verification/Crypto.v ===== *)
(** * SHA-256, HMAC and base64url

    The parts of Go's crypto/sha256, crypto/hmac, encoding/hex and
    encoding/base64 the program uses, executable on byte strings. *)

From S2P Require Import Prelude GoStrings IPNet.
Open Scope Z_scope.

Definition bytes_of (s : string) : list Z := ascii_code <$> String.list_ascii_of_string s.
Definition string_of_bytes (l : list Z) : string := String.string_of_list_ascii (byte_chr <$> l).

(** ** SHA-256 (FIPS 180-4) *)

Definition w32 (x : Z) : Z := Z.land x 0xffffffff.
Definition rotr (n x : Z) : Z := w32 (Z.lor (Z.shiftr x n) (Z.shiftl x (32 - n))).

(** The constants of the standard are the first 32 bits of the fractional parts
    of the cube roots of the first 64 primes, and of the square roots of the
    first eight. *)
Fixpoint cube_root (bits : nat) (x r : Z) : Z :=
  match bits with
  | O => r
  | S n => let c := r + 2 ^ Z.of_nat n in cube_root n x (if c * c * c <=? x then c else r)
  end.

Definition is_prime (n : nat) : bool :=
  (2 <=? n)%nat && forallb (λ d, negb (n mod d =? 0)%nat) (seq 2 (n - 2)).
Definition primes : list Z :=
  Eval vm_compute in Z.of_nat <$> List.filter is_prime (seq 0 312).

Definition sha_k : list Z :=
  Eval vm_compute in (λ p, cube_root 35 (p * 2 ^ 96) 0 mod 2 ^ 32) <$> primes.
Definition sha_init : list Z :=
  Eval vm_compute in (λ p, Z.sqrt (p * 2 ^ 64) mod 2 ^ 32) <$> take 8 primes.

Fixpoint big_endian (n : nat) (x : Z) : list Z :=
  match n with
  | O => []
  | S n' => Z.shiftr x (8 * Z.of_nat n') mod 256 :: big_endian n' x
  end.

Fixpoint words_of (l : list Z) : list Z :=
  match l with
  | a :: b :: c :: d :: l' => a * 2 ^ 24 + b * 2 ^ 16 + c * 2 ^ 8 + d :: words_of l'
  | _ => []
  end.

Definition sha_pad (l : list Z) : list Z :=
  let n := Z.of_nat (length l) in
  l ++ [0x80] ++ replicate (Z.to_nat ((55 - n) mod 64)) 0 ++ big_endian 8 (n * 8).

(** The message schedule, most recent word first. *)
Definition sha_next (rw : list Z) : list Z :=
  match rw !! 1%nat, rw !! 6%nat, rw !! 14%nat, rw !! 15%nat with
  | Some w2, Some w7, Some w15, Some w16 =>
      let s0 := Z.lxor (Z.lxor (rotr 7 w15) (rotr 18 w15)) (Z.shiftr w15 3) in
      let s1 := Z.lxor (Z.lxor (rotr 17 w2) (rotr 19 w2)) (Z.shiftr w2 10) in
      w32 (w16 + s0 + w7 + s1) :: rw
  | _, _, _, _ => rw
  end.

Definition sha_round (h : list Z) (kw : Z * Z) : list Z :=
  match h with
  | [a; b; c; d; e; f; g; hh] =>
      let s1 := Z.lxor (Z.lxor (rotr 6 e) (rotr 11 e)) (rotr 25 e) in
      let ch := Z.lxor (Z.land e f) (Z.land (Z.lxor e 0xffffffff) g) in
      let t1 := w32 (hh + s1 + ch + kw.1 + kw.2) in
      let s0 := Z.lxor (Z.lxor (rotr 2 a) (rotr 13 a)) (rotr 22 a) in
      let maj := Z.lxor (Z.lxor (Z.land a b) (Z.land a c)) (Z.land b c) in
      let t2 := w32 (s0 + maj) in
      [w32 (t1 + t2); a; b; c; w32 (d + t1); e; f; g]
  | _ => h
  end.

Definition sha_block (h : list Z) (block : list Z) : list Z :=
  let sched := reverse (Nat.iter 48 sha_next (reverse block)) in
  let h' := fold_left sha_round (zip sha_k sched) h in
  zip_with (λ x y, w32 (x + y)) h h'.

Fixpoint sha_blocks (fuel : nat) (h : list Z) (ws : list Z) : list Z :=
  match fuel, ws with
  | S fuel', _ :: _ => sha_blocks fuel' (sha_block h (take 16 ws)) (drop 16 ws)
  | _, _ => h
  end.

Definition sha256 (l : list Z) : list Z :=
  let ws := words_of (sha_pad l) in
  mjoin (big_endian 4 <$> sha_blocks (length ws) sha_init ws).

(** [sha256.Sum256]. *)
Definition Sum256 (s : string) : string := string_of_bytes (sha256 (bytes_of s)).

(** ** HMAC-SHA256 *)

Definition hmac_key (key : list Z) : list Z :=
  let k := if bool_decide (64 < length key)%nat then sha256 key else key in
  k ++ replicate (64 - length k) 0.

Definition hmac_sha256 (key message : list Z) : list Z :=
  let k := hmac_key key in
  sha256 ((Z.lxor 0x5c <$> k) ++ sha256 ((Z.lxor 0x36 <$> k) ++ message)).

(** ** hex.EncodeToString *)

Definition hex2 (b : Z) : string := String (hex_digit (b / 16)) (String (hex_digit (b mod 16)) "").
Definition hex_encode (s : string) : string := Join (hex2 <$> bytes_of s) "".

Example sha256_abc :
  hex_encode (Sum256 "abc") = "ba7816bf8f01cfea414140de5dae2223b00361a396177a9cb410ff61f20015ad".
Proof. by vm_compute. Qed.

Example sha256_empty :
  hex_encode (Sum256 "") = "e3b0c44298fc1c149afbf4c8996fb92427ae41e4649b934ca495991b7852b855".
Proof. by vm_compute. Qed.

(** RFC 4231, test case 2. *)
Example hmac_jefe :
  hex_encode (string_of_bytes (hmac_sha256 (bytes_of "Jefe") (bytes_of "what do ya want for nothing?")))
  = "5bdcc146bf60754e6a042426089575c75a003f089d2739839dec58b964ec3843".
Proof. by vm_compute. Qed.

(** ** base64.RawURLEncoding *)

Definition b64_char (v : Z) : ascii :=
  if bool_decide (v < 26) then byte_chr (65 + v)
  else if bool_decide (v < 52) then byte_chr (97 + (v - 26))
  else if bool_decide (v < 62) then byte_chr (48 + (v - 52))
  else if bool_decide (v = 62) then "-"%char else "_"%char.

Definition b64_value (c : ascii) : option Z :=
  let z := ascii_code c in
  if bool_decide (65 ≤ z ≤ 90) then Some (z - 65)
  else if bool_decide (97 ≤ z ≤ 122) then Some (z - 97 + 26)
  else if bool_decide (48 ≤ z ≤ 57) then Some (z - 48 + 52)
  else if bool_decide (c = "-"%char) then Some 62
  else if bool_decide (c = "_"%char) then Some 63
  else None.

Fixpoint b64_Encode (s : string) : string :=
  match s with
  | String a (String b (String c rest)) =>
      let n := ascii_code a * 2 ^ 16 + ascii_code b * 2 ^ 8 + ascii_code c in
      String (b64_char (n / 2 ^ 18)) (String (b64_char (n / 2 ^ 12 mod 64))
        (String (b64_char (n / 2 ^ 6 mod 64)) (String (b64_char (n mod 64)) (b64_Encode rest))))
  | String a (String b "") =>
      let n := ascii_code a * 2 ^ 16 + ascii_code b * 2 ^ 8 in
      String (b64_char (n / 2 ^ 18)) (String (b64_char (n / 2 ^ 12 mod 64))
        (String (b64_char (n / 2 ^ 6 mod 64)) ""))
  | String a "" =>
      let n := ascii_code a * 2 ^ 16 in
      String (b64_char (n / 2 ^ 18)) (String (b64_char (n / 2 ^ 12 mod 64)) "")
  | "" => ""
  end.

(** Carriage returns and line feeds are skipped by Go's decoder. *)
Fixpoint strip_newlines (s : string) : string :=
  match s with
  | "" => ""
  | String c s' =>
      if bool_decide (c = ascii_of_nat 10 ∨ c = ascii_of_nat 13) then strip_newlines s'
      else String c (strip_newlines s')
  end.

(** Not strict: the unused low bits of a final group are ignored. *)
Fixpoint b64_groups (s : string) : option string :=
  match s with
  | "" => Some ""
  | String a (String b (String c (String d rest))) =>
      v1 ← b64_value a; v2 ← b64_value b; v3 ← b64_value c; v4 ← b64_value d;
      let n := v1 * 2 ^ 18 + v2 * 2 ^ 12 + v3 * 2 ^ 6 + v4 in
      t ← b64_groups rest;
      Some (String (byte_chr (n / 2 ^ 16)) (String (byte_chr (n / 2 ^ 8 mod 256))
             (String (byte_chr (n mod 256)) t)))
  | String a (String b (String c "")) =>
      v1 ← b64_value a; v2 ← b64_value b; v3 ← b64_value c;
      let n := v1 * 2 ^ 18 + v2 * 2 ^ 12 + v3 * 2 ^ 6 in
      Some (String (byte_chr (n / 2 ^ 16)) (String (byte_chr (n / 2 ^ 8 mod 256)) ""))
  | String a (String b "") =>
      v1 ← b64_value a; v2 ← b64_value b;
      let n := v1 * 2 ^ 18 + v2 * 2 ^ 12 in
      Some (String (byte_chr (n / 2 ^ 16)) "")
  | String _ "" => None
  end.

Definition b64_Decode (s : string) : option string := b64_groups (strip_newlines s).

Lemma b64_value_char v : 0 ≤ v < 64 → b64_value (b64_char v) = Some v.
Proof.
  intros Hv.
  assert (forallb (λ z, bool_decide (b64_value (b64_char z) = Some z)) (seqZ 0 64) = true) as Hall
    by by vm_compute.
  rewrite forallb_forall in Hall. eapply bool_decide_eq_true_1, Hall.
  apply list_elem_of_In, elem_of_seqZ. lia.
Qed.

(** The characters of an encoding: none of them is skipped or is a dot. *)
Definition b64_ok (c : ascii) : bool := bool_decide (is_Some (b64_value c)).

Lemma b64_char_ok v : 0 ≤ v < 64 → b64_ok (b64_char v) = true.
Proof. intros Hv. apply bool_decide_eq_true_2. rewrite b64_value_char; eauto. Qed.

Lemma strip_newlines_ok s : str_forall b64_ok s = true → strip_newlines s = s.
Proof.
  induction s as [|c s IH]; simpl; [done|]. intros [Hc Hs]%andb_true_iff.
  rewrite bool_decide_eq_false_2; [by rewrite IH|]. intros [->| ->]; done.
Qed.

Lemma b64_pieces n : 0 ≤ n < 2 ^ 24 →
  0 ≤ n / 2 ^ 18 < 64 ∧ 0 ≤ n / 2 ^ 12 mod 64 < 64 ∧ 0 ≤ n / 2 ^ 6 mod 64 < 64 ∧ 0 ≤ n mod 64 < 64 ∧
  n / 2 ^ 18 * 2 ^ 18 + n / 2 ^ 12 mod 64 * 2 ^ 12 + n / 2 ^ 6 mod 64 * 2 ^ 6 + n mod 64 = n.
Proof.
  intros Hn. pose proof (Z.div_mod n 64). pose proof (Z.div_mod (n / 2 ^ 6) 64).
  pose proof (Z.div_mod (n / 2 ^ 12) 64).
  rewrite (Z.div_div n (2 ^ 6) 64) in * by lia. rewrite (Z.div_div n (2 ^ 12) 64) in * by lia.
  change (2 ^ 6 * 64) with (2 ^ 12) in *. change (2 ^ 12 * 64) with (2 ^ 18) in *.
  change (2 ^ 6) with 64 in *.
  pose proof (Z.mod_pos_bound n 64). pose proof (Z.mod_pos_bound (n / 64) 64).
  pose proof (Z.mod_pos_bound (n / 2 ^ 12) 64).
  assert (0 ≤ n / 2 ^ 18 < 64) by (split; [apply Z.div_pos|apply Z.div_lt_upper_bound]; lia).
  split_and!; lia.
Qed.

Lemma string_ind3 (P : string → Prop) :
  P "" → (∀ a, P (String a "")) → (∀ a b, P (String a (String b ""))) →
  (∀ a b c s, P s → P (String a (String b (String c s)))) → ∀ s, P s.
Proof.
  intros H0 H1 H2 H3.
  fix IH 1. intros [|a [|b [|c s]]]; [exact H0|apply H1|apply H2|]. apply H3, IH.
Qed.

(** The three bytes of a 24-bit group. *)
Lemma b64_bytes a b c :
  let n := ascii_code a * 2 ^ 16 + ascii_code b * 2 ^ 8 + ascii_code c in
  0 ≤ n < 2 ^ 24 ∧ byte_chr (n / 2 ^ 16) = a ∧ byte_chr (n / 2 ^ 8 mod 256) = b ∧
  byte_chr (n mod 256) = c.
Proof.
  cbv zeta. pose proof (ascii_code_bound a). pose proof (ascii_code_bound b).
  pose proof (ascii_code_bound c).
  set (x := ascii_code a) in *. set (y := ascii_code b) in *. set (z := ascii_code c) in *.
  set (n := x * 2 ^ 16 + y * 2 ^ 8 + z).
  assert (n / 2 ^ 16 = x) as -> by (symmetry; apply (Z.div_unique _ _ _ (y * 2 ^ 8 + z)); lia).
  assert (n / 2 ^ 8 = x * 2 ^ 8 + y) as -> by (symmetry; apply (Z.div_unique _ _ _ z); lia).
  assert (n mod 256 = z) as -> by (symmetry; apply (Z.mod_unique _ _ (x * 2 ^ 8 + y)); lia).
  assert ((x * 2 ^ 8 + y) mod 256 = y) as -> by (symmetry; apply (Z.mod_unique _ _ x); lia).
  unfold x, y, z. rewrite !byte_chr_code. split_and!; try done; lia.
Qed.

(** The last, short groups: their low bits are zero. *)
Lemma b64_low n k : 0 ≤ n < 2 ^ 24 → (k = 6 ∨ k = 12) → (2 ^ k | n) →
  n / 2 ^ 18 * 2 ^ 18 + n / 2 ^ 12 mod 64 * 2 ^ 12 +
    (if bool_decide (k = 6) then n / 2 ^ 6 mod 64 * 2 ^ 6 else 0) = n.
Proof.
  intros Hn Hk [q Hq]. destruct (b64_pieces n Hn) as (_ & _ & H3 & H4 & Hsum).
  assert (n mod 64 = 0) as Hm.
  { destruct Hk as [-> | ->].
    - rewrite Hq. apply Z_mod_mult.
    - rewrite Hq. replace (q * 2 ^ 12) with (q * 64 * 64) by lia. apply Z_mod_mult. }
  case_bool_decide as Hk6; [lia|]. destruct Hk as [->| ->]; [done|].
  assert (n / 2 ^ 6 mod 64 = 0); [|lia].
  rewrite Hq. replace (q * 2 ^ 12) with (q * 64 * 2 ^ 6) by lia.
  rewrite Z.div_mul by lia. apply Z_mod_mult.
Qed.

Lemma b64_Encode_ok s : str_forall b64_ok (b64_Encode s) = true.
Proof.
  induction s as [|a|a b|a b c s IH] using string_ind3; [done|..]; cbn [b64_Encode str_forall].
  - pose proof (b64_bytes a (ascii_of_nat 0) (ascii_of_nat 0)) as [Hn _].
    destruct (b64_pieces _ Hn) as (? & ? & ? & ? & _). simpl in *.
    rewrite Z.add_0_r, Z.add_0_r in *. by rewrite !b64_char_ok.
  - pose proof (b64_bytes a b (ascii_of_nat 0)) as [Hn _].
    destruct (b64_pieces _ Hn) as (? & ? & ? & ? & _). simpl in *.
    rewrite Z.add_0_r in *. by rewrite !b64_char_ok.
  - destruct (b64_bytes a b c) as [Hn _]. destruct (b64_pieces _ Hn) as (? & ? & ? & ? & _).
    by rewrite !b64_char_ok, IH.
Qed.

Lemma b64_groups_Encode s : b64_groups (b64_Encode s) = Some s.
Proof.
  induction s as [|a|a b|a b c s IH] using string_ind3; [done|..]; cbn [b64_Encode b64_groups].
  - destruct (b64_bytes a (ascii_of_nat 0) (ascii_of_nat 0)) as (Hn & Ha & _).
    change (ascii_code (ascii_of_nat 0)) with 0 in *. rewrite Z.mul_0_l, !Z.add_0_r in *.
    destruct (b64_pieces _ Hn) as (? & ? & ? & ? & _). rewrite !b64_value_char by done.
    cbn [mbind option_bind].
    pose proof (b64_low _ 12 Hn (or_intror eq_refl)) as Hl. rewrite bool_decide_eq_false_2 in Hl by lia.
    rewrite Z.add_0_r in Hl. rewrite Hl, Ha; [done|]. exists (ascii_code a * 16). lia.
  - destruct (b64_bytes a b (ascii_of_nat 0)) as (Hn & Ha & Hb & _).
    change (ascii_code (ascii_of_nat 0)) with 0 in *. rewrite Z.add_0_r in *.
    destruct (b64_pieces _ Hn) as (? & ? & ? & ? & _). rewrite !b64_value_char by done.
    cbn [mbind option_bind].
    pose proof (b64_low _ 6 Hn (or_introl eq_refl)) as Hl. rewrite bool_decide_eq_true_2 in Hl by done.
    rewrite Hl, Ha, Hb; [done|]. exists (ascii_code a * 2 ^ 10 + ascii_code b * 4). lia.
  - destruct (b64_bytes a b c) as (Hn & Ha & Hb & Hc).
    destruct (b64_pieces _ Hn) as (? & ? & ? & ? & Hsum). rewrite !b64_value_char by done.
    cbn [mbind option_bind]. rewrite Hsum, IH. cbn [mbind option_bind]. by rewrite Ha, Hb, Hc.
Qed.

Lemma b64_Decode_Encode s : b64_Decode (b64_Encode s) = Some s.
Proof.
  unfold b64_Decode. rewrite strip_newlines_ok by apply b64_Encode_ok. apply b64_groups_Encode.
Qed.

Lemma b64_Encode_no_dot s : str_mem "." (b64_Encode s) = false.
Proof. apply (str_mem_forall b64_ok); [done|]. apply b64_Encode_ok. Qed.

(** ** Digest sizes *)

Lemma length_big_endian n x : length (big_endian n x) = n.
Proof. induction n; simpl; auto. Qed.

Lemma length_sha_round h kw : length h = 8%nat → length (sha_round h kw) = 8%nat.
Proof. by destruct h as [|? [|? [|? [|? [|? [|? [|? [|? [|]]]]]]]]]. Qed.

Lemma length_sha_block h b : length h = 8%nat → length (sha_block h b) = 8%nat.
Proof.
  intros Hh. unfold sha_block. rewrite length_zip_with.
  assert (∀ l h, length h = 8%nat → length (fold_left sha_round l h) = 8%nat) as Hf.
  { clear. induction l as [|kw l IH]; intros h Hh; simpl; [done|]. by apply IH, length_sha_round. }
  rewrite Hf by done. lia.
Qed.

Lemma length_sha256 l : length (sha256 l) = 32%nat.
Proof.
  unfold sha256.
  assert (∀ fuel h ws, length h = 8%nat → length (sha_blocks fuel h ws) = 8%nat) as Hb.
  { induction fuel as [|fuel IH]; intros h ws Hh; simpl; [done|]. destruct ws; [done|].
    by apply IH, length_sha_block. }
  specialize (Hb (length (words_of (sha_pad l))) sha_init (words_of (sha_pad l)) eq_refl).
  destruct (sha_blocks _ _ _) as [|? [|? [|? [|? [|? [|? [|? [|? [|]]]]]]]]]; try done.
Qed.
