(* ===== verification/RouteAuth.v ===== *)
(** * Route authentication tokens (internal/routeauth/auth.go)

    The manager's key, the file it is handed over in across a restart, and the
    signed tokens [<host>.<expiry>.<hmac>] with base64url parts.  Time is in
    nanoseconds since the epoch; an expiry is in whole seconds, as in the
    token. *)

From S2P Require Import Prelude GoStrings Crypto.
Open Scope Z_scope.

Definition CookieName : string := "firedoze_route_auth".
Definition KeySize : nat := 32.
Definition AuthPath : string := "/_firedoze/auth".

(** [Manager]: [key] in memory, and the contents of the file at [keyPath]. *)
Record Auth := MkAuth { key : string; keyFile : option string }.

Definition set_key (k : string) (a : Auth) : Auth := MkAuth k (keyFile a).
Definition set_keyFile (f : option string) (a : Auth) : Auth := MkAuth (key a) f.

(** What the operating system does for one call: [os_Read] and [os_Write] fail
    with the given error, [rand_Read] fills the buffer. *)
Record Sys := MkSys {
  os_Read : option error;
  os_Write : option error;
  rand_Read : result string;
}.

Definition RuntimeKeyPath (RUNTIME_DIRECTORY : string) : string :=
  let runtimeDir := if bool_decide (RUNTIME_DIRECTORY = "") then "/run/firedoze" else RUNTIME_DIRECTORY in
  let runtimeDir := match Cut runtimeDir ":" with Some (first, _) => first | None => runtimeDir end in
  path_Join [runtimeDir; "route_auth.key"].

Definition KeyPath (stateDir : string) : string := path_Join [stateDir; "route_auth.key"].

(** (key, loaded from the file?) *)
Definition loadOrGenerateKey (sys : Sys) : M Auth (string * bool) := λ a,
  match os_Read sys, keyFile a with
  | Some e, _ => (Err e, a)
  | None, Some k =>
      if bool_decide (String.length k ≠ KeySize) then (Err (ErrOther "route auth key size"), a)
      else (Ok (k, true), a)
  | None, None =>
      match rand_Read sys with
      | Ok k => (Ok (k, false), a)
      | Err e => (Err e, a)
      end
  end.

Definition Load (sys : Sys) : M Auth unit :=
  '(k, loaded) ← loadOrGenerateKey sys;
  modify (set_key k) ;;
  if loaded : bool then
    match os_Write sys with
    | Some e => fail e
    | None => modify (set_keyFile None)
    end
  else mret tt.

Definition Save (sys : Sys) : M Auth unit :=
  k ← gets key;
  if bool_decide (String.length k ≠ KeySize) then fail (ErrOther "route auth key size")
  else match os_Write sys with
       | Some e => fail e
       | None => modify (set_keyFile (Some k))
       end.

Definition keyBytes (sys : Sys) : M Auth string :=
  k ← gets key;
  if bool_decide (String.length k = KeySize) then mret k
  else
    '(k, _) ← loadOrGenerateKey sys;
    modify (set_key k) ;;
    mret k.

Definition encodePart (value : string) : string := b64_Encode value.
Definition decodePart (value : string) : option string := b64_Decode value.

Definition mac (k message : string) : string :=
  string_of_bytes (hmac_sha256 (bytes_of k) (bytes_of message)).

Definition sign (k message : string) : string := b64_Encode (mac k message).

Definition validSignature (k message encodedSignature : string) : bool :=
  match b64_Decode encodedSignature with
  | None => false
  | Some got => bool_decide (got = mac k message)
  end.

(** [expires] in seconds: [expires.Unix()]. *)
Definition Token (sys : Sys) (host : string) (expires : Z) : M Auth string :=
  k ← keyBytes sys;
  let message := encodePart host +:+ "." +:+ encodePart (FormatInt expires) in
  mret (message +:+ "." +:+ sign k message).

Definition second : Z := 1000000000.

(** [time.Unix(sec, 0)], in nanoseconds since 1970: a [time.Time] counts 64-bit
    seconds from the year 1, and the sum wraps around. *)
Definition unixToInternal : Z := 62135596800.
Definition time_Unix (sec : Z) : Z := (wrap64 (sec + unixToInternal) - unixToInternal) * second.

Lemma time_Unix_exact sec : int_min 64 ≤ sec ≤ int_max 64 - unixToInternal → time_Unix sec = sec * second.
Proof. unfold int_min, int_max, unixToInternal, time_Unix. intros Hs. rewrite wrap64_id by (unfold unixToInternal; lia). lia. Qed.

(** [now] in nanoseconds; the expiry of an accepted token, as [Unix()] gives it. *)
Definition Validate (sys : Sys) (now : Z) (token host : string) : M Auth (option Z) :=
  k ← attempt (keyBytes sys);
  match k with
  | Err _ => mret None
  | Ok k =>
      mret match Split token "." with
           | [p0; p1; p2] =>
               match decodePart p0 with
               | None => None
               | Some tokenHost =>
                   if negb (bool_decide (tokenHost = host)) then None else
                   expiryText ← decodePart p1;
                   expiryUnix ← ParseInt expiryText;
                   if bool_decide (time_Unix expiryUnix < now) then None
                   else if negb (validSignature k (p0 +:+ "." +:+ p1) p2) then None
                   else Some expiryUnix
               end
           | _ => None
           end
  end.

(** [cookie]: the value of the request's route-auth cookie, if it has one. *)
Definition Approved (sys : Sys) (now : Z) (cookie : option string) (host : string) : M Auth bool :=
  match cookie with
  | None => mret false
  | Some value => e ← Validate sys now value host; mret (bool_decide (is_Some e))
  end.

Record Cookie := MkCookie {
  ck_Name : string;
  ck_Value : string;
  ck_Path : string;
  ck_Expires : Z;
  ck_MaxAge : Z;
  ck_Secure : bool;
  ck_HttpOnly : bool;
  ck_SameSiteLax : bool;
}.

(** [now] and [expires] in nanoseconds; [expires.Unix()] rounds down. *)
Definition SetCookie (sys : Sys) (now : Z) (host : string) (expires : Z) : M Auth Cookie :=
  token ← Token sys host (expires / second);
  let maxAge := Z.quot (time_Sub expires now) second in
  let maxAge := if bool_decide (maxAge < 0) then 0 else maxAge in
  mret (MkCookie CookieName token "/" expires maxAge true true true).

(** [url.QueryEscape] on the bytes it keeps, and their percent encoding. *)
Definition query_safe (c : ascii) : bool :=
  let z := ascii_code c in
  bool_decide (48 ≤ z ≤ 57) || bool_decide (65 ≤ z ≤ 90) || bool_decide (97 ≤ z ≤ 122) ||
  bool_decide (c = "-"%char ∨ c = "_"%char ∨ c = "."%char ∨ c = "~"%char).

Definition upper_hex (d : Z) : ascii :=
  if bool_decide (d < 10) then byte_chr (48 + d) else byte_chr (55 + d).

Fixpoint QueryEscape (s : string) : string :=
  match s with
  | "" => ""
  | String c s' =>
      (if query_safe c then String c ""
       else if bool_decide (c = " "%char) then "+"
       else String "%" (String (upper_hex (ascii_code c / 16)) (String (upper_hex (ascii_code c mod 16)) "")))
      +:+ QueryEscape s'
  end.

(** [ttl] in nanoseconds.  Hosts that reach here are normalised host names, which
    [url.URL.String] leaves as they are. *)
Definition SignedURL (sys : Sys) (now : Z) (host : string) (ttl : Z) : M Auth string :=
  if bool_decide (ttl ≤ 0) then fail (ErrOther "ttl must be positive")
  else
    token ← Token sys host ((now + ttl) / second);
    mret ("https://" +:+ host +:+ AuthPath +:+ "?token=" +:+ QueryEscape token).

(** ** Tokens *)

Definition token_of (k host : string) (expires : Z) : string :=
  let message := encodePart host +:+ "." +:+ encodePart (FormatInt expires) in
  message +:+ "." +:+ sign k message.

Lemma keyBytes_have sys a :
  String.length (key a) = KeySize → keyBytes sys a = (Ok (key a), a).
Proof. intros Hk. unfold keyBytes, mbind, M_mbind. simpl. by rewrite bool_decide_eq_true_2. Qed.

Lemma Token_Ok sys host expires a tok a' :
  Token sys host expires a = (Ok tok, a') →
  ∃ k, keyBytes sys a = (Ok k, a') ∧ tok = token_of k host expires.
Proof.
  intros E. unfold Token in E. apply bind_Ok in E as (k & a1 & E1 & E). injection E as <- <-.
  by exists k.
Qed.

Lemma token_split k host expires :
  Split (token_of k host expires) "." =
  [encodePart host; encodePart (FormatInt expires);
   sign k (encodePart host +:+ "." +:+ encodePart (FormatInt expires))].
Proof.
  unfold token_of. cbv zeta. rewrite !str_app_assoc.
  assert (∀ t, "." +:+ t = String "." t) as Hdot by done. rewrite !Hdot.
  rewrite Split_app_sep by apply b64_Encode_no_dot.
  rewrite Split_app_sep by apply b64_Encode_no_dot.
  rewrite Split_none by apply b64_Encode_no_dot. done.
Qed.

Lemma validSignature_sign k message : validSignature k message (sign k message) = true.
Proof.
  unfold validSignature, sign. rewrite b64_Decode_Encode. by rewrite bool_decide_eq_true_2.
Qed.

(** What [Validate] accepts under the key [k]. *)
Definition accepts (k : string) (now : Z) (token host : string) (expires : Z) : Prop :=
  ∃ p0 p1 p2 text, Split token "." = [p0; p1; p2] ∧
    b64_Decode p0 = Some host ∧ b64_Decode p1 = Some text ∧ ParseInt text = Some expires ∧
    now ≤ time_Unix expires ∧ b64_Decode p2 = Some (mac k (p0 +:+ "." +:+ p1)).

Lemma Validate_spec sys now token host a k a' :
  keyBytes sys a = (Ok k, a') →
  ∃ r, Validate sys now token host a = (Ok r, a') ∧
       ∀ expires, r = Some expires ↔ accepts k now token host expires.
Proof.
  intros Hk. unfold Validate, mbind at 1, M_mbind at 1, attempt. rewrite Hk.
  eexists. split; [done|]. intros expires. unfold accepts, decodePart.
  destruct (Split token ".") as [|p0 [|p1 [|p2 [|]]]]; try naive_solver.
  destruct (b64_Decode p0) as [th|] eqn:H0; [|naive_solver].
  case_bool_decide as Hh; simpl; [subst th|naive_solver].
  destruct (b64_Decode p1) as [text|] eqn:H1; simpl; [|naive_solver].
  destruct (ParseInt text) as [eu|] eqn:H2; simpl; [|naive_solver].
  case_bool_decide as Hn.
  { split; [done|]. intros (? & ? & ? & ? & [= <- <- <-] & ? & ? & ? & ? & ?). simplify_eq. lia. }
  unfold validSignature. destruct (b64_Decode p2) as [got|] eqn:H3; simpl; [|naive_solver].
  case_bool_decide as Hg; simpl; [|naive_solver].
  split.
  - intros [= <-]. exists p0, p1, p2, text. split_and!; try done; [lia|congruence].
  - intros (? & ? & ? & ? & [= <- <- <-] & ? & ? & ? & _). congruence.
Qed.

(** The random source fills the buffer it is given. *)
Definition rand_full (sys : Sys) : Prop :=
  ∀ k, rand_Read sys = Ok k → String.length k = KeySize.

Lemma keyBytes_Ok sys a k a' :
  rand_full sys → keyBytes sys a = (Ok k, a') → key a' = k ∧ String.length k = KeySize.
Proof.
  intros Hr E. unfold keyBytes in E. apply bind_Ok in E as (k0 & a0 & E0 & E). injection E0 as <- <-.
  case_bool_decide as Hk; [by injection E as <- <-|].
  apply bind_Ok in E as ([k1 b] & a1 & E1 & E). injection E as <- <-. simpl. split; [done|].
  unfold loadOrGenerateKey in E1.
  destruct (os_Read sys); [done|]. destruct (keyFile a) as [kf|].
  - case_bool_decide as Hl; [done|]. by injection E1 as <- _ _.
  - destruct (rand_Read sys) as [kr|] eqn:Hkr; [|done]. injection E1 as <- _ _. by apply Hr.
Qed.

Lemma mac_accepts k host expires now host' :
  int_min 64 ≤ expires ≤ int_max 64 →
  ∀ e, accepts k now (token_of k host expires) host' e ↔
       e = expires ∧ host' = host ∧ now ≤ time_Unix expires.
Proof.
  intros Hr e. unfold accepts. rewrite token_split. split.
  - intros (p0 & p1 & p2 & text & [= <- <- <-] & H0 & H1 & H2 & H3 & _).
    unfold encodePart in H0, H1. rewrite b64_Decode_Encode in H0, H1. simplify_eq.
    rewrite ParseInt_FormatInt in H2 by done. by simplify_eq.
  - intros (-> & -> & Hn). eexists _, _, _, (FormatInt expires). split; [done|].
    unfold encodePart, sign. rewrite !b64_Decode_Encode. rewrite ParseInt_FormatInt by done. done.
Qed.

(** A token the manager issues is accepted later, with its expiry, for the
    host it was issued for and until that expiry, and for no other host and at
    no later time ([time_Unix]). *)
Theorem Token_Validate sys host expires a tok a' sys' now host' :
  rand_full sys → int_min 64 ≤ expires ≤ int_max 64 →
  Token sys host expires a = (Ok tok, a') →
  Validate sys' now tok host' a' =
  (Ok (if bool_decide (host' = host ∧ now ≤ time_Unix expires) then Some expires else None), a').
Proof.
  intros Hr He E. destruct (Token_Ok _ _ _ _ _ _ E) as (k & Hk & ->).
  destruct (keyBytes_Ok _ _ _ _ Hr Hk) as [<- Hlen].
  destruct (Validate_spec sys' now (token_of (key a') host expires) host' a' (key a') a')
    as (r & -> & Hacc); [by apply keyBytes_have|].
  f_equal. f_equal. case_bool_decide as Hc.
  - apply Hacc, mac_accepts; naive_solver.
  - destruct r as [e|]; [|done]. exfalso. apply Hc.
    destruct (proj1 (mac_accepts _ _ _ _ _ He e) (proj1 (Hacc e) eq_refl)) as (_ & ? & ?). done.
Qed.

Definition test_key : string := "0123456789abcdef0123456789abcdef".
Definition quiet : Sys := MkSys None None (Ok test_key).

Lemma Token_Validate_witness :
  let a := MkAuth test_key None in
  ∃ tok, Token quiet "web.dev.example.com" 1700000000 a = (Ok tok, a) ∧
    Validate quiet 1699999999000000000 tok "web.dev.example.com" a = (Ok (Some 1700000000), a) ∧
    Validate quiet 1700000000000000001 tok "web.dev.example.com" a = (Ok None, a).
Proof.
  intros a. assert (∃ tok, Token quiet "web.dev.example.com" 1700000000 a = (Ok tok, a)) as [tok Htok]
    by (eexists; reflexivity).
  exists tok. split; [exact Htok|]. split.
  - apply (Token_Validate quiet "web.dev.example.com" 1700000000 a tok a quiet
             1699999999000000000 "web.dev.example.com"); [by intros k [= <-]| |exact Htok].
    vm_compute. split; discriminate.
  - apply (Token_Validate quiet "web.dev.example.com" 1700000000 a tok a quiet
             1700000000000000001 "web.dev.example.com"); [by intros k [= <-]| |exact Htok].
    vm_compute. split; discriminate.
Defined.

(** C8.  [Validate] accepts a token exactly when it has three parts, the first
    decodes to the host, the second to the decimal text of a 64-bit number of
    seconds whose instant has not passed, and the third to the HMAC-SHA256 of
    the first two under the manager's key; so without a valid MAC nothing is
    accepted.  The instant is Go's [time.Unix], which wraps around for seconds
    within 62135596800 of 2^63 and is exact below ([time_Unix_exact]). *)
Theorem Validate_iff sys now token host a k a' expires :
  keyBytes sys a = (Ok k, a') →
  Validate sys now token host a = (Ok (Some expires), a') ↔
  ∃ p0 p1 p2 text, Split token "." = [p0; p1; p2] ∧
    b64_Decode p0 = Some host ∧ b64_Decode p1 = Some text ∧ ParseInt text = Some expires ∧
    now ≤ time_Unix expires ∧ b64_Decode p2 = Some (mac k (p0 +:+ "." +:+ p1)).
Proof.
  intros Hk. destruct (Validate_spec sys now token host a k a' Hk) as (r & Hv & Hacc).
  rewrite Hv. change (∃ p0, _) with (accepts k now token host expires). rewrite <-Hacc.
  split; [by intros [= ->]|by intros ->].
Qed.

Lemma Validate_iff_witness :
  let a := MkAuth test_key None in
  keyBytes quiet a = (Ok test_key, a) ∧
  Validate quiet 0 "YQ.MQ.AAAA" "a" a ≠ (Ok (Some 1), a).
Proof.
  intros a. assert (keyBytes quiet a = (Ok test_key, a)) as Hk by reflexivity.
  split; [exact Hk|]. intros Hv.
  apply (Validate_iff quiet 0 "YQ.MQ.AAAA" "a" a test_key a 1 Hk) in Hv
    as (p0 & p1 & p2 & text & Hs & _ & _ & _ & _ & Hm).
  vm_compute in Hs. injection Hs as <- <- <-. vm_compute in Hm. discriminate Hm.
Defined.

(** Across a planned restart the key survives exactly once: [Save] in the
    old process and [Load] in the new one (which starts without a key) give
    the same key and remove the file, so every token issued before is judged
    the same after. *)
Theorem Save_Load sys sys' a :
  String.length (key a) = KeySize → os_Write sys = None →
  os_Read sys' = None → os_Write sys' = None →
  ∃ a1, Save sys a = (Ok tt, a1) ∧
    Load sys' (MkAuth "" (keyFile a1)) = (Ok tt, MkAuth (key a) None) ∧
    ∀ s1 s2 now tok host,
      (Validate s1 now tok host (MkAuth (key a) None)).1 = (Validate s2 now tok host a).1.
Proof.
  intros Hk Hw Hr Hw'. unfold Save, mbind at 1, M_mbind at 1, gets.
  rewrite bool_decide_eq_false_2 by (by intros ?). rewrite Hw. eexists. split; [done|]. split.
  - simpl. unfold Load, loadOrGenerateKey, mbind, M_mbind. rewrite Hr. simpl.
    rewrite bool_decide_eq_false_2 by (by intros ?). simpl. by rewrite Hw'.
  - intros s1 s2 now tok host.
    destruct (Validate_spec s1 now tok host (MkAuth (key a) None) (key a) (MkAuth (key a) None))
      as (r1 & -> & H1); [exact (keyBytes_have s1 (MkAuth (key a) None) Hk)|].
    destruct (Validate_spec s2 now tok host a (key a) a) as (r2 & -> & H2); [by apply keyBytes_have|].
    simpl. f_equal. destruct r1 as [e|].
    + symmetry. by apply H2, H1.
    + destruct r2 as [e|]; [|done]. by apply H1, H2.
Qed.

Lemma Save_Load_witness :
  let a := MkAuth test_key None in
  String.length (key a) = KeySize ∧
  ∃ a1, Save quiet a = (Ok tt, a1) ∧
        Load quiet (MkAuth "" (keyFile a1)) = (Ok tt, MkAuth test_key None).
Proof.
  intros a. split; [reflexivity|].
  destruct (Save_Load quiet quiet a eq_refl eq_refl eq_refl eq_refl) as (a1 & Hs & Hl & _).
  exists a1. split; [exact Hs|exact Hl].
Defined.

(** ** Signed URLs *)

Lemma query_safe_b64 c : b64_ok c = true → query_safe c = true.
Proof.
  unfold b64_ok, b64_value, query_safe. rewrite bool_decide_eq_true. intros [v Hv].
  repeat case_bool_decide; simpl; try done; naive_solver.
Qed.

Lemma QueryEscape_safe s : str_forall query_safe s = true → QueryEscape s = s.
Proof.
  induction s as [|c s IH]; simpl; [done|]. intros [Hc Hs]%andb_true_iff. rewrite Hc.
  rewrite IH by done. done.
Qed.

Lemma token_query_safe k host expires : str_forall query_safe (token_of k host expires) = true.
Proof.
  assert (∀ s, str_forall query_safe (b64_Encode s) = true) as He.
  { intros s. eapply str_forall_impl; [apply query_safe_b64|apply b64_Encode_ok]. }
  unfold token_of, encodePart, sign. by rewrite !str_forall_app, !He.
Qed.
