(* ===== verification/Json.v ===== *)
(** * JSON text (Go's encoding/json)

    Values as the program builds them, [json.Marshal] and [json.MarshalIndent].
    Strings are escaped as Go escapes them, for text that is valid UTF-8. *)

From S2P Require Import Prelude GoStrings IPNet.
Open Scope Z_scope.

Inductive json :=
  | JNull
  | JBool (b : bool)
  | JInt (z : Z)
  | JString (s : string)
  | JArray (l : list json)
  | JObject (fields : list (string * json)).

Definition quote_char : ascii := ascii_of_nat 34.

Definition escape_char (c : ascii) : string :=
  let z := ascii_code c in
  if bool_decide (c = quote_char ∨ c = "\"%char) then String "\" (String c "")
  else if bool_decide (z = 8) then "\b"
  else if bool_decide (z = 12) then "\f"
  else if bool_decide (z = 10) then "\n"
  else if bool_decide (z = 13) then "\r"
  else if bool_decide (z = 9) then "\t"
  else if bool_decide (z < 32) || bool_decide (c = "<"%char ∨ c = ">"%char ∨ c = "&"%char)
  then "\u00" +:+ String (hex_digit (z / 16)) (String (hex_digit (z mod 16)) "")
  else String c "".

Fixpoint escape (s : string) : string :=
  match s with
  | "" => ""
  | String c s' => escape_char c +:+ escape s'
  end.

Definition quote (s : string) : string :=
  String quote_char (escape s +:+ String quote_char "").

(** [json.Marshal]: no white space. *)
Fixpoint Marshal (v : json) : string :=
  match v with
  | JNull => "null"
  | JBool true => "true"
  | JBool false => "false"
  | JInt z => FormatInt z
  | JString s => quote s
  | JArray l => "[" +:+ Join (Marshal <$> l) "," +:+ "]"
  | JObject fs => "{" +:+ Join ((λ f, quote f.1 +:+ ":" +:+ Marshal f.2) <$> fs) "," +:+ "}"
  end.

Fixpoint str_repeat (n : nat) (s : string) : string :=
  match n with O => "" | S n' => s +:+ str_repeat n' s end.

Definition newline : string := String (ascii_of_nat 10) "".

(** [json.MarshalIndent(v, "", "  ")] at nesting depth [d]. *)
Fixpoint marshal_indent (d : nat) (v : json) : string :=
  let pad := newline +:+ str_repeat (S d) "  " in
  let close := newline +:+ str_repeat d "  " in
  match v with
  | JArray [] => "[]"
  | JObject [] => "{}"
  | JArray l => "[" +:+ pad +:+ Join (marshal_indent (S d) <$> l) ("," +:+ pad) +:+ close +:+ "]"
  | JObject fs =>
      "{" +:+ pad +:+
      Join ((λ f, quote f.1 +:+ ": " +:+ marshal_indent (S d) f.2) <$> fs) ("," +:+ pad) +:+
      close +:+ "}"
  | v => Marshal v
  end.

Definition MarshalIndent (v : json) : string := marshal_indent 0 v.

(** A struct field with [omitempty]: left out when it is the zero value. *)
Definition omitempty (key : string) (v : json) : list (string * json) :=
  match v with
  | JNull | JBool false | JString "" | JArray [] | JObject [] => []
  | JInt z => if bool_decide (z = 0) then [] else [(key, v)]
  | _ => [(key, v)]
  end.
