(* ===== verification/JsonDecode.v ===== *)
(** * Reading JSON text (Go's encoding/json)

    [json.Unmarshal] and [json.Decoder.Decode] as the program uses them: the
    scanner and the string literals of the package, a reference grammar of
    JSON text, and the theorem that the reader gives back every value whose
    text follows the grammar; what [json.Marshal] and [json.MarshalIndent]
    print follows it. *)

From Stdlib Require Import DecimalString DecimalFacts DecimalPos.
From S2P Require Import Prelude GoStrings Paths IPNet Json.
Open Scope Z_scope.

(** ** Values

    A number is kept as its literal: the package converts it only when it is
    stored in a Go variable. *)
Inductive value :=
  | VNull
  | VBool (b : bool)
  | VNumber (lit : string)
  | VString (s : string)
  | VArray (l : list value)
  | VObject (fields : list (string * value)).

(** ** Literals *)

Definition is_blank (c : ascii) : bool :=
  bool_decide (ascii_code c = 32 ∨ ascii_code c = 9 ∨ ascii_code c = 10 ∨ ascii_code c = 13).

Fixpoint skip_blank (s : string) : string :=
  match s with
  | String c s' => if is_blank c then skip_blank s' else s
  | "" => ""
  end.

(** The text of a string literal up to its closing quote, and what follows. *)
Fixpoint scan_string (s : string) : option (string * string) :=
  match s with
  | "" => None
  | String c s' =>
      if bool_decide (c = quote_char) then Some ("", s') else
      if bool_decide (ascii_code c < 32) then None else
      if bool_decide (c = "\"%char) then
        match s' with
        | "" => None
        | String d s'' => '(raw, rest) ← scan_string s''; Some (String c (String d raw), rest)
        end
      else '(raw, rest) ← scan_string s'; Some (String c raw, rest)
  end.

(** [utf8.EncodeRune]. *)
Definition EncodeRune (r : Z) : string :=
  let r := if bool_decide (r < 0 ∨ 1114111 < r ∨ 55296 ≤ r ≤ 57343) then 65533 else r in
  let cont k := byte_chr (128 + r / 2 ^ (6 * k) mod 64) in
  if bool_decide (r < 128) then String (byte_chr r) ""
  else if bool_decide (r < 2048) then String (byte_chr (192 + r / 64)) (String (cont 0) "")
  else if bool_decide (r < 65536) then
    String (byte_chr (224 + r / 4096)) (String (cont 1) (String (cont 0) ""))
  else String (byte_chr (240 + r / 262144)) (String (cont 2) (String (cont 1) (String (cont 0) ""))).

(** The bytes of the rune at the head of [s], 0 when they are not UTF-8. *)
Definition rune_len (s : string) : nat :=
  let cont lo hi t := match t with String c _ => in_range lo hi c | "" => false end in
  match s with
  | "" => 0%nat
  | String c s1 =>
      let z := ascii_code c in
      let lo := if bool_decide (z = 224) then 160 else if bool_decide (z = 240) then 144 else 128 in
      let hi := if bool_decide (z = 237) then 159 else if bool_decide (z = 244) then 143 else 191 in
      if bool_decide (z < 128) then 1%nat
      else if negb (cont lo hi s1) then 0%nat
      else if bool_decide (194 ≤ z ≤ 223) then 2%nat
      else if negb (cont 128 191 (str_drop 1 s1)) then 0%nat
      else if bool_decide (224 ≤ z ≤ 239) then 3%nat
      else if negb (cont 128 191 (str_drop 2 s1)) then 0%nat
      else if bool_decide (240 ≤ z ≤ 244) then 4%nat else 0%nat
  end.

(** [getu4] of the text after [\u]. *)
Definition hex4 (s : string) : option (Z * string) :=
  match s with
  | String a (String b (String c (String d s'))) =>
      a ← hex_value a; b ← hex_value b; c ← hex_value c; d ← hex_value d;
      Some (((a * 16 + b) * 16 + c) * 16 + d, s')
  | _ => None
  end.

(** A unit of a [\u] escape with what follows: the second half of a pair of
    surrogates is taken with the first; a lone one is U+FFFD. *)
Definition unescape_unit (u : Z) (rest : string) : string * string :=
  if bool_decide (55296 ≤ u ≤ 57343) then
    match rest with
    | String b (String l rest') =>
        match (if bool_decide (b = "\"%char ∧ l = "u"%char) then hex4 rest' else None) with
        | Some (v, rest'') =>
            if bool_decide (u ≤ 56319 ∧ 56320 ≤ v ≤ 57343)
            then (EncodeRune ((u - 55296) * 1024 + (v - 56320) + 65536), rest'')
            else (EncodeRune 65533, rest)
        | None => (EncodeRune 65533, rest)
        end
    | _ => (EncodeRune 65533, rest)
    end
  else (EncodeRune u, rest).

Definition simple_escape (c : ascii) : option ascii :=
  if bool_decide (c = quote_char ∨ c = "\"%char ∨ c = "/"%char) then Some c
  else if bool_decide (c = "b"%char) then Some (byte_chr 8)
  else if bool_decide (c = "f"%char) then Some (byte_chr 12)
  else if bool_decide (c = "n"%char) then Some (byte_chr 10)
  else if bool_decide (c = "r"%char) then Some (byte_chr 13)
  else if bool_decide (c = "t"%char) then Some (byte_chr 9)
  else None.

(** [unquote] of the text between the quotes. *)
Fixpoint unquote_go (n : nat) (s : string) : option string :=
  match n with
  | O => None
  | S n =>
      match s with
      | "" => Some ""
      | String c s' =>
          if bool_decide (c = "\"%char) then
            match s' with
            | "" => None
            | String e s'' =>
                if bool_decide (e = "u"%char) then
                  '(u, rest) ← hex4 s'';
                  let '(text, rest) := unescape_unit u rest in
                  t ← unquote_go n rest; Some (text +:+ t)
                else
                  x ← simple_escape e; t ← unquote_go n s''; Some (String x t)
            end
          else
            match rune_len s with
            | O => t ← unquote_go n s'; Some (EncodeRune 65533 +:+ t)
            | k => t ← unquote_go n (str_drop k s); Some (str_take k s +:+ t)
            end
      end
  end.
Definition unquote (s : string) : option string := unquote_go (S (String.length s)) s.

(** A string after its opening quote. *)
Definition parse_string (s : string) : option (string * string) :=
  '(raw, rest) ← scan_string s; t ← unquote raw; Some (t, rest).

Fixpoint take_digits (s : string) : string * string :=
  match s with
  | String c s' => if is_digit c then let '(d, r) := take_digits s' in (String c d, r) else ("", s)
  | "" => ("", "")
  end.

(** At least one digit. *)
Definition some_digits (s : string) : option (string * string) :=
  match take_digits s with ("", _) => None | dr => Some dr end.

Definition scan_int (s : string) : option (string * string) :=
  match s with
  | String c s' => if bool_decide (c = "0"%char) then Some ("0", s') else some_digits s
  | "" => None
  end.

Definition scan_frac (s : string) : option (string * string) :=
  match s with
  | String c s' =>
      if bool_decide (c = "."%char) then '(d, r) ← some_digits s'; Some (String c d, r) else Some ("", s)
  | "" => Some ("", "")
  end.

Definition scan_exp (s : string) : option (string * string) :=
  match s with
  | String c s' =>
      if bool_decide (c = "e"%char ∨ c = "E"%char) then
        match s' with
        | String g s'' =>
            if bool_decide (g = "+"%char ∨ g = "-"%char)
            then '(d, r) ← some_digits s''; Some (String c (String g d), r)
            else '(d, r) ← some_digits s'; Some (String c d, r)
        | "" => None
        end
      else Some ("", s)
  | "" => Some ("", "")
  end.

Definition scan_number (s : string) : option (string * string) :=
  let '(sign, s) := match s with
                    | String c s' => if bool_decide (c = "-"%char) then (String c "", s') else ("", s)
                    | "" => ("", "")
                    end in
  '(i, s) ← scan_int s; '(f, s) ← scan_frac s; '(e, s) ← scan_exp s;
  Some (sign +:+ i +:+ f +:+ e, s).

Definition scan_literal (s : string) : option (value * string) :=
  if HasPrefix s "null" then Some (VNull, str_drop 4 s)
  else if HasPrefix s "true" then Some (VBool true, str_drop 4 s)
  else if HasPrefix s "false" then Some (VBool false, str_drop 5 s)
  else '(lit, rest) ← scan_number s; Some (VNumber lit, rest).

(** The text after the character [c] and the blanks before it. *)
Definition expect (c : ascii) (s : string) : option string :=
  match skip_blank s with
  | String d s' => if bool_decide (d = c) then Some s' else None
  | "" => None
  end.

(** ** The reader

    [d] is the nesting depth, of which the scanner allows 10000. *)
Definition maxNestingDepth : Z := 10000.

Fixpoint parse_value (n : nat) (d : Z) (s : string) : option (value * string) :=
  match n with
  | O => None
  | S n =>
      match skip_blank s with
      | "" => None
      | String c s' =>
          if bool_decide (c = quote_char) then '(t, r) ← parse_string s'; Some (VString t, r) else
          if bool_decide (c = "["%char ∨ c = "{"%char) && bool_decide (maxNestingDepth ≤ d) then None else
          if bool_decide (c = "["%char) then
            match expect "]" s' with
            | Some r => Some (VArray [], r)
            | None => '(l, r) ← parse_elements n (d + 1) s'; Some (VArray l, r)
            end else
          if bool_decide (c = "{"%char) then
            match expect "}" s' with
            | Some r => Some (VObject [], r)
            | None => '(l, r) ← parse_members n (d + 1) s'; Some (VObject l, r)
            end else
          scan_literal (String c s')
      end
  end
with parse_elements (n : nat) (d : Z) (s : string) : option (list value * string) :=
  match n with
  | O => None
  | S n =>
      '(v, r) ← parse_value n d s;
      match expect "," r with
      | Some r' => '(l, r'') ← parse_elements n d r'; Some (v :: l, r'')
      | None => r' ← expect "]" r; Some ([v], r')
      end
  end
with parse_members (n : nat) (d : Z) (s : string) : option (list (string * value) * string) :=
  match n with
  | O => None
  | S n =>
      s' ← expect quote_char s;
      '(k, r) ← parse_string s';
      r ← expect ":" r;
      '(v, r) ← parse_value n d r;
      match expect "," r with
      | Some r' => '(l, r'') ← parse_members n d r'; Some ((k, v) :: l, r'')
      | None => r' ← expect "}" r; Some ([(k, v)], r')
      end
  end.

(** Two steps per byte are enough: [parse_fuel] below. *)
Definition fuel_for (s : string) : nat := 2 * String.length s + 2.

(** The first value of a stream, whatever follows it. *)
Definition Decode (s : string) : option value := fst <$> parse_value (fuel_for s) 0 s.

(** The one value of a text. *)
Definition Unmarshal (s : string) : option value :=
  '(v, r) ← parse_value (fuel_for s) 0 s;
  if bool_decide (skip_blank r = "") then Some v else None.

(** ** The grammar *)

Definition blank (w : string) : Prop := str_forall is_blank w = true.

(** [text_of d v t]: at depth [d], [t] is a text of [v]; the strings and the
    numbers are those the program writes. *)
Inductive text_of : Z → value → string → Prop :=
  | text_null d : text_of d VNull "null"
  | text_true d : text_of d (VBool true) "true"
  | text_false d : text_of d (VBool false) "false"
  | text_int d z : text_of d (VNumber (FormatInt z)) (FormatInt z)
  | text_decimal d z ds : ds ≠ "" → str_forall is_digit ds = true →
      text_of d (VNumber (FormatInt z +:+ "." +:+ ds)) (FormatInt z +:+ "." +:+ ds)
  | text_string d s : is_ascii s = true → text_of d (VString s) (quote s)
  | text_array_nil d w : d < maxNestingDepth → blank w → text_of d (VArray []) ("[" +:+ w +:+ "]")
  | text_array d l t : d < maxNestingDepth → elements_of (d + 1) l t → text_of d (VArray l) ("[" +:+ t)
  | text_object_nil d w : d < maxNestingDepth → blank w → text_of d (VObject []) ("{" +:+ w +:+ "}")
  | text_object d l t : d < maxNestingDepth → members_of (d + 1) l t → text_of d (VObject l) ("{" +:+ t)
with elements_of : Z → list value → string → Prop :=
  | elements_last d v w t w' : blank w → text_of d v t → blank w' →
      elements_of d [v] (w +:+ t +:+ w' +:+ "]")
  | elements_more d v w t w' l t' : blank w → text_of d v t → blank w' → elements_of d l t' →
      elements_of d (v :: l) (w +:+ t +:+ w' +:+ "," +:+ t')
with members_of : Z → list (string * value) → string → Prop :=
  | members_last d k v w w1 w2 t w' : blank w → is_ascii k = true → blank w1 → blank w2 → text_of d v t → blank w' →
      members_of d [(k, v)] (w +:+ quote k +:+ w1 +:+ ":" +:+ w2 +:+ t +:+ w' +:+ "}")
  | members_more d k v w w1 w2 t w' l t' :
      blank w → is_ascii k = true → blank w1 → blank w2 → text_of d v t → blank w' → members_of d l t' →
      members_of d ((k, v) :: l) (w +:+ quote k +:+ w1 +:+ ":" +:+ w2 +:+ t +:+ w' +:+ "," +:+ t').

Scheme text_of_mut := Induction for text_of Sort Prop
  with elements_of_mut := Induction for elements_of Sort Prop
  with members_of_mut := Induction for members_of Sort Prop.
Combined Scheme text_mutind from text_of_mut, elements_of_mut, members_of_mut.

(** ** String literals *)

(** How a character is written: with a short escape, with its code, or as it is. *)
Inductive escape_view (c : ascii) : string → Prop :=
  | view_short e : simple_escape e = Some c → e ≠ "u"%char → escape_view c (String "\" (String e ""))
  | view_code : escape_view c (String "\" (String "u" (String "0" (String "0"
      (String (hex_digit (ascii_code c / 16)) (String (hex_digit (ascii_code c mod 16)) ""))))))
  | view_plain : c ≠ "\"%char → c ≠ quote_char → 32 ≤ ascii_code c → escape_view c (String c "").

Lemma escape_char_view c : escape_view c (escape_char c).
Proof.
  assert (∀ z, ascii_code c = z → c = byte_chr z) as Hc by (intros z <-; by rewrite byte_chr_code).
  unfold escape_char. case_bool_decide as Hq.
  { apply view_short; [unfold simple_escape; rewrite bool_decide_eq_true_2; [done|naive_solver]|].
    by intros ->; destruct Hq. }
  do 5 (let Hz := fresh in case_bool_decide as Hz; [apply Hc in Hz as ->; by apply view_short|]).
  destruct (bool_decide (ascii_code c < 32)) eqn:Hs; [apply view_code|]. apply bool_decide_eq_false in Hs.
  destruct (bool_decide (_ ∨ _)); [apply view_code|]. apply view_plain; [naive_solver..|lia].
Qed.

Lemma hex_digit_plain d : 0 ≤ d < 16 → hex_digit d ≠ "\"%char ∧ hex_digit d ≠ quote_char ∧ 32 ≤ ascii_code (hex_digit d).
Proof.
  intros Hd. pose proof (hex_digit_code d Hd) as Hc.
  assert (ascii_code "\"%char = 92 ∧ ascii_code quote_char = 34) as [E1 E2] by done.
  split_and!; [intros E; rewrite E, E1 in Hc|intros E; rewrite E, E2 in Hc|]; case_bool_decide; lia.
Qed.

Lemma code_halves c : 0 ≤ ascii_code c / 16 < 16 ∧ 0 ≤ ascii_code c mod 16 < 16.
Proof. pose proof (ascii_code_bound c). split; [split; [apply Z.div_pos; lia|apply Z.div_lt_upper_bound; lia]|apply Z.mod_pos_bound; lia]. Qed.

Lemma scan_plain c x : c ≠ "\"%char ∧ c ≠ quote_char ∧ 32 ≤ ascii_code c →
  scan_string (String c x) = '(raw, rest) ← scan_string x; Some (String c raw, rest).
Proof. intros (? & ? & ?). cbn [scan_string]. by rewrite !bool_decide_eq_false_2 by (done || lia). Qed.

Lemma scan_escaped e x :
  scan_string (String "\" (String e x)) = '(raw, rest) ← scan_string x; Some (String "\" (String e raw), rest).
Proof. done. Qed.

Lemma scan_escape_char c x :
  scan_string (escape_char c +:+ x) = '(raw, rest) ← scan_string x; Some (escape_char c +:+ raw, rest).
Proof.
  destruct (escape_char_view c) as [e _ _| |]; [apply scan_escaped| |by apply scan_plain].
  destruct (code_halves c) as [H1 H2]. rewrite !str_app_cons, !str_app_nil_l.
  rewrite scan_escaped, !scan_plain by (by apply hex_digit_plain) || (by split_and!; vm_compute).
  destruct (scan_string x) as [[]|]; [|done]. cbn [mbind option_bind]. by rewrite !str_app_cons, !str_app_nil_l.
Qed.

Lemma scan_escape s rest : scan_string (escape s +:+ String quote_char rest) = Some (escape s, rest).
Proof.
  induction s as [|c s IH]; [done|]. cbn [escape]. by rewrite str_app_assoc, scan_escape_char, IH.
Qed.

Lemma unescape_ascii z x : 0 ≤ z ≤ 127 → unescape_unit z x = (String (byte_chr z) "", x).
Proof.
  intros Hz. unfold unescape_unit, EncodeRune.
  rewrite (bool_decide_eq_false_2 (55296 ≤ z ≤ 57343)), (bool_decide_eq_false_2 (z < 0 ∨ _)) by lia.
  cbv zeta. by rewrite bool_decide_eq_true_2 by lia.
Qed.

Lemma unquote_escape_char n c x :
  is_ascii_char c = true → unquote_go (S n) (escape_char c +:+ x) = t ← unquote_go n x; Some (String c t).
Proof.
  intros [Ha Ha']%in_range_true. destruct (escape_char_view c) as [e He Hu| |].
  - rewrite !str_app_cons. cbn [unquote_go]. rewrite bool_decide_eq_true_2, bool_decide_eq_false_2, He by done. done.
  - destruct (code_halves c) as [H1 H2]. rewrite !str_app_cons, !str_app_nil_l. cbn [unquote_go].
    rewrite !bool_decide_eq_true_2 by done. cbn [hex4]. rewrite !hex_value_digit by done. cbn [mbind option_bind hex_value].
    assert (((0 * 16 + 0) * 16 + ascii_code c / 16) * 16 + ascii_code c mod 16 = ascii_code c) as E.
    { rewrite (Z.div_mod (ascii_code c) 16) at 3 by done. lia. }
    change (hex_value "0") with (Some 0). cbn [mbind option_bind]. rewrite E.
    by rewrite unescape_ascii, byte_chr_code.
  - rewrite str_app_cons, str_app_nil_l. cbn [unquote_go]. rewrite bool_decide_eq_false_2 by done.
    unfold rune_len. by rewrite bool_decide_eq_true_2 by lia.
Qed.

Lemma escape_char_length c : (1 ≤ String.length (escape_char c))%nat.
Proof. destruct (escape_char_view c); cbn; lia. Qed.

Lemma unquote_escape s : is_ascii s = true → unquote (escape s) = Some s.
Proof.
  intros Hs. unfold unquote.
  assert (∀ n, (String.length (escape s) < n)%nat → unquote_go n (escape s) = Some s) as H; [|apply H; lia].
  induction s as [|c s IH]; intros [|n] Hn; try lia; [done|]. cbn [escape].
  cbn [is_ascii str_forall] in Hs. apply andb_true_iff in Hs as [Hc Hs]. rewrite unquote_escape_char by done.
  rewrite IH; [done|done|]. cbn [escape] in Hn. rewrite str_length_app in Hn. pose proof (escape_char_length c). lia.
Qed.

Lemma parse_string_escape s rest :
  is_ascii s = true → parse_string (escape s +:+ String quote_char rest) = Some (s, rest).
Proof. intros Hs. unfold parse_string. rewrite scan_escape. cbn [mbind option_bind]. by rewrite unquote_escape. Qed.

(** ** Numbers *)

(** What may follow a number. *)
Definition stops (s : string) : Prop :=
  match s with
  | "" => True
  | String c _ => is_digit c = false ∧ c ≠ "."%char ∧ c ≠ "e"%char ∧ c ≠ "E"%char
  end.

(** The digits end here. *)
Definition no_digit (rest : string) : Prop := match rest with "" => True | String c _ => is_digit c = false end.
Lemma stops_no_digit rest : stops rest → no_digit rest.
Proof. destruct rest; [done|]. by intros []. Qed.

Lemma take_digits_app ds rest :
  str_forall is_digit ds = true → no_digit rest → take_digits (ds +:+ rest) = (ds, rest).
Proof.
  intros Hd Hr. induction ds as [|c ds IH]; cbn [str_forall] in Hd.
  - rewrite str_app_nil_l. destruct rest as [|c rest]; [done|]. cbn [take_digits]. by rewrite Hr.
  - apply andb_true_iff in Hd as [Hc Hd]. rewrite str_app_cons. cbn [take_digits]. by rewrite Hc, IH.
Qed.

Lemma scan_frac_stops rest : stops rest → scan_frac rest = Some ("", rest).
Proof. destruct rest as [|c rest]; [done|]. intros (_ & ? & _). cbn. by rewrite bool_decide_eq_false_2. Qed.
Lemma scan_exp_stops rest : stops rest → scan_exp rest = Some ("", rest).
Proof.
  destruct rest as [|c rest]; [done|]. intros (_ & _ & ? & ?). cbn. rewrite bool_decide_eq_false_2; [done|].
  by intros [|].
Qed.

(** The digits of a positive number do not start with a zero. *)
Lemma pos_digits p : ∃ c ds, NilZero.string_of_uint (Pos.to_uint p) = String c ds ∧ is_digit c = true ∧
  c ≠ "0"%char ∧ str_forall is_digit ds = true.
Proof.
  assert (Decimal.nzhead (Pos.to_uint p) = Pos.to_uint p) as Hh.
  { pose proof (DecimalPos.Unsigned.to_of (Pos.to_uint p)) as E. rewrite DecimalPos.Unsigned.of_to in E.
    cbn [N.to_uint] in E. unfold Decimal.unorm in E.
    destruct (Decimal.nzhead (Pos.to_uint p)) eqn:En; rewrite E; try done.
    by destruct (DecimalPos.Unsigned.to_uint_nonzero p). }
  pose proof (DecimalPos.Unsigned.to_uint_nonnil p) as Hn.
  pose proof (DecimalFacts.nzhead_nonzero (Pos.to_uint p)) as Hz. rewrite Hh in Hz.
  destruct (Pos.to_uint p) as [|d|d|d|d|d|d|d|d|d|d] eqn:E; [done|by destruct (Hz d)|..];
    eexists _, _; (split; [reflexivity|]); (split; [done|]); (split; [done|apply uint_digits]).
Qed.

Lemma scan_int_app c ds rest :
  is_digit c = true → c ≠ "0"%char → str_forall is_digit ds = true → no_digit rest →
  scan_int (String c ds +:+ rest) = Some (String c ds, rest).
Proof.
  intros Hc Hz Hd Hr. rewrite str_app_cons. unfold scan_int. rewrite bool_decide_eq_false_2 by done.
  unfold some_digits. rewrite <-str_app_cons, take_digits_app; [done|cbn [str_forall]; by rewrite Hc|done].
Qed.

Lemma digit_head c : is_digit c = true →
  c ≠ "-"%char ∧ c ≠ "n"%char ∧ c ≠ "t"%char ∧ c ≠ "f"%char ∧ c ≠ quote_char ∧ c ≠ "["%char ∧ c ≠ "{"%char ∧ is_blank c = false.
Proof. destruct c as [[] [] [] [] [] [] [] []]; vm_compute; intros ?; by split_and!. Qed.

(** The integer is scanned, then what follows it. *)
Lemma scan_number_app z rest : no_digit rest →
  scan_number (FormatInt z +:+ rest) =
    '(f, s) ← scan_frac rest; '(e, s) ← scan_exp s; Some (FormatInt z +:+ f +:+ e, s).
Proof.
  intros Hr. destruct z as [|p|p].
  - done.
  - destruct (pos_digits p) as (c & ds & E & Hc & Hz & Hd).
    change (FormatInt (Z.pos p)) with (NilZero.string_of_uint (Pos.to_uint p)). rewrite E.
    unfold scan_number. rewrite str_app_cons. rewrite bool_decide_eq_false_2 by by apply digit_head.
    cbv beta iota. by rewrite <-str_app_cons, scan_int_app.
  - destruct (pos_digits p) as (c & ds & E & Hc & Hz & Hd).
    change (FormatInt (Z.neg p)) with (String "-" (NilZero.string_of_uint (Pos.to_uint p))). rewrite E.
    unfold scan_number. rewrite (str_app_cons "-"). rewrite bool_decide_eq_true_2 by done.
    by rewrite scan_int_app.
Qed.

(** The number as printed is all that is scanned. *)
Definition number_text (lit : string) : Prop :=
  (∃ c s, lit = String c s ∧ (c = "-"%char ∨ is_digit c = true)) ∧
  ∀ rest, stops rest → scan_number (lit +:+ rest) = Some (lit, rest).

(** The first character of a number. *)
Lemma FormatInt_head z : ∃ c s, FormatInt z = String c s ∧ (c = "-"%char ∨ is_digit c = true).
Proof.
  destruct z as [|p|p].
  - by exists "0"%char, ""; auto.
  - destruct (pos_digits p) as (c & ds & E & Hc & _). exists c, ds. auto.
  - eexists "-"%char, _. split; [reflexivity|auto].
Qed.

Lemma number_int z : number_text (FormatInt z).
Proof.
  split; [apply FormatInt_head|]. intros rest Hr. rewrite scan_number_app by by apply stops_no_digit.
  rewrite scan_frac_stops by done. cbn [mbind option_bind]. rewrite scan_exp_stops by done.
  cbn [mbind option_bind]. by rewrite str_app_nil_l, str_app_nil_r.
Qed.

Lemma number_decimal z ds : ds ≠ "" → str_forall is_digit ds = true → number_text (FormatInt z +:+ "." +:+ ds).
Proof.
  intros Hne Hd. split.
  { destruct (FormatInt_head z) as (c & s & -> & Hc). rewrite str_app_cons. eauto. }
  intros rest Hr. rewrite !str_app_assoc, scan_number_app by done. cbn [scan_frac].
  rewrite !str_app_cons, str_app_nil_l. cbn [scan_frac]. rewrite bool_decide_eq_true_2 by done.
  unfold some_digits. rewrite take_digits_app by (done || by apply stops_no_digit).
  destruct ds as [|c ds]; [done|]. cbn [mbind option_bind]. rewrite scan_exp_stops by done.
  cbn [mbind option_bind]. by rewrite str_app_nil_r.
Qed.

Lemma scan_literal_number lit rest : number_text lit → stops rest → scan_literal (lit +:+ rest) = Some (VNumber lit, rest).
Proof.
  intros [(c & s & Hl & Hc) Hn] Hr. unfold scan_literal.
  assert (∀ a w, a = "n"%char ∨ a = "t"%char ∨ a = "f"%char → HasPrefix (lit +:+ rest) (String a w) = false) as Hp.
  { intros a w Ha. rewrite Hl, str_app_cons. cbn [HasPrefix].
    rewrite bool_decide_eq_false_2; [done|]. intros ->.
    destruct Hc as [->|Hc%digit_head]; [by repeat destruct Ha as [?|Ha]|]. naive_solver. }
  rewrite !Hp by auto. by rewrite Hn.
Qed.

(** ** Blanks *)

Lemma skip_blank_app w s : blank w → skip_blank (w +:+ s) = skip_blank s.
Proof.
  unfold blank. induction w as [|c w IH]; [done|]. cbn [str_forall]. intros [Hc Hw]%andb_true_iff.
  rewrite str_app_cons. cbn [skip_blank]. rewrite Hc. auto.
Qed.

Lemma expect_app w c s : blank w → is_blank c = false → expect c (w +:+ String c s) = Some s.
Proof.
  intros Hw Hc. unfold expect. rewrite skip_blank_app by done. cbn [skip_blank]. rewrite Hc.
  by rewrite bool_decide_eq_true_2.
Qed.

(** A text that starts, after blanks, with the character [d]. *)
Definition starts_with (P : ascii → Prop) (s : string) : Prop :=
  ∃ c s', skip_blank s = String c s' ∧ P c.

Lemma expect_other c s : starts_with (λ d, d ≠ c) s → expect c s = None.
Proof. intros (d & s' & E & Hd). unfold expect. by rewrite E, bool_decide_eq_false_2. Qed.

Lemma starts_blank P w s : blank w → starts_with P s → starts_with P (w +:+ s).
Proof. intros Hw (c & s' & E & Hc). exists c, s'. by rewrite skip_blank_app. Qed.

Lemma starts_char (P : ascii → Prop) c s : is_blank c = false → P c → starts_with P (String c s).
Proof. intros Hb Hc. exists c, s. cbn [skip_blank]. by rewrite Hb. Qed.

(** The first character of a value. *)
Definition value_head (c : ascii) : Prop := is_blank c = false ∧ c ≠ "]"%char ∧ c ≠ "}"%char.

Lemma text_head d v t : text_of d v t → ∃ c t', t = String c t' ∧ value_head c.
Proof.
  destruct 1; try (eexists _, _; split; [reflexivity|]; by split_and!);
    destruct (FormatInt_head z) as (c & s & -> & Hc); (eexists c, _; split; [reflexivity|]);
  destruct c as [[] [] [] [] [] [] [] []]; vm_compute in Hc; by destruct Hc; split_and!.
Qed.

Lemma text_starts d v t rest : text_of d v t → starts_with value_head (t +:+ rest).
Proof. intros (c & t' & -> & Hc)%text_head. rewrite str_app_cons. by apply starts_char; [apply Hc|]. Qed.

Lemma elements_starts d l t rest : elements_of d l t → starts_with (λ c, c ≠ "]"%char) (t +:+ rest).
Proof.
  assert (∀ s, starts_with value_head s → starts_with (λ c, c ≠ "]"%char) s) as Hv.
  { intros s (c & s' & E & _ & ? & _). by exists c, s'. }
  destruct 1; rewrite !str_app_assoc; (apply starts_blank; [done|]); eapply Hv, text_starts; done.
Qed.

Lemma members_starts d l t rest : members_of d l t → starts_with (λ c, c ≠ "}"%char) (t +:+ rest).
Proof.
  destruct 1; rewrite !str_app_assoc; (apply starts_blank; [done|]); unfold quote; rewrite str_app_cons;
    by apply starts_char.
Qed.

(** What follows a value is a blank or a delimiter. *)
Lemma stops_delimiter w c s : blank w → c = ","%char ∨ c = "]"%char ∨ c = "}"%char → stops (w +:+ String c s).
Proof.
  unfold blank. destruct w as [|b w]; [intros _ Hc; by repeat destruct Hc as [->|Hc]; [..|subst]|].
  cbn [str_forall]. intros [Hb _]%andb_true_iff _. rewrite str_app_cons. apply bool_decide_eq_true in Hb.
  assert (∀ z, ascii_code b = z → b = byte_chr z) as Hc by (intros z <-; by rewrite byte_chr_code).
  by destruct Hb as [Hb|[Hb|[Hb|Hb]]]; apply Hc in Hb as ->.
Qed.

Lemma parse_value_blank n d w s : blank w → parse_value n d (w +:+ s) = parse_value n d s.
Proof. intros Hw. destruct n as [|n]; [done|]. cbn [parse_value]. by rewrite skip_blank_app. Qed.

(** ** The reader accepts the grammar *)

Definition value_read (d : Z) (v : value) (t : string) : Prop := ∀ n rest,
  (2 * String.length t ≤ n)%nat → stops rest → parse_value (S n) d (t +:+ rest) = Some (v, rest).
Definition elements_read (d : Z) (l : list value) (t : string) : Prop := ∀ n rest,
  (2 * String.length t ≤ n)%nat → parse_elements (S (S n)) d (t +:+ rest) = Some (l, rest).
Definition members_read (d : Z) (l : list (string * value)) (t : string) : Prop := ∀ n rest,
  (2 * String.length t ≤ n)%nat → parse_members (S (S n)) d (t +:+ rest) = Some (l, rest).

Lemma read_string d s : is_ascii s = true → value_read d (VString s) (quote s).
Proof.
  intros Hs n rest _ _. unfold quote. rewrite str_app_cons, str_app_assoc. cbn [parse_value skip_blank].
  change (is_blank quote_char) with false. cbv iota. rewrite bool_decide_eq_true_2 by done.
  rewrite str_app_cons, str_app_nil_l. by rewrite parse_string_escape.
Qed.

Lemma read_number d lit : number_text lit → value_read d (VNumber lit) lit.
Proof.
  intros Hlit n rest _ Hr. pose proof (scan_literal_number lit rest Hlit Hr) as Hl.
  destruct Hlit as [(c & s & -> & Hc) _]. rewrite str_app_cons in *. cbn [parse_value skip_blank].
  assert (c ≠ quote_char ∧ c ≠ "["%char ∧ c ≠ "{"%char ∧ is_blank c = false) as (H1 & H2 & H3 & H4).
  { destruct Hc as [->|Hc%digit_head]; [done|tauto]. }
  rewrite H4, (bool_decide_eq_false_2 (c = quote_char)), (bool_decide_eq_false_2 (_ ∨ _)) by (done || by intros [|]).
  cbn [andb]. by rewrite !bool_decide_eq_false_2.
Qed.

(** An opening bracket, at a depth that is allowed. *)
Lemma read_open d c s n :
  d < maxNestingDepth → c = "["%char ∨ c = "{"%char →
  parse_value (S n) d (String c s) =
    if bool_decide (c = "["%char) then
      match expect "]" s with
      | Some r => Some (VArray [], r)
      | None => '(l, r) ← parse_elements n (d + 1) s; Some (VArray l, r)
      end
    else match expect "}" s with
      | Some r => Some (VObject [], r)
      | None => '(l, r) ← parse_members n (d + 1) s; Some (VObject l, r)
      end.
Proof.
  intros Hd Hc. cbn [parse_value skip_blank].
  assert (bool_decide (maxNestingDepth ≤ d) = false) as -> by (apply bool_decide_eq_false; lia).
  by destruct Hc as [-> | ->].
Qed.

Lemma read_array d l t : d < maxNestingDepth → elements_of (d + 1) l t → elements_read (d + 1) l t →
  value_read d (VArray l) ("[" +:+ t).
Proof.
  intros Hd Ht IH n rest Hn _. rewrite str_app_cons, str_app_nil_l, str_app_cons in *. cbn [String.length] in Hn.
  rewrite read_open by auto. rewrite bool_decide_eq_true_2 by done.
  rewrite expect_other by by eapply elements_starts. destruct n as [|[|n]]; try lia. rewrite IH by lia. done.
Qed.

Lemma read_object d l t : d < maxNestingDepth → members_of (d + 1) l t → members_read (d + 1) l t →
  value_read d (VObject l) ("{" +:+ t).
Proof.
  intros Hd Ht IH n rest Hn _. rewrite str_app_cons, str_app_nil_l, str_app_cons in *. cbn [String.length] in Hn.
  rewrite read_open by auto. rewrite bool_decide_eq_false_2 by done.
  rewrite expect_other by by eapply members_starts. destruct n as [|[|n]]; try lia. rewrite IH by lia. done.
Qed.

(** A value among blanks, and the delimiter after it. *)
Lemma read_delimited d v w t w' c rest n :
  blank w → value_read d v t → blank w' → c = ","%char ∨ c = "]"%char ∨ c = "}"%char →
  (2 * String.length t ≤ n)%nat →
  parse_value (S n) d (w +:+ t +:+ w' +:+ String c rest) = Some (v, w' +:+ String c rest).
Proof.
  intros Hw IH Hw' Hc Hn. rewrite parse_value_blank by done. apply IH; [done|]. by apply stops_delimiter.
Qed.

Lemma expect_wrong w c c' s : blank w → is_blank c = false → c ≠ c' → expect c' (w +:+ String c s) = None.
Proof. intros Hw Hb Hc. apply expect_other, starts_blank; [done|]. by apply starts_char. Qed.

(** A key, its colon and the text after it. *)
Lemma read_key w k w1 s : blank w → is_ascii k = true → blank w1 →
  (s' ← expect quote_char (w +:+ quote k +:+ w1 +:+ ":" +:+ s);
   '(k', r) ← parse_string s'; r ← expect ":" r; Some (k', r)) = Some (k, s).
Proof.
  intros Hw Hk Hw1. unfold quote. rewrite str_app_cons, expect_app by done. cbn [mbind option_bind].
  rewrite str_app_assoc, str_app_cons, str_app_nil_l, parse_string_escape by done. cbn [mbind option_bind].
  rewrite str_app_cons, str_app_nil_l. by rewrite expect_app.
Qed.

Lemma parse_elements_step n d s :
  parse_elements (S n) d s =
    '(v, r) ← parse_value n d s;
    match expect "," r with
    | Some r' => '(l, r'') ← parse_elements n d r'; Some (v :: l, r'')
    | None => r' ← expect "]" r; Some ([v], r')
    end.
Proof. done. Qed.

Lemma parse_members_step n d w k w1 s : blank w → is_ascii k = true → blank w1 →
  parse_members (S n) d (w +:+ quote k +:+ w1 +:+ ":" +:+ s) =
    '(v, r) ← parse_value n d s;
    match expect "," r with
    | Some r' => '(l, r'') ← parse_members n d r'; Some ((k, v) :: l, r'')
    | None => r' ← expect "}" r; Some ([(k, v)], r')
    end.
Proof.
  intros Hw Hk Hw1. pose proof (read_key w k w1 s Hw Hk Hw1) as Hkey. cbn [parse_members].
  destruct (expect quote_char _) as [s'|]; [|done]. cbn [mbind option_bind] in *.
  destruct (parse_string s') as [[k' r]|]; [|done]. cbn [mbind option_bind] in *.
  destruct (expect ":" r) as [r'|]; [|done]. by injection Hkey as -> ->.
Qed.

Theorem grammar_read :
  (∀ d v t, text_of d v t → value_read d v t) ∧
  (∀ d l t, elements_of d l t → elements_read d l t) ∧
  (∀ d l t, members_of d l t → members_read d l t).
Proof.
  apply text_mutind.
  - by intros d n rest Hn Hr.
  - by intros d n rest Hn Hr.
  - by intros d n rest Hn Hr.
  - intros. apply read_number, number_int.
  - intros. by apply read_number, number_decimal.
  - apply read_string.
  - intros d w Hd Hw n rest _ _. rewrite !str_app_cons, !str_app_nil_l, str_app_assoc, str_app_cons.
    rewrite read_open by auto. by rewrite bool_decide_eq_true_2, expect_app.
  - by intros; apply read_array.
  - intros d w Hd Hw n rest _ _. rewrite !str_app_cons, !str_app_nil_l, str_app_assoc, str_app_cons.
    rewrite read_open by auto. by rewrite bool_decide_eq_false_2, expect_app.
  - by intros; apply read_object.
  - intros d v w t w' Hw Ht IH Hw' n rest Hn. rewrite !str_app_assoc, str_app_cons, str_app_nil_l.
    rewrite !str_length_app in Hn. rewrite parse_elements_step, (read_delimited _ v) by (auto || lia). cbn [mbind option_bind].
    by rewrite expect_wrong, expect_app.
  - intros d v w t w' l t' Hw Ht IH Hw' Hl IHl n rest Hn. rewrite !str_app_assoc, str_app_cons, str_app_nil_l.
    rewrite !str_length_app in Hn. cbn [String.length] in Hn.
    rewrite parse_elements_step, (read_delimited _ v) by (auto || lia). cbn [mbind option_bind]. rewrite expect_app by done.
    destruct n as [|n]; [lia|]. by rewrite IHl by lia.
  - intros d k v w w1 w2 t w' Hw Hk Hw1 Hw2 Ht IH Hw' n rest Hn. rewrite !str_app_assoc.
    rewrite !str_length_app in Hn. cbn [String.length] in Hn. rewrite parse_members_step by done.
    rewrite str_app_cons, str_app_nil_l, (read_delimited _ v) by (auto || lia). cbn [mbind option_bind].
    by rewrite expect_wrong, expect_app.
  - intros d k v w w1 w2 t w' l t' Hw Hk Hw1 Hw2 Ht IH Hw' Hl IHl n rest Hn. rewrite !str_app_assoc.
    rewrite !str_length_app in Hn. cbn [String.length] in Hn. rewrite parse_members_step by done.
    rewrite (str_app_cons ","), str_app_nil_l, (read_delimited _ v) by (auto || lia). cbn [mbind option_bind].
    rewrite expect_app by done. destruct n as [|n]; [lia|]. by rewrite IHl by lia.
Qed.

(** ** What the program prints *)

Fixpoint embed (v : json) : value :=
  match v with
  | JNull => VNull
  | JBool b => VBool b
  | JInt z => VNumber (FormatInt z)
  | JString s => VString s
  | JArray l => VArray (embed <$> l)
  | JObject fs => VObject (prod_map id embed <$> fs)
  end.

(** The strings are ASCII, and the nesting from depth [d] is allowed. *)
Fixpoint fits (d : Z) (v : json) : bool :=
  match v with
  | JString s => is_ascii s
  | JArray l => bool_decide (d < maxNestingDepth) && forallb (fits (d + 1)) l
  | JObject fs => bool_decide (d < maxNestingDepth) && forallb (λ f, is_ascii f.1 && fits (d + 1) f.2) fs
  | _ => true
  end.

Lemma json_nested_ind (P : json → Prop) :
  P JNull → (∀ b, P (JBool b)) → (∀ z, P (JInt z)) → (∀ s, P (JString s)) →
  (∀ l, Forall P l → P (JArray l)) → (∀ fs, Forall (λ f, P f.2) fs → P (JObject fs)) → ∀ v, P v.
Proof.
  intros Hn Hb Hi Hs Ha Ho. fix IH 1. intros [| | | |l|fs]; [done|done|done|done|apply Ha|apply Ho].
  - induction l as [|v l IHl]; constructor; [apply IH|exact IHl].
  - induction fs as [|[k v] fs IHl]; constructor; [apply IH|exact IHl].
Qed.

Lemma elements_join d (f : json → string) pad close l :
  l ≠ [] → blank pad → blank close → Forall (λ v, text_of d (embed v) (f v)) l →
  elements_of d (embed <$> l) (pad +:+ Join (f <$> l) ("," +:+ pad) +:+ close +:+ "]").
Proof.
  intros Hl Hp Hc Hf. induction Hf as [|v l Hv Hf IH]; [done|]. destruct l as [|v' l].
  - by apply elements_last.
  - cbn [fmap list_fmap] in *. rewrite Join_cons, !str_app_assoc.
    change (f v +:+ "," +:+ ?x) with (f v +:+ "" +:+ "," +:+ x). by apply elements_more; [| | |apply IH].
Qed.

Lemma members_join d (f : json → string) pad gap close fs :
  fs ≠ [] → blank pad → blank gap → blank close →
  Forall (λ kv, is_ascii kv.1 = true ∧ text_of d (embed kv.2) (f kv.2)) fs →
  members_of d (prod_map id embed <$> fs)
    (pad +:+ Join ((λ kv, quote kv.1 +:+ (":" +:+ gap) +:+ f kv.2) <$> fs) ("," +:+ pad) +:+ close +:+ "}").
Proof.
  intros Hl Hp Hg Hc Hf. induction Hf as [|[k v] fs [Hk Hv] Hf IH]; [done|]. cbn [fst snd] in *. destruct fs as [|kv' fs].
  - cbn [fmap list_fmap Join fst snd prod_map]. rewrite !str_app_assoc.
    change (quote k +:+ ":" +:+ ?x) with (quote k +:+ "" +:+ ":" +:+ x). by apply members_last.
  - cbn [fmap list_fmap] in *. cbn [fst snd prod_map]. rewrite Join_cons, !str_app_assoc.
    change (quote k +:+ ":" +:+ ?x) with (quote k +:+ "" +:+ ":" +:+ x).
    change (f v +:+ "," +:+ ?x) with (f v +:+ "" +:+ "," +:+ x). by apply members_more; [..|apply IH].
Qed.

(** One layout of arrays and objects is printed in the grammar if those below are. *)
Lemma array_text d f pad close l :
  bool_decide (d < maxNestingDepth) && forallb (fits (d + 1)) l = true → l ≠ [] → blank pad → blank close →
  Forall (λ v, ∀ d, fits d v = true → text_of d (embed v) (f v)) l →
  text_of d (VArray (embed <$> l)) ("[" +:+ pad +:+ Join (f <$> l) ("," +:+ pad) +:+ close +:+ "]").
Proof.
  intros [Hd Hl]%andb_true_iff Hne Hp Hc Hf. apply bool_decide_eq_true in Hd. apply text_array; [done|].
  apply elements_join; [done..|]. rewrite Forall_forall in *. intros v Hv. apply Hf; [done|].
  rewrite forallb_forall in Hl. apply Hl. by apply list_elem_of_In.
Qed.

Lemma object_text d f pad gap close fs :
  bool_decide (d < maxNestingDepth) && forallb (λ kv, is_ascii kv.1 && fits (d + 1) kv.2) fs = true →
  fs ≠ [] → blank pad → blank gap → blank close →
  Forall (λ kv, ∀ d, fits d kv.2 = true → text_of d (embed kv.2) (f kv.2)) fs →
  text_of d (VObject (prod_map id embed <$> fs))
    ("{" +:+ pad +:+ Join ((λ kv, quote kv.1 +:+ (":" +:+ gap) +:+ f kv.2) <$> fs) ("," +:+ pad) +:+ close +:+ "}").
Proof.
  intros [Hd Hl]%andb_true_iff Hne Hp Hg Hc Hf. apply bool_decide_eq_true in Hd. apply text_object; [done|].
  apply members_join; [done..|]. rewrite Forall_forall in *. intros kv Hv.
  rewrite forallb_forall in Hl. specialize (Hl kv). rewrite <-list_elem_of_In in Hl.
  apply Hl in Hv as Hk. apply andb_true_iff in Hk as [Hk Hk']. split; [done|by apply Hf].
Qed.

Lemma Marshal_text v : ∀ d, fits d v = true → text_of d (embed v) (Marshal v).
Proof.
  induction v as [|[]| | |l IH|fs IH] using json_nested_ind; intros d Hd; try by constructor.
  - cbn [fits] in Hd. destruct l as [|x l]; [apply (text_array_nil d ""); [|done]; by apply andb_true_iff in Hd as [?%bool_decide_eq_true _]|].
    exact (array_text d Marshal "" "" _ Hd ltac:(done) eq_refl eq_refl IH).
  - cbn [fits] in Hd. destruct fs as [|x fs]; [apply (text_object_nil d ""); [|done]; by apply andb_true_iff in Hd as [?%bool_decide_eq_true _]|].
    exact (object_text d Marshal "" "" "" _ Hd ltac:(done) eq_refl eq_refl eq_refl IH).
Qed.

Lemma blank_indent k : blank (newline +:+ str_repeat k "  ").
Proof. unfold blank. rewrite str_forall_app. by induction k as [|k IH]; [|cbn in *; apply IH]. Qed.

Lemma marshal_indent_text v : ∀ k d, fits d v = true → text_of d (embed v) (marshal_indent k v).
Proof.
  induction v as [|[]| | |l IH|fs IH] using json_nested_ind; intros k d Hd; try by constructor.
  - cbn [fits] in Hd. destruct l as [|x l]; [apply (text_array_nil d ""); [|done]; by apply andb_true_iff in Hd as [?%bool_decide_eq_true _]|].
    apply (array_text d (marshal_indent (S k)) _ _ (x :: l) Hd); [done|apply (blank_indent (S k))|apply (blank_indent k)|].
    eapply Forall_impl; [exact IH|]. auto.
  - cbn [fits] in Hd. destruct fs as [|x fs]; [apply (text_object_nil d ""); [|done]; by apply andb_true_iff in Hd as [?%bool_decide_eq_true _]|].
    apply (object_text d (marshal_indent (S k)) _ " " _ (x :: fs) Hd);
      [done|apply (blank_indent (S k))|done|apply (blank_indent k)|].
    eapply Forall_impl; [exact IH|]. auto.
Qed.

(** ** Round trips *)

Lemma Unmarshal_text v t w : text_of 0 v t → blank w → Unmarshal (t +:+ w) = Some v.
Proof.
  intros Ht Hw. unfold Unmarshal, fuel_for. rewrite str_length_app.
  replace (2 * (String.length t + String.length w) + 2)%nat
    with (S (2 * (String.length t + String.length w) + 1))%nat by lia.
  rewrite (proj1 grammar_read _ _ _ Ht); [|lia|].
  - cbn [mbind option_bind]. rewrite <-(str_app_nil_r w), skip_blank_app by done. done.
  - destruct w as [|b w]; [done|]. unfold blank in Hw. cbn [str_forall] in Hw. apply andb_true_iff in Hw as [Hb _].
    pose proof (stops_delimiter (String b "") "," w) as Hs. rewrite str_app_cons, str_app_nil_l in Hs.
    apply Hs; [|auto]. unfold blank. cbn [str_forall]. by rewrite Hb.
Qed.

Theorem Unmarshal_Marshal v : fits 0 v = true → Unmarshal (Marshal v) = Some (embed v).
Proof. intros Hv. rewrite <-(str_app_nil_r (Marshal v)). by apply Unmarshal_text; [apply Marshal_text|]. Qed.

Theorem Unmarshal_MarshalIndent v : fits 0 v = true → Unmarshal (MarshalIndent v +:+ newline) = Some (embed v).
Proof. intros Hv. by apply Unmarshal_text; [apply marshal_indent_text|]. Qed.

Lemma Decode_text v t : text_of 0 v t → Decode t = Some v.
Proof.
  intros Ht. pose proof (Unmarshal_text v t "" Ht eq_refl) as E. rewrite str_app_nil_r in E. unfold Unmarshal in E. unfold Decode.
  destruct (parse_value _ 0 _) as [[w r]|]; [|done]. cbn [mbind option_bind] in E. by case_bool_decide; [injection E as ->|].
Qed.

Theorem Decode_Marshal v : fits 0 v = true → Decode (Marshal v) = Some (embed v).
Proof. intros Hv. by apply Decode_text, Marshal_text. Qed.

(** ** The fuel

    Every step of the reader leaves less text, so that two steps per byte are
    enough: with more, the answer is the same, a refusal too. *)

#[local] Abbreviation size := String.length.

Lemma str_drop_size n s : (size (str_drop n s) ≤ size s - n)%nat.
Proof. revert n. induction s as [|c s IH]; intros [|n]; cbn; try lia. apply IH. Qed.

Lemma skip_blank_size s : (size (skip_blank s) ≤ size s)%nat.
Proof. induction s as [|c s IH]; cbn [skip_blank]; [done|]. destruct (is_blank c); cbn; lia. Qed.

Lemma expect_size c s r : expect c s = Some r → (size r < size s)%nat.
Proof.
  unfold expect. pose proof (skip_blank_size s). destruct (skip_blank s) as [|x s']; [done|].
  case_bool_decide; [|done]. intros [= <-]. cbn in *. lia.
Qed.

Lemma scan_string_size s raw r : scan_string s = Some (raw, r) → (size r < size s)%nat.
Proof.
  remember (size s) as k eqn:Hk. assert (size s ≤ k)%nat as Hs by lia. rewrite Hk. clear Hk. revert s raw r Hs.
  induction k as [|k IH]; intros [|c s] raw r Hs; cbn [size] in *; try (done || lia). cbn [scan_string].
  case_bool_decide; [intros [= _ <-]; cbn; lia|]. case_bool_decide; [done|]. case_bool_decide.
  - destruct s as [|d s]; [done|]. intros ([raw' r'] & E & [= _ <-])%bind_Some. cbn [size] in *. apply IH in E; lia.
  - intros ([raw' r'] & E & [= _ <-])%bind_Some. apply IH in E; lia.
Qed.

Lemma parse_string_size s t r : parse_string s = Some (t, r) → (size r < size s)%nat.
Proof. intros ([raw r'] & E%scan_string_size & (t' & _ & [= _ <-])%bind_Some)%bind_Some. done. Qed.

Lemma take_digits_size s d r : take_digits s = (d, r) → (size d + size r = size s)%nat.
Proof.
  revert d r. induction s as [|c s IH]; cbn [take_digits]; intros d r; [by intros [= <- <-]|].
  destruct (is_digit c); [|by intros [= <- <-]]. destruct (take_digits s) as [d' r']. intros [= <- <-]. cbn.
  by rewrite <-(IH _ _ eq_refl).
Qed.
Lemma some_digits_size s d r : some_digits s = Some (d, r) → (size r < size s)%nat.
Proof.
  unfold some_digits. destruct (take_digits s) as [d' r'] eqn:E. apply take_digits_size in E.
  destruct d'; [done|]. intros [= <- <-]. cbn in *. lia.
Qed.

Lemma scan_int_size s i r : scan_int s = Some (i, r) → (size r < size s)%nat.
Proof.
  unfold scan_int. destruct s as [|c s]; [done|]. case_bool_decide; [intros [= _ <-]; cbn; lia|apply some_digits_size].
Qed.
Lemma scan_frac_size s f r : scan_frac s = Some (f, r) → (size r ≤ size s)%nat.
Proof.
  unfold scan_frac. destruct s as [|c s]; [by intros [= _ <-]|]. case_bool_decide; [|by intros [= _ <-]].
  intros ([d r'] & E%some_digits_size & [= _ <-])%bind_Some. cbn. lia.
Qed.
Lemma scan_exp_size s e r : scan_exp s = Some (e, r) → (size r ≤ size s)%nat.
Proof.
  unfold scan_exp. destruct s as [|c s]; [by intros [= _ <-]|]. case_bool_decide; [|by intros [= _ <-]].
  destruct s as [|g s]; [done|].
  case_bool_decide; intros ([d r'] & E%some_digits_size & [= _ <-])%bind_Some; cbn in *; lia.
Qed.
Lemma scan_number_size s lit r : scan_number s = Some (lit, r) → (size r < size s)%nat.
Proof.
  unfold scan_number. destruct (match s with String _ _ => _ | "" => _ end) as [sign s'] eqn:Es.
  assert (size s' ≤ size s)%nat as Hs.
  { destruct s as [|c s]; [by injection Es as _ <-|]. case_bool_decide; injection Es as _ <-; cbn; lia. }
  intros ([i s1] & E1%scan_int_size & E)%bind_Some. apply bind_Some in E as ([f s2] & E2%scan_frac_size & E).
  apply bind_Some in E as ([e s3] & E3%scan_exp_size & [= _ <-]). lia.
Qed.
Lemma scan_literal_size s v r : scan_literal s = Some (v, r) → (size r < size s)%nat.
Proof.
  unfold scan_literal.
  assert (∀ p n v', HasPrefix s p = true → (0 < n ≤ size p)%nat →
            Some (v', str_drop n s) = Some (v, r) → (size r < size s)%nat) as Hp.
  { intros p n v' (t & E)%HasPrefix_spec Hn Hr. assert (r = str_drop n s) as -> by congruence.
    pose proof (str_drop_size n s). rewrite E, str_length_app in *. lia. }
  destruct (HasPrefix s "null") eqn:E1; [apply (Hp _ _ _ E1); cbn; lia|].
  destruct (HasPrefix s "true") eqn:E2; [apply (Hp _ _ _ E2); cbn; lia|].
  destruct (HasPrefix s "false") eqn:E3; [apply (Hp _ _ _ E3); cbn; lia|].
  intros ([lit r'] & E%scan_number_size & [= _ <-])%bind_Some. done.
Qed.

(** The three readers leave less text than they were given. *)
Lemma parse_size n :
  (∀ d s v r, parse_value n d s = Some (v, r) → (size r < size s)%nat) ∧
  (∀ d s l r, parse_elements n d s = Some (l, r) → (size r < size s)%nat) ∧
  (∀ d s l r, parse_members n d s = Some (l, r) → (size r < size s)%nat).
Proof.
  induction n as [|n (IHv & IHe & IHm)]; [done|]. split_and!; intros d s v r; cbn [parse_value parse_elements parse_members].
  - pose proof (skip_blank_size s) as Hs. destruct (skip_blank s) as [|c s']; [done|]. cbn [size] in Hs.
    case_bool_decide; [intros ([t r'] & E%parse_string_size & [= _ <-])%bind_Some; lia|].
    destruct (_ && _); [done|]. case_bool_decide; [|case_bool_decide].
    + destruct (expect "]" s') eqn:E; [apply expect_size in E; intros [= _ <-]; lia|].
      intros ([l r'] & E'%IHe & [= _ <-])%bind_Some. lia.
    + destruct (expect "}" s') eqn:E; [apply expect_size in E; intros [= _ <-]; lia|].
      intros ([l r'] & E'%IHm & [= _ <-])%bind_Some. lia.
    + intros E%scan_literal_size. cbn in E. lia.
  - intros ([v' r'] & E%IHv & Hr)%bind_Some. destruct (expect "," r') eqn:Ec.
    + apply expect_size in Ec. apply bind_Some in Hr as ([l r2] & E2%IHe & [= _ <-]). lia.
    + apply bind_Some in Hr as (r2 & E2%expect_size & [= _ <-]). lia.
  - intros (s1 & E1%expect_size & E)%bind_Some. apply bind_Some in E as ([k r1] & E2%parse_string_size & E).
    apply bind_Some in E as (r2 & E3%expect_size & E). apply bind_Some in E as ([v' r3] & E4%IHv & Hr).
    destruct (expect "," r3) eqn:Ec.
    + apply expect_size in Ec. apply bind_Some in Hr as ([l r5] & E5%IHm & [= _ <-]). lia.
    + apply bind_Some in Hr as (r5 & E5%expect_size & [= _ <-]). lia.
Qed.

Lemma option_bind_ext_some {A B} (m : option A) (f g : A → option B) :
  (∀ a, m = Some a → f a = g a) → (m ≫= f) = (m ≫= g).
Proof. destruct m; cbn; auto. Qed.

Lemma parse_fuel_all n : ∀ n' d s,
  ((2 * size s + 1 ≤ n)%nat → (2 * size s + 1 ≤ n')%nat → parse_value n d s = parse_value n' d s) ∧
  ((2 * size s + 2 ≤ n)%nat → (2 * size s + 2 ≤ n')%nat → parse_elements n d s = parse_elements n' d s) ∧
  ((2 * size s + 2 ≤ n)%nat → (2 * size s + 2 ≤ n')%nat → parse_members n d s = parse_members n' d s).
Proof.
  induction n as [|n IH]; intros [|n'] d s; split_and!; intros Hn Hn'; try lia;
    cbn [parse_value parse_elements parse_members].
  - pose proof (skip_blank_size s) as Hs. destruct (skip_blank s) as [|c s']; [done|]. cbn [size] in Hs.
    destruct (IH n' (d + 1) s') as (_ & He & Hm). by rewrite He, Hm by lia.
  - destruct (IH n' d s) as (Hv & _). rewrite Hv by lia. apply option_bind_ext_some.
    intros [v r] E%(proj1 (parse_size _)). destruct (expect "," r) as [r'|] eqn:Ec; [|done].
    apply expect_size in Ec. destruct (IH n' d r') as (_ & He & _). by rewrite He by lia.
  - apply option_bind_ext_some. intros s1 E1%expect_size. apply option_bind_ext_some.
    intros [k r1] E2%parse_string_size. apply option_bind_ext_some. intros r2 E3%expect_size.
    destruct (IH n' d r2) as (Hv & _). rewrite Hv by lia. apply option_bind_ext_some.
    intros [v r3] E4%(proj1 (parse_size _)). destruct (expect "," r3) as [r'|] eqn:Ec; [|done].
    apply expect_size in Ec. destruct (IH n' d r') as (_ & _ & Hm). by rewrite Hm by lia.
Qed.

(** The fuel of [Decode] and [Unmarshal] is never what refuses a text. *)
Theorem parse_fuel n d s : (fuel_for s ≤ n)%nat → parse_value n d s = parse_value (fuel_for s) d s.
Proof. unfold fuel_for. intros Hn. apply parse_fuel_all; lia. Qed.

(** ** Decoding into a Go value

    A key names the field whose name it is, or is up to case; a key that names
    none is skipped; a later key of the same field wins; [null] leaves a field
    as it is.  A value of the wrong type makes the whole decoding an error. *)

Definition type_error {A} : result A := Err (ErrOther "json: cannot unmarshal").

(** [foldName]: ASCII lower case here, with the two runes outside ASCII that
    fold to a letter of it, the long s and the Kelvin sign. *)
Fixpoint fold_name (s : string) : string :=
  match s with
  | "" => ""
  | String a s' =>
      match s' with
      | String b s'' =>
          if bool_decide (ascii_code a = 197 ∧ ascii_code b = 191) then String "s" (fold_name s'') else
          match s'' with
          | String c s3 =>
              if bool_decide (ascii_code a = 226 ∧ ascii_code b = 132 ∧ ascii_code c = 170)
              then String "k" (fold_name s3) else String (lower_char a) (fold_name s')
          | "" => String (lower_char a) (fold_name s')
          end
      | "" => String (lower_char a) ""
      end
  end.

(** How a value is stored over the one that is there. *)
Definition into (A : Type) : Type := value → A → result A.

Definition into_string : into string := λ v old,
  match v with VString s => Ok s | VNull => Ok old | _ => type_error end.
Definition into_bool : into bool := λ v old,
  match v with VBool b => Ok b | VNull => Ok old | _ => type_error end.
(** An [int] or [int64]. *)
Definition into_int : into Z := λ v old,
  match v with
  | VNumber lit => match ParseInt lit with Some z => Ok z | None => type_error end
  | VNull => Ok old
  | _ => type_error
  end.
(** A pointer: [null] makes it [nil]. *)
Definition into_pointer {A} (zero : A) (f : into A) : into (option A) := λ v old,
  match v with VNull => Ok None | _ => x ← f v (default zero old); Ok (Some x) end.

(** A slice: the elements are stored over those that are there. *)
Fixpoint into_elements {A} (zero : A) (f : into A) (l : list value) (old : list A) : result (list A) :=
  match l with
  | [] => Ok []
  | v :: l' =>
      x ← f v (default zero (head old));
      xs ← into_elements zero f l' (tail old);
      Ok (x :: xs)
  end.
Definition into_slice {A} (zero : A) (f : into A) : into (list A) := λ v old,
  match v with VArray l => into_elements zero f l old | VNull => Ok [] | _ => type_error end.

(** The fields of a structure: the name of each and how it is stored. *)
Definition field_of {A} (fields : list (string * into A)) (key : string) : option (into A) :=
  snd <$> (snd <$> list_find (λ f, fold_name f.1 = fold_name key) fields).

Fixpoint into_fields {A} (fields : list (string * into A)) (members : list (string * value)) (old : A) : result A :=
  match members with
  | [] => Ok old
  | (key, v) :: rest =>
      a ← match field_of fields key with Some f => f v old | None => Ok old end;
      into_fields fields rest a
  end.
Definition into_struct {A} (fields : list (string * into A)) : into A := λ v old,
  match v with VObject members => into_fields fields members old | VNull => Ok old | _ => type_error end.

(** [json.Unmarshal(data, &x)] and [json.NewDecoder(r).Decode(&x)] of a zero [x]. *)
Definition unmarshal_into {A} (zero : A) (f : into A) (data : string) : result A :=
  match Unmarshal data with Some v => f v zero | None => Err (ErrOther "json: syntax error") end.
Definition decode_into {A} (zero : A) (f : into A) (data : string) : result A :=
  match Decode data with Some v => f v zero | None => Err (ErrOther "json: syntax error") end.

Lemma into_elements_strings l : into_elements "" into_string (embed <$> (JString <$> l)) [] = Ok l.
Proof. induction l as [|s l IH]; [done|]. cbn in *. by rewrite IH. Qed.
