(* ===== verification/Config.v ===== *)
(** * The daemon's configuration (internal/config/config.go)

    The records of the TOML file, [Default], the derived defaults, the
    validation, and [Load].  The TOML decoder is third-party code: the class
    [Toml] gives the two decodings [Load] asks for.  The texts of the errors
    are kept without their interpolated values. *)

From S2P Require Import Prelude GoStrings IPNet.
Open Scope Z_scope.

Record MetadataConfig := { md_Path : string }.
Record APIConfig := { api_Port : Z }.
Record CaddyConfig := {
  cd_HTTPPort : Z;
  cd_HTTPSPort : Z;
  cd_InternalProxyPort : Z;
  cd_TLSMode : string;
}.
Record WGPeer := {
  peer_Name : string;
  peer_PublicKey : string;
  peer_AllowedIPs : list string;
}.
Record WireGuardConfig := {
  wg_Interface : string;
  wg_ListenPort : Z;
  wg_Address : string;
  wg_Endpoint : string;
  wg_PrivateKeyFile : string;
  wg_Peers : list WGPeer;
}.
Record HostFirewallConfig := { fw_Enabled : bool; fw_Backend : string }.
Record GuestControlConfig := { gc_MemoryPort : Z }.
Record VMNetworkConfig := { vn_Subnet : string; vn_IPv4Subnet : string }.
Record DNSConfig := {
  dns_Enabled : bool;
  dns_Domain : string;
  dns_ListenIP : string;
  dns_Port : Z;
  dns_TTLSeconds : Z;
  dns_UpstreamServers : list string;
}.
Record SSHConfig := { ssh_User : string; ssh_WakeProxyPort : Z }.
Record IdleConfig := { idle_CheckIntervalSeconds : Z; idle_DefaultSleepAfterSeconds : Z }.
Record ColdStorageConfig := { cold_Dir : string; cold_ArchiveStoppedAfterSeconds : Z }.
Record FirecrackerConfig := {
  fc_BinaryPath : string;
  fc_BaseKernelPath : string;
  fc_BaseInitrdPath : string;
  fc_BaseRootfsPath : string;
  fc_DefaultVCPUs : Z;
  fc_DefaultMemoryMinMiB : Z;
  fc_DefaultMemoryMaxMiB : Z;
  fc_DefaultDiskBytes : Z;
}.

Record Config := {
  BaseDomain : string;
  DefaultHTTPPort : Z;
  StateDir : string;
  API : APIConfig;
  Caddy : CaddyConfig;
  Metadata : MetadataConfig;
  WireGuard : WireGuardConfig;
  HostFirewall : HostFirewallConfig;
  GuestControl : GuestControlConfig;
  VMNetwork : VMNetworkConfig;
  DNS : DNSConfig;
  SSH : SSHConfig;
  Idle : IdleConfig;
  ColdStorage : ColdStorageConfig;
  Firecracker : FirecrackerConfig;
}.

Definition DefaultPath : string := "/etc/firedoze/firedoze.toml".

Definition Default : Config := {|
  BaseDomain := "dev.example.com";
  DefaultHTTPPort := 8080;
  StateDir := "/var/lib/firedoze";
  API := {| api_Port := 8081 |};
  Caddy := {| cd_HTTPPort := 80; cd_HTTPSPort := 443; cd_InternalProxyPort := 18082;
              cd_TLSMode := "auto" |};
  Metadata := {| md_Path := "/var/lib/firedoze/firedoze.db" |};
  WireGuard := {| wg_Interface := "fdwg0"; wg_ListenPort := 51820;
                  wg_Address := "fd7a:115c:a1e1::1/64"; wg_Endpoint := "";
                  wg_PrivateKeyFile := "/etc/firedoze/wg.key"; wg_Peers := [] |};
  HostFirewall := {| fw_Enabled := true; fw_Backend := "ip6tables" |};
  GuestControl := {| gc_MemoryPort := 18084 |};
  VMNetwork := {| vn_Subnet := "fd7a:115c:a1e0::/64"; vn_IPv4Subnet := "10.88.0.0/16" |};
  DNS := {| dns_Enabled := true; dns_Domain := "firedoze"; dns_ListenIP := "";
            dns_Port := 53; dns_TTLSeconds := 30;
            dns_UpstreamServers := ["1.1.1.1:53"; "8.8.8.8:53"] |};
  SSH := {| ssh_User := "ubuntu"; ssh_WakeProxyPort := 18022 |};
  Idle := {| idle_CheckIntervalSeconds := 30; idle_DefaultSleepAfterSeconds := 6 * 60 * 60 |};
  ColdStorage := {| cold_Dir := ""; cold_ArchiveStoppedAfterSeconds := 30 * 24 * 60 * 60 |};
  Firecracker := {|
    fc_BinaryPath := "/usr/lib/firedoze/firecracker";
    fc_BaseKernelPath := "/var/lib/firedoze/images/vmlinux.bin";
    fc_BaseInitrdPath := "";
    fc_BaseRootfsPath := "/var/lib/firedoze/images/rootfs.ext4";
    fc_DefaultVCPUs := 1;
    fc_DefaultMemoryMinMiB := 384;
    fc_DefaultMemoryMaxMiB := 1024;
    fc_DefaultDiskBytes := 512 * 1024 * 1024 |}
|}.

(** ** Guards: [if cond { return errors.New(msg) }] *)

Definition reject (b : bool) (msg : string) : result unit :=
  if b then Err (ErrOther msg) else Ok tt.

(** [port <= 0 || port > 65535]. *)
Definition bad_port (p : Z) : bool := bool_decide (p ≤ 0) || bool_decide (65535 < p).

Definition is_empty (s : string) : bool := bool_decide (s = "").

(** ** WireGuardConfig.Validate

    The three maps from a seen value to the index of its first peer are the
    lists of the values seen so far: only membership and the error text use
    them. *)
Record seen := { seen_names : list string; seen_keys : list string; seen_ips : list string }.

(** The inner loop over [peer.AllowedIPs]. *)
Fixpoint validate_allowed_ips (ips : list string) (ips_seen : list string) : result (list string) :=
  match ips with
  | [] => Ok ips_seen
  | allowedIP :: rest =>
      match ParseCIDR allowedIP with
      | None => Err (ErrOther "allowed_ips must be CIDR")
      | Some (ip, ipNet) =>
          if is_v4 ip then Err (ErrOther "allowed_ips must be IPv6")
          else if bool_decide (IPNet_String ipNet ∈ ips_seen)
          then Err (ErrOther "allowed_ips duplicates")
          else validate_allowed_ips rest (IPNet_String ipNet :: ips_seen)
      end
  end.

Fixpoint validate_peers (peers : list WGPeer) (sn : seen) : result unit :=
  match peers with
  | [] => Ok tt
  | peer :: rest =>
      reject (is_empty (peer_Name peer)) "name is required" ;;
      reject (bool_decide (peer_Name peer ∈ seen_names sn)) "name duplicates" ;;
      reject (is_empty (peer_PublicKey peer)) "public_key is required" ;;
      reject (bool_decide (peer_PublicKey peer ∈ seen_keys sn)) "public_key duplicates" ;;
      reject (bool_decide (length (peer_AllowedIPs peer) = 0%nat)) "allowed_ips is required" ;;
      ips ← validate_allowed_ips (peer_AllowedIPs peer) (seen_ips sn);
      validate_peers rest {| seen_names := peer_Name peer :: seen_names sn;
                             seen_keys := peer_PublicKey peer :: seen_keys sn;
                             seen_ips := ips |}
  end.

Definition WireGuard_Validate (c : WireGuardConfig) : result unit :=
  reject (is_empty (wg_Interface c)) "wireguard.interface is required" ;;
  reject (bad_port (wg_ListenPort c)) "wireguard.listen_port must be between 1 and 65535" ;;
  reject (is_empty (wg_PrivateKeyFile c)) "wireguard.private_key_file is required" ;;
  match ParseCIDR (wg_Address c) with
  | None => Err (ErrOther "wireguard.address must be CIDR")
  | Some (ip, _) => reject (is_v4 ip) "wireguard.address must be IPv6"
  end ;;
  validate_peers (wg_Peers c) {| seen_names := []; seen_keys := []; seen_ips := [] |}.

Definition HostFirewall_Validate (c : HostFirewallConfig) : result unit :=
  reject (fw_Enabled c && is_empty (fw_Backend c))
    "host_firewall.backend is required when host_firewall.enabled is true" ;;
  reject (negb (is_empty (fw_Backend c)) && negb (bool_decide (fw_Backend c = "ip6tables")))
    "host_firewall.backend must be ip6tables".

(** [host:port] with both parts present. *)
Definition bad_upstream (upstream : string) : bool :=
  match SplitHostPort upstream with
  | Some (host, port) => is_empty host || is_empty port
  | None => true
  end.

Definition Validate (c : Config) : result unit :=
  reject (is_empty (BaseDomain c)) "base_domain is required" ;;
  reject (GoStrings.Contains (BaseDomain c) "://") "base_domain must be a DNS name, not a URL" ;;
  reject (bad_port (DefaultHTTPPort c)) "default_http_port must be between 1 and 65535" ;;
  reject (is_empty (StateDir c)) "state_dir is required" ;;
  reject (bad_port (api_Port (API c))) "api.port must be between 1 and 65535" ;;
  reject (bad_port (cd_HTTPPort (Caddy c))) "caddy.http_port must be between 1 and 65535" ;;
  reject (bad_port (cd_HTTPSPort (Caddy c))) "caddy.https_port must be between 1 and 65535" ;;
  reject (bad_port (cd_InternalProxyPort (Caddy c)))
    "caddy.internal_proxy_port must be between 1 and 65535" ;;
  reject (is_empty (cd_TLSMode (Caddy c))) "caddy.tls_mode is required" ;;
  reject (negb (bool_decide (cd_TLSMode (Caddy c) = "auto")) &&
          negb (bool_decide (cd_TLSMode (Caddy c) = "behind_proxy")))
    "caddy.tls_mode must be auto or behind_proxy" ;;
  reject (is_empty (md_Path (Metadata c))) "metadata.path is required" ;;
  WireGuard_Validate (WireGuard c) ;;
  HostFirewall_Validate (HostFirewall c) ;;
  reject (bad_port (gc_MemoryPort (GuestControl c)))
    "guest_control.memory_port must be between 1 and 65535" ;;
  match ParseCIDR (vn_Subnet (VMNetwork c)) with
  | None => Err (ErrOther "vm_network.subnet must be CIDR")
  | Some (ip, _) => reject (is_v4 ip) "vm_network.subnet must be IPv6"
  end ;;
  match ParseCIDR (vn_IPv4Subnet (VMNetwork c)) with
  | None => Err (ErrOther "vm_network.ipv4_subnet must be CIDR")
  | Some (ip, _) => reject (negb (is_v4 ip)) "vm_network.ipv4_subnet must be IPv4"
  end ;;
  (if dns_Enabled (DNS c) then
     reject (is_empty (dns_Domain (DNS c))) "dns.domain is required when dns is enabled" ;;
     reject (GoStrings.Contains (dns_Domain (DNS c)) "://") "dns.domain must be a DNS name, not a URL" ;;
     reject (bool_decide (ParseIP (dns_ListenIP (DNS c)) = None)) "dns.listen_ip must be an IP address" ;;
     reject (bad_port (dns_Port (DNS c))) "dns.port must be between 1 and 65535" ;;
     reject (bool_decide (dns_TTLSeconds (DNS c) ≤ 0)) "dns.ttl_seconds must be positive" ;;
     reject (existsb bad_upstream (dns_UpstreamServers (DNS c))) "dns.upstream_servers must be host:port"
   else Ok tt) ;;
  reject (is_empty (ssh_User (SSH c))) "ssh.user is required" ;;
  reject (bad_port (ssh_WakeProxyPort (SSH c))) "ssh.wake_proxy_port must be between 1 and 65535" ;;
  reject (bool_decide (idle_CheckIntervalSeconds (Idle c) ≤ 0))
    "idle.check_interval_seconds must be positive" ;;
  reject (bool_decide (idle_DefaultSleepAfterSeconds (Idle c) < 0))
    "idle.default_sleep_after_seconds cannot be negative" ;;
  reject (bool_decide (cold_ArchiveStoppedAfterSeconds (ColdStorage c) < 0))
    "cold_storage.archive_stopped_after_seconds cannot be negative" ;;
  reject (is_empty (fc_BinaryPath (Firecracker c))) "firecracker.binary_path is required" ;;
  reject (is_empty (fc_BaseKernelPath (Firecracker c))) "firecracker.base_kernel_path is required" ;;
  reject (is_empty (fc_BaseRootfsPath (Firecracker c))) "firecracker.base_rootfs_path is required" ;;
  reject (bool_decide (fc_DefaultVCPUs (Firecracker c) ≤ 0))
    "firecracker.default_vcpus must be positive" ;;
  reject (bool_decide (fc_DefaultMemoryMinMiB (Firecracker c) ≤ 0))
    "firecracker.default_memory_min_mib must be positive" ;;
  reject (bool_decide (fc_DefaultMemoryMaxMiB (Firecracker c) ≤ 0))
    "firecracker.default_memory_max_mib must be positive" ;;
  reject (bool_decide (fc_DefaultMemoryMaxMiB (Firecracker c) < fc_DefaultMemoryMinMiB (Firecracker c)))
    "firecracker.default_memory_min_mib must be less than or equal to firecracker.default_memory_max_mib" ;;
  reject (bool_decide (fc_DefaultDiskBytes (Firecracker c) ≤ 0))
    "firecracker.default_disk_bytes must be positive".

(** ** FirstUsableIP

    The IPv4 branch increments the last byte alone, without a carry; the IPv6
    branch carries through all sixteen bytes.  Both start from the address as
    written, not from the network's. *)
Definition FirstUsableIP (cidr : string) : result Z :=
  match ParseCIDR cidr with
  | None => Err (ErrOther "parse subnet")
  | Some (ip, subnet) =>
      let ip' := if is_v4 ip then ip / 256 * 256 + (ip mod 256 + 1) mod 256
                 else (ip + 1) mod 2 ^ 128 in
      if Contains subnet ip' then Ok ip' else Err (ErrOther "subnet has no usable DNS IP")
  end.

(** ** applyDerivedDefaults *)

Definition or_string (s d : string) : string := if is_empty s then d else s.
Definition or_int (n d : Z) : Z := if bool_decide (n = 0) then d else n.

Definition applyDerivedDefaults (c : Config) : result Config :=
  let stateDir := or_string (StateDir c) "/var/lib/firedoze" in
  let metadata := {| md_Path := or_string (md_Path (Metadata c)) (path_Join [stateDir; "firedoze.db"]) |} in
  let cold := {| cold_Dir := cold_Dir (ColdStorage c);
                 cold_ArchiveStoppedAfterSeconds :=
                   or_int (cold_ArchiveStoppedAfterSeconds (ColdStorage c)) (30 * 24 * 60 * 60) |} in
  let net := {| vn_Subnet := vn_Subnet (VMNetwork c);
                vn_IPv4Subnet := or_string (vn_IPv4Subnet (VMNetwork c)) "10.88.0.0/16" |} in
  dns ← (if dns_Enabled (DNS c) then
           listen ← (if is_empty (dns_ListenIP (DNS c)) then
                       ip ← FirstUsableIP (vn_Subnet net); Ok (IP_String ip)
                     else Ok (dns_ListenIP (DNS c)));
           Ok {| dns_Enabled := true;
                 dns_Domain := or_string (dns_Domain (DNS c)) "firedoze";
                 dns_ListenIP := listen;
                 dns_Port := or_int (dns_Port (DNS c)) 53;
                 dns_TTLSeconds := or_int (dns_TTLSeconds (DNS c)) 30;
                 dns_UpstreamServers :=
                   match dns_UpstreamServers (DNS c) with
                   | [] => ["1.1.1.1:53"; "8.8.8.8:53"]
                   | l => l
                   end |}
         else Ok (DNS c));
  Ok {| BaseDomain := BaseDomain c; DefaultHTTPPort := DefaultHTTPPort c; StateDir := stateDir;
        API := API c; Caddy := Caddy c; Metadata := metadata; WireGuard := WireGuard c;
        HostFirewall := HostFirewall c; GuestControl := GuestControl c; VMNetwork := net;
        DNS := dns; SSH := SSH c; Idle := Idle c; ColdStorage := cold;
        Firecracker := Firecracker c |}.

(** ** Load *)

(** What the TOML decoder gives [Load]: the file decoded over the defaults, and
    the two optional keys of [host_firewall] on their own. *)
Class Toml := {
  toml_Unmarshal_over : string → Config → result Config;
  toml_host_firewall : string → result (option bool * option string);
}.

Section load.
Context `{Toml}.

Definition validateExplicitHostFirewall (data : string) : result unit :=
  '(en, backend) ← toml_host_firewall data;
  let enabled := default true en in
  reject (enabled && bool_decide (backend = None))
    "host_firewall.backend is required when host_firewall.enabled is true".

(** [os.ReadFile(path)] is the argument: the data, or an error. *)
Definition Load (read : string → result string) (path : string) : result Config :=
  let path := if is_empty path then DefaultPath else path in
  match read path with
  | Err e =>
      if bool_decide (e = ErrNotExist) && bool_decide (path = DefaultPath) then
        cfg ← applyDerivedDefaults Default; Validate cfg ;; Ok cfg
      else Err e
  | Ok data =>
      cfg ← toml_Unmarshal_over data Default;
      validateExplicitHostFirewall data ;;
      cfg ← applyDerivedDefaults cfg;
      Validate cfg ;; Ok cfg
  end.
End load.

(** ** What the checks accept *)

Lemma result_bind_Ok {A B} (r : result A) (k : A → result B) b :
  r ≫= k = Ok b ↔ ∃ a, r = Ok a ∧ k a = Ok b.
Proof.
  destruct r as [a|e]; split; [eauto| |done|].
  - by intros (a' & [= <-] & ?).
  - by intros (a' & ? & _).
Qed.

Lemma reject_bind {B} b msg (k : result B) x :
  (reject b msg ;; k) = Ok x ↔ b = false ∧ k = Ok x.
Proof. destruct b; simpl; naive_solver. Qed.

Lemma reject_Ok b msg : reject b msg = Ok tt ↔ b = false.
Proof. by destruct b. Qed.

Lemma unit_bind_Ok (r : result unit) (k : result unit) :
  (r ;; k) = Ok tt ↔ r = Ok tt ∧ k = Ok tt.
Proof. destruct r as [[]|e]; simpl; naive_solver. Qed.

Definition port_valid (p : Z) : Prop := 1 ≤ p ≤ 65535.

Lemma bad_port_false p : bad_port p = false ↔ port_valid p.
Proof. unfold bad_port, port_valid. rewrite orb_false_iff, !bool_decide_eq_false. lia. Qed.

Lemma is_empty_false s : is_empty s = false ↔ s ≠ "".
Proof. apply bool_decide_eq_false. Qed.

(** The network an [allowed_ips] entry stands for, in its normal form. *)
Definition allowed_net (s : string) : option string :=
  '(ip, n) ← ParseCIDR s; (if is_v4 ip then None else Some (IPNet_String n)).

Definition peer_nets (p : WGPeer) : list string := omap allowed_net (peer_AllowedIPs p).

Definition peer_valid (p : WGPeer) : Prop :=
  peer_Name p ≠ "" ∧ peer_PublicKey p ≠ "" ∧ peer_AllowedIPs p ≠ [] ∧
  Forall (λ s, is_Some (allowed_net s)) (peer_AllowedIPs p).

(** Every peer is complete, and no two peers share a name, a key or a network. *)
Definition peers_valid (ps : list WGPeer) : Prop :=
  Forall peer_valid ps ∧ NoDup (peer_Name <$> ps) ∧ NoDup (peer_PublicKey <$> ps) ∧
  NoDup (ps ≫= peer_nets).

Lemma validate_allowed_ips_cons s ips acc out :
  validate_allowed_ips (s :: ips) acc = Ok out ↔
  ∃ x, allowed_net s = Some x ∧ (x ∉ acc) ∧ validate_allowed_ips ips (x :: acc) = Ok out.
Proof.
  cbn [validate_allowed_ips]. unfold allowed_net.
  destruct (ParseCIDR s) as [[ip n]|]; cbn [mbind option_bind]; [|naive_solver].
  destruct (is_v4 ip); [naive_solver|]. case_bool_decide; naive_solver.
Qed.

Lemma validate_allowed_ips_Ok ips : ∀ acc out,
  NoDup acc →
  validate_allowed_ips ips acc = Ok out ↔
  Forall (λ s, is_Some (allowed_net s)) ips ∧
  out = reverse (omap allowed_net ips) ++ acc ∧ NoDup (omap allowed_net ips ++ acc).
Proof.
  induction ips as [|s ips IH]; intros acc out Hacc.
  { simpl. split; [intros [= ->]; done|]. by intros (_ & -> & _). }
  rewrite validate_allowed_ips_cons, Forall_cons. cbn [omap list_omap].
  destruct (allowed_net s) as [x|].
  - rewrite reverse_cons, <-(assoc (++)). simpl. rewrite NoDup_cons, elem_of_app.
    split.
    + intros (? & [= <-] & Hx & Hv). apply IH in Hv as (HF & -> & HN); [|by apply NoDup_cons].
      rewrite <-Permutation_middle, NoDup_cons, elem_of_app in HN. naive_solver.
    + intros ([_ HF] & -> & [Hx HN]). exists x. split; [done|]. split; [tauto|].
      apply IH; [by apply NoDup_cons; tauto|]. split; [done|]. split; [done|].
      rewrite <-Permutation_middle, NoDup_cons, elem_of_app. tauto.
  - split; [by intros (? & ? & _)|]. by intros ([[? ?] _] & _).
Qed.

Lemma validate_peers_Ok ps : ∀ sn,
  NoDup (seen_names sn) → NoDup (seen_keys sn) → NoDup (seen_ips sn) →
  validate_peers ps sn = Ok tt ↔
  Forall peer_valid ps ∧ NoDup ((peer_Name <$> ps) ++ seen_names sn) ∧
  NoDup ((peer_PublicKey <$> ps) ++ seen_keys sn) ∧ NoDup ((ps ≫= peer_nets) ++ seen_ips sn).
Proof.
  induction ps as [|p ps IH]; intros [ns ks is_] Hn Hk Hi; [simpl in *; naive_solver|].
  cbn [validate_peers fmap list_fmap mbind list_bind app seen_names seen_keys seen_ips].
  rewrite !reject_bind, result_bind_Ok, !is_empty_false, !bool_decide_eq_false, Forall_cons.
  setoid_rewrite validate_allowed_ips_Ok; [|done].
  change (list_omap _ _ allowed_net (peer_AllowedIPs p)) with (peer_nets p).
  unfold peer_valid at 1. rewrite !NoDup_cons, !elem_of_app, <-(assoc (++)), length_zero_iff_nil.
  fold (peer_nets p). rewrite (Permutation_app_comm (peer_nets p) (_ ++ is_)), <-(assoc (++)).
  rewrite (Permutation_app_comm is_ (peer_nets p)).
  split.
  - intros (? & ? & ? & ? & ? & out & (? & -> & HN) & Hrest).
    apply IH in Hrest; simpl; [|by apply NoDup_cons..|by rewrite reverse_Permutation].
    cbn [seen_names seen_keys seen_ips] in Hrest.
    destruct Hrest as (HF & Hns & Hks & His).
    rewrite <-Permutation_middle, NoDup_cons, elem_of_app in Hns.
    rewrite <-Permutation_middle, NoDup_cons, elem_of_app in Hks.
    rewrite reverse_Permutation in His. naive_solver.
  - intros (((? & ? & ? & ?) & HF) & [? ?] & [? ?] & His).
    assert (NoDup (peer_nets p ++ is_)) as HN by (by apply NoDup_app in His as (_ & _ & ?)).
    split_and!; try done; [naive_solver..|].
    eexists. split; [done|]. apply IH; simpl; [apply NoDup_cons; naive_solver..| |].
    { by rewrite reverse_Permutation. }
    rewrite <-!Permutation_middle, !NoDup_cons, !elem_of_app, reverse_Permutation. naive_solver.
Qed.

Definition cidr_v6 (s : string) : Prop := ∃ ip n, ParseCIDR s = Some (ip, n) ∧ is_v4 ip = false.
Definition cidr_v4 (s : string) : Prop := ∃ ip n, ParseCIDR s = Some (ip, n) ∧ is_v4 ip = true.

(** The declarative counterpart of [Validate]. *)
Record wireguard_valid (c : WireGuardConfig) : Prop := {
  wgv_interface : wg_Interface c ≠ "";
  wgv_port : port_valid (wg_ListenPort c);
  wgv_key : wg_PrivateKeyFile c ≠ "";
  wgv_address : cidr_v6 (wg_Address c);
  wgv_peers : peers_valid (wg_Peers c);
}.

Record dns_valid (c : DNSConfig) : Prop := {
  dv_domain : dns_Domain c ≠ "" ∧ GoStrings.Contains (dns_Domain c) "://" = false;
  dv_listen : is_Some (ParseIP (dns_ListenIP c));
  dv_port : port_valid (dns_Port c);
  dv_ttl : 0 < dns_TTLSeconds c;
  dv_upstreams : Forall (λ u, ∃ h p, SplitHostPort u = Some (h, p) ∧ h ≠ "" ∧ p ≠ "")
                   (dns_UpstreamServers c);
}.

Record config_valid (c : Config) : Prop := {
  cv_domain : BaseDomain c ≠ "" ∧ GoStrings.Contains (BaseDomain c) "://" = false;
  cv_state_dir : StateDir c ≠ "";
  cv_ports : Forall port_valid
    [DefaultHTTPPort c; api_Port (API c); cd_HTTPPort (Caddy c); cd_HTTPSPort (Caddy c);
     cd_InternalProxyPort (Caddy c); gc_MemoryPort (GuestControl c); ssh_WakeProxyPort (SSH c)];
  cv_tls : cd_TLSMode (Caddy c) = "auto" ∨ cd_TLSMode (Caddy c) = "behind_proxy";
  cv_metadata : md_Path (Metadata c) ≠ "";
  cv_wireguard : wireguard_valid (WireGuard c);
  cv_firewall : fw_Backend (HostFirewall c) = "ip6tables" ∨
                fw_Enabled (HostFirewall c) = false ∧ fw_Backend (HostFirewall c) = "";
  cv_subnet : cidr_v6 (vn_Subnet (VMNetwork c));
  cv_ipv4_subnet : cidr_v4 (vn_IPv4Subnet (VMNetwork c));
  cv_dns : dns_Enabled (DNS c) = true → dns_valid (DNS c);
  cv_ssh : ssh_User (SSH c) ≠ "";
  cv_idle : 0 < idle_CheckIntervalSeconds (Idle c) ∧ 0 ≤ idle_DefaultSleepAfterSeconds (Idle c);
  cv_cold : 0 ≤ cold_ArchiveStoppedAfterSeconds (ColdStorage c);
  cv_images : fc_BinaryPath (Firecracker c) ≠ "" ∧ fc_BaseKernelPath (Firecracker c) ≠ "" ∧
              fc_BaseRootfsPath (Firecracker c) ≠ "";
  cv_defaults : 0 < fc_DefaultVCPUs (Firecracker c) ∧
    0 < fc_DefaultMemoryMinMiB (Firecracker c) ≤ fc_DefaultMemoryMaxMiB (Firecracker c) ∧
    0 < fc_DefaultDiskBytes (Firecracker c);
}.

Lemma cidr_v6_Ok s e1 e2 :
  match ParseCIDR s with
  | None => Err e1
  | Some (ip, _) => reject (is_v4 ip) e2
  end = Ok tt ↔ cidr_v6 s.
Proof.
  unfold cidr_v6. destruct (ParseCIDR s) as [[ip n]|]; [rewrite reject_Ok|simpl]; naive_solver.
Qed.

Lemma cidr_v4_Ok s e1 e2 :
  match ParseCIDR s with
  | None => Err e1
  | Some (ip, _) => reject (negb (is_v4 ip)) e2
  end = Ok tt ↔ cidr_v4 s.
Proof.
  unfold cidr_v4. destruct (ParseCIDR s) as [[ip n]|]; [rewrite reject_Ok, negb_false_iff|simpl];
    naive_solver.
Qed.

Lemma WireGuard_Validate_Ok c : WireGuard_Validate c = Ok tt ↔ wireguard_valid c.
Proof.
  unfold WireGuard_Validate.
  rewrite !unit_bind_Ok, !reject_Ok, cidr_v6_Ok, !is_empty_false, bad_port_false.
  rewrite validate_peers_Ok by apply NoDup_nil_2. simpl. rewrite !app_nil_r.
  split; [intros (?&?&?&?&?); by split|]. intros []. split_and!; try done; apply wgv_peers0.
Qed.

Lemma HostFirewall_Validate_Ok c :
  HostFirewall_Validate c = Ok tt ↔
  fw_Backend c = "ip6tables" ∨ fw_Enabled c = false ∧ fw_Backend c = "".
Proof.
  unfold HostFirewall_Validate, is_empty. rewrite reject_bind, reject_Ok.
  destruct c as [en b]; simpl. destruct (decide (b = "")) as [->|E];
    [by destruct en; naive_solver|]. rewrite (bool_decide_eq_false_2 _ E), andb_false_r. simpl.
  rewrite negb_false_iff, bool_decide_eq_true. naive_solver.
Qed.

Lemma bad_upstreams_false us :
  existsb bad_upstream us = false ↔
  Forall (λ u, ∃ h p, SplitHostPort u = Some (h, p) ∧ h ≠ "" ∧ p ≠ "") us.
Proof.
  induction us as [|u us IH]; simpl; [done|]. rewrite orb_false_iff, Forall_cons, IH.
  unfold bad_upstream. destruct (SplitHostPort u) as [[h p]|]; [|naive_solver].
  rewrite orb_false_iff, !is_empty_false. naive_solver.
Qed.

Lemma tls_mode_false (m : string) :
  negb (bool_decide (m = "auto")) && negb (bool_decide (m = "behind_proxy")) = false ↔
  m = "auto" ∨ m = "behind_proxy".
Proof. rewrite andb_false_iff, !negb_false_iff, !bool_decide_eq_true. done. Qed.

Lemma dns_checks_Ok (c : DNSConfig) :
  is_empty (dns_Domain c) = false ∧ GoStrings.Contains (dns_Domain c) "://" = false ∧
  bool_decide (ParseIP (dns_ListenIP c) = None) = false ∧ bad_port (dns_Port c) = false ∧
  bool_decide (dns_TTLSeconds c ≤ 0) = false ∧
  existsb bad_upstream (dns_UpstreamServers c) = false ↔ dns_valid c.
Proof.
  rewrite is_empty_false, bad_port_false, bad_upstreams_false, !bool_decide_eq_false.
  split.
  - intros (?&?&?&?&?&?). split; try done; [by apply not_eq_None_Some|lia].
  - intros [[? ?] ?%not_eq_None_Some ? ? ?]. split_and!; try done. lia.
Qed.

Lemma Validate_Ok c : Validate c = Ok tt ↔ config_valid c.
Proof.
  unfold Validate.
  rewrite !unit_bind_Ok, WireGuard_Validate_Ok, HostFirewall_Validate_Ok, cidr_v6_Ok, cidr_v4_Ok.
  rewrite !reject_Ok, !is_empty_false, tls_mode_false, !bad_port_false, !bool_decide_eq_false.
  assert ((if dns_Enabled (DNS c) then _ else _) = Ok tt ↔
          (dns_Enabled (DNS c) = true → dns_valid (DNS c))) as ->.
  { destruct (dns_Enabled (DNS c)); [|naive_solver].
    rewrite !unit_bind_Ok, !reject_Ok, dns_checks_Ok. naive_solver. }
  split.
  - intros (?&?&?&?&?&?&?&?&?&?&?&?&?&?&?&?&?&?&?&?&?&?&?&?&?&?&?&?&?&?).
    split; try done; try lia; by repeat apply Forall_cons_2.
  - intros [? ? Hports ? ? ? ? ? ? ? ? ? ? ? ?]. rewrite !Forall_cons in Hports.
    destruct_and!. split_and!; try done; try lia. naive_solver congruence.
Qed.

(** C31.  [Validate] accepts a configuration exactly when it is valid in the
    declarative sense of [config_valid]: all ports in range, networks of the
    right family, a usable firewall backend, complete WireGuard peers of which
    no two share a name, a key or an allowed network, and positive resource
    defaults. *)
Theorem Validate_correct c : Validate c = Ok tt ↔ config_valid c.
Proof. apply Validate_Ok. Qed.

(** Whatever the file says (and for any decoder), a configuration that
    [Load] returns is valid; without a file at the default path it returns the
    built-in defaults, with the DNS listener on the first address of the VM
    subnet. *)
Theorem Load_valid `{Toml} read path :
  (∀ c, Load read path = Ok c → config_valid c) ∧
  (read DefaultPath = Err ErrNotExist → path = "" ∨ path = DefaultPath →
   ∃ c, Load read path = Ok c ∧ Firecracker c = Firecracker Default ∧
        VMNetwork c = VMNetwork Default ∧ dns_ListenIP (DNS c) = "fd7a:115c:a1e0::1").
Proof.
  split.
  - intros c. unfold Load. intros Hl.
    destruct (read _) as [data|e]; [|destruct (_ && _); [|done]];
      repeat (apply result_bind_Ok in Hl as (? & ? & Hl)); injection Hl as <-;
      apply Validate_Ok; by match goal with Hv : Validate _ = Ok ?u |- _ => destruct u end.
  - intros Hr Hp. unfold Load.
    assert ((if is_empty path then DefaultPath else path) = DefaultPath) as ->
      by (by destruct Hp as [-> | ->]).
    rewrite Hr. eexists. by vm_compute.
Qed.

Definition empty_toml : Toml :=
  {| toml_Unmarshal_over _ c := Ok c; toml_host_firewall _ := Ok (None, Some "ip6tables") |}.

Lemma Load_valid_witness :
  ∃ c, @Load empty_toml (λ _, Err ErrNotExist) "" = Ok c ∧ config_valid c.
Proof.
  destruct (@Load_valid empty_toml (λ _, Err ErrNotExist) "") as [Hv Hd].
  destruct (Hd eq_refl (or_introl eq_refl)) as (c & Hc & _).
  exists c. split; [exact Hc|]. exact (Hv c Hc).
Defined.
