(* ===== verification/PrivateNet.v ===== *)
(** * Private addresses of the VMs (internal/firecracker/manager.go)

    [nextPrivateIP] picks the address of a new VM, [privateIPv4Pair] derives
    the IPv4 pair of its TAP link, [tapName] the name of the device. *)

From S2P Require Import Prelude GoStrings IPNet Types Config.
Open Scope Z_scope.

(** ** nextPrivateIP *)

(** The search from [offset] on.  [None]: out of fuel. *)
Fixpoint next_loop (fuel : nat) (base : Z) (subnet : IPNet) (used : list string) (offset : Z)
    : option (result Z) :=
  match fuel with
  | O => None
  | S fuel' =>
      match addToIP base offset with
      | None => Some (Err (ErrOther "IP overflow"))
      | Some ip =>
          if negb (Contains subnet ip) then Some (Err (ErrOther "vm subnet exhausted"))
          else if bool_decide (IP_String ip ∈ used)
          then next_loop fuel' base subnet used (offset + 2)
          else Some (Ok ip)
      end
  end.

(** [used]: the addresses of the existing VMs.  The source's loop has no bound;
    one round more than there are used addresses is enough
    ([next_loop_enough]). *)
Definition nextPrivateIP (cidr : string) (vms : list VM) : option (result Z) :=
  match ParseCIDR cidr with
  | None => Some (Err (ErrOther "invalid CIDR address"))
  | Some (_, subnet) =>
      let base := net_ip subnet in
      if is_v4 base then Some (Err (ErrOther "vm_network.subnet must be IPv6"))
      else
        let used := filter (λ s, s ≠ "") (vm_PrivateIP <$> vms) in
        next_loop (S (length used)) base subnet used 3
  end.

(** ** privateIPv4Pair: (host, guest) *)

Definition privateIPv4Pair (net : VMNetworkConfig) (guestIPv6 : Z) : result (Z * Z) :=
  if is_v4 guestIPv6 then Err (ErrOther "private_ip must be IPv6") else
  match ParseCIDR (vn_Subnet net) with
  | None => Err (ErrOther "vm_network.subnet must be CIDR")
  | Some (_, ipv6Subnet) =>
      let ipv6Base := net_ip ipv6Subnet in
      if is_v4 ipv6Base then Err (ErrOther "vm_network.subnet must be IPv6") else
      if negb (Contains ipv6Subnet guestIPv6)
      then Err (ErrOther "private_ip is outside vm_network.subnet") else
      let offset := guestIPv6 - ipv6Base in
      if bool_decide (offset ≤ 0) || negb (Z.testbit offset 0)
      then Err (ErrOther "private_ip must be an odd guest address in a /127 pair") else
      if bool_decide (2 ^ 63 ≤ offset) || bool_decide (offset < - 2 ^ 63)
      then Err (ErrOther "offset does not fit IPv4 subnet") else
      match ParseCIDR (vn_IPv4Subnet net) with
      | None => Err (ErrOther "vm_network.ipv4_subnet must be CIDR")
      | Some (ipv4Base, ipv4Subnet) =>
          if negb (is_v4 ipv4Base) then Err (ErrOther "vm_network.ipv4_subnet must be IPv4") else
          match addToIPv4 ipv4Base offset with
          | None => Err (ErrOther "IPv4 overflow")
          | Some guestIPv4 =>
              match addToIPv4 ipv4Base (offset - 1) with
              | None => Err (ErrOther "IPv4 overflow")
              | Some hostIPv4 =>
                  if negb (Contains ipv4Subnet hostIPv4) || negb (Contains ipv4Subnet guestIPv4)
                  then Err (ErrOther "vm IPv4 subnet exhausted")
                  else Ok (hostIPv4, guestIPv4)
              end
          end
      end
  end.

(** ** tapName *)

Definition tapName (vmName : string) : string :=
  let name := "fdtap-" +:+ vmName in
  if bool_decide (15 < String.length name)%nat then str_take 15 name else name.

(** ** The search *)

Lemma IP_String_inj a b : ip_valid a → ip_valid b → IP_String a = IP_String b → a = b.
Proof.
  intros Ha Hb E. apply (f_equal ParseIP) in E. rewrite !ParseIP_String in E by done.
  by injection E.
Qed.

Lemma IP_String_nonempty a : ip_valid a → IP_String a ≠ "".
Proof. intros Ha E. pose proof (ParseIP_String a Ha) as Hp. by rewrite E in Hp. Qed.

Lemma addToIP_Some ip o x : addToIP ip o = Some x ↔ x = ip + o ∧ 0 ≤ ip + o < 2 ^ 128.
Proof. unfold addToIP. repeat case_bool_decide; naive_solver lia. Qed.

(** The candidates the search has passed over. *)
Definition candidates (base : Z) (n : nat) (offset : Z) : list string :=
  (λ i, IP_String (base + offset - 2 * Z.of_nat (S i))) <$> seq 0 n.

Lemma candidates_S base n offset :
  candidates base (S n) (offset + 2) ≡ₚ IP_String (base + offset) :: candidates base n offset.
Proof.
  unfold candidates. simpl. replace (base + (offset + 2) - 2) with (base + offset) by lia.
  rewrite <-fmap_S_seq, <-list_fmap_compose. 
  apply Permutation_refl'. f_equal; [f_equal; lia|].
  apply list_fmap_ext. intros i x _. simpl. f_equal. lia.
Qed.

(** An address reached by the search: [n] rounds have passed over used, valid
    and distinct addresses. *)
Definition searched (base : Z) (used : list string) (n : nat) (offset : Z) : Prop :=
  offset = 3 + 2 * Z.of_nat n ∧
  NoDup (candidates base n offset) ∧ candidates base n offset ⊆ used ∧
  ∀ i, (i < n)%nat → ip_valid (base + offset - 2 * Z.of_nat (S i)).

Lemma searched_bound base used n offset : searched base used n offset → (n ≤ length used)%nat.
Proof.
  intros (_ & Hnd & Hsub & _).
  assert (length (candidates base n offset) = n) as <-
    by (unfold candidates; by rewrite length_fmap, length_seq).
  apply NoDup_incl_length; [by apply NoDup_ListNoDup|]. intros x Hx.
  apply list_elem_of_In, Hsub, list_elem_of_In, Hx.
Qed.

Lemma searched_step base used n offset :
  searched base used n offset → ip_valid (base + offset) →
  IP_String (base + offset) ∈ used → searched base used (S n) (offset + 2).
Proof.
  intros (Ho & Hnd & Hsub & Hval) Hip Hu. split_and!; [lia|..].
  - rewrite candidates_S. apply NoDup_cons. split; [|done]. intros Hin.
    apply list_elem_of_fmap in Hin as (i & Hi & Hseq%elem_of_seq).
    apply IP_String_inj in Hi; [lia|done|apply Hval; lia].
  - rewrite candidates_S. set_solver.
  - intros [|i] Hi.
    + by replace (base + (offset + 2) - 2 * Z.of_nat 1) with (base + offset) by lia.
    + replace (base + (offset + 2) - 2 * Z.of_nat (S (S i)))
        with (base + offset - 2 * Z.of_nat (S i)) by lia. apply Hval. lia.
Qed.

(** With one round more than used addresses, the search ends. *)
Lemma next_loop_enough base subnet used : ∀ fuel n offset,
  searched base used n offset → (length used < fuel + n)%nat →
  ∃ r, next_loop fuel base subnet used offset = Some r.
Proof.
  induction fuel as [|fuel IH]; intros n offset Hs Hf.
  { apply searched_bound in Hs. lia. }
  simpl. destruct (addToIP base offset) as [ip|] eqn:Ha; [|eauto].
  destruct (Contains subnet ip); simpl; [|eauto].
  case_bool_decide as Hu; [|eauto].
  apply addToIP_Some in Ha as [-> Hv].
  eapply IH; [by apply searched_step|lia].
Qed.

(** What the search returns: the first candidate that is not used. *)
Lemma next_loop_spec base subnet used : ∀ fuel offset r,
  next_loop fuel base subnet used offset = Some r →
  ∃ k, let ip := base + offset + 2 * Z.of_nat k in
    (∀ i, (i < k)%nat → IP_String (base + offset + 2 * Z.of_nat i) ∈ used) ∧
    match r with
    | Ok ip' => ip' = ip ∧ ip_valid ip ∧ Contains subnet ip = true ∧ (IP_String ip ∉ used)
    | Err _ => ¬ ip_valid ip ∨ Contains subnet ip = false
    end.
Proof.
  induction fuel as [|fuel IH]; intros offset r; simpl; [done|].
  destruct (addToIP base offset) as [ip|] eqn:Ha.
  - apply addToIP_Some in Ha as [-> Hv]. destruct (Contains subnet (base + offset)) eqn:Hc; simpl.
    + case_bool_decide as Hu.
      * intros Hn. destruct (IH _ _ Hn) as (k & Hk & Hr). exists (S k).
        replace (base + offset + 2 * Z.of_nat (S k)) with (base + (offset + 2) + 2 * Z.of_nat k) by lia.
        split; [|done]. intros [|i] Hi; [by rewrite Z.add_0_r|].
        replace (base + offset + 2 * Z.of_nat (S i)) with (base + (offset + 2) + 2 * Z.of_nat i) by lia.
        apply Hk. lia.
      * intros [= <-]. exists 0%nat. rewrite Z.add_0_r. split; [lia|done].
    + intros [= <-]. exists 0%nat. rewrite Z.add_0_r. split; [lia|by right].
  - intros [= <-]. exists 0%nat. rewrite Z.add_0_r. split; [lia|left].
    intros Hv. unfold addToIP in Ha. unfold ip_valid in Hv. repeat case_bool_decide; done || lia.
Qed.

Lemma nextPrivateIP_total cidr ip0 subnet vms :
  ParseCIDR cidr = Some (ip0, subnet) → is_v4 (net_ip subnet) = false →
  ∃ r k, nextPrivateIP cidr vms = Some r ∧
    let cand i := net_ip subnet + 3 + 2 * Z.of_nat i in
    (∀ i, (i < k)%nat → ∃ vm, vm ∈ vms ∧ vm_PrivateIP vm = IP_String (cand i)) ∧
    match r with
    | Ok ip => ip = cand k ∧ ip_valid ip ∧ Contains subnet ip = true ∧
               ∀ vm, vm ∈ vms → vm_PrivateIP vm ≠ IP_String ip
    | Err _ => ¬ ip_valid (cand k) ∨ Contains subnet (cand k) = false
    end.
Proof.
  intros Hp Hv. unfold nextPrivateIP. rewrite Hp, Hv.
  set (used := filter _ _).
  assert (∀ x, x ∈ used → ∃ vm, vm ∈ vms ∧ vm_PrivateIP vm = x) as Hused.
  { intros x [_ Hx]%list_elem_of_filter. apply list_elem_of_fmap in Hx as (vm & -> & ?). eauto. }
  destruct (next_loop_enough (net_ip subnet) subnet used (S (length used)) 0 3) as [r Hr]; [|lia|].
  { split_and!; [done|apply NoDup_nil_2|set_solver|lia]. }
  destruct (next_loop_spec _ _ _ _ _ _ Hr) as (k & Hk & Hres). exists r, k.
  split; [done|]. cbv zeta in Hres |- *. split; [by intros i Hi; apply Hused, Hk|].
  destruct r as [ip|]; [|done]. destruct Hres as (-> & Hval & Hc & Hfree).
  split_and!; try done. intros vm Hvm E. apply Hfree. rewrite <-E.
  apply list_elem_of_filter. split; [rewrite E; by apply IP_String_nonempty|].
  apply list_elem_of_fmap. eauto.
Qed.

Lemma nextPrivateIP_spec cidr ip0 subnet vms ip :
  ParseCIDR cidr = Some (ip0, subnet) → is_v4 (net_ip subnet) = false →
  nextPrivateIP cidr vms = Some (Ok ip) →
  ∃ k : nat, ip = net_ip subnet + 3 + 2 * Z.of_nat k ∧ ip_valid ip ∧ Contains subnet ip = true ∧
    ∀ vm, vm ∈ vms → vm_PrivateIP vm ≠ IP_String ip.
Proof.
  intros Hp Hv Hn. destruct (nextPrivateIP_total cidr ip0 subnet vms Hp Hv) as (r & k & Hr & _ & H).
  rewrite Hn in Hr. injection Hr as <-. by exists k.
Qed.

(** [nextPrivateIP] always terminates: it returns the first address at an
    odd offset of at least 3 whose text no VM has, inside the subnet, or an
    error when the search leaves the subnet with every candidate before taken. *)
Theorem nextPrivateIP_correct cidr ip0 subnet vms :
  ParseCIDR cidr = Some (ip0, subnet) → is_v4 (net_ip subnet) = false →
  ∃ r k, nextPrivateIP cidr vms = Some r ∧
    let cand i := net_ip subnet + 3 + 2 * Z.of_nat i in
    (∀ i, (i < k)%nat → ∃ vm, vm ∈ vms ∧ vm_PrivateIP vm = IP_String (cand i)) ∧
    match r with
    | Ok ip => ip = cand k ∧ ip_valid ip ∧ Contains subnet ip = true ∧
               ∀ vm, vm ∈ vms → vm_PrivateIP vm ≠ IP_String ip
    | Err _ => ¬ ip_valid (cand k) ∨ Contains subnet (cand k) = false
    end.
Proof. apply nextPrivateIP_total. Qed.

(** ** The IPv4 pair *)

Lemma addToIPv4_Some ip o x :
  addToIPv4 ip o = Some x ↔
  is_v4 ip = true ∧ x = of_v4 (v4_value ip + o) ∧ 0 ≤ v4_value ip + o ≤ 0xffffffff.
Proof.
  unfold addToIPv4. destruct (is_v4 ip); simpl; [|naive_solver].
  case_bool_decide; naive_solver lia.
Qed.

Lemma privateIPv4Pair_Ok net g h4 g4 :
  privateIPv4Pair net g = Ok (h4, g4) →
  ∃ i6 n6 i4 n4, ParseCIDR (vn_Subnet net) = Some (i6, n6) ∧
    ParseCIDR (vn_IPv4Subnet net) = Some (i4, n4) ∧
    Contains n6 g = true ∧ 0 < g - net_ip n6 ∧ Z.odd (g - net_ip n6) = true ∧
    g4 = of_v4 (v4_value i4 + (g - net_ip n6)) ∧ h4 = g4 - 1 ∧
    Contains n4 h4 = true ∧ Contains n4 g4 = true.
Proof.
  unfold privateIPv4Pair. destruct (is_v4 g); [done|].
  destruct (ParseCIDR (vn_Subnet net)) as [[i6 n6]|]; [|done].
  destruct (is_v4 (net_ip n6)); [done|]. destruct (Contains n6 g) eqn:Hc; simpl; [|done].
  set (o := g - net_ip n6). destruct (bool_decide (o ≤ 0)) eqn:Ho; simpl; [done|].
  destruct (Z.odd o) eqn:Hodd; simpl; [|done]. destruct (_ || _); [done|].
  destruct (ParseCIDR (vn_IPv4Subnet net)) as [[i4 n4]|]; [|done].
  destruct (is_v4 i4) eqn:Hv4; simpl; [|done].
  destruct (addToIPv4 i4 o) as [a|] eqn:Ha; [|done].
  destruct (addToIPv4 i4 (o - 1)) as [b|] eqn:Hb; [|done].
  apply addToIPv4_Some in Ha as (_ & -> & _). apply addToIPv4_Some in Hb as (_ & -> & _).
  destruct (Contains n4 (of_v4 (v4_value i4 + (o - 1)))) eqn:Hc1; simpl; [|done].
  destruct (Contains n4 (of_v4 (v4_value i4 + o))) eqn:Hc2; simpl; [|done].
  intros [= <- <-]. apply bool_decide_eq_false in Ho.
  exists i6, n6, i4, n4. split_and!; try done; [lia|unfold of_v4; lia].
Qed.

(** The links of two VMs never overlap: if two different guest addresses
    are accepted, their /127 pairs and their IPv4 pairs are disjoint, the
    guest's address follows the host's in both, and both IPv4 addresses lie in
    the IPv4 subnet; the pair is an aligned /31 when the subnet's address is
    even. *)
Theorem privateIPv4Pair_disjoint net a b ha ga hb gb :
  privateIPv4Pair net a = Ok (ha, ga) → privateIPv4Pair net b = Ok (hb, gb) → a ≠ b →
  ga = ha + 1 ∧ gb = hb + 1 ∧
  ga ≠ gb ∧ ga ≠ hb ∧ ha ≠ gb ∧ ha ≠ hb ∧ a ≠ b - 1 ∧ b ≠ a - 1 ∧
  (∀ i4 n4, ParseCIDR (vn_IPv4Subnet net) = Some (i4, n4) →
     Contains n4 ha = true ∧ Contains n4 ga = true ∧
     (Z.even (v4_value i4) = true → Z.even ha = true)).
Proof.
  intros Ha Hb Hab.
  apply privateIPv4Pair_Ok in Ha as (i6 & n6 & i4 & n4 & H6 & H4 & _ & _ & Hoa & -> & -> & Hc1 & Hc2).
  apply privateIPv4Pair_Ok in Hb as (i6' & n6' & i4' & n4' & H6' & H4' & _ & _ & Hob & -> & -> & _ & _).
  rewrite H6 in H6'. injection H6' as <- <-. rewrite H4 in H4'. injection H4' as <- <-.
  apply Z.odd_spec in Hoa as [ka Hka]. apply Z.odd_spec in Hob as [kb Hkb].
  unfold of_v4 in *. split_and!; try lia.
  intros j4 m4 E. rewrite H4 in E. injection E as <- <-. split_and!; [done..|].
  intros [q Hq]%Z.even_spec. apply Z.even_spec. rewrite Hq, Hka. unfold v4_prefix.
  exists (0xffff * 2 ^ 31 + q + ka). lia.
Qed.

(** ** Allocated addresses *)

(** An address [nextPrivateIP] allocates can be used: its text parses back
    to it, its /127 peer exists, neither of the two is the DNS address
    [FirstUsableIP] reserves when the subnet is written with its network
    address, and [privateIPv4Pair] accepts it whenever the offset fits the
    IPv4 subnet. *)
Theorem nextPrivateIP_usable net ip0 n6 i4 n4 vms ip :
  ParseCIDR (vn_Subnet net) = Some (ip0, n6) → ip0 = net_ip n6 → is_v4 ip0 = false →
  0 ≤ ip0 < 2 ^ 128 - 2 →
  ParseCIDR (vn_IPv4Subnet net) = Some (i4, n4) → is_v4 i4 = true →
  nextPrivateIP (vn_Subnet net) vms = Some (Ok ip) → is_v4 ip = false →
  ParseIP (IP_String ip) = Some ip ∧ decrementIP ip = Some (ip - 1) ∧
  (∀ dns, FirstUsableIP (vn_Subnet net) = Ok dns → dns ≠ ip ∧ dns ≠ ip - 1) ∧
  let off := ip - net_ip n6 in
  (off < 2 ^ 63 → v4_value i4 + off ≤ 0xffffffff →
   Contains n4 (of_v4 (v4_value i4 + off)) = true →
   Contains n4 (of_v4 (v4_value i4 + off - 1)) = true →
   privateIPv4Pair net ip = Ok (of_v4 (v4_value i4 + off - 1), of_v4 (v4_value i4 + off))).
Proof.
  intros H6 -> Hv6 Hr H4 Hv4 Hn Hip.
  destruct (nextPrivateIP_spec _ _ _ _ _ H6 Hv6 Hn) as (k & Hk & Hval & Hc & _).
  split_and!.
  - by apply ParseIP_String.
  - apply addToIP_Some. unfold ip_valid in Hval. lia.
  - intros dns Hdns. unfold FirstUsableIP in Hdns. rewrite H6, Hv6 in Hdns.
    rewrite Z.mod_small in Hdns by lia. destruct (Contains n6 (net_ip n6 + 1)); [|done].
    injection Hdns as <-. lia.
  - intros off Hoff Hmax Hcg Hch. unfold privateIPv4Pair. rewrite Hip, H6, Hv6, Hc. simpl. fold off.
    rewrite (bool_decide_eq_false_2 (off ≤ 0)) by (unfold off; lia). simpl.
    assert (Z.odd off = true) as -> by (apply Z.odd_spec; exists (1 + Z.of_nat k); unfold off; lia).
    simpl. rewrite !bool_decide_eq_false_2 by (unfold off in *; lia). simpl. rewrite H4, Hv4. simpl.
    pose proof (Z.mod_pos_bound i4 (2 ^ 32) ltac:(lia)) as Hlow. fold (v4_value i4) in Hlow.
    rewrite (proj2 (addToIPv4_Some i4 off _)) by (split_and!; [done|done|unfold off in *; lia..]).
    rewrite (proj2 (addToIPv4_Some i4 (off - 1) _)) by (split_and!; [done|done|unfold off in *; lia..]).
    replace (v4_value i4 + (off - 1)) with (v4_value i4 + off - 1) by lia.
    by rewrite Hch, Hcg.
Qed.

(** ** TAP device names *)

Lemma tapName_take name : tapName name = "fdtap-" +:+ str_take 9 name.
Proof.
  unfold tapName. rewrite str_length_app. change (String.length "fdtap-") with 6%nat.
  case_bool_decide; [done|]. by rewrite (str_take_all 9 name) by lia.
Qed.

(** The device name keeps nine characters of the VM name, which fits the
    kernel's limit of 15, and two VMs share one device exactly when those nine
    characters agree. *)
Theorem tapName_shared a b :
  (String.length (tapName a) ≤ 15)%nat ∧
  (tapName a = tapName b ↔ str_take 9 a = str_take 9 b).
Proof.
  rewrite !tapName_take. split.
  - rewrite str_length_app, length_str_take. change (String.length "fdtap-") with 6%nat. lia.
  - split; [|by intros ->]. by intros [= ?].
Qed.

(** ** Examples: the default networks *)

Definition default_net : VMNetworkConfig := VMNetwork Default.

Definition vm_at (ip : string) : VM :=
  MkVM "u" "web" "stopped" ip 1 384 1024 0 8080 0 "" "" "1" "" "" "" "" true true.

Definition default_base : Z := 0xfd7a115ca1e000000000000000000000.

Lemma nextPrivateIP_correct_witness :
  ParseCIDR "fd7a:115c:a1e0::/64" = Some (default_base, MkIPNet default_base 64 128) ∧
  nextPrivateIP "fd7a:115c:a1e0::/64" [vm_at "fd7a:115c:a1e0::3"] = Some (Ok (default_base + 5)).
Proof.
  assert (ParseCIDR "fd7a:115c:a1e0::/64" = Some (default_base, MkIPNet default_base 64 128)) as Hp
    by (vm_compute; reflexivity).
  split; [exact Hp|].
  destruct (nextPrivateIP_correct "fd7a:115c:a1e0::/64" default_base (MkIPNet default_base 64 128)
              [vm_at "fd7a:115c:a1e0::3"] Hp eq_refl) as (r & k & Hr & _).
  rewrite Hr. vm_compute in Hr. by injection Hr as <-.
Defined.

Lemma privateIPv4Pair_disjoint_witness :
  privateIPv4Pair default_net (default_base + 3) = Ok (of_v4 0x0a580002, of_v4 0x0a580003) ∧
  privateIPv4Pair default_net (default_base + 5) = Ok (of_v4 0x0a580004, of_v4 0x0a580005) ∧
  of_v4 0x0a580003 ≠ of_v4 0x0a580004.
Proof.
  assert (privateIPv4Pair default_net (default_base + 3) = Ok (of_v4 0x0a580002, of_v4 0x0a580003))
    as Ha by (vm_compute; reflexivity).
  assert (privateIPv4Pair default_net (default_base + 5) = Ok (of_v4 0x0a580004, of_v4 0x0a580005))
    as Hb by (vm_compute; reflexivity).
  split; [exact Ha|]. split; [exact Hb|].
  apply (privateIPv4Pair_disjoint default_net _ _ _ _ _ _ Ha Hb). vm_compute. discriminate.
Defined.

Lemma nextPrivateIP_usable_witness :
  nextPrivateIP (vn_Subnet default_net) [] = Some (Ok (default_base + 3)) ∧
  decrementIP (default_base + 3) = Some (default_base + 2).
Proof.
  assert (nextPrivateIP (vn_Subnet default_net) [] = Some (Ok (default_base + 3))) as Hn
    by (vm_compute; reflexivity).
  split; [exact Hn|].
  destruct (nextPrivateIP_usable default_net default_base (MkIPNet default_base 64 128)
              (of_v4 0x0a580000) (MkIPNet (of_v4 0x0a580000) 16 32) [] (default_base + 3))
    as (_ & Hd & _); [vm_compute; reflexivity..| |vm_compute; reflexivity|vm_compute; reflexivity|
                      exact Hn|vm_compute; reflexivity|exact Hd].
  vm_compute. split; [discriminate|reflexivity].
Defined.
