(* ===== verification/Memory.v ===== *)
(** * Guest memory (internal/firecracker/manager.go)

    The memory range of a VM, its boot configuration on a host with or without
    enough physical address bits for virtio-mem, and the hotplug size asked of
    Firecracker for a target.  Integers are Go's 64-bit [int] and [uint64]:
    the sums and shifts that can leave the range are wrapped as Go wraps them. *)

From S2P Require Import Prelude GoStrings Types.
Open Scope Z_scope.

Definition firecrackerVirtioMemBaseAddress : Z := 512 * 2 ^ 30.

Definition validateMemoryHotplugRange (minMiB maxMiB : Z) : result unit :=
  if bool_decide (minMiB ≤ 0) || bool_decide (maxMiB ≤ 0)
  then Err (ErrOther "memory_min_mib and memory_max_mib must be positive")
  else
    let delta := wrap64 (maxMiB - minMiB) in
    if bool_decide (delta = 0) then Ok tt
    else if bool_decide (delta < 128) || negb (bool_decide (Z.rem delta 128 = 0))
    then Err (ErrOther "memory_max_mib - memory_min_mib must be zero or a positive multiple of 128")
    else Ok tt.

(** [bits.Len64]: the number of bits needed for [x]. *)
Definition Len64 (x : Z) : Z := if bool_decide (x = 0) then 0 else Z.log2 x + 1.

Definition requiredVirtioMemPhysicalAddressBits (hotplugMiB : Z) : Z :=
  if bool_decide (hotplugMiB ≤ 0) then 0
  else
    let hotplugEnd :=
      u64 (u64 (firecrackerVirtioMemBaseAddress + u64 (Z.shiftl (u64 hotplugMiB) 20)) - 1) in
    Len64 hotplugEnd.

(** ** The host's address width, from /proc/cpuinfo *)

Definition newline_char : ascii := ascii_of_nat 10.

Section cpuinfo.
Context `{GoUnicode}.

(** [for i, field := range fields]: [prev2] and [prev1] are the two fields
    before, when there are two. *)
Fixpoint scan_fields (prev2 prev1 : option string) (fields : list string) : option Z :=
  match fields with
  | [] => None
  | field :: rest =>
      let found :=
        match prev2, prev1 with
        | Some n, Some bits =>
            if bool_decide (TrimSuffix field "," = "physical") && bool_decide (bits = "bits")
            then match ParseInt n with
                 | Some value => if bool_decide (0 < value) then Some value else None
                 | None => None
                 end
            else None
        | _, _ => None
        end in
      match found with
      | Some v => Some v
      | None => scan_fields prev1 (Some field) rest
      end
  end.

Fixpoint scan_lines (lines : list string) : option Z :=
  match lines with
  | [] => None
  | line :: rest =>
      if negb (Contains line "address sizes") then scan_lines rest
      else match scan_fields None None (Fields line) with
           | Some v => Some v
           | None => scan_lines rest
           end
  end.

Definition parsePhysicalAddressBits (data : string) : option Z :=
  scan_lines (Split data newline_char).

(** [os.ReadFile("/proc/cpuinfo")] is the argument. *)
Definition hostPhysicalAddressBits (cpuinfo : result string) : option Z :=
  match cpuinfo with
  | Ok data => parsePhysicalAddressBits data
  | Err _ => None
  end.
End cpuinfo.

(** ** Boot configuration

    [bits] is what [hostPhysicalAddressBitsFunc] reports. *)

Definition virtioMemSupportedForRange (bits : option Z) (minMiB maxMiB : Z) : bool :=
  match validateMemoryHotplugRange minMiB maxMiB with
  | Err _ => false
  | Ok _ =>
      if bool_decide (maxMiB = minMiB) then false
      else match bits with
           | None => true
           | Some physicalBits =>
               bool_decide (requiredVirtioMemPhysicalAddressBits (wrap64 (maxMiB - minMiB)) ≤ physicalBits)
           end
  end.

Definition virtioMemUsableForVM (bits : option Z) (vm : VM) : bool :=
  if bool_decide (vm_MemoryMaxMiB vm ≤ vm_MemoryMinMiB vm) then false
  else virtioMemSupportedForRange bits (vm_MemoryMinMiB vm) (vm_MemoryMaxMiB vm).

Record memoryHotplugConfig := MkHotplug {
  TotalSizeMiB : Z;
  SlotSizeMiB : Z;
  BlockSizeMiB : Z;
}.

Record hostMemoryConfig := MkHostMemory {
  bootMiB : Z;
  hotplug : option memoryHotplugConfig;
  degraded : bool;
}.

Definition memoryConfigForHost (bits : option Z) (vm : VM) : result hostMemoryConfig :=
  match validateMemoryHotplugRange (vm_MemoryMinMiB vm) (vm_MemoryMaxMiB vm) with
  | Err e => Err e
  | Ok _ =>
      if bool_decide (vm_MemoryMaxMiB vm ≤ vm_MemoryMinMiB vm)
      then Ok (MkHostMemory (vm_MemoryMaxMiB vm) None false)
      else if negb (virtioMemUsableForVM bits vm)
      then Ok (MkHostMemory (vm_MemoryMaxMiB vm) None true)
      else Ok (MkHostMemory (vm_MemoryMinMiB vm)
                 (Some (MkHotplug (wrap64 (vm_MemoryMaxMiB vm - vm_MemoryMinMiB vm)) 128 2)) false)
  end.

(** ** The hotplug size for a target (the arithmetic of setVMMemoryTarget) *)

Definition clampTarget (vm : VM) (targetMiB : Z) : Z :=
  let t := if bool_decide (targetMiB < vm_MemoryMinMiB vm) then vm_MemoryMinMiB vm else targetMiB in
  if bool_decide (vm_MemoryMaxMiB vm < t) then vm_MemoryMaxMiB vm else t.

Definition requestedMiB (vm : VM) (targetMiB : Z) : Z :=
  let r := wrap64 (clampTarget vm targetMiB - vm_MemoryMinMiB vm) in
  let r := if bool_decide (r < 0) then 0 else r in
  let r := if bool_decide (0 < r) then wrap64 (Z.quot (wrap64 (r + 127)) 128 * 128) else r in
  let maxRequested := wrap64 (vm_MemoryMaxMiB vm - vm_MemoryMinMiB vm) in
  if bool_decide (maxRequested < r) then maxRequested else r.

(** ** Properties *)

(** A range the manager accepts, with values an [int] holds. *)
Definition range_valid (minMiB maxMiB : Z) : Prop :=
  0 < minMiB ≤ maxMiB ∧ maxMiB < 2 ^ 62 ∧ (128 | maxMiB - minMiB).

Lemma validate_range minMiB maxMiB :
  maxMiB < 2 ^ 62 → minMiB < 2 ^ 62 →
  validateMemoryHotplugRange minMiB maxMiB = Ok tt ↔ range_valid minMiB maxMiB.
Proof.
  intros Hmax Hmin. unfold validateMemoryHotplugRange, range_valid.
  destruct (decide (minMiB ≤ 0)) as [H0|H0];
    [rewrite bool_decide_eq_true_2 by done; split; [done|lia]|].
  destruct (decide (maxMiB ≤ 0)) as [H1|H1].
  { rewrite (bool_decide_eq_true_2 (maxMiB ≤ 0)), orb_true_r by done. split; [done|lia]. }
  rewrite !bool_decide_eq_false_2 by done. simpl orb. cbv iota zeta.
  rewrite wrap64_id by lia.
  case_bool_decide as Hd.
  { split; [|done]. intros _. split_and!; try lia. rewrite Hd. apply Z.divide_0_r. }
  rewrite <-Z.rem_divide by lia. destruct (decide (maxMiB - minMiB < 128)) as [H2|H2].
  - rewrite bool_decide_eq_true_2 by done. split; [done|]. intros (? & _ & Hr).
    rewrite Z.rem_small in Hr by lia. lia.
  - rewrite (bool_decide_eq_false_2 (_ < 128)) by done. simpl.
    destruct (decide (Z.rem (maxMiB - minMiB) 128 = 0)) as [H3|H3].
    + rewrite bool_decide_eq_true_2 by done. simpl. split; [|done]. intros _. split_and!; lia.
    + rewrite bool_decide_eq_false_2 by done. simpl. split; [done|]. intros (_ & _ & ?). lia.
Qed.

Lemma round_up_128 r m :
  0 < r ≤ m → m < 2 ^ 62 → (128 | m) →
  let q := wrap64 (Z.quot (wrap64 (r + 127)) 128 * 128) in r ≤ q ≤ m ∧ q < r + 128 ∧ (128 | q).
Proof.
  intros Hr Hm [k Hk]. cbv zeta. rewrite (wrap64_id (r + 127)) by lia.
  rewrite Z.quot_div_nonneg by lia.
  pose proof (Z.div_mod (r + 127) 128). pose proof (Z.mod_pos_bound (r + 127) 128).
  assert ((r + 127) / 128 ≤ k) by (apply Z.lt_succ_r, Z.div_lt_upper_bound; lia).
  rewrite wrap64_id by lia. split_and!; try lia. by exists ((r + 127) / 128).
Qed.

(** The rounding of the requested size: enough for the (clamped) target, less
    than one 128 MiB slot more, whole slots only, and within the range. *)
Lemma requestedMiB_spec vm targetMiB :
  range_valid (vm_MemoryMinMiB vm) (vm_MemoryMaxMiB vm) →
  let req := requestedMiB vm targetMiB in
  let eff := vm_MemoryMinMiB vm + req in
  (128 | req) ∧ vm_MemoryMinMiB vm ≤ eff ≤ vm_MemoryMaxMiB vm ∧
  clampTarget vm targetMiB ≤ eff < clampTarget vm targetMiB + 128.
Proof.
  intros (H1 & H2 & H3). cbv zeta. unfold requestedMiB.
  assert (vm_MemoryMinMiB vm ≤ clampTarget vm targetMiB ≤ vm_MemoryMaxMiB vm) as Hc
    by (unfold clampTarget; repeat case_bool_decide; lia).
  set (t := clampTarget vm targetMiB) in *. clearbody t.
  rewrite !wrap64_id with (z := t - _), (wrap64_id (vm_MemoryMaxMiB vm - _)) by lia.
  rewrite (bool_decide_eq_false_2 (t - _ < 0)) by lia.
  destruct (decide (0 < t - vm_MemoryMinMiB vm)) as [Hp|Hp].
  - rewrite (bool_decide_eq_true_2 (0 < _)) by done.
    destruct (round_up_128 (t - vm_MemoryMinMiB vm) (vm_MemoryMaxMiB vm - vm_MemoryMinMiB vm))
      as (Hq & Hq' & Hdiv); [lia..|done|].
    rewrite bool_decide_eq_false_2 by lia. split; [done|]. lia.
  - rewrite (bool_decide_eq_false_2 (0 < _)) by done. rewrite bool_decide_eq_false_2 by lia.
    replace (t - vm_MemoryMinMiB vm) with 0 by lia. split; [apply Z.divide_0_r|lia].
Qed.

(** [bits.Len64] is the least width that holds [x]. *)
Lemma Len64_le x n : 0 ≤ x → 0 ≤ n → Len64 x ≤ n ↔ x < 2 ^ n.
Proof.
  intros Hx Hn. unfold Len64. case_bool_decide as H0.
  - subst. pose proof (Z.pow_pos_nonneg 2 n). lia.
  - pose proof (Z.log2_lt_pow2 x n ltac:(lia)). lia.
Qed.

(** No wrap-around below 8 EiB of hotplugged memory. *)
Lemma required_bits h n :
  0 < h < 2 ^ 43 → 0 ≤ n →
  requiredVirtioMemPhysicalAddressBits h ≤ n ↔ firecrackerVirtioMemBaseAddress + h * 2 ^ 20 ≤ 2 ^ n.
Proof.
  intros Hh Hn. unfold requiredVirtioMemPhysicalAddressBits, firecrackerVirtioMemBaseAddress.
  rewrite bool_decide_eq_false_2 by lia. cbv zeta.
  rewrite (u64_id h), Z.shiftl_mul_pow2 by lia. rewrite (u64_id (h * 2 ^ 20)) by lia.
  rewrite (u64_id (_ + _)) by lia. rewrite u64_id by lia.
  rewrite Len64_le by lia. lia.
Qed.

(** C28.  The boot configuration of a VM with an accepted memory range and a
    maximum below 2^43 MiB (8 EiB; beyond it, which the API accepts, the 64-bit
    arithmetic on bytes wraps around), on a host whose number of physical address
    bits is positive or unknown: boot
    memory and hotpluggable memory add up to the VM's maximum; the hotplug
    region is whole 128 MiB slots, and every byte of it is addressable with
    the host's physical address bits, where they are known; when it would not be,
    the VM boots with its maximum instead and the configuration is marked
    degraded, and only then. *)
Theorem memoryConfigForHost_correct bits vm :
  range_valid (vm_MemoryMinMiB vm) (vm_MemoryMaxMiB vm) → vm_MemoryMaxMiB vm < 2 ^ 43 →
  (∀ n, bits = Some n → 0 < n) →
  ∃ cfg, memoryConfigForHost bits vm = Ok cfg ∧
    bootMiB cfg + from_option TotalSizeMiB 0 (hotplug cfg) = vm_MemoryMaxMiB vm ∧
    (∀ h, hotplug cfg = Some h → bootMiB cfg = vm_MemoryMinMiB vm ∧
       128 ≤ TotalSizeMiB h ∧ (128 | TotalSizeMiB h) ∧
       ∀ n, bits = Some n → firecrackerVirtioMemBaseAddress + TotalSizeMiB h * 2 ^ 20 ≤ 2 ^ n) ∧
    (degraded cfg = true ↔ vm_MemoryMinMiB vm < vm_MemoryMaxMiB vm ∧
       ∃ n, bits = Some n ∧
         2 ^ n < firecrackerVirtioMemBaseAddress + (vm_MemoryMaxMiB vm - vm_MemoryMinMiB vm) * 2 ^ 20).
Proof.
  intros Hv Hmax Hbits. pose proof Hv as (H1 & H2 & [k Hk]).
  unfold memoryConfigForHost, virtioMemUsableForVM, virtioMemSupportedForRange.
  rewrite (proj2 (validate_range (vm_MemoryMinMiB vm) (vm_MemoryMaxMiB vm) ltac:(lia) ltac:(lia)) Hv).
  rewrite wrap64_id by lia.
  set (lo := vm_MemoryMinMiB vm) in *. set (hi := vm_MemoryMaxMiB vm) in *. clearbody lo hi.
  destruct (decide (hi ≤ lo)) as [Hle|Hlt].
  { rewrite (bool_decide_eq_true_2 (hi ≤ lo)) by done. eexists. split; [done|]. simpl.
    split_and!; [lia|done|]. split; [done|]. intros [? _]. lia. }
  rewrite !(bool_decide_eq_false_2 (hi ≤ lo)), (bool_decide_eq_false_2 (hi = lo)) by lia.
  destruct bits as [n|].
  - specialize (Hbits n eq_refl). pose proof (required_bits (hi - lo) n) as Hreq.
    case_bool_decide as Hb; simpl; eexists; (split; [done|]); simpl.
    + apply Hreq in Hb; [|lia..]. split_and!; [lia| |].
      * intros h [= <-]. simpl. split_and!; [done|lia|by exists k|]. by intros ? [= <-].
      * split; [done|]. intros (_ & ? & [= <-] & ?). lia.
    + split_and!; [lia|done|]. split; [|done]. intros _. split; [lia|]. exists n. split; [done|].
      apply Z.lt_nge. intros Hc. apply Hb, Hreq; lia.
  - simpl. eexists. split; [done|]. simpl. split_and!; [lia| |].
    + intros h [= <-]. simpl. split_and!; [done|lia|by exists k|done].
    + split; [done|]. intros (_ & ? & ? & _). done.
Qed.

Definition example_vm (lo hi : Z) : VM :=
  MkVM "u" "web" "stopped" "fd00::3" 1 lo hi 0 8080 0 "" "" "1" "" "" "" "" true true.

(** 40 address bits are enough for 512 GiB and up to 512 GiB of hotplug. *)
Lemma memoryConfigForHost_correct_witness :
  range_valid 384 1024 ∧
  ∃ cfg, memoryConfigForHost (Some 40) (example_vm 384 1024) = Ok cfg ∧
    bootMiB cfg = 384 ∧ hotplug cfg = Some (MkHotplug 640 128 2) ∧ degraded cfg = false.
Proof.
  assert (range_valid 384 1024) as Hv by (split_and!; [lia..|by exists 5]).
  split; [exact Hv|].
  destruct (memoryConfigForHost_correct (Some 40) (example_vm 384 1024) Hv) as (cfg & Hc & _);
    [simpl; lia|intros n [= <-]; lia|].
  exists cfg. split; [exact Hc|]. vm_compute in Hc. by injection Hc as <-.
Defined.
