(* ===== verification/World.v ===== *)
(** * The world the VM manager acts on

    The state of [firecracker.Manager] (its maps guarded by [mu]) together with
    what it drives: the database, the host's file system, the TAP devices, the
    cgroup directories and the running Firecracker processes.

    Every call that leaves the program (a SQL statement, a system call, a
    netlink request, a Firecracker API request, an external command, a wait)
    goes through [ext], which asks [fate] what becomes of it: it proceeds, it
    fails without an effect, or it fails after its effect.  Nothing is assumed
    of [fate], so a theorem quantified over the environment covers every
    pattern of failures and cancellations, at any point. *)

From S2P Require Import Prelude GoStrings Paths Types Store.
Open Scope Z_scope.

(** ** Third-party code *)

(** The Firecracker VMM, by its API: [vmm] is the state of one process. *)
Class FirecrackerVMM := {
  vmm : Type;
  fc_start : option string → vmm;                   (* text of --config-file, if given *)
  fc_action : string → vmm → result vmm;            (* PUT /actions *)
  fc_set_state : string → vmm → result vmm;         (* PATCH /vm *)
  fc_create_snapshot : vmm → result (string * string);    (* state and memory files *)
  fc_load_snapshot : string → string → vmm → result vmm;
  fc_patch_hotplug : Z → vmm → result vmm;
  fc_get_hotplug : vmm → result (Z * Z * Z);        (* total, requested, plugged *)
}.

Inductive node := Dir | File (content : string).

#[global] Instance node_eq_dec : EqDecision node.
Proof. solve_decision. Defined.

(** What may go wrong with an external call. *)
Inductive fault := Failure (msg : string) | Cancellation.
Definition fault_error (f : fault) : error :=
  match f with Failure msg => ErrOther msg | Cancellation => ErrCanceled end.

Inductive outcome := Proceed | FailBefore (f : fault) | FailAfter (f : fault).

(** The environment: one decision per external call, indexed by a counter. *)
Class Env := {
  fate : nat → outcome;
  now_ms : nat → Z;                                 (* the clock *)
  now_text : nat → string;                          (* the clock in RFC 3339 *)
  new_uuid : nat → string;
  random_name : nat → string;                       (* of os.CreateTemp *)
  random_machine_id : nat → string;                 (* 32 hex digits *)
  mod_time : nat → string → Z * string;             (* UnixNano and RFC 3339 text of a file's time *)
  clone_supported : nat → bool;                     (* FICLONE on this file system *)
  short_read : nat → nat;                           (* how much a read(2) returns, less one *)
  exec_command : string → list string → gmap string node → bool * gmap string node;
}.

(** Documented behaviour of the commands the manager runs (debugfs, resize2fs,
    ssh-keygen): a command changes no file but those its arguments name, or
    name with a [.pub] appended. *)
Class CommandsLocal `{Env} : Prop :=
  exec_local name args m p :
    p ∉ args → (∀ a, a ∈ args → p ≠ a +:+ ".pub") →
    snd (exec_command name args m) !! p = m !! p.

(** ** The state *)

Record Process := MkProcess {
  pr_UUID : string;
  pr_Name : string;
  pr_RuntimeDir : string;
  pr_SocketPath : string;
  pr_TapName : string;
  pr_GuestCIDR : string;
  pr_FinalState : string;
  pr_CgroupPath : string;
}.

(** Kept as reported; the load averages are only stored and shown, as text. *)
Record GuestMemoryReport := MkReport {
  gr_ReportedAt : string;
  gr_TotalMiB : Z;
  gr_AvailableMiB : Z;
  gr_FreeMiB : Z;
  gr_BuffersMiB : Z;
  gr_CachedMiB : Z;
  gr_SwapTotalMiB : Z;
  gr_SwapFreeMiB : Z;
  gr_RootDiskTotalBytes : Z;
  gr_RootDiskFreeBytes : Z;
  gr_Load1 : string;
  gr_Load5 : string;
  gr_Load15 : string;
  gr_LastTargetMiB : Z;
}.

Section world.
Context `{FirecrackerVMM}.

Record World := MkWorld {
  db : Store;
  fs : gmap string node;
  running : gmap string Process;
  vmms : gmap string vmm;                 (* live processes, by API socket *)
  vmOps : gset string;
  coldArchives : gset string;
  guestMemoryReports : gmap string GuestMemoryReport;
  taps : gmap string (list string);       (* TAP devices and their addresses *)
  cgroups : gset string;
  baseCache : option (string * BaseImageMetadata);   (* baseSignature, baseMetadata *)
  tick : nat;
}.

Definition set_db s w := MkWorld s (fs w) (running w) (vmms w) (vmOps w) (coldArchives w)
  (guestMemoryReports w) (taps w) (cgroups w) (baseCache w) (tick w).
Definition set_fs f w := MkWorld (db w) (f (fs w)) (running w) (vmms w) (vmOps w) (coldArchives w)
  (guestMemoryReports w) (taps w) (cgroups w) (baseCache w) (tick w).
Definition set_running f w := MkWorld (db w) (fs w) (f (running w)) (vmms w) (vmOps w)
  (coldArchives w) (guestMemoryReports w) (taps w) (cgroups w) (baseCache w) (tick w).
Definition set_vmms f w := MkWorld (db w) (fs w) (running w) (f (vmms w)) (vmOps w)
  (coldArchives w) (guestMemoryReports w) (taps w) (cgroups w) (baseCache w) (tick w).
Definition set_vmOps f w := MkWorld (db w) (fs w) (running w) (vmms w) (f (vmOps w))
  (coldArchives w) (guestMemoryReports w) (taps w) (cgroups w) (baseCache w) (tick w).
Definition set_coldArchives f w := MkWorld (db w) (fs w) (running w) (vmms w) (vmOps w)
  (f (coldArchives w)) (guestMemoryReports w) (taps w) (cgroups w) (baseCache w) (tick w).
Definition set_reports f w := MkWorld (db w) (fs w) (running w) (vmms w) (vmOps w)
  (coldArchives w) (f (guestMemoryReports w)) (taps w) (cgroups w) (baseCache w) (tick w).
Definition set_taps f w := MkWorld (db w) (fs w) (running w) (vmms w) (vmOps w)
  (coldArchives w) (guestMemoryReports w) (f (taps w)) (cgroups w) (baseCache w) (tick w).
Definition set_cgroups f w := MkWorld (db w) (fs w) (running w) (vmms w) (vmOps w)
  (coldArchives w) (guestMemoryReports w) (taps w) (f (cgroups w)) (baseCache w) (tick w).
Definition set_baseCache c w := MkWorld (db w) (fs w) (running w) (vmms w) (vmOps w)
  (coldArchives w) (guestMemoryReports w) (taps w) (cgroups w) c (tick w).
Definition bump w := MkWorld (db w) (fs w) (running w) (vmms w) (vmOps w)
  (coldArchives w) (guestMemoryReports w) (taps w) (cgroups w) (baseCache w) (S (tick w)).

Context `{Env}.

(** ** External calls *)

Definition ext {A} (m : M World A) : M World A := λ w,
  let w' := bump w in
  match fate (tick w) with
  | Proceed => m w'
  | FailBefore f => (Err (fault_error f), w')
  | FailAfter f => (Err (fault_error f), (m w').2)
  end.

(** [ctx.Err()]: the context may have been cancelled. *)
Definition ctx_Err : M World unit := ext (mret tt).

(** A call of a store method. *)
Definition dbcall {A} (m : M Store A) : M World A :=
  ext (λ w, let '(r, s) := m (db w) in (r, set_db s w)).

Definition ticks : M World nat := gets tick.

(** [strftime('%Y-%m-%dT%H:%M:%fZ', 'now')] of the statement being executed. *)
Definition db_now `{Timestamps} : M World string := gets (λ w, strftime (now_ms (tick w))).

Definition store_CreateVM `{UuidLib, Timestamps} (p : CreateVMParams) : M World VM :=
  u ← gets (λ w, new_uuid (tick w)); now ← db_now; dbcall (Store.CreateVM u now p).
Definition store_SetVMState `{Timestamps} (vmUUID state : string) : M World unit :=
  now ← db_now; dbcall (Store.SetVMState now vmUUID state).
Definition store_CreateSnapshot `{Timestamps} (p : CreateSnapshotParams) : M World Snapshot :=
  now ← db_now; dbcall (Store.CreateSnapshot now p).

(** ** The file system (package os) *)

(** The directories that hold [p] and [p] itself, outermost first. *)
Fixpoint ancestors_from (pre p : string) : list string :=
  match p with
  | "" => if bool_decide (pre = "") then [] else [pre]
  | String c p' =>
      let pre' := pre +:+ String c "" in
      if bool_decide (c = "/"%char ∧ pre ≠ "") then pre :: ancestors_from pre' p'
      else ancestors_from pre' p'
  end.
Definition ancestors (p : string) : list string := ancestors_from "" p.

Record FileInfo := { fi_Size : Z; fi_IsRegular : bool }.

Definition node_info (n : node) : FileInfo :=
  match n with
  | Dir => {| fi_Size := 4096; fi_IsRegular := false |}
  | File c => {| fi_Size := Z.of_nat (String.length c); fi_IsRegular := true |}
  end.

Definition os_Stat (p : string) : M World FileInfo := ext (λ w,
  (match fs w !! p with Some n => Ok (node_info n) | None => Err ErrNotExist end, w)).

(** Creates the missing directories one by one; a file in the way stops it. *)
Fixpoint mkdirs (ps : list string) : M World unit :=
  match ps with
  | [] => mret tt
  | p :: ps' => λ w,
      match fs w !! p with
      | Some (File _) => (Err (ErrOther "not a directory"), w)
      | Some Dir => mkdirs ps' w
      | None => mkdirs ps' (set_fs <[p := Dir]> w)
      end
  end.
Definition os_MkdirAll (p : string) : M World unit := ext (mkdirs (ancestors p)).

Definition os_RemoveAll (p : string) : M World unit :=
  ext (modify (set_fs (filter (λ kn, under p kn.1 = false)))).

(** A directory is empty when nothing lies strictly below it. *)
Definition dir_empty (p : string) (m : gmap string node) : bool :=
  bool_decide (map_Forall (λ k _, HasPrefix k (p +:+ "/") = false) m).

Definition os_Remove (p : string) : M World unit := ext (λ w,
  match fs w !! p with
  | None => (Err ErrNotExist, w)
  | Some Dir =>
      if dir_empty p (fs w) then (Ok tt, set_fs (delete p) w)
      else (Err (ErrOther "directory not empty"), w)
  | Some (File _) => (Ok tt, set_fs (delete p) w)
  end).

(** The entry [k] of the tree [a], moved to the tree [b]. *)
Definition moved (a b k : string) : string := b +:+ str_drop (String.length a) k.

Definition os_Rename (a b : string) : M World unit := ext (λ w,
  match fs w !! a, fs w !! b with
  | None, _ => (Err ErrNotExist, w)
  | Some (File c), Some Dir => (Err (ErrOther "file exists"), w)
  | Some (File c), _ =>
      if bool_decide (a = b) then (Ok tt, w)
      else (Ok tt, set_fs (λ m, <[b := File c]> (delete a m)) w)
  | Some Dir, Some _ => (Err (ErrOther "file exists"), w)
  | Some Dir, None =>
      (Ok tt, set_fs (λ m,
         list_to_map ((λ kn, (moved a b kn.1, kn.2)) <$>
                      map_to_list (filter (λ kn, under a kn.1 = true) m)) ∪
         filter (λ kn, under a kn.1 = false) m) w)
  end).

Definition parent_ok (p : string) (m : gmap string node) : bool :=
  bool_decide (m !! path_Dir p = Some Dir).

(** [os.OpenFile(p, O_CREATE|O_TRUNC|O_WRONLY, _)]. *)
Definition open_trunc (p : string) : M World unit := ext (λ w,
  match fs w !! p with
  | Some Dir => (Err (ErrOther "is a directory"), w)
  | Some (File _) => (Ok tt, set_fs <[p := File ""]> w)
  | None => if parent_ok p (fs w) then (Ok tt, set_fs <[p := File ""]> w) else (Err ErrNotExist, w)
  end).

(** [os.OpenFile(p, O_CREATE|O_EXCL|O_WRONLY, _)]. *)
Definition open_excl (p : string) : M World unit := ext (λ w,
  match fs w !! p with
  | Some _ => (Err (ErrOther "file exists"), w)
  | None => if parent_ok p (fs w) then (Ok tt, set_fs <[p := File ""]> w) else (Err ErrNotExist, w)
  end).

(** [os.OpenFile(p, O_CREATE|O_WRONLY|O_APPEND, _)]. *)
Definition open_append (p : string) : M World unit := ext (λ w,
  match fs w !! p with
  | Some Dir => (Err (ErrOther "is a directory"), w)
  | Some (File _) => (Ok tt, w)
  | None => if parent_ok p (fs w) then (Ok tt, set_fs <[p := File ""]> w) else (Err ErrNotExist, w)
  end).

(** [os.Open] of a file and its contents as the reads see them. *)
Definition open_read (p : string) : M World string := ext (λ w,
  match fs w !! p with
  | Some (File c) => (Ok c, w)
  | Some Dir => (Err (ErrOther "is a directory"), w)
  | None => (Err ErrNotExist, w)
  end).

Fixpoint zeros (n : nat) : string :=
  match n with O => "" | S n' => String (ascii_of_nat 0) (zeros n') end.

(** [ftruncate]: cut, or extended with zeros. *)
Definition resized (n : nat) (c : string) : string :=
  str_take n c +:+ zeros (n - String.length c).

(** [data] written at [off]; a gap before it reads as zeros. *)
Definition spliced (off : nat) (data c : string) : string :=
  resized off c +:+ data +:+ str_drop (off + String.length data) c.

Definition on_file (p : string) (f : string → string) : M World unit := ext (λ w,
  match fs w !! p with
  | Some (File c) => (Ok tt, set_fs <[p := File (f c)]> w)
  | _ => (Err ErrNotExist, w)
  end).

Definition write_at (p : string) (off : nat) (data : string) : M World unit :=
  on_file p (spliced off data).
Definition os_Truncate (p : string) (size : Z) : M World unit :=
  on_file p (resized (Z.to_nat size)).

Definition os_WriteFile (p data : string) : M World unit :=
  open_trunc p ;; write_at p 0 data.

(** [os.CreateTemp(dir, pre*suf)], empty and closed.  The retries after a
    collision are part of the choice of [random_name]. *)
Definition os_CreateTemp (dir pre suf : string) : M World string :=
  t ← ticks;
  let p := dir +:+ "/" +:+ pre +:+ random_name t +:+ suf in
  open_excl p ;; mret p.

Definition os_MkdirTemp (dir pre : string) : M World string :=
  t ← ticks;
  let p := dir +:+ "/" +:+ pre +:+ random_name t in
  ext (λ w, match fs w !! p with
            | Some _ => (Err (ErrOther "file exists"), w)
            | None => if parent_ok p (fs w) then (Ok p, set_fs <[p := Dir]> w) else (Err ErrNotExist, w)
            end).

(** [run(ctx, name, args...)]. *)
Definition run_cmd (name : string) (args : list string) : M World unit := ext (λ w,
  let '(ok, m) := exec_command name args (fs w) in
  (if ok then Ok tt else Err (ErrOther name), set_fs (λ _, m) w)).

End world.

#[global] Arguments World : clear implicits.
#[global] Arguments World {_}.

(** ** Which part of the world an operation can touch *)

Section parts.
Context `{FirecrackerVMM}.

Class NoTick {B} (f : World → B) : Prop := no_tick w : f (bump w) = f w.
Class NoFs {B} (f : World → B) : Prop := no_fs g w : f (set_fs g w) = f w.
Class NoDb {B} (f : World → B) : Prop := no_db s w : f (set_db s w) = f w.
Class NoRunning {B} (f : World → B) : Prop := no_running g w : f (set_running g w) = f w.
Class NoVmms {B} (f : World → B) : Prop := no_vmms g w : f (set_vmms g w) = f w.
Class NoTaps {B} (f : World → B) : Prop := no_taps g w : f (set_taps g w) = f w.
Class NoCgroups {B} (f : World → B) : Prop := no_cgroups g w : f (set_cgroups g w) = f w.
Class NoBaseCache {B} (f : World → B) : Prop := no_base_cache c w : f (set_baseCache c w) = f w.
Class NoReports {B} (f : World → B) : Prop := no_reports g w : f (set_reports g w) = f w.
End parts.

#[export] Hint Extern 1 (NoTick _) => intros ?; reflexivity : typeclass_instances.
#[export] Hint Extern 1 (NoFs _) => intros ? ?; reflexivity : typeclass_instances.
#[export] Hint Extern 1 (NoDb _) => intros ? ?; reflexivity : typeclass_instances.
#[export] Hint Extern 1 (NoRunning _) => intros ? ?; reflexivity : typeclass_instances.
#[export] Hint Extern 1 (NoVmms _) => intros ? ?; reflexivity : typeclass_instances.
#[export] Hint Extern 1 (NoTaps _) => intros ? ?; reflexivity : typeclass_instances.
#[export] Hint Extern 1 (NoCgroups _) => intros ? ?; reflexivity : typeclass_instances.
#[export] Hint Extern 1 (NoBaseCache _) => intros ? ?; reflexivity : typeclass_instances.
#[export] Hint Extern 1 (NoReports _) => intros ? ?; reflexivity : typeclass_instances.

Section frames.
Context `{FirecrackerVMM, Env} {B : Type} (f : World → B) `{!NoTick f}.

#[global] Instance keeps_ext {A} (m : M World A) : Keeps f m → Keeps f (ext m).
Proof.
  intros Hm w. unfold ext. destruct (fate (tick w)); simpl;
    rewrite ?(Hm (bump w)); apply no_tick.
Qed.
#[global] Instance keeps_ctx_Err : Keeps f ctx_Err.
Proof. apply _. Qed.
#[global] Instance keeps_ticks : Keeps f ticks.
Proof. apply _. Qed.
#[global] Instance keeps_db_now `{Timestamps} : Keeps f db_now.
Proof. apply _. Qed.

#[global] Instance keeps_dbcall {A} (m : M Store A) : NoDb f → Keeps f (dbcall m).
Proof. intros Hf. apply keeps_ext. intros w. destruct (m (db w)). apply Hf. Qed.
#[global] Instance keeps_store_CreateVM `{UuidLib, Timestamps} p : NoDb f → Keeps f (store_CreateVM p).
Proof. intros ?. unfold store_CreateVM. apply _. Qed.
#[global] Instance keeps_store_SetVMState `{Timestamps} u s : NoDb f → Keeps f (store_SetVMState u s).
Proof. intros ?. unfold store_SetVMState. apply _. Qed.
#[global] Instance keeps_store_CreateSnapshot `{Timestamps} p :
  NoDb f → Keeps f (store_CreateSnapshot p).
Proof. intros ?. unfold store_CreateSnapshot. apply _. Qed.

#[global] Instance keeps_os_Stat p : Keeps f (os_Stat p).
Proof. apply keeps_ext. by intros w. Qed.
#[global] Instance keeps_open_read p : Keeps f (open_read p).
Proof. apply keeps_ext. intros w. by destruct (fs w !! p) as [[]|]. Qed.

Section fs.
Context `{!NoFs f}.

#[global] Instance keeps_mkdirs ps : Keeps f (mkdirs ps).
Proof.
  induction ps as [|p ps IH]; intros w; simpl; [done|].
  destruct (fs w !! p) as [[]|]; simpl; [apply IH|done|]. by rewrite IH, no_fs.
Qed.
#[global] Instance keeps_os_MkdirAll p : Keeps f (os_MkdirAll p).
Proof. apply _. Qed.
#[global] Instance keeps_os_RemoveAll p : Keeps f (os_RemoveAll p).
Proof. apply keeps_ext. intros w. apply no_fs. Qed.
#[global] Instance keeps_os_Remove p : Keeps f (os_Remove p).
Proof.
  apply keeps_ext. intros w. destruct (fs w !! p) as [[]|]; simpl; [|apply no_fs|done].
  case_match; [apply no_fs|done].
Qed.
#[global] Instance keeps_os_Rename a b : Keeps f (os_Rename a b).
Proof.
  apply keeps_ext. intros w.
  destruct (fs w !! a) as [[]|], (fs w !! b) as [[]|]; simpl; try case_match; done || apply no_fs.
Qed.
#[global] Instance keeps_open_trunc p : Keeps f (open_trunc p).
Proof.
  apply keeps_ext. intros w.
  destruct (fs w !! p) as [[]|]; simpl; try case_match; done || apply no_fs.
Qed.
#[global] Instance keeps_open_excl p : Keeps f (open_excl p).
Proof.
  apply keeps_ext. intros w.
  destruct (fs w !! p) as [[]|]; simpl; try case_match; done || apply no_fs.
Qed.
#[global] Instance keeps_open_append p : Keeps f (open_append p).
Proof.
  apply keeps_ext. intros w.
  destruct (fs w !! p) as [[]|]; simpl; try case_match; done || apply no_fs.
Qed.
#[global] Instance keeps_on_file p g : Keeps f (on_file p g).
Proof. apply keeps_ext. intros w. destruct (fs w !! p) as [[]|]; simpl; done || apply no_fs. Qed.
#[global] Instance keeps_write_at p off data : Keeps f (write_at p off data).
Proof. apply _. Qed.
#[global] Instance keeps_os_Truncate p n : Keeps f (os_Truncate p n).
Proof. apply _. Qed.
#[global] Instance keeps_os_WriteFile p data : Keeps f (os_WriteFile p data).
Proof. unfold os_WriteFile. apply _. Qed.
#[global] Instance keeps_os_CreateTemp dir pre suf : Keeps f (os_CreateTemp dir pre suf).
Proof. unfold os_CreateTemp. apply _. Qed.
#[global] Instance keeps_os_MkdirTemp dir pre : Keeps f (os_MkdirTemp dir pre).
Proof.
  unfold os_MkdirTemp. apply keeps_bind; [apply _|]. intros t. apply keeps_ext. intros w.
  destruct (fs w !! _); simpl; try case_match; done || apply no_fs.
Qed.
#[global] Instance keeps_run_cmd name args : Keeps f (run_cmd name args).
Proof. apply keeps_ext. intros w. destruct (exec_command _ _ _). apply no_fs. Qed.
End fs.
End frames.

(** ** Failures

    What is left to show of an external call: its result, and the two ways it
    can fail. *)
Section faults.
Context `{FirecrackerVMM, Env}.

Lemma wp_ext {A} (m : M World A) Q w :
  wp m (λ r w', Q r w' ∧ ∀ f, Q (Err (fault_error f)) w') (bump w) →
  (∀ f, Q (Err (fault_error f)) (bump w)) →
  wp (ext m) Q w.
Proof. intros [Hm Ha] Hb. unfold wp, ext. destruct (fate (tick w)); simpl; auto. Qed.

(** A call that cannot fail. *)
Lemma ext_proceed {A} (m : M World A) w : fate (tick w) = Proceed → ext m w = m (bump w).
Proof. unfold ext. by intros ->. Qed.

Lemma fault_not_exist f : fault_error f ≠ ErrNotExist.
Proof. by destruct f. Qed.
End faults.

(** ** One file

    [NoAt p f]: [f] does not look at the path [p]. *)
Section one_file.
Context `{FirecrackerVMM, Env} {B : Type}.

Class NoAt (p : string) (f : World → B) : Prop :=
  no_at g w : (∀ m q, q ≠ p → g m !! q = m !! q) → f (set_fs g w) = f w.

#[global] Instance no_at_no_fs p (f : World → B) : NoFs f → NoAt p f | 5.
Proof. intros Hf g w _. apply Hf. Qed.

Context (f : World → B) `{!NoTick f} (p : string) `{!NoAt p f}.

Lemma no_at_insert n w : f (set_fs <[p := n]> w) = f w.
Proof. apply no_at. intros m q Hq. by rewrite lookup_insert_ne. Qed.
Lemma no_at_delete w : f (set_fs (delete p) w) = f w.
Proof. apply no_at. intros m q Hq. by rewrite lookup_delete_ne. Qed.

Lemma keeps_on_file_at g : Keeps f (on_file p g).
Proof.
  apply keeps_ext; [done|]. intros w.
  destruct (fs w !! p) as [[]|]; simpl; done || apply no_at_insert.
Qed.
Lemma keeps_open_trunc_at : Keeps f (open_trunc p).
Proof.
  apply keeps_ext; [done|]. intros w.
  destruct (fs w !! p) as [[]|]; simpl; try case_match; done || apply no_at_insert.
Qed.
Lemma keeps_open_excl_at : Keeps f (open_excl p).
Proof.
  apply keeps_ext; [done|]. intros w.
  destruct (fs w !! p) as [[]|]; simpl; try case_match; done || apply no_at_insert.
Qed.
Lemma keeps_os_Remove_at : Keeps f (os_Remove p).
Proof.
  apply keeps_ext; [done|]. intros w.
  destruct (fs w !! p) as [[]|]; simpl; try case_match; done || apply no_at_delete.
Qed.
End one_file.

#[global] Instance no_at_lookup `{FirecrackerVMM} p q : TCEq (bool_decide (q = p)) false →
  NoAt p (λ w, fs w !! q).
Proof.
  rewrite TCEq_eq, bool_decide_eq_false. intros Hq g w Hg. simpl. by apply Hg.
Qed.

Lemma no_at_ne `{FirecrackerVMM} p q : q ≠ p → NoAt p (λ w, fs w !! q).
Proof. intros Hq g w Hg. simpl. by apply Hg. Qed.

#[export] Hint Extern 2 (Keeps _ (on_file _ _)) => apply keeps_on_file_at : typeclass_instances.
#[export] Hint Extern 2 (Keeps _ (write_at _ _ _)) => apply keeps_on_file_at : typeclass_instances.
#[export] Hint Extern 2 (Keeps _ (os_Truncate _ _)) => apply keeps_on_file_at : typeclass_instances.
#[export] Hint Extern 2 (Keeps _ (open_trunc _)) => apply keeps_open_trunc_at : typeclass_instances.
#[export] Hint Extern 2 (Keeps _ (open_excl _)) => apply keeps_open_excl_at : typeclass_instances.
#[export] Hint Extern 2 (Keeps _ (os_Remove _)) => apply keeps_os_Remove_at : typeclass_instances.

Lemma ext_Ok `{FirecrackerVMM, Env} {A} (m : M World A) w a w' :
  ext m w = (Ok a, w') → m (bump w) = (Ok a, w').
Proof. unfold ext. by destruct (fate (tick w)). Qed.

(** ** Instances for the executable examples *)

(** A VMM that keeps its guest as text and a paused flag. *)
Definition toy_vmm : FirecrackerVMM := {|
  vmm := string * bool;
  fc_start cfg := (default "" cfg, false);
  fc_action _ v := Ok v;
  fc_set_state st v := Ok (v.1, bool_decide (st = "Paused"));
  fc_create_snapshot v := if v.2 : bool then Ok ("state", v.1) else Err (ErrOther "not paused");
  fc_load_snapshot _ m _ := Ok (m, false);
  fc_patch_hotplug _ v := Ok v;
  fc_get_hotplug _ := Ok (0, 0, 0);
|}.

(** An environment with the given fate, in which commands do nothing. *)
Definition env_with (fate : nat → outcome) : Env := {|
  fate := fate;
  now_ms n := 1000 * Z.of_nat n;
  now_text n := FormatInt (Z.of_nat n);
  new_uuid n := "uuid-" +:+ FormatInt (Z.of_nat n);
  random_name n := FormatInt (Z.of_nat n);
  random_machine_id _ := "00000000000000000000000000000000";
  mod_time _ _ := (0, "1970-01-01T00:00:00Z");
  clone_supported _ := false;
  short_read _ := 2%nat;
  exec_command _ _ m := (true, m);
|}.

Definition calm : Env := env_with (λ _, Proceed).

Lemma env_with_local f : @CommandsLocal (env_with f).
Proof. done. Qed.

Definition empty_world : @World toy_vmm :=
  @MkWorld toy_vmm empty_store ∅ ∅ ∅ ∅ ∅ ∅ ∅ ∅ None 0.

(** The three ways a call can end. *)
Lemma ext_inv `{FirecrackerVMM, Env} {A} (m : M World A) w r w' :
  ext m w = (r, w') →
  (w' = bump w ∧ ∃ f, r = Err (fault_error f)) ∨
  ∃ r0, m (bump w) = (r0, w') ∧ (r = r0 ∨ ∃ f, r = Err (fault_error f)).
Proof.
  unfold ext. destruct (fate (tick w)).
  - intros E. right. by exists r; auto.
  - intros [= <- <-]. left. eauto.
  - destruct (m (bump w)) as [r0 w0]. intros [= <- <-]. right. exists r0. eauto.
Qed.
