(* ===== verification/FileCopy.v ===== *)
(** * Copying disks (internal/firecracker: copyFile, copySparseFile,
    copyRegularFile, ensureDisk, tryCloneFile)

    Byte-level model of the disk copies: reflink when the file system has it,
    else a copy of the data segments that leaves the holes, else a dense copy,
    with the short reads, the separate read and write positions and the
    failures of every system call. *)

From S2P Require Import Prelude GoStrings Paths Types Store World.

(** ** Bytes of a file *)

(** The byte at [i]; a file reads as zero beyond its end. *)
Fixpoint byte_at (s : string) (i : nat) : ascii :=
  match s, i with
  | "", _ => ascii_of_nat 0
  | String c _, O => c
  | String _ s', S i' => byte_at s' i'
  end.

Lemma byte_at_app s t i :
  byte_at (s +:+ t) i =
  if bool_decide (i < String.length s)%nat then byte_at s i else byte_at t (i - String.length s).
Proof.
  revert i. induction s as [|c s IH]; intros i.
  - rewrite str_app_nil_l. simpl. by rewrite Nat.sub_0_r.
  - rewrite str_app_cons. destruct i as [|i]; simpl; [done|]. rewrite IH.
    case_bool_decide; case_bool_decide; (done || lia).
Qed.

Lemma byte_at_beyond s i : (String.length s ≤ i)%nat → byte_at s i = ascii_of_nat 0.
Proof. revert i. induction s as [|c s IH]; intros [|i]; simpl; try done; intros; [lia|]. apply IH; lia. Qed.

Lemma byte_at_ext s t :
  String.length s = String.length t →
  (∀ i, (i < String.length s)%nat → byte_at s i = byte_at t i) → s = t.
Proof.
  revert t. induction s as [|c s IH]; intros [|d t]; simpl; try done. intros [= Hl] Hb.
  f_equal; [apply (Hb 0%nat); lia|]. apply IH; [done|]. intros i Hi. apply (Hb (S i)). lia.
Qed.

Lemma length_zeros n : String.length (zeros n) = n.
Proof. induction n; simpl; auto. Qed.

Lemma byte_at_zeros n i : byte_at (zeros n) i = ascii_of_nat 0.
Proof. revert i. induction n; intros [|i]; simpl; auto. Qed.

Lemma byte_at_take n s i :
  byte_at (str_take n s) i = if bool_decide (i < n)%nat then byte_at s i else ascii_of_nat 0.
Proof.
  revert s i. induction n as [|n IH]; intros [|c s] i; simpl.
  - by destruct i.
  - by destruct i.
  - case_bool_decide; by destruct i.
  - destruct i as [|i]; simpl; [done|]. rewrite IH.
    case_bool_decide; case_bool_decide; (done || lia).
Qed.

Lemma byte_at_drop n s i : byte_at (str_drop n s) i = byte_at s (n + i).
Proof.
  revert s. induction n as [|n IH]; intros [|c s]; simpl; try done.
Qed.

Lemma length_str_drop n s : String.length (str_drop n s) = (String.length s - n)%nat.
Proof. revert s. induction n; intros [|c s]; simpl; auto. Qed.

Lemma length_resized n c : String.length (resized n c) = n.
Proof. unfold resized. rewrite str_length_app, length_str_take, length_zeros. lia. Qed.

Lemma byte_at_resized n c i :
  byte_at (resized n c) i = if bool_decide (i < n)%nat then byte_at c i else ascii_of_nat 0.
Proof.
  unfold resized. rewrite byte_at_app, length_str_take, byte_at_take, byte_at_zeros.
  case_bool_decide as H1.
  - by rewrite bool_decide_eq_true_2 by lia.
  - case_bool_decide; [|done]. symmetry. apply byte_at_beyond. lia.
Qed.

Lemma length_spliced off data c :
  String.length (spliced off data c) = ((off + String.length data) `max` String.length c)%nat.
Proof.
  unfold spliced. rewrite !str_length_app, length_resized, length_str_drop. lia.
Qed.

Lemma byte_at_spliced off data c i :
  byte_at (spliced off data c) i =
  if bool_decide (off ≤ i < off + String.length data)%nat then byte_at data (i - off)
  else byte_at c i.
Proof.
  unfold spliced. rewrite !byte_at_app, length_resized, byte_at_resized, byte_at_drop.
  case_bool_decide as H1.
  { by rewrite bool_decide_eq_false_2 by lia. }
  case_bool_decide as H2.
  { by rewrite bool_decide_eq_true_2 by lia. }
  rewrite bool_decide_eq_false_2 by lia. f_equal. lia.
Qed.

(** ** The copies *)

(** [lseek(SEEK_DATA)] and [lseek(SEEK_HOLE)]. *)
Inductive seek := SeekTo (off : nat) | SeekENXIO | SeekUnsupported | SeekFailed.

Class SparseSeek := {
  seek_data : string → nat → seek;
  seek_hole : string → nat → seek;
}.

(** lseek(2): the bytes a data seek skips are zero, and so is the rest of the
    file when there is no more data; data reaches at least one byte up to the
    next hole; whether the file system supports the seeks does not depend on
    the offset. *)
Class SparseSeekLaws `{SparseSeek} : Prop := {
  seek_data_skips c off d : seek_data c off = SeekTo d →
    (off ≤ d < String.length c)%nat ∧ ∀ i, (off ≤ i < d)%nat → byte_at c i = ascii_of_nat 0;
  seek_data_none c off i :
    seek_data c off = SeekENXIO → (off ≤ i)%nat → byte_at c i = ascii_of_nat 0;
  seek_hole_after c off d h : seek_data c off = SeekTo d → seek_hole c d = SeekTo h → (d < h)%nat;
  seek_supported c off off' :
    (seek_data c off = SeekUnsupported ∨ ∃ d, seek_data c off = SeekTo d ∧ seek_hole c d = SeekUnsupported) →
    seek_data c off' = SeekUnsupported ∨
    ∃ d, seek_data c off' = SeekTo d ∧ seek_hole c d = SeekUnsupported;
}.

Section copy.
Context `{FirecrackerVMM, Env, SparseSeek}.

(** One [read(2)] at [off], at most [max] bytes; [""] at the end of the file. *)
Definition read_chunk (src : string) (off max : nat) : M World string :=
  t ← ticks;
  ext (λ w,
    match fs w !! src with
    | Some (File c) => (Ok (str_take (S (short_read t) `min` max) (str_drop off c)), w)
    | _ => (Err ErrNotExist, w)
    end).

Definition buffer_size : nat := Pos.to_nat (1024 * 1024).

Lemma buffer_size_pos : (0 < buffer_size)%nat.
Proof. apply Pos2Nat.is_pos. Qed.

(** The read/write loop: [limit] bytes are left to copy ([io.LimitReader]),
    [None] until the end of the file.  [checked] is the test of the context in
    [copyFileDenseContext].  A non-empty read moves both positions, so a
    number of rounds beyond the length of the source is enough. *)
Fixpoint copy_loop (fuel : nat) (checked : bool) (dst src : string)
    (out_pos in_pos : nat) (limit : option nat) : M World unit :=
  match fuel with
  | O => mret tt
  | S fuel' =>
      (if checked then ctx_Err else mret tt) ;;
      match limit with
      | Some O => mret tt
      | _ =>
          data ← read_chunk src in_pos (buffer_size `min` default buffer_size limit);
          if bool_decide (data = "") then mret tt
          else
            let n := String.length data in
            write_at dst out_pos data ;;
            copy_loop fuel' checked dst src (out_pos + n) (in_pos + n)
              ((λ l, l - n)%nat <$> limit)
      end
  end.

Definition file_length (src : string) : M World nat := ext (λ w,
  match fs w !! src with
  | Some (File c) => (Ok (String.length c), w)
  | _ => (Err ErrNotExist, w)
  end).

(** A loop over the whole of [src] has as many rounds as it has bytes. *)
Definition rounds (src : string) : M World nat := gets (λ w,
  match fs w !! src with Some (File c) => S (String.length c) | _ => 1%nat end).

Definition copyFileDenseContext (dst src : string) : M World unit :=
  n ← rounds src; copy_loop n true dst src 0 0 None.

(** The input is rewound, the output is not. *)
Definition copyFileDense (dst src : string) (out_pos : nat) : M World unit :=
  ext (mret tt) ;;
  n ← rounds src; copy_loop n false dst src out_pos 0 None.

Definition seek_src (src : string) (sk : string → seek) : M World seek := ext (λ w,
  match fs w !! src with Some (File c) => (Ok (sk c), w) | _ => (Err ErrNotExist, w) end).

Fixpoint sparse_loop (fuel : nat) (dst src : string) (size offset : nat) : M World unit :=
  match fuel with
  | O => mret tt
  | S fuel' =>
      if bool_decide (offset < size)%nat then
        sd ← seek_src src (λ c, seek_data c offset);
        match sd with
        | SeekENXIO => os_Truncate dst (Z.of_nat size)
        | SeekUnsupported => copyFileDense dst src offset
        | SeekFailed => fail (ErrOther "seek data")
        | SeekTo data =>
            sh ← seek_src src (λ c, seek_hole c data);
            match sh with
            | SeekUnsupported => copyFileDense dst src offset
            | SeekENXIO | SeekFailed => fail (ErrOther "seek hole")
            | SeekTo hole =>
                let hole := (hole `min` size)%nat in
                ext (mret tt) ;;
                ext (mret tt) ;;
                copy_loop (S (hole - data)) false dst src data data (Some (hole - data)%nat) ;;
                sparse_loop fuel' dst src size hole
            end
        end
      else os_Truncate dst (Z.of_nat size)
  end.

Definition copySparseFile (dst src : string) : M World unit :=
  size ← file_length src;
  if bool_decide (size = 0%nat) then mret tt
  else sparse_loop (S size) dst src size 0.

Definition tryCloneFile (dst src : string) : M World bool :=
  t ← ticks;
  ext (λ w,
    match fs w !! src with
    | Some (File c) =>
        if clone_supported t then (Ok true, set_fs <[dst := File c]> w) else (Ok false, w)
    | _ => (Err ErrNotExist, w)
    end).

(** [out.Close()]. *)
Definition close : M World unit := ext (mret tt).

Definition copyFile (dst src : string) : M World unit :=
  _ ← open_read src;
  open_trunc dst ;;
  cloned ← tryCloneFile dst src;
  if cloned : bool then close
  else copySparseFile dst src ;; close.

(** [errors.Join(copyErr, syncErr, closeErr)]: the file is closed in any case. *)
Definition copyRegularFile (dst src : string) : M World unit :=
  _ ← open_read src;
  open_trunc dst ;;
  copyErr ← attempt (copyFileDenseContext dst src);
  syncErr ← (if is_ok copyErr then attempt (ext (mret tt)) else mret (Ok tt));
  closeErr ← attempt close;
  match copyErr, syncErr, closeErr with
  | Err e, _, _ | _, Err e, _ | _, _, Err e => fail e
  | Ok _, Ok _, Ok _ => mret tt
  end.

(** [true]: the disk was created from [source]. *)
Definition ensureDisk (path source : string) (size : Z) : M World bool :=
  st ← attempt (os_Stat path);
  match st with
  | Ok _ => mret false
  | Err ErrNotExist =>
      _ ← open_read source;
      open_excl path ;;
      cloned ← tryCloneFile path source;
      (if cloned : bool then mret tt else copySparseFile path source) ;;
      os_Truncate path size ;;
      close ;;
      mret true
  | Err e => fail e
  end.
End copy.

(** ** Frames: a copy writes its destination only *)

#[local] Opaque buffer_size.

Section frames.
Context `{FirecrackerVMM, Env, SparseSeek} {B : Type} (f : World → B) `{!NoTick f}.
Context (dst : string) `{!NoAt dst f}.

#[global] Instance keeps_read_chunk src off max : Keeps f (read_chunk src off max).
Proof.
  unfold read_chunk. apply keeps_bind; [apply _|]. intros t. apply keeps_ext; [done|].
  intros w. by destruct (fs w !! src) as [[]|].
Qed.
#[global] Instance keeps_rounds src : Keeps f (rounds src).
Proof. apply _. Qed.
#[global] Instance keeps_file_length src : Keeps f (file_length src).
Proof. apply keeps_ext; [done|]. intros w. by destruct (fs w !! src) as [[]|]. Qed.
#[global] Instance keeps_seek_src src sk : Keeps f (seek_src src sk).
Proof. apply keeps_ext; [done|]. intros w. by destruct (fs w !! src) as [[]|]. Qed.
#[global] Instance keeps_close : Keeps f close.
Proof. apply _. Qed.

#[global] Instance keeps_copy_loop fuel checked src op ip limit :
  Keeps f (copy_loop fuel checked dst src op ip limit).
Proof.
  revert op ip limit. induction fuel as [|fuel IH]; intros op ip limit; cbn [copy_loop]; [apply _|].
  apply keeps_bind; [destruct checked; apply _|]. intros _.
  destruct limit as [[|l]|]; [apply _| |]; (apply keeps_bind; [apply _|]); intros data;
    (case_bool_decide; [apply _|]); (apply keeps_bind; [apply _|]); intros _; apply IH.
Qed.
#[global] Instance keeps_copyFileDense src pos : Keeps f (copyFileDense dst src pos).
Proof. unfold copyFileDense. apply _. Qed.
#[global] Instance keeps_copyFileDenseContext src : Keeps f (copyFileDenseContext dst src).
Proof. unfold copyFileDenseContext. apply _. Qed.
#[global] Instance keeps_sparse_loop fuel src size offset :
  Keeps f (sparse_loop fuel dst src size offset).
Proof.
  revert offset. induction fuel as [|fuel IH]; intros offset; cbn [sparse_loop]; [apply _|].
  case_bool_decide; [|apply _]. apply keeps_bind; [apply _|]. intros []; try apply _.
  apply keeps_bind; [apply _|]. intros []; apply _.
Qed.
#[global] Instance keeps_copySparseFile src : Keeps f (copySparseFile dst src).
Proof. unfold copySparseFile. apply _. Qed.
#[global] Instance keeps_tryCloneFile src : Keeps f (tryCloneFile dst src).
Proof.
  unfold tryCloneFile. apply keeps_bind; [apply _|]. intros t. apply keeps_ext; [done|].
  intros w. destruct (fs w !! src) as [[]|]; try done.
  destruct (clone_supported t); simpl; [by apply no_at_insert|done].
Qed.
#[global] Instance keeps_copyFile src : Keeps f (copyFile dst src).
Proof. unfold copyFile. apply _. Qed.
#[global] Instance keeps_copyRegularFile src : Keeps f (copyRegularFile dst src).
Proof.
  unfold copyRegularFile. repeat (apply keeps_bind; [apply _|]; intros ?).
  repeat case_match; apply _.
Qed.
#[global] Instance keeps_ensureDisk source size : Keeps f (ensureDisk dst source size).
Proof.
  unfold ensureDisk. apply keeps_bind; [apply _|]. intros [[]|[]]; apply _.
Qed.
End frames.

(** ** What a successful copy leaves *)

Section correct.
Context `{FirecrackerVMM, Env, SparseSeek}.

Lemma on_file_Ok p g w w' :
  on_file p g w = (Ok tt, w') →
  ∃ c, fs w !! p = Some (File c) ∧ fs w' !! p = Some (File (g c)).
Proof.
  intros E%ext_Ok. simpl in E. destruct (fs w !! p) as [[|c]|]; try done.
  injection E as <-. exists c. split; [done|]. apply lookup_insert_eq.
Qed.

Lemma open_trunc_Ok p w w' : open_trunc p w = (Ok tt, w') → fs w' !! p = Some (File "").
Proof.
  intros E%ext_Ok. simpl in E. destruct (fs w !! p) as [[|c]|]; try done.
  - injection E as <-. apply lookup_insert_eq.
  - destruct (parent_ok p (fs w)); [|done]. injection E as <-. apply lookup_insert_eq.
Qed.

Lemma open_excl_Ok p w w' :
  open_excl p w = (Ok tt, w') → fs w !! p = None ∧ fs w' !! p = Some (File "").
Proof.
  intros E%ext_Ok. simpl in E. destruct (fs w !! p) as [[|c]|]; try done.
  destruct (parent_ok p (fs w)); [|done]. injection E as <-. split; [done|]. apply lookup_insert_eq.
Qed.

Lemma open_read_Ok p w c w' : open_read p w = (Ok c, w') → fs w !! p = Some (File c).
Proof.
  intros E%ext_Ok. simpl in E. destruct (fs w !! p) as [[|d]|]; try done. by injection E as <- <-.
Qed.

(** [seg] written at [op] into [d]. *)
Definition copied (op : nat) (seg d d' : string) : Prop :=
  (∀ i, byte_at d' i =
     if bool_decide (op ≤ i < op + String.length seg)%nat then byte_at seg (i - op) else byte_at d i) ∧
  String.length d' =
    if bool_decide (seg = "") then String.length d
    else ((op + String.length seg) `max` String.length d)%nat.

Lemma copied_nil op d : copied op "" d d.
Proof. split; [|done]. intros i. by rewrite bool_decide_eq_false_2 by (simpl; lia). Qed.

Lemma str_nonempty_length s : s ≠ "" → (0 < String.length s)%nat.
Proof. destruct s; simpl; [done|lia]. Qed.

Lemma copied_app op data seg d d' :
  data ≠ "" → copied (op + String.length data) seg (spliced op data d) d' →
  copied op (data +:+ seg) d d'.
Proof.
  intros Hne [Hb Hl]. apply str_nonempty_length in Hne as Hpos. split.
  - intros i. rewrite Hb, byte_at_spliced, byte_at_app, str_length_app.
    repeat case_bool_decide; first [done|lia|f_equal; lia].
  - rewrite Hl, length_spliced, str_length_app.
    rewrite (bool_decide_eq_false_2 (data +:+ seg = "")) by (by intros [??]%str_app_eq_nil).
    case_bool_decide as Hs; [subst seg; simpl|]; lia.
Qed.

Definition limited (limit : option nat) (s : string) : string :=
  match limit with Some n => str_take n s | None => s end.

Lemma str_take_drop n s : str_take n s +:+ str_drop n s = s.
Proof. revert s. induction n as [|n IH]; intros [|c s]; try done. simpl. by rewrite str_app_cons, IH. Qed.
Lemma str_drop_drop n k s : str_drop k (str_drop n s) = str_drop (n + k) s.
Proof. revert s. induction n as [|n IH]; intros [|c s]; simpl; try done. by destruct k. Qed.
Lemma str_take_split n k s : (k ≤ n)%nat → str_take n s = str_take k s +:+ str_take (n - k) (str_drop k s).
Proof.
  revert n s. induction k as [|k IH]; intros n s Hk.
  - by rewrite str_app_nil_l, Nat.sub_0_r.
  - destruct n as [|n]; [lia|]. destruct s as [|c s]; simpl.
    + by destruct (n - k)%nat.
    + rewrite str_app_cons, <-IH by lia. done.
Qed.

Lemma read_chunk_Ok src off max w data w' c :
  (0 < max)%nat → fs w !! src = Some (File c) → read_chunk src off max w = (Ok data, w') →
  ∃ n, (n ≤ max)%nat ∧ data = str_take n (str_drop off c) ∧
       (data = "" → str_drop off c = "").
Proof.
  intros Hmax Hc E. unfold read_chunk in E. inv_ok E. apply ext_Ok in E. simpl in E.
  injection E0 as <- <-. rewrite Hc in E. injection E as <- <-.
  exists (S (short_read (tick w)) `min` max)%nat. split; [lia|]. split; [done|].
  destruct max as [|max]; [lia|]. by destruct (str_drop off c).
Qed.

(** What one successful read contributes. *)
Lemma chunk_split n ip limit c data :
  (n ≤ default n limit)%nat → data = str_take n (str_drop ip c) →
  limited limit (str_drop ip c) =
  data +:+ limited ((λ l, l - String.length data)%nat <$> limit) (str_drop (ip + String.length data) c).
Proof.
  intros Hn Hdata. set (k := String.length data).
  assert (k = n `min` String.length (str_drop ip c))%nat as Hk
    by (unfold k; by rewrite Hdata, length_str_take).
  assert (data = str_take k (str_drop ip c)) as Hd.
  { rewrite Hdata. destruct (decide (n ≤ String.length (str_drop ip c))%nat).
    - by rewrite Hk, Nat.min_l by lia.
    - by rewrite !str_take_all by lia. }
  rewrite <-str_drop_drop, Hd at 1. destruct limit as [l|]; simpl in *.
  - apply str_take_split. lia.
  - by rewrite str_take_drop.
Qed.

Lemma min_limit b limit :
  (0 < b)%nat → limit ≠ Some 0%nat →
  (0 < b `min` default b limit)%nat ∧ ∀ l, limit = Some l → (b `min` default b limit ≤ l)%nat.
Proof.
  intros Hb Hl. destruct limit as [[|l]|]; simpl; [done|..]; split; try lia; [|done].
  intros ? [= <-]. lia.
Qed.

(** One round: nothing is left, or a non-empty chunk is moved. *)
Lemma copy_loop_step fuel checked dst src c op ip limit d w w' :
  src ≠ dst → fs w !! src = Some (File c) → fs w !! dst = Some (File d) →
  copy_loop (S fuel) checked dst src op ip limit w = (Ok tt, w') →
  (limited limit (str_drop ip c) = "" ∧ fs w' !! dst = Some (File d)) ∨
  ∃ data w3, data ≠ "" ∧
    limited limit (str_drop ip c) = data +:+
      limited ((λ l, l - String.length data)%nat <$> limit) (str_drop (ip + String.length data) c) ∧
    fs w3 !! src = Some (File c) ∧ fs w3 !! dst = Some (File (spliced op data d)) ∧
    copy_loop fuel checked dst src (op + String.length data) (ip + String.length data)
      ((λ l, l - String.length data)%nat <$> limit) w3 = (Ok tt, w').
Proof.
  intros Hne Hc Hd E. pose proof (no_at_ne _ _ Hne) as Hat.
  cbn [copy_loop] in E. apply bind_Ok in E as ([] & w1 & E1 & E).
  rewrite <-(keeps_Ok (λ w, fs w !! src) _ _ _ _ E1) in Hc.
  rewrite <-(keeps_Ok (λ w, fs w !! dst) _ _ _ _ E1) in Hd.
  destruct (decide (limit = Some 0%nat)) as [->|Hlim].
  { left. by injection E as <-. }
  set (max := (buffer_size `min` default buffer_size limit)%nat) in E.
  destruct (min_limit _ _ buffer_size_pos Hlim) as [Hmax Hle]. fold max in Hmax, Hle.
  clearbody max.
  assert (∃ data w2, read_chunk src ip max w1 = (Ok data, w2) ∧
    (if bool_decide (data = "") then mret tt
     else write_at dst op data ;;
          copy_loop fuel checked dst src (op + String.length data) (ip + String.length data)
            ((λ l, l - String.length data)%nat <$> limit)) w2 = (Ok tt, w')) as (data & w2 & Er & Ek).
  { destruct limit as [[|l]|]; [done|..]; by apply bind_Ok in E. }
  destruct (read_chunk_Ok _ _ _ _ _ _ _ Hmax Hc Er) as (n & Hn & Hdata & Hend).
  rewrite <-(keeps_Ok (λ w, fs w !! src) _ _ _ _ Er) in Hc.
  rewrite <-(keeps_Ok (λ w, fs w !! dst) _ _ _ _ Er) in Hd.
  case_bool_decide as Hemp.
  { left. injection Ek as <-. rewrite (Hend Hemp). by destruct limit as [[]|]. }
  apply bind_Ok in Ek as ([] & w3 & Ew & Ek). right. exists data, w3.
  destruct (on_file_Ok _ _ _ _ Ew) as (d0 & Hd0 & Hd3). rewrite Hd in Hd0. injection Hd0 as <-.
  split_and!; [done| |by rewrite <-Hc; apply (keeps_Ok (λ w, fs w !! src) _ _ _ _ Ew)|done|done].
  eapply chunk_split; [|done]. destruct limit as [l|]; simpl; [|lia].
  specialize (Hle l eq_refl). lia.
Qed.

(** The loop copies what is left of the source, up to the limit. *)
Lemma copy_loop_Ok fuel checked dst src c : ∀ op ip limit d w w',
  src ≠ dst → fs w !! src = Some (File c) → fs w !! dst = Some (File d) →
  (String.length (limited limit (str_drop ip c)) < fuel)%nat →
  copy_loop fuel checked dst src op ip limit w = (Ok tt, w') →
  ∃ d', fs w' !! dst = Some (File d') ∧ copied op (limited limit (str_drop ip c)) d d'.
Proof.
  induction fuel as [|fuel IH]; intros op ip limit d w w' Hne Hc Hd Hfuel E; [lia|].
  destruct (copy_loop_step _ _ _ _ _ _ _ _ _ _ _ Hne Hc Hd E)
    as [[-> Hw']|(data & w3 & Hdata & Hsplit & Hc3 & Hd3 & Ek)].
  { exists d. split; [done|]. apply copied_nil. }
  apply str_nonempty_length in Hdata as Hpos.
  rewrite Hsplit in Hfuel |- *. rewrite str_length_app in Hfuel.
  pose proof (λ Hf, IH _ _ _ _ _ _ Hne Hc3 Hd3 Hf Ek) as Hrest.
  destruct Hrest as (d' & Hd' & Hcp); [lia|].
  exists d'. split; [done|]. by apply copied_app.
Qed.

Lemma copied_whole c d' : copied 0 c "" d' → d' = c.
Proof.
  intros [Hb Hl]. assert (String.length d' = String.length c) as Hlen.
  { rewrite Hl. case_bool_decide; subst; simpl; lia. }
  apply byte_at_ext; [done|]. intros i Hi. rewrite Hb, bool_decide_eq_true_2 by (simpl in *; lia).
  by rewrite Nat.sub_0_r.
Qed.

Lemma rounds_Ok src w n w' c :
  fs w !! src = Some (File c) → rounds src w = (Ok n, w') → w' = w ∧ n = S (String.length c).
Proof. intros Hc E. unfold rounds, gets in E. rewrite Hc in E. by injection E as <- <-. Qed.

(** From an empty destination, the dense copies reproduce the source. *)
Lemma dense_Ok checked dst src c w w' n :
  src ≠ dst → fs w !! src = Some (File c) → fs w !! dst = Some (File "") →
  n = S (String.length c) →
  copy_loop n checked dst src 0 0 None w = (Ok tt, w') → fs w' !! dst = Some (File c).
Proof.
  intros Hne Hc Hd -> E.
  destruct (copy_loop_Ok (S (String.length c)) _ _ _ c 0%nat 0%nat None _ _ _ Hne Hc Hd ltac:(simpl; lia) E) as (d' & Hd' & Hcp).
  simpl in Hcp. by rewrite Hd', (copied_whole _ _ Hcp).
Qed.

(** ** The sparse copy *)

Context `{!SparseSeekLaws}.

Definition unsupported (c : string) (off : nat) : Prop :=
  seek_data c off = SeekUnsupported ∨ ∃ d, seek_data c off = SeekTo d ∧ seek_hole c d = SeekUnsupported.

(** The first [off] bytes are in place, nothing but zeros follows. *)
Definition copied_to (c : string) (off : nat) (d : string) : Prop :=
  ∀ i, byte_at d i = if bool_decide (i < off)%nat then byte_at c i else ascii_of_nat 0.

Lemma resized_copied c d : copied_to c (String.length c) d → resized (String.length c) d = c.
Proof.
  intros Hd. apply byte_at_ext; rewrite length_resized; [done|]. intros i Hi.
  by rewrite byte_at_resized, Hd, !bool_decide_eq_true_2 by done.
Qed.

Lemma copied_to_zeros c off off' d :
  copied_to c off d → (off ≤ off')%nat →
  (∀ i, (off ≤ i < off')%nat → byte_at c i = ascii_of_nat 0) → copied_to c off' d.
Proof.
  intros Hd Hle Hz i. rewrite Hd. case_bool_decide; case_bool_decide; try done; try lia.
  symmetry. apply Hz. lia.
Qed.

Lemma copied_to_segment c from to d d' :
  copied_to c from d → (from ≤ to)%nat →
  copied from (str_take (to - from) (str_drop from c)) d d' → copied_to c to d'.
Proof.
  intros Hd Hle [Hb _] i. rewrite Hb, Hd, byte_at_take, byte_at_drop, length_str_take, length_str_drop.
  repeat case_bool_decide; try done; try lia; [f_equal; lia|].
  symmetry. apply byte_at_beyond. lia.
Qed.

Lemma truncate_Ok dst c d w w' :
  fs w !! dst = Some (File d) → copied_to c (String.length c) d →
  os_Truncate dst (Z.of_nat (String.length c)) w = (Ok tt, w') → fs w' !! dst = Some (File c).
Proof.
  intros Hd Hc E. destruct (on_file_Ok _ _ _ _ E) as (d0 & Hd0 & ->). rewrite Hd in Hd0.
  injection Hd0 as <-. rewrite Nat2Z.id. by rewrite resized_copied.
Qed.

Lemma copyFileDense_Ok dst src c w w' :
  src ≠ dst → fs w !! src = Some (File c) → fs w !! dst = Some (File "") →
  copyFileDense dst src 0 w = (Ok tt, w') → fs w' !! dst = Some (File c).
Proof.
  intros Hne Hc Hd E. unfold copyFileDense in E. apply bind_Ok in E as ([] & w1 & E1 & E).
  rewrite <-(keeps_Ok (λ w, fs w !! src) _ _ _ _ E1) in Hc.
  rewrite <-(keeps_Ok (λ w, fs w !! dst) _ _ _ _ E1) in Hd.
  apply bind_Ok in E as (n & w2 & E2 & E). destruct (rounds_Ok _ _ _ _ _ Hc E2) as [-> ->].
  by eapply dense_Ok.
Qed.

Lemma seek_src_Ok src sk c w r w' :
  fs w !! src = Some (File c) → seek_src src sk w = (Ok r, w') → r = sk c.
Proof.
  intros Hc E%ext_Ok. simpl in E. rewrite Hc in E. by injection E as <- <-.
Qed.

Lemma segment_Ok dst src c from to d w w' :
  src ≠ dst → fs w !! src = Some (File c) → fs w !! dst = Some (File d) →
  copied_to c from d → (from ≤ to)%nat →
  copy_loop (S (to - from)) false dst src from from (Some (to - from)%nat) w = (Ok tt, w') →
  ∃ d', fs w' !! dst = Some (File d') ∧ copied_to c to d'.
Proof.
  intros Hne Hc Hd Hcp Hle E.
  destruct (copy_loop_Ok (S (to - from)) _ _ _ c from from (Some (to - from)%nat) _ _ _ Hne Hc Hd
              ltac:(simpl; rewrite length_str_take; lia) E) as (d' & Hd' & Hcp').
  exists d'. split; [done|]. by eapply copied_to_segment.
Qed.

Lemma sparse_loop_Ok dst src c fuel : ∀ offset d w w',
  src ≠ dst → fs w !! src = Some (File c) → fs w !! dst = Some (File d) →
  copied_to c offset d → (offset = 0%nat ∧ d = "" ∨ ¬ unsupported c 0) →
  (String.length c - offset < fuel)%nat → (offset ≤ String.length c)%nat →
  sparse_loop fuel dst src (String.length c) offset w = (Ok tt, w') →
  fs w' !! dst = Some (File c).
Proof.
  induction fuel as [|fuel IH]; intros offset d w w' Hne Hc Hd Hcp Hsup Hfuel Hoff E; [lia|].
  pose proof (no_at_ne _ _ Hne) as Hat.
  assert (∀ off, unsupported c off → offset = 0%nat ∧ d = "") as Hfb.
  { intros off Hu. destruct Hsup as [?|Hs]; [done|]. by destruct Hs; apply (seek_supported _ off). }
  cbn [sparse_loop] in E. case_bool_decide as Hlt.
  2: { replace offset with (String.length c) in * by lia. by eapply truncate_Ok. }
  apply bind_Ok in E as (sd & w1 & E1 & E).
  pose proof (seek_src_Ok _ _ _ _ _ _ Hc E1) as Hsd.
  rewrite <-(keeps_Ok (λ w, fs w !! src) _ _ _ _ E1) in Hc.
  rewrite <-(keeps_Ok (λ w, fs w !! dst) _ _ _ _ E1) in Hd.
  destruct sd as [data| | |]; [|..|done].
  2: { eapply truncate_Ok; [done| |done]. eapply copied_to_zeros; [done|lia|].
       intros i Hi. eapply seek_data_none; [by symmetry|lia]. }
  2: { destruct (Hfb offset) as [-> ->]; [by left|]. by eapply copyFileDense_Ok. }
  apply bind_Ok in E as (sh & w2 & E2 & E).
  pose proof (seek_src_Ok _ _ _ _ _ _ Hc E2) as Hsh.
  rewrite <-(keeps_Ok (λ w, fs w !! src) _ _ _ _ E2) in Hc.
  rewrite <-(keeps_Ok (λ w, fs w !! dst) _ _ _ _ E2) in Hd.
  destruct sh as [hole| | |]; try done.
  2: { destruct (Hfb offset) as [-> ->]; [right; eauto|]. by eapply copyFileDense_Ok. }
  destruct (seek_data_skips _ _ _ (eq_sym Hsd)) as [Hle Hz].
  pose proof (seek_hole_after _ _ _ _ (eq_sym Hsd) (eq_sym Hsh)) as Hh. cbv zeta in E.
  apply bind_Ok in E as ([] & w3 & E3 & E). apply bind_Ok in E as ([] & w4 & E4 & E).
  apply bind_Ok in E as ([] & w5 & E5 & E).
  rewrite <-(keeps_Ok (λ w, fs w !! src) _ _ _ _ E3), <-(keeps_Ok (λ w, fs w !! src) _ _ _ _ E4) in Hc.
  rewrite <-(keeps_Ok (λ w, fs w !! dst) _ _ _ _ E3), <-(keeps_Ok (λ w, fs w !! dst) _ _ _ _ E4) in Hd.
  destruct (segment_Ok dst src c data (hole `min` String.length c) d w4 w5) as (d' & Hd' & Hcp');
    try done; [by eapply copied_to_zeros; [done|lia|]|lia|].
  rewrite <-(keeps_Ok (λ w, fs w !! src) _ _ _ _ E5) in Hc.
  eapply (IH _ d' w5); eauto; [|lia..]. right. intros Hu.
  destruct (seek_supported _ _ offset Hu) as [?|(? & ? & ?)]; congruence.
Qed.

Lemma copySparseFile_Ok dst src c w w' :
  src ≠ dst → fs w !! src = Some (File c) → fs w !! dst = Some (File "") →
  copySparseFile dst src w = (Ok tt, w') → fs w' !! dst = Some (File c).
Proof.
  intros Hne Hc Hd E. unfold copySparseFile in E. apply bind_Ok in E as (n & w1 & E1 & E).
  assert (n = String.length c) as ->.
  { apply ext_Ok in E1. simpl in E1. rewrite Hc in E1. by injection E1 as <- <-. }
  rewrite <-(keeps_Ok (λ w, fs w !! src) _ _ _ _ E1) in Hc.
  rewrite <-(keeps_Ok (λ w, fs w !! dst) _ _ _ _ E1) in Hd.
  case_bool_decide as Hl.
  - injection E as <-. rewrite Hd. by destruct c.
  - eapply sparse_loop_Ok; [done|done|done| |by left|..|done]; [|lia..].
    intros i. by rewrite bool_decide_eq_false_2 by lia.
Qed.

(** What [tryCloneFile] leaves: the source, or nothing new. *)
Lemma tryCloneFile_Ok dst src c b w w' :
  fs w !! src = Some (File c) → tryCloneFile dst src w = (Ok b, w') →
  fs w' !! dst = if b then Some (File c) else fs w !! dst.
Proof.
  intros Hc E. unfold tryCloneFile in E. apply bind_Ok in E as (t & w1 & E1 & E%ext_Ok).
  injection E1 as <- <-. simpl in E. rewrite Hc in E.
  destruct (clone_supported _); injection E as <- <-; [apply lookup_insert_eq|done].
Qed.

Lemma clone_or_copy_Ok {B} (k : bool → M World B) dst src c b w w' :
  src ≠ dst → fs w !! src = Some (File c) → fs w !! dst = Some (File "") →
  (cloned ← tryCloneFile dst src;
   (if cloned : bool then mret tt else copySparseFile dst src) ;; k cloned) w = (Ok b, w') →
  ∃ cl w1, fs w1 !! dst = Some (File c) ∧ k cl w1 = (Ok b, w').
Proof.
  intros Hne Hc Hd E. pose proof (no_at_ne _ _ Hne) as Hat.
  apply bind_Ok in E as (cl & w1 & E1 & E). apply bind_Ok in E as ([] & w2 & E2 & E).
  exists cl, w2. split; [|done]. pose proof (tryCloneFile_Ok _ _ _ _ _ _ Hc E1) as Hcl.
  rewrite <-(keeps_Ok (λ w, fs w !! src) _ _ _ _ E1) in Hc.
  destruct cl; [by injection E2 as <-|]. rewrite Hd in Hcl. by eapply copySparseFile_Ok.
Qed.

Lemma copyFile_Ok dst src c w w' :
  src ≠ dst → fs w !! src = Some (File c) → copyFile dst src w = (Ok tt, w') →
  fs w' !! dst = Some (File c).
Proof.
  intros Hne Hc E. pose proof (no_at_ne _ _ Hne) as Hat. unfold copyFile in E.
  apply bind_Ok in E as (c0 & w1 & E1 & E).
  rewrite <-(keeps_Ok (λ w, fs w !! src) _ _ _ _ E1) in Hc.
  apply bind_Ok in E as ([] & w2 & E2 & E). pose proof (open_trunc_Ok _ _ _ E2) as Hd.
  rewrite <-(keeps_Ok (λ w, fs w !! src) _ _ _ _ E2) in Hc.
  apply bind_Ok in E as (cl & w3 & E3 & E).
  pose proof (tryCloneFile_Ok _ _ _ _ _ _ Hc E3) as Hcl.
  rewrite <-(keeps_Ok (λ w, fs w !! src) _ _ _ _ E3) in Hc. destruct cl.
  - rewrite <-Hcl. exact (keeps_Ok (λ w, fs w !! dst) _ _ _ _ E).
  - rewrite Hd in Hcl. apply bind_Ok in E as ([] & w4 & E4 & E).
    rewrite <-(copySparseFile_Ok _ _ _ _ _ Hne Hc Hcl E4).
    exact (keeps_Ok (λ w, fs w !! dst) _ _ _ _ E).
Qed.

Lemma copyRegularFile_Ok dst src c w w' :
  src ≠ dst → fs w !! src = Some (File c) → copyRegularFile dst src w = (Ok tt, w') →
  fs w' !! dst = Some (File c).
Proof.
  intros Hne Hc E. pose proof (no_at_ne _ _ Hne) as Hat. unfold copyRegularFile in E.
  apply bind_Ok in E as (c0 & w1 & E1 & E).
  rewrite <-(keeps_Ok (λ w, fs w !! src) _ _ _ _ E1) in Hc.
  apply bind_Ok in E as ([] & w2 & E2 & E). pose proof (open_trunc_Ok _ _ _ E2) as Hd.
  rewrite <-(keeps_Ok (λ w, fs w !! src) _ _ _ _ E2) in Hc.
  apply bind_Ok in E as (r3 & w3 & E3%attempt_Ok & E).
  apply bind_Ok in E as (r4 & w4 & E4 & E). apply bind_Ok in E as (r5 & w5 & E5 & E).
  destruct r3 as [[]|]; [|done]. destruct r4, r5; try done. injection E as <-.
  rewrite (keeps_Ok (λ w, fs w !! dst) _ _ _ _ E5), (keeps_Ok (λ w, fs w !! dst) _ _ _ _ E4).
  unfold copyFileDenseContext in E3. apply bind_Ok in E3 as (n & w6 & E6 & E3).
  destruct (rounds_Ok _ _ _ _ _ Hc E6) as [-> ->]. by eapply dense_Ok.
Qed.

(** ** Success when nothing fails *)

Section succeeds.
Context (Hgo : ∀ n, fate n = Proceed) (dst src : string) (Hne : src ≠ dst).

(** Both files are there; the copy keeps it so. *)
Definition both (c : string) (w : World) : Prop :=
  fs w !! src = Some (File c) ∧ ∃ d, fs w !! dst = Some (File d).

Lemma ext_go {A} (m : M World A) w : ext m w = m (bump w).
Proof. by apply ext_proceed. Qed.

Lemma on_file_go c g w : both c w → ∃ w', on_file dst g w = (Ok tt, w') ∧ both c w'.
Proof.
  intros [Hc [d Hd]]. unfold on_file. rewrite ext_go. simpl. rewrite Hd.
  eexists. split; [done|]. split; simpl; [by rewrite lookup_insert_ne|].
  eexists. apply lookup_insert_eq.
Qed.

Lemma copy_loop_go fuel checked c : ∀ op ip limit w,
  both c w → ∃ w', copy_loop fuel checked dst src op ip limit w = (Ok tt, w') ∧ both c w'.
Proof.
  induction fuel as [|fuel IH]; intros op ip limit w Hw; [by exists w|].
  cbn [copy_loop]. unfold mbind at 1, M_mbind at 1.
  assert (∃ w1, (if checked then ctx_Err else mret tt) w = (Ok tt, w1) ∧ both c w1) as (w1 & -> & Hw1).
  { destruct checked; [|by exists w]. unfold ctx_Err. rewrite ext_go. by eexists. }
  assert (∀ max, ∃ data w2, read_chunk src ip max w1 = (Ok data, w2) ∧ both c w2) as Hread.
  { intros max. unfold read_chunk, mbind, M_mbind. simpl. rewrite ext_go. simpl.
    rewrite (proj1 Hw1). by eexists _, _. }
  destruct limit as [[|l]|]; [by eexists|..];
    match goal with |- context [read_chunk src ip ?max] =>
      destruct (Hread max) as (data & w2 & E & Hw2) end;
    unfold mbind at 1, M_mbind at 1; rewrite E;
    (case_bool_decide; [by eexists|]); unfold mbind at 1, M_mbind at 1;
    (destruct (on_file_go c (spliced op data) w2 Hw2) as (w3 & Ew & Hw3));
    unfold write_at; rewrite Ew; by apply IH.
Qed.

Lemma copyFileDense_go pos c w :
  both c w → ∃ w', copyFileDense dst src pos w = (Ok tt, w') ∧ both c w'.
Proof.
  intros Hw. unfold copyFileDense, mbind, M_mbind. rewrite ext_go. by apply copy_loop_go.
Qed.

Context (Hdata : ∀ c off, seek_data c off ≠ SeekFailed)
        (Hhole : ∀ c off, seek_hole c off ≠ SeekFailed ∧ seek_hole c off ≠ SeekENXIO).

Lemma seek_src_go c sk w : both c w → ∃ w', seek_src src sk w = (Ok (sk c), w') ∧ both c w'.
Proof.
  intros Hw. unfold seek_src. rewrite ext_go. simpl. rewrite (proj1 Hw). by eexists.
Qed.

Lemma sparse_loop_go fuel size c : ∀ offset w,
  both c w → ∃ w', sparse_loop fuel dst src size offset w = (Ok tt, w') ∧ both c w'.
Proof.
  induction fuel as [|fuel IH]; intros offset w Hw; [by exists w|].
  cbn [sparse_loop]. case_bool_decide; [|by apply on_file_go].
  unfold mbind at 1, M_mbind at 1.
  destruct (seek_src_go c (λ c, seek_data c offset) w Hw) as (w1 & -> & Hw1).
  specialize (Hdata c offset). destruct (seek_data c offset) as [data| | |]; [|..|done].
  2: by apply on_file_go. 2: by apply copyFileDense_go.
  unfold mbind at 1, M_mbind at 1.
  destruct (seek_src_go c (λ c, seek_hole c data) w1 Hw1) as (w2 & -> & Hw2).
  destruct (Hhole c data) as [? ?]. destruct (seek_hole c data) as [hole| | |]; try done.
  2: by apply copyFileDense_go.
  cbv zeta. unfold mbind at 1, M_mbind at 1. rewrite ext_go. cbn [mret M_mret].
  unfold mbind at 1, M_mbind at 1. rewrite ext_go. cbn [mret M_mret].
  unfold mbind at 1, M_mbind at 1.
  match goal with |- context [copy_loop ?n ?b dst src ?op ?ip ?l ?w] =>
    destruct (copy_loop_go n b c op ip l w) as (w3 & -> & Hw3); [done|] end.
  by apply IH.
Qed.

Lemma tryCloneFile_go c w :
  both c w → ∃ b w', tryCloneFile dst src w = (Ok b, w') ∧ both c w'.
Proof.
  intros [Hc Hd]. unfold tryCloneFile, mbind, M_mbind. simpl. rewrite ext_go. simpl. rewrite Hc.
  destruct (clone_supported _); eexists _, _; (split; [done|]); [|by split].
  split; simpl; [by rewrite lookup_insert_ne|]. eexists. apply lookup_insert_eq.
Qed.

Lemma copySparseFile_go c w :
  both c w → ∃ w', copySparseFile dst src w = (Ok tt, w') ∧ both c w'.
Proof.
  intros Hw. unfold copySparseFile, file_length, mbind, M_mbind. rewrite ext_go.
  change (fs (bump w)) with (fs w). rewrite (proj1 Hw). case_bool_decide; [by eexists|]. by apply sparse_loop_go.
Qed.

Lemma copyFile_go c w d :
  fs w !! src = Some (File c) → fs w !! dst = Some (File d) →
  ∃ w', copyFile dst src w = (Ok tt, w').
Proof.
  intros Hc Hd. unfold copyFile, mbind at 1, M_mbind at 1, open_read. rewrite ext_go. simpl.
  rewrite Hc. unfold mbind at 1, M_mbind at 1, open_trunc. rewrite ext_go. simpl. rewrite Hd.
  unfold mbind at 1, M_mbind at 1.
  match goal with |- context [tryCloneFile dst src ?w1] =>
    destruct (tryCloneFile_go c w1) as (b & w2 & -> & Hw2) end.
  { split; simpl; [by rewrite lookup_insert_ne|]. eexists. apply lookup_insert_eq. }
  destruct b; [unfold close; rewrite ext_go; by eexists|].
  unfold mbind, M_mbind. destruct (copySparseFile_go c w2 Hw2) as (w3 & -> & _).
  unfold close. rewrite ext_go. by eexists.
Qed.
End succeeds.
End correct.

(** C17.  [copyFile] under any failure changes nothing but its destination, and
    a successful copy holds exactly the bytes of the source, whichever of
    reflink, sparse and dense copying was used, with whatever short reads and
    hole map; and onto an existing file, when no call fails and the system can
    tell data from holes, it succeeds. *)
Theorem copyFile_correct `{FirecrackerVMM, Env, SparseSeekLaws} dst src c w r w' :
  src ≠ dst → fs w !! src = Some (File c) → copyFile dst src w = (r, w') →
  (∀ p, p ≠ dst → fs w' !! p = fs w !! p) ∧
  (r = Ok tt → fs w' !! dst = Some (File c)) ∧
  ((∀ n, fate n = Proceed) → (∃ d, fs w !! dst = Some (File d)) →
   (∀ c off, seek_data c off ≠ SeekFailed) →
   (∀ c off, seek_hole c off ≠ SeekFailed ∧ seek_hole c off ≠ SeekENXIO) → r = Ok tt).
Proof.
  intros Hne Hc E. split_and!.
  - intros p Hp. pose proof (no_at_ne dst p Hp) as Hat.
    exact (keeps_Ok (λ w, fs w !! p) _ _ _ _ E).
  - intros ->. by eapply copyFile_Ok.
  - intros Hgo [d Hd] Hdata Hhole.
    destruct (copyFile_go Hgo dst src Hne Hdata Hhole c w d Hc Hd) as [w1 E1]. congruence.
Qed.

(** A file system without holes. *)
Definition dense_seek : SparseSeek := {|
  seek_data c off := if bool_decide (off < String.length c)%nat then SeekTo off else SeekENXIO;
  seek_hole c off := SeekTo (S off `max` String.length c);
|}.

Lemma dense_seek_laws : @SparseSeekLaws dense_seek.
Proof.
  split; simpl.
  - intros c off d. case_bool_decide; [|done]. intros [= ->]. split; [lia|]. intros; lia.
  - intros c off i. case_bool_decide; [done|]. intros _ Hi. apply byte_at_beyond. lia.
  - intros c off d h. case_bool_decide; [|done]. intros [= ->] [= <-]. lia.
  - intros c off off'. case_bool_decide; intros [?|(? & ? & ?)]; done.
Qed.

Lemma dense_seek_total :
  (∀ c off, @seek_data dense_seek c off ≠ SeekFailed) ∧
  (∀ c off, @seek_hole dense_seek c off ≠ SeekFailed ∧ @seek_hole dense_seek c off ≠ SeekENXIO).
Proof. split; intros c off; simpl; [by case_bool_decide|done]. Qed.

Lemma copyFile_correct_witness :
  let w := set_fs (λ _, {[ "/a" := File "disk bytes"; "/b" := File "" ]}) empty_world in
  let run := @copyFile toy_vmm calm dense_seek "/b" "/a" w in
  "/a" ≠ "/b" ∧ fs w !! "/a" = Some (File "disk bytes") ∧ run.1 = Ok tt ∧
  fs run.2 !! "/b" = Some (File "disk bytes").
Proof.
  intros w run.
  destruct (@copyFile_correct toy_vmm calm dense_seek dense_seek_laws "/b" "/a" "disk bytes"
              w run.1 run.2) as (_ & Hok & Hgo);
    [by intros|reflexivity|apply surjective_pairing|].
  assert (run.1 = Ok tt) as Hr.
  { apply Hgo; [reflexivity|exists ""; reflexivity|apply dense_seek_total..]. }
  split; [by intros|]. split; [reflexivity|]. split; [exact Hr|]. exact (Hok Hr).
Defined.

(** ** ensureDisk *)

Section ensure_disk.
Context `{FirecrackerVMM, Env, SparseSeekLaws}.

(** [false]: the disk was already there and is untouched; [true]: it was
    created, with the contents of the source brought to the wanted size. *)
Lemma ensureDisk_Ok path source size c b w w' :
  source ≠ path → fs w !! source = Some (File c) →
  ensureDisk path source size w = (Ok b, w') →
  if b then fs w !! path = None ∧ fs w' !! path = Some (File (resized (Z.to_nat size) c))
  else is_Some (fs w !! path) ∧ fs w' !! path = fs w !! path.
Proof.
  intros Hne Hc E. pose proof (no_at_ne _ _ Hne) as Hat. unfold ensureDisk in E.
  apply bind_Ok in E as (st & w1 & E1%attempt_Ok & E).
  pose proof (keeps_Ok (λ w, fs w !! path) _ _ _ _ E1) as Hp1.
  rewrite <-(keeps_Ok (λ w, fs w !! source) _ _ _ _ E1) in Hc.
  destruct st as [fi|[]]; try done.
  { injection E as <- <-. split; [|done]. apply ext_Ok in E1. simpl in E1.
    by destruct (fs w !! path). }
  apply bind_Ok in E as (c0 & w2 & E2 & E). apply bind_Ok in E as ([] & w3 & E3 & E).
  rewrite <-(keeps_Ok (λ w, fs w !! source) _ _ _ _ E2) in Hc.
  rewrite <-(keeps_Ok (λ w, fs w !! source) _ _ _ _ E3) in Hc.
  destruct (open_excl_Ok _ _ _ E3) as [Hno Hd].
  rewrite (keeps_Ok (λ w, fs w !! path) _ _ _ _ E2), Hp1 in Hno.
  destruct (clone_or_copy_Ok (λ _, os_Truncate path size ;; close ;; mret true)
              _ _ _ _ _ _ Hne Hc Hd E) as (cl & w4 & Hd4 & E4).
  apply bind_Ok in E4 as ([] & w5 & E5 & E4). apply bind_Ok in E4 as ([] & w6 & E6 & E4).
  injection E4 as <- <-. split; [done|].
  rewrite (keeps_Ok (λ w, fs w !! path) _ _ _ _ E6).
  destruct (on_file_Ok _ _ _ _ E5) as (d & Hd5 & ->). rewrite Hd4 in Hd5. by injection Hd5 as <-.
Qed.
End ensure_disk.
