(* ===== verification/Host.v ===== *)
(** * What the manager does to the host for one VM
    (internal/firecracker/manager.go, internal/cgroup)

    The paths of a VM, the metadata of the base image, the rewriting of the
    guest's identity on its disk, the TAP link and the Firecracker API calls:
    the pieces [Manager.v] composes into the lifecycle operations. *)

From S2P Require Import Prelude GoStrings Paths IPNet Crypto Json Types Store Config PrivateNet.
From S2P Require Import Memory World.
From stdpp Require Import sorting.
Open Scope Z_scope.

(** ** Paths *)

Record layout := MkLayout {
  vmDir : string;
  runtimeDir : string;
  sleepDir : string;
  diskPath : string;
  configPath : string;
  socketPath : string;
  stdoutPath : string;
  stderrPath : string;
  sleepStatePath : string;
  sleepMemPath : string;
}.

Definition layout_of (cfg : Config) (name : string) : layout :=
  let vmDir := path_Join [StateDir cfg; "vms"; name] in
  let runtimeDir := path_Join [vmDir; "run"] in
  let sleepDir := path_Join [vmDir; "sleep"] in
  {| vmDir := vmDir;
     runtimeDir := runtimeDir;
     sleepDir := sleepDir;
     diskPath := path_Join [vmDir; "rootfs.ext4"];
     configPath := path_Join [runtimeDir; "firecracker.json"];
     socketPath := path_Join [runtimeDir; "firecracker.sock"];
     stdoutPath := path_Join [runtimeDir; "stdout.log"];
     stderrPath := path_Join [runtimeDir; "stderr.log"];
     sleepStatePath := path_Join [sleepDir; "vmstate"];
     sleepMemPath := path_Join [sleepDir; "memory"] |}.

Record snapshotLayout := MkSnapshotLayout {
  sl_dir : string;
  sl_statePath : string;
  sl_memPath : string;
  sl_diskPath : string;
}.

Definition snapshotLayout_of (cfg : Config) (name : string) : snapshotLayout :=
  let dir := path_Join [StateDir cfg; "snapshots"; name] in
  {| sl_dir := dir;
     sl_statePath := path_Join [dir; "vmstate"];
     sl_memPath := path_Join [dir; "memory"];
     sl_diskPath := path_Join [dir; "rootfs.ext4"] |}.

Definition coldVMDir (cfg : Config) (name : string) : string :=
  if is_empty (cold_Dir (ColdStorage cfg)) then ""
  else path_Join [cold_Dir (ColdStorage cfg); "vms"; name].

Definition coldDiskPath (cfg : Config) (name : string) : string :=
  let dir := coldVMDir cfg name in
  if is_empty dir then "" else path_Join [dir; "rootfs.ext4"].

(** ** Boot configuration text *)

Record preparedNetwork := MkNetwork {
  nw_tapName : string;
  nw_guestMAC : string;
  nw_guestCIDR : string;
  nw_hostIP : Z;
  nw_guestIP : Z;
  nw_hostIPv4 : Z;
  nw_guestIPv4 : Z;
}.

(** The IPv4 pair is always present in a prepared network. *)
Definition bootArgs (cfg : Config) (netdev : preparedNetwork) : string :=
  "console=ttyS0 reboot=k panic=1 net.ifnames=0 root=/dev/vda rw memhp_default_state=online_movable quiet loglevel=3 systemd.show_status=false rd.systemd.show_status=false" +:+
  " firedoze.guest_ip=" +:+ IP_String (nw_guestIP netdev) +:+
  " firedoze.host_ip=" +:+ IP_String (nw_hostIP netdev) +:+
  " firedoze.guest_ipv4=" +:+ IP_String (nw_guestIPv4 netdev) +:+
  " firedoze.host_ipv4=" +:+ IP_String (nw_hostIPv4 netdev) +:+
  " firedoze.memory_port=" +:+ FormatInt (gc_MemoryPort (GuestControl cfg)) +:+
  (if dns_Enabled (DNS cfg) then
     " firedoze.dns_ip=" +:+ dns_ListenIP (DNS cfg) +:+
     " firedoze.dns_domain=" +:+ dns_Domain (DNS cfg)
   else "").

Definition macForVMName (name : string) : string :=
  let sum := sha256 (bytes_of name) in
  let at_ i := hex2 (default 0 (sum !! i)) in
  "06:00:" +:+ at_ 0%nat +:+ ":" +:+ at_ 1%nat +:+ ":" +:+ at_ 2%nat +:+ ":" +:+ at_ 3%nat.

Definition hotplug_json (h : option memoryHotplugConfig) : json :=
  match h with
  | None => JNull
  | Some h => JObject ([("total_size_mib", JInt (TotalSizeMiB h))] ++
                       omitempty "slot_size_mib" (JInt (SlotSizeMiB h)) ++
                       omitempty "block_size_mib" (JInt (BlockSizeMiB h)))
  end.

(** [firecrackerConfig] as [writeFirecrackerConfig] marshals it. *)
Definition firecrackerConfig (cfg : Config) (vm : VM) (l : layout) (netdev : preparedNetwork)
    (mem : hostMemoryConfig) : json :=
  JObject ([
    ("boot-source", JObject ([("kernel_image_path", JString (fc_BaseKernelPath (Firecracker cfg)))] ++
       omitempty "initrd_path" (JString (fc_BaseInitrdPath (Firecracker cfg))) ++
       [("boot_args", JString (bootArgs cfg netdev))]));
    ("drives", JArray [JObject [
       ("drive_id", JString "rootfs"); ("path_on_host", JString (diskPath l));
       ("is_root_device", JBool true); ("is_read_only", JBool false)]]);
    ("network-interfaces", JArray [JObject [
       ("iface_id", JString "eth0"); ("host_dev_name", JString (nw_tapName netdev));
       ("guest_mac", JString (nw_guestMAC netdev))]]);
    ("machine-config", JObject [
       ("vcpu_count", JInt (vm_VCPUs vm)); ("mem_size_mib", JInt (bootMiB mem));
       ("smt", JBool false)])] ++
    omitempty "memory-hotplug" (hotplug_json (hotplug mem))).

Section host.
Context `{FirecrackerVMM, Env, GoUnicode}.

Definition writeFirecrackerConfig (path : string) (c : json) : M World unit :=
  os_WriteFile path (MarshalIndent c +:+ newline).

(** ** Base image metadata *)

Definition fileSHA256 (p : string) : M World string :=
  c ← open_read p; mret (hex_encode (Sum256 c)).

Definition artifactMetadata (p : string) : M World ArtifactMetadata :=
  info ← os_Stat p;
  t ← ticks;
  sum ← fileSHA256 p;
  mret (MkArtifact p (path_Base p) sum (fi_Size info) (mod_time t p).2).

Definition manifest_line (m : gmap string string) (line : string) : gmap string string :=
  let line := TrimSpace line in
  if is_empty line || HasPrefix line "#" then m
  else match Cut line "=" with
       | None => m
       | Some (k, v) => <[TrimSpace k := TrimSpace v]> m
       end.

Definition readImageManifest (p : string) : M World (gmap string string) :=
  data ← open_read p;
  mret (fold_left manifest_line (Split data newline_char) ∅).

Definition base_paths (cfg : Config) : list string :=
  [fc_BaseRootfsPath (Firecracker cfg); fc_BaseKernelPath (Firecracker cfg)] ++
  (if is_empty (fc_BaseInitrdPath (Firecracker cfg)) then [] else [fc_BaseInitrdPath (Firecracker cfg)]).

Fixpoint signature_of (ps : list string) : M World string :=
  match ps with
  | [] => mret ""
  | p :: ps' =>
      info ← os_Stat p;
      t ← ticks;
      rest ← signature_of ps';
      let nul := String (ascii_of_nat 0) "" in
      mret (p +:+ nul +:+ FormatInt (fi_Size info) +:+ nul +:+ FormatInt (mod_time t p).1 +:+ nul +:+ rest)
  end.

Definition baseImageSignature (cfg : Config) : M World string := signature_of (base_paths cfg).

Definition baseImageMetadata (cfg : Config) : M World BaseImageMetadata :=
  signature ← baseImageSignature cfg;
  cached ← gets baseCache;
  match cached with
  | Some (sig, md) => if bool_decide (sig = signature) then mret (Some md) else mret None
  | None => mret None
  end ≫= λ hit,
  match hit with
  | Some md => mret md
  | None =>
      rootfs ← artifactMetadata (fc_BaseRootfsPath (Firecracker cfg));
      kernel ← artifactMetadata (fc_BaseKernelPath (Firecracker cfg));
      initrd ← (if is_empty (fc_BaseInitrdPath (Firecracker cfg)) then mret None
                else md ← artifactMetadata (fc_BaseInitrdPath (Firecracker cfg)); mret (Some md));
      manifest ← attempt (readImageManifest
        (path_Join [path_Dir (fc_BaseRootfsPath (Firecracker cfg)); "manifest.txt"]));
      let md := MkBaseImage rootfs kernel initrd (match manifest with Ok m => m | Err _ => ∅ end) in
      modify (set_baseCache (Some (signature, md))) ;;
      mret md
  end.

Definition artifact_json (a : ArtifactMetadata) : json :=
  JObject ([("path", JString (am_Path a)); ("basename", JString (am_Basename a))] ++
           omitempty "sha256" (JString (am_SHA256 a)) ++
           omitempty "size" (JInt (am_Size a)) ++
           omitempty "mod_time" (JString (am_ModTime a))).

(** Go marshals a map with its keys sorted. *)
Definition key_le (a b : string * string) : Prop := String.le a.1 b.1.
#[local] Instance key_le_dec : RelDecision key_le.
Proof. intros a b. apply _. Defined.

Definition metadata_json (md : BaseImageMetadata) : json :=
  JObject ([("rootfs", artifact_json (bm_Rootfs md)); ("kernel", artifact_json (bm_Kernel md))] ++
           match bm_Initrd md with Some a => [("initrd", artifact_json a)] | None => [] end ++
           omitempty "manifest"
             (JObject ((λ kv, (kv.1, JString kv.2)) <$>
                merge_sort key_le (map_to_list (bm_Manifest md))))).

Definition or_else (a b : string) : string := if is_empty a then b else a.

Definition applyBaseImageMetadata (p : CreateVMParams) (md : BaseImageMetadata) : CreateVMParams :=
  MkCreateVMParams (p_Name p) (p_PrivateIP p) (p_VCPUs p) (p_MemoryMinMiB p) (p_MemoryMaxMiB p)
    (p_DiskBytes p) (p_DefaultHTTPPort p) (p_IdleSleepAfterSeconds p)
    (or_else (am_SHA256 (bm_Rootfs md)) (am_Basename (bm_Rootfs md)))
    (or_else (am_SHA256 (bm_Kernel md)) (am_Basename (bm_Kernel md)))
    (Marshal (metadata_json md)) (p_AutoWake p) (p_AutoWakeSet p) (p_PublicHTTP p).

(** ** The guest's files, edited through debugfs *)

Definition debugfsPath : string := "/usr/sbin/debugfs".
Definition sshKeygenPath : string := "/usr/bin/ssh-keygen".

Definition debugfs (request disk : string) : M World unit :=
  run_cmd debugfsPath ["-w"; "-R"; request; disk].

(** The three requests that replace [guestPath] by the host file [localPath]. *)
Definition replaceGuestFile (disk guestPath localPath mode : string) : M World unit :=
  attempt (debugfs ("rm " +:+ guestPath) disk) ;;
  debugfs ("write " +:+ localPath +:+ " " +:+ guestPath) disk ;;
  debugfs ("set_inode_field " +:+ guestPath +:+ " mode " +:+ mode) disk.

Definition writeGuestFileMode (disk guestPath data mode : string) : M World unit :=
  tmpPath ← os_CreateTemp "/tmp" "firedoze-guest-file-" "";
  deferring
    (write_at tmpPath 0 data ;;
     ext (mret tt) ;;
     attempt (debugfs ("rm " +:+ guestPath) disk) ;;
     debugfs ("write " +:+ tmpPath +:+ " " +:+ guestPath) disk ;;
     if is_empty mode then mret tt
     else debugfs ("set_inode_field " +:+ guestPath +:+ " mode " +:+ mode) disk)
    (attempt (os_Remove tmpPath) ;; mret tt).

Fixpoint rewrite_keys (disk tmpDir : string) (keys : list (string * string)) : M World unit :=
  match keys with
  | [] => mret tt
  | (keyType, path) :: rest =>
      let localPath := path_Join [tmpDir; path_Base path] in
      run_cmd sshKeygenPath ["-q"; "-N"; ""; "-t"; keyType; "-f"; localPath] ;;
      replaceGuestFile disk path localPath "0100600" ;;
      replaceGuestFile disk (path +:+ ".pub") (localPath +:+ ".pub") "0100644" ;;
      rewrite_keys disk tmpDir rest
  end.

Definition rewriteSSHHostKeys (disk : string) : M World unit :=
  tmpDir ← os_MkdirTemp "/tmp" "firedoze-ssh-host-keys-";
  deferring
    (rewrite_keys disk tmpDir
       [("rsa", "/etc/ssh/ssh_host_rsa_key"); ("ecdsa", "/etc/ssh/ssh_host_ecdsa_key");
        ("ed25519", "/etc/ssh/ssh_host_ed25519_key")])
    (attempt (os_RemoveAll tmpDir) ;; mret tt).

Definition randomMachineID : M World string := ext (gets (λ w, random_machine_id (tick w))).

Definition hosts_file (vmName : string) : string :=
  "127.0.0.1 localhost" +:+ newline +:+ "127.0.1.1 " +:+ vmName +:+ newline +:+ newline +:+
  "::1 localhost ip6-localhost ip6-loopback" +:+ newline +:+ "ff02::1 ip6-allnodes" +:+ newline +:+
  "ff02::2 ip6-allrouters" +:+ newline.

Definition rewriteGuestIdentity (disk vmName : string) : M World unit :=
  writeGuestFileMode disk "/etc/hostname" (vmName +:+ newline) "0100644" ;;
  writeGuestFileMode disk "/etc/hosts" (hosts_file vmName) "0100644" ;;
  machineID ← randomMachineID;
  writeGuestFileMode disk "/etc/machine-id" (machineID +:+ newline) "0100444" ;;
  attempt (writeGuestFileMode disk "/var/lib/dbus/machine-id" (machineID +:+ newline) "0100444") ;;
  rewriteSSHHostKeys disk.

(** [NetworkScript] is the text of internal/guestfiles. *)
Definition rewriteGuestNetworkHelper (NetworkScript disk : string) : M World unit :=
  writeGuestFileMode disk "/usr/local/sbin/firedoze-guest-network" NetworkScript "0100755".

Definition resizeExt4Image (path : string) : M World unit := run_cmd "resize2fs" [path].

(** ** cgroups (internal/cgroup) *)

Definition vmGroupName : string := "firedoze-vms".
Definition daemonName : string := "firedoze-daemon".

Definition replace_unsafe (c : ascii) : ascii :=
  if bool_decide (c = "/"%char ∨ c = "\"%char ∨ c = ascii_of_nat 0) then "-"%char else c.
Definition vmCgroupName (uuid : string) : string := "vm-" +:+ str_map replace_unsafe uuid.

(** A cgroup directory exists or not; its control files are the kernel's.  The
    two weights are optional writes. *)
Definition cgroup_PrepareVM (vmsDir uuid : string) : M World string :=
  let dir := path_Join [vmsDir; vmCgroupName uuid] in
  ext (modify (set_cgroups (union {[dir]}))) ;;
  ext (mret tt) ;;
  ext (mret tt) ;;
  mret dir.

Definition cgroup_AttachVM (vmsDir uuid : string) : M World string :=
  dir ← cgroup_PrepareVM vmsDir uuid;
  ext (mret tt) ;;
  mret dir.

Definition cgroup_Remove (path : string) : M World unit :=
  if is_empty path then mret tt
  else ext (modify (set_cgroups (λ g, g ∖ {[path]}))).

(** ** The TAP link *)

Definition LinkByName (name : string) : M World bool :=
  ext (gets (λ w, bool_decide (is_Some (taps w !! name)))).

Definition deleteTap (name : string) : M World unit :=
  if is_empty name then mret tt
  else
    found ← LinkByName name;
    if found : bool then ext (modify (set_taps (delete name)))
    else mret tt.

Definition LinkAdd (name : string) : M World unit := ext (λ w,
  if bool_decide (is_Some (taps w !! name)) then (Err (ErrOther "file exists"), w)
  else (Ok tt, set_taps <[name := []]> w)).

Definition AddrReplace (name addr : string) : M World unit := ext (λ w,
  match taps w !! name with
  | Some addrs => (Ok tt, set_taps <[name := addr :: filter (λ a, a ≠ addr) addrs]> w)
  | None => (Err (ErrOther "no such device"), w)
  end).

(** A step after which a failure takes the device down again. *)
Definition or_delete_tap {A} (tap : string) (m : M World A) : M World A :=
  r ← attempt m;
  match r with
  | Ok a => mret a
  | Err e => attempt (deleteTap tap) ;; fail e
  end.

Definition prepareNetwork (cfg : Config) (vm : VM) : M World preparedNetwork :=
  if is_empty (vm_PrivateIP vm) then fail (ErrOther "vm has no private_ip") else
  match ParseIP (vm_PrivateIP vm) with
  | None => fail (ErrOther "private_ip must be an IP address")
  | Some guestIP =>
      if is_v4 guestIP then fail (ErrOther "private_ip must be IPv6") else
      match decrementIP guestIP with
      | None => fail (ErrOther "private_ip has invalid /127 host peer")
      | Some hostIP =>
          '(hostIPv4, guestIPv4) ← lift_result (privateIPv4Pair (VMNetwork cfg) guestIP);
          let tap := tapName (vm_Name vm) in
          attempt (deleteTap tap) ;;
          LinkAdd tap ;;
          or_delete_tap tap (
            found ← LinkByName tap;
            if found : bool then mret tt else fail (ErrOther "Link not found")) ;;
          or_delete_tap tap (AddrReplace tap (IP_String hostIP +:+ "/127")) ;;
          or_delete_tap tap (AddrReplace tap (IP_String hostIPv4 +:+ "/31")) ;;
          or_delete_tap tap (ext (mret tt)) ;;
          os_WriteFile "/proc/sys/net/ipv6/conf/all/forwarding" ("1" +:+ newline) ;;
          os_WriteFile "/proc/sys/net/ipv4/ip_forward" ("1" +:+ newline) ;;
          mret (MkNetwork tap (macForVMName (vm_Name vm)) (IP_String guestIP +:+ "/127")
                  hostIP guestIP hostIPv4 guestIPv4)
      end
  end.

(** ** The Firecracker API, by its socket *)

Definition api {A} (sock : string) (f : vmm → result (A * vmm)) : M World A := ext (λ w,
  match vmms w !! sock with
  | None => (Err (ErrOther "dial unix: no such process"), w)
  | Some v =>
      match f v with
      | Ok (a, v') => (Ok a, set_vmms <[sock := v']> w)
      | Err e => (Err e, w)
      end
  end).

Definition firecrackerAction (sock action : string) : M World unit :=
  api sock (λ v, v' ← fc_action action v; Ok (tt, v')).
Definition firecrackerSetVMState (sock state : string) : M World unit :=
  api sock (λ v, v' ← fc_set_state state v; Ok (tt, v')).
Definition firecrackerLoadSnapshot (sock statePath memPath : string) : M World unit :=
  s ← open_read statePath; m ← open_read memPath;
  api sock (λ v, v' ← fc_load_snapshot s m v; Ok (tt, v')).

(** The VMM writes the two files itself. *)
Definition firecrackerCreateSnapshot (sock statePath memPath : string) : M World unit :=
  sm ← api sock (λ v, sm ← fc_create_snapshot v; Ok (sm, v));
  os_WriteFile statePath sm.1 ;;
  os_WriteFile memPath sm.2.

Record memoryHotplugStatus := MkStatus { st_Total : Z; st_Requested : Z; st_Plugged : Z }.

Definition firecrackerPatchMemoryHotplug (sock : string) (requestedMiB : Z) : M World unit :=
  api sock (λ v, v' ← fc_patch_hotplug requestedMiB v; Ok (tt, v')).
Definition firecrackerGetMemoryHotplug (sock : string) : M World memoryHotplugStatus :=
  api sock (λ v, '(t, r, p) ← fc_get_hotplug v; Ok (MkStatus t r p, v)).

(** [waitForSocket]: the socket file appears, or the five seconds pass. *)
Definition waitForSocket (path : string) : M World unit := ext (λ w,
  if bool_decide (is_Some (fs w !! path)) then (Ok tt, w)
  else (Err (ErrOther "timed out waiting for firecracker socket"), w)).
End host.

(** ** Frames *)

Section frames.
Context `{FirecrackerVMM, Env, GoUnicode} {B : Type} (f : World → B) `{!NoTick f}.

#[global] Instance keeps_modify_cgroups g : NoCgroups f → Keeps f (modify (set_cgroups g)).
Proof. intros Hf w. apply Hf. Qed.
#[global] Instance keeps_modify_taps g : NoTaps f → Keeps f (modify (set_taps g)).
Proof. intros Hf w. apply Hf. Qed.
#[global] Instance keeps_modify_running g : NoRunning f → Keeps f (modify (set_running g)).
Proof. intros Hf w. apply Hf. Qed.
#[global] Instance keeps_modify_vmms g : NoVmms f → Keeps f (modify (set_vmms g)).
Proof. intros Hf w. apply Hf. Qed.
#[global] Instance keeps_modify_reports g : NoReports f → Keeps f (modify (set_reports g)).
Proof. intros Hf w. apply Hf. Qed.
#[global] Instance keeps_modify_cache c : NoBaseCache f → Keeps f (modify (set_baseCache c)).
Proof. intros Hf w. apply Hf. Qed.

#[global] Instance keeps_cgroup_PrepareVM d u : NoCgroups f → Keeps f (cgroup_PrepareVM d u).
Proof. intros ?. unfold cgroup_PrepareVM. apply _. Qed.
#[global] Instance keeps_cgroup_AttachVM d u : NoCgroups f → Keeps f (cgroup_AttachVM d u).
Proof. intros ?. unfold cgroup_AttachVM. apply _. Qed.
#[global] Instance keeps_cgroup_Remove p : NoCgroups f → Keeps f (cgroup_Remove p).
Proof. intros ?. unfold cgroup_Remove. apply _. Qed.

#[global] Instance keeps_LinkByName n : Keeps f (LinkByName n).
Proof. apply _. Qed.
#[global] Instance keeps_deleteTap n : NoTaps f → Keeps f (deleteTap n).
Proof. intros ?. unfold deleteTap. apply _. Qed.
#[global] Instance keeps_LinkAdd n : NoTaps f → Keeps f (LinkAdd n).
Proof. intros Hf. apply keeps_ext; [done|]. intros w. case_bool_decide; [done|]. apply Hf. Qed.
#[global] Instance keeps_AddrReplace n a : NoTaps f → Keeps f (AddrReplace n a).
Proof. intros Hf. apply keeps_ext; [done|]. intros w. destruct (taps w !! n); [|done]. apply Hf. Qed.
#[global] Instance keeps_or_delete_tap {A} tap (m : M World A) :
  NoTaps f → Keeps f m → Keeps f (or_delete_tap tap m).
Proof. intros ? ?. unfold or_delete_tap. apply _. Qed.
#[global] Instance keeps_prepareNetwork cfg vm :
  NoTaps f → NoFs f → Keeps f (prepareNetwork cfg vm).
Proof.
  intros ? ?. unfold prepareNetwork. case_match; [apply _|].
  destruct (ParseIP _); [|apply _]. case_match; [apply _|]. destruct (decrementIP _); [|apply _].
  apply keeps_bind; [apply _|]. intros [a b]. apply _.
Qed.

#[global] Instance keeps_api {A} sock (g : vmm → result (A * vmm)) : NoVmms f → Keeps f (api sock g).
Proof.
  intros Hf. apply keeps_ext; [done|]. intros w. destruct (vmms w !! sock); [|done].
  destruct (g _) as [[]|]; [apply Hf|done].
Qed.
#[global] Instance keeps_firecrackerAction s a : NoVmms f → Keeps f (firecrackerAction s a).
Proof. intros ?. unfold firecrackerAction. apply _. Qed.
#[global] Instance keeps_firecrackerSetVMState s a : NoVmms f → Keeps f (firecrackerSetVMState s a).
Proof. intros ?. unfold firecrackerSetVMState. apply _. Qed.
#[global] Instance keeps_firecrackerLoadSnapshot s a b :
  NoVmms f → Keeps f (firecrackerLoadSnapshot s a b).
Proof. intros ?. unfold firecrackerLoadSnapshot. apply _. Qed.
#[global] Instance keeps_firecrackerCreateSnapshot s a b :
  NoVmms f → NoFs f → Keeps f (firecrackerCreateSnapshot s a b).
Proof. intros ? ?. unfold firecrackerCreateSnapshot. apply _. Qed.
#[global] Instance keeps_PatchMemoryHotplug s r : NoVmms f → Keeps f (firecrackerPatchMemoryHotplug s r).
Proof. intros ?. unfold firecrackerPatchMemoryHotplug. apply _. Qed.
#[global] Instance keeps_GetMemoryHotplug s : NoVmms f → Keeps f (firecrackerGetMemoryHotplug s).
Proof. intros ?. unfold firecrackerGetMemoryHotplug. apply _. Qed.
#[global] Instance keeps_waitForSocket p : Keeps f (waitForSocket p).
Proof. apply keeps_ext; [done|]. intros w. by case_bool_decide. Qed.

#[global] Instance keeps_fileSHA256 p : Keeps f (fileSHA256 p).
Proof. unfold fileSHA256. apply _. Qed.
#[global] Instance keeps_artifactMetadata p : Keeps f (artifactMetadata p).
Proof. unfold artifactMetadata. apply _. Qed.
#[global] Instance keeps_readImageManifest p : Keeps f (readImageManifest p).
Proof. unfold readImageManifest. apply _. Qed.
#[global] Instance keeps_signature_of ps : Keeps f (signature_of ps).
Proof. induction ps; simpl; apply _. Qed.
#[global] Instance keeps_baseImageSignature cfg : Keeps f (baseImageSignature cfg).
Proof. apply _. Qed.
#[global] Instance keeps_baseImageMetadata cfg : NoBaseCache f → Keeps f (baseImageMetadata cfg).
Proof.
  intros ?. unfold baseImageMetadata.
  apply keeps_bind; [apply _|]. intros sig. apply keeps_bind; [apply _|]. intros c.
  apply keeps_bind; [destruct c as [[]|]; apply _|]. intros []; apply _.
Qed.

Context `{!NoFs f}.
#[global] Instance keeps_debugfs r d : Keeps f (debugfs r d).
Proof. apply _. Qed.
#[global] Instance keeps_replaceGuestFile a b c d : Keeps f (replaceGuestFile a b c d).
Proof. unfold replaceGuestFile. apply _. Qed.
#[global] Instance keeps_writeGuestFileMode a b c d : Keeps f (writeGuestFileMode a b c d).
Proof. unfold writeGuestFileMode. apply _. Qed.
#[global] Instance keeps_rewrite_keys disk tmp keys : Keeps f (rewrite_keys disk tmp keys).
Proof. induction keys as [|[]]; simpl; apply _. Qed.
#[global] Instance keeps_rewriteSSHHostKeys d : Keeps f (rewriteSSHHostKeys d).
Proof. unfold rewriteSSHHostKeys. apply _. Qed.
#[global] Instance keeps_rewriteGuestIdentity d n : Keeps f (rewriteGuestIdentity d n).
Proof. unfold rewriteGuestIdentity, randomMachineID. apply _. Qed.
#[global] Instance keeps_rewriteGuestNetworkHelper s d : Keeps f (rewriteGuestNetworkHelper s d).
Proof. unfold rewriteGuestNetworkHelper. apply _. Qed.
#[global] Instance keeps_resizeExt4Image p : Keeps f (resizeExt4Image p).
Proof. apply _. Qed.
#[global] Instance keeps_writeFirecrackerConfig p c : Keeps f (writeFirecrackerConfig p c).
Proof. unfold writeFirecrackerConfig. apply _. Qed.
End frames.
