(* ===== verification/Manager.v ===== *)
(** * The VM manager (internal/firecracker/manager.go, cold_storage.go)

    Every operation of [firecracker.Manager] that changes state, translated
    call by call: the operation locks, create, start, resume, stop, sleep,
    reboot, delete, cold storage, snapshots and restore.  [defer] is
    [deferring]; an ignored error is an [attempt].

    The goroutine [launchProcess] leaves behind is [process_exited]: it runs
    when the process is gone, as its own step or inside
    [waitForProcessExit], which ends only when it has run (after five seconds
    the wait kills the process) or when the context is cancelled. *)

From S2P Require Import Prelude GoStrings Paths IPNet Json Types Store Config PrivateNet Memory.
From S2P Require Import World FileCopy Host.
From stdpp Require Import sorting.
Open Scope Z_scope.

Section manager.
Context `{FirecrackerVMM, Env, SparseSeek, GoUnicode, UuidLib, Timestamps}.
Context (cfg : Config).
(** [m.cgroups]: the directory of the VM cgroups, when cgroups are available. *)
Context (vmsDir : option string).
(** The guest network script of internal/guestfiles. *)
Context (NetworkScript : string).

#[local] Abbreviation lay name := (layout_of cfg name).

(** ** Operation locks *)

Definition lock (vmUUID : string) : M World unit := modify (set_vmOps (union {[vmUUID]})).

Definition endVMOperation (vmUUID : string) : M World unit :=
  modify (set_vmOps (λ s, s ∖ {[vmUUID]})).

Definition beginVMOperation (vmUUID : string) : M World unit :=
  ops ← gets vmOps;
  if bool_decide (vmUUID ∈ ops) then fail ErrAlreadyRunning else lock vmUUID.

(** The [end] function of a cold archive: its entry and its lock go together. *)
Definition end_archive (vmUUID : string) : M World unit :=
  modify (λ w, set_coldArchives (λ s, s ∖ {[vmUUID]}) (set_vmOps (λ s, s ∖ {[vmUUID]}) w)).

(** The loops that cancel a running archive and wait for its end.  [fuel]
    counts the archives met in a row: a new one can only begin while this
    operation waits. *)
Fixpoint begin_loop (fuel : nat) (checkRunning : bool) (vmUUID : string) : M World unit :=
  ctx_Err ;;
  run ← gets running;
  if checkRunning && bool_decide (is_Some (run !! vmUUID)) then fail ErrAlreadyRunning else
  arch ← gets coldArchives;
  if bool_decide (vmUUID ∈ arch) then
    ext (end_archive vmUUID) ;;
    match fuel with
    | O => fail ErrCanceled
    | S fuel' => begin_loop fuel' checkRunning vmUUID
    end
  else
    ops ← gets vmOps;
    if bool_decide (vmUUID ∈ ops) then fail ErrAlreadyRunning else lock vmUUID.

Definition beginVMOperationCancelingColdArchive (vmUUID : string) : M World unit :=
  begin_loop 1 false vmUUID.
Definition beginStartOperationCancelingColdArchive (vmUUID : string) : M World unit :=
  begin_loop 1 true vmUUID.

Definition beginColdArchiveOperation (vmUUID : string) : M World unit :=
  ctx_Err ;;
  ops ← gets vmOps;
  if bool_decide (vmUUID ∈ ops) then fail ErrAlreadyRunning
  else modify (λ w, set_coldArchives (union {[vmUUID]}) (set_vmOps (union {[vmUUID]}) w)).

(** ** Processes *)

Definition cleanupNetwork (proc : Process) : M World unit := deleteTap (pr_TapName proc).

Definition cleanupAfterExit (proc : Process) : M World unit :=
  attempt (os_Remove (pr_SocketPath proc)) ;;
  attempt (cgroup_Remove (pr_CgroupPath proc)) ;;
  cleanupNetwork proc.

(** [proc.Command.Process.Kill()]. *)
Definition kill (proc : Process) : M World unit := modify (set_vmms (delete (pr_SocketPath proc))).

Definition with_final (st : string) (p : Process) : Process :=
  MkProcess (pr_UUID p) (pr_Name p) (pr_RuntimeDir p) (pr_SocketPath p) (pr_TapName p)
    (pr_GuestCIDR p) st (pr_CgroupPath p).

(** The goroutine of [launchProcess], after [cmd.Wait] has returned. *)
Definition process_exited (vmUUID : string) : M World unit :=
  run ← gets running;
  match run !! vmUUID with
  | None => mret tt
  | Some proc =>
      let finalState := if is_empty (pr_FinalState proc) then "stopped" else pr_FinalState proc in
      attempt (cleanupAfterExit proc) ;;
      attempt (store_SetVMState vmUUID finalState) ;;
      modify (set_running (delete vmUUID))
  end.

Definition launchProcess (vm : VM) (l : layout) (netdev : preparedNetwork) (configFile : option string)
    : M World Process :=
  open_append (stdoutPath l) ;;
  open_append (stderrPath l) ;;
  cgroupPath ← match vmsDir with
               | None => mret ""
               | Some d => r ← attempt (cgroup_PrepareVM d (vm_UUID vm));
                           mret (match r with Ok p => p | Err _ => "" end)
               end;
  started ← attempt (ext (modify (λ w,
    let text := p ← configFile; n ← fs w !! p; match n with File c => Some c | Dir => None end in
    set_fs <[socketPath l := File ""]> (set_vmms <[socketPath l := fc_start text]> w))));
  match started with
  | Err e => attempt (cgroup_Remove cgroupPath) ;; fail e
  | Ok _ =>
      cgroupPath ← match vmsDir with
                   | Some d => if is_empty cgroupPath
                               then r ← attempt (cgroup_AttachVM d (vm_UUID vm));
                                    mret (match r with Ok p => p | Err _ => "" end)
                               else mret cgroupPath
                   | None => mret cgroupPath
                   end;
      let proc := MkProcess (vm_UUID vm) (vm_Name vm) (runtimeDir l) (socketPath l)
                    (nw_tapName netdev) (nw_guestCIDR netdev) "stopped" cgroupPath in
      modify (set_running <[vm_UUID vm := proc]>) ;;
      mret proc
  end.

Definition waitForProcessExit (proc : Process) : M World unit :=
  run ← gets running;
  if bool_decide (is_Some (run !! pr_UUID proc))
  then ext (kill proc ;; process_exited (pr_UUID proc))
  else mret tt.

Definition stopProcess (proc : Process) (finalState : string) : M World unit :=
  modify (set_running (alter (with_final finalState) (pr_UUID proc))) ;;
  kill proc ;;
  waitForProcessExit proc ;;
  cleanupAfterExit proc.

(** ** Cold storage *)

Definition coldStorageEnabled : bool :=
  negb (is_empty (cold_Dir (ColdStorage cfg))) &&
  bool_decide (0 < cold_ArchiveStoppedAfterSeconds (ColdStorage cfg)).

(** [now] in nanoseconds. *)
Definition shouldArchiveStoppedVM (vm : VM) (now : Z) : bool :=
  if negb (bool_decide (vm_State vm = "stopped")) || is_empty (vm_StoppedAt vm) then false
  else match time_Parse (vm_StoppedAt vm) with
       | None => false
       | Some stoppedAt =>
           bool_decide
             (stoppedAt + wrap64 (cold_ArchiveStoppedAfterSeconds (ColdStorage cfg) * 1000000000) ≤ now)
       end.

(** [err != nil && !os.IsNotExist(err)] after [os.Remove]. *)
Definition remove_if_exists (p : string) : M World unit :=
  r ← attempt (os_Remove p);
  match r with
  | Ok _ | Err ErrNotExist => mret tt
  | Err e => fail e
  end.

(** From the temporary file on, with its [defer os.Remove(tmpPath)]. *)
Definition archive_body (vm : VM) (hot coldPath tmpPath : string) : M World unit :=
  deferring
    (copyRegularFile tmpPath hot ;;
     ctx_Err ;;
     remove_if_exists coldPath ;;
     os_Rename tmpPath coldPath ;;
     dbcall (Store.SetVMArchivedDiskPath (vm_UUID vm) coldPath) ;;
     os_Remove hot)
    (attempt (os_Remove tmpPath) ;; mret tt).

Definition ArchiveStoppedVM (vmUUID : string) (now : Z) : M World unit :=
  if negb coldStorageEnabled then mret tt else
  beginColdArchiveOperation vmUUID ;;
  deferring
    (vm ← dbcall (Store.GetVM vmUUID);
     if negb (shouldArchiveStoppedVM vm now) then mret tt else
     run ← gets running;
     if bool_decide (is_Some (run !! vm_UUID vm)) then mret tt else
     let hot := diskPath (lay (vm_Name vm)) in
     st ← attempt (os_Stat hot);
     match st with
     | Err ErrNotExist => mret tt
     | Err e => fail e
     | Ok _ =>
         let coldDir := coldVMDir cfg (vm_Name vm) in
         let coldPath := path_Join [coldDir; "rootfs.ext4"] in
         os_MkdirAll coldDir ;;
         tmpPath ← os_CreateTemp coldDir "rootfs.ext4." ".tmp";
         ext (mret tt) ;;
         archive_body vm hot coldPath tmpPath
     end)
    (end_archive vmUUID).

(** [filepath.Dir(coldPath)] is removed when it is empty. *)
Definition hydrate_body (vm : VM) (hot coldPath tmpPath : string) : M World unit :=
  deferring
    (copyRegularFile tmpPath coldPath ;;
     os_Rename tmpPath hot ;;
     dbcall (Store.SetVMArchivedDiskPath (vm_UUID vm) "") ;;
     attempt (os_Remove coldPath) ;;
     attempt (os_Remove (path_Dir coldPath)) ;;
     mret tt)
    (attempt (os_Remove tmpPath) ;; mret tt).

Definition hydrateColdDisk (vm : VM) : M World unit :=
  if is_empty (cold_Dir (ColdStorage cfg)) && is_empty (vm_ArchivedDiskPath vm) then mret tt else
  let hot := diskPath (lay (vm_Name vm)) in
  st ← attempt (os_Stat hot);
  match st with
  | Ok _ =>
      if is_empty (vm_ArchivedDiskPath vm) then mret tt
      else
        dbcall (Store.SetVMArchivedDiskPath (vm_UUID vm) "") ;;
        attempt (os_Remove (vm_ArchivedDiskPath vm)) ;;
        mret tt
  | Err ErrNotExist =>
      let archived := negb (is_empty (vm_ArchivedDiskPath vm)) in
      let coldPath := if archived then vm_ArchivedDiskPath vm else coldDiskPath cfg (vm_Name vm) in
      if is_empty coldPath then mret tt else
      cst ← attempt (os_Stat coldPath);
      match cst with
      | Err ErrNotExist => if archived : bool then fail ErrNotExist else mret tt
      | Err e => fail e
      | Ok _ =>
          os_MkdirAll (vmDir (lay (vm_Name vm))) ;;
          tmpPath ← os_CreateTemp (vmDir (lay (vm_Name vm))) "rootfs.ext4." ".restore.tmp";
          ext (mret tt) ;;
          hydrate_body vm hot coldPath tmpPath
      end
  | Err e => fail e
  end.

Definition vmDiskPath (vm : VM) : M World string :=
  let hot := diskPath (lay (vm_Name vm)) in
  st ← attempt (os_Stat hot);
  match st with
  | Ok _ => mret hot
  | Err ErrNotExist =>
      let archived := negb (is_empty (vm_ArchivedDiskPath vm)) in
      let cold := if archived then vm_ArchivedDiskPath vm else coldDiskPath cfg (vm_Name vm) in
      if is_empty cold then mret hot
      else
        cst ← attempt (os_Stat cold);
        match cst with
        | Ok _ => mret cold
        | Err ErrNotExist => if archived : bool then fail ErrNotExist else mret hot
        | Err e => fail e
        end
  | Err e => fail e
  end.

(** ** Stop and sleep *)

Definition StopVM (vmUUID : string) : M World unit :=
  vm ← dbcall (Store.GetVM vmUUID);
  run ← gets running;
  match run !! vmUUID with
  | None => store_SetVMState vmUUID "stopped"
  | Some proc =>
      r ← attempt (firecrackerAction (pr_SocketPath proc) "SendCtrlAltDel");
      match r with
      | Ok _ => mret tt
      | Err _ => kill proc
      end ;;
      waitForProcessExit proc ;;
      attempt (cleanupAfterExit proc) ;;
      store_SetVMState vmUUID "stopped"
  end.

Definition SleepVM (vmUUID : string) : M World VM :=
  vm ← dbcall (Store.GetVM vmUUID);
  run ← gets running;
  match run !! vmUUID with
  | None => if bool_decide (vm_State vm = "sleeping") then mret vm else fail ErrNotRunning
  | Some proc =>
      let l := lay (vm_Name vm) in
      os_MkdirAll (sleepDir l) ;;
      firecrackerSetVMState (pr_SocketPath proc) "Paused" ;;
      r ← attempt (firecrackerCreateSnapshot (pr_SocketPath proc) (sleepStatePath l) (sleepMemPath l));
      match r with
      | Err e => attempt (firecrackerSetVMState (pr_SocketPath proc) "Resumed") ;; fail e
      | Ok _ =>
          stopProcess proc "sleeping" ;;
          store_SetVMState vmUUID "sleeping" ;;
          dbcall (Store.GetVM vmUUID)
      end
  end.

(** ** Start and resume *)

Definition host_bits : M World (option Z) :=
  r ← attempt (open_read "/proc/cpuinfo"); mret (hostPhysicalAddressBits r).

Definition resumeVM (vm : VM) : M World VM :=
  let l := lay (vm_Name vm) in
  os_Stat (sleepStatePath l) ;;
  os_Stat (sleepMemPath l) ;;
  os_MkdirAll (runtimeDir l) ;;
  netdev ← prepareNetwork cfg vm;
  attempt (os_Remove (socketPath l)) ;;
  launched ← attempt (launchProcess vm l netdev None);
  match launched with
  | Err e => attempt (deleteTap (nw_tapName netdev)) ;; fail e
  | Ok proc =>
      up ← attempt (waitForSocket (socketPath l) ;;
                    firecrackerLoadSnapshot (socketPath l) (sleepStatePath l) (sleepMemPath l));
      match up with
      | Err e => attempt (stopProcess proc "stopped") ;; fail e
      | Ok _ =>
          store_SetVMState (vm_UUID vm) "running" ;;
          dbcall (Store.GetVM (vm_UUID vm))
      end
  end.

(** The cold start of a VM that is not sleeping. *)
Definition boot (vm : VM) (mem : hostMemoryConfig) : M World VM :=
  hydrateColdDisk vm ;;
  let l := lay (vm_Name vm) in
  os_MkdirAll (vmDir l) ;;
  os_MkdirAll (runtimeDir l) ;;
  diskCreated ← ensureDisk (diskPath l) (fc_BaseRootfsPath (Firecracker cfg)) (vm_DiskBytes vm);
  (if diskCreated : bool then
     resizeExt4Image (diskPath l) ;;
     rewriteGuestIdentity (diskPath l) (vm_Name vm)
   else mret tt) ;;
  rewriteGuestNetworkHelper NetworkScript (diskPath l) ;;
  netdev ← prepareNetwork cfg vm;
  writeFirecrackerConfig (configPath l) (firecrackerConfig cfg vm l netdev mem) ;;
  attempt (os_Remove (socketPath l)) ;;
  _ ← launchProcess vm l netdev (Some (configPath l));
  up ← attempt (waitForSocket (socketPath l));
  match up with
  | Err e => attempt (StopVM (vm_UUID vm)) ;; fail e
  | Ok _ =>
      store_SetVMState (vm_UUID vm) "running" ;;
      dbcall (Store.GetVM (vm_UUID vm))
  end.

Definition StartVM (vmUUID : string) : M World VM :=
  beginStartOperationCancelingColdArchive vmUUID ;;
  deferring
    (vm ← dbcall (Store.GetVM vmUUID);
     bits ← host_bits;
     mem ← lift_result (memoryConfigForHost bits vm);
     if bool_decide (vm_State vm = "sleeping") then resumeVM vm else boot vm mem)
    (endVMOperation vmUUID).

Definition RebootVM (vmUUID : string) : M World VM :=
  vm ← dbcall (Store.GetVM vmUUID);
  run ← gets running;
  if bool_decide (is_Some (run !! vmUUID)) then
    StopVM vmUUID ;;
    StartVM vmUUID
  else
    (if bool_decide (vm_State vm = "sleeping") then
       os_RemoveAll (sleepDir (lay (vm_Name vm))) ;;
       store_SetVMState vmUUID "stopped"
     else mret tt) ;;
    StartVM vmUUID.

(** ** Create *)

(** [if x == 0 { x = default }]. *)
Definition or_default (x d : Z) : Z := if bool_decide (x = 0) then d else x.

(** The defaults and checks [CreateVM] and [RestoreSnapshot] share, up to the
    private address; [disk] is the default disk size. *)
Definition fill_params (disk : Z) (p : CreateVMParams) : result CreateVMParams :=
  let fc := Firecracker cfg in
  let minMiB := or_default (p_MemoryMinMiB p) (fc_DefaultMemoryMinMiB fc) in
  let maxMiB := or_default (p_MemoryMaxMiB p) (fc_DefaultMemoryMaxMiB fc) in
  if bool_decide (maxMiB < minMiB)
  then Err (ErrOther "memory_min_mib must be less than or equal to memory_max_mib")
  else
    validateMemoryHotplugRange minMiB maxMiB ;;
    if bool_decide (p_IdleSleepAfterSeconds p < 0)
    then Err (ErrOther "idle_sleep_after_seconds cannot be negative")
    else Ok (MkCreateVMParams (p_Name p) (p_PrivateIP p)
               (or_default (p_VCPUs p) (fc_DefaultVCPUs fc)) minMiB maxMiB
               (or_default (p_DiskBytes p) disk)
               (or_default (p_DefaultHTTPPort p) (DefaultHTTPPort cfg))
               (p_IdleSleepAfterSeconds p) (p_BaseImageID p) (p_KernelID p) (p_BaseImageMetadata p)
               (if p_AutoWakeSet p then p_AutoWake p else true) (p_AutoWakeSet p) (p_PublicHTTP p)).

Definition with_ip (ip : string) (p : CreateVMParams) : CreateVMParams :=
  MkCreateVMParams (p_Name p) ip (p_VCPUs p) (p_MemoryMinMiB p) (p_MemoryMaxMiB p) (p_DiskBytes p)
    (p_DefaultHTTPPort p) (p_IdleSleepAfterSeconds p) (p_BaseImageID p) (p_KernelID p)
    (p_BaseImageMetadata p) (p_AutoWake p) (p_AutoWakeSet p) (p_PublicHTTP p).

(** [params.PrivateIP], allocated when it is empty. *)
Definition choose_ip (p : CreateVMParams) : M World CreateVMParams :=
  if is_empty (p_PrivateIP p) then
    vms ← dbcall Store.ListVMs;
    match nextPrivateIP (vn_Subnet (VMNetwork cfg)) vms with
    | Some r => ip ← lift_result r; mret (with_ip (IP_String ip) p)
    | None => fail (ErrOther "unreachable: the search is bounded")
    end
  else mret p.

(** [errors.Is(err, store.ErrAlreadyExists)] becomes the manager's own error. *)
Definition store_create (p : CreateVMParams) : M World VM :=
  r ← attempt (store_CreateVM p);
  match r with
  | Ok vm => mret vm
  | Err ErrStoreAlreadyExists => fail ErrAlreadyExists
  | Err e => fail e
  end.

Definition CreateVM (params : CreateVMParams) : M World VM :=
  routeExists ← dbcall (Store.RouteExists (p_Name params));
  if routeExists : bool then fail ErrAlreadyExists else
  params ← lift_result (fill_params (fc_DefaultDiskBytes (Firecracker cfg)) params);
  params ← choose_ip params;
  metadata ← baseImageMetadata cfg;
  store_create (applyBaseImageMetadata params metadata).

Definition WarmBaseImageMetadata : M World BaseImageMetadata :=
  ctx_Err ;; baseImageMetadata cfg.

(** ** Update and memory *)

Definition UpdateVM (vmUUID : string) (u : UpdateVMParams) : M World VM :=
  match u_DefaultHTTPPort u with
  | Some p => if bool_decide (p ≤ 0) || bool_decide (65535 < p)
              then fail (ErrOther "default_http_port must be between 1 and 65535") else mret tt
  | None => mret tt
  end ;;
  match u_IdleSleepAfterSeconds u with
  | Some n => if bool_decide (n < 0) then fail (ErrOther "idle_sleep_after_seconds cannot be negative")
              else mret tt
  | None => mret tt
  end ;;
  dbcall (Store.UpdateVM vmUUID u).

Record MemoryHotplugUsage := MkUsage {
  us_TotalMiB : Z;
  us_RequestedMiB : Z;
  us_PluggedMiB : Z;
  us_EffectiveMiB : Z;
}.

Definition setVMMemoryTarget (vm : VM) (targetMiB : Z) : M World MemoryHotplugUsage :=
  let requested := requestedMiB vm targetMiB in
  run ← gets running;
  match run !! vm_UUID vm with
  | None => fail ErrNotRunning
  | Some proc =>
      if bool_decide (vm_MemoryMaxMiB vm = vm_MemoryMinMiB vm)
      then mret (MkUsage 0 0 0 (vm_MemoryMinMiB vm)) else
      bits ← host_bits;
      if negb (virtioMemUsableForVM bits vm) then mret (MkUsage 0 0 0 (vm_MemoryMaxMiB vm)) else
      firecrackerPatchMemoryHotplug (pr_SocketPath proc) requested ;;
      status ← firecrackerGetMemoryHotplug (pr_SocketPath proc);
      mret (MkUsage (st_Total status) (st_Requested status) (st_Plugged status)
              (vm_MemoryMinMiB vm + st_Plugged status))
  end.

Definition with_report (at_ : string) (target : option Z) (r : GuestMemoryReport) : GuestMemoryReport :=
  MkReport at_ (gr_TotalMiB r) (gr_AvailableMiB r) (gr_FreeMiB r) (gr_BuffersMiB r) (gr_CachedMiB r)
    (gr_SwapTotalMiB r) (gr_SwapFreeMiB r) (gr_RootDiskTotalBytes r) (gr_RootDiskFreeBytes r)
    (gr_Load1 r) (gr_Load5 r) (gr_Load15 r) (default (gr_LastTargetMiB r) target).

Definition RecordVMMemoryReportByPrivateIP (privateIP : string) (targetMiB : option Z)
    (report : GuestMemoryReport) : M World MemoryHotplugUsage :=
  vm ← dbcall (Store.GetVMByPrivateIP privateIP);
  at_ ← gets (λ w, now_text (tick w));
  modify (set_reports <[vm_UUID vm := with_report at_ targetMiB report]>) ;;
  match targetMiB with
  | None => mret (MkUsage 0 0 0 0)
  | Some t => setVMMemoryTarget vm t
  end.

(** ** Delete *)

Definition DeleteVM (vmUUID : string) : M World unit :=
  vm ← dbcall (Store.GetVM vmUUID);
  beginVMOperationCancelingColdArchive vmUUID ;;
  deferring
    (run ← gets running;
     (if bool_decide (is_Some (run !! vmUUID)) then StopVM vmUUID else mret tt) ;;
     os_RemoveAll (vmDir (lay (vm_Name vm))) ;;
     (if is_empty (vm_ArchivedDiskPath vm) then mret tt
      else remove_if_exists (vm_ArchivedDiskPath vm)) ;;
     (let coldDir := coldVMDir cfg (vm_Name vm) in
      if is_empty coldDir then mret tt else os_RemoveAll coldDir) ;;
     dbcall (Store.DeleteRoutesForVM vmUUID) ;;
     dbcall (Store.DeleteVM vmUUID) ;;
     modify (set_reports (delete vmUUID)))
    (endVMOperation vmUUID).

(** ** Snapshots *)

Definition SaveSnapshot (params : CreateSnapshotParams) : M World Snapshot :=
  if is_empty (cs_Name params) then fail (ErrOther "snapshot name is required") else
  if is_empty (cs_SourceVMUUID params) then fail (ErrOther "source VM is required") else
  exists_ ← dbcall (Store.SnapshotExists (cs_Name params));
  if exists_ : bool then fail (ErrOther "snapshot already exists") else
  vm ← dbcall (Store.GetVM (cs_SourceVMUUID params));
  beginVMOperationCancelingColdArchive (vm_UUID vm) ;;
  deferring
    (run ← gets running;
     if bool_decide (vm_State vm = "running") || bool_decide (is_Some (run !! vm_UUID vm))
     then fail ErrRunning else
     if negb (bool_decide (vm_State vm = "stopped")) then fail ErrNotStopped else
     vmDisk ← vmDiskPath vm;
     let sl := snapshotLayout_of cfg (cs_Name params) in
     os_MkdirAll (sl_dir sl) ;;
     copyFile (sl_diskPath sl) vmDisk ;;
     store_CreateSnapshot (MkCreateSnapshotParams (cs_Name params) (vm_UUID vm) (vm_Name vm) "" ""
       (sl_diskPath sl) (vm_BaseImageID vm) (vm_KernelID vm) (vm_BaseImageMetadata vm)))
    (endVMOperation (vm_UUID vm)).

Definition DeleteSnapshot (name : string) : M World unit :=
  dbcall (Store.GetSnapshot name) ;;
  os_RemoveAll (sl_dir (snapshotLayout_of cfg name)) ;;
  dbcall (Store.DeleteSnapshot name).

Definition with_base (sn : Snapshot) (p : CreateVMParams) : CreateVMParams :=
  MkCreateVMParams (p_Name p) (p_PrivateIP p) (p_VCPUs p) (p_MemoryMinMiB p) (p_MemoryMaxMiB p)
    (p_DiskBytes p) (p_DefaultHTTPPort p) (p_IdleSleepAfterSeconds p) (sn_BaseImageID sn)
    (sn_KernelID sn) (sn_BaseImageMetadata sn) (p_AutoWake p) (p_AutoWakeSet p) (p_PublicHTTP p).

Definition RestoreSnapshot (snapshotName : string) (params : CreateVMParams) : M World VM :=
  if is_empty snapshotName then fail (ErrOther "snapshot name is required") else
  if is_empty (p_Name params) then fail (ErrOther "vm name is required") else
  exists_ ← dbcall (Store.VMExists (p_Name params));
  if exists_ : bool then fail ErrAlreadyExists else
  routeExists ← dbcall (Store.RouteExists (p_Name params));
  if routeExists : bool then fail ErrAlreadyExists else
  snapshot ← dbcall (Store.GetSnapshot snapshotName);
  diskInfo ← os_Stat (sn_DiskPath snapshot);
  params ← lift_result (fill_params (fi_Size diskInfo) params);
  params ← choose_ip params;
  let params := with_base snapshot params in
  let l := lay (p_Name params) in
  os_MkdirAll (vmDir l) ;;
  copyFile (diskPath l) (sn_DiskPath snapshot) ;;
  (if bool_decide (fi_Size diskInfo < p_DiskBytes params)
   then os_Truncate (diskPath l) (p_DiskBytes params) else mret tt) ;;
  resizeExt4Image (diskPath l) ;;
  rewriteGuestIdentity (diskPath l) (p_Name params) ;;
  store_create params.

(** ** Start-up, shutdown and restart *)

(** Errors are collected and joined: the loops never stop early. *)
Fixpoint reconcile_loop (vms : list VM) : M World (list error) :=
  match vms with
  | [] => mret []
  | vm :: rest =>
      attempt (deleteTap (tapName (vm_Name vm))) ;;
      errs ← (if bool_decide (vm_State vm = "running") then
                r ← attempt (store_SetVMState (vm_UUID vm) "lost");
                mret (match r with Err e => [e] | Ok _ => [] end)
              else mret []);
      more ← reconcile_loop rest;
      mret (errs ++ more)
  end.

(** [errors.Join]: [nil] when there is none. *)
Definition join_errors (errs : list error) : M World unit :=
  match errs with [] => mret tt | e :: _ => fail e end.

Definition ReconcileStartup : M World unit :=
  vms ← dbcall Store.ListVMs;
  errs ← reconcile_loop vms;
  join_errors errs.

Definition RunningVMNames : M World (list string) :=
  gets (λ w, merge_sort String.le ((λ kp, pr_Name kp.2) <$> map_to_list (running w))).

Fixpoint sleep_loop (names : list string) : M World (list error) :=
  match names with
  | [] => mret []
  | name :: rest =>
      r ← attempt (vm ← dbcall (Store.GetVMByName name); SleepVM (vm_UUID vm));
      more ← sleep_loop rest;
      mret (match r with Err e => e :: more | Ok _ => more end)
  end.

Definition SleepRunningVMs : M World unit :=
  names ← RunningVMNames;
  errs ← sleep_loop names;
  join_errors errs.

Fixpoint start_loop (names : list string) : M World (list error) :=
  match names with
  | [] => mret []
  | name :: rest =>
      got ← attempt (dbcall (Store.GetVMByName name));
      errs ← match got with
             | Err e => mret [e]
             | Ok vm =>
                 r ← attempt (StartVM (vm_UUID vm));
                 mret (match r with
                       | Ok _ | Err ErrAlreadyRunning => []
                       | Err e => [e]
                       end)
             end;
      more ← start_loop rest;
      mret (errs ++ more)
  end.

Definition StartVMs (names : list string) : M World unit :=
  errs ← start_loop names;
  join_errors errs.
End manager.
