(* ===== verification/ManagerLocks.v ===== *)
(** * The operation locks are released on every path

    Frames of the manager's operations for the parts of the state they do not
    touch, and the discipline of [vmOps] and [coldArchives]: an operation on a
    VM that is busy is refused without an effect, and an operation that was
    admitted leaves the locks as it found them, whatever fails in between. *)

From S2P Require Import Prelude GoStrings Paths IPNet Json Types Store Config PrivateNet Memory.
From S2P Require Import World FileCopy Host Manager.

Section frames.
Context `{FirecrackerVMM, Env, SparseSeek, GoUnicode, UuidLib, Timestamps}.
Context (cfg : Config) (vmsDir : option string) (NetworkScript : string).
Context {B : Type} (f : World → B) `{!NoTick f, !NoFs f, !NoDb f, !NoTaps f, !NoVmms f, !NoCgroups f}.

#[global] Instance keeps_cleanupAfterExit p : Keeps f (cleanupAfterExit p).
Proof. unfold cleanupAfterExit, cleanupNetwork. apply _. Qed.
#[global] Instance keeps_kill p : Keeps f (kill p).
Proof. apply _. Qed.
#[global] Instance keeps_remove_if_exists p : Keeps f (remove_if_exists p).
Proof. unfold remove_if_exists. apply keeps_bind; [apply _|]. intros [|[]]; apply _. Qed.
#[global] Instance keeps_archive_body vm a b c : Keeps f (archive_body vm a b c).
Proof. unfold archive_body. apply _. Qed.
#[global] Instance keeps_hydrate_body vm a b c : Keeps f (hydrate_body vm a b c).
Proof. unfold hydrate_body. apply _. Qed.
#[global] Instance keeps_hydrateColdDisk vm : Keeps f (hydrateColdDisk cfg vm).
Proof.
  unfold hydrateColdDisk. case_match; [apply _|]. apply keeps_bind; [apply _|].
  intros [|[]]; try apply _; cbv zeta. case_match; [apply _|]. apply keeps_bind; [apply _|].
  intros [|[]]; apply _.
Qed.
#[global] Instance keeps_vmDiskPath vm : Keeps f (vmDiskPath cfg vm).
Proof.
  unfold vmDiskPath. apply keeps_bind; [apply _|].
  intros [|[]]; try apply _; cbv zeta. case_match; [apply _|]. apply keeps_bind; [apply _|].
  intros [|[]]; apply _.
Qed.
#[global] Instance keeps_host_bits : Keeps f host_bits.
Proof. unfold host_bits. apply _. Qed.
#[global] Instance keeps_choose_ip p : Keeps f (choose_ip cfg p).
Proof. unfold choose_ip. case_match; [|apply _]. apply keeps_bind; [apply _|]. intros vms. apply _. Qed.
#[global] Instance keeps_store_create p : Keeps f (store_create p).
Proof. unfold store_create. apply keeps_bind; [apply _|]. intros [|[]]; apply _. Qed.

Context `{!NoRunning f}.
#[global] Instance keeps_process_exited u : Keeps f (process_exited u).
Proof. unfold process_exited. apply keeps_bind; [apply _|]. intros run. apply _. Qed.
#[global] Instance keeps_waitForProcessExit p : Keeps f (waitForProcessExit p).
Proof. unfold waitForProcessExit. apply _. Qed.
#[global] Instance keeps_stopProcess p st : Keeps f (stopProcess p st).
Proof. unfold stopProcess. apply _. Qed.
#[global] Instance keeps_launchProcess vm l nd c : Keeps f (launchProcess vmsDir vm l nd c).
Proof.
  unfold launchProcess. do 2 (apply keeps_bind; [apply _|intros _]).
  apply keeps_bind; [destruct vmsDir; apply _|]. intros cg.
  apply keeps_bind.
  { apply keeps_attempt, keeps_ext; [done|]. intros w. simpl. by rewrite no_fs, no_vmms. }
  intros []; [|apply _]. apply keeps_bind; [destruct vmsDir; apply _|]. intros; apply _.
Qed.
#[global] Instance keeps_StopVM u : Keeps f (StopVM u).
Proof.
  unfold StopVM. apply keeps_bind; [apply _|]. intros vm. apply keeps_bind; [apply _|]. intros run.
  apply _.
Qed.
#[global] Instance keeps_SleepVM u : Keeps f (SleepVM cfg u).
Proof.
  unfold SleepVM. apply keeps_bind; [apply _|]. intros vm. apply keeps_bind; [apply _|]. intros run.
  apply _.
Qed.
#[global] Instance keeps_resumeVM vm : Keeps f (resumeVM cfg vmsDir vm).
Proof. unfold resumeVM. apply _. Qed.
#[global] Instance keeps_boot vm mem : Keeps f (boot cfg vmsDir NetworkScript vm mem).
Proof. unfold boot. apply _. Qed.
End frames.

Section locks.
Context `{FirecrackerVMM, Env, SparseSeek, GoUnicode, UuidLib, Timestamps}.
Context (cfg : Config) (vmsDir : option string) (NetworkScript : string).

(** The two lock maps of the manager. *)
Definition locks (w : World) : gset string * gset string := (vmOps w, coldArchives w).

(** What an operation on [u] makes of the locks: nothing, or the archive of [u]
    that was under way has been cancelled and has ended. *)
Definition released (u : string) (l l' : gset string * gset string) : Prop :=
  l' = l ∨ (u ∈ l.2 ∧ l' = (l.1 ∖ {[u]}, l.2 ∖ {[u]})).

(** The part of the state a refused operation must not touch. *)
Definition visible (w : World) := (db w, fs w, running w, vmms w, taps w).

Lemma ctx_Err_inv w r w' :
  ctx_Err w = (r, w') → w' = bump w ∧ (r = Ok tt ∨ ∃ e, r = Err e).
Proof.
  unfold ctx_Err, ext. destruct (fate (tick w)); intros [= <- <-]; eauto.
Qed.

(** Admission with no archive of [u] under way. *)
Lemma begin_loop_free fuel check u w r w' :
  (u ∉ coldArchives w) → begin_loop fuel check u w = (r, w') →
  visible w' = visible w ∧
  match r with
  | Ok _ => (u ∉ vmOps w) ∧ locks w' = ({[u]} ∪ vmOps w, coldArchives w)
  | Err _ => locks w' = locks w
  end.
Proof.
  intros Hu E. destruct fuel; cbn [begin_loop] in E; unfold mbind at 1, M_mbind at 1 in E;
    (destruct (ctx_Err w) as [rc w1] eqn:Ec; apply ctx_Err_inv in Ec as [-> [-> |[e ->]]];
     [|by injection E as <- <-]);
    unfold mbind, M_mbind, gets in E; cbn [coldArchives vmOps running bump] in E;
    (destruct (check && _); [by injection E as <- <-|]);
    rewrite (bool_decide_eq_false_2 (u ∈ coldArchives w)) in E by done;
    (case_bool_decide; injection E as <- <-; done).
Qed.

(** Admission in general: an archive of [u] is ended first. *)
Lemma begin_loop_spec check u w r w' :
  begin_loop 1 check u w = (r, w') →
  visible w' = visible w ∧
  match r with
  | Ok _ => ∃ l, released u (locks w) l ∧ (u ∉ l.1) ∧ locks w' = ({[u]} ∪ l.1, l.2)
  | Err _ => released u (locks w) (locks w')
  end.
Proof.
  destruct (decide (u ∈ coldArchives w)) as [Hu|Hu].
  2: { intros E. apply begin_loop_free in E as [Hv Hr]; [|done]. split; [done|].
       destruct r; [|by left]. exists (locks w). split; [by left|done]. }
  cbn [begin_loop]. unfold mbind at 1, M_mbind at 1. intros E.
  destruct (ctx_Err w) as [rc w1] eqn:Ec. apply ctx_Err_inv in Ec as [-> [-> |[e ->]]].
  2: { injection E as <- <-. split; [done|by left]. }
  unfold mbind at 1, M_mbind at 1, gets at 1 in E. cbn [running bump] in E.
  destruct (check && _). { injection E as <- <-. split; [done|by left]. }
  unfold mbind at 1, M_mbind at 1, gets at 1 in E. cbn [coldArchives bump] in E.
  rewrite bool_decide_eq_true_2 in E by done. unfold mbind at 1, M_mbind at 1 in E.
  destruct (ext (end_archive u) (bump w)) as [ra w2] eqn:Ea.
  assert (visible w2 = visible w ∧ released u (locks w) (locks w2) ∧
          (ra = Ok tt → locks w2 = (vmOps w ∖ {[u]}, coldArchives w ∖ {[u]}))) as (Hv2 & Hl2 & Hok).
  { unfold ext in Ea. destruct (fate _); injection Ea as <- <-; (split; [done|]); split; try done;
      [right|left|right]; done. }
  destruct ra as [[]|e]; [|by injection E as <- <-]. rewrite <-Hv2. specialize (Hok eq_refl).
  injection Hok as Ho Ha. change (begin_loop 0 check u w2 = (r, w')) in E.
  apply begin_loop_free in E as [Hv Hr]; [|rewrite Ha; set_solver]. split; [done|].
  destruct r; [|by rewrite Hr]. exists (locks w2). by split.
Qed.

(** [begin; defer end; body]: the body keeps the locks, the end gives them back. *)
Lemma locked_released {A} check u (body : M World A) w r w' :
  Keeps locks body →
  (begin_loop 1 check u ;; deferring body (endVMOperation u)) w = (r, w') →
  released u (locks w) (locks w').
Proof.
  intros Hb E. unfold mbind, M_mbind in E. destruct (begin_loop 1 check u w) as [rb w1] eqn:Eb.
  apply begin_loop_spec in Eb as [_ Hl]. destruct rb as [[]|e]; [|by injection E as <- <-].
  destruct Hl as (l & Hrel & Hu & Hl1). unfold deferring in E.
  specialize (Hb w1). destruct (body w1) as [rr w2]. injection E as <- <-. simpl in Hb.
  rewrite Hl1 in Hb. injection Hb as Ho Ha.
  assert (locks (set_vmOps (λ s, s ∖ {[u]}) w2) = l) as ->; [|done].
  unfold locks. simpl. rewrite Ho, Ha. destruct l as [o a]. simpl in *. f_equal. set_solver.
Qed.

#[global] Instance no_tick_locks : NoTick locks := λ _, eq_refl.

Lemma keeps_locks_StopVM u : Keeps locks (StopVM u).
Proof. apply _. Qed.

Lemma StartVM_released u w r w' :
  StartVM cfg vmsDir NetworkScript u w = (r, w') → released u (locks w) (locks w').
Proof.
  apply locked_released. apply keeps_bind; [apply _|]. intros vm. apply _.
Qed.

Lemma DeleteVM_released u w r w' :
  DeleteVM cfg u w = (r, w') → released u (locks w) (locks w').
Proof.
  unfold DeleteVM, mbind at 1, M_mbind at 1. intros E.
  assert (Keeps locks (dbcall (Store.GetVM u))) as Hk by apply _. specialize (Hk w).
  destruct (dbcall (Store.GetVM u) w) as [[vm|e] w1]; [|injection E as <- <-; by left].
  simpl in Hk. rewrite <-Hk. revert E. apply locked_released. apply _.
Qed.

Lemma SaveSnapshot_released p w r w' :
  SaveSnapshot cfg p w = (r, w') →
  locks w' = locks w ∨ ∃ u, released u (locks w) (locks w').
Proof.
  unfold SaveSnapshot. case_match; [intros [= <- <-]; by left|].
  case_match; [intros [= <- <-]; by left|]. unfold mbind at 1, M_mbind at 1. intros E.
  assert (Keeps locks (dbcall (Store.SnapshotExists (cs_Name p)))) as Hk by apply _. specialize (Hk w).
  destruct (dbcall _ w) as [[b|e] w1]; [|injection E as <- <-; by left]. simpl in Hk.
  destruct b; [injection E as <- <-; by left|]. unfold mbind at 1, M_mbind at 1 in E.
  assert (Keeps locks (dbcall (Store.GetVM (cs_SourceVMUUID p)))) as Hk1 by apply _. specialize (Hk1 w1).
  destruct (dbcall (Store.GetVM _) w1) as [[vm|e] w2]; [|injection E as <- <-; left; simpl in Hk1; congruence].
  simpl in Hk1. right. exists (vm_UUID vm). rewrite <-Hk, <-Hk1. revert E.
  apply locked_released. apply keeps_bind; [apply _|]. intros run.
  case_match; [apply _|]. case_match; [apply _|]. apply _.
Qed.

Lemma ArchiveStoppedVM_released u now w r w' :
  (u ∈ coldArchives w → u ∈ vmOps w) →
  ArchiveStoppedVM cfg u now w = (r, w') → locks w' = locks w.
Proof.
  intros Hw. unfold ArchiveStoppedVM. case_match; [by intros [= <- <-]|].
  unfold beginColdArchiveOperation, mbind at 1, M_mbind at 1, mbind at 1, M_mbind at 1. intros E.
  destruct (ctx_Err w) as [rc w1] eqn:Ec. apply ctx_Err_inv in Ec as [-> [-> |[e ->]]];
    [|by injection E as <- <-].
  unfold mbind at 1, M_mbind at 1, gets at 1 in E. cbn [vmOps bump] in E.
  case_bool_decide as Hu; [by injection E as <- <-|].
  unfold modify at 1, deferring in E. set (w1 := set_coldArchives _ _) in E.
  match type of E with context [?body w1] =>
    assert (Keeps locks body) as Hk; [|specialize (Hk w1); destruct (body w1) as [rr w2]] end.
  { apply keeps_bind; [apply _|]. intros vm. apply keeps_if; [apply _|].
    apply keeps_bind; [apply _|]. intros run. apply keeps_if; [apply _|]. cbv zeta.
    apply keeps_bind; [apply _|]. intros [|[]]; apply _. }
  injection E as <- <-. simpl in Hk. unfold locks in Hk |- *. simpl in *. injection Hk as -> ->.
  f_equal; set_solver.
Qed.
End locks.

(** No operation leaks or steals a lock: whatever fails, after [StartVM],
    [DeleteVM], [SaveSnapshot] and [ArchiveStoppedVM] the sets of busy VMs and
    of archives under way are those from before, except that an archive of the
    same VM may have been cancelled and ended. *)
Theorem operations_release_locks
    `{FirecrackerVMM, Env, SparseSeek, GoUnicode, UuidLib, Timestamps}
    cfg vmsDir script u now p w :
  (∀ v, v ∈ coldArchives w → v ∈ vmOps w) →
  released u (locks w) (locks (StartVM cfg vmsDir script u w).2) ∧
  released u (locks w) (locks (DeleteVM cfg u w).2) ∧
  (∃ v, released v (locks w) (locks (SaveSnapshot cfg p w).2)) ∧
  locks (ArchiveStoppedVM cfg u now w).2 = locks w.
Proof.
  intros Hw. split_and!.
  - eapply StartVM_released. apply surjective_pairing.
  - eapply DeleteVM_released. apply surjective_pairing.
  - destruct (SaveSnapshot_released cfg p w _ _ (surjective_pairing _)) as [->|[v Hv]];
      [by exists u; left|by exists v].
  - eapply ArchiveStoppedVM_released; [apply Hw|]. apply surjective_pairing.
Qed.

Section refused.
Context `{FirecrackerVMM, Env, SparseSeek, GoUnicode, UuidLib, Timestamps}.

(** The operation is turned away: nothing visible changes. *)
Definition turned_away {A} (w : World) (out : result A * World) : Prop :=
  visible out.2 = visible w ∧ locks out.2 = locks w ∧
  ∃ e, out.1 = Err e ∧ (fate (tick w) = Proceed → e = ErrAlreadyRunning).

Ltac refuse := split; [done|]; split; [done|]; eexists; split; done.

Lemma begin_loop_busy fuel check u w :
  (u ∉ coldArchives w) → (u ∈ vmOps w ∨ check = true ∧ is_Some (running w !! u)) →
  turned_away w (begin_loop fuel check u w).
Proof.
  intros Hu Hbusy.
  assert (∀ k : M World unit, (ctx_Err ;; k) w =
    match fate (tick w) with Proceed => k (bump w) | FailBefore f | FailAfter f => (Err (fault_error f), bump w) end)
    as Hctx by (intros k; unfold mbind, M_mbind, ctx_Err, ext; by destruct (fate (tick w))).
  destruct fuel; cbn [begin_loop]; rewrite Hctx; unfold turned_away;
    (destruct (fate (tick w)); [|refuse..]);
    unfold mbind, M_mbind, gets; cbn [coldArchives vmOps running bump];
    (destruct (check && bool_decide (is_Some (running w !! u))) eqn:Hr; [refuse|]);
    cbn beta; cbn [coldArchives bump];
    rewrite (bool_decide_eq_false_2 (u ∈ coldArchives w)) by done; cbn beta; cbn [vmOps bump];
    (destruct Hbusy as [Hin|[-> Hrun]];
     [rewrite bool_decide_eq_true_2 by done; refuse
     |by rewrite bool_decide_eq_true_2 in Hr]).
Qed.

Lemma turned_away_bind {A C} (m : M World A) (k : A → M World C) w :
  turned_away w (m w) → turned_away w ((m ≫= k) w).
Proof.
  unfold turned_away, mbind, M_mbind. destruct (m w) as [[a|e] w']; simpl.
  - by intros (_ & _ & ? & ? & _).
  - intros (? & ? & e' & [= <-] & ?). eauto.
Qed.

Lemma beginColdArchive_busy u w :
  u ∈ vmOps w → turned_away w (beginColdArchiveOperation u w).
Proof.
  intros Hu. unfold beginColdArchiveOperation, turned_away, mbind, M_mbind, ctx_Err, ext, gets.
  destruct (fate (tick w)); simpl; [|refuse..].
  rewrite bool_decide_eq_true_2 by done. refuse.
Qed.
End refused.

(** A busy VM is left alone.  While another operation holds the lock of
    the VM, or while it is running, [StartVM] is turned away with
    [ErrAlreadyRunning] (or with the error of its context); an archive of a
    locked VM is turned away as well, and a deletion of a locked VM fails
    without touching the database, the files, the processes or the devices. *)
Theorem busy_refused `{FirecrackerVMM, Env, SparseSeek, GoUnicode, UuidLib, Timestamps}
    cfg vmsDir script u now w :
  (u ∉ coldArchives w) →
  (u ∈ vmOps w ∨ is_Some (running w !! u) →
     turned_away w (StartVM cfg vmsDir script u w)) ∧
  (u ∈ vmOps w → coldStorageEnabled cfg = true →
     turned_away w (ArchiveStoppedVM cfg u now w)) ∧
  (u ∈ vmOps w → visible (DeleteVM cfg u w).2 = visible w ∧ ∃ e, (DeleteVM cfg u w).1 = Err e).
Proof.
  intros Hu. split_and!.
  - intros Hb. apply turned_away_bind, begin_loop_busy; naive_solver.
  - intros Hin Hen. unfold ArchiveStoppedVM. rewrite Hen. simpl.
    by apply turned_away_bind, beginColdArchive_busy.
  - intros Hin.
    assert (visible (dbcall (Store.GetVM u) w).2 = visible w ∧
            locks (dbcall (Store.GetVM u) w).2 = locks w) as [Hv Hl].
    { unfold dbcall, ext. by destruct (fate (tick w)). }
    destruct (DeleteVM cfg u w) as [r w'] eqn:E. simpl.
    unfold DeleteVM, mbind at 1, M_mbind at 1 in E.
    destruct (dbcall (Store.GetVM u) w) as [[vm|e] w1]; simpl in Hv, Hl;
      [|injection E as <- <-; split; [exact Hv|by exists e]].
    injection Hl as Hops Harch.
    match type of E with (?m ≫= ?k) w1 = _ =>
      assert (turned_away w1 ((m ≫= k) w1)) as (Hv1 & _ & e & He & _) end.
    { apply turned_away_bind, begin_loop_busy; [by rewrite Harch|left; by rewrite Hops]. }
    rewrite E in Hv1, He. simpl in Hv1, He. split; [congruence|by exists e].
Qed.

(** A world in which another operation holds the lock of ["u"]. *)
Definition busy_world : @World toy_vmm := set_vmOps (λ _, {["u"]}) empty_world.

Lemma operations_release_locks_witness :
  (∀ v, v ∈ coldArchives busy_world → v ∈ vmOps busy_world) ∧
  @locks toy_vmm (@ArchiveStoppedVM toy_vmm calm decimal_stamps Default "u" 0 busy_world).2 =
  locks busy_world.
Proof.
  assert (∀ v, v ∈ coldArchives busy_world → v ∈ vmOps busy_world) as Hw by (intros v Hv; set_solver).
  split; [exact Hw|].
  apply (@operations_release_locks toy_vmm calm dense_seek ascii_only uuid_shape decimal_stamps
           Default None "" "u" 0 (MkCreateSnapshotParams "" "" "" "" "" "" "" "" "") busy_world Hw).
Defined.

Lemma busy_refused_witness :
  (("u" ∉ coldArchives busy_world) ∧ "u" ∈ vmOps busy_world) ∧
  (@StartVM toy_vmm calm dense_seek ascii_only decimal_stamps Default None "" "u" busy_world).1 =
  Err ErrAlreadyRunning.
Proof.
  assert ("u" ∉ coldArchives busy_world) as H1 by set_solver.
  assert ("u" ∈ vmOps busy_world) as H2 by set_solver.
  split; [split; [exact H1|exact H2]|].
  destruct (@busy_refused toy_vmm calm dense_seek ascii_only uuid_shape decimal_stamps
              Default None "" "u" 0 busy_world H1) as (Hs & _ & _).
  destruct (Hs (or_introl H2)) as (_ & _ & e & -> & He). by rewrite He.
Defined.
