(* ===== verification/ManagerConcurrent.v ===== *)
(** * Goroutines and the manager's locks (internal/firecracker/manager.go)

    The API, the proxies and the monitors call the manager from goroutines of
    their own.  Here any number of them run side by side: a step of the system is
    a step of one goroutine, up to the next point where it can be interrupted.
    Everything the code does between [m.mu.Lock] and [m.mu.Unlock] is one step,
    since every access to these fields holds the mutex.  The bodies of the
    operations, which Manager.v gives in full, are here the time during which a
    goroutine holds its VM, or, for those that take no lock, just runs. *)

From S2P Require Import Prelude GoStrings Paths IPNet Types Store Config PrivateNet World Host Manager ManagerLocks.

(** ** What the mutex protects *)

(** An archive is known by the address of its [coldArchiveOperation]; its context
    and its channel are shared through it. *)
Record shared := MkShared {
  sh_running : gset string;
  sh_vmOps : gset string;
  sh_coldArchives : gmap string nat;
  sh_cancelled : gset nat;   (* archives whose [cancel] was called *)
  sh_closed : gset nat;      (* archives whose [done] is closed *)
  sh_next : nat;             (* the next fresh address *)
}.

Definition sh_lock (u : string) (s : shared) : shared :=
  MkShared (sh_running s) ({[u]} ∪ sh_vmOps s) (sh_coldArchives s) (sh_cancelled s) (sh_closed s) (sh_next s).
Definition sh_cancel (a : nat) (s : shared) : shared :=
  MkShared (sh_running s) (sh_vmOps s) (sh_coldArchives s) ({[a]} ∪ sh_cancelled s) (sh_closed s) (sh_next s).

(** The section of [beginVMOperationCancelingColdArchive] and, with
    [checkRunning], of [beginStartOperationCancelingColdArchive]. *)
Inductive entered := Refused | WaitFor (a : nat) | Entered.

Definition enter_section (checkRunning : bool) (u : string) (s : shared) : entered * shared :=
  if checkRunning && bool_decide (u ∈ sh_running s) then (Refused, s) else
  match sh_coldArchives s !! u with
  | Some archive => (WaitFor archive, sh_cancel archive s)
  | None => if bool_decide (u ∈ sh_vmOps s) then (Refused, s) else (Entered, sh_lock u s)
  end.

Definition end_section (u : string) (s : shared) : shared :=
  MkShared (sh_running s) (sh_vmOps s ∖ {[u]}) (sh_coldArchives s) (sh_cancelled s) (sh_closed s) (sh_next s).

(** [beginColdArchiveOperation], and the function it returns. *)
Definition archive_section (u : string) (s : shared) : option nat * shared :=
  if bool_decide (u ∈ sh_vmOps s) then (None, s) else
  let archive := sh_next s in
  (Some archive, MkShared (sh_running s) ({[u]} ∪ sh_vmOps s) (<[u := archive]> (sh_coldArchives s))
                   (sh_cancelled s) (sh_closed s) (S archive)).

Definition end_archive_section (u : string) (archive : nat) (s : shared) : shared :=
  MkShared (sh_running s) (sh_vmOps s ∖ {[u]})
    (if bool_decide (sh_coldArchives s !! u = Some archive) then delete u (sh_coldArchives s) else sh_coldArchives s)
    ({[archive]} ∪ sh_cancelled s) ({[archive]} ∪ sh_closed s) (sh_next s).

(** ** Goroutines *)

(** [StartVM]; [DeleteVM] or [SaveSnapshot]; [ArchiveStoppedVM]; [RebootVM],
    which stops the VM with no lock and then calls [StartVM]; and the calls that
    take no lock at all: [StopVM], [SleepVM], [UpdateVM], [CreateVM] and
    [RestoreSnapshot]. *)
Inductive call :=
  | CallStart (u : string)
  | CallLocked (u : string)
  | CallArchive (u : string)
  | CallReboot (u : string)
  | CallUnlocked (u : string).

Definition call_vm (k : call) : string :=
  match k with CallStart u | CallLocked u | CallArchive u | CallReboot u | CallUnlocked u => u end.

Inductive pc :=
  | Unlocked                     (* at work without the VM's lock *)
  | Checking                     (* at [ctx.Err()] *)
  | Entering                     (* at [m.mu.Lock()] *)
  | Waiting (a : nat)            (* in the [select] on the archive's [done] *)
  | Holding                      (* in the body, with the VM locked *)
  | Copying (a : nat)            (* an archive before it looks at [archiveCtx.Err()] *)
  | Committing (a : nat)         (* an archive after that *)
  | Returned (r : result unit).

(** [g_dead]: the caller's context is cancelled. *)
Record goroutine := MkGo { g_call : call; g_pc : pc; g_dead : bool }.
Definition at_pc (g : goroutine) (p : pc) : goroutine := MkGo (g_call g) p (g_dead g).

Record conc := MkConc { c_shared : shared; c_threads : list goroutine }.

Definition checks_running (k : call) : bool := match k with CallStart _ | CallReboot _ => true | _ => false end.
Definition is_archive (k : call) : bool := match k with CallArchive _ => true | _ => false end.
Definition takes_lock (k : call) : bool := match k with CallUnlocked _ => false | _ => true end.

(** [StartVM] and [ArchiveStoppedVM] ask for the VM at once; the others read the
    tables first, and a reboot stops the VM. *)
Definition first_pc (k : call) : pc :=
  match k with CallStart _ | CallArchive _ => Checking | _ => Unlocked end.

Definition after_enter (r : entered) : pc :=
  match r with
  | Refused => Returned (Err ErrAlreadyRunning)
  | WaitFor a => Waiting a
  | Entered => Holding
  end.

Definition after_archive (r : option nat) : pc :=
  match r with None => Returned (Err ErrAlreadyRunning) | Some a => Copying a end.

(** One step of one goroutine. *)
Inductive go_step (k : call) (dead : bool) : pc → shared → pc → shared → Prop :=
  | step_ask s : takes_lock k = true → go_step k dead Unlocked s Checking s
  | step_unlocked r s : go_step k dead Unlocked s (Returned r) s
  | step_alive s : dead = false → go_step k dead Checking s Entering s
  | step_dead s : dead = true → go_step k dead Checking s (Returned (Err ErrCanceled)) s
  | step_enter s r s' :
      is_archive k = false → enter_section (checks_running k) (call_vm k) s = (r, s') →
      go_step k dead Entering s (after_enter r) s'
  | step_archive s r s' :
      is_archive k = true → archive_section (call_vm k) s = (r, s') →
      go_step k dead Entering s (after_archive r) s'
  | step_done a s : a ∈ sh_closed s → go_step k dead (Waiting a) s Checking s
  | step_abandon a s : dead = true → go_step k dead (Waiting a) s (Returned (Err ErrCanceled)) s
  | step_body r s : go_step k dead Holding s (Returned r) (end_section (call_vm k) s)
  | step_copied a s : dead = false → (a ∉ sh_cancelled s) → go_step k dead (Copying a) s (Committing a) s
  | step_stopped a r s : go_step k dead (Copying a) s (Returned r) (end_archive_section (call_vm k) a s)
  | step_committed a r s : go_step k dead (Committing a) s (Returned r) (end_archive_section (call_vm k) a s).

(** A step of the goroutines there are. *)
Inductive internal : conc → conc → Prop :=
  | internal_step t g s gs p s' :
      gs !! t = Some g → go_step (g_call g) (g_dead g) (g_pc g) s p s' →
      internal (MkConc s gs) (MkConc s' (<[t := at_pc g p]> gs)).

(** A new call, a caller that gives up, and whatever the bodies and the guests
    do to the table of processes. *)
Definition set_processes (r : gset string) (s : shared) : shared :=
  MkShared r (sh_vmOps s) (sh_coldArchives s) (sh_cancelled s) (sh_closed s) (sh_next s).

Inductive outside : conc → conc → Prop :=
  | outside_call s gs k dead : outside (MkConc s gs) (MkConc s (gs ++ [MkGo k (first_pc k) dead]))
  | outside_cancel s gs t g :
      gs !! t = Some g → outside (MkConc s gs) (MkConc s (<[t := MkGo (g_call g) (g_pc g) true]> gs))
  | outside_processes s gs r : outside (MkConc s gs) (MkConc (set_processes r s) gs).

Definition conc_step (c c' : conc) : Prop := internal c c' ∨ outside c c'.

(** [NewManager]. *)
Definition conc_init : conc := MkConc (MkShared ∅ ∅ ∅ ∅ ∅ 0) [].

Definition conc_reachable (c : conc) : Prop := rtc conc_step conc_init c.

(** ** Who holds a VM *)

Definition holding (p : pc) : bool := match p with Holding | Copying _ | Committing _ => true | _ => false end.
Definition archive_of (p : pc) : option nat := match p with Copying a | Committing a => Some a | _ => None end.

Definition holds (gs : list goroutine) (t : nat) (u : string) : Prop :=
  ∃ g, gs !! t = Some g ∧ call_vm (g_call g) = u ∧ holding (g_pc g) = true.
Definition archives (gs : list goroutine) (t : nat) (u : string) (a : nat) : Prop :=
  ∃ g, gs !! t = Some g ∧ call_vm (g_call g) = u ∧ archive_of (g_pc g) = Some a.

Definition kind_fits (k : call) (p : pc) : Prop :=
  match p with
  | Copying _ | Committing _ => is_archive k = true
  | Waiting _ | Holding => is_archive k = false ∧ takes_lock k = true
  | Checking | Entering => takes_lock k = true
  | Unlocked | Returned _ => True
  end.

(** [owner] is the goroutine that holds each locked VM. *)
Record conc_inv (s : shared) (gs : list goroutine) (owner : gmap string nat) : Prop := {
  inv_ops u : u ∈ sh_vmOps s ↔ is_Some (owner !! u);
  inv_holds t u : holds gs t u ↔ owner !! u = Some t;
  inv_archives u a : sh_coldArchives s !! u = Some a ↔ ∃ t, archives gs t u a;
  inv_open t u a : archives gs t u a → (a ∉ sh_closed s) ∧ (a < sh_next s)%nat;
  inv_same t t' u u' a : archives gs t u a → archives gs t' u' a → t = t';
  inv_closed a : a ∈ sh_closed s → (a < sh_next s)%nat;
  inv_waits t g a : gs !! t = Some g → g_pc g = Waiting a →
    a ∈ sh_cancelled s ∧ (a ∈ sh_closed s ∨ sh_coldArchives s !! call_vm (g_call g) = Some a);
  inv_kind t g : gs !! t = Some g → kind_fits (g_call g) (g_pc g);
}.

Section update.
Context (gs : list goroutine) (t : nat) (g : goroutine) (Hg : gs !! t = Some g).

Lemma at_other t' p : t' ≠ t → <[t := at_pc g p]> gs !! t' = gs !! t'.
Proof. intros. by apply list_lookup_insert_ne. Qed.
Lemma at_same p : <[t := at_pc g p]> gs !! t = Some (at_pc g p).
Proof. apply list_lookup_insert_eq. by eapply lookup_lt_Some. Qed.

Lemma holds_update p t' u :
  holds (<[t := at_pc g p]> gs) t' u ↔
  if decide (t' = t) then call_vm (g_call g) = u ∧ holding p = true else holds gs t' u.
Proof.
  unfold holds. destruct (decide (t' = t)) as [->|Hne].
  - rewrite at_same. split; [by intros (? & [= <-] & H)|]. intros. by eexists.
  - by rewrite at_other.
Qed.

Lemma archives_update p t' u a :
  archives (<[t := at_pc g p]> gs) t' u a ↔
  if decide (t' = t) then call_vm (g_call g) = u ∧ archive_of p = Some a else archives gs t' u a.
Proof.
  unfold archives. destruct (decide (t' = t)) as [->|Hne].
  - rewrite at_same. split; [by intros (? & [= <-] & H)|]. intros. by eexists.
  - by rewrite at_other.
Qed.

Lemma kinds_update p :
  (∀ t' g', gs !! t' = Some g' → kind_fits (g_call g') (g_pc g')) → kind_fits (g_call g) p →
  ∀ t' g', <[t := at_pc g p]> gs !! t' = Some g' → kind_fits (g_call g') (g_pc g').
Proof.
  intros Hk Hp t' g' Hg'. destruct (decide (t' = t)) as [->|Hne].
  - rewrite at_same in Hg'. by injection Hg' as <-.
  - rewrite at_other in Hg' by done. by eapply Hk.
Qed.

Lemma holds_here : holding (g_pc g) = true → holds gs t (call_vm (g_call g)).
Proof. by exists g. Qed.
Lemma archives_here a : archive_of (g_pc g) = Some a → archives gs t (call_vm (g_call g)) a.
Proof. by exists g. Qed.
End update.

Lemma archives_holds gs t u a : archives gs t u a → holds gs t u.
Proof. intros (g & Hg & Hu & Ha). exists g. split_and!; [done..|]. by destruct (g_pc g). Qed.

(** A step that takes or releases nothing. *)
Lemma quiet_step s s' gs owner t g p :
  conc_inv s gs owner → gs !! t = Some g →
  holding p = holding (g_pc g) → archive_of p = archive_of (g_pc g) →
  (∃ c, s' = MkShared (sh_running s) (sh_vmOps s) (sh_coldArchives s) (c ∪ sh_cancelled s) (sh_closed s) (sh_next s)) →
  (∀ a, p = Waiting a → a ∈ sh_cancelled s' ∧ (a ∈ sh_closed s ∨ sh_coldArchives s !! call_vm (g_call g) = Some a)) →
  kind_fits (g_call g) p →
  conc_inv s' (<[t := at_pc g p]> gs) owner.
Proof.
  intros I Hg Hh Ha [c ->] Hw Hk.
  assert (∀ t' u, holds (<[t := at_pc g p]> gs) t' u ↔ holds gs t' u) as Eh.
  { intros t' u. rewrite holds_update by done. destruct (decide _) as [->|]; [|done]. unfold holds.
    rewrite Hg, Hh. split; [intros []; by eexists|by intros (? & [= <-] & H)]. }
  assert (∀ t' u a, archives (<[t := at_pc g p]> gs) t' u a ↔ archives gs t' u a) as Ea.
  { intros t' u a. rewrite archives_update by done. destruct (decide _) as [->|]; [|done]. unfold archives.
    rewrite Hg, Ha. split; [intros []; by eexists|by intros (? & [= <-] & H)]. }
  destruct I as [I1 I2 I3 I4 I5 I6 I7 I8]. split; cbn [sh_vmOps sh_coldArchives sh_closed sh_next sh_cancelled].
  - done.
  - intros. by rewrite Eh.
  - intros. setoid_rewrite Ea. done.
  - intros t' u a. rewrite Ea. apply I4.
  - intros t1 t2 u1 u2 a. rewrite !Ea. apply I5.
  - done.
  - intros t' g' a Hg' Hp. destruct (decide (t' = t)) as [->|Hne].
    + rewrite at_same in Hg' by done. injection Hg' as <-. by apply Hw.
    + rewrite at_other in Hg' by done. destruct (I7 _ _ _ Hg' Hp). set_solver.
  - by eapply kinds_update.
Qed.

(** The two ways to take a VM, in one description: an operation, or an archive
    with a fresh address. *)
Definition takes (u : string) (p : pc) (s s' : shared) : Prop :=
  sh_vmOps s' = {[u]} ∪ sh_vmOps s ∧ sh_closed s' = sh_closed s ∧ sh_cancelled s' = sh_cancelled s ∧
  (sh_next s ≤ sh_next s')%nat ∧ (∀ v, v ≠ u → sh_coldArchives s' !! v = sh_coldArchives s !! v) ∧
  sh_coldArchives s' !! u = archive_of p ∧ ∀ a, archive_of p = Some a → (a = sh_next s ∧ a < sh_next s')%nat.

Lemma nobody_holds s gs owner u t : conc_inv s gs owner → (u ∉ sh_vmOps s) → ¬ holds gs t u.
Proof. intros I Hu H%(inv_holds _ _ _ I). apply Hu, (inv_ops _ _ _ I). eauto. Qed.

Lemma archive_takes s u s' a : archive_section u s = (Some a, s') → takes u (Copying a) s s'.
Proof.
  unfold archive_section. case_bool_decide; intros [= <- <-]. unfold takes. cbn.
  split_and!; try done; [lia|by intros; rewrite lookup_insert_ne|by rewrite lookup_insert_eq|].
  intros b [= <-]. lia.
Qed.

(** A goroutine takes its VM, which nobody holds. *)
Lemma taking_step s s' gs owner t g p :
  let u := call_vm (g_call g) in
  conc_inv s gs owner → gs !! t = Some g → (u ∉ sh_vmOps s) →
  holding p = true → kind_fits (g_call g) p → takes u p s s' →
  conc_inv s' (<[t := at_pc g p]> gs) (<[u := t]> owner).
Proof.
  intros u I Hg Hfree Hh Hk (Ev & Ecl & Eca & En & Eo & Eu & Ef).
  assert (∀ t', ¬ holds gs t' u) as Hnone by (intros t'; by eapply nobody_holds).
  destruct I as [I1 I2 I3 I4 I5 I6 I7 I8].
  assert (∀ v, ¬ holds gs t v) as Ht.
  { intros v (g' & Hg' & Hv & Hh'). rewrite Hg in Hg'. injection Hg' as <-. apply (Hnone t). by exists g. }
  assert (∀ v a, ¬ archives gs t v a) as Hta by (intros v a []%archives_holds%Ht).
  assert (∀ v t', holds (<[t := at_pc g p]> gs) t' v ↔ <[u := t]> owner !! v = Some t') as Eh.
  { intros v t'. rewrite holds_update by done. destruct (decide (v = u)) as [->|Hne].
    - rewrite lookup_insert_eq. destruct (decide (t' = t)) as [->|]; [by fold u|].
      split; [intros []%Hnone|congruence].
    - rewrite lookup_insert_ne by done. destruct (decide (t' = t)) as [->|]; [|apply I2].
      rewrite <-I2. split; [by intros [<- _]|intros []%Ht]. }
  split; rewrite ?Ecl, ?Eca, ?Ev; [|done|..].
  - intros v. destruct (decide (v = u)) as [->|Hne]; [rewrite lookup_insert_eq; set_solver|].
    rewrite lookup_insert_ne by done. rewrite <-I1. set_solver.
  - intros v a. setoid_rewrite (archives_update gs t g Hg). destruct (decide (v = u)) as [->|Hne].
    + rewrite Eu. split; [intros Ha; exists t; by rewrite decide_True|].
      intros (t' & Ha). destruct (decide (t' = t)); [apply Ha|]. by apply archives_holds, Hnone in Ha.
    + rewrite Eo by done. rewrite I3. split.
      * intros (t' & Ha). exists t'. destruct (decide (t' = t)) as [->|]; [by apply Hta in Ha|done].
      * intros (t' & Ha). destruct (decide (t' = t)); [by destruct Ha|by exists t'].
  - intros t' v a. rewrite archives_update by done. destruct (decide (t' = t)) as [->|].
    + intros [_ [-> Hlt]%Ef]. split; [|done]. intros ?%I6. lia.
    + intros [? ?]%I4. split; [done|lia].
  - intros t1 t2 u1 u2 a. rewrite !archives_update by done.
    destruct (decide (t1 = t)) as [->|], (decide (t2 = t)) as [->|]; [done|..|apply I5].
    + intros [_ [-> _]%Ef] [_ Hlt]%I4. lia.
    + intros [_ Hlt]%I4 [_ [-> _]%Ef]. lia.
  - intros a ?%I6. lia.
  - intros t' g' a Hg' Hp. destruct (decide (t' = t)) as [->|Hne].
    + rewrite at_same in Hg' by done. injection Hg' as <-. cbn in Hp. by rewrite Hp in Hh.
    + rewrite at_other in Hg' by done. destruct (I7 _ _ _ Hg' Hp) as [Hc Hw]. split; [done|].
      destruct Hw as [|Hw]; [by left|]. right. rewrite Eo; [done|]. intros Heq. rewrite Heq in Hw.
      apply I3 in Hw as (t1 & []%archives_holds%Hnone).
  - by eapply kinds_update.
Qed.

(** The two ways to give a VM back, in one description. *)
Definition gives_back (g : goroutine) (s s' : shared) : Prop :=
  let u := call_vm (g_call g) in
  sh_vmOps s' = sh_vmOps s ∖ {[u]} ∧ sh_next s' = sh_next s ∧ sh_cancelled s ⊆ sh_cancelled s' ∧
  (∀ v, v ≠ u → sh_coldArchives s' !! v = sh_coldArchives s !! v) ∧ sh_coldArchives s' !! u = None ∧
  sh_closed s' = list_to_set (option_list (archive_of (g_pc g))) ∪ sh_closed s.

Lemma end_section_released s gs owner t g :
  conc_inv s gs owner → gs !! t = Some g → g_pc g = Holding → gives_back g s (end_section (call_vm (g_call g)) s).
Proof.
  intros I Hg Hp. unfold gives_back. rewrite Hp. cbn. split_and!; try done; [|set_solver].
  apply eq_None_not_Some. intros [a (t' & H)%(inv_archives _ _ _ I)].
  pose proof (archives_holds _ _ _ _ H) as Hh%(inv_holds _ _ _ I).
  assert (owner !! call_vm (g_call g) = Some t) as Ho by (eapply (inv_holds _ _ _ I), holds_here; [done|by rewrite Hp]).
  assert (t' = t) as -> by congruence. destruct H as (g' & Hg' & _ & Ha). rewrite Hg in Hg'. injection Hg' as <-.
  by rewrite Hp in Ha.
Qed.

Lemma end_archive_released s gs owner t g a :
  conc_inv s gs owner → gs !! t = Some g → archive_of (g_pc g) = Some a →
  gives_back g s (end_archive_section (call_vm (g_call g)) a s).
Proof.
  intros I Hg Hp. unfold gives_back, end_archive_section. rewrite Hp. cbn [sh_vmOps sh_next sh_cancelled sh_coldArchives sh_closed].
  rewrite bool_decide_eq_true_2 by (eapply (inv_archives _ _ _ I); eexists; by eapply archives_here).
  split_and!; try done; [set_solver|by intros; rewrite lookup_delete_ne|by rewrite lookup_delete_eq|set_solver].
Qed.

Lemma releasing_step s s' gs owner t g r :
  conc_inv s gs owner → gs !! t = Some g → holding (g_pc g) = true → gives_back g s s' →
  conc_inv s' (<[t := at_pc g (Returned r)]> gs) (delete (call_vm (g_call g)) owner).
Proof.
  intros I Hg Hh (Ev & En & Eca & Eo & Eu & Ecl). set (u := call_vm (g_call g)) in *.
  assert (owner !! u = Some t) as Hown by (eapply (inv_holds _ _ _ I); by apply holds_here).
  assert (∀ t' v, t' ≠ t → holds gs t' v → v ≠ u) as Hother
    by (intros t' v Hne Hv%(inv_holds _ _ _ I) ->; congruence).
  assert (∀ t' v, holds (<[t := at_pc g (Returned r)]> gs) t' v ↔ t' ≠ t ∧ holds gs t' v) as Eh
    by (intros t' v; rewrite holds_update by done; destruct (decide _); naive_solver).
  assert (∀ t' v a, archives (<[t := at_pc g (Returned r)]> gs) t' v a ↔ t' ≠ t ∧ archives gs t' v a) as Ea
    by (intros t' v a; rewrite archives_update by done; destruct (decide _); naive_solver).
  destruct I as [I1 I2 I3 I4 I5 I6 I7 I8]. split; rewrite ?Ev, ?En.
  - intros v. rewrite elem_of_difference, elem_of_singleton, I1. destruct (decide (v = u)) as [->|Hne].
    + rewrite lookup_delete_eq. split; [naive_solver|by intros []].
    + rewrite lookup_delete_ne by done. naive_solver.
  - intros t' v. rewrite Eh. split.
    + intros [Hne Hv]. rewrite lookup_delete_ne; [by apply I2|]. intros <-. by eapply Hother.
    + intros [Hne Hv]%lookup_delete_Some. split; [|by apply I2].
      intros ->. apply I2 in Hv as (g' & Hg' & Hv & _). by simplify_eq.
  - intros v a. setoid_rewrite Ea. destruct (decide (v = u)) as [->|Hne].
    + rewrite Eu. split; [done|]. intros (t' & Hne & Ha%archives_holds). by destruct (Hother _ _ Hne Ha).
    + rewrite Eo, I3 by done. split; [|naive_solver]. intros (t' & Ha). exists t'. split; [|done]. intros ->.
      destruct Ha as (g' & Hg' & Hv & _). by simplify_eq.
  - intros t' v a. rewrite Ea, Ecl. intros [Hne Ha]. destruct (I4 _ _ _ Ha) as [Hc ?]. split; [|done].
    rewrite elem_of_union, elem_of_list_to_set. intros [Hin|]; [|done]. apply Hne.
    destruct (archive_of (g_pc g)) as [b|] eqn:Hb; [|by apply elem_of_nil in Hin].
    apply list_elem_of_singleton in Hin as ->. by eapply I5; [done|eapply archives_here].
  - intros t1 t2 u1 u2 a. rewrite !Ea. intros [_ H1] [_ H2]. by eapply I5.
  - intros a. rewrite Ecl, elem_of_union, elem_of_list_to_set. intros [Hin|]; [|by apply I6].
    destruct (archive_of (g_pc g)) as [b|] eqn:Hb; [|by apply elem_of_nil in Hin].
    apply list_elem_of_singleton in Hin as ->. eapply I4. by eapply archives_here.
  - intros t' g' a Hg' Hp. destruct (decide (t' = t)) as [->|Hne].
    { rewrite at_same in Hg' by done. by injection Hg' as <-. }
    rewrite at_other in Hg' by done. destruct (I7 _ _ _ Hg' Hp) as [Hc Hw]. split; [set_solver|].
    rewrite Ecl. destruct (decide (call_vm (g_call g') = u)) as [Heq|Hne']; [|rewrite Eo by done; set_solver].
    left. destruct Hw as [|Hw]; [set_solver|]. apply I3 in Hw as (t1 & Ha).
    assert (t1 = t) as -> by (destruct (decide (t1 = t)); [done|]; by destruct (Hother _ _ n (archives_holds _ _ _ _ Ha))).
    destruct Ha as (g1 & Hg1 & _ & Ha). simplify_eq. rewrite Ha. set_solver.
  - by eapply kinds_update.
Qed.

(** ** The invariant *)

Lemma internal_inv c c' owner :
  internal c c' → conc_inv (c_shared c) (c_threads c) owner →
  ∃ owner', conc_inv (c_shared c') (c_threads c') owner'.
Proof.
  intros Hst I. destruct Hst as [t g s gs p s' Hg Hst]. cbn [c_shared c_threads] in *.
  assert (∃ c, s = MkShared (sh_running s) (sh_vmOps s) (sh_coldArchives s) (c ∪ sh_cancelled s) (sh_closed s) (sh_next s))
    as Hsame by (exists ∅; destruct s; cbn; f_equal; set_solver).
  pose proof (inv_kind _ _ _ I _ _ Hg) as Hk.
  inversion Hst as [?? Hl|?? Hr|?? Hd|?? Hd|? r ? Ha Hs|? r ? Ha Hs|? ? Hin|? ? Hd|? ?|? ? Hd Hn|? r ?|? r ?]; subst;
    match goal with H : _ = g_pc g |- _ => rename H into Hp end; rewrite <-Hp in Hk.
  - exists owner. eapply quiet_step; rewrite <-?Hp; done.
  - exists owner. eapply quiet_step; rewrite <-?Hp; done.
  - exists owner. eapply quiet_step; rewrite <-?Hp; done.
  - exists owner. eapply quiet_step; rewrite <-?Hp; done.
  - unfold enter_section in Hs. destruct (checks_running _ && _).
    { injection Hs as <- <-. exists owner. eapply quiet_step; rewrite <-?Hp; done. }
    destruct (sh_coldArchives s !! _) as [a|] eqn:Ea.
    { injection Hs as <- <-. exists owner. eapply quiet_step; rewrite <-?Hp; try done; [by exists {[a]}|].
      intros b [= <-]. cbn [sh_cancelled sh_cancel]. split; [set_solver|by right]. }
    case_bool_decide as Hin; injection Hs as <- <-.
    { exists owner. eapply quiet_step; rewrite <-?Hp; done. }
    eexists. by eapply taking_step.
  - destruct r as [a|]; pose proof Hs as Hs'; unfold archive_section in Hs'; case_bool_decide as Hin; try done.
    + eexists. eapply taking_step; try done. by apply archive_takes.
    + injection Hs' as <-. exists owner. eapply quiet_step; rewrite <-?Hp; done.
  - exists owner. eapply quiet_step; rewrite <-?Hp; try done. apply Hk.
  - exists owner. eapply quiet_step; rewrite <-?Hp; done.
  - eexists. eapply releasing_step; [done..|by rewrite <-Hp|]. by eapply end_section_released.
  - exists owner. eapply quiet_step; rewrite <-?Hp; done.
  - eexists. eapply releasing_step; [done..|by rewrite <-Hp|]. eapply end_archive_released; [done..|by rewrite <-Hp].
  - eexists. eapply releasing_step; [done..|by rewrite <-Hp|]. eapply end_archive_released; [done..|by rewrite <-Hp].
Qed.

(** Goroutines that begin and contexts that are cancelled change nothing else. *)
Lemma same_view s gs gs' owner :
  (∀ t g', gs' !! t = Some g' →
     (∃ g, gs !! t = Some g ∧ g_call g' = g_call g ∧ g_pc g' = g_pc g) ∨ g_pc g' = first_pc (g_call g')) →
  (∀ t g, gs !! t = Some g → ∃ g', gs' !! t = Some g' ∧ g_call g' = g_call g ∧ g_pc g' = g_pc g) →
  conc_inv s gs owner → conc_inv s gs' owner.
Proof.
  intros Hto Hfrom I.
  assert (∀ t u, holds gs' t u ↔ holds gs t u) as Eh.
  { intros t u. split.
    - intros (g' & [(g & H & Ec & Ep)|Hp]%Hto & Hu & Hh); [exists g; split_and!; congruence|by destruct (g_call g'); rewrite Hp in Hh].
    - intros (g & (g' & H & Ec & Ep)%Hfrom & Hu & Hh). exists g'. split_and!; congruence. }
  assert (∀ t u a, archives gs' t u a ↔ archives gs t u a) as Ea.
  { intros t u a. split.
    - intros (g' & [(g & H & Ec & Ep)|Hp]%Hto & Hu & Hh); [exists g; split_and!; congruence|by destruct (g_call g'); rewrite Hp in Hh].
    - intros (g & (g' & H & Ec & Ep)%Hfrom & Hu & Hh). exists g'. split_and!; congruence. }
  destruct I as [I1 I2 I3 I4 I5 I6 I7 I8]. split; try done.
  - intros. by rewrite Eh.
  - intros. by setoid_rewrite Ea.
  - intros t u a. rewrite Ea. apply I4.
  - intros t1 t2 u1 u2 a. rewrite !Ea. apply I5.
  - intros t g' a [(g & H & -> & ->)|Hc]%Hto Hp; [by eapply I7|]. rewrite Hc in Hp. by destruct (g_call g').
  - intros t g' [(g & H & -> & ->)| -> ]%Hto; [by eapply I8|by destruct (g_call g')].
Qed.

Lemma outside_inv c c' owner :
  outside c c' → conc_inv (c_shared c) (c_threads c) owner → conc_inv (c_shared c') (c_threads c') owner.
Proof.
  intros Hst. destruct Hst as [s gs k dead|s gs t g Hg|s gs r]; cbn [c_shared c_threads];
    [apply same_view..|by intros []].
  - intros t g [H|[_ H]]%lookup_app_Some; [left; by exists g|]. apply list_lookup_singleton_Some in H as [_ <-]. by right.
  - intros t g H. exists g. split; [by apply lookup_app_l_Some|done].
  - intros t' g' [(<- & <- & _)|[_ H]]%list_lookup_insert_Some; left; eauto.
  - intros t' g0 H. destruct (decide (t' = t)) as [->|]; [|exists g0; by rewrite list_lookup_insert_ne].
    eexists. rewrite list_lookup_insert_eq by (by eapply lookup_lt_Some). by simplify_eq.
Qed.

Lemma reachable_inv c : conc_reachable c → ∃ owner, conc_inv (c_shared c) (c_threads c) owner.
Proof.
  apply (rtc_ind_r (λ c, ∃ owner, conc_inv (c_shared c) (c_threads c) owner)).
  - exists ∅. split; cbn; try done; try by intros ? (? & ? & _).
    + intros u. rewrite lookup_empty. split; [set_solver|by intros []].
    + intros t u. rewrite lookup_empty. split; [by intros (? & ? & _)|done].
    + intros u a. split; [done|]. by intros (? & ? & ? & _).
    + by intros ??? (? & ? & _).
    + by intros ????? (? & ? & _).
  - intros c1 c2 _ [H|H] [owner I]; [by eapply internal_inv|]. exists owner. by eapply outside_inv.
Qed.

(** ** An archive gives way *)

Lemma go_step_cancelled k dead p s p' s' a :
  go_step k dead p s p' s' → p = Copying a → a ∈ sh_cancelled s → ∃ r, p' = Returned r.
Proof. intros Hst ->. inversion Hst; subst; [done|eauto]. Qed.

Lemma go_step_keeps_cancelled k dead p s p' s' : go_step k dead p s p' s' → sh_cancelled s ⊆ sh_cancelled s'.
Proof.
  intros Hst. destruct Hst as [| | | |s r s' _ Hs|s r s' _ Hs| | | | | |]; try set_solver.
  - unfold enter_section in Hs. repeat case_match; simplify_eq; cbn; set_solver.
  - unfold archive_section in Hs. repeat case_match; simplify_eq; cbn; set_solver.
Qed.

Definition gave_way (c : conc) (t a : nat) : Prop :=
  a ∈ sh_cancelled (c_shared c) ∧
  ∃ g, c_threads c !! t = Some g ∧ (g_pc g = Copying a ∨ ∃ r, g_pc g = Returned r).

Lemma gave_way_step c c' t a : gave_way c t a → conc_step c c' → gave_way c' t a.
Proof.
  unfold gave_way. intros (Ha & g & Hg & Hp) [Hst|Hst].
  - destruct Hst as [t' g' s gs p s' Hg' Hst]. cbn [c_shared c_threads] in *.
    split; [by apply (go_step_keeps_cancelled _ _ _ _ _ _ Hst)|]. destruct (decide (t' = t)) as [->|Hne].
    + simplify_eq. exists (at_pc g p). rewrite at_same by done. split; [done|]. cbn. right. destruct Hp as [Hp|[r Hp]].
      * by eapply go_step_cancelled.
      * rewrite Hp in Hst. inversion Hst.
    + exists g. by rewrite list_lookup_insert_ne.
  - destruct Hst as [s gs k dead|s gs t' g' Hg'|s gs r]; cbn [c_shared c_threads] in *; (split; [done|]).
    + exists g. split; [by apply lookup_app_l_Some|done].
    + destruct (decide (t' = t)) as [->|Hne]; [|exists g; by rewrite list_lookup_insert_ne].
      simplify_eq. eexists. rewrite list_lookup_insert_eq by (by eapply lookup_lt_Some). done.
    + by exists g.
Qed.


(** ** Every call returns *)

Definition returned (g : goroutine) : bool := match g_pc g with Returned _ => true | _ => false end.

Definition alive1 (g : goroutine) : nat := if is_archive (g_call g) && negb (returned g) then 1 else 0.
(** The archives that have not returned. *)
Definition alive (gs : list goroutine) : nat := sum_list_with alive1 gs.

(** The steps a goroutine can still take: a round of the loop for each archive
    that it may meet, and the way out. *)
Definition weight (archives : nat) (closed : gset nat) (g : goroutine) : nat :=
  match g_pc g with
  | Returned _ => 0
  | Holding => 1
  | Committing _ => 1
  | Copying _ => 2
  | Waiting a => 3 * archives + (if bool_decide (a ∈ closed) then 5 else 2)
  | Entering => 3 * archives + 3
  | Checking => 3 * archives + 4
  | Unlocked => 3 * archives + 5
  end.

Definition steps_left (c : conc) : nat :=
  sum_list_with (weight (alive (c_threads c)) (sh_closed (c_shared c))) (c_threads c).

Lemma sum_decreases (f f' : goroutine → nat) gs t g g' :
  gs !! t = Some g → (∀ x, (f' x ≤ f x)%nat) → (f' g' < f g)%nat →
  (sum_list_with f' (<[t := g']> gs) < sum_list_with f gs)%nat.
Proof.
  intros Hg Hle Hlt.
  assert (∀ l, (sum_list_with f' l ≤ sum_list_with f l)%nat) as Hl
    by (intros l; induction l as [|x l IH]; cbn; [done|]; specialize (Hle x); lia).
  revert t Hg. induction gs as [|x gs IH]; intros [|t] Hg; try done.
  - injection Hg as ->. specialize (Hl gs). cbn. lia.
  - change (<[S t := g']> (x :: gs)) with (x :: <[t := g']> gs). cbn [sum_list_with]. specialize (IH _ Hg). specialize (Hle x). lia.
Qed.

Lemma alive_update gs t g p :
  gs !! t = Some g → (alive (<[t := at_pc g p]> gs) + alive1 g = alive gs + alive1 (at_pc g p))%nat.
Proof.
  unfold alive. revert t. induction gs as [|x gs IH]; intros [|t] Hg; try done.
  - injection Hg as ->. cbn. lia.
  - change (<[S t := at_pc g p]> (x :: gs)) with (x :: <[t := at_pc g p]> gs). cbn [sum_list_with].
    specialize (IH _ Hg). lia.
Qed.

Lemma weight_mono A A' closed closed' g :
  (A' ≤ A)%nat → (closed' = closed ∨ (A' < A)%nat) → closed ⊆ closed' →
  (weight A' closed' g ≤ weight A closed g)%nat.
Proof.
  intros HA Hc Hsub. unfold weight. destruct (g_pc g) as [| | |a| | | |]; try lia.
  destruct Hc as [->|Hlt]; repeat case_bool_decide; lia || set_solver.
Qed.

(** What a step does to the count of archives and to the channels. *)
Lemma go_step_counts s gs owner t g p s' :
  conc_inv s gs owner → gs !! t = Some g → go_step (g_call g) (g_dead g) (g_pc g) s p s' →
  let A := alive gs in let A' := alive (<[t := at_pc g p]> gs) in
  (A' ≤ A)%nat ∧ (sh_closed s' = sh_closed s ∨ (A' < A)%nat) ∧ sh_closed s ⊆ sh_closed s' ∧
  (weight A' (sh_closed s') (at_pc g p) < weight A (sh_closed s) g)%nat.
Proof.
  intros I Hg Hst A A'. pose proof (alive_update gs t g p Hg) as HA. fold A A' in HA.
  pose proof (inv_kind _ _ _ I _ _ Hg) as Hk.
  unfold alive1, returned, at_pc in HA. cbn [g_call g_pc] in HA. unfold weight, at_pc. cbn [g_pc].
  inversion Hst as [? Hl|r ?|? Hd|? Hd|? r ? Ha Hs|? r ? Ha Hs|? ? Hin|? ? Hd|? ?|? ? Hd Hn|? r ?|? r ?]; subst;
    match goal with H : _ = g_pc g |- _ => rewrite <-H in HA, Hk end; cbn [kind_fits] in Hk;
    try (match type of Hk with _ ∧ _ => destruct Hk as [Hk _] end);
    rewrite ?Hk, ?Ha in HA; cbn [andb negb] in HA.
  - destruct (is_archive _); split_and!; try set_solver; cbn in HA; lia.
  - destruct (is_archive _); split_and!; try set_solver; cbn in HA; try lia.
  - destruct (is_archive _); split_and!; try set_solver; cbn in HA; lia.
  - destruct (is_archive _); split_and!; try set_solver; cbn in HA; lia.
  - unfold enter_section in Hs. destruct (checks_running _ && _); [|destruct (sh_coldArchives s !! _) as [a|] eqn:Ea];
      [|pose proof Ea as (t' & [Hopen _]%(inv_open _ _ _ I))%(inv_archives _ _ _ I)|case_bool_decide];
      injection Hs as <- <-; cbn [after_enter sh_closed sh_cancel sh_lock];
      rewrite ?(bool_decide_eq_false_2 (a ∈ sh_closed s)) by done; split_and!; try set_solver; lia.
  - unfold archive_section in Hs. case_bool_decide; injection Hs as <- <-; cbn [after_archive sh_closed negb] in *;
      split_and!; try set_solver; lia.
  - rewrite bool_decide_eq_true_2 by done. split_and!; try set_solver; lia.
  - split_and!; try set_solver; try case_bool_decide; lia.
  - split_and!; try set_solver; cbn; lia.
  - split_and!; try set_solver; lia.
  - cbn in *. split_and!; try set_solver; try right; lia.
  - cbn in *. split_and!; try set_solver; try right; lia.
Qed.

Lemma internal_decreases c c' owner :
  conc_inv (c_shared c) (c_threads c) owner → internal c c' → (steps_left c' < steps_left c)%nat.
Proof.
  intros I Hin. destruct Hin as [t g s gs p s' Hg Hst]. destruct (go_step_counts _ _ _ _ _ _ _ I Hg Hst) as (HA & Hc & Hsub & Hw).
  apply sum_decreases with (g := g); [done| |done]. intros x. by apply weight_mono.
Qed.

(** A goroutine that has not returned can move, or waits for one that can. *)
Lemma progress c t g :
  conc_reachable c → c_threads c !! t = Some g → returned g = false → ∃ c', internal c c'.
Proof.
  intros [owner I]%reachable_inv Hg Hr. destruct c as [s gs]. cbn [c_shared c_threads] in *.
  assert (∀ t g p s', gs !! t = Some g → go_step (g_call g) (g_dead g) (g_pc g) s p s' →
    ∃ c', internal (MkConc s gs) c') as Hmove by (intros; eexists; by econstructor).
  assert (∀ t u a, archives gs t u a → ∃ c', internal (MkConc s gs) c') as Harch.
  { intros t' u a (g' & Hg' & _ & Ha). destruct (g_pc g') eqn:Hp; try done;
      eapply Hmove; try done; rewrite Hp;
      [apply (step_stopped _ _ _ (Ok tt))|apply (step_committed _ _ _ (Ok tt))]. }
  destruct (g_pc g) as [| | |a| |a|a|r] eqn:Hp.
  - eapply (Hmove t g); [done|]. rewrite Hp. by apply (step_unlocked _ _ (Ok tt)).
  - destruct (g_dead g) eqn:Hd; eapply (Hmove t g); try done; rewrite Hp; [by apply step_dead|by apply step_alive].
  - destruct (is_archive (g_call g)) eqn:Ha.
    + destruct (archive_section (call_vm (g_call g)) s) eqn:Hs. eapply (Hmove t g); [done|]. rewrite Hp. by apply step_archive.
    + destruct (enter_section (checks_running (g_call g)) (call_vm (g_call g)) s) eqn:Hs.
      eapply (Hmove t g); [done|]. rewrite Hp. by apply step_enter.
  - destruct (inv_waits _ _ _ I _ _ _ Hg Hp) as [_ [Hc|(t' & Ha)%(inv_archives _ _ _ I)]]; [|by eapply Harch].
    eapply (Hmove t g); [done|]. rewrite Hp. by apply step_done.
  - eapply (Hmove t g); [done|]. rewrite Hp. by apply (step_body _ _ (Ok tt)).
  - eapply (Harch t). eapply archives_here; [done|by rewrite Hp].
  - eapply (Harch t). eapply archives_here; [done|by rewrite Hp].
  - unfold returned in Hr. by rewrite Hp in Hr.
Qed.

Lemma internal_reachable c c' : conc_reachable c → rtc internal c c' → conc_reachable c'.
Proof. unfold conc_reachable. intros Hc H. etrans; [done|]. eapply rtc_subrel; [|done]. intros x y ?. by left. Qed.

Lemma bounded_runs n c c' : conc_reachable c → nsteps internal n c c' → (n + steps_left c' ≤ steps_left c)%nat.
Proof.
  revert c. induction n as [|n IH]; intros c Hc H; inversion H as [|? ? y ? Hst Hrest]; subst; [done|].
  destruct (reachable_inv _ Hc) as [owner I]. pose proof (internal_decreases _ _ _ I Hst).
  assert (conc_reachable y) by (eapply internal_reachable; [done|by apply rtc_once]). specialize (IH y ltac:(done) Hrest). lia.
Qed.

(** C7. No deadlock, and no call is lost.  From every reachable state the calls
    already made can take at most [steps_left] steps, however they are scheduled,
    and when none can take another, every one has returned and no VM is locked
    and no archive registered: no schedule makes an operation wait for ever for
    an archive, and none leaves a lock behind. *)
Theorem operations_return c :
  conc_reachable c →
  (∀ n c', nsteps internal n c c' → (n ≤ steps_left c)%nat) ∧
  (∀ c', rtc internal c c' → (∀ c'', ¬ internal c' c'') →
     Forall (λ g, returned g = true) (c_threads c') ∧
     sh_vmOps (c_shared c') = ∅ ∧ sh_coldArchives (c_shared c') = ∅).
Proof.
  intros Hc. split; [intros n c' H%bounded_runs; [lia|done]|].
  intros c' Hrun Hend. pose proof (internal_reachable _ _ Hc Hrun) as Hc'.
  assert (∀ t g, c_threads c' !! t = Some g → returned g = true) as Hall.
  { intros t g Hg. destruct (returned g) eqn:E; [done|]. destruct (progress _ _ _ Hc' Hg E) as [c'' H]. by apply Hend in H. }
  destruct (reachable_inv _ Hc') as [owner I].
  assert (∀ t u, ¬ holds (c_threads c') t u) as Hnone.
  { intros t u (g & Hg & _ & Hh). specialize (Hall _ _ Hg). unfold returned in Hall. by destruct (g_pc g). }
  split_and!.
  - apply Forall_lookup_2. eauto.
  - apply leibniz_equiv, elem_of_equiv_empty. intros u [t Ht]%(inv_ops _ _ _ I). by apply (inv_holds _ _ _ I), Hnone in Ht.
  - apply map_empty. intros u. apply eq_None_not_Some. intros [a (t & []%archives_holds%Hnone)%(inv_archives _ _ _ I)].
Qed.

(** ** A scheduler

    The next step of a goroutine as a function: [choice] takes the way on where
    there are two, the other is an early return. *)

Definition go_next (choice : bool) (k : call) (dead : bool) (p : pc) (s : shared) : option (pc * shared) :=
  let u := call_vm k in
  match p with
  | Unlocked => Some (if choice && takes_lock k then Checking else Returned (Ok tt), s)
  | Checking => Some (if dead then Returned (Err ErrCanceled) else Entering, s)
  | Entering =>
      if is_archive k
      then let '(r, s') := archive_section u s in Some (after_archive r, s')
      else let '(r, s') := enter_section (checks_running k) u s in Some (after_enter r, s')
  | Waiting a =>
      if negb choice && dead then Some (Returned (Err ErrCanceled), s)
      else if bool_decide (a ∈ sh_closed s) then Some (Checking, s) else None
  | Holding => Some (Returned (Ok tt), end_section u s)
  | Copying a =>
      if choice && negb dead && negb (bool_decide (a ∈ sh_cancelled s)) then Some (Committing a, s)
      else Some (Returned (Err ErrCanceled), end_archive_section u a s)
  | Committing a => Some (Returned (Ok tt), end_archive_section u a s)
  | Returned _ => None
  end.

Lemma go_next_sound choice k dead p s p' s' :
  go_next choice k dead p s = Some (p', s') → go_step k dead p s p' s'.
Proof.
  destruct p as [| | |a| |a|a|r]; cbn; intros E.
  - destruct (choice && takes_lock k) eqn:El; simplify_eq; [|constructor].
    apply andb_prop in El as [_ El]. by constructor.
  - destruct dead; simplify_eq; by constructor.
  - destruct (is_archive k) eqn:Ek;
      [destruct (archive_section _ _) eqn:Es|destruct (enter_section _ _ _) eqn:Es]; simplify_eq; by constructor.
  - destruct (negb choice && dead) eqn:Ed; [apply andb_prop in Ed as [_ ->]; simplify_eq; by constructor|].
    case_bool_decide; simplify_eq. by constructor.
  - simplify_eq. constructor.
  - destruct (choice && negb dead && _) eqn:Ed; simplify_eq; [|constructor].
    apply andb_prop in Ed as [[_ Hd%negb_true_iff]%andb_prop Hc%negb_true_iff%bool_decide_eq_false]. by constructor.
  - simplify_eq. constructor.
  - done.
Qed.

Inductive move := Call (k : call) | Step (t : nat) (choice : bool).

Definition play (c : conc) (m : move) : option conc :=
  match m with
  | Call k => Some (MkConc (c_shared c) (c_threads c ++ [MkGo k (first_pc k) false]))
  | Step t choice =>
      g ← c_threads c !! t;
      '(p, s') ← go_next choice (g_call g) (g_dead g) (g_pc g) (c_shared c);
      Some (MkConc s' (<[t := at_pc g p]> (c_threads c)))
  end.

Fixpoint play_all (c : conc) (ms : list move) : option conc :=
  match ms with [] => Some c | m :: ms' => c' ← play c m; play_all c' ms' end.

Lemma play_all_sound ms : ∀ c c', play_all c ms = Some c' → rtc conc_step c c'.
Proof.
  induction ms as [|m ms IH]; cbn; intros c c' E; [by injection E as ->|].
  apply bind_Some in E as (c1 & E1 & E). eapply rtc_l; [|by apply IH]. destruct c as [s gs], m as [k|t choice]; cbn in E1.
  - injection E1 as <-. right. constructor.
  - apply bind_Some in E1 as (g & Hg & E1). apply bind_Some in E1 as ([p s'] & Hn & E1). injection E1 as <-.
    left. econstructor; [done|]. by eapply go_next_sound.
Qed.

Lemma played_reachable ms c : play_all conc_init ms = Some c → conc_reachable c.
Proof. apply play_all_sound. Qed.

(** ** The same admission as in Manager.v *)

Definition shared_view `{FirecrackerVMM} (w : World) : shared :=
  MkShared (dom (running w)) (vmOps w) (gset_to_gmap 0%nat (coldArchives w)) ∅ ∅ 0.

(** Where no archive of the VM is under way, [begin_loop] is the section. *)
Lemma begin_loop_section `{FirecrackerVMM, Env} fuel check u w r w' :
  (u ∉ coldArchives w) → begin_loop fuel check u w = (r, w') → fate (tick w) = Proceed →
  enter_section check u (shared_view w) =
    (match r with Ok _ => Entered | Err _ => Refused end, shared_view w').
Proof.
  intros Hu E Hf. assert (ctx_Err w = (Ok tt, bump w)) as Hctx by (unfold ctx_Err, ext; by rewrite Hf).
  unfold enter_section, shared_view. cbn [sh_running sh_coldArchives sh_vmOps].
  rewrite (proj2 (lookup_gset_to_gmap_None _ _ _)) by done.
  assert (bool_decide (u ∈ dom (running w)) = bool_decide (is_Some (running w !! u))) as ->
    by (apply bool_decide_ext, elem_of_dom).
  destruct fuel; cbn [begin_loop] in E; unfold mbind at 1, M_mbind at 1 in E; rewrite Hctx in E;
    unfold mbind, M_mbind, gets in E; cbn [coldArchives vmOps running bump] in E;
    (destruct (check && _); [by injection E as <- <-|]);
    rewrite (bool_decide_eq_false_2 (u ∈ coldArchives w)) in E by done;
    (repeat case_bool_decide; try done; by injection E as <- <-).
Qed.

(** ** Applied: a start meets an archive *)

(** An archive of "u" is copying when a start of "u" arrives, cancels it and
    waits; a deletion of "v" goes on meanwhile, a second one is refused. *)
Definition meeting : list move :=
  [Call (CallArchive "u"); Step 0 true; Step 0 true;
   Call (CallStart "u"); Step 1 true; Step 1 true;
   Call (CallLocked "v"); Step 2 true; Step 2 true; Step 2 true;
   Call (CallLocked "v"); Step 3 true; Step 3 true; Step 3 true].

Definition meeting_state : conc := default conc_init (play_all conc_init meeting).

Example meeting_pcs :
  g_pc <$> c_threads meeting_state = [Copying 0; Waiting 0; Holding; Returned (Err ErrAlreadyRunning)].
Proof. vm_compute. reflexivity. Qed.

(** The archive stops at its check, and the start gets the VM. *)
Example meeting_ends :
  (λ c, (g_pc <$> c_threads c, sh_coldArchives (c_shared c) !! "u")) <$>
    play_all meeting_state [Step 0 true; Step 1 true; Step 1 true; Step 1 true; Step 2 true] =
  Some ([Returned (Err ErrCanceled); Holding; Returned (Ok tt); Returned (Err ErrAlreadyRunning)], None).
Proof. vm_compute. reflexivity. Qed.

(** A stop takes no lock: it works on "u" while a start holds it. *)
Example stop_beside_start :
  (λ c, (g_pc <$> c_threads c, bool_decide ("u" ∈ sh_vmOps (c_shared c)))) <$>
    play_all conc_init [Call (CallStart "u"); Step 0 true; Step 0 true; Call (CallUnlocked "u")] =
  Some ([Holding; Unlocked], true).
Proof. vm_compute. reflexivity. Qed.

Lemma meeting_reachable : conc_reachable meeting_state.
Proof. apply (played_reachable meeting). vm_compute. reflexivity. Qed.


Lemma operations_return_witness :
  steps_left meeting_state = 8%nat ∧
  ∀ c', rtc internal meeting_state c' → (∀ c'', ¬ internal c' c'') → sh_vmOps (c_shared c') = ∅.
Proof.
  split; [vm_compute; reflexivity|]. intros c' Hrun Hend.
  exact (proj1 (proj2 (proj2 (operations_return meeting_state meeting_reachable) c' Hrun Hend))).
Defined.
