(* ===== verification/ManagerDisk.v ===== *)
(** * A VM's disk survives every failure

    The disk of a VM is its hot file, or, when there is none, the archived
    file its row points at.  Moving it to cold storage and back keeps its
    contents reachable at every point where the operation can fail or be
    cancelled. *)

From S2P Require Import Prelude GoStrings Paths IPNet Json Types Store Config PrivateNet Memory.
From S2P Require Import World FileCopy Host Manager ManagerLocks.

Section disk.
Context `{FirecrackerVMM, Env, SparseSeek, GoUnicode, UuidLib, Timestamps}.

(** [c] is what the next start of the VM [u] will find on its disk. *)
Definition disk_is (u hot cold c : string) (w : World) : Prop :=
  fs w !! hot = Some (File c) ∨
  fs w !! hot = None ∧ fs w !! cold = Some (File c) ∧
  ∃ vm, vms (db w) !! u = Some vm ∧ vm_ArchivedDiskPath vm = cold.

Definition row (u : string) (w : World) : option VM := vms (db w) !! u.

Lemma disk_is_frame u hot cold c w w' :
  fs w' !! hot = fs w !! hot → fs w' !! cold = fs w !! cold → row u w' = row u w →
  disk_is u hot cold c w → disk_is u hot cold c w'.
Proof. unfold disk_is, row. by intros -> -> ->. Qed.

(** A call that keeps both files and the row keeps the disk. *)
Lemma disk_is_keeps {A} (m : M World A) u hot cold c w r w'
    `{!Keeps (λ w, fs w !! hot) m, !Keeps (λ w, fs w !! cold) m, !Keeps (row u) m} :
  m w = (r, w') → disk_is u hot cold c w → disk_is u hot cold c w'.
Proof.
  intros E. apply disk_is_frame;
    [exact (keeps_Ok (λ w, fs w !! hot) _ _ _ _ E)|exact (keeps_Ok (λ w, fs w !! cold) _ _ _ _ E)|
     exact (keeps_Ok (row u) _ _ _ _ E)].
Qed.

(** [os_Rename] of a file onto another path. *)
Lemma os_Rename_inv a b w r w' c :
  a ≠ b → fs w !! a = Some (File c) → os_Rename a b w = (r, w') →
  fs w' = fs w ∧ (∃ e, r = Err e) ∨ fs w' = <[b := File c]> (delete a (fs w)).
Proof.
  intros Hne Ha E. apply ext_inv in E as [[-> [f ->]]|(r0 & E & Hr)]; [left; eauto|].
  cbn [fs bump] in E. rewrite Ha, bool_decide_eq_false_2 in E by done.
  destruct (fs w !! b) as [[]|]; injection E as <- <-; [|by right..].
  left. split; [done|]. destruct Hr as [->|[f ->]]; eauto.
Qed.

(** Removing a file: it is there or it is gone, and nothing else changes. *)
Lemma os_Remove_inv p w r w' c :
  fs w !! p = Some (File c) → os_Remove p w = (r, w') →
  (fs w' = fs w ∨ fs w' = delete p (fs w)) ∧ db w' = db w.
Proof.
  intros Hp E. apply ext_inv in E as [[-> _]|(r0 & E & _)]; [auto|].
  cbn [fs bump] in E. rewrite Hp in E. injection E as <- <-. auto.
Qed.

(** Setting the archived path of a row, when it succeeds. *)
Lemma SetVMArchivedDiskPath_inv u p w w' :
  dbcall (Store.SetVMArchivedDiskPath u p) w = (Ok tt, w') →
  fs w' = fs w ∧ ∃ vm, row u w' = Some vm ∧ vm_ArchivedDiskPath vm = p.
Proof.
  intros E%ext_Ok. unfold Store.SetVMArchivedDiskPath, update_vm in E. cbn [db bump] in E.
  destruct (vms (db w) !! u) as [vm|]; [|done]. injection E as <-. split; [done|].
  unfold row. simpl. rewrite lookup_insert_eq. by eexists.
Qed.

Lemma hot_kept {A} (m : M World A) w r w' hot `{!Keeps (λ w, fs w !! hot) m} :
  m w = (r, w') → fs w' !! hot = fs w !! hot.
Proof. intros E. exact (keeps_Ok (λ w, fs w !! hot) _ _ _ _ E). Qed.

Section moves.
Context (u hot cold tmp c : string) (Hhc : hot ≠ cold) (Hth : tmp ≠ hot) (Htc : tmp ≠ cold).

#[local] Instance at_hot : NoAt tmp (λ w, fs w !! hot).
Proof using Hth. by apply no_at_ne. Qed.
#[local] Instance at_cold : NoAt tmp (λ w, fs w !! cold).
Proof using Htc. by apply no_at_ne. Qed.
#[local] Instance at_hot_cold : NoAt cold (λ w, fs w !! hot).
Proof using Hhc. by apply no_at_ne. Qed.
#[local] Instance at_cold_hot : NoAt hot (λ w, fs w !! cold).
Proof using Hhc. by apply no_at_ne. Qed.
#[local] Instance at_tmp_cold : NoAt cold (λ w, fs w !! tmp).
Proof using Htc. by apply no_at_ne. Qed.

Lemma keeps_hot_remove_if_exists : Keeps (λ w, fs w !! hot) (remove_if_exists cold).
Proof. unfold remove_if_exists. apply keeps_bind; [apply _|]. intros [|[]]; apply _. Qed.
Lemma keeps_tmp_remove_if_exists : Keeps (λ w, fs w !! tmp) (remove_if_exists cold).
Proof. unfold remove_if_exists. apply keeps_bind; [apply _|]. intros [|[]]; apply _. Qed.

(** The move to cold storage: until the row points at the complete copy, the
    hot file is untouched. *)
Lemma archive_body_safe vm w :
  vm_UUID vm = u → fs w !! hot = Some (File c) →
  wp (archive_body vm hot cold tmp) (λ _, disk_is u hot cold c) w.
Proof using Hhc Hth Htc.
  intros Hu Hhot. unfold archive_body. apply wp_deferring.
  cut (wp (copyRegularFile tmp hot ;; ctx_Err ;; remove_if_exists cold ;; os_Rename tmp cold ;;
           dbcall (Store.SetVMArchivedDiskPath (vm_UUID vm) cold) ;; os_Remove hot)
          (λ _, disk_is u hot cold c) w).
  { intros Hb. eapply wp_mono; [exact Hb|]. intros r w1 Hd. apply wp_run. intros r2 w2 E.
    exact (disk_is_keeps _ _ _ _ _ _ _ _ E Hd). }
  pose proof keeps_hot_remove_if_exists as K1. pose proof keeps_tmp_remove_if_exists as K2.
  apply wp_bind_run; [intros [] w1 E1|intros e w1 E1; left; by rewrite (hot_kept _ _ _ _ hot E1)].
  pose proof (copyRegularFile_Ok _ _ _ _ _ (not_eq_sym Hth) Hhot E1) as Htmp.
  rewrite <-(hot_kept _ _ _ _ hot E1) in Hhot.
  apply wp_bind_run; [intros [] w2 E2|intros e w2 E2; left; by rewrite (hot_kept _ _ _ _ hot E2)].
  rewrite <-(keeps_Ok (λ w, fs w !! tmp) _ _ _ _ E2) in Htmp. rewrite <-(hot_kept _ _ _ _ hot E2) in Hhot.
  apply wp_bind_run; [intros [] w3 E3|intros e w3 E3; left; by rewrite (hot_kept _ _ _ _ hot E3)].
  rewrite <-(keeps_Ok (λ w, fs w !! tmp) _ _ _ _ E3) in Htmp. rewrite <-(hot_kept _ _ _ _ hot E3) in Hhot.
  apply wp_bind_run.
  2: { intros e w4 E4. left.
       destruct (os_Rename_inv _ _ _ _ _ _ Htc Htmp E4) as [[-> _]| ->]; [done|].
       by rewrite lookup_insert_ne, lookup_delete_ne. }
  intros [] w4 E4. destruct (os_Rename_inv _ _ _ _ _ _ Htc Htmp E4) as [[_ [e ?]]|Hfs]; [done|].
  assert (fs w4 !! hot = Some (File c)) as Hhot4
    by (rewrite Hfs, lookup_insert_ne, lookup_delete_ne; done).
  assert (fs w4 !! cold = Some (File c)) as Hcold4 by (rewrite Hfs; apply lookup_insert_eq).
  apply wp_bind_run; [|intros e w5 E5; left; by rewrite (hot_kept _ _ _ _ hot E5)].
  intros [] w5 E5. destruct (SetVMArchivedDiskPath_inv _ _ _ _ E5) as [Hfs5 Hrow].
  rewrite <-Hfs5 in Hhot4, Hcold4. apply wp_run. intros r w6 E6.
  destruct (os_Remove_inv _ _ _ _ _ Hhot4 E6) as [[Hfs6|Hfs6] Hdb6]; [left; by rewrite Hfs6|].
  right. rewrite Hfs6, lookup_delete_eq, lookup_delete_ne by done. split; [done|].
  split; [done|]. rewrite Hdb6, <-Hu. exact Hrow.
Qed.

(** The move back: the archived file stays until the hot one is complete. *)
Lemma hydrate_body_safe vm w :
  vm_UUID vm = u → hot ≠ path_Dir cold →
  fs w !! hot = None → fs w !! cold = Some (File c) →
  (∃ row_vm, row u w = Some row_vm ∧ vm_ArchivedDiskPath row_vm = cold) →
  wp (hydrate_body vm hot cold tmp)
     (λ r w', disk_is u hot cold c w' ∧ (r = Ok tt → fs w' !! hot = Some (File c))) w.
Proof using Hhc Hth Htc.
  intros Hu Hdir Hhot Hcold Hrow. unfold hydrate_body. apply wp_deferring.
  assert (NoAt (path_Dir cold) (λ w, fs w !! hot)) as Hat by by apply no_at_ne.
  match goal with |- wp ?m _ w =>
    cut (wp m (λ r w', disk_is u hot cold c w' ∧ (r = Ok tt → fs w' !! hot = Some (File c))) w) end.
  { intros Hb. eapply wp_mono; [exact Hb|]. intros r w1 [Hd Hr]. apply wp_run. intros r2 w2 E.
    split; [exact (disk_is_keeps _ _ _ _ _ _ _ _ E Hd)|]. by rewrite (hot_kept _ _ _ _ hot E). }
  assert (disk_is u hot cold c w) as Hd by (right; done).
  apply wp_bind_run.
  2: { intros e w1 E1. split; [|done]. exact (disk_is_keeps _ _ _ _ _ _ _ _ E1 Hd). }
  intros [] w1 E1.
  assert (fs w1 !! tmp = Some (File c)) as Htmp
    by exact (copyRegularFile_Ok _ _ _ _ _ (not_eq_sym Htc) Hcold E1).
  pose proof (disk_is_keeps _ _ _ _ _ _ _ _ E1 Hd) as Hd1.
  apply wp_bind_run.
  2: { intros e w2 E2. split; [|done].
       destruct (os_Rename_inv _ _ _ _ _ _ Hth Htmp E2) as [[Hfs _]|Hfs].
       - eapply disk_is_frame; [by rewrite Hfs|by rewrite Hfs| |exact Hd1].
         exact (keeps_Ok (row u) _ _ _ _ E2).
       - left. rewrite Hfs. apply lookup_insert_eq. }
  intros [] w2 E2. destruct (os_Rename_inv _ _ _ _ _ _ Hth Htmp E2) as [[_ [e ?]]|Hfs]; [done|].
  assert (fs w2 !! hot = Some (File c)) as Hhot2 by (rewrite Hfs; apply lookup_insert_eq).
  apply wp_run. intros r w3 E3. rewrite <-(hot_kept _ _ _ _ hot E3) in Hhot2.
  split; [by left|done].
Qed.
End moves.

(** ** The operations *)

Lemma mkdirs_some ps : ∀ w p n, fs w !! p = Some n → fs (mkdirs ps w).2 !! p = Some n.
Proof.
  induction ps as [|q ps IH]; intros w p n Hp; simpl; [done|].
  destruct (fs w !! q) as [[]|] eqn:Hq; simpl; [by apply IH|done|].
  apply IH. simpl. rewrite lookup_insert_ne; [done|congruence].
Qed.

Lemma mkdirs_other ps p : p ∉ ps → Keeps (λ w, fs w !! p) (mkdirs ps).
Proof.
  induction ps as [|q ps IH]; intros Hp w; simpl; [done|].
  apply not_elem_of_cons in Hp as [Hpq Hp].
  destruct (fs w !! q) as [[]|]; simpl; [by apply IH|done|].
  rewrite (IH Hp). simpl. by rewrite lookup_insert_ne.
Qed.

Lemma os_MkdirAll_some d w r w' p n :
  fs w !! p = Some n → os_MkdirAll d w = (r, w') → fs w' !! p = Some n.
Proof.
  intros Hp E. apply ext_inv in E as [[-> _]|(r0 & E & _)]; [done|].
  pose proof (mkdirs_some (ancestors d) (bump w) p n Hp) as Hm. by rewrite E in Hm.
Qed.

Lemma ancestors_from_length p : ∀ pre a,
  a ∈ ancestors_from pre p → (String.length a ≤ String.length pre + String.length p)%nat.
Proof.
  induction p as [|ch p IH]; intros pre a; simpl.
  - case_bool_decide; [by intros ?%elem_of_nil|]. intros ->%list_elem_of_singleton. lia.
  - assert (∀ a, a ∈ ancestors_from (pre +:+ String ch "") p →
                 (String.length a ≤ String.length pre + S (String.length p))%nat) as Hrec.
    { intros a' Ha'. apply IH in Ha'. rewrite str_length_app in Ha'. simpl in Ha'. lia. }
    case_bool_decide; [|apply Hrec]. intros [->|Ha]%elem_of_cons; [lia|by apply Hrec].
Qed.

Lemma os_MkdirAll_below d p : (String.length d < String.length p)%nat →
  Keeps (λ w, fs w !! p) (os_MkdirAll d).
Proof.
  intros Hl. apply keeps_ext; [apply _|]. apply mkdirs_other. intros Hin.
  apply ancestors_from_length in Hin. simpl in Hin. lia.
Qed.

(** A temporary file is new. *)
Lemma os_CreateTemp_some dir pre suf w r w' p n :
  fs w !! p = Some n → os_CreateTemp dir pre suf w = (r, w') →
  fs w' !! p = Some n ∧ (∀ t, r = Ok t → t ≠ p).
Proof.
  intros Hp E. unfold os_CreateTemp, ticks, gets, mbind, M_mbind in E.
  set (t := dir +:+ _) in E. destruct (open_excl t w) as [r1 w1] eqn:E1.
  assert (fs w1 !! p = Some n ∧ (r1 = Ok tt → t ≠ p)) as [Hw1 Ht].
  { apply ext_inv in E1 as [[-> [f ->]]|(r0 & E1 & Hr)]; [done|]. cbn [fs bump] in E1.
    destruct (fs w !! t) as [m|] eqn:Hm.
    - injection E1 as <- <-. split; [done|]. by destruct Hr as [->|[f ->]].
    - destruct (parent_ok t (fs w)); injection E1 as <- <-.
      + simpl. rewrite lookup_insert_ne by congruence. split; [done|]. intros _ ->. congruence.
      + split; [done|]. by destruct Hr as [->|[f ->]]. }
  destruct r1 as [[]|e]; injection E as <- <-; (split; [done|]); [|done].
  intros ? [= <-]. by apply Ht.
Qed.

(** The name of a temporary file. *)
Lemma os_CreateTemp_name dir pre suf w t w' :
  os_CreateTemp dir pre suf w = (Ok t, w') → ∃ x, t = dir +:+ "/" +:+ pre +:+ x +:+ suf.
Proof.
  intros E. unfold os_CreateTemp in E. apply bind_Ok in E as (n & w1 & _ & E).
  apply bind_Ok in E as ([] & w2 & _ & E). injection E as <- <-. eauto.
Qed.

Lemma os_CreateTemp_other dir pre suf p :
  (∀ x, dir +:+ "/" +:+ pre +:+ x +:+ suf ≠ p) → Keeps (λ w, fs w !! p) (os_CreateTemp dir pre suf).
Proof.
  intros Hp. unfold os_CreateTemp. apply keeps_bind; [apply _|]. intros n.
  assert (NoAt (dir +:+ "/" +:+ pre +:+ random_name n +:+ suf) (λ w, fs w !! p)) as Hat
    by (apply no_at_ne; intros ->; by eapply Hp).
  apply _.
Qed.
End disk.

(** ** The configured directories *)

(** The two directories of the configuration are clean absolute paths, and the
    cold store is not the state directory itself. *)
Record dirs_ok (cfg : Config) (sd cd : list string) : Prop := {
  do_state : StateDir cfg = abs sd;
  do_cold : cold_Dir (ColdStorage cfg) = abs cd;
  do_sd : sd ≠ [] ∧ Forall good_part sd;
  do_cd : cd ≠ [] ∧ Forall good_part cd;
  do_ne : sd ≠ cd;
}.

Lemma good_const (s : string) : bool_decide (good_part s) = true → good_part s.
Proof. apply bool_decide_eq_true. Qed.

Section paths.
Context (cfg : Config) (sd cd : list string) (Hdirs : dirs_ok cfg sd cd).
Context (name : string) (Hname : good_part name).

Lemma good_tail : Forall good_part ["vms"; name].
Proof using Hname. by apply Forall_cons_2; [apply good_const|apply Forall_cons_2]. Qed.
Lemma good_disk : Forall good_part ["rootfs.ext4"].
Proof. by apply Forall_cons_2; [apply good_const|]. Qed.
Lemma good_vm_parts l : Forall good_part l → Forall good_part (l ++ ["vms"; name]).
Proof using Hname. intros Hl. apply Forall_app. split; [done|apply good_tail]. Qed.

Lemma vmDir_abs : vmDir (layout_of cfg name) = abs (sd ++ ["vms"; name]).
Proof using Hdirs Hname.
  destruct Hdirs as [Hs _ [Hne Hg] _ _]. simpl. rewrite Hs. apply path_Join_abs; [done..|apply good_tail].
Qed.

Lemma diskPath_eq : diskPath (layout_of cfg name) = vmDir (layout_of cfg name) +:+ "/rootfs.ext4".
Proof using Hdirs Hname.
  change (diskPath (layout_of cfg name)) with (path_Join [vmDir (layout_of cfg name); "rootfs.ext4"]).
  rewrite vmDir_abs. destruct Hdirs as [_ _ [Hne Hg] _ _].
  rewrite path_Join_abs; [|by destruct sd|by apply good_vm_parts|apply good_disk].
  unfold abs. rewrite (Join_app _ ["rootfs.ext4"]) by (done || by destruct sd). done.
Qed.

Lemma coldVMDir_abs : coldVMDir cfg name = abs (cd ++ ["vms"; name]).
Proof using Hdirs Hname.
  destruct Hdirs as [_ Hc _ [Hne Hg] _]. unfold coldVMDir. rewrite Hc.
  change (is_empty (abs cd)) with false. apply path_Join_abs; [done..|apply good_tail].
Qed.

Lemma cold_eq : path_Join [coldVMDir cfg name; "rootfs.ext4"] = coldVMDir cfg name +:+ "/rootfs.ext4".
Proof using Hdirs Hname.
  rewrite coldVMDir_abs. destruct Hdirs as [_ _ _ [Hne Hg] _].
  rewrite path_Join_abs; [|by destruct cd|by apply good_vm_parts|apply good_disk].
  unfold abs. rewrite (Join_app _ ["rootfs.ext4"]) by (done || by destruct cd). done.
Qed.

Lemma coldDiskPath_eq : coldDiskPath cfg name = path_Join [coldVMDir cfg name; "rootfs.ext4"].
Proof using Hdirs Hname. unfold coldDiskPath. by rewrite coldVMDir_abs. Qed.

Lemma hot_ne_cold : diskPath (layout_of cfg name) ≠ path_Join [coldVMDir cfg name; "rootfs.ext4"].
Proof using Hdirs Hname.
  rewrite diskPath_eq, cold_eq, vmDir_abs, coldVMDir_abs. intros E%str_app_inj_r.
  destruct Hdirs as [_ _ [Hs Hgs] [Hc Hgc] Hne].
  apply abs_inj in E; [|by destruct sd|by destruct cd|by apply good_vm_parts..].
  by apply app_inv_tail in E.
Qed.

(** Temporary files next to a disk have longer names. *)
Lemma temp_ne dir x suf : dir +:+ "/" +:+ "rootfs.ext4." +:+ x +:+ suf ≠ dir +:+ "/rootfs.ext4".
Proof.
  intros E. apply (f_equal String.length) in E. rewrite !str_length_app in E.
  change (String.length "/rootfs.ext4") with 12%nat in E.
  change (String.length "rootfs.ext4.") with 12%nat in E. change (String.length "/") with 1%nat in E. lia.
Qed.
End paths.

Section operations.
Context `{FirecrackerVMM, Env, SparseSeek, GoUnicode, UuidLib, Timestamps}.
Context (cfg : Config) (sd cd : list string) (Hdirs : dirs_ok cfg sd cd).
Context (u : string) (vm : VM) (Hname : good_part (vm_Name vm)) (Huuid : vm_UUID vm = u).

#[local] Abbreviation hot := (diskPath (layout_of cfg (vm_Name vm))).
#[local] Abbreviation coldPath := (path_Join [coldVMDir cfg (vm_Name vm); "rootfs.ext4"]).

Lemma path_Dir_cold : path_Dir coldPath = coldVMDir cfg (vm_Name vm).
Proof using Hdirs Hname.
  rewrite (coldVMDir_abs cfg sd cd Hdirs _ Hname). destruct Hdirs as [_ _ _ [Hne Hg] _].
  rewrite path_Join_abs; [|by destruct cd|by apply good_vm_parts|apply good_disk].
  apply path_Dir_abs; [by destruct cd|by apply good_vm_parts|by apply good_const].
Qed.

(** The archive, once its lock is held. *)
Lemma archive_locked_safe now c w :
  row u w = Some vm → disk_is u hot coldPath c w →
  wp (vm ← dbcall (Store.GetVM u);
      if negb (shouldArchiveStoppedVM cfg vm now) then mret tt else
      run ← gets running;
      if bool_decide (is_Some (run !! vm_UUID vm)) then mret tt else
      st ← attempt (os_Stat (diskPath (layout_of cfg (vm_Name vm))));
      match st with
      | Err ErrNotExist => mret tt
      | Err e => fail e
      | Ok _ =>
          os_MkdirAll (coldVMDir cfg (vm_Name vm)) ;;
          tmpPath ← os_CreateTemp (coldVMDir cfg (vm_Name vm)) "rootfs.ext4." ".tmp";
          ext (mret tt) ;;
          archive_body vm (diskPath (layout_of cfg (vm_Name vm)))
            (path_Join [coldVMDir cfg (vm_Name vm); "rootfs.ext4"]) tmpPath
      end) (λ _, disk_is u hot coldPath c) w.
Proof using Hdirs Hname Huuid.
  intros Hrow Hd.
  assert (Keeps fs (dbcall (Store.GetVM u)) ∧ Keeps db (dbcall (Store.GetVM u))) as [Kf Kd].
  { split; [apply _|]. apply keeps_ext; [apply _|]. by intros w0. }
  assert (∀ w', fs w' = fs w → db w' = db w → disk_is u hot coldPath c w') as Hsame.
  { intros w' E1 E2. eapply disk_is_frame; [by rewrite E1|by rewrite E1| |exact Hd].
    unfold row. by rewrite E2. }
  apply wp_bind_run; intros v w1 E1;
    pose proof (keeps_Ok fs _ _ _ _ E1) as Hf1; pose proof (keeps_Ok db _ _ _ _ E1) as Hb1.
  2: by apply Hsame.
  assert (v = vm) as ->.
  { apply ext_Ok in E1. cbn [db bump] in E1. unfold Store.GetVM, row in *. rewrite Hrow in E1.
    by injection E1 as <- _. }
  destruct (negb _); [by apply Hsame|]. apply wp_bind_gets.
  case_bool_decide; [by apply Hsame|]. apply wp_bind_attempt. intros st w2 E2.
  pose proof (keeps_Ok fs _ _ _ _ E2) as Hf2.
  pose proof (keeps_Ok db _ _ _ _ E2) as Hb2.
  assert (disk_is u hot coldPath c w2) as Hd2 by (apply Hsame; congruence).
  destruct st as [fi|e]; [|by destruct e].
  assert (fs w2 !! hot = Some (File c)) as Hhot.
  { destruct Hd2 as [?|(Hno & _)]; [done|]. apply ext_Ok in E2. cbn [fs bump] in E2.
    rewrite <-Hf2, Hno in E2. done. }
  clear Hsame Hd Hd2 Hf1 Hf2 Hb1 Hb2 E1 E2.
  apply wp_bind_run; intros a3 w3 E3; [|left; by eapply os_MkdirAll_some].
  pose proof (os_MkdirAll_some _ _ _ _ _ _ Hhot E3) as Hhot3.
  apply wp_bind_run; intros tmp w4 E4;
    destruct (os_CreateTemp_some _ _ _ _ _ _ _ _ Hhot3 E4) as [Hhot4 Hnew]; [|by left].
  destruct (os_CreateTemp_name _ _ _ _ _ _ E4) as [x Htmp].
  apply wp_bind_run; intros a5 w5 E5; rewrite <-(hot_kept _ _ _ _ hot E5) in Hhot4; [|by left].
  apply archive_body_safe; try done.
  - eapply hot_ne_cold; done.
  - by apply Hnew.
  - rewrite Htmp, (cold_eq cfg sd cd Hdirs _ Hname). apply temp_ne.
Qed.

Lemma hot_ne_cold_dir : hot ≠ path_Dir coldPath.
Proof using Hdirs Hname.
  rewrite path_Dir_cold, (diskPath_eq cfg sd cd Hdirs _ Hname),
    (vmDir_abs cfg sd cd Hdirs _ Hname), (coldVMDir_abs cfg sd cd Hdirs _ Hname).
  destruct Hdirs as [_ _ [Hs Hgs] [Hc Hgc] _]. intros E.
  assert (abs ((sd ++ ["vms"; vm_Name vm]) ++ ["rootfs.ext4"]) = abs (cd ++ ["vms"; vm_Name vm])) as E2.
  { rewrite <-E. unfold abs. rewrite (Join_app _ ["rootfs.ext4"]) by (done || by destruct sd). done. }
  apply abs_inj in E2; [|by destruct sd|by destruct cd| |by apply good_vm_parts].
  - change ["vms"; vm_Name vm] with (["vms"] ++ [vm_Name vm]) in E2.
    rewrite !app_assoc in E2. apply app_inj_tail in E2 as [E2 Hn].
    apply app_inj_tail in E2 as [_ Hv]. by rewrite <-Hn in Hv.
  - apply Forall_app. split; [by apply good_vm_parts|apply good_disk].
Qed.

(** The whole operation; shared by the theorem below and by the monitor. *)
Lemma ArchiveStoppedVM_disk now c w :
  row u w = Some vm → disk_is u hot coldPath c w →
  disk_is u hot coldPath c (ArchiveStoppedVM cfg u now w).2.
Proof using Hdirs Hname Huuid.
  intros Hrow Hd.
  cut (wp (ArchiveStoppedVM cfg u now) (λ _, disk_is u hot coldPath c) w); [done|].
  unfold ArchiveStoppedVM. destruct (negb _); [exact Hd|].
  assert (∀ r w', beginColdArchiveOperation u w = (r, w') → fs w' = fs w ∧ db w' = db w) as Hbegin.
  { unfold beginColdArchiveOperation. intros r w' E.
    destruct (ctx_Err w) as [[[]|e] w1] eqn:E1; unfold mbind at 1, M_mbind at 1 in E; rewrite E1 in E;
      pose proof (keeps_Ok fs _ _ _ _ E1); pose proof (keeps_Ok db _ _ _ _ E1);
      [|by injection E as <- <-].
    unfold gets, mbind, M_mbind in E. destruct (bool_decide _); by injection E as <- <-. }
  apply wp_bind_run; intros a w1 E1; destruct (Hbegin _ _ E1) as [Hf Hb];
    (assert (disk_is u hot coldPath c w1) as Hd1
       by (eapply disk_is_frame; [by rewrite Hf|by rewrite Hf|unfold row; by rewrite Hb|exact Hd]));
    [|done].
  apply wp_deferring. eapply wp_mono; [apply archive_locked_safe; [|exact Hd1]|].
  - unfold row in *. by rewrite Hb.
  - done.
Qed.

(** Fetching the archived file, from the directory on. *)
Lemma hydrate_fetch c w :
  fs w !! hot = None → fs w !! coldPath = Some (File c) →
  row u w = Some vm → vm_ArchivedDiskPath vm = coldPath →
  wp (os_MkdirAll (vmDir (layout_of cfg (vm_Name vm))) ;;
      tmpPath ← os_CreateTemp (vmDir (layout_of cfg (vm_Name vm))) "rootfs.ext4." ".restore.tmp";
      ext (mret tt) ;;
      hydrate_body vm hot coldPath tmpPath)
     (λ r w', disk_is u hot coldPath c w' ∧ (r = Ok tt → fs w' !! hot = Some (File c))) w.
Proof using Hdirs Hname Huuid.
  intros Hhot Hcold Hrow Ha.
  pose proof (diskPath_eq cfg sd cd Hdirs _ Hname) as Hp.
  assert (Keeps (λ w, fs w !! hot) (os_MkdirAll (vmDir (layout_of cfg (vm_Name vm))))) as K1
    by (apply os_MkdirAll_below; rewrite Hp, str_length_app; simpl; lia).
  assert (Keeps (λ w, fs w !! hot)
    (os_CreateTemp (vmDir (layout_of cfg (vm_Name vm))) "rootfs.ext4." ".restore.tmp")) as K2
    by (apply os_CreateTemp_other; intros x; rewrite Hp; apply temp_ne).
  apply wp_bind_run; intros a w1 E1; rewrite <-(keeps_Ok (λ w, fs w !! hot) _ _ _ _ E1) in Hhot;
    rewrite <-(keeps_Ok (row u) _ _ _ _ E1) in Hrow;
    apply (os_MkdirAll_some _ _ _ _ _ _ Hcold) in E1 as Hcold1; [|split; [right; eauto|done]].
  apply wp_bind_run; intros t w2 E2; rewrite <-(keeps_Ok (λ w, fs w !! hot) _ _ _ _ E2) in Hhot;
    rewrite <-(keeps_Ok (row u) _ _ _ _ E2) in Hrow;
    destruct (os_CreateTemp_some _ _ _ _ _ _ _ _ Hcold1 E2) as [Hcold2 Hnew];
    [|split; [right; eauto|done]].
  destruct (os_CreateTemp_name _ _ _ _ _ _ E2) as [x Ht].
  apply wp_bind_run; intros b w3 E3;
    pose proof (keeps_Ok fs _ _ _ _ E3) as Hf; rewrite <-(keeps_Ok (row u) _ _ _ _ E3) in Hrow;
    rewrite <-Hf in Hhot, Hcold2; [|split; [right; eauto|done]].
  apply hydrate_body_safe; try done.
  - eapply hot_ne_cold; done.
  - rewrite Ht, Hp. apply temp_ne.
  - by apply Hnew.
  - apply hot_ne_cold_dir.
  - eauto.
Qed.

(** The whole of the fetch. *)
Lemma hydrateColdDisk_disk c w :
  vm_ArchivedDiskPath vm = "" ∨ vm_ArchivedDiskPath vm = coldPath →
  row u w = Some vm → disk_is u hot coldPath c w →
  disk_is u hot coldPath c (hydrateColdDisk cfg vm w).2 ∧
  ((hydrateColdDisk cfg vm w).1 = Ok tt → fs (hydrateColdDisk cfg vm w).2 !! hot = Some (File c)).
Proof using Hdirs Hname Huuid.
  intros Harch Hrow Hd.
  cut (wp (hydrateColdDisk cfg vm)
         (λ r w', disk_is u hot coldPath c w' ∧ (r = Ok tt → fs w' !! hot = Some (File c))) w); [done|].
  pose proof (hot_ne_cold cfg sd cd Hdirs _ Hname) as Hhc.
  unfold hydrateColdDisk.
  assert (is_empty (cold_Dir (ColdStorage cfg)) = false) as Hen.
  { rewrite (do_cold _ _ _ Hdirs). by apply bool_decide_eq_false. }
  rewrite Hen. simpl andb. cbv iota. apply wp_bind_attempt. intros st w1 E1.
  pose proof (keeps_Ok fs _ _ _ _ E1) as Hf1. pose proof (keeps_Ok db _ _ _ _ E1) as Hb1.
  assert (disk_is u hot coldPath c w1) as Hd1
    by (eapply disk_is_frame; [by rewrite Hf1|by rewrite Hf1|unfold row; by rewrite Hb1|exact Hd]).
  clear Hd. apply ext_inv in E1 as [[_ [f ->]]|(r0 & E1 & [->|[f ->]])];
    [by destruct f| |by destruct f].
  apply (f_equal fst) in E1. cbn [fst fs bump] in E1. rewrite <-Hf1 in E1. subst r0.
  assert (row u w1 = Some vm) as Hrow1 by (unfold row in *; by rewrite Hb1).
  destruct Hd1 as [Hhot|(Hhot & Hcold & vm' & Hrow' & Hvm')]; rewrite Hhot.
  - destruct (is_empty (vm_ArchivedDiskPath vm)) eqn:He; [split; [by left|done]|].
    destruct Harch as [Ha|Ha]; [by rewrite Ha in He|]. rewrite Ha.
    assert (NoAt coldPath (λ w, fs w !! hot)) as Hat by by apply no_at_ne.
    apply wp_run. intros r w2 E2. rewrite <-(hot_kept _ _ _ _ hot E2) in Hhot. split; [by left|done].
  - assert (vm' = vm) as -> by (unfold row in Hrow1; congruence). rewrite Hvm'.
    assert (is_empty coldPath = false) as He.
    { rewrite (cold_eq cfg sd cd Hdirs _ Hname). apply bool_decide_eq_false. by destruct (coldVMDir _ _). }
    rewrite He. simpl negb. cbv iota. rewrite He. apply wp_bind_attempt. intros cst w2 E2.
    pose proof (keeps_Ok fs _ _ _ _ E2) as Hf2. pose proof (keeps_Ok db _ _ _ _ E2) as Hb2.
    rewrite <-Hf2 in Hhot, Hcold. unfold row in Hrow1. rewrite <-Hb2 in Hrow1.
    destruct cst as [fi|e]; [|destruct e; (split; [|done]; right; eauto)].
    exact (hydrate_fetch c w2 Hhot Hcold Hrow1 Hvm').
Qed.
End operations.

(** ** The disk of a VM *)

Section theorems.
Context `{FirecrackerVMM, Env, SparseSeek, GoUnicode, UuidLib, Timestamps}.

(** C4.  Archiving loses no disk, where the configuration separates the two
    stores: let the state directory [sd] and the cold directory [cd] be absolute
    clean paths other than / and differ ([dirs_ok], which [Validate] does not require), and the name of the
    VM be one path component, as the API accepts it.  Then, whatever the
    environment makes fail and wherever [ArchiveStoppedVM] is cancelled, a disk
    whose contents [c] were in the hot file, or in the archived file of the
    current cold directory that the VM's row points at, is so afterwards.  With
    the cold directory equal to the state directory it fails:
    [cold_dir_in_state_dir_loses_disk] below. *)
Theorem archive_keeps_disk cfg sd cd u vm now c w :
  dirs_ok cfg sd cd → good_part (vm_Name vm) → vm_UUID vm = u → row u w = Some vm →
  let hot := diskPath (layout_of cfg (vm_Name vm)) in
  let cold := path_Join [coldVMDir cfg (vm_Name vm); "rootfs.ext4"] in
  disk_is u hot cold c w → disk_is u hot cold c (ArchiveStoppedVM cfg u now w).2.
Proof. intros Hd Hn Hu Hrow hot cold. by apply (ArchiveStoppedVM_disk cfg sd cd Hd u vm Hn Hu). Qed.

(** C5.  Fetching a disk back is as safe, and complete, under the conditions of
    [archive_keeps_disk] and for a row whose archived path is empty or the
    path in the current cold directory (a path recorded under an earlier
    configuration of that directory is not covered): whatever fails in
    [hydrateColdDisk] the contents of the disk are kept, and when it succeeds
    the hot file holds them. *)
Theorem hydrate_keeps_disk cfg sd cd u vm c w :
  dirs_ok cfg sd cd → good_part (vm_Name vm) → vm_UUID vm = u → row u w = Some vm →
  let hot := diskPath (layout_of cfg (vm_Name vm)) in
  let cold := path_Join [coldVMDir cfg (vm_Name vm); "rootfs.ext4"] in
  vm_ArchivedDiskPath vm = "" ∨ vm_ArchivedDiskPath vm = cold →
  disk_is u hot cold c w →
  disk_is u hot cold c (hydrateColdDisk cfg vm w).2 ∧
  ((hydrateColdDisk cfg vm w).1 = Ok tt → fs (hydrateColdDisk cfg vm w).2 !! hot = Some (File c)).
Proof. intros Hd Hn Hu Hrow hot cold Ha. by apply (hydrateColdDisk_disk cfg sd cd Hd u vm Hn Hu). Qed.
End theorems.

(** ** Examples *)

Definition with_cold_dir (dir : string) (c : Config) : Config := {|
  BaseDomain := BaseDomain c; DefaultHTTPPort := DefaultHTTPPort c; StateDir := StateDir c;
  API := API c; Caddy := Caddy c; Metadata := Metadata c; WireGuard := WireGuard c;
  HostFirewall := HostFirewall c; GuestControl := GuestControl c; VMNetwork := VMNetwork c;
  DNS := DNS c; SSH := SSH c; Idle := Idle c;
  ColdStorage := {| cold_Dir := dir;
                    cold_ArchiveStoppedAfterSeconds := cold_ArchiveStoppedAfterSeconds (ColdStorage c) |};
  Firecracker := Firecracker c |}.

Definition cold_config : Config := with_cold_dir "/mnt/cold" Default.

Lemma cold_config_dirs : dirs_ok cold_config ["var"; "lib"; "firedoze"] ["mnt"; "cold"].
Proof.
  split; [reflexivity..| | |done];
    (split; [done|]); repeat (apply Forall_cons_2; [by apply good_const|]); apply Forall_nil_2.
Qed.

(** A stopped VM with its disk at [p]; [archived] is its column. *)
Definition stopped_vm (archived : string) : VM :=
  MkVM "u" "web" "stopped" "fd7a:115c:a1e0::3" 1 384 1024 4 8080 0 "" "" "1000" archived "" "" "" true false.

Definition disk_world (p archived : string) : @World toy_vmm :=
  set_fs (λ _, <[p := File "disk"]> (list_to_map ((λ d, (d, Dir)) <$> ancestors (path_Dir p))))
    (set_db (MkStore {["u" := stopped_vm archived]} ∅ ∅ ∅) empty_world).

Definition hot_path : string := "/var/lib/firedoze/vms/web/rootfs.ext4".
Definition cold_path : string := "/mnt/cold/vms/web/rootfs.ext4".

(** Later than the thirty days of the default configuration. *)
Definition much_later : Z := 10 ^ 18.

Lemma archive_keeps_disk_witness :
  let w := disk_world hot_path "" in
  let w' := (@ArchiveStoppedVM toy_vmm calm decimal_stamps cold_config "u" much_later w).2 in
  (row "u" w = Some (stopped_vm "") ∧ disk_is "u" hot_path cold_path "disk" w) ∧
  disk_is "u" hot_path cold_path "disk" w' ∧ fs w' !! hot_path = None.
Proof.
  assert (row "u" (disk_world hot_path "") = Some (stopped_vm "")) as H1 by (vm_compute; reflexivity).
  assert (disk_is "u" hot_path cold_path "disk" (disk_world hot_path "")) as H2
    by (left; vm_compute; reflexivity).
  split; [exact (conj H1 H2)|]. split; [|vm_compute; reflexivity].
  exact (@archive_keeps_disk toy_vmm calm decimal_stamps cold_config _ _ "u" (stopped_vm "") much_later
           "disk" _ cold_config_dirs (good_const "web" eq_refl) eq_refl H1 H2).
Defined.

Lemma hydrate_keeps_disk_witness :
  let w := disk_world cold_path cold_path in
  let vm := stopped_vm cold_path in
  (row "u" w = Some vm ∧ disk_is "u" hot_path cold_path "disk" w) ∧
  (@hydrateColdDisk toy_vmm calm cold_config vm w).1 = Ok tt ∧
  fs (@hydrateColdDisk toy_vmm calm cold_config vm w).2 !! hot_path = Some (File "disk").
Proof.
  assert (row "u" (disk_world cold_path cold_path) = Some (stopped_vm cold_path)) as H1
    by (vm_compute; reflexivity).
  assert (disk_is "u" hot_path cold_path "disk" (disk_world cold_path cold_path)) as H2.
  { right. split; [vm_compute; reflexivity|]. split; [vm_compute; reflexivity|].
    exists (stopped_vm cold_path). split; vm_compute; reflexivity. }
  split; [exact (conj H1 H2)|]. split; [vm_compute; reflexivity|].
  apply (@hydrate_keeps_disk toy_vmm calm cold_config _ _ "u" (stopped_vm cold_path) "disk" _
           cold_config_dirs (good_const "web" eq_refl) eq_refl H1 (or_intror eq_refl) H2).
  vm_compute; reflexivity.
Defined.

(** A cold store in the state directory itself is accepted by [Validate], and
    there archiving deletes the only copy of the disk: both paths are the same
    file, which is removed last. *)
Example cold_dir_in_state_dir_loses_disk :
  let w := disk_world hot_path "" in
  match applyDerivedDefaults Default with
  | Err _ => False
  | Ok cfg0 =>
      let cfg := with_cold_dir (StateDir cfg0) cfg0 in
      let '(r, w') := @ArchiveStoppedVM toy_vmm calm decimal_stamps cfg "u" much_later w in
      Config.Validate cfg = Ok tt ∧ fs w !! hot_path = Some (File "disk") ∧
      r = Ok tt ∧ fs w' !! hot_path = None ∧ vm_ArchivedDiskPath <$> row "u" w' = Some hot_path
  end.
Proof. vm_compute. split_and!; reflexivity. Qed.
