(* ===== verification/ManagerInvariant.v ===== *)
(** * The invariant of the manager

    What holds of the manager between any two operations, whatever failed
    before: the database invariant, a valid memory range and idle time in every
    row, and for every process in [running] a row of the same name, whose
    layout the process uses. *)

From S2P Require Import Prelude GoStrings Paths IPNet Json Types Store Config PrivateNet Memory.
From S2P Require Import World FileCopy Host Manager ManagerLocks.
Open Scope Z_scope.

Section invariant.
Context `{FirecrackerVMM, Env, SparseSeek, GoUnicode, UuidLib, TimestampLaws}.
Context (cfg : Config) (vmsDir : option string) (NetworkScript : string).

Definition vm_ok (vm : VM) : Prop :=
  validateMemoryHotplugRange (vm_MemoryMinMiB vm) (vm_MemoryMaxMiB vm) = Ok tt ∧
  vm_MemoryMinMiB vm ≤ vm_MemoryMaxMiB vm ∧ 0 ≤ vm_IdleSleepAfterSeconds vm.

(** The process of a row, as [launchProcess] made it. *)
Definition proc_of (vm : VM) (p : Process) : Prop :=
  pr_UUID p = vm_UUID vm ∧ pr_Name p = vm_Name vm ∧
  pr_SocketPath p = socketPath (layout_of cfg (vm_Name vm)) ∧ pr_TapName p = tapName (vm_Name vm).

Record sound (s : Store) (run : gmap string Process) : Prop := {
  so_store : store_ok s;
  so_vm u vm : vms s !! u = Some vm → vm_ok vm;
  so_proc u p : run !! u = Some p → ∃ vm, vms s !! u = Some vm ∧ proc_of vm p;
}.

(** [focus]: a VM an operation is working on, by UUID and name. *)
Definition named (focus : option (string * string)) (s : Store) : Prop :=
  match focus with
  | None => True
  | Some (u, n) => ∃ vm, vms s !! u = Some vm ∧ vm_Name vm = n
  end.

Definition inv (focus : option (string * string)) (w : World) : Prop :=
  sound (db w) (running w) ∧ named focus (db w).

(** ** Calls of the store *)

Class StoreCall {A} (m : M Store A) : Prop :=
  store_call focus s run : sound s run → named focus s → sound (m s).2 run ∧ named focus (m s).2.

(** An update that leaves the identity and the limits of the row alone. *)
Lemma update_call f u :
  (∀ s, store_ok s → store_ok (update_vm u f s).2) →
  (∀ vm, vm_ok vm → vm_ok (f vm)) →
  (∀ vm, vm_UUID (f vm) = vm_UUID vm ∧ vm_Name (f vm) = vm_Name vm) →
  StoreCall (update_vm u f).
Proof.
  intros Hok Hvm Hid focus s run Hs Hn. specialize (Hok s (so_store _ _ Hs)).
  unfold update_vm in *. destruct (vms s !! u) as [vm|] eqn:E; [|done]. simpl in *.
  destruct (Hid vm) as [Hi1 Hi2]. split; [split; [done|..]|].
  - intros k v. simpl. rewrite lookup_insert_Some. intros [[<- <-]|[_ Hk]].
    + apply Hvm. by eapply so_vm.
    + by eapply so_vm.
  - intros k p Hk. destruct (so_proc _ _ Hs k p Hk) as (v & Hv & Hp). simpl.
    destruct (decide (k = u)) as [->|Hne].
    + exists (f vm). rewrite lookup_insert_eq. split; [done|].
      assert (v = vm) as -> by congruence. unfold proc_of. by rewrite Hi1, Hi2.
    + exists v. by rewrite lookup_insert_ne.
  - destruct focus as [[k n]|]; [|done]. destruct Hn as (v & Hv & Hnv). simpl.
    destruct (decide (k = u)) as [->|Hne].
    + exists (f vm). rewrite lookup_insert_eq. split; [done|]. congruence.
    + exists v. by rewrite lookup_insert_ne.
Qed.

#[global] Instance call_GetVM u : StoreCall (Store.GetVM u).
Proof. done. Qed.
#[global] Instance call_GetVMByName n : StoreCall (Store.GetVMByName n).
Proof. done. Qed.
#[global] Instance call_GetVMByPrivateIP n : StoreCall (Store.GetVMByPrivateIP n).
Proof. done. Qed.
#[global] Instance call_ListVMs : StoreCall Store.ListVMs.
Proof. done. Qed.
#[global] Instance call_VMExists n : StoreCall (Store.VMExists n).
Proof. done. Qed.
#[global] Instance call_RouteExists n : StoreCall (Store.RouteExists n).
Proof. done. Qed.
#[global] Instance call_SnapshotExists n : StoreCall (Store.SnapshotExists n).
Proof. done. Qed.
#[global] Instance call_GetSnapshot n : StoreCall (Store.GetSnapshot n).
Proof. done. Qed.
#[global] Instance call_SetVMArchivedDiskPath u p : StoreCall (Store.SetVMArchivedDiskPath u p).
Proof. apply update_call; [apply SetVMArchivedDiskPath_ok|done..]. Qed.

(** The statements that leave the rows of [vms] alone. *)
Lemma other_table_call {A} (m : M Store A) :
  (∀ s, store_ok s → store_ok (m s).2) → (∀ s, vms (m s).2 = vms s) → StoreCall m.
Proof.
  intros Hok Hv focus s run [Hst Hrow Hpr] Hn. split.
  - split; [by apply Hok|..]; rewrite Hv; done.
  - unfold named in *. by rewrite Hv.
Qed.
#[global] Instance call_DeleteRoutesForVM u : StoreCall (Store.DeleteRoutesForVM u).
Proof. apply other_table_call; [|done]. intros s Hs. by apply filter_routes_ok. Qed.
#[global] Instance call_DeleteSnapshot n : StoreCall (Store.DeleteSnapshot n).
Proof.
  apply other_table_call; [apply DeleteSnapshot_ok|]. intros s. unfold Store.DeleteSnapshot.
  by case_match.
Qed.
Lemma call_CreateSnapshot now p : StoreCall (Store.CreateSnapshot now p).
Proof.
  apply other_table_call; [apply CreateSnapshot_ok|]. intros s. unfold Store.CreateSnapshot.
  by case_match.
Qed.

#[global] Instance pres_ext {A} focus (m : M World A) : Pres (inv focus) m → Pres (inv focus) (ext m).
Proof. intros Hm w Hw. unfold ext. destruct (fate (tick w)); simpl; by try apply Hm. Qed.
#[global] Instance pres_dbcall {A} focus (m : M Store A) : StoreCall m → Pres (inv focus) (dbcall m).
Proof.
  intros Hm. apply pres_ext. intros w [Hs Hn]. destruct (Hm focus _ _ Hs Hn) as [Hs' Hn'].
  destruct (m (db w)). done.
Qed.
#[global] Instance pres_store_SetVMState focus u st : Pres (inv focus) (store_SetVMState u st).
Proof.
  intros w. apply pres_dbcall, update_call; [|done..]. intros s. apply SetVMState_ok, strftime_nonempty.
Qed.
#[global] Instance pres_store_CreateSnapshot focus p : Pres (inv focus) (store_CreateSnapshot p).
Proof. intros w. apply pres_dbcall, call_CreateSnapshot. Qed.

(** Calls that touch neither the database nor [running]. *)
#[global] Instance pres_keeps {A} focus (m : M World A) :
  Keeps db m → Keeps running m → Pres (inv focus) m | 50.
Proof. intros Hd Hr w. unfold inv. by rewrite (Hd w), (Hr w). Qed.

(** ** [running] *)

Lemma pres_running focus g :
  (∀ run u p, g run !! u = Some p →
     ∃ p', run !! u = Some p' ∧ ∀ vm, proc_of vm p' → proc_of vm p) →
  Pres (inv focus) (modify (set_running g)).
Proof.
  intros Hg w [[Hst Hrow Hpr] Hn]. split; [split|]; simpl; try done.
  intros u p (p' & Hp' & Himp)%Hg. destruct (Hpr u p' Hp') as (vm & Hvm & Hp2). eauto.
Qed.
#[global] Instance pres_delete_running focus u : Pres (inv focus) (modify (set_running (delete u))).
Proof. apply pres_running. intros run v p [_ Hp]%lookup_delete_Some. eauto. Qed.
#[global] Instance pres_final focus st u :
  Pres (inv focus) (modify (set_running (alter (with_final st) u))).
Proof.
  apply pres_running. intros run v p. destruct (decide (u = v)) as [->|Hne].
  - rewrite lookup_alter_eq. intros (p' & Hp' & ->)%fmap_Some. exists p'. by split.
  - rewrite lookup_alter_ne by done. eauto.
Qed.

(** ** The operations, in the order of their calls *)

#[global] Instance pres_process_exited focus u : Pres (inv focus) (process_exited u).
Proof. unfold process_exited. apply _. Qed.
#[global] Instance pres_waitForProcessExit focus p : Pres (inv focus) (waitForProcessExit p).
Proof. unfold waitForProcessExit. apply _. Qed.
#[global] Instance pres_stopProcess focus p st : Pres (inv focus) (stopProcess p st).
Proof. unfold stopProcess. apply _. Qed.
#[global] Instance pres_remove_if_exists focus p : Pres (inv focus) (remove_if_exists p).
Proof. unfold remove_if_exists. apply pres_bind; [apply _|]. intros [|[]]; apply _. Qed.
#[global] Instance pres_archive_body focus vm a b c : Pres (inv focus) (archive_body vm a b c).
Proof. unfold archive_body. apply _. Qed.
#[global] Instance pres_hydrate_body focus vm a b c : Pres (inv focus) (hydrate_body vm a b c).
Proof. unfold hydrate_body. apply _. Qed.
#[global] Instance pres_hydrateColdDisk focus vm : Pres (inv focus) (hydrateColdDisk cfg vm).
Proof.
  unfold hydrateColdDisk. case_match; [apply _|]. apply pres_bind; [apply _|].
  intros [|[]]; try apply _; cbv zeta. case_match; [apply _|]. apply pres_bind; [apply _|].
  intros [|[]]; apply _.
Qed.
#[global] Instance pres_vmDiskPath focus vm : Pres (inv focus) (vmDiskPath cfg vm).
Proof.
  unfold vmDiskPath. apply pres_bind; [apply _|].
  intros [|[]]; try apply _; cbv zeta. case_match; [apply _|]. apply pres_bind; [apply _|].
  intros [|[]]; apply _.
Qed.

(** The process [launchProcess] enters belongs to the row in focus. *)
Lemma pres_enter vm p :
  proc_of vm p → 
  Pres (inv (Some (vm_UUID vm, vm_Name vm))) (modify (set_running <[vm_UUID vm := p]>)).
Proof.
  intros (Hu & Hname & Hsock & Htap) w [[Hst Hrow Hpr] (v & Hv & Hn)]. split; [split|]; simpl; try done.
  2: by exists v.
  intros k q. rewrite lookup_insert_Some. intros [[<- <-]|[_ Hq]]; [|by apply Hpr].
  exists v. split; [done|]. unfold proc_of. rewrite Hn. split_and!; try done.
  rewrite Hu. symmetry. by apply (ok_uuid _ Hst).
Qed.

Lemma pres_launchProcess vm nd c :
  nw_tapName nd = tapName (vm_Name vm) →
  Pres (inv (Some (vm_UUID vm, vm_Name vm))) (launchProcess vmsDir vm (layout_of cfg (vm_Name vm)) nd c).
Proof.
  intros Htap. unfold launchProcess. do 2 (apply pres_bind; [apply _|intros _]).
  apply pres_bind; [destruct vmsDir; apply _|]. intros cg. apply pres_bind.
  { apply pres_attempt, pres_ext. by intros w. }
  intros []; [|apply _]. apply pres_bind; [destruct vmsDir; apply _|]. intros cg'.
  apply pres_bind; [|apply _]. by apply pres_enter.
Qed.

Lemma prepareNetwork_tap vm w nd w' :
  prepareNetwork cfg vm w = (Ok nd, w') → nw_tapName nd = tapName (vm_Name vm).
Proof.
  unfold prepareNetwork. destruct (is_empty _); [done|]. destruct (ParseIP _); [|done].
  destruct (is_v4 _); [done|]. destruct (decrementIP _); [|done].
  intros E. apply bind_Ok in E as ([a b] & w1 & _ & E). cbv zeta in E.
  do 8 (apply bind_Ok in E as (? & ? & _ & E)). by injection E as <- <-.
Qed.

(** Reading the row puts it in focus. *)
Lemma pres_focus {A} u (k : VM → M World A) :
  (∀ vm, vm_UUID vm = u → Pres (inv (Some (u, vm_Name vm))) (k vm)) →
  Pres (inv None) (dbcall (Store.GetVM u) ≫= k).
Proof.
  intros Hk w Hw.
  assert (Pres (inv None) (dbcall (Store.GetVM u))) as Hg by apply _. specialize (Hg w Hw).
  unfold mbind, M_mbind. destruct (dbcall (Store.GetVM u) w) as [[vm|e] w1] eqn:E; [|done].
  simpl in Hg. apply ext_Ok in E. unfold Store.GetVM in E. cbn [db bump] in E.
  destruct (vms (db w) !! u) as [v|] eqn:Hv; [|done]. injection E as <- <-.
  destruct Hw as [Hs _].
  edestruct (Hk v) as [Hs' _]; [by apply (ok_uuid _ (so_store _ _ Hs))| |split; [exact Hs'|done]].
  split; [exact Hs|]. by exists v.
Qed.

#[global] Instance pres_StopVM focus u : Pres (inv focus) (StopVM u).
Proof. unfold StopVM. apply pres_bind; [apply _|]. intros vm. apply pres_bind; [apply _|]. intros run. apply _. Qed.
#[global] Instance pres_SleepVM focus u : Pres (inv focus) (SleepVM cfg u).
Proof. unfold SleepVM. apply pres_bind; [apply _|]. intros vm. apply pres_bind; [apply _|]. intros run. apply _. Qed.
#[global] Instance pres_host_bits focus : Pres (inv focus) host_bits.
Proof. unfold host_bits. apply _. Qed.

Lemma pres_resumeVM vm : Pres (inv (Some (vm_UUID vm, vm_Name vm))) (resumeVM cfg vmsDir vm).
Proof.
  unfold resumeVM. cbv zeta. do 3 (apply pres_bind; [apply _|intros _]).
  apply (pres_bind_val _ (λ nd, nw_tapName nd = tapName (vm_Name vm))); [apply _| |].
  { intros w nd w' _. apply prepareNetwork_tap. }
  intros nd Hnd. apply pres_bind; [apply _|intros _].
  apply pres_bind; [by apply pres_attempt, pres_launchProcess|]. intros [proc|e]; apply _.
Qed.

Lemma pres_boot vm mem :
  Pres (inv (Some (vm_UUID vm, vm_Name vm))) (boot cfg vmsDir NetworkScript vm mem).
Proof.
  unfold boot. cbv zeta. do 3 (apply pres_bind; [apply _|intros _]).
  do 3 (apply pres_bind; [apply _|intros ?]).
  apply (pres_bind_val _ (λ nd, nw_tapName nd = tapName (vm_Name vm))); [apply _| |].
  { intros w nd w' _. apply prepareNetwork_tap. }
  intros nd Hnd. do 2 (apply pres_bind; [apply _|intros _]).
  apply pres_bind; [by apply pres_launchProcess|]. intros proc. apply _.
Qed.

(** The locks are outside the invariant. *)
#[global] Instance pres_lock focus u : Pres (inv focus) (lock u).
Proof. by intros w. Qed.
#[global] Instance pres_endVMOperation focus u : Pres (inv focus) (endVMOperation u).
Proof. by intros w. Qed.
#[global] Instance pres_end_archive focus u : Pres (inv focus) (end_archive u).
Proof. by intros w. Qed.
#[global] Instance pres_begin_loop focus fuel check u : Pres (inv focus) (begin_loop fuel check u).
Proof.
  induction fuel as [|fuel IH]; cbn [begin_loop]; apply pres_bind; (apply _ || intros _);
    (apply pres_bind; [apply _|intros run]); case_match; try apply _;
    (apply pres_bind; [apply _|intros arch]); case_match; apply _.
Qed.

#[global] Instance pres_StartVM u : Pres (inv None) (StartVM cfg vmsDir NetworkScript u).
Proof.
  unfold StartVM, beginStartOperationCancelingColdArchive. apply pres_bind; [apply _|intros _].
  apply pres_deferring; [|apply _]. apply pres_focus. intros vm <-.
  do 2 (apply pres_bind; [apply _|intros ?]). apply pres_if; [apply pres_resumeVM|apply pres_boot].
Qed.

#[global] Instance pres_RebootVM u : Pres (inv None) (RebootVM cfg vmsDir NetworkScript u).
Proof. unfold RebootVM. apply _. Qed.

(** ** Creating rows *)

Definition params_ok (p : CreateVMParams) : Prop :=
  validateMemoryHotplugRange (p_MemoryMinMiB p) (p_MemoryMaxMiB p) = Ok tt ∧
  p_MemoryMinMiB p ≤ p_MemoryMaxMiB p ∧ 0 ≤ p_IdleSleepAfterSeconds p.

Lemma fill_params_ok disk p q : fill_params cfg disk p = Ok q → params_ok q.
Proof.
  unfold fill_params. case_bool_decide as Hm; [done|]. unfold mbind, result_mbind.
  destruct (validateMemoryHotplugRange _ _) as [[]|] eqn:Hv; [|done].
  case_bool_decide as Hi; [done|]. intros [= <-]. split; [done|]. simpl. lia.
Qed.

Lemma call_CreateVM u now p : now ≠ "" → params_ok p → StoreCall (Store.CreateVM u now p).
Proof.
  intros Hnow Hp focus s run Hs Hn.
  pose proof (CreateVM_ok u now p s Hnow (so_store _ _ Hs)) as Hok. unfold Store.CreateVM in *.
  destruct (uuid_Parse_ok _); [done|]. case_bool_decide; [done|].
  destruct (bool_decide (is_Some (vms s !! u))) eqn:Hu; simpl in *; [done|].
  apply bool_decide_eq_false, eq_None_not_Some in Hu.
  destruct (vm_name_taken _ _); [done|]. simpl in *.
  assert (∀ k v, vms s !! k = Some v → <[u:=new_vm u now p]> (vms s) !! k = Some v) as Hk.
  { intros k v Hk. rewrite lookup_insert_ne; [done|]. congruence. }
  split; [split; [done|..]|]; simpl.
  - intros k v. rewrite lookup_insert_Some. intros [[<- <-]|[_ Hv]]; [done|]. by eapply so_vm.
  - intros k q Hq. destruct (so_proc _ _ Hs k q Hq) as (v & Hv & Hpr). eauto.
  - destruct focus as [[k n]|]; [|done]. destruct Hn as (v & Hv & Hnv). exists v. eauto.
Qed.

Lemma pres_store_create focus p : params_ok p → Pres (inv focus) (store_create p).
Proof.
  intros Hp. unfold store_create. apply pres_bind; [|intros [|[]]; apply _].
  apply pres_attempt. unfold store_CreateVM. apply pres_bind; [apply _|]. intros u.
  intros w. apply pres_dbcall, call_CreateVM; [apply strftime_nonempty|done].
Qed.

Lemma choose_ip_params p w q w' : choose_ip cfg p w = (Ok q, w') → params_ok p → params_ok q.
Proof.
  unfold choose_ip. destruct (is_empty _); [|by intros [= <- <-]].
  intros E. apply bind_Ok in E as (vms & w1 & _ & E). destruct (nextPrivateIP _ _); [|done].
  apply bind_Ok in E as (ip & w2 & _ & E). by injection E as <- <-.
Qed.
#[global] Instance pres_choose_ip focus p : Pres (inv focus) (choose_ip cfg p).
Proof. unfold choose_ip. apply pres_if; [|apply _]. apply pres_bind; [apply _|]. intros vms. apply _. Qed.

(** The part [CreateVM] and [RestoreSnapshot] share. *)
Lemma pres_filled {A} focus disk p (k : CreateVMParams → M World A) :
  (∀ q, params_ok q → Pres (inv focus) (k q)) →
  Pres (inv focus) (q ← lift_result (fill_params cfg disk p); q ← choose_ip cfg q; k q).
Proof.
  intros Hk. apply (pres_bind_val _ params_ok); [apply _| |].
  { intros w q w' _ E. injection E as E _. by eapply fill_params_ok. }
  intros q Hq. apply (pres_bind_val _ params_ok); [apply _| |done].
  intros w q' w' _ E. by eapply choose_ip_params.
Qed.

#[global] Instance pres_CreateVM p : Pres (inv None) (CreateVM cfg p).
Proof.
  unfold CreateVM. apply pres_bind; [apply _|intros b]. apply pres_if; [apply _|].
  apply pres_filled. intros q Hq. apply pres_bind; [apply _|intros md]. by apply pres_store_create.
Qed.

#[global] Instance pres_RestoreSnapshot sn p : Pres (inv None) (RestoreSnapshot cfg sn p).
Proof.
  unfold RestoreSnapshot. do 2 (apply pres_if; [apply _|]).
  do 2 (apply pres_bind; [apply _|intros b]; apply pres_if; [apply _|]; clear b).
  do 2 (apply pres_bind; [apply _|intros ?]). apply pres_filled. intros q Hq. cbv zeta.
  do 5 (apply pres_bind; [apply _|intros ?]). by apply pres_store_create.
Qed.

(** ** Settings, memory, snapshots *)

#[global] Instance pres_UpdateVM u p : Pres (inv None) (UpdateVM u p).
Proof.
  unfold UpdateVM. apply pres_bind; [destruct (u_DefaultHTTPPort p); apply _|intros _].
  apply (pres_bind_val _ (λ _, default 0 (u_IdleSleepAfterSeconds p) >= 0)).
  { destruct (u_IdleSleepAfterSeconds p); apply _. }
  { intros w a w' _. destruct (u_IdleSleepAfterSeconds p) as [n|]; simpl; [|lia].
    case_bool_decide; [done|lia]. }
  intros _ Hidle. apply pres_dbcall. intros focus s run Hs Hn. rewrite UpdateVM_state.
  destruct (vms s !! u) as [vm|] eqn:E; [|done].
  apply (so_vm _ _ Hs) in E as (_ & _ & Hi).
  apply update_call; try done.
  - intros s' Hs'. by apply update_vm_ok.
  - intros v (Hv1 & Hv2 & _). split_and!; try done. simpl.
    destruct (u_IdleSleepAfterSeconds p); simpl in *; lia.
Qed.

#[global] Instance pres_setVMMemoryTarget focus vm t : Pres (inv focus) (setVMMemoryTarget vm t).
Proof.
  unfold setVMMemoryTarget. apply pres_bind; [apply _|intros run].
  destruct (run !! _); [|apply _]. apply pres_if; [apply _|].
  apply pres_bind; [apply _|intros bits]. apply _.
Qed.
#[global] Instance pres_Record ip t r : Pres (inv None) (RecordVMMemoryReportByPrivateIP ip t r).
Proof.
  unfold RecordVMMemoryReportByPrivateIP. apply pres_bind; [apply _|intros vm].
  apply pres_bind; [apply _|intros a]. apply _.
Qed.

#[global] Instance pres_SaveSnapshot p : Pres (inv None) (SaveSnapshot cfg p).
Proof.
  unfold SaveSnapshot, beginVMOperationCancelingColdArchive. do 2 (apply pres_if; [apply _|]).
  apply pres_bind; [apply _|intros b]. apply pres_if; [apply _|]. apply pres_bind; [apply _|intros vm].
  apply pres_bind; [apply _|intros _]. apply pres_deferring; [|apply _].
  apply pres_bind; [apply _|intros run]. do 2 (apply pres_if; [apply _|]). apply _.
Qed.
#[global] Instance pres_DeleteSnapshot n : Pres (inv None) (DeleteSnapshot cfg n).
Proof. unfold DeleteSnapshot. apply _. Qed.

#[global] Instance pres_ArchiveStoppedVM u now : Pres (inv None) (ArchiveStoppedVM cfg u now).
Proof.
  unfold ArchiveStoppedVM, beginColdArchiveOperation. apply pres_if; [apply _|]. apply pres_bind.
  { do 2 (apply pres_bind; [apply _|intros ?]). apply pres_if; [apply _|]. by intros w. }
  intros _. apply pres_deferring; [|apply _]. apply pres_bind; [apply _|intros vm].
  apply pres_if; [apply _|]. apply pres_bind; [apply _|intros run]. apply pres_if; [apply _|].
  cbv zeta. apply pres_bind; [apply _|]. intros [|[]]; apply _.
Qed.

(** ** Start-up and shutdown *)

#[global] Instance pres_reconcile_loop l : Pres (inv None) (reconcile_loop l).
Proof. induction l as [|vm l IH]; cbn [reconcile_loop]; apply _. Qed.
#[global] Instance pres_join_errors l : Pres (inv None) (join_errors l).
Proof. destruct l; apply _. Qed.
#[global] Instance pres_ReconcileStartup : Pres (inv None) ReconcileStartup.
Proof. unfold ReconcileStartup. apply _. Qed.
#[global] Instance pres_sleep_loop l : Pres (inv None) (sleep_loop cfg l).
Proof. induction l as [|vm l IH]; cbn [sleep_loop]; apply _. Qed.
#[global] Instance pres_SleepRunningVMs : Pres (inv None) (SleepRunningVMs cfg).
Proof. unfold SleepRunningVMs, RunningVMNames. apply _. Qed.
#[global] Instance pres_start_loop l : Pres (inv None) (start_loop cfg vmsDir NetworkScript l).
Proof.
  induction l as [|vm l IH]; cbn [start_loop]; [apply _|]. apply pres_bind; [apply _|intros got].
  apply pres_bind; [|apply _]. apply _.
Qed.
#[global] Instance pres_StartVMs l : Pres (inv None) (StartVMs cfg vmsDir NetworkScript l).
Proof. unfold StartVMs. apply _. Qed.

(** ** Deleting *)

Lemma process_exited_gone u w r w' : process_exited u w = (r, w') → running w' !! u = None.
Proof.
  unfold process_exited. unfold mbind at 1, M_mbind at 1, gets at 1.
  destruct (running w !! u) as [proc|] eqn:Hp; [|by intros [= <- <-]]. cbv zeta.
  unfold mbind, M_mbind, attempt. destruct (cleanupAfterExit proc w) as [r1 w1].
  destruct (store_SetVMState _ _ w1) as [r2 w2]. intros [= <- <-]. apply lookup_delete_eq.
Qed.

Lemma waitForProcessExit_gone p w w' :
  waitForProcessExit p w = (Ok tt, w') → running w' !! pr_UUID p = None.
Proof.
  unfold waitForProcessExit. unfold mbind at 1, M_mbind at 1, gets at 1.
  case_bool_decide as Hp; [|intros [= <-]; by apply eq_None_not_Some].
  intros E%ext_Ok. apply bind_Ok in E as ([] & w1 & _ & E). by eapply process_exited_gone.
Qed.

(** A stop that succeeds leaves no process. *)
Lemma StopVM_gone u w w' : inv None w → StopVM u w = (Ok tt, w') → running w' !! u = None.
Proof.
  intros Hw E. unfold StopVM in E. apply bind_Ok in E as (vm & w1 & E1 & E).
  apply bind_Ok in E as (run & w2 & E2 & E). injection E2 as <- <-.
  assert (inv None w1) as [Hs _] by exact (pres_run (inv None) _ _ _ _ E1 Hw).
  destruct (running w1 !! u) as [proc|] eqn:Hp.
  - destruct (so_proc _ _ Hs u proc Hp) as (v & Hv & Hu & _).
    rewrite (ok_uuid _ (so_store _ _ Hs) _ _ Hv) in Hu.
    apply bind_Ok in E as (a & w3 & _ & E). apply bind_Ok in E as ([] & w4 & _ & E).
    apply bind_Ok in E as ([] & w5 & E5 & E). apply waitForProcessExit_gone in E5. rewrite Hu in E5.
    rewrite <-E5. change (running w' !! u = running w5 !! u). f_equal. exact (keeps_Ok running _ _ _ _ E).
  - rewrite <-Hp. f_equal. exact (keeps_Ok running _ _ _ _ E).
Qed.

Definition gone (u : string) (w : World) : Prop := inv None w ∧ running w !! u = None.

#[global] Instance pres_gone {A} u (m : M World A) :
  Pres (inv None) m → Keeps running m → Pres (gone u) m | 50.
Proof. intros Hm Hk w [Hw Hu]. split; [by apply Hm|]. by rewrite (Hk w). Qed.

#[global] Instance pres_gone_DeleteVM u : Pres (gone u) (dbcall (Store.DeleteVM u)).
Proof.
  assert (∀ w, gone u w → gone u (let '(_, s) := Store.DeleteVM u (db w) in set_db s w)) as Hd.
  { intros w [[[Hst Hrow Hpr] _] Hu]. pose proof (DeleteVM_ok u (db w) Hst) as Hok.
    unfold Store.DeleteVM in *. destruct (vms (db w) !! u) eqn:E; [|done]. simpl in *.
    split; [|done]. split; [|done]. split; [done|..]; simpl.
    - intros k v0 [_ Hk]%lookup_delete_Some. eauto.
    - intros k p Hk. destruct (Hpr k p Hk) as (v1 & Hv1 & Hp). exists v1. split; [|done].
      rewrite lookup_delete_ne; [done|]. congruence. }
  intros w Hw. unfold dbcall, ext. specialize (Hd (bump w)). cbn [db bump] in *.
  destruct (fate (tick w)); destruct (Store.DeleteVM u (db w)); simpl in *; auto.
Qed.

#[global] Instance pres_DeleteVM u : Pres (inv None) (DeleteVM cfg u).
Proof.
  unfold DeleteVM, beginVMOperationCancelingColdArchive.
  do 2 (apply pres_bind; [apply _|intros ?]). apply pres_deferring; [|apply _]. intros w Hw.
  match goal with |- inv None (?m w).2 => cut (wp m (λ _, inv None) w); [done|] end.
  apply wp_bind_gets, wp_bind_run.
  - intros [] w1 E1. cut (gone u w1).
    + match goal with |- _ → wp ?m _ _ => assert (Pres (gone u) m) as Hm by apply _ end.
      intros Hg. apply (Hm w1 Hg).
    + case_bool_decide as Hr.
      * split; [exact (pres_run (inv None) _ _ _ _ E1 Hw)|]. by eapply StopVM_gone.
      * injection E1 as <-. split; [done|]. by apply eq_None_not_Some.
  - intros e w1 E1. case_bool_decide; [exact (pres_run (inv None) _ _ _ _ E1 Hw)|done].
Qed.

(** ** Statements the API server and the proxy issue themselves *)

#[global] Instance call_CreateRoute p : StoreCall (Store.CreateRoute p).
Proof.
  apply other_table_call; [apply CreateRoute_ok|]. intros s. unfold Store.CreateRoute.
  destruct (vm_name_taken _ _); [done|]. case_match; [done|]. by case_match.
Qed.
#[global] Instance call_DeleteRoute n : StoreCall (Store.DeleteRoute n).
Proof.
  apply other_table_call; [apply DeleteRoute_ok|]. intros s. unfold Store.DeleteRoute. by case_match.
Qed.
#[global] Instance call_Protect h : StoreCall (Store.ProtectRouteHostname h).
Proof. apply other_table_call; [|done]. intros s. apply set_protections_ok. Qed.
#[global] Instance call_Unprotect h : StoreCall (Store.UnprotectRouteHostname h).
Proof. apply other_table_call; [|done]. intros s. apply set_protections_ok. Qed.

Definition store_TouchVMActivity (u : string) : M World unit :=
  now ← db_now; dbcall (Store.TouchVMActivity now u).
#[global] Instance pres_TouchVMActivity u : Pres (inv None) (store_TouchVMActivity u).
Proof. intros w. apply pres_dbcall, update_call; [|done..]. intros s. apply TouchVMActivity_ok. Qed.

(** ** Every history *)

(** A Firecracker process ends on its own; the goroutine that waits for it
    cleans up. *)
Definition process_ends (u : string) : M World unit :=
  run ← gets running;
  match run !! u with
  | Some proc => kill proc ;; process_exited u
  | None => mret tt
  end.

(** The daemon is started anew: what it kept in memory is gone, and so are its
    child processes. *)
Definition restarted : M World unit :=
  modify (λ w, MkWorld (db w) (fs w) ∅ ∅ ∅ ∅ ∅ (taps w) (cgroups w) None (tick w)) ;;
  ReconcileStartup.

Inductive manager_step (w : World) : World → Prop :=
  | do_CreateVM p : manager_step w (CreateVM cfg p w).2
  | do_StartVM u : manager_step w (StartVM cfg vmsDir NetworkScript u w).2
  | do_RebootVM u : manager_step w (RebootVM cfg vmsDir NetworkScript u w).2
  | do_StopVM u : manager_step w (StopVM u w).2
  | do_SleepVM u : manager_step w (SleepVM cfg u w).2
  | do_UpdateVM u p : manager_step w (UpdateVM u p w).2
  | do_DeleteVM u : manager_step w (DeleteVM cfg u w).2
  | do_Archive u now : manager_step w (ArchiveStoppedVM cfg u now w).2
  | do_SaveSnapshot p : manager_step w (SaveSnapshot cfg p w).2
  | do_DeleteSnapshot n : manager_step w (DeleteSnapshot cfg n w).2
  | do_RestoreSnapshot n p : manager_step w (RestoreSnapshot cfg n p w).2
  | do_Report ip t r : manager_step w (RecordVMMemoryReportByPrivateIP ip t r w).2
  | do_SleepRunning : manager_step w (SleepRunningVMs cfg w).2
  | do_StartVMs l : manager_step w (StartVMs cfg vmsDir NetworkScript l w).2
  | do_Touch u : manager_step w (store_TouchVMActivity u w).2
  | do_CreateRoute p : manager_step w (dbcall (Store.CreateRoute p) w).2
  | do_DeleteRoute n : manager_step w (dbcall (Store.DeleteRoute n) w).2
  | do_Protect h : manager_step w (dbcall (Store.ProtectRouteHostname h) w).2
  | do_Unprotect h : manager_step w (dbcall (Store.UnprotectRouteHostname h) w).2
  | do_exit u : manager_step w (process_ends u w).2
  | do_restart : manager_step w (restarted w).2.

#[global] Instance pres_restarted : Pres (inv None) restarted.
Proof.
  apply pres_bind; [|apply _]. intros w [[Hst Hrow Hpr] _]. split; [|done]. by split.
Qed.
#[global] Instance pres_process_ends u : Pres (inv None) (process_ends u).
Proof. unfold process_ends. apply _. Qed.

(** ** No lock is held between operations *)

Definition unlocked (w : World) : Prop := locks w = (∅, ∅).

#[global] Instance unlocked_keeps {A} (m : M World A) : Keeps locks m → Pres unlocked m | 50.
Proof. intros Hk w. unfold unlocked. by rewrite (Hk w). Qed.

Lemma released_unlocked u l : released u (∅, ∅) l → l = (∅, ∅).
Proof. by intros [->|[? _]]. Qed.

#[global] Instance unlocked_StartVM u : Pres unlocked (StartVM cfg vmsDir NetworkScript u).
Proof.
  intros w Hw. pose proof (StartVM_released cfg vmsDir NetworkScript u w _ _ (surjective_pairing _)) as Hr.
  rewrite Hw in Hr. by apply released_unlocked in Hr.
Qed.
#[global] Instance unlocked_RebootVM u : Pres unlocked (RebootVM cfg vmsDir NetworkScript u).
Proof. unfold RebootVM. apply _. Qed.
#[global] Instance unlocked_DeleteVM u : Pres unlocked (DeleteVM cfg u).
Proof.
  intros w Hw. pose proof (DeleteVM_released cfg u w _ _ (surjective_pairing _)) as Hr.
  rewrite Hw in Hr. by apply released_unlocked in Hr.
Qed.
#[global] Instance unlocked_SaveSnapshot p : Pres unlocked (SaveSnapshot cfg p).
Proof.
  intros w Hw. destruct (SaveSnapshot_released cfg p w _ _ (surjective_pairing _)) as [E|[u Hr]].
  - unfold unlocked. by rewrite E.
  - rewrite Hw in Hr. by apply released_unlocked in Hr.
Qed.
#[global] Instance unlocked_Archive u now : Pres unlocked (ArchiveStoppedVM cfg u now).
Proof.
  intros w Hw. unfold unlocked. rewrite <-Hw. eapply ArchiveStoppedVM_released; [|apply surjective_pairing].
  unfold unlocked, locks in Hw. injection Hw as -> ->. done.
Qed.
#[global] Instance unlocked_CreateVM p : Pres unlocked (CreateVM cfg p).
Proof. unfold CreateVM. apply _. Qed.
#[global] Instance unlocked_RestoreSnapshot n p : Pres unlocked (RestoreSnapshot cfg n p).
Proof. unfold RestoreSnapshot. apply _. Qed.
#[global] Instance unlocked_UpdateVM u p : Pres unlocked (UpdateVM u p).
Proof.
  unfold UpdateVM. apply pres_bind; [destruct (u_DefaultHTTPPort p); apply _|intros _].
  apply pres_bind; [destruct (u_IdleSleepAfterSeconds p); apply _|intros _]. apply _.
Qed.
#[global] Instance unlocked_DeleteSnapshot n : Pres unlocked (DeleteSnapshot cfg n).
Proof. unfold DeleteSnapshot. apply _. Qed.
#[global] Instance unlocked_Record ip t r : Pres unlocked (RecordVMMemoryReportByPrivateIP ip t r).
Proof.
  unfold RecordVMMemoryReportByPrivateIP, setVMMemoryTarget. apply pres_bind; [apply _|intros vm].
  apply pres_bind; [apply _|intros a]. apply pres_bind; [apply _|intros _]. destruct t; [|apply _].
  cbv zeta. apply pres_bind; [apply _|intros run]. destruct (run !! _); [|apply _].
  apply pres_if; [apply _|]. apply pres_bind; [apply _|intros bits]. apply _.
Qed.
#[global] Instance unlocked_sleep_loop l : Pres unlocked (sleep_loop cfg l).
Proof. induction l as [|vm l IH]; cbn [sleep_loop]; apply _. Qed.
#[global] Instance unlocked_start_loop l : Pres unlocked (start_loop cfg vmsDir NetworkScript l).
Proof.
  induction l as [|vm l IH]; cbn [start_loop]; [apply _|]. apply pres_bind; [apply _|intros got].
  apply pres_bind; [|apply _]. apply _.
Qed.
#[global] Instance unlocked_join_errors l : Pres unlocked (join_errors l).
Proof. destruct l; apply _. Qed.
#[global] Instance unlocked_reconcile_loop l : Pres unlocked (reconcile_loop l).
Proof. induction l as [|vm l IH]; cbn [reconcile_loop]; apply _. Qed.
#[global] Instance unlocked_restarted : Pres unlocked restarted.
Proof. unfold restarted, ReconcileStartup. apply pres_bind; [|apply _]. by intros w. Qed.

Lemma manager_step_ok w w' : manager_step w w' → inv None w ∧ unlocked w → inv None w' ∧ unlocked w'.
Proof.
  intros [] [Hw Hl]; split; try (by apply (pres (I := inv None))).
  all: try (by apply (pres (I := unlocked))).
Qed.
End invariant.

(** C1.  Every history of the manager, under every pattern of failures: after
    any sequence of whole operations (with processes ending on their own, the
    daemon being restarted, and the API's and the proxy's own statements in
    between) the database invariant holds, every row has an accepted memory
    range and a non-negative idle time, every process in [running] belongs to a
    row and uses that row's socket and TAP device, and no lock is left held. *)
Theorem manager_reachable_sound
    `{FirecrackerVMM, Env, SparseSeek, GoUnicode, UuidLib, TimestampLaws}
    cfg vmsDir script w0 w :
  db w0 = empty_store → running w0 = ∅ → locks w0 = (∅, ∅) →
  rtc (manager_step cfg vmsDir script) w0 w →
  sound cfg (db w) (running w) ∧ locks w = (∅, ∅).
Proof.
  intros Hdb Hrun Hl Hsteps.
  assert (inv cfg None w0 ∧ unlocked w0) as Hw0.
  { split; [|done]. split; [|done]. rewrite Hdb, Hrun. split; [apply empty_store_ok|done..]. }
  cut (inv cfg None w ∧ unlocked w); [by intros [[? _] ?]|].
  clear Hdb Hrun Hl. revert Hw0. induction Hsteps as [|w1 w2 w3 Hs _ IH]; [done|]. intros Hw. apply IH.
  by eapply manager_step_ok.
Qed.

(** The example: create a VM on an empty host, twice (the second fails). *)
Definition image_world : @World toy_vmm :=
  set_fs (λ _, {[ "/var/lib/firedoze/images/rootfs.ext4" := File "root";
                  "/var/lib/firedoze/images/vmlinux.bin" := File "kernel" ]}) empty_world.

Definition web_params : CreateVMParams :=
  MkCreateVMParams "web" "" 0 0 0 0 0 0 "" "" "" false false true.

Definition create_web : @World toy_vmm → @World toy_vmm := λ w,
  (@CreateVM toy_vmm calm ascii_only uuid_shape decimal_stamps Default web_params w).2.

Lemma manager_reachable_sound_witness :
  let w := create_web (create_web image_world) in
  sound Default (db w) (running w) ∧ (vm_PrivateIP <$> vm_rows (db w)) = ["fd7a:115c:a1e0::3"].
Proof.
  split; [|vm_compute; reflexivity].
  apply (@manager_reachable_sound toy_vmm calm dense_seek ascii_only uuid_shape decimal_stamps
           decimal_stamps_laws Default None "" image_world); [reflexivity..|].
  eapply rtc_l; [apply do_CreateVM|]. apply rtc_once. apply do_CreateVM.
Defined.
