(* ===== verification/ManagerLifecycle.v ===== *)
(** * What the lifecycle operations achieve

    The state a successful operation leaves: started, stopped, asleep, awake
    again with the same guest, created, deleted, reconciled at start-up. *)

From S2P Require Import Prelude GoStrings Paths IPNet Json Types Store Config PrivateNet Memory.
From S2P Require Import World FileCopy Host Manager ManagerLocks ManagerDisk ManagerInvariant.
Open Scope Z_scope.

(** Pass over the next call of the successful run [E], which keeps [f]. *)
Ltac frame_step f E R :=
  let E1 := fresh "E1" in
  apply bind_Ok in E as (? & ? & E1 & E); pose proof (keeps_Ok f _ _ _ _ E1) as R; clear E1.

(** ** The files a resume leaves alone *)
Section resume_paths.
Context `{FirecrackerVMM, Env}.
Context (cfg : Config) (vmsDir : option string).

(** The files [resumeVM] writes before it loads the snapshot. *)
Definition resume_writes (name : string) : list string :=
  let l := layout_of cfg name in
  ["/proc/sys/net/ipv6/conf/all/forwarding"; "/proc/sys/net/ipv4/ip_forward";
   socketPath l; stdoutPath l; stderrPath l].

Section one_path.
Context (name p : string) (Hp : p ∉ resume_writes name).

Lemma no_write q : q ∈ resume_writes name → NoAt q (λ w, fs w !! p).
Proof using Hp. intros Hq. apply no_at_ne. by intros ->. Qed.

Ltac no_writes :=
  pose proof (no_write "/proc/sys/net/ipv6/conf/all/forwarding" ltac:(set_solver));
  pose proof (no_write "/proc/sys/net/ipv4/ip_forward" ltac:(set_solver));
  pose proof (no_write (socketPath (layout_of cfg name)) ltac:(set_solver));
  pose proof (no_write (stdoutPath (layout_of cfg name)) ltac:(set_solver));
  pose proof (no_write (stderrPath (layout_of cfg name)) ltac:(set_solver)).

Lemma prepareNetwork_path vm : Keeps (λ w, fs w !! p) (prepareNetwork cfg vm).
Proof using Hp.
  no_writes. unfold prepareNetwork, os_WriteFile. case_match; [apply _|].
  destruct (ParseIP _); [|apply _]. case_match; [apply _|]. destruct (decrementIP _); [|apply _].
  apply keeps_bind; [apply _|]. intros [a b]. apply _.
Qed.

Lemma open_append_path q : q ∈ resume_writes name → Keeps (λ w, fs w !! p) (open_append q).
Proof using Hp.
  intros Hq. apply keeps_ext; [apply _|]. intros w. pose proof (no_write q Hq) as Hn.
  destruct (fs w !! q) as [[]|]; try done. case_match; [|done]. exact (no_at_insert (λ w, fs w !! p) q (File "") w).
Qed.

Lemma launchProcess_path vm nd c :
  Keeps (λ w, fs w !! p) (launchProcess vmsDir vm (layout_of cfg name) nd c).
Proof using Hp.
  no_writes. unfold launchProcess.
  do 2 (apply keeps_bind; [apply open_append_path; set_solver|intros _]).
  apply keeps_bind; [destruct vmsDir; apply _|]. intros cg. apply keeps_bind.
  { apply keeps_attempt, keeps_ext; [apply _|]. intros w. cbn [modify snd].
    exact (no_at_insert (λ w, fs w !! p) _ _ (set_vmms _ w)). }
  intros []; [|apply _]. apply keeps_bind; [destruct vmsDir; apply _|]. intros; apply _.
Qed.
End one_path.
End resume_paths.

(** ** The paths of one VM *)
Section vm_paths.
Context (cfg : Config) (sd : list string) (name : string).
Context (Hsd : StateDir cfg = abs sd ∧ sd ≠ [] ∧ Forall good_part sd) (Hname : good_part name).

Lemma lay_abs (parts : list string) :
  Forall good_part parts → parts ≠ [] →
  path_Join (vmDir (layout_of cfg name) :: parts) = abs (sd ++ "vms" :: name :: parts) ∧
  Forall good_part (sd ++ "vms" :: name :: parts).
Proof using Hsd Hname.
  intros Hp Hne. destruct Hsd as (Hs & Hsne & Hgood).
  assert (Forall good_part ["vms"; name]) as Hvn
    by (apply Forall_cons_2; [by apply good_const|by apply Forall_cons_2]).
  assert (vmDir (layout_of cfg name) = abs (sd ++ ["vms"; name])) as ->
    by (simpl; rewrite Hs; by apply path_Join_abs).
  rewrite path_Join_abs; [|by destruct sd|by apply Forall_app|done].
  rewrite <-app_assoc. split; [done|]. apply Forall_app. split; [done|].
  by apply Forall_app with (l1 := ["vms"; name]).
Qed.

Definition vm_files : list (list string) := [
    sd ++ ["vms"; name; "sleep"; "vmstate"]; sd ++ ["vms"; name; "sleep"; "memory"];
    sd ++ ["vms"; name; "rootfs.ext4"]; ["proc"; "sys"; "net"; "ipv6"; "conf"; "all"; "forwarding"];
    ["proc"; "sys"; "net"; "ipv4"; "ip_forward"]; sd ++ ["vms"; name; "run"; "firecracker.sock"];
    sd ++ ["vms"; name; "run"; "stdout.log"]; sd ++ ["vms"; name; "run"; "stderr.log"]].

(** The files of a VM are different files, and not the kernel's. *)
Lemma vm_files_differ :
  let l := layout_of cfg name in
  NoDup ([sleepStatePath l; sleepMemPath l; diskPath l] ++ resume_writes cfg name).
Proof using Hsd Hname.
  cbv zeta.
  assert (∀ d f, good_part d → good_part f →
    path_Join [path_Join [vmDir (layout_of cfg name); d]; f] = abs (sd ++ ["vms"; name; d; f])
    ∧ Forall good_part (sd ++ ["vms"; name; d; f])) as H2.
  { intros d f Hd Hf. destruct (lay_abs [d]) as [E1 G1]; [by apply Forall_cons_2|done|].
    destruct (lay_abs [d; f]) as [_ G2]; [by repeat apply Forall_cons_2|done|]. split; [|done].
    rewrite E1. rewrite path_Join_abs; [|by destruct sd|done|by apply Forall_cons_2].
    by rewrite <-app_assoc. }
  destruct (H2 "sleep" "vmstate") as [E1 G1]; [by apply good_const..|].
  destruct (H2 "sleep" "memory") as [E2 G2]; [by apply good_const..|].
  destruct (lay_abs ["rootfs.ext4"]) as [E3 G3]; [by apply Forall_cons_2; [apply good_const|]|done|].
  destruct (H2 "run" "firecracker.sock") as [E4 G4]; [by apply good_const..|].
  destruct (H2 "run" "stdout.log") as [E5 G5]; [by apply good_const..|].
  destruct (H2 "run" "stderr.log") as [E6 G6]; [by apply good_const..|].
  unfold resume_writes. cbv zeta. cbn [layout_of sleepStatePath sleepMemPath diskPath socketPath stdoutPath stderrPath].
  cbn [layout_of vmDir] in E1, E2, E3, E4, E5, E6. rewrite E1, E2, E3, E4, E5, E6.
  change "/proc/sys/net/ipv6/conf/all/forwarding" with (abs ["proc"; "sys"; "net"; "ipv6"; "conf"; "all"; "forwarding"]).
  change "/proc/sys/net/ipv4/ip_forward" with (abs ["proc"; "sys"; "net"; "ipv4"; "ip_forward"]).
  assert (∀ a b c d, last (sd ++ [a; b; c; d]) = Some d) as L4
    by (intros a b c d; change [a; b; c; d] with ([a; b; c] ++ [d]); rewrite app_assoc; apply last_snoc).
  assert (∀ a b c, last (sd ++ [a; b; c]) = Some c) as L3
    by (intros a b c; change [a; b; c] with ([a; b] ++ [c]); rewrite app_assoc; apply last_snoc).
  match goal with |- NoDup ?l => change l with (abs <$> vm_files) end.
  apply NoDup_fmap_2_strong.
  - assert (∀ l, l ∈ vm_files →
      l ≠ [] ∧ Forall good_part l) as Hall.
    { apply Forall_forall. repeat apply Forall_cons_2; try apply Forall_nil_2;
        (split; [by destruct sd|]); try done;
        repeat (apply Forall_cons_2; [by apply good_const|]); apply Forall_nil_2. }
    intros l1 l2 [? ?]%Hall [? ?]%Hall. by apply abs_inj.
  - apply (NoDup_fmap_1 last). simpl. rewrite !L4, L3. apply (bool_decide_unpack _). vm_compute. exact I.
Qed.
End vm_paths.

Section lifecycle.
Context `{FirecrackerVMM, Env, SparseSeek, GoUnicode, UuidLib, TimestampLaws}.
Context (cfg : Config) (vmsDir : option string) (NetworkScript : string).

Lemma deferring_Ok {A} (m : M World A) d w a w' :
  deferring m d w = (Ok a, w') → ∃ w1, m w = (Ok a, w1) ∧ w' = (d w1).2.
Proof. unfold deferring. destruct (m w) as [r w1]. intros [= -> <-]. eauto. Qed.

Lemma GetVM_Ok u w vm w' :
  dbcall (Store.GetVM u) w = (Ok vm, w') → row u w = Some vm ∧ w' = bump w.
Proof.
  intros E%ext_Ok. unfold Store.GetVM, row in *. cbn [db bump] in E.
  destruct (vms (db w) !! u); [|done]. by injection E as <- <-.
Qed.

Lemma SetVMState_Ok u st w w' :
  store_SetVMState u st w = (Ok tt, w') →
  ∃ vm now, row u w = Some vm ∧ row u w' = Some (with_state now st vm).
Proof.
  intros E. unfold store_SetVMState in E. apply bind_Ok in E as (now & w1 & E1 & E).
  injection E1 as _ <-. apply ext_Ok in E. unfold Store.SetVMState, update_vm, row in *.
  cbn [db bump] in E. destruct (vms (db w) !! u) as [vm|]; [|done]. injection E as <-.
  exists vm, now. simpl. by rewrite lookup_insert_eq.
Qed.

(** The end of every operation that returns the row it has just set. *)
Lemma set_then_get u st w vm w' :
  (store_SetVMState u st ;; dbcall (Store.GetVM u)) w = (Ok vm, w') →
  row u w' = Some vm ∧ vm_State vm = st ∧
  ∃ vm0 now, row u w = Some vm0 ∧ vm = with_state now st vm0.
Proof.
  intros E. apply bind_Ok in E as ([] & w1 & E1 & E). apply GetVM_Ok in E as [Hr ->].
  apply SetVMState_Ok in E1 as (vm0 & now & Hr0 & Hr1). rewrite Hr1 in Hr. injection Hr as <-.
  split; [exact Hr1|]. split; [done|]. eauto.
Qed.

(** ** Launching *)

Lemma launchProcess_Ok vm l nd c w proc w' :
  launchProcess vmsDir vm l nd c w = (Ok proc, w') →
  running w' = <[vm_UUID vm := proc]> (running w) ∧ pr_UUID proc = vm_UUID vm ∧
  pr_SocketPath proc = socketPath l ∧
  (∃ text, vmms w' !! socketPath l = Some (fc_start text) ∧ (c = None → text = None)) ∧
  db w' = db w.
Proof.
  unfold launchProcess. intros E.
  apply bind_Ok in E as ([] & w1 & E1 & E). apply bind_Ok in E as ([] & w2 & E2 & E).
  apply bind_Ok in E as (cg & w3 & E3 & E). apply bind_Ok in E as (st & w4 & E4%attempt_Ok & E).
  destruct st as [[]|e].
  2: { apply bind_Ok in E as (? & ? & _ & E). done. }
  apply bind_Ok in E as (cg' & w5 & E5 & E). apply bind_Ok in E as ([] & w6 & E6 & E).
  injection E as <- <-. injection E6 as <-.
  assert (∀ B (f : World → B), NoTick f → NoCgroups f →
          Keeps f (match vmsDir with
               | None => mret ""
               | Some d => r ← attempt (cgroup_PrepareVM d (vm_UUID vm));
                           mret (match r with Ok p => p | Err _ => "" end)
               end)) as K3 by (intros; destruct vmsDir; apply _).
  assert (∀ B (f : World → B), NoTick f → NoCgroups f →
          Keeps f (match vmsDir with
                   | Some d => if is_empty cg
                               then r ← attempt (cgroup_AttachVM d (vm_UUID vm));
                                    mret (match r with Ok p => p | Err _ => "" end)
                               else mret cg
                   | None => mret cg
                   end)) as K5 by (intros; destruct vmsDir; apply _).
  pose proof (K3 _ running _ _) as K3r. pose proof (K3 _ db _ _) as K3d.
  pose proof (K5 _ running _ _) as K5r. pose proof (K5 _ db _ _) as K5d. pose proof (K5 _ vmms _ _) as K5v.
  pose proof (keeps_Ok running _ _ _ _ E1) as R1. pose proof (keeps_Ok running _ _ _ _ E2) as R2.
  pose proof (keeps_Ok running _ _ _ _ E3) as R3. pose proof (keeps_Ok running _ _ _ _ E5) as R5.
  pose proof (keeps_Ok db _ _ _ _ E1) as D1. pose proof (keeps_Ok db _ _ _ _ E2) as D2.
  pose proof (keeps_Ok db _ _ _ _ E3) as D3. pose proof (keeps_Ok db _ _ _ _ E5) as D5.
  pose proof (keeps_Ok vmms _ _ _ _ E5) as V5. clear E1 E2 E3 E5 K3 K5 K3r K3d K5r K5d K5v.
  apply ext_Ok in E4. injection E4 as <-. simpl in *.
  split_and!; [congruence|done|done| |congruence].
  rewrite V5, lookup_insert_eq. eexists. split; [done|]. by intros ->.
Qed.

(** ** Admission *)

Lemma begin_start_Ok fuel u w w' : begin_loop fuel true u w = (Ok tt, w') → running w !! u = None.
Proof.
  intros E. destruct fuel as [|fuel]; cbn [begin_loop] in E;
    apply bind_Ok in E as ([] & w1 & E1 & E);
    apply bind_Ok in E as (run & w2 & E2 & E); injection E2 as <- <-;
    pose proof (keeps_Ok running _ _ _ _ E1) as Hr; rewrite <-Hr;
    (destruct (bool_decide (is_Some (running w1 !! u))) eqn:Hb; [done|];
     by apply bool_decide_eq_false, eq_None_not_Some in Hb).
Qed.

(** ** Starting *)

(** [vm] has been brought up between [w] and [w']. *)
Definition brought_up (vm vm' : VM) (w w' : World) : Prop :=
  row (vm_UUID vm) w' = Some vm' ∧ vm_State vm' = "running" ∧
  ∃ proc, running w' = <[vm_UUID vm := proc]> (running w) ∧
    pr_SocketPath proc = socketPath (layout_of cfg (vm_Name vm)) ∧
    is_Some (vmms w' !! pr_SocketPath proc).

Lemma api_vmms {A} sock (f : vmm → result (A * vmm)) w r w' s :
  api sock f w = (r, w') → is_Some (vmms w !! s) → is_Some (vmms w' !! s).
Proof.
  intros E Hs. apply ext_inv in E as [[-> _]|(r0 & E & _)]; [done|]. cbn [vmms bump] in E.
  destruct (vmms w !! sock) as [v|]; [|by injection E as _ <-].
  destruct (f v) as [[a v']|]; injection E as _ <-; [|done]. simpl. rewrite lookup_insert_is_Some.
  destruct (decide (sock = s)); auto.
Qed.

Lemma boot_Ok vm mem w vm' w' :
  boot cfg vmsDir NetworkScript vm mem w = (Ok vm', w') → brought_up vm vm' w w'.
Proof.
  unfold boot. cbv zeta. intros E.
  frame_step running E R1. frame_step running E R2. frame_step running E R3.
  frame_step running E R4. frame_step running E R5. frame_step running E R6.
  frame_step running E R7. frame_step running E R8. frame_step running E R9.
  apply bind_Ok in E as (proc & w10 & E10 & E).
  apply launchProcess_Ok in E10 as (Hrun & _ & Hsock & (text & Hv & _) & _).
  apply bind_Ok in E as (up & w11 & E11%attempt_Ok & E).
  destruct up as [[]|e]; [|apply bind_Ok in E as (? & ? & _ & E); done].
  pose proof (keeps_Ok running _ _ _ _ E11) as R11. pose proof (keeps_Ok vmms _ _ _ _ E11) as V11.
  pose proof (keeps_Ok running _ _ _ _ E) as R12. pose proof (keeps_Ok vmms _ _ _ _ E) as V12.
  apply set_then_get in E as (Hrow & Hst & _). split; [done|]. split; [done|].
  exists proc. rewrite R12, R11, Hrun, V12, V11, Hsock, Hv. split_and!; [|done|done]. congruence.
Qed.

(** ** Resuming *)


Lemma read_whole p w c w' : open_read p w = (Ok c, w') → fs w !! p = Some (File c) ∧ w' = bump w.
Proof.
  intros E%ext_Ok. cbn [fs bump] in E. destruct (fs w !! p) as [[]|]; [done| |done].
  by injection E as <- <-.
Qed.

Lemma api_Ok {A} sock (f : vmm → result (A * vmm)) w a w' :
  api sock f w = (Ok a, w') →
  ∃ v v', vmms w !! sock = Some v ∧ f v = Ok (a, v') ∧ w' = set_vmms <[sock := v']> (bump w).
Proof.
  intros E%ext_Ok. cbn [vmms bump] in E. destruct (vmms w !! sock) as [v|]; [|done].
  destruct (f v) as [[a' v']|] eqn:Ef; [|done]. injection E as <- <-. by exists v, v'.
Qed.

(** A resume that succeeds has loaded the two files, as they were in [wl],
    into a new process. *)
Lemma resumeVM_up vm w vm' w' :
  let l := layout_of cfg (vm_Name vm) in
  resumeVM cfg vmsDir vm w = (Ok vm', w') →
  brought_up vm vm' w w' ∧
  ∃ wl s m v, fs wl !! sleepStatePath l = Some (File s) ∧ fs wl !! sleepMemPath l = Some (File m) ∧
    fc_load_snapshot s m (fc_start None) = Ok v ∧ vmms w' !! socketPath l = Some v ∧
    ∀ p n, (p ∉ resume_writes cfg (vm_Name vm)) → fs w !! p = Some n →
      fs wl !! p = Some n ∧ fs w' !! p = Some n.
Proof.
  intros l E. unfold resumeVM in E. cbv zeta in E. fold l in E.
  apply bind_Ok in E as (a1 & w1 & E1 & E). apply bind_Ok in E as (a2 & w2 & E2 & E).
  apply bind_Ok in E as ([] & w3 & E3 & E). apply bind_Ok in E as (nd & w4 & E4 & E).
  apply bind_Ok in E as (rm & w5 & E5 & E).
  apply bind_Ok in E as (lp & w6 & E6%attempt_Ok & E).
  destruct lp as [proc|e]; [|apply bind_Ok in E as (? & ? & _ & E); done].
  apply bind_Ok in E as (up & w7 & E7%attempt_Ok & E).
  destruct up as [[]|e]; [|apply bind_Ok in E as (? & ? & _ & E); done].
  assert (∀ p n, (p ∉ resume_writes cfg (vm_Name vm)) → fs w !! p = Some n → fs w6 !! p = Some n) as Hkeep.
  { intros p n Hp Hn. 
    rewrite <-(keeps_Ok fs _ _ _ _ E1), <-(keeps_Ok fs _ _ _ _ E2) in Hn.
    apply (os_MkdirAll_some _ _ _ _ _ _ Hn) in E3.
    pose proof (prepareNetwork_path cfg _ p Hp vm) as K4. pose proof (launchProcess_path cfg vmsDir _ p Hp vm nd None) as K6.
    pose proof (no_write cfg _ p Hp (socketPath l) ltac:(unfold l; set_solver)) as Kn.
    rewrite (keeps_Ok (λ w, fs w !! p) _ _ _ _ E6), (keeps_Ok (λ w, fs w !! p) _ _ _ _ E5).
    by rewrite (keeps_Ok (λ w, fs w !! p) _ _ _ _ E4). }
  pose proof (keeps_Ok fs _ _ _ _ E7) as F7.
  apply launchProcess_Ok in E6 as (Hrun & _ & Hsock & (text & Hv & Htext) & _).
  rewrite (Htext eq_refl) in Hv. clear text Htext.
  apply bind_Ok in E7 as ([] & w8 & E8 & E7). unfold firecrackerLoadSnapshot in E7.
  apply bind_Ok in E7 as (s & w9 & (Hs & ->)%read_whole & E7).
  apply bind_Ok in E7 as (m & w10 & (Hm & ->)%read_whole & E7).
  apply api_Ok in E7 as (v & v' & Hv1 & Hf & ->). cbn [fs bump vmms] in *.
  rewrite (keeps_Ok fs _ _ _ _ E8) in Hs, Hm. rewrite (keeps_Ok vmms _ _ _ _ E8) in Hv1.
  assert (v = fc_start None) as -> by (fold l in Hv; congruence).
  destruct (fc_load_snapshot s m (fc_start None)) as [v2|] eqn:Hload; [|done]. injection Hf as <-.
  pose proof (keeps_Ok running _ _ _ _ E) as R. pose proof (keeps_Ok vmms _ _ _ _ E) as V.
  pose proof (keeps_Ok fs _ _ _ _ E) as F.
  apply set_then_get in E as (Hrow & Hst & _). cbn [vmms set_vmms running bump fs] in V, R, F, F7.
  assert (vmms w' !! socketPath l = Some v2) as Hend by (rewrite V; apply lookup_insert_eq).
  split.
  - split; [done|]. split; [done|]. exists proc.
    rewrite R, (keeps_Ok running _ _ _ _ E8), Hrun, Hsock. fold l. rewrite Hend.
    split_and!; [|done|done].
    rewrite (keeps_Ok running _ _ _ _ E5), (keeps_Ok running _ _ _ _ E4), (keeps_Ok running _ _ _ _ E3).
    by rewrite (keeps_Ok running _ _ _ _ E2), (keeps_Ok running _ _ _ _ E1).
  - exists w6, s, m, v2. split_and!; try done. intros p n Hp Hn. apply (Hkeep p n Hp) in Hn.
    split; [done|]. by rewrite F, F7.
Qed.

(** ** StartVM *)

Lemma visible_eq w w' : visible w' = visible w →
  db w' = db w ∧ fs w' = fs w ∧ running w' = running w ∧ vmms w' = vmms w.
Proof. by intros [= -> -> -> -> _]. Qed.

(** A start that succeeds went through one of the two branches. *)
Lemma StartVM_branches u w vm' w' :
  StartVM cfg vmsDir NetworkScript u w = (Ok vm', w') →
  running w !! u = None ∧ ∃ vm w1 w2, row u w = Some vm ∧
    (db w1, fs w1, running w1) = (db w, fs w, running w) ∧
    (db w', fs w', running w', vmms w') = (db w2, fs w2, running w2, vmms w2) ∧
    if bool_decide (vm_State vm = "sleeping") then resumeVM cfg vmsDir vm w1 = (Ok vm', w2)
    else ∃ mem, boot cfg vmsDir NetworkScript vm mem w1 = (Ok vm', w2).
Proof.
  unfold StartVM, beginStartOperationCancelingColdArchive. intros E.
  apply bind_Ok in E as ([] & w1 & E1 & E). split; [by eapply begin_start_Ok|].
  apply begin_loop_spec in E1 as [(Hd1 & Hf1 & Hr1 & _)%visible_eq _].
  apply deferring_Ok in E as (w2 & E & ->).
  apply bind_Ok in E as (vm & w3 & (Hrow & ->)%GetVM_Ok & E).
  apply bind_Ok in E as (bits & w4 & E4 & E). apply bind_Ok in E as (mem & w5 & E5 & E).
  injection E5 as _ <-. assert (Keeps (λ w, (db w, fs w, running w)) host_bits) as K
    by (unfold host_bits; apply _).
  pose proof (keeps_Ok (λ w, (db w, fs w, running w)) _ _ _ _ E4) as K4. cbn [db fs running bump] in K4.
  exists vm, w4, w2. split; [unfold row in *; congruence|]. split; [congruence|]. split; [done|].
  case_bool_decide; eauto.
Qed.

Lemma StartVM_up u w vm' w' :
  sound cfg (db w) (running w) → StartVM cfg vmsDir NetworkScript u w = (Ok vm', w') →
  running w !! u = None ∧ vms (db w') !! u = Some vm' ∧ vm_State vm' = "running" ∧
  ∃ proc, running w' = <[u := proc]> (running w) ∧ proc_of cfg vm' proc ∧
    is_Some (vmms w' !! pr_SocketPath proc).
Proof.
  intros Hs E. assert (inv cfg None w') as [Hs' _] by exact (pres_run (inv cfg None) _ _ _ _ E (conj Hs I)).
  apply StartVM_branches in E as (Hno & vm & w1 & w2 & Hrow & E1 & E2 & E). split; [done|].
  injection E1 as Hd1 Hf1 Hr1. injection E2 as Hd2 Hf2 Hr2 Hv2.
  assert (vm_UUID vm = u) as Hu by by apply (ok_uuid _ (so_store _ _ _ Hs)).
  assert (brought_up vm vm' w1 w2) as (Hrow2 & Hst & proc & Hrun & Hsock & Hv).
  { case_bool_decide; [by apply resumeVM_up in E as [? _]|]. destruct E as [mem E]. by eapply boot_Ok. }
  unfold row in Hrow2. rewrite Hu, <-Hd2 in Hrow2. split; [done|]. split; [done|].
  exists proc. rewrite Hr2, Hrun, Hu, Hr1, Hv2. split; [done|]. split; [|done].
  destruct (so_proc _ _ _ Hs' u proc) as (v & Hv' & Hp); [by rewrite Hr2, Hrun, Hu, lookup_insert_eq|].
  congruence.
Qed.

(** C16.  A start that succeeds: the VM was not running before; afterwards its
    row says so and is what the call returns, its process is the one new entry
    of [running], it uses the VM's own socket and TAP device, and behind the
    socket there is a live VMM. *)
Theorem StartVM_running u w vm' w' :
  sound cfg (db w) (running w) → StartVM cfg vmsDir NetworkScript u w = (Ok vm', w') →
  running w !! u = None ∧ vms (db w') !! u = Some vm' ∧ vm_State vm' = "running" ∧
  ∃ proc, running w' = <[u := proc]> (running w) ∧ proc_of cfg vm' proc ∧
    is_Some (vmms w' !! pr_SocketPath proc).
Proof. apply StartVM_up. Qed.

(** ** Stopping a process *)

Definition dead (sock : string) (w : World) : Prop := vmms w !! sock = None.

#[local] Instance pres_dead_keeps {A} sock (m : M World A) : Keeps vmms m → Pres (dead sock) m | 50.
Proof. intros Hk w. unfold dead. by rewrite (Hk w). Qed.
#[local] Instance pres_dead_kill sock p : Pres (dead sock) (kill p).
Proof. intros w Hw. unfold dead. simpl. by apply lookup_delete_None; right. Qed.
#[local] Instance pres_dead_ext {A} sock (m : M World A) : Pres (dead sock) m → Pres (dead sock) (ext m).
Proof. intros Hm w Hw. unfold ext. destruct (fate (tick w)); simpl; by try apply Hm. Qed.

Section stopping.
Context (u name p : string) (x : option node) (Hp : p ≠ socketPath (layout_of cfg name)).

(** The VM is in focus and the file [p] is [x]. *)
Definition at_file (w : World) : Prop := inv cfg (Some (u, name)) w ∧ fs w !! p = x.

#[local] Instance pres_at_keeps {A} (m : M World A) :
  Pres (inv cfg (Some (u, name))) m → Keeps (λ w, fs w !! p) m → Pres at_file m | 50.
Proof. intros Hm Hk w [Hw Hx]. split; [by apply Hm|]. by rewrite (Hk w). Qed.
#[local] Instance pres_at_ext {A} (m : M World A) : Pres at_file m → Pres at_file (ext m).
Proof. intros Hm w Hw. unfold ext. destruct (fate (tick w)); simpl; by try apply Hm. Qed.

Lemma cleanup_at proc :
  pr_SocketPath proc = socketPath (layout_of cfg name) → Keeps (λ w, fs w !! p) (cleanupAfterExit proc).
Proof.
  intros Hs. assert (NoAt (pr_SocketPath proc) (λ w, fs w !! p)) as Hn by (apply no_at_ne; congruence).
  unfold cleanupAfterExit, cleanupNetwork. apply _.
Qed.

Lemma process_exited_at : Pres at_file (process_exited u).
Proof.
  intros w Hw. unfold process_exited. unfold mbind at 1, M_mbind at 1, gets at 1.
  destruct (running w !! u) as [proc|] eqn:Hr; [|done]. cbv zeta.
  destruct Hw as [Hi Hx]. pose proof Hi as [Hs (vm & Hvm & Hn)].
  destruct (so_proc _ _ _ Hs u proc Hr) as (vm1 & Hvm1 & _ & _ & Hsock & _).
  assert (vm1 = vm) as -> by congruence. rewrite Hn in Hsock. pose proof (cleanup_at proc Hsock) as Hk.
  match goal with |- at_file (?m w).2 => assert (Pres at_file m) as Hm by apply _ end.
  by apply Hm.
Qed.

Lemma stopProcess_Ok proc st w w' :
  at_file w → running w !! u = Some proc → stopProcess proc st w = (Ok tt, w') →
  running w' !! u = None ∧ vmms w' !! pr_SocketPath proc = None ∧ fs w' !! p = x.
Proof.
  intros Hw Hr E. pose proof Hw as [[Hs (vm & Hvm & Hn)] Hx].
  destruct (so_proc _ _ _ Hs u proc Hr) as (vm1 & Hvm1 & Hu & _ & Hsock & _).
  assert (vm1 = vm) as -> by congruence. rewrite Hn in Hsock.
  rewrite (ok_uuid _ (so_store _ _ _ Hs) _ _ Hvm) in Hu.
  pose proof (cleanup_at proc Hsock) as Hk. pose proof process_exited_at as Hpe.
  unfold stopProcess in E. apply bind_Ok in E as ([] & w1 & E1 & E).
  assert (at_file w1) as Hw1 by exact (pres_run at_file _ _ _ _ E1 Hw).
  apply bind_Ok in E as ([] & w2 & E2 & E).
  assert (at_file w2) as Hw2 by exact (pres_run at_file _ _ _ _ E2 Hw1).
  assert (dead (pr_SocketPath proc) w2) as Hd2 by (injection E2 as <-; apply lookup_delete_eq).
  apply bind_Ok in E as ([] & w3 & E3 & E). unfold dead in *. rewrite Hu in *.
  assert (Pres at_file (waitForProcessExit proc)) as Hwait.
  { unfold waitForProcessExit. rewrite Hu. apply _. }
  assert (Pres (dead (pr_SocketPath proc)) (waitForProcessExit proc)) as Hwd.
  { unfold waitForProcessExit, process_exited. apply pres_bind; [apply _|intros run]. apply _. }
  pose proof (pres_run _ _ _ _ _ E3 Hw2) as [_ Hx3]. pose proof (pres_run _ _ _ _ _ E3 Hd2) as Hd3.
  apply waitForProcessExit_gone in E3. rewrite Hu in E3.
  rewrite (keeps_Ok running _ _ _ _ E), (keeps_Ok (λ w, fs w !! p) _ _ _ _ E).
  split; [done|]. split; [|done]. exact (pres_run (dead (pr_SocketPath proc)) _ _ _ _ E Hd3).
Qed.
End stopping.

(** ** Sleeping *)

Lemma resized_0 c : resized 0 c = "".
Proof. by destruct c. Qed.

Lemma os_WriteFile_Ok p data w w' : os_WriteFile p data w = (Ok tt, w') → fs w' !! p = Some (File data).
Proof.
  unfold os_WriteFile. intros E. apply bind_Ok in E as ([] & w1 & E1 & E).
  assert (fs w1 !! p = Some (File "")) as Hw1.
  { apply ext_Ok in E1. cbn [fs bump] in E1. destruct (fs w !! p) as [[]|]; [done| |].
    - injection E1 as <-. apply lookup_insert_eq.
    - destruct (parent_ok _ _); [|done]. injection E1 as <-. apply lookup_insert_eq. }
  apply ext_Ok in E. cbn [fs bump] in E. rewrite Hw1 in E. injection E as <-.
  cbn [fs set_fs bump]. rewrite lookup_insert_eq. do 2 f_equal. unfold spliced. rewrite resized_0.
  assert (str_drop (0 + String.length data) "" = "") as -> by by destruct (0 + String.length data)%nat.
  by rewrite str_app_nil_r.
Qed.

Lemma sleep_paths sd name :
  StateDir cfg = abs sd ∧ sd ≠ [] ∧ Forall good_part sd → good_part name →
  let l := layout_of cfg name in
  sleepStatePath l ≠ sleepMemPath l ∧ sleepStatePath l ≠ socketPath l ∧ sleepMemPath l ≠ socketPath l ∧
  diskPath l ≠ sleepStatePath l ∧ diskPath l ≠ sleepMemPath l ∧ diskPath l ≠ socketPath l.
Proof.
  intros Hsd Hname. pose proof (vm_files_differ cfg sd name Hsd Hname) as Hnd. cbv zeta in *.
  unfold resume_writes in Hnd. cbv zeta in Hnd. cbn [app] in Hnd.
  rewrite !NoDup_cons, !not_elem_of_cons in Hnd. intuition congruence.
Qed.

Lemma untouched_paths sd name :
  StateDir cfg = abs sd ∧ sd ≠ [] ∧ Forall good_part sd → good_part name →
  let l := layout_of cfg name in
  (sleepStatePath l ∉ resume_writes cfg name) ∧ (sleepMemPath l ∉ resume_writes cfg name) ∧
  (diskPath l ∉ resume_writes cfg name).
Proof.
  intros Hsd Hname. pose proof (vm_files_differ cfg sd name Hsd Hname) as Hnd. cbv zeta in *.
  apply NoDup_app in Hnd as (_ & Hnd & _). split_and!; apply Hnd; rewrite !elem_of_cons; auto.
Qed.

(** A sleep that succeeds has paused the guest, written its snapshot to the two
    files, and ended the process. *)
Lemma SleepVM_slept sd u w proc vm' w' :
  let sp name := sleepStatePath (layout_of cfg name) in
  let mp name := sleepMemPath (layout_of cfg name) in
  StateDir cfg = abs sd ∧ sd ≠ [] ∧ Forall good_part sd →
  inv cfg None w → running w !! u = Some proc → good_part (pr_Name proc) →
  SleepVM cfg u w = (Ok vm', w') →
  row u w' = Some vm' ∧ vm_State vm' = "sleeping" ∧ running w' !! u = None ∧
  vmms w' !! pr_SocketPath proc = None ∧
  ∃ v v1 s m, vmms w !! pr_SocketPath proc = Some v ∧ fc_set_state "Paused" v = Ok v1 ∧
    fc_create_snapshot v1 = Ok (s, m) ∧
    fs w' !! sp (vm_Name vm') = Some (File s) ∧ fs w' !! mp (vm_Name vm') = Some (File m) ∧
    vm_Name vm' = pr_Name proc ∧
    ∀ n, fs w !! diskPath (layout_of cfg (vm_Name vm')) = Some n →
      fs w' !! diskPath (layout_of cfg (vm_Name vm')) = Some n.
Proof.
  intros sp mp Hsd Hw Hr Hgood E. unfold SleepVM in E.
  apply bind_Ok in E as (vm & w1 & (Hrow & ->)%GetVM_Ok & E).
  apply bind_Ok in E as (run & w2 & E2 & E). injection E2 as <- <-. cbn [running bump] in E.
  rewrite Hr in E. cbv zeta in E. set (l := layout_of cfg (vm_Name vm)) in *.
  apply bind_Ok in E as ([] & w2 & E2 & E). apply bind_Ok in E as ([] & w3 & E3 & E).
  apply bind_Ok in E as (cr & w4 & E4%attempt_Ok & E).
  destruct cr as [[]|e]; [|apply bind_Ok in E as (? & ? & _ & E); done].
  assert (inv cfg (Some (u, vm_Name vm)) (bump w)) as Hw1.
  { destruct Hw as [Hs _]. split; [exact Hs|]. by exists vm. }
  pose proof (pres_run _ _ _ _ _ E2 Hw1) as Hw2. pose proof (pres_run _ _ _ _ _ E3 Hw2) as Hw3.
  pose proof (pres_run _ _ _ _ _ E4 Hw3) as Hw4.
  assert (running w4 !! u = Some proc) as Hr4.
  { by rewrite (keeps_Ok running _ _ _ _ E4), (keeps_Ok running _ _ _ _ E3), (keeps_Ok running _ _ _ _ E2). }
  unfold firecrackerSetVMState in E3. apply api_Ok in E3 as (v & v1 & Hv & Hf3 & ->).
  rewrite (keeps_Ok vmms _ _ _ _ E2) in Hv. cbn [vmms bump] in Hv.
  destruct (fc_set_state "Paused" v) as [v1'|] eqn:Hpause; [|done]. injection Hf3 as ->.
  unfold firecrackerCreateSnapshot in E4. apply bind_Ok in E4 as ([s m] & w5 & E5 & E4).
  apply api_Ok in E5 as (v2 & v3 & Hv2 & Hf5 & ->). cbn [vmms set_vmms] in Hv2.
  rewrite lookup_insert_eq in Hv2. injection Hv2 as <-.
  destruct (fc_create_snapshot v1) as [[s' m']|] eqn:Hsnap; [|done]. injection Hf5 as -> -> _.
  apply bind_Ok in E4 as ([] & w6 & E6 & E7). simpl in E6, E7.
  destruct (so_proc _ _ _ (proj1 Hw) u proc Hr) as (vm0 & Hvm0 & _ & Hname & Hsock & _).
  assert (vm0 = vm) as -> by (unfold row in Hrow; congruence). rewrite Hname in Hgood.
  destruct (sleep_paths sd (vm_Name vm) Hsd Hgood) as (Hsm & Hss & Hms & Hd1 & Hd2 & Hd3).
  fold l in Hsm, Hss, Hms, Hd1, Hd2, Hd3.
  assert (∀ n, fs w !! diskPath l = Some n → fs w4 !! diskPath l = Some n) as Hdisk4.
  { intros n Hn. assert (NoAt (sleepMemPath l) (λ w, fs w !! diskPath l)) as A1 by by apply no_at_ne.
    assert (NoAt (sleepStatePath l) (λ w, fs w !! diskPath l)) as A2 by by apply no_at_ne.
    assert (Keeps (λ w, fs w !! diskPath l) (os_WriteFile (sleepMemPath l) m)) as K1
      by (unfold os_WriteFile; apply _).
    assert (Keeps (λ w, fs w !! diskPath l) (os_WriteFile (sleepStatePath l) s)) as K2
      by (unfold os_WriteFile; apply _).
    rewrite (keeps_Ok (λ w, fs w !! diskPath l) _ _ _ _ E7), (keeps_Ok (λ w, fs w !! diskPath l) _ _ _ _ E6).
    exact (os_MkdirAll_some _ (bump w) _ _ (diskPath l) _ Hn E2). }
  assert (NoAt (sleepMemPath l) (λ w, fs w !! sleepStatePath l)) as Hat by by apply no_at_ne.
  assert (Keeps (λ w, fs w !! sleepStatePath l) (os_WriteFile (sleepMemPath l) m)) as Kw
    by (unfold os_WriteFile; apply _).
  apply os_WriteFile_Ok in E6. rewrite <-(keeps_Ok (λ w, fs w !! sleepStatePath l) _ _ _ _ E7) in E6.
  apply os_WriteFile_Ok in E7.
  apply bind_Ok in E as ([] & w7 & E8 & E).
  destruct (stopProcess_Ok u (vm_Name vm) (sleepStatePath l) _ Hss proc _ _ _ (conj Hw4 E6) Hr4 E8)
    as (Hgone & Hdead & Hstate).
  destruct (stopProcess_Ok u (vm_Name vm) (sleepMemPath l) _ Hms proc _ _ _ (conj Hw4 E7) Hr4 E8)
    as (_ & _ & Hmem).
  assert (∀ n, fs w !! diskPath l = Some n → fs w7 !! diskPath l = Some n) as Hdisk7.
  { intros n Hn%Hdisk4.
    apply (stopProcess_Ok u (vm_Name vm) (diskPath l) _ Hd3 proc _ _ _ (conj Hw4 Hn) Hr4 E8). }
  pose proof (pres_run _ _ _ _ _ E8 Hw4) as [_ (vm8 & Hrow8 & Hn8)].
  rewrite <-(keeps_Ok running _ _ _ _ E) in Hgone. rewrite <-(keeps_Ok vmms _ _ _ _ E) in Hdead.
  rewrite <-(keeps_Ok fs _ _ _ _ E) in Hstate, Hmem, Hdisk7.
  apply set_then_get in E as (Hrow' & Hst & vm9 & now & Hrow9 & ->).
  assert (vm9 = vm8) as -> by (unfold row in Hrow9; congruence).
  split_and!; try done. exists v, v1, s, m. unfold sp, mp. simpl. rewrite Hn8. fold l. split_and!; done.
Qed.

(** C3.  Sleep and wake-up are lossless.  If pausing a guest and saving and
    loading it keep it (the VMM's contract), then for a running VM a successful
    [SleepVM] leaves no process and no live VMM behind, and a successful
    [StartVM] after it brings up a VMM with the same guest; the disk is not
    touched by either. *)
Theorem sleep_resume {G} (guest : vmm → G) sd u w proc v vm1 w1 vm2 w2 :
  (∀ v v1, fc_set_state "Paused" v = Ok v1 → guest v1 = guest v) →
  (∀ v s m v', fc_create_snapshot v = Ok (s, m) → fc_load_snapshot s m (fc_start None) = Ok v' →
     guest v' = guest v) →
  StateDir cfg = abs sd ∧ sd ≠ [] ∧ Forall good_part sd → good_part (pr_Name proc) →
  sound cfg (db w) (running w) → running w !! u = Some proc → vmms w !! pr_SocketPath proc = Some v →
  SleepVM cfg u w = (Ok vm1, w1) → StartVM cfg vmsDir NetworkScript u w1 = (Ok vm2, w2) →
  vm_State vm1 = "sleeping" ∧ running w1 !! u = None ∧ vmms w1 !! pr_SocketPath proc = None ∧
  vm_State vm2 = "running" ∧
  (∃ v2, vmms w2 !! pr_SocketPath proc = Some v2 ∧ guest v2 = guest v) ∧
  (∀ n, let disk := diskPath (layout_of cfg (pr_Name proc)) in
     fs w !! disk = Some n → fs w1 !! disk = Some n ∧ fs w2 !! disk = Some n).
Proof.
  intros Hpause Hload Hsd Hgood Hs Hr Hv E1 E2.
  destruct (so_proc _ _ _ Hs u proc Hr) as (vm & Hvm & _ & Hname & Hsock & _).
  apply (SleepVM_slept sd u w proc) in E1
    as (Hrow1 & Hst1 & Hgone & Hdead & v0 & v1 & s & m & Hv0 & Hp & Hc & Hfs & Hfm & Hn & Hdisk);
    [|done|by split|done..].
  apply StartVM_branches in E2 as (_ & vm' & wa & wb & Hrow' & Ea & Eb & E2).
  injection Ea as Hda Hfa Hra. injection Eb as Hdb Hfb Hrb Hvb.
  assert (vm' = vm1) as -> by congruence. rewrite bool_decide_eq_true_2 in E2 by done.
  apply resumeVM_up in E2 as [(_ & Hst2 & _) (wl & s' & m' & v2 & Hs' & Hm' & Hl & Hv2 & Hkeep)].
  rewrite Hn in *. destruct (untouched_paths sd (pr_Name proc) Hsd Hgood) as (Ns & Nm & Nd).
  rewrite <-Hfa in Hfs, Hfm, Hdisk.
  destruct (Hkeep _ _ Ns Hfs) as [Hs2 _]. destruct (Hkeep _ _ Nm Hfm) as [Hm2 _].
  assert (s' = s) as -> by congruence. assert (m' = m) as -> by congruence.
  split_and!; try done.
  - exists v2. rewrite Hsock, <-Hname, Hvb. split; [done|].
    rewrite (Hload _ _ _ _ Hc Hl), (Hpause _ _ Hp). congruence.
  - intros n Hdn. split; [rewrite <-Hfa; by apply Hdisk|]. rewrite Hfb.
    by apply (Hkeep _ _ Nd), Hdisk.
Qed.
End lifecycle.
