(* ===== verification/ManagerEffects.v ===== *)
(** * What creating, deleting, saving and reconciling achieve

    The functional behaviour of the manager's other operations, on success and
    under every environment. *)

From S2P Require Import Prelude GoStrings Paths IPNet Json Types Store Config PrivateNet Memory.
From S2P Require Import World FileCopy Host Manager ManagerLocks ManagerDisk ManagerInvariant.
From S2P Require Import ManagerLifecycle.
From stdpp Require Import sorting.
Open Scope Z_scope.

Section effects.
Context `{FirecrackerVMM, Env, SparseSeek, GoUnicode, UuidLib, TimestampLaws}.
Context (cfg : Config) (vmsDir : option string) (NetworkScript : string).

Lemma dbcall_Ok {A} (m : M Store A) w a w' :
  dbcall m w = (Ok a, w') → ∃ s, m (db w) = (Ok a, s) ∧ w' = set_db s (bump w).
Proof.
  intros E%ext_Ok. cbn [db bump] in E. destruct (m (db w)) as [r s]. injection E as -> <-. eauto.
Qed.

Lemma ListVMs_elem s l s' vm : Store.ListVMs s = (Ok l, s') → vm ∈ l ↔ ∃ u, vms s !! u = Some vm.
Proof.
  intros [= <- _]. rewrite merge_sort_Permutation, list_elem_of_filter, elem_of_vm_rows. naive_solver.
Qed.

(** ** Create *)

Lemma store_create_Ok p w vm w' :
  store_ok (db w) → store_create p w = (Ok vm, w') →
  ∃ u now, vm = new_vm u now p ∧ vms (db w') = <[u := vm]> (vms (db w)) ∧ vms (db w) !! u = None ∧
    routes (db w') = routes (db w) ∧ routes (db w) !! p_Name p = None ∧
    (∀ v vm0, vms (db w) !! v = Some vm0 → vm_Name vm0 ≠ p_Name p).
Proof.
  intros Hok E. unfold store_create in E. apply bind_Ok in E as (r & w1 & E1%attempt_Ok & E).
  destruct r as [vm0|e]; [injection E as -> ->|by destruct e].
  unfold store_CreateVM in E1. apply bind_Ok in E1 as (u & w2 & E2 & E1). injection E2 as _ <-.
  apply bind_Ok in E1 as (now & w3 & E3 & E1). injection E3 as Hnow <-.
  apply dbcall_Ok in E1 as (s & E & ->).
  pose proof (CreateVM_Ok u now p (db w) vm s Hok) as (-> & Hvms & Hu & Hr & _);
    [rewrite <-Hnow; apply strftime_nonempty|done|].
  exists u, now. cbn [db set_db]. split_and!; try done; unfold Store.CreateVM in E;
    (destruct (uuid_Parse_ok _); [done|]); case_bool_decide as Hroute; try done;
    [by apply eq_None_not_Some|].
  destruct (bool_decide (is_Some (vms (db w) !! u))); [done|]. simpl in E.
  destruct (vm_name_taken (p_Name p) (db w)) eqn:Ht; [done|]. by apply vm_name_taken_false.
Qed.

Lemma choose_ip_Ok p w q w' ip0 subnet :
  ParseCIDR (vn_Subnet (VMNetwork cfg)) = Some (ip0, subnet) → is_v4 (net_ip subnet) = false →
  p_PrivateIP p = "" → choose_ip cfg p w = (Ok q, w') →
  db w' = db w ∧ ∃ ip, q = with_ip (IP_String ip) p ∧ Contains subnet ip = true ∧
    ∀ u v, vms (db w) !! u = Some v → vm_PrivateIP v ≠ IP_String ip.
Proof.
  intros Hcidr Hv4 Hip E. unfold choose_ip in E. rewrite Hip in E. simpl in E.
  apply bind_Ok in E as (l & w1 & E1 & E). apply dbcall_Ok in E1 as (s & E1 & ->).
  pose proof (λ vm, ListVMs_elem _ _ _ vm E1) as Hl. injection E1 as _ <-.
  destruct (nextPrivateIP_total _ _ _ l Hcidr Hv4) as (r & k & Hn & _ & Hr). rewrite Hn in E.
  apply bind_Ok in E as (ip & w2 & E2 & E). injection E2 as -> <-. injection E as <- <-.
  destruct Hr as (_ & _ & Hc & Hfree). split; [done|]. exists ip. split_and!; try done.
  intros u v Hv. apply Hfree, Hl. eauto.
Qed.

Lemma fill_params_fields disk p q :
  fill_params cfg disk p = Ok q → p_Name q = p_Name p ∧ p_PrivateIP q = p_PrivateIP p.
Proof.
  unfold fill_params. case_bool_decide; [done|]. unfold mbind, result_mbind.
  destruct (validateMemoryHotplugRange _ _); [|done]. case_bool_decide; [done|]. by intros [= <-].
Qed.


(** ** Delete *)

(** Nothing lies at or below [d]. *)
Definition no_files (d : string) (w : World) : Prop :=
  ∀ p, under d p = true → fs w !! p = None.

Lemma pres_no_files {A} d (m : M World A) :
  (∀ w p, fs w !! p = None → fs (m w).2 !! p = None) → Pres (no_files d) m.
Proof. intros Hm w Hw p Hp. by apply Hm, Hw. Qed.
#[local] Instance pres_no_files_keeps {A} d (m : M World A) : Keeps fs m → Pres (no_files d) m | 50.
Proof. intros Hk. apply pres_no_files. intros w p. by rewrite (Hk w). Qed.
#[local] Instance pres_no_files_Remove d q : Pres (no_files d) (os_Remove q).
Proof.
  apply pres_no_files. intros w p Hp.
  destruct (os_Remove q w) as [r w'] eqn:E. apply ext_inv in E as [[-> _]|(r0 & E & _)]; [done|].
  cbn [fs bump] in E. destruct (fs w !! q) as [[]|]; [destruct (dir_empty _ _)|..]; injection E as _ <-;
    simpl; try done; apply lookup_delete_None; auto.
Qed.
#[local] Instance pres_no_files_RemoveAll d q : Pres (no_files d) (os_RemoveAll q).
Proof.
  apply pres_no_files. intros w p Hp.
  destruct (os_RemoveAll q w) as [r w'] eqn:E. apply ext_inv in E as [[-> _]|(r0 & E & _)]; [done|].
  injection E as _ <-. simpl. apply map_lookup_filter_None. by left.
Qed.
#[local] Instance pres_no_files_if_exists d q : Pres (no_files d) (remove_if_exists q).
Proof. unfold remove_if_exists. apply pres_bind; [apply _|]. intros [|[]]; apply _. Qed.

Lemma os_RemoveAll_Ok d w w' : os_RemoveAll d w = (Ok tt, w') → no_files d w'.
Proof.
  intros E%ext_Ok. injection E as <-. intros p Hp. simpl. apply map_lookup_filter_None. right.
  intros n _. simpl. by rewrite Hp.
Qed.

(** C19.  A VM that [DeleteVM] deletes is gone: no row, no route to it, no
    process, no memory report, nothing in its directory or its directory below
    the current cold store (an archived disk that an earlier configuration put
    elsewhere is not covered); the other VMs are still there, under their names. *)
Theorem DeleteVM_gone u w vm w' :
  sound cfg (db w) (running w) → vms (db w) !! u = Some vm →
  DeleteVM cfg u w = (Ok tt, w') →
  vms (db w') !! u = None ∧ (∀ n r, routes (db w') !! n = Some r → rr_vm_uuid r ≠ u) ∧
  running w' !! u = None ∧ guestMemoryReports w' !! u = None ∧
  no_files (vmDir (layout_of cfg (vm_Name vm))) w' ∧
  (coldVMDir cfg (vm_Name vm) ≠ "" → no_files (coldVMDir cfg (vm_Name vm)) w') ∧
  (∀ k v, k ≠ u → vms (db w) !! k = Some v → ∃ v', vms (db w') !! k = Some v' ∧ vm_Name v' = vm_Name v).
Proof.
  intros Hs Hvm E. unfold DeleteVM in E.
  apply bind_Ok in E as (vm0 & w1 & (Hrow & ->)%GetVM_Ok & E).
  assert (vm0 = vm) as -> by (unfold row in Hrow; congruence).
  apply bind_Ok in E as ([] & w2 & E2 & E). apply begin_loop_spec in E2 as [(Hd & Hf & Hr & _)%visible_eq _].
  apply deferring_Ok in E as (w3 & E & ->). cbn [db fs running bump] in Hd, Hf, Hr.
  apply bind_Ok in E as (run & w4 & E4 & E). injection E4 as <- <-.
  assert (inv cfg None w2) as Hw2 by (split; [by rewrite Hd, Hr|done]).
  apply bind_Ok in E as ([] & w5 & E5 & E).
  assert (gone cfg u w5 ∧ ∀ k v, vms (db w2) !! k = Some v → ∃ v', vms (db w5) !! k = Some v' ∧ vm_Name v' = vm_Name v)
    as [Hg Hrows].
  { case_bool_decide as Hrun.
    - split; [split; [exact (pres_run (inv cfg None) _ _ _ _ E5 Hw2)|by eapply StopVM_gone]|].
      intros k v Hk. assert (inv cfg (Some (k, vm_Name v)) w2) as Hk2
        by (split; [apply Hw2|by exists v]).
      exact (proj2 (pres_run (inv cfg (Some (k, vm_Name v))) _ _ _ _ E5 Hk2)).
    - injection E5 as <-. split; [split; [done|by apply eq_None_not_Some]|]. eauto. }
  apply bind_Ok in E as ([] & w6 & E6 & E).
  pose proof (keeps_Ok db _ _ _ _ E6) as D6. pose proof (keeps_Ok running _ _ _ _ E6) as R6.
  apply os_RemoveAll_Ok in E6 as N6.
  apply bind_Ok in E as ([] & w7 & E7 & E).
  pose proof (keeps_Ok db _ _ _ _ E7) as D7. pose proof (keeps_Ok running _ _ _ _ E7) as R7.
  assert (no_files (vmDir (layout_of cfg (vm_Name vm))) w7) as N7
    by (destruct (is_empty _); exact (pres_run _ _ _ _ _ E7 N6)).
  apply bind_Ok in E as ([] & w8 & E8 & E). cbv zeta in E8.
  pose proof (keeps_Ok db _ _ _ _ E8) as D8. pose proof (keeps_Ok running _ _ _ _ E8) as R8.
  pose proof (pres_run _ _ _ _ _ E8 N7) as N8.
  assert (coldVMDir cfg (vm_Name vm) ≠ "" → no_files (coldVMDir cfg (vm_Name vm)) w8) as C8.
  { intros Hc. unfold is_empty in E8. rewrite bool_decide_eq_false_2 in E8 by done. by eapply os_RemoveAll_Ok. }
  apply bind_Ok in E as ([] & w9 & E9 & E). apply dbcall_Ok in E9 as (s9 & E9 & ->).
  apply bind_Ok in E as ([] & w10 & E10 & E). apply dbcall_Ok in E10 as (s10 & E10 & ->).
  injection E as <-. injection E9 as <-. apply DeleteVM_Ok in E10 as (Hv10 & Hr10 & _).
  cbn. rewrite Hv10. cbn. rewrite lookup_delete_eq.
  assert (running w8 !! u = None) as R by (rewrite R8, R7, R6; apply Hg).
  split_and!; try done.
  - intros n r Hn. by apply Hr10 in Hn as [_ ?].
  - apply lookup_delete_eq.
  - intros k v Hk Hv. rewrite lookup_delete_ne by done. rewrite D8, D7, D6. apply Hrows. by rewrite Hd.
Qed.

(** ** Snapshots *)

Lemma os_Stat_inv p w r w' :
  os_Stat p w = (r, w') → w' = bump w ∧
  ((∃ f, r = Err (fault_error f)) ∨
   r = match fs w !! p with Some n => Ok (node_info n) | None => Err ErrNotExist end).
Proof.
  unfold os_Stat, ext. destruct (fate (tick w)); intros [= <- <-]; eauto.
Qed.

(** The file [vmDiskPath] finds is the one [disk_is] means. *)
Lemma vmDiskPath_Ok u vm cold c w p w' :
  let hot := diskPath (layout_of cfg (vm_Name vm)) in
  cold ≠ "" → row u w = Some vm → disk_is u hot cold c w → vmDiskPath cfg vm w = (Ok p, w') →
  (p = hot ∨ p = cold) ∧ fs w !! p = Some (File c) ∧ fs w' = fs w.
Proof.
  intros hot Hne Hrow Hd E. pose proof (keeps_Ok fs _ _ _ _ E) as Hf.
  unfold vmDiskPath in E. cbv zeta in E. fold hot in E.
  apply bind_Ok in E as (st & w1 & E1%attempt_Ok & E).
  apply os_Stat_inv in E1 as [-> [[f ->]| ->]]; [by destruct f|].
  destruct Hd as [Hhot|(Hhot & Hcold & vm1 & Hvm1 & Ha)]; rewrite Hhot in E.
  { injection E as <- <-. eauto. }
  assert (vm1 = vm) as -> by (unfold row in Hrow; congruence). rewrite Ha in E.
  unfold is_empty in E. rewrite (bool_decide_eq_false_2 (cold = "")) in E by done. cbn [negb] in E. rewrite (bool_decide_eq_false_2 (cold = "")) in E by done.
  apply bind_Ok in E as (cst & w2 & E2%attempt_Ok & E).
  apply os_Stat_inv in E2 as [-> [[f ->]| ->]]; [by destruct f|]. cbn [fs bump] in E. rewrite Hcold in E.
  injection E as <- <-. eauto.
Qed.

(** A path below [snapshots] is no VM's disk. *)
Lemma snapshot_path_ne sd base name vmname :
  StateDir cfg = abs sd ∧ sd ≠ [] ∧ Forall good_part sd → base ≠ [] ∧ Forall good_part base →
  good_part name → good_part vmname →
  sl_diskPath (snapshotLayout_of cfg name) ≠ abs (base ++ ["vms"; vmname; "rootfs.ext4"]).
Proof.
  intros (Hs & Hne & Hg) [Hbne Hbg] Hn Hv. simpl. rewrite Hs.
  assert (∀ x y, good_part x → good_part y → Forall good_part [x; y; "rootfs.ext4"]) as Hthree.
  { intros x y Hx Hy. apply Forall_cons_2; [done|]. apply Forall_cons_2; [done|]. apply good_disk. }
  assert (good_part "snapshots" ∧ good_part "vms") as [G1 G2] by (split; by apply good_const).
  rewrite path_Join_abs; [|done|done|by apply Forall_cons_2; [|apply Forall_cons_2]].
  rewrite path_Join_abs; [|by destruct sd| |apply good_disk].
  2: { apply Forall_app. split; [done|]. by apply Forall_cons_2; [|apply Forall_cons_2]. }
  rewrite <-app_assoc. simpl. intros E. apply abs_inj in E; [|by destruct sd|by destruct base|..].
  - change ["snapshots"; name; "rootfs.ext4"] with (["snapshots"] ++ [name; "rootfs.ext4"]) in E.
    change ["vms"; vmname; "rootfs.ext4"] with (["vms"] ++ [vmname; "rootfs.ext4"]) in E.
    rewrite !app_assoc in E. apply app_inj_2 in E as [E _]; [|done].
    by apply app_inj_2 in E as [_ ?].
  - apply Forall_app. auto.
  - apply Forall_app. auto.
Qed.

(** The calls of a successful [SaveSnapshot]. *)
Lemma SaveSnapshot_calls params vm w sn w' :
  let u := cs_SourceVMUUID params in
  let sl := snapshotLayout_of cfg (cs_Name params) in
  row u w = Some vm → vm_UUID vm = u → SaveSnapshot cfg params w = (Ok sn, w') →
  vm_State vm = "stopped" ∧ running w !! u = None ∧
  ∃ w1 src w2 w3 w4 w5, (db w1, fs w1) = (db w, fs w) ∧ vmDiskPath cfg vm w1 = (Ok src, w2) ∧
    os_MkdirAll (sl_dir sl) w2 = (Ok tt, w3) ∧ copyFile (sl_diskPath sl) src w3 = (Ok tt, w4) ∧
    store_CreateSnapshot (MkCreateSnapshotParams (cs_Name params) u (vm_Name vm) "" ""
       (sl_diskPath sl) (vm_BaseImageID vm) (vm_KernelID vm) (vm_BaseImageMetadata vm)) w4 = (Ok sn, w5) ∧
    (db w', fs w') = (db w5, fs w5).
Proof.
  intros u sl Hrow Hu E.
  unfold SaveSnapshot in E. destruct (is_empty _); [done|]. destruct (is_empty _); [done|].
  apply bind_Ok in E as (b & w1 & E1 & E). apply dbcall_Ok in E1 as (s1 & E1 & ->).
  injection E1 as Hb <-. destruct b; [done|].
  apply bind_Ok in E as (vm0 & w2 & (Hrow2 & ->)%GetVM_Ok & E).
  assert (vm0 = vm) as -> by (unfold row in *; simpl in Hrow2; fold u in Hrow2; congruence).
  apply bind_Ok in E as ([] & w3 & E3 & E). apply begin_loop_spec in E3 as [(Hd3 & Hf3 & Hr3 & _)%visible_eq _].
  cbn [db fs running bump set_db] in Hd3, Hf3, Hr3. rewrite Hu in E.
  apply deferring_Ok in E as (w4 & E & ->).
  apply bind_Ok in E as (run & w5 & E5 & E). injection E5 as <- <-.
  destruct (bool_decide (vm_State vm = "running")); [done|]. simpl in E.
  destruct (bool_decide (is_Some (running w3 !! u))) eqn:Hrun; [done|].
  apply bool_decide_eq_false, eq_None_not_Some in Hrun. rewrite Hr3 in Hrun.
  destruct (bool_decide (vm_State vm = "stopped")) eqn:Hst; [|done]. apply bool_decide_eq_true in Hst.
  simpl in E. apply bind_Ok in E as (src & w6 & E6 & E).
  apply bind_Ok in E as ([] & w7 & E7 & E). apply bind_Ok in E as ([] & w8 & E8 & E).
  split; [done|]. split; [done|]. exists w3, src, w6, w7, w8, w4. split_and!; try done. congruence.
Qed.

Lemma disk_paths_abs sd cd name : dirs_ok cfg sd cd → good_part name →
  diskPath (layout_of cfg name) = abs (sd ++ ["vms"; name; "rootfs.ext4"]) ∧
  path_Join [coldVMDir cfg name; "rootfs.ext4"] = abs (cd ++ ["vms"; name; "rootfs.ext4"]).
Proof.
  intros Hdirs Hg. split.
  - change (path_Join [vmDir (layout_of cfg name); "rootfs.ext4"] = abs (sd ++ ["vms"; name; "rootfs.ext4"])).
    rewrite (vmDir_abs cfg sd cd Hdirs _ Hg). destruct Hdirs as [_ _ [Hc Hcg] _ _].
    rewrite path_Join_abs; [by rewrite <-app_assoc|by destruct sd|by apply good_vm_parts|apply good_disk].
  - rewrite (coldVMDir_abs cfg sd cd Hdirs _ Hg). destruct Hdirs as [_ _ _ [Hc Hcg] _].
    rewrite path_Join_abs; [by rewrite <-app_assoc|by destruct cd|by apply good_vm_parts|apply good_disk].
Qed.

(** A snapshot that [SaveSnapshot] saves is of a stopped VM that has no
    process; its disk file holds exactly the contents of the VM's disk, hot or
    archived; its row is new and points at that file; and no other file is
    changed, whichever copy method was used. *)
Theorem SaveSnapshot_copies `{!SparseSeekLaws} sd cd params vm c w sn w' :
  dirs_ok cfg sd cd → good_part (vm_Name vm) → good_part (cs_Name params) →
  let hot := diskPath (layout_of cfg (vm_Name vm)) in
  let cold := path_Join [coldVMDir cfg (vm_Name vm); "rootfs.ext4"] in
  let u := cs_SourceVMUUID params in
  sound cfg (db w) (running w) → row u w = Some vm → disk_is u hot cold c w →
  SaveSnapshot cfg params w = (Ok sn, w') →
  vm_State vm = "stopped" ∧ running w !! u = None ∧
  snapshots (db w) !! cs_Name params = None ∧ snapshots (db w') !! cs_Name params = Some sn ∧
  sn_Name sn = cs_Name params ∧ sn_SourceVMUUID sn = u ∧ fs w' !! sn_DiskPath sn = Some (File c) ∧
  (∀ p d, p ≠ sn_DiskPath sn → fs w !! p = Some (File d) → fs w' !! p = Some (File d)).
Proof.
  intros Hdirs Hgv Hgs hot cold u Hs Hrow Hd E.
  assert (vm_UUID vm = u) as Hu by by apply (ok_uuid _ (so_store _ _ _ Hs)).
  apply (SaveSnapshot_calls params vm) in E
    as (Hst & Hrun & w1 & src & w2 & w3 & w4 & w5 & E1 & E2 & E3 & E4 & E5 & E6); [|done|done].
  injection E1 as Hd1 Hf1. injection E6 as Hd6 Hf6.
  destruct (disk_paths_abs sd cd _ Hdirs Hgv) as [Hhot Hcold]. fold hot in Hhot. fold cold in Hcold.
  pose proof (keeps_Ok db _ _ _ _ E2) as D2. pose proof (keeps_Ok db _ _ _ _ E3) as D3.
  pose proof (keeps_Ok db _ _ _ _ E4) as D4. pose proof (keeps_Ok fs _ _ _ _ E5) as F5.
  apply (vmDiskPath_Ok u vm cold c) in E2 as (Hsrc & Hc & Hf2);
    [|by rewrite Hcold|by unfold row in *; rewrite Hd1|
      eapply disk_is_frame; [by rewrite Hf1|by rewrite Hf1|unfold row; by rewrite Hd1|exact Hd]].
  set (dst := sl_diskPath (snapshotLayout_of cfg (cs_Name params))) in *.
  assert (src ≠ dst) as Hne.
  { apply not_eq_sym. destruct Hsrc as [->| ->]; [fold hot; rewrite Hhot|rewrite Hcold];
      apply (snapshot_path_ne sd); try done; destruct Hdirs; tauto. }
  assert (∀ p n, fs w !! p = Some n → fs w3 !! p = Some n) as Hk3.
  { intros p n Hp. eapply os_MkdirAll_some; [|exact E3]. by rewrite Hf2, Hf1. }
  assert (fs w3 !! src = Some (File c)) as Hc3 by (apply Hk3; by rewrite <-Hf1).
  pose proof (copyFile_Ok _ _ _ _ _ Hne Hc3 E4) as Hdst.
  unfold store_CreateSnapshot in E5. apply bind_Ok in E5 as (now & w6 & E & E5). injection E as _ <-.
  apply dbcall_Ok in E5 as (s5 & E5 & ->). unfold Store.CreateSnapshot in E5. cbn [cs_Name] in E5.
  rewrite D4, D3, D2, Hd1 in E5. destruct (snapshots (db w) !! cs_Name params) eqn:Hfree; [done|].
  unfold Store.GetSnapshot in E5. cbn [snapshots set_snapshots] in E5. rewrite lookup_insert_eq in E5.
  injection E5 as <- <-. cbn [db set_db bump fs] in *.
  rewrite Hd6. cbn [snapshots set_snapshots]. rewrite lookup_insert_eq, Hf6. split_and!; try done.
  intros p d Hp Hpd. cbn [sn_DiskPath] in Hp. pose proof (no_at_ne dst p Hp) as Hat.
  rewrite (keeps_Ok (λ w, fs w !! p) _ _ _ _ E4). by apply Hk3.
Qed.

(** ** Start-up *)

Lemma ListVMs_NoDup s l s' : store_ok s → Store.ListVMs s = (Ok l, s') → NoDup (vm_UUID <$> l).
Proof.
  intros Hok [= <- _]. rewrite merge_sort_Permutation.
  assert (∀ L : list VM, filter (λ _, true = true) L = L) as ->.
  { intros L. induction L as [|x L IH]; [done|]. by rewrite filter_cons_True, IH. }
  assert (vm_UUID <$> vm_rows s = (map_to_list (vms s)).*1) as ->; [|apply NoDup_fst_map_to_list].
  unfold vm_rows. rewrite <-list_fmap_compose. apply list_fmap_ext. intros i [u v] Hi. simpl.
  apply (ok_uuid _ Hok). apply elem_of_map_to_list. by eapply list_elem_of_lookup_2.
Qed.

(** What reconciling makes of a row. *)
Definition reconciled (vm vm' : VM) : Prop :=
  (vm_State vm ≠ "running" ∧ vm' = vm) ∨
  (vm_State vm = "running" ∧ ∃ now, vm' = with_state now "lost" vm).

Lemma reconcile_loop_Ok l w w' :
  NoDup (vm_UUID <$> l) → (∀ vm, vm ∈ l → row (vm_UUID vm) w = Some vm) →
  reconcile_loop l w = (Ok [], w') →
  (∀ vm, vm ∈ l → ∃ vm', row (vm_UUID vm) w' = Some vm' ∧ reconciled vm vm') ∧
  (∀ u, u ∉ (vm_UUID <$> l) → row u w' = row u w).
Proof.
  revert w. induction l as [|vm l IH]; intros w Hnd Hrows E; cbn [reconcile_loop] in E.
  { injection E as <-. split; [by intros vm ?%elem_of_nil|done]. }
  apply bind_Ok in E as (a & w1 & E1 & E). pose proof (keeps_Ok db _ _ _ _ E1) as D1.
  apply bind_Ok in E as (errs & w2 & E2 & E). apply bind_Ok in E as (more & w3 & E3 & E).
  injection E as Hnil <-. apply app_eq_nil in Hnil as [-> ->].
  rewrite fmap_cons, NoDup_cons in Hnd. destruct Hnd as [Hvm Hnd].
  assert (row (vm_UUID vm) w1 = Some vm) as Hrow by (unfold row; rewrite D1; apply Hrows; set_solver).
  assert ((∃ vm', row (vm_UUID vm) w2 = Some vm' ∧ reconciled vm vm') ∧
          ∀ u, u ≠ vm_UUID vm → row u w2 = row u w1) as [Hthis Hothers].
  { case_bool_decide as Hst.
    - apply bind_Ok in E2 as (r & w4 & E4%attempt_Ok & E2). destruct r as [[]|]; [|done].
      injection E2 as <-. split.
      + apply SetVMState_Ok in E4 as (v0 & now & Hv0 & Hv1). exists (with_state now "lost" v0).
        split; [done|]. right. split; [done|]. exists now. congruence.
      + intros u Hu. unfold store_SetVMState in E4. apply bind_Ok in E4 as (now & w5 & E5 & E4).
        injection E5 as _ <-. apply dbcall_Ok in E4 as (s & E4 & ->). unfold Store.SetVMState, update_vm in E4.
        destruct (vms (db w1) !! vm_UUID vm); [|done]. injection E4 as <-. unfold row. simpl.
        by rewrite lookup_insert_ne.
    - injection E2 as <-. split; [|done]. exists vm. split; [done|]. by left. }
  destruct (IH w2) as [Hin Hout]; [done| |done|].
  { intros v Hv. rewrite Hothers.
    - unfold row. rewrite D1. apply Hrows. set_solver.
    - intros E. apply Hvm. rewrite <-E. by apply list_elem_of_fmap_2. }
  split.
  - intros v [->|Hv]%elem_of_cons; [|by apply Hin]. by rewrite (Hout _ Hvm).
  - intros u [Hu Hul]%not_elem_of_cons. rewrite (Hout u Hul), (Hothers u Hu). unfold row. by rewrite D1.
Qed.

(** After a start-up that reports no error, no row claims to be running:
    each VM that was marked running is marked lost, every other row is as it
    was, and no row has appeared or gone. *)
Theorem ReconcileStartup_lost w w' :
  store_ok (db w) → ReconcileStartup w = (Ok tt, w') →
  (∀ u vm, vms (db w) !! u = Some vm → ∃ vm', vms (db w') !! u = Some vm' ∧ reconciled vm vm') ∧
  (∀ u vm', vms (db w') !! u = Some vm' → is_Some (vms (db w) !! u) ∧ vm_State vm' ≠ "running").
Proof.
  intros Hok E. unfold ReconcileStartup in E. apply bind_Ok in E as (l & w1 & E1 & E).
  apply dbcall_Ok in E1 as (s & E1 & ->). pose proof (ListVMs_NoDup _ _ _ Hok E1) as Hnd.
  pose proof (λ vm, ListVMs_elem _ _ _ vm E1) as Hl. injection E1 as _ <-.
  apply bind_Ok in E as (errs & w2 & E2 & E). destruct errs; [|done]. injection E as <-.
  apply reconcile_loop_Ok in E2 as [Hin Hout]; [|done|].
  2: { intros vm [u Hu]%Hl. unfold row. simpl. by rewrite (ok_uuid _ Hok _ _ Hu). }
  assert (∀ u vm, vms (db w) !! u = Some vm → ∃ vm', vms (db w2) !! u = Some vm' ∧ reconciled vm vm') as Hfwd.
  { intros u vm Hu. destruct (Hin vm) as (vm' & Hr & Hrec); [apply Hl; eauto|].
    rewrite (ok_uuid _ Hok _ _ Hu) in Hr. eauto. }
  split; [exact Hfwd|]. intros u vm' Hu'. destruct (vms (db w) !! u) as [vm|] eqn:Hu.
  - destruct (Hfwd u vm Hu) as (v & Hv & Hrec). split; [done|]. assert (v = vm') as -> by congruence.
    destruct Hrec as [[Hn ->]|(_ & now & ->)]; [done|]. done.
  - exfalso. assert (u ∉ vm_UUID <$> l) as Hn.
    { intros (vm & -> & [k Hk]%Hl)%list_elem_of_fmap. rewrite (ok_uuid _ Hok _ _ Hk) in Hu. congruence. }
    apply Hout in Hn. unfold row in Hn. cbn [db set_db bump] in Hn. congruence.
Qed.

(** ** Memory *)

Lemma api_effect {A} sock (f : vmm → result (A * vmm)) w r w' :
  api sock f w = (r, w') →
  vmms w' = vmms w ∨
  ∃ v a v', vmms w !! sock = Some v ∧ f v = Ok (a, v') ∧ vmms w' = <[sock := v']> (vmms w).
Proof.
  intros E. apply ext_inv in E as [[-> _]|(r0 & E & _)]; [by left|]. cbn [vmms bump] in E.
  destruct (vmms w !! sock) as [v|] eqn:Hv; [|injection E as _ <-; by left].
  destruct (f v) as [[a v']|] eqn:Hf; injection E as _ <-; [|by left]. right. by exists v, a, v'.
Qed.

Lemma GetMemoryHotplug_vmms sock w r w' :
  firecrackerGetMemoryHotplug sock w = (r, w') → vmms w' = vmms w.
Proof.
  intros E. apply api_effect in E as [E|(v & a & v' & Hv & Hf & ->)]; [done|].
  destruct (fc_get_hotplug v) as [[[? ?] ?]|]; [|done]. injection Hf as _ <-. by apply insert_id.
Qed.

(** Whatever target a guest asks for, [setVMMemoryTarget] sends at most
    one request to the VM's own VMM: a whole number of 128 MiB slots that, with
    the boot memory, covers the target clamped to the VM's range, with less
    than one slot to spare, and never goes beyond the VM's maximum. *)
Theorem setVMMemoryTarget_request vm target w r w' :
  range_valid (vm_MemoryMinMiB vm) (vm_MemoryMaxMiB vm) →
  setVMMemoryTarget vm target w = (r, w') →
  vmms w' = vmms w ∨
  ∃ proc v v' req, running w !! vm_UUID vm = Some proc ∧ vmms w !! pr_SocketPath proc = Some v ∧
    fc_patch_hotplug req v = Ok v' ∧ vmms w' = <[pr_SocketPath proc := v']> (vmms w) ∧
    (128 | req) ∧ 0 ≤ req ∧ vm_MemoryMinMiB vm + req ≤ vm_MemoryMaxMiB vm ∧
    Z.max (vm_MemoryMinMiB vm) (Z.min target (vm_MemoryMaxMiB vm)) ≤ vm_MemoryMinMiB vm + req <
    Z.max (vm_MemoryMinMiB vm) (Z.min target (vm_MemoryMaxMiB vm)) + 128.
Proof.
  intros Hv E. pose proof (requestedMiB_spec vm target Hv) as (Hdiv & Hrange & Hclamp).
  assert (clampTarget vm target = Z.max (vm_MemoryMinMiB vm) (Z.min target (vm_MemoryMaxMiB vm))) as Hcl
    by (unfold clampTarget; destruct Hv as (? & _); repeat case_bool_decide; lia).
  rewrite Hcl in Hclamp. unfold setVMMemoryTarget in E. cbv zeta in E.
  set (req := requestedMiB vm target) in *. clearbody req.
  unfold mbind at 1, M_mbind at 1, gets at 1 in E.
  destruct (running w !! vm_UUID vm) as [proc|] eqn:Hp; [|injection E as _ <-; by left].
  case_bool_decide; [injection E as _ <-; by left|].
  unfold mbind at 1, M_mbind at 1 in E. destruct (host_bits w) as [rb w1] eqn:E1.
  pose proof (keeps_Ok vmms _ _ _ _ E1) as V1. destruct rb as [bits|e]; [|injection E as _ <-; by left].
  destruct (negb _); [injection E as _ <-; by left|].
  unfold mbind at 1, M_mbind at 1 in E.
  destruct (firecrackerPatchMemoryHotplug (pr_SocketPath proc) req w1) as [rp w2] eqn:E2.
  assert (vmms w' = vmms w2) as V3.
  { destruct rp as [[]|e]; [|by injection E as _ <-]. unfold mbind, M_mbind in E.
    destruct (firecrackerGetMemoryHotplug _ w2) as [rg w3] eqn:E3.
    apply GetMemoryHotplug_vmms in E3. destruct rg; by injection E as _ <-. }
  rewrite V3. apply api_effect in E2 as [E2|(v & a & v' & Hv0 & Hf & E2)]; rewrite E2, V1; [by left|].
  right. destruct (fc_patch_hotplug req v) as [v1|] eqn:Hpatch; [|done]. injection Hf as _ ->.
  exists proc, v, v', req. rewrite V1 in Hv0. split_and!; try done; lia.
Qed.
End effects.
