(* ===== verification/ManagerExamples.v ===== *)
(** * The manager, run

    One VM on a host with a toy VMM, in an environment where nothing fails: it
    is created, started, put to sleep, resumed, saved and deleted.  The
    theorems about the lifecycle are applied to these runs. *)

From S2P Require Import Prelude GoStrings Paths IPNet Json Types Store Config PrivateNet Memory.
From S2P Require Import World FileCopy Host Manager ManagerLocks ManagerDisk ManagerInvariant.
From S2P Require Import ManagerLifecycle ManagerEffects.
Open Scope Z_scope.

Definition host_world : @World toy_vmm :=
  set_fs (λ _, list_to_map [
    ("/tmp", Dir); ("/proc/sys/net/ipv6/conf/all/forwarding", File "0");
    ("/proc/sys/net/ipv4/ip_forward", File "0");
    ("/var/lib/firedoze/images/rootfs.ext4", File "root");
    ("/var/lib/firedoze/images/vmlinux.bin", File "kernel")]) empty_world.

Definition small_params : CreateVMParams :=
  MkCreateVMParams "web" "" 0 0 0 4 0 0 "" "" "" false false true.

Definition create (w : @World toy_vmm) : result VM * @World toy_vmm :=
  @CreateVM toy_vmm calm ascii_only uuid_shape decimal_stamps cold_config small_params w.
Definition web_uuid : string := "uuid-9".
Definition start (w : @World toy_vmm) : result VM * @World toy_vmm :=
  @StartVM toy_vmm calm dense_seek ascii_only decimal_stamps cold_config None "script" web_uuid w.
Definition sleep (w : @World toy_vmm) : result VM * @World toy_vmm :=
  @SleepVM toy_vmm calm decimal_stamps cold_config web_uuid w.

#[local] Abbreviation w_created := ((create host_world).2).
#[local] Abbreviation w_started := ((start w_created).2).
#[local] Abbreviation w_asleep := ((sleep w_started).2).
#[local] Abbreviation w_awake := ((start w_asleep).2).

#[local] Abbreviation Inv := (inv cold_config None).

Lemma host_inv : Inv host_world.
Proof. split; [|done]. split; [apply empty_store_ok|done..]. Qed.
Lemma created_inv : Inv w_created.
Proof.
  apply (@pres _ _ Inv _ (@pres_CreateVM toy_vmm calm ascii_only uuid_shape decimal_stamps
    decimal_stamps_laws cold_config small_params)), host_inv.
Qed.
Lemma start_inv w : Inv w → Inv (start w).2.
Proof.
  apply (@pres _ _ Inv _ (@pres_StartVM toy_vmm calm dense_seek ascii_only decimal_stamps
    decimal_stamps_laws cold_config None "script" web_uuid)).
Qed.

(** The value a run returned, as the equation the theorems expect. *)
Definition the {A} `{Inhabited A} (r : result A) : A := match r with Ok a => a | Err _ => inhabitant end.
#[local] Instance vm_inhabited : Inhabited VM := populate (stopped_vm "").
#[local] Instance snapshot_inhabited : Inhabited Snapshot := populate (MkSnapshot "" "" "" "" "" "" "" "" "" "").

Lemma run_Ok {S A} `{Inhabited A} (out : result A * S) : is_ok out.1 = true → out = (Ok (the out.1), out.2).
Proof. by destruct out as [[]]. Qed.

Lemma run_unit {S} (out : result unit * S) : is_ok out.1 = true → out = (Ok tt, out.2).
Proof. by destruct out as [[[]|]]. Qed.

Lemma start_created : start w_created = (Ok (the (start w_created).1), w_started).
Proof. exact (run_Ok (start w_created) ltac:(vm_compute; reflexivity)). Qed.
Lemma sleep_started : sleep w_started = (Ok (the (sleep w_started).1), w_asleep).
Proof. exact (run_Ok (sleep w_started) ltac:(vm_compute; reflexivity)). Qed.
Lemma start_asleep : start w_asleep = (Ok (the (start w_asleep).1), w_awake).
Proof. exact (run_Ok (start w_asleep) ltac:(vm_compute; reflexivity)). Qed.


Lemma StartVM_running_witness :
  vm_State (the (start w_created).1) = "running" ∧ is_Some (running w_started !! web_uuid).
Proof.
  destruct (@StartVM_running toy_vmm calm dense_seek ascii_only decimal_stamps decimal_stamps_laws
    cold_config None "script" web_uuid w_created _ w_started (proj1 created_inv) start_created)
    as (_ & _ & Hst & proc & Hrun & _).
  split; [exact Hst|]. rewrite Hrun, lookup_insert_eq. by eexists.
Defined.

(** The toy VMM keeps its guest as text. *)
Lemma sleep_resume_witness :
  let sock := "/var/lib/firedoze/vms/web/run/firecracker.sock" in
  vmms w_asleep !! sock = None ∧
  ∃ v v2 : @vmm toy_vmm, vmms w_started !! sock = Some v ∧ vmms w_awake !! sock = Some v2 ∧ fst v2 = fst v.
Proof.
  cbv zeta.
  destruct (running w_started !! web_uuid) as [proc|] eqn:Hr; [|vm_compute in Hr; discriminate].
  assert (pr_SocketPath proc = "/var/lib/firedoze/vms/web/run/firecracker.sock" ∧ pr_Name proc = "web")
    as [Hsock Hname] by (vm_compute in Hr; injection Hr as <-; split; reflexivity).
  destruct (vmms w_started !! pr_SocketPath proc) as [v|] eqn:Hv;
    [|rewrite Hsock in Hv; vm_compute in Hv; discriminate].
  destruct (@sleep_resume toy_vmm calm dense_seek ascii_only decimal_stamps decimal_stamps_laws
    cold_config None "script" string fst ["var"; "lib"; "firedoze"] web_uuid w_started proc v
    (the (sleep w_started).1) w_asleep (the (start w_asleep).1) w_awake) as (_ & _ & Hdead & _ & (v2 & Hv2 & Hg) & _).
  - intros v0 v1. simpl. by intros [= <-].
  - intros v0 s m v'. simpl. destruct v0 as [text paused]. simpl. destruct paused; [|done].
    by intros [= _ <-] [= <-].
  - split; [reflexivity|]. split; [done|].
    repeat (apply Forall_cons_2; [by apply good_const|]). apply Forall_nil_2.
  - rewrite Hname. by apply good_const.
  - apply (start_inv _ created_inv).
  - exact Hr.
  - exact Hv.
  - exact sleep_started.
  - exact start_asleep.
  - rewrite <-Hsock. split; [exact Hdead|]. exists v, v2.
    split; [exact Hv|]. split; [exact Hv2|exact Hg].
Defined.

Definition delete_web (w : @World toy_vmm) : result unit * @World toy_vmm :=
  @DeleteVM toy_vmm calm decimal_stamps cold_config web_uuid w.

Lemma DeleteVM_gone_witness :
  vms (db (delete_web w_started).2) !! web_uuid = None ∧
  running (delete_web w_started).2 !! web_uuid = None.
Proof.
  destruct (vms (db w_started) !! web_uuid) as [vm|] eqn:Hvm; [|vm_compute in Hvm; discriminate].
  destruct (@DeleteVM_gone toy_vmm calm decimal_stamps decimal_stamps_laws cold_config web_uuid
    w_started vm (delete_web w_started).2 (proj1 (start_inv _ created_inv)) Hvm
    (run_unit (delete_web w_started) ltac:(vm_compute; reflexivity))) as (H1 & _ & H2 & _).
  split; [exact H1|exact H2].
Defined.

(** A snapshot of the VM of [cold_world], whose disk is archived. *)
Definition save_params : CreateSnapshotParams :=
  MkCreateSnapshotParams "snap" "u" "" "" "" "" "" "" "".
Definition save (w : @World toy_vmm) : result Snapshot * @World toy_vmm :=
  @SaveSnapshot toy_vmm calm dense_seek decimal_stamps cold_config save_params w.

Lemma disk_world_sound p archived : sound cold_config (db (disk_world p archived)) ∅.
Proof.
  split; simpl.
  - split; simpl; try done.
    + by intros u vm [<- <-]%lookup_singleton_Some.
    + by intros u1 u2 v1 v2 [<- <-]%lookup_singleton_Some [<- <-]%lookup_singleton_Some.
    + intros u vm n _ [r Hr]. by rewrite lookup_empty in Hr.
    + by intros u vm [<- <-]%lookup_singleton_Some.
  - intros u vm [<- <-]%lookup_singleton_Some. split; [vm_compute; reflexivity|]. simpl. lia.
  - done.
Qed.

Lemma SaveSnapshot_copies_witness :
  let sn := the (save (disk_world cold_path cold_path)).1 in
  disk_is "u" hot_path cold_path "disk" (disk_world cold_path cold_path) ∧
  fs (save (disk_world cold_path cold_path)).2 !! sn_DiskPath sn = Some (File "disk").
Proof.
  assert (disk_is "u" hot_path cold_path "disk" (disk_world cold_path cold_path)) as Hd.
  { right. split; [vm_compute; reflexivity|]. split; [vm_compute; reflexivity|].
    exists (stopped_vm cold_path). split; vm_compute; reflexivity. }
  split; [exact Hd|].
  destruct (@SaveSnapshot_copies toy_vmm calm dense_seek decimal_stamps cold_config dense_seek_laws _ _
    save_params (stopped_vm cold_path) "disk" (disk_world cold_path cold_path) _
    (save (disk_world cold_path cold_path)).2 cold_config_dirs (good_const "web" eq_refl)
    (good_const "snap" eq_refl) (disk_world_sound _ _) ltac:(vm_compute; reflexivity) Hd
    (run_Ok (save (disk_world cold_path cold_path)) ltac:(vm_compute; reflexivity)))
    as (_ & _ & _ & _ & _ & _ & Hc & _). exact Hc.
Defined.

(** The daemon died while the VM was running. *)
Lemma ReconcileStartup_lost_witness :
  let w := w_started in
  let w' := (@ReconcileStartup toy_vmm calm decimal_stamps w).2 in
  vm_State <$> vms (db w) !! web_uuid = Some "running" ∧
  ∀ u vm, vms (db w') !! u = Some vm → vm_State vm ≠ "running".
Proof.
  cbv zeta. split; [vm_compute; reflexivity|]. intros u vm Hvm.
  apply (@ReconcileStartup_lost toy_vmm calm decimal_stamps decimal_stamps_laws w_started _
    (so_store _ _ _ (proj1 (start_inv _ created_inv)))
    (run_unit (@ReconcileStartup toy_vmm calm decimal_stamps w_started) ltac:(vm_compute; reflexivity))
    ) in Hvm. apply Hvm.
Defined.

(** A VMM that records the size it was asked for. *)
Definition meter_vmm : FirecrackerVMM := {|
  vmm := Z; fc_start _ := 0; fc_action _ v := Ok v; fc_set_state _ v := Ok v;
  fc_create_snapshot _ := Err ErrNotRunning; fc_load_snapshot _ _ v := Ok v;
  fc_patch_hotplug r _ := Ok r; fc_get_hotplug v := Ok (v, v, v) |}.

Definition meter_world : @World meter_vmm :=
  @MkWorld meter_vmm empty_store ∅ {["u" := MkProcess "u" "web" "" "sock" "" "" "" ""]}
    {["sock" := 0]} ∅ ∅ ∅ ∅ ∅ None 0.

Lemma setVMMemoryTarget_request_witness :
  let vm := example_vm 384 1024 in
  let '(r, w') := @setVMMemoryTarget meter_vmm calm ascii_only vm 500 meter_world in
  range_valid 384 1024 ∧ vmms w' !! "sock" = Some 128 ∧
  (vmms w' = vmms meter_world ∨ ∃ proc, running meter_world !! "u" = Some proc).
Proof.
  assert (range_valid 384 1024) as Hv by (split_and!; [lia..|by exists 5]). cbv zeta.
  destruct (@setVMMemoryTarget meter_vmm calm ascii_only (example_vm 384 1024) 500 meter_world)
    as [r w'] eqn:E.
  split; [exact Hv|]. split; [vm_compute in E; injection E as _ <-; vm_compute; reflexivity|].
  destruct (@setVMMemoryTarget_request meter_vmm calm ascii_only (example_vm 384 1024) 500
    meter_world r w' Hv E) as [Hw|(proc & v & v' & req & Hp & _)]; [left; exact Hw|right; exists proc; exact Hp].
Defined.
