(* ===== verification/Proxy.v ===== *)
(** * The wake proxy and its gate (internal/proxy/wake.go, wake_gate.go)

    What happens to an HTTP request Caddy passes on: the host decides the VM
    and the port, a protected host needs an approved cookie, a sleeping VM is
    woken only for an approved visitor (who has solved a CAPTCHA or followed a
    signed URL), and a running one gets the request.

    The state is the manager's world together with the authentication key.  The
    clock is read at one instant per request.  The reverse proxy of net/http and
    the CAPTCHA library are parameters. *)

From S2P Require Import Prelude GoStrings Paths IPNet Crypto Json Types Store Config RouteAuth World.
Open Scope Z_scope.

(** ** Requests and responses *)

Record Request := MkRequest {
  rq_Method : string;
  rq_Host : string;
  rq_Path : string;                  (* r.URL.Path *)
  rq_RequestURI : string;            (* r.URL.RequestURI() *)
  rq_Cookie : option string;         (* r.Cookie(CookieName) *)
  rq_Query : string → string;        (* r.URL.Query().Get *)
  rq_Form : option (string → string) (* r.ParseForm() and r.Form.Get *)
}.

Inductive Response :=
  | HTTPError (msg : string) (code : Z)               (* http.Error *)
  | Redirect (cookie : Cookie) (location : string)    (* 303 with the cookie *)
  | Page (html : string)                              (* 200, text/html *)
  | Image (id : string)                               (* the CAPTCHA of that id *)
  | Forwarded (target : string).                      (* answered by the VM *)

(** github.com/dchest/captcha. *)
Class Captcha := {
  captcha_New : nat → string;                   (* a fresh id *)
  captcha_VerifyString : string → string → bool;
  captcha_Known : string → bool;                (* WriteImage finds the id *)
}.

(** The interface the proxy wants of the manager. *)
Class VMStarter `{FirecrackerVMM} := starter_StartVM : string → M World VM.

(** ** html.EscapeString *)

Definition html_char (c : ascii) : string :=
  if bool_decide (c = "&"%char) then "&amp;"
  else if bool_decide (c = "'"%char) then "&#39;"
  else if bool_decide (c = "<"%char) then "&lt;"
  else if bool_decide (c = ">"%char) then "&gt;"
  else if bool_decide (c = quote_char) then "&#34;"
  else String c "".

Fixpoint EscapeString (s : string) : string :=
  match s with
  | "" => ""
  | String c s' => html_char c +:+ EscapeString s'
  end.

(** ** Hosts *)

Section hosts.
Context `{GoUnicode}.

Definition routeHost (hostport : string) : string :=
  let host := ToLower hostport in
  let host := match SplitHostPort host with Some (h, _) => h | None => host end in
  TrimSuffix host ".".
End hosts.

(** A redirect target of the same site. *)
Definition localNext (next : string) : string :=
  if is_empty next || negb (HasPrefix next "/") || HasPrefix next "//" then "/" else next.

Section proxy.
Context `{FirecrackerVMM, Env, GoUnicode, Timestamps, Captcha, !VMStarter}.
Context (cfg : Config) (sys : Sys) (now : Z) (answers : nat → string → bool).

Record ProxyState := MkProxy { pw : World; pauth : Auth }.

Definition onWorld {A} (m : M World A) : M ProxyState A := λ s,
  let '(r, w) := m (pw s) in (r, MkProxy w (pauth s)).
Definition onAuth {A} (m : M Auth A) : M ProxyState A := λ s,
  let '(r, a) := m (pauth s) in (r, MkProxy (pw s) a).

Definition http_Error (msg : string) (code : Z) : M ProxyState Response := mret (HTTPError msg code).

(** ** The gate *)

Definition approved (r : Request) (host : string) : M ProxyState bool :=
  onAuth (Approved sys now (rq_Cookie r) host).

Definition wakeGateCookieTTL : Z := 30 * 24 * 60 * 60 * second.
Definition captchaWidth : Z := 240.
Definition captchaHeight : Z := 80.

Definition attr (s : string) : string := String quote_char (s +:+ String quote_char "").

Definition challenge_page (id next : string) : string :=
  "<!doctype html>" +:+ newline +:+
  "<html lang=" +:+ attr "en" +:+ ">" +:+ newline +:+
  "<head>" +:+ newline +:+
  "  <meta charset=" +:+ attr "utf-8" +:+ ">" +:+ newline +:+
  "  <meta name=" +:+ attr "viewport" +:+ " content=" +:+ attr "width=device-width, initial-scale=1" +:+
  ">" +:+ newline +:+
  "  <title>Are you human?</title>" +:+ newline +:+
  "  <style>" +:+ newline +:+
  "    body { font-family: system-ui, sans-serif; margin: 2rem; line-height: 1.4; max-width: 34rem; }" +:+
  newline +:+
  "    img { display: block; margin: 1rem 0; border: 1px solid #ccc; }" +:+ newline +:+
  "    input, button { font: inherit; padding: .5rem .6rem; }" +:+ newline +:+
  "  </style>" +:+ newline +:+
  "</head>" +:+ newline +:+
  "<body>" +:+ newline +:+
  "  <h1>Are you human?</h1>" +:+ newline +:+
  "  <form method=" +:+ attr "post" +:+ " action=" +:+ attr "/_firedoze/wake" +:+ ">" +:+ newline +:+
  "    <input type=" +:+ attr "hidden" +:+ " name=" +:+ attr "id" +:+ " value=" +:+
  attr (EscapeString id) +:+ ">" +:+ newline +:+
  "    <input type=" +:+ attr "hidden" +:+ " name=" +:+ attr "next" +:+ " value=" +:+
  attr (EscapeString next) +:+ ">" +:+ newline +:+
  "    <img src=" +:+ attr ("/_firedoze/wake-captcha/" +:+ EscapeString id +:+ ".png") +:+ " width=" +:+
  attr (FormatInt captchaWidth) +:+ " height=" +:+ attr (FormatInt captchaHeight) +:+ " alt=" +:+
  attr "CAPTCHA" +:+ ">" +:+ newline +:+
  "    <label>Type the digits shown above</label><br>" +:+ newline +:+
  "    <input name=" +:+ attr "answer" +:+ " inputmode=" +:+ attr "numeric" +:+ " autocomplete=" +:+
  attr "off" +:+ " required autofocus>" +:+ newline +:+
  "    <button type=" +:+ attr "submit" +:+ ">Continue</button>" +:+ newline +:+
  "  </form>" +:+ newline +:+
  "</body>" +:+ newline +:+
  "</html>" +:+ newline.

Definition challenge (r : Request) : M ProxyState Response :=
  id ← gets (λ s, captcha_New (tick (pw s)));
  mret (Page (challenge_page id (rq_RequestURI r))).

Definition serveCaptcha (r : Request) : M ProxyState Response :=
  let name := TrimPrefix (rq_Path r) "/_firedoze/wake-captcha/" in
  let id := TrimSuffix name ".png" in
  if captcha_Known id then mret (Image id) else http_Error "captcha not found" 404.

Definition verify (r : Request) (host : string) : M ProxyState Response :=
  match rq_Form r with
  | None => http_Error "invalid captcha form" 400
  | Some get =>
      if negb (captcha_VerifyString (get "id") (get "answer")) then http_Error "captcha failed" 403
      else
        let expires := now + wakeGateCookieTTL in
        c ← attempt (onAuth (SetCookie sys now host expires));
        match c with
        | Err _ => http_Error "wake gate unavailable" 503
        | Ok c => mret (Redirect c (localNext (get "next")))
        end
  end.

Definition handle (r : Request) (host : string) : M ProxyState Response :=
  if bool_decide (rq_Method r = "GET") && HasPrefix (rq_Path r) "/_firedoze/wake-captcha/"
  then serveCaptcha r
  else if bool_decide (rq_Method r = "POST") && bool_decide (rq_Path r = "/_firedoze/wake")
  then verify r host
  else if bool_decide (rq_Method r = "GET") then challenge r
  else http_Error "firedoze wake captcha required" 403.

(** ** The proxy *)

Definition handleSignedAuthURL (r : Request) (host : string) : M ProxyState Response :=
  e ← onAuth (RouteAuth.Validate sys now (rq_Query r "token") host);
  match e with
  | None => http_Error "firedoze auth token invalid or expired" 403
  | Some expires =>
      c ← attempt (onAuth (SetCookie sys now host (expires * second)));
      match c with
      | Err _ => http_Error "firedoze route auth unavailable" 503
      | Ok c => mret (Redirect c (localNext (rq_Query r "next")))
      end
  end.

Definition routeForHost (hostport : string) : M ProxyState (option (VM * Z)) :=
  let host := routeHost hostport in
  let base := TrimSuffix (ToLower (BaseDomain cfg)) "." in
  let suffix := "." +:+ base in
  if negb (HasSuffix host suffix) then mret None else
  let name := TrimSuffix host suffix in
  if is_empty name then mret None else
  vm ← attempt (onWorld (dbcall (Store.GetVMByName name)));
  match vm with
  | Ok vm => mret (Some (vm, vm_DefaultHTTPPort vm))
  | Err _ =>
      route ← attempt (onWorld (dbcall (Store.GetRoute name)));
      match route with
      | Err _ => mret None
      | Ok route =>
          vm ← attempt (onWorld (dbcall (Store.GetVM (rt_VMUUID route))));
          match vm with
          | Err _ => mret None
          | Ok vm => mret (Some (vm, rt_Port route))
          end
      end
  end.

(** The end of [ServeHTTP], with [vm] as it is now. *)
Definition serve (vm : VM) (port : Z) : M ProxyState Response :=
  if negb (bool_decide (vm_State vm = "running")) then http_Error "firedoze vm is not running" 503 else
  if is_empty (vm_PrivateIP vm) then http_Error "firedoze vm has no private ip" 503 else
  attempt (onWorld (now ← db_now; dbcall (Store.TouchVMActivity now (vm_UUID vm)))) ;;
  let target := JoinHostPort (vm_PrivateIP vm) (FormatInt port) in
  t ← gets (λ s, tick (pw s));
  if answers t target then mret (Forwarded target)
  else http_Error "firedoze proxy failed (is your service running?)" 502.

Definition wake (r : Request) (host : string) (vm : VM) (port : Z) : M ProxyState Response :=
  if negb (vm_AutoWake vm) then http_Error "firedoze vm auto wake is disabled" 503 else
  ok ← approved r host;
  if negb ok then handle r host else
  started ← attempt (onWorld (starter_StartVM (vm_UUID vm)));
  match started with
  | Ok vm' => serve vm' port
  | Err ErrAlreadyRunning =>
      refreshed ← attempt (onWorld (dbcall (Store.GetVM (vm_UUID vm))));
      serve (match refreshed with Ok vm' => vm' | Err _ => vm end) port
  | Err _ => http_Error "firedoze wake failed" 503
  end.

Definition ServeHTTP (r : Request) : M ProxyState Response :=
  let host := routeHost (rq_Host r) in
  if bool_decide (rq_Method r = "GET") && bool_decide (rq_Path r = "/_firedoze/auth")
  then handleSignedAuthURL r host else
  route ← routeForHost (rq_Host r);
  match route with
  | None => http_Error "firedoze route not found" 404
  | Some (vm, port) =>
      if negb (bool_decide (vm_State vm = "running")) && negb (bool_decide (vm_State vm = "sleeping"))
      then http_Error "firedoze route not found" 404 else
      if negb (vm_PublicHTTP vm) then http_Error "firedoze route not found" 404 else
      protected ← attempt (onWorld (dbcall (Store.IsRouteHostnameProtected host)));
      match protected with
      | Err _ => http_Error "firedoze route auth unavailable" 503
      | Ok protected =>
          ok ← (if protected : bool then approved r host else mret true);
          if negb ok then http_Error "firedoze route is protected" 403
          else if bool_decide (vm_State vm = "sleeping") then wake r host vm port
          else serve vm port
      end
  end.
End proxy.
