(* ===== verification/ProxySafety.v ===== *)
(** * What the wake proxy lets through

    No request reaches a VM, and no VM is woken, without what the route asks
    for; the text of the CAPTCHA page is well formed whatever the request; and
    redirects stay on the site. *)

From S2P Require Import Prelude GoStrings Paths IPNet Crypto Json Types Store Config RouteAuth World.
From S2P Require Import PrivateNet Memory FileCopy Host Manager ManagerLocks ManagerDisk ManagerInvariant.
From S2P Require Import ManagerLifecycle ManagerEffects ManagerExamples Proxy.
Open Scope Z_scope.

Section safety.
Context `{FirecrackerVMM, Env, GoUnicode, Timestamps, Captcha, !VMStarter}.
Context (cfg : Config) (sys : Sys) (now : Z) (answers : nat → string → bool).

(** The request carries a cookie that the key [k] accepts for its host. *)
Definition authorised (k : string) (r : Request) : Prop :=
  ∃ value e, rq_Cookie r = Some value ∧ accepts k now value (routeHost (rq_Host r)) e.

(** ** Frames *)

#[local] Instance keeps_onWorld_auth {A} (m : M World A) : Keeps pauth (onWorld m).
Proof. intros s. unfold onWorld. by destruct (m (pw s)). Qed.
#[local] Instance keeps_onWorld {A B} (f : World → B) (m : M World A) :
  Keeps f m → Keeps (λ s, f (pw s)) (onWorld m).
Proof. intros Hm s. specialize (Hm (pw s)). unfold onWorld. by destruct (m (pw s)). Qed.
#[local] Instance keeps_onAuth {A B} (f : World → B) (m : M Auth A) : Keeps (λ s, f (pw s)) (onAuth m).
Proof. intros s. unfold onAuth. by destruct (m (pauth s)). Qed.

#[local] Instance keeps_serve_auth vm port : Keeps pauth (serve answers vm port).
Proof. unfold serve. apply _. Qed.

(** The part of the world waking a VM would change. *)
Definition awake_state (w : World) := (fs w, running w, vmms w, taps w).

#[local] Instance keeps_serve vm port : Keeps (λ s, awake_state (pw s)) (serve answers vm port).
Proof. unfold serve. apply _. Qed.
#[local] Instance keeps_handle r host : Keeps (λ s, awake_state (pw s)) (handle sys now r host).
Proof.
  unfold handle, serveCaptcha, verify, challenge, http_Error. apply keeps_if; [apply _|].
  apply keeps_if; [|apply _]. destruct (rq_Form r); apply _.
Qed.
#[local] Instance keeps_signed r host : Keeps (λ s, awake_state (pw s)) (handleSignedAuthURL sys now r host).
Proof. unfold handleSignedAuthURL, http_Error. apply _. Qed.

(** Reading the database. *)
Definition looked (w : World) := (db w, awake_state w).
#[local] Instance keeps_read {A} (m : M Store A) :
  (∀ s, (m s).2 = s) → Keeps (λ s, looked (pw s)) (onWorld (dbcall m)).
Proof.
  intros Hm. apply keeps_onWorld, keeps_ext; [by intros w|]. intros w. specialize (Hm (db w)).
  destruct (m (db w)) as [r s]. simpl in Hm. by subst s.
Qed.
#[local] Instance keeps_routeForHost h : Keeps (λ s, looked (pw s)) (routeForHost cfg h).
Proof.
  unfold routeForHost. cbv zeta. apply keeps_if; [apply _|]. apply keeps_if; [apply _|].
  apply keeps_bind; [apply keeps_attempt, keeps_read; done|]. intros []; [apply _|].
  apply keeps_bind; [apply keeps_attempt, keeps_read; done|]. intros []; [|apply _].
  apply keeps_bind; [apply keeps_attempt, keeps_read; done|]. intros []; apply _.
Qed.
#[local] Instance keeps_routeForHost_auth h : Keeps pauth (routeForHost cfg h).
Proof. unfold routeForHost. apply _. Qed.

(** ** Approval *)

Lemma approved_spec r s b s' :
  approved sys now r (routeHost (rq_Host r)) s = (Ok b, s') →
  pw s' = pw s ∧ (b = true → rand_full sys → authorised (key (pauth s')) r).
Proof.
  intros E. split; [exact (keeps_Ok (λ s, id (pw s)) _ _ _ _ E)|]. intros -> Hrand.
  unfold approved, onAuth in E. destruct (Approved sys now (rq_Cookie r) _ (pauth s)) as [r0 a] eqn:Ea.
  injection E as -> <-. simpl. unfold Approved in Ea. destruct (rq_Cookie r) as [value|] eqn:Hc; [|done].
  apply bind_Ok in Ea as (e & a1 & Ev & Ea). injection Ea as He <-. apply bool_decide_eq_true in He as [e1 ->].
  destruct (keyBytes sys (pauth s)) as [rk ak] eqn:Ek. destruct rk as [k|err].
  - destruct (Validate_spec sys now value (routeHost (rq_Host r)) _ _ _ Ek) as (res & Ev' & Hres).
    rewrite Ev in Ev'. injection Ev' as <- <-. destruct (keyBytes_Ok _ _ _ _ Hrand Ek) as [-> _].
    exists value, e1. split; [done|]. by apply Hres.
  - unfold RouteAuth.Validate, mbind, M_mbind, attempt in Ev. rewrite Ek in Ev. done.
Qed.

(** ** Waking *)

Lemma wake_unapproved r vm port s res s' :
  rand_full sys → wake sys now answers r (routeHost (rq_Host r)) vm port s = (res, s') →
  ¬ authorised (key (pauth s')) r → awake_state (pw s') = awake_state (pw s).
Proof.
  intros Hrand E Hno. unfold wake in E. destruct (negb (vm_AutoWake vm)); [by injection E as _ <-|].
  unfold mbind at 1, M_mbind at 1 in E.
  destruct (approved sys now r (routeHost (rq_Host r)) s) as [[b|e] s1] eqn:Ea.
  2: { injection E as _ <-. exact (keeps_Ok (λ s, awake_state (pw s)) _ _ _ _ Ea). }
  apply approved_spec in Ea as [<- Hb]. destruct b; simpl in E.
  - exfalso. apply Hno. specialize (Hb eq_refl Hrand).
    match type of E with ?m s1 = _ => assert (Keeps pauth m) as Hk end.
    { apply keeps_bind; [apply _|]. intros [|[]]; apply _. }
    by rewrite (keeps_Ok pauth _ _ _ _ E).
  - exact (keeps_Ok (λ s, awake_state (pw s)) _ _ _ _ E).
Qed.

Lemma ServeHTTP_unapproved r s res s' :
  rand_full sys → ServeHTTP cfg sys now answers r s = (res, s') →
  ¬ authorised (key (pauth s')) r → awake_state (pw s') = awake_state (pw s).
Proof.
  intros Hrand E Hno. unfold ServeHTTP in E. cbv zeta in E.
  destruct (bool_decide (rq_Method r = "GET") && _).
  { exact (keeps_Ok (λ s, awake_state (pw s)) _ _ _ _ E). }
  unfold mbind at 1, M_mbind at 1 in E.
  destruct (routeForHost cfg (rq_Host r) s) as [rt s1] eqn:E1.
  pose proof (keeps_Ok (λ s, looked (pw s)) _ _ _ _ E1) as Hk1. apply (f_equal snd) in Hk1.
  change (awake_state (pw s1) = awake_state (pw s)) in Hk1. rewrite <-Hk1.
  destruct rt as [[[vm port]|]|e]; [|by injection E as _ <-..].
  destruct (negb _ && negb _); [by injection E as _ <-|]. destruct (negb (vm_PublicHTTP vm)); [by injection E as _ <-|].
  unfold mbind at 1, M_mbind at 1 in E.
  destruct (attempt _ s1) as [rp s2] eqn:E2.
  assert (awake_state (pw s2) = awake_state (pw s1)) as Hk2.
  { exact (keeps_Ok (λ s, awake_state (pw s)) _ _ _ _ E2). }
  rewrite <-Hk2. destruct rp as [[prot|e]|e]; [|by injection E as _ <-..].
  unfold mbind at 1, M_mbind at 1 in E.
  destruct ((if prot then approved sys now r (routeHost (rq_Host r)) else mret true) s2) as [ro s3] eqn:E3.
  assert (pw s3 = pw s2) as Hk3.
  { destruct prot; [exact (keeps_Ok (λ s, id (pw s)) _ _ _ _ E3)|by injection E3 as _ <-]. }
  rewrite <-Hk3. destruct ro as [ok|e]; [|by injection E as _ <-].
  destruct (negb ok); [by injection E as _ <-|]. case_bool_decide.
  - by eapply wake_unapproved.
  - exact (keeps_Ok (λ s, awake_state (pw s)) _ _ _ _ E).
Qed.

(** ** Routing *)

(** [host] is [<name>.<base domain>] for a VM's name or a route's name. *)
Definition routed (s : Store) (host : string) (vm : VM) (port : Z) : Prop :=
  ∃ name, name ≠ "" ∧ host = name +:+ "." +:+ TrimSuffix (ToLower (BaseDomain cfg)) "." ∧
    (Store.GetVMByName name s = (Ok vm, s) ∧ port = vm_DefaultHTTPPort vm ∨
     ∃ route, Store.GetRoute name s = (Ok route, s) ∧ port = rt_Port route ∧
       Store.GetVM (rt_VMUUID route) s = (Ok vm, s)).

Lemma onWorld_attempt_read {A} (m : M Store A) s (r : result A) s' :
  (∀ st, (m st).2 = st) → attempt (onWorld (dbcall m)) s = (Ok r, s') →
  looked (pw s') = looked (pw s) ∧ ∀ a, r = Ok a → m (db (pw s)) = (Ok a, db (pw s)).
Proof.
  intros Hm E. pose proof (keeps_read m Hm) as Hk.
  split; [exact (keeps_Ok (λ s, looked (pw s)) _ _ _ _ E)|]. intros a ->.
  apply attempt_Ok in E. unfold onWorld in E. destruct (dbcall m (pw s)) as [r w] eqn:Ed.
  injection E as -> <-. apply ext_Ok in Ed. cbn [db bump] in Ed. specialize (Hm (db (pw s))).
  destruct (m (db (pw s))) as [r0 st]. simpl in Hm. subst st. by injection Ed as -> _.
Qed.

Lemma routeForHost_Some h s vm port s' :
  routeForHost cfg h s = (Ok (Some (vm, port)), s') → routed (db (pw s)) (routeHost h) vm port.
Proof.
  intros E. unfold routeForHost in E. cbv zeta in E.
  destruct (HasSuffix _ _) eqn:Hs; [|done]. simpl in E.
  destruct (is_empty _) eqn:Hn; [done|]. apply bool_decide_eq_false in Hn.
  apply HasSuffix_spec in Hs as [name Hhost]. rewrite Hhost, TrimSuffix_app in E, Hn.
  exists name. split; [done|]. split; [done|].
  apply bind_Ok in E as (rv & s1 & E1 & E). apply onWorld_attempt_read in E1 as [Hk1 Hv1]; [|done].
  apply (f_equal fst) in Hk1. simpl in Hk1. destruct rv as [vm0|e].
  { injection E as <- <- <-. left. by split; [apply Hv1|]. }
  apply bind_Ok in E as (rr & s2 & E2 & E). apply onWorld_attempt_read in E2 as [Hk2 Hv2]; [|done].
  apply (f_equal fst) in Hk2. simpl in Hk2. destruct rr as [route|e2]; [|done].
  apply bind_Ok in E as (rv & s3 & E3 & E). apply onWorld_attempt_read in E3 as [Hk3 Hv3]; [|done].
  destruct rv as [vm1|]; [|done]. injection E as <- <- <-. right. exists route.
  rewrite <-Hk1. split; [by apply Hv2|]. split; [done|]. rewrite <-Hk2. by apply Hv3.
Qed.

(** ** Forwarding *)

(** What the proxy relies on in a [VMStarter]: an invariant [Q] of the database
    and the processes that it keeps, and the row it returns. *)
Class StarterSpec (Q : Store → gmap string Process → Prop) : Prop := {
  sp_store s run : Q s run → store_ok s;
  sp_keeps u w : Q (db w) (running w) →
    Q (db (starter_StartVM u w).2) (running (starter_StartVM u w).2);
  sp_row u w vm w' : Q (db w) (running w) → starter_StartVM u w = (Ok vm, w') →
    vms (db w') !! u = Some vm;
}.

Lemma serve_Forwarded vm port s target s' :
  serve answers vm port s = (Ok (Forwarded target), s') →
  vm_State vm = "running" ∧ vm_PrivateIP vm ≠ "" ∧
  target = JoinHostPort (vm_PrivateIP vm) (FormatInt port) ∧ pauth s' = pauth s.
Proof.
  intros E. pose proof (keeps_Ok pauth _ _ _ _ E) as Ha. unfold serve in E.
  destruct (bool_decide (vm_State vm = "running")) eqn:Hst; [|done]. apply bool_decide_eq_true in Hst.
  simpl in E. destruct (is_empty (vm_PrivateIP vm)) eqn:Hip; [done|]. apply bool_decide_eq_false in Hip.
  apply bind_Ok in E as (x & s1 & _ & E). apply bind_Ok in E as (t & s2 & _ & E).
  destruct (answers t _); [|done]. by injection E as <- _.
Qed.

Lemma handle_not_Forwarded r host s target s' :
  handle sys now r host s ≠ (Ok (Forwarded target), s').
Proof.
  intros E. unfold handle, serveCaptcha, verify, challenge, http_Error in E.
  destruct (bool_decide (rq_Method r = "GET") && _); [by destruct (captcha_Known _)|].
  destruct (bool_decide (rq_Method r = "POST") && _).
  - destruct (rq_Form r); [|done]. destruct (negb _); [done|].
    apply bind_Ok in E as ([|] & s1 & _ & E); done.
  - destruct (bool_decide _); [|done]. by apply bind_Ok in E as (id & s1 & _ & E).
Qed.

Lemma wake_Forwarded Q `{!StarterSpec Q} r vm port s target s' :
  rand_full sys → Q (db (pw s)) (running (pw s)) →
  wake sys now answers r (routeHost (rq_Host r)) vm port s = (Ok (Forwarded target), s') →
  vm_State vm = "sleeping" →
  vm_AutoWake vm = true ∧ authorised (key (pauth s')) r ∧
  ∃ vm', vm_UUID vm' = vm_UUID vm ∧ vm_State vm' = "running" ∧
    target = JoinHostPort (vm_PrivateIP vm') (FormatInt port).
Proof.
  intros Hrand HQ E Hst. unfold wake in E. destruct (vm_AutoWake vm); [|done]. simpl in E. split; [done|].
  apply bind_Ok in E as (ok & s1 & E1 & E). apply approved_spec in E1 as [Hw1 Hok].
  destruct ok; [|by apply handle_not_Forwarded in E]. specialize (Hok eq_refl Hrand). simpl in E.
  apply bind_Ok in E as (st & s2 & E2%attempt_Ok & E). rewrite <-Hw1 in HQ.
  pose proof (keeps_Ok pauth _ _ _ _ E2) as Ha2.
  unfold onWorld in E2. pose proof (sp_keeps (vm_UUID vm) (pw s1) HQ) as HQ2.
  destruct (starter_StartVM (vm_UUID vm) (pw s1)) as [r0 w2] eqn:Es. simpl in HQ2.
  injection E2 as -> <-. simpl in Ha2.
  destruct st as [vm'|e].
  - apply serve_Forwarded in E as (Hrun & _ & Ht & Ha). rewrite Ha. split; [done|].
    exists vm'. split; [|done].
    apply (ok_uuid _ (sp_store _ _ HQ2)). exact (sp_row _ _ _ _ HQ Es).
  - assert (e = ErrAlreadyRunning) as -> by (destruct e; first [reflexivity|discriminate E]).
    apply bind_Ok in E as (rf & s3 & E3 & E). pose proof (keeps_Ok pauth _ _ _ _ E3) as Ha3.
    apply onWorld_attempt_read in E3 as [_ Hrow]; [|done]. simpl in Hrow, Ha3.
    apply serve_Forwarded in E as (Hrun & _ & Ht & Ha). rewrite Ha, Ha3. split; [done|].
    destruct rf as [vm'|]; [|congruence]. exists vm'. split; [|done].
    specialize (Hrow vm' eq_refl). unfold Store.GetVM in Hrow.
    destruct (vms (db w2) !! vm_UUID vm) eqn:Hv; [|done]. injection Hrow as ->.
    by apply (ok_uuid _ (sp_store _ _ HQ2)).
Qed.

(** C10.  A request the proxy forwards to a VM is routed to it by name (its own
    or a route's, under the base domain) and the VM is public; if the host name
    is protected, or the VM had to be woken, the request carries a cookie the
    manager's key accepts for this host at this time; a woken VM has auto-wake
    enabled; and the request goes to the private address of that VM, running,
    at the routed port. *)
Theorem ServeHTTP_forwards Q `{!StarterSpec Q} r s target s' :
  rand_full sys → Q (db (pw s)) (running (pw s)) →
  ServeHTTP cfg sys now answers r s = (Ok (Forwarded target), s') →
  ∃ vm port vm', routed (db (pw s)) (routeHost (rq_Host r)) vm port ∧ vm_PublicHTTP vm = true ∧
    (NormalizeHostname (routeHost (rq_Host r)) ∈ route_protections (db (pw s)) →
     authorised (key (pauth s')) r) ∧
    (vm_State vm = "running" ∧ vm' = vm ∨
     vm_State vm = "sleeping" ∧ vm_AutoWake vm = true ∧ authorised (key (pauth s')) r) ∧
    vm_UUID vm' = vm_UUID vm ∧ vm_State vm' = "running" ∧
    target = JoinHostPort (vm_PrivateIP vm') (FormatInt port).
Proof.
  intros Hrand HQ E. unfold ServeHTTP in E. cbv zeta in E.
  destruct (bool_decide (rq_Method r = "GET") && _).
  { unfold handleSignedAuthURL, http_Error in E. apply bind_Ok in E as ([e|] & s1 & _ & E); [|done].
    apply bind_Ok in E as ([|] & s2 & _ & E); done. }
  apply bind_Ok in E as (rt & s1 & E1 & E). destruct rt as [[vm port]|]; [|done].
  pose proof (keeps_Ok (λ s, looked (pw s)) _ _ _ _ E1) as Hk1.
  injection Hk1 as Hdb1 _ Hrun1 _ _. apply routeForHost_Some in E1 as Hroute.
  destruct (negb _ && negb _) eqn:Hst; [done|]. destruct (vm_PublicHTTP vm) eqn:Hpub; [|done]. simpl in E.
  apply bind_Ok in E as (rp & s2 & E2 & E). apply onWorld_attempt_read in E2 as [Hk2 Hprot]; [|done].
  injection Hk2 as Hdb2 _ Hrun2 _ _. destruct rp as [prot|e]; [|done].
  specialize (Hprot prot eq_refl). injection Hprot as Hprot. rewrite Hdb1 in Hprot.
  apply bind_Ok in E as (ok & s3 & E3 & E).
  assert (pw s3 = pw s2 ∧ (ok = true → prot = true → authorised (key (pauth s3)) r)) as [Hw3 Hok].
  { destruct prot; [|by injection E3 as _ <-]. apply approved_spec in E3 as [? Hb]. auto. }
  destruct ok; [|done]. specialize (Hok eq_refl). simpl in E.
  exists vm, port. case_bool_decide as Hsl.
  - rewrite <-Hw3 in Hdb2, Hrun2. rewrite <-Hdb1, <-Hrun1, <-Hdb2, <-Hrun2 in HQ.
    destruct (wake_Forwarded Q r vm port s3 target s' Hrand HQ E Hsl) as (Hauto & Hauth & vm' & Hu & Hr & Ht).
    exists vm'. split_and!; try done. by right.
  - apply serve_Forwarded in E as (Hr & _ & Ht & Ha). exists vm. rewrite Ha.
    split_and!; try done; [|by left]. intros Hin. apply Hok. rewrite <-Hprot. by apply bool_decide_eq_true.
Qed.

(** C11.  A request without an accepted cookie wakes nothing: whatever it asks
    for, and whatever fails, no file, process, VMM or TAP device is changed. *)
Theorem ServeHTTP_wakes_only_approved r s res s' :
  rand_full sys → ServeHTTP cfg sys now answers r s = (res, s') →
  ¬ authorised (key (pauth s')) r → awake_state (pw s') = awake_state (pw s).
Proof. apply ServeHTTP_unapproved. Qed.
End safety.

(** ** The manager is such a starter *)

Section manager_starter.
Context `{FirecrackerVMM, Env, SparseSeek, GoUnicode, TimestampLaws}.
Context (cfg : Config) (vmsDir : option string) (NetworkScript : string).

Definition manager_starter : VMStarter := StartVM cfg vmsDir NetworkScript.

Lemma manager_starter_spec : @StarterSpec _ manager_starter (sound cfg).
Proof.
  split.
  - intros s run. apply so_store.
  - intros u w Hw. exact (proj1 (pres (I := inv cfg None) (m := StartVM cfg vmsDir NetworkScript u) w (conj Hw I))).
  - intros u w vm w' Hw E. by destruct (StartVM_up cfg vmsDir NetworkScript u w vm w' Hw E) as (_ & ? & _).
Qed.
End manager_starter.

(** ** Text *)

(** Escaped text cannot end an attribute or open a tag. *)
Definition html_safe (c : ascii) : bool :=
  negb (bool_decide (c = quote_char ∨ c = "<"%char ∨ c = ">"%char ∨ c = "'"%char)).

Lemma EscapeString_safe s : str_forall html_safe (EscapeString s) = true.
Proof.
  induction s as [|c s IH]; [done|]. simpl. rewrite str_forall_app, IH, andb_true_r.
  unfold html_char. repeat case_bool_decide; try done. cbn [str_forall]. rewrite andb_true_r.
  unfold html_safe. rewrite bool_decide_eq_false_2; [done|]. tauto.
Qed.

(** A redirect goes to a path of the same site... *)
Lemma localNext_path next :
  HasPrefix (localNext next) "/" = true ∧ HasPrefix (localNext next) "//" = false.
Proof.
  unfold localNext. destruct (is_empty next); [done|]. cbn [orb].
  destruct (HasPrefix next "/") eqn:Hs; [|by vm_compute].
  destruct (HasPrefix next "//") eqn:Hd; [by vm_compute|]. cbn [negb orb]. by rewrite Hs, Hd.
Qed.

(** ... as a URL path; what browsers read as a second slash is let through. *)
Lemma localNext_backslash : localNext "/\evil.example" = "/\evil.example".
Proof. reflexivity. Qed.

(** ** Examples *)

Definition test_captcha : Captcha :=
  {| captcha_New n := FormatInt (Z.of_nat n); captcha_VerifyString _ a := bool_decide (a = "12345");
     captcha_Known _ := true |}.

Definition web_request : Request :=
  MkRequest "GET" "WEB.dev.example.com:443" "/" "/" None (λ _, "") None.

Definition web_starter : @VMStarter toy_vmm :=
  @manager_starter toy_vmm calm dense_seek ascii_only decimal_stamps cold_config None "script".
Definition web_proxy (w : @World toy_vmm) : result Response * @ProxyState toy_vmm :=
  @ServeHTTP toy_vmm calm ascii_only decimal_stamps test_captcha web_starter cold_config quiet 0
    (λ _ _, true) web_request (MkProxy w (MkAuth test_key None)).

Lemma quiet_full : rand_full quiet.
Proof. by intros k [= <-]. Qed.

Lemma ServeHTTP_forwards_witness :
  let w := (start (create host_world).2).2 in
  (web_proxy w).1 = Ok (Forwarded "[fd7a:115c:a1e0::3]:8080") ∧
  ∃ vm port vm', @routed ascii_only cold_config (db w) "web.dev.example.com" vm port ∧
    vm_PublicHTTP vm = true ∧ "[fd7a:115c:a1e0::3]:8080" = JoinHostPort (vm_PrivateIP vm') (FormatInt port).
Proof.
  cbv zeta. assert ((web_proxy (start (create host_world).2).2).1 = Ok (Forwarded "[fd7a:115c:a1e0::3]:8080")) as E
    by (vm_compute; reflexivity).
  split; [exact E|].
  pose proof (start_inv _ created_inv) as [Hs _].
  assert (web_proxy (start (create host_world).2).2 =
    (Ok (Forwarded "[fd7a:115c:a1e0::3]:8080"), (web_proxy (start (create host_world).2).2).2)) as E2
    by (rewrite <-E; apply surjective_pairing).
  unfold web_proxy at 1 in E2.
  destruct (@ServeHTTP_forwards toy_vmm calm ascii_only decimal_stamps test_captcha web_starter cold_config
    quiet 0 (λ _ _, true) (sound cold_config)
    (@manager_starter_spec toy_vmm calm dense_seek ascii_only decimal_stamps decimal_stamps_laws
       cold_config None "script") web_request
    (MkProxy (start (create host_world).2).2 (MkAuth test_key None)) _ _ quiet_full Hs E2)
    as (vm & port & vm' & Hr & Hp & _ & _ & _ & _ & Ht).
  exists vm, port, vm'. split; [exact Hr|]. split; [exact Hp|exact Ht].
Defined.

(** The same visitor, without a cookie, while the VM sleeps. *)
Lemma ServeHTTP_wakes_only_approved_witness :
  let w := (sleep (start (create host_world).2).2).2 in
  let '(res, s') := web_proxy w in
  (∃ page, res = Ok (Page page)) ∧ awake_state (pw s') = awake_state w.
Proof.
  cbv zeta. destruct (web_proxy (sleep (start (create host_world).2).2).2) as [res s'] eqn:E. split.
  - assert (match (web_proxy (sleep (start (create host_world).2).2).2).1 with Ok (Page _) => true | _ => false end
      = true) as Hp by (vm_compute; reflexivity).
    rewrite E in Hp. simpl in Hp. destruct res as [[]|]; try discriminate Hp. by eexists.
  - unfold web_proxy in E.
    apply (@ServeHTTP_wakes_only_approved toy_vmm calm ascii_only decimal_stamps test_captcha web_starter
      cold_config quiet 0 (λ _ _, true) web_request
      (MkProxy (sleep (start (create host_world).2).2).2 (MkAuth test_key None)) res s' quiet_full E).
    intros (value & e & Hc & _). discriminate Hc.
Defined.
