(* ===== verification/Caddy.v ===== *)
(** * The Caddy configuration (internal/proxy/caddy.go)

    [caddyConfig] as a list of routes and as the JSON given to Caddy.  Caddy
    itself is the class [CaddyRouting]: what a server does with a request, and
    which hosts and paths a matcher takes; [CaddyLaws] is what its documentation
    says of the routes used here. *)

From S2P Require Import Prelude GoStrings IPNet Json Types Store Config World.
Open Scope Z_scope.

(** A route: what it matches and what it does. *)
Inductive route :=
  | reverseProxyRoute (host upstream : string)
  | routeAuthRoute (upstream : string)
  | baseDomainRoute (host : string)
  | routeNotFoundRoute
  | redirectToHTTPSRoute (host : string).

(** ** As JSON: Go marshals the keys of a map in sorted order *)

Definition proxy_handle (upstream : string) : string * json :=
  ("handle", JArray [JObject [("handler", JString "reverse_proxy");
     ("upstreams", JArray [JObject [("dial", JString upstream)]])]]).
Definition match_host (host : string) : string * json :=
  ("match", JArray [JObject [("host", JArray [JString host])]]).
Definition static_handle (body status : string) : string * json :=
  ("handle", JArray [JObject [("body", JString (body +:+ newline)); ("handler", JString "static_response");
     ("status_code", JString status)]]).

Definition route_json (r : route) : json :=
  match r with
  | reverseProxyRoute host upstream => JObject [proxy_handle upstream; match_host host]
  | routeAuthRoute upstream =>
      JObject [proxy_handle upstream;
               ("match", JArray [JObject [("path", JArray [JString "/_firedoze/auth"])]])]
  | baseDomainRoute host => JObject [static_handle "firedoze is running" "200"; match_host host]
  | routeNotFoundRoute => JObject [static_handle "firedoze route not found" "404"]
  | redirectToHTTPSRoute host =>
      JObject [("handle", JArray [JObject [("handler", JString "static_response");
          ("headers", JObject [("Location", JArray [JString "https://{http.request.host}{http.request.uri}"])]);
          ("status_code", JString "308")]]); match_host host]
  end.

Section caddy.
Context (cfg : Config).

Definition wakeProxyUpstream : string :=
  JoinHostPort "127.0.0.1" (FormatInt (cd_InternalProxyPort (Caddy cfg))).

Definition DefaultHost (vmName baseDomain : string) : string := vmName +:+ "." +:+ baseDomain.

(** The loops of [caddyConfig]: routes, public hosts (a list with its set) and
    the number of VM routes. *)
Record build := MkBuild { b_routes : list route; b_hosts : list string; b_count : Z }.

Definition add_host (host : string) (b : build) : build :=
  if bool_decide (host ∈ b_hosts b) then b
  else MkBuild (b_routes b) (b_hosts b ++ [host]) (b_count b).

Definition add_proxied (host : string) (b : build) : build :=
  let b := add_host host b in
  MkBuild (b_routes b ++ [reverseProxyRoute host wakeProxyUpstream]) (b_hosts b) (b_count b + 1).

Definition add_vm (b : build) (vm : VM) : build :=
  if bool_decide (vm_PrivateIP vm = "") || negb (vm_PublicHTTP vm) then b
  else add_proxied (vm_Name vm +:+ "." +:+ BaseDomain cfg) b.

(** [vmsByName[alias.VMName]]: the last VM of that name. *)
Definition vm_named (vms : list VM) (name : string) : option VM :=
  last (filter (λ vm, vm_Name vm = name) vms).

Definition add_alias (vms : list VM) (b : build) (alias : Route) : build :=
  match vm_named vms (rt_VMName alias) with
  | None => b
  | Some vm =>
      if bool_decide (vm_PrivateIP vm = "") || negb (vm_PublicHTTP vm) then b
      else add_proxied (rt_Name alias +:+ "." +:+ BaseDomain cfg) b
  end.

Definition add_protected (b : build) (host : string) : build :=
  if bool_decide (host ∈ b_hosts b) then b
  else MkBuild (b_routes b ++ [reverseProxyRoute host wakeProxyUpstream]) (b_hosts b ++ [host]) (b_count b).

Definition build_routes (vms : list VM) (aliases : list Route) (protectedHosts : list string) : build :=
  let b := MkBuild [routeAuthRoute wakeProxyUpstream; baseDomainRoute (BaseDomain cfg)]
             [BaseDomain cfg] 0 in
  let b := fold_left add_vm vms b in
  let b := fold_left (add_alias vms) aliases b in
  let b := fold_left add_protected protectedHosts b in
  MkBuild (b_routes b ++ [routeNotFoundRoute]) (b_hosts b) (b_count b).

(** The servers: name, port and routes. *)
Record server := MkServer { sv_name : string; sv_port : Z; sv_routes : list route; sv_tls : bool }.

Definition servers (vms : list VM) (aliases : list Route) (protectedHosts : list string) : list server :=
  let b := build_routes vms aliases protectedHosts in
  if bool_decide (cd_TLSMode (Caddy cfg) = "behind_proxy")
  then [MkServer "firedoze_http" (cd_HTTPPort (Caddy cfg)) (b_routes b) false]
  else [MkServer "firedoze_http" (cd_HTTPPort (Caddy cfg))
          ((redirectToHTTPSRoute <$> b_hosts b) ++ [routeNotFoundRoute]) false;
        MkServer "firedoze_https" (cd_HTTPSPort (Caddy cfg)) (b_routes b) true].

Definition server_json (s : server) : string * json :=
  (sv_name s, JObject ([("listen", JArray [JString (":" +:+ FormatInt (sv_port s))]);
                        ("routes", JArray (route_json <$> sv_routes s))] ++
                       (if sv_tls s then [("tls_connection_policies", JArray [JObject []])] else []))).

Definition caddyConfig (vms : list VM) (aliases : list Route) (protectedHosts : list string) : json * Z :=
  (JObject [
    ("admin", JObject [("disabled", JBool true)]);
    ("apps", JObject [("http", JObject [
       ("http_port", JInt (cd_HTTPPort (Caddy cfg)));
       ("https_port", JInt (cd_HTTPSPort (Caddy cfg)));
       ("servers", JObject (server_json <$> servers vms aliases protectedHosts))])])],
   b_count (build_routes vms aliases protectedHosts)).

(** [caddyLoad] is Caddy's: it takes the text, or fails. *)
Definition Reconcile `{FirecrackerVMM, Env, GoUnicode} (caddyLoad : string → M World unit) : M World unit :=
  vms ← dbcall Store.ListVMs;
  aliases ← dbcall Store.ListRoutes;
  protectedHosts ← dbcall Store.ListRouteProtections;
  caddyLoad (Marshal (caddyConfig vms aliases protectedHosts).1).
End caddy.

(** ** What a server does with a request *)

Inductive action :=
  | Proxied (upstream : string)
  | Static (status : string)
  | Redirected (status location : string)
  | NoRoute.

(** [caddy_serve routes host path]: what becomes of a request at a server with
    these routes; [host_matches h host] and [path_matches p path]: Caddy's host
    and path matchers. *)
Class CaddyRouting := {
  host_matches : string → string → bool;
  path_matches : string → string → bool;
  caddy_serve : list json → string → string → action;
}.

Section routing.
Context `{CaddyRouting}.

(** Whether a route takes a request, and what its handler does. *)
Definition route_takes (r : route) (host path : string) : bool :=
  match r with
  | reverseProxyRoute h _ | baseDomainRoute h | redirectToHTTPSRoute h => host_matches h host
  | routeAuthRoute _ => path_matches "/_firedoze/auth" path
  | routeNotFoundRoute => true
  end.
Definition route_does (r : route) : action :=
  match r with
  | reverseProxyRoute _ up | routeAuthRoute up => Proxied up
  | baseDomainRoute _ => Static "200"
  | routeNotFoundRoute => Static "404"
  | redirectToHTTPSRoute _ => Redirected "308" "https://{http.request.host}{http.request.uri}"
  end.

(** Documented for the HTTP app of Caddy: routes are tried in order; a route with
    no matcher takes every request; reverse_proxy and static_response answer the
    request, so that no later route is tried. *)
Class CaddyLaws : Prop := {
  serve_none host path : caddy_serve [] host path = NoRoute;
  serve_first r rs host path : caddy_serve (route_json r :: rs) host path =
    if route_takes r host path then route_does r else caddy_serve rs host path;
}.
End routing.

(** ** Properties *)

Section exposure.
Context (cfg : Config).

#[local] Abbreviation base := (BaseDomain cfg).
#[local] Abbreviation upstream := (wakeProxyUpstream cfg).

Definition reachable (vm : VM) : Prop := vm_PrivateIP vm ≠ "" ∧ vm_PublicHTTP vm = true.

(** The host names the program means to serve. *)
Definition exposed (vms : list VM) (aliases : list Route) (protectedHosts : list string) (host : string) : Prop :=
  (∃ vm, vm ∈ vms ∧ reachable vm ∧ host = vm_Name vm +:+ "." +:+ base) ∨
  (∃ alias vm, alias ∈ aliases ∧ vm_named vms (rt_VMName alias) = Some vm ∧ reachable vm ∧
     host = rt_Name alias +:+ "." +:+ base) ∨
  host ∈ protectedHosts.

(** [b] proxies exactly the hosts in [S], next to the two fixed routes. *)
Definition proxies (b : build) (S : string → Prop) : Prop :=
  ∃ L, b_routes b = [routeAuthRoute upstream; baseDomainRoute base] ++
                    ((λ h, reverseProxyRoute h upstream) <$> L) ∧
    (∀ h, h = base ∨ h ∈ L ↔ h = base ∨ S h) ∧ (∀ h, h ∈ b_hosts b ↔ h = base ∨ S h).

Lemma proxies_ext b S S' : (∀ h, S h ↔ S' h) → proxies b S → proxies b S'.
Proof. intros HS (L & Hr & Hl & Hh). exists L. split_and!; [done|..]; intros h; rewrite <-HS; auto. Qed.

Lemma add_proxied_proxies host b S :
  proxies b S → proxies (add_proxied cfg host b) (λ h, S h ∨ h = host).
Proof.
  intros (L & Hr & Hl & Hh). exists (L ++ [host]). unfold add_proxied, add_host. split_and!.
  - case_bool_decide; simpl; by rewrite Hr, fmap_app.
  - intros h. rewrite elem_of_app, list_elem_of_singleton. specialize (Hl h). tauto.
  - intros h. case_bool_decide as Hin; simpl.
    + rewrite Hh. apply Hh in Hin. destruct (decide (h = host)) as [->|]; tauto.
    + rewrite elem_of_app, list_elem_of_singleton, Hh. tauto.
Qed.

Lemma add_protected_proxies host b S :
  proxies b S → proxies (add_protected cfg b host) (λ h, S h ∨ h = host).
Proof.
  intros (L & Hr & Hl & Hh). unfold add_protected. case_bool_decide as Hin.
  - exists L. split; [done|]. apply Hh in Hin.
    split; intros h; [specialize (Hl h)|rewrite Hh]; destruct (decide (h = host)) as [->|]; tauto.
  - exists (L ++ [host]). simpl. split_and!.
    + by rewrite Hr, fmap_app.
    + intros h. rewrite elem_of_app, list_elem_of_singleton. specialize (Hl h). tauto.
    + intros h. rewrite elem_of_app, list_elem_of_singleton, Hh. tauto.
Qed.

(** Each loop adds its hosts. *)
Lemma fold_proxies {A} (f : build → A → build) (host : A → string → Prop) l b S :
  (∀ b S x, proxies b S → proxies (f b x) (λ h, S h ∨ host x h)) →
  proxies b S → proxies (fold_left f l b) (λ h, S h ∨ ∃ x, x ∈ l ∧ host x h).
Proof.
  intros Hf. revert b S. induction l as [|x l IH]; intros b S Hb; simpl.
  - eapply proxies_ext; [|exact Hb]. intros h. set_solver.
  - eapply proxies_ext; [|apply IH, Hf, Hb]. intros h. set_solver.
Qed.

Lemma skipped_false vm :
  bool_decide (vm_PrivateIP vm = "") || negb (vm_PublicHTTP vm) = false ↔ reachable vm.
Proof.
  unfold reachable. rewrite orb_false_iff, bool_decide_eq_false, negb_false_iff. done.
Qed.

Lemma build_proxies vms aliases prot :
  proxies (fold_left (add_protected cfg) prot
            (fold_left (add_alias cfg vms) aliases
              (fold_left (add_vm cfg) vms
                (MkBuild [routeAuthRoute upstream; baseDomainRoute base] [base] 0))))
          (exposed vms aliases prot).
Proof.
  eapply proxies_ext; cycle 1.
  - apply (fold_proxies _ (λ x h, h = x)); [intros b S x; apply add_protected_proxies|].
    apply (fold_proxies _ (λ alias h, ∃ vm, vm_named vms (rt_VMName alias) = Some vm ∧ reachable vm ∧
      h = rt_Name alias +:+ "." +:+ base)).
    { intros b S alias Hb. unfold add_alias. destruct (vm_named _ _) as [vm|].
      2: { eapply proxies_ext; [|exact Hb]. naive_solver. }
      destruct (_ || _) eqn:Hsk.
      - eapply proxies_ext; [|exact Hb]. intros h. split; [tauto|]. intros [?|(v & [= <-] & Hv & _)]; [done|].
        apply skipped_false in Hv. congruence.
      - eapply proxies_ext; [|apply add_proxied_proxies, Hb]. intros h. apply skipped_false in Hsk.
        naive_solver. }
    apply (fold_proxies _ (λ vm h, reachable vm ∧ h = vm_Name vm +:+ "." +:+ base) _ _ (λ _, False)).
    { intros b S vm Hb. unfold add_vm. destruct (_ || _) eqn:Hsk.
      - eapply proxies_ext; [|exact Hb]. intros h. split; [tauto|]. intros [?|(Hv & _)]; [done|].
        apply skipped_false in Hv. congruence.
      - eapply proxies_ext; [|apply add_proxied_proxies, Hb]. intros h. apply skipped_false in Hsk.
        naive_solver. }
    exists []. split; [done|]. split; intros h; simpl; set_solver.
  - intros h. unfold exposed. simpl. naive_solver.
Qed.

(** ** Serving *)

Context `{CaddyLaws}.

#[local] Abbreviation serve rs := (caddy_serve (route_json <$> rs)).

Definition takes_some (hosts : list string) (host : string) : bool := existsb (λ h, host_matches h host) hosts.

(** Routes of one kind, one for each of some hosts. *)
Lemma serve_hosts (mk : string → route) (a : action) L rest host path :
  (∀ h, route_takes (mk h) host path = host_matches h host) → (∀ h, route_does (mk h) = a) →
  serve ((mk <$> L) ++ rest) host path = if takes_some L host then a else serve rest host path.
Proof.
  intros Ht Ha. induction L as [|h L IH]; [done|]. rewrite fmap_cons. cbn [app fmap list_fmap].
  rewrite serve_first, Ht, Ha. cbn [takes_some existsb]. destruct (host_matches h host); [done|]. exact IH.
Qed.

Lemma takes_some_spec L host : takes_some L host = true ↔ ∃ h, h ∈ L ∧ host_matches h host = true.
Proof.
  unfold takes_some. rewrite existsb_exists. by setoid_rewrite <-list_elem_of_In.
Qed.
End exposure.


(** ** Witness: matchers that ignore the case of ASCII letters *)

Definition member (k : string) (j : json) : option json :=
  match j with JObject fields => snd ∘ snd <$> list_find (λ f, f.1 = k) fields | _ => None end.
Definition the_one (j : json) : option json := match j with JArray [x] => Some x | _ => None end.
Definition the_text (j : json) : option string := match j with JString t => Some t | _ => None end.
Definition fold_eq (a b : string) : bool := bool_decide (str_map lower_char a = str_map lower_char b).

Definition one_at (k : string) (j : json) : option json := m ← member k j; the_one m.
Definition text_at (k : string) (j : json) : option string := m ← member k j; the_text m.
Definition one_text_at (k : string) (j : json) : option string := m ← one_at k j; the_text m.

(** The one handler of a route, and its one matcher. *)
Definition json_action (j : json) : option action :=
  h ← one_at "handle" j;
  kind ← text_at "handler" h;
  if bool_decide (kind = "reverse_proxy")
  then up ← one_at "upstreams" h; Proxied <$> text_at "dial" up
  else
    status ← text_at "status_code" h;
    match member "headers" h with
    | Some headers => Redirected status <$> one_text_at "Location" headers
    | None => Some (Static status)
    end.
Definition json_takes (j : json) (host path : string) : bool :=
  match one_at "match" j with
  | None => true
  | Some m =>
      match one_text_at "host" m, one_text_at "path" m with
      | Some h, _ => fold_eq h host
      | None, Some p => fold_eq p path
      | None, None => false
      end
  end.
Fixpoint json_serve (rs : list json) (host path : string) : action :=
  match rs with
  | [] => NoRoute
  | r :: rs' => if json_takes r host path then default NoRoute (json_action r) else json_serve rs' host path
  end.
Definition fold_routing : CaddyRouting :=
  {| host_matches := fold_eq; path_matches := fold_eq; caddy_serve := json_serve |}.

#[export] Instance fold_routing_laws : @CaddyLaws fold_routing.
Proof. split; [done|]. intros r rs host path. by destruct r. Qed.

