(* ===== verification/Dns.v ===== *)
(** * The DNS server (internal/dns/server.go)

    Names below the configured domain are answered from the VM table, all
    others are forwarded.  The wire format and the exchange with an upstream
    server are the DNS library's; [Exchange] is the latter. *)

From S2P Require Import Prelude GoStrings IPNet Types Store Config World.
Open Scope Z_scope.

Definition TypeA : Z := 1.
Definition TypeAAAA : Z := 28.
Definition TypeANY : Z := 255.
Definition RcodeSuccess : Z := 0.
Definition RcodeFormatError : Z := 1.
Definition RcodeServerFailure : Z := 2.
Definition RcodeNameError : Z := 3.

Record Question := MkQuestion { q_Name : string; q_Qtype : Z }.
Record AAAA := MkAAAA { rr_Name : string; rr_Ttl : Z; rr_AAAA : Z }.

(** The message written back: a reply of the server's own, or an upstream
    server's, unchanged. *)
Inductive reply (Msg : Type) :=
  | Reply (rcode : Z) (answer : list AAAA)
  | Relayed (resp : Msg).
Arguments Reply {_} _ _.
Arguments Relayed {_} _.

Section dns.
Context `{FirecrackerVMM, Env, GoUnicode}.
(** An upstream server's answer to the request, when it gives one. *)
Context {Msg : Type} (Exchange : nat → string → option Msg).
Context (cfg : DNSConfig).

Definition normalizeDomain (domain : string) : string :=
  let domain := TrimSuffix (ToLower (TrimSpace domain)) "." in
  (if bool_decide (domain = "") then "firedoze" else domain) +:+ ".".

Definition domain : string := normalizeDomain (dns_Domain cfg).

Definition vmName (name : string) : option string :=
  if negb (HasSuffix name ("." +:+ domain)) then None
  else
    let label := TrimSuffix name ("." +:+ domain) in
    if bool_decide (label = "") || GoStrings.Contains label "." then None else Some label.

Definition newReply (rcode : Z) : reply Msg := Reply rcode [].

Definition answerVM (q : Question) (name : string) : M World (reply Msg) :=
  if negb (bool_decide (q_Qtype q = TypeAAAA)) && negb (bool_decide (q_Qtype q = TypeANY))
  then mret (newReply RcodeSuccess)
  else
    vm ← attempt (dbcall (Store.GetVMByName name));
    mret match vm with
         | Err _ => newReply RcodeNameError
         | Ok vm =>
             match ParseIP (vm_PrivateIP vm) with
             | None => newReply RcodeNameError
             | Some ip =>
                 if is_v4 ip then newReply RcodeNameError
                 else Reply RcodeSuccess [MkAAAA (q_Name q) (dns_TTLSeconds cfg mod 2 ^ 32) ip]
             end
         end.

Fixpoint forward_loop (t : nat) (upstreams : list string) : reply Msg :=
  match upstreams with
  | [] => newReply RcodeServerFailure
  | u :: rest => match Exchange t u with Some resp => Relayed resp | None => forward_loop t rest end
  end.
Definition forward : M World (reply Msg) :=
  t ← ticks; mret (forward_loop t (dns_UpstreamServers cfg)).

Definition handle (questions : list Question) : M World (reply Msg) :=
  match questions with
  | [] => mret (newReply RcodeFormatError)
  | q :: _ =>
      match vmName (ToLower (q_Name q)) with
      | Some name => answerVM q name
      | None => forward
      end
  end.

(** ** Properties *)

(** A name one label below the domain, and only such a name, is the VM's. *)
Lemma vmName_spec name label :
  vmName name = Some label ↔
  name = label +:+ "." +:+ domain ∧ label ≠ "" ∧ GoStrings.Contains label "." = false.
Proof.
  unfold vmName. destruct (HasSuffix name ("." +:+ domain)) eqn:Hs; simpl.
  - apply HasSuffix_spec in Hs as [t ->]. rewrite TrimSuffix_app.
    case_bool_decide as Ht; simpl.
    { split; [done|]. intros (E%str_app_inj_r & Hne & _). congruence. }
    destruct (GoStrings.Contains t ".") eqn:Hc.
    + split; [done|]. intros (E%str_app_inj_r & _ & Hc'). congruence.
    + split; [by intros [= <-]|]. by intros (E%str_app_inj_r & _ & _); subst.
  - split; [done|]. intros (-> & _). exfalso. by rewrite HasSuffix_app in Hs.
Qed.

(** C30.  What the DNS server answers.  For the name of a VM below its domain,
    in any case, an AAAA query gets exactly the VM's address (or a name error
    when there is no such VM or it has no IPv6 address), and such names are
    never sent to an upstream server; any other name is answered by the first
    upstream server that answers, unchanged, or with a server failure. *)
Theorem dns_handle_correct q rest w r w' :
  handle (q :: rest) w = (Ok r, w') →
  (∀ label, ToLower (q_Name q) = label +:+ "." +:+ domain → label ≠ "" →
     GoStrings.Contains label "." = false →
     (∀ resp, r ≠ Relayed resp) ∧
     (q_Qtype q = TypeAAAA → fate (tick w) = Proceed →
        ((∃ vm ip, Store.GetVMByName label (db w) = (Ok vm, db w) ∧ ParseIP (vm_PrivateIP vm) = Some ip ∧
            is_v4 ip = false ∧ r = Reply RcodeSuccess [MkAAAA (q_Name q) (dns_TTLSeconds cfg mod 2 ^ 32) ip]) ∨
         r = Reply RcodeNameError [] ∧
           ∀ vm ip, Store.GetVMByName label (db w) = (Ok vm, db w) →
             ParseIP (vm_PrivateIP vm) = Some ip → is_v4 ip = true))) ∧
  (vmName (ToLower (q_Name q)) = None →
     r = Reply RcodeServerFailure [] ∧ (∀ u, u ∈ dns_UpstreamServers cfg → Exchange (tick w) u = None) ∨
     ∃ pre u post resp, dns_UpstreamServers cfg = pre ++ u :: post ∧
       (∀ v, v ∈ pre → Exchange (tick w) v = None) ∧ Exchange (tick w) u = Some resp ∧ r = Relayed resp).
Proof.
  intros E. unfold handle in E. split.
  - intros label Hname Hne Hdot. rewrite (proj2 (vmName_spec _ label)) in E by done.
    unfold answerVM in E. destruct (negb _ && negb _) eqn:Hq.
    { injection E as <- <-. split; [done|]. intros Ht. rewrite Ht in Hq. done. }
    unfold mbind, M_mbind, attempt in E. destruct (dbcall (Store.GetVMByName label) w) as [rv w1] eqn:Ed.
    injection E as <- <-. split.
    { intros resp. destruct rv as [vm|]; [|done]. destruct (ParseIP _) as [ip|]; [|done]. by destruct (is_v4 ip). }
    intros _ Hgo. unfold dbcall in Ed. rewrite ext_proceed in Ed by done. cbn [db bump] in Ed.
    unfold Store.GetVMByName in *. destruct (select_vm _ (db w)) as [vm|e]; injection Ed as <- <-.
    2: { right. split; [done|]. intros vm ip [=]. }
    destruct (ParseIP (vm_PrivateIP vm)) as [ip|] eqn:Hip.
    2: { right. split; [done|]. intros vm' ip [= <-]. congruence. }
    destruct (is_v4 ip) eqn:Hv4; [|left; by exists vm, ip].
    right. split; [done|]. intros vm' ip' [= <-]. congruence.
  - intros Hnone. rewrite Hnone in E. injection E as <- <-.
    induction (dns_UpstreamServers cfg) as [|u l IH]; simpl.
    { left. split; [done|]. by intros u ?%elem_of_nil. }
    destruct (Exchange (tick w) u) as [resp|] eqn:Hu.
    + right. exists [], u, l, resp. split_and!; try done. by intros v ?%elem_of_nil.
    + destruct IH as [[-> Hl]|(pre & u' & post & resp & -> & Hpre & Hu' & ->)].
      * left. split; [done|]. intros v [->|Hv]%elem_of_cons; auto.
      * right. exists (u :: pre), u', post, resp. split_and!; try done.
        intros v [->|Hv]%elem_of_cons; auto.
Qed.
End dns.

Definition example_dns : DNSConfig :=
  {| dns_Enabled := true; dns_Domain := "Firedoze."; dns_ListenIP := "::1"; dns_Port := 53;
     dns_TTLSeconds := 30; dns_UpstreamServers := ["1.1.1.1:53"] |}.

Lemma dns_handle_correct_witness :
  let w := set_db example_store (empty_world) in
  let q := MkQuestion "Web.firedoze." TypeAAAA in
  let run := @handle toy_vmm calm ascii_only string (λ _ _, None) example_dns [q] w in
  run.1 = Ok (Reply RcodeSuccess [MkAAAA "Web.firedoze." 30 0xfd000000000000000000000000000003]) ∧
  ∀ resp, Reply RcodeSuccess [MkAAAA "Web.firedoze." 30 0xfd000000000000000000000000000003] ≠ Relayed (resp : string).
Proof.
  cbv zeta.
  assert ((@handle toy_vmm calm ascii_only string (λ _ _, None) example_dns
    [MkQuestion "Web.firedoze." TypeAAAA] (set_db example_store empty_world)).1 =
    Ok (Reply RcodeSuccess [MkAAAA "Web.firedoze." 30 0xfd000000000000000000000000000003])) as E
    by (vm_compute; reflexivity).
  split; [exact E|].
  destruct (@handle toy_vmm calm ascii_only string (λ _ _, None) example_dns
    [MkQuestion "Web.firedoze." TypeAAAA] (set_db example_store empty_world)) as [r w'] eqn:Er.
  simpl in E. subst r.
  destruct (@dns_handle_correct toy_vmm calm ascii_only string (λ _ _, None) example_dns _ _ _ _ _ Er)
    as [Hin _].
  apply (Hin "web" eq_refl); [discriminate|reflexivity].
Defined.
