(* ===== verification/Monitors.v ===== *)
(** * The monitors (internal/firecracker/idle.go, cold_storage.go)

    One round of the idle monitor and of the cold-storage monitor: [check], as
    the ticker calls it.  Each goes over the rows listed at the start of the
    round and gives a VM to [SleepVM] or [ArchiveStoppedVM] when it is due.
    [now] is in nanoseconds; a [time.Duration] is a 64-bit integer. *)

From S2P Require Import Prelude GoStrings Paths IPNet Json Types Store Config PrivateNet Memory.
From S2P Require Import World FileCopy Host Manager ManagerLocks ManagerDisk ManagerInvariant.
From S2P Require Import ManagerLifecycle ManagerEffects ManagerExamples Caddy.
Open Scope Z_scope.

Definition second_ns : Z := 1000000000.

Fixpoint for_vms `{FirecrackerVMM} (body : VM → M World unit) (l : list VM) : M World unit :=
  match l with
  | [] => mret tt
  | vm :: l' => body vm ;; for_vms body l'
  end.

Section monitors.
Context `{FirecrackerVMM, Env, SparseSeek, GoUnicode, UuidLib, Timestamps}.
Context (cfg : Config).

(** ** The idle monitor *)

Definition threshold (vm : VM) : Z :=
  wrap64 (or_default (vm_IdleSleepAfterSeconds vm) (idle_DefaultSleepAfterSeconds (Idle cfg)) * second_ns).

Fixpoint first_time (raws : list string) : option Z :=
  match raws with
  | [] => None
  | raw :: raws' =>
      if is_empty raw then first_time raws'
      else match time_Parse raw with Some t => Some t | None => first_time raws' end
  end.
Definition vmLastActivity (vm : VM) : option Z := first_time [vm_LastActivityAt vm; vm_LastStartedAt vm].

(** [reconciler]: the proxy's [Reconcile], if there is one. *)
Definition sleepIdleVM (reconciler : option (M World unit)) (vm : VM) : M World unit :=
  r ← attempt (SleepVM cfg (vm_UUID vm));
  match r with
  | Err _ => mret tt
  | Ok _ => match reconciler with
            | None => mret tt
            | Some reconcile => attempt reconcile ;; mret tt
            end
  end.

Definition idle_visit (reconciler : option (M World unit)) (now : Z) (vm : VM) : M World unit :=
  if negb (bool_decide (vm_State vm = "running")) then mret tt else
  if bool_decide (threshold vm ≤ 0) then mret tt else
  match vmLastActivity vm with
  | None => mret tt
  | Some lastActive =>
      if bool_decide (time_Sub now lastActive < threshold vm) then mret tt
      else sleepIdleVM reconciler vm
  end.

Definition idle_check (reconciler : option (M World unit)) (now : Z) : M World unit :=
  r ← attempt (dbcall Store.ListVMs);
  match r with
  | Err _ => mret tt
  | Ok vms => for_vms (idle_visit reconciler now) vms
  end.

(** ** The cold-storage monitor *)

Definition cold_visit (now : Z) (vm : VM) : M World unit :=
  if negb (bool_decide (vm_State vm = "stopped")) then mret tt
  else attempt (ArchiveStoppedVM cfg (vm_UUID vm) now) ;; mret tt.

Definition cold_check (now : Z) : M World unit :=
  r ← attempt (dbcall Store.ListVMs);
  match r with
  | Err _ => mret tt
  | Ok vms => for_vms (cold_visit now) vms
  end.
End monitors.

(** ** What a round does to one VM *)

(** What the manager knows of the VM [v]: its row and its process. *)
Definition at_vm `{FirecrackerVMM} (v : string) (w : World) : option VM * option Process :=
  (row v w, running w !! v).

(** What the monitor needs of the proxy: it reads the store and changes neither
    rows nor processes. *)
Class Reconciler `{FirecrackerVMM} (reconcile : M World unit) : Prop := {
  #[global] reconcile_db :: Keeps db reconcile;
  #[global] reconcile_running :: Keeps running reconcile;
}.

(** Caddy's [Reconcile] is one, as long as Caddy leaves the daemon's state alone. *)
#[global] Instance caddy_reconciler `{FirecrackerVMM, Env, GoUnicode} cfg load :
  (∀ text, Keeps db (load text)) → (∀ text, Keeps running (load text)) →
  Reconciler (Caddy.Reconcile cfg load).
Proof.
  intros Hd Hr. unfold Reconcile. split; [|apply _].
  do 3 (apply keeps_bind; [apply keeps_ext; [apply _|by intros w]|intros ?]). apply Hd.
Qed.

Section visits.
Context `{FirecrackerVMM, Env, SparseSeek, GoUnicode, UuidLib, TimestampLaws}.
Context (cfg : Config).

(** A statement that updates the row [u] leaves the others alone. *)
Lemma update_other u v f : u ≠ v → Keeps (at_vm v) (dbcall (update_vm u f)).
Proof.
  intros Hne. apply keeps_ext; [apply _|]. intros w. unfold update_vm, at_vm, row.
  destruct (vms (db w) !! u); simpl; [|done]. by rewrite lookup_insert_ne.
Qed.
Lemma SetVMState_other u v st : u ≠ v → Keeps (at_vm v) (store_SetVMState u st).
Proof. intros Hne. unfold store_SetVMState. apply keeps_bind; [apply _|]. intros now. by apply update_other. Qed.

Lemma process_exited_other u v : u ≠ v → Keeps (at_vm v) (process_exited u).
Proof.
  intros Hne. pose proof (λ st, SetVMState_other u v st Hne) as Hs.
  assert (Keeps (at_vm v) (modify (set_running (delete u)))) as Hd.
  { intros w. unfold at_vm, row. simpl. by rewrite lookup_delete_ne. }
  unfold process_exited, cleanupAfterExit, cleanupNetwork. apply keeps_bind; [apply _|]. intros run.
  apply _.
Qed.

Lemma stopProcess_other proc v st : pr_UUID proc ≠ v → Keeps (at_vm v) (stopProcess proc st).
Proof.
  intros Hne. pose proof (process_exited_other _ _ Hne) as Hp.
  assert (Keeps (at_vm v) (modify (set_running (alter (with_final st) (pr_UUID proc))))) as Ha.
  { intros w. unfold at_vm, row. simpl. by rewrite lookup_alter_ne. }
  assert (Keeps (at_vm v) (kill proc)) as Hk by by intros w.
  unfold stopProcess, waitForProcessExit, cleanupAfterExit, cleanupNetwork. apply _.
Qed.

Lemma SleepVM_other u v w : inv cfg None w → u ≠ v → at_vm v (SleepVM cfg u w).2 = at_vm v w.
Proof.
  intros Hw Hne. unfold SleepVM.
  assert (Keeps (at_vm v) (dbcall (Store.GetVM u))) as Hg by (apply keeps_ext; [apply _|by intros ?]).
  pose proof (SetVMState_other u v "sleeping" Hne) as Hs.
  unfold mbind at 1, M_mbind at 1. destruct (dbcall (Store.GetVM u) w) as [[vm|e] w1] eqn:E1;
    rewrite <-(keeps_Ok (at_vm v) _ _ _ _ E1); [|done].
  apply GetVM_Ok in E1 as [_ ->].
  unfold mbind at 1, M_mbind at 1, gets at 1. cbn [running bump].
  destruct (running w !! u) as [proc|] eqn:Hr; [|by case_match].
  destruct (so_proc _ _ _ (proj1 Hw) u proc Hr) as (vm0 & Hvm0 & Hu & _).
  rewrite (ok_uuid _ (so_store _ _ _ (proj1 Hw)) _ _ Hvm0) in Hu.
  assert (Keeps (at_vm v) (stopProcess proc "sleeping")) as Hk by (apply stopProcess_other; congruence).
  cbv zeta. apply keeps.
Qed.

(** Whatever the state before, a sleep that succeeds leaves a sleeping row and
    no process. *)
Lemma SleepVM_asleep u w vm' w' :
  inv cfg None w → SleepVM cfg u w = (Ok vm', w') →
  row u w' = Some vm' ∧ vm_State vm' = "sleeping" ∧ running w' !! u = None.
Proof.
  intros Hw E. unfold SleepVM in E. apply bind_Ok in E as (vm & w1 & (Hrow & ->)%GetVM_Ok & E).
  apply bind_Ok in E as (run & w2 & E2 & E). injection E2 as <- <-. cbn [running bump] in E.
  destruct (running w !! u) as [proc|] eqn:Hr.
  2:{ case_bool_decide; [|done]. by injection E as <- <-. }
  destruct (so_proc _ _ _ (proj1 Hw) u proc Hr) as (vm0 & Hvm0 & Hu & _).
  rewrite (ok_uuid _ (so_store _ _ _ (proj1 Hw)) _ _ Hvm0) in Hu.
  cbv zeta in E. do 2 (apply bind_Ok in E as ([] & ? & _ & E)).
  apply bind_Ok in E as ([[]|e] & w4 & _ & E); [|apply bind_Ok in E as (? & ? & _ & E); done].
  apply bind_Ok in E as ([] & w5 & E5 & E). unfold stopProcess in E5.
  do 2 (apply bind_Ok in E5 as ([] & ? & _ & E5)). apply bind_Ok in E5 as ([] & w6 & E6 & E5).
  apply waitForProcessExit_gone in E6. rewrite Hu in E6.
  rewrite <-(keeps_Ok running _ _ _ _ E5) in E6. rewrite <-(keeps_Ok running _ _ _ _ E) in E6.
  by apply set_then_get in E as (Hrow' & Hst & _).
Qed.

(** A round visits every listed VM once; what it leaves of a VM is what that
    visit leaves of it. *)
Lemma for_vms_visit (body : VM → M World unit) :
  (∀ vm, Pres (inv cfg None) (body vm)) → (∀ vm w, (body vm w).1 = Ok tt) →
  (∀ vm v w, inv cfg None w → vm_UUID vm ≠ v → at_vm v (body vm w).2 = at_vm v w) →
  ∀ l w, inv cfg None w → NoDup (vm_UUID <$> l) →
    let w' := (for_vms body l w).2 in
    (for_vms body l w).1 = Ok tt ∧ inv cfg None w' ∧
    (∀ v, v ∉ (vm_UUID <$> l) → at_vm v w' = at_vm v w) ∧
    (∀ vm, vm ∈ l → ∃ w1, inv cfg None w1 ∧ at_vm (vm_UUID vm) w1 = at_vm (vm_UUID vm) w ∧
       at_vm (vm_UUID vm) w' = at_vm (vm_UUID vm) (body vm w1).2).
Proof.
  intros Hp Hok Ho l. induction l as [|vm l IH]; intros w Hw Hnd; cbn [for_vms fmap list_fmap] in *.
  { split_and!; try done. by intros vm ?%elem_of_nil. }
  apply NoDup_cons in Hnd as [Hnew Hnd]. specialize (Hok vm w). specialize (Hp vm w Hw).
  unfold mbind, M_mbind. destruct (body vm w) as [r w1] eqn:E; simpl in Hok, Hp; subst r.
  destruct (IH w1 Hp Hnd) as (Hr & Hi & Hother & Hvisit). simpl in *. split_and!; try done.
  - intros v [Hne Hv]%not_elem_of_cons. rewrite (Hother v Hv).
    specialize (Ho vm v w Hw). rewrite E in Ho. apply Ho. congruence.
  - intros vm' [->|Hin]%elem_of_cons.
    + exists w. rewrite E. split_and!; try done. by apply Hother.
    + destruct (Hvisit vm' Hin) as (w2 & Hw2 & Hbefore & Hafter). exists w2.
      split_and!; try done. rewrite Hbefore. specialize (Ho vm (vm_UUID vm') w Hw).
      rewrite E in Ho. apply Ho. intros Heq. apply Hnew. rewrite Heq. by apply list_elem_of_fmap_2.
Qed.

(** The rows a round goes over are those of the table. *)
Lemma listed_round {A} (k : list VM → M World A) (d : M World A) w r w' :
  inv cfg None w →
  (r ← attempt (dbcall Store.ListVMs); match r with Err _ => d | Ok vms => k vms end) w = (r, w') →
  (∃ w1, (∀ v, at_vm v w1 = at_vm v w) ∧ fate (tick w) ≠ Proceed ∧ d w1 = (r, w')) ∨
  ∃ l w1, inv cfg None w1 ∧ (∀ v, at_vm v w1 = at_vm v w) ∧ k l w1 = (r, w') ∧
    NoDup (vm_UUID <$> l) ∧ ∀ vm, vm ∈ l ↔ row (vm_UUID vm) w = Some vm.
Proof.
  intros Hw E. unfold mbind, M_mbind, attempt in E.
  destruct (dbcall Store.ListVMs w) as [[l|e] w1] eqn:E1.
  - right. exists l, w1. pose proof (pres_run (inv cfg None) _ _ _ _ E1 Hw) as Hw1.
    apply dbcall_Ok in E1 as (s & E1 & ->). pose proof (so_store _ _ _ (proj1 Hw)) as Hok.
    pose proof (ListVMs_NoDup _ _ _ Hok E1) as Hnd. pose proof (λ vm, ListVMs_elem _ _ _ vm E1) as Hl.
    injection E1 as _ <-. split_and!; try done. intros vm. rewrite Hl. split; [|eauto].
    intros (u & Hu). by rewrite (ok_uuid _ Hok _ _ Hu).
  - left. exists w1.
    assert (Keeps db (dbcall Store.ListVMs)) as Kd by (apply keeps_ext; [apply _|by intros ?]).
    split_and!; try done.
    + intros v. unfold at_vm, row.
      by rewrite (keeps_Ok db _ _ _ _ E1), (keeps_Ok running _ _ _ _ E1).
    + intros Hf. unfold dbcall, ext in E1. by rewrite Hf in E1.
Qed.
End visits.

(** ** The rounds *)

Section rounds.
Context `{FirecrackerVMM, Env, SparseSeek, GoUnicode, UuidLib, TimestampLaws}.
Context (cfg : Config).

(** The VM has been idle for its threshold. *)
Definition due (now : Z) (vm : VM) : Prop :=
  vm_State vm = "running" ∧ 0 < threshold cfg vm ∧
  ∃ t, vmLastActivity vm = Some t ∧ threshold cfg vm ≤ time_Sub now t.

Lemma idle_visit_cases rec now vm :
  due now vm ∧ idle_visit cfg rec now vm = sleepIdleVM cfg rec vm ∨
  ¬ due now vm ∧ idle_visit cfg rec now vm = mret tt.
Proof.
  unfold idle_visit, due. case_bool_decide as Hst; [|naive_solver]. simpl.
  case_bool_decide as Hth; [right; naive_solver lia|].
  destruct (vmLastActivity vm) as [t|]; [|naive_solver].
  case_bool_decide as Hlt; [right; naive_solver lia|left; naive_solver lia].
Qed.

Definition is_reconciler (rec : option (M World unit)) : Prop := from_option Reconciler True rec.

Section idle.
Context (rec : option (M World unit)) (Hrec : is_reconciler rec) (now : Z).

#[local] Instance pres_sleepIdleVM vm : Pres (inv cfg None) (sleepIdleVM cfg rec vm).
Proof.
  unfold sleepIdleVM. apply pres_bind; [apply _|]. intros []; [|apply _].
  destruct rec; simpl in Hrec; apply _.
Qed.
Lemma idle_visit_pres vm : Pres (inv cfg None) (idle_visit cfg rec now vm).
Proof. destruct (idle_visit_cases rec now vm) as [[_ ->]|[_ ->]]; apply _. Qed.

(** After the sleep the visit changes no row and no process. *)
Lemma sleepIdleVM_run vm w :
  (sleepIdleVM cfg rec vm w).1 = Ok tt ∧
  ∀ v, at_vm v (sleepIdleVM cfg rec vm w).2 = at_vm v (SleepVM cfg (vm_UUID vm) w).2.
Proof.
  unfold sleepIdleVM, mbind, M_mbind, attempt.
  destruct (SleepVM cfg (vm_UUID vm) w) as [[vm'|e] w1]; [|done].
  destruct rec as [m|]; [|done]. simpl in Hrec.
  destruct (m w1) as [r w2] eqn:E. simpl. split; [done|]. intros v. unfold at_vm, row. simpl.
  by rewrite (keeps_Ok db _ _ _ _ E), (keeps_Ok running _ _ _ _ E).
Qed.

Lemma idle_visit_other vm v w :
  inv cfg None w → vm_UUID vm ≠ v → at_vm v (idle_visit cfg rec now vm w).2 = at_vm v w.
Proof.
  intros Hw Hne. destruct (idle_visit_cases rec now vm) as [[_ ->]|[_ ->]]; [|done].
  rewrite (proj2 (sleepIdleVM_run vm w)). by apply SleepVM_other.
Qed.
Lemma idle_visit_total vm w : (idle_visit cfg rec now vm w).1 = Ok tt.
Proof. destruct (idle_visit_cases rec now vm) as [[_ ->]|[_ ->]]; [apply sleepIdleVM_run|done]. Qed.
End idle.

End rounds.

(** ** Cold storage: no disk of any VM is lost *)

(** An ancestor holds the path. *)
Lemma ancestors_from_under p : ∀ pre a,
  a ∈ ancestors_from pre p → under a (pre +:+ p) = true.
Proof.
  induction p as [|ch p IH]; intros pre a; cbn [ancestors_from].
  - case_bool_decide; [by intros ?%elem_of_nil|]. intros ->%list_elem_of_singleton.
    rewrite str_app_nil_r. unfold under. by rewrite bool_decide_eq_true_2.
  - assert (∀ a, a ∈ ancestors_from (pre +:+ String ch "") p → under a (pre +:+ String ch p) = true) as Hrec.
    { intros a' Ha'%IH. by rewrite str_app_assoc in Ha'. }
    case_bool_decide as Hc; [|apply Hrec]. intros [->|Ha]%elem_of_cons; [|by apply Hrec].
    destruct Hc as [-> _]. unfold under. apply orb_true_iff. right. apply HasPrefix_spec.
    exists p. by rewrite str_app_assoc.
Qed.

(** The cold directory is neither the state directory nor inside, or around,
    the VMs' own directories. *)
Record dirs_apart (cfg : Config) (sd cd : list string) : Prop := {
  da_ok : dirs_ok cfg sd cd;
  da_state : ¬ (sd ++ ["vms"]) `prefix_of` cd;
  da_cold : ¬ (cd ++ ["vms"]) `prefix_of` sd;
}.

Lemma roots_meet sd cd l1 l2 :
  (cd ++ "vms" :: l1) `prefix_of` (sd ++ "vms" :: l2) →
  cd = sd ∨ (sd ++ ["vms"]) `prefix_of` cd ∨ (cd ++ ["vms"]) `prefix_of` sd.
Proof.
  intros [k E]. rewrite <-app_assoc in E. simpl in E.
  assert (cd `prefix_of` (sd ++ "vms" :: l2)) as H1 by (rewrite E; by apply prefix_app_r).
  assert (sd `prefix_of` (sd ++ "vms" :: l2)) as H2 by by apply prefix_app_r.
  destruct (prefix_weak_total _ _ _ H1 H2) as [[r ->]|[r ->]]; destruct r as [|x r];
    rewrite ?app_nil_r in *; auto; rewrite <-app_assoc in E; apply app_inv_head in E;
    simplify_eq/=; right; [right|left]; apply prefix_app, prefix_cons, prefix_nil.
Qed.

Section cold_paths.
Context (cfg : Config) (sd cd : list string) (Hd : dirs_apart cfg sd cd).
Context (nu nv : string) (Hu : good_part nu) (Hv : good_part nv) (Hne : nu ≠ nv).

#[local] Abbreviation hot n := (diskPath (layout_of cfg n)).
#[local] Abbreviation cold n := (path_Join [coldVMDir cfg n; "rootfs.ext4"]).

Lemma hot_parts n : good_part n → hot n = abs (sd ++ ["vms"; n; "rootfs.ext4"]).
Proof using Hd.
  intros Hn. destruct Hd as [Hok _ _]. rewrite (diskPath_eq cfg sd cd Hok n Hn), (vmDir_abs cfg sd cd Hok n Hn).
  pose proof (do_sd _ _ _ Hok) as [Hs _]. change ["vms"; n; "rootfs.ext4"] with (["vms"; n] ++ ["rootfs.ext4"]).
  rewrite app_assoc. unfold abs. rewrite (Join_app _ ["rootfs.ext4"]) by (done || by destruct sd). done.
Qed.
Lemma cold_parts n : good_part n → cold n = abs (cd ++ ["vms"; n; "rootfs.ext4"]).
Proof using Hd.
  intros Hn. destruct Hd as [Hok _ _]. rewrite (cold_eq cfg sd cd Hok n Hn), (coldVMDir_abs cfg sd cd Hok n Hn).
  pose proof (do_cd _ _ _ Hok) as [Hs _]. change ["vms"; n; "rootfs.ext4"] with (["vms"; n] ++ ["rootfs.ext4"]).
  rewrite app_assoc. unfold abs. rewrite (Join_app _ ["rootfs.ext4"]) by (done || by destruct cd). done.
Qed.
Lemma good_disk_parts l n : good_part n → Forall good_part l → Forall good_part (l ++ ["vms"; n; "rootfs.ext4"]).
Proof.
  intros Hn Hl. apply Forall_app. split; [done|].
  do 3 (apply Forall_cons_2; [done || by apply good_const|]). done.
Qed.

Lemma hot_outside : under (coldVMDir cfg nu) (hot nv) = false.
Proof using Hd Hu Hv.
  pose proof Hd as [Hok Hs Hc]. pose proof (do_sd _ _ _ Hok) as [Ns Gs].
  pose proof (do_cd _ _ _ Hok) as [Nc Gc]. pose proof (do_ne _ _ _ Hok) as Hsc.
  rewrite (coldVMDir_abs cfg sd cd Hok nu Hu), (hot_parts nv Hv).
  apply not_true_is_false. intros E%under_abs; [|by destruct cd|by destruct sd| |by apply good_disk_parts].
  - apply roots_meet in E. naive_solver.
  - by apply good_vm_parts.
Qed.

(** The files of the disk of [nv] are away from everything an archive of [nu]
    creates, renames or removes. *)
Lemma disk_apart p : p = hot nv ∨ p = cold nv →
  p ≠ hot nu ∧ under (coldVMDir cfg nu) p = false ∧ under p (coldVMDir cfg nu) = false.
Proof using Hd Hu Hv Hne.
  intros Hp. pose proof Hd as [Hok Hs Hc]. pose proof (do_sd _ _ _ Hok) as [Ns Gs].
  pose proof (do_cd _ _ _ Hok) as [Nc Gc]. pose proof (do_ne _ _ _ Hok) as Hsc.
  pose proof (good_disk_parts sd nv Hv Gs) as G1. pose proof (good_disk_parts cd nv Hv Gc) as G2.
  pose proof (good_disk_parts sd nu Hu Gs) as G3. pose proof (good_vm_parts nu Hu cd Gc) as G4.
  rewrite (coldVMDir_abs cfg sd cd Hok nu Hu), (hot_parts nu Hu).
  assert (∀ b, (b = true → False) → b = false) as Hb by (by intros []).
  destruct Hp as [->| ->]; [rewrite (hot_parts nv Hv)|rewrite (cold_parts nv Hv)];
    (split; [|split; apply Hb]);
    try (intros E%abs_inj; [|by (done || (by destruct sd) || (by destruct cd))..]);
    try (intros E%under_abs; [|by (done || (by destruct sd) || (by destruct cd))..]).
  - apply app_inv_head in E. congruence.
  - apply roots_meet in E. naive_solver.
  - apply roots_meet in E. naive_solver.
  - assert ((sd ++ ["vms"; nu; "rootfs.ext4"]) `prefix_of` (cd ++ ["vms"; nv; "rootfs.ext4"])) as E2
      by (rewrite E; done).
    apply roots_meet in E2. naive_solver.
  - apply prefix_app_inv in E. apply prefix_cons_inv_2, prefix_cons_inv_1 in E. congruence.
  - apply prefix_length in E. rewrite !length_app in E. simpl in E. lia.
Qed.
End cold_paths.

Section cold_round.
Context `{FirecrackerVMM, Env, SparseSeek, GoUnicode, UuidLib, TimestampLaws}.
Context (cfg : Config) (sd cd : list string) (Hd : dirs_apart cfg sd cd).

#[local] Abbreviation hot n := (diskPath (layout_of cfg n)).
#[local] Abbreviation cold n := (path_Join [coldVMDir cfg n; "rootfs.ext4"]).

Lemma os_MkdirAll_apart d p : under p d = false → Keeps (λ w, fs w !! p) (os_MkdirAll d).
Proof.
  intros Hu. apply keeps_ext; [apply _|]. apply mkdirs_other. intros Hin%ancestors_from_under.
  change ("" +:+ d) with d in Hin. by rewrite Hin in Hu.
Qed.

(** The archive of [vm] leaves a file alone that is outside the cold directory
    of [vm] and is not its hot disk. *)
Lemma archive_body_other vm tmp p w :
  tmp ≠ hot (vm_Name vm) → tmp ≠ cold (vm_Name vm) →
  p ≠ hot (vm_Name vm) → p ≠ cold (vm_Name vm) → p ≠ tmp →
  wp (archive_body vm (hot (vm_Name vm)) (cold (vm_Name vm)) tmp) (λ _ w', fs w' !! p = fs w !! p) w.
Proof.
  intros Nh Nc Ph Pc Pt. set (h := hot _) in *. set (k := cold _) in *. unfold archive_body.
  assert (NoAt tmp (λ w, fs w !! p)) as A1 by by apply no_at_ne.
  assert (NoAt k (λ w, fs w !! p)) as A2 by by apply no_at_ne.
  assert (NoAt h (λ w, fs w !! p)) as A3 by by apply no_at_ne.
  assert (NoAt k (λ w, fs w !! tmp)) as A4 by by apply no_at_ne.
  assert (Keeps (λ w, fs w !! p) (remove_if_exists k) ∧ Keeps (λ w, fs w !! tmp) (remove_if_exists k)) as [K1 K2]
    by (unfold remove_if_exists; split; (apply keeps_bind; [apply _|]); intros [|[]]; apply _).
  assert (∀ {A} (m : M World A) w1 r w2, m w1 = (r, w2) → Keeps (λ w, fs w !! p) m →
    fs w1 !! p = fs w !! p → fs w2 !! p = fs w !! p) as Hstep.
  { intros A m w1 r w2 E Hk <-. exact (keeps_Ok (λ w, fs w !! p) _ _ _ _ E). }
  apply wp_deferring.
  match goal with |- wp ?m _ w => cut (wp m (λ _ w', fs w' !! p = fs w !! p) w) end.
  { intros Hb. eapply wp_mono; [exact Hb|]. intros r w1 E1. apply wp_run. intros r2 w2 E.
    by apply (Hstep _ _ _ _ _ E _). }
  apply wp_bind_run; intros a w1 E1; [|by apply (Hstep _ _ _ _ _ E1 _)].
  assert (∃ c, fs w1 !! tmp = Some (File c)) as [c Ht].
  { destruct (fs w !! h) as [[|c]|] eqn:Hh.
    2:{ exists c. destruct a. exact (copyRegularFile_Ok _ _ _ _ _ (not_eq_sym Nh) Hh E1). }
    all: apply bind_Ok in E1 as (? & ? & E1 & _); apply ext_Ok in E1; cbn [fs bump] in E1;
      by rewrite Hh in E1. }
  assert (fs w1 !! p = fs w !! p) as P1 by by apply (Hstep _ _ _ _ _ E1 _).
  apply wp_bind_run; intros b w2 E2; pose proof (Hstep _ _ _ _ _ E2 _ P1) as P2; [|done].
  rewrite <-(keeps_Ok (λ w, fs w !! tmp) _ _ _ _ E2) in Ht.
  apply wp_bind_run; intros b' w3 E3; pose proof (Hstep _ _ _ _ _ E3 _ P2) as P3; [|done].
  rewrite <-(keeps_Ok (λ w, fs w !! tmp) _ _ _ _ E3) in Ht.
  assert (∀ r w4, os_Rename tmp k w3 = (r, w4) → fs w4 !! p = fs w !! p) as Hren.
  { intros r w4 E4. destruct (os_Rename_inv _ _ _ _ _ _ Nc Ht E4) as [[-> _]| ->]; [done|].
    by rewrite lookup_insert_ne, lookup_delete_ne. }
  apply wp_bind_run; intros b4 w4 E4; apply Hren in E4; [|done].
  apply wp_run. intros r5 w5 E5. by apply (Hstep _ _ _ _ _ E5 _).
Qed.
(** What the archive does beyond its lock and its checks. *)
Definition archive_files (vm : VM) : M World unit :=
  os_MkdirAll (coldVMDir cfg (vm_Name vm)) ;;
  tmpPath ← os_CreateTemp (coldVMDir cfg (vm_Name vm)) "rootfs.ext4." ".tmp";
  ext (mret tt) ;;
  archive_body vm (hot (vm_Name vm)) (cold (vm_Name vm)) tmpPath.

(** A property of the files and the tables survives an archive if it survives
    the work on the files, for the row as it was. *)
Lemma ArchiveStoppedVM_wp (Q : World → Prop) u now w :
  (∀ w1 w2, fs w1 = fs w2 → db w1 = db w2 → Q w1 → Q w2) → Q w →
  (∀ vm w1, row u w = Some vm → fs w1 = fs w → db w1 = db w → wp (archive_files vm) (λ _, Q) w1) →
  Q (ArchiveStoppedVM cfg u now w).2.
Proof.
  intros Hstable Hw Hfiles. cut (wp (ArchiveStoppedVM cfg u now) (λ _, Q) w); [done|].
  assert (∀ w1, fs w1 = fs w → db w1 = db w → Q w1) as Hsame.
  { intros w1 E1 E2. by apply (Hstable w). }
  unfold ArchiveStoppedVM. destruct (negb _); [exact Hw|].
  assert (∀ r w', beginColdArchiveOperation u w = (r, w') → fs w' = fs w ∧ db w' = db w) as Hbegin.
  { unfold beginColdArchiveOperation. intros r w' E. unfold mbind at 1, M_mbind at 1 in E.
    destruct (ctx_Err w) as [[[]|e] w1] eqn:E1;
      pose proof (keeps_Ok fs _ _ _ _ E1); pose proof (keeps_Ok db _ _ _ _ E1);
      [|by injection E as <- <-].
    unfold gets, mbind, M_mbind in E. destruct (bool_decide _); by injection E as <- <-. }
  apply wp_bind_run; intros a w1 E1; destruct (Hbegin _ _ E1) as [F1 D1]; [|by apply Hsame].
  apply wp_deferring.
  match goal with |- wp ?m _ w1 => cut (wp m (λ _, Q) w1) end.
  { intros Hb. eapply wp_mono; [exact Hb|]. intros r w2 HQ. by apply (Hstable w2). }
  assert (Keeps fs (dbcall (Store.GetVM u)) ∧ Keeps db (dbcall (Store.GetVM u))) as [Kf Kd].
  { split; [apply _|]. apply keeps_ext; [apply _|]. by intros w0. }
  apply wp_bind_run; intros vm w2 E2;
    pose proof (keeps_Ok fs _ _ _ _ E2) as F2; pose proof (keeps_Ok db _ _ _ _ E2) as D2;
    [|apply Hsame; congruence].
  apply GetVM_Ok in E2 as [Hrow _]. unfold row in Hrow. rewrite D1 in Hrow.
  destruct (negb _); [apply Hsame; congruence|]. apply wp_bind_gets.
  case_bool_decide; [apply Hsame; congruence|]. apply wp_bind_attempt. intros st w3 E3.
  pose proof (keeps_Ok fs _ _ _ _ E3) as F3. pose proof (keeps_Ok db _ _ _ _ E3) as D3.
  destruct st as [fi|e]; [|destruct e; apply Hsame; congruence].
  apply (Hfiles vm); [done|congruence..].
Qed.

(** The files of another VM's disk. *)
Lemma archive_other_files vm nv p w :
  good_part (vm_Name vm) → good_part nv → vm_Name vm ≠ nv → p = hot nv ∨ p = cold nv →
  wp (archive_files vm) (λ _ w', fs w' !! p = fs w !! p) w.
Proof using Hd.
  intros Gu Gv Hne Hp. set (nu := vm_Name vm) in *. pose proof (da_ok _ _ _ Hd) as Hok.
  destruct (disk_apart cfg sd cd Hd nu nv Gu Gv Hne p Hp) as (Hph & Hpu & Hpa).
  assert (∀ x, under (coldVMDir cfg nu) (coldVMDir cfg nu +:+ "/" +:+ x) = true) as Hbelow.
  { intros x. unfold under. apply orb_true_iff. right. apply HasPrefix_spec. exists x.
    by rewrite str_app_assoc. }
  assert (∀ x, coldVMDir cfg nu +:+ "/" +:+ x ≠ p) as Hout.
  { intros x <-. by rewrite Hbelow in Hpu. }
  assert (Keeps (λ w, fs w !! p) (os_MkdirAll (coldVMDir cfg nu))) as K1 by by apply os_MkdirAll_apart.
  assert (Keeps (λ w, fs w !! p) (os_CreateTemp (coldVMDir cfg nu) "rootfs.ext4." ".tmp")) as K2
    by by apply os_CreateTemp_other.
  unfold archive_files. fold nu.
  apply wp_bind_run; intros a w1 E1; pose proof (keeps_Ok (λ w, fs w !! p) _ _ _ _ E1) as P1; simpl in P1;
    [|done].
  apply wp_bind_run; intros tmp w2 E2; pose proof (keeps_Ok (λ w, fs w !! p) _ _ _ _ E2) as P2; simpl in P2;
    [|congruence].
  destruct (os_CreateTemp_name _ _ _ _ _ _ E2) as [x Htmp].
  apply wp_bind_run; intros b w3 E3; pose proof (keeps_Ok (λ w, fs w !! p) _ _ _ _ E3) as P3; simpl in P3;
    [|congruence].
  replace (fs w !! p) with (fs w3 !! p) by congruence. apply archive_body_other; try done.
  - intros E. pose proof (Hbelow ("rootfs.ext4." +:+ x +:+ ".tmp")) as Hb. rewrite <-Htmp, E in Hb.
    unfold nu in Hb. by rewrite (hot_outside cfg sd cd Hd) in Hb.
  - fold nu. rewrite Htmp, (cold_eq cfg sd cd Hok nu Gu). apply temp_ne.
  - fold nu. rewrite (cold_eq cfg sd cd Hok nu Gu). intros ->. by apply (Hout "rootfs.ext4").
  - intros ->. by apply (Hout ("rootfs.ext4." +:+ x +:+ ".tmp")).
Qed.

(** Rows: only the archived path of the VM's own row can change. *)
Lemma archive_rows vm v : vm_UUID vm ≠ v → Keeps (row v) (archive_files vm).
Proof.
  intros Hne. unfold archive_files, archive_body, remove_if_exists, Store.SetVMArchivedDiskPath.
  assert (∀ f, Keeps (row v) (dbcall (update_vm (vm_UUID vm) f))) as K.
  { intros f. apply keeps_ext; [apply _|]. intros w. unfold update_vm, row.
    destruct (vms (db w) !! vm_UUID vm); simpl; [|done]. by rewrite lookup_insert_ne. }
  do 2 (apply keeps_bind; [apply _|intros ?]). apply keeps_bind; [apply _|intros _].
  apply keeps_deferring; [|apply _]. do 2 (apply keeps_bind; [apply _|intros _]).
  apply keeps_bind; [apply keeps_bind; [apply _|intros [|[]]; apply _]|]. intros _. apply _.
Qed.
Lemma archive_row_names vm v : Keeps (λ w, vm_Name <$> row v w) (archive_files vm).
Proof.
  unfold archive_files, archive_body, remove_if_exists, Store.SetVMArchivedDiskPath.
  assert (∀ p, Keeps (λ w, vm_Name <$> row v w) (dbcall (update_vm (vm_UUID vm) (with_archived p)))) as K.
  { intros p. apply keeps_ext; [apply _|]. intros w. unfold update_vm, row.
    destruct (vms (db w) !! vm_UUID vm) as [vm0|] eqn:E; simpl; [|done].
    destruct (decide (vm_UUID vm = v)) as [<-|Hne]; [by rewrite lookup_insert_eq, E|].
    by rewrite lookup_insert_ne. }
  do 2 (apply keeps_bind; [apply _|intros ?]). apply keeps_bind; [apply _|intros _].
  apply keeps_deferring; [|apply _]. do 2 (apply keeps_bind; [apply _|intros _]).
  apply keeps_bind; [apply keeps_bind; [apply _|intros [|[]]; apply _]|]. intros _. apply _.
Qed.

#[local] Instance keeps_archive_running u now : Keeps running (ArchiveStoppedVM cfg u now).
Proof.
  assert (Keeps running (end_archive u)) as Ke by by intros w.
  unfold ArchiveStoppedVM, beginColdArchiveOperation.
  apply keeps_if; [apply _|]. apply keeps_bind.
  { do 2 (apply keeps_bind; [apply _|intros ?]). apply keeps_if; [apply _|by intros w]. }
  intros _. apply keeps_deferring; [|done]. apply keeps_bind; [apply _|intros vm].
  apply keeps_if; [apply _|]. apply keeps_bind; [apply _|intros run]. apply keeps_if; [apply _|].
  apply keeps_bind; [apply _|]. intros [|[]]; apply _.
Qed.

(** The disk [c] of the VM [v] named [name], while the round goes on. *)
Definition keeping (v name c : string) (w : World) : Prop :=
  inv cfg None w ∧ (∀ u vm, row u w = Some vm → good_part (vm_Name vm)) ∧
  vm_Name <$> row v w = Some name ∧ disk_is v (hot name) (cold name) c w.

Lemma archive_keeping v name c u now : Pres (keeping v name c) (ArchiveStoppedVM cfg u now).
Proof using Hd.
  intros w (Hi & Hg & Hn & Hdisk). pose proof (da_ok _ _ _ Hd) as Hok.
  pose proof (so_store _ _ _ (proj1 Hi)) as Hst.
  assert (∀ k, vm_Name <$> row k (ArchiveStoppedVM cfg u now w).2 = vm_Name <$> row k w) as Hnames.
  { intros k. apply (ArchiveStoppedVM_wp (λ w', vm_Name <$> row k w' = vm_Name <$> row k w)); [| done|].
    - unfold row. by intros w1 w2 _ ->.
    - intros vm w1 _ _ D. apply wp_run. intros r w2 E. pose proof (archive_row_names vm k) as K.
      rewrite (keeps_Ok (λ w, vm_Name <$> row k w) _ _ _ _ E). unfold row. by rewrite D. }
  split; [by apply (pres_ArchiveStoppedVM cfg)|]. split; [|split; [by rewrite Hnames|]].
  { intros k vm Hk. specialize (Hnames k). rewrite Hk in Hnames. symmetry in Hnames.
    apply fmap_Some in Hnames as (vm0 & Hk0 & ->). by eapply Hg. }
  apply fmap_Some in Hn as (vm & Hv & ->). destruct (decide (u = v)) as [->|Hne].
  { apply (ArchiveStoppedVM_disk cfg sd cd Hok v vm); [by eapply Hg|by apply (ok_uuid _ Hst)|done..]. }
  apply (ArchiveStoppedVM_wp (disk_is v (hot (vm_Name vm)) (cold (vm_Name vm)) c)); [|done|].
  { unfold disk_is. by intros w1 w2 -> ->. }
  intros vmu w1 Hu F D. pose proof (ok_uuid _ Hst _ _ Hu) as Huu.
  assert (vm_Name vmu ≠ vm_Name vm) as Hnn.
  { intros E. apply Hne. by eapply (ok_name _ Hst). }
  apply wp_run. intros r w2 E.
  pose proof (λ p Hp, archive_other_files vmu (vm_Name vm) p w1 (Hg _ _ Hu) (Hg _ _ Hv) Hnn Hp) as Hfiles.
  assert (Keeps (row v) (archive_files vmu)) as K by (apply archive_rows; congruence).
  unfold wp in Hfiles. rewrite E in Hfiles. simpl in Hfiles.
  eapply disk_is_frame; [| | |exact Hdisk].
  - rewrite Hfiles by auto. by rewrite F.
  - rewrite Hfiles by auto. by rewrite F.
  - rewrite (keeps_Ok (row v) _ _ _ _ E). unfold row. by rewrite D.
Qed.

(** The whole round. *)
Lemma cold_check_disks now w v vm c :
  inv cfg None w → (∀ u vm, row u w = Some vm → good_part (vm_Name vm)) → row v w = Some vm →
  disk_is v (hot (vm_Name vm)) (cold (vm_Name vm)) c w →
  let w' := (cold_check cfg now w).2 in
  (cold_check cfg now w).1 = Ok tt ∧ vm_Name <$> row v w' = Some (vm_Name vm) ∧
  disk_is v (hot (vm_Name vm)) (cold (vm_Name vm)) c w' ∧ running w' = running w.
Proof using Hd.
  intros Hi Hg Hv Hdisk.
  assert (keeping v (vm_Name vm) c w) as Hk by (split_and!; try done; by rewrite Hv).
  assert (∀ l w, (for_vms (cold_visit cfg now) l w).1 = Ok tt) as Htotal.
  { intros l. induction l as [|x l IH]; intros w0; [done|]. cbn [for_vms].
    unfold cold_visit. destruct (negb _); [apply IH|]. unfold mbind, M_mbind, attempt.
    destruct (ArchiveStoppedVM cfg (vm_UUID x) now w0). apply IH. }
  assert (Pres (keeping v (vm_Name vm) c) (dbcall Store.ListVMs)) as Hlist.
  { intros w0 (A & B & C & D).
    assert (db (dbcall Store.ListVMs w0).2 = db w0) as E
      by (apply keeps_ext; [apply _|by intros ?]).
    pose proof (keeps (f := fs) (m := dbcall Store.ListVMs) w0) as F. unfold keeping.
    split; [by apply (pres_dbcall cfg)|]. unfold row, disk_is in *. by rewrite E, F. }
  assert (∀ l, Pres (keeping v (vm_Name vm) c) (for_vms (cold_visit cfg now) l)) as Hround.
  { pose proof (archive_keeping v (vm_Name vm) c) as Ha. intros l. unfold cold_visit.
    induction l; cbn [for_vms]; apply _. }
  assert (∀ l, Keeps running (for_vms (cold_visit cfg now) l)) as Hrun.
  { intros l. unfold cold_visit. induction l; cbn [for_vms]; apply _. }
  assert (Pres (keeping v (vm_Name vm) c) (cold_check cfg now)) as Hp by (unfold cold_check; apply _).
  destruct (Hp w Hk) as (_ & _ & Hn & Hdk). split; [|split; [done|split; [done|]]].
  - unfold cold_check, mbind, M_mbind, attempt. destruct (dbcall Store.ListVMs w) as [[l|e] w1]; [apply Htotal|done].
  - assert (Keeps running (cold_check cfg now)) as Kr by (unfold cold_check; apply _). apply Kr.
Qed.
End cold_round.

(** C33.  A round of the cold-storage monitor loses no disk, where the
    configuration keeps the two stores apart: let the state directory [sd] and
    the cold directory [cd] be absolute clean paths other than /, different and neither
    inside the other's vms directory ([dirs_apart], which [Validate] does not
    require), and every VM's name be one path component, as the API accepts it.
    Then, whatever fails or is cancelled in the round, every VM whose disk was
    in its hot file or in the archived file of the current cold directory that
    its row points at keeps its name and the contents of its disk so, archived
    in this round, archived before or not; no process is touched, and the round
    always completes. *)
Theorem cold_check_keeps_disks `{FirecrackerVMM, Env, Timestamps} cfg sd cd now w v vm c :
  dirs_apart cfg sd cd → inv cfg None w →
  (∀ u vm, row u w = Some vm → good_part (vm_Name vm)) → row v w = Some vm →
  let hot := diskPath (layout_of cfg (vm_Name vm)) in
  let cold := path_Join [coldVMDir cfg (vm_Name vm); "rootfs.ext4"] in
  disk_is v hot cold c w →
  let w' := (cold_check cfg now w).2 in
  (cold_check cfg now w).1 = Ok tt ∧ vm_Name <$> row v w' = Some (vm_Name vm) ∧
  disk_is v hot cold c w' ∧ running w' = running w.
Proof. intros Hd Hi Hg Hv hot cold. by apply (cold_check_disks cfg sd cd Hd). Qed.

(** ** Examples *)

Lemma stopped_inv : inv cold_config None (disk_world hot_path "").
Proof.
  split; [|done]. split.
  - split; simpl; intros *; rewrite ?lookup_singleton_Some, ?lookup_empty; try done.
    + by intros [<- <-].
    + by intros [<- <-] [<- <-].
    + by intros [<- <-].
  - simpl. intros u vm. rewrite lookup_singleton_Some. intros [<- <-]. by split; [vm_compute|].
  - simpl. intros u q. by rewrite lookup_empty.
Qed.

Lemma cold_config_apart : dirs_apart cold_config ["var"; "lib"; "firedoze"] ["mnt"; "cold"].
Proof.
  split; [apply cold_config_dirs|..]; intros [k E]; discriminate.
Qed.

Lemma cold_check_keeps_disks_witness :
  let w' := (@cold_check toy_vmm calm decimal_stamps cold_config much_later (disk_world hot_path "")).2 in
  disk_is "u" hot_path cold_path "disk" w' ∧ fs w' !! hot_path = None.
Proof.
  cbv zeta. split; [|vm_compute; reflexivity].
  assert (row "u" (disk_world hot_path "") = Some (stopped_vm "")) as H1 by (vm_compute; reflexivity).
  assert (disk_is "u" hot_path cold_path "disk" (disk_world hot_path "")) as H2
    by (left; vm_compute; reflexivity).
  assert (∀ u vm, row u (disk_world hot_path "") = Some vm → good_part (vm_Name vm)) as H3.
  { intros u vm. unfold row. simpl. rewrite lookup_singleton_Some. intros [<- <-]. by apply good_const. }
  apply (@cold_check_keeps_disks toy_vmm calm decimal_stamps cold_config _ _ much_later _ "u"
    (stopped_vm "") "disk" cold_config_apart stopped_inv H3 H1 H2).
Defined.

#[local] Abbreviation w_started := ((start (create host_world).2).2).

