(* ===== verification/SnapshotBundle.v ===== *)
(** * Snapshot bundles (internal/firecracker/snapshot_bundle.go)

    Export of a disk snapshot as a gzipped tar file with a manifest, and the
    import of such a file, which anyone may have written.

    The compressed archive and the JSON text of the manifest are the standard
    library's: [BundleCodec] gives the steps a [tar.Reader] takes through an
    archive, and the two directions of the manifest's text.  What an export that
    failed has already sent to the client is not part of the model. *)

From S2P Require Import Prelude GoStrings Paths IPNet Json Types Store Config PrivateNet Memory.
From S2P Require Import World FileCopy Host Manager ManagerLocks ManagerDisk ManagerInvariant.
From S2P Require Import ManagerLifecycle ManagerEffects Monitors.
Open Scope Z_scope.

Definition snapshotBundleFormat : string := "firedoze.snapshot.v1".
Definition snapshotBundleManifestName : string := "manifest.json".
Definition snapshotBundleDiskName : string := "rootfs.ext4".

(** The raw JSON of the metadata is [""] when it is absent. *)
Record snapshotBundleManifest := MkManifest {
  mf_Format : string;
  mf_Name : string;
  mf_SourceVM : string;
  mf_BaseImageID : string;
  mf_KernelID : string;
  mf_BaseImageMetadata : string;
  mf_Disk : string;
  mf_DiskSize : Z;
  mf_CreatedAt : string;
}.

Definition zero_manifest : snapshotBundleManifest := MkManifest "" "" "" "" "" "" "" 0 "".

Definition with_metadata (md : string) (m : snapshotBundleManifest) : snapshotBundleManifest :=
  MkManifest (mf_Format m) (mf_Name m) (mf_SourceVM m) (mf_BaseImageID m) (mf_KernelID m) md
    (mf_Disk m) (mf_DiskSize m) (mf_CreatedAt m).

Record tar_header := MkHeader {
  th_Name : string;
  th_IsDir : bool;          (* header.FileInfo().IsDir() *)
  th_IsReg : bool;          (* TypeReg or TypeRegA *)
  th_Size : Z;
}.

(** What [tr.Next] and the reads after it give: an entry whose [data] can be
    read, to its end or ([complete] is false) up to an error; or an error. *)
Inductive tar_step :=
  | TarEntry (h : tar_header) (data : string) (complete : bool)
  | TarBad.

Class BundleCodec := {
  gunzip_untar : string → option (list tar_step);           (* None: not a gzip stream *)
  tar_gzip : list (string * string) → string;               (* regular files, in order *)
  json_Valid : string → bool;
  json_Compact : string → string;                           (* as json.Marshal rewrites a Marshaler's text *)
  json_value : string → option json;                        (* the value a text denotes *)
  manifest_Marshal : snapshotBundleManifest → option string;    (* MarshalIndent *)
  manifest_Unmarshal : string → option snapshotBundleManifest;
}.

(** Documented behaviour: an archive reads back as it was written; so does the
    text of a manifest, with its raw message possibly reformatted. *)
Class BundleLaws `{BundleCodec} : Prop := {
  untar_tar files :
    gunzip_untar (tar_gzip files) =
    Some ((λ f, TarEntry (MkHeader f.1 false true (Z.of_nat (String.length f.2))) f.2 true) <$> files);
  compact_null : json_Compact "null" = "null";
  compact_value s : json_Valid s = true → json_value (json_Compact s) = json_value s;
  unmarshal_marshal m t :
    manifest_Marshal m = Some t →
    ∃ md, manifest_Unmarshal (t +:+ newline) = Some (with_metadata md m) ∧
      json_value md = json_value (mf_BaseImageMetadata m) ∧
      (md = "" ↔ mf_BaseImageMetadata m = "") ∧ (mf_BaseImageMetadata m ≠ "null" → md ≠ "null");
}.

Section bundle.
Context `{FirecrackerVMM, Env, Timestamps, GoUnicode, BundleCodec}.
Context (cfg : Config).

(** ** Names in the archive *)

Definition cleanBundlePath (name : string) : result string :=
  if is_empty name || IsAbs name then Err ErrInvalidSnapshotBundle else
  let clean := TrimPrefix (Clean name) "./" in
  if bool_decide (clean = ".") || bool_decide (clean = "..") || HasPrefix clean "../"
  then Err ErrInvalidSnapshotBundle else Ok clean.

(** ** JSON text *)

(** [model.JSONText.MarshalJSON]. *)
Definition JSONText_MarshalJSON (j : string) : string :=
  if is_empty j then "null" else if json_Valid j then j else Marshal (JString j).

Definition snapshotMetadataJSON (metadata : string) : string :=
  let data := json_Compact (JSONText_MarshalJSON metadata) in
  if bool_decide (data = "null") then "" else data.

(** ** Export *)

(** The entry as it is written: the archive takes exactly [size] bytes. *)
Definition writeTarFile (name : string) (size : Z) (data : string) : M World (string * string) :=
  ext (mret tt) ;;
  ext (mret tt) ;;
  if bool_decide (size = Z.of_nat (String.length data)) then mret (name, data)
  else fail (ErrOther "archive/tar: wrong number of bytes").

Definition manifest_of (snapshot : Snapshot) (size : Z) : snapshotBundleManifest :=
  MkManifest snapshotBundleFormat (sn_Name snapshot) (sn_SourceVM snapshot) (sn_BaseImageID snapshot)
    (sn_KernelID snapshot) (snapshotMetadataJSON (sn_BaseImageMetadata snapshot))
    snapshotBundleDiskName size (sn_CreatedAt snapshot).

(** Until the disk is open nothing has been written: (manifest, size, disk). *)
Definition export_open (name : string) : M World (string * Z * string) :=
  if is_empty name then fail (ErrOther "snapshot name is required") else
  ctx_Err ;;
  snapshot ← dbcall (Store.GetSnapshot name);
  if negb (is_empty (sn_StatePath snapshot)) || negb (is_empty (sn_MemPath snapshot))
  then fail ErrUnsupportedSnapshotExport else
  diskInfo ← os_Stat (sn_DiskPath snapshot);
  if negb (fi_IsRegular diskInfo) then fail (ErrOther "snapshot disk is not a regular file") else
  match manifest_Marshal (manifest_of snapshot (fi_Size diskInfo)) with
  | None => fail (ErrOther "marshal manifest")
  | Some text =>
      disk ← open_read (sn_DiskPath snapshot);
      mret (text +:+ newline, fi_Size diskInfo, disk)
  end.

Definition export_write (manifestData : string) (size : Z) (disk : string) : M World string :=
  e1 ← writeTarFile snapshotBundleManifestName (Z.of_nat (String.length manifestData)) manifestData;
  e2 ← writeTarFile snapshotBundleDiskName size disk;
  ext (mret tt) ;;
  ext (mret tt) ;;
  mret (tar_gzip [e1; e2]).

Definition ExportSnapshot (name : string) : M World string :=
  '(manifestData, size, disk) ← export_open name; export_write manifestData size disk.

(** ** Import *)

(** What has been seen of the archive. *)
Record unpacked := MkUnpacked {
  up_manifest : snapshotBundleManifest;
  up_manifestSeen : bool;
  up_diskSeen : bool;
}.

(** The [switch] on the name of a regular file. *)
Definition unpack_file (diskPath name : string) (h : tar_header) (data : string) (complete : bool)
    (st : unpacked) : M World unpacked :=
  if bool_decide (name = snapshotBundleManifestName) then
    if up_manifestSeen st then fail ErrInvalidSnapshotBundle else
    if bool_decide (1024 * 1024 < th_Size h) then fail ErrInvalidSnapshotBundle else
    if negb complete then fail (ErrOther "unexpected EOF") else
    match manifest_Unmarshal data with
    | None => fail ErrInvalidSnapshotBundle
    | Some m => mret (MkUnpacked m true (up_diskSeen st))
    end
  else if bool_decide (name = snapshotBundleDiskName) then
    if up_diskSeen st then fail ErrInvalidSnapshotBundle else
    open_excl diskPath ;;
    copyErr ← attempt (write_at diskPath 0 data ;;
                       if complete : bool then mret tt else fail (ErrOther "unexpected EOF"));
    closeErr ← attempt close;
    lift_result copyErr ;;
    lift_result closeErr ;;
    mret (MkUnpacked (up_manifest st) (up_manifestSeen st) true)
  else fail ErrInvalidSnapshotBundle.

Fixpoint unpack_loop (diskPath : string) (steps : list tar_step) (st : unpacked) : M World unpacked :=
  ctx_Err ;;
  match steps with
  | [] => mret st
  | TarBad :: _ => fail ErrInvalidSnapshotBundle
  | TarEntry h data complete :: steps' =>
      name ← lift_result (cleanBundlePath (th_Name h));
      if th_IsDir h then unpack_loop diskPath steps' st
      else if negb (th_IsReg h) then fail ErrInvalidSnapshotBundle
      else st' ← unpack_file diskPath name h data complete st; unpack_loop diskPath steps' st'
  end.

Definition unpackSnapshotBundle (input diskPath : string) : M World snapshotBundleManifest :=
  match gunzip_untar input with
  | None => fail ErrInvalidSnapshotBundle
  | Some steps =>
      st ← unpack_loop diskPath steps (MkUnpacked zero_manifest false false);
      let manifest := up_manifest st in
      if negb (up_manifestSeen st) then fail ErrInvalidSnapshotBundle else
      if negb (bool_decide (mf_Format manifest = snapshotBundleFormat)) then fail ErrInvalidSnapshotBundle else
      if negb (bool_decide (mf_Disk manifest = snapshotBundleDiskName)) then fail ErrInvalidSnapshotBundle else
      if negb (up_diskSeen st) then fail ErrInvalidSnapshotBundle else
      diskInfo ← os_Stat diskPath;
      if negb (bool_decide (mf_DiskSize manifest = 0)) && negb (bool_decide (fi_Size diskInfo = mf_DiskSize manifest))
      then fail ErrInvalidSnapshotBundle else mret manifest
  end.

(** [strings.Contains(strings.ToLower(err.Error()), "unique")]; the text of a
    constraint violation begins with "UNIQUE constraint failed". *)
Definition mentions_unique (e : error) : bool :=
  match e with
  | ErrConstraint => true
  | ErrOther msg => GoStrings.Contains (ToLower msg) "unique"
  | _ => false
  end.

(** The part before [cleanupTmp = false]: a failure removes [tmpDir]. *)
Definition import_unpack (tmpDir dir input : string) : M World snapshotBundleManifest :=
  r ← attempt (manifest ← unpackSnapshotBundle input (path_Join [tmpDir; snapshotBundleDiskName]);
               os_Rename tmpDir dir ;; mret manifest);
  match r with
  | Ok manifest => mret manifest
  | Err e => attempt (os_RemoveAll tmpDir) ;; fail e
  end.

Definition ImportSnapshot (name input : string) : M World Snapshot :=
  if is_empty name then fail (ErrOther "snapshot name is required") else
  exists_ ← dbcall (Store.SnapshotExists name);
  if exists_ : bool then fail ErrAlreadyExists else
  let l := snapshotLayout_of cfg name in
  st ← attempt (os_Stat (sl_dir l));
  match st with
  | Ok _ => fail ErrAlreadyExists
  | Err ErrNotExist =>
      os_MkdirAll (path_Dir (sl_dir l)) ;;
      tmpDir ← os_MkdirTemp (path_Dir (sl_dir l)) ("." +:+ name +:+ ".import-");
      manifest ← import_unpack tmpDir (sl_dir l) input;
      let md := mf_BaseImageMetadata manifest in
      let metadata := if negb (is_empty md) && negb (bool_decide (md = "null")) then md else "" in
      r ← attempt (store_CreateSnapshot (MkCreateSnapshotParams name "" (mf_SourceVM manifest) "" ""
             (sl_diskPath l) (mf_BaseImageID manifest) (mf_KernelID manifest) metadata));
      match r with
      | Ok snapshot => mret snapshot
      | Err e =>
          attempt (os_RemoveAll (sl_dir l)) ;;
          if mentions_unique e then fail ErrAlreadyExists else fail e
      end
  | Err e => fail e
  end.
End bundle.

(** ** Frames *)

Section frames.
Context `{FirecrackerVMM, Env, Timestamps, GoUnicode, BundleCodec}.

(** Whatever is in the archive, unpacking it writes one file. *)
Lemma keeps_unpack {B} (f : World → B) `{!NoTick f} diskPath input :
  NoAt diskPath f → Keeps f (unpackSnapshotBundle input diskPath).
Proof.
  intros Hat. unfold unpackSnapshotBundle. destruct (gunzip_untar input) as [steps|]; [|apply _].
  assert (∀ st, Keeps f (unpack_loop diskPath steps st)) as Hloop; [|apply _].
  induction steps as [|[h data complete|] steps IH]; intros st; cbn [unpack_loop]; [apply _| |apply _].
  unfold unpack_file, close. apply keeps_bind; [apply _|intros _]. apply keeps_bind; [apply _|intros n].
  apply keeps_if; [apply IH|]. apply keeps_if; [apply _|]. apply keeps_bind; [|apply IH].
  repeat apply keeps_if; apply _.
Qed.

Lemma os_RemoveAll_other a p : under a p = false → Keeps (λ w, fs w !! p) (os_RemoveAll a).
Proof.
  intros Hu. apply keeps_ext; [apply _|]. intros w. simpl. rewrite map_lookup_filter.
  destruct (fs w !! p); simpl; [|done]. by rewrite option_guard_True.
Qed.

Lemma under_refl d : under d d = true.
Proof. unfold under. by rewrite bool_decide_eq_true_2. Qed.

Lemma under_moved a b k : under a k = true → under b (moved a b k) = true.
Proof.
  unfold under, moved. rewrite !orb_true_iff, !bool_decide_eq_true.
  intros [->|(t & ->)%HasPrefix_spec].
  - left. rewrite <-(str_app_nil_r a) at 2. by rewrite str_drop_app, str_app_nil_r.
  - right. rewrite str_app_assoc, str_drop_app. apply HasPrefix_spec. exists t. by rewrite str_app_assoc.
Qed.

(** A rename touches the two trees only. *)
Lemma os_Rename_other a b p :
  under a p = false → under b p = false → Keeps (λ w, fs w !! p) (os_Rename a b).
Proof.
  intros Ha Hb. assert (p ≠ a ∧ p ≠ b) as [Hpa Hpb].
  { split; intros ->; by rewrite under_refl in *. }
  apply keeps_ext; [apply _|]. intros w.
  destruct (fs w !! a) as [[|c]|]; [|destruct (fs w !! b) as [[]|]|]; try done.
  - destruct (fs w !! b); [done|]. simpl. rewrite lookup_union_r.
    + rewrite map_lookup_filter. destruct (fs w !! p) as [n|]; [|done]. simpl.
      rewrite option_guard_True; done.
    + apply not_elem_of_list_to_map_1. intros ((k & n) & -> & Hk)%list_elem_of_fmap. apply list_elem_of_fmap in Hk as ((k' & n') & E & Hk).
      apply elem_of_map_to_list, map_lookup_filter_Some in Hk as [_ Hk]. simpl in *.
      injection E as -> _. by rewrite (under_moved a b) in Hb.
  - case_bool_decide; [done|]. simpl. by rewrite lookup_insert_ne, lookup_delete_ne.
  - case_bool_decide; [done|]. simpl. by rewrite lookup_insert_ne, lookup_delete_ne.
Qed.
End frames.

(** The random part of a temporary name is one path component (os.MkdirTemp). *)
Class RandomNames `{Env} : Prop := random_no_slash t : str_mem "/" (random_name t) = false.

Section import.
Context `{FirecrackerVMM, Env, Timestamps, GoUnicode, BundleCodec, !RandomNames}.
Context (cfg : Config) (sd : list string).
Context (Hsd : StateDir cfg = abs sd ∧ sd ≠ [] ∧ Forall good_part sd).
Context (name : string) (Hname : good_part name).

Definition snapshots_dir : string := abs (sd ++ ["snapshots"]).
Definition tmp_part (t : nat) : string := "." +:+ name +:+ ".import-" +:+ random_name t.
Definition tmp_dir (t : nat) : string := abs (sd ++ ["snapshots"; tmp_part t]).

Lemma snapshots_good l : Forall good_part l → Forall good_part (sd ++ "snapshots" :: l).
Proof.
  intros Hl. apply Forall_app. split; [apply Hsd|]. apply Forall_cons_2; [by apply good_const|done].
Qed.
Lemma sd_nonempty l : sd ++ l ≠ [].
Proof. destruct Hsd as (_ & Hne & _). by destruct sd. Qed.

Lemma tmp_part_good t : good_part (tmp_part t).
Proof.
  destruct Hname as (_ & Hs & _). unfold tmp_part. split; [done|]. split.
  - rewrite !str_mem_app, Hs, random_no_slash. done.
  - split; intros E; apply (f_equal String.length) in E; rewrite !str_length_app in E; simpl in E; lia.
Qed.

Lemma sl_dir_abs : sl_dir (snapshotLayout_of cfg name) = abs (sd ++ ["snapshots"; name]).
Proof.
  destruct Hsd as (Hs & Hne & Hg). simpl. rewrite Hs. apply path_Join_abs; [done..|].
  apply Forall_cons_2; [by apply good_const|by apply Forall_cons_2].
Qed.
Lemma sl_parent : path_Dir (sl_dir (snapshotLayout_of cfg name)) = snapshots_dir.
Proof.
  rewrite sl_dir_abs. change ["snapshots"; name] with (["snapshots"] ++ [name]). rewrite app_assoc.
  apply path_Dir_abs; [apply sd_nonempty|by apply snapshots_good|done].
Qed.
Lemma below_snapshots x : good_part x → abs (sd ++ ["snapshots"; x]) = snapshots_dir +:+ "/" +:+ x.
Proof.
  intros Hx. unfold snapshots_dir, abs. change ["snapshots"; x] with (["snapshots"] ++ [x]).
  rewrite app_assoc, (Join_app _ [x]) by (apply sd_nonempty || done). by rewrite str_app_assoc.
Qed.
Lemma disk_in dir x : good_part x → dir = abs (sd ++ ["snapshots"; x]) →
  path_Join [dir; snapshotBundleDiskName] = abs (sd ++ ["snapshots"; x; snapshotBundleDiskName]) ∧
  path_Join [dir; snapshotBundleDiskName] = dir +:+ "/" +:+ snapshotBundleDiskName.
Proof.
  intros Hx ->.
  assert (path_Join [abs (sd ++ ["snapshots"; x]); snapshotBundleDiskName] =
          abs ((sd ++ ["snapshots"; x]) ++ [snapshotBundleDiskName])) as ->.
  { apply path_Join_abs; [apply sd_nonempty|apply snapshots_good; by apply Forall_cons_2|].
    apply Forall_cons_2; [by apply good_const|done]. }
  split; [by rewrite <-app_assoc|]. unfold abs.
  rewrite (Join_app _ [snapshotBundleDiskName]) by (apply sd_nonempty || done). by rewrite str_app_assoc.
Qed.

Lemma tmp_name w t w' :
  os_MkdirTemp snapshots_dir ("." +:+ name +:+ ".import-") w = (Ok t, w') → ∃ k, t = tmp_dir k.
Proof.
  intros E. unfold os_MkdirTemp in E. apply bind_Ok in E as (k & w1 & _ & E). apply ext_Ok in E.
  exists k. unfold tmp_dir. rewrite (below_snapshots _ (tmp_part_good k)). unfold tmp_part.
  rewrite ?str_app_assoc in E. rewrite ?str_app_assoc.
  destruct (fs (bump w1) !! _); [done|]. destruct (parent_ok _ _); [|done]. by injection E as <- _.
Qed.

(** Where an import may write: the directory of the snapshot and its temporary
    directory. *)
Definition outside (p : string) : Prop :=
  under (sl_dir (snapshotLayout_of cfg name)) p = false ∧ (∀ t, under (tmp_dir t) p = false) ∧
  under p snapshots_dir = false.

Lemma import_unpack_other tmp input p k :
  tmp = tmp_dir k → outside p →
  Keeps (λ w, fs w !! p) (import_unpack tmp (sl_dir (snapshotLayout_of cfg name)) input).
Proof.
  intros -> (Hd & Ht & _). unfold import_unpack.
  pose proof (os_RemoveAll_other (tmp_dir k) p (Ht k)) as K1.
  pose proof (os_Rename_other (tmp_dir k) _ p (Ht k) Hd) as K2.
  assert (NoAt (path_Join [tmp_dir k; snapshotBundleDiskName]) (λ w, fs w !! p)) as Hat.
  { apply no_at_ne. intros ->. specialize (Ht k).
    rewrite (proj2 (disk_in (tmp_dir k) _ (tmp_part_good k) eq_refl)) in Ht.
    unfold under in Ht. rewrite (proj2 (HasPrefix_spec _ _)) in Ht; [by rewrite orb_true_r in Ht|].
    exists snapshotBundleDiskName. by rewrite str_app_assoc. }
  pose proof (keeps_unpack (λ w, fs w !! p) _ input Hat) as K3.
  apply keeps_bind; [apply _|]. intros []; apply _.
Qed.

Lemma os_MkdirTemp_other p : outside p → Keeps (λ w, fs w !! p) (os_MkdirTemp snapshots_dir ("." +:+ name +:+ ".import-")).
Proof.
  intros (_ & Ht & _). unfold os_MkdirTemp. apply keeps_bind; [apply _|]. intros k.
  apply keeps_ext; [apply _|]. intros w. destruct (fs w !! _); [done|]. destruct (parent_ok _ _); [|done].
  simpl. rewrite lookup_insert_ne; [done|]. intros <-. specialize (Ht k). unfold tmp_dir in Ht.
  rewrite (below_snapshots _ (tmp_part_good k)) in Ht. unfold tmp_part in Ht.
  by rewrite ?str_app_assoc, under_refl in Ht.
Qed.

Lemma ImportSnapshot_other input p : outside p → Keeps (λ w, fs w !! p) (ImportSnapshot cfg name input).
Proof.
  intros Hp. unfold ImportSnapshot. rewrite sl_parent.
  pose proof (os_MkdirTemp_other p Hp) as K1.
  assert (Keeps (λ w, fs w !! p) (os_MkdirAll snapshots_dir)) as K2 by (apply os_MkdirAll_apart, Hp).
  assert (Keeps (λ w, fs w !! p) (os_RemoveAll (sl_dir (snapshotLayout_of cfg name)))) as K3
    by (apply os_RemoveAll_other, Hp).
  apply keeps_if; [apply _|]. apply keeps_bind; [apply _|intros b]. apply keeps_if; [apply _|].
  cbv zeta. apply keeps_bind; [apply _|]. intros [|[]]; try apply _.
  apply keeps_bind; [apply _|intros _].
  apply (keeps_bind_val _ (λ t, ∃ k, t = tmp_dir k)); [apply _|apply tmp_name|].
  intros t [k Hk]. pose proof (import_unpack_other t input p k Hk Hp) as K4. apply _.
Qed.

(** The tables besides the one row, and everything that is not a file. *)
Definition beyond (w : World) :=
  (vms (db w), routes (db w), route_protections (db w), delete name (snapshots (db w)),
   (running w, vmms w, taps w, vmOps w, coldArchives w)).

Lemma ImportSnapshot_beyond input : Keeps beyond (ImportSnapshot cfg name input).
Proof.
  assert (∀ p, cs_Name p = name → Keeps beyond (store_CreateSnapshot p)) as K1.
  { intros p Hp. unfold store_CreateSnapshot. apply keeps_bind; [apply _|]. intros now.
    apply keeps_ext; [apply _|]. intros w. unfold Store.CreateSnapshot. rewrite Hp.
    destruct (snapshots (db w) !! name); [done|]. unfold beyond. simpl. by rewrite delete_insert_eq. }
  assert (Keeps beyond (dbcall (Store.SnapshotExists name))) as K2
    by (apply keeps_ext; [apply _|by intros w]).
  assert (∀ a b, Keeps beyond (os_Rename a b)) as K3.
  { intros a b. apply keeps_ext; [apply _|]. intros w.
    destruct (fs w !! a) as [[]|]; destruct (fs w !! b) as [[]|]; try case_bool_decide; done. }
  unfold ImportSnapshot, import_unpack, os_MkdirTemp.
  apply keeps_if; [apply _|]. apply keeps_bind; [apply _|intros b]. apply keeps_if; [apply _|].
  cbv zeta. apply keeps_bind; [apply _|]. intros [|[]]; try apply _.
  apply keeps_bind; [apply _|intros _]. apply keeps_bind.
  { apply keeps_bind; [apply _|]. intros k. apply keeps_ext; [apply _|]. intros w.
    destruct (fs w !! _); [done|]. by destruct (parent_ok _ _). }
  intros t. pose proof (keeps_unpack beyond (path_Join [t; snapshotBundleDiskName]) input _) as K4.
  apply keeps_bind; [apply _|]. intros m. cbv zeta. apply keeps_bind; [|apply _].
  by apply keeps_attempt, K1.
Qed.

(** C34.  An import is confined, whoever wrote the bundle: whatever names,
    links or sizes the archive holds and whatever fails, no file changes outside
    the snapshot's own directory and its temporary directory (only the missing
    directories above them are created), and of the manager's state only the row
    of this snapshot. *)
Theorem import_confined input w :
  let w' := (ImportSnapshot cfg name input w).2 in
  (∀ p, outside p → fs w' !! p = fs w !! p) ∧
  vms (db w') = vms (db w) ∧ routes (db w') = routes (db w) ∧ route_protections (db w') = route_protections (db w) ∧
  (∀ n, n ≠ name → snapshots (db w') !! n = snapshots (db w) !! n) ∧
  running w' = running w ∧ vmms w' = vmms w ∧ taps w' = taps w ∧ vmOps w' = vmOps w.
Proof.
  pose proof (ImportSnapshot_beyond input w) as E. cbv zeta. injection E as E1 E2 E3 E4 E5 E6 E7 E8 _.
  split; [intros p Hp; by apply ImportSnapshot_other|]. split_and!; try done.
  intros n Hn. rewrite <-(lookup_delete_ne (snapshots (db w)) name n) by done.
  rewrite <-E4. by rewrite lookup_delete_ne.
Qed.
End import.

(** ** Round trip *)

Lemma go_bind {S A B} (m : M S A) (k : A → M S B) s a s' : m s = (Ok a, s') → (m ≫= k) s = k a s'.
Proof. intros E. unfold mbind, M_mbind. by rewrite E. Qed.

Lemma ancestors_from_self p : ∀ pre, pre +:+ p ≠ "" → pre +:+ p ∈ ancestors_from pre p.
Proof.
  induction p as [|ch p IH]; intros pre Hne; cbn [ancestors_from].
  - rewrite str_app_nil_r in *. rewrite bool_decide_eq_false_2 by done. apply list_elem_of_singleton. done.
  - assert (pre +:+ String ch p = (pre +:+ String ch "") +:+ p) as E by by rewrite str_app_assoc.
    rewrite E in *. case_bool_decide; [apply elem_of_cons; right|]; by apply IH.
Qed.

Section moved_tree.
Context (a b : string).

Lemma under_split k : under a k = true → ∃ s, k = a +:+ s.
Proof.
  unfold under. rewrite orb_true_iff, bool_decide_eq_true. intros [->|(t & ->)%HasPrefix_spec].
  - exists "". by rewrite str_app_nil_r.
  - exists ("/" +:+ t). by rewrite str_app_assoc.
Qed.
Lemma moved_inj k1 k2 : under a k1 = true → under a k2 = true → moved a b k1 = moved a b k2 → k1 = k2.
Proof.
  intros (s1 & ->)%under_split (s2 & ->)%under_split. unfold moved. rewrite !str_drop_app.
  intros E. f_equal. by apply (inj (String.append b)) in E.
Qed.

(** A file of a renamed directory is found in its new place. *)
Lemma moved_lookup (m : gmap string node) k n :
  under a k = true → m !! k = Some n →
  (list_to_map ((λ kn, (moved a b kn.1, kn.2)) <$> map_to_list (filter (λ kn, under a kn.1 = true) m)) ∪
   filter (λ kn, under a kn.1 = false) m : gmap string node) !! moved a b k = Some n.
Proof.
  intros Hu Hk. apply lookup_union_Some_l, elem_of_list_to_map.
  - rewrite <-list_fmap_compose. apply NoDup_fmap_2_strong; [|apply NoDup_map_to_list].
    intros [k1 n1] [k2 n2] H1%elem_of_map_to_list H2%elem_of_map_to_list E. simpl in E.
    apply map_lookup_filter_Some in H1 as [M1 U1]. apply map_lookup_filter_Some in H2 as [M2 U2].
    simpl in *. apply moved_inj in E; [|done..]. congruence.
  - apply list_elem_of_fmap. exists (k, n). split; [done|].
    by apply elem_of_map_to_list, map_lookup_filter_Some.
Qed.
End moved_tree.

(** What a successful export has put into the archive. *)
Lemma ExportSnapshot_Ok `{FirecrackerVMM, Env, GoUnicode, BundleCodec} name w bytes w' :
  ExportSnapshot name w = (Ok bytes, w') →
  ∃ sn disk text, snapshots (db w) !! name = Some sn ∧ fs w !! sn_DiskPath sn = Some (File disk) ∧
    sn_StatePath sn = "" ∧ sn_MemPath sn = "" ∧
    manifest_Marshal (manifest_of sn (Z.of_nat (String.length disk))) = Some text ∧
    bytes = tar_gzip [(snapshotBundleManifestName, text +:+ newline); (snapshotBundleDiskName, disk)].
Proof.
  unfold ExportSnapshot. intros E0. apply bind_Ok in E0 as ([[md size] disk0] & w0 & E & Ew).
  unfold export_open in E. destruct (is_empty name); [done|].
  apply bind_Ok in E as ([] & w1 & E1 & E). apply bind_Ok in E as (sn & w2 & E2 & E).
  pose proof (keeps_Ok db _ _ _ _ E1) as D1. pose proof (keeps_Ok fs _ _ _ _ E1) as F1.
  pose proof (keeps_Ok fs _ _ _ _ E2) as F2. apply ext_Ok in E2. cbn [db bump] in E2.
  unfold Store.GetSnapshot in E2. rewrite D1 in E2.
  destruct (snapshots (db w) !! name) as [sn'|] eqn:Hsn; [|done]. injection E2 as -> _.
  destruct (is_empty (sn_StatePath sn)) eqn:Hs; [|done]. destruct (is_empty (sn_MemPath sn)) eqn:Hm; [|done].
  apply bool_decide_eq_true in Hs, Hm. cbn [negb orb] in E.
  apply bind_Ok in E as (fi & w3 & E3 & E). pose proof (keeps_Ok fs _ _ _ _ E3) as F3.
  apply ext_Ok in E3. cbn [fs bump] in E3. rewrite F2, F1 in E3.
  destruct (fs w !! sn_DiskPath sn) as [[|disk]|] eqn:Hd; [|injection E3 as <- _|done].
  { injection E3 as <- _. done. }
  cbn [node_info fi_IsRegular fi_Size negb] in E. destruct (manifest_Marshal _) as [text|] eqn:Ht; [|done].
  apply bind_Ok in E as (disk' & w4 & E4 & E). apply ext_Ok in E4. cbn [fs bump] in E4.
  rewrite F3, F2, F1, Hd in E4. injection E4 as <- _. injection E as <- <- <- _.
  apply bind_Ok in Ew as (e1 & w5 & E5 & E). apply bind_Ok in E as (e2 & w6 & E6 & E).
  assert (∀ n s d w r w', writeTarFile n s d w = (Ok r, w') → r = (n, d)) as Hwrite.
  { unfold writeTarFile. intros n s d v r v' Ev. do 2 (apply bind_Ok in Ev as ([] & ? & _ & Ev)).
    case_bool_decide; [|done]. by injection Ev as <- _. }
  apply Hwrite in E5 as ->. apply Hwrite in E6 as ->.
  do 2 (apply bind_Ok in E as ([] & ? & _ & E)). injection E as <- _.
  exists sn, disk, text. done.
Qed.

Section import_runs.
Context `{FirecrackerVMM, Env, Timestamps, GoUnicode, BundleLaws, !RandomNames}.
Context (cfg : Config) (sd : list string).
Context (Hsd : StateDir cfg = abs sd ∧ sd ≠ [] ∧ Forall good_part sd).
Context (name : string) (Hname : good_part name).
Context (Hgo : ∀ n, fate n = Proceed).

#[local] Abbreviation dir := (sl_dir (snapshotLayout_of cfg name)).

(** The place for the import is free. *)
Record import_free (w : World) : Prop := {
  if_row : snapshots (db w) !! name = None;
  if_dir : no_files dir w;
  if_tmp t : no_files (tmp_dir sd name t) w;
  if_parents a c : a ∈ ancestors (snapshots_dir sd) → fs w !! a ≠ Some (File c);
}.

Lemma run_ext {A} (m : M World A) w : ext m w = m (bump w).
Proof. by apply ext_proceed. Qed.

Lemma mkdirs_runs ps : ∀ w, (∀ a c, a ∈ ps → fs w !! a ≠ Some (File c)) →
  ∃ w', mkdirs ps w = (Ok tt, w') ∧ db w' = db w ∧ ∀ p, fs w' !! p = if bool_decide (p ∈ ps) then Some Dir else fs w !! p.
Proof.
  induction ps as [|q ps IH]; intros w Hps; cbn [mkdirs]; [by exists w|].
  assert (∀ c, fs w !! q ≠ Some (File c)) as Hq by (intros c; apply Hps; left).
  assert (∃ w1, (match fs w !! q with Some (File _) => (Err (ErrOther "not a directory"), w)
                 | Some Dir => mkdirs ps w | None => mkdirs ps (set_fs <[q := Dir]> w) end) = mkdirs ps w1 ∧
           db w1 = db w ∧ fs w1 = <[q := Dir]> (fs w)) as (w1 & -> & D1 & F1).
  { destruct (fs w !! q) as [[]|] eqn:E; [exists w|by destruct (Hq content)|by exists (set_fs <[q := Dir]> w)].
    by rewrite insert_id. }
  destruct (IH w1) as (w2 & -> & D2 & F2).
  { intros a c Ha. rewrite F1. destruct (decide (a = q)) as [->|]; simplify_map_eq; [done|].
    apply Hps. by right. }
  exists w2. split; [done|]. split; [congruence|]. intros p. rewrite F2, F1.
  destruct (decide (p = q)) as [->|Hne].
  - rewrite lookup_insert_eq, (bool_decide_eq_true_2 (q ∈ q :: ps)) by left. by destruct (bool_decide _).
  - rewrite lookup_insert_ne by done. assert (p ∈ q :: ps ↔ p ∈ ps) as Hiff by (rewrite elem_of_cons; naive_solver).
    by rewrite (bool_decide_ext _ _ Hiff).
Qed.

Lemma unpack_runs diskPath m disk (text : string) w :
  manifest_Unmarshal text = Some m → Z.of_nat (String.length text) ≤ 1024 * 1024 →
  mf_Format m = snapshotBundleFormat → mf_Disk m = snapshotBundleDiskName →
  mf_DiskSize m = Z.of_nat (String.length disk) →
  fs w !! diskPath = None → parent_ok diskPath (fs w) = true →
  ∃ w', unpackSnapshotBundle (tar_gzip [(snapshotBundleManifestName, text); (snapshotBundleDiskName, disk)])
          diskPath w = (Ok m, w') ∧ fs w' = <[diskPath := File disk]> (fs w) ∧ db w' = db w.
Proof.
  intros Hm Hlen Hf Hd Hsize Hnone Hpar. unfold unpackSnapshotBundle. rewrite untar_tar.
  cbn [fmap list_fmap unpack_loop fst snd]. unfold ctx_Err.
  assert (cleanBundlePath snapshotBundleManifestName = Ok snapshotBundleManifestName) as C1
    by (vm_compute; reflexivity).
  assert (cleanBundlePath snapshotBundleDiskName = Ok snapshotBundleDiskName) as C2
    by (vm_compute; reflexivity).
  cbn [th_Name th_IsDir th_IsReg negb]. rewrite C1, C2. unfold unpack_file, close, lift_result, mbind, M_mbind, attempt, mret, M_mret.
  rewrite !run_ext. cbn [th_Size up_manifestSeen].
  rewrite (bool_decide_eq_true_2 (snapshotBundleManifestName = _)) by done.
  rewrite (bool_decide_eq_false_2 (1024 * 1024 < _)) by lia. cbn [negb]. rewrite Hm.
  cbv beta iota. rewrite !run_ext.
  rewrite (bool_decide_eq_false_2 (snapshotBundleDiskName = snapshotBundleManifestName)) by done.
  rewrite (bool_decide_eq_true_2 (snapshotBundleDiskName = snapshotBundleDiskName)) by done.
  cbn [up_diskSeen up_manifest up_manifestSeen]. unfold open_excl. rewrite run_ext. cbn [fs bump].
  rewrite Hnone, Hpar. cbv beta iota. unfold write_at, on_file. rewrite run_ext. cbn [fs bump set_fs].
  rewrite lookup_insert_eq. cbv beta iota. rewrite !run_ext. cbn [up_manifest up_manifestSeen up_diskSeen negb].
  rewrite Hf, Hd, (bool_decide_eq_true_2 (snapshotBundleFormat = _)) by done.
  rewrite (bool_decide_eq_true_2 (snapshotBundleDiskName = snapshotBundleDiskName)) by done.
  cbn [negb]. unfold os_Stat. rewrite run_ext.
  cbn [fs bump set_fs]. rewrite lookup_insert_eq. cbn [node_info fi_Size].
  assert (spliced 0 disk "" = disk) as ->.
  { unfold spliced. rewrite resized_0. simpl. destruct (String.length disk); by rewrite str_app_nil_r. }
  rewrite Hsize, (bool_decide_eq_true_2 (Z.of_nat (String.length disk) = Z.of_nat (String.length disk))) by done.
  rewrite andb_false_r. eexists. split; [reflexivity|]. split; [|done]. cbn [fs bump set_fs].
  by rewrite insert_insert_eq.
Qed.

Lemma tmp_disk t : path_Join [tmp_dir sd name t; snapshotBundleDiskName] = tmp_dir sd name t +:+ "/rootfs.ext4".
Proof. exact (proj2 (disk_in cfg sd Hsd (tmp_dir sd name t) _ (tmp_part_good name Hname t) eq_refl)). Qed.
Lemma tmp_disk_under t : under (tmp_dir sd name t) (tmp_dir sd name t +:+ "/rootfs.ext4") = true.
Proof.
  unfold under. apply orb_true_iff. right. apply HasPrefix_spec. exists "rootfs.ext4". by rewrite str_app_assoc.
Qed.
Lemma tmp_disk_moved t : moved (tmp_dir sd name t) dir (tmp_dir sd name t +:+ "/rootfs.ext4") = sl_diskPath (snapshotLayout_of cfg name).
Proof.
  unfold moved. rewrite str_drop_app. change (sl_diskPath _) with (path_Join [dir; "rootfs.ext4"]).
  symmetry. exact (proj2 (disk_in cfg sd Hsd dir _ Hname (sl_dir_abs cfg sd Hsd name Hname))).
Qed.

(** Paths inside [snapshots] are not above it. *)
Lemma inside_not_above l : l ≠ [] → Forall good_part l → abs (sd ++ "snapshots" :: l) ∉ ancestors (snapshots_dir sd).
Proof.
  intros Hl Hg Hin. apply ancestors_from_under in Hin. change ("" +:+ snapshots_dir sd) with (snapshots_dir sd) in Hin.
  apply under_abs in Hin; [|by apply (sd_nonempty cfg)..|by apply (snapshots_good cfg)|by apply (snapshots_good cfg)].
  apply prefix_length in Hin. rewrite !length_app in Hin. simpl in Hin. destruct l; simpl in *; [done|lia].
Qed.

Lemma tmp_parts t : (tmp_dir sd name t ∉ ancestors (snapshots_dir sd)) ∧
  (tmp_dir sd name t +:+ "/rootfs.ext4" ∉ ancestors (snapshots_dir sd)) ∧ (dir ∉ ancestors (snapshots_dir sd)).
Proof.
  pose proof (tmp_part_good name Hname t) as Ht. split_and!.
  - apply inside_not_above; [done|by apply Forall_cons_2].
  - rewrite <-tmp_disk, (proj1 (disk_in cfg sd Hsd (tmp_dir sd name t) _ Ht eq_refl)).
    apply inside_not_above; [done|]. apply Forall_cons_2; [done|]. by apply Forall_cons_2; [apply good_const|].
  - rewrite (sl_dir_abs cfg sd Hsd name Hname). apply inside_not_above; [done|by apply Forall_cons_2].
Qed.

(** The temporary directory, once its parents are there. *)
Lemma tmp_runs w :
  import_free w →
  ∃ w' t, (os_MkdirAll (snapshots_dir sd) ;; os_MkdirTemp (snapshots_dir sd) ("." +:+ name +:+ ".import-")) w
            = (Ok (tmp_dir sd name t), w') ∧ db w' = db w ∧
    fs w' !! tmp_dir sd name t = Some Dir ∧ fs w' !! dir = None ∧
    fs w' !! (tmp_dir sd name t +:+ "/rootfs.ext4") = None.
Proof.
  intros Hfree. unfold os_MkdirAll, os_MkdirTemp.
  destruct (mkdirs_runs (ancestors (snapshots_dir sd)) (bump w)) as (w1 & E1 & D1 & F1);
    [apply (if_parents w Hfree)|].
  rewrite (go_bind _ _ _ tt w1) by by rewrite run_ext.
  set (t := tick w1). rewrite (go_bind _ _ _ t w1) by done. rewrite run_ext. cbn [fs bump].
  assert (snapshots_dir sd +:+ "/" +:+ ("." +:+ name +:+ ".import-") +:+ random_name t = tmp_dir sd name t) as Ep.
  { unfold tmp_dir. rewrite (below_snapshots cfg sd Hsd _ (tmp_part_good name Hname t)). unfold tmp_part.
    by rewrite ?str_app_assoc. }
  cbv zeta. rewrite Ep. destruct (tmp_parts t) as (N1 & N2 & N3).
  assert (fs w1 !! tmp_dir sd name t = None) as T1.
  { rewrite F1, bool_decide_eq_false_2 by done. apply (if_tmp w Hfree t). apply under_refl. }
  rewrite T1. unfold parent_ok.
  assert (path_Dir (tmp_dir sd name t) = snapshots_dir sd) as Hp.
  { unfold tmp_dir. change ["snapshots"; tmp_part name t] with (["snapshots"] ++ [tmp_part name t]).
    rewrite app_assoc. apply path_Dir_abs; [by apply (sd_nonempty cfg)|by apply (snapshots_good cfg)|].
    apply (tmp_part_good name Hname). }
  assert (fs w1 !! snapshots_dir sd = Some Dir) as Hpar.
  { rewrite F1, bool_decide_eq_true_2; [done|]. by apply (ancestors_from_self _ ""). }
  rewrite Hp, (bool_decide_eq_true_2 _ Hpar).
  eexists _, t. split; [reflexivity|]. split; [exact D1|]. cbn [fs set_fs bump].
  split; [apply lookup_insert_eq|].
  assert (dir ≠ tmp_dir sd name t) as Hdt.
  { rewrite (sl_dir_abs cfg sd Hsd name Hname). unfold tmp_dir. intros E.
    apply abs_inj in E; [|by apply (sd_nonempty cfg)..| |].
    - apply app_inv_head in E. injection E as E. apply (f_equal String.length) in E. unfold tmp_part in E.
      rewrite !str_length_app in E. simpl in E. lia.
    - apply (snapshots_good cfg); [done|by apply Forall_cons_2].
    - apply (snapshots_good cfg); [done|]. apply Forall_cons_2; [apply (tmp_part_good name Hname)|done]. }
  split.
  - rewrite lookup_insert_ne by done. rewrite F1, bool_decide_eq_false_2 by done.
    apply (if_dir w Hfree), under_refl.
  - rewrite lookup_insert_ne.
    + rewrite F1, bool_decide_eq_false_2 by done. apply (if_tmp w Hfree t), tmp_disk_under.
    + intros E. apply (f_equal String.length) in E. rewrite str_length_app in E. simpl in E. lia.
Qed.

Lemma rename_runs t w disk :
  fs w !! tmp_dir sd name t = Some Dir → fs w !! dir = None →
  fs w !! (tmp_dir sd name t +:+ "/rootfs.ext4") = Some (File disk) →
  ∃ w', os_Rename (tmp_dir sd name t) dir w = (Ok tt, w') ∧ db w' = db w ∧
    fs w' !! sl_diskPath (snapshotLayout_of cfg name) = Some (File disk).
Proof.
  intros T1 T2 T3. unfold os_Rename. rewrite run_ext. cbn [fs bump]. rewrite T1, T2.
  eexists. split; [reflexivity|]. split; [done|]. cbn [fs set_fs bump]. rewrite <-(tmp_disk_moved t).
  by apply moved_lookup; [apply tmp_disk_under|].
Qed.

Lemma import_runs m disk (text : string) w :
  import_free w → manifest_Unmarshal text = Some m → Z.of_nat (String.length text) ≤ 1024 * 1024 →
  mf_Format m = snapshotBundleFormat → mf_Disk m = snapshotBundleDiskName →
  mf_DiskSize m = Z.of_nat (String.length disk) →
  let md := mf_BaseImageMetadata m in
  ∃ sn w', ImportSnapshot cfg name (tar_gzip [(snapshotBundleManifestName, text); (snapshotBundleDiskName, disk)]) w
             = (Ok sn, w') ∧
    snapshots (db w') !! name = Some sn ∧ fs w' !! sn_DiskPath sn = Some (File disk) ∧
    sn_StatePath sn = "" ∧ sn_MemPath sn = "" ∧
    sn_SourceVM sn = mf_SourceVM m ∧ sn_BaseImageID sn = mf_BaseImageID m ∧ sn_KernelID sn = mf_KernelID m ∧
    sn_BaseImageMetadata sn = if negb (is_empty md) && negb (bool_decide (md = "null")) then md else "".
Proof.
  intros Hfree Hm Hlen Hf Hd Hsize md. unfold ImportSnapshot.
  unfold is_empty at 1. rewrite bool_decide_eq_false_2 by apply Hname.
  rewrite (go_bind _ _ _ false (bump w)).
  2:{ unfold dbcall. rewrite run_ext. unfold Store.SnapshotExists, gets. cbn [db bump].
      rewrite (if_row w Hfree). by destruct w. }
  cbv zeta iota beta. rewrite (go_bind _ _ _ (Err ErrNotExist) (bump (bump w))).
  2:{ unfold attempt, os_Stat. rewrite run_ext. cbn [fs bump]. by rewrite (if_dir w Hfree _ (under_refl _)). }
  rewrite (sl_parent cfg sd Hsd name Hname).
  assert (import_free (bump (bump w))) as Hfree2 by (destruct Hfree; by split).
  destruct (tmp_runs _ Hfree2) as (w1 & t & E1 & D1 & T1 & T2 & T3).
  apply bind_Ok in E1 as ([] & w0 & E0 & E1). rewrite (go_bind _ _ _ _ _ E0), (go_bind _ _ _ _ _ E1).
  destruct (unpack_runs (tmp_dir sd name t +:+ "/rootfs.ext4") m disk text w1 Hm Hlen Hf Hd Hsize T3)
    as (w2 & E2 & F2 & D2).
  { unfold parent_ok. rewrite <-tmp_disk. rewrite (proj1 (disk_in cfg sd Hsd (tmp_dir sd name t) _ (tmp_part_good name Hname t) eq_refl)).
    assert (path_Dir (abs (sd ++ ["snapshots"; tmp_part name t; snapshotBundleDiskName])) = tmp_dir sd name t) as ->;
      [|by apply bool_decide_eq_true_2].
    change (["snapshots"; tmp_part name t; snapshotBundleDiskName])
      with (["snapshots"; tmp_part name t] ++ [snapshotBundleDiskName]). rewrite app_assoc.
    apply path_Dir_abs; [by apply (sd_nonempty cfg)| |by apply good_const].
    apply (snapshots_good cfg); [done|]. apply Forall_cons_2; [apply (tmp_part_good name Hname)|done]. }
  assert (fs w2 !! tmp_dir sd name t = Some Dir ∧ fs w2 !! dir = None) as [T4 T5].
  { rewrite F2, !lookup_insert_ne; [done|..].
    - intros E. assert (under (tmp_dir sd name t) dir = true) as U by (rewrite <-E; apply tmp_disk_under).
      unfold tmp_dir in U. rewrite (sl_dir_abs cfg sd Hsd name Hname) in U.
      apply under_abs in U; [|by apply (sd_nonempty cfg)..| |].
      + apply prefix_app_inv, prefix_cons_inv_2, prefix_cons_inv_1 in U. apply (f_equal String.length) in U.
        unfold tmp_part in U. rewrite !str_length_app in U. simpl in U. lia.
      + apply (snapshots_good cfg); [done|]. apply Forall_cons_2; [apply (tmp_part_good name Hname)|done].
      + apply (snapshots_good cfg); [done|by apply Forall_cons_2].
    - intros E. apply (f_equal String.length) in E. rewrite str_length_app in E. simpl in E. lia. }
  destruct (rename_runs t w2 disk T4 T5) as (w3 & E3 & D3 & F3); [rewrite F2; apply lookup_insert_eq|].
  rewrite (go_bind _ _ _ m w3).
  2:{ unfold import_unpack. rewrite tmp_disk, (go_bind _ _ _ (Ok m) w3); [done|]. unfold attempt.
      by rewrite (go_bind _ _ _ _ _ E2), (go_bind _ _ _ _ _ E3). }
  assert (snapshots (db w3) !! name = None) as Hrow by (rewrite D3, D2, D1; apply (if_row w Hfree)).
  unfold store_CreateSnapshot, db_now, mbind at 1, M_mbind at 1, attempt at 1.
  rewrite (go_bind _ _ _ (strftime (now_ms (tick w3))) w3) by done. unfold dbcall. rewrite run_ext.
  unfold Store.CreateSnapshot. cbn [db bump cs_Name]. rewrite Hrow. unfold Store.GetSnapshot.
  cbn [snapshots set_snapshots]. rewrite lookup_insert_eq. eexists _, _. split; [reflexivity|].
  cbn [db set_db fs bump snapshots set_snapshots]. split; [apply lookup_insert_eq|].
  cbn. split_and!; done.
Qed.
End import_runs.

(** The metadata column after the round trip: absent stays absent, and JSON
    keeps its value (its text may be laid out anew). *)
Definition same_metadata `{BundleCodec} (before after : string) : Prop :=
  (before = "" → after = "") ∧
  (json_Valid before = true → snapshotMetadataJSON before ≠ "" → json_value after = json_value before).

Lemma metadata_roundtrip `{BundleLaws} before md :
  json_value md = json_value (snapshotMetadataJSON before) →
  (md = "" ↔ snapshotMetadataJSON before = "") → (snapshotMetadataJSON before ≠ "null" → md ≠ "null") →
  same_metadata before (if negb (is_empty md) && negb (bool_decide (md = "null")) then md else "").
Proof.
  intros Hv Hempty Hnull. unfold is_empty.
  assert (snapshotMetadataJSON "" = "") as Enil.
  { unfold snapshotMetadataJSON, JSONText_MarshalJSON. simpl. by rewrite compact_null. }
  split.
  - intros ->. apply Hempty in Enil as ->. done.
  - intros Hvalid Hne. assert (md ≠ "") as Hmd by tauto. assert (before ≠ "") as Hb by congruence.
    assert (snapshotMetadataJSON before = json_Compact before) as E.
    { revert Hne. unfold snapshotMetadataJSON, JSONText_MarshalJSON, is_empty.
      rewrite (bool_decide_eq_false_2 _ Hb), Hvalid. by case_bool_decide. }
    assert (md ≠ "null") as Hmn.
    { apply Hnull. unfold snapshotMetadataJSON. case_bool_decide as Hc; [done|exact Hc]. }
    rewrite !bool_decide_eq_false_2 by done. simpl. rewrite Hv, E. by apply compact_value.
Qed.

(** C35.  Export and import are inverse: the bytes a successful export has
    written, imported under any free name on any host where nothing fails and
    the place is free, give a snapshot with the same disk contents, source VM,
    base image and kernel, and metadata of the same JSON value.  (The import
    refuses manifests over 1 MiB.) *)
Theorem export_import `{FirecrackerVMM, GoUnicode, Timestamps, BundleLaws} (E1 E2 : Env)
    (Hrandom : @RandomNames E2) (Hgo : ∀ n, @fate E2 n = Proceed) cfg sd name name' w bytes w1 v :
  StateDir cfg = abs sd ∧ sd ≠ [] ∧ Forall good_part sd → good_part name' →
  ExportSnapshot (H0 := E1) name w = (Ok bytes, w1) →
  (∀ sn disk text, snapshots (db w) !! name = Some sn → fs w !! sn_DiskPath sn = Some (File disk) →
     manifest_Marshal (manifest_of sn (Z.of_nat (String.length disk))) = Some text →
     Z.of_nat (String.length text) < 1024 * 1024) →
  import_free (H0 := E2) cfg sd name' v →
  ∃ sn disk sn' v',
    snapshots (db w) !! name = Some sn ∧ fs w !! sn_DiskPath sn = Some (File disk) ∧
    ImportSnapshot (H0 := E2) cfg name' bytes v = (Ok sn', v') ∧
    snapshots (db v') !! name' = Some sn' ∧ fs v' !! sn_DiskPath sn' = Some (File disk) ∧
    sn_SourceVM sn' = sn_SourceVM sn ∧ sn_BaseImageID sn' = sn_BaseImageID sn ∧
    sn_KernelID sn' = sn_KernelID sn ∧ same_metadata (sn_BaseImageMetadata sn) (sn_BaseImageMetadata sn').
Proof.
  intros Hsd Hname E Hsmall Hfree.
  destruct (ExportSnapshot_Ok _ _ _ _ E) as (sn & disk & text & Hsn & Hdisk & _ & _ & Hm & ->).
  destruct (unmarshal_marshal _ _ Hm) as (md & Hu & Hv & Hempty & Hnull).
  specialize (Hsmall sn disk text Hsn Hdisk Hm).
  destruct (import_runs cfg sd Hsd name' Hname Hgo _ disk (text +:+ newline) v Hfree Hu) as (sn' & v' & R);
    [|done..|].
  { rewrite str_length_app. simpl. lia. }
  cbn in R. destruct R as (Ei & Hrow & Hd & _ & _ & Hs & Hb & Hk & Hmeta).
  exists sn, disk, sn', v'. split_and!; try done. rewrite Hmeta. by apply metadata_roundtrip.
Qed.

(** ** Examples *)

(** A codec that lays its fields out one after the other, each character marked. *)
Fixpoint enc (s rest : string) : string :=
  match s with "" => String "e" rest | String c s' => String "x" (String c (enc s' rest)) end.
Fixpoint dec (s : string) : option (string * string) :=
  match s with
  | String "e" rest => Some ("", rest)
  | String "x" (String c s') => (λ fr, (String c fr.1, fr.2)) <$> dec s'
  | _ => None
  end.
Lemma dec_enc s rest : dec (enc s rest) = Some (s, rest).
Proof. induction s as [|c s IH]; cbn [enc dec]; [done|]. by rewrite IH. Qed.

Definition enc_fields (l : list string) : string := foldr enc "" l.
Fixpoint dec_fields (fuel : nat) (s : string) : list string :=
  match fuel with
  | O => []
  | S fuel' => match dec s with Some (f, rest) => f :: dec_fields fuel' rest | None => [] end
  end.
Lemma enc_fields_length l : (length l ≤ String.length (enc_fields l))%nat.
Proof.
  assert (∀ s rest, (S (String.length rest) ≤ String.length (enc s rest))%nat) as He.
  { intros s rest. induction s; simpl; lia. }
  induction l as [|s l IH]; simpl; [lia|]. specialize (He s (enc_fields l)). unfold enc_fields in *. lia.
Qed.
Lemma dec_enc_fields fuel l : (length l ≤ fuel)%nat → dec_fields fuel (enc_fields l) = l.
Proof.
  revert fuel. induction l as [|s l IH]; intros [|fuel] Hf; simpl in *; try done; [lia|].
  rewrite dec_enc. f_equal. apply IH. lia.
Qed.
Definition fields_of (s : string) : list string := dec_fields (String.length s) s.
Lemma fields_of_enc l : fields_of (enc_fields l) = l.
Proof. apply dec_enc_fields, enc_fields_length. Qed.

Fixpoint pairs (l : list string) : list (string * string) :=
  match l with a :: b :: l' => (a, b) :: pairs l' | _ => [] end.
Fixpoint unpairs (l : list (string * string)) : list string :=
  match l with (a, b) :: l' => a :: b :: unpairs l' | [] => [] end.
Lemma pairs_unpairs l : pairs (unpairs l) = l.
Proof. induction l as [|[a b] l IH]; cbn [pairs unpairs]; [done|]. by rewrite IH. Qed.

Definition manifest_fields (m : snapshotBundleManifest) : list string :=
  [mf_Format m; mf_Name m; mf_SourceVM m; mf_BaseImageID m; mf_KernelID m; mf_BaseImageMetadata m;
   mf_Disk m; FormatInt (mf_DiskSize m); mf_CreatedAt m].
Definition fields_manifest (l : list string) : option snapshotBundleManifest :=
  match l with
  | [f; n; s; b; k; md; d; z; c] => (λ z, MkManifest f n s b k md d z c) <$> parse_decimal z
  | _ => None
  end.

Definition code_codec : BundleCodec := {|
  gunzip_untar s := Some ((λ f, TarEntry (MkHeader f.1 false true (Z.of_nat (String.length f.2))) f.2 true)
                            <$> pairs (fields_of s));
  tar_gzip files := enc_fields (unpairs files);
  json_Valid s := bool_decide (s ≠ "");
  json_Compact s := s;
  json_value s := Some (JString s);
  manifest_Marshal m := Some (enc_fields (manifest_fields m));
  manifest_Unmarshal s := fields_manifest (fields_of (str_take (String.length s - 1) s));
|}.

Lemma code_codec_laws : @BundleLaws code_codec.
Proof.
  split; cbn [code_codec gunzip_untar tar_gzip json_Valid json_Compact json_value manifest_Marshal manifest_Unmarshal].
  - intros files. by rewrite fields_of_enc, pairs_unpairs.
  - done.
  - done.
  - intros m t Ht. assert (t = enc_fields (manifest_fields m)) as -> by congruence.
    exists (mf_BaseImageMetadata m).
    assert (∀ s, (String.length (s +:+ newline) - 1)%nat = String.length s) as E
      by (intros s; rewrite str_length_app; simpl; lia).
    rewrite E, str_take_app, fields_of_enc. unfold manifest_fields, fields_manifest.
    rewrite parse_decimal_FormatInt. by destruct m.
Qed.

Lemma str_forall_mem f c s : str_forall f s = true → f c = false → str_mem c s = false.
Proof.
  intros Hs Hc. induction s as [|d s IH]; simpl in *; [done|]. apply andb_true_iff in Hs as [Hd Hs].
  rewrite (IH Hs), orb_false_r. apply bool_decide_eq_false. congruence.
Qed.
Lemma calm_random : @RandomNames calm.
Proof.
  intros t. apply (str_forall_mem is_digit); [|done]. apply FormatInt_digits. lia.
Qed.

Definition golden : Snapshot :=
  MkSnapshot "golden" "u" "web" "" "" "/var/lib/firedoze/snapshots/golden/rootfs.ext4" "base" "kernel" "{}" "1000".
Definition export_world : @World toy_vmm :=
  set_fs (λ _, {[sn_DiskPath golden := File "disk"]})
    (set_db (MkStore ∅ ∅ {["golden" := golden]} ∅) empty_world).

Lemma cold_config_state : StateDir cold_config = abs ["var"; "lib"; "firedoze"] ∧
  ["var"; "lib"; "firedoze"] ≠ [] ∧ Forall good_part ["var"; "lib"; "firedoze"].
Proof.
  split; [reflexivity|]. split; [done|]. repeat (apply Forall_cons_2; [by apply good_const|]). apply Forall_nil_2.
Qed.

Lemma export_import_witness :
  ∃ bytes w1 sn' v',
    @ExportSnapshot toy_vmm calm code_codec "golden" export_world = (Ok bytes, w1) ∧
    @ImportSnapshot toy_vmm calm decimal_stamps ascii_only code_codec cold_config "copy" bytes empty_world = (Ok sn', v') ∧
    fs v' !! sn_DiskPath sn' = Some (File "disk").
Proof.
  destruct (@ExportSnapshot toy_vmm calm code_codec "golden" export_world) as [[bytes|e] w1] eqn:E;
    [|vm_compute in E; discriminate].
  destruct (@export_import toy_vmm ascii_only decimal_stamps code_codec code_codec_laws calm calm calm_random
    (λ _, eq_refl) cold_config ["var"; "lib"; "firedoze"] "golden" "copy" export_world bytes w1 empty_world
    cold_config_state (good_const "copy" eq_refl) E) as (sn & disk & sn' & v' & Hsn & Hd & Hi & _ & Hf & _).
  - intros sn disk text Hsn Hd Ht. assert (Some golden = Some sn) as Es by (rewrite <-Hsn; reflexivity).
    injection Es as <-. assert (Some (File "disk") = Some (File disk)) as Ed by (rewrite <-Hd; reflexivity).
    injection Ed as <-. assert (text = enc_fields (manifest_fields (@manifest_of code_codec golden 4))) as ->
      by (injection Ht as <-; reflexivity). vm_compute. reflexivity.
  - split; [vm_compute; reflexivity|by intros p Hp|by intros t p Hp|by intros a c Ha].
  - exists bytes, w1, sn', v'. split; [reflexivity|]. split; [exact Hi|]. rewrite Hf.
    assert (Some golden = Some sn) as Es by (rewrite <-Hsn; reflexivity). injection Es as <-.
    rewrite <-Hd. reflexivity.
Defined.

(** A bundle that tries to leave its directory. *)
Lemma import_confined_witness :
  let w := set_fs (λ _, {["/etc/passwd" := File "root"]}) empty_world in
  let w' := (@ImportSnapshot toy_vmm calm decimal_stamps ascii_only code_codec cold_config "copy"
               (@tar_gzip code_codec [("../../../etc/passwd", "evil")]) w).2 in
  fs w' !! "/etc/passwd" = Some (File "root").
Proof.
  cbv zeta. set (w := set_fs _ _).
  destruct (@import_confined toy_vmm calm decimal_stamps ascii_only code_codec calm_random cold_config
    ["var"; "lib"; "firedoze"] cold_config_state "copy" (good_const "copy" eq_refl)
    (@tar_gzip code_codec [("../../../etc/passwd", "evil")]) w) as (Hfs & _).
  rewrite (Hfs "/etc/passwd"); [reflexivity|]. split; [vm_compute; reflexivity|].
  split; [|vm_compute; reflexivity]. intros t. reflexivity.
Defined.
