(* ===== verification/Usage.v ===== *)
(** * Resource statistics (internal/firecracker/resource_usage.go, internal/cgroup)

    What the daemon reports of a VM: its row, the allocation of its disk, the
    guest's own report, the hot-plugged memory, and the figures the kernel keeps
    in /proc and in the VM's cgroup.  The kernel's files and numbers are the
    class [Kernel].  Seconds are kept as the integers they are computed from:
    microseconds for cgroups, clock ticks for processes. *)

From S2P Require Import Prelude GoStrings Paths IPNet Json Types Store Config PrivateNet Memory.
From S2P Require Import World FileCopy Host Manager.
Open Scope Z_scope.

(** What the kernel answers at a moment: the text of a file of /proc or
    /sys/fs/cgroup, the blocks of a file, the id of a VM's process. *)
Class Kernel := {
  kernel_read : nat → string → result string;
  stat_blocks : nat → string → Z;
  process_pid : string → Z;
}.

(** ** internal/cgroup *)

Record CgroupUsage := MkCgroupUsage {
  cu_MemoryCurrentBytes : Z;
  cu_MemoryPeakBytes : Z;
  cu_CPUUsage : Z;                 (* microseconds *)
  cu_CPUUser : Z;
  cu_CPUSystem : Z;
  cu_CPUThrottled : Z;
  cu_CPUThrottledEvents : Z;
  cu_CPUWeight : Z;
  cu_IOReadBytes : Z;
  cu_IOWriteBytes : Z;
  cu_IOWeight : Z;
}.
Definition no_cgroup_usage : CgroupUsage := MkCgroupUsage 0 0 0 0 0 0 0 0 0 0 0.

Definition set_memory (f : Z → Z) (g : Z → Z) (u : CgroupUsage) : CgroupUsage :=
  MkCgroupUsage (f (cu_MemoryCurrentBytes u)) (g (cu_MemoryPeakBytes u)) (cu_CPUUsage u) (cu_CPUUser u)
    (cu_CPUSystem u) (cu_CPUThrottled u) (cu_CPUThrottledEvents u) (cu_CPUWeight u) (cu_IOReadBytes u)
    (cu_IOWriteBytes u) (cu_IOWeight u).
Definition set_weights (f : Z → Z) (g : Z → Z) (u : CgroupUsage) : CgroupUsage :=
  MkCgroupUsage (cu_MemoryCurrentBytes u) (cu_MemoryPeakBytes u) (cu_CPUUsage u) (cu_CPUUser u)
    (cu_CPUSystem u) (cu_CPUThrottled u) (cu_CPUThrottledEvents u) (f (cu_CPUWeight u)) (cu_IOReadBytes u)
    (cu_IOWriteBytes u) (g (cu_IOWeight u)).
Definition set_io (f : Z → Z) (g : Z → Z) (u : CgroupUsage) : CgroupUsage :=
  MkCgroupUsage (cu_MemoryCurrentBytes u) (cu_MemoryPeakBytes u) (cu_CPUUsage u) (cu_CPUUser u)
    (cu_CPUSystem u) (cu_CPUThrottled u) (cu_CPUThrottledEvents u) (cu_CPUWeight u) (f (cu_IOReadBytes u))
    (g (cu_IOWriteBytes u)) (cu_IOWeight u).

(** One line of cpu.stat. *)
Definition cpu_field (name : string) (value : Z) (u : CgroupUsage) : CgroupUsage :=
  let set usage user system throttled events :=
    MkCgroupUsage (cu_MemoryCurrentBytes u) (cu_MemoryPeakBytes u) usage user system throttled events
      (cu_CPUWeight u) (cu_IOReadBytes u) (cu_IOWriteBytes u) (cu_IOWeight u) in
  if bool_decide (name = "usage_usec")
  then set value (cu_CPUUser u) (cu_CPUSystem u) (cu_CPUThrottled u) (cu_CPUThrottledEvents u)
  else if bool_decide (name = "user_usec")
  then set (cu_CPUUsage u) value (cu_CPUSystem u) (cu_CPUThrottled u) (cu_CPUThrottledEvents u)
  else if bool_decide (name = "system_usec")
  then set (cu_CPUUsage u) (cu_CPUUser u) value (cu_CPUThrottled u) (cu_CPUThrottledEvents u)
  else if bool_decide (name = "nr_throttled")
  then set (cu_CPUUsage u) (cu_CPUUser u) (cu_CPUSystem u) (cu_CPUThrottled u) value
  else if bool_decide (name = "throttled_usec")
  then set (cu_CPUUsage u) (cu_CPUUser u) (cu_CPUSystem u) value (cu_CPUThrottledEvents u)
  else u.

Definition lines (data : string) : list string := Split data (ascii_of_nat 10).

Section parsers.
Context `{GoUnicode}.

Definition parse_cpu_stat (data : string) (u : CgroupUsage) : CgroupUsage :=
  fold_left (λ u line,
    match Fields line with
    | [name; text] => match ParseUint text with Some value => cpu_field name value u | None => u end
    | _ => u
    end) (lines data) u.

Definition io_field (u : CgroupUsage) (field : string) : CgroupUsage :=
  match Cut field "=" with
  | None => u
  | Some (key, text) =>
      match ParseUint text with
      | None => u
      | Some value =>
          if bool_decide (key = "rbytes") then set_io (λ r, u64 (r + value)) id u
          else if bool_decide (key = "wbytes") then set_io id (λ w, u64 (w + value)) u
          else u
      end
  end.
Definition parse_io_stat (data : string) (u : CgroupUsage) : CgroupUsage :=
  fold_left (λ u line,
    match Fields line with [] => u | _ :: fields => fold_left io_field fields u end) (lines data) u.

Fixpoint parse_weight (ls : list string) : option Z :=
  match ls with
  | [] => None
  | line :: ls' =>
      match Fields line with
      | ["default"; text] => ParseInt text
      | [text] => ParseInt text
      | _ => parse_weight ls'
      end
  end.

(** The cgroup of the calling process, in /proc/self/cgroup: the line of the
    unified hierarchy, "0::path". *)
Fixpoint find_unified (ls : list string) : option string :=
  match ls with
  | [] => None
  | line :: ls' =>
      match Cut line ":" with
      | Some (id, rest) =>
          match Cut rest ":" with
          | Some (controllers, path) =>
              if bool_decide (id = "0") && bool_decide (controllers = "") then Some path else find_unified ls'
          | None => find_unified ls'
          end
      | None => find_unified ls'
      end
  end.
Definition currentUnifiedCgroupPath (data : string) : option string := find_unified (lines data).

Definition cleanCgroupPath (value : string) : string := Clean (TrimPrefix (TrimSpace value) "/").

Record CgroupManager := MkCgroupManager {
  cg_root : string; cg_service : string; cg_serviceDir : string; cg_daemonDir : string; cg_vmsDir : string;
}.
Definition newManager (root service : string) : CgroupManager :=
  let service := cleanCgroupPath service in
  let serviceDir := path_Join [root; service] in
  MkCgroupManager root service serviceDir (path_Join [serviceDir; daemonName]) (path_Join [serviceDir; vmGroupName]).

(** What [enableControllers] writes to cgroup.subtree_control, if anything. *)
Definition enableControllers (controllers : string) (requested : list string) : option string :=
  let available := Fields controllers in
  match (λ c, "+" +:+ c) <$> filter (λ c, c ∈ available) requested with
  | [] => None
  | values => Some (Join values " " +:+ String (ascii_of_nat 10) "")
  end.
End parsers.

(** ** internal/firecracker/resource_usage.go *)

Record ProcessResourceUsage := MkProcessUsage {
  pu_PID : Z;
  pu_RSSBytes : Z;
  pu_VMSizeBytes : Z;
  pu_CPUTicks : Z;                 (* hundredths of a second *)
  pu_Threads : Z;
}.

Record VMResourceUsage := MkVMUsage {
  ru_Name : string;
  ru_State : string;
  ru_VCPUs : Z;
  ru_MemoryMinMiB : Z;
  ru_MemoryMaxMiB : Z;
  ru_DiskBytes : Z;
  ru_DiskAllocatedBytes : Z;
  ru_MemoryHotplug : option MemoryHotplugUsage;
  ru_GuestMemory : option GuestMemoryReport;
  ru_Process : option ProcessResourceUsage;
  ru_Cgroup : option CgroupUsage;
}.

Section process.
Context `{GoUnicode}.

(** The CPU time of /proc/<pid>/stat: the fields after the command name, which
    is in parentheses and may itself hold any text. *)
Definition parseProcStatCPUSeconds (raw : string) : option Z :=
  match CutLast raw ")" with
  | None | Some (_, "") => None
  | Some (_, rest) =>
      let fields := Fields (str_drop 1 rest) in
      if bool_decide (length fields ≤ 12)%nat then None
      else utime ← fields !! 11%nat ≫= ParseUint; stime ← fields !! 12%nat ≫= ParseUint;
           Some (u64 (utime + stime))
  end.

Definition status_field (u : ProcessResourceUsage) (line : string) : ProcessResourceUsage :=
  match Fields line with
  | name :: text :: _ =>
      let key := TrimSuffix name ":" in
      if bool_decide (key = "VmRSS")
      then match ParseUint text with
           | Some v => MkProcessUsage (pu_PID u) (u64 (v * 1024)) (pu_VMSizeBytes u) (pu_CPUTicks u) (pu_Threads u)
           | None => u end
      else if bool_decide (key = "VmSize")
      then match ParseUint text with
           | Some v => MkProcessUsage (pu_PID u) (pu_RSSBytes u) (u64 (v * 1024)) (pu_CPUTicks u) (pu_Threads u)
           | None => u end
      else if bool_decide (key = "Threads")
      then match ParseInt text with
           | Some v => MkProcessUsage (pu_PID u) (pu_RSSBytes u) (pu_VMSizeBytes u) (pu_CPUTicks u) v
           | None => u end
      else u
  | _ => u
  end.
End process.

Section usage.
Context `{FirecrackerVMM, Env, GoUnicode, Kernel}.
Context (cfg : Config).

(** [os.ReadFile] of a file of the kernel's. *)
Definition read_kernel (path : string) : M World string :=
  t ← ticks; ext (lift_result (kernel_read t path)).

(** An error that is dropped. *)
Definition or_else {A} (m : M World A) (d : A) : M World A :=
  r ← attempt m; match r with Ok a => mret a | Err _ => mret d end.

Definition readUintFile (path : string) : M World Z :=
  data ← read_kernel path;
  match ParseUint (TrimSpace data) with
  | Some v => mret v | None => fail (ErrOther "strconv.ParseUint") end.

Definition readWeight (path : string) : M World Z :=
  data ← read_kernel path;
  match parse_weight (lines data) with
  | Some v => mret v | None => fail (ErrOther "no weight") end.

(** [err != nil && !os.IsNotExist(err)]. *)
Definition unless_missing (m : M World CgroupUsage) (u : CgroupUsage) : M World CgroupUsage :=
  r ← attempt m;
  match r with Ok u' => mret u' | Err ErrNotExist => mret u | Err e => fail e end.

Definition readCPUStat (path : string) (u : CgroupUsage) : M World CgroupUsage :=
  data ← read_kernel path; mret (parse_cpu_stat data u).
Definition readIOStat (path : string) (u : CgroupUsage) : M World CgroupUsage :=
  data ← read_kernel path; mret (parse_io_stat data u).

Definition ReadUsage (path : string) : M World CgroupUsage :=
  if is_empty path then fail (ErrOther "cgroup v2 unavailable") else
  current ← or_else (readUintFile (path_Join [path; "memory.current"])) 0;
  peak ← or_else (readUintFile (path_Join [path; "memory.peak"])) 0;
  let u := set_memory (λ _, current) (λ _, peak) no_cgroup_usage in
  u ← unless_missing (readCPUStat (path_Join [path; "cpu.stat"]) u) u;
  weight ← or_else (readWeight (path_Join [path; "cpu.weight"])) 0;
  let u := set_weights (λ _, weight) id u in
  u ← unless_missing (readIOStat (path_Join [path; "io.stat"]) u) u;
  ioWeight ← or_else (readWeight (path_Join [path; "io.weight"])) 0;
  mret (set_weights id (λ _, ioWeight) u).

Definition fileDiskUsage (path : string) : M World (Z * Z) :=
  info ← os_Stat path;
  t ← ticks;
  mret (fi_Size info, stat_blocks t path * 512).

Definition readProcessResourceUsage (pid : Z) : M World ProcessResourceUsage :=
  status ← read_kernel ("/proc/" +:+ FormatInt pid +:+ "/status");
  let u := fold_left status_field (lines status) (MkProcessUsage pid 0 0 0 0) in
  stat ← attempt (read_kernel ("/proc/" +:+ FormatInt pid +:+ "/stat"));
  match stat with
  | Err _ => mret u
  | Ok stat =>
      match parseProcStatCPUSeconds stat with
      | None => mret u
      | Some cpu => mret (MkProcessUsage (pu_PID u) (pu_RSSBytes u) (pu_VMSizeBytes u) cpu (pu_Threads u))
      end
  end.

(** The hot-plugged memory; an error leaves it out. *)
Definition hotplug_usage (vm : VM) (proc : Process) : M World (option MemoryHotplugUsage) :=
  bits ← host_bits;
  if virtioMemUsableForVM bits vm
  then
    r ← attempt (firecrackerGetMemoryHotplug (pr_SocketPath proc));
    match r with
    | Err _ => mret None
    | Ok st => mret (Some (MkUsage (st_Total st) (st_Requested st) (st_Plugged st)
                             (vm_MemoryMinMiB vm + st_Plugged st)))
    end
  else mret None.

Definition allocated_bytes (vm : VM) : M World Z :=
  disk ← attempt (vmDiskPath cfg vm);
  match disk with
  | Err _ => mret 0
  | Ok path => '(_, allocated) ← or_else (fileDiskUsage path) (0, 0); mret allocated
  end.

Definition vmResourceUsage (vm : VM) : M World VMResourceUsage :=
  allocated ← allocated_bytes vm;
  run ← gets running;
  reports ← gets guestMemoryReports;
  let usage hotplug process cgroup :=
    MkVMUsage (vm_Name vm) (vm_State vm) (vm_VCPUs vm) (vm_MemoryMinMiB vm) (vm_MemoryMaxMiB vm)
      (vm_DiskBytes vm) allocated hotplug (reports !! vm_UUID vm) process cgroup in
  match run !! vm_UUID vm with
  | None => mret (usage None None None)
  | Some proc =>
      hotplug ← hotplug_usage vm proc;
      process ← attempt (readProcessResourceUsage (process_pid (vm_UUID vm)));
      cgroup ← (if is_empty (pr_CgroupPath proc) then mret (Err ErrNotFound)
                else attempt (ReadUsage (pr_CgroupPath proc)));
      mret (usage hotplug (match process with Ok p => Some p | Err _ => None end)
                          (match cgroup with Ok c => Some c | Err _ => None end))
  end.

Fixpoint usages_loop (vms : list VM) : M World (list VMResourceUsage) :=
  match vms with
  | [] => mret []
  | vm :: vms' => u ← vmResourceUsage vm; us ← usages_loop vms'; mret (u :: us)
  end.

Definition ListVMResourceUsage (namePatterns : list string) : M World (list VMResourceUsage) :=
  vms ← dbcall (Store.ListVMsMatching namePatterns); usages_loop vms.

Definition VMResourceUsage_of (vmUUID : string) : M World VMResourceUsage :=
  vm ← dbcall (Store.GetVM vmUUID); vmResourceUsage vm.
End usage.

(** ** Reading statistics changes nothing *)

Section frames.
Context `{FirecrackerVMM, Env, GoUnicode, Kernel}.
Context (cfg : Config) {B : Type} (f : World → B) `{!NoTick f, !NoVmms f}.

#[global] Instance keeps_read_kernel p : Keeps f (read_kernel p).
Proof. unfold read_kernel. apply _. Qed.
#[global] Instance keeps_or_else {A} (m : M World A) d : Keeps f m → Keeps f (or_else m d).
Proof. intros Hm. unfold or_else. apply _. Qed.
#[global] Instance keeps_unless_missing m u : Keeps f m → Keeps f (unless_missing m u).
Proof. intros Hm. unfold unless_missing. apply keeps_bind; [apply _|]. intros [|[]]; apply _. Qed.
#[global] Instance keeps_ReadUsage p : Keeps f (ReadUsage p).
Proof. unfold ReadUsage, readUintFile, readWeight, readCPUStat, readIOStat. apply _. Qed.
#[global] Instance keeps_readProcess pid : Keeps f (readProcessResourceUsage pid).
Proof. unfold readProcessResourceUsage. apply _. Qed.
#[global] Instance keeps_disk_path vm : Keeps f (vmDiskPath cfg vm) | 20.
Proof.
  unfold vmDiskPath. apply keeps_bind; [apply _|]. intros [|[]]; try apply _; cbv zeta.
  case_match; [apply _|]. apply keeps_bind; [apply _|]. intros [|[]]; apply _.
Qed.
#[global] Instance keeps_vmResourceUsage vm : Keeps f (vmResourceUsage cfg vm).
Proof.
  unfold vmResourceUsage, allocated_bytes, hotplug_usage, fileDiskUsage, host_bits.
  apply keeps_bind; [apply _|intros a]. do 2 (apply keeps_bind; [apply _|intros ?]). cbv zeta.
  case_match; apply _.
Qed.
#[global] Instance keeps_usages_loop vms : Keeps f (usages_loop cfg vms).
Proof. induction vms as [|vm vms IH]; cbn [usages_loop]; apply _. Qed.
End frames.

(** ** The statistics of a process

    Whatever the command of a process is called (parentheses and spaces
    included), the CPU time is read from the right fields. *)
Lemma parseProcStatCPUSeconds_fields `{GoUnicode} before rest :
  str_mem ")" rest = false →
  parseProcStatCPUSeconds (before +:+ String ")" (String " " rest)) =
  (let fields := Fields rest in
   if bool_decide (length fields ≤ 12)%nat then None
   else utime ← fields !! 11%nat ≫= ParseUint; stime ← fields !! 12%nat ≫= ParseUint;
        Some (u64 (utime + stime))).
Proof. intros Hr. unfold parseProcStatCPUSeconds. by rewrite CutLast_app by (cbn [str_mem]; by rewrite Hr). Qed.

(** ** The I/O counters

    The total over all lines and devices, as the 64-bit counters hold it. *)
Definition io_values (key : string) (fields : list string) : list Z :=
  omap (λ field, '(k, text) ← Cut field "="; if bool_decide (k = key) then ParseUint text else None) fields.

Definition device_fields `{GoUnicode} (data : string) : list string :=
  lines data ≫= λ line, tail (Fields line).

Lemma io_fold_total fields : ∀ u,
  0 ≤ cu_IOReadBytes u < 2 ^ 64 → 0 ≤ cu_IOWriteBytes u < 2 ^ 64 →
  let u' := fold_left io_field fields u in
  cu_IOReadBytes u' = u64 (cu_IOReadBytes u + foldr Z.add 0 (io_values "rbytes" fields)) ∧
  cu_IOWriteBytes u' = u64 (cu_IOWriteBytes u + foldr Z.add 0 (io_values "wbytes" fields)).
Proof.
  induction fields as [|field fields IH]; intros u Hr Hw; cbn [fold_left].
  { cbn [io_values omap list_omap foldr]. by rewrite !Z.add_0_r, !u64_id. }
  assert (∀ a b c, u64 (u64 (a + b) + c) = u64 (a + (b + c))) as Hu.
  { intros a b c. unfold u64. rewrite Z.add_mod_idemp_l by lia. f_equal. lia. }
  assert (∀ a, 0 ≤ u64 a < 2 ^ 64) as Hb by (intros a; apply Z.mod_pos_bound; lia).
  unfold io_values in *. cbn [omap list_omap]. unfold io_field at 2 4.
  destruct (Cut field "=") as [[k text]|]; cbn [mbind option_bind]; [|by apply IH].
  destruct (ParseUint text) as [v|]; [|repeat case_bool_decide; by apply IH].
  destruct (decide (k = "rbytes")) as [->|Hk].
  { rewrite (bool_decide_eq_true_2 ("rbytes" = "rbytes")), (bool_decide_eq_false_2 ("rbytes" = "wbytes")) by done.
    destruct (IH (set_io (λ r, u64 (r + v)) id u)) as [E1 E2]; [apply Hb|done|].
    rewrite E1, E2. cbn [foldr cu_IOReadBytes cu_IOWriteBytes set_io]. by rewrite Hu. }
  rewrite (bool_decide_eq_false_2 (k = "rbytes")) by done. case_bool_decide; [|by apply IH].
  destruct (IH (set_io id (λ r, u64 (r + v)) u)) as [E1 E2]; [done|apply Hb|].
  rewrite E1, E2. cbn [foldr cu_IOReadBytes cu_IOWriteBytes set_io]. by rewrite Hu.
Qed.

Lemma parse_io_stat_total `{GoUnicode} data :
  let u := parse_io_stat data no_cgroup_usage in
  cu_IOReadBytes u = u64 (foldr Z.add 0 (io_values "rbytes" (device_fields data))) ∧
  cu_IOWriteBytes u = u64 (foldr Z.add 0 (io_values "wbytes" (device_fields data))).
Proof.
  assert (∀ ls u, fold_left (λ u line, match Fields line with [] => u | _ :: fs => fold_left io_field fs u end) ls u =
    fold_left io_field (ls ≫= λ line, tail (Fields line)) u) as Hf.
  { induction ls as [|line ls IH]; intros u; [done|]. cbn [fold_left mbind list_bind]. rewrite fold_left_app, IH.
    by destruct (Fields line). }
  cbv zeta. unfold parse_io_stat. rewrite Hf. apply io_fold_total; done.
Qed.
