(* ===== verification/Cgroup.v ===== *)
(** * The daemon's cgroups (internal/cgroup, NewManager of internal/firecracker)

    When it starts, the daemon moves itself to a child of its service's cgroup
    and hands the controllers on to the group of the VMs.  The control files are
    the kernel's: a class gives the calls, and [cgroup2] the rules of version 2
    that the order of the calls depends on. *)

From S2P Require Import Prelude GoStrings Paths IPNet Types Config PrivateNet World Host Manager Usage.
Open Scope Z_scope.

Definition DefaultRoot : string := "/sys/fs/cgroup".
Definition ErrUnavailable : error := ErrOther "cgroup v2 unavailable".
Definition newline_text : string := String (ascii_of_nat 10) "".

(** Files under /sys/fs/cgroup and /proc/self/cgroup. *)
Class CgroupCalls (K : Type) := {
  k_Stat : string → M K unit;
  k_MkdirAll : string → M K unit;
  k_ReadFile : string → M K string;
  k_WriteFile : string → string → M K unit;
}.

Section setup.
Context `{GoUnicode, CgroupCalls K} (pid : Z).

Definition requireUnified (root : string) : M K unit :=
  r ← attempt (k_Stat (path_Join [root; "cgroup.controllers"]));
  match r with
  | Ok _ => mret tt
  | Err ErrNotExist => fail ErrUnavailable
  | Err e => fail e
  end.

(** [enableControllers] with its calls; the text it writes is Usage.v's. *)
Definition enable (dir : string) (requested : list string) : M K unit :=
  data ← k_ReadFile (path_Join [dir; "cgroup.controllers"]);
  match enableControllers data requested with
  | None => mret tt
  | Some values => k_WriteFile (path_Join [dir; "cgroup.subtree_control"]) values
  end.

Definition requested_controllers : list string := ["cpu"; "memory"; "io"].

Definition Setup (m : CgroupManager) : M K unit :=
  requireUnified (cg_root m) ;;
  k_MkdirAll (cg_daemonDir m) ;;
  k_MkdirAll (cg_vmsDir m) ;;
  k_WriteFile (path_Join [cg_daemonDir m; "cgroup.procs"]) (FormatInt pid +:+ newline_text) ;;
  enable (cg_serviceDir m) requested_controllers ;;
  enable (cg_vmsDir m) requested_controllers.

Definition New (root : string) : M K CgroupManager :=
  let root := if is_empty root then DefaultRoot else root in
  data ← k_ReadFile "/proc/self/cgroup";
  match currentUnifiedCgroupPath data with
  | None => fail ErrUnavailable
  | Some service => mret (newManager root service)
  end.

(** [m.cgroups] of NewManager: the manager works without cgroups when they
    cannot be set up.  Its VM directory is [vmsDir] in Manager.v. *)
Definition NewManager_cgroups : M K (option string) :=
  r ← attempt (New DefaultRoot);
  match r with
  | Err _ => mret None
  | Ok cgroups =>
      r ← attempt (Setup cgroups);
      match r with Err _ => mret None | Ok _ => mret (Some (cg_vmsDir cgroups)) end
  end.
End setup.

Definition dquoted (s : string) : string := String (ascii_of_nat 34) (s +:+ String (ascii_of_nat 34) "").

(** [Command]: the program and its arguments, and what is added to the
    environment.  The shell moves itself to the cgroup and becomes the program. *)
Definition Command (binary : string) (args : list string) (cgroupPath : string) : list string * list string :=
  if is_empty cgroupPath then (binary :: args, [])
  else
    (["/bin/sh"; "-c"; "printf '%s\n' " +:+ dquoted "$$" +:+ " > " +:+ dquoted "$FIREDOZE_CGROUP_PROCS" +:+ "; exec " +:+ dquoted "$@";
      "firedoze-cgroup-exec"; binary] ++ args,
     ["FIREDOZE_CGROUP_PROCS=" +:+ path_Join [cgroupPath; "cgroup.procs"]]).

(** Whatever the kernel refuses, the manager starts; VMs get cgroups only when
    the whole set-up succeeded. *)
Lemma NewManager_starts `{GoUnicode, CgroupCalls K} pid k :
  ∃ dir k', NewManager_cgroups pid k = (Ok dir, k') ∧
    (is_Some dir → ∃ m k1, New DefaultRoot k = (Ok m, k1) ∧ Setup pid m k1 = (Ok tt, k') ∧ dir = Some (cg_vmsDir m)).
Proof.
  unfold NewManager_cgroups, mbind at 1, M_mbind at 1, attempt at 1. destruct (New DefaultRoot k) as [[m|e] k1] eqn:En.
  - unfold mbind, M_mbind, attempt. destruct (Setup pid m k1) as [[[]|e] k2] eqn:Es.
    + exists (Some (cg_vmsDir m)), k2. split; [done|]. intros _. by exists m, k1.
    + exists None, k2. split; [done|]. by intros [].
  - exists None, k1. split; [done|]. by intros [].
Qed.

(** ** Version 2

    A directory has the processes in it and the controllers it hands on; those it
    may hand on are what its parent hands on, or all of the kernel's at the
    root.  The kernel refuses controllers to a group that has processes of its
    own, and processes to a group that hands controllers on (the root apart). *)

Record group := MkGroup { gp_procs : gset Z; gp_subtree : list string }.
Record hierarchy := MkHierarchy { hi_groups : gmap string group; hi_self : string }.

Definition available_in (k : hierarchy) (dir : string) : list string :=
  if bool_decide (dir = DefaultRoot) then ["cpuset"; "cpu"; "io"; "memory"; "pids"]
  else match hi_groups k !! path_Dir dir with Some g => gp_subtree g | None => [] end.

Definition move_process (pid : Z) (dir : string) (k : hierarchy) : hierarchy :=
  MkHierarchy (map_imap (λ d g, Some (MkGroup (if bool_decide (d = dir) then {[pid]} ∪ gp_procs g else gp_procs g ∖ {[pid]})
                                        (gp_subtree g))) (hi_groups k)) (hi_self k).

Definition hand_on (dir : string) (names : list string) (k : hierarchy) : hierarchy :=
  MkHierarchy (alter (λ g, MkGroup (gp_procs g) (gp_subtree g ++ names)) dir (hi_groups k)) (hi_self k).

Definition write_control `{GoUnicode} (path data : string) (k : hierarchy) : result unit * hierarchy :=
  let dir := path_Dir path in
  match hi_groups k !! dir with
  | None => (Err ErrNotExist, k)
  | Some g =>
      if bool_decide (path_Base path = "cgroup.procs") then
        if bool_decide (dir ≠ DefaultRoot ∧ gp_subtree g ≠ []) then (Err (ErrOther "EBUSY"), k) else
        match ParseInt (TrimSpace data) with
        | Some pid => (Ok tt, move_process pid dir k)
        | None => (Err (ErrOther "EINVAL"), k)
        end
      else if bool_decide (path_Base path = "cgroup.subtree_control") then
        let names := (λ f, TrimPrefix f "+") <$> Fields data in
        if bool_decide (dir ≠ DefaultRoot ∧ gp_procs g ≠ ∅) then (Err (ErrOther "EBUSY"), k) else
        if forallb (λ n, bool_decide (n ∈ available_in k dir)) names then (Ok tt, hand_on dir names k)
        else (Err ErrNotExist, k)
      else (Err (ErrOther "EPERM"), k)
  end.

#[local] Instance cgroup2 `{GoUnicode} : CgroupCalls hierarchy := {|
  k_Stat path k := (if bool_decide (is_Some (hi_groups k !! path_Dir path)) then Ok tt else Err ErrNotExist, k);
  k_MkdirAll dir k :=
    (Ok tt, MkHierarchy (if bool_decide (is_Some (hi_groups k !! dir)) then hi_groups k
                         else <[dir := MkGroup ∅ []]> (hi_groups k)) (hi_self k));
  k_ReadFile path k :=
    if bool_decide (path = "/proc/self/cgroup") then (Ok ("0::" +:+ hi_self k +:+ newline_text), k) else
    match hi_groups k !! path_Dir path with
    | Some _ => (Ok (Join (available_in k (path_Dir path)) " " +:+ newline_text), k)
    | None => (Err ErrNotExist, k)
    end;
  k_WriteFile := write_control;
|}.

(** A host where the service's cgroup holds the daemon, process 7. *)
Definition service_dir : string := "/sys/fs/cgroup/system.slice/firedozed.service".
Definition booted : hierarchy :=
  MkHierarchy (list_to_map
    [(DefaultRoot, MkGroup {[1]} ["cpu"; "io"; "memory"]);
     ("/sys/fs/cgroup/system.slice", MkGroup ∅ ["cpu"; "memory"]);
     (service_dir, MkGroup {[7]} [])]) "/system.slice/firedozed.service".

(** The daemon ends up alone in its child, and both groups hand on what the
    service was given: here "cpu" and "memory", since "io" is not. *)
Example daemon_moved :
  let '(r, k) := @NewManager_cgroups ascii_only hierarchy (@cgroup2 ascii_only) 7 booted in
  r = Ok (Some (service_dir +:+ "/firedoze-vms")) ∧
  gp_procs <$> hi_groups k !! service_dir = Some ∅ ∧
  gp_procs <$> hi_groups k !! (service_dir +:+ "/firedoze-daemon") = Some {[7]} ∧
  gp_subtree <$> hi_groups k !! service_dir = Some ["cpu"; "memory"] ∧
  gp_subtree <$> hi_groups k !! (service_dir +:+ "/firedoze-vms") = Some ["cpu"; "memory"].
Proof. vm_compute. split_and!; reflexivity. Qed.

(** Without the move the kernel refuses the controllers. *)
Example controllers_need_the_move :
  (@enable ascii_only hierarchy (@cgroup2 ascii_only) service_dir requested_controllers booted).1 = Err (ErrOther "EBUSY").
Proof. vm_compute. reflexivity. Qed.
