(* ===== verification/Wireguard.v ===== *)
(** * WireGuard peers (internal/wireguard/config.go)

    Setting up a client: choosing its address, checking that it is new, adding
    it to the configuration file, and the configuration text it is given.  Keys
    and their arithmetic are wgtypes': the class [WgTypes]. *)

From S2P Require Import Prelude GoStrings Paths IPNet Json Types Store Config PrivateNet World FileCopy.
From S2P Require Import ManagerDisk.
Open Scope Z_scope.

Class WgTypes := {
  wg_key : Type;
  wg_ParseKey : string → option wg_key;
  wg_PublicKey : wg_key → wg_key;
  wg_String : wg_key → string;
  wg_GeneratePrivateKey : nat → option wg_key;    (* by the clock of the environment *)
}.

(** ** strconv.Quote

    The verb %q.  Text outside ASCII depends on the Unicode tables. *)
Class GoQuote := quote_unicode : string → string.

Definition hex2 (n : Z) : string := String (hex_digit (n / 16)) (String (hex_digit (n mod 16)) "").

Definition quote_ascii_char (c : ascii) : string :=
  let n := ascii_code c in
  if bool_decide (n = 34) then "\" +:+ String c ""
  else if bool_decide (n = 92) then "\\"
  else if bool_decide (n = 7) then "\a"
  else if bool_decide (n = 8) then "\b"
  else if bool_decide (n = 12) then "\f"
  else if bool_decide (n = 10) then "\n"
  else if bool_decide (n = 13) then "\r"
  else if bool_decide (n = 9) then "\t"
  else if bool_decide (n = 11) then "\v"
  else if bool_decide (n < 32) || bool_decide (n = 127) then "\x" +:+ hex2 n
  else String c "".

Fixpoint quote_ascii (s : string) : string :=
  match s with "" => "" | String c s' => quote_ascii_char c +:+ quote_ascii s' end.

Definition Quote `{GoQuote} (s : string) : string :=
  if is_ascii s then String quote_char (quote_ascii s +:+ String quote_char "") else quote_unicode s.

Definition nl : string := String (ascii_of_nat 10) "".

(** ** Addresses *)

(** The entries of [used] a peer adds: its single IPv6 addresses. *)
Definition peer_address (allowedIP : string) : option string :=
  '(ip, ipNet) ← ParseCIDR allowedIP;
  if negb (bool_decide (net_bits ipNet = 128)) || negb (bool_decide (net_ones ipNet = 128)) || is_v4 ip
  then None else Some (IP_String ip).

(** The loop from [offset] on.  [None]: out of fuel. *)
Fixpoint peer_loop (fuel : nat) (network size : Z) (used : list string) (offset : Z) : option (result string) :=
  match fuel with
  | O => None
  | S fuel' =>
      if bool_decide (size ≤ offset) then Some (Err (ErrOther "no free wireguard peer addresses"))
      else match addToIP network offset with
           | None => Some (Err (ErrOther "IP offset overflows"))
           | Some candidate =>
               if bool_decide (IP_String candidate ∈ used)
               then peer_loop fuel' network size used (offset + 1)
               else Some (Ok (IP_String candidate +:+ "/128"))
           end
  end.

Definition used_addresses (ip : Z) (peers : list WGPeer) : list string :=
  IP_String ip :: (peers ≫= λ p, omap peer_address (peer_AllowedIPs p)).

Definition nextPeerAllowedIP (cfg : Config) : option (result string) :=
  match ParseCIDR (wg_Address (WireGuard cfg)) with
  | None => Some (Err (ErrOther "wireguard.address must be CIDR"))
  | Some (ip, ipNet) =>
      if is_v4 ip || negb (bool_decide (net_bits ipNet = 128))
      then Some (Err (ErrOther "automatic peer addresses require an IPv6 wireguard.address")) else
      if bool_decide (126 < net_ones ipNet)
      then Some (Err (ErrOther "wireguard.address subnet is too small for automatic peer addresses")) else
      let network := mask_ip ip (net_ones ipNet) 128 in
      let used := used_addresses ip (wg_Peers (WireGuard cfg)) in
      peer_loop (S (length used)) network (2 ^ (128 - net_ones ipNet)) used 1
  end.

Definition peerClientAddresses (allowedIPs : list string) : list string :=
  omap (λ cidr, '(ip, ipNet) ← ParseCIDR cidr;
     if negb (bool_decide (net_ones ipNet = net_bits ipNet)) then None
     else Some (IP_String ip +:+ "/" +:+ FormatInt (net_bits ipNet))) allowedIPs.

Definition wireGuardHostCIDR (address : string) : string :=
  match ParseCIDR address with
  | None => address
  | Some (ip, ipNet) => IP_String ip +:+ "/" +:+ FormatInt (net_bits ipNet)
  end.

Definition compactStrings (values : list string) : list string :=
  fold_left (λ out value, if is_empty value || bool_decide (value ∈ out) then out else out ++ [value])
    values [].

Definition APIURL (wireGuardAddress : string) : result string :=
  match ParseCIDR wireGuardAddress with
  | None => Err (ErrOther "wireguard.address must be CIDR")
  | Some (ip, _) => if negb (is_v4 ip) then Ok ("http://[" +:+ IP_String ip +:+ "]")
                    else Ok ("http://" +:+ IP_String ip)
  end.

Definition endpoint (cfg : Config) : string :=
  if negb (is_empty (wg_Endpoint (WireGuard cfg))) then wg_Endpoint (WireGuard cfg)
  else "<firedoze-public-host>:" +:+ FormatInt (wg_ListenPort (WireGuard cfg)).

Section wireguard.
Context `{FirecrackerVMM, Env, GoUnicode, GoQuote, WgTypes, Toml}.

Definition renderStringList (values : list string) : string :=
  "[" +:+ Join (Quote <$> values) ", " +:+ "]".

Definition renderPeerTOML (peer : WGPeer) : string :=
  nl +:+ "[[wireguard.peers]]" +:+ nl +:+
  "name = " +:+ Quote (peer_Name peer) +:+ nl +:+
  "public_key = " +:+ Quote (peer_PublicKey peer) +:+ nl +:+
  "allowed_ips = [" +:+ Join (Quote <$> peer_AllowedIPs peer) ", " +:+ "]" +:+ nl.

(** ** Keys *)

Record ClientKeyPair := MkClientKeyPair { ck_PrivateKey : string; ck_PublicKey : string }.

Definition GenerateClientKeyPair (t : nat) : result ClientKeyPair :=
  match wg_GeneratePrivateKey t with
  | None => Err (ErrOther "generate key")
  | Some k => Ok (MkClientKeyPair (wg_String k) (wg_String (wg_PublicKey k)))
  end.

Definition PublicKeyFromPrivateKey (privateKey : string) : result string :=
  match wg_ParseKey (TrimSpace privateKey) with
  | None => Err (ErrOther "private key")
  | Some key => Ok (wg_String (wg_PublicKey key))
  end.

Definition readServerPrivateKey (path : string) : M World wg_key :=
  data ← open_read path;
  match wg_ParseKey (TrimSpace data) with
  | None => fail (ErrOther "wgtypes: incorrect key")
  | Some k => mret k
  end.

Definition ensureServerPrivateKey (path : string) : M World wg_key :=
  r ← attempt (readServerPrivateKey path);
  match r with
  | Ok k => mret k
  | Err ErrNotExist =>
      t ← ticks;
      k ← ext (lift_result (match wg_GeneratePrivateKey t with
                            | Some k => Ok k | None => Err (ErrOther "generate key") end));
      os_MkdirAll (path_Dir path) ;;
      os_WriteFile path (wg_String k +:+ nl) ;;
      mret k
  | Err e => fail e
  end.

Definition ServerPublicKey (cfg : Config) : M World string :=
  k ← readServerPrivateKey (wg_PrivateKeyFile (WireGuard cfg)); mret (wg_String (wg_PublicKey k)).

(** ** The client's configuration *)

Definition peerConfig (cfg : Config) (peer : WGPeer) (serverPublicKey : string) : result string :=
  let clientAddresses := peerClientAddresses (peer_AllowedIPs peer) in
  let address := default "<client-wireguard-address>" (head clientAddresses) in
  let allowedIPs := compactStrings [wireGuardHostCIDR (wg_Address (WireGuard cfg)); vn_Subnet (VMNetwork cfg)] in
  apiURL ← APIURL (wg_Address (WireGuard cfg));
  Ok ("# Firedoze client import config." +:+ nl +:+
      "# This contains no client private key. Send it back to the client so they can run:" +:+ nl +:+
      "#   firedoze server import <this-file> -default" +:+ nl +:+ nl +:+
      "api_url = " +:+ Quote apiURL +:+ nl +:+
      "client_public_key = " +:+ Quote (peer_PublicKey peer) +:+ nl +:+ nl +:+
      "[wireguard]" +:+ nl +:+
      "address = " +:+ Quote address +:+ nl +:+
      "server_public_key = " +:+ Quote serverPublicKey +:+ nl +:+
      "endpoint = " +:+ Quote (endpoint cfg) +:+ nl +:+
      "allowed_ips = " +:+ renderStringList allowedIPs +:+ nl).

Definition PeerConfig (cfg : Config) (peer : WGPeer) : M World string :=
  serverPublicKey ← ServerPublicKey cfg; lift_result (peerConfig cfg peer serverPublicKey).

(** ** A new peer *)

(** [net.ParseCIDR] and the checks on the address. *)
Definition normalize_allowed (allowedIP : string) : result string :=
  match ParseCIDR allowedIP with
  | None => Err (ErrOther "allowed IP must be CIDR")
  | Some (ip, ipNet) =>
      if negb (bool_decide (net_ones ipNet = net_bits ipNet))
      then Err (ErrOther "allowed IP must be a single client address") else
      if is_v4 ip then Err (ErrOther "allowed IP must be IPv6") else Ok (IPNet_String ipNet)
  end.

Fixpoint peer_is_new (peers : list WGPeer) (name publicKey normalizedAllowedIP : string) : result unit :=
  match peers with
  | [] => Ok tt
  | peer :: rest =>
      if bool_decide (peer_Name peer = name) then Err (ErrOther "wireguard peer already exists") else
      if bool_decide (peer_PublicKey peer = publicKey) then Err (ErrOther "wireguard peer already uses that public key") else
      if existsb (λ a, match ParseCIDR a with
                       | Some (_, n) => bool_decide (IPNet_String n = normalizedAllowedIP)
                       | None => false end) (peer_AllowedIPs peer)
      then Err (ErrOther "wireguard peer already uses the address") else
      peer_is_new rest name publicKey normalizedAllowedIP
  end.

Definition choose_allowed (cfg : Config) (allowedIP : string) : result string :=
  if is_empty allowedIP
  then match nextPeerAllowedIP cfg with
       | Some r => r | None => Err (ErrOther "unreachable: the search is bounded") end
  else Ok allowedIP.

Definition NewPeerSetup (cfg : Config) (name publicKey allowedIP : string) : M World (WGPeer * string) :=
  if is_empty name then fail (ErrOther "peer name is required") else
  if is_empty publicKey then fail (ErrOther "peer public key is required") else
  match wg_ParseKey publicKey with
  | None => fail (ErrOther "peer public key")
  | Some _ =>
      allowedIP ← lift_result (choose_allowed cfg allowedIP);
      normalizedAllowedIP ← lift_result (normalize_allowed allowedIP);
      lift_result (peer_is_new (wg_Peers (WireGuard cfg)) name publicKey normalizedAllowedIP) ;;
      serverPrivateKey ← ensureServerPrivateKey (wg_PrivateKeyFile (WireGuard cfg));
      let peer := {| peer_Name := name; peer_PublicKey := publicKey; peer_AllowedIPs := [normalizedAllowedIP] |} in
      clientConfig ← lift_result (peerConfig cfg peer (wg_String (wg_PublicKey serverPrivateKey)));
      mret (peer, clientConfig)
  end.

(** ** The configuration file *)

Fixpoint ends_with_newline (s : string) : bool :=
  match s with
  | "" => false
  | String c "" => bool_decide (c = ascii_of_nat 10)
  | String _ s' => ends_with_newline s'
  end.

(** The file with the peer added. *)
Definition with_peer (data : string) (peer : WGPeer) : string :=
  (if negb (is_empty data) && negb (ends_with_newline data) then data +:+ nl else data) +:+
  renderPeerTOML peer.

(** The new text goes to the temporary file, which is read back and loaded
    before it takes the place of the old one. *)
Definition write_checked (tmpPath path text : string) : M World unit :=
  write_at tmpPath 0 text ;;
  ext (mret tt) ;;
  ext (mret tt) ;;
  read ← attempt (open_read tmpPath);
  lift_result (Load (λ _, read) tmpPath) ;;
  os_Rename tmpPath path.

Definition AppendPeer (path : string) (peer : WGPeer) : M World unit :=
  data ← open_read path;
  os_Stat path ;;
  let appended := with_peer data peer in
  tmpPath ← os_CreateTemp (path_Dir path) (path_Base path +:+ ".") ".tmp";
  deferring (write_checked tmpPath path appended) (attempt (os_Remove tmpPath) ;; mret tt).
End wireguard.

(** ** The search for an address *)

Lemma passed_bound network used n :
  (∀ i, (i < n)%nat → ip_valid (network + 1 + Z.of_nat i)) →
  (∀ i, (i < n)%nat → IP_String (network + 1 + Z.of_nat i) ∈ used) → (n ≤ length used)%nat.
Proof.
  intros Hv Hu. set (l := (λ i, IP_String (network + 1 + Z.of_nat i)) <$> seq 0 n).
  assert (length l = n) as Hl by (unfold l; by rewrite length_fmap, length_seq).
  cut (length l ≤ length used)%nat; [lia|]. apply NoDup_incl_length.
  - apply NoDup_ListNoDup. unfold l. apply NoDup_fmap_2_strong; [|apply NoDup_seq].
    intros i j Hi%elem_of_seq Hj%elem_of_seq E. apply IP_String_inj in E; [lia|apply Hv; lia..].
  - intros x Hx%list_elem_of_In. apply list_elem_of_In. unfold l in Hx.
    apply list_elem_of_fmap in Hx as (i & -> & Hi%elem_of_seq). apply Hu. lia.
Qed.

Lemma peer_loop_spec network size used : ∀ fuel n,
  (length used < fuel + n)%nat →
  (∀ i, (i < n)%nat → ip_valid (network + 1 + Z.of_nat i) ∧ IP_String (network + 1 + Z.of_nat i) ∈ used) →
  ∃ r k, peer_loop fuel network size used (1 + Z.of_nat n) = Some r ∧
    (∀ i, (i < k)%nat → IP_String (network + 1 + Z.of_nat i) ∈ used) ∧
    match r with
    | Ok s => 1 + Z.of_nat k < size ∧ ip_valid (network + 1 + Z.of_nat k) ∧
              s = IP_String (network + 1 + Z.of_nat k) +:+ "/128" ∧
              (IP_String (network + 1 + Z.of_nat k) ∉ used)
    | Err _ => size ≤ 1 + Z.of_nat k ∨ ¬ ip_valid (network + 1 + Z.of_nat k)
    end.
Proof.
  induction fuel as [|fuel IH]; intros n Hf Hn.
  { assert (n ≤ length used)%nat; [|lia]. apply (passed_bound network); intros i Hi; by apply Hn. }
  cbn [peer_loop]. case_bool_decide as Hs.
  { eexists _, n. split; [done|]. split; [intros i Hi; by apply Hn|]. by left. }
  replace (network + 1 + Z.of_nat n) with (network + (1 + Z.of_nat n)) in * by lia.
  destruct (addToIP network (1 + Z.of_nat n)) as [c|] eqn:Ha.
  - apply addToIP_Some in Ha as [-> Hv]. case_bool_decide as Hu.
    + destruct (IH (S n)) as (r & k & E & Hk & Hr); [lia| |].
      * intros i Hi. destruct (decide (i = n)) as [->|]; [|apply Hn; lia].
        replace (network + 1 + Z.of_nat n) with (network + (1 + Z.of_nat n)) by lia. done.
      * exists r, k. replace (1 + Z.of_nat n + 1) with (1 + Z.of_nat (S n)) by lia. done.
    + eexists _, n. split; [done|]. split; [intros i Hi; by apply Hn|].
      replace (network + 1 + Z.of_nat n) with (network + (1 + Z.of_nat n)) by lia. split_and!; [lia|done..].
  - eexists _, n. split; [done|]. split; [intros i Hi; by apply Hn|]. right. intros Hv.
    replace (network + 1 + Z.of_nat n) with (network + (1 + Z.of_nat n)) in Hv by lia.
    unfold addToIP, ip_valid in *. repeat case_bool_decide; done || lia.
Qed.

(** The search for a client address ends and finds the first free one: for
    an IPv6 [wireguard.address] [nextPeerAllowedIP] returns, without ever running
    out of rounds, the lowest address of the network above its base that is
    neither the server's nor a peer's, as a /128, or an error when there is none. *)
Theorem nextPeerAllowedIP_correct cfg ip ipNet :
  ParseCIDR (wg_Address (WireGuard cfg)) = Some (ip, ipNet) →
  is_v4 ip = false → net_bits ipNet = 128 → net_ones ipNet ≤ 126 →
  let used := used_addresses ip (wg_Peers (WireGuard cfg)) in
  let candidate k := mask_ip ip (net_ones ipNet) 128 + 1 + Z.of_nat k in
  ∃ r k, nextPeerAllowedIP cfg = Some r ∧ (∀ i, (i < k)%nat → IP_String (candidate i) ∈ used) ∧
    match r with
    | Ok s => 1 + Z.of_nat k < 2 ^ (128 - net_ones ipNet) ∧ ip_valid (candidate k) ∧
              s = IP_String (candidate k) +:+ "/128" ∧ (IP_String (candidate k) ∉ used)
    | Err _ => 2 ^ (128 - net_ones ipNet) ≤ 1 + Z.of_nat k ∨ ¬ ip_valid (candidate k)
    end.
Proof.
  intros Hp Hv Hb Ho used candidate. unfold nextPeerAllowedIP. rewrite Hp, Hv, Hb.
  rewrite bool_decide_eq_true_2, bool_decide_eq_false_2 by (done || lia). cbn [orb negb].
  apply (peer_loop_spec _ _ used (S (length used)) 0); [lia|]. intros i Hi. lia.
Qed.

(** ** New peers are acceptable *)

Lemma normalize_allowed_Ok a s : normalize_allowed a = Ok s → allowed_net s = Some s.
Proof.
  unfold normalize_allowed, ParseCIDR at 1. destruct (Cut a "/") as [[addr m]|]; [|done].
  destruct (parse_addr addr) as [[ip bits]|] eqn:Hp; [|done]. cbn [mbind option_bind].
  destruct (parse_digits m) as [ones|]; [|done]. cbn [mbind option_bind]. case_bool_decide; [|done].
  cbn [net_ones net_bits]. case_bool_decide as Hones; [|done]. cbn [negb]. subst ones.
  destruct (is_v4 ip) eqn:Hv; [done|]. intros [= <-].
  apply parse_addr_valid in Hp as [Hip [[_ Hv4]|Hbits]]; [congruence|]. subst bits.
  unfold IPNet_String, mask_ip. cbn [net_ip net_ones net_bits]. change (128 - 128) with 0.
  rewrite Z.pow_0_r, Z.div_1_r, Z.mul_1_r, Hv. cbn [andb].
  change ("/" +:+ FormatInt 128) with "/128". unfold allowed_net. rewrite ParseCIDR_single by done.
  cbn [mbind option_bind]. rewrite Hv. unfold IPNet_String. cbn [net_ip net_ones net_bits]. by rewrite Hv.
Qed.

Lemma peer_is_new_Ok peers name key ip :
  peer_is_new peers name key ip = Ok tt →
  (name ∉ peer_Name <$> peers) ∧ (key ∉ peer_PublicKey <$> peers) ∧ (ip ∉ (peers ≫= peer_nets)).
Proof.
  induction peers as [|p peers IH]; cbn [peer_is_new].
  { intros _. split_and!; apply not_elem_of_nil. }
  case_bool_decide as Hn; [done|]. case_bool_decide as Hk; [done|].
  destruct (existsb _ _) eqn:He; [done|]. intros (A & B & C)%IH. split_and!.
  - cbn [fmap list_fmap]. rewrite not_elem_of_cons. naive_solver.
  - cbn [fmap list_fmap]. rewrite not_elem_of_cons. naive_solver.
  - cbn [mbind list_bind]. rewrite not_elem_of_app. split; [|done]. intros Hin.
    apply list_elem_of_omap in Hin as (a & Ha & Hnet). unfold allowed_net in Hnet.
    apply bind_Some in Hnet as ([i n] & Hp & Hi). destruct (is_v4 i); [done|]. injection Hi as Hi.
    apply not_true_iff_false in He. apply He, existsb_exists. exists a.
    split; [by apply list_elem_of_In|]. rewrite Hp. by apply bool_decide_eq_true_2.
Qed.

Section new_peer.
Context `{FirecrackerVMM, Env, GoUnicode, GoQuote, WgTypes, Toml}.

(** A peer that [NewPeerSetup] accepts can be added: appended to peers that
    satisfy the configuration's rules it satisfies them too: it is complete, its
    address is one IPv6 address in normal form, and no other peer has its name,
    key or address; an address the search chose is not the server's own. *)
Theorem NewPeerSetup_valid cfg name publicKey allowedIP w peer text w' :
  peers_valid (wg_Peers (WireGuard cfg)) →
  NewPeerSetup cfg name publicKey allowedIP w = (Ok (peer, text), w') →
  peers_valid (wg_Peers (WireGuard cfg) ++ [peer]) ∧ peer_Name peer = name ∧
  peer_PublicKey peer = publicKey ∧ is_Some (wg_ParseKey publicKey) ∧
  (allowedIP = "" → ∀ ip ipNet, ParseCIDR (wg_Address (WireGuard cfg)) = Some (ip, ipNet) →
     peer_AllowedIPs peer ≠ [IP_String ip +:+ "/128"]).
Proof.
  intros (Hv & Hn & Hk & Hnets) E. unfold NewPeerSetup in E.
  destruct (is_empty name) eqn:Hname; [done|]. destruct (is_empty publicKey) eqn:Hkey; [done|].
  destruct (wg_ParseKey publicKey) as [k|]; [|done].
  apply bind_Ok in E as (a & w1 & Ea & E). injection Ea as Ea _.
  apply bind_Ok in E as (s & w2 & Es & E). injection Es as Es _.
  apply bind_Ok in E as ([] & w3 & Ei & E). injection Ei as Ei _.
  apply bind_Ok in E as (sk & w4 & _ & E). cbv zeta in E. apply bind_Ok in E as (c & w5 & _ & E).
  injection E as <- <- _. apply bool_decide_eq_false in Hname, Hkey.
  pose proof (normalize_allowed_Ok _ _ Es) as Hs. apply peer_is_new_Ok in Ei as (N1 & N2 & N3).
  split; [|split; [done|split; [done|split; [by eexists|]]]].
  - unfold peers_valid. rewrite !fmap_app, bind_app, !NoDup_app, Forall_app. cbn [fmap list_fmap peer_Name peer_PublicKey].
    assert (peer_nets {| peer_Name := name; peer_PublicKey := publicKey; peer_AllowedIPs := [s] |} = [s]) as Hpn.
    { unfold peer_nets. cbn [omap list_omap peer_AllowedIPs]. by rewrite Hs. }
    cbn [mbind list_bind]. rewrite Hpn, app_nil_r.
    assert (∀ (l : list string) x, x ∉ l → ∀ y, y ∈ l → y ∉ [x]) as Hout.
    { intros l x Hx y Hy ->%list_elem_of_singleton. done. }
    split_and!; try done; try apply NoDup_singleton; eauto.
    apply Forall_singleton. split_and!; try done. apply Forall_singleton. cbn [peer_AllowedIPs]. by eexists.
  - intros -> ip ipNet Hp [= Eq]. unfold choose_allowed in Ea. simpl in Ea.
    destruct (nextPeerAllowedIP cfg) as [r|] eqn:Hr; [|done]. subst r.
    unfold nextPeerAllowedIP in Hr. rewrite Hp in Hr. destruct (is_v4 ip || _) eqn:Hc; [done|].
    apply orb_false_iff in Hc as [Hvip Hbits]. case_bool_decide; [done|].
    destruct (peer_loop_spec (mask_ip ip (net_ones ipNet) 128) (2 ^ (128 - net_ones ipNet))
      (used_addresses ip (wg_Peers (WireGuard cfg))) (S (length (used_addresses ip (wg_Peers (WireGuard cfg))))) 0)
      as (r & j & Hl & _ & Hres); [lia|lia|].
    change (1 + Z.of_nat 0) with 1 in Hl. rewrite Hl in Hr. injection Hr as ->. destruct Hres as (_ & Hval & -> & Hfree).
    unfold normalize_allowed in Es.
    destruct (is_v4 (mask_ip ip (net_ones ipNet) 128 + 1 + Z.of_nat j)) eqn:Hv4.
    + by rewrite ParseCIDR_v4_128 in Es.
    + rewrite ParseCIDR_single in Es by done. cbn [net_ones net_bits] in Es.
      rewrite bool_decide_eq_true_2 in Es by done. cbn [negb] in Es. rewrite Hv4 in Es. injection Es as Es.
      unfold IPNet_String in Es. cbn [net_ip net_ones net_bits] in Es. rewrite Hv4 in Es. cbn [andb] in Es.
      rewrite Eq in Es. change ("/" +:+ FormatInt 128) with "/128" in Es. apply str_app_inj_r in Es.
      apply Hfree. rewrite Es. left.
Qed.
End new_peer.

(** ** Replacing a file through a temporary one *)

Section temp_file.
Context `{FirecrackerVMM, Env}.

Lemma spliced_empty new : spliced 0 new "" = new.
Proof.
  unfold spliced. change (resized 0 "" +:+ (new +:+ str_drop (0 + String.length new) "") = new).
  destruct new; [done|]. change (String a new +:+ "" = String a new). apply str_app_nil_r.
Qed.

Lemma write_temp_wp m tmp new w :
  fs w = <[tmp := File ""]> m →
  wp (write_at tmp 0 new) (λ r w', ∃ c, fs w' = <[tmp := File c]> m ∧ (r = Ok tt → c = new)) w.
Proof.
  intros Hw. apply wp_ext; [|intros f; exists ""; split; [done|by destruct f]].
  unfold wp. cbn [fs bump]. rewrite Hw, lookup_insert_eq, spliced_empty. cbn [fst snd fs set_fs bump].
  rewrite Hw, insert_insert_eq. split; [|intros f]; by exists new.
Qed.

Lemma rename_temp_wp m tmp path new w :
  m !! tmp = None → tmp ≠ path → fs w = <[tmp := File new]> m →
  wp (os_Rename tmp path) (λ r w',
    is_ok r = false ∧ fs w' = <[tmp := File new]> m ∨ fs w' = <[path := File new]> m) w.
Proof.
  intros Ht Hne Hw. apply wp_ext; [|intros f; left; split; [by destruct f|done]].
  unfold wp. cbn [fs bump]. rewrite Hw, lookup_insert_eq, lookup_insert_ne by done.
  assert (∀ r : result unit, is_ok r = false ∧
      fs (set_fs (λ m, <[path := File new]> (delete tmp m)) (bump w)) = <[tmp := File new]> m ∨
      fs (set_fs (λ m, <[path := File new]> (delete tmp m)) (bump w)) = <[path := File new]> m) as Hdone.
  { intros r. right. cbn [fs set_fs bump]. by rewrite Hw, delete_insert_id by done. }
  rewrite bool_decide_eq_false_2 by done.
  destruct (m !! path) as [[]|]; cbn [fst snd]; [|by auto..].
  split; [by left|]. intros f. left. split; [by destruct f|done].
Qed.

(** The temporary file goes, or stays. *)
Lemma remove_temp_wp tmp w :
  wp (attempt (os_Remove tmp) ;; mret tt) (λ _ w', fs w' = fs w ∨ fs w' = delete tmp (fs w)) w.
Proof.
  apply wp_bind_attempt. intros r' w' E. apply wp_ret. unfold os_Remove, ext in E. cbn [fs bump] in E.
  destruct (fs w !! tmp) as [[]|]; try destruct (dir_empty _ _);
    destruct (fate _); injection E as _ <-; (by left) || by right.
Qed.
End temp_file.

(** ** The configuration file survives *)

Section append.
Context `{FirecrackerVMM, Env, GoUnicode, GoQuote, WgTypes, Toml}.

(** What the body of [AppendPeer] leaves, from the files [m] with the text [new]
    on its way to [path] through [tmp]: the temporary file and an error, or the
    checked text in place. *)
Definition append_state (m : gmap string node) (tmp path new : string) (r : result unit) (w : World) : Prop :=
  (r ≠ Ok tt ∧ ∃ c, fs w = <[tmp := File c]> m) ∨
  (fs w = <[path := File new]> m ∧ ∃ cfg, Load (λ _, Ok new) tmp = Ok cfg).

Lemma append_rename m tmp path new cfg w :
  m !! tmp = None → tmp ≠ path → fs w = <[tmp := File new]> m →
  Load (λ _, Ok new) tmp = Ok cfg → wp (os_Rename tmp path) (append_state m tmp path new) w.
Proof.
  intros Ht Hp Hw Hc. eapply wp_mono; [apply (rename_temp_wp m tmp path new); done|].
  intros r w' [[Hr Hw']|Hw']; [left|right; split; [done|by eexists]].
  split; [by intros ->|by eexists].
Qed.

Lemma write_checked_wp m tmp path new w :
  m !! tmp = None → tmp ≠ path → fs w = <[tmp := File ""]> m →
  wp (write_checked tmp path new) (append_state m tmp path new) w.
Proof.
  intros Ht Hp Hw. unfold write_checked.
  assert (∀ r w', r ≠ Ok tt → (∃ c, fs w' = <[tmp := File c]> m) → append_state m tmp path new r w') as Herr
    by (intros; by left).
  apply wp_bind. eapply wp_mono; [by apply (write_temp_wp m)|].
  intros [[]|e] w1 (c & Hw1 & Hc); [|apply Herr; [done|by exists c]]. rewrite (Hc eq_refl) in Hw1. clear c Hc w Hw.
  apply wp_bind_run; [|intros e w2 E; apply Herr; [done|]; rewrite (keeps_Ok fs _ _ _ _ E); by eexists].
  intros [] w2 E2. apply (keeps_Ok fs) in E2; [|apply _]. rewrite Hw1 in E2. clear w1 Hw1.
  apply wp_bind_run; [|intros e w3 E; apply Herr; [done|]; rewrite (keeps_Ok fs _ _ _ _ E); by eexists].
  intros [] w3 E3. apply (keeps_Ok fs) in E3; [|apply _]. rewrite E2 in E3. clear w2 E2.
  apply wp_bind_attempt. intros read w4 E4. pose proof (keeps_Ok fs _ _ _ _ E4) as Hw4.
  rewrite E3 in Hw4. unfold open_read, ext in E4. cbn [fs bump] in E4. rewrite E3, lookup_insert_eq in E4.
  apply wp_bind, wp_lift_result. destruct (Load (λ _, read) tmp) as [cfg|e] eqn:El; [|apply Herr; [done|by eexists]].
  assert (read = Ok new) as ->; [|by eapply append_rename].
  destruct (fate _) as [|f|f]; injection E4 as <- _; [done|..];
    unfold Load in El; rewrite bool_decide_eq_false_2 in El by apply fault_not_exist; done.
Qed.

Lemma os_CreateTemp_wp dir pre suf w :
  wp (os_CreateTemp dir pre suf) (λ r w',
    (∃ tmp, (r = Ok tmp ∨ is_ok r = false) ∧ fs w !! tmp = None ∧
       fs w' = <[tmp := File ""]> (fs w) ∧ ∃ z, tmp = z +:+ suf) ∨
    is_ok r = false ∧ fs w' = fs w) w.
Proof.
  unfold os_CreateTemp. apply wp_bind_gets. cbv zeta. set (tmp := _ +:+ _).
  assert (∃ z, tmp = z +:+ suf) as Hz by (unfold tmp; rewrite <-!str_app_assoc; by eexists). unfold wp, mbind, M_mbind.
  unfold open_excl, ext. cbn [fs bump]. destruct (fs w !! tmp) as [n|] eqn:Ht.
  { right. by destruct (fate _). }
  destruct (parent_ok tmp (fs w)); [|right; by destruct (fate _)].
  destruct (fate _) as [|f|f]; [left|right|left]; [|done|]; exists tmp; split_and!; auto.
Qed.

(** Every entry of [m] but [path] is as it was. *)
Definition others_kept (m : gmap string node) (path : string) (m' : gmap string node) : Prop :=
  ∀ q n, q ≠ path → m !! q = Some n → m' !! q = Some n.

Lemma others_kept_insert m path tmp n : m !! tmp = None → others_kept m path (<[tmp := n]> m).
Proof. intros Ht q x _ Hq. rewrite lookup_insert_ne; [done|congruence]. Qed.

(** The outcome of [AppendPeer] from the files [m]. *)
Definition append_outcome (m : gmap string node) (path data new : string) (r : result unit) (w : World) : Prop :=
  (fs w !! path = Some (File data) ∧ r ≠ Ok tt ∨
   fs w !! path = Some (File new) ∧ ∃ tmp cfg, Load (λ _, Ok new) tmp = Ok cfg) ∧
  others_kept m path (fs w).

Lemma append_cleanup m tmp path data new r w :
  m !! tmp = None → m !! path = Some (File data) → append_state m tmp path new r w →
  wp (attempt (os_Remove tmp) ;; mret tt) (λ _, append_outcome m path data new r) w.
Proof.
  intros Ht Hp Hs. assert (tmp ≠ path) as Hne by congruence.
  assert (append_outcome m path data new r w) as Ho.
  { destruct Hs as [[Hr [c Hw]]|[Hw Hc]]; unfold append_outcome; rewrite Hw; split.
    - left. by rewrite lookup_insert_ne.
    - by apply others_kept_insert.
    - right. rewrite lookup_insert_eq. split; [done|by exists tmp].
    - intros q n Hq Hn. by rewrite lookup_insert_ne. }
  assert (append_outcome m path data new r (set_fs (delete tmp) w)) as Hd.
  { destruct Ho as [Hpath Ho]. split.
    - cbn [fs set_fs]. by rewrite lookup_delete_ne.
    - intros q n Hq Hn. cbn [fs set_fs]. rewrite lookup_delete_ne by congruence. by apply Ho. }
  eapply wp_mono; [apply remove_temp_wp|]. intros _ w' [E|E]; unfold append_outcome in *; by rewrite E.
Qed.

(** C36.  Adding a peer cannot damage the configuration: wherever
    [AppendPeer] fails or is cut short, the file holds what it held or the old
    text with the peer added, and then [Load] accepts it; a success means the
    latter, and every other file is as it was. *)
Theorem AppendPeer_safe path peer data w :
  fs w !! path = Some (File data) →
  wp (AppendPeer path peer) (append_outcome (fs w) path data (with_peer data peer)) w.
Proof.
  intros Hp.
  assert (∀ r w', r ≠ Ok tt → fs w' = fs w → append_outcome (fs w) path data (with_peer data peer) r w') as Hearly.
  { intros r w' Hr Hw. unfold append_outcome. rewrite Hw. split; [auto|]. by intros q n. }
  unfold AppendPeer. apply wp_bind_run; [|intros e w1 E; apply Hearly; [done|by apply (keeps_Ok fs) in E; [|apply _]]].
  intros d w1 E1. pose proof (keeps_Ok fs _ _ _ _ E1) as Hw1.
  apply ext_Ok in E1. cbn [fs bump] in E1. rewrite Hp in E1. injection E1 as <- _.
  apply wp_bind_run; [|intros e w2 E; apply Hearly; [done|apply (keeps_Ok fs) in E; [congruence|apply _]]].
  intros i w2 E2. apply (keeps_Ok fs) in E2; [|apply _]. rewrite Hw1 in E2. clear w1 Hw1 i. cbv zeta.
  apply wp_bind. eapply wp_mono; [apply os_CreateTemp_wp|]. rewrite E2. clear Hearly.
  intros [tmp|e] w3 [(tmp' & [[= ->]|[=]] & Ht & Hw3 & _)|[[=] Hw3]].
  - apply wp_deferring. eapply wp_mono; [eapply write_checked_wp; [done|intros ->; congruence|done]|]. intros r w4 Hs. by eapply append_cleanup.
  - split; [left; rewrite Hw3, lookup_insert_ne; [done|congruence]|]. rewrite Hw3. by apply others_kept_insert.
  - split; [left; by rewrite Hw3|]. rewrite Hw3. by intros q n.
Qed.
End append.

(** ** Witnesses *)

(** Keys that are their own text; the public key is marked. *)
Definition plain_keys : WgTypes := {|
  wg_key := string;
  wg_ParseKey s := if is_empty s then None else Some s;
  wg_PublicKey k := "pub-" +:+ k;
  wg_String k := k;
  wg_GeneratePrivateKey _ := Some "fresh";
|}.
Definition ascii_quote : GoQuote := λ _, "".

Definition alice : WGPeer :=
  {| peer_Name := "alice"; peer_PublicKey := "key-a"; peer_AllowedIPs := ["fd7a:115c:a1e1::2/128"] |}.
Definition bob : WGPeer :=
  {| peer_Name := "bob"; peer_PublicKey := "key-b"; peer_AllowedIPs := ["fd7a:115c:a1e1::3/128"] |}.

(** The default configuration with one peer. *)
Definition alice_config : Config := {|
  BaseDomain := BaseDomain Default; DefaultHTTPPort := DefaultHTTPPort Default; StateDir := StateDir Default;
  API := API Default; Caddy := Caddy Default; Metadata := Metadata Default;
  WireGuard := {| wg_Interface := "fdwg0"; wg_ListenPort := 51820; wg_Address := "fd7a:115c:a1e1::1/64";
                  wg_Endpoint := ""; wg_PrivateKeyFile := "/etc/firedoze/wg.key"; wg_Peers := [alice] |};
  HostFirewall := HostFirewall Default; GuestControl := GuestControl Default; VMNetwork := VMNetwork Default;
  DNS := DNS Default; SSH := SSH Default; Idle := Idle Default; ColdStorage := ColdStorage Default;
  Firecracker := Firecracker Default
|}.

Lemma nextPeerAllowedIP_correct_witness :
  nextPeerAllowedIP alice_config = Some (Ok "fd7a:115c:a1e1::3/128") ∧
  ∃ k, "fd7a:115c:a1e1::3/128" = IP_String (0xfd7a115ca1e100000000000000000000 + 1 + Z.of_nat k) +:+ "/128" ∧
       IP_String (0xfd7a115ca1e100000000000000000000 + 1 + Z.of_nat k) ∉
         ["fd7a:115c:a1e1::1"; "fd7a:115c:a1e1::2"].
Proof.
  assert (nextPeerAllowedIP alice_config = Some (Ok "fd7a:115c:a1e1::3/128")) as Hn by (vm_compute; reflexivity).
  split; [exact Hn|].
  destruct (nextPeerAllowedIP_correct alice_config 0xfd7a115ca1e100000000000000000001
    (MkIPNet 0xfd7a115ca1e100000000000000000000 64 128)) as (r & k & Hr & _ & Hres);
    [vm_compute; reflexivity|vm_compute; reflexivity|reflexivity|cbn; lia|].
  rewrite Hn in Hr. injection Hr as <-. destruct Hres as (_ & _ & Hs & Hu). exists k.
  change (mask_ip 0xfd7a115ca1e100000000000000000001 (net_ones (MkIPNet 0xfd7a115ca1e100000000000000000000 64 128)) 128)
    with 0xfd7a115ca1e100000000000000000000 in *.
  split; [exact Hs|]. intros Hin. apply Hu. revert Hin. generalize (IP_String (0xfd7a115ca1e100000000000000000000 + 1 + Z.of_nat k)).
  intros x. vm_compute. auto.
Defined.

(** A host with a configuration file and a server key. *)
Definition peer_world : @World toy_vmm :=
  set_fs (λ _, list_to_map [("/etc", Dir); ("/etc/firedoze", Dir); ("/etc/firedoze/wg.key", File "server");
    ("/etc/firedoze/firedoze.toml", File "base")]) empty_world.

Definition bob_setup : result (WGPeer * string) * @World toy_vmm :=
  @NewPeerSetup toy_vmm calm ascii_only ascii_quote plain_keys alice_config "bob" "key-b" "" peer_world.

Lemma NewPeerSetup_valid_witness :
  ∃ text w', bob_setup = (Ok (bob, text), w') ∧ peers_valid [alice; bob].
Proof.
  assert (peers_valid [alice]) as Ha.
  { unfold peers_valid. cbn [fmap list_fmap mbind list_bind].
    split; [|split; [apply NoDup_singleton|split; [apply NoDup_singleton|vm_compute; apply NoDup_singleton]]].
    apply Forall_singleton. split_and!; try done. apply Forall_singleton. eexists. vm_compute. reflexivity. }
  destruct bob_setup as [[[peer text]|e] w'] eqn:Hr; [|apply (f_equal fst) in Hr; vm_compute in Hr; discriminate Hr].
  exists text, w'. assert (peer = bob) as ->.
  { apply (f_equal fst) in Hr. vm_compute in Hr. injection Hr as <- _. reflexivity. }
  split; [reflexivity|].
  exact (proj1 (@NewPeerSetup_valid toy_vmm calm ascii_only ascii_quote plain_keys alice_config "bob" "key-b" ""
    peer_world bob text w' Ha Hr)).
Defined.

Lemma AppendPeer_safe_witness :
  let w := peer_world in
  fs w !! DefaultPath = Some (File "base") ∧
  wp (@AppendPeer toy_vmm calm ascii_quote empty_toml DefaultPath bob)
    (@append_outcome toy_vmm empty_toml (fs w) DefaultPath "base" (@with_peer ascii_quote "base" bob)) w.
Proof.
  cbv zeta. assert (fs peer_world !! DefaultPath = Some (File "base")) as Hp by (vm_compute; reflexivity).
  split; [exact Hp|].
  exact (@AppendPeer_safe toy_vmm calm ascii_quote empty_toml DefaultPath bob "base" peer_world Hp).
Defined.
