(* ===== verification/SaveFile.v ===== *)
(** * Files replaced whole

    The client's configuration file (cmd/firedoze/client_config.go) and the
    daemon's list of VMs to wake (cmd/firedozed/main.go) are written through a
    temporary file that is renamed over the old one. *)

From S2P Require Import Prelude GoStrings Paths IPNet Types Store Config World FileCopy ManagerDisk Wireguard.
Open Scope Z_scope.

Section save.
Context `{FirecrackerVMM, Env}.

(** The temporary file is written, given its mode, closed and renamed. *)
Definition save_body (tmpPath path data : string) : M World unit :=
  write_at tmpPath 0 data ;; ext (mret tt) ;; ext (mret tt) ;; os_Rename tmpPath path.

Definition write_via_temp (path data : string) : M World unit :=
  tmpPath ← os_CreateTemp (path_Dir path) (path_Base path +:+ ".") ".tmp";
  deferring (save_body tmpPath path data) (attempt (os_Remove tmpPath) ;; mret tt).

Definition save_file (path data : string) : M World unit :=
  os_MkdirAll (path_Dir path) ;; write_via_temp path data.
End save.

(** ** The file is replaced whole or left alone *)

(** Directories were added. *)
Definition dirs_added (m m' : gmap string node) : Prop :=
  (∀ q n, m !! q = Some n → m' !! q = Some n) ∧ ∀ q s, m' !! q = Some (File s) → m !! q = Some (File s).

Section saved.
Context `{FirecrackerVMM, Env}.

Lemma mkdirs_wp ps : ∀ w, wp (mkdirs ps) (λ _ w', dirs_added (fs w) (fs w')) w.
Proof.
  induction ps as [|p ps IH]; intros w; [by apply wp_ret|]. unfold wp. cbn [mkdirs].
  destruct (fs w !! p) as [[]|] eqn:E; [apply IH|by cbn|].
  destruct (IH (set_fs <[p := Dir]> w)) as [I1 I2]. cbn [fs set_fs] in I1, I2. split.
  - intros q n Hq. apply I1. rewrite lookup_insert_ne; [done|congruence].
  - intros q s [[? [=]]|[_ Hq]]%I2%lookup_insert_Some. done.
Qed.

Lemma os_MkdirAll_wp p w : wp (os_MkdirAll p) (λ _ w', dirs_added (fs w) (fs w')) w.
Proof.
  apply wp_ext; [|intros f; by split]. eapply wp_mono; [apply mkdirs_wp|]. by intros r w'.
Qed.

Lemma save_body_wp m tmp path new w :
  m !! tmp = None → tmp ≠ path → fs w = <[tmp := File ""]> m →
  wp (save_body tmp path new) (λ r w',
    is_ok r = false ∧ (∃ c, fs w' = <[tmp := File c]> m) ∨ fs w' = <[path := File new]> m) w.
Proof.
  intros Ht Hne Hw. unfold save_body. apply wp_bind. eapply wp_mono; [by apply (write_temp_wp m)|].
  intros [[]|e] w1 (c & Hw1 & Hc); [|left; split; [done|by eexists]]. rewrite (Hc eq_refl) in Hw1. clear c Hc.
  apply wp_bind_run; [|intros e w2 E; left; split; [done|]; rewrite (keeps_Ok fs _ _ _ _ E); by eexists].
  intros [] w2 E2. apply (keeps_Ok fs) in E2; [|apply _]. rewrite Hw1 in E2.
  apply wp_bind_run; [|intros e w3 E; left; split; [done|]; rewrite (keeps_Ok fs _ _ _ _ E); by eexists].
  intros [] w3 E3. apply (keeps_Ok fs) in E3; [|apply _]. rewrite E2 in E3.
  eapply wp_mono; [by apply (rename_temp_wp m)|]. intros r w4 [[Hr Hw4]|Hw4]; [left|by right].
  split; [done|by eexists].
Qed.

(** What saving [s] as [path] makes of the files [m]. *)
Definition saved_file (m : gmap string node) (path s : string) (ok : bool) (m' : gmap string node) : Prop :=
  (m' !! path = Some (File s) ∨
   ok = false ∧ (∀ n, m !! path = Some n → m' !! path = Some n) ∧
   ∀ s, m' !! path = Some (File s) → m !! path = Some (File s)) ∧
  others_kept m path m'.

Lemma saved_left m m1 tmp path s m' :
  dirs_added m m1 → m1 !! tmp = None → tmp ≠ path →
  (∀ q, q ≠ tmp → m' !! q = m1 !! q) → saved_file m path s false m'.
Proof.
  intros [D1 D2] Ht Hne Hm. split; [right; split; [done|split]|].
  - intros n Hn%D1. by rewrite Hm.
  - intros t. rewrite Hm by done. apply D2.
  - intros q n _ Hq%D1. rewrite Hm; [done|congruence].
Qed.

Lemma saved_done m m1 tmp path s ok m' :
  dirs_added m m1 → m1 !! tmp = None → tmp ≠ path →
  m' !! path = Some (File s) → (∀ q, q ≠ tmp → q ≠ path → m' !! q = m1 !! q) → saved_file m path s ok m'.
Proof.
  intros [D1 D2] Ht Hne Hp Hm. split; [by left|].
  intros q n Hq Hn%D1. rewrite Hm; [done|congruence|done].
Qed.

Lemma save_file_wp path s w :
  (∀ z, z +:+ ".tmp" ≠ path) →
  wp (save_file path s) (λ r w', saved_file (fs w) path s (is_ok r) (fs w')) w.
Proof.
  intros Hpath. unfold save_file, write_via_temp.
  apply wp_bind. eapply wp_mono; [apply os_MkdirAll_wp|]. intros [[]|e] w1 Hd.
  2:{ destruct Hd as [D1 D2]. split; [right; by auto|]. intros q n _. apply D1. }
  apply wp_bind. eapply wp_mono; [apply os_CreateTemp_wp|].
  intros r w2 [(tmp & Hr & Ht & Hw2 & z & Hz)|[Hr Hw2]].
  2:{ destruct r; [done|]. rewrite Hw2. destruct Hd as [D1 D2]. split; [right; by auto|]. intros q n _. apply D1. }
  assert (tmp ≠ path) as Hne by (subst; apply Hpath).
  destruct r as [tmp'|e]; [destruct Hr as [[= ->]|]; [|done]|].
  2:{ eapply saved_left; [done..|]. intros q Hq. by rewrite Hw2, lookup_insert_ne. }
  apply wp_deferring. eapply wp_mono; [by apply (save_body_wp (fs w1))|]. intros r w3 Hb.
  eapply wp_mono; [apply remove_temp_wp|]. intros r' w4 Hw4.
  destruct Hb as [[Hr' [c Hw3]]|Hw3].
  - destruct r as [[]|e]; [done|]. eapply saved_left; [done..|]. intros q Hq.
    destruct Hw4 as [-> | ->]; rewrite ?lookup_delete_ne by done; by rewrite Hw3, lookup_insert_ne.
  - eapply saved_done; [done..| |].
    + destruct Hw4 as [-> | ->]; rewrite ?lookup_delete_ne by done; by rewrite Hw3, lookup_insert_eq.
    + intros q Hq Hqp. destruct Hw4 as [-> | ->]; rewrite ?lookup_delete_ne by done; by rewrite Hw3, lookup_insert_ne.
Qed.
End saved.
