(* ===== verification/ConfigInit.v ===== *)
(** * The first configuration file (internal/config/init.go, internal/config/example.go)

    [firedozed -init-config] makes up two private networks, fills in the
    template and puts the file in place after loading it once.  What
    crypto/rand returns is the argument [init_random]. *)

From S2P Require Import Prelude GoStrings Paths IPNet Json Types Store Config PrivateNet World FileCopy.
From S2P Require Import ManagerDisk Wireguard SaveFile.
Open Scope Z_scope.

Record InitOptions := MkInitOptions {
  io_Host : string; io_SSLIPHost : string; io_BaseDomain : string; io_Force : bool }.

Record ConfigTemplate := MkTemplate {
  tp_BaseDomain : string; tp_Endpoint : string; tp_WGAddress : string; tp_VMSubnet : string; tp_VMIPv4Subnet : string }.

Definition placeholder : string := "YOUR_SERVER_PUBLIC_IP_OR_DNS".

(** A line of the template: an apostrophe stands for the double quote. *)
Definition line (s : string) : string := ReplaceAll s "'" (String quote_char "") +:+ nl.
Definition lines (l : list string) : string := Join (line <$> l) "".

Definition or_text (s d : string) : string := if is_empty s then d else s.

Definition RenderExample `{GoQuote} (t : ConfigTemplate) : string :=
  let BaseDomain := or_text (tp_BaseDomain t) "dev.example.com" in
  let Endpoint := or_text (tp_Endpoint t) "YOUR_SERVER_PUBLIC_IP_OR_DNS:51820" in
  let WGAddress := or_text (tp_WGAddress t) "fd7a:115c:a1e1::1/64" in
  let VMSubnet := or_text (tp_VMSubnet t) "fd7a:115c:a1e0::/64" in
  let VMIPv4Subnet := or_text (tp_VMIPv4Subnet t) "10.88.0.0/16" in
  let baseDomainComment := if bool_decide (BaseDomain = "dev.example.com") then "# EDIT PLACEHOLDER" +:+ nl else "" in
  let endpointComment := if GoStrings.Contains Endpoint placeholder then "# EDIT PLACEHOLDER" +:+ nl else "" in
  lines [
    "# Example firedoze host configuration.";
    "#";
    "# Generated by firedozed -init-config. If any placeholder values remain,";
    "# edit them before starting firedozed. Placeholder values are marked with:";
    "# EDIT PLACEHOLDER";
    ""] +:+
  baseDomainComment +:+ "base_domain = " +:+ Quote BaseDomain +:+ nl +:+
  lines [
    "default_http_port = 8080";
    "state_dir = '/var/lib/firedoze'";
    "";
    "[api]";
    "port = 8081";
    "";
    "[caddy]";
    "http_port = 80";
    "https_port = 443";
    "internal_proxy_port = 18082";
    "# 'auto' serves HTTPS locally with Caddy-managed certificates and redirects";
    "# HTTP to HTTPS. Use 'behind_proxy' when a local tunnel/reverse proxy such as";
    "# Cloudflare Tunnel terminates public TLS and forwards plain HTTP to firedoze.";
    "tls_mode = 'auto'";
    "";
    "[metadata]";
    "path = '/var/lib/firedoze/firedoze.db'";
    "";
    "[wireguard]";
    "interface = 'fdwg0'";
    "listen_port = 51820"] +:+
  "address = " +:+ Quote WGAddress +:+ nl +:+
  endpointComment +:+ "endpoint = " +:+ Quote Endpoint +:+ nl +:+
  lines [
    "private_key_file = '/etc/firedoze/wg.key'";
    "";
    "# Add one peer for each laptop that should administer firedoze.";
    "# Each peer needs a unique /128 address inside the WireGuard subnet.";
    "#";
    "# firedozed -wg-add-peer alice-laptop <ALICE_PUBLIC_KEY> appends the peer block";
    "# automatically and prints a Firedoze client import config. Client private keys";
    "# stay on client laptops.";
    "# Running daemons apply peer additions, removals, and peer address changes";
    "# automatically.";
    "";
    "[host_firewall]";
    "enabled = true";
    "# Required when host firewalling is enabled. The 'ip6tables' backend manages";
    "# both ip6tables and iptables rules; future versions may add nftables.";
    "backend = 'ip6tables'";
    "";
    "[guest_control]";
    "# Host-side port used by guest utilities to send constrained memory hints.";
    "memory_port = 18084";
    "";
    "[vm_network]";
    "# Private IPv6 ULA range used for VM addresses. Change it if it overlaps with";
    "# another routed IPv6 range on your network."] +:+
  "subnet = " +:+ Quote VMSubnet +:+ nl +:+
  lines [
    "# Private IPv4 range used only for VM outbound NAT. New inbound IPv4 forwarding";
    "# to this subnet is blocked by the Firedoze firewall."] +:+
  "ipv4_subnet = " +:+ Quote VMIPv4Subnet +:+ nl +:+
  lines [
    "";
    "[dns]";
    "enabled = true";
    "domain = 'firedoze'";
    "# Reserved host-side DNS IP for VM-to-VM service discovery. Leave blank to use";
    "# the first usable IP in vm_network.subnet.";
    "listen_ip = ''";
    "port = 53";
    "ttl_seconds = 30";
    "upstream_servers = ['1.1.1.1:53', '8.8.8.8:53']";
    "";
    "[ssh]";
    "user = 'ubuntu'";
    "# Private SSH wake proxy port on the firedoze host. The firedoze client uses";
    "# this to wake sleeping VMs before handing the connection to the guest SSH port.";
    "wake_proxy_port = 18022";
    "";
    "[idle]";
    "check_interval_seconds = 30";
    "default_sleep_after_seconds = 21600";
    "";
    "[cold_storage]";
    "# Optional directory for moving disks of long-stopped VMs onto cheaper/slower";
    "# storage. Leave blank to disable cold storage.";
    "dir = ''";
    "archive_stopped_after_seconds = 2592000";
    "";
    "[firecracker]";
    "binary_path = '/usr/lib/firedoze/firecracker'";
    "base_kernel_path = '/var/lib/firedoze/images/vmlinux.bin'";
    "base_initrd_path = '/var/lib/firedoze/images/initrd.img'";
    "base_rootfs_path = '/var/lib/firedoze/images/rootfs.ext4'";
    "default_vcpus = 1";
    "default_memory_min_mib = 384";
    "default_memory_max_mib = 1024";
    "default_disk_bytes = 4294967296"].

(** ** Networks *)

(** [%04x]. *)
Definition hex4_pad (g : Z) : string := hex2 (g / 256) +:+ hex2 (g mod 256).

Definition byte_at (b : string) (i : nat) : Z :=
  match str_drop i b with String c _ => ascii_code c | "" => 0 end.
(** [binary.BigEndian.Uint16(b[i:i+2])]. *)
Definition word_at (b : string) (i : nat) : Z := byte_at b i * 256 + byte_at b (S i).

Definition randomNetworks (b : string) : string * string :=
  ("fd" +:+ hex2 (byte_at b 0) +:+ ":" +:+ hex4_pad (word_at b 1) +:+ ":" +:+ hex4_pad (word_at b 3) +:+ ":" +:+
     hex4_pad (word_at b 5) +:+ "::1/64",
   "fd" +:+ hex2 (byte_at b 6) +:+ ":" +:+ hex4_pad (word_at b 7) +:+ ":" +:+ hex4_pad (word_at b 9) +:+ ":" +:+
     hex4_pad (byte_at b 11 * 256) +:+ "::/64").

(** ** Hosts *)

Definition endpointForHost (host : string) (defaultPort : Z) : string :=
  if is_empty host then "" else
  match SplitHostPort host with
  | Some _ => host
  | None =>
      if bool_decide (is_Some (ParseIP host)) && GoStrings.Contains host ":"
      then "[" +:+ host +:+ "]:" +:+ FormatInt defaultPort
      else if GoStrings.Contains host ":" then "[" +:+ host +:+ "]" +:+ ":" +:+ FormatInt defaultPort
      else host +:+ ":" +:+ FormatInt defaultPort
  end.

Definition hostOnly (host : string) : string :=
  if is_empty host then "" else
  match SplitHostPort host with
  | Some (h, _) => trim_brackets h
  | None => trim_brackets host
  end.

Section init.
Context `{FirecrackerVMM, Env, GoUnicode, GoQuote, Toml}.

Definition InitTOML (rand : result string) (opts : InitOptions) : result string :=
  b ← rand;
  let '(wgSubnet, vmSubnet) := randomNetworks b in
  let host := TrimSpace (io_Host opts) in
  let sslipHost := TrimSpace (io_SSLIPHost opts) in
  if negb (is_empty host) && negb (is_empty sslipHost)
  then Err (ErrOther "init host and init sslip host are mutually exclusive") else
  let baseDomain := TrimSpace (io_BaseDomain opts) in
  let baseDomain := if negb (is_empty host) && is_empty baseDomain then hostOnly host else baseDomain in
  let endpointHost := if negb (is_empty sslipHost) then sslipHost else host in
  let baseDomain := if negb (is_empty sslipHost) && is_empty baseDomain
                    then hostOnly sslipHost +:+ ".sslip.io" else baseDomain in
  let baseDomain := or_text baseDomain "dev.example.com" in
  let endpoint := if negb (is_empty endpointHost) then endpointForHost endpointHost 51820
                  else "YOUR_SERVER_PUBLIC_IP_OR_DNS:51820" in
  Ok (RenderExample (MkTemplate baseDomain endpoint wgSubnet vmSubnet "")).

Definition InitFile (init_random : nat → result string) (path : string) (opts : InitOptions) : M World unit :=
  let path := or_text path DefaultPath in
  (if io_Force opts then mret tt else
     st ← attempt (os_Stat path);
     match st with
     | Ok _ => fail (ErrOther "already exists; use -init-force to replace it")
     | Err ErrNotExist => mret tt
     | Err e => fail e
     end) ;;
  t ← ticks;
  text ← ext (lift_result (InitTOML (init_random t) opts));
  os_MkdirAll (path_Dir path) ;;
  tmpPath ← os_CreateTemp (path_Dir path) (path_Base path +:+ ".") ".tmp";
  deferring (write_checked tmpPath path text) (attempt (os_Remove tmpPath) ;; mret tt).
End init.

(** ** The networks are well formed *)

(** [t] is a text of the 16-bit group [g], whatever follows it. *)
Definition reads_group (t : string) (g : Z) : Prop :=
  (∀ rest, hex_stop rest → ∃ n, take_hex 0 0 (t +:+ rest) = Some (S n, g, rest)) ∧
  ∃ d s, t = String (hex_digit d) s ∧ 0 ≤ d < 16.

Lemma hex4_pad_reads g : group_valid g → reads_group (hex4_pad g) g.
Proof.
  unfold group_valid. intros Hg. assert (0 ≤ g / 256 < 256) as H1 by (split; [apply Z.div_pos; lia|apply Z.div_lt_upper_bound; lia]).
  pose proof (Z.mod_pos_bound g 256 ltac:(lia)) as H2.
  assert (∀ x, 0 ≤ x < 256 → 0 ≤ x / 16 < 16 ∧ 0 ≤ x mod 16 < 16) as Hx.
  { intros x ?. split; [split; [apply Z.div_pos; lia|apply Z.div_lt_upper_bound; lia]|apply Z.mod_pos_bound; lia]. }
  destruct (Hx _ H1), (Hx _ H2). split; [|by eexists _, _].
  intros rest Hr. exists 3%nat. unfold hex4_pad, hex2. rewrite !str_app_cons, !str_app_nil_l, !str_app_cons, !str_app_nil_l.
  rewrite !take_hex_step by (done || lia). rewrite take_hex_stop by done. do 3 f_equal.
  pose proof (Z.div_mod g 256). pose proof (Z.div_mod (g / 256) 16). pose proof (Z.div_mod (g mod 256) 16). lia.
Qed.

(** A group and a colon, or the ellipsis. *)
Lemma parse_loop_colon fuel gs ell t g t' g' s :
  reads_group t g → reads_group t' g' → (length gs < 8)%nat →
  parse_v6_loop (S fuel) gs ell (t +:+ ":" +:+ t' +:+ s) = parse_v6_loop fuel (g :: gs) ell (t' +:+ s).
Proof.
  intros [Ht _] [_ (d & s' & -> & Hd)] Hlen. cbn [parse_v6_loop]. rewrite bool_decide_eq_false_2 by lia.
  rewrite !str_app_cons, str_app_nil_l.
  destruct (Ht (String ":" (String (hex_digit d) (s' +:+ s)))) as [n Hn]; [done|].
  rewrite Hn. cbn [mbind option_bind]. rewrite bool_decide_eq_false_2 by lia.
  pose proof (hex_digit_not_colon d Hd) as [Hne _].
  destruct (hex_digit d) as [[] [] [] [] [] [] [] []]; first [done|by destruct Hne].
Qed.

Lemma parse_loop_ellipsis fuel gs t g tl :
  reads_group t g → (length gs < 8)%nat →
  parse_v6_loop (S fuel) gs None (t +:+ "::" +:+ tl) =
  if bool_decide (tl = "") then Some (g :: gs, Some (S (length gs)), "")
  else parse_v6_loop fuel (g :: gs) (Some (S (length gs))) tl.
Proof.
  intros [Ht _] Hlen. cbn [parse_v6_loop]. rewrite bool_decide_eq_false_2 by lia.
  change ("::" +:+ tl) with (String ":" (String ":" tl)).
  destruct (Ht (String ":" (String ":" tl))) as [n Hn]; [done|].
  rewrite Hn. cbn [mbind option_bind]. by rewrite bool_decide_eq_false_2 by lia.
Qed.

(** Four groups, an ellipsis and the interface part. *)
Lemma parse_v6_prefix t1 t2 t3 t4 g1 g2 g3 g4 :
  reads_group t1 g1 → reads_group t2 g2 → reads_group t3 g3 → reads_group t4 g4 →
  parse_v6 (t1 +:+ ":" +:+ t2 +:+ ":" +:+ t3 +:+ ":" +:+ t4 +:+ "::") = Some (of_groups [g1; g2; g3; g4; 0; 0; 0; 0]) ∧
  parse_v6 (t1 +:+ ":" +:+ t2 +:+ ":" +:+ t3 +:+ ":" +:+ t4 +:+ "::1") = Some (of_groups [g1; g2; g3; g4; 0; 0; 0; 1]).
Proof.
  intros R1 R2 R3 R4. pose proof (proj2 R1) as (d & s & E & Hd).
  assert (∀ x, HasPrefix (t1 +:+ x) "::" = false) as Hp.
  { intros x. rewrite E, str_app_cons. cbn [HasPrefix]. rewrite bool_decide_eq_false_2; [done|].
    intros Hc. by destruct (hex_digit_not_colon d Hd). }
  change "::1" with ("::" +:+ "1"). rewrite <-(str_app_nil_r "::") at 1. unfold parse_v6. rewrite !Hp.
  rewrite !bool_decide_eq_false_2 by (by intros [??]).
  rewrite !(parse_loop_colon _ _ _ t1 g1 t2 g2), !(parse_loop_colon _ _ _ t2 g2 t3 g3),
    !(parse_loop_colon _ _ _ t3 g3 t4 g4), !(parse_loop_ellipsis _ _ t4 g4) by (done || cbn; lia).
  split; reflexivity.
Qed.

Lemma byte_at_bound b i : 0 ≤ byte_at b i < 256.
Proof. unfold byte_at. destruct (str_drop i b); [lia|apply ascii_code_bound]. Qed.
Lemma word_at_valid b i : group_valid (word_at b i).
Proof. unfold group_valid, word_at. pose proof (byte_at_bound b i). pose proof (byte_at_bound b (S i)). lia. Qed.

Lemma fd_group x : 0 ≤ x < 256 → "fd" +:+ hex2 x = hex4_pad (0xfd00 + x) ∧ group_valid (0xfd00 + x).
Proof.
  intros Hx. unfold hex4_pad, group_valid. replace (0xfd00 + x) with (x + 253 * 256) by lia.
  rewrite Z.div_add, Z.mod_add, Z.div_small, Z.mod_small by lia. split; [done|lia].
Qed.

(** The two networks as they are read back. *)
Definition ula (g1 g2 g3 g4 : Z) : Z := (((0xfd00 + g1) * 2 ^ 16 + g2) * 2 ^ 16 + g3) * 2 ^ 16 + g4.

Lemma hex4_pad_chars g : group_valid g → str_forall is_v6_char (hex4_pad g) = true.
Proof.
  unfold group_valid. intros Hg. assert (0 ≤ g / 256 < 256) as H1 by (split; [apply Z.div_pos; lia|apply Z.div_lt_upper_bound; lia]).
  pose proof (Z.mod_pos_bound g 256 ltac:(lia)) as H2.
  assert (∀ x, 0 ≤ x < 256 → str_forall is_v6_char (hex2 x) = true) as Hx.
  { intros x ?. unfold hex2. cbn [str_forall]. unfold is_v6_char. rewrite !bool_decide_eq_true_2; [done|..]; right;
      rewrite hex_value_digit; try by eexists.
    - apply Z.mod_pos_bound. lia.
    - split; [apply Z.div_pos; lia|apply Z.div_lt_upper_bound; lia]. }
  unfold hex4_pad. by rewrite str_forall_app, !Hx.
Qed.

(** A network of four groups with its interface part. *)
Lemma ParseCIDR_prefix g1 g2 g3 g4 (tl : string) (e : Z) :
  0 ≤ g1 < 256 → group_valid g2 → group_valid g3 → group_valid g4 → (tl, e) ∈ [("::", 0); ("::1", 1)] →
  ParseCIDR ("fd" +:+ hex2 g1 +:+ ":" +:+ hex4_pad g2 +:+ ":" +:+ hex4_pad g3 +:+ ":" +:+ hex4_pad g4 +:+ tl +:+ "/64") =
    Some (ula g1 g2 g3 g4 * 2 ^ 64 + e, MkIPNet (ula g1 g2 g3 g4 * 2 ^ 64) 64 128).
Proof.
  intros Hg1 Hg2 Hg3 Hg4 He. destruct (fd_group g1 Hg1) as [E Hg]. rewrite <-(str_app_assoc "fd"), E.
  set (addr := hex4_pad (0xfd00 + g1) +:+ ":" +:+ hex4_pad g2 +:+ ":" +:+ hex4_pad g3 +:+ ":" +:+ hex4_pad g4 +:+ tl).
  assert (str_forall is_v6_char addr = true) as Hc.
  { unfold addr. rewrite !str_forall_app, !hex4_pad_chars by done.
    by repeat apply elem_of_cons in He as [[= -> ->]|He]; [..|apply elem_of_nil in He]. }
  assert (parse_v6 addr = Some (ula g1 g2 g3 g4 * 2 ^ 64 + e)) as Hp.
  { destruct (parse_v6_prefix _ _ _ _ _ _ _ _ (hex4_pad_reads _ Hg) (hex4_pad_reads _ Hg2) (hex4_pad_reads _ Hg3)
      (hex4_pad_reads _ Hg4)) as [P0 P1].
    assert (of_groups [0xfd00 + g1; g2; g3; g4; 0; 0; 0; e] = ula g1 g2 g3 g4 * 2 ^ 64 + e) as <-.
    { unfold of_groups, ula. cbn [fold_left]. lia. }
    unfold addr. by repeat apply elem_of_cons in He as [[= -> ->]|He]; [..|apply elem_of_nil in He]. }
  assert (0 ≤ e < 2 ^ 64) as He'.
  { by repeat apply elem_of_cons in He as [[= -> ->]|He]; [..|apply elem_of_nil in He]. }
  replace (hex4_pad (0xfd00 + g1) +:+ _) with (addr +:+ String "/" "64") by (unfold addr; by rewrite !str_app_assoc).
  unfold ParseCIDR. rewrite Cut_app_char by exact (str_mem_forall _ _ _ (eq_refl : is_v6_char "/" = false) Hc).
  unfold parse_addr. rewrite addr_syntax_v6; [|done|unfold addr; rewrite str_mem_app; cbn; by rewrite orb_true_r].
  rewrite (str_mem_forall _ _ _ (eq_refl : is_v6_char "%" = false) Hc), Hp. cbn [mbind option_bind].
  change (parse_digits "64") with (Some 64). cbn [mbind option_bind]. rewrite bool_decide_eq_true_2 by done.
  do 3 f_equal. unfold mask_ip. change (128 - 64) with 64.
  by rewrite Z.div_add_l, (Z.div_small e), Z.add_0_r by (done || lia).
Qed.

Lemma ula_v6 g1 g2 g3 g4 e : 0 ≤ g1 < 256 → group_valid g2 → group_valid g3 → group_valid g4 → 0 ≤ e < 2 ^ 64 →
  let ip := ula g1 g2 g3 g4 * 2 ^ 64 + e in is_v4 ip = false ∧ ip / 2 ^ 120 = 0xfd.
Proof.
  unfold group_valid. intros. cbv zeta.
  assert (0xfd * 2 ^ 56 ≤ ula g1 g2 g3 g4 < 0xfe * 2 ^ 56) as Hu by (unfold ula; lia). split.
  - unfold is_v4. apply bool_decide_eq_false.
    assert (0xfd * 2 ^ 88 ≤ (ula g1 g2 g3 g4 * 2 ^ 64 + e) / 2 ^ 32); [apply Z.div_le_lower_bound; lia|lia].
  - symmetry. apply (Z.div_unique _ _ _ (ula g1 g2 g3 g4 * 2 ^ 64 + e - 0xfd * 2 ^ 120)); lia.
Qed.

(** The WireGuard network and the VM network made up for a new host, whatever
    the random bytes are: both are unique local /64 networks, the server's
    address is the first of the WireGuard network, and the checks of the
    configuration accept them. *)
Theorem randomNetworks_valid b :
  ∃ wg vm,
    ParseCIDR (randomNetworks b).1 = Some (wg + 1, MkIPNet wg 64 128) ∧
    ParseCIDR (randomNetworks b).2 = Some (vm, MkIPNet vm 64 128) ∧
    IPNet.Contains (MkIPNet wg 64 128) (wg + 1) = true ∧ wg / 2 ^ 120 = 0xfd ∧ vm / 2 ^ 120 = 0xfd ∧
    cidr_v6 (randomNetworks b).1 ∧ cidr_v6 (randomNetworks b).2.
Proof.
  set (g := ula (byte_at b 0) (word_at b 1) (word_at b 3) (word_at b 5) * 2 ^ 64).
  set (h := ula (byte_at b 6) (word_at b 7) (word_at b 9) (byte_at b 11 * 256) * 2 ^ 64).
  assert (group_valid (byte_at b 11 * 256)) as H11.
  { unfold group_valid. pose proof (byte_at_bound b 11). lia. }
  pose proof (ParseCIDR_prefix _ _ _ _ "::1" 1 (byte_at_bound b 0) (word_at_valid b 1) (word_at_valid b 3)
    (word_at_valid b 5) ltac:(right; left)) as P1.
  pose proof (ParseCIDR_prefix _ _ _ _ "::" 0 (byte_at_bound b 6) (word_at_valid b 7) (word_at_valid b 9)
    H11 ltac:(left)) as P2. rewrite Z.add_0_r in P2. fold g in P1. fold h in P2.
  destruct (ula_v6 _ _ _ _ 1 (byte_at_bound b 0) (word_at_valid b 1) (word_at_valid b 3) (word_at_valid b 5) ltac:(lia)) as [V1 _].
  destruct (ula_v6 _ _ _ _ 0 (byte_at_bound b 0) (word_at_valid b 1) (word_at_valid b 3) (word_at_valid b 5) ltac:(lia)) as [V0 D1].
  destruct (ula_v6 _ _ _ _ 0 (byte_at_bound b 6) (word_at_valid b 7) (word_at_valid b 9) H11 ltac:(lia)) as [V2 D2].
  rewrite Z.add_0_r in V0, D1, V2, D2. fold g in V0, V1, D1. fold h in V2, D2.
  exists g, h. unfold cidr_v6. change ((randomNetworks b).1) with ("fd" +:+ hex2 (byte_at b 0) +:+ ":" +:+ hex4_pad (word_at b 1) +:+ ":" +:+ hex4_pad (word_at b 3) +:+ ":" +:+
     hex4_pad (word_at b 5) +:+ "::1" +:+ "/64").
  change ((randomNetworks b).2) with ("fd" +:+ hex2 (byte_at b 6) +:+ ":" +:+ hex4_pad (word_at b 7) +:+ ":" +:+ hex4_pad (word_at b 9) +:+ ":" +:+
     hex4_pad (byte_at b 11 * 256) +:+ "::" +:+ "/64").
  rewrite P1, P2. split_and!; [done|done| |done|done|by eauto|by eauto].
  unfold IPNet.Contains. cbn [net_ip net_bits net_ones]. rewrite V0, V1, bool_decide_eq_true_2 by done.
  apply bool_decide_eq_true. unfold g. change (128 - 64) with 64. rewrite Z.div_add_l, Z.div_mul by done.
  change (1 / 2 ^ 64) with 0. lia.
Qed.

(** ** The endpoint *)

(** A host name, or an address without a port, gets the port: the endpoint
    splits again into the host and the port.  A host that has a port keeps it. *)
Theorem endpointForHost_splits host port :
  host ≠ "" → 0 ≤ port → str_mem "[" host = false → str_mem "]" host = false →
  (∃ h p, SplitHostPort host = Some (h, p) ∧ endpointForHost host port = host) ∨
  SplitHostPort (endpointForHost host port) = Some (host, FormatInt port).
Proof.
  intros Hne Hp Hl Hr. unfold endpointForHost, is_empty. rewrite bool_decide_eq_false_2 by done.
  destruct (SplitHostPort host) as [[h p]|] eqn:Hs; [left; by exists h, p|right].
  assert (GoStrings.Contains host ":" = str_mem ":" host) as Hc by apply Contains_char.
  assert (str_mem ":" host = true →
    SplitHostPort ("[" +:+ host +:+ "]:" +:+ FormatInt port) = Some (host, FormatInt port)) as Hb.
  { intros _. unfold SplitHostPort. change ("]:" +:+ FormatInt port) with ("]" +:+ String ":" (FormatInt port)).
    rewrite <-!str_app_assoc, CutLast_app by by apply FormatInt_no_char.
    rewrite !str_app_assoc, str_app_cons, str_app_nil_l. change ("]" +:+ ?x) with (String "]" x).
    rewrite Cut_app_char by done. rewrite bool_decide_eq_true_2 by done.
    rewrite str_mem_app, Hl. cbn [orb]. change (str_mem "[" (String "]" (String ":" (FormatInt port))))
      with (str_mem "[" (FormatInt port)). change (str_mem "]" (String ":" (FormatInt port))) with (str_mem "]" (FormatInt port)).
    by rewrite !FormatInt_no_char. }
  rewrite Hc. destruct (str_mem ":" host) eqn:E.
  - rewrite andb_true_r. specialize (Hb eq_refl). destruct (bool_decide _); [done|].
    by change ("]" +:+ ":" +:+ FormatInt port) with ("]:" +:+ FormatInt port).
  - rewrite andb_false_r. apply SplitHostPort_plain; [done..|by apply FormatInt_digits].
Qed.

(** Brackets without a port are doubled: the endpoint of an IPv6 address
    written as in a URL is no address, though [hostOnly] takes it. *)
Theorem endpointForHost_brackets :
  endpointForHost "[2001:db8::1]" 51820 = "[[2001:db8::1]]:51820" ∧
  SplitHostPort (endpointForHost "[2001:db8::1]" 51820) = None ∧
  hostOnly "[2001:db8::1]" = "2001:db8::1".
Proof. vm_compute. done. Qed.

(** ** The file *)

Section file.
Context `{FirecrackerVMM, Env, GoUnicode, GoQuote, Toml}.

(** What [InitFile] makes of the files [m]: without an error the new text is in
    place and [Load] accepts it; with one the file is as it was, or the checked
    text is there; no other file is lost. *)
Definition init_outcome (m : gmap string node) (path : string) (opts : InitOptions) (r : result unit) (w : World) : Prop :=
  ((∃ b text, InitTOML b opts = Ok text ∧ fs w !! path = Some (File text) ∧ ∃ tmp cfg, Load (λ _, Ok text) tmp = Ok cfg) ∨
   r ≠ Ok tt ∧ (∀ n, m !! path = Some n → fs w !! path = Some n) ∧
   ∀ s, fs w !! path = Some (File s) → m !! path = Some (File s)) ∧
  others_kept m path (fs w).

Lemma init_outcome_dirs m path opts e w : dirs_added m (fs w) → init_outcome m path opts (Err e) w.
Proof. intros [D1 D2]. split; [right; by auto|]. intros q n _. apply D1. Qed.

(** The text behind the temporary file, and the removal of that file. *)
Lemma init_cleanup m m1 tmp path b opts text r w :
  dirs_added m m1 → m1 !! tmp = None → tmp ≠ path → InitTOML b opts = Ok text →
  append_state m1 tmp path text r w →
  wp (attempt (os_Remove tmp) ;; mret tt) (λ _, init_outcome m path opts r) w.
Proof.
  intros [D1 D2] Ht Hne Htext Hs. eapply wp_mono; [apply remove_temp_wp|]. intros r' w' Hw'.
  assert (∀ q, q ≠ tmp → fs w' !! q = fs w !! q) as Hq.
  { intros q Hq. destruct Hw' as [-> | ->]; [done|]. by rewrite lookup_delete_ne. }
  assert (∀ q, q ≠ tmp → q ≠ path → fs w' !! q = m1 !! q) as Ho.
  { intros q Hqt Hqp. rewrite Hq by done. by destruct Hs as [[_ [c ->]]|[-> _]]; rewrite lookup_insert_ne. }
  split; [|intros q n Hqp Hn%D1; rewrite Ho; [done|congruence|done]].
  rewrite Hq by done. destruct Hs as [[Hr [c ->]]|[-> [cfg Hc]]].
  - right. rewrite lookup_insert_ne by done. auto.
  - left. exists b, text. rewrite lookup_insert_eq. by eauto.
Qed.

(** A first configuration never damages one that is there: without [-init-force]
    it is refused, and wherever the replacement fails the file is the old one or
    a new one that [Load] accepts. *)
Theorem InitFile_safe init_random path opts w :
  let file := or_text path DefaultPath in
  (∀ z, z +:+ ".tmp" ≠ file) →
  wp (InitFile init_random path opts) (λ r w',
    init_outcome (fs w) file opts r w' ∧
    (io_Force opts = false → is_Some (fs w !! file) → fs w' = fs w ∧ r ≠ Ok tt)) w.
Proof.
  intros file Hfile. unfold InitFile. fold file.
  assert (∀ e w', fs w' = fs w →
    init_outcome (fs w) file opts (Err e) w' ∧ (io_Force opts = false → is_Some (fs w !! file) → fs w' = fs w ∧ Err e ≠ Ok tt)) as Herr.
  { intros e w' E. split; [apply init_outcome_dirs; rewrite E; by split|done]. }
  apply wp_bind.
  assert (wp (if io_Force opts then mret tt else st ← attempt (os_Stat file);
     match st with Ok _ => fail (ErrOther "already exists; use -init-force to replace it")
     | Err ErrNotExist => mret tt | Err e => fail e end)
     (λ r w', fs w' = fs w ∧ (r = Ok tt → io_Force opts = true ∨ fs w !! file = None)) w) as Hst.
  { destruct (io_Force opts); [apply wp_ret; auto|]. apply wp_bind_attempt. intros st w1 E.
    pose proof (keeps_Ok fs _ _ _ _ E) as Hw1. unfold os_Stat in E. apply ext_inv in E as [[_ [f ->]]|(r0 & E & Hr)].
    { by destruct f. }
    cbn [fs bump] in E. destruct (fs w !! file) eqn:Ef; injection E as <- _.
    - destruct Hr as [->|[f ->]]; [done|by destruct f].
    - destruct Hr as [->|[f ->]]; [apply wp_ret; auto|by destruct f]. }
  eapply wp_mono; [exact Hst|]. clear Hst. intros [[]|e] w1 [Hw1 Hfree]; [|by apply Herr].
  specialize (Hfree eq_refl). apply wp_bind_gets.
  apply wp_bind_run; [|intros e w2 E; apply Herr; by rewrite (keeps_Ok fs _ _ _ _ E)].
  intros text w2 E2. pose proof (keeps_Ok fs _ _ _ _ E2) as Hw2. rewrite Hw1 in Hw2.
  apply ext_Ok in E2. injection E2 as Htext _.
  cut (wp (os_MkdirAll (path_Dir file) ;; tmpPath ← os_CreateTemp (path_Dir file) (path_Base file +:+ ".") ".tmp";
           deferring (write_checked tmpPath file text) (attempt (os_Remove tmpPath) ;; mret tt))
          (λ r, init_outcome (fs w) file opts r) w2).
  { intros Hc. eapply wp_mono; [exact Hc|]. intros r w' Ho. split; [done|]. intros Hf [n Hn].
    destruct Hfree; congruence. }
  clear Herr. rewrite <-Hw2. clear Hw1 Hw2 Hfree w.
  apply wp_bind. eapply wp_mono; [apply os_MkdirAll_wp|]. intros [[]|e] w3 Hd; [|by apply init_outcome_dirs].
  apply wp_bind. eapply wp_mono; [apply os_CreateTemp_wp|].
  intros r w4 [(tmp & Hr & Ht & Hw4 & z & Hz)|[Hr Hw4]].
  2:{ destruct r; [done|]. apply init_outcome_dirs. by rewrite Hw4. }
  assert (tmp ≠ file) as Hne by (subst tmp; apply Hfile).
  destruct r as [tmp'|e]; [destruct Hr as [[= ->]|]; [|done]|].
  - apply wp_deferring. eapply wp_mono; [by apply (write_checked_wp (fs w3))|]. intros r w5 Hs. by eapply init_cleanup.
  - destruct Hd as [D1 D2]. split; [right; split; [done|split]|].
    + intros n Hn%D1. rewrite Hw4. by rewrite lookup_insert_ne.
    + intros s. rewrite Hw4, lookup_insert_ne by done. apply D2.
    + intros q n _ Hn%D1. rewrite Hw4, lookup_insert_ne; [done|congruence].
Qed.
End file.
