(* ===== verification/RestartWake.v ===== *)
(** * The VMs of a planned restart (cmd/firedozed/main.go)

    On SIGTERM the daemon writes the names of the running VMs to a file and
    puts them to sleep; the next daemon reads the file, removes it and starts
    the VMs it names. *)

From S2P Require Import Prelude GoStrings Paths IPNet Json JsonDecode Types Store Config PrivateNet Memory.
From S2P Require Import World FileCopy Host Manager ManagerLocks ManagerDisk ManagerInvariant ManagerLifecycle.
From S2P Require Import ManagerEffects ManagerExamples Wireguard SaveFile.
Open Scope Z_scope.

Section restart.
Context `{FirecrackerVMM, Env, SparseSeek, GoUnicode, UuidLib, Timestamps}.
Context (cfg : Config).

Definition restartWakePath : string := path_Join [StateDir cfg; "restart-wake.json"].

(** The structure with the one field [vms]. *)
Definition wake_json (names : list string) : json := JObject [("vms", JArray (JString <$> names))].

Definition wake_fields : into (list string) := into_struct [("vms", into_slice "" into_string)].

Definition writeRestartWakeFile (names : list string) : M World unit :=
  let path := restartWakePath in
  match names with
  | [] =>
      r ← attempt (os_Remove path);
      match r with Err ErrNotExist => mret tt | Err e => fail e | Ok _ => mret tt end
  | _ => save_file path (MarshalIndent (wake_json names) +:+ newline)
  end.

(** [start] is [StartVMs] of the interface [restartStarter]. *)
Definition wakeRestartVMs (start : list string → M World unit) : M World unit :=
  let path := restartWakePath in
  r ← attempt (open_read path);
  match r with
  | Err ErrNotExist => mret tt
  | Err e => fail e
  | Ok data =>
      attempt (os_Remove path) ;;
      payload ← lift_result (unmarshal_into [] wake_fields data);
      match payload with [] => mret tt | _ => start payload end
  end.

(** What [serveAPI] does when it is told to stop, before it closes its server:
    neither error stops it. *)
Definition shutdown : M World unit :=
  names ← RunningVMNames;
  attempt (writeRestartWakeFile names) ;;
  attempt (SleepRunningVMs cfg) ;;
  mret tt.

(** ** The file *)

Lemma wake_roundtrip names :
  Forall (λ n, is_ascii n = true) names →
  unmarshal_into [] wake_fields (MarshalIndent (wake_json names) +:+ newline) = Ok names.
Proof.
  intros Hn. unfold unmarshal_into. rewrite Unmarshal_MarshalIndent.
  - change (wake_fields (embed (wake_json names)) []) with
      (a ← into_elements "" into_string (embed <$> (JString <$> names)) []; into_fields [("vms", into_slice "" into_string)] [] a).
    by rewrite into_elements_strings.
  - cbn [fits wake_json forallb fst snd]. rewrite andb_true_r, !andb_true_iff. split_and!; [done..|].
    apply forallb_forall. intros v Hv%list_elem_of_In. apply list_elem_of_fmap in Hv as (n & -> & Hin).
    rewrite Forall_forall in Hn. by apply Hn.
Qed.

Lemma restartWakePath_json : ∃ x, restartWakePath = x +:+ "restart-wake.json".
Proof.
  unfold restartWakePath, path_Join. destruct (decide (StateDir cfg = "")) as [->|Hne].
  - exists "". by vm_compute.
  - rewrite filter_cons_True by done. by apply Clean_last.
Qed.

(** The file's name sets it apart from every file of a VM that a sleep writes
    or removes. *)
Lemma wake_path_ne x (c : ascii) : c ≠ "n"%char → x +:+ String c "" ≠ restartWakePath.
Proof.
  intros Hc. destruct restartWakePath_json as [y ->]. change "restart-wake.json" with ("restart-wake.jso" +:+ "n").
  rewrite <-str_app_assoc. intros E%last_char_inj. done.
Qed.

(** A path ends as its last element does. *)
Lemma joined_last d p c : str_mem "/" (p +:+ String c "") = false → p +:+ String c "" ≠ "." → p +:+ String c "" ≠ ".." →
  ∃ x, path_Join [d; p +:+ String c ""] = x +:+ String c "".
Proof.
  intros Hs Hd1 Hd2. assert (p +:+ String c "" ≠ "") as Hne by by intros [_ ?]%str_app_eq_nil.
  assert (∃ x, path_Join [d; p +:+ String c ""] = x +:+ (p +:+ String c "")) as [x ->].
  2:{ exists (x +:+ p). by rewrite str_app_assoc. }
  unfold path_Join. destruct (decide (d = "")) as [->|Hd].
  - rewrite filter_cons_False by naive_solver. rewrite filter_cons_True by done. by apply Clean_base.
  - rewrite !filter_cons_True by done. by apply Clean_last.
Qed.

#[local] Abbreviation lay := (layout_of cfg).

Lemma vm_paths_differ name :
  socketPath (lay name) ≠ restartWakePath ∧ sleepStatePath (lay name) ≠ restartWakePath ∧
  sleepMemPath (lay name) ≠ restartWakePath.
Proof.
  split_and!.
  - destruct (joined_last (runtimeDir (lay name)) "firecracker.soc" "k") as [x E]; [done..|].
    change (socketPath (lay name)) with (path_Join [runtimeDir (lay name); "firecracker.sock"]).
    change "firecracker.sock" with ("firecracker.soc" +:+ "k"). rewrite E. by apply wake_path_ne.
  - destruct (joined_last (sleepDir (lay name)) "vmstat" "e") as [x E]; [done..|].
    change (sleepStatePath (lay name)) with (path_Join [sleepDir (lay name); "vmstate"]).
    change "vmstate" with ("vmstat" +:+ "e"). rewrite E. by apply wake_path_ne.
  - destruct (joined_last (sleepDir (lay name)) "memor" "y") as [x E]; [done..|].
    change (sleepMemPath (lay name)) with (path_Join [sleepDir (lay name); "memory"]).
    change "memory" with ("memor" +:+ "y"). rewrite E. by apply wake_path_ne.
Qed.

(** ** The file survives the sleep and the restart *)

(** The processes use the sockets of VMs, and the file is there. *)
Definition recorded (n : node) (w : World) : Prop :=
  map_Forall (λ _ p, pr_SocketPath p ≠ restartWakePath) (running w) ∧ fs w !! restartWakePath = Some n.

Definition parts (w : World) := (running w, fs w !! restartWakePath).

Lemma no_at_parts q : q ≠ restartWakePath → NoAt q parts.
Proof. intros Hq g w Hg. unfold parts. cbn [running fs set_fs]. by rewrite Hg. Qed.

Lemma recorded_keeps {A} n (m : M World A) : Keeps parts m → Pres (recorded n) m.
Proof. intros Hk w Hw. specialize (Hk w). unfold parts in Hk. unfold recorded in *. by injection Hk as -> ->. Qed.

#[local] Instance recorded_keeps_instance {A} n (m : M World A) : Keeps parts m → Pres (recorded n) m | 5 := recorded_keeps n m.

Lemma recorded_MkdirAll n d : Pres (recorded n) (os_MkdirAll d).
Proof.
  intros w [Hr Hf]. destruct (os_MkdirAll d w) as [r w'] eqn:E. cbn [snd]. split.
  - by rewrite (keeps_Ok running _ _ _ _ E).
  - by eapply os_MkdirAll_some.
Qed.

Lemma recorded_cleanup n proc : pr_SocketPath proc ≠ restartWakePath → Pres (recorded n) (cleanupAfterExit proc).
Proof.
  intros Hp. pose proof (no_at_parts _ Hp) as Hn. unfold cleanupAfterExit, cleanupNetwork. apply recorded_keeps. apply _.
Qed.

Lemma recorded_running n (f : gmap string Process → gmap string Process) :
  (∀ m, map_Forall (λ _ p, pr_SocketPath p ≠ restartWakePath) m →
        map_Forall (λ _ p, pr_SocketPath p ≠ restartWakePath) (f m)) →
  Pres (recorded n) (modify (set_running f)).
Proof. intros Hf w [Hr Hx]. split; [by apply Hf|done]. Qed.

Lemma recorded_exited n u : Pres (recorded n) (process_exited u).
Proof.
  intros w Hw. unfold process_exited. unfold mbind at 1, M_mbind at 1, gets at 1.
  destruct (running w !! u) as [proc|] eqn:Hr; [|done]. cbv zeta.
  pose proof (recorded_cleanup n proc (proj1 Hw _ _ Hr)) as Hc.
  assert (Pres (recorded n) (modify (set_running (delete u)))) as Hd.
  { apply recorded_running. intros m Hm. by apply map_Forall_delete. }
  match goal with |- recorded n (?m w).2 => assert (Pres (recorded n) m) as Hm by apply _ end. by apply Hm.
Qed.

Lemma recorded_ext {A} n (m : M World A) : Pres (recorded n) m → Pres (recorded n) (ext m).
Proof. intros Hm w Hw. unfold ext. destruct (fate (tick w)); cbn [snd]; [apply Hm|..|apply Hm]; apply Hw. Qed.

Lemma recorded_stop n proc st : pr_SocketPath proc ≠ restartWakePath → Pres (recorded n) (stopProcess proc st).
Proof.
  intros Hp. pose proof (recorded_cleanup n proc Hp) as Hc. pose proof (recorded_exited n (pr_UUID proc)) as He.
  unfold stopProcess, waitForProcessExit. apply pres_bind; [|intros _].
  { apply recorded_running. intros m Hm k p Hk. apply lookup_alter_Some in Hk as [(<- & p' & Hk & ->)|[_ Hk]].
    - by apply (Hm _ _ Hk).
    - by apply (Hm _ _ Hk). }
  apply pres_bind; [apply _|intros _]. apply pres_bind; [|intros _; apply Hc].
  apply pres_bind; [apply _|intros run]. apply pres_if; [|apply _]. apply recorded_ext. apply _.
Qed.

Lemma recorded_snapshot n sock name :
  Pres (recorded n) (firecrackerCreateSnapshot sock (sleepStatePath (lay name)) (sleepMemPath (lay name))).
Proof.
  destruct (vm_paths_differ name) as (_ & P2 & P3).
  pose proof (no_at_parts _ P2) as N2. pose proof (no_at_parts _ P3) as N3.
  unfold firecrackerCreateSnapshot, os_WriteFile. apply recorded_keeps. apply _.
Qed.

Lemma recorded_SleepVM n u : Pres (recorded n) (SleepVM cfg u).
Proof.
  unfold SleepVM. apply pres_bind; [apply _|intros vm]. intros w Hw. unfold mbind at 1, M_mbind at 1, gets at 1.
  destruct (running w !! u) as [proc|] eqn:Hr; [|by case_bool_decide]. cbv zeta.
  pose proof (recorded_stop n proc "sleeping" (proj1 Hw _ _ Hr)) as Hs.
  pose proof (recorded_MkdirAll n (sleepDir (lay (vm_Name vm)))) as Hm.
  pose proof (recorded_snapshot n (pr_SocketPath proc) (vm_Name vm)) as Hc.
  match goal with |- recorded n (?m w).2 => assert (Pres (recorded n) m) as Hp by apply _ end. by apply Hp.
Qed.

Lemma recorded_SleepRunning n : Pres (recorded n) (SleepRunningVMs cfg).
Proof.
  unfold SleepRunningVMs, RunningVMNames, join_errors. apply pres_bind; [apply _|intros names].
  apply pres_bind; [|intros [|e l]; apply _].
  induction names as [|name names IH]; cbn [sleep_loop]; [apply _|].
  pose proof (recorded_SleepVM n) as Hs. apply _.
Qed.

Lemma recorded_restarted n : Pres (recorded n) restarted.
Proof.
  unfold restarted, ReconcileStartup, join_errors. apply pres_bind; [by intros w [_ Hf]|intros _].
  apply pres_bind; [apply _|intros l]. apply pres_bind; [|intros [|e es]; apply _].
  induction l as [|vm l IH]; cbn [reconcile_loop]; apply _.
Qed.

(** ** The restart *)

Lemma wake_not_temp z : z +:+ ".tmp" ≠ restartWakePath.
Proof. change ".tmp" with (".tm" +:+ "p"). rewrite <-str_app_assoc. by apply wake_path_ne. Qed.

Lemma write_recorded names w w' :
  sound cfg (db w) (running w) → names ≠ [] → writeRestartWakeFile names w = (Ok tt, w') →
  recorded (File (MarshalIndent (wake_json names) +:+ newline)) w' ∧ running w' = running w.
Proof.
  intros Hs Hne E. assert (Keeps running (writeRestartWakeFile names)) as Hk.
  { unfold writeRestartWakeFile, save_file, write_via_temp, save_body. destruct names; apply _. }
  apply (keeps_Ok running) in E as Hr; [|done]. split; [|done]. split.
  - rewrite Hr. intros u p Hp. destruct (so_proc _ _ _ Hs u p Hp) as (vm & _ & _ & _ & -> & _). apply vm_paths_differ.
  - destruct names as [|name names]; [done|]. unfold writeRestartWakeFile in E.
    pose proof (save_file_wp restartWakePath (MarshalIndent (wake_json (name :: names)) +:+ newline) w wake_not_temp) as Hw.
    unfold wp in Hw. rewrite E in Hw. by destruct Hw as [[?|[[=] _]] _].
Qed.

(** Nothing to wake: the file is gone, and stays away. *)
Lemma write_nothing w w' : writeRestartWakeFile [] w = (Ok tt, w') → fs w' !! restartWakePath = None ∧ running w' = running w.
Proof.
  unfold writeRestartWakeFile. intros E. apply bind_Ok in E as (r & w1 & E1%attempt_Ok & E).
  pose proof (keeps_Ok running _ _ _ _ E1) as Hr. split; [|destruct r as [[]|[]]; try done; by injection E as <-].
  apply ext_inv in E1 as [[-> [f ->]]|(r0 & E1 & Hr0)]; [by destruct f|]. cbn [fs bump] in E1.
  destruct (fs w !! restartWakePath) as [[]|] eqn:Hp; [destruct (dir_empty _ _)|..]; injection E1 as <- <-.
  all: destruct Hr0 as [->|[f ->]]; try (by destruct f); try done; injection E as <-; cbn [fs set_fs bump]; try done;
    apply lookup_delete_eq.
Qed.

Lemma gone_kept : Keeps (λ w, fs w !! restartWakePath) restarted.
Proof.
  unfold restarted, ReconcileStartup, join_errors. apply keeps_bind; [by intros w|intros _].
  apply keeps_bind; [apply _|intros l]. apply keeps_bind; [|intros [|e es]; apply _].
  induction l as [|vm l IH]; cbn [reconcile_loop]; apply _.
Qed.

Lemma wake_reads names w :
  Forall (λ n, is_ascii n = true) names → names ≠ [] →
  fs w !! restartWakePath = Some (File (MarshalIndent (wake_json names) +:+ newline)) → fate (tick w) = Proceed →
  ∃ w', db w' = db w ∧ running w' = running w ∧ vmms w' = vmms w ∧
    (∀ q, q ≠ restartWakePath → fs w' !! q = fs w !! q) ∧
    (fate (S (tick w)) = Proceed → fs w' !! restartWakePath = None) ∧
    ∀ start, wakeRestartVMs start w = start names w'.
Proof.
  intros Hn Hne Hf Hp. exists (os_Remove restartWakePath (bump w)).2.
  assert (∀ B (f : World → B), NoTick f → NoAt restartWakePath f →
    f (os_Remove restartWakePath (bump w)).2 = f w) as Hk.
  { intros B f Ht Ha. assert (Keeps f (os_Remove restartWakePath)) as Hk by apply _. rewrite (Hk (bump w)). apply Ht. }
  split_and!.
  - by apply (Hk _ db); apply _.
  - by apply (Hk _ running); apply _.
  - by apply (Hk _ vmms); apply _.
  - intros q Hq. pose proof (no_at_ne restartWakePath q Hq) as Ha. by apply (Hk _ (λ w, fs w !! q)); apply _.
  - intros Hp'. unfold os_Remove. rewrite ext_proceed by done. cbn [fs bump]. rewrite Hf. apply lookup_delete_eq.
  - intros start. unfold wakeRestartVMs. unfold mbind at 1, M_mbind at 1, attempt at 1, open_read.
    rewrite ext_proceed by done. cbn [fs bump]. rewrite Hf. unfold mbind at 1, M_mbind at 1, attempt at 1.
    destruct (os_Remove restartWakePath (bump w)) as [r w']. cbn [snd].
    rewrite wake_roundtrip by done. unfold mbind, M_mbind, lift_result. by destruct names.
Qed.

(** The next daemon, from its manager to the VMs it wakes: it exits when the
    reconciliation fails; an error of the wake-up is logged. *)
Definition next_daemon (start : list string → M World unit) : M World unit :=
  restarted ;; attempt (wakeRestartVMs start) ;; mret tt.

(** The list, once written, outlives the shutdown and the reconciliation. *)
Lemma list_outlives w names :
  sound cfg (db w) (running w) → RunningVMNames w = (Ok names, w) →
  is_ok (writeRestartWakeFile names w).1 = true →
  fs (restarted (shutdown w).2).2 !! restartWakePath =
    match names with [] => None | _ => Some (File (MarshalIndent (wake_json names) +:+ newline)) end.
Proof.
  intros Hs En Hw. destruct (writeRestartWakeFile names w) as [[[]|e] wa] eqn:Ewa; [|done].
  assert ((shutdown w).2 = (SleepRunningVMs cfg wa).2) as ->.
  { unfold shutdown, mbind at 1, M_mbind at 1. rewrite En. unfold mbind, M_mbind, attempt. rewrite Ewa.
    by destruct (SleepRunningVMs cfg wa). }
  destruct names as [|name names].
  - destruct (write_nothing _ _ Ewa) as [Hgone Hrun]. rewrite (gone_kept _).
    assert ((SleepRunningVMs cfg wa).2 = wa) as ->; [|done]. unfold SleepRunningVMs, mbind, M_mbind.
    assert (RunningVMNames wa = (Ok [], wa)) as ->; [|done]. unfold RunningVMNames, gets in *. rewrite Hrun. congruence.
  - refine (proj2 (_ : recorded _ _)). apply recorded_restarted, recorded_SleepRunning. by eapply write_recorded.
Qed.

(** C13. A planned restart wakes what it put to sleep.  Let the list of VMs have
    been written when the daemon was told to stop.  Then, whatever becomes of
    putting the VMs to sleep: if the next daemon's reconciliation fails, that
    daemon exits, wakes nothing and leaves the list for the one after it; if it
    succeeds and the list can be read, the daemon calls [StartVMs] once, with
    the names of exactly the VMs that were running, in order, and goes on
    whatever comes of it; the list is gone by then unless its removal, which is
    only logged, failed.  No VM is started when none was running. *)
Theorem planned_restart w names :
  sound cfg (db w) (running w) → RunningVMNames w = (Ok names, w) → Forall (λ n, is_ascii n = true) names →
  is_ok (writeRestartWakeFile names w).1 = true →
  let w1 := (shutdown w).2 in
  let w2 := (restarted w1).2 in
  match (restarted w1).1 with
  | Err e => (∀ start, next_daemon start w1 = (Err e, w2)) ∧
      (names ≠ [] → fs w2 !! restartWakePath = Some (File (MarshalIndent (wake_json names) +:+ newline)))
  | Ok _ =>
      fate (tick w2) = Proceed →
      match names with
      | [] => ∀ start, next_daemon start w1 = (Ok tt, bump w2)
      | _ => ∃ w3, db w3 = db w2 ∧ running w3 = running w2 ∧ vmms w3 = vmms w2 ∧
          (∀ q, q ≠ restartWakePath → fs w3 !! q = fs w2 !! q) ∧
          (fate (S (tick w2)) = Proceed → fs w3 !! restartWakePath = None) ∧
          ∀ start, next_daemon start w1 = (Ok tt, (start names w3).2)
      end
  end.
Proof.
  intros Hs En Ha Hw w1 w2. pose proof (list_outlives w names Hs En Hw) as Hlist. fold w1 in Hlist.
  assert (∀ start, next_daemon start w1 =
    match (restarted w1).1 with Ok _ => (Ok tt, (wakeRestartVMs start w2).2) | Err e => (Err e, w2) end) as Hnext.
  { intros start. unfold next_daemon, w2, mbind, M_mbind, attempt. destruct (restarted w1) as [[[]|e] v]; [|done].
    cbn. by destruct (wakeRestartVMs start v). }
  fold w2 in Hlist. destruct (restarted w1).1 as [[]|e]; [|split; [done|]; by destruct names].
  intros Hp. destruct names as [|name names].
  - intros start. rewrite Hnext. unfold wakeRestartVMs, mbind, M_mbind, attempt, open_read. rewrite ext_proceed by done.
    cbn [fs bump]. by rewrite Hlist.
  - destruct (wake_reads (name :: names) w2 Ha ltac:(done) Hlist Hp) as (w3 & ? & ? & ? & ? & ? & Hst).
    exists w3. split_and!; try done. intros start. by rewrite Hnext, Hst.
Qed.
End restart.

(** ** Witness: a running VM through a planned restart *)

Definition busy_world : @World toy_vmm := (start (create host_world).2).2.
Definition example_shutdown := @shutdown toy_vmm calm decimal_stamps cold_config.
Definition example_restarted := @restarted toy_vmm calm decimal_stamps.
Definition example_wake := @wakeRestartVMs toy_vmm calm cold_config
  (@StartVMs toy_vmm calm dense_seek ascii_only decimal_stamps cold_config None "script").
Definition after_restart : @World toy_vmm := (example_restarted (example_shutdown busy_world).2).2.

Lemma planned_restart_witness :
  (vm_State <$> vms (db after_restart) !! web_uuid = Some "sleeping") ∧
  (vm_State <$> vms (db (example_wake after_restart).2) !! web_uuid = Some "running") ∧
  ∃ w3, db w3 = db after_restart ∧ fs w3 !! restartWakePath cold_config = None ∧
    ∀ start, @next_daemon toy_vmm calm decimal_stamps cold_config start (example_shutdown busy_world).2 =
      (Ok tt, (start ["web"] w3).2).
Proof.
  split; [vm_compute; reflexivity|]. split; [vm_compute; reflexivity|].
  pose proof (@planned_restart toy_vmm calm decimal_stamps cold_config busy_world ["web"]
    (proj1 (start_inv _ created_inv)) ltac:(vm_compute; reflexivity) ltac:(repeat constructor)
    ltac:(vm_compute; reflexivity)) as Hp. cbv zeta in Hp.
  assert ((@restarted toy_vmm calm decimal_stamps
    (@shutdown toy_vmm calm decimal_stamps cold_config busy_world).2).1 = Ok tt) as Hok by (vm_compute; reflexivity).
  rewrite Hok in Hp. destruct (Hp eq_refl) as (w3 & Hdb & _ & _ & _ & Hgone & Hw).
  exists w3. split; [exact Hdb|]. split; [exact (Hgone eq_refl)|exact Hw].
Defined.
