(* ===== verification/Api.v ===== *)
(** * The HTTP API (internal/api/server.go, internal/api/guest.go)

    The control server of the daemon and the memory endpoint of its guests: the
    routes, the checks of each request, the calls they make and the status of
    the answer.  A request is given by its method, the decoded segments of its
    path, the values of the query parameter [name] and its body; decoding a body
    into a handler's structure is encoding/json's: the class [ApiJSON]. *)

From S2P Require Import Prelude GoStrings Paths IPNet Json Types Store Config PrivateNet Memory.
From S2P Require Import World FileCopy Host Manager SnapshotBundle Usage Wireguard.
Open Scope Z_scope.

(** ** Names *)

Definition is_lower (c : ascii) : bool := bool_decide (97 ≤ ascii_code c ≤ 122).
Definition is_upper (c : ascii) : bool := bool_decide (65 ≤ ascii_code c ≤ 90).
Definition label_end (c : ascii) : bool := is_lower c || is_digit c.
Definition label_char (c : ascii) : bool := label_end c || bool_decide (c = "-"%char).
Definition snapshot_start (c : ascii) : bool := is_upper c || is_lower c || is_digit c.
Definition snapshot_char (c : ascii) : bool :=
  snapshot_start c || bool_decide (c = "."%char ∨ c = "_"%char ∨ c = "-"%char).

Fixpoint last_char (s : string) : option ascii :=
  match s with "" => None | String c "" => Some c | String _ s' => last_char s' end.

(** ^[a-z0-9]([a-z0-9-]{0,61}[a-z0-9])?$ *)
Definition validDNSLabel (name : string) : bool :=
  match name with
  | "" => false
  | String c rest =>
      label_end c &&
      match last_char rest with
      | None => true
      | Some d => str_forall label_char rest && label_end d && bool_decide (String.length rest ≤ 62)%nat
      end
  end.

(** ^[A-Za-z0-9][A-Za-z0-9._-]{0,127}$ *)
Definition validSnapshotName (name : string) : bool :=
  match name with
  | "" => false
  | String c rest => snapshot_start c && str_forall snapshot_char rest && bool_decide (String.length rest ≤ 127)%nat
  end.

Definition validVMName `{UuidLib} (name : string) : bool :=
  if negb (validDNSLabel name) then false else negb (uuid_Parse_ok name).

Definition validRouteName (name : string) : bool := forallb validDNSLabel (Split name ".").

(** ** Requests and answers *)

(** The bodies of POST /vms and of a restore, which differ in the name of their
    first field. *)
Record vm_request := MkVMRequest {
  vr_Name : string;
  vr_VCPUs : Z;
  vr_MemoryMinMiB : Z;
  vr_MemoryMaxMiB : Z;
  vr_DiskBytes : Z;
  vr_DefaultHTTPPort : Z;
  vr_IdleSleepAfterSeconds : Z;
  vr_AutoWake : option bool;
  vr_PublicHTTP : bool;
}.
Record route_request := MkRouteRequest { rr_Name : string; rr_VMUUID : string; rr_Port : Z }.
Record signed_url_request := MkSignedURLRequest { sr_Hostname : string; sr_TTLSeconds : Z }.
Record snapshot_request := MkSnapshotRequest { ss_Name : string; ss_VMUUID : string }.
Record memory_hint := MkMemoryHint { mh_TargetMiB : option Z; mh_Report : GuestMemoryReport }.

Class ApiJSON := {
  decode_create : string → result vm_request;
  decode_restore : string → result vm_request;
  decode_settings : string → result UpdateVMParams;
  decode_route : string → result route_request;
  decode_hostname : string → result string;
  decode_signed_url : string → result signed_url_request;
  decode_snapshot : string → result snapshot_request;
  decode_memory_hint : string → result memory_hint;
}.

Record vmInfo := MkVMInfo { vi_VM : VM; vi_Hostname : string; vi_SSH : string; vi_URLs : list (string * string) }.
Record routeInfo := MkRouteInfo { ri_Route : Route; ri_Hostname : string; ri_URL : string }.

(** What [writeJSON] encodes, and the bytes of an export. *)
Inductive payload :=
  | PError (e : error)
  | PText (fields : list (string * string))
  | PJson (v : json)
  | PVM (vm : vmInfo)
  | PVMs (vms : list vmInfo)
  | PRoute (r : routeInfo)
  | PRoutes (rs : list routeInfo)
  | PSnapshot (s : Snapshot)
  | PSnapshots (ss : list Snapshot)
  | PBaseImage (md : BaseImageMetadata)
  | PUsage (u : VMResourceUsage)
  | PUsages (us : list VMResourceUsage)
  | PSignedURL (hostname url : string) (ttl : Z)
  | PMemory (u : MemoryHotplugUsage)
  | PPeers (ps : list (string * list string))
  | PBundle (bytes : string)
  | PBroken (e : error).          (* a bundle cut short, the JSON of the error behind it *)

Record response := MkResponse { rs_Status : Z; rs_Body : payload }.

Definition StatusOK : Z := 200.
Definition StatusCreated : Z := 201.
Definition StatusBadRequest : Z := 400.
Definition StatusForbidden : Z := 403.
Definition StatusNotFound : Z := 404.
Definition StatusMethodNotAllowed : Z := 405.
Definition StatusConflict : Z := 409.
Definition StatusInternalServerError : Z := 500.

Definition writeJSON `{FirecrackerVMM} (status : Z) (v : payload) : M World response := mret (MkResponse status v).
Definition writeError `{FirecrackerVMM} (status : Z) (e : error) : M World response := writeJSON status (PError e).

(** A call whose error becomes the answer, with a status that depends on it. *)
Definition or_error `{FirecrackerVMM} {A} (m : M World A) (status : error → Z) (k : A → M World response)
    : M World response :=
  r ← attempt m;
  match r with Err e => writeError (status e) e | Ok a => k a end.

(** The body, decoded, or 400. *)
Definition decoded `{FirecrackerVMM} {A} (body : result A) (k : A → M World response) : M World response :=
  match body with Err e => writeError StatusBadRequest e | Ok a => k a end.

(** [if cond { writeError(status, msg); return }]. *)
Definition refuse `{FirecrackerVMM} (b : bool) (status : Z) (e : error) (k : M World response) : M World response :=
  if b then writeError status e else k.

(** The status of an error: 404 for [ErrNotFound], and 409 for those listed. *)
Definition found_or (conflicts : list error) (e : error) : Z :=
  if bool_decide (e = ErrNotFound) then StatusNotFound
  else if bool_decide (e ∈ conflicts) then StatusConflict
  else StatusInternalServerError.

(** The signer of sign-in URLs: RouteAuthSigner. *)
Class RouteAuthSigner `{FirecrackerVMM} := SignedURL : string → Z → M World string.

Section server.
Context `{FirecrackerVMM, Env, SparseSeek, GoUnicode, UuidLib, Timestamps}.
Context `{Kernel, BundleCodec, GoQuote, WgTypes, ApiJSON, !RouteAuthSigner}.
Context (cfg : Config) (vmsDir : option string) (NetworkScript : string).
(** The proxy to notify, if there is one. *)
Context (proxy : option (M World unit)).

Definition reconcileProxy : M World unit :=
  match proxy with None => mret tt | Some reconcile => reconcile end.

Definition defaultHostname (name : string) : string := name +:+ "." +:+ TrimSuffix (BaseDomain cfg) ".".

Definition publicURL (hostname : string) : string :=
  if bool_decide (cd_HTTPSPort (Caddy cfg) = 443) then "https://" +:+ hostname
  else "https://" +:+ JoinHostPort hostname (FormatInt (cd_HTTPSPort (Caddy cfg))).

Definition with_idle (n : Z) (vm : VM) : VM :=
  MkVM (vm_UUID vm) (vm_Name vm) (vm_State vm) (vm_PrivateIP vm) (vm_VCPUs vm) (vm_MemoryMinMiB vm)
    (vm_MemoryMaxMiB vm) (vm_DiskBytes vm) (vm_DefaultHTTPPort vm) n (vm_LastStartedAt vm)
    (vm_LastActivityAt vm) (vm_StoppedAt vm) (vm_ArchivedDiskPath vm) (vm_BaseImageID vm) (vm_KernelID vm)
    (vm_BaseImageMetadata vm) (vm_AutoWake vm) (vm_PublicHTTP vm).

Definition vm_info (vm : VM) : vmInfo :=
  let hostname := defaultHostname (vm_Name vm) in
  let vm := if bool_decide (vm_IdleSleepAfterSeconds vm = 0)
            then with_idle (idle_DefaultSleepAfterSeconds (Idle cfg)) vm else vm in
  MkVMInfo vm hostname ("ssh " +:+ ssh_User (SSH cfg) +:+ "@" +:+ hostname) [("default", publicURL hostname)].
Definition vmInfos (vms : list VM) : list vmInfo := vm_info <$> vms.

Definition route_info (route : Route) : routeInfo :=
  let hostname := defaultHostname (rt_Name route) in MkRouteInfo route hostname (publicURL hostname).
Definition routeInfos (routes : list Route) : list routeInfo := route_info <$> routes.

Definition hostname_forbidden : string :=
  "/\: " +:+ String (ascii_of_nat 9) (String (ascii_of_nat 13) (String (ascii_of_nat 10) "")).

Definition normalizeRouteAuthHostname (hostname : string) : result string :=
  let hostname := NormalizeHostname hostname in
  let base := NormalizeHostname (BaseDomain cfg) in
  if is_empty hostname then Err (ErrOther "hostname is required") else
  if ContainsAny hostname hostname_forbidden then Err (ErrOther "hostname must be a hostname, not a URL") else
  if negb (bool_decide (hostname = base)) && negb (HasSuffix hostname ("." +:+ base))
  then Err (ErrOther "hostname must be a subdomain of the base domain") else Ok hostname.

(** The end of a handler that changes what Caddy must serve. *)
Definition reconciled (status : Z) (v : payload) : M World response :=
  or_error reconcileProxy (λ _, StatusInternalServerError) (λ _, writeJSON status v).

(** ** Virtual machines *)

Definition create_params (req : vm_request) : CreateVMParams :=
  MkCreateVMParams (vr_Name req) "" (vr_VCPUs req) (vr_MemoryMinMiB req) (vr_MemoryMaxMiB req)
    (vr_DiskBytes req) (vr_DefaultHTTPPort req) (vr_IdleSleepAfterSeconds req) "" "" ""
    (default false (vr_AutoWake req)) (bool_decide (is_Some (vr_AutoWake req))) (vr_PublicHTTP req).

Definition handleWarmBaseImage : M World response :=
  or_error (WarmBaseImageMetadata cfg) (λ _, StatusInternalServerError) (λ md, writeJSON StatusOK (PBaseImage md)).

Definition handleHealth : M World response := writeJSON StatusOK (PText [("status", "ok")]).

Definition handleListUsage (names : list string) : M World response :=
  or_error (ListVMResourceUsage cfg names) (λ _, StatusInternalServerError) (λ us, writeJSON StatusOK (PUsages us)).

Definition handleListVMs (names : list string) : M World response :=
  or_error (dbcall (Store.ListVMsMatching names)) (λ _, StatusInternalServerError)
    (λ vms, writeJSON StatusOK (PVMs (vmInfos vms))).

Definition handleGetVMUsage (vmUUID : string) : M World response :=
  or_error (VMResourceUsage_of cfg vmUUID) (found_or []) (λ u, writeJSON StatusOK (PUsage u)).

Definition handleGetVM (vmUUID : string) : M World response :=
  or_error (dbcall (Store.GetVM vmUUID)) (found_or [ErrUnsupportedSnapshotExport])
    (λ vm, writeJSON StatusOK (PVM (vm_info vm))).

Definition handleGetVMByName (name : string) : M World response :=
  or_error (dbcall (Store.GetVMByName name)) (found_or [ErrUnsupportedSnapshotExport])
    (λ vm, writeJSON StatusOK (PVM (vm_info vm))).

Definition handleCreateVM (body : string) : M World response :=
  decoded (decode_create body) (λ req,
  refuse (negb (validVMName (vr_Name req))) StatusBadRequest
    (ErrOther "name must be DNS-safe and must not be UUID-shaped")
  (or_error (CreateVM cfg (create_params req)) (λ _, StatusConflict)
  (λ vm, reconciled StatusCreated (PVM (vm_info vm))))).

Definition handleStartVM (vmUUID : string) : M World response :=
  or_error (StartVM cfg vmsDir NetworkScript vmUUID) (found_or [ErrAlreadyRunning])
    (λ vm, reconciled StatusOK (PVM (vm_info vm))).

Definition handleTouchVMActivity (vmUUID : string) : M World response :=
  or_error (dbcall (Store.GetVM vmUUID)) (found_or []) (λ vm,
  refuse (negb (bool_decide (vm_State vm = "running"))) StatusConflict ErrNotRunning
  (or_error (now ← db_now; dbcall (Store.TouchVMActivity now vmUUID)) (found_or []) (λ _,
  or_error (dbcall (Store.GetVM vmUUID)) (λ _, StatusInternalServerError) (λ vm,
  writeJSON StatusOK (PVM (vm_info vm)))))).

Definition handleUpdateVMSettings (vmUUID body : string) : M World response :=
  decoded (decode_settings body) (λ req,
  or_error (UpdateVM vmUUID req) (λ e, if bool_decide (e = ErrNotFound) then StatusNotFound else StatusBadRequest)
  (λ vm, reconciled StatusOK (PVM (vm_info vm)))).

Definition handleDeleteVM (vmUUID : string) : M World response :=
  or_error (DeleteVM cfg vmUUID) (found_or []) (λ _, reconciled StatusOK (PText [("status", "deleted")])).

Definition handleStopVM (vmUUID : string) : M World response :=
  or_error (StopVM vmUUID) (found_or []) (λ _, reconciled StatusOK (PText [("status", "stopped")])).

Definition handleSleepVM (vmUUID : string) : M World response :=
  or_error (SleepVM cfg vmUUID) (found_or [ErrNotRunning]) (λ vm, reconciled StatusOK (PVM (vm_info vm))).

Definition handleRebootVM (vmUUID : string) : M World response :=
  or_error (RebootVM cfg vmsDir NetworkScript vmUUID) (found_or [ErrAlreadyRunning])
    (λ vm, reconciled StatusOK (PVM (vm_info vm))).

(** ** Routes *)

Definition handleListRoutes : M World response :=
  or_error (dbcall Store.ListRoutes) (λ _, StatusInternalServerError)
    (λ rs, writeJSON StatusOK (PRoutes (routeInfos rs))).

Definition handleCreateRoute (body : string) : M World response :=
  decoded (decode_route body) (λ req,
  refuse (negb (validRouteName (rr_Name req))) StatusBadRequest
    (ErrOther "route name must be one or more lowercase DNS labels separated by dots") (
  refuse (is_empty (rr_VMUUID req)) StatusBadRequest (ErrOther "vm_uuid is required") (
  refuse (bad_port (rr_Port req)) StatusBadRequest (ErrOther "port must be between 1 and 65535") (
  or_error (dbcall (Store.VMExists (rr_Name req))) (λ _, StatusInternalServerError) (λ reserved,
  refuse reserved StatusConflict (ErrOther "route name is reserved by a VM default hostname") (
  or_error (dbcall (Store.CreateRoute (MkCreateRouteParams (rr_Name req) (rr_VMUUID req) (rr_Port req) false)))
    (λ _, StatusConflict)
    (λ route, reconciled StatusCreated (PRoute (route_info route))))))))).

Definition handleDeleteRoute (name : string) : M World response :=
  or_error (dbcall (Store.DeleteRoute name)) (found_or []) (λ _, reconciled StatusOK (PText [("status", "deleted")])).

Definition handleProtectRoute (body : string) : M World response :=
  decoded (decode_hostname body) (λ raw,
  decoded (normalizeRouteAuthHostname raw) (λ hostname,
  or_error (dbcall (Store.ProtectRouteHostname hostname)) (λ _, StatusInternalServerError) (λ _,
  reconciled StatusOK (PText [("hostname", hostname); ("status", "protected")])))).

Definition handleUnprotectRoute (raw : string) : M World response :=
  decoded (normalizeRouteAuthHostname raw) (λ hostname,
  or_error (dbcall (Store.UnprotectRouteHostname hostname)) (λ _, StatusInternalServerError) (λ _,
  reconciled StatusOK (PText [("hostname", hostname); ("status", "unprotected")]))).

(** [int(ttl.Seconds())] of a duration of whole seconds; the multiplication is
    64 bits wide. *)
Definition handleRouteSignedURL (body : string) : M World response :=
  decoded (decode_signed_url body) (λ req,
  decoded (normalizeRouteAuthHostname (sr_Hostname req)) (λ hostname,
  let seconds := if bool_decide (sr_TTLSeconds req = 0) then 24 * 60 * 60 else sr_TTLSeconds req in
  refuse (bool_decide (seconds < 0)) StatusBadRequest (ErrOther "ttl_seconds must be positive") (
  let ttl := wrap64 (seconds * 1000000000) in
  or_error (SignedURL hostname ttl) (λ _, StatusInternalServerError) (λ url,
  writeJSON StatusOK (PSignedURL hostname url (Z.quot ttl 1000000000)))))).

(** ** Snapshots *)

Definition bad_snapshot_name : error :=
  ErrOther "snapshot name must contain only letters, numbers, dots, underscores, and hyphens".

Definition handleListSnapshots : M World response :=
  or_error (dbcall Store.ListSnapshots) (λ _, StatusInternalServerError) (λ ss, writeJSON StatusOK (PSnapshots ss)).

Definition handleGetSnapshot (name : string) : M World response :=
  or_error (dbcall (Store.GetSnapshot name)) (found_or []) (λ s, writeJSON StatusOK (PSnapshot s)).

Definition handleCreateSnapshot (body : string) : M World response :=
  decoded (decode_snapshot body) (λ req,
  refuse (negb (validSnapshotName (ss_Name req))) StatusBadRequest bad_snapshot_name (
  refuse (is_empty (ss_VMUUID req)) StatusBadRequest (ErrOther "vm_uuid is required") (
  or_error (SaveSnapshot cfg (MkCreateSnapshotParams (ss_Name req) (ss_VMUUID req) "" "" "" "" "" "" ""))
    (found_or [ErrNotRunning; ErrRunning; ErrAlreadyRunning; ErrNotStopped])
    (λ s, writeJSON StatusCreated (PSnapshot s))))).

Definition handleRestoreSnapshot (snapshotName body : string) : M World response :=
  decoded (decode_restore body) (λ req,
  refuse (negb (validSnapshotName snapshotName)) StatusBadRequest bad_snapshot_name (
  refuse (negb (validVMName (vr_Name req))) StatusBadRequest
    (ErrOther "vm_name must be DNS-safe and must not be UUID-shaped") (
  or_error (RestoreSnapshot cfg snapshotName (create_params req)) (found_or [ErrAlreadyExists])
    (λ vm, reconciled StatusCreated (PVM (vm_info vm)))))).

(** The archive goes straight to the client: once the first byte is written the
    status is 200, whatever comes after. *)
Definition handleExportSnapshot (name : string) : M World response :=
  refuse (negb (validSnapshotName name)) StatusBadRequest bad_snapshot_name (
  or_error (export_open name) (found_or []) (λ '(manifestData, size, disk),
  r ← attempt (export_write manifestData size disk);
  match r with
  | Ok bytes => writeJSON StatusOK (PBundle bytes)
  | Err e => writeJSON StatusOK (PBroken e)
  end)).

Definition import_status (e : error) : Z :=
  if bool_decide (e = ErrInvalidSnapshotBundle) then StatusBadRequest
  else if bool_decide (e ∈ [ErrAlreadyExists; ErrStoreAlreadyExists]) then StatusConflict
  else StatusInternalServerError.

Definition handleImportSnapshot (name body : string) : M World response :=
  refuse (negb (validSnapshotName name)) StatusBadRequest bad_snapshot_name (
  or_error (ImportSnapshot cfg name body) import_status (λ s, writeJSON StatusCreated (PSnapshot s))).

Definition handleDeleteSnapshot (name : string) : M World response :=
  refuse (negb (validSnapshotName name)) StatusBadRequest bad_snapshot_name (
  or_error (DeleteSnapshot cfg name) (found_or []) (λ _, writeJSON StatusOK (PText [("status", "deleted")]))).

(** ** WireGuard peers *)

Definition handleListWireGuardPeers : M World response :=
  writeJSON StatusOK (PPeers ((λ p, (peer_Name p, peer_AllowedIPs p)) <$> wg_Peers (WireGuard cfg))).

Definition handleWireGuardPeerConfig (name : string) : M World response :=
  match list_find (λ p, peer_Name p = name) (wg_Peers (WireGuard cfg)) with
  | Some (_, peer) =>
      or_error (PeerConfig cfg peer) (λ _, StatusInternalServerError)
        (λ text, writeJSON StatusOK (PText [("config", text)]))
  | None => writeError StatusNotFound ErrNotFound
  end.

(** ** Configuration *)

Definition handleConfig : M World response :=
  let c := Caddy cfg in let wg := WireGuard cfg in let net := VMNetwork cfg in let dns := DNS cfg in
  let fc := Firecracker cfg in
  writeJSON StatusOK (PJson (JObject [
    ("base_domain", JString (BaseDomain cfg));
    ("default_http_port", JInt (DefaultHTTPPort cfg));
    ("api", JObject [("port", JInt (api_Port (API cfg)))]);
    ("caddy", JObject [("http_port", JInt (cd_HTTPPort c)); ("https_port", JInt (cd_HTTPSPort c));
                       ("internal_proxy_port", JInt (cd_InternalProxyPort c)); ("tls_mode", JString (cd_TLSMode c))]);
    ("wireguard", JObject [("interface", JString (wg_Interface wg)); ("listen_port", JInt (wg_ListenPort wg));
                           ("address", JString (wg_Address wg)); ("endpoint", JString (endpoint cfg));
                           ("peers", JInt (Z.of_nat (length (wg_Peers wg))))]);
    ("vm_network", JObject [("subnet", JString (vn_Subnet net)); ("ipv4_subnet", JString (vn_IPv4Subnet net))]);
    ("guest_control", JObject [("memory_port", JInt (gc_MemoryPort (GuestControl cfg)))]);
    ("dns", JObject [("enabled", JBool (dns_Enabled dns)); ("domain", JString (dns_Domain dns));
                     ("listen_ip", JString (dns_ListenIP dns)); ("port", JInt (dns_Port dns));
                     ("ttl_seconds", JInt (dns_TTLSeconds dns));
                     ("upstream_servers", JArray (JString <$> dns_UpstreamServers dns))]);
    ("ssh", JObject [("user", JString (ssh_User (SSH cfg)))]);
    ("idle", JObject [("check_interval_seconds", JInt (idle_CheckIntervalSeconds (Idle cfg)));
                      ("default_sleep_after_seconds", JInt (idle_DefaultSleepAfterSeconds (Idle cfg)))]);
    ("cold_storage", JObject [("dir", JString (cold_Dir (ColdStorage cfg)));
       ("archive_stopped_after_seconds", JInt (cold_ArchiveStoppedAfterSeconds (ColdStorage cfg)))]);
    ("firecracker", JObject [("binary_path", JString (fc_BinaryPath fc)); ("base_kernel_path", JString (fc_BaseKernelPath fc));
       ("base_initrd_path", JString (fc_BaseInitrdPath fc)); ("base_rootfs_path", JString (fc_BaseRootfsPath fc));
       ("default_vcpus", JInt (fc_DefaultVCPUs fc)); ("default_memory_min_mib", JInt (fc_DefaultMemoryMinMiB fc));
       ("default_memory_max_mib", JInt (fc_DefaultMemoryMaxMiB fc)); ("default_disk_bytes", JInt (fc_DefaultDiskBytes fc))])
  ])).

Definition handleHelp : M World response :=
  let routes l := JArray (JString <$> l) in
  writeJSON StatusOK (PJson (JObject [
    ("service", JString "firedoze");
    ("api_version", JInt 1);
    ("resources", JObject [
       ("health", routes ["GET /health"]);
       ("config", routes ["GET /config"]);
       ("base_image", routes ["POST /base-image/warmup"]);
       ("usage", routes ["GET /usage"; "GET /vms/{uuid}/usage"]);
       ("vms", routes ["GET /vms"; "POST /vms"; "GET /vms-by-name/{name}"; "GET /vms/{uuid}";
          "PATCH /vms/{uuid}/settings"; "DELETE /vms/{uuid}"; "POST /vms/{uuid}/start"; "POST /vms/{uuid}/activity";
          "POST /vms/{uuid}/stop"; "POST /vms/{uuid}/sleep"; "POST /vms/{uuid}/reboot"]);
       ("routes", routes ["GET /routes"; "POST /routes"; "DELETE /routes/{name}"; "POST /route-protections";
          "DELETE /route-protections/{hostname}"; "POST /route-auth/signed-url"]);
       ("snapshots", routes ["GET /snapshots"; "POST /snapshots"; "GET /snapshots/{name}"; "DELETE /snapshots/{name}";
          "POST /snapshots/{name}/restore"; "GET /snapshots/{name}/export"; "POST /snapshots/{name}/import"]);
       ("wireguard_peers", routes ["GET /wireguard/peers"; "GET /wireguard/peers/{name}/config"])])
  ])).

(** ** The routes

    net/http's ServeMux: "GET /vms/{uuid}" takes the GET and HEAD requests whose
    path has these segments; "GET /" takes every other path, which makes the
    answer to an unknown route of another method 405.  The patterns do not
    overlap otherwise, so that the order of the table does not matter as long as
    "GET /" is last.  A request's path is clean (others are redirected) and its
    segments are decoded: a segment may hold a slash. *)
Record request := MkRequest {
  rq_Method : string;
  rq_Path : list string;
  rq_Names : list string;          (* the query parameters [name] *)
  rq_Body : string;
}.

(** A segment of a pattern, "vms" or "{uuid}", against one of a path. *)
Definition match_segment (seg part : string) (values : list (string * string)) : option (list (string * string)) :=
  if HasPrefix seg "{"
  then if is_empty part then None else Some ((TrimSuffix (TrimPrefix seg "{") "}", part) :: values)
  else if bool_decide (seg = part) then Some values else None.

Fixpoint match_segments (segs path : list string) : option (list (string * string)) :=
  match segs, path with
  | [], [] => Some []
  | seg :: segs', part :: path' => values ← match_segments segs' path'; match_segment seg part values
  | _, _ => None
  end.

Definition method_matches (pattern method : string) : bool :=
  bool_decide (pattern = method) || (bool_decide (pattern = "GET") && bool_decide (method = "HEAD")).

(** The path values of a request that matches. *)
Definition match_pattern (pattern : string) (r : request) : option (list (string * string)) :=
  '(method, path) ← Cut pattern " ";
  if negb (method_matches method (rq_Method r)) then None
  else if bool_decide (path = "/") then Some []
  else match_segments (tail (Split path "/")) (rq_Path r).

Definition PathValue (values : list (string * string)) (name : string) : string :=
  default "" (snd <$> (list_find (λ kv, kv.1 = name) values ≫= λ x, Some x.2)).

Definition handler : Type := request → (string → string) → M World response.

Definition routes : list (string * handler) :=
  [
   ("GET /health", λ _ _, handleHealth);
   ("GET /config", λ _ _, handleConfig);
   ("POST /base-image/warmup", λ _ _, handleWarmBaseImage);
   ("GET /usage", λ r _, handleListUsage (rq_Names r));
   ("GET /vms", λ r _, handleListVMs (rq_Names r));
   ("POST /vms", λ r _, handleCreateVM (rq_Body r));
   ("GET /vms-by-name/{name}", λ _ v, handleGetVMByName (v "name"));
   ("GET /vms/{uuid}/usage", λ _ v, handleGetVMUsage (v "uuid"));
   ("GET /vms/{uuid}", λ _ v, handleGetVM (v "uuid"));
   ("PATCH /vms/{uuid}/settings", λ r v, handleUpdateVMSettings (v "uuid") (rq_Body r));
   ("DELETE /vms/{uuid}", λ _ v, handleDeleteVM (v "uuid"));
   ("POST /vms/{uuid}/start", λ _ v, handleStartVM (v "uuid"));
   ("POST /vms/{uuid}/activity", λ _ v, handleTouchVMActivity (v "uuid"));
   ("POST /vms/{uuid}/stop", λ _ v, handleStopVM (v "uuid"));
   ("POST /vms/{uuid}/sleep", λ _ v, handleSleepVM (v "uuid"));
   ("POST /vms/{uuid}/reboot", λ _ v, handleRebootVM (v "uuid"));
   ("GET /routes", λ _ _, handleListRoutes);
   ("POST /routes", λ r _, handleCreateRoute (rq_Body r));
   ("DELETE /routes/{name}", λ _ v, handleDeleteRoute (v "name"));
   ("POST /route-protections", λ r _, handleProtectRoute (rq_Body r));
   ("DELETE /route-protections/{hostname}", λ _ v, handleUnprotectRoute (v "hostname"));
   ("POST /route-auth/signed-url", λ r _, handleRouteSignedURL (rq_Body r));
   ("GET /snapshots", λ _ _, handleListSnapshots);
   ("POST /snapshots", λ r _, handleCreateSnapshot (rq_Body r));
   ("GET /snapshots/{name}", λ _ v, handleGetSnapshot (v "name"));
   ("DELETE /snapshots/{name}", λ _ v, handleDeleteSnapshot (v "name"));
   ("POST /snapshots/{name}/restore", λ r v, handleRestoreSnapshot (v "name") (rq_Body r));
   ("GET /snapshots/{name}/export", λ _ v, handleExportSnapshot (v "name"));
   ("POST /snapshots/{name}/import", λ r v, handleImportSnapshot (v "name") (rq_Body r));
   ("GET /wireguard/peers", λ _ _, handleListWireGuardPeers);
   ("GET /wireguard/peers/{name}/config", λ _ v, handleWireGuardPeerConfig (v "name"));
   ("GET /", λ _ _, handleHelp)
  ].

Fixpoint serve_mux (table : list (string * handler)) (r : request) : M World response :=
  match table with
  | [] => writeError StatusMethodNotAllowed (ErrOther "Method Not Allowed")
  | (pattern, handle) :: table' =>
      match match_pattern pattern r with
      | Some values => handle r (PathValue values)
      | None => serve_mux table' r
      end
  end.

Definition ServeHTTP (r : request) : M World response := serve_mux routes r.

(** ** The guests' endpoint *)

Definition guest_status (e : error) : Z :=
  if bool_decide (e = ErrNotFound) then StatusForbidden
  else if bool_decide (e = ErrNotRunning) then StatusConflict
  else StatusInternalServerError.

Definition handleMemoryHint (remoteAddr body : string) : M World response :=
  decoded (decode_memory_hint body) (λ req,
  refuse (match mh_TargetMiB req with Some t => bool_decide (t ≤ 0) | None => false end) StatusBadRequest
    (ErrOther "target_mib must be positive") (
  match SplitHostPort remoteAddr with
  | None => writeError StatusForbidden (ErrOther "missing port in address")
  | Some (remoteIP, _) =>
      or_error (RecordVMMemoryReportByPrivateIP (trim_brackets remoteIP) (mh_TargetMiB req) (mh_Report req))
        guest_status (λ u, writeJSON StatusOK (PMemory u))
  end)).
End server.
