(* ===== verification/ApiSafety.v ===== *)
(** * What the API guarantees

    The names it accepts, as the regular expressions of the source say; the
    invariant of the whole daemon behind it; the answers to refused requests. *)

From S2P Require Import Prelude GoStrings Paths IPNet Json Types Store Config PrivateNet Memory.
From S2P Require Import World FileCopy Host Manager ManagerLocks ManagerInvariant Monitors.
From S2P Require Import SnapshotBundle Usage Wireguard Api.
Open Scope Z_scope.

(** ** Regular expressions

    The fragment the patterns use, and the texts that match. *)
Inductive regexp :=
  | RClass (p : ascii → bool)
  | RSeq (a b : regexp)
  | ROpt (a : regexp)
  | RRepeat (a : regexp) (min max : nat).

Fixpoint power (L : string → Prop) (n : nat) (s : string) : Prop :=
  match n with
  | O => s = ""
  | S n' => ∃ a b, s = a +:+ b ∧ L a ∧ power L n' b
  end.

Fixpoint matches (r : regexp) (s : string) : Prop :=
  match r with
  | RClass p => ∃ c, s = String c "" ∧ p c = true
  | RSeq a b => ∃ x y, s = x +:+ y ∧ matches a x ∧ matches b y
  | ROpt a => s = "" ∨ matches a s
  | RRepeat a min max => ∃ n, (min ≤ n ≤ max)%nat ∧ power (matches a) n s
  end.

(** ^[a-z0-9]([a-z0-9-]{0,61}[a-z0-9])?$ *)
Definition vmNamePattern : regexp :=
  RSeq (RClass label_end) (ROpt (RSeq (RRepeat (RClass label_char) 0 61) (RClass label_end))).
(** ^[A-Za-z0-9][A-Za-z0-9._-]{0,127}$ *)
Definition snapshotNamePattern : regexp :=
  RSeq (RClass snapshot_start) (RRepeat (RClass snapshot_char) 0 127).

Lemma power_class p n s : power (matches (RClass p)) n s ↔ String.length s = n ∧ str_forall p s = true.
Proof.
  revert s. induction n as [|n IH]; intros s; cbn [power].
  - destruct s; simpl; naive_solver.
  - split.
    + intros (a & b & -> & (c & -> & Hc) & Hb). apply IH in Hb as [<- Hb].
      change (String c "" +:+ b) with (String c b). simpl. by rewrite Hc, Hb.
    + destruct s as [|c s]; simpl; [naive_solver|]. intros [Hl [Hc Hs]%andb_true_iff].
      exists (String c ""), s. split; [done|]. split; [by exists c|]. apply IH. split; [lia|done].
Qed.

Lemma last_char_app s d : last_char (s +:+ String d "") = Some d.
Proof.
  induction s as [|c s IH]; [done|]. rewrite str_app_cons. cbn [last_char]. rewrite IH.
  destruct (s +:+ String d "") eqn:E; [|done]. destruct s; done.
Qed.
Lemma last_char_Some s d : last_char s = Some d → ∃ t, s = t +:+ String d "".
Proof.
  induction s as [|c s IH]; [done|]. cbn [last_char]. destruct s as [|c' s'].
  - intros [= ->]. by exists "".
  - intros (t & ->)%IH. exists (String c t). by rewrite str_app_cons.
Qed.
Lemma last_char_None s : last_char s = None → s = "".
Proof.
  induction s as [|c s IH]; [done|]. cbn [last_char]. destruct s; [done|]. intros ?%IH. done.
Qed.

Lemma validDNSLabel_pattern s : validDNSLabel s = true ↔ matches vmNamePattern s.
Proof.
  assert (∀ c, label_end c = true → label_char c = true) as Hend by (intros c Hc; unfold label_char; by rewrite Hc).
  unfold vmNamePattern. cbn [matches]. split.
  - destruct s as [|c rest]; [done|]. cbn [validDNSLabel]. rewrite andb_true_iff. intros [Hc Hr].
    exists (String c ""), rest. split; [done|]. split; [by exists c|].
    destruct (last_char rest) as [d|] eqn:Hl; [|left; by apply last_char_None]. right.
    apply last_char_Some in Hl as (t & ->). rewrite !andb_true_iff, bool_decide_eq_true, str_forall_app in Hr.
    rewrite str_length_app in Hr. simpl in Hr. destruct Hr as [[Ha Hd] Hlen].
    exists t, (String d ""). split; [done|]. split; [|by exists d]. exists (String.length t). split; [lia|].
    apply power_class. split; [done|]. apply andb_true_iff in Ha. tauto.
  - intros (x & y & -> & (c & -> & Hc) & Hy). change (String c "" +:+ y) with (String c y).
    cbn [validDNSLabel]. rewrite Hc. cbn [andb].
    destruct Hy as [->|(t & z & -> & (n & Hn & [Hl Ht]%power_class) & (d & -> & Hd))]; [done|].
    rewrite last_char_app, !andb_true_iff, bool_decide_eq_true, str_forall_app, str_length_app. simpl.
    rewrite Ht, Hd, Hend by done. split; [done|]. lia.
Qed.

Lemma validSnapshotName_pattern s : validSnapshotName s = true ↔ matches snapshotNamePattern s.
Proof.
  unfold snapshotNamePattern. cbn [matches]. split.
  - destruct s as [|c rest]; [done|]. cbn [validSnapshotName].
    rewrite !andb_true_iff, bool_decide_eq_true. intros [[Hc Hr] Hl].
    exists (String c ""), rest. split; [done|]. split; [by exists c|].
    exists (String.length rest). split; [lia|]. by apply power_class.
  - intros (x & y & -> & (c & -> & Hc) & n & Hn & [Hl Ht]%power_class).
    change (String c "" +:+ y) with (String c y). cbn [validSnapshotName]. rewrite Hc, Ht.
    apply bool_decide_eq_true. lia.
Qed.

(** ** Accepted names are components of a path *)

Lemma validDNSLabel_chars s : validDNSLabel s = true → s ≠ "" ∧ str_forall label_char s = true.
Proof.
  destruct s as [|c rest]; [done|]. cbn [validDNSLabel str_forall]. rewrite andb_true_iff. intros [Hc Hr].
  split; [done|]. unfold label_char at 1. rewrite Hc. cbn [orb andb].
  destruct (last_char rest) eqn:Hl; [|by apply last_char_None in Hl as ->].
  rewrite !andb_true_iff in Hr. tauto.
Qed.

Lemma label_good s : validDNSLabel s = true → good_part s ∧ str_mem "." s = false.
Proof.
  intros [Hn Hs]%validDNSLabel_chars.
  pose proof (str_mem_forall _ "/"%char s eq_refl Hs) as Hslash.
  pose proof (str_mem_forall _ "."%char s eq_refl Hs) as Hdot.
  repeat split; try done; by intros ->.
Qed.

Lemma validVMName_label `{UuidLib} s :
  validVMName s = true ↔ validDNSLabel s = true ∧ uuid_Parse_ok s = false.
Proof. unfold validVMName. destruct (validDNSLabel s), (uuid_Parse_ok s); simpl; naive_solver. Qed.

Lemma validSnapshotName_good s : validSnapshotName s = true → good_part s.
Proof.
  destruct s as [|c rest]; [done|]. cbn [validSnapshotName]. rewrite !andb_true_iff. intros [[Hc Hr] _].
  assert (str_mem "/" rest = false) as Hrest by exact (str_mem_forall snapshot_char "/"%char rest eq_refl Hr).
  assert (c ≠ "/"%char ∧ c ≠ "."%char) as [Hs Hd] by (split; intros ->; vm_compute in Hc; done).
  split; [done|]. split; [|split; congruence].
  cbn [str_mem]. by rewrite Hrest, bool_decide_eq_false_2.
Qed.

(** ** The tables hold accepted names only *)

Record tidy `{UuidLib} (s : Store) : Prop := {
  td_vm u vm : vms s !! u = Some vm → validVMName (vm_Name vm) = true;
  td_route n r : Store.routes s !! n = Some r → validRouteName n = true ∧ bad_port (rr_port r) = false;
  td_snapshot n sn : snapshots s !! n = Some sn → validSnapshotName n = true ∧ sn_Name sn = n;
}.

Section tidy.
Context `{FirecrackerVMM, Env, SparseSeek, GoUnicode, UuidLib, Timestamps}.
Context (cfg : Config) (vmsDir : option string) (NetworkScript : string).

Class TidyCall {A} (m : M Store A) : Prop := tidy_call s : tidy s → tidy (m s).2.

Definition tidy_world (w : World) : Prop := tidy (db w).

Lemma tidy_reads {A} (m : M Store A) : (∀ s, (m s).2 = s) → TidyCall m.
Proof. intros Hm s Hs. by rewrite Hm. Qed.
#[local] Instance tidy_GetVM u : TidyCall (Store.GetVM u).
Proof. by apply tidy_reads. Qed.
#[local] Instance tidy_GetVMByName n : TidyCall (Store.GetVMByName n).
Proof. by apply tidy_reads. Qed.
#[local] Instance tidy_GetVMByPrivateIP n : TidyCall (Store.GetVMByPrivateIP n).
Proof. by apply tidy_reads. Qed.
#[local] Instance tidy_ListVMsMatching l : TidyCall (Store.ListVMsMatching l).
Proof. by apply tidy_reads. Qed.
#[local] Instance tidy_ListVMs : TidyCall Store.ListVMs.
Proof. by apply tidy_reads. Qed.
#[local] Instance tidy_VMExists n : TidyCall (Store.VMExists n).
Proof. by apply tidy_reads. Qed.
#[local] Instance tidy_RouteExists n : TidyCall (Store.RouteExists n).
Proof. by apply tidy_reads. Qed.
#[local] Instance tidy_SnapshotExists n : TidyCall (Store.SnapshotExists n).
Proof. by apply tidy_reads. Qed.
#[local] Instance tidy_GetSnapshot n : TidyCall (Store.GetSnapshot n).
Proof. by apply tidy_reads. Qed.
#[local] Instance tidy_ListSnapshots : TidyCall Store.ListSnapshots.
Proof. by apply tidy_reads. Qed.
#[local] Instance tidy_ListRoutes : TidyCall Store.ListRoutes.
Proof. by apply tidy_reads. Qed.

Lemma tidy_update u f : (∀ vm, vm_Name (f vm) = vm_Name vm) → TidyCall (update_vm u f).
Proof.
  intros Hf s [Hv Hr Hs]. unfold update_vm. destruct (vms s !! u) as [vm|] eqn:E; [|done].
  split; simpl; try done. intros k v. rewrite lookup_insert_Some. intros [[<- <-]|[_ Hk]]; [|by eapply Hv].
  rewrite Hf. by eapply Hv.
Qed.
#[local] Instance tidy_SetVMState now u st : TidyCall (Store.SetVMState now u st).
Proof. by apply tidy_update. Qed.
#[local] Instance tidy_Touch now u : TidyCall (Store.TouchVMActivity now u).
Proof. by apply tidy_update. Qed.
#[local] Instance tidy_SetArchived u p : TidyCall (Store.SetVMArchivedDiskPath u p).
Proof. by apply tidy_update. Qed.
#[local] Instance tidy_UpdateVM u p : TidyCall (Store.UpdateVM u p).
Proof. intros s Hs. rewrite UpdateVM_state. case_match; [|done]. by apply tidy_update. Qed.
#[local] Instance tidy_DeleteVM u : TidyCall (Store.DeleteVM u).
Proof.
  intros s [Hv Hr Hs]. unfold Store.DeleteVM. case_match; [|done]. split; simpl; try done.
  - intros k x [_ Hk]%lookup_delete_Some. by eapply Hv.
  - intros n r [Hn _]%map_lookup_filter_Some. by eapply Hr.
Qed.
#[local] Instance tidy_DeleteRoutesForVM u : TidyCall (Store.DeleteRoutesForVM u).
Proof.
  intros s [Hv Hr Hs]. split; simpl; try done. intros n r [Hn _]%map_lookup_filter_Some. by eapply Hr.
Qed.
#[local] Instance tidy_DeleteRoute n : TidyCall (Store.DeleteRoute n).
Proof.
  intros s [Hv Hr Hs]. unfold Store.DeleteRoute. case_match; [|done]. split; simpl; try done.
  intros k r [_ Hk]%lookup_delete_Some. by eapply Hr.
Qed.
#[local] Instance tidy_DeleteSnapshot n : TidyCall (Store.DeleteSnapshot n).
Proof.
  intros s [Hv Hr Hs]. unfold Store.DeleteSnapshot. case_match; [|done]. split; simpl; try done.
  intros k r [_ Hk]%lookup_delete_Some. by eapply Hs.
Qed.
#[local] Instance tidy_Protect h : TidyCall (Store.ProtectRouteHostname h).
Proof. intros s [Hv Hr Hs]. by split. Qed.
#[local] Instance tidy_Unprotect h : TidyCall (Store.UnprotectRouteHostname h).
Proof. intros s [Hv Hr Hs]. by split. Qed.

(** The statements that add a row, when the name was accepted. *)
Lemma tidy_CreateVM u now p : validVMName (p_Name p) = true → TidyCall (Store.CreateVM u now p).
Proof.
  intros Hp s [Hv Hr Hs]. unfold Store.CreateVM. repeat (case_match; [done|]).
  split; simpl; try done. intros k v. rewrite lookup_insert_Some. intros [[<- <-]|[_ Hk]]; [done|by eapply Hv].
Qed.
Lemma tidy_CreateRoute p :
  validRouteName (cr_Name p) = true → bad_port (cr_Port p) = false → TidyCall (Store.CreateRoute p).
Proof.
  intros Hn Hp s [Hv Hr Hs]. unfold Store.CreateRoute. do 2 (case_match; [done|]). cbv zeta.
  case_match; [|done]. split; simpl; try done. intros k r. rewrite lookup_insert_Some.
  intros [[<- <-]|[_ Hk]]; [done|by eapply Hr].
Qed.
Lemma tidy_CreateSnapshot now p : validSnapshotName (cs_Name p) = true → TidyCall (Store.CreateSnapshot now p).
Proof.
  intros Hn s [Hv Hr Hs]. unfold Store.CreateSnapshot. case_match; [done|].
  split; simpl; try done. intros k r. rewrite lookup_insert_Some.
  intros [[<- <-]|[_ Hk]]; [done|by eapply Hs].
Qed.

#[local] Instance tidy_keeps {A} (m : M World A) : Keeps db m → Pres tidy_world m | 50.
Proof. intros Hd w. unfold tidy_world. by rewrite (Hd w). Qed.
#[local] Instance tidy_ext {A} (m : M World A) : Pres tidy_world m → Pres tidy_world (ext m).
Proof. intros Hm w Hw. unfold ext. destruct (fate (tick w)); simpl; by try apply Hm. Qed.
#[local] Instance tidy_dbcall {A} (m : M Store A) : TidyCall m → Pres tidy_world (dbcall m).
Proof.
  intros Hm. apply tidy_ext. intros w Hw. specialize (Hm _ Hw). unfold tidy_world.
  by destruct (m (db w)).
Qed.

(** ** The operations of the manager *)

#[local] Instance tidy_store_SetVMState u st : Pres tidy_world (store_SetVMState u st).
Proof. intros w. apply tidy_dbcall, _. Qed.
#[local] Instance tidy_process_exited u : Pres tidy_world (process_exited u).
Proof. unfold process_exited. apply _. Qed.
#[local] Instance tidy_waitForProcessExit p : Pres tidy_world (waitForProcessExit p).
Proof. unfold waitForProcessExit. apply _. Qed.
#[local] Instance tidy_stopProcess p st : Pres tidy_world (stopProcess p st).
Proof. unfold stopProcess. apply _. Qed.
#[local] Instance tidy_archive_body vm a b c : Pres tidy_world (archive_body vm a b c).
Proof. unfold archive_body. apply _. Qed.
#[local] Instance tidy_hydrate_body vm a b c : Pres tidy_world (hydrate_body vm a b c).
Proof. unfold hydrate_body. apply _. Qed.
#[local] Instance tidy_hydrateColdDisk vm : Pres tidy_world (hydrateColdDisk cfg vm).
Proof.
  unfold hydrateColdDisk. case_match; [apply _|]. apply pres_bind; [apply _|].
  intros [|[]]; try apply _; cbv zeta. case_match; [apply _|]. apply pres_bind; [apply _|].
  intros [|[]]; apply _.
Qed.
#[local] Instance tidy_StopVM u : Pres tidy_world (StopVM u).
Proof. unfold StopVM. apply pres_bind; [apply _|]. intros vm. apply pres_bind; [apply _|]. intros run. apply _. Qed.
#[local] Instance tidy_SleepVM u : Pres tidy_world (SleepVM cfg u).
Proof. unfold SleepVM. apply pres_bind; [apply _|]. intros vm. apply pres_bind; [apply _|]. intros run. apply _. Qed.
#[local] Instance tidy_resumeVM vm : Pres tidy_world (resumeVM cfg vmsDir vm).
Proof. unfold resumeVM. cbv zeta. apply _. Qed.
#[local] Instance tidy_boot vm mem : Pres tidy_world (boot cfg vmsDir NetworkScript vm mem).
Proof. unfold boot. cbv zeta. apply _. Qed.
#[local] Instance tidy_lock u : Pres tidy_world (lock u).
Proof. by intros w. Qed.
#[local] Instance tidy_endVMOperation u : Pres tidy_world (endVMOperation u).
Proof. by intros w. Qed.
#[local] Instance tidy_end_archive u : Pres tidy_world (end_archive u).
Proof. by intros w. Qed.
#[local] Instance tidy_begin_loop fuel check u : Pres tidy_world (begin_loop fuel check u).
Proof.
  induction fuel as [|fuel IH]; cbn [begin_loop]; apply pres_bind; (apply _ || intros _);
    (apply pres_bind; [apply _|intros run]); case_match; try apply _;
    (apply pres_bind; [apply _|intros arch]); case_match; apply _.
Qed.
#[local] Instance tidy_StartVM u : Pres tidy_world (StartVM cfg vmsDir NetworkScript u).
Proof. unfold StartVM, beginStartOperationCancelingColdArchive. apply _. Qed.
#[local] Instance tidy_RebootVM u : Pres tidy_world (RebootVM cfg vmsDir NetworkScript u).
Proof. unfold RebootVM. apply _. Qed.
#[local] Instance tidy_mUpdateVM u p : Pres tidy_world (Manager.UpdateVM u p).
Proof.
  unfold Manager.UpdateVM. apply pres_bind; [destruct (u_DefaultHTTPPort p); apply _|intros _].
  apply pres_bind; [destruct (u_IdleSleepAfterSeconds p); apply _|intros _]. apply _.
Qed.
#[local] Instance tidy_Record ip t r : Pres tidy_world (RecordVMMemoryReportByPrivateIP ip t r).
Proof.
  unfold RecordVMMemoryReportByPrivateIP, setVMMemoryTarget. apply pres_bind; [apply _|intros vm].
  apply pres_bind; [apply _|intros a]. apply pres_bind; [apply _|intros _]. destruct t; [|apply _].
  cbv zeta. apply pres_bind; [apply _|intros run]. destruct (run !! _); [|apply _].
  apply pres_if; [apply _|]. apply pres_bind; [apply _|intros bits]. apply _.
Qed.
#[local] Instance tidy_mDeleteVM u : Pres tidy_world (Manager.DeleteVM cfg u).
Proof. unfold Manager.DeleteVM, beginVMOperationCancelingColdArchive, remove_if_exists. apply _. Qed.
#[local] Instance tidy_mDeleteSnapshot n : Pres tidy_world (Manager.DeleteSnapshot cfg n).
Proof. unfold Manager.DeleteSnapshot. apply _. Qed.
#[local] Instance tidy_ArchiveStoppedVM u now : Pres tidy_world (ArchiveStoppedVM cfg u now).
Proof.
  unfold ArchiveStoppedVM, beginColdArchiveOperation. apply pres_if; [apply _|]. apply pres_bind.
  { do 2 (apply pres_bind; [apply _|intros ?]). apply pres_if; [apply _|]. by intros w. }
  intros _. apply pres_deferring; [|apply _]. apply pres_bind; [apply _|intros vm].
  apply pres_if; [apply _|]. apply pres_bind; [apply _|intros run]. apply pres_if; [apply _|].
  cbv zeta. apply pres_bind; [apply _|]. intros [|[]]; apply _.
Qed.
#[local] Instance tidy_sleep_loop l : Pres tidy_world (sleep_loop cfg l).
Proof. induction l as [|vm l IH]; cbn [sleep_loop]; apply _. Qed.
#[local] Instance tidy_start_loop l : Pres tidy_world (start_loop cfg vmsDir NetworkScript l).
Proof.
  induction l as [|vm l IH]; cbn [start_loop]; [apply _|]. apply pres_bind; [apply _|intros got].
  apply pres_bind; [|apply _]. apply _.
Qed.
#[local] Instance tidy_reconcile_loop l : Pres tidy_world (reconcile_loop l).
Proof. induction l as [|vm l IH]; cbn [reconcile_loop]; apply _. Qed.
#[local] Instance tidy_join_errors l : Pres tidy_world (join_errors l).
Proof. destruct l; apply _. Qed.

(** ** Creating rows *)

Lemma fill_params_name disk p q : fill_params cfg disk p = Ok q → p_Name q = p_Name p.
Proof.
  unfold fill_params. case_bool_decide; [done|]. unfold mbind, result_mbind.
  destruct (validateMemoryHotplugRange _ _); [|done]. case_bool_decide; [done|]. by intros [= <-].
Qed.
Lemma choose_ip_name p w q w' : choose_ip cfg p w = (Ok q, w') → p_Name q = p_Name p.
Proof.
  unfold choose_ip. destruct (is_empty _); [|by intros [= <- <-]].
  intros E. apply bind_Ok in E as (vms & w1 & _ & E). destruct (nextPrivateIP _ _); [|done].
  apply bind_Ok in E as (ip & w2 & _ & E). by injection E as <- <-.
Qed.
Lemma tidy_store_create p : validVMName (p_Name p) = true → Pres tidy_world (store_create p).
Proof.
  intros Hp. unfold store_create. apply pres_bind; [|intros [|[]]; apply _].
  apply pres_attempt. unfold store_CreateVM. apply pres_bind; [apply _|]. intros u.
  intros w. by apply tidy_dbcall, tidy_CreateVM.
Qed.
Lemma tidy_filled {A} disk p (k : CreateVMParams → M World A) :
  (∀ q, p_Name q = p_Name p → Pres tidy_world (k q)) →
  Pres tidy_world (q ← lift_result (fill_params cfg disk p); q ← choose_ip cfg q; k q).
Proof.
  intros Hk. apply (pres_bind_val _ (λ q, p_Name q = p_Name p)); [apply _| |].
  { intros w q w' _ E. injection E as E _. by eapply fill_params_name. }
  intros q Hq. apply (pres_bind_val _ (λ q, p_Name q = p_Name p)); [| |done].
  { unfold choose_ip. apply pres_if; [|apply _]. apply pres_bind; [apply _|]. intros vms. apply _. }
  intros w q' w' _ E. rewrite <-Hq. by eapply choose_ip_name.
Qed.
Lemma tidy_mCreateVM p : validVMName (p_Name p) = true → Pres tidy_world (Manager.CreateVM cfg p).
Proof.
  intros Hp. unfold Manager.CreateVM. apply pres_bind; [apply _|intros b]. apply pres_if; [apply _|].
  apply tidy_filled. intros q Hq. apply pres_bind; [apply _|intros md]. apply tidy_store_create. simpl. congruence.
Qed.
Lemma tidy_RestoreSnapshot sn p : validVMName (p_Name p) = true → Pres tidy_world (RestoreSnapshot cfg sn p).
Proof.
  intros Hp. unfold RestoreSnapshot. do 2 (apply pres_if; [apply _|]).
  do 2 (apply pres_bind; [apply _|intros b]; apply pres_if; [apply _|]; clear b).
  do 2 (apply pres_bind; [apply _|intros ?]). apply tidy_filled. intros q Hq. cbv zeta.
  do 5 (apply pres_bind; [apply _|intros ?]). apply tidy_store_create. simpl. congruence.
Qed.
Lemma tidy_SaveSnapshot p : validSnapshotName (cs_Name p) = true → Pres tidy_world (SaveSnapshot cfg p).
Proof.
  intros Hp. assert (∀ q, cs_Name q = cs_Name p → Pres tidy_world (store_CreateSnapshot q)) as Hc.
  { intros q Hq w. apply tidy_dbcall, tidy_CreateSnapshot. congruence. }
  unfold SaveSnapshot, beginVMOperationCancelingColdArchive. do 2 (apply pres_if; [apply _|]).
  apply pres_bind; [apply _|intros b]. apply pres_if; [apply _|]. apply pres_bind; [apply _|intros vm].
  apply pres_bind; [apply _|intros _]. apply pres_deferring; [|apply _].
  apply pres_bind; [apply _|intros run]. do 2 (apply pres_if; [apply _|]).
  do 3 (apply pres_bind; [apply _|intros ?]). by apply Hc.
Qed.
End tidy.

(** ** The invariant of the daemon

    The manager's invariant, free locks and accepted names together. *)
Section safe.
Context `{FirecrackerVMM, Env, SparseSeek, GoUnicode, UuidLib, TimestampLaws}.
Context `{Kernel, BundleCodec, GoQuote, WgTypes, ApiJSON, !RouteAuthSigner}.
Context (cfg : Config) (vmsDir : option string) (NetworkScript : string).

Definition safe (w : World) : Prop := inv cfg None w ∧ unlocked w ∧ tidy_world w.

Lemma safe_of {A} (m : M World A) : Pres (inv cfg None) m → Pres unlocked m → Pres tidy_world m → Pres safe m.
Proof. intros Hi Hu Ht w (Wi & Wu & Wt). split; [by apply Hi|]. split; [by apply Hu|by apply Ht]. Qed.

(** What touches neither the tables nor [running] nor the locks. *)
#[local] Instance safe_keeps {A} (m : M World A) :
  Keeps db m → Keeps running m → Keeps locks m → Pres safe m | 50.
Proof.
  intros Hd Hr Hl w (Wi & Wu & Wt). unfold safe, inv, unlocked, tidy_world in *.
  by rewrite (Hd w), (Hr w), (Hl w).
Qed.
#[local] Instance safe_dbcall {A} (m : M Store A) : StoreCall cfg m → TidyCall m → Pres safe (dbcall m).
Proof. intros Hs Ht. apply safe_of; [apply _|apply unlocked_keeps, _|by apply tidy_dbcall]. Qed.

Lemma safe_read {A} (m : M Store A) : (∀ s, (m s).2 = s) → Pres safe (dbcall m).
Proof.
  intros Hm. apply safe_dbcall; [|by apply tidy_reads]. intros focus s run Hs Hn. by rewrite Hm.
Qed.

(** Unpacking a bundle creates files only; its row has the name asked for. *)
Lemma safe_ImportSnapshot name input : validSnapshotName name = true → Pres safe (ImportSnapshot cfg name input).
Proof.
  intros Hn. unfold ImportSnapshot. apply pres_if; [apply _|].
  apply pres_bind; [by apply safe_read|intros b]. apply pres_if; [apply _|]. cbv zeta.
  apply pres_bind; [apply _|]. intros [|[]]; try apply _.
  do 2 (apply pres_bind; [unfold os_MkdirTemp; apply _|intros ?]).
  apply pres_bind.
  { unfold import_unpack. apply pres_bind; [|intros []; apply _].
    apply safe_keeps; apply keeps_attempt, keeps_bind; (apply keeps_unpack; apply _) || apply _. }
  intros mf. apply pres_bind; [|intros []; apply _]. apply pres_attempt, safe_of; [apply _|apply unlocked_keeps, _|].
  intros w. by apply tidy_dbcall, tidy_CreateSnapshot.
Qed.

(** ** The handlers *)

(** The proxy and the signer leave the tables, the processes and the locks
    alone: the proxy reads the store and writes Caddy's configuration. *)
Class Bystander {A} (m : M World A) : Prop := {
  bystander_db :: Keeps db m;
  bystander_running :: Keeps running m;
  bystander_locks :: Keeps locks m;
}.
Context (proxy : option (M World unit)) (Hproxy : ∀ p, proxy = Some p → Bystander p).
Context (Hsigner : ∀ h t, Bystander (SignedURL h t)).

#[local] Instance safe_reconcileProxy : Pres safe (reconcileProxy proxy).
Proof. unfold reconcileProxy. destruct proxy as [p|]; [|apply _]. specialize (Hproxy p eq_refl). apply _. Qed.

#[local] Instance pres_or_error {A} (m : M World A) st (k : A → M World response) :
  Pres safe m → (∀ a, Pres safe (k a)) → Pres safe (or_error m st k).
Proof. intros Hm Hk. unfold or_error, writeError, writeJSON. apply _. Qed.
#[local] Instance pres_decoded {A} (r : result A) (k : A → M World response) :
  (∀ a, Pres safe (k a)) → Pres safe (decoded r k).
Proof. intros Hk. unfold decoded, writeError, writeJSON. apply _. Qed.
Lemma pres_refuse b st e (k : M World response) : (b = false → Pres safe k) → Pres safe (refuse b st e k).
Proof. intros Hk. unfold refuse, writeError, writeJSON. destruct b; [apply _|by apply Hk]. Qed.
#[local] Instance safe_writeJSON st v : Pres safe (writeJSON st v).
Proof. unfold writeJSON. apply _. Qed.
#[local] Instance safe_writeError st v : Pres safe (writeError st v).
Proof. unfold writeError. apply _. Qed.
#[local] Instance safe_reconciled st v : Pres safe (reconciled proxy st v).
Proof. unfold reconciled. apply _. Qed.

#[local] Instance safe_StartVM u : Pres safe (StartVM cfg vmsDir NetworkScript u).
Proof. apply safe_of; [apply _..|apply tidy_StartVM]. Qed.
#[local] Instance safe_RebootVM u : Pres safe (RebootVM cfg vmsDir NetworkScript u).
Proof. apply safe_of; [apply _..|apply tidy_RebootVM]. Qed.
#[local] Instance safe_StopVM u : Pres safe (StopVM u).
Proof. apply safe_of; [apply _..|apply tidy_StopVM]. Qed.
#[local] Instance safe_SleepVM u : Pres safe (SleepVM cfg u).
Proof. apply safe_of; [apply _..|apply tidy_SleepVM]. Qed.
#[local] Instance safe_DeleteVM u : Pres safe (Manager.DeleteVM cfg u).
Proof. apply safe_of; [apply _..|apply tidy_mDeleteVM]. Qed.
#[local] Instance safe_UpdateVM u p : Pres safe (Manager.UpdateVM u p).
Proof. apply safe_of; [apply _..|apply tidy_mUpdateVM]. Qed.
#[local] Instance safe_DeleteSnapshot n : Pres safe (Manager.DeleteSnapshot cfg n).
Proof. apply safe_of; [apply _..|apply tidy_mDeleteSnapshot]. Qed.
#[local] Instance safe_Record ip t r : Pres safe (RecordVMMemoryReportByPrivateIP ip t r).
Proof. apply safe_of; [apply _..|apply tidy_Record]. Qed.
#[local] Instance safe_Archive u now : Pres safe (ArchiveStoppedVM cfg u now).
Proof. apply safe_of; [apply _..|apply tidy_ArchiveStoppedVM]. Qed.
#[local] Instance safe_Touch u : Pres safe (now ← db_now; dbcall (Store.TouchVMActivity now u)).
Proof.
  apply safe_of; [apply (pres_TouchVMActivity cfg)|apply unlocked_keeps, _|].
  intros w. apply tidy_dbcall, tidy_Touch.
Qed.

#[local] Hint Extern 1 (Pres _ (refuse _ _ _ _)) => apply pres_refuse; intros ? : typeclass_instances.
#[local] Hint Extern 1 (Pres _ (dbcall (Store.GetVM _))) => apply safe_read; done : typeclass_instances.
#[local] Hint Extern 1 (Pres _ (dbcall (Store.GetVMByName _))) => apply safe_read; done : typeclass_instances.
#[local] Hint Extern 1 (Pres _ (dbcall (Store.ListVMsMatching _))) => apply safe_read; done : typeclass_instances.
#[local] Hint Extern 1 (Pres _ (dbcall (Store.VMExists _))) => apply safe_read; done : typeclass_instances.
#[local] Hint Extern 1 (Pres _ (dbcall Store.ListRoutes)) => apply safe_read; done : typeclass_instances.
#[local] Hint Extern 1 (Pres _ (dbcall Store.ListSnapshots)) => apply safe_read; done : typeclass_instances.
#[local] Hint Extern 1 (Pres _ (dbcall (Store.GetSnapshot _))) => apply safe_read; done : typeclass_instances.

Lemma safe_named_CreateVM p : validVMName (p_Name p) = true → Pres safe (Manager.CreateVM cfg p).
Proof. intros Hp. apply safe_of; [apply _..|by apply tidy_mCreateVM]. Qed.
Lemma safe_named_Restore n p : validVMName (p_Name p) = true → Pres safe (RestoreSnapshot cfg n p).
Proof. intros Hp. apply safe_of; [apply _..|by apply tidy_RestoreSnapshot]. Qed.
Lemma safe_named_Save p : validSnapshotName (cs_Name p) = true → Pres safe (SaveSnapshot cfg p).
Proof. intros Hp. apply safe_of; [apply _..|by apply tidy_SaveSnapshot]. Qed.

(** The handlers that create something check its name first. *)
Lemma safe_handleCreateVM body : Pres safe (handleCreateVM cfg proxy body).
Proof.
  unfold handleCreateVM. apply pres_decoded. intros req. apply pres_refuse. intros Hn%negb_false_iff.
  apply pres_or_error; [by apply safe_named_CreateVM|apply _].
Qed.
Lemma safe_handleCreateRoute body : Pres safe (handleCreateRoute cfg proxy body).
Proof.
  unfold handleCreateRoute. apply pres_decoded. intros req. apply pres_refuse. intros Hn%negb_false_iff.
  apply pres_refuse. intros _. apply pres_refuse. intros Hp. apply pres_or_error; [apply _|intros b].
  apply pres_refuse. intros _. apply pres_or_error; [|apply _].
  apply safe_dbcall; [apply _|by apply tidy_CreateRoute].
Qed.
Lemma safe_handleCreateSnapshot body : Pres safe (handleCreateSnapshot cfg body).
Proof.
  unfold handleCreateSnapshot. apply pres_decoded. intros req. apply pres_refuse. intros Hn%negb_false_iff.
  apply pres_refuse. intros _. apply pres_or_error; [by apply safe_named_Save|apply _].
Qed.
Lemma safe_handleRestoreSnapshot n body : Pres safe (handleRestoreSnapshot cfg proxy n body).
Proof.
  unfold handleRestoreSnapshot. apply pres_decoded. intros req. apply pres_refuse. intros _.
  apply pres_refuse. intros Hn%negb_false_iff. apply pres_or_error; [by apply safe_named_Restore|apply _].
Qed.
Lemma safe_handleImportSnapshot n body : Pres safe (handleImportSnapshot cfg n body).
Proof.
  unfold handleImportSnapshot. apply pres_refuse. intros Hn%negb_false_iff.
  apply pres_or_error; [by apply safe_ImportSnapshot|apply _].
Qed.
Lemma safe_handleExportSnapshot n : Pres safe (handleExportSnapshot n).
Proof.
  unfold handleExportSnapshot, export_open, export_write, writeTarFile. apply pres_refuse. intros _.
  apply pres_or_error; [|intros [[md size] disk]; apply _]. apply pres_if; [apply _|].
  apply pres_bind; [apply _|intros _]. apply pres_bind; [apply _|intros sn]. apply pres_if; [apply _|].
  apply pres_bind; [apply _|intros fi]. apply _.
Qed.
Lemma safe_statement {A} (m : M Store A) (st : error → Z) v :
  StoreCall cfg m → TidyCall m → Pres safe (or_error (dbcall m) st (λ _, reconciled proxy StatusOK v)).
Proof. intros Hs Ht. apply _. Qed.

Lemma safe_handlers : Forall (λ h, ∀ r v, Pres safe (h.2 r v)) (routes cfg vmsDir NetworkScript proxy).
Proof.
  unfold routes. repeat (apply Forall_cons; split; [intros r v; cbn [snd]|]); [..|by apply Forall_nil].
  - unfold handleHealth. apply _.
  - unfold handleConfig. apply _.
  - unfold handleWarmBaseImage, WarmBaseImageMetadata. apply _.
  - unfold handleListUsage, ListVMResourceUsage. apply _.
  - unfold handleListVMs. apply _.
  - apply safe_handleCreateVM.
  - unfold handleGetVMByName. apply _.
  - unfold handleGetVMUsage, VMResourceUsage_of. apply _.
  - unfold handleGetVM. apply _.
  - unfold handleUpdateVMSettings. apply _.
  - unfold handleDeleteVM. apply _.
  - unfold handleStartVM. apply _.
  - unfold handleTouchVMActivity. apply _.
  - unfold handleStopVM. apply _.
  - unfold handleSleepVM. apply _.
  - unfold handleRebootVM. apply _.
  - unfold handleListRoutes. apply _.
  - apply safe_handleCreateRoute.
  - unfold handleDeleteRoute. apply safe_statement; [apply _|apply tidy_DeleteRoute].
  - unfold handleProtectRoute. do 2 (apply pres_decoded; intros ?). apply safe_statement; [apply _|apply tidy_Protect].
  - unfold handleUnprotectRoute. apply pres_decoded; intros ?. apply safe_statement; [apply _|apply tidy_Unprotect].
  - unfold handleRouteSignedURL. do 2 (apply pres_decoded; intros ?). cbv zeta. apply _.
  - unfold handleListSnapshots. apply _.
  - apply safe_handleCreateSnapshot.
  - unfold handleGetSnapshot. apply _.
  - unfold handleDeleteSnapshot. apply _.
  - apply safe_handleRestoreSnapshot.
  - apply safe_handleExportSnapshot.
  - apply safe_handleImportSnapshot.
  - unfold handleListWireGuardPeers. apply _.
  - unfold handleWireGuardPeerConfig, PeerConfig, ServerPublicKey, readServerPrivateKey.
    destruct (list_find _ _) as [[i p]|]; apply _.
  - unfold handleHelp. apply _.
Qed.

Lemma safe_serve_mux table r : Forall (λ h : string * handler, ∀ r v, Pres safe (h.2 r v)) table → Pres safe (serve_mux table r).
Proof.
  induction table as [|[p h] table IH]; intros Ht; cbn [serve_mux]; [apply _|].
  apply Forall_cons in Ht as [Hh Ht]. destruct (match_pattern p r); [apply Hh|by apply IH].
Qed.
Lemma safe_ServeHTTP r : Pres safe (ServeHTTP cfg vmsDir NetworkScript proxy r).
Proof. apply safe_serve_mux, safe_handlers. Qed.
Lemma safe_handleMemoryHint addr body : Pres safe (handleMemoryHint addr body).
Proof.
  unfold handleMemoryHint. apply pres_decoded. intros req. apply pres_refuse. intros _.
  destruct (SplitHostPort addr) as [[ip port]|]; apply _.
Qed.

(** ** Every history of the daemon *)

Lemma safe_for_vms body l : (∀ vm, Pres safe (body vm)) → Pres safe (for_vms body l).
Proof. intros Hb. induction l as [|vm l IH]; cbn [for_vms]; apply _. Qed.
Lemma safe_idle_check now : Pres safe (idle_check cfg proxy now).
Proof.
  unfold idle_check. apply pres_bind; [apply pres_attempt; by apply safe_read|]. intros []; [|apply _].
  apply safe_for_vms. intros vm. unfold idle_visit, sleepIdleVM. do 2 (apply pres_if; [apply _|]).
  destruct (vmLastActivity vm); [|apply _]. apply pres_if; [apply _|]. apply pres_bind; [apply _|].
  intros []; [|apply _]. pose proof safe_reconcileProxy as Hp. unfold reconcileProxy in Hp.
  destruct proxy; apply _.
Qed.
Lemma safe_cold_check now : Pres safe (cold_check cfg now).
Proof.
  unfold cold_check. apply pres_bind; [apply pres_attempt; by apply safe_read|]. intros []; [|apply _].
  apply safe_for_vms. intros vm. unfold cold_visit. apply _.
Qed.

(** What the daemon does between two moments: a request of a client or a guest,
    a round of a monitor, a wake-up or a note of activity by the proxy, the end
    of a process, a shutdown, a start. *)
Inductive daemon_step (w : World) : World → Prop :=
  | on_request r : daemon_step w (ServeHTTP cfg vmsDir NetworkScript proxy r w).2
  | on_memory_hint addr body : daemon_step w (handleMemoryHint addr body w).2
  | on_idle_round now : daemon_step w (idle_check cfg proxy now w).2
  | on_cold_round now : daemon_step w (cold_check cfg now w).2
  | on_wake u : daemon_step w (StartVM cfg vmsDir NetworkScript u w).2
  | on_activity u : daemon_step w (store_TouchVMActivity u w).2
  | on_exit u : daemon_step w (process_ends u w).2
  | on_shutdown : daemon_step w (SleepRunningVMs cfg w).2
  | on_restart : daemon_step w (restarted w).2
  | on_resume names : daemon_step w (StartVMs cfg vmsDir NetworkScript names w).2.

Lemma daemon_step_safe w w' : daemon_step w w' → safe w → safe w'.
Proof.
  assert (∀ A (m : M World A), Pres safe m → safe w → safe (m w).2) as Hp by (intros A m Hm; apply Hm).
  intros []; apply Hp.
  - apply safe_ServeHTTP.
  - apply safe_handleMemoryHint.
  - apply safe_idle_check.
  - apply safe_cold_check.
  - apply _.
  - apply safe_Touch.
  - apply safe_of; [apply _..|]. unfold process_ends. apply pres_bind; [apply tidy_keeps, _|intros run].
    apply pres_option; [intros p|apply _]. apply pres_bind; [apply tidy_keeps, _|intros _]. apply tidy_process_exited.
  - apply safe_of; [apply _..|]. unfold SleepRunningVMs, RunningVMNames.
    apply pres_bind; [apply tidy_keeps, _|intros names]. apply pres_bind; [apply tidy_sleep_loop|apply tidy_join_errors].
  - apply safe_of; [apply _..|]. unfold restarted, ReconcileStartup. apply pres_bind; [by intros v Hv|intros _].
    apply pres_bind; [apply tidy_dbcall, tidy_ListVMs|intros l].
    apply pres_bind; [apply tidy_reconcile_loop|apply tidy_join_errors].
  - apply safe_of; [apply _..|]. unfold StartVMs. apply pres_bind; [apply tidy_start_loop|apply tidy_join_errors].
Qed.
End safe.

(** ** Every request is answered *)

Section answers.
Context `{FirecrackerVMM, Env, SparseSeek, GoUnicode, UuidLib, Timestamps}.
Context `{Kernel, BundleCodec, GoQuote, WgTypes, ApiJSON, !RouteAuthSigner}.
Context (cfg : Config) (vmsDir : option string) (NetworkScript : string) (proxy : option (M World unit)).

(** The status of success of a pattern, and the errors it reports as a conflict
    ([None]: all). *)
Definition success_status (pattern : string) : Z :=
  if bool_decide (pattern ∈ ["POST /vms"; "POST /routes"; "POST /snapshots"; "POST /snapshots/{name}/restore";
                             "POST /snapshots/{name}/import"]) then 201 else 200.
Definition conflicts (pattern : string) : option (list error) :=
  if bool_decide (pattern ∈ ["POST /vms"; "POST /routes"]) then None
  else if bool_decide (pattern ∈ ["GET /vms-by-name/{name}"; "GET /vms/{uuid}"])
  then Some [ErrUnsupportedSnapshotExport]
  else if bool_decide (pattern ∈ ["POST /vms/{uuid}/start"; "POST /vms/{uuid}/reboot"]) then Some [ErrAlreadyRunning]
  else if bool_decide (pattern ∈ ["POST /vms/{uuid}/activity"; "POST /vms/{uuid}/sleep"]) then Some [ErrNotRunning]
  else if bool_decide (pattern = "POST /snapshots")
  then Some [ErrNotRunning; ErrRunning; ErrAlreadyRunning; ErrNotStopped]
  else if bool_decide (pattern = "POST /snapshots/{name}/restore") then Some [ErrAlreadyExists]
  else if bool_decide (pattern = "POST /snapshots/{name}/import") then Some [ErrAlreadyExists; ErrStoreAlreadyExists]
  else Some [].
Definition is_conflict (c : option (list error)) (e : error) : bool :=
  match c with None => true | Some l => bool_decide (e ∈ l) end.

(** The answer to a request that was carried out or failed: an error has status
    404 only if something was not found, 409 only for a conflict, and 500
    otherwise; anything else has the status of success. *)
Definition error_fits (c : option (list error)) (st : Z) (e : error) : Prop :=
  st = 500 ∨ (st = 404 ∧ e = ErrNotFound) ∨ (st = 409 ∧ is_conflict c e = true).
Definition settled (ok : Z) (c : option (list error)) (resp : response) : Prop :=
  match rs_Body resp with PError e => error_fits c (rs_Status resp) e | _ => rs_Status resp = ok end.
(** The answer to one that was refused. *)
Definition refused (resp : response) : Prop := rs_Status resp = 400 ∧ ∃ e, rs_Body resp = PError e.

Definition replies (R : response → Prop) (m : M World response) : Prop :=
  ∀ w, ∃ resp w', m w = (Ok resp, w') ∧ R resp.

(** [m] always answers, and a refusal changes nothing. *)
Definition answers (ok : Z) (c : option (list error)) (m : M World response) : Prop :=
  ∀ w, ∃ resp w', m w = (Ok resp, w') ∧ (settled ok c resp ∨ (refused resp ∧ w' = w)).

Lemma replies_json (R : response → Prop) st v : R (MkResponse st v) → replies R (writeJSON st v).
Proof. intros Hs w. by exists (MkResponse st v), w. Qed.
Lemma replies_or_error {A} R (m : M World A) st k :
  (∀ e, R (MkResponse (st e) (PError e))) → (∀ a, replies R (k a)) → replies R (or_error m st k).
Proof.
  intros Hst Hk w. unfold or_error, mbind, M_mbind, attempt. destruct (m w) as [[a|e] w'].
  - apply Hk.
  - by apply (replies_json R (st e) (PError e)).
Qed.
Lemma replies_refuse R b st e k : R (MkResponse st (PError e)) → replies R k → replies R (refuse b st e k).
Proof. intros Hs Hk. unfold refuse. destruct b; [|done]. by apply replies_json. Qed.
Lemma replies_reconciled ok c v : settled ok c (MkResponse ok v) → replies (settled ok c) (reconciled proxy ok v).
Proof. intros Hs. apply replies_or_error; [by left|]. intros _. by apply replies_json. Qed.
Lemma replies_weaken (R R' : response → Prop) m : (∀ x, R x → R' x) → replies R m → replies R' m.
Proof. intros Hsub Hm w. destruct (Hm w) as (resp & w' & E & Hr). exists resp, w'. auto. Qed.

Lemma answers_settled ok c m : replies (settled ok c) m → answers ok c m.
Proof. intros Hm w. destruct (Hm w) as (resp & w' & E & Hr). exists resp, w'. auto. Qed.
Lemma answers_bad_request ok c e : answers ok c (writeError StatusBadRequest e).
Proof.
  intros w. exists (MkResponse StatusBadRequest (PError e)), w. split; [done|]. right.
  split; [split; [done|by exists e]|done].
Qed.
Lemma answers_refuse ok c b e k : answers ok c k → answers ok c (refuse b StatusBadRequest e k).
Proof.
  intros Hk. unfold refuse. destruct b; [apply answers_bad_request|done].
Qed.
Lemma answers_decoded {A} ok c (r : result A) k : (∀ a, answers ok c (k a)) → answers ok c (decoded r k).
Proof.
  intros Hk. unfold decoded. destruct r as [a|e]; [apply Hk|apply answers_bad_request].
Qed.

Lemma found_or_fits c l e : forallb (is_conflict c) l = true → error_fits c (found_or l e) e.
Proof.
  intros Hl. unfold found_or, error_fits. case_bool_decide; [auto|]. case_bool_decide as Hin; [|auto].
  right; right. split; [done|]. by apply (proj1 (forallb_forall _ _) Hl), list_elem_of_In.
Qed.

(** [answered]: a handler from the lemmas above. *)
Ltac answered :=
  lazymatch goal with
  | |- answers _ _ (decoded _ _) => apply answers_decoded; intros ?; answered
  | |- answers _ _ (refuse _ StatusBadRequest _ _) => apply answers_refuse; answered
  | |- answers _ _ (let _ := _ in _) => cbv zeta; answered
  | |- answers _ _ _ => apply answers_settled; answered
  | |- replies _ (or_error _ _ _) => apply replies_or_error; [intros ?; answered|intros ?; answered]
  | |- replies _ (refuse _ _ _ _) => apply replies_refuse; [answered|answered]
  | |- replies _ (reconciled _ _ _) => apply replies_reconciled; answered
  | |- replies _ (writeJSON _ _) => apply replies_json; answered
  | |- replies _ (writeError _ _) => apply replies_json; answered
  | |- settled _ _ (MkResponse (found_or _ _) (PError _)) => apply found_or_fits; by vm_compute
  | |- settled _ _ (MkResponse StatusInternalServerError (PError _)) => by left
  | |- settled _ _ (MkResponse StatusNotFound (PError _)) => by right; left
  | |- settled _ _ (MkResponse StatusConflict (PError _)) => right; right; split; [done|by vm_compute]
  | |- settled _ _ (MkResponse _ _) => by vm_compute
  | |- _ => idtac
  end.

(** The two requests that can find out late that they are wrong. *)
Definition late_patterns : list string := ["PATCH /vms/{uuid}/settings"; "POST /snapshots/{name}/import"].

(** What a handler of a pattern promises. *)
Definition keeps_contract (h : string * handler) : Prop :=
  let ok := success_status h.1 in let c := conflicts h.1 in
  ∀ r v, replies (λ resp, settled ok c resp ∨ refused resp) (h.2 r v) ∧
         ((h.1 ∉ late_patterns) → answers ok c (h.2 r v)).

Lemma late_settings u body :
  replies (λ resp, settled 200 (Some []) resp ∨ refused resp) (handleUpdateVMSettings cfg proxy u body).
Proof.
  assert (∀ e, refused (MkResponse 400 (PError e))) as Hr by (intros e; split; [done|by exists e]).
  unfold handleUpdateVMSettings, decoded. destruct (decode_settings body) as [req|e]; [|apply replies_json; auto].
  apply replies_or_error; [intros e; case_bool_decide as He; [left; subst; answered|auto]|]. intros vm.
  eapply replies_weaken; [|answered]. by left.
Qed.
Lemma late_import n body :
  replies (λ resp, settled 201 (Some [ErrAlreadyExists; ErrStoreAlreadyExists]) resp ∨ refused resp)
    (handleImportSnapshot cfg n body).
Proof.
  assert (∀ e, refused (MkResponse 400 (PError e))) as Hr by (intros e; split; [done|by exists e]).
  unfold handleImportSnapshot. apply replies_refuse; [auto|].
  apply replies_or_error; [|intros sn; apply replies_json; by left].
  intros e. unfold import_status. case_bool_decide; [auto|]. left. case_bool_decide as He; [|by left].
  right; right. split; [done|]. by apply bool_decide_eq_true.
Qed.

Lemma handlers_answer : Forall keeps_contract (routes cfg vmsDir NetworkScript proxy).
Proof.
  assert (∀ p (h : handler), (∀ r v, answers (success_status p) (conflicts p) (h r v)) → keeps_contract (p, h)) as Hboth.
  { intros p h Hm r v. split; [|intros _; apply Hm]. intros w. destruct (Hm r v w) as (resp & w' & E & Hs).
    exists resp, w'. naive_solver. }
  unfold routes. repeat (apply Forall_cons; split); [..|by apply Forall_nil].
  - apply Hboth; intros r v. unfold handleHealth. answered.
  - apply Hboth; intros r v. unfold handleConfig. answered.
  - apply Hboth; intros r v. unfold handleWarmBaseImage. answered.
  - apply Hboth; intros r v. unfold handleListUsage. answered.
  - apply Hboth; intros r v. unfold handleListVMs. answered.
  - apply Hboth; intros r v. unfold handleCreateVM. answered.
  - apply Hboth; intros r v. unfold handleGetVMByName. answered.
  - apply Hboth; intros r v. unfold handleGetVMUsage. answered.
  - apply Hboth; intros r v. unfold handleGetVM. answered.
  - intros r v. split; [apply late_settings|]. intros Hl. exfalso. apply Hl. by left.
  - apply Hboth; intros r v. unfold handleDeleteVM. answered.
  - apply Hboth; intros r v. unfold handleStartVM. answered.
  - apply Hboth; intros r v. unfold handleTouchVMActivity. answered.
  - apply Hboth; intros r v. unfold handleStopVM. answered.
  - apply Hboth; intros r v. unfold handleSleepVM. answered.
  - apply Hboth; intros r v. unfold handleRebootVM. answered.
  - apply Hboth; intros r v. unfold handleListRoutes. answered.
  - apply Hboth; intros r v. unfold handleCreateRoute. answered.
  - apply Hboth; intros r v. unfold handleDeleteRoute. answered.
  - apply Hboth; intros r v. unfold handleProtectRoute. answered.
  - apply Hboth; intros r v. unfold handleUnprotectRoute. answered.
  - apply Hboth; intros r v. unfold handleRouteSignedURL. answered.
  - apply Hboth; intros r v. unfold handleListSnapshots. answered.
  - apply Hboth; intros r v. unfold handleCreateSnapshot. answered.
  - apply Hboth; intros r v. unfold handleGetSnapshot. answered.
  - apply Hboth; intros r v. unfold handleDeleteSnapshot. answered.
  - apply Hboth; intros r v. unfold handleRestoreSnapshot. answered.
  - apply Hboth; intros r v. unfold handleExportSnapshot. apply answers_refuse, answers_settled, replies_or_error;
      [intros e; answered|]. intros [[md size] disk] w.
    unfold mbind, M_mbind, attempt. destruct (export_write md size disk w) as [[bytes|e] w'];
      (apply (replies_json _ StatusOK)); answered.
  - intros r v. split; [apply late_import|]. intros Hl. exfalso. apply Hl. by right; left.
  - apply Hboth; intros r v. unfold handleListWireGuardPeers. answered.
  - apply Hboth; intros r v. unfold handleWireGuardPeerConfig. destruct (list_find _ _) as [[i p]|]; answered.
  - apply Hboth; intros r v. unfold handleHelp. answered.
Qed.

(** The pattern a request goes to. *)
Definition pattern_of (table : list (string * handler)) (r : request) : option string :=
  (λ ih, ih.2.1) <$> list_find (λ h, is_Some (match_pattern h.1 r)) table.

Lemma pattern_of_cons p h table r : pattern_of ((p, h) :: table) r =
  match match_pattern p r with Some _ => Some p | None => pattern_of table r end.
Proof.
  unfold pattern_of. cbn [list_find fst]. destruct (match_pattern p r) as [v|] eqn:E.
  - by rewrite decide_True by eauto.
  - rewrite decide_False by (by intros []). by destruct (list_find _ table) as [[]|].
Qed.

Lemma serve_mux_answers table r w :
  Forall keeps_contract table →
  ∃ resp w', serve_mux table r w = (Ok resp, w') ∧
    match pattern_of table r with
    | None => rs_Status resp = 405 ∧ w' = w
    | Some p => (settled (success_status p) (conflicts p) resp ∨ refused resp) ∧
                (rs_Status resp = 400 → (p ∉ late_patterns) → w' = w)
    end.
Proof.
  intros Ht. induction table as [|[p h] table IH]; cbn [serve_mux]; [by eexists _, w|].
  apply Forall_cons in Ht as [Hh Ht]. rewrite pattern_of_cons.
  destruct (match_pattern p r) as [v|]; [|by apply IH].
  destruct (Hh r (PathValue v)) as [Hr Ha]. destruct (Hr w) as (resp & w' & E & Hs).
  exists resp, w'. split; [exact E|]. split; [exact Hs|]. intros Hst Hl.
  destruct (Ha Hl w) as (resp2 & w2 & E2 & [Hset|[_ Hw]]); cbn [snd] in *; rewrite E in E2; injection E2 as <- <-; [|done].
  exfalso. unfold settled in Hset. rewrite Hst in Hset. unfold error_fits, success_status in Hset.
  destruct (rs_Body resp); try case_bool_decide; naive_solver.
Qed.
End answers.

(** ** The theorems *)

(** C2.  The whole daemon: after any history of API requests (of any method,
    path and body), guest reports, monitor rounds, wake-ups, process exits,
    shutdowns and restarts, under every pattern of failures, the manager's
    invariant holds and no lock is held; every VM has a DNS label that is not a
    UUID as its name, every route is made of labels and has a port, every
    snapshot has an accepted name (of protected host names nothing is said); so VM and snapshot names are single
    components of the paths built from them. *)
Theorem daemon_reachable_safe
    `{FirecrackerVMM, Env, SparseSeek, GoUnicode, UuidLib, TimestampLaws}
    `{Kernel, BundleCodec, GoQuote, WgTypes, ApiJSON, !RouteAuthSigner}
    cfg vmsDir script proxy w0 w :
  (∀ p, proxy = Some p → Bystander p) → (∀ h t, Bystander (SignedURL h t)) →
  db w0 = empty_store → running w0 = ∅ → locks w0 = (∅, ∅) →
  rtc (daemon_step cfg vmsDir script proxy) w0 w →
  sound cfg (db w) (running w) ∧ locks w = (∅, ∅) ∧ tidy (db w) ∧
  (∀ u vm, vms (db w) !! u = Some vm → good_part (vm_Name vm)) ∧
  (∀ n sn, snapshots (db w) !! n = Some sn → good_part n).
Proof.
  intros Hproxy Hsign Hdb Hrun Hl Hsteps. cut (safe cfg w).
  { intros ([Hs _] & Hu & Ht). split_and!; try done.
    - intros u vm Hvm. apply (td_vm _ Ht) in Hvm. apply validVMName_label in Hvm as [Hv _]. by apply label_good.
    - intros n sn Hsn. apply (td_snapshot _ Ht) in Hsn as [Hn _]. by apply validSnapshotName_good. }
  assert (safe cfg w0) as Hw0.
  { split; [|split; [done|]].
    - split; [|done]. rewrite Hdb, Hrun. split; [apply empty_store_ok|done..].
    - unfold tidy_world. rewrite Hdb. split; intros k x Hk; exfalso; exact (lookup_empty_Some _ _ Hk). }
  clear Hdb Hrun Hl. induction Hsteps as [|w1 w2 w3 Hs _ IH]; [done|]. apply IH.
  by eapply daemon_step_safe.
Qed.


(** The names the API accepts are exactly those of the regular
    expressions of the source. *)
Theorem names_match_patterns :
  (∀ s, validDNSLabel s = true ↔ matches vmNamePattern s) ∧
  (∀ s, validRouteName s = true ↔ Forall (matches vmNamePattern) (Split s ".")) ∧
  (∀ s, validSnapshotName s = true ↔ matches snapshotNamePattern s).
Proof.
  split; [apply validDNSLabel_pattern|]. split; [|apply validSnapshotName_pattern].
  intros s. unfold validRouteName. rewrite forallb_forall, Forall_forall.
  setoid_rewrite <-list_elem_of_In. by setoid_rewrite validDNSLabel_pattern.
Qed.

(** ** An example: two requests *)

Definition quiet_kernel : Kernel :=
  {| kernel_read _ _ := Err ErrNotExist; stat_blocks _ _ := 0; process_pid _ := 1 |}.

(** A body that is the name of a VM. *)
Definition bare_json : ApiJSON := {|
  decode_create b := Ok (MkVMRequest b 0 0 0 0 0 0 None true);
  decode_restore b := Ok (MkVMRequest b 0 0 0 0 0 0 None true);
  decode_settings _ := Err (ErrOther "invalid character");
  decode_route _ := Err (ErrOther "invalid character");
  decode_hostname b := Ok b;
  decode_signed_url b := Ok (MkSignedURLRequest b 0);
  decode_snapshot _ := Err (ErrOther "invalid character");
  decode_memory_hint _ := Err (ErrOther "invalid character");
|}.
Definition no_signer : @RouteAuthSigner toy_vmm := λ _ _, fail (ErrOther "no key").

Definition example_step : @World toy_vmm → @World toy_vmm → Prop :=
  @daemon_step toy_vmm calm dense_seek ascii_only uuid_shape decimal_stamps quiet_kernel code_codec ascii_quote
    plain_keys bare_json no_signer Default None "" None.
Definition example_serve (r : request) (w : @World toy_vmm) : result response * @World toy_vmm :=
  @ServeHTTP toy_vmm calm dense_seek ascii_only uuid_shape decimal_stamps quiet_kernel code_codec ascii_quote
    plain_keys bare_json no_signer Default None "" None r w.

Definition post_vm (name : string) : request := MkRequest "POST" ["vms"] [] name.

Example post_vm_status :
  let '(r1, w1) := example_serve (post_vm "web") image_world in
  let '(r2, w2) := example_serve (post_vm "../etc") w1 in
  let '(r3, _) := example_serve (post_vm "web") w2 in
  let '(r4, _) := example_serve (MkRequest "DELETE" ["vms"; "none"] [] "") w2 in
  match r1, r2, r3, r4 with
  | Ok a, Ok b, Ok c, Ok d => (rs_Status a, rs_Status b, rs_Status c, rs_Status d) = (201, 400, 409, 404)
  | _, _, _, _ => False
  end.
Proof. vm_compute. reflexivity. Qed.

Lemma daemon_reachable_safe_witness :
  let w := (example_serve (post_vm "../etc") (example_serve (post_vm "web") image_world).2).2 in
  sound Default (db w) (running w) ∧ @tidy uuid_shape (db w) ∧ (vm_Name <$> vm_rows (db w)) = ["web"].
Proof.
  intros w. assert (rtc example_step image_world w) as Hsteps.
  { eapply rtc_l; [apply (on_request _ _ _ _ _ (post_vm "web"))|]. apply rtc_once.
    apply (on_request _ _ _ _ _ (post_vm "../etc")). }
  destruct (@daemon_reachable_safe toy_vmm calm dense_seek ascii_only uuid_shape decimal_stamps decimal_stamps_laws
    quiet_kernel code_codec ascii_quote plain_keys bare_json no_signer Default None "" None image_world w)
    as (Hs & _ & Ht & _); [discriminate|by split|reflexivity..|exact Hsteps|].
  split; [exact Hs|]. split; [exact Ht|]. vm_compute. reflexivity.
Defined.
