(* ===== verification/HostWireguard.v ===== *)
(** * The WireGuard interface of the host (internal/host/wireguard.go)

    Setting the interface up, and bringing its peers up to date when the
    configuration is read again.  The device is the kernel's: the class
    [WgDevice], with the documented effect of a configuration on its peers as
    [WgDeviceLaws]. *)

From S2P Require Import Prelude GoStrings Paths IPNet Json Types Store Config PrivateNet World FileCopy Wireguard.
From stdpp Require Import sorting.
Open Scope Z_scope.

(** The peers of a device: the allowed networks of each key. *)
Abbreviation Peers := (gmap string (gset string)).

Section peer_config.
Context `{WgTypes}.

(** wgtypes.PeerConfig, as far as it is used. *)
Record wgPeerConfig := MkPeerConfig {
  pc_PublicKey : wg_key;
  pc_Remove : bool;
  pc_ReplaceAllowedIPs : bool;
  pc_AllowedIPs : list IPNet;
}.
Definition pc_key (c : wgPeerConfig) : string := wg_String (pc_PublicKey c).
Definition pc_nets (c : wgPeerConfig) : gset string := list_to_set (IPNet_String <$> pc_AllowedIPs c).

(** The kernel's rule for one peer: it is removed, or created and its networks
    added (after they are cleared, if they are to be replaced); a network given
    to one peer is taken from every other. *)
Definition apply_peer (ps : Peers) (c : wgPeerConfig) : Peers :=
  if pc_Remove c then delete (pc_key c) ps
  else
    let had := if pc_ReplaceAllowedIPs c then ∅ else default ∅ (ps !! pc_key c) in
    <[pc_key c := had ∪ pc_nets c]> ((λ nets, nets ∖ pc_nets c) <$> ps).

Class WgDevice := {
  device : Type;
  dev_peers : device → Peers;
  dev_configure : bool → option (wg_key * Z) → list wgPeerConfig → device → device;
}.
Class WgDeviceLaws `{WgDevice} : Prop := {
  configure_replaces kp l d : dev_peers (dev_configure true kp l d) = fold_left apply_peer l ∅;
  configure_updates kp l d : dev_peers (dev_configure false kp l d) = fold_left apply_peer l (dev_peers d);
}.
End peer_config.

(** ** The difference of two configurations *)

Section diff.
Context `{WgTypes}.

Record runtimeWGPeer := MkRuntimePeer {
  rp_name : string;
  rp_publicKey : wg_key;
  rp_allowedIPs : list IPNet;
  rp_allowedIPKeyParts : list string;
}.

Definition parse_allowed (allowed : list string) : result (list IPNet) :=
  foldr (λ cidr acc,
    match ParseCIDR cidr with
    | None => Err (ErrOther "peer allowed_ips")
    | Some (_, n) => ns ← acc; Ok (n :: ns)
    end) (Ok []) allowed.

Fixpoint runtime_loop (peers : list WGPeer) (out : gmap string runtimeWGPeer) : result (gmap string runtimeWGPeer) :=
  match peers with
  | [] => Ok out
  | peer :: rest =>
      match wg_ParseKey (peer_PublicKey peer) with
      | None => Err (ErrOther "peer public key")
      | Some publicKey =>
          let key := wg_String publicKey in
          if bool_decide (is_Some (out !! key)) then Err (ErrOther "wireguard peer duplicates public key") else
          allowedIPs ← parse_allowed (peer_AllowedIPs peer);
          runtime_loop rest (<[key := MkRuntimePeer (peer_Name peer) publicKey allowedIPs
            (merge_sort String.le (IPNet_String <$> allowedIPs))]> out)
      end
  end.
Definition runtimeWGPeersByKey (peers : list WGPeer) : result (gmap string runtimeWGPeer) := runtime_loop peers ∅.

Definition sameStringSet (a b : list string) : bool := bool_decide (a = b).

Record wireGuardPeerDiffSummary := MkSummary { sm_added : Z; sm_updated : Z; sm_removed : Z }.

Definition replace_peer (p : runtimeWGPeer) : wgPeerConfig := MkPeerConfig (rp_publicKey p) false true (rp_allowedIPs p).

Definition removal (newByKey : gmap string runtimeWGPeer) (kp : string * runtimeWGPeer) : option wgPeerConfig :=
  if bool_decide (is_Some (newByKey !! kp.1)) then None
  else Some (MkPeerConfig (rp_publicKey kp.2) true false []).
Definition removals (newByKey : gmap string runtimeWGPeer) (iter : list (string * runtimeWGPeer)) : list wgPeerConfig :=
  omap (removal newByKey) iter.

Definition replacement (oldByKey : gmap string runtimeWGPeer) (kp : string * runtimeWGPeer) : option wgPeerConfig :=
  match oldByKey !! kp.1 with
  | None => Some (replace_peer kp.2)
  | Some oldPeer =>
      if sameStringSet (rp_allowedIPKeyParts oldPeer) (rp_allowedIPKeyParts kp.2) then None
      else Some (replace_peer kp.2)
  end.
Definition replacements (oldByKey : gmap string runtimeWGPeer) (iter : list (string * runtimeWGPeer)) : list wgPeerConfig :=
  omap (replacement oldByKey) iter.

Definition summary_of (oldByKey newByKey : gmap string runtimeWGPeer) (o n : list (string * runtimeWGPeer))
    : wireGuardPeerDiffSummary :=
  let fresh := omap (λ '(key, p), if bool_decide (is_Some (oldByKey !! key)) then None else Some (replace_peer p)) n in
  MkSummary (Z.of_nat (length fresh)) (Z.of_nat (length (replacements oldByKey n)) - Z.of_nat (length fresh))
    (Z.of_nat (length (removals newByKey o))).

(** [order]: the order in which Go walks a map, which is not specified. *)
Definition wireGuardPeerDiff
    (order : gmap string runtimeWGPeer → list (string * runtimeWGPeer)) (oldPeers newPeers : list WGPeer)
    : result (list wgPeerConfig * wireGuardPeerDiffSummary) :=
  oldByKey ← runtimeWGPeersByKey oldPeers;
  newByKey ← runtimeWGPeersByKey newPeers;
  let o := order oldByKey in let n := order newByKey in
  Ok (removals newByKey o ++ replacements oldByKey n, summary_of oldByKey newByKey o n).
End diff.

(** ** The host *)

Section host.
Context `{FirecrackerVMM, Env, GoUnicode, WgTypes, !WgDevice}.

Record WgHost := MkWgHost {
  wh_world : World;
  wh_links : gmap string string;             (* name to type *)
  wh_addrs : gset (string * string);
  wh_up : gset string;
  wh_device : device;
}.
Definition set_world w h := MkWgHost w (wh_links h) (wh_addrs h) (wh_up h) (wh_device h).
Definition set_links f h := MkWgHost (wh_world h) (f (wh_links h)) (wh_addrs h) (wh_up h) (wh_device h).
Definition set_addrs f h := MkWgHost (wh_world h) (wh_links h) (f (wh_addrs h)) (wh_up h) (wh_device h).
Definition set_up f h := MkWgHost (wh_world h) (wh_links h) (wh_addrs h) (f (wh_up h)) (wh_device h).
Definition set_device f h := MkWgHost (wh_world h) (wh_links h) (wh_addrs h) (wh_up h) (f (wh_device h)).

Definition onWorld {A} (m : M World A) : M WgHost A := λ h,
  let '(r, w) := m (wh_world h) in (r, set_world w h).
(** A netlink or wgctrl call, which may fail like any external call. *)
Definition call {A} (m : M WgHost A) : M WgHost A := λ h,
  let h' := set_world (bump (wh_world h)) h in
  match fate (tick (wh_world h)) with
  | Proceed => m h'
  | FailBefore f => (Err (fault_error f), h')
  | FailAfter f => (Err (fault_error f), (m h').2)
  end.

(** wgtypes.ParseKey ignores the line ending of the file. *)
Definition ensureWireGuardPrivateKey (path : string) : M World wg_key :=
  r ← attempt (open_read path);
  match r with
  | Ok data => match wg_ParseKey data with Some k => mret k | None => fail (ErrOther "wgtypes: incorrect key") end
  | Err ErrNotExist =>
      t ← ticks;
      k ← ext (lift_result (match wg_GeneratePrivateKey t with
                            | Some k => Ok k | None => Err (ErrOther "generate key") end));
      os_MkdirAll (path_Dir path) ;;
      os_WriteFile path (wg_String k +:+ nl) ;;
      mret k
  | Err e => fail e
  end.

Definition ensureWireGuardLink (name : string) : M WgHost unit :=
  links ← call (gets wh_links);
  match links !! name with
  | Some type => if bool_decide (type = "wireguard") then mret tt else fail (ErrOther "existing link is not wireguard")
  | None =>
      call (modify (set_links <[name := "wireguard"]>)) ;;
      call (mret tt)
  end.

Fixpoint device_peers (peers : list WGPeer) : result (list wgPeerConfig) :=
  match peers with
  | [] => Ok []
  | peer :: rest =>
      match wg_ParseKey (peer_PublicKey peer) with
      | None => Err (ErrOther "peer public key")
      | Some publicKey =>
          allowedIPs ← parse_allowed (peer_AllowedIPs peer);
          l ← device_peers rest;
          Ok (MkPeerConfig publicKey false true allowedIPs :: l)
      end
  end.

Definition EnsureWireGuard (cfg : WireGuardConfig) : M WgHost unit :=
  lift_result (WireGuard_Validate cfg) ;;
  privateKey ← onWorld (ensureWireGuardPrivateKey (wg_PrivateKeyFile cfg));
  ensureWireGuardLink (wg_Interface cfg) ;;
  match ParseCIDR (wg_Address cfg) with
  | None => fail (ErrOther "parse address")
  | Some _ =>
      call (modify (set_addrs (union {[(wg_Interface cfg, wg_Address cfg)]}))) ;;
      call (mret tt) ;;
      peers ← lift_result (device_peers (wg_Peers cfg));
      call (modify (set_device (dev_configure true (Some (privateKey, wg_ListenPort cfg)) peers))) ;;
      call (modify (set_up (union {[wg_Interface cfg]})))
  end.

Definition ReconcileWireGuardPeers (order : gmap string runtimeWGPeer → list (string * runtimeWGPeer))
    (oldCfg newCfg : WireGuardConfig) : M WgHost unit :=
  '(peerConfigs, _) ← lift_result (wireGuardPeerDiff order (wg_Peers oldCfg) (wg_Peers newCfg));
  match peerConfigs with
  | [] => mret tt
  | _ =>
      call (mret tt) ;;
      call (modify (set_device (dev_configure false None peerConfigs)))
  end.
End host.

(** ** A list of changes applied in any order *)

Section apply.
Context `{WgTypes}.

(** The changes the program makes: a removal, or a replacement. *)
Definition plain (c : wgPeerConfig) : Prop := pc_Remove c = true ∨ pc_ReplaceAllowedIPs c = true.
Definition taken (l : list wgPeerConfig) : gset string :=
  foldr (λ c acc, (if pc_Remove c then ∅ else pc_nets c) ∪ acc) ∅ l.
Definition change_of (l : list wgPeerConfig) (k : string) : option wgPeerConfig :=
  snd <$> list_find (λ c, pc_key c = k) l.

Lemma change_of_cons c l k :
  change_of (c :: l) k = if bool_decide (pc_key c = k) then Some c else change_of l k.
Proof.
  unfold change_of. cbn [list_find]. rewrite decide_bool_decide. case_bool_decide; [done|].
  by destruct (list_find _ l) as [[]|].
Qed.

Lemma change_of_None l k : (k ∉ pc_key <$> l) → change_of l k = None.
Proof.
  induction l as [|c l IH]; [done|]. cbn [fmap list_fmap]. rewrite not_elem_of_cons, change_of_cons.
  intros [Hk Hl]. rewrite bool_decide_eq_false_2 by congruence. by apply IH.
Qed.

(** Replacements that share no network. *)
Inductive separate : list wgPeerConfig → Prop :=
  | separate_nil : separate []
  | separate_cons c l : (pc_key c ∉ pc_key <$> l) → plain c → (pc_Remove c = false → pc_nets c ## taken l) →
      separate l → separate (c :: l).

Lemma fold_apply_lookup l : separate l → ∀ ps k,
  fold_left apply_peer l ps !! k =
  match change_of l k with
  | Some c => if pc_Remove c then None else Some (pc_nets c)
  | None => (λ nets, nets ∖ taken l) <$> ps !! k
  end.
Proof.
  induction 1 as [|c l Hk Hp Hd Hl IH]; intros ps k; cbn [fold_left taken foldr].
  { simpl. destruct (ps !! k); simpl; [|done]. by rewrite difference_empty_L. }
  rewrite IH, change_of_cons. fold (taken l). case_bool_decide as Heq.
  - subst k. rewrite change_of_None by done. unfold apply_peer. destruct (pc_Remove c) eqn:Hr.
    + by rewrite lookup_delete_eq.
    + destruct Hp as [?|Hp]; [congruence|]. rewrite Hp, lookup_insert_eq. simpl. f_equal.
      specialize (Hd eq_refl). set_solver.
  - destruct (change_of l k) as [c'|]; [done|]. unfold apply_peer. destruct (pc_Remove c).
    + rewrite lookup_delete_ne by done. by rewrite union_empty_l_L.
    + rewrite lookup_insert_ne, lookup_fmap by done. destruct (ps !! k); [|done]. simpl. f_equal. set_solver.
Qed.
End apply.

(** ** The peers of a configuration *)

Section reconcile.
Context `{WgTypes}.

Definition nets_of (p : runtimeWGPeer) : gset string := list_to_set (IPNet_String <$> rp_allowedIPs p).

(** What a device holds when it is configured with these peers. *)
Definition configured (byKey : gmap string runtimeWGPeer) : Peers := nets_of <$> byKey.

Lemma parse_allowed_nets allowed ns :
  parse_allowed allowed = Ok ns → Forall (λ s, is_Some (allowed_net s)) allowed →
  IPNet_String <$> ns = omap allowed_net allowed.
Proof.
  revert ns. induction allowed as [|s allowed IH]; intros ns; cbn [parse_allowed foldr].
  { by intros [= <-] _. }
  destruct (ParseCIDR s) as [[ip n]|] eqn:Hp; [|done]. fold (parse_allowed allowed).
  destruct (parse_allowed allowed) as [ns'|]; [|done]. intros [= <-] [[x Hs] Hf]%Forall_cons.
  cbn [fmap list_fmap omap list_omap]. rewrite Hs. unfold allowed_net in Hs. rewrite Hp in Hs. simpl in Hs.
  destruct (is_v4 ip); [done|]. injection Hs as <-. f_equal. by apply IH.
Qed.

Definition peer_wf (k : string) (p : runtimeWGPeer) : Prop :=
  k = wg_String (rp_publicKey p) ∧ rp_allowedIPKeyParts p ≡ₚ IPNet_String <$> rp_allowedIPs p.

Lemma runtime_loop_wf peers : ∀ out m,
  runtime_loop peers out = Ok m → map_Forall peer_wf out → map_Forall peer_wf m.
Proof.
  induction peers as [|peer rest IH]; intros out m; cbn [runtime_loop]; [by intros [= ->]|].
  destruct (wg_ParseKey _) as [key|]; [|done]. cbv zeta. case_bool_decide; [done|].
  unfold mbind, result_mbind. destruct (parse_allowed _) as [ns|]; [|done]. intros E Hout.
  eapply IH; [exact E|]. apply map_Forall_insert_2; [|done]. split; [done|]. apply merge_sort_Permutation.
Qed.

(** The networks of different peers of a valid configuration are different. *)
Lemma runtime_loop_disjoint peers : ∀ out m,
  runtime_loop peers out = Ok m → Forall peer_valid peers → NoDup (peers ≫= peer_nets) →
  (∀ k p, out !! k = Some p → nets_of p ## list_to_set (peers ≫= peer_nets)) →
  (∀ k1 k2 p1 p2, out !! k1 = Some p1 → out !! k2 = Some p2 → k1 ≠ k2 → nets_of p1 ## nets_of p2) →
  ∀ k1 k2 p1 p2, m !! k1 = Some p1 → m !! k2 = Some p2 → k1 ≠ k2 → nets_of p1 ## nets_of p2.
Proof.
  induction peers as [|peer rest IH]; intros out m; cbn [runtime_loop]; [by intros [= ->] _ _ _ ?|].
  destruct (wg_ParseKey _) as [key|]; [|done]. cbv zeta. case_bool_decide as Hnew; [done|].
  unfold mbind at 1, result_mbind. destruct (parse_allowed _) as [ns|] eqn:Hns; [|done].
  intros E [Hv Hrest]%Forall_cons Hnd Hout Hpair. cbn [mbind list_bind] in Hnd, Hout.
  apply NoDup_app in Hnd as (_ & Hnd & Hnd').
  assert (nets_of (MkRuntimePeer (peer_Name peer) key ns (merge_sort String.le (IPNet_String <$> ns))) =
          list_to_set (peer_nets peer)) as Hp.
  { unfold nets_of, peer_nets. cbn [rp_allowedIPs]. f_equal. apply parse_allowed_nets; [done|]. apply Hv. }
  eapply IH; [exact E|done|done|..].
  - intros k p. rewrite lookup_insert_Some. intros [[<- <-]|[_ Hk]].
    + rewrite Hp. intros x Hx1%elem_of_list_to_set Hx2%elem_of_list_to_set. by apply (Hnd x).
    + specialize (Hout k p Hk). rewrite list_to_set_app_L in Hout. set_solver.
  - intros k1 k2 p1 p2. rewrite !lookup_insert_Some. intros [[<- <-]|[Hk1 Hl1]] [[<- <-]|[Hk2 Hl2]] Hne; try done.
    + rewrite Hp. specialize (Hout k2 p2 Hl2). rewrite list_to_set_app_L in Hout. set_solver.
    + rewrite Hp. specialize (Hout k1 p1 Hl1). rewrite list_to_set_app_L in Hout. set_solver.
    + by eapply Hpair.
Qed.

Lemma byKey_disjoint peers m k1 k2 p1 p2 :
  runtimeWGPeersByKey peers = Ok m → peers_valid peers →
  m !! k1 = Some p1 → m !! k2 = Some p2 → k1 ≠ k2 → nets_of p1 ## nets_of p2.
Proof.
  intros E (Hv & _ & _ & Hnd). eapply runtime_loop_disjoint; [exact E|done|done|..];
    intros *; rewrite lookup_empty; done.
Qed.

Lemma elem_of_taken x l : x ∈ taken l ↔ ∃ c, c ∈ l ∧ pc_Remove c = false ∧ x ∈ pc_nets c.
Proof.
  induction l as [|c l IH]; cbn [taken foldr].
  { split; [by intros ?%elem_of_empty|]. intros (c & Hc & _). by apply not_elem_of_nil in Hc. }
  fold (taken l). rewrite elem_of_union, IH. setoid_rewrite elem_of_cons. split.
  - intros [Hx|(d & Hd & Hr & Hx)]; [|by eauto]. destruct (pc_Remove c) eqn:Hr; [|by eauto].
    by apply elem_of_empty in Hx.
  - intros (d & [->|Hd] & Hr & Hx); [left; by rewrite Hr|by eauto].
Qed.

Lemma separate_intro l :
  NoDup (pc_key <$> l) → Forall plain l →
  (∀ c1 c2, c1 ∈ l → c2 ∈ l → pc_key c1 ≠ pc_key c2 → pc_Remove c1 = false → pc_Remove c2 = false →
     pc_nets c1 ## pc_nets c2) → separate l.
Proof.
  induction l as [|c l IH]; intros Hn Hp Hd; [constructor|].
  cbn [fmap list_fmap] in Hn. apply NoDup_cons in Hn as [Hc Hn]. apply Forall_cons in Hp as [Hpc Hp].
  constructor; [done|done| |].
  - intros Hr x Hx (c' & Hc' & Hr' & Hx')%elem_of_taken. apply (Hd c c') with x; try done; try set_solver.
  - apply IH; [done|done|]. intros c1 c2 ??. apply Hd; set_solver.
Qed.

Lemma change_of_app l1 l2 k :
  change_of (l1 ++ l2) k = match change_of l1 k with Some c => Some c | None => change_of l2 k end.
Proof. induction l1 as [|c l1 IH]; [done|]. cbn [app]. rewrite !change_of_cons. by case_bool_decide. Qed.

Lemma change_of_Some l k c : change_of l k = Some c → c ∈ l ∧ pc_key c = k.
Proof.
  unfold change_of. intros ([i c'] & Hf & Hc)%fmap_Some. simpl in Hc. subst c'.
  apply list_find_Some in Hf as (Hi & Hk & _). split; [by eapply list_elem_of_lookup_2|done].
Qed.
Lemma change_of_elem l c : NoDup (pc_key <$> l) → c ∈ l → change_of l (pc_key c) = Some c.
Proof.
  induction l as [|d l IH]; cbn [fmap list_fmap]; intros Hn Hc; [by apply not_elem_of_nil in Hc|].
  apply NoDup_cons in Hn as [Hd Hn]. rewrite change_of_cons. apply elem_of_cons in Hc as [->|Hc].
  - by rewrite bool_decide_eq_true_2.
  - rewrite bool_decide_eq_false_2; [by apply IH|]. intros E. apply Hd. rewrite E. by apply list_elem_of_fmap_2.
Qed.

(** The changes made of a walk over a map. *)
Lemma change_of_omap (g : string * runtimeWGPeer → option wgPeerConfig) m iter k :
  iter ≡ₚ map_to_list m → (∀ k p c, m !! k = Some p → g (k, p) = Some c → pc_key c = k) →
  NoDup (pc_key <$> omap g iter) ∧ change_of (omap g iter) k = (p ← m !! k; g (k, p)).
Proof.
  intros Hi Hg.
  assert (NoDup iter.*1) as Hn by (rewrite Hi; apply NoDup_fst_map_to_list).
  assert (∀ kp, kp ∈ iter ↔ m !! kp.1 = Some kp.2) as Hel.
  { intros [k' p]. by rewrite Hi, elem_of_map_to_list. }
  clear Hi. assert (∀ kp c, kp ∈ iter → g kp = Some c → pc_key c = kp.1) as Hkey.
  { intros [k' p] c Hin%Hel Hc. by eapply Hg. }
  assert (NoDup (pc_key <$> omap g iter)) as Hnd.
  { clear Hel Hg. induction iter as [|kp iter IH]; [constructor|]. cbn [fmap list_fmap omap list_omap] in *.
    apply NoDup_cons in Hn as [Hk Hn]. specialize (IH Hn). 
    assert (NoDup (pc_key <$> omap g iter)) as Hrec by (apply IH; set_solver).
    destruct (g kp) as [c|] eqn:Ec; [|done]. cbn [fmap list_fmap]. apply NoDup_cons. split; [|done].
    intros (c' & E & Hc')%list_elem_of_fmap. apply list_elem_of_omap in Hc' as (kp' & Hin & Hc').
    apply Hk. rewrite <-(Hkey kp c), E by (done || left). rewrite (Hkey kp' c') by (done || by right).
    by apply list_elem_of_fmap_2. }
  split; [done|]. destruct (m !! k) as [p|] eqn:Hm; cbn [mbind option_bind].
  - assert ((k, p) ∈ iter) as Hin by by apply Hel. destruct (g (k, p)) as [c|] eqn:Ec.
    + rewrite <-(Hg k p c) by done. apply change_of_elem; [done|]. apply list_elem_of_omap. by exists (k, p).
    + destruct (change_of _ k) as [c|] eqn:Eq; [|done]. exfalso. apply change_of_Some in Eq as [Hc Hk].
      apply list_elem_of_omap in Hc as ([k' p'] & Hin' & Hc'). rewrite (Hkey (k', p') c) in Hk by done. simpl in Hk.
      subst k'. apply Hel in Hin'. simpl in Hin'. congruence.
  - destruct (change_of _ k) as [c|] eqn:Eq; [|done]. exfalso. apply change_of_Some in Eq as [Hc Hk].
    apply list_elem_of_omap in Hc as ([k' p'] & Hin' & Hc'). rewrite (Hkey (k', p') c) in Hk by done. simpl in Hk.
    subst k'. apply Hel in Hin'. simpl in Hin'. congruence.
Qed.

(** ** Starting from nothing *)

Lemma device_peers_lookup peers : ∀ out m l,
  runtime_loop peers out = Ok m → device_peers peers = Ok l →
  NoDup (pc_key <$> l) ∧ (∀ c, c ∈ l → out !! pc_key c = None) ∧
  Forall (λ c, pc_Remove c = false ∧ pc_ReplaceAllowedIPs c = true) l ∧
  ∀ k, configured m !! k = match change_of l k with Some c => Some (pc_nets c) | None => configured out !! k end.
Proof.
  induction peers as [|peer rest IH]; intros out m l; cbn [runtime_loop device_peers].
  { intros [= ->] [= <-]. split_and!; try constructor; try done. intros c Hc. by apply not_elem_of_nil in Hc. }
  destruct (wg_ParseKey _) as [key|]; [|done]. cbv zeta. case_bool_decide as Hnew; [done|].
  apply eq_None_not_Some in Hnew. unfold mbind, result_mbind. destruct (parse_allowed _) as [ns|] eqn:Hns; [|done].
  destruct (device_peers rest) as [l'|] eqn:Hl; [|done]. intros E [= <-].
  destruct (IH _ _ _ E eq_refl) as (Hn & Ho & Hf & Hk). set (c := MkPeerConfig key false true ns).
  assert (pc_key c ∉ pc_key <$> l') as Hc.
  { intros (c' & Ec & Hc')%list_elem_of_fmap. specialize (Ho c' Hc'). rewrite <-Ec, lookup_insert_eq in Ho. done. }
  split_and!.
  - cbn [fmap list_fmap]. by constructor.
  - intros c' [->|Hc']%elem_of_cons; [done|]. specialize (Ho c' Hc'). by apply lookup_insert_None in Ho as [? _].
  - by constructor.
  - intros k. rewrite Hk, change_of_cons. case_bool_decide as Heq.
    + subst k. rewrite change_of_None by done. unfold configured. rewrite lookup_fmap.
      change (pc_key c) with (wg_String key). by rewrite lookup_insert_eq.
    + destruct (change_of l' k); [done|]. unfold configured. by rewrite !lookup_fmap, lookup_insert_ne.
Qed.

Lemma device_peers_configured peers m l :
  runtimeWGPeersByKey peers = Ok m → device_peers peers = Ok l → peers_valid peers →
  fold_left apply_peer l ∅ = configured m.
Proof.
  intros Em El Hv. destruct (device_peers_lookup _ _ _ _ Em El) as (Hn & _ & Hf & Hk).
  rewrite Forall_forall in Hf.
  assert (∀ c, c ∈ l → ∃ p, m !! pc_key c = Some p ∧ nets_of p = pc_nets c) as Hm.
  { intros c Hc. specialize (Hk (pc_key c)). rewrite change_of_elem in Hk by done. unfold configured in Hk.
    rewrite lookup_fmap in Hk. apply fmap_Some in Hk as (p & Hp & E). eauto. }
  apply map_eq. intros k. rewrite fold_apply_lookup, Hk.
  - destruct (change_of l k) as [c|] eqn:Ec.
    + apply change_of_Some in Ec as [Hc _]. by rewrite (proj1 (Hf c Hc)).
    + unfold configured. by rewrite lookup_fmap, !lookup_empty.
  - apply separate_intro; [done|apply Forall_forall; intros c Hc; right; by apply Hf|].
    intros c1 c2 Hc1 Hc2 Hne _ _. destruct (Hm c1 Hc1) as (p1 & Hp1 & <-), (Hm c2 Hc2) as (p2 & Hp2 & <-).
    by eapply byKey_disjoint.
Qed.

(** ** The difference brings a device up to date *)

Section changes.
Context (mo mn : gmap string runtimeWGPeer) (o n : list (string * runtimeWGPeer)).
Context (Ho : o ≡ₚ map_to_list mo) (Hn : n ≡ₚ map_to_list mn).
Context (Wo : map_Forall peer_wf mo) (Wn : map_Forall peer_wf mn).

Lemma change_of_removals k :
  NoDup (pc_key <$> removals mn o) ∧ change_of (removals mn o) k = (p ← mo !! k; removal mn (k, p)).
Proof.
  apply (change_of_omap (removal mn) mo); [done|]. intros k' p c Hp. unfold removal.
  case_bool_decide; [done|]. intros [= <-]. symmetry. by apply (Wo k' p).
Qed.
Lemma change_of_replacements k :
  NoDup (pc_key <$> replacements mo n) ∧ change_of (replacements mo n) k = (q ← mn !! k; replacement mo (k, q)).
Proof.
  apply (change_of_omap (replacement mo) mn); [done|]. intros k' q c Hq. unfold replacement. cbn [fst snd].
  assert (pc_key (replace_peer q) = k') as Hk by (symmetry; by apply (Wn k' q)).
  destruct (mo !! k'); [case_match|]; intros E; try done; by injection E as <-.
Qed.

Lemma removal_kind c : c ∈ removals mn o → pc_Remove c = true ∧ mn !! pc_key c = None.
Proof.
  intros ([k p] & Hin & Hc)%list_elem_of_omap. rewrite Ho, elem_of_map_to_list in Hin. unfold removal in Hc.
  case_bool_decide as Hk; [done|]. injection Hc as <-. split; [done|]. cbn [fst snd] in *.
  change (pc_key _) with (wg_String (rp_publicKey p)). rewrite <-(proj1 (Wo k p Hin)). by apply eq_None_not_Some.
Qed.
Lemma replacement_kind c : c ∈ replacements mo n → ∃ q, mn !! pc_key c = Some q ∧ c = replace_peer q.
Proof.
  intros ([k q] & Hin & Hc)%list_elem_of_omap. rewrite Hn, elem_of_map_to_list in Hin. exists q.
  assert (c = replace_peer q) as ->.
  { unfold replacement in Hc. cbn [fst snd] in Hc. destruct (mo !! k); [case_match|]; try done; by injection Hc as <-. }
  split; [|done]. change (pc_key _) with (wg_String (rp_publicKey q)). by rewrite <-(proj1 (Wn k q Hin)).
Qed.

Context (Hdis : ∀ k1 k2 p1 p2, mn !! k1 = Some p1 → mn !! k2 = Some p2 → k1 ≠ k2 → nets_of p1 ## nets_of p2).

Lemma changes_separate : separate (removals mn o ++ replacements mo n).
Proof.
  apply separate_intro.
  - rewrite fmap_app. apply NoDup_app. split; [apply change_of_removals; exact ""|].
    split; [|apply change_of_replacements; exact ""].
    intros k (c & -> & [_ Hc]%removal_kind)%list_elem_of_fmap (c' & E & (q & Hq & _)%replacement_kind)%list_elem_of_fmap.
    congruence.
  - apply Forall_forall. intros c [Hc|Hc]%elem_of_app.
    + left. by apply removal_kind.
    + right. by apply replacement_kind in Hc as (q & _ & ->).
  - intros c1 c2 Hc1 Hc2 Hne R1 R2.
    apply elem_of_app in Hc1 as [[? _]%removal_kind|(q1 & Hq1 & E1)%replacement_kind]; [congruence|].
    apply elem_of_app in Hc2 as [[? _]%removal_kind|(q2 & Hq2 & E2)%replacement_kind]; [congruence|].
    pose proof (Hdis _ _ _ _ Hq1 Hq2 Hne) as Hd. by rewrite E1, E2.
Qed.

Lemma changes_refresh : fold_left apply_peer (removals mn o ++ replacements mo n) (configured mo) = configured mn.
Proof.
  apply map_eq. intros k. rewrite (fold_apply_lookup _ changes_separate), change_of_app.
  rewrite (proj2 (change_of_removals k)), (proj2 (change_of_replacements k)). unfold configured.
  rewrite !lookup_fmap. destruct (mn !! k) as [q|] eqn:Hq; cbn [mbind option_bind].
  2: { destruct (mo !! k) as [p|]; cbn [mbind option_bind]; [|done]. unfold removal. cbn [fst].
       rewrite bool_decide_eq_false_2 by (rewrite Hq; by intros [? ?]). done. }
  destruct (mo !! k) as [p|] eqn:Hp; cbn [mbind option_bind]; unfold removal, replacement; cbn [fst snd]; rewrite Hp; [|done].
  rewrite bool_decide_eq_true_2 by (rewrite Hq; by eexists).
  destruct (sameStringSet _ _) eqn:Hs; [|done]. apply bool_decide_eq_true in Hs. simpl. f_equal.
  assert (nets_of p = nets_of q) as E.
  { unfold nets_of. apply list_to_set_perm_L. rewrite <-(proj2 (Wo k p Hp)), <-(proj2 (Wn k q Hq)). by rewrite Hs. }
  rewrite E. apply set_eq. intros x. rewrite elem_of_difference. split; [tauto|]. intros Hx. split; [done|].
  intros (c & [[Hc _]%removal_kind|Hc]%elem_of_app & Hr & Hxc)%elem_of_taken; [congruence|].
  pose proof Hc as (q' & Hq' & Ec)%replacement_kind. destruct (decide (pc_key c = k)) as [Hk|Hne].
  - assert (change_of (replacements mo n) k = Some c) as Hch.
    { rewrite <-Hk. apply change_of_elem; [apply change_of_replacements; exact ""|done]. }
    rewrite (proj2 (change_of_replacements k)), Hq in Hch. cbn [mbind option_bind] in Hch.
    unfold replacement in Hch. cbn [fst snd] in Hch. rewrite Hp in Hch. unfold sameStringSet in Hch.
    rewrite bool_decide_eq_true_2 in Hch by done. done.
  - rewrite Ec in Hxc. exact (Hdis _ _ _ _ Hq' Hq Hne x Hxc Hx).
Qed.
End changes.
End reconcile.

Section theorem.
Context `{FirecrackerVMM, Env, GoUnicode, WgTypes, !WgDevice, !WgDeviceLaws}.

Lemma call_Ok {A} (m : M WgHost A) h a h' :
  call m h = (Ok a, h') → m (set_world (bump (wh_world h)) h) = (Ok a, h').
Proof. unfold call. by destruct (fate _). Qed.

(** What a successful set-up leaves on the device. *)
Lemma EnsureWireGuard_device cfg h h' :
  EnsureWireGuard cfg h = (Ok tt, h') →
  peers_valid (wg_Peers cfg) ∧
  ∃ l, device_peers (wg_Peers cfg) = Ok l ∧ dev_peers (wh_device h') = fold_left apply_peer l ∅.
Proof.
  unfold EnsureWireGuard. intros E. apply bind_Ok in E as ([] & h1 & E1 & E). injection E1 as E1 <-.
  apply WireGuard_Validate_Ok in E1. split; [apply E1|].
  apply bind_Ok in E as (key & h2 & _ & E). apply bind_Ok in E as ([] & h3 & _ & E).
  destruct (ParseCIDR _); [|done]. do 2 (apply bind_Ok in E as ([] & ? & _ & E)).
  apply bind_Ok in E as (l & h6 & El & E). injection El as El <-.
  apply bind_Ok in E as ([] & h7 & Ed & E). apply call_Ok in Ed, E. injection Ed as <-. injection E as <-.
  exists l. split; [done|]. cbn. apply configure_replaces.
Qed.

(** The device serves exactly the peers of a configuration, if their keys are
    different. *)
Definition device_serves (peers : list WGPeer) (h : WgHost) : Prop :=
  ∀ byKey, runtimeWGPeersByKey peers = Ok byKey → dev_peers (wh_device h) = configured byKey.

Lemma EnsureWireGuard_serves cfg h h' : EnsureWireGuard cfg h = (Ok tt, h') → device_serves (wg_Peers cfg) h'.
Proof.
  intros (V & l & L & D)%EnsureWireGuard_device byKey Hk. by rewrite D, (device_peers_configured _ _ _ Hk L V).
Qed.

(** The device as the difference leaves it. *)
Lemma diff_matches order old new l sm d mo :
  (∀ m, order m ≡ₚ map_to_list m) → peers_valid new → wireGuardPeerDiff order old new = Ok (l, sm) →
  runtimeWGPeersByKey old = Ok mo → dev_peers d = configured mo →
  ∃ byKey, runtimeWGPeersByKey new = Ok byKey ∧ fold_left apply_peer l (dev_peers d) = configured byKey.
Proof.
  intros Hord Vn El Mo Hd. unfold wireGuardPeerDiff in El. rewrite Mo in El. cbn [mbind result_mbind] in El.
  apply result_bind_Ok in El as (mn & Mn & El). injection El as <- _.
  exists mn. split; [done|]. rewrite Hd. apply changes_refresh.
  - apply Hord.
  - apply Hord.
  - eapply runtime_loop_wf; [exact Mo|]. apply map_Forall_empty.
  - eapply runtime_loop_wf; [exact Mn|]. apply map_Forall_empty.
  - intros *. by apply (byKey_disjoint _ _ _ _ _ _ Mn Vn).
Qed.

(** The device has exactly the peers of a configuration. *)
Definition device_has (peers : list WGPeer) (h : WgHost) : Prop :=
  ∃ byKey, runtimeWGPeersByKey peers = Ok byKey ∧ dev_peers (wh_device h) = configured byKey.

(** The outcome of an update: the new peers, also when it failed after the device
    had changed; or a failure that left the device as it was. *)
Lemma reconcile_outcome order oldCfg newCfg h r h' :
  (∀ m, order m ≡ₚ map_to_list m) → peers_valid (wg_Peers newCfg) →
  device_serves (wg_Peers oldCfg) h → ReconcileWireGuardPeers order oldCfg newCfg h = (r, h') →
  device_has (wg_Peers newCfg) h' ∨ (is_ok r = false ∧ wh_device h' = wh_device h).
Proof.
  intros Hord Vn Do Er. unfold ReconcileWireGuardPeers, mbind at 1, M_mbind at 1, lift_result in Er.
  destruct (wireGuardPeerDiff order _ _) as [[l sm]|e] eqn:El; [|right; by injection Er as <- <-].
  assert (∃ mo, runtimeWGPeersByKey (wg_Peers oldCfg) = Ok mo) as [mo Mo].
  { unfold wireGuardPeerDiff in El. apply result_bind_Ok in El as (mo & Mo & _). by exists mo. }
  destruct (diff_matches order _ _ _ _ (wh_device h) mo Hord Vn El Mo (Do _ Mo)) as (mn & Mn & Hf).
  assert (∀ h2, dev_peers (wh_device h2) = fold_left apply_peer l (dev_peers (wh_device h)) →
    device_has (wg_Peers newCfg) h2) as Hnew by (intros h2 E2; exists mn; by rewrite E2).
  destruct l as [|c l']; [injection Er as <- <-; left; by apply Hnew|].
  unfold mbind, M_mbind, call in Er. cbn [wh_world set_world] in Er.
  destruct (fate (tick (wh_world h))); [|right; by injection Er as <- <-..]. cbn in Er.
  destruct (fate _); [left|right; by injection Er as <- <-|left]; injection Er as <- <-; apply Hnew;
    exact (configure_updates None (c :: l') (wh_device h)).
Qed.

Lemma reconcile_matches order oldCfg newCfg h h' :
  (∀ m, order m ≡ₚ map_to_list m) → peers_valid (wg_Peers newCfg) →
  device_serves (wg_Peers oldCfg) h → ReconcileWireGuardPeers order oldCfg newCfg h = (Ok tt, h') →
  device_has (wg_Peers newCfg) h'.
Proof. intros Hord Vn Do Er. by destruct (reconcile_outcome _ _ _ _ _ _ Hord Vn Do Er) as [|[]]. Qed.

(** C37.  Reading the configuration again is as good as starting over: after a
    successful set-up with the old peers, bringing the device up to date with
    the difference gives every peer exactly the networks it has after a set-up
    with the new ones, in whatever order Go walks its maps, although a network
    may move from one peer to another on the way. *)
Theorem ReconcileWireGuardPeers_refreshes order oldCfg newCfg h0 h1 h2 g0 g1 :
  (∀ m, order m ≡ₚ map_to_list m) →
  EnsureWireGuard oldCfg h0 = (Ok tt, h1) →
  ReconcileWireGuardPeers order oldCfg newCfg h1 = (Ok tt, h2) →
  EnsureWireGuard newCfg g0 = (Ok tt, g1) →
  dev_peers (wh_device h2) = dev_peers (wh_device g1).
Proof.
  intros Hord Ho%EnsureWireGuard_serves Er En. pose proof (EnsureWireGuard_serves _ _ _ En) as Hn.
  apply EnsureWireGuard_device in En as (Vn & _).
  destruct (reconcile_matches order oldCfg newCfg h1 h2) as (mn & Mn & ->); [done..|]. symmetry. by apply Hn.
Qed.
End theorem.

(** ** Witness: two peers swap their networks *)

Definition map_device : @WgDevice plain_keys := {|
  device := gmap string (gset string);
  dev_peers d := d;
  dev_configure replace _ l d := fold_left (@apply_peer plain_keys) l (if replace then ∅ else d);
|}.
#[export] Instance map_device_laws : @WgDeviceLaws plain_keys map_device.
Proof. by split. Qed.

Definition swap_config (a b : string) : WireGuardConfig :=
  {| wg_Interface := "fdwg0"; wg_ListenPort := 51820; wg_Address := "fd7a:115c:a1e1::1/64"; wg_Endpoint := "";
     wg_PrivateKeyFile := "/etc/firedoze/wg.key";
     wg_Peers := [{| peer_Name := "alice"; peer_PublicKey := "key-a"; peer_AllowedIPs := [a] |};
                  {| peer_Name := "bob"; peer_PublicKey := "key-b"; peer_AllowedIPs := [b] |}] |}.
Definition before_swap := swap_config "fd7a:115c:a1e1::2/128" "fd7a:115c:a1e1::3/128".
Definition after_swap := swap_config "fd7a:115c:a1e1::3/128" "fd7a:115c:a1e1::2/128".

Definition wg_host : @WgHost toy_vmm plain_keys map_device :=
  @MkWgHost toy_vmm plain_keys map_device peer_world ∅ ∅ ∅ ∅.
Definition example_ensure := @EnsureWireGuard toy_vmm calm plain_keys map_device.
Definition example_reconcile := @ReconcileWireGuardPeers toy_vmm calm plain_keys map_device map_to_list.

Lemma ReconcileWireGuardPeers_refreshes_witness :
  let h1 := (example_ensure before_swap wg_host).2 in
  let h2 := (example_reconcile before_swap after_swap h1).2 in
  @wh_device toy_vmm plain_keys map_device h2 !! "key-a" = Some {["fd7a:115c:a1e1::3/128"]} ∧
  @wh_device toy_vmm plain_keys map_device h2 =
  @wh_device toy_vmm plain_keys map_device (example_ensure after_swap wg_host).2.
Proof.
  intros h1 h2. split; [vm_compute; reflexivity|].
  assert (∀ x : result unit * @WgHost toy_vmm plain_keys map_device, x.1 = Ok tt → x = (Ok tt, x.2)) as Hpair
    by (intros [r h] Hr; simpl in Hr; subst r; reflexivity).
  pose proof (Hpair (example_ensure before_swap wg_host) ltac:(vm_compute; reflexivity)) as E1.
  pose proof (Hpair (example_reconcile before_swap after_swap h1) ltac:(vm_compute; reflexivity)) as E2.
  pose proof (Hpair (example_ensure after_swap wg_host) ltac:(vm_compute; reflexivity)) as E3.
  exact (@ReconcileWireGuardPeers_refreshes toy_vmm calm plain_keys map_device map_device_laws map_to_list
           before_swap after_swap wg_host h1 h2 wg_host _ (λ _, reflexivity _) E1 E2 E3).
Defined.
