(* ===== verification/Firewall.v ===== *)
(** * The host firewall and other host settings (internal/host)

    The rules EnsureFirewall installs with ip6tables and iptables, the loopback
    address of the DNS server, and kernel same-page merging.  The commands are
    the class [Netfilter]: what they did when they succeeded is in
    [NetfilterLaws], after ip6tables(8); what the kernel makes of a packet is the
    class [PacketVerdicts]. *)

From S2P Require Import Prelude GoStrings Paths IPNet Json Types Store Config PrivateNet World FileCopy.
Open Scope Z_scope.

Inductive family := IPv6 | IPv4.
#[global] Instance family_eq_dec : EqDecision family.
Proof. solve_decision. Defined.

Definition rule : Type := list string.

(** [nf_run f args s]: [None] when the command succeeds, or the text of its
    error, and the new state. *)
Class Netfilter := {
  nf_state : Type;
  nf_chain : family → string → string → nf_state → option (list rule);     (* by table and chain *)
  nf_run : family → list string → nf_state → option string * nf_state;
}.

(** The arguments for a table; "filter" is the one by default. *)
Definition in_table (table : string) (args : list string) : list string :=
  if bool_decide (table = "filter") then args else "-t" :: table :: args.

Class NetfilterLaws `{Netfilter} : Prop := {
  nf_flush f t c s s' : nf_run f (in_table t ["-F"; c]) s = (None, s') → nf_chain f t c s' = Some [];
  nf_append f t c r s s' : nf_run f (in_table t ("-A" :: c :: r)) s = (None, s') →
    ∃ l, nf_chain f t c s = Some l ∧ nf_chain f t c s' = Some (l ++ [r]);
  nf_insert f t c r s s' : nf_run f (in_table t ("-I" :: c :: "1" :: r)) s = (None, s') →
    ∃ l, nf_chain f t c s = Some l ∧ nf_chain f t c s' = Some (r :: l);
  nf_check f t c r s s' : nf_run f (in_table t ("-C" :: c :: r)) s = (None, s') →
    ∃ l, nf_chain f t c s' = Some l ∧ r ∈ l;
  nf_other f t op c rest f' t' c' s : op ∈ ["-N"; "-F"; "-A"; "-I"; "-C"] → (f', t', c') ≠ (f, t, c) →
    nf_chain f' t' c' (nf_run f (in_table t (op :: c :: rest)) s).2 = nf_chain f' t' c' s;
}.

(** ** firewall.go *)

Definition firewallChainName : string := "FIREDOZE-VM".
Definition tapInterfaceMatch : string := "fdtap+".

Section firewall.
Context `{Netfilter}.

(** [runIP6Tables] and [runIPTables]. *)
Definition runTables (f : family) (args : list string) : M nf_state unit := λ s,
  match nf_run f args s with
  | (None, s') => (Ok tt, s')
  | (Some output, s') => (Err (ErrOther output), s')
  end.

Definition isAlreadyExistsError (e : error) : bool :=
  match e with
  | ErrOther text => GoStrings.Contains text "Chain already exists" || GoStrings.Contains text "File exists"
  | _ => false
  end.

Definition firewallIPv6Subnet (raw : string) : result string :=
  match ParseCIDR raw with
  | None => Err (ErrOther "vm_network.subnet must be CIDR")
  | Some (ip, ipNet) => if is_v4 ip then Err (ErrOther "vm_network.subnet must be IPv6") else Ok (IPNet_String ipNet)
  end.
Definition firewallIPv4Subnet (raw : string) : result string :=
  match ParseCIDR raw with
  | None => Err (ErrOther "vm_network.ipv4_subnet must be CIDR")
  | Some (ip, ipNet) =>
      if negb (is_v4 ip) then Err (ErrOther "vm_network.ipv4_subnet must be IPv4") else Ok (IPNet_String ipNet)
  end.

Definition ipv6_rules (wireGuardInterface vmSubnet : string) : list rule :=
  [["-m"; "conntrack"; "--ctstate"; "ESTABLISHED,RELATED"; "-j"; "ACCEPT"];
   ["-i"; wireGuardInterface; "-d"; vmSubnet; "-j"; "ACCEPT"];
   ["-i"; tapInterfaceMatch; "-d"; vmSubnet; "-j"; "ACCEPT"];
   ["-i"; tapInterfaceMatch; "-s"; vmSubnet; "-j"; "ACCEPT"];
   ["-i"; "lo"; "-d"; vmSubnet; "-j"; "ACCEPT"];
   ["-d"; vmSubnet; "-j"; "DROP"];
   ["-j"; "RETURN"]].
Definition ipv4_rules (vmSubnet : string) : list rule :=
  [["-m"; "conntrack"; "--ctstate"; "ESTABLISHED,RELATED"; "-j"; "ACCEPT"];
   ["-i"; tapInterfaceMatch; "-d"; vmSubnet; "-j"; "ACCEPT"];
   ["-i"; tapInterfaceMatch; "-s"; vmSubnet; "-j"; "ACCEPT"];
   ["-i"; "lo"; "-d"; vmSubnet; "-j"; "ACCEPT"];
   ["-d"; vmSubnet; "-j"; "DROP"];
   ["-j"; "RETURN"]].

Fixpoint append_rules (f : family) (rules : list rule) : M nf_state unit :=
  match rules with
  | [] => mret tt
  | r :: rules' => runTables f ("-A" :: firewallChainName :: r) ;; append_rules f rules'
  end.

Definition jump : rule := ["-j"; firewallChainName].

Definition ensureFirewallHook (f : family) (chain : string) : M nf_state unit :=
  r ← attempt (runTables f ("-C" :: chain :: jump));
  match r with
  | Ok _ => mret tt
  | Err _ => runTables f ("-I" :: chain :: "1" :: jump)
  end.

(** [ensureIPv6FirewallChain] and [ensureIPv4FirewallChain], which differ in
    their rules. *)
Definition ensureFirewallChain (f : family) (rules : list rule) : M nf_state unit :=
  r ← attempt (runTables f ["-N"; firewallChainName]);
  match r with
  | Err e => if isAlreadyExistsError e then mret tt else fail e
  | Ok _ => mret tt
  end ;;
  runTables f ["-F"; firewallChainName] ;;
  append_rules f rules ;;
  ensureFirewallHook f "INPUT" ;;
  ensureFirewallHook f "FORWARD".
Definition ensureIPv6FirewallChain (wireGuardInterface vmSubnet : string) : M nf_state unit :=
  ensureFirewallChain IPv6 (ipv6_rules wireGuardInterface vmSubnet).
Definition ensureIPv4FirewallChain (vmSubnet : string) : M nf_state unit :=
  ensureFirewallChain IPv4 (ipv4_rules vmSubnet).

Definition masquerade (vmSubnet : string) : rule := ["-s"; vmSubnet; "!"; "-d"; vmSubnet; "-j"; "MASQUERADE"].

Definition ensureOutboundNAT (f : family) (vmSubnet : string) : M nf_state unit :=
  r ← attempt (runTables f ("-t" :: "nat" :: "-C" :: "POSTROUTING" :: masquerade vmSubnet));
  match r with
  | Ok _ => mret tt
  | Err _ => runTables f ("-t" :: "nat" :: "-A" :: "POSTROUTING" :: masquerade vmSubnet)
  end.
Definition ensureIPv6OutboundNAT : string → M nf_state unit := ensureOutboundNAT IPv6.
Definition ensureIPv4OutboundNAT : string → M nf_state unit := ensureOutboundNAT IPv4.

Definition EnsureFirewall (cfg : Config) : M nf_state unit :=
  if negb (fw_Enabled (HostFirewall cfg)) then mret tt else
  if negb (bool_decide (fw_Backend (HostFirewall cfg) = "ip6tables"))
  then fail (ErrOther "unsupported host_firewall.backend") else
  vmSubnet ← lift_result (firewallIPv6Subnet (vn_Subnet (VMNetwork cfg)));
  vmIPv4Subnet ← lift_result (firewallIPv4Subnet (vn_IPv4Subnet (VMNetwork cfg)));
  if is_empty (wg_Interface (WireGuard cfg)) then fail (ErrOther "wireguard.interface is required") else
  ensureIPv6FirewallChain (wg_Interface (WireGuard cfg)) vmSubnet ;;
  ensureIPv4FirewallChain vmIPv4Subnet ;;
  ensureIPv6OutboundNAT vmSubnet ;;
  ensureIPv4OutboundNAT vmIPv4Subnet.
End firewall.

(** ** What the rules say

    The kernel's verdict on a packet is the class [PacketVerdicts], with the laws
    the manual pages document for the options used.  Of a packet, what these
    options look at. *)
Record packet := MkPacket { pk_in : string; pk_src : Z; pk_dst : Z; pk_state : string }.
Inductive verdict := ACCEPT | DROP | RETURN.
Definition verdict_text (v : verdict) : string :=
  match v with ACCEPT => "ACCEPT" | DROP => "DROP" | RETURN => "RETURN" end.

(** [nf_verdict rules p]: what the kernel makes of a packet on its way along
    these rules; [None] at the end of the chain. *)
Class PacketVerdicts := nf_verdict : list rule → packet → option verdict.

(** A name that ends in + stands for every interface that begins with it. *)
Definition interface_matches (pattern name : string) : bool :=
  if HasSuffix pattern "+" then HasPrefix name (TrimSuffix pattern "+") else bool_decide (pattern = name).

(** Documented in iptables(8) and iptables-extensions(8): the rules of a chain
    are tried in order, a packet that meets every condition of a rule goes to
    its target, one that does not goes on to the next rule. *)
Class PacketVerdictLaws `{PacketVerdicts} : Prop := {
  nv_state states v rules p :
    nf_verdict (["-m"; "conntrack"; "--ctstate"; states; "-j"; verdict_text v] :: rules) p =
    if bool_decide (pk_state p ∈ Split states ",") then Some v else nf_verdict rules p;
  nv_in_dst i net ip n v rules p : i ≠ "" → ParseCIDR net = Some (ip, n) →
    nf_verdict (["-i"; i; "-d"; net; "-j"; verdict_text v] :: rules) p =
    if interface_matches i (pk_in p) && Contains n (pk_dst p) then Some v else nf_verdict rules p;
  nv_in_src i net ip n v rules p : i ≠ "" → ParseCIDR net = Some (ip, n) →
    nf_verdict (["-i"; i; "-s"; net; "-j"; verdict_text v] :: rules) p =
    if interface_matches i (pk_in p) && Contains n (pk_src p) then Some v else nf_verdict rules p;
  nv_dst net ip n v rules p : ParseCIDR net = Some (ip, n) →
    nf_verdict (["-d"; net; "-j"; verdict_text v] :: rules) p =
    if Contains n (pk_dst p) then Some v else nf_verdict rules p;
  nv_always v rules p : nf_verdict (["-j"; verdict_text v] :: rules) p = Some v;
}.

Section verdicts.
Context `{PacketVerdicts, !PacketVerdictLaws}.

(** The verdict of the chain: connections under way go on; of a new one, what a
    VM sends is accepted, what is for a VM is accepted from the interfaces of
    [entry_allowed] and dropped from any other, and the rest returns to the
    calling chain. *)
Definition entry_allowed (wg : option string) (p : packet) : bool :=
  match wg with Some i => interface_matches i (pk_in p) | None => false end ||
  interface_matches tapInterfaceMatch (pk_in p) || interface_matches "lo" (pk_in p).
Definition isolates (wg : option string) (subnet : IPNet) (rules : list rule) : Prop :=
  ∀ p, nf_verdict rules p =
  if bool_decide (pk_state p ∈ ["ESTABLISHED"; "RELATED"]) then Some ACCEPT
  else if interface_matches tapInterfaceMatch (pk_in p) && Contains subnet (pk_src p) then Some ACCEPT
  else if Contains subnet (pk_dst p) then Some (if entry_allowed wg p then ACCEPT else DROP)
  else Some RETURN.

(** [walk_rules]: the rules one after the other, by the laws. *)
Ltac walk_rules p :=
  pose proof (λ rules, nv_state "ESTABLISHED,RELATED" ACCEPT rules p) as Hstate;
  pose proof (λ i net ip n rules, nv_in_dst i net ip n ACCEPT rules p) as Hdst;
  pose proof (λ i net ip n rules, nv_in_src i net ip n ACCEPT rules p) as Hsrc;
  pose proof (λ net ip n rules, nv_dst net ip n DROP rules p) as Hdrop;
  pose proof (λ rules, nv_always RETURN rules p) as Hret;
  change (Split "ESTABLISHED,RELATED" ",") with ["ESTABLISHED"; "RELATED"] in Hstate;
  cbn [verdict_text] in Hstate, Hdst, Hsrc, Hdrop, Hret;
  rewrite Hstate; case_bool_decide; [done|];
  repeat first [erewrite Hdst by done|erewrite Hsrc by done|erewrite Hdrop by done|rewrite Hret].

Lemma ipv6_rules_isolate wg subnet ip n :
  wg ≠ "" → ParseCIDR subnet = Some (ip, n) → isolates (Some wg) n (ipv6_rules wg subnet).
Proof.
  intros Hw Hn p. unfold ipv6_rules, entry_allowed. walk_rules p.
  by destruct (interface_matches wg _), (interface_matches tapInterfaceMatch _), (interface_matches "lo" _),
    (Contains n (pk_dst p)), (Contains n (pk_src p)).
Qed.
Lemma ipv4_rules_isolate subnet ip n : ParseCIDR subnet = Some (ip, n) → isolates None n (ipv4_rules subnet).
Proof.
  intros Hn p. unfold ipv4_rules, entry_allowed. walk_rules p.
  by destruct (interface_matches tapInterfaceMatch _), (interface_matches "lo" _),
    (Contains n (pk_dst p)), (Contains n (pk_src p)).
Qed.
End verdicts.

(** ** What a successful run leaves *)

Section installed.
Context `{Netfilter, !NetfilterLaws, PacketVerdicts, !PacketVerdictLaws}.

Lemma runTables_Ok f args s s' : runTables f args s = (Ok tt, s') → nf_run f args s = (None, s').
Proof. unfold runTables. destruct (nf_run f args s) as [[|] ?]; [done|]. by intros [= <-]. Qed.

Lemma keeps_runTables f t op c rest f' t' c' :
  op ∈ ["-N"; "-F"; "-A"; "-I"; "-C"] → (f', t', c') ≠ (f, t, c) →
  Keeps (nf_chain f' t' c') (runTables f (in_table t (op :: c :: rest))).
Proof.
  intros Hop Hne s. pose proof (nf_other f t op c rest f' t' c' s Hop Hne) as Ho. unfold runTables.
  by destruct (nf_run f _ s) as [[]].
Qed.
(** The same for a command on the default table. *)
Lemma keeps_run_filter f op c rest f' t' c' :
  op ∈ ["-N"; "-F"; "-A"; "-I"; "-C"] → (f', t', c') ≠ (f, "filter", c) →
  Keeps (nf_chain f' t' c') (runTables f (op :: c :: rest)).
Proof. apply (keeps_runTables f "filter"). Qed.
(** [command_keeps]: by the two lemmas above. *)
Ltac command_keeps :=
  first [apply keeps_run_filter; [apply (bool_decide_unpack _); by vm_compute|done]
        |apply (keeps_runTables _ "nat"); [apply (bool_decide_unpack _); by vm_compute|done]].

Lemma append_rules_Ok f rules : ∀ s s' l,
  nf_chain f "filter" firewallChainName s = Some l → append_rules f rules s = (Ok tt, s') →
  nf_chain f "filter" firewallChainName s' = Some (l ++ rules).
Proof.
  induction rules as [|r rules IH]; intros s s' l Hl; cbn [append_rules].
  { intros [= <-]. by rewrite app_nil_r. }
  intros E. apply bind_Ok in E as ([] & s1 & E1 & E). apply runTables_Ok in E1.
  apply (nf_append f "filter") in E1 as (l' & Hl' & Hs1). rewrite Hl in Hl'. injection Hl' as <-.
  rewrite (IH _ _ _ Hs1 E). by rewrite <-app_assoc.
Qed.
Lemma keeps_append_rules f rules f' t' c' :
  (f', t', c') ≠ (f, "filter", firewallChainName) → Keeps (nf_chain f' t' c') (append_rules f rules).
Proof.
  intros Hne. induction rules as [|r rules IH]; cbn [append_rules]; [apply _|].
  apply keeps_bind; [command_keeps|done].
Qed.

Lemma ensureFirewallHook_Ok f chain s s' :
  ensureFirewallHook f chain s = (Ok tt, s') → ∃ l, nf_chain f "filter" chain s' = Some l ∧ jump ∈ l.
Proof.
  unfold ensureFirewallHook. intros E. apply bind_Ok in E as (r & s1 & E1%attempt_Ok & E). destruct r as [[]|e].
  - injection E as <-. apply runTables_Ok in E1. by apply (nf_check f "filter") in E1.
  - apply runTables_Ok in E. apply (nf_insert f "filter") in E as (l & _ & Hs). exists (jump :: l). split; [done|left].
Qed.
Lemma keeps_hook f chain f' t' c' :
  (f', t', c') ≠ (f, "filter", chain) → Keeps (nf_chain f' t' c') (ensureFirewallHook f chain).
Proof.
  intros Hne. unfold ensureFirewallHook. apply keeps_bind; [apply keeps_attempt; command_keeps|].
  intros []; [apply _|command_keeps].
Qed.

Lemma keeps_chain f rules f' t' c' :
  (f', t') ≠ (f, "filter") → Keeps (nf_chain f' t' c') (ensureFirewallChain f rules).
Proof.
  intros Hne. assert (∀ c, (f', t', c') ≠ (f, "filter", c)) as Hc by congruence. unfold ensureFirewallChain.
  apply keeps_bind; [apply keeps_attempt; command_keeps|intros r].
  apply keeps_bind; [apply _|intros _]. apply keeps_bind; [command_keeps|intros _].
  apply keeps_bind; [by apply keeps_append_rules|intros _].
  apply keeps_bind; [by apply keeps_hook|intros _]. by apply keeps_hook.
Qed.
Lemma keeps_nat f net f' t' c' :
  (f', t') ≠ (f, "nat") → Keeps (nf_chain f' t' c') (ensureOutboundNAT f net).
Proof.
  intros Hne. assert ((f', t', c') ≠ (f, "nat", "POSTROUTING")) as Hc by congruence. unfold ensureOutboundNAT.
  apply keeps_bind; [apply keeps_attempt; command_keeps|].
  intros []; [apply _|command_keeps].
Qed.

(** A family whose packets pass through the chain, which has these rules. *)
Record guarded (f : family) (rules : list rule) (s : nf_state) : Prop := {
  gd_rules : nf_chain f "filter" firewallChainName s = Some rules;
  gd_hooks hook : hook ∈ ["INPUT"; "FORWARD"] → ∃ l, nf_chain f "filter" hook s = Some l ∧ jump ∈ l;
}.

Lemma guarded_same f rules s s' :
  (∀ c, nf_chain f "filter" c s' = nf_chain f "filter" c s) → guarded f rules s → guarded f rules s'.
Proof. intros Hk [Hr Hh]. split; [by rewrite Hk|]. intros hook Hin. rewrite Hk. by apply Hh. Qed.

Lemma ensureFirewallChain_guards f rules s s' :
  ensureFirewallChain f rules s = (Ok tt, s') → guarded f rules s'.
Proof.
  unfold ensureFirewallChain. intros E. apply bind_Ok in E as (r & s1 & _ & E).
  apply bind_Ok in E as ([] & s2 & _ & E). apply bind_Ok in E as ([] & s3 & E3 & E).
  apply bind_Ok in E as ([] & s4 & E4 & E). apply bind_Ok in E as ([] & s5 & E5 & E).
  apply runTables_Ok, (nf_flush f "filter") in E3. apply (append_rules_Ok _ _ _ _ [] E3) in E4.
  pose proof (ensureFirewallHook_Ok _ _ _ _ E5) as Hin. pose proof (ensureFirewallHook_Ok _ _ _ _ E) as Hfw.
  assert (∀ c, c ≠ "FORWARD" → nf_chain f "filter" c s' = nf_chain f "filter" c s5) as K6.
  { intros c Hc. assert (Keeps (nf_chain f "filter" c) (ensureFirewallHook f "FORWARD")) as Hk
      by (apply keeps_hook; congruence). by apply (keeps_Ok _ _ _ _ _ E). }
  assert (∀ c, c ≠ "INPUT" → nf_chain f "filter" c s5 = nf_chain f "filter" c s4) as K5.
  { intros c Hc. assert (Keeps (nf_chain f "filter" c) (ensureFirewallHook f "INPUT")) as Hk
      by (apply keeps_hook; congruence). by apply (keeps_Ok _ _ _ _ _ E5). }
  split; [by rewrite K6, K5|]. intros hook. rewrite elem_of_cons, list_elem_of_singleton.
  intros [->| ->]; [|done]. by rewrite K6.
Qed.

Lemma ensureOutboundNAT_Ok f net s s' :
  ensureOutboundNAT f net s = (Ok tt, s') → ∃ l, nf_chain f "nat" "POSTROUTING" s' = Some l ∧ masquerade net ∈ l.
Proof.
  unfold ensureOutboundNAT. intros E. apply bind_Ok in E as (r & s1 & E1%attempt_Ok & E). destruct r as [[]|e].
  - injection E as <-. apply runTables_Ok in E1. by apply (nf_check f "nat") in E1.
  - apply runTables_Ok in E. apply (nf_append f "nat") in E as (l & _ & Hs). exists (l ++ [masquerade net]).
    split; [done|]. apply elem_of_app. right. by left.
Qed.

(** What a successful set-up leaves in the packet filter: in each family the
    chain has exactly the rules of firewall.go, jumps to it are in INPUT and
    FORWARD, the rules isolate the VMs, and the outbound traffic of the VMs is
    masqueraded. *)
Definition vms_isolated (cfg : Config) (n6 n4 : IPNet) (s : nf_state) : Prop :=
  let rules6 := ipv6_rules (wg_Interface (WireGuard cfg)) (IPNet_String n6) in
  let rules4 := ipv4_rules (IPNet_String n4) in
  guarded IPv6 rules6 s ∧ guarded IPv4 rules4 s ∧
  isolates (Some (wg_Interface (WireGuard cfg))) n6 rules6 ∧ isolates None n4 rules4 ∧
  (∃ l, nf_chain IPv6 "nat" "POSTROUTING" s = Some l ∧ masquerade (IPNet_String n6) ∈ l) ∧
  (∃ l, nf_chain IPv4 "nat" "POSTROUTING" s = Some l ∧ masquerade (IPNet_String n4) ∈ l).

Lemma EnsureFirewall_isolated cfg s s' ip6 n6 ip4 n4 :
  fw_Enabled (HostFirewall cfg) = true →
  ParseCIDR (vn_Subnet (VMNetwork cfg)) = Some (ip6, n6) →
  ParseCIDR (vn_IPv4Subnet (VMNetwork cfg)) = Some (ip4, n4) → net_bits n4 = 32 →
  EnsureFirewall cfg s = (Ok tt, s') → vms_isolated cfg n6 n4 s'.
Proof.
  intros Hen P6 P4 B4 E. unfold EnsureFirewall in E. rewrite Hen in E. cbn [negb] in E.
  destruct (negb _); [done|]. apply bind_Ok in E as (sub6 & s0 & E6 & E). injection E6 as E6 <-.
  apply bind_Ok in E as (sub4 & s0 & E4 & E). injection E4 as E4 <-.
  unfold firewallIPv6Subnet in E6. rewrite P6 in E6. destruct (is_v4 ip6) eqn:V6; [done|]. injection E6 as <-.
  unfold firewallIPv4Subnet in E4. rewrite P4 in E4. destruct (is_v4 ip4) eqn:V4; [|done]. injection E4 as <-.
  destruct (is_empty (wg_Interface _)) eqn:Hwg; [done|]. apply bool_decide_eq_false in Hwg.
  apply bind_Ok in E as ([] & s1 & C6 & E). apply bind_Ok in E as ([] & s2 & C4 & E).
  apply bind_Ok in E as ([] & s3 & N6 & N4).
  assert (∀ {m : M nf_state unit} {a b} f t c, m a = (Ok tt, b) → Keeps (nf_chain f t c) m →
    nf_chain f t c b = nf_chain f t c a) as K.
  { intros m a b f t c Em Hk. by apply (keeps_Ok _ _ _ _ _ Em). }
  split_and!.
  - eapply guarded_same; [|exact (ensureFirewallChain_guards _ _ _ _ C6)]. intros c.
    rewrite (K _ _ _ _ _ c N4), (K _ _ _ _ _ c N6), (K _ _ _ _ _ c C4); [done|..];
      (apply keeps_chain || apply keeps_nat); congruence.
  - eapply guarded_same; [|exact (ensureFirewallChain_guards _ _ _ _ C4)]. intros c.
    rewrite (K _ _ _ _ _ c N4), (K _ _ _ _ _ c N6); [done|..]; apply keeps_nat; congruence.
  - by eapply ipv6_rules_isolate, (ParseCIDR_IPNet_String _ _ _ P6 V6).
  - by eapply ipv4_rules_isolate, (ParseCIDR_IPNet_String_v4 _ _ _ P4 V4 B4).
  - rewrite (K _ _ _ _ _ "POSTROUTING" N4); [by eapply ensureOutboundNAT_Ok|]. apply keeps_nat. congruence.
  - by eapply ensureOutboundNAT_Ok.
Qed.

(** C38.  The firewall isolates the VMs, where it is enabled: let
    host_firewall.enabled be set and vm_network.ipv4_subnet be written as an
    IPv4 network.  When [EnsureFirewall] succeeds, in each family the chain has
    exactly its rules, a jump to it is in INPUT and in FORWARD, and the chain
    says, the packet filter trying rules in order as documented: packets of
    connections under way are accepted; of a new connection, what a VM sends
    from its TAP device is accepted; what is for a VM is accepted from the
    WireGuard interface (IPv6 only), from a TAP device and from the host, and
    dropped from everywhere else; every other packet returns to the calling
    chain.  Traffic of the VMs to the outside is masqueraded.  (With the firewall
    switched off [EnsureFirewall] succeeds and installs nothing.) *)
Theorem EnsureFirewall_isolates cfg s s' ip6 n6 ip4 n4 :
  fw_Enabled (HostFirewall cfg) = true →
  ParseCIDR (vn_Subnet (VMNetwork cfg)) = Some (ip6, n6) →
  ParseCIDR (vn_IPv4Subnet (VMNetwork cfg)) = Some (ip4, n4) → net_bits n4 = 32 →
  EnsureFirewall cfg s = (Ok tt, s') → vms_isolated cfg n6 n4 s'.
Proof. apply EnsureFirewall_isolated. Qed.
End installed.

(** ** Witness: an empty firewall *)

Definition chains : Type := family → string → string → option (list rule).
Definition set_chain (f : family) (t c : string) (l : list rule) (s : chains) : chains := λ f' t' c',
  if bool_decide ((f', t', c') = (f, t, c)) then Some l else s f' t' c'.

(** The commands on one table. *)
Definition run_op (f : family) (t : string) (args : list string) (s : chains) : option string * chains :=
  match args with
  | op :: c :: rest =>
      match s f t c with
      | None => if bool_decide (op = "-N") then (None, set_chain f t c [] s) else (Some "No chain by that name", s)
      | Some l =>
          if bool_decide (op = "-N") then (Some "Chain already exists.", s)
          else if bool_decide (op = "-F") then (None, set_chain f t c [] s)
          else if bool_decide (op = "-A") then (None, set_chain f t c (l ++ [rest]) s)
          else if bool_decide (op = "-I") then (None, set_chain f t c (tail rest :: l) s)
          else if bool_decide (op = "-C") then (if bool_decide (rest ∈ l) then (None, s) else (Some "Bad rule", s))
          else (Some "unknown option", s)
      end
  | _ => (Some "no command", s)
  end.
Definition table_filter : Netfilter := {|
  nf_state := chains;
  nf_chain f t c s := s f t c;
  nf_run f args s :=
    match args with
    | opt :: t :: rest => if bool_decide (opt = "-t") then run_op f t rest s else run_op f "filter" args s
    | _ => run_op f "filter" args s
    end;
|}.

Lemma table_filter_run f t op c rest s : op ≠ "-t" →
  @nf_run table_filter f (in_table t (op :: c :: rest)) s = run_op f t (op :: c :: rest) s.
Proof.
  intros Hop. unfold in_table. case_bool_decide as Ht; cbn [nf_run table_filter].
  - by rewrite bool_decide_eq_false_2, Ht by done.
  - by rewrite bool_decide_eq_true_2 by done.
Qed.
Lemma set_chain_eq f t c l s : set_chain f t c l s f t c = Some l.
Proof. unfold set_chain. by rewrite bool_decide_eq_true_2. Qed.

Lemma run_op_flush f t c s s' : run_op f t ["-F"; c] s = (None, s') → s' = set_chain f t c [] s.
Proof. unfold run_op. destruct (s f t c); by intros [= <-]. Qed.
Lemma run_op_append f t c r s s' :
  run_op f t ("-A" :: c :: r) s = (None, s') → ∃ l, s f t c = Some l ∧ s' = set_chain f t c (l ++ [r]) s.
Proof. unfold run_op. destruct (s f t c) as [l|]; intros [= <-]. by exists l. Qed.
Lemma run_op_insert f t c r s s' :
  run_op f t ("-I" :: c :: "1" :: r) s = (None, s') → ∃ l, s f t c = Some l ∧ s' = set_chain f t c (r :: l) s.
Proof. unfold run_op. destruct (s f t c) as [l|]; intros [= <-]. by exists l. Qed.
Lemma run_op_check f t c r s s' :
  run_op f t ("-C" :: c :: r) s = (None, s') → ∃ l, s f t c = Some l ∧ s' = s ∧ r ∈ l.
Proof.
  change (run_op f t ("-C" :: c :: r) s) with (match s f t c with
    | None => (Some "No chain by that name", s)
    | Some l => if bool_decide (r ∈ l) then (None, s) else (Some "Bad rule", s) end).
  destruct (s f t c) as [l|]; [|done]. case_bool_decide; [|done]. intros [= <-]. by exists l.
Qed.

#[export] Instance table_filter_laws : @NetfilterLaws table_filter.
Proof.
  split; intros *.
  - rewrite table_filter_run by done. intros ->%run_op_flush. apply set_chain_eq.
  - rewrite table_filter_run by done. intros (l & Hl & ->)%run_op_append. exists l. split; [done|]. apply set_chain_eq.
  - rewrite table_filter_run by done. intros (l & Hl & ->)%run_op_insert. exists l. split; [done|]. apply set_chain_eq.
  - rewrite table_filter_run by done. intros (l & Hl & -> & Hr)%run_op_check. by exists l.
  - intros Hop Hne. assert (op ≠ "-t") as Ht.
    { intros ->. apply (bool_decide_eq_true_2 _) in Hop. vm_compute in Hop. done. }
    rewrite table_filter_run by done. cbn [nf_chain table_filter run_op].
    assert (∀ l, set_chain f t c l s f' t' c' = s f' t' c') as Hs.
    { intros l. unfold set_chain. by rewrite bool_decide_eq_false_2. }
    destruct (s f t c); repeat case_bool_decide; done || apply Hs.
Qed.

(** The built-in chains, empty. *)
Definition bare_tables : chains := λ _ t c,
  if bool_decide (c ∈ ["INPUT"; "FORWARD"; "POSTROUTING"]) then Some [] else None.
Definition run_firewall : result unit * chains := @EnsureFirewall table_filter Default bare_tables.

(** A filter that has the laws: it reads a rule option by option. *)
Definition in_network (cidr : string) (ip : Z) : bool :=
  match ParseCIDR cidr with Some (_, n) => Contains n ip | None => false end.
Definition verdict_of (target : string) : option verdict :=
  if bool_decide (target = "ACCEPT") then Some ACCEPT
  else if bool_decide (target = "DROP") then Some DROP
  else if bool_decide (target = "RETURN") then Some RETURN else None.

Fixpoint rule_verdict (r : rule) (p : packet) : option verdict :=
  match r with
  | opt :: arg :: r' =>
      if bool_decide (opt = "-j") then verdict_of arg
      else if (if bool_decide (opt = "-m") then true
               else if bool_decide (opt = "--ctstate") then bool_decide (pk_state p ∈ Split arg ",")
               else if bool_decide (opt = "-i") then interface_matches arg (pk_in p)
               else if bool_decide (opt = "-s") then in_network arg (pk_src p)
               else if bool_decide (opt = "-d") then in_network arg (pk_dst p)
               else false)
      then rule_verdict r' p else None
  | _ => None
  end.
Fixpoint chain_verdict (rules : list rule) (p : packet) : option verdict :=
  match rules with
  | [] => None
  | r :: rules' => match rule_verdict r p with Some v => Some v | None => chain_verdict rules' p end
  end.

Definition first_match : PacketVerdicts := chain_verdict.

Lemma target_text v : verdict_of (verdict_text v) = Some v.
Proof. by destruct v. Qed.

#[export] Instance first_match_laws : @PacketVerdictLaws first_match.
Proof.
  split; intros *; intros; unfold nf_verdict, first_match; cbn [chain_verdict].
  - change (rule_verdict _ p) with
      (if bool_decide (pk_state p ∈ Split states ",") then verdict_of (verdict_text v) else None).
    rewrite target_text. by case_bool_decide.
  - change (rule_verdict _ p) with (if interface_matches i (pk_in p)
      then if in_network net (pk_dst p) then verdict_of (verdict_text v) else None else None).
    rewrite target_text. unfold in_network. simplify_option_eq. by destruct (interface_matches _ _), (Contains _ _).
  - change (rule_verdict _ p) with (if interface_matches i (pk_in p)
      then if in_network net (pk_src p) then verdict_of (verdict_text v) else None else None).
    rewrite target_text. unfold in_network. simplify_option_eq. by destruct (interface_matches _ _), (Contains _ _).
  - change (rule_verdict _ p) with (if in_network net (pk_dst p) then verdict_of (verdict_text v) else None).
    rewrite target_text. unfold in_network. simplify_option_eq. by destruct (Contains _ _).
  - change (rule_verdict _ p) with (verdict_of (verdict_text v)). by rewrite target_text.
Qed.

(** A stranger's packet to a VM of the default network is dropped. *)
Lemma EnsureFirewall_isolates_witness :
  run_firewall.1 = Ok tt ∧
  let p := MkPacket "eth0" 1 0xfd7a115ca1e000000000000000000003 "NEW" in
  ∃ rules, run_firewall.2 IPv6 "filter" firewallChainName = Some rules ∧ @nf_verdict first_match rules p = Some DROP.
Proof.
  assert (run_firewall.1 = Ok tt) as Hr by (vm_compute; reflexivity). split; [exact Hr|]. intros p.
  destruct (@EnsureFirewall_isolates table_filter table_filter_laws first_match first_match_laws
    Default bare_tables run_firewall.2
    0xfd7a115ca1e000000000000000000000 (MkIPNet 0xfd7a115ca1e000000000000000000000 64 128)
    (of_v4 (10 * 2 ^ 24 + 88 * 2 ^ 16)) (MkIPNet (of_v4 (10 * 2 ^ 24 + 88 * 2 ^ 16)) 16 32))
    as (G6 & _ & I6 & _);
    [reflexivity|vm_compute; reflexivity|vm_compute; reflexivity|reflexivity
    |unfold run_firewall in *; destruct (@EnsureFirewall _ _ _) as [r t]; simpl in *; by subst r|].
  eexists. split; [exact (gd_rules _ _ _ G6)|]. rewrite (I6 p). vm_compute. reflexivity.
Defined.

(** ** The other host settings *)

Definition loopbackCIDR (address : string) : result string :=
  match ParseIP address with
  | None => Err (ErrOther "parse loopback address")
  | Some ip => Ok (address +:+ (if is_v4 ip then "/32" else "/128"))
  end.

Definition ksmRootPath : string := "/sys/kernel/mm/ksm".

Section ksm.
Context `{FirecrackerVMM, Env, GoUnicode}.

Definition readKSMValue (name : string) : M World string :=
  data ← open_read (path_Join [ksmRootPath; name]); mret (TrimSpace data).
Definition writeKSMValue (name value : string) : M World unit :=
  os_WriteFile (path_Join [ksmRootPath; name]) (value +:+ String (ascii_of_nat 10) "").
Definition writeKSMValueIfPresent (name value : string) : M World unit :=
  r ← attempt (writeKSMValue name value);
  match r with Err ErrNotExist => mret tt | Err e => fail e | Ok _ => mret tt end.
Definition readKSMValueOrUnknown (name : string) : M World string :=
  r ← attempt (readKSMValue name); match r with Ok v => mret v | Err _ => mret "unknown" end.

Definition EnsureKSM : M World unit :=
  st ← attempt (os_Stat ksmRootPath);
  match st with
  | Err ErrNotExist => mret tt
  | Err e => fail e
  | Ok _ =>
      run ← readKSMValue "run";
      (if bool_decide (run = "1") then mret tt
       else
         writeKSMValueIfPresent "pages_to_scan" "1000" ;;
         writeKSMValueIfPresent "sleep_millisecs" "1000" ;;
         writeKSMValue "run" "1") ;;
      readKSMValueOrUnknown "run" ;;
      readKSMValueOrUnknown "pages_to_scan" ;;
      readKSMValueOrUnknown "sleep_millisecs" ;;
      readKSMValueOrUnknown "pages_sharing" ;;
      mret tt
  end.
End ksm.
