(* ===== verification/TcpWake.v ===== *)
(** * The SSH wake proxy (internal/proxy/tcp_wake.go)

    Connections to port 22 of a VM that arrive on the WireGuard interface are
    redirected to the daemon, which starts the VM and passes them on.  Sockets
    are the class [TcpNet]; the manager is the [VMStarter] of Proxy.v. *)

From S2P Require Import Prelude GoStrings Paths IPNet Json Types Store Config PrivateNet Memory.
From S2P Require Import World FileCopy Host Manager Proxy.
Open Scope Z_scope.

(** What the network answers at a moment: the original destination of a
    connection, a dial, how often a wait may still try, and whether the
    listener could be opened. *)
Class TcpNet := {
  original_dst : nat → result Z;
  dial : nat → string → result unit;
  tries_left : nat → nat;
  listen : nat → string → result unit;
}.

Section tcp_wake.
Context `{FirecrackerVMM, Env, GoUnicode, Timestamps, TcpNet, !VMStarter}.
Context (cfg : Config).

Definition isIPv4CIDR (cidr : string) : bool :=
  match ParseCIDR cidr with Some (ip, _) => is_v4 ip | None => false end.

Definition sshRedirectRule (op : string) : list string :=
  ["-t"; "nat"; op; "PREROUTING"; "-i"; wg_Interface (WireGuard cfg); "-p"; "tcp";
   "-d"; vn_Subnet (VMNetwork cfg); "--dport"; "22"; "-j"; "REDIRECT";
   "--to-ports"; FormatInt (ssh_WakeProxyPort (SSH cfg))].

Definition ensureSSHRedirect : M World unit :=
  r ← attempt (run_cmd "/usr/sbin/iptables" (sshRedirectRule "-C"));
  match r with
  | Ok _ => mret tt
  | Err _ => run_cmd "/usr/sbin/iptables" (sshRedirectRule "-A")
  end.
Definition deleteSSHRedirect : M World unit := run_cmd "/usr/sbin/iptables" (sshRedirectRule "-D").

(** [ListVMs] is ordered by name; the first with the address. *)
Definition vmByPrivateIP (ip : string) : M World VM :=
  vms ← dbcall Store.ListVMs;
  match list_find (λ vm, vm_PrivateIP vm = ip) vms with
  | Some (_, vm) => mret vm
  | None => fail ErrNotFound
  end.

Definition dial_tcp (address : string) : M World unit := t ← ticks; ext (lift_result (dial t address)).

(** A try every half second until the time is up. *)
Fixpoint wait_loop (n : nat) (address : string) : M World unit :=
  r ← attempt (dial_tcp address);
  match r with
  | Ok _ => mret tt
  | Err e => match n with O => fail e | S n' => wait_loop n' address end
  end.
Definition waitForTCP (address : string) : M World unit :=
  t ← ticks; wait_loop (tries_left t) address.

(** The VM to connect to, started if it has to be: [None] closes the connection. *)
Definition wake_for_ssh (vm : VM) : M World (option VM) :=
  if bool_decide (vm_State vm = "running") then mret (Some vm) else
  if negb (vm_AutoWake vm) then mret None else
  r ← attempt (starter_StartVM (vm_UUID vm));
  match r with
  | Ok started => mret (Some started)
  | Err ErrAlreadyRunning =>
      refreshed ← attempt (dbcall (Store.GetVM (vm_UUID vm)));
      match refreshed with Ok vm' => mret (Some vm') | Err _ => mret (Some vm) end
  | Err _ => mret None
  end.

(** Gives the address the connection is passed on to, if it is. *)
Definition handleSSHConn : M World (option string) :=
  t ← ticks;
  dst ← attempt (ext (lift_result (original_dst t)));
  match dst with
  | Err _ => mret None
  | Ok ip =>
      found ← attempt (vmByPrivateIP (IP_String ip));
      match found with
      | Err _ => mret None
      | Ok vm =>
          target ← wake_for_ssh vm;
          match target with
          | None => mret None
          | Some vm =>
              let address := JoinHostPort (vm_PrivateIP vm) "22" in
              ready ← attempt (waitForTCP address);
              match ready with
              | Err _ => mret None
              | Ok _ =>
                  attempt (now ← db_now; dbcall (Store.TouchVMActivity now (vm_UUID vm))) ;;
                  upstream ← attempt (dial_tcp address);
                  match upstream with Ok _ => mret (Some address) | Err _ => mret None end
              end
          end
      end
  end.

(** Until the listener is open; [serve] is the loop that accepts connections
    until the daemon stops.  [false]: the proxy is disabled. *)
Definition RunSSH (serve : M World unit) : M World bool :=
  if negb (isIPv4CIDR (vn_Subnet (VMNetwork cfg))) then mret false else
  ensureSSHRedirect ;;
  deferring
    (match ParseCIDR (wg_Address (WireGuard cfg)) with
     | None => fail (ErrOther "invalid CIDR address")
     | Some (bindIP, _) =>
         t ← ticks;
         ext (lift_result (listen t (JoinHostPort (IP_String bindIP) (FormatInt (ssh_WakeProxyPort (SSH cfg)))))) ;;
         serve ;;
         mret true
     end)
    (attempt deleteSSHRedirect ;; mret tt).

(** With a configuration that [Validate] accepts the proxy never runs: the VM
    network has to be IPv6 there, and the proxy wants IPv4. *)
Lemma RunSSH_disabled serve w : config_valid cfg → RunSSH serve w = (Ok false, w).
Proof.
  intros Hv. destruct (cv_subnet _ Hv) as (ip & n & Hp & Hv4). unfold RunSSH, isIPv4CIDR. by rewrite Hp, Hv4.
Qed.

(** Waking is opt-in: a connection to a VM that does not run and must not be
    woken is closed, and starts nothing. *)
Lemma wake_for_ssh_refuses vm w :
  vm_State vm ≠ "running" → vm_AutoWake vm = false → wake_for_ssh vm w = (Ok None, w).
Proof. intros Hs Ha. unfold wake_for_ssh. by rewrite bool_decide_eq_false_2, Ha. Qed.
End tcp_wake.
