(* ===== verification/ClientArgs.v ===== *)
(** * The client's arguments and API URLs (cmd/firedoze/main.go)

    Go's [flag] package as the client's commands use it, the helpers that let
    names and flags be mixed, and [normalizeAPIURL] over [net/url]. *)

From S2P Require Import Prelude GoStrings IPNet Config.
Open Scope Z_scope.

(** ** Go's strings and strconv *)

Fixpoint TrimLeftChar (s : string) (c : ascii) : string :=
  match s with
  | "" => ""
  | String d s' => if bool_decide (d = c) then TrimLeftChar s' c else s
  end.

Fixpoint TrimRightChar (s : string) (c : ascii) : string :=
  match s with
  | "" => ""
  | String d s' =>
      match TrimRightChar s' c with
      | "" => if bool_decide (d = c) then "" else String d ""
      | t => String d t
      end
  end.

Definition ParseBool (s : string) : result bool :=
  if bool_decide (s ∈ ["1"; "t"; "T"; "true"; "TRUE"; "True"]) then Ok true
  else if bool_decide (s ∈ ["0"; "f"; "F"; "false"; "FALSE"; "False"]) then Ok false
  else Err (ErrOther "invalid syntax").

(** [strconv.ParseInt(s, 0, 64)]: the base is the prefix's, and underscores may
    separate digits. *)
Definition digit_in (base : Z) (c : ascii) : option Z :=
  d ← hex_value c; if bool_decide (d < base) then Some d else None.

Fixpoint parse_base (base acc : Z) (s : string) : option Z :=
  match s with
  | "" => Some acc
  | String c s' => if bool_decide (c = "_"%char) then parse_base base acc s'
                   else d ← digit_in base c; parse_base base (acc * base + d) s'
  end.

(** What [underscoreOK] saw last. *)
Inductive seen := SeenStart | SeenDigit | SeenUnderscore | SeenOther.

Fixpoint underscores_ok (hex : bool) (saw : seen) (s : string) : bool :=
  match s with
  | "" => match saw with SeenUnderscore => false | _ => true end
  | String c s' =>
      if is_digit c || (hex && bool_decide (is_Some (hex_value c))) then underscores_ok hex SeenDigit s' else
      if bool_decide (c = "_"%char) then match saw with SeenDigit => underscores_ok hex SeenUnderscore s' | _ => false end
      else match saw with SeenUnderscore => false | _ => underscores_ok hex SeenOther s' end
  end.

Definition parse_unsigned0 (s : string) : option Z :=
  match s with
  | "" => None
  | String "0"%char s1 =>
      match s1 with
      | String b (String c rest) =>
          let digits := String c rest in
          let b := lower_char b in
          if bool_decide (b = "b"%char) then guard (underscores_ok false SeenDigit digits) ;; parse_base 2 0 digits
          else if bool_decide (b = "o"%char) then guard (underscores_ok false SeenDigit digits) ;; parse_base 8 0 digits
          else if bool_decide (b = "x"%char) then guard (underscores_ok true SeenDigit digits) ;; parse_base 16 0 digits
          else guard (underscores_ok false SeenStart s) ;; parse_base 8 0 s1
      | _ => guard (underscores_ok false SeenStart s) ;; parse_base 8 0 s1
      end
  | _ => guard (underscores_ok false SeenStart s) ;; parse_base 10 0 s
  end.

Definition ParseInt0 (s : string) : option Z :=
  z ← match s with
      | String "+"%char s' => parse_unsigned0 s'
      | String "-"%char s' => Z.opp <$> parse_unsigned0 s'
      | _ => parse_unsigned0 s
      end;
  if bool_decide (int_min 64 ≤ z ≤ int_max 64) then Some z else None.

(** ** Package flag

    A flag set is its flags and the kind of each; parsing gives the values set,
    the last one first, and the arguments left.  The text kept of a boolean or
    an integer is the value's own; [FlagFunc] is a flag given a function that
    parses a boolean. *)
Inductive flag_kind := FlagBool | FlagString | FlagInt | FlagFunc.

#[global] Instance flag_kind_eq_dec : EqDecision flag_kind.
Proof. solve_decision. Defined.

Definition FlagSet : Type := list (string * flag_kind).

Definition Lookup (flags : FlagSet) (name : string) : option flag_kind :=
  match list_find (λ f, f.1 = name) flags with Some (_, (_, k)) => Some k | None => None end.

(** The name and the value, if there is one, of an argument with its minuses
    removed. *)
Definition split_flag (name : string) : string * option string :=
  match name with
  | "" => ("", None)
  | String c rest =>
      match Cut rest "=" with
      | Some (a, v) => (String c a, Some v)
      | None => (name, None)
      end
  end.

Definition bad_flag_syntax (name : string) : bool :=
  bool_decide (name = "") || HasPrefix name "-" || HasPrefix name "=".

(** [-name] or [--name]; [None] for an argument that is no flag. *)
Definition flag_name (s : string) : option string :=
  match s with
  | String "-"%char "" => None
  | String "-"%char (String "-"%char rest) => Some rest
  | String "-"%char rest => Some rest
  | _ => None
  end.

(** [flag.Value.Set]. *)
Definition bool_text (b : bool) : string := if b then "true" else "false".

Definition flag_Set (k : flag_kind) (v : string) : result string :=
  match k with
  | FlagBool | FlagFunc => b ← ParseBool v; Ok (bool_text b)
  | FlagString => Ok v
  | FlagInt => match ParseInt0 v with Some z => Ok (FormatInt z) | None => Err (ErrOther "invalid value") end
  end.

Fixpoint flag_Parse (flags : FlagSet) (values : list (string * string)) (args : list string)
    : result (list (string * string) * list string) :=
  match args with
  | [] => Ok (values, [])
  | s :: rest =>
      match flag_name s with
      | None => Ok (values, args)
      | Some name =>
          if bool_decide (s = "--") then Ok (values, rest) else
          if bad_flag_syntax name then Err (ErrOther "bad flag syntax") else
          let '(name, value) := split_flag name in
          match Lookup flags name with
          | None => Err (ErrOther (if bool_decide (name = "help" ∨ name = "h") then "flag: help requested"
                                   else "flag provided but not defined"))
          | Some FlagBool =>
              match flag_Set FlagBool (default "true" value) with
              | Err e => Err e
              | Ok v => flag_Parse flags ((name, v) :: values) rest
              end
          | Some k =>
              match value, rest with
              | Some v, _ =>
                  match flag_Set k v with Err e => Err e | Ok v => flag_Parse flags ((name, v) :: values) rest end
              | None, v :: rest' =>
                  match flag_Set k v with Err e => Err e | Ok v => flag_Parse flags ((name, v) :: values) rest' end
              | None, [] => Err (ErrOther "flag needs an argument")
              end
          end
      end
  end.

Definition flag_value (values : list (string * string)) (name dflt : string) : string :=
  match list_find (λ f, f.1 = name) values with Some (_, (_, v)) => v | None => dflt end.

Definition flag_int (values : list (string * string)) (name : string) (dflt : Z) : Z :=
  default dflt (ParseInt (flag_value values name "")).
Definition flag_bool (values : list (string * string)) (name : string) : bool :=
  bool_decide (flag_value values name "" = "true").
(** [optionalBool]: whether it was set, and to what. *)
Definition flag_optional (values : list (string * string)) (name : string) : option bool :=
  let v := flag_value values name "" in
  if is_empty v then None else Some (bool_decide (v = "true")).

(** ** Names and flags in any order *)

Definition flagConsumesValue (flags : FlagSet) (arg : string) : bool :=
  let name := TrimLeftChar arg "-" in
  if is_empty name then false else
  match Lookup flags name with
  | None => true
  | Some k => negb (bool_decide (k = FlagBool))
  end.

(** The loop: the names and the arguments for [flags.Parse]. *)
Fixpoint split_names (flags : FlagSet) (args : list string) : list string * list string :=
  match args with
  | [] => ([], [])
  | arg :: rest =>
      if HasPrefix arg "-" then
        match rest with
        | v :: rest' =>
            if negb (GoStrings.Contains arg "=") && flagConsumesValue flags arg && negb (HasPrefix v "-")
            then let '(names, fl) := split_names flags rest' in (names, arg :: v :: fl)
            else let '(names, fl) := split_names flags rest in (names, arg :: fl)
        | [] => ([], [arg])
        end
      else let '(names, fl) := split_names flags rest in (arg :: names, fl)
  end.

Definition parseNamesAndFlags (flags : FlagSet) (args : list string)
    : result (list string * list (string * string)) :=
  if bool_decide (args = []) then Err (ErrOther "missing name") else
  let '(names, flagArgs) := split_names flags args in
  '(values, rest) ← flag_Parse flags [] flagArgs;
  if negb (bool_decide (rest = [])) then Err (ErrOther "unexpected argument") else
  if bool_decide (names = []) then Err (ErrOther "missing name") else Ok (names, values).

Definition parseNameAndFlags (flags : FlagSet) (args : list string)
    : result (string * list (string * string)) :=
  match args with
  | [] => Err (ErrOther "missing name")
  | arg :: rest =>
      if negb (HasPrefix arg "-") then
        '(values, others) ← flag_Parse flags [] rest;
        if negb (bool_decide (others = [])) then Err (ErrOther "unexpected argument") else Ok (arg, values)
      else
        '(values, others) ← flag_Parse flags [] args;
        match others with [name] => Ok (name, values) | _ => Err (ErrOther "missing name") end
  end.

Definition foundFlag (args : list string) (name : string) : bool :=
  existsb (λ arg, let trimmed := TrimLeftChar arg "-" in
             bool_decide (trimmed = name) || HasPrefix trimmed (name +:+ "=")) args.

(** ** Package net/url

    A URL of plain text, [scheme://host[:port][/path]] with no user, query,
    fragment or escape, is parsed and printed here; what Go does with any other
    text is an argument.  [url_Extra] holds the parts a plain URL has not. *)
Record URL := MkURL { url_Scheme : string; url_Host : string; url_Path : string; url_Extra : string }.

Class GoURL := {
  url_parse_other : string → result URL;
  url_string_other : URL → string;
}.

Definition is_letter (c : ascii) : bool := is_lower c || is_upper c.
Definition is_word_char (c : ascii) : bool :=
  is_letter c || is_digit c || str_mem c "-._~".
Definition is_path_char (c : ascii) : bool := is_word_char c || bool_decide (c = "/"%char).
Definition is_scheme_char (c : ascii) : bool := is_letter c || is_digit c || str_mem c "+-.".
Definition is_bracket_char (c : ascii) : bool := bool_decide (is_Some (hex_value c)) || str_mem c ":.".

Definition scheme_ok (s : string) : bool :=
  match s with "" => false | String c _ => is_letter c && str_forall is_scheme_char s end.

Definition validOptionalPort (p : string) : bool :=
  match p with "" => true | String c d => bool_decide (c = ":"%char) && str_forall is_digit d end.

(** The text between the brackets of a plain host. *)
Definition bracket_ok (a : string) : bool :=
  str_forall is_bracket_char a && str_mem ":" a && bool_decide (is_Some (parse_v6 a)).

Definition host_ok (h : string) : bool :=
  if HasPrefix h "[" then
    match Cut (str_drop 1 h) "]" with Some (a, p) => bracket_ok a && validOptionalPort p | None => false end
  else match Cut h ":" with
       | Some (a, p) => str_forall is_word_char a && str_forall is_digit p
       | None => str_forall is_word_char h
       end.

Definition path_ok (p : string) : bool :=
  (is_empty p || HasPrefix p "/") && str_forall is_path_char p.

(** Text without a scheme, or a plain URL. *)
Definition plain_url (raw : string) : option URL :=
  match Cut raw "://" with
  | None =>
      if str_forall is_path_char raw && negb (HasPrefix raw "//")
      then Some (MkURL "" "" raw "") else None
  | Some (scheme, rest) =>
      let '(authority, path) := match Cut rest "/" with
                                | Some (a, b) => (a, "/" +:+ b) | None => (rest, "") end in
      if scheme_ok scheme && host_ok authority && path_ok path
      then Some (MkURL (str_map lower_char scheme) authority path "") else None
  end.

(** [splitHostPort]: what [Hostname] and [Port] return. *)
Definition url_splitHostPort (hostPort : string) : string * string :=
  let '(host, port) := match CutLast hostPort ":" with
                       | Some (a, b) => if str_forall is_digit b then (a, b) else (hostPort, "")
                       | None => (hostPort, "")
                       end in
  if HasPrefix host "[" && HasSuffix host "]" then (TrimSuffix (str_drop 1 host) "]", port) else (host, port).

Definition Hostname (u : URL) : string := (url_splitHostPort (url_Host u)).1.
Definition Port (u : URL) : string := (url_splitHostPort (url_Host u)).2.

Section url.
Context `{GoURL}.

Definition url_Parse (raw : string) : result URL :=
  match plain_url raw with Some u => Ok u | None => url_parse_other raw end.

Definition url_String (u : URL) : string :=
  if scheme_ok (url_Scheme u) && host_ok (url_Host u) && path_ok (url_Path u) && is_empty (url_Extra u)
  then url_Scheme u +:+ "://" +:+ url_Host u +:+ url_Path u
  else url_string_other u.

Definition defaultAPIPort : string := "8081".

Definition normalizeAPIURL (rawURL : string) : result string :=
  u ← url_Parse rawURL;
  if is_empty (url_Scheme u) || is_empty (url_Host u)
  then Err (ErrOther "API URL must include scheme and host") else
  let u := if is_empty (Port u)
           then MkURL (url_Scheme u) (JoinHostPort (Hostname u) defaultAPIPort) (url_Path u) (url_Extra u)
           else u in
  Ok (TrimRightChar (url_String u) "/").
End url.

(** ** Normalising a URL *)

Lemma TrimRightChar_nil s c : TrimRightChar s c = "" → str_forall (λ d, bool_decide (d = c)) s = true.
Proof.
  induction s as [|d s IH]; simpl; [done|]. destruct (TrimRightChar s c) as [|x t] eqn:E; [|done].
  case_bool_decide; [|done]. intros _. by rewrite IH.
Qed.

Lemma TrimRightChar_app s t c :
  s ≠ "" → str_mem c s = false → TrimRightChar (s +:+ t) c = s +:+ TrimRightChar t c.
Proof.
  intros Hs Hm. induction s as [|d s IH]; [done|]. rewrite !str_app_cons. simpl in *.
  apply orb_false_iff in Hm as [Hd Hm]. apply bool_decide_eq_false in Hd.
  rewrite bool_decide_eq_false_2 by congruence.
  destruct s as [|x s].
  - rewrite !str_app_nil_l. by destruct (TrimRightChar t c).
  - rewrite IH by done. by rewrite str_app_cons.
Qed.

Lemma TrimRightChar_app_r x s c :
  TrimRightChar s c ≠ "" → TrimRightChar (x +:+ s) c = x +:+ TrimRightChar s c.
Proof.
  intros Hs. induction x as [|d x IH]; [done|]. rewrite !str_app_cons. simpl. rewrite IH.
  destruct (x +:+ TrimRightChar s c) eqn:E; [|done]. by apply str_app_eq_nil in E as [_ ?].
Qed.

Lemma TrimRightChar_idemp s c : TrimRightChar (TrimRightChar s c) c = TrimRightChar s c.
Proof.
  induction s as [|d s IH]; [done|]. simpl. destruct (TrimRightChar s c) as [|x t] eqn:E.
  - case_bool_decide; [done|]. simpl. by rewrite bool_decide_eq_false_2.
  - change (match TrimRightChar (String x t) c with "" => if bool_decide (d = c) then "" else String d "" | t => String d t end = String d (String x t)).
    by rewrite IH.
Qed.

Lemma TrimRightChar_prefix s c : ∃ t, s = TrimRightChar s c +:+ t.
Proof.
  induction s as [|d s [t IH]]; [by exists ""|]. simpl. destruct (TrimRightChar s c) as [|x u] eqn:E.
  - case_bool_decide; [by exists (String d s)|]. by exists s.
  - exists t. rewrite str_app_cons. by f_equal.
Qed.

Lemma path_ok_trim p : path_ok p = true → path_ok (TrimRightChar p "/") = true.
Proof.
  unfold path_ok. intros [Hp Hc]%andb_true_iff. destruct (TrimRightChar_prefix p "/") as [t E].
  rewrite E, str_forall_app in Hc. apply andb_true_iff in Hc as [Hc _]. rewrite Hc, andb_true_r.
  destruct p as [|d p]; [done|]. destruct (TrimRightChar (String d p) "/") as [|x u]; [done|].
  rewrite str_app_cons in E. by injection E as <- _.
Qed.

(** The three shapes of a plain host. *)
Inductive plain_host : string → string → string → Prop :=
  | host_name a : str_forall is_word_char a = true → plain_host a a ""
  | host_port a p : str_forall is_word_char a = true → str_forall is_digit p = true →
      plain_host (a +:+ ":" +:+ p) a p
  | host_v6 a : bracket_ok a = true → plain_host ("[" +:+ a +:+ "]") a ""
  | host_v6_port a p : bracket_ok a = true → str_forall is_digit p = true →
      plain_host ("[" +:+ a +:+ "]:" +:+ p) a p.

Lemma word_no_bracket a t : str_forall is_word_char a = true → HasPrefix t "[" = false →
  HasPrefix (a +:+ t) "[" = false.
Proof.
  intros Ha Ht. destruct a as [|c a]; [done|]. rewrite str_app_cons. cbn [HasPrefix str_forall] in *.
  apply andb_true_iff in Ha as [Hc _]. case_bool_decide; [|done]. by subst c.
Qed.

Lemma host_ok_shape h : host_ok h = true → ∃ n p, plain_host h n p.
Proof.
  unfold host_ok. destruct (HasPrefix h "[") eqn:Hb.
  - apply HasPrefix_spec in Hb as [r ->]. change (str_drop 1 ("[" +:+ r)) with r.
    destruct (Cut r "]") as [[a p]|] eqn:E; [|done]. apply Cut_Some in E as ->.
    intros [Ha Hp]%andb_true_iff. destruct p as [|c p].
    + exists a, "". rewrite str_app_nil_r. by constructor.
    + cbn [validOptionalPort] in Hp. apply andb_true_iff in Hp as [->%bool_decide_eq_true Hp].
      exists a, p. by apply host_v6_port.
  - destruct (Cut h ":") as [[a p]|] eqn:E.
    + apply Cut_Some in E as ->. intros [Ha Hp]%andb_true_iff. exists a, p. by constructor.
    + intros Hh. exists h, "". by constructor.
Qed.

Lemma bracket_no_char a c : bracket_ok a = true → is_bracket_char c = false → str_mem c a = false.
Proof.
  unfold bracket_ok. intros [[Ha _]%andb_true_iff _]%andb_true_iff Hc. by eapply str_mem_forall.
Qed.

Lemma bracket_colon a : bracket_ok a = true → str_mem ":" a = true.
Proof. by intros [[_ Ha]%andb_true_iff _]%andb_true_iff. Qed.

Lemma plain_host_ok h n p : plain_host h n p → host_ok h = true.
Proof.
  unfold host_ok. intros [a Ha|a p' Ha Hp|a Ha|a p' Ha Hp].
  - rewrite <-(str_app_nil_r a) at 1. rewrite word_no_bracket by done.
    by rewrite Cut_None_char by by apply (str_mem_forall is_word_char).
  - rewrite word_no_bracket by done. change (":" +:+ p') with (String ":" p').
    rewrite Cut_app_char by by apply (str_mem_forall is_word_char). by rewrite Ha, Hp.
  - change (str_drop 1 ("[" +:+ a +:+ "]")) with (a +:+ "]"). change (HasPrefix ("[" +:+ _) "[") with true.
    cbn [andb]. rewrite Cut_app_char by by apply bracket_no_char. by rewrite Ha.
  - change (str_drop 1 ("[" +:+ a +:+ "]:" +:+ p')) with (a +:+ String "]" (String ":" p')).
    change (HasPrefix ("[" +:+ _) "[") with true.
    rewrite Cut_app_char by by apply bracket_no_char. rewrite Ha. simpl. done.
Qed.

Lemma CutLast_Some s c a b : CutLast s c = Some (a, b) → s = a +:+ String c b ∧ str_mem c b = false.
Proof.
  revert a b. induction s as [|d s IH]; intros a b; simpl; [done|].
  destruct (CutLast s c) as [[x y]|] eqn:E.
  - intros [= <- <-]. destruct (IH x y) as [-> Hy]; [done|]. done.
  - case_bool_decide; [|done]. intros [= <- <-]. subst d. split; [done|]. by apply CutLast_None.
Qed.

Lemma brackets_stripped a : HasPrefix ("[" +:+ a +:+ "]") "[" && HasSuffix ("[" +:+ a +:+ "]") "]" = true ∧
  TrimSuffix (str_drop 1 ("[" +:+ a +:+ "]")) "]" = a.
Proof.
  split; [|apply (TrimSuffix_app a "]")]. rewrite <-str_app_assoc. by rewrite HasSuffix_app.
Qed.

Lemma plain_host_split h n p : plain_host h n p → url_splitHostPort h = (n, p).
Proof.
  unfold url_splitHostPort. intros [a Ha|a p' Ha Hp|a Ha|a p' Ha Hp].
  - rewrite (proj2 (CutLast_None _ _)) by by apply (str_mem_forall is_word_char).
    pose proof (word_no_bracket a "" Ha eq_refl) as Hb. rewrite str_app_nil_r in Hb. by rewrite Hb.
  - change (":" +:+ p') with (String ":" p'). rewrite CutLast_app by by apply (str_mem_forall is_digit).
    rewrite Hp. pose proof (word_no_bracket a "" Ha eq_refl) as Hb. rewrite str_app_nil_r in Hb. by rewrite Hb.
  - destruct (CutLast a ":") as [[x y]|] eqn:E; [|apply CutLast_None in E; by rewrite (bracket_colon a Ha) in E].
    apply CutLast_Some in E as [Ea Hy].
    assert (CutLast ("[" +:+ a +:+ "]") ":" = Some ("[" +:+ x, y +:+ "]")) as ->.
    { rewrite <-(CutLast_app ("[" +:+ x) (y +:+ "]") ":") by (by rewrite str_mem_app, Hy). f_equal.
      rewrite Ea, !str_app_assoc. done. }
    rewrite str_forall_app, andb_false_r. destruct (brackets_stripped a) as [-> ->]. done.
  - replace ("[" +:+ a +:+ "]:" +:+ p') with (("[" +:+ a +:+ "]") +:+ String ":" p')
      by (rewrite !str_app_assoc; done).
    rewrite CutLast_app by by apply (str_mem_forall is_digit).
    rewrite Hp. destruct (brackets_stripped a) as [-> ->]. done.
Qed.

Lemma plain_host_slash h n p : plain_host h n p → str_mem "/" h = false.
Proof.
  intros [a Ha|a p' Ha Hp|a Ha|a p' Ha Hp]; rewrite ?str_mem_app.
  - by apply (str_mem_forall is_word_char).
  - rewrite (str_mem_forall is_word_char), (str_mem_forall is_digit _ p') by done. done.
  - by rewrite (bracket_no_char a).
  - rewrite (bracket_no_char a), (str_mem_forall is_digit _ p') by done. done.
Qed.

(** The host with the default port has it, and the same name. *)
Lemma plain_host_join h n : plain_host h n "" → plain_host (JoinHostPort n defaultAPIPort) n defaultAPIPort.
Proof.
  intros Hh. unfold JoinHostPort.
  assert (str_forall is_word_char n = true ∧ str_mem ":" n = false ∨ bracket_ok n = true ∧ str_mem ":" n = true)
    as [[Hn ->]|[Hn ->]]; [|by constructor..].
  inversion Hh; subst; [left|left|right|right]; (split; [done|]);
    first [by apply (str_mem_forall is_word_char)|by apply bracket_colon].
Qed.

Lemma Cut_scheme s t : str_mem ":" s = false → Cut (s +:+ "://" +:+ t) "://" = Some (s, t).
Proof.
  induction s as [|c s IH]; intros Hm; [done|]. simpl in Hm. apply orb_false_iff in Hm as [Hc Hm].
  rewrite str_app_cons. cbn [Cut HasPrefix]. rewrite Hc. cbn [andb]. by rewrite IH.
Qed.

Lemma scheme_no_colon s : scheme_ok s = true → str_mem ":" s = false.
Proof.
  destruct s as [|c s]; [done|]. intros [_ Hs]%andb_true_iff. by apply (str_mem_forall is_scheme_char).
Qed.

(** A URL of plain parts is read back from its text. *)
Lemma plain_url_text s h n p path :
  scheme_ok s = true → str_map lower_char s = s → plain_host h n p → path_ok path = true →
  plain_url (s +:+ "://" +:+ h +:+ path) = Some (MkURL s h path "").
Proof.
  intros Hs Hl Hh Hp. unfold plain_url. rewrite Cut_scheme by by apply scheme_no_colon.
  pose proof (plain_host_slash _ _ _ Hh) as Hslash. apply plain_host_ok in Hh.
  destruct path as [|c path].
  - rewrite str_app_nil_r, Cut_None_char by done. by rewrite Hs, Hh, Hl.
  - assert (c = "/"%char) as ->.
    { apply andb_true_iff in Hp as [Hp _]. cbn [is_empty] in Hp. unfold is_empty in Hp. simpl in Hp.
      rewrite andb_true_r in Hp. by apply bool_decide_eq_true in Hp. }
    rewrite Cut_app_char by done. change ("/" +:+ path) with (String "/" path). by rewrite Hs, Hh, Hp, Hl.
Qed.

Lemma lower_scheme_char c :
  is_letter (lower_char c) = is_letter c ∧ is_scheme_char (lower_char c) = is_scheme_char c.
Proof. by destruct c as [[] [] [] [] [] [] [] []]. Qed.

Lemma scheme_ok_lower s : scheme_ok s = true → scheme_ok (str_map lower_char s) = true.
Proof.
  destruct s as [|c s]; [done|]. cbn [scheme_ok str_map]. rewrite (proj1 (lower_scheme_char c)).
  intros [-> Hs]%andb_true_iff. cbn [andb]. change (String _ _) with (str_map lower_char (String c s)).
  revert Hs. generalize (String c s). intros t. induction t as [|d t IH]; [done|]. cbn [str_map str_forall].
  rewrite (proj2 (lower_scheme_char d)). by intros [-> Ht%IH]%andb_true_iff.
Qed.

(** The parts of a plain URL with a scheme. *)
Lemma plain_url_parts raw u :
  plain_url raw = Some u → url_Scheme u ≠ "" →
  scheme_ok (url_Scheme u) = true ∧ str_map lower_char (url_Scheme u) = url_Scheme u ∧
  (∃ n p, plain_host (url_Host u) n p) ∧ path_ok (url_Path u) = true ∧ url_Extra u = "".
Proof.
  unfold plain_url. destruct (Cut raw "://") as [[s rest]|].
  - destruct (match Cut rest "/" with Some (a, b) => (a, "/" +:+ b) | None => (rest, "") end) as [a path].
    destruct (scheme_ok s && host_ok a && path_ok path) eqn:E; [|done]. intros [= <-] _. simpl.
    apply andb_true_iff in E as [[Hs Ha]%andb_true_iff Hp]. split_and!; [by apply scheme_ok_lower| |by apply host_ok_shape|done|done].
    apply str_map_lower_idemp.
  - destruct (_ && _); [|done]. by intros [= <-].
Qed.

Section normalize.
Context `{GoURL}.

(** The URL with a host and a port, and the slashes at its end cut. *)
Lemma url_String_plain s h n p path :
  scheme_ok s = true → plain_host h n p → h ≠ "" → path_ok path = true →
  TrimRightChar (url_String (MkURL s h path "")) "/" = s +:+ "://" +:+ h +:+ TrimRightChar path "/".
Proof.
  intros Hs Hh Hne Hp. unfold url_String. cbn [url_Scheme url_Host url_Path url_Extra].
  rewrite Hs, (plain_host_ok _ _ _ Hh), Hp. cbn [andb]. change (is_empty "") with true. cbn iota.
  pose proof (TrimRightChar_app h path "/" Hne (plain_host_slash _ _ _ Hh)) as E.
  rewrite <-(str_app_assoc s), TrimRightChar_app_r; rewrite E; [by rewrite str_app_assoc|].
  by intros [? _]%str_app_eq_nil.
Qed.

(** A plain URL with a port is changed in nothing but the slashes at its end. *)
Lemma normalize_port s h n p path :
  scheme_ok s = true → str_map lower_char s = s → plain_host h n p → p ≠ "" → path_ok path = true →
  normalizeAPIURL (s +:+ "://" +:+ h +:+ path) = Ok (s +:+ "://" +:+ h +:+ TrimRightChar path "/").
Proof.
  intros Hs Hl Hh Hp Hpath. unfold normalizeAPIURL, url_Parse. rewrite (plain_url_text _ _ _ _ _ Hs Hl Hh Hpath).
  assert (h ≠ "") as Hne.
  { inversion Hh; subst; try done. by intros [_ ?]%str_app_eq_nil. }
  unfold mbind, result_mbind, Port. cbn [url_Scheme url_Host url_Path url_Extra].
  rewrite (plain_host_split _ _ _ Hh). unfold is_empty. cbn [snd].
  rewrite !bool_decide_eq_false_2 by (done || by intros ->). cbn [orb]. by rewrite (url_String_plain s h n p).
Qed.
(** The saved URL is complete and stays as it is: of a plain URL with a
    scheme and a host, [normalizeAPIURL] keeps the scheme, the host's name and
    the path up to its last slashes, gives it port 8081 when it has none, and
    normalising the result again changes nothing; without a scheme or a host
    it is an error. *)
Theorem normalizeAPIURL_correct raw u :
  plain_url raw = Some u →
  if is_empty (url_Scheme u) || is_empty (url_Host u) then is_ok (normalizeAPIURL raw) = false else
  ∃ s u', normalizeAPIURL raw = Ok s ∧ plain_url s = Some u' ∧ url_Scheme u' = url_Scheme u ∧
    Hostname u' = Hostname u ∧ Port u' = or_string (Port u) defaultAPIPort ∧
    url_Path u' = TrimRightChar (url_Path u) "/" ∧ normalizeAPIURL s = Ok s.
Proof.
  intros Hu. destruct (is_empty (url_Scheme u) || is_empty (url_Host u)) eqn:He.
  { unfold normalizeAPIURL, url_Parse, mbind, result_mbind. by rewrite Hu, He. }
  pose proof He as He'. apply orb_false_iff in He' as [Hs%bool_decide_eq_false Hh%bool_decide_eq_false].
  destruct (plain_url_parts _ _ Hu Hs) as (Sok & Slow & (n & p & Host) & Pok & Ex).
  pose proof (plain_host_split _ _ _ Host) as Hsplit.
  set (h' := if is_empty p then JoinHostPort n defaultAPIPort else url_Host u).
  assert (plain_host h' n (or_string p defaultAPIPort) ∧ h' ≠ "" ∧ or_string p defaultAPIPort ≠ "") as (Hh' & Hne & Hp).
  { unfold h', or_string, is_empty. case_bool_decide as Hp; [subst p|done].
    pose proof (plain_host_join _ _ Host) as Hj. split_and!; [done| |done].
    unfold JoinHostPort. case_match; [done|]. by intros [_ ?]%str_app_eq_nil. }
  pose proof (path_ok_trim _ Pok) as Pok'.
  exists (url_Scheme u +:+ "://" +:+ h' +:+ TrimRightChar (url_Path u) "/").
  exists (MkURL (url_Scheme u) h' (TrimRightChar (url_Path u) "/") "").
  unfold Hostname, Port. cbn [url_Scheme url_Host url_Path]. rewrite Hsplit, (plain_host_split _ _ _ Hh').
  split_and!; try done.
  - unfold normalizeAPIURL, url_Parse, mbind, result_mbind. rewrite Hu, He.
    rewrite <-(url_String_plain _ h' n (or_string p defaultAPIPort)) by done.
    unfold Port, Hostname. rewrite Hsplit. cbn [fst snd]. unfold h'. destruct u as [us uh up ue]. simpl in *.
    subst ue. by destruct (is_empty p).
  - by eapply plain_url_text.
  - rewrite (normalize_port _ _ n (or_string p defaultAPIPort)) by done. by rewrite TrimRightChar_idemp.
Qed.
End normalize.

Definition no_url : GoURL :=
  {| url_parse_other _ := Err (ErrOther "parse"); url_string_other _ := "" |}.

Lemma normalizeAPIURL_correct_witness :
  plain_url "HTTP://[fd7a::1]/api//" = Some (MkURL "http" "[fd7a::1]" "/api//" "") ∧
  @normalizeAPIURL no_url "HTTP://[fd7a::1]/api//" = Ok "http://[fd7a::1]:8081/api" ∧
  @normalizeAPIURL no_url "http://[fd7a::1]:8081/api" = Ok "http://[fd7a::1]:8081/api".
Proof.
  assert (plain_url "HTTP://[fd7a::1]/api//" = Some (MkURL "http" "[fd7a::1]" "/api//" "")) as Hu by (vm_compute; reflexivity).
  destruct (@normalizeAPIURL_correct no_url _ _ Hu) as (s & u' & E & _ & _ & _ & _ & _ & Hs).
  assert (s = "http://[fd7a::1]:8081/api") as ->.
  { assert (@normalizeAPIURL no_url "HTTP://[fd7a::1]/api//" = Ok "http://[fd7a::1]:8081/api") as E' by (vm_compute; reflexivity).
    rewrite E' in E. by injection E. }
  split; [exact Hu|]. split; [exact E|exact Hs].
Defined.

(** An integer flag has a 64-bit value. *)
Lemma ParseInt_range s z : ParseInt s = Some z → int_min 64 ≤ z ≤ int_max 64.
Proof.
  unfold ParseInt. set (o := match s with | String "+"%char s' => _ | _ => _ end).
  destruct o as [y|]; cbn [mbind option_bind]; [|done]. case_bool_decide; [|done]. by intros [= <-].
Qed.

Lemma flag_int_range values name dflt :
  int_min 64 ≤ dflt ≤ int_max 64 → int_min 64 ≤ flag_int values name dflt ≤ int_max 64.
Proof. unfold flag_int. destruct (ParseInt _) eqn:E; [|done]. intros _. by apply ParseInt_range in E. Qed.
