(* ===== verification/Daemon.v ===== *)
(** * The daemon (cmd/firedozed/main.go)

    [run]: the flags, the commands that print or write something and exit, and
    the start of the server with everything it needs first; the shutdown; and
    the watch that brings the WireGuard peers up to date when the configuration
    file changes.  What happens while the server serves is an argument. *)

From S2P Require Import Prelude GoStrings Paths IPNet Crypto RouteAuth Json JsonDecode Types Store Config PrivateNet Memory.
From S2P Require Import World FileCopy Host Manager ManagerInvariant Caddy Wireguard HostWireguard Firewall.
From S2P Require Import SaveFile ConfigInit RestartWake ClientArgs.
Open Scope Z_scope.

(** The configuration's encoder. *)
Class TomlPrint := config_TOML : Config → string.

Section daemon.
Context `{FirecrackerVMM, Env, SparseSeek, GoUnicode, UuidLib, Timestamps}.
Context `{WgTypes, !WgDevice, Netfilter, GoQuote, Toml, TomlPrint}.

(** The host with its WireGuard device, its packet filter, the keys of the
    route authentication and what was printed. *)
Record Daemon := MkDaemon {
  dm_host : WgHost;
  dm_filter : nf_state;
  dm_auth : Auth;
  dm_stdout : string;
}.

Definition onHost {A} (m : M WgHost A) : M Daemon A := λ d,
  let '(r, h) := m (dm_host d) in (r, MkDaemon h (dm_filter d) (dm_auth d) (dm_stdout d)).
Definition onFiles {A} (m : M World A) : M Daemon A := onHost (onWorld m).
Definition onFilter {A} (m : M nf_state A) : M Daemon A := λ d,
  let '(r, s) := m (dm_filter d) in (r, MkDaemon (dm_host d) s (dm_auth d) (dm_stdout d)).
Definition onAuth {A} (m : M Auth A) : M Daemon A := λ d,
  let '(r, a) := m (dm_auth d) in (r, MkDaemon (dm_host d) (dm_filter d) a (dm_stdout d)).
Definition print (s : string) : M Daemon unit :=
  modify (λ d, MkDaemon (dm_host d) (dm_filter d) (dm_auth d) (dm_stdout d +:+ s)).

(** An error is logged and makes the exit status 1. *)
Definition or_exit {A} (m : M Daemon A) (k : A → M Daemon Z) : M Daemon Z :=
  r ← attempt m; match r with Err _ => mret 1 | Ok a => k a end.

(** ** Addresses *)

Definition wireGuardBindIP (address : string) : result Z :=
  match ParseCIDR address with Some (ip, _) => Ok ip | None => Err (ErrOther "invalid CIDR address") end.

(** [netlink.ParseAddr] of the text [loopbackCIDR] makes accepts it. *)
Definition EnsureLoopbackAddress (address : string) : M WgHost unit :=
  links ← call (gets wh_links);
  match links !! "lo" with
  | None => fail (ErrOther "find loopback")
  | Some _ =>
      cidr ← lift_result (loopbackCIDR address);
      call (modify (set_addrs (union {[("lo", cidr)]})))
  end.

(** ** The API server's end *)

(** How [serveAPI] comes to its end: a signal, or [ListenAndServe] returning. *)
Inductive serve_end := Signalled | ServerClosed | ServerFailed (e : error).

Context (sys : nat → Sys) (init_random : nat → result string).
Context (vmsDir : option string) (NetworkScript : string) (caddyLoad : string → M World unit).

(** A failed save is only logged. *)
Definition saveRouteAuthKey (s : Sys) : M Daemon unit := attempt (onAuth (RouteAuth.Save s)) ;; mret tt.

Definition guest_addr (cfg : Config) : string := JoinHostPort "::" (FormatInt (gc_MemoryPort (GuestControl cfg))).
Definition api_addr (cfg : Config) (bindIP : Z) : string := JoinHostPort (IP_String bindIP) (FormatInt (api_Port (API cfg))).

(** [serving] is what the handlers, the monitors and the signals do meanwhile. *)
Definition serveAPI (cfg : Config) (serving : string → string → M Daemon unit) (ended : serve_end) : M Daemon unit :=
  bindIP ← lift_result (wireGuardBindIP (wg_Address (WireGuard cfg)));
  deferring
    (attempt (serving (guest_addr cfg) (api_addr cfg bindIP)) ;;
     match ended with
     | Signalled => onFiles (shutdown cfg) ;; onFiles (ext (mret tt))
     | ServerClosed => mret tt
     | ServerFailed e => fail e
     end)
    (saveRouteAuthKey (sys 1)).

(** ** run *)

Definition daemon_flags : FlagSet :=
  [("config", FlagString); ("init-config", FlagBool); ("init-host", FlagString); ("init-sslip-host", FlagString);
   ("init-base-domain", FlagString); ("init-force", FlagBool); ("print-config", FlagBool); ("print-api-env", FlagBool);
   ("setup-wireguard", FlagBool); ("serve", FlagBool); ("wg-server-public-key", FlagBool);
   ("wg-peer-config", FlagString); ("wg-add-peer", FlagString)].

Definition bool_flag (set : list (string * string)) (name : string) : bool :=
  bool_decide (flag_value set name "false" = "true").

(** [config.Load(path)]. *)
Definition load_config (path : string) : M World Config :=
  read ← attempt (open_read (or_text path DefaultPath)); lift_result (Load (λ _, read) path).

(** The interface and the packet filter, when [-setup-wireguard] is given. *)
Definition setup_network (cfg : Config) : M Daemon unit :=
  onHost (EnsureWireGuard (WireGuard cfg)) ;;
  onFilter (EnsureFirewall cfg).

(** Everything [-serve] needs before the server listens. *)
Definition start_serving (cfg : Config) : M Daemon unit :=
  (if dns_Enabled (DNS cfg) then onHost (EnsureLoopbackAddress (dns_ListenIP (DNS cfg))) else mret tt) ;;
  onFiles restarted ;;
  attempt (onFiles (wakeRestartVMs cfg (StartVMs cfg vmsDir NetworkScript))) ;;
  onAuth (RouteAuth.Load (sys 0)) ;;
  onFiles (Caddy.Reconcile cfg caddyLoad).

(** [store.Open] and [Migrate] are external calls: the tables are part of the
    world already. *)
Definition run_server (cfg : Config) (setupWireGuard serve : bool)
    (serving : string → string → M Daemon unit) (ended : serve_end) : M Daemon Z :=
  attempt (onFiles EnsureKSM) ;;
  or_exit (if setupWireGuard then setup_network cfg else mret tt) (λ _,
  or_exit (onFiles (ext (mret tt))) (λ _,
  or_exit (onFiles (ext (mret tt))) (λ _,
  if negb serve then mret 0 else
  if negb setupWireGuard then mret 1 else
  or_exit (start_serving cfg) (λ _,
  or_exit (serveAPI cfg serving ended) (λ _, mret 0))))).

Definition add_peer (configPath : string) (cfg : Config) (name : string) (args : list string) : M Daemon Z :=
  match args with
  | [] | _ :: _ :: _ :: _ => mret 1
  | publicKey :: rest =>
      let allowedIP := default "" (head rest) in
      or_exit (onFiles (NewPeerSetup cfg name publicKey allowedIP)) (λ '(peer, clientConfig),
      or_exit (onFiles (AppendPeer configPath peer)) (λ _,
      print clientConfig ;; mret 0))
  end.

Definition peer_config (cfg : Config) (name : string) : M Daemon Z :=
  match list_find (λ p, peer_Name p = name) (wg_Peers (WireGuard cfg)) with
  | Some (_, peer) => or_exit (onFiles (PeerConfig cfg peer)) (λ text, print text ;; mret 0)
  | None => mret 1
  end.

Definition run_flags (set : list (string * string)) (args : list string)
    (serving : string → string → M Daemon unit) (ended : serve_end) : M Daemon Z :=
  let text name := flag_value set name "" in
  let configPath := flag_value set "config" DefaultPath in
  if bool_flag set "init-config" then
    or_exit (onFiles (InitFile init_random configPath
               (MkInitOptions (text "init-host") (text "init-sslip-host") (text "init-base-domain")
                  (bool_flag set "init-force"))))
      (λ _, print (configPath +:+ nl) ;; mret 0)
  else
  or_exit (onFiles (load_config configPath)) (λ cfg,
  if bool_flag set "print-config" then print (config_TOML cfg) ;; mret 0 else
  if bool_flag set "print-api-env" then
    or_exit (lift_result (APIURL (wg_Address (WireGuard cfg))))
      (λ apiURL, print ("export FIREDOZE_API=" +:+ Quote apiURL +:+ nl) ;; mret 0) else
  if bool_flag set "wg-server-public-key" then
    or_exit (onFiles (ServerPublicKey cfg)) (λ publicKey, print (publicKey +:+ nl) ;; mret 0) else
  if negb (is_empty (text "wg-peer-config")) then peer_config cfg (text "wg-peer-config") else
  if negb (is_empty (text "wg-add-peer")) then add_peer configPath cfg (text "wg-add-peer") args else
  run_server cfg (bool_flag set "setup-wireguard") (bool_flag set "serve") serving ended).

Definition run (args : list string) (serving : string → string → M Daemon unit) (ended : serve_end) : M Daemon Z :=
  match flag_Parse daemon_flags [] args with
  | Err e => mret (if bool_decide (e = ErrOther "flag: help requested") then 0 else 2)
  | Ok (set, rest) => run_flags set rest serving ended
  end.
End daemon.

(** ** Nothing is served before the network is closed *)

Section ready.
Context `{FirecrackerVMM, Env, SparseSeek, GoUnicode, UuidLib, Timestamps}.
Context `{WgTypes, !WgDevice, !WgDeviceLaws, Netfilter, !NetfilterLaws, GoQuote, Toml, TomlPrint}.
Context {verdicts : PacketVerdicts} {verdict_laws : PacketVerdictLaws}.
Context (sys : nat → Sys) (init_random : nat → result string).
Context (vmsDir : option string) (NetworkScript : string) (caddyLoad : string → M World unit).

(** The WireGuard device serves the configured peers and, if the firewall is
    switched on and the IPv4 subnet written as an IPv4 network, the packet filter
    isolates the VMs. *)
Definition network_ready (cfg : Config) (d : Daemon) : Prop :=
  device_serves (wg_Peers (WireGuard cfg)) (dm_host d) ∧
  ∀ ip6 n6 ip4 n4, fw_Enabled (HostFirewall cfg) = true →
    ParseCIDR (vn_Subnet (VMNetwork cfg)) = Some (ip6, n6) →
    ParseCIDR (vn_IPv4Subnet (VMNetwork cfg)) = Some (ip4, n4) → net_bits n4 = 32 →
    vms_isolated cfg n6 n4 (dm_filter d).

Definition network (d : Daemon) := (wh_device (dm_host d), dm_filter d).

Lemma network_ready_keeps cfg d d' : network d' = network d → network_ready cfg d → network_ready cfg d'.
Proof. unfold network, network_ready, device_serves. by intros [= -> ->]. Qed.

#[local] Instance keeps_onFiles {A} (m : M World A) : Keeps network (onFiles m).
Proof. intros d. unfold onFiles, onHost, onWorld. by destruct (m _). Qed.
#[local] Instance keeps_onAuth {A} (m : M Auth A) : Keeps network (onAuth m).
Proof. intros d. unfold onAuth. by destruct (m _). Qed.
Lemma keeps_call_addrs {A} (m : M WgHost A) : Keeps wh_device m → Keeps wh_device (call m).
Proof. intros Hm h. unfold call. destruct (fate _); cbn [snd]; by rewrite ?Hm. Qed.
#[local] Instance keeps_onHost {A} (m : M WgHost A) : Keeps wh_device m → Keeps network (onHost m).
Proof. intros Hm d. unfold onHost, network. specialize (Hm (dm_host d)). destruct (m _) as [r h]. cbn in *. by rewrite Hm. Qed.

Lemma keeps_Loopback address : Keeps wh_device (EnsureLoopbackAddress address).
Proof.
  unfold EnsureLoopbackAddress. apply keeps_bind; [by apply keeps_call_addrs|intros links].
  destruct (links !! "lo"); [|apply _]. apply keeps_bind; [apply _|intros cidr]. by apply keeps_call_addrs.
Qed.

Lemma keeps_start_serving cfg : Keeps network (start_serving sys vmsDir NetworkScript caddyLoad cfg).
Proof. pose proof keeps_Loopback as Hl. unfold start_serving. apply _. Qed.

Lemma setup_ready cfg d d' : setup_network cfg d = (Ok tt, d') → network_ready cfg d'.
Proof.
  intros E. unfold setup_network in E. apply bind_Ok in E as ([] & d1 & E1 & E2).
  unfold onHost in E1. destruct (EnsureWireGuard _ _) as [r h] eqn:Ew. injection E1 as -> <-.
  unfold onFilter in E2. destruct (EnsureFirewall cfg _) as [r s] eqn:Ef. injection E2 as -> <-.
  split; [by eapply EnsureWireGuard_serves|]. intros. by eapply EnsureFirewall_isolated.
Qed.

(** A continuation is reached only where what came before leads. *)
Lemma or_exit_ext {A} (m : M Daemon A) k k' d :
  (∀ a d', m d = (Ok a, d') → k a d' = k' a d') → or_exit m k d = or_exit m k' d.
Proof.
  intros Hk. unfold or_exit, mbind, M_mbind, attempt. destruct (m d) as [[a|e] d'] eqn:E; [|done]. by apply Hk.
Qed.

Lemma bind_ext_Ok {A B} (m : M Daemon A) (k k' : A → M Daemon B) d :
  (∀ a d', m d = (Ok a, d') → k a d' = k' a d') → (m ≫= k) d = (m ≫= k') d.
Proof. intros Hk. unfold mbind, M_mbind. destruct (m d) as [[a|e] d'] eqn:E; [|done]. by apply Hk. Qed.

(** Where the server's requests are served: on the WireGuard address, with the
    network ready. *)
Definition served_at (cfg : Config) (apiAddr : string) (d : Daemon) : Prop :=
  network_ready cfg d ∧
  ∃ ip n, ParseCIDR (wg_Address (WireGuard cfg)) = Some (ip, n) ∧ apiAddr = api_addr cfg ip.

Lemma serveAPI_ext cfg serving serving' ended d :
  network_ready cfg d → (∀ g a d, served_at cfg a d → serving g a d = serving' g a d) →
  serveAPI sys cfg serving ended d = serveAPI sys cfg serving' ended d.
Proof.
  intros Hr Hs. unfold serveAPI. apply bind_ext_Ok. intros ip d' E. injection E as Eip <-.
  assert (serving (guest_addr cfg) (api_addr cfg ip) d = serving' (guest_addr cfg) (api_addr cfg ip) d) as Es.
  { apply Hs. split; [done|]. unfold wireGuardBindIP in Eip. destruct (ParseCIDR _) as [[ip' n]|]; [|done].
    injection Eip as ->. by eauto. }
  unfold deferring, mbind, M_mbind, attempt. by rewrite Es.
Qed.

Lemma run_server_ext cfg setup serve serving serving' ended d :
  (∀ g a d, served_at cfg a d → serving g a d = serving' g a d) →
  run_server sys vmsDir NetworkScript caddyLoad cfg setup serve serving ended d =
  run_server sys vmsDir NetworkScript caddyLoad cfg setup serve serving' ended d.
Proof.
  intros Hs. unfold run_server. apply bind_ext_Ok. intros _ d1 _. apply or_exit_ext. intros [] d2 E2.
  apply or_exit_ext. intros [] d3 E3. apply or_exit_ext. intros [] d4 E4.
  destruct serve; [|done]. destruct setup; [|done]. cbn [negb]. apply or_exit_ext. intros [] d5 E5.
  assert (network_ready cfg d5) as Hr5.
  { apply setup_ready in E2. eapply network_ready_keeps; [|exact E2].
    pose proof (keeps_start_serving cfg) as Hk. rewrite (keeps_Ok network _ _ _ _ E5).
    rewrite (keeps_Ok network _ _ _ _ E4). by rewrite (keeps_Ok network _ _ _ _ E3). }
  unfold or_exit, mbind, M_mbind, attempt. by rewrite (serveAPI_ext cfg serving serving' ended d5).
Qed.

End ready.

(** ** The watch on the configuration file *)

Section watch.
Context `{FirecrackerVMM, Env, GoUnicode, WgTypes, !WgDevice, Toml}.
(** The order in which Go walks a map. *)
Context (order : gmap string runtimeWGPeer → list (string * runtimeWGPeer)).

Record fileSignature := MkSignature { sg_modTime : Z; sg_size : Z }.
#[global] Instance fileSignature_eq_dec : EqDecision fileSignature.
Proof. solve_decision. Defined.

Definition configFileSignature (path : string) : M World fileSignature :=
  t ← ticks;
  info ← os_Stat path;
  mret (MkSignature (mod_time t path).1 (fi_Size info)).

(** The changes that need a restart; they are only logged. *)
Definition logWireGuardRestartOnlyChanges (current reloaded : WireGuardConfig) : list string :=
  let changed {A} `{EqDecision A} (f : WireGuardConfig → A) (name : string) :=
    if bool_decide (f current = f reloaded) then [] else [name] in
  changed wg_Interface "interface" ++ changed wg_ListenPort "listen_port" ++ changed wg_Address "address" ++
  changed wg_Endpoint "endpoint" ++ changed wg_PrivateKeyFile "private_key_file".

Definition with_peers (peers : list WGPeer) (c : WireGuardConfig) : WireGuardConfig :=
  {| wg_Interface := wg_Interface c; wg_ListenPort := wg_ListenPort c; wg_Address := wg_Address c;
     wg_Endpoint := wg_Endpoint c; wg_PrivateKeyFile := wg_PrivateKeyFile c; wg_Peers := peers |}.

Definition reloadWireGuardPeerConfig (path : string) (current : WireGuardConfig) : M WgHost WireGuardConfig :=
  reloaded ← onWorld (load_config path);
  let target := with_peers (wg_Peers (WireGuard reloaded)) current in
  ReconcileWireGuardPeers order current target ;;
  mret target.

(** [current] and [lastSig], which is zero when the first look at the file fails. *)
Record watchState := MkWatch { ws_current : WireGuardConfig; ws_lastSig : option fileSignature }.

Definition watch_start (path : string) (initial : WireGuardConfig) : M WgHost watchState :=
  r ← attempt (onWorld (configFileSignature path));
  mret (MkWatch initial (match r with Ok sig => Some sig | Err _ => None end)).

(** One tick of the loop of [watchWireGuardPeerConfig]. *)
Definition watch_tick (path : string) (ws : watchState) : M WgHost watchState :=
  r ← attempt (onWorld (configFileSignature path));
  match r with
  | Err _ => mret ws
  | Ok nextSig =>
      if bool_decide (Some nextSig = ws_lastSig ws) then mret ws else
      r ← attempt (reloadWireGuardPeerConfig path (ws_current ws));
      match r with
      | Err _ => mret ws
      | Ok next => mret (MkWatch next (Some nextSig))
      end
  end.

Context {Hlaws : WgDeviceLaws}.
Context (Horder : ∀ m, order m ≡ₚ map_to_list m).

#[local] Instance keeps_onWorld_device {A} (m : M World A) : Keeps wh_device (onWorld m).
Proof. intros h. unfold onWorld. by destruct (m _). Qed.

(** What a reload comes to: a valid configuration whose peers the device has
    now, also when the call failed after it had changed the device; or a failure
    that left the device as it was. *)
Lemma reload_outcome path current h r h' :
  device_serves (wg_Peers current) h → reloadWireGuardPeerConfig path current h = (r, h') →
  (is_ok r = false ∧ wh_device h' = wh_device h) ∨
  ∃ cfg, config_valid cfg ∧ device_has (wg_Peers (WireGuard cfg)) h' ∧
    ∀ next, r = Ok next → next = with_peers (wg_Peers (WireGuard cfg)) current.
Proof using Horder Hlaws.
  intros Hs E. unfold reloadWireGuardPeerConfig, mbind at 1, M_mbind at 1 in E.
  destruct (onWorld (load_config path) h) as [[cfg|e] h1] eqn:E1;
    assert (wh_device h1 = wh_device h) as Hd by exact (keeps_Ok wh_device _ _ _ _ E1);
    [|left; by injection E as <- <-].
  assert (config_valid cfg) as Hv.
  { unfold onWorld in E1. destruct (load_config _ _) as [r0 w] eqn:El. injection E1 as -> _.
    unfold load_config in El. apply bind_Ok in El as (read & w1 & _ & El). injection El as El _.
    by eapply (proj1 (Load_valid _ _)). }
  cbv zeta in E. unfold mbind, M_mbind in E. destruct (ReconcileWireGuardPeers _ _ _ h1) as [r2 h2] eqn:E2.
  assert (h' = h2 ∧ (is_ok r = is_ok r2) ∧ ∀ next, r = Ok next → next = with_peers (wg_Peers (WireGuard cfg)) current)
    as (-> & Hok & Hnext) by (destruct r2; injection E as <- <-; naive_solver).
  destruct (reconcile_outcome order current (with_peers (wg_Peers (WireGuard cfg)) current) h1 r2 h2)
    as [Hm|[Hf Hdev]]; [done|by apply (wgv_peers _ (cv_wireguard _ Hv))|by unfold device_serves in *; rewrite Hd|done|..].
  - right. by exists cfg.
  - left. by rewrite Hok, Hdev, Hd.
Qed.


(** A change is applied: where no call fails, a tick that sees a new signature
    of a file that [Load] accepts takes its peers. *)
Lemma watch_tick_applies path ws h text cfg mo mn :
  (∀ n, fate n = Proceed) → path ≠ "" → fs (wh_world h) !! path = Some (File text) → Load (λ _, Ok text) path = Ok cfg →
  ws_lastSig ws ≠ Some (MkSignature (mod_time (tick (wh_world h)) path).1 (Z.of_nat (String.length text))) →
  runtimeWGPeersByKey (wg_Peers (ws_current ws)) = Ok mo →
  runtimeWGPeersByKey (wg_Peers (WireGuard cfg)) = Ok mn →
  ∃ ws' h', watch_tick path ws h = (Ok ws', h') ∧ wg_Peers (ws_current ws') = wg_Peers (WireGuard cfg).
Proof.
  intros Hf Hp Ht Hl Hsig Hmo Hmn. unfold watch_tick.
  assert (∀ A (m : M World A) w, ext m w = m (bump w)) as Hext by (intros; by apply ext_proceed).
  assert (∀ A (m : M WgHost A) h, call m h = m (set_world (bump (wh_world h)) h)) as Hcall.
  { intros A m h0. unfold call. by rewrite Hf. }
  unfold mbind at 1, M_mbind at 1, attempt at 1, onWorld, configFileSignature, ticks, mbind at 1, M_mbind at 1, gets,
    mbind at 1, M_mbind at 1, os_Stat. rewrite Hext. cbn [fs bump]. rewrite Ht. cbn [node_info fi_Size mret M_mret].
  rewrite bool_decide_eq_false_2 by congruence.
  set (h1 := set_world _ h). assert (fs (wh_world h1) !! path = Some (File text)) as Ht1 by done.
  unfold mbind at 1, M_mbind at 1, attempt at 1, reloadWireGuardPeerConfig, mbind at 1, M_mbind at 1, onWorld, load_config.
  unfold mbind at 1, M_mbind at 1, attempt at 1, open_read, or_text, is_empty. rewrite bool_decide_eq_false_2 by done.
  rewrite Hext. cbn [fs bump]. rewrite Ht1. unfold lift_result at 1. rewrite Hl.
  unfold mbind at 1, M_mbind at 1, ReconcileWireGuardPeers, mbind at 1, M_mbind at 1, lift_result at 1.
  unfold wireGuardPeerDiff. rewrite Hmo. cbn [mbind result_mbind wg_Peers with_peers]. rewrite Hmn.
  cbn [mbind result_mbind]. destruct (removals _ _ ++ replacements _ _) as [|c l].
  - by eexists _, _.
  - unfold mbind, M_mbind. rewrite Hcall. unfold mret at 1, M_mret at 1. rewrite Hcall. by eexists _, _.
Qed.
End watch.

(** ** Witnesses *)

(** A server that would fail if it were reached without an address. *)
Definition careless (g a : string) : M (@Daemon toy_vmm plain_keys map_device table_filter) unit :=
  if is_empty a then fail (ErrOther "no address") else mret tt.

Definition example_run (serving : string → string → M (@Daemon toy_vmm plain_keys map_device table_filter) unit)
    (args : list string) : M (@Daemon toy_vmm plain_keys map_device table_filter) Z :=
  @run toy_vmm calm dense_seek ascii_only decimal_stamps plain_keys map_device table_filter ascii_quote empty_toml (λ _, "")
    (λ _, MkSys None None (Ok "0123456789abcdef0123456789abcdef")) (λ _, Ok "") None "script" (λ _, mret tt)
    args serving Signalled.

Definition fresh_daemon : @Daemon toy_vmm plain_keys map_device table_filter :=
  @MkDaemon toy_vmm plain_keys map_device table_filter
    (@MkWgHost toy_vmm plain_keys map_device
      (set_fs (λ _, list_to_map [("/etc/firedoze", Dir); ("/etc/firedoze/firedoze.toml", File "")]) empty_world)
      {["lo" := "device"]} ∅ ∅ ∅) bare_tables (MkAuth "" None) "".


(** The file changes: two peers swap their networks. *)
Definition swap_toml : Toml :=
  {| toml_Unmarshal_over _ c :=
       Ok {| BaseDomain := "example.com"; DefaultHTTPPort := DefaultHTTPPort c; StateDir := StateDir c; API := API c;
             Caddy := Caddy c; Metadata := Metadata c; WireGuard := after_swap; HostFirewall := HostFirewall c;
             GuestControl := GuestControl c; VMNetwork := VMNetwork c; DNS := DNS c; SSH := SSH c; Idle := Idle c;
             ColdStorage := ColdStorage c; Firecracker := Firecracker c |};
     toml_host_firewall _ := Ok (None, Some "ip6tables") |}.

Definition swap_host : @WgHost toy_vmm plain_keys map_device :=
  (@EnsureWireGuard toy_vmm calm plain_keys map_device before_swap
    (@MkWgHost toy_vmm plain_keys map_device
      (set_fs (λ _, list_to_map [("/etc/firedoze", Dir); ("/c.toml", File "new")]) empty_world) ∅ ∅ ∅ ∅)).2.

Definition swap_tick := @watch_tick toy_vmm calm plain_keys map_device swap_toml map_to_list "/c.toml"
  (MkWatch before_swap None).

