(* ===== verification/ClientWG.v ===== *)
(** * The client's WireGuard tunnel (internal/clientwg)

    The configuration a tunnel is made from and its text for the device, the
    line protocol between the client's commands and the broker that keeps the
    tunnel open, the broker's accept loop, and the lock that keeps two brokers
    from serving one socket.  The user-space device is a third party's. *)

From S2P Require Import Prelude GoStrings Paths IPNet Json Types Store Config PrivateNet World FileCopy.
From S2P Require Import ManagerDisk Wireguard.
Open Scope Z_scope.

(** ** Addresses (net/netip) *)

Record Addr := MkAddr { addr_ip : Z; addr_bits : Z; addr_zone : string }.

Definition ParseAddr (s : string) : option Addr :=
  match Cut s "%" with
  | None => '(ip, bits) ← parse_addr s; Some (MkAddr ip bits "")
  | Some (a, zone) =>
      '(ip, bits) ← parse_addr a;
      if bool_decide (bits = 128) && negb (is_empty zone) then Some (MkAddr ip bits zone) else None
  end.

Definition Addr_String (a : Addr) : string :=
  (if bool_decide (addr_bits a = 32) then IP_String (addr_ip a)
   else if is_v4 (addr_ip a) then "::ffff:" +:+ v4_String (v4_value (addr_ip a))
   else v6_String (addr_ip a)) +:+
  (if is_empty (addr_zone a) then "" else "%" +:+ addr_zone a).

Definition AddrPort_String (a : Addr) (port : Z) : string := JoinHostPort (Addr_String a) (FormatInt port).

Definition bad_prefix_bits (bits : string) : bool :=
  match bits with
  | String c (String _ _) => negb (in_range 49 57 c)
  | _ => false
  end.

Definition ParsePrefix (s : string) : option (Addr * Z) :=
  match CutLast s "/" with
  | None => None
  | Some (a, bitsStr) =>
      ip ← ParseAddr a;
      if negb (is_empty (addr_zone ip)) || bad_prefix_bits bitsStr then None else
      bits ← ParseInt bitsStr;
      if bool_decide (0 ≤ bits ≤ addr_bits ip) then Some (ip, bits) else None
  end.

(** ** The configuration *)

Record WGConfig := MkWGConfig {
  wgc_PrivateKey : string;
  wgc_Address : string;
  wgc_ServerPublicKey : string;
  wgc_Endpoint : string;
  wgc_AllowedIPs : list string;
}.

(** The host names of an endpoint, by the environment's clock, and the bytes of
    a key. *)
Class ClientNet `{WgTypes} := {
  lookup_netip : nat → string → result (list Addr);
  wg_bytes : wg_key → list Z;
}.

Definition clientAddress (raw : string) : result Addr :=
  match ParsePrefix raw with
  | None => Err (ErrOther "wireguard address must be CIDR")
  | Some (a, _) => Ok a
  end.

Section config.
Context `{FirecrackerVMM, Env, GoUnicode, WgTypes, !ClientNet}.

Definition WG_Validate (cfg : WGConfig) : result unit :=
  if negb (bool_decide (is_Some (wg_ParseKey (wgc_PrivateKey cfg)))) then Err (ErrOther "wireguard private key") else
  if negb (bool_decide (is_Some (wg_ParseKey (wgc_ServerPublicKey cfg)))) then Err (ErrOther "wireguard server public key") else
  clientAddress (wgc_Address cfg) ;;
  if is_empty (TrimSpace (wgc_Endpoint cfg)) then Err (ErrOther "wireguard endpoint is required") else
  if bool_decide (wgc_AllowedIPs cfg = []) then Err (ErrOther "wireguard allowed_ips is required") else
  reject (existsb (λ a, bool_decide (ParsePrefix a = None)) (wgc_AllowedIPs cfg)) "wireguard allowed_ips".

Definition hex_byte (b : Z) : string := hex2 b.

(** [None]: it panics. *)
Definition mustKeyHex (raw : string) : option string :=
  key ← wg_ParseKey raw; Some (Join (hex_byte <$> wg_bytes key) "").

Definition trim_brackets (s : string) : string :=
  let fix left s := match s with
    | "" => "" | String c s' => if bool_decide (c = "["%char ∨ c = "]"%char) then left s' else s end in
  let fix right s := match s with
    | "" => ""
    | String c s' => match right s' with
        | "" => if bool_decide (c = "["%char ∨ c = "]"%char) then "" else String c ""
        | t => String c t end end in
  right (left s).

Definition resolveEndpoint (t : nat) (endpoint : string) : result string :=
  match SplitHostPort endpoint with
  | None => Err (ErrOther "wireguard endpoint")
  | Some (host, port) =>
      match ParseUint port with
      | None => Err (ErrOther "wireguard endpoint port")
      | Some portNumber =>
          if bool_decide (65535 < portNumber) then Err (ErrOther "wireguard endpoint port") else
          match ParseAddr (trim_brackets host) with
          | Some addr => Ok (AddrPort_String addr portNumber)
          | None =>
              addrs ← lookup_netip t host;
              match addrs with
              | addr :: _ => Ok (AddrPort_String addr portNumber)
              | [] => Err (ErrOther "no IP addresses")
              end
          end
      end
  end.

(** The text for [device.IpcSet]; [None]: a key panics. *)
Definition wireGuardIPCConfig (t : nat) (cfg : WGConfig) : option (result string) :=
  match resolveEndpoint t (wgc_Endpoint cfg) with
  | Err e => Some (Err e)
  | Ok endpoint =>
      private ← mustKeyHex (wgc_PrivateKey cfg);
      public ← mustKeyHex (wgc_ServerPublicKey cfg);
      Some (Ok ("private_key=" +:+ private +:+ nl +:+
                "listen_port=0" +:+ nl +:+
                "replace_peers=true" +:+ nl +:+
                "public_key=" +:+ public +:+ nl +:+
                "endpoint=" +:+ endpoint +:+ nl +:+
                "persistent_keepalive_interval=25" +:+ nl +:+
                "replace_allowed_ips=true" +:+ nl +:+
                Join ((λ a, "allowed_ip=" +:+ a +:+ nl) <$> wgc_AllowedIPs cfg) ""))
  end.
End config.

(** ** The broker's protocol *)

Definition maxBrokerLineLength : nat := 4096.

(** The bytes a connection delivers until it ends; [b] is what was read. *)
Fixpoint read_line (b input : string) : result (string * string) :=
  if bool_decide (maxBrokerLineLength ≤ String.length b)%nat then Err (ErrOther "broker line too long") else
  match input with
  | "" => Err (ErrOther "EOF")
  | String c rest =>
      if bool_decide (c = ascii_of_nat 10) then Ok (TrimSuffix b (String (ascii_of_nat 13) ""), rest)
      else read_line (b +:+ String c "") rest
  end.

Definition readBrokerLine (input : string) : result (string * string) := read_line "" input.

Definition sanitizeBrokerError (msg : string) : string :=
  ReplaceAll (ReplaceAll msg (ascii_of_nat 10) " ") (ascii_of_nat 13) " ".

(** What the broker does with a connection: the line it answers, if any, and
    the address it dialled through the tunnel. *)
Record broker_answer := MkAnswer { ba_reply : string; ba_dialed : option (string * string); ba_proxied : bool }.

Section protocol.
Context `{GoQuote}.

(** [dial] is the tunnel: [None] when it connects, else the text of the error. *)
Definition handleBrokerConn (dial : string → string → option string) (input : string) : broker_answer :=
  match readBrokerLine input with
  | Err _ => MkAnswer "" None false
  | Ok (line, _) =>
      if bool_decide (line = "PING") then MkAnswer ("OK" +:+ nl) None false else
      let bad := MkAnswer ("ERR expected CONNECT <network> <address>" +:+ nl) None false in
      match Cut (TrimPrefix line "CONNECT ") " " with
      | None => bad
      | Some (network, address) =>
          if negb (HasPrefix line "CONNECT ") || is_empty address then bad else
          if negb (bool_decide (network ∈ ["tcp"; "tcp4"; "tcp6"]))
          then MkAnswer ("ERR unsupported network " +:+ Quote network +:+ nl) None false else
          match dial network address with
          | Some msg => MkAnswer ("ERR " +:+ sanitizeBrokerError msg +:+ nl) (Some (network, address)) false
          | None => MkAnswer ("OK" +:+ nl) (Some (network, address)) true
          end
      end
  end.
End protocol.

(** The request of [BrokerDialer.DialContext] and what it makes of the answer. *)
Definition broker_request (network address : string) : string :=
  "CONNECT " +:+ network +:+ " " +:+ address +:+ nl.

(** The bytes after the line stay unread: they are the connection's. *)
Definition broker_dialed (answer : string) : result string :=
  '(line, rest) ← readBrokerLine answer;
  if bool_decide (line = "OK") then Ok rest
  else Err (ErrOther ("wireguard broker: " +:+ TrimPrefix line "ERR ")).

Definition BrokerDialer_DialContext (broker : string → string) (network address : string) : result string :=
  broker_dialed (broker (broker_request network address)).

Definition PingBroker (broker : string → string) : result unit :=
  '(line, _) ← readBrokerLine (broker ("PING" +:+ nl));
  if bool_decide (line = "OK") then Ok tt else Err (ErrOther "unexpected broker response").

(** ** The accept loop of [RunBroker]

    What the loop and the goroutines of its connections do, in the order it
    happens; times in nanoseconds.  The argument of a deferred call is computed
    where the [defer] statement is: what a handler stores when it is done is
    the time it [started]. *)
Inductive broker_event :=
  | Accepted (now : Z)              (* listener.Accept returned a connection *)
  | ConnDone (started now : Z)      (* the deferred lastActive.Store of a handler, at [now] *)
  | ConnGone                        (* its deferred active.Add(-1) *)
  | AcceptTimeout (now : Z)         (* the 30 second deadline passed *)
  | AcceptFailed (canceled : bool).

Record broker_state := MkBroker { active : Z; lastActive : Z }.

Definition idle_timeout (idleTimeout : Z) : Z :=
  if bool_decide (idleTimeout ≤ 0) then 10 * 60 * 1000000000 else idleTimeout.

(** The state after an event, or what the loop returns. *)
Definition broker_step (idleTimeout : Z) (st : broker_state) (ev : broker_event) : broker_state + result unit :=
  match ev with
  | Accepted now => inl (MkBroker (active st + 1) now)
  | ConnDone started _ => inl (MkBroker (active st) started)
  | ConnGone => inl (MkBroker (active st - 1) (lastActive st))
  | AcceptTimeout now =>
      if bool_decide (active st = 0) && bool_decide (idleTimeout < now - lastActive st)
      then inr (Ok tt) else inl st
  | AcceptFailed canceled => inr (Err (if canceled then ErrCanceled else ErrOther "accept"))
  end.

Fixpoint broker_run (idleTimeout : Z) (st : broker_state) (evs : list broker_event) : broker_state + result unit :=
  match evs with
  | [] => inl st
  | ev :: evs' =>
      match broker_step idleTimeout st ev with
      | inl st' => broker_run idleTimeout st' evs'
      | inr r => inr r
      end
  end.

(** ** The broker's lock *)

Class LockEnv := {
  broker_answers : nat → bool;                  (* whether PingBroker succeeds *)
  kill_ok : nat → Z → bool;                     (* kill(pid, 0) succeeds or is EPERM *)
  own_pid : Z;
}.

Definition ErrExist : error := ErrOther "file exists".
Definition ErrBrokerAlreadyRunning : error := ErrOther "wireguard broker already running".

Section lock.
Context `{FirecrackerVMM, Env, GoUnicode, LockEnv}.

Definition os_Mkdir (p : string) : M World unit := ext (λ w,
  match fs w !! p with
  | Some _ => (Err ErrExist, w)
  | None => if parent_ok p (fs w) then (Ok tt, set_fs <[p := Dir]> w) else (Err ErrNotExist, w)
  end).

Definition now_ns : M World Z := t ← ticks; mret (now_ms t * 1000000).

Definition brokerProcessAlive (t : nat) (pid : Z) : bool := bool_decide (0 < pid) && kill_ok t pid.

Definition brokerLockOlderThan (lockPath : string) (age : Z) : M World bool :=
  t ← ticks;
  r ← attempt (os_Stat lockPath);
  match r with
  | Err _ => mret true
  | Ok _ => now ← now_ns; mret (bool_decide (age < now - (mod_time t lockPath).1))
  end.

Definition lock_pid_path (lockPath : string) : string := path_Join [lockPath; "pid"].

Definition staleBrokerLock (lockPath : string) : M World bool :=
  r ← attempt (open_read (lock_pid_path lockPath));
  match r ≫= (λ text, match ParseInt (TrimSpace text) with Some pid => Ok pid | None => Err (ErrOther "Atoi") end) with
  | Ok pid => t ← ticks; mret (negb (brokerProcessAlive t pid))
  | Err _ => brokerLockOlderThan lockPath (2 * 1000000000)
  end.

(** The loop; [None]: it still runs after [fuel] rounds. *)
Fixpoint acquire_loop (fuel : nat) (lockPath : string) (deadline : Z) : M World (option unit) :=
  match fuel with
  | O => mret None
  | S fuel' =>
      r ← attempt (os_Mkdir lockPath);
      match r with
      | Ok _ =>
          r ← attempt (os_WriteFile (lock_pid_path lockPath) (FormatInt own_pid +:+ nl));
          match r with
          | Ok _ => mret (Some tt)
          | Err e => attempt (os_RemoveAll lockPath) ;; fail e
          end
      | Err e =>
          if negb (bool_decide (e = ErrExist)) then fail e else
          t ← ticks;
          ping ← attempt (ext (if broker_answers t then mret tt else fail (ErrOther "ping")));
          if is_ok ping then fail ErrBrokerAlreadyRunning else
          stale ← staleBrokerLock lockPath;
          if (stale : bool) then attempt (os_RemoveAll lockPath) ;; acquire_loop fuel' lockPath deadline else
          now ← now_ns;
          if bool_decide (deadline < now) then fail (ErrOther "wireguard broker lock is held") else
          ctx_Err ;; acquire_loop fuel' lockPath deadline
      end
  end.

Definition acquireBrokerLock (fuel : nat) (socketPath : string) : M World (option unit) :=
  let lockPath := socketPath +:+ ".lock" in
  now ← now_ns;
  acquire_loop fuel lockPath (now + 10 * 1000000000).

(** The function [acquireBrokerLock] returns. *)
Definition releaseBrokerLock (lockPath : string) : M World unit :=
  attempt (os_Remove (lock_pid_path lockPath)) ;; attempt (os_Remove lockPath) ;; mret tt.

Definition ensureBrokerSocketDir (dir : string) : M World unit := os_MkdirAll dir ;; ext (mret tt).
End lock.

(** ** The protocol carries the request and the answer *)

Lemma read_line_text l : ∀ b rest,
  str_mem (ascii_of_nat 10) l = false →
  read_line b (l +:+ nl +:+ rest) =
  if bool_decide (String.length b + String.length l < maxBrokerLineLength)%nat
  then Ok (TrimSuffix (b +:+ l) (String (ascii_of_nat 13) ""), rest)
  else Err (ErrOther "broker line too long").
Proof.
  induction l as [|c l IH]; intros b rest Hm.
  - change ("" +:+ nl +:+ rest) with (String (ascii_of_nat 10) rest). cbn [read_line String.length].
    rewrite Nat.add_0_r, str_app_nil_r.
    rewrite (bool_decide_eq_true_2 (ascii_of_nat 10 = _)) by done.
    repeat case_bool_decide; done || lia.
  - rewrite str_app_cons. cbn [read_line]. cbn [str_mem] in Hm. apply orb_false_iff in Hm as [Hc Hm].
    apply bool_decide_eq_false in Hc. case_bool_decide as Hlen.
    { rewrite bool_decide_eq_false_2; [done|]. simpl. lia. }
    rewrite bool_decide_eq_false_2 by congruence. rewrite IH by done. rewrite str_length_app. cbn [String.length].
    replace (String.length b + 1 + String.length l)%nat with (String.length b + S (String.length l))%nat by lia.
    by rewrite str_app_assoc.
Qed.

Lemma readBrokerLine_text l rest :
  str_mem (ascii_of_nat 10) l = false →
  readBrokerLine (l +:+ nl +:+ rest) =
  if bool_decide (String.length l < maxBrokerLineLength)%nat
  then Ok (TrimSuffix l (String (ascii_of_nat 13) ""), rest) else Err (ErrOther "broker line too long").
Proof. apply (read_line_text l ""). Qed.

Lemma TrimSuffix_no_cr l : str_mem (ascii_of_nat 13) l = false → TrimSuffix l (String (ascii_of_nat 13) "") = l.
Proof. intros Hl. apply TrimSuffix_none. by apply HasSuffix_char_false. Qed.

Lemma ReplaceAll_mem_other s c new d :
  str_mem d s = false → str_mem d new = false → str_mem d (ReplaceAll s c new) = false.
Proof.
  induction s as [|x s IH]; [done|]. cbn [ReplaceAll str_mem]. intros [Hx Hs]%orb_false_iff Hn.
  destruct (bool_decide (x = c)).
  - by rewrite str_mem_app, Hn, IH.
  - cbn [str_mem]. by rewrite Hx, IH.
Qed.

Lemma sanitize_clean msg :
  str_mem (ascii_of_nat 10) (sanitizeBrokerError msg) = false ∧
  str_mem (ascii_of_nat 13) (sanitizeBrokerError msg) = false.
Proof.
  unfold sanitizeBrokerError. split; [|by apply ReplaceAll_mem].
  apply ReplaceAll_mem_other; [by apply ReplaceAll_mem|done].
Qed.

Lemma ReplaceAll_length s c d : String.length (ReplaceAll s c (String d "")) = String.length s.
Proof.
  induction s as [|x s IH]; [done|]. cbn [ReplaceAll]. destruct (bool_decide (x = c)); [rewrite str_length_app|];
    cbn [String.length]; by rewrite IH.
Qed.

Lemma sanitize_length msg : String.length (sanitizeBrokerError msg) = String.length msg.
Proof. unfold sanitizeBrokerError. by rewrite !ReplaceAll_length. Qed.

Section roundtrip.
Context `{GoQuote}.

(** The line the broker reads of a request. *)
Lemma handle_connect dial network address :
  network ∈ ["tcp"; "tcp4"; "tcp6"] → address ≠ "" →
  str_mem (ascii_of_nat 10) address = false → str_mem (ascii_of_nat 13) address = false →
  (String.length network + String.length address < 4087)%nat →
  handleBrokerConn dial (broker_request network address) =
  match dial network address with
  | Some msg => MkAnswer ("ERR " +:+ sanitizeBrokerError msg +:+ nl) (Some (network, address)) false
  | None => MkAnswer ("OK" +:+ nl) (Some (network, address)) true
  end.
Proof.
  intros Hn Ha Hnl Hcr Hlen.
  assert (str_mem (ascii_of_nat 10) network = false ∧ str_mem (ascii_of_nat 13) network = false ∧
          str_mem " " network = false) as (N1 & N2 & N3).
  { clear Hlen. rewrite !elem_of_cons, elem_of_nil in Hn. by destruct Hn as [->|[->|[->|[]]]]. }
  set (line := "CONNECT " +:+ network +:+ " " +:+ address).
  assert (broker_request network address = line +:+ nl +:+ "") as ->.
  { unfold broker_request, line. by rewrite str_app_nil_r, !str_app_assoc. }
  assert (TrimPrefix line "CONNECT " = network +:+ String " " address) as Htrim.
  { unfold line. by rewrite TrimPrefix_app. }
  assert (HasPrefix line "CONNECT " = true) as Hpre by (apply HasPrefix_spec; by eexists).
  assert (str_mem (ascii_of_nat 10) line = false ∧ str_mem (ascii_of_nat 13) line = false) as [L1 L2].
  { unfold line. rewrite !str_mem_app, N1, N2, Hnl, Hcr. done. }
  unfold handleBrokerConn. rewrite readBrokerLine_text by done. rewrite bool_decide_eq_true_2.
  2:{ unfold line. rewrite !str_length_app. change (String.length "CONNECT ") with 8%nat.
      change (String.length " ") with 1%nat. unfold maxBrokerLineLength. lia. }
  rewrite TrimSuffix_no_cr by done. rewrite bool_decide_eq_false_2 by by (intros E; rewrite E in Hpre).
  rewrite Htrim, Cut_app_char by done. rewrite Hpre. unfold is_empty. rewrite bool_decide_eq_false_2 by done.
  cbn [negb orb]. by rewrite bool_decide_eq_true_2.
Qed.

(** A connection through the broker is the connection asked for: for a
    request that fits a line, [BrokerDialer.DialContext] against
    [handleBrokerConn] has the broker dial exactly that network and address,
    succeeds exactly when the tunnel connects, with the bytes that follow
    the answer left to the caller, and otherwise returns the tunnel's error
    on one line. *)
Theorem broker_roundtrip dial network address data :
  network ∈ ["tcp"; "tcp4"; "tcp6"] → address ≠ "" →
  str_mem (ascii_of_nat 10) address = false → str_mem (ascii_of_nat 13) address = false →
  (String.length network + String.length address < 4087)%nat →
  let answer input := ba_reply (handleBrokerConn dial input) +:+ data in
  ba_dialed (handleBrokerConn dial (broker_request network address)) = Some (network, address) ∧
  match dial network address with
  | None => BrokerDialer_DialContext answer network address = Ok data ∧
            ba_proxied (handleBrokerConn dial (broker_request network address)) = true
  | Some msg => ∃ text, BrokerDialer_DialContext answer network address = Err (ErrOther text) ∧
      ((String.length msg < 4092)%nat → text = "wireguard broker: " +:+ sanitizeBrokerError msg)
  end.
Proof.
  intros Hn Ha Hnl Hcr Hlen. cbv zeta. unfold BrokerDialer_DialContext.
  rewrite (handle_connect _ _ _ Hn Ha Hnl Hcr Hlen).
  destruct (dial network address) as [msg|]; (split; [done|]); [|done].
  cbn [ba_reply]. destruct (sanitize_clean msg) as [S1 S2]. unfold broker_dialed.
  rewrite <-str_app_assoc, !str_app_assoc, <-(str_app_assoc "ERR ").
  rewrite readBrokerLine_text by by rewrite str_mem_app, S1.
  case_bool_decide as Hl; [|eexists; split; [done|]].
  - unfold mbind, result_mbind. rewrite TrimSuffix_no_cr by by rewrite str_mem_app, S2.
    rewrite bool_decide_eq_false_2 by done. rewrite TrimPrefix_app. by eexists.
  - intros Hm. destruct Hl. rewrite str_length_app, sanitize_length. unfold maxBrokerLineLength. simpl. lia.
Qed.
End roundtrip.

(** ** The broker stays while it is used *)

Fixpoint open_conns (evs : list broker_event) : Z :=
  match evs with
  | [] => 0
  | Accepted _ :: evs' => 1 + open_conns evs'
  | ConnGone :: evs' => open_conns evs' - 1
  | _ :: evs' => open_conns evs'
  end.

(** What [lastActive] holds after [evs], [t] before them. *)
Fixpoint last_store (t : Z) (evs : list broker_event) : Z :=
  match evs with
  | [] => t
  | (Accepted now | ConnDone now _) :: evs' => last_store now evs'
  | _ :: evs' => last_store t evs'
  end.

(** The loop ends by itself only at a timeout with every connection closed and
    the last connection that was opened, or whose handler ended, begun longer
    ago than the idle timeout. *)
Lemma broker_exits_idle idle evs : ∀ st,
  broker_run idle st evs = inr (Ok tt) →
  ∃ pre now post, evs = pre ++ AcceptTimeout now :: post ∧
    active st + open_conns pre = 0 ∧ idle < now - last_store (lastActive st) pre.
Proof.
  induction evs as [|ev evs IH]; intros st; [done|]. cbn [broker_run].
  assert (∀ st', broker_run idle st' evs = inr (Ok tt) →
    (∀ pre, active st + open_conns (ev :: pre) = active st' + open_conns pre) →
    (∀ pre, last_store (lastActive st) (ev :: pre) = last_store (lastActive st') pre) →
    ∃ pre now post, ev :: evs = pre ++ AcceptTimeout now :: post ∧
      active st + open_conns pre = 0 ∧ idle < now - last_store (lastActive st) pre) as Hnext.
  { intros st' (pre & now & post & -> & Ha & Hl)%IH Ho Hu. exists (ev :: pre), now, post.
    by rewrite Ho, Hu. }
  destruct ev as [now|started now| |now|c]; cbn [broker_step].
  - intros E. apply (Hnext _ E); intros pre; simpl; [lia|done].
  - intros E. apply (Hnext _ E); intros pre; simpl; [lia|done].
  - intros E. apply (Hnext _ E); intros pre; simpl; [lia|done].
  - destruct (bool_decide (active st = 0) && _) eqn:Hi.
    + intros _. apply andb_true_iff in Hi as [Ha%bool_decide_eq_true Hl%bool_decide_eq_true].
      exists [], now, evs. simpl. rewrite Ha. by split_and!.
    + intros E. by apply (Hnext _ E).
  - done.
Qed.

(** After a connection longer than the idle timeout the broker stops at the next
    timeout, however recently the connection ended. *)
Lemma broker_stops_after_long_use idle t0 started ended now :
  idle < now - started →
  broker_run idle (MkBroker 0 t0) [Accepted started; ConnDone started ended; ConnGone; AcceptTimeout now] =
  inr (Ok tt).
Proof. intros Hi. cbn [broker_run broker_step active lastActive]. by rewrite !bool_decide_eq_true_2 by lia. Qed.

(** ** A checked configuration does not panic *)

Lemma WG_Validate_keys `{FirecrackerVMM, Env, GoUnicode, WgTypes, !ClientNet} cfg t :
  WG_Validate cfg = Ok tt → wireGuardIPCConfig t cfg ≠ None.
Proof.
  unfold WG_Validate, wireGuardIPCConfig, mustKeyHex. repeat (case_bool_decide as Hk; [|done]; destruct Hk as [? ->]; simpl).
  intros _. by destruct (resolveEndpoint _ _).
Qed.

(** ** The lock *)

Section lock_proofs.
Context `{FirecrackerVMM, Env, GoUnicode, LockEnv}.

(** What a round does once it knows whether the lock is stale. *)
Definition after_stale (fuel : nat) (lockPath : string) (deadline : Z) (stale : bool) : M World (option unit) :=
  if stale then attempt (os_RemoveAll lockPath) ;; acquire_loop fuel lockPath deadline else
  now ← now_ns;
  if bool_decide (deadline < now) then fail (ErrOther "wireguard broker lock is held") else
  ctx_Err ;; acquire_loop fuel lockPath deadline.

Lemma lock_round fuel lockPath deadline pid text n w :
  (∀ t, (tick w ≤ t < 3 + tick w)%nat → fate t = Proceed) →
  fs w !! lockPath = Some n → fs w !! lock_pid_path lockPath = Some (File text) →
  ParseInt (TrimSpace text) = Some pid →
  ∃ w1, fs w1 = fs w ∧ tick w1 = (3 + tick w)%nat ∧
  acquire_loop (S fuel) lockPath deadline w =
  if broker_answers (S (tick w)) then (Err ErrBrokerAlreadyRunning, bump (bump w))
  else after_stale fuel lockPath deadline (negb (brokerProcessAlive (tick w1) pid)) w1.
Proof.
  intros Hf Hl Hp Ht. exists (bump (bump (bump w))). split; [done|]. split; [done|]. cbn [acquire_loop].
  unfold mbind, M_mbind, attempt, os_Mkdir at 1, ext at 1. rewrite Hf by lia. cbn [fs bump]. rewrite Hl.
  rewrite bool_decide_eq_true_2 by done. cbn [negb]. unfold ticks, gets at 1, ext at 1. cbn [tick bump]. rewrite Hf by lia.
  destruct (broker_answers (S (tick w))); [done|]. cbn [is_ok fail].
  unfold staleBrokerLock, mbind, M_mbind, attempt, open_read, ext. cbn [tick bump fs].
  rewrite Hf by lia. cbn [fs bump]. rewrite Hp. unfold result_mbind. rewrite Ht. done.
Qed.
(** A live lock is left alone, and waited for until the deadline. *)
Lemma live_lock_rounds fuel lockPath deadline text pid n N w :
  (∀ t, fate t = Proceed) →
  fs w !! lockPath = Some n → fs w !! lock_pid_path lockPath = Some (File text) →
  ParseInt (TrimSpace text) = Some pid → (∀ t, brokerProcessAlive t pid = true) →
  (∀ t, (N ≤ t)%nat → deadline < now_ms t * 1000000) →
  wp (acquire_loop fuel lockPath deadline) (λ r w',
    fs w' = fs w ∧ r ≠ Ok (Some tt) ∧ ((N < fuel + tick w)%nat → is_ok r = false ∨ fuel = 0%nat)) w.
Proof.
  intros Hf Hl Hp Ht Ha Hd. revert w Hl Hp. induction fuel as [|fuel IH]; intros w Hl Hp.
  { apply wp_ret. split_and!; auto. }
  unfold wp.
  destruct (lock_round fuel lockPath deadline pid text n w) as (w1 & F1 & T1 & E); [by intros; apply Hf|done..|].
  rewrite E. clear E. destruct (broker_answers _); [by split_and!; auto|]. rewrite Ha. cbn [negb after_stale].
  unfold after_stale, now_ns, ticks, ctx_Err, ext, gets, mbind, M_mbind, mret, M_mret. cbn beta iota.
  case_bool_decide as Hlate; [by split_and!; auto|]. rewrite Hf.
  destruct (IH (bump w1)) as (Fs & Hr & Hdone); [by cbn [fs bump]; rewrite F1..|]. split_and!; [by rewrite Fs|done|].
  intros Hn. destruct (decide (N ≤ tick w1)%nat) as [Hle|]; [by apply Hd in Hle|].
  destruct Hdone as [Hok| ->]; [simpl; lia|by left|]. simpl in *. lia.
Qed.

Lemma stale_lock_rounds fuel lockPath deadline text pid n msg w :
  (∀ t, fate t = if bool_decide (t mod 4 = 3)%nat then FailBefore (Failure msg) else Proceed) →
  (tick w mod 4 = 0)%nat → fs w !! lockPath = Some n →
  fs w !! lock_pid_path lockPath = Some (File text) → ParseInt (TrimSpace text) = Some pid →
  (∀ t, brokerProcessAlive t pid = false) → (∀ t, broker_answers t = false) →
  (acquire_loop fuel lockPath deadline w).1 = Ok None.
Proof.
  intros Hf H4 Hl Hp Ht Ha Hb. revert w H4 Hl Hp. induction fuel as [|fuel IH]; intros w H4 Hl Hp; [done|].
  destruct (lock_round fuel lockPath deadline pid text n w) as (w1 & F1 & T1 & E); [|done..|].
  { intros t Hr. rewrite Hf, bool_decide_eq_false_2; [done|]. intros Hm. assert (t mod 4 ≠ 3)%nat; [|done].
    pose proof (Nat.div_mod_eq (tick w) 4). pose proof (Nat.div_mod_eq t 4).
    pose proof (Nat.mod_upper_bound t 4). lia. }
  rewrite E, Hb, Ha. clear E. cbn [negb]. unfold after_stale, mbind, M_mbind, attempt, os_RemoveAll, ext.
  rewrite Hf, bool_decide_eq_true_2.
  2:{ rewrite T1. pose proof (Nat.div_mod_eq (tick w) 4). pose proof (Nat.div_mod_eq (3 + tick w) 4).
      pose proof (Nat.mod_upper_bound (3 + tick w) 4). lia. }
  apply IH; [|by cbn [fs bump]; rewrite F1..]. cbn [tick bump]. rewrite T1.
  pose proof (Nat.div_mod_eq (tick w) 4). pose proof (Nat.div_mod_eq (S (3 + tick w)) 4).
  pose proof (Nat.mod_upper_bound (S (3 + tick w)) 4). lia.
Qed.
(** A live broker keeps its lock: while the lock's pid file names a
    process that is alive, [acquireBrokerLock] changes no file and never gets
    the lock, however old the lock is, and it returns once its deadline
    has passed. *)
Theorem live_lock_kept fuel socketPath text pid n N w :
  let lockPath := socketPath +:+ ".lock" in
  (∀ t, fate t = Proceed) →
  fs w !! lockPath = Some n → fs w !! lock_pid_path lockPath = Some (File text) →
  ParseInt (TrimSpace text) = Some pid → (∀ t, brokerProcessAlive t pid = true) →
  (∀ t, (N ≤ t)%nat → now_ms (tick w) + 10000 < now_ms t) →
  wp (acquireBrokerLock fuel socketPath) (λ r w',
    fs w' = fs w ∧ r ≠ Ok (Some tt) ∧ ((N < fuel)%nat → is_ok r = false)) w.
Proof.
  intros lockPath Hf Hl Hp Ht Ha Hd. unfold acquireBrokerLock. apply wp_bind_gets.
  eapply wp_mono; [apply (live_lock_rounds fuel lockPath _ text pid n N); try done|].
  - intros t Hle%Hd. lia.
  - intros r w' (Hw & Hr & Hn). split_and!; try done. intros Hlt. destruct Hn as [?|?]; [lia|done|lia].
Qed.

(** A stale lock that cannot be removed is waited for without end: when
    [os.RemoveAll] keeps failing on the lock of a dead process,
    [acquireBrokerLock] is still in its loop after any number of rounds,
    whatever the time and its deadline. *)
Theorem stale_lock_spins fuel socketPath text pid n msg w :
  let lockPath := socketPath +:+ ".lock" in
  (∀ t, fate t = if bool_decide (t mod 4 = 3)%nat then FailBefore (Failure msg) else Proceed) →
  (tick w mod 4 = 0)%nat → fs w !! lockPath = Some n →
  fs w !! lock_pid_path lockPath = Some (File text) → ParseInt (TrimSpace text) = Some pid →
  (∀ t, brokerProcessAlive t pid = false) → (∀ t, broker_answers t = false) →
  (acquireBrokerLock fuel socketPath w).1 = Ok None.
Proof.
  intros lockPath Hf H4 Hl Hp Ht Ha Hb. by apply (stale_lock_rounds fuel lockPath _ text pid n msg).
Qed.
End lock_proofs.

(** ** Witnesses *)

Definition lock_files : gmap string node :=
  <["/run/wg.sock.lock" := Dir]> (<["/run/wg.sock.lock/pid" := File ("7" +:+ nl)]> ∅).

Definition lock_world : @World toy_vmm := set_fs (λ _, lock_files) empty_world.

(** One second per call. *)
Definition ticking (f : nat → outcome) : Env :=
  let e := env_with f in
  {| fate := f; now_ms t := Z.of_nat t * 1000; now_text := @now_text e; new_uuid := @new_uuid e;
     random_name := @random_name e; random_machine_id := @random_machine_id e; mod_time := @mod_time e;
     clone_supported := @clone_supported e; short_read := @short_read e; exec_command := @exec_command e |}.

Definition lock_env (alive : bool) : LockEnv :=
  {| broker_answers _ := false; kill_ok _ _ := alive; own_pid := 8 |}.

Lemma broker_roundtrip_witness :
  let dial := λ _ _ : string, Some ("refused" +:+ nl) in
  @BrokerDialer_DialContext (λ input, ba_reply (@handleBrokerConn ascii_quote dial input) +:+ "")
    "tcp" "[fd7a::1]:8081" = Err (ErrOther "wireguard broker: refused ").
Proof.
  destruct (@broker_roundtrip ascii_quote (λ _ _, Some ("refused" +:+ nl)) "tcp" "[fd7a::1]:8081" "")
    as (_ & text & E & Ht).
  - left.
  - done.
  - reflexivity.
  - reflexivity.
  - vm_compute. lia.
  - rewrite Ht in E; [exact E|]. vm_compute. lia.
Defined.

Lemma live_lock_kept_witness :
  wp (@acquireBrokerLock toy_vmm (ticking (λ _, Proceed)) ascii_only (lock_env true) 20 "/run/wg.sock")
    (λ r w', fs w' = fs lock_world ∧ r ≠ Ok (Some tt) ∧ ((11 < 20)%nat → is_ok r = false)) lock_world.
Proof.
  apply (@live_lock_kept toy_vmm (ticking (λ _, Proceed)) ascii_only (lock_env true) 20 "/run/wg.sock"
    ("7" +:+ nl) 7 Dir 11 lock_world); try reflexivity.
  intros t Hle. cbn [now_ms ticking tick lock_world set_fs empty_world]. lia.
Defined.

Definition unremovable (t : nat) : outcome :=
  if bool_decide (t mod 4 = 3)%nat then FailBefore (Failure "unlinkat: read-only file system") else Proceed.

Lemma stale_lock_spins_witness :
  (@acquireBrokerLock toy_vmm (ticking unremovable) ascii_only (lock_env false) 50 "/run/wg.sock" lock_world).1
  = Ok None.
Proof.
  apply (@stale_lock_spins toy_vmm (ticking unremovable) ascii_only (lock_env false) 50 "/run/wg.sock"
    ("7" +:+ nl) 7 Dir "unlinkat: read-only file system" lock_world); reflexivity.
Defined.
