(* ===== verification/ClientConfig.v ===== *)
(** * The client's configuration file (cmd/firedoze/client_config.go)

    The servers a user has configured, the WireGuard requests that wait for an
    administrator, and the [firedoze server] commands on them: each loads the
    file, changes it and writes it back through a temporary file.  TOML and the
    process's environment are arguments. *)

From S2P Require Import Prelude GoStrings Paths IPNet Json Types Store Config PrivateNet World FileCopy.
From S2P Require Import ManagerDisk Wireguard SaveFile ClientArgs ClientWG.
Open Scope Z_scope.

(** ** Data *)

Record clientServerConfig := MkServer {
  cs_Name : string;
  cs_APIURL : string;
  cs_WireGuard : option WGConfig;                    (* clientWireGuardConfig *)
}.

Record clientPendingRequest := MkPending { pp_Name : string; pp_PrivateKey : string }.

Record clientConfig := MkClientConfig {
  DefaultServer : string;
  Servers : list clientServerConfig;
  PendingPeers : list clientPendingRequest;
}.

Record serverImportConfig := MkImport {
  im_APIURL : string;
  im_ClientPublicKey : string;
  im_Address : string;
  im_ServerPublicKey : string;
  im_Endpoint : string;
  im_AllowedIPs : list string;
}.

Record clientServerSummary := MkSummary {
  sum_Name : string; sum_APIURL : string; sum_Default : bool; sum_WireGuard : bool }.

Definition empty_config : clientConfig := MkClientConfig "" [] [].

(** The decoder and encoder of the two files. *)
Class ClientToml := {
  client_Marshal : clientConfig → result string;
  client_Unmarshal : string → result clientConfig;
  import_Unmarshal : string → result serverImportConfig;
}.

(** What is read of a file that was written is what was written: of text that
    is not UTF-8 the decoder refuses what the encoder wrote. *)
Class ClientTomlLaws `{ClientToml} : Prop :=
  unmarshal_marshal c s c' : client_Marshal c = Ok s → client_Unmarshal s = Ok c' → c' = c.

(** The environment's variables and the standard input. *)
Class ClientProcess := { Getenv : string → string; stdin : string }.

(** [unicode.IsSpace] of the runes of text outside ASCII. *)
Class GoSpaces := unicode_has_space : string → bool.

(** [strings.TrimSpace] removes nothing from text without spaces. *)
Class GoSpacesLaw `{GoUnicode, GoSpaces} : Prop :=
  trim_no_space s : unicode_has_space s = false → unicode_trim_space s = s.

(** ** Lookups *)

Definition findServer (cfg : clientConfig) (name : string) : option clientServerConfig :=
  snd <$> list_find (λ s, cs_Name s = name) (Servers cfg).

Definition findServerIndex (cfg : clientConfig) (name : string) : option nat :=
  fst <$> list_find (λ s, cs_Name s = name) (Servers cfg).

Definition findPendingIndexByName (cfg : clientConfig) (name : string) : option nat :=
  fst <$> list_find (λ p, pp_Name p = name) (PendingPeers cfg).

Definition findPendingByName (cfg : clientConfig) (name : string) : option clientPendingRequest :=
  snd <$> list_find (λ p, pp_Name p = name) (PendingPeers cfg).

Definition serverSummaries (cfg : clientConfig) : list clientServerSummary :=
  (λ s, MkSummary (cs_Name s) (cs_APIURL s) (bool_decide (cs_Name s = DefaultServer cfg))
          (bool_decide (is_Some (cs_WireGuard s)))) <$> Servers cfg.

(** [cfg.Servers[i] = server] where there is one of the name, else an append. *)
Definition put_server (cfg : clientConfig) (server : clientServerConfig) : clientConfig :=
  MkClientConfig (DefaultServer cfg)
    (match findServerIndex cfg (cs_Name server) with
     | Some i => <[i := server]> (Servers cfg)
     | None => Servers cfg ++ [server]
     end) (PendingPeers cfg).

Definition put_pending (cfg : clientConfig) (pending : clientPendingRequest) : clientConfig :=
  MkClientConfig (DefaultServer cfg) (Servers cfg)
    (match findPendingIndexByName cfg (pp_Name pending) with
     | Some i => <[i := pending]> (PendingPeers cfg)
     | None => PendingPeers cfg ++ [pending]
     end).

Definition put_default (cfg : clientConfig) (name : string) : clientConfig :=
  MkClientConfig name (Servers cfg) (PendingPeers cfg).

(** [if makeDefault || cfg.DefaultServer == ""]. *)
Definition choose_default (cfg : clientConfig) (name : string) (makeDefault : bool) : clientConfig :=
  if makeDefault || is_empty (DefaultServer cfg) then put_default cfg name else cfg.

Definition remove_server (cfg : clientConfig) (name : string) : result clientConfig :=
  match findServerIndex cfg name with
  | None => Err (ErrOther "unknown firedoze server")
  | Some i => Ok (MkClientConfig (if bool_decide (DefaultServer cfg = name) then "" else DefaultServer cfg)
                    (take i (Servers cfg) ++ drop (S i) (Servers cfg)) (PendingPeers cfg))
  end.

Fixpoint remove_servers (cfg : clientConfig) (names : list string) : result clientConfig :=
  match names with
  | [] => Ok cfg
  | name :: names' => cfg ← remove_server cfg name; remove_servers cfg names'
  end.

Section keys.
Context `{GoUnicode, WgTypes}.

Fixpoint find_pending (peers : list clientPendingRequest) (publicKey : string) : result (option clientPendingRequest) :=
  match peers with
  | [] => Ok None
  | pending :: peers' =>
      key ← PublicKeyFromPrivateKey (pp_PrivateKey pending);
      if bool_decide (key = publicKey) then Ok (Some pending) else find_pending peers' publicKey
  end.

Definition findPendingByPublicKey (cfg : clientConfig) (publicKey : string) : result (option clientPendingRequest) :=
  find_pending (PendingPeers cfg) publicKey.

(** The pending requests of other keys.  On an error the caller drops its copy. *)
Fixpoint other_pending (peers : list clientPendingRequest) (publicKey : string) : result (list clientPendingRequest) :=
  match peers with
  | [] => Ok []
  | pending :: peers' =>
      key ← PublicKeyFromPrivateKey (pp_PrivateKey pending);
      out ← other_pending peers' publicKey;
      Ok (if bool_decide (key = publicKey) then out else pending :: out)
  end.

Definition removePendingByPublicKey (cfg : clientConfig) (publicKey : string) : result clientConfig :=
  out ← other_pending (PendingPeers cfg) publicKey;
  Ok (MkClientConfig (DefaultServer cfg) (Servers cfg) out).
End keys.

(** ** Names *)

Definition bad_name_char (c : ascii) : bool :=
  bool_decide (c = "/"%char) || bool_decide (c = "\"%char) || bool_decide (ascii_code c = 0).

Definition has_space `{GoSpaces} (s : string) : bool :=
  if is_ascii s then negb (no_space s) else unicode_has_space s.

Definition validateServerName `{GoSpaces} (name : string) : result unit :=
  if is_empty name then Err (ErrOther "server name is required") else
  reject (has_space name || negb (str_forall (λ c, negb (bad_name_char c)) name))
    "server name contains an invalid character".

(** [filepath.Base] and [filepath.Ext]. *)
Definition filepath_Base (p : string) : string :=
  if is_empty p then "." else
  let p := TrimRightChar p "/" in
  if is_empty p then "/" else match CutLast p "/" with Some (_, b) => b | None => p end.

Definition filepath_Ext (p : string) : string :=
  match CutLast (match CutLast p "/" with Some (_, b) => b | None => p end) "." with
  | Some (_, e) => "." +:+ e
  | None => ""
  end.

Definition serverNameFromImportPath `{GoUnicode} (inputPath : string) : string :=
  if bool_decide (inputPath = "-") then "" else
  let name := TrimSpace (filepath_Base inputPath) in
  TrimSpace (TrimSuffix name (filepath_Ext name)).

(** ** Arguments *)

Definition parseServerAddArgs (args : list string) : result (string * string * bool) :=
  '(values, set) ← parseNamesAndFlags [("default", FlagBool)] args;
  match values with
  | [name; apiURL] => Ok (name, apiURL, bool_decide (flag_value set "default" "false" = "true"))
  | _ => Err (ErrOther "expected name and api-url")
  end.

Fixpoint parse_import (inputPath nameOverride : string) (makeDefault : bool) (args : list string)
    : result (string * string * bool) :=
  match args with
  | [] => if is_empty inputPath then Err (ErrOther "missing import file")
          else Ok (inputPath, nameOverride, makeDefault)
  | arg :: rest =>
      if bool_decide (arg = "-default") then parse_import inputPath nameOverride true rest else
      if HasPrefix arg "-default=" then
        parsed ← ParseBool (TrimPrefix arg "-default=");
        parse_import inputPath nameOverride parsed rest else
      if bool_decide (arg = "-name") then
        match rest with
        | [] => Err (ErrOther "-name requires a value")
        | v :: rest' => parse_import inputPath v makeDefault rest'
        end else
      if HasPrefix arg "-name=" then parse_import inputPath (TrimPrefix arg "-name=") makeDefault rest else
      if HasPrefix arg "-" && negb (bool_decide (arg = "-")) then Err (ErrOther "unknown flag") else
      if negb (is_empty inputPath) then Err (ErrOther "unexpected argument") else
      parse_import arg nameOverride makeDefault rest
  end.

Definition parseServerImportArgs (args : list string) : result (string * string * bool) :=
  if bool_decide (args = []) then Err (ErrOther "missing import file") else parse_import "" "" false args.

(** ** The file *)

Section client.
Context `{FirecrackerVMM, Env, GoUnicode, GoSpaces, GoURL, WgTypes, !ClientNet, ClientToml, ClientProcess}.

(** On Linux, with [os.UserConfigDir] for the last case. *)
Definition clientConfigPath : result string :=
  let xdg := TrimSpace (Getenv "XDG_CONFIG_HOME") in
  if negb (is_empty xdg) then Ok (path_Join [xdg; "firedoze"; "config.toml"]) else
  let home := TrimSpace (Getenv "HOME") in
  if negb (is_empty home) then Ok (path_Join [home; ".config"; "firedoze"; "config.toml"]) else
  dir ← (if negb (is_empty (Getenv "XDG_CONFIG_HOME")) then
           (if IsAbs (Getenv "XDG_CONFIG_HOME") then Ok (Getenv "XDG_CONFIG_HOME")
            else Err (ErrOther "path in $XDG_CONFIG_HOME is relative"))
         else if is_empty (Getenv "HOME") then Err (ErrOther "neither $XDG_CONFIG_HOME nor $HOME are defined")
         else Ok (Getenv "HOME" +:+ "/.config"));
  Ok (path_Join [dir; "firedoze"; "config.toml"]).

Definition loadClientConfig : M World (clientConfig * string) :=
  path ← lift_result clientConfigPath;
  r ← attempt (open_read path);
  match r with
  | Err ErrNotExist => mret (empty_config, path)
  | Err e => fail e
  | Ok data => cfg ← lift_result (client_Unmarshal data); mret (cfg, path)
  end.

Definition saveClientConfig (cfg : clientConfig) : M World string :=
  path ← lift_result clientConfigPath;
  data ← lift_result (client_Marshal cfg);
  save_file path data ;;
  mret path.

(** ** Which server a command talks to *)

Definition resolve_name (cfg : clientConfig) (serverName : string) : string :=
  let name := or_string (TrimSpace serverName) (TrimSpace (DefaultServer cfg)) in
  match Servers cfg with
  | [s] => if is_empty name then cs_Name s else name
  | _ => name
  end.

Definition resolve_in (cfg : clientConfig) (serverName : string) : result clientServerConfig :=
  let name := resolve_name cfg serverName in
  if is_empty name then Err (ErrOther "missing API URL") else
  match findServer cfg name with
  | None => Err (ErrOther "unknown firedoze server")
  | Some server => Ok server
  end.

Definition resolveClientServer (apiURL serverName : string) : M World clientServerConfig :=
  if negb (is_empty (TrimSpace apiURL)) then mret (MkServer "" apiURL None) else
  '(cfg, _) ← loadClientConfig;
  lift_result (resolve_in cfg serverName).

Definition resolveClientAPIURL (apiURL serverName : string) : M World string :=
  server ← resolveClientServer apiURL serverName; mret (cs_APIURL server).

(** ** The commands

    What a command prints, before it is laid out as a table or as JSON. *)
Inductive Output :=
  | PrintRequest (name publicKey adminCommand path : string)
  | PrintServer (server : clientServerSummary) (path : string)
  | PrintServers (default_server : string) (servers : list clientServerSummary) (path : string)
  | PrintDefault (name path : string)
  | PrintRemoved (removed : list string) (default_server path : string)
  | PrintPath (path : string).

Definition server_request (name : string) : M World Output :=
  lift_result (validateServerName name) ;;
  t ← ticks;
  keyPair ← ext (lift_result (GenerateClientKeyPair t));
  '(cfg, _) ← loadClientConfig;
  path ← saveClientConfig (put_pending cfg (MkPending name (ck_PrivateKey keyPair)));
  mret (PrintRequest name (ck_PublicKey keyPair)
          ("sudo firedozed -wg-add-peer " +:+ name +:+ " " +:+ ck_PublicKey keyPair) path).

Definition readServerImportInput (inputPath : string) : M World string :=
  if bool_decide (inputPath = "-") then ext (mret stdin) else open_read inputPath.

(** The configuration after an import, with the entry made. *)
Definition import_server (cfg : clientConfig) (importConfig : serverImportConfig)
    (inputPath nameOverride : string) (makeDefault : bool) : result (clientConfig * clientServerConfig) :=
  found ← findPendingByPublicKey cfg (im_ClientPublicKey importConfig);
  match found with
  | None => Err (ErrOther "no matching pending WireGuard request")
  | Some pending =>
      let name := or_string (or_string (TrimSpace nameOverride) (serverNameFromImportPath inputPath))
                    (pp_Name pending) in
      validateServerName name ;;
      normalizedAPIURL ← normalizeAPIURL (im_APIURL importConfig);
      let wireGuardConfig := MkWGConfig (pp_PrivateKey pending) (im_Address importConfig)
        (im_ServerPublicKey importConfig) (im_Endpoint importConfig) (im_AllowedIPs importConfig) in
      WG_Validate wireGuardConfig ;;
      let server := MkServer name normalizedAPIURL (Some wireGuardConfig) in
      cfg ← removePendingByPublicKey (put_server cfg server) (im_ClientPublicKey importConfig);
      Ok (choose_default cfg name makeDefault, server)
  end.

Definition summary (cfg : clientConfig) (server : clientServerConfig) : clientServerSummary :=
  MkSummary (cs_Name server) (cs_APIURL server) (bool_decide (DefaultServer cfg = cs_Name server))
    (bool_decide (is_Some (cs_WireGuard server))).

Definition server_import (args : list string) : M World Output :=
  '(inputPath, nameOverride, makeDefault) ← lift_result (parseServerImportArgs args);
  data ← readServerImportInput inputPath;
  importConfig ← lift_result (import_Unmarshal data);
  '(cfg, _) ← loadClientConfig;
  '(cfg, server) ← lift_result (import_server cfg importConfig inputPath nameOverride makeDefault);
  path ← saveClientConfig cfg;
  mret (PrintServer (summary cfg server) path).

Definition server_add (args : list string) : M World Output :=
  '(name, apiURL, makeDefault) ← lift_result (parseServerAddArgs args);
  lift_result (validateServerName name) ;;
  normalized ← lift_result (normalizeAPIURL apiURL);
  '(cfg, _) ← loadClientConfig;
  let server := MkServer name normalized None in
  let cfg := choose_default (put_server cfg server) name makeDefault in
  path ← saveClientConfig cfg;
  mret (PrintServer (summary cfg server) path).

Definition server_list : M World Output :=
  '(cfg, path) ← loadClientConfig;
  mret (PrintServers (DefaultServer cfg) (serverSummaries cfg) path).

Definition server_use (name : string) : M World Output :=
  '(cfg, _) ← loadClientConfig;
  match findServer cfg name with
  | None => fail (ErrOther "unknown firedoze server")
  | Some _ => path ← saveClientConfig (put_default cfg name); mret (PrintDefault name path)
  end.

Definition server_remove (names : list string) : M World Output :=
  '(cfg, _) ← loadClientConfig;
  cfg ← lift_result (remove_servers cfg names);
  path ← saveClientConfig cfg;
  mret (PrintRemoved names (DefaultServer cfg) path).

Definition current_in (cfg : clientConfig) : result clientServerConfig :=
  let name := match Servers cfg with
              | [s] => or_string (DefaultServer cfg) (cs_Name s)
              | _ => DefaultServer cfg
              end in
  if is_empty name then Err (ErrOther "no default firedoze server configured") else
  match findServer cfg name with
  | None => Err (ErrOther "default firedoze server is not configured")
  | Some server => Ok server
  end.

Definition server_current : M World Output :=
  '(cfg, path) ← loadClientConfig;
  server ← lift_result (current_in cfg);
  mret (PrintServer (MkSummary (cs_Name server) (cs_APIURL server) true
                       (bool_decide (is_Some (cs_WireGuard server)))) path).

Definition server_path : M World Output := path ← lift_result clientConfigPath; mret (PrintPath path).

Definition usage_error {A} : M World A := fail (ErrOther "usage").

Definition server (args : list string) : M World Output :=
  match args with
  | [] => usage_error
  | cmd :: rest =>
      if bool_decide (cmd = "request") then
        match rest with [name] => server_request name | _ => usage_error end
      else if bool_decide (cmd = "import") then server_import rest
      else if bool_decide (cmd = "add") then server_add rest
      else if bool_decide (cmd = "list" ∨ cmd = "ls") then server_list
      else if bool_decide (cmd = "use") then
        match rest with [name] => server_use name | _ => usage_error end
      else if bool_decide (cmd = "remove" ∨ cmd = "rm") then
        match rest with [] => usage_error | _ => server_remove rest end
      else if bool_decide (cmd = "current") then server_current
      else if bool_decide (cmd = "path") then server_path
      else fail (ErrOther "unknown server command")
  end.
End client.

(** ** What a configuration the commands made satisfies *)

Section valid.
Context `{GoUnicode, GoSpaces, GoURL, WgTypes, !ClientNet}.

Definition server_valid (s : clientServerConfig) : Prop :=
  validateServerName (cs_Name s) = Ok tt ∧ (∃ raw, normalizeAPIURL raw = Ok (cs_APIURL s)) ∧
  ∀ wg, cs_WireGuard s = Some wg → WG_Validate wg = Ok tt.

Definition server_names (cfg : clientConfig) : list string := cs_Name <$> Servers cfg.
Definition pending_names (cfg : clientConfig) : list string := pp_Name <$> PendingPeers cfg.

Record config_ok (cfg : clientConfig) : Prop := {
  ok_unique : NoDup (server_names cfg);
  ok_servers : Forall server_valid (Servers cfg);
  ok_default : DefaultServer cfg = "" ∨ DefaultServer cfg ∈ server_names cfg;
  ok_pending : NoDup (pending_names cfg);
  ok_pending_names : Forall (λ n, validateServerName n = Ok tt) (pending_names cfg);
}.

Lemma empty_config_ok : config_ok empty_config.
Proof. by split; [constructor|constructor|left|constructor|constructor]. Qed.

Lemma list_filter_all {A} (P : A → Prop) `{∀ x, Decision (P x)} (l : list A) :
  Forall P l → filter P l = l.
Proof. induction 1 as [|x l Hx _ IH]; [done|]. by rewrite filter_cons_True, IH. Qed.

(** Replacing the entry of a name, or adding one. *)
Lemma names_put {A} (f : A → string) (x : A) (l : list A) :
  let l' := match fst <$> list_find (λ y, f y = f x) l with Some i => <[i := x]> l | None => l ++ [x] end in
  (NoDup (f <$> l) → NoDup (f <$> l')) ∧ (∀ n, n ∈ f <$> l' ↔ n ∈ f <$> l ∨ n = f x) ∧ (∀ y, y ∈ l' → y = x ∨ y ∈ l) ∧
  x ∈ l' ∧ (∀ y, f y ≠ f x → y ∈ l → y ∈ l').
Proof.
  intros l'. unfold l'. destruct (list_find _ l) as [[i y]|] eqn:E; cbn [fmap option_fmap option_map fst].
  - apply list_find_Some in E as (Hi & Hy & _).
    assert (f <$> <[i := x]> l = f <$> l) as ->.
    { rewrite list_fmap_insert. apply list_insert_id. by rewrite list_lookup_fmap, Hi, <-Hy. }
    split_and!; [done| | | |].
    + intros n. split; [by left|]. intros [?| ->]; [done|]. rewrite <-Hy. apply list_elem_of_fmap_2.
      by eapply list_elem_of_lookup_2.
    + intros z [j Hj]%list_elem_of_lookup_1. apply list_lookup_insert_Some in Hj as [(_ & <- & _)|[_ Hj]]; [by left|].
      right. by eapply list_elem_of_lookup_2.
    + apply list_elem_of_insert. by eapply lookup_lt_Some.
    + intros z Hz [j Hj]%list_elem_of_lookup_1. apply (list_elem_of_lookup_2 _ j).
      rewrite list_lookup_insert_ne; [done|]. intros ->. congruence.
  - apply list_find_None in E. split_and!.
    + intros Hn. rewrite fmap_app. apply NoDup_app. split_and!; [done| |apply NoDup_singleton].
      intros n Hn' ->%list_elem_of_singleton. apply list_elem_of_fmap in Hn' as (z & Hz & Hin).
      by eapply Forall_forall in E; [apply E|].
    + intros n. rewrite fmap_app, elem_of_app. simpl. by rewrite list_elem_of_singleton.
    + intros z [?| ->%list_elem_of_singleton]%elem_of_app; auto.
    + apply elem_of_app. right. by apply list_elem_of_singleton.
    + intros z _ Hz. apply elem_of_app. by left.
Qed.

Lemma put_server_ok cfg s : config_ok cfg → server_valid s → config_ok (put_server cfg s).
Proof.
  intros [Hu Hs Hd Hp Hpn] Hv. destruct (names_put cs_Name s (Servers cfg)) as (Hn & Hin & Hy & _).
  split; simpl; try done; [by apply Hn| |].
  - apply Forall_forall. intros y [-> |Hy']%Hy; [done|]. by eapply Forall_forall in Hs.
  - destruct Hd as [?|Hd]; [by left|right]. apply Hin. by left.
Qed.

Lemma put_server_named cfg s : cs_Name s ∈ server_names (put_server cfg s).
Proof. destruct (names_put cs_Name s (Servers cfg)) as (_ & Hin & _). apply Hin. by right. Qed.

Lemma put_pending_ok cfg p :
  config_ok cfg → validateServerName (pp_Name p) = Ok tt → config_ok (put_pending cfg p).
Proof.
  intros [Hu Hs Hd Hp Hpn] Hv. destruct (names_put pp_Name p (PendingPeers cfg)) as (Hn & Hin & _).
  split; simpl; try done; [by apply Hn|].
  apply Forall_forall. intros n [Hy| ->]%Hin; [by eapply Forall_forall in Hpn|done].
Qed.

Lemma put_default_ok cfg name : config_ok cfg → name ∈ server_names cfg → config_ok (put_default cfg name).
Proof. intros [Hu Hs Hd Hp Hpn] Hn. split; simpl; try done. by right. Qed.

Lemma choose_default_ok cfg name b :
  config_ok cfg → name ∈ server_names cfg → config_ok (choose_default cfg name b).
Proof. intros Hc Hn. unfold choose_default. case_match; [by apply put_default_ok|done]. Qed.

Lemma findServer_named cfg name s :
  findServer cfg name = Some s → s ∈ Servers cfg ∧ cs_Name s = name.
Proof.
  unfold findServer. intros ([i s'] & (Hi & Hn & _)%list_find_Some & ->)%fmap_Some. split; [|done].
  by eapply list_elem_of_lookup_2.
Qed.

Lemma findServer_None cfg name : findServer cfg name = None ↔ name ∉ server_names cfg.
Proof.
  unfold findServer. rewrite fmap_None, list_find_None, Forall_forall. unfold server_names.
  setoid_rewrite list_elem_of_fmap. naive_solver.
Qed.

Lemma findServer_unique cfg s :
  NoDup (server_names cfg) → s ∈ Servers cfg → findServer cfg (cs_Name s) = Some s.
Proof.
  intros Hu Hs. destruct (findServer cfg (cs_Name s)) as [s'|] eqn:E.
  - apply findServer_named in E as [Hs' Hn]. f_equal.
    apply list_elem_of_lookup_1 in Hs as [i Hi], Hs' as [j Hj].
    assert (j = i) as ->; [|congruence]. eapply NoDup_lookup; [done|..]; unfold server_names;
      rewrite list_lookup_fmap; [by rewrite Hj|by rewrite Hi, Hn].
  - apply findServer_None in E. destruct E. by apply list_elem_of_fmap_2.
Qed.

(** Removing a server keeps the others in order. *)
Lemma remove_server_Ok cfg name cfg' :
  remove_server cfg name = Ok cfg' → NoDup (server_names cfg) →
  name ∈ server_names cfg ∧ Servers cfg' = filter (λ s, cs_Name s ≠ name) (Servers cfg) ∧
  DefaultServer cfg' = (if bool_decide (DefaultServer cfg = name) then "" else DefaultServer cfg) ∧
  PendingPeers cfg' = PendingPeers cfg.
Proof.
  unfold remove_server, findServerIndex, server_names. destruct (list_find _ (Servers cfg)) as [[i s]|] eqn:E; [|done].
  apply list_find_Some in E as (Hi & Hn & Hbefore). simpl. intros [= <-] Hu. simpl.
  split_and!; [rewrite <-Hn; apply list_elem_of_fmap_2; by eapply list_elem_of_lookup_2| |done|done].
  rewrite <-(take_drop_middle _ _ _ Hi) at 3. rewrite <-(take_drop_middle _ _ _ Hi), fmap_app in Hu.
  apply NoDup_app in Hu as (_ & Hout & Hu). cbn [fmap list_fmap] in Hu, Hout. apply NoDup_cons in Hu as [Hnot _].
  rewrite filter_app, filter_cons_False by tauto.
  f_equal; symmetry; apply list_filter_all; apply Forall_forall.
  - intros x Hx Hxn. apply (Hout name); [|rewrite Hn; left]. rewrite <-Hxn. by apply list_elem_of_fmap_2.
  - intros x Hx Hxn. apply Hnot. rewrite Hn, <-Hxn. by apply list_elem_of_fmap_2.
Qed.

Lemma elem_of_fmap_filter {A B} (f : A → B) (P : A → Prop) `{∀ x, Decision (P x)} (l : list A) b :
  b ∈ f <$> filter P l → b ∈ f <$> l.
Proof. intros (x & -> & [_ Hx]%list_elem_of_filter)%list_elem_of_fmap. by apply list_elem_of_fmap_2. Qed.

Lemma NoDup_fmap_filter {A B} (f : A → B) (P : A → Prop) `{∀ x, Decision (P x)} (l : list A) :
  NoDup (f <$> l) → NoDup (f <$> filter P l).
Proof.
  induction l as [|x l IH]; [done|]. cbn [fmap list_fmap]. intros [Hx Hl]%NoDup_cons.
  destruct (decide (P x)); [rewrite filter_cons_True by done|rewrite filter_cons_False by done; auto].
  apply NoDup_cons. split; [|auto]. contradict Hx. by eapply elem_of_fmap_filter.
Qed.

Lemma remove_server_ok cfg name cfg' : config_ok cfg → remove_server cfg name = Ok cfg' → config_ok cfg'.
Proof.
  intros [Hu Hs Hd Hp Hpn] E. destruct (remove_server_Ok _ _ _ E Hu) as (_ & Es & Ed & Ep).
  split; unfold server_names, pending_names in *; rewrite ?Es, ?Ed, ?Ep; try done.
  - by apply NoDup_fmap_filter.
  - apply Forall_forall. intros s [_ Hin]%list_elem_of_filter. by eapply Forall_forall in Hs.
  - case_bool_decide as Hn; [by left|]. destruct Hd as [?|Hd]; [by left|right].
    apply list_elem_of_fmap in Hd as (s & Hds & Hin). rewrite Hds. apply list_elem_of_fmap_2.
    apply list_elem_of_filter. split; congruence.
Qed.

Lemma remove_servers_ok names : ∀ cfg cfg', config_ok cfg → remove_servers cfg names = Ok cfg' → config_ok cfg'.
Proof.
  induction names as [|n names IH]; intros cfg cfg' Hc; cbn [remove_servers]; [by intros [= <-]|].
  intros (c1 & E1 & E)%result_bind_Ok. eapply IH; [|done]. by eapply remove_server_ok.
Qed.

(** The request whose public key is [key]. *)
Definition asks (key : string) (p : clientPendingRequest) : Prop :=
  PublicKeyFromPrivateKey (pp_PrivateKey p) = Ok key.

#[global] Instance asks_dec key p : Decision (asks key p).
Proof. unfold asks. apply _. Defined.

Lemma find_pending_Some peers key p : find_pending peers key = Ok (Some p) → p ∈ peers ∧ asks key p.
Proof.
  induction peers as [|q peers IH]; cbn [find_pending]; [done|]. intros (k & Ek & E)%result_bind_Ok.
  case_bool_decide; [injection E as <-; subst; split; [left|done]|]. apply IH in E as [? ?]. split; [by right|done].
Qed.

Lemma other_pending_Ok peers key out :
  other_pending peers key = Ok out → out = filter (λ p, ¬ asks key p) peers.
Proof.
  revert out. induction peers as [|q peers IH]; intros out; cbn [other_pending]; [by intros [= <-]|].
  intros (k & Ek & (o & ->%IH & [= <-])%result_bind_Ok)%result_bind_Ok. unfold asks at 2. case_bool_decide as Hk.
  - rewrite filter_cons_False; [done|]. intros Hq. apply Hq. unfold asks. by rewrite Ek, Hk.
  - rewrite filter_cons_True; [done|]. unfold asks. rewrite Ek. congruence.
Qed.

Lemma removePending_ok cfg key cfg' :
  config_ok cfg → removePendingByPublicKey cfg key = Ok cfg' → config_ok cfg' ∧
  Servers cfg' = Servers cfg ∧ DefaultServer cfg' = DefaultServer cfg ∧
  PendingPeers cfg' = filter (λ p, ¬ asks key p) (PendingPeers cfg).
Proof.
  intros [Hu Hs Hd Hp Hpn] (out & ->%other_pending_Ok & [= <-])%result_bind_Ok. split; [|done].
  split; unfold server_names, pending_names in *; simpl; try done.
  - by apply NoDup_fmap_filter.
  - apply Forall_forall. intros n Hn%elem_of_fmap_filter. by eapply Forall_forall in Hpn.
Qed.

Lemma findServer_iff cfg name s :
  NoDup (server_names cfg) → findServer cfg name = Some s ↔ s ∈ Servers cfg ∧ cs_Name s = name.
Proof. intros Hu. split; [apply findServer_named|]. intros [Hs <-]. by apply findServer_unique. Qed.

Lemma findServer_ext cfg cfg' name :
  (∀ s, findServer cfg name = Some s ↔ findServer cfg' name = Some s) → findServer cfg name = findServer cfg' name.
Proof. intros Hs. apply option_eq. exact Hs. Qed.

(** After [put_server] the name stands for the new entry, the others for theirs. *)
Lemma findServer_put cfg s name :
  NoDup (server_names cfg) →
  findServer (put_server cfg s) name = if bool_decide (name = cs_Name s) then Some s else findServer cfg name.
Proof.
  intros Hu. destruct (names_put cs_Name s (Servers cfg)) as (Hn & _ & Hy & Hx & Ho).
  assert (NoDup (server_names (put_server cfg s))) as Hu' by by apply Hn. case_bool_decide as E.
  - subst name. by apply findServer_unique.
  - apply findServer_ext. intros y. rewrite !findServer_iff by done. split.
    + intros [[-> |?]%Hy <-]; done.
    + intros [Hin <-]. split; [by apply Ho|done].
Qed.

(** What an import makes of a configuration. *)
Lemma import_server_spec cfg im inputPath nameOverride makeDefault cfg' s :
  config_ok cfg → import_server cfg im inputPath nameOverride makeDefault = Ok (cfg', s) →
  config_ok cfg' ∧
  (∃ pending wg, pending ∈ PendingPeers cfg ∧ asks (im_ClientPublicKey im) pending ∧
     cs_WireGuard s = Some wg ∧ wgc_PrivateKey wg = pp_PrivateKey pending) ∧
  (∀ name, findServer cfg' name = if bool_decide (name = cs_Name s) then Some s else findServer cfg name) ∧
  PendingPeers cfg' = filter (λ p, ¬ asks (im_ClientPublicKey im) p) (PendingPeers cfg) ∧
  DefaultServer cfg' = (if makeDefault || is_empty (DefaultServer cfg) then cs_Name s else DefaultServer cfg).
Proof.
  intros Hc E. unfold import_server in E. apply result_bind_Ok in E as ([p|] & Hp & E); [|done].
  apply result_bind_Ok in E as ([] & Hname & E). apply result_bind_Ok in E as (url & Hurl & E).
  apply result_bind_Ok in E as ([] & Hwg & E). apply result_bind_Ok in E as (c1 & E1 & E). injection E as <- <-.
  apply find_pending_Some in Hp as [Hin Hask]. set (s := MkServer _ _ _) in *.
  assert (config_ok (put_server cfg s)) as Hput.
  { apply put_server_ok; [done|]. split; [done|]. split; [by exists (im_APIURL im)|]. by intros wg [= <-]. }
  destruct (removePending_ok _ _ _ Hput E1) as (Hc1 & Es & Ed & Ep).
  split_and!.
  - apply choose_default_ok; [done|]. unfold server_names. rewrite Es. apply (put_server_named cfg s).
  - by eexists p, _.
  - intros name. rewrite <-(findServer_put cfg s name) by apply Hc.
    unfold findServer, choose_default. by destruct (_ || _); simpl; rewrite Es.
  - unfold choose_default. by destruct (_ || _); simpl; rewrite Ep.
  - unfold choose_default. rewrite Ed. by destruct (_ || _); simpl; rewrite ?Ed.
Qed.

Lemma import_server_ok cfg im inputPath nameOverride makeDefault cfg' s :
  config_ok cfg → import_server cfg im inputPath nameOverride makeDefault = Ok (cfg', s) → config_ok cfg'.
Proof. intros Hc E. by apply import_server_spec in E as [? _]. Qed.

(** An import turns one pending request into one server: the entry made has
    the private key of a request of this client with the public key of the
    file, every request for that key is gone and the others stay, no other
    server changes, and the default changes when asked to or when there was
    none; the new configuration is again well formed. *)
Theorem import_server_correct cfg im inputPath nameOverride makeDefault cfg' s :
  config_ok cfg → import_server cfg im inputPath nameOverride makeDefault = Ok (cfg', s) →
  config_ok cfg' ∧
  (∃ pending wg, pending ∈ PendingPeers cfg ∧ asks (im_ClientPublicKey im) pending ∧
     cs_WireGuard s = Some wg ∧ wgc_PrivateKey wg = pp_PrivateKey pending) ∧
  (∀ name, findServer cfg' name = if bool_decide (name = cs_Name s) then Some s else findServer cfg name) ∧
  PendingPeers cfg' = filter (λ p, ¬ asks (im_ClientPublicKey im) p) (PendingPeers cfg) ∧
  DefaultServer cfg' = (if makeDefault || is_empty (DefaultServer cfg) then cs_Name s else DefaultServer cfg).
Proof. apply import_server_spec. Qed.

End valid.

Section current.
Context `{GoUnicode, GoSpaces, !GoSpacesLaw, GoURL, WgTypes, !ClientNet}.

Lemma valid_name name : validateServerName name = Ok tt → TrimSpace name = name ∧ name ≠ "".
Proof.
  unfold validateServerName. destruct (is_empty name) eqn:He; [done|]. apply bool_decide_eq_false in He.
  intros [Hs _]%reject_Ok%orb_false_iff. split; [|done]. unfold has_space in Hs.
  destruct (is_ascii name) eqn:Ha.
  - apply TrimSpace_id; [done|]. by apply negb_false_iff.
  - unfold TrimSpace. rewrite Ha. by apply trim_no_space.
Qed.

Lemma named_valid cfg name : config_ok cfg → name ∈ server_names cfg → TrimSpace name = name ∧ name ≠ "".
Proof.
  intros Hc (s & -> & Hs)%list_elem_of_fmap. apply valid_name. pose proof (ok_servers _ Hc) as Hv.
  by eapply Forall_forall in Hv as (? & _); [|done].
Qed.

(** [server current] shows the server that commands use: in a well-formed
    configuration it names exactly the server [resolveClientServer] picks when
    none is asked for, and there is one as soon as a default is set or a single
    server is configured. *)
Theorem current_is_used cfg :
  config_ok cfg →
  (∀ s, resolve_in cfg "" = Ok s ↔ current_in cfg = Ok s) ∧
  (is_ok (current_in cfg) = true ↔ DefaultServer cfg ≠ "" ∨ ∃ s, Servers cfg = [s]).
Proof.
  intros Hc.
  assert (TrimSpace (DefaultServer cfg) = DefaultServer cfg) as Hd.
  { destruct (ok_default _ Hc) as [-> |Hin]; [done|]. by apply (named_valid cfg). }
  set (name := match Servers cfg with [s] => or_string (DefaultServer cfg) (cs_Name s) | _ => DefaultServer cfg end).
  assert (resolve_name cfg "" = name) as Hn.
  { unfold resolve_name, name. rewrite Hd. unfold or_string at 1. change (is_empty (TrimSpace "")) with true. cbn iota.
    destruct (Servers cfg) as [|s [|]]; try done; unfold or_string; by destruct (is_empty _). }
  unfold resolve_in, current_in. rewrite Hn. fold name. split.
  { intros s. destruct (is_empty name); [done|]. by destruct (findServer cfg name). }
  assert (name ≠ "" → name ∈ server_names cfg) as Hin.
  { pose proof (ok_default _ Hc) as Hdef. unfold name, or_string, is_empty, server_names in *.
    destruct (Servers cfg) as [|s [|s' l]]; [by destruct Hdef as [-> |]| |by destruct Hdef as [-> |]].
    intros _. case_bool_decide; [left|]. by destruct Hdef. }
  assert (name ≠ "" ↔ DefaultServer cfg ≠ "" ∨ ∃ s, Servers cfg = [s]) as <-.
  { unfold name, or_string, is_empty. destruct (Servers cfg) as [|s [|s' l]] eqn:Es; [naive_solver| |naive_solver].
    split; [intros _; right; by exists s|]. intros _. case_bool_decide; [|done].
    apply (named_valid cfg); [done|]. unfold server_names. rewrite Es. left. }
  unfold is_empty. case_bool_decide as He; [by rewrite He|]. destruct (findServer cfg name) eqn:Ef; [done|].
  apply findServer_None in Ef. split; [done|]. intros _. by destruct Ef; apply Hin.
Qed.
End current.


(** ** The path *)

Section path.
Context `{GoUnicode, ClientProcess}.

Lemma clientConfigPath_toml path : clientConfigPath = Ok path → ∃ x, path = x +:+ "config.toml".
Proof.
  assert (∀ d, d ≠ "" → ∃ x, path_Join [d; "firedoze"; "config.toml"] = x +:+ "config.toml") as H3.
  { intros d Hd. unfold path_Join. rewrite filter_cons_True by done.
    change (∃ x, Clean (d +:+ "/" +:+ "firedoze" +:+ String "/" "config.toml") = x +:+ "config.toml").
    rewrite <-!str_app_assoc. by apply Clean_last. }
  assert (∀ d, d ≠ "" → ∃ x, path_Join [d; ".config"; "firedoze"; "config.toml"] = x +:+ "config.toml") as H4.
  { intros d Hd. unfold path_Join. rewrite filter_cons_True by done.
    change (∃ x, Clean (d +:+ "/" +:+ ".config" +:+ "/" +:+ "firedoze" +:+ String "/" "config.toml") = x +:+ "config.toml").
    rewrite <-!str_app_assoc. by apply Clean_last. }
  unfold clientConfigPath, is_empty. case_bool_decide; cbn [negb]; [|intros [= <-]; by apply H3].
  case_bool_decide; cbn [negb]; [|intros [= <-]; by apply H4].
  intros (d & Hd & [= <-])%result_bind_Ok. apply H3. repeat case_bool_decide; cbn [negb] in Hd; try done.
  { injection Hd as <-. by intros [_ ?]%str_app_eq_nil. }
  all: destruct (IsAbs _); [|done]; by injection Hd as <-.
Qed.
End path.

(** The temporary file is not the file. *)
Lemma temp_not_config x y : x +:+ ".tmp" ≠ y +:+ "config.toml".
Proof.
  intros E. change ".tmp" with (".tm" +:+ "p") in E. change "config.toml" with ("config.tom" +:+ "l") in E.
  rewrite <-!str_app_assoc in E. by apply last_char_inj in E.
Qed.

(** ** The file is replaced whole or left alone *)

Section save.
Context `{FirecrackerVMM, Env, GoUnicode, ClientToml, ClientProcess}.

(** What saving [cfg] makes of the files [m]. *)
Definition save_outcome (m : gmap string node) (path : string) (cfg : clientConfig) (ok : bool)
    (m' : gmap string node) : Prop :=
  ((∃ s, client_Marshal cfg = Ok s ∧ m' !! path = Some (File s)) ∨
   ok = false ∧ (∀ n, m !! path = Some n → m' !! path = Some n) ∧
   ∀ s, m' !! path = Some (File s) → m !! path = Some (File s)) ∧
  others_kept m path m'.

Lemma save_outcome_saved m path cfg s ok m' :
  client_Marshal cfg = Ok s → saved_file m path s ok m' → save_outcome m path cfg ok m'.
Proof. intros Hs [[Hp|Hp] Ho]; (split; [|done]); [left; by exists s|by right]. Qed.

Lemma saveClientConfig_wp cfg path w :
  clientConfigPath = Ok path →
  wp (saveClientConfig cfg) (λ r w', save_outcome (fs w) path cfg (is_ok r) (fs w')) w.
Proof.
  intros Hpath. destruct (clientConfigPath_toml _ Hpath) as [x Hx].
  unfold saveClientConfig. rewrite Hpath. apply wp_bind, wp_lift_result.
  destruct (client_Marshal cfg) as [s|e] eqn:Hs; apply wp_bind, wp_lift_result.
  2:{ split; [right; by split|by intros q n]. }
  apply wp_bind. eapply wp_mono; [apply save_file_wp|].
  - intros z. subst path. apply temp_not_config.
  - intros r w' Ho%(save_outcome_saved _ _ _ _ _ _ Hs). by destruct r.
Qed.
End save.

(** ** Every history of commands leaves a well-formed file *)

Section history.
Context `{FirecrackerVMM, Env, GoUnicode, GoSpaces, GoURL, WgTypes, !ClientNet, ClientToml, !ClientTomlLaws}.

Definition file_ok (path : string) (w : World) : Prop :=
  ∀ s c, fs w !! path = Some (File s) → client_Unmarshal s = Ok c → config_ok c.

(** The file is well formed and every other entry of [m] is as it was. *)
Definition client_inv (m : gmap string node) (path : string) (w : World) : Prop :=
  file_ok path w ∧ others_kept m path (fs w).

Section commands.
Context `{ClientProcess} (m0 : gmap string node) (path : string) (Hpath : clientConfigPath = Ok path).

#[local] Instance pres_file_keeps {A} (m : M World A) : Keeps fs m → Pres (client_inv m0 path) m | 20.
Proof. intros Hk w [Hw Ho]. split; [intros s c|]; rewrite (Hk w); [apply Hw|done]. Qed.

#[local] Instance keeps_load : Keeps fs loadClientConfig.
Proof. unfold loadClientConfig. repeat (apply keeps_bind; [apply _|intros]). case_match; [apply _|case_match; apply _]. Qed.

Lemma load_value w cfg p w' :
  loadClientConfig w = (Ok (cfg, p), w') → p = path ∧
  (fs w !! path = None ∧ cfg = empty_config ∨ ∃ s, fs w !! path = Some (File s) ∧ client_Unmarshal s = Ok cfg).
Proof.
  unfold loadClientConfig. rewrite Hpath. intros (p' & w1 & [= <- <-] & E)%bind_Ok.
  apply bind_Ok in E as (r & w2 & E2%attempt_Ok & E). unfold open_read, ext in E2. cbn [fs bump] in E2.
  destruct r as [s|e].
  - apply bind_Ok in E as (c & w3 & Ec & E). injection Ec as Ec _. injection E as -> <- _. split; [done|]. right. exists s.
    split; [|done]. destruct (fate _); try done. destruct (fs w !! path) as [[]|]; by simplify_eq.
  - destruct e; try done. injection E as <- <- _. split; [done|]. left. split; [|done].
    destruct (fate _) as [|f|f]; [|by injection E2 as E2 _; destruct f..].
    destruct (fs w !! path) as [[]|]; by simplify_eq.
Qed.

Lemma pres_load {A} (k : clientConfig * string → M World A) :
  (∀ c, config_ok c.1 → Pres (client_inv m0 path) (k c)) → Pres (client_inv m0 path) (loadClientConfig ≫= k).
Proof.
  intros Hk. apply (pres_bind_val _ (λ c, config_ok c.1)); [apply _| |done].
  intros w [cfg p] w' [Hw _] [_ [[_ ->]|(s & Hs & Hc)]]%load_value; [apply empty_config_ok|by eapply Hw].
Qed.

Lemma pres_save cfg : config_ok cfg → Pres (client_inv m0 path) (saveClientConfig cfg).
Proof.
  intros Hc w [Hw Ho]. pose proof (saveClientConfig_wp cfg path w Hpath) as [Hp Hk].
  split; [|intros q n Hq Hn; by apply Hk, Ho]. intros s c Hs Hu.
  destruct Hp as [(s' & Hm & Hs')|(_ & _ & Hold)]; [|by eapply Hw; [apply Hold|]].
  rewrite Hs in Hs'. injection Hs' as ->. by rewrite (unmarshal_marshal _ _ _ Hm Hu).
Qed.

(** Saving, and then something that leaves the files alone. *)
Lemma pres_save_then {A} cfg (k : string → M World A) :
  config_ok cfg → (∀ p, Keeps fs (k p)) → Pres (client_inv m0 path) (saveClientConfig cfg ≫= k).
Proof. intros Hc Hk. apply pres_bind; [by apply pres_save|]. intros p. apply _. Qed.

(** A value computed without the state. *)
Lemma pres_lift_bind {A B} (r : result B) (k : B → M World A) :
  (∀ b, r = Ok b → Pres (client_inv m0 path) (k b)) → Pres (client_inv m0 path) (lift_result r ≫= k).
Proof. intros Hk w Hw. unfold mbind, M_mbind, lift_result. destruct r as [b|e]; [by apply (Hk b)|done]. Qed.

Lemma server_add_pres args : Pres (client_inv m0 path) (server_add args).
Proof.
  unfold server_add. apply pres_lift_bind. intros [[name url] d] _. apply pres_lift_bind. intros [] Hname.
  apply pres_lift_bind. intros u Hu. apply pres_load. intros [cfg p] Hc. cbv zeta. apply pres_save_then; [|apply _].
  apply choose_default_ok; [apply put_server_ok; [done|]|apply (put_server_named cfg (MkServer name u None))].
  split; [done|]. split; [by exists url|done].
Qed.

Lemma server_request_pres name : Pres (client_inv m0 path) (server_request name).
Proof.
  unfold server_request. apply pres_lift_bind. intros [] Hname. do 2 (apply pres_bind; [apply _|intros]).
  apply pres_load. intros [cfg p] Hc. apply pres_save_then; [by apply put_pending_ok|apply _].
Qed.

Lemma server_import_pres args : Pres (client_inv m0 path) (server_import args).
Proof.
  unfold server_import. apply pres_lift_bind. intros [[i n] d] _. apply pres_bind.
  { unfold readServerImportInput. apply _. }
  intros data. apply pres_lift_bind. intros im _. apply pres_load. intros [cfg p] Hc. apply pres_lift_bind.
  intros [cfg' s] E. apply pres_save_then; [|apply _]. by eapply import_server_ok.
Qed.

Lemma server_use_pres name : Pres (client_inv m0 path) (server_use name).
Proof.
  unfold server_use. apply pres_load. intros [cfg p] Hc. destruct (findServer cfg name) as [s|] eqn:E; [|apply _].
  apply pres_save_then; [|apply _]. apply put_default_ok; [done|]. apply findServer_named in E as [Hs <-].
  by apply list_elem_of_fmap_2.
Qed.

Lemma server_remove_pres names : Pres (client_inv m0 path) (server_remove names).
Proof.
  unfold server_remove. apply pres_load. intros [cfg p] Hc. apply pres_lift_bind. intros cfg' E.
  apply pres_save_then; [|apply _]. by eapply remove_servers_ok.
Qed.

Lemma server_list_pres : Pres (client_inv m0 path) server_list.
Proof. apply pres_load. intros [cfg p] _. apply _. Qed.

Lemma server_current_pres : Pres (client_inv m0 path) server_current.
Proof. apply pres_load. intros [cfg p] _. apply pres_lift_bind. intros s _. apply _. Qed.

Lemma server_path_pres : Pres (client_inv m0 path) server_path.
Proof. apply pres_lift_bind. intros p _. apply _. Qed.

Create HintDb client.
#[local] Hint Resolve server_add_pres server_request_pres server_import_pres server_use_pres server_remove_pres
  server_list_pres server_current_pres server_path_pres pres_fail : client.

Lemma server_pres args : Pres (client_inv m0 path) (server args).
Proof.
  unfold server, usage_error. destruct args as [|cmd rest]; [auto with client|].
  repeat apply pres_if; auto with client; destruct rest as [|x [|]]; auto with client.
Qed.
End commands.

(** One event on the client's machine: a command, with some standard input, or
    anything that does not touch the file. *)
Inductive client_step (getenv : string → string) (path : string) (w : World) : World → Prop :=
  | step_server (P : ClientProcess) args : @Getenv P = getenv → client_step getenv path w (server args w).2
  | step_other w' : fs w' !! path = fs w !! path → client_step getenv path w w'.

Lemma client_step_inv (P : ClientProcess) path w args :
  clientConfigPath = Ok path → file_ok path w → client_inv (fs w) path (server args w).2.
Proof. intros Hpath Hw. apply (server_pres (fs w) path Hpath args). split; [done|]. by intros q n. Qed.

(** C39.  However the client is used, its configuration stays usable: from a
    machine without the file, after any sequence of [firedoze server] commands
    with any arguments and failures, the file, if it decodes, is well formed:
    server names are valid and unique, every API URL is normalised, every
    tunnel's configuration has passed its check, the default is empty or a
    configured server; and no command touches an existing file other than
    the configuration. *)
Theorem client_config_reachable (P : ClientProcess) path w0 w :
  clientConfigPath = Ok path → fs w0 !! path = None → rtc (client_step Getenv path) w0 w →
  file_ok path w ∧ ∀ args, others_kept (fs w) path (fs (server args w).2).
Proof.
  intros Hpath Hnone Hr.
  assert (file_ok path w) as Hw; [|split; [done|intros args; by apply client_step_inv]].
  assert (file_ok path w0) as Hw0 by (intros s c Hs; congruence). clear Hnone. revert Hw0.
  induction Hr as [|w1 w2 w3 [Q args HQ|w' E] _ IH]; intros Hw1; [done|apply IH..].
  - assert (@clientConfigPath _ Q = Ok path) as HpathQ.
    { rewrite <-Hpath. unfold clientConfigPath. by rewrite HQ. }
    by apply client_step_inv.
  - intros s c. rewrite E. apply Hw1.
Qed.
End history.

(** ** An encoding for the examples *)

#[global] Instance wg_config_eq_dec : EqDecision WGConfig.
Proof. solve_decision. Defined.
#[global] Instance server_eq_dec : EqDecision clientServerConfig.
Proof. solve_decision. Defined.
#[global] Instance pending_eq_dec : EqDecision clientPendingRequest.
Proof. solve_decision. Defined.
#[global] Instance client_config_eq_dec : EqDecision clientConfig.
Proof. solve_decision. Defined.

#[global] Instance wg_config_countable : Countable WGConfig.
Proof.
  apply (inj_countable'
    (λ c, (wgc_PrivateKey c, wgc_Address c, wgc_ServerPublicKey c, wgc_Endpoint c, wgc_AllowedIPs c))
    (λ '(a, b, c, d, e), MkWGConfig a b c d e)). by intros [].
Defined.
#[global] Instance server_countable : Countable clientServerConfig.
Proof.
  apply (inj_countable' (λ s, (cs_Name s, cs_APIURL s, cs_WireGuard s)) (λ '(a, b, c), MkServer a b c)). by intros [].
Defined.
#[global] Instance pending_countable : Countable clientPendingRequest.
Proof. apply (inj_countable' (λ p, (pp_Name p, pp_PrivateKey p)) (λ '(a, b), MkPending a b)). by intros []. Defined.
#[global] Instance client_config_countable : Countable clientConfig.
Proof.
  apply (inj_countable' (λ c, (DefaultServer c, Servers c, PendingPeers c)) (λ '(a, b, c), MkClientConfig a b c)).
  by intros [].
Defined.

(** The bits of a number as text. *)
Fixpoint bits_text (p : positive) : string :=
  match p with xH => "" | xO p' => String "0" (bits_text p') | xI p' => String "1" (bits_text p') end.

Fixpoint text_bits (s : string) : positive :=
  match s with
  | "" => 1%positive
  | String c s' => if bool_decide (c = "0"%char) then xO (text_bits s') else xI (text_bits s')
  end.

Lemma text_bits_text p : text_bits (bits_text p) = p.
Proof. induction p as [p IH|p IH|]; simpl; [| |done]; by rewrite IH. Qed.

Definition bits_toml (import : serverImportConfig) : ClientToml := {|
  client_Marshal c := Ok (bits_text (encode c));
  client_Unmarshal s := match decode (text_bits s) with Some c => Ok c | None => Err (ErrOther "toml") end;
  import_Unmarshal _ := Ok import;
|}.

#[global] Instance bits_toml_laws import : @ClientTomlLaws (bits_toml import).
Proof. intros c s c' [= <-]. simpl. rewrite text_bits_text, decode_encode. by intros [= <-]. Qed.

(** ** Witnesses *)

Section examples.
#[local] Existing Instances toy_vmm calm ascii_only no_url plain_keys.

#[local] Instance no_names : ClientNet := {| lookup_netip _ _ := Err (ErrOther "no such host"); wg_bytes _ := [1; 2] |}.
#[local] Instance no_spaces : GoSpaces := λ _, false.
#[local] Instance no_spaces_law : GoSpacesLaw.
Proof. by intros s. Qed.

Definition admin_file : serverImportConfig :=
  MkImport "http://[fd7a::1]" "pub-fresh" "fd7a::2/128" "key-server" "vpn.example.com:51820" ["fd7a::1/128"].

#[local] Instance example_toml : ClientToml := bits_toml admin_file.
#[local] Instance home_user : ClientProcess :=
  {| Getenv v := if bool_decide (v = "HOME") then "/home/u" else ""; stdin := "" |}.

Definition user_config : string := "/home/u/.config/firedoze/config.toml".

Definition after (commands : list (list string)) : World :=
  fold_left (λ w args, (server args w).2) commands empty_world.

Definition saved (w : World) : option clientConfig :=
  match fs w !! user_config with
  | Some (File s) => match client_Unmarshal s with Ok c => Some c | Err _ => None end
  | _ => None
  end.

(** A request and the import of the administrator's answer. *)
Definition history : list (list string) := [["request"; "work"]; ["import"; "-"; "-name=office"]].

Example history_saved :
  saved (after history) = Some (MkClientConfig "office"
    [MkServer "office" "http://[fd7a::1]:8081"
       (Some (MkWGConfig "fresh" "fd7a::2/128" "key-server" "vpn.example.com:51820" ["fd7a::1/128"]))] []).
Proof. vm_compute. reflexivity. Qed.

Lemma client_config_reachable_witness :
  clientConfigPath = Ok user_config ∧ is_Some (saved (after history)) ∧
  file_ok user_config (after history) ∧
  ∀ args, others_kept (fs (after history)) user_config (fs (server args (after history)).2).
Proof.
  assert (clientConfigPath = Ok user_config) as Hp by (vm_compute; reflexivity).
  split; [exact Hp|]. split; [vm_compute; by eexists|].
  apply (client_config_reachable home_user user_config empty_world); [exact Hp|vm_compute; reflexivity|].
  unfold after, history. cbn [fold_left].
  eapply rtc_l; [by apply step_server|]. eapply rtc_l; [by apply step_server|]. apply rtc_refl.
Defined.

Definition waiting : clientConfig := MkClientConfig "" [] [MkPending "work" "fresh"; MkPending "other" "k"].

Lemma waiting_ok : config_ok waiting.
Proof.
  change waiting with (put_pending (put_pending empty_config (MkPending "work" "fresh")) (MkPending "other" "k")).
  apply put_pending_ok; [apply put_pending_ok; [apply empty_config_ok|]|]; vm_compute; reflexivity.
Qed.

Definition office : clientServerConfig :=
  MkServer "office" "http://[fd7a::1]:8081"
    (Some (MkWGConfig "fresh" "fd7a::2/128" "key-server" "vpn.example.com:51820" ["fd7a::1/128"])).
Definition with_office : clientConfig := MkClientConfig "office" [office] [MkPending "other" "k"].

Lemma import_office : import_server waiting admin_file "-" "office" false = Ok (with_office, office).
Proof. vm_compute. reflexivity. Qed.

Lemma import_server_correct_witness :
  config_ok with_office ∧ findServer with_office "office" = Some office ∧
  PendingPeers with_office = filter (λ p, ¬ asks "pub-fresh" p) (PendingPeers waiting).
Proof.
  destruct (import_server_correct waiting admin_file "-" "office" false with_office office waiting_ok import_office)
    as (Hok & _ & Hf & Hp & _).
  split; [exact Hok|]. split; [exact (Hf "office")|exact Hp].
Defined.

Lemma current_is_used_witness :
  is_ok (current_in with_office) = true ∧ (resolve_in with_office "" = Ok office ↔ current_in with_office = Ok office).
Proof.
  assert (config_ok with_office) as Hok by (eapply import_server_ok; [apply waiting_ok|apply import_office]).
  destruct (current_is_used with_office Hok) as [Hs Ho]. split; [apply Ho; left; done|apply Hs].
Defined.
End examples.
