(* ===== verification/Systemd.v ===== *)
(** * Messages to systemd (internal/systemd/notify.go)

    The state of the service as lines sent to a datagram socket, and the
    heartbeat of the watchdog.  The environment variables and the socket are
    arguments; an address whose first byte is NUL is an abstract one. *)

From S2P Require Import Prelude GoStrings Paths IPNet Config Memory ClientConfig.
Open Scope Z_scope.

(** [net.DialUnix] to an address, and [Write]. *)
Class NotifySocket (S : Type) := { unixgram_Dial : string → M S unit; unixgram_Write : string → M S unit }.

Definition nul : string := String (ascii_of_nat 0) "".

Section notify.
Context `{ClientProcess} {S : Type} `{!NotifySocket S}.

Definition notify_address (socket : string) : string :=
  if HasPrefix socket "@" then nul +:+ TrimPrefix socket "@" else socket.

Definition Notify (state : string) : M S bool :=
  let socket := Getenv "NOTIFY_SOCKET" in
  if is_empty socket then mret false else
  dialled ← attempt (unixgram_Dial (notify_address socket));
  match dialled with
  | Err _ => mret false
  | Ok _ => written ← attempt (unixgram_Write state); mret (is_ok written)
  end.

Definition Ready : M S bool := Notify "READY=1".
Definition Stopping : M S bool := Notify "STOPPING=1".

(** The interval of [StartWatchdog], in nanoseconds, if it starts at all:
    [time.Duration] is a 64-bit integer. *)
Definition watchdog_interval : option Z :=
  let raw := Getenv "WATCHDOG_USEC" in
  if is_empty raw then None else
  match ParseInt raw with
  | None => None
  | Some usec =>
      if bool_decide (usec ≤ 0) then None else
      let interval := Z.quot (wrap64 (usec * 1000)) 2 in
      if bool_decide (interval ≤ 0) then None else Some interval
  end.

(** One tick. *)
Definition watchdog_tick : M S bool := Notify "WATCHDOG=1".

(** A message is reported as sent only if it was written to the socket. *)
Lemma Notify_sent state s s' :
  Notify state s = (Ok true, s') →
  Getenv "NOTIFY_SOCKET" ≠ "" ∧ ∃ s1, unixgram_Dial (notify_address (Getenv "NOTIFY_SOCKET")) s = (Ok tt, s1) ∧
    unixgram_Write state s1 = (Ok tt, s').
Proof.
  unfold Notify. destruct (Getenv "NOTIFY_SOCKET") as [|c t] eqn:Eg; [by intros [=]|]. unfold is_empty. rewrite bool_decide_eq_false_2 by done.
  unfold mbind at 1, M_mbind at 1, attempt at 1. destruct (unixgram_Dial _ s) as [[[]|] s1] eqn:Ed; [|by intros [=]].
  unfold mbind, M_mbind, attempt. destruct (unixgram_Write state s1) as [[[]|] s2] eqn:Ew; [|by intros [=]].
  intros [= <-]. split; [done|]. by exists s1.
Qed.

(** The heartbeat comes at least twice in each period that systemd allows, for
    every period a [Duration] can hold. *)
Lemma watchdog_in_time usec interval :
  ParseInt (Getenv "WATCHDOG_USEC") = Some usec → usec * 1000 < 2 ^ 63 →
  watchdog_interval = Some interval → 0 < interval ∧ 2 * interval ≤ usec * 1000.
Proof.
  unfold watchdog_interval. intros Hp Hb. destruct (is_empty _); [done|]. rewrite Hp.
  case_bool_decide; [done|]. rewrite wrap64_id by lia. case_bool_decide; [done|]. intros [= <-].
  rewrite Z.quot_div_nonneg in * by lia. pose proof (Z.div_mod (usec * 1000) 2). pose proof (Z.mod_pos_bound (usec * 1000) 2). lia.
Qed.
End notify.

Example thirty_seconds :
  @watchdog_interval {| Getenv := λ k, if String.eqb k "WATCHDOG_USEC" then "30000000" else ""; stdin := "" |} = Some 15000000000.
Proof. reflexivity. Qed.
