(* ===== verification/ClientShell.v ===== *)
(** * The commands the client runs (cmd/firedoze/main.go)

    ssh and rsync command lines, the quoting of the ProxyCommand, the endpoints
    of a copy, the targets of sign-in URLs, the heartbeat that keeps a VM in use
    awake, and the texts of the tables.  The path of the running executable is
    an argument. *)

From S2P Require Import Prelude GoStrings Paths IPNet Crypto Json Types Store Config PrivateNet Memory.
From S2P Require Import World Host Manager Monitors SnapshotBundle Usage Wireguard Api ApiSafety ClientArgs ClientWG ClientConfig.
Open Scope Z_scope.

(** ** Quoting *)

Definition shell_safe (c : ascii) : bool :=
  str_mem c "/._-:=@" || is_digit c || is_upper c || is_lower c.

Definition shellQuote (arg : string) : string :=
  if is_empty arg then "''" else
  if str_forall shell_safe arg then arg
  else "'" +:+ ReplaceAll arg "'" "'\''" +:+ "'".

Definition shellJoin (args : list string) : string := Join (shellQuote <$> args) " ".

(** The words of a command line by the quoting rules of POSIX (XCU 2.2): blanks
    separate words, single quotes keep everything up to the next one, a
    backslash keeps the next character.  Text with any other character that may
    be special to the shell has no words here. *)
Inductive sh_mode := Bare | Quoted.

Definition sh_blank (c : ascii) : bool := bool_decide (ascii_code c = 32 ∨ ascii_code c = 9 ∨ ascii_code c = 10).

Definition end_word (cur : option string) (ws : list string) : list string :=
  match cur with Some w => w :: ws | None => ws end.

Definition extend (cur : option string) (c : ascii) : option string := Some (default "" cur +:+ String c "").

Fixpoint sh_split (mode : sh_mode) (cur : option string) (s : string) : option (list string) :=
  match mode, s with
  | Bare, "" => Some (end_word cur [])
  | Quoted, "" => None
  | Quoted, String c s' =>
      if bool_decide (c = "'"%char) then sh_split Bare cur s' else sh_split Quoted (extend cur c) s'
  | Bare, String c s' =>
      if sh_blank c then ws ← sh_split Bare None s'; Some (end_word cur ws)
      else if bool_decide (c = "'"%char) then sh_split Quoted (Some (default "" cur)) s'
      else if bool_decide (c = "\"%char) then
        match s' with
        | String d s'' => if sh_blank d then None else sh_split Bare (extend cur d) s''
        | "" => None
        end
      else if shell_safe c then sh_split Bare (extend cur c) s'
      else None
  end.
Definition sh_words (s : string) : option (list string) := sh_split Bare None s.

(** ** ssh *)

Definition sshTransportCommand (proxyCommand : string) : list string :=
  ["ssh"; "-o"; "StrictHostKeyChecking=no"; "-o"; "UserKnownHostsFile=/dev/null"; "-o"; "LogLevel=ERROR";
   "-o"; "PubkeyAuthentication=no"; "-o"; "PreferredAuthentications=none,password";
   "-o"; "NumberOfPasswordPrompts=1"] ++
  (if is_empty proxyCommand then [] else ["-o"; "ProxyCommand=" +:+ proxyCommand]).

(** [userHost[:at+1]] where [at] is the last "@". *)
Definition upto_at (s : string) : option string :=
  match CutLast s "@" with Some (a, _) => Some (a +:+ "@") | None => None end.

Section ssh.
Context `{GoUnicode}.

Definition sshCommandWithProxy (vm : vmInfo) (proxyCommand : string) : list string :=
  let ip := vm_PrivateIP (vi_VM vm) in
  let name := vm_Name (vi_VM vm) in
  match Fields (vi_SSH vm) with
  | f0 :: userHost :: rest =>
      if negb (is_empty proxyCommand) then
        sshTransportCommand proxyCommand ++ [default "" (upto_at userHost) +:+ name] ++ rest
      else
        match upto_at userHost with
        | Some user => if is_empty ip then sshTransportCommand "" ++ userHost :: rest
                       else sshTransportCommand "" ++ (user +:+ ip) :: rest
        | None => sshTransportCommand "" ++ userHost :: rest
        end
  | [_] => sshTransportCommand ""
  | [] => []
  end.

Definition remoteExecCommandWithProxy (vm : vmInfo) (commandArgs : list string) (proxyCommand : string) : list string :=
  sshCommandWithProxy vm proxyCommand ++ ["--"] ++ commandArgs.

Definition sshUser (vm : vmInfo) : result string :=
  match Fields (vi_SSH vm) with
  | _ :: f1 :: _ =>
      match CutLast f1 "@" with
      | Some (user, _) => Ok user
      | None => Err (ErrOther "VM SSH command has no user")
      end
  | _ => Err (ErrOther "VM has no SSH command")
  end.

(** [usesEmbedded]: a client that has a tunnel of its own or a broker's. *)
Definition sshProxyCommand (usesEmbedded : bool) (firedozeCommandPath serverName vmName : string) : string :=
  if negb usesEmbedded then "" else
  shellJoin ([firedozeCommandPath] ++
    (if is_empty serverName then [] else ["-server"; serverName]) ++ ["ssh-proxy"; vmName]).

(** The flags before the command. *)
Definition run_flags : FlagSet := [("api", FlagString); ("server", FlagString); ("json", FlagBool)].

(** ** Copies *)

Record copyEndpoint := MkEndpoint { ce_raw : string; ce_vmName : string; ce_path : string }.

Definition remote (e : copyEndpoint) : bool := negb (is_empty (ce_vmName e)).
Definition vmNameOr (e : copyEndpoint) (other : string) : string := if remote e then ce_vmName e else other.

Definition parseCopyEndpoint (raw : string) : copyEndpoint :=
  if HasPrefix raw "/" || HasPrefix raw "./" || HasPrefix raw "../" then MkEndpoint raw "" raw else
  match Cut raw ":" with
  | None => MkEndpoint raw "" raw
  | Some (vmName, path) =>
      if is_empty vmName || is_empty path || GoStrings.Contains vmName "/" then MkEndpoint raw "" raw
      else MkEndpoint raw vmName path
  end.

Definition parseCopyEndpoints (src dst : string) : result (copyEndpoint * copyEndpoint) :=
  let srcEndpoint := parseCopyEndpoint src in
  let dstEndpoint := parseCopyEndpoint dst in
  if Bool.eqb (remote srcEndpoint) (remote dstEndpoint)
  then Err (ErrOther "usage: firedoze cp requires exactly one endpoint in the form <vm>:<path>") else
  if remote srcEndpoint && remote dstEndpoint && negb (bool_decide (ce_vmName srcEndpoint = ce_vmName dstEndpoint))
  then Err (ErrOther "copying directly between VMs is not supported")
  else Ok (srcEndpoint, dstEndpoint).

Definition rsyncRemote (user host path : string) : string :=
  let host := if GoStrings.Contains host ":" && negb (HasPrefix host "[") then "[" +:+ host +:+ "]" else host in
  user +:+ "@" +:+ host +:+ ":" +:+ path.

Definition rsyncCopyCommandWithProxy (vm : vmInfo) (src dst : copyEndpoint) (proxyCommand : string)
    : result (list string) :=
  if is_empty (vm_PrivateIP (vi_VM vm)) then Err (ErrOther "VM has no private IP") else
  remoteUser ← sshUser vm;
  let remoteHost := if is_empty proxyCommand then vm_PrivateIP (vi_VM vm) else vm_Name (vi_VM vm) in
  let args := ["rsync"; "-a"; "-e"; shellJoin (sshTransportCommand proxyCommand)] in
  Ok (args ++ if remote src then [rsyncRemote remoteUser remoteHost (ce_path src); ce_path dst]
              else [ce_path src; rsyncRemote remoteUser remoteHost (ce_path dst)]).
End ssh.

(** ** Arguments of the commands *)

Fixpoint splitUpArgs (args : list string) : list string * list string :=
  match args with
  | [] => ([], [])
  | arg :: rest => if bool_decide (arg = "--") then ([], rest)
                   else let '(a, b) := splitUpArgs rest in (arg :: a, b)
  end.

Fixpoint signed_url_args (hostname : string) (ttl : Z) (args : list string) : result (string * Z) :=
  match args with
  | [] => if is_empty hostname then Err (ErrOther "missing hostname") else Ok (hostname, ttl)
  | arg :: rest =>
      if bool_decide (arg = "-ttl" ∨ arg = "--ttl") then
        match rest with
        | [] => Err (ErrOther "missing ttl")
        | v :: rest' =>
            match ParseInt v with
            | None => Err (ErrOther "invalid syntax")
            | Some value => signed_url_args hostname value rest'
            end
        end
      else if HasPrefix arg "-" || negb (is_empty hostname) then Err (ErrOther "invalid args")
      else signed_url_args arg ttl rest
  end.
Definition parseRouteSignedURLArgs (args : list string) : result (string * Z) :=
  signed_url_args "" (24 * 60 * 60) args.

Definition normalizeSignedURLNext (next : string) : result string :=
  if bool_decide (next = "" ∨ next = "/") then Ok "" else
  if negb (HasPrefix next "/") || HasPrefix next "//"
  then Err (ErrOther "signed URL path must be a relative absolute path") else Ok next.

(** [url.Parse] of a target with a scheme: its host, the host's name and port,
    the path escaped and plain, the query, the fragment plain and escaped. *)
Record url_target := MkTarget {
  ut_Host : string; ut_Hostname : string; ut_Port : string;
  ut_EscapedPath : string; ut_Path : string; ut_RawQuery : string;
  ut_Fragment : string; ut_EscapedFragment : string }.
Class GoTargets := parse_target : string → result url_target.

(** The position of the first "/", "?" or "#". *)
Fixpoint cut_target (s : string) : string * string :=
  match s with
  | "" => ("", "")
  | String c s' => if str_mem c "/?#" then ("", s) else let '(a, b) := cut_target s' in (String c a, b)
  end.

Definition parseRouteSignedURLTarget `{GoUnicode, GoTargets} (raw : string) : result (string * string) :=
  let raw := TrimSpace raw in
  if is_empty raw then Err (ErrOther "missing hostname") else
  if GoStrings.Contains raw "://" then
    parsed ← parse_target raw;
    if is_empty (ut_Host parsed) then Err (ErrOther "missing hostname") else
    if negb (is_empty (ut_Port parsed)) then Err (ErrOther "hostname must not include a port") else
    let next := or_string (or_string (ut_EscapedPath parsed) (ut_Path parsed)) "/" in
    let next := if is_empty (ut_RawQuery parsed) then next else next +:+ "?" +:+ ut_RawQuery parsed in
    let next := if is_empty (ut_Fragment parsed) then next else next +:+ "#" +:+ ut_EscapedFragment parsed in
    next ← normalizeSignedURLNext next;
    Ok (ut_Hostname parsed, next)
  else
    let '(hostname, next) := cut_target raw in
    if is_empty next then Ok (raw, "") else
    if is_empty hostname then Err (ErrOther "missing hostname") else
    let next := if HasPrefix next "?" || HasPrefix next "#" then "/" +:+ next else next in
    next ← normalizeSignedURLNext next;
    Ok (hostname, next).

(** ** The heartbeat

    Durations are in nanoseconds, 64 bits wide. *)
Definition minute_ns : Z := 60 * second_ns.

Definition activityHeartbeatInterval (vm : vmInfo) : Z :=
  let seconds := vm_IdleSleepAfterSeconds (vi_VM vm) in
  if bool_decide (seconds ≤ 0) then 0 else
  let interval := Z.quot (wrap64 (seconds * second_ns)) 4 in
  if bool_decide (interval < second_ns) then second_ns else interval.

Definition activityTrafficTouchInterval (vm : vmInfo) : Z :=
  let interval := activityHeartbeatInterval vm in
  if bool_decide (interval ≤ 0) then 0 else
  if bool_decide (minute_ns < interval) then minute_ns else interval.

(** A session: the time of the last touch; traffic and the ticker come with the
    time they happen.  The answer says whether the server is told. *)
Inductive activity := Traffic (now : Z) | Tick (now : Z).

Definition activity_step (vm : vmInfo) (lastTouch : Z) (a : activity) : Z * bool :=
  match a with
  | Traffic now => if bool_decide (now - lastTouch < activityTrafficTouchInterval vm) then (lastTouch, false)
                   else (now, true)
  | Tick now => (now, true)
  end.

(** ** Texts of the tables *)

Definition formatMiB (value : Z) : string := FormatInt value +:+ "MiB".

Definition formatDuration (duration : Z) : string :=
  let duration := Z.quot duration second_ns * second_ns in
  let days := Z.quot duration (24 * 3600 * second_ns) in
  let duration := duration - days * (24 * 3600 * second_ns) in
  let hours := Z.quot duration (3600 * second_ns) in
  let duration := duration - hours * (3600 * second_ns) in
  let minutes := Z.quot duration (60 * second_ns) in
  let duration := duration - minutes * (60 * second_ns) in
  let seconds := Z.quot duration second_ns in
  if bool_decide (0 < days) then FormatInt days +:+ "d" +:+ FormatInt hours +:+ "h"
  else if bool_decide (0 < hours) then FormatInt hours +:+ "h" +:+ FormatInt minutes +:+ "m"
  else if bool_decide (0 < minutes) then FormatInt minutes +:+ "m" +:+ FormatInt seconds +:+ "s"
  else FormatInt seconds +:+ "s".

Definition displayURL (vm : vmInfo) : string :=
  if negb (vm_PublicHTTP (vi_VM vm)) then "-"
  else default "" (snd <$> (snd <$> list_find (λ u, u.1 = "default") (vi_URLs vm))).

Definition pastTense (verb : string) : string :=
  if bool_decide (verb = "start") then "started"
  else if bool_decide (verb = "sleep") then "slept"
  else if bool_decide (verb = "stop") then "stopped"
  else verb.

(** ** Quoting is undone by the shell *)

Lemma extend_app cur c s : Some (default "" (extend cur c) +:+ s) = Some (default "" cur +:+ String c s).
Proof. unfold extend. cbn. by rewrite str_app_assoc, str_app_cons, str_app_nil_l. Qed.

Lemma shell_safe_bare c :
  shell_safe c = true → sh_blank c = false ∧ c ≠ "'"%char ∧ c ≠ "\"%char.
Proof.
  intros Hs. assert (Hb : sh_blank c = false); [|split; [done|]; split; intros ->; discriminate].
  apply bool_decide_eq_false. intros Hc. revert Hs.
  destruct Hc as [Hc|[Hc|Hc]]; apply (f_equal byte_chr) in Hc; rewrite byte_chr_code in Hc; by rewrite Hc.
Qed.

Lemma sh_split_safe a : ∀ cur rest, str_forall shell_safe a = true → a ≠ "" →
  sh_split Bare cur (a +:+ rest) = sh_split Bare (Some (default "" cur +:+ a)) rest.
Proof.
  induction a as [|c a IH]; intros cur rest Hs Ha; [done|].
  cbn [str_forall] in Hs. apply andb_true_iff in Hs as [Hc Hs].
  destruct (shell_safe_bare c Hc) as (Hb & Hq & He).
  rewrite str_app_cons. cbn [sh_split]. rewrite Hb, Hc, !bool_decide_eq_false_2 by done.
  destruct a as [|d a]; [done|]. rewrite IH, extend_app by done. done.
Qed.

Lemma sh_split_quoted a : ∀ p rest,
  sh_split Quoted (Some p) (ReplaceAll a "'" "'\''" +:+ "'" +:+ rest) = sh_split Bare (Some (p +:+ a)) rest.
Proof.
  induction a as [|c a IH]; intros p rest.
  - cbn. by rewrite str_app_nil_r.
  - cbn [ReplaceAll]. case_bool_decide as Hc; [subst|].
    + rewrite str_app_assoc.
      change (sh_split Quoted (Some (p +:+ "'")) (ReplaceAll a "'" "'\''" +:+ "'" +:+ rest)
              = sh_split Bare (Some (p +:+ String "'" a)) rest).
      rewrite IH. by rewrite str_app_assoc.
    + rewrite str_app_cons. cbn [sh_split]. rewrite bool_decide_eq_false_2 by done.
      change (sh_split Quoted (Some (p +:+ String c "")) (ReplaceAll a "'" "'\''" +:+ "'" +:+ rest)
              = sh_split Bare (Some (p +:+ String c a)) rest).
      rewrite IH. by rewrite str_app_assoc.
Qed.

Lemma sh_split_quote a rest : sh_split Bare None (shellQuote a +:+ rest) = sh_split Bare (Some a) rest.
Proof.
  unfold shellQuote. destruct (is_empty a) eqn:He; [by destruct a|].
  destruct (str_forall shell_safe a) eqn:Hs.
  - rewrite sh_split_safe by (done || by intros ->). done.
  - rewrite !str_app_assoc, str_app_cons, str_app_nil_l.
    cbn [sh_split]. rewrite bool_decide_eq_true_2 by done. cbn [sh_blank default].
    change (sh_split Quoted (Some "") (ReplaceAll a "'" "'\''" +:+ "'" +:+ rest) = sh_split Bare (Some a) rest).
    by rewrite sh_split_quoted.
Qed.

(** The shell's words of a quoted command line are the arguments. *)
Lemma sh_words_join args : sh_words (shellJoin args) = Some args.
Proof.
  unfold sh_words, shellJoin. induction args as [|a args IH]; [done|].
  destruct args as [|b args].
  - cbn. rewrite <-(str_app_nil_r (shellQuote a)). by rewrite sh_split_quote.
  - rewrite !fmap_cons. cbn [Join]. rewrite sh_split_quote.
    change (" " +:+ ?x) with (String " " x).
    change ((ws ← sh_split Bare None (Join (shellQuote <$> b :: args) " "); Some (end_word (Some a) ws)) = Some (a :: b :: args)).
    by rewrite IH.
Qed.

(** ** Where a session connects *)

Lemma fields_go_word w : ∀ cur, no_space w = true →
  fields_go cur w = fields_go (cur +:+ w) "".
Proof.
  induction w as [|c w IH]; intros cur Hw; [by rewrite str_app_nil_r|].
  cbn [no_space str_forall] in Hw. apply andb_true_iff in Hw as [Hc Hw].
  cbn [fields_go]. apply negb_true_iff in Hc. rewrite Hc, IH by done. by rewrite str_app_assoc.
Qed.

Lemma fields_go_sep w rest : ∀ cur, no_space w = true → cur +:+ w ≠ "" →
  fields_go cur (w +:+ " " +:+ rest) = (cur +:+ w) :: fields_go "" rest.
Proof.
  induction w as [|c w IH]; intros cur Hw Hne.
  - rewrite str_app_nil_r in Hne |- *. rewrite str_app_nil_l. by destruct cur.
  - cbn [no_space str_forall] in Hw. apply andb_true_iff in Hw as [Hc Hw]. apply negb_true_iff in Hc.
    rewrite str_app_cons. cbn [fields_go]. rewrite Hc, IH; [by rewrite str_app_assoc|done|].
    rewrite str_app_assoc. by destruct cur.
Qed.

(** A name the API prints in an ssh command: ASCII, without blanks. *)
Definition word (s : string) : Prop := is_ascii s = true ∧ no_space s = true ∧ s ≠ "".

Lemma Fields_pair `{GoUnicode} a b : word a → word b → Fields (a +:+ " " +:+ b) = [a; b].
Proof.
  intros (Aa & Sa & Na) (Ab & Sb & Nb). unfold Fields, is_ascii in *.
  rewrite !str_forall_app, Aa, Ab. cbn [is_ascii_char str_forall]. simpl.
  rewrite fields_go_sep, fields_go_word by done. rewrite !str_app_nil_l.
  by destruct b.
Qed.

Lemma word_app a c b : word a → word b → is_ascii_char c = true → is_space c = false →
  word (a +:+ String c b).
Proof.
  intros (Aa & Sa & Na) (Ab & Sb & Nb) Hc Hs. unfold word, is_ascii, no_space in *.
  rewrite !str_forall_app. cbn [str_forall]. rewrite Aa, Ab, Sa, Sb, Hc, Hs. split_and!; try done. by destruct a.
Qed.

Section targets.
Context `{GoUnicode}.
Context (cfg : Config) (vm : VM).
Abbreviation user := (ssh_User (SSH cfg)).
Abbreviation host := (defaultHostname cfg (vm_Name vm)).
Context (Hu : word user) (Hh : word host) (Hat : str_mem "@" host = false).

Lemma info_fields : Fields (vi_SSH (vm_info cfg vm)) = ["ssh"; user +:+ String "@" host].
Proof using Hu Hh.
  change (vi_SSH (vm_info cfg vm)) with ("ssh " +:+ user +:+ "@" +:+ host).
  rewrite <-(Fields_pair "ssh"); [done|done|by apply word_app].
Qed.

Lemma info_same : vm_PrivateIP (vi_VM (vm_info cfg vm)) = vm_PrivateIP vm ∧ vm_Name (vi_VM (vm_info cfg vm)) = vm_Name vm.
Proof. unfold vm_info. cbn. by case_bool_decide. Qed.

Lemma info_upto : upto_at (user +:+ String "@" host) = Some (user +:+ "@").
Proof using Hat. unfold upto_at. by rewrite CutLast_app. Qed.

Lemma info_user : sshUser (vm_info cfg vm) = Ok user.
Proof using Hu Hh Hat. unfold sshUser. by rewrite info_fields, CutLast_app. Qed.

Lemma info_command proxyCommand :
  sshCommandWithProxy (vm_info cfg vm) proxyCommand =
  sshTransportCommand proxyCommand ++
    [if is_empty proxyCommand then
       if is_empty (vm_PrivateIP vm) then user +:+ "@" +:+ host else user +:+ "@" +:+ vm_PrivateIP vm
     else user +:+ "@" +:+ vm_Name vm].
Proof using Hu Hh Hat.
  unfold sshCommandWithProxy. rewrite info_fields, info_upto. destruct info_same as [-> ->]. cbn [default].
  destruct (is_empty proxyCommand) eqn:Ep; cbn [negb].
  - assert (proxyCommand = "") as -> by by destruct proxyCommand.
    destruct (is_empty (vm_PrivateIP vm)); by rewrite ?str_app_assoc.
  - simpl. by rewrite str_app_assoc.
Qed.
End targets.

(** ** Copies *)

(** A VM's name and a path name a file of the VM. *)
Lemma parse_remote name path : validDNSLabel name = true → path ≠ "" →
  parseCopyEndpoint (name +:+ ":" +:+ path) = MkEndpoint (name +:+ ":" +:+ path) name path.
Proof.
  intros Hv Hp. destruct (validDNSLabel_chars name Hv) as [Hn Hc]. unfold parseCopyEndpoint.
  pose proof (str_mem_forall _ ":"%char name eq_refl Hc) as Hcolon.
  pose proof (str_mem_forall _ "/"%char name eq_refl Hc) as Hslash.
  pose proof (str_mem_forall _ "."%char name eq_refl Hc) as Hdot.
  change (":" +:+ path) with (String ":" path).
  rewrite (Cut_app_char name path ":"), Contains_char, Hslash by done.
  destruct name as [|c rest]; [done|]. cbn [str_mem] in Hslash, Hdot.
  apply orb_false_iff in Hslash as [H1%bool_decide_eq_false _]. apply orb_false_iff in Hdot as [H2%bool_decide_eq_false _].
  rewrite str_app_cons. cbn [HasPrefix].
  rewrite !(bool_decide_eq_false_2 (_ = c)) by congruence. by destruct path.
Qed.

(** A local path is never taken for a VM's. *)
Lemma parse_local raw : HasPrefix raw "/" || HasPrefix raw "./" || HasPrefix raw "../" = true →
  remote (parseCopyEndpoint raw) = false.
Proof. intros Hl. unfold parseCopyEndpoint. by rewrite Hl. Qed.

Lemma parseCopyEndpoints_one src dst s d :
  parseCopyEndpoints src dst = Ok (s, d) ↔
  s = parseCopyEndpoint src ∧ d = parseCopyEndpoint dst ∧ remote s ≠ remote d.
Proof.
  unfold parseCopyEndpoints.
  destruct (remote (parseCopyEndpoint src)) eqn:E1, (remote (parseCopyEndpoint dst)) eqn:E2; simpl; naive_solver congruence.
Qed.

(** ** The commands of a session *)

Lemma proxy_not_empty path server name : is_empty (sshProxyCommand true path server name) = false.
Proof.
  unfold sshProxyCommand, shellJoin. cbn [negb].
  destruct (is_empty server); cbn [app fmap list_fmap Join];
    (destruct (_ +:+ _) eqn:E; [apply str_app_eq_nil in E as [_ E]; discriminate E|done]).
Qed.

Lemma proxy_words path server name :
  sh_words (sshProxyCommand true path server name) =
  Some ([path] ++ (if is_empty server then [] else ["-server"; server]) ++ ["ssh-proxy"; name]).
Proof. apply sh_words_join. Qed.

Lemma proxy_flags server name :
  flag_Parse run_flags [] ((if is_empty server then [] else ["-server"; server]) ++ ["ssh-proxy"; name]) =
  Ok (if is_empty server then [] else [("server", server)], ["ssh-proxy"; name]).
Proof. by destruct (is_empty server). Qed.

Section sessions.
Context `{GoUnicode}.
Context (cfg : Config) (vm : VM) (embedded : bool) (path server : string).
Abbreviation info := (vm_info cfg vm).
Abbreviation user := (ssh_User (SSH cfg)).
Abbreviation proxy := (sshProxyCommand embedded path server (vm_Name vm)).
(** The host that ssh is told: the VM's name, which the proxy command resolves,
    or its address. *)
Abbreviation host := (if embedded then vm_Name vm else vm_PrivateIP vm).

(** The commands of a session reach the VM that was asked for.  For a VM
    as the API presents it, ssh connects to the configured user at the VM, by
    its private address or, through the client's own tunnel, by name and proxy
    command; a copy is accepted exactly when one of its ends is on a VM, and
    rsync then gets that end, and only that one, at the same user and host; and
    the shell that runs the proxy command splits it, whatever characters the
    names have, into the client's own executable and arguments that select the
    same server and give [ssh-proxy] the VM's name. *)
Theorem session_commands_reach_vm :
  word user → word (defaultHostname cfg (vm_Name vm)) →
  str_mem "@" (defaultHostname cfg (vm_Name vm)) = false → vm_PrivateIP vm ≠ "" →
  sshCommandWithProxy info proxy = sshTransportCommand proxy ++ [user +:+ "@" +:+ host] ∧
  (∀ src dst s d, parseCopyEndpoints src dst = Ok (s, d) →
     s = parseCopyEndpoint src ∧ d = parseCopyEndpoint dst ∧ remote s = negb (remote d) ∧
     rsyncCopyCommandWithProxy info s d proxy =
       Ok (["rsync"; "-a"; "-e"; shellJoin (sshTransportCommand proxy)] ++
           [if remote s then rsyncRemote user host (ce_path s) else ce_path s;
            if remote d then rsyncRemote user host (ce_path d) else ce_path d])) ∧
  (embedded = true → ∃ argv,
     sh_words proxy = Some (path :: argv) ∧
     flag_Parse run_flags [] argv =
       Ok (if is_empty server then [] else [("server", server)], ["ssh-proxy"; vm_Name vm])).
Proof.
  intros Hu Hh Hat Hip. assert (is_empty (vm_PrivateIP vm) = false) as Hie by by destruct (vm_PrivateIP vm).
  assert (is_empty proxy = negb embedded) as Hp by (destruct embedded; [apply proxy_not_empty|done]).
  split_and!.
  - rewrite info_command by done. rewrite Hp, Hie. by destruct embedded.
  - intros src dst s d (-> & -> & Hr)%parseCopyEndpoints_one. split_and!; [done..| |].
    { by destruct (remote _), (remote _). }
    unfold rsyncCopyCommandWithProxy. destruct (info_same cfg vm) as [-> ->]. rewrite Hie, info_user by done.
    cbn [mbind result_mbind]. rewrite Hp.
    destruct (remote (parseCopyEndpoint src)), (remote (parseCopyEndpoint dst)), embedded; done.
  - intros ->. eexists. split; [apply proxy_words|apply proxy_flags].
Qed.
End sessions.

(** ** A VM in use stays awake *)

(** A session as time passes: the time, when the ticker fires next, the last
    touch, and the times the server was told, the latest first.  The ticker
    fires when it is due; traffic comes at any time. *)
Inductive session (info : vmInfo) : Z → Z → Z → list Z → Prop :=
  | session_start t : session info t (t + activityHeartbeatInterval info) t [t]
  | session_wait now now' next last told :
      session info now next last told → now ≤ now' ≤ next → session info now' next last told
  | session_step now next last told a last' tell :
      session info now next last told →
      (a = Traffic now ∨ a = Tick now ∧ now = next) →
      activity_step info last a = (last', tell) →
      session info now (if a is Tick _ then now + activityHeartbeatInterval info else next) last'
        (if tell then now :: told else told).

Section heartbeat.
Context `{Timestamps}.
Context (cfg : Config) (vm : VM).
Abbreviation info := (vm_info cfg vm).
Abbreviation seconds := (or_default (vm_IdleSleepAfterSeconds vm) (idle_DefaultSleepAfterSeconds (Idle cfg))).

Lemma info_idle : vm_IdleSleepAfterSeconds (vi_VM info) = seconds.
Proof. unfold vm_info, or_default. cbn. by case_bool_decide. Qed.

Lemma heartbeat_below : 2 ≤ seconds ≤ 9223372036 →
  second_ns ≤ activityHeartbeatInterval info ≤ threshold cfg vm - second_ns ∧ threshold cfg vm = seconds * second_ns.
Proof.
  intros Hs. unfold threshold, activityHeartbeatInterval. rewrite info_idle.
  assert (wrap64 (seconds * second_ns) = seconds * second_ns) as -> by (apply wrap64_id; unfold second_ns; lia).
  rewrite bool_decide_eq_false_2 by lia. unfold second_ns.
  pose proof (Z.quot_div_nonneg (seconds * 1000000000) 4 ltac:(lia) ltac:(lia)) as ->.
  pose proof (Z.div_mod (seconds * 1000000000) 4 ltac:(lia)).
  pose proof (Z.mod_pos_bound (seconds * 1000000000) 4 ltac:(lia)).
  case_bool_decide; (split; [lia|done]).
Qed.

Lemma touch_interval_pos : 2 ≤ seconds ≤ 9223372036 →
  second_ns ≤ activityTrafficTouchInterval info ≤ activityHeartbeatInterval info ∧
  activityTrafficTouchInterval info ≤ minute_ns.
Proof.
  intros Hs%heartbeat_below. unfold activityTrafficTouchInterval, minute_ns, second_ns in *.
  rewrite bool_decide_eq_false_2 by lia. case_bool_decide; lia.
Qed.

Lemma session_inv now next last told :
  2 ≤ seconds ≤ 9223372036 → session info now next last told →
  ∃ start rest, told = last :: rest ∧ List.last told 0 = start ∧ start ≤ last ≤ now ∧
    now ≤ next ≤ last + activityHeartbeatInterval info ∧ start + activityHeartbeatInterval info ≤ next ∧
    activityTrafficTouchInterval info * Z.of_nat (length rest) ≤
      (last - start) + (next - activityHeartbeatInterval info - start).
Proof.
  intros Hs S. pose proof (heartbeat_below Hs) as [Hi _]. pose proof (touch_interval_pos Hs) as [Ht _].
  unfold second_ns in *.
  induction S as [t|now now' next last told S (start & rest & IH) Hn|now next last told a last' tell S (start & rest & IH) Ha Hst].
  - exists t, []. split_and!; try done; cbn; lia.
  - exists start, rest. destruct IH as (-> & IH). split_and!; try done; lia.
  - destruct IH as (-> & Hl & IH1 & IH2 & IH3 & IH4). destruct Ha as [->|[-> ->]]; cbn [activity_step] in Hst.
    + case_bool_decide as Hlt; injection Hst as <- <-.
      * exists start, rest. split_and!; try done; lia.
      * exists start, (last :: rest). cbn [length]. split_and!; try done; lia.
    + injection Hst as <- <-. exists start, (last :: rest). cbn [length]. split_and!; try done; lia.
Qed.

(** C25.  A session keeps its VM awake without flooding the server, for a sleep
    threshold between two seconds and 9223372036 seconds (with a threshold of one
    second the heartbeat, also a second, is too slow, and above the bound the
    duration overflows) and a ticker that fires when it is due.  At every moment of such
    a session, whatever its traffic: if the server has recorded the last time it
    was told at most a second early, the idle monitor does not find the VM due;
    and the times it was told are no more than two for each touch interval, which
    is between a second and a minute. *)
Theorem session_keeps_awake now next last told :
  2 ≤ seconds ≤ 9223372036 → session info now next last told →
  (∀ vm' t, vm_IdleSleepAfterSeconds vm' = vm_IdleSleepAfterSeconds vm →
     vmLastActivity vm' = Some t → hd 0 told - second_ns < t → ¬ due cfg now vm') ∧
  second_ns ≤ activityTrafficTouchInterval info ≤ minute_ns ∧
  activityTrafficTouchInterval info * (Z.of_nat (length told) - 1) ≤ 2 * (now - List.last told 0).
Proof.
  intros Hs S. pose proof (heartbeat_below Hs) as [Hi Hth]. pose proof (touch_interval_pos Hs) as [Ht Hm].
  destruct (session_inv _ _ _ _ Hs S) as (start & rest & -> & <- & H1 & H2 & H3 & H4). split_and!; [|lia..|].
  - intros vm' t Hsame Ht' Hrec (_ & Hpos & t' & Hl & Hd). simplify_eq. cbn [hd] in Hrec.
    assert (threshold cfg vm' = threshold cfg vm) as Heq by (unfold threshold; by rewrite Hsame).
    rewrite Heq in Hd. unfold time_Sub, second_ns in *. rewrite Hth in *.
    lia.
  - cbn [length]. rewrite Nat2Z.inj_succ. lia.
Qed.
End heartbeat.

(** ** Applied *)

Definition used_vm : VM := with_idle 8 (vm_at "fd7a::2").

Lemma session_commands_reach_vm_witness :
  str_mem "@" (defaultHostname Default (vm_Name used_vm)) = false ∧
  ∃ argv, sh_words (sshProxyCommand true "/opt/my tools/firedoze" "bob's" (vm_Name used_vm)) =
            Some ("/opt/my tools/firedoze" :: argv) ∧
          flag_Parse run_flags [] argv = Ok ([("server", "bob's")], ["ssh-proxy"; vm_Name used_vm]).
Proof.
  assert (word (ssh_User (SSH Default)) ∧ word (defaultHostname Default (vm_Name used_vm)) ∧
          str_mem "@" (defaultHostname Default (vm_Name used_vm)) = false ∧ vm_PrivateIP used_vm ≠ "") as (Hu & Hh & Ha & Hi)
    by (repeat split; vm_compute; congruence).
  split; [done|].
  destruct (@session_commands_reach_vm ascii_only Default used_vm true "/opt/my tools/firedoze" "bob's" Hu Hh Ha Hi)
    as (_ & _ & Hp).
  exact (Hp eq_refl).
Defined.

Lemma session_keeps_awake_witness :
  ¬ @due decimal_stamps Default 2000000000 (with_activity "2000" used_vm) ∧
  activityTrafficTouchInterval (vm_info Default used_vm) * 1 ≤ 2 * 2000000000.
Proof.
  assert (session (vm_info Default used_vm) 2000000000 4000000000 2000000000 [2000000000; 0]) as S.
  { refine (session_step (vm_info Default used_vm) 2000000000 2000000000 0 [0] (Tick 2000000000) 2000000000 true _ _ eq_refl); [|by right].
    apply (session_wait _ 0); [|lia]. exact (session_start (vm_info Default used_vm) 0). }
  assert (2 ≤ or_default (vm_IdleSleepAfterSeconds used_vm) (idle_DefaultSleepAfterSeconds (Idle Default)) ≤ 9223372036) as Hs
    by (vm_compute; split; discriminate).
  destruct (@session_keeps_awake decimal_stamps Default used_vm _ _ _ _ Hs S) as (H1 & _ & H3).
  split; [|exact H3]. apply (H1 _ 2000000000); reflexivity.
Defined.
