(* ===== verification/ClientTables.v ===== *)
(** * The columns of [firedoze vm usage] (cmd/firedoze/main.go)

    [formatBytes] works on float64: the number of bytes, rounded to 53 bits, is
    divided by 1024, which is exact, and printed with no decimal or one, rounded
    to the nearest and at a tie to the even digit.  The seconds of CPU time,
    which are not whole, are arguments. *)

From S2P Require Import Prelude GoStrings Paths IPNet Json Types Store Config PrivateNet Memory.
From S2P Require Import World Host Manager SnapshotBundle Usage Wireguard Api ClientShell.
Open Scope Z_scope.

(** [n/d] to the nearest integer, to the even one at a tie. *)
Definition round_even (n d : Z) : Z :=
  let q := n / d in
  let r := 2 * (n mod d) in
  if bool_decide (r < d) then q else if bool_decide (d < r) then q + 1 else if Z.even q then q else q + 1.

(** [float64(value)] of a [uint64]. *)
Definition to_float64 (value : Z) : Z :=
  let extra := Z.log2 value - 52 in
  if bool_decide (extra ≤ 0) then value else round_even value (2 ^ extra) * 2 ^ extra.

Definition fixed0 (n d : Z) : string := FormatInt (round_even n d).
Definition fixed1 (n d : Z) : string :=
  let t := round_even (10 * n) d in FormatInt (t / 10) +:+ "." +:+ FormatInt (t mod 10).

Fixpoint format_units (n d : Z) (units : list string) : string :=
  match units with
  | [] => fixed1 n (d * 1024) +:+ "EiB"
  | suffix :: units' =>
      let d := d * 1024 in
      if bool_decide (n < 1024 * d) then
        (if bool_decide (10 * d ≤ n) then fixed0 n d else fixed1 n d) +:+ suffix
      else format_units n d units'
  end.

Definition formatBytes (value : Z) : string :=
  if bool_decide (value < 1024) then FormatInt value +:+ "B"
  else format_units (to_float64 value) 1 ["KiB"; "MiB"; "GiB"; "TiB"; "PiB"].

Class GoFloats := {
  micros_duration : Z → Z;            (* nanoseconds of the float of a number of microseconds *)
  ticks_duration : Z → Z;             (* nanoseconds of the float of hundredths of a second *)
  format_load : string → string;      (* "%.2f" *)
}.

Section columns.
Context `{GoFloats}.
Implicit Types vm : VMResourceUsage.

Definition displayProcessRSS vm : string :=
  match ru_Process vm with
  | Some p => if bool_decide (pu_RSSBytes p = 0) then "-" else formatBytes (pu_RSSBytes p)
  | None => "-"
  end.

Definition displayProcessCPU vm : string :=
  match ru_Process vm with
  | Some p => if bool_decide (pu_CPUTicks p = 0) then "-" else formatDuration (ticks_duration (pu_CPUTicks p))
  | None => "-"
  end.

Definition displayMemoryRange vm : string :=
  if bool_decide (ru_MemoryMinMiB vm = ru_MemoryMaxMiB vm) then formatMiB (ru_MemoryMaxMiB vm)
  else formatMiB (ru_MemoryMinMiB vm) +:+ "-" +:+ formatMiB (ru_MemoryMaxMiB vm).

Definition displayMemoryHotplug vm : string :=
  match ru_MemoryHotplug vm with
  | None => "-"
  | Some u => formatMiB (us_PluggedMiB u) +:+ "/" +:+ formatMiB (us_RequestedMiB u)
  end.

Definition displayGuestMemory vm : string :=
  match ru_GuestMemory vm with
  | None => "-"
  | Some g => if bool_decide (gr_TotalMiB g = 0) then "-"
              else if bool_decide (gr_AvailableMiB g = 0) then formatMiB (gr_TotalMiB g)
              else formatMiB (gr_AvailableMiB g) +:+ "/" +:+ formatMiB (gr_TotalMiB g)
  end.

Definition displayGuestSwap vm : string :=
  match ru_GuestMemory vm with
  | None => "-"
  | Some g => if bool_decide (gr_SwapTotalMiB g = 0) then "-"
              else formatMiB (gr_SwapFreeMiB g) +:+ "/" +:+ formatMiB (gr_SwapTotalMiB g)
  end.

Definition displayGuestDisk vm : string :=
  match ru_GuestMemory vm with
  | None => "-"
  | Some g => if bool_decide (gr_RootDiskTotalBytes g = 0) then "-"
              else formatBytes (gr_RootDiskFreeBytes g) +:+ "/" +:+ formatBytes (gr_RootDiskTotalBytes g)
  end.

Definition displayGuestLoad vm : string :=
  match ru_GuestMemory vm with None => "-" | Some g => format_load (gr_Load1 g) end.

Definition displayHostMemory vm : string :=
  let value := match ru_Cgroup vm with Some c => cu_MemoryCurrentBytes c | None => 0 end in
  let value := match ru_Process vm with Some p => Z.max value (pu_RSSBytes p) | None => value end in
  if bool_decide (value = 0) then "-" else formatBytes value.

Definition displayHostCPU vm : string :=
  match ru_Cgroup vm with
  | Some c => if bool_decide (cu_CPUUsage c = 0) then displayProcessCPU vm
              else formatDuration (micros_duration (cu_CPUUsage c))
  | None => displayProcessCPU vm
  end.

Definition displayHostIO vm : string :=
  match ru_Cgroup vm with
  | Some c => if bool_decide (cu_IOReadBytes c = 0) && bool_decide (cu_IOWriteBytes c = 0) then "-"
              else formatBytes (cu_IOReadBytes c) +:+ "/" +:+ formatBytes (cu_IOWriteBytes c)
  | None => "-"
  end.

Definition usage_header : list string :=
  ["NAME"; "STATE"; "VCPU"; "MEMORY"; "GUEST MEM AVAIL/TOTAL"; "GUEST SWAP FREE/TOTAL"; "GUEST DISK FREE/TOTAL";
   "LOAD"; "HOTPLUG"; "HOST MEM"; "HOST CPU"; "HOST IO"].
Definition usage_row vm : list string :=
  [ru_Name vm; ru_State vm; FormatInt (ru_VCPUs vm); displayMemoryRange vm; displayGuestMemory vm; displayGuestSwap vm;
   displayGuestDisk vm; displayGuestLoad vm; displayMemoryHotplug vm; displayHostMemory vm; displayHostCPU vm;
   displayHostIO vm].
End columns.

(** ** What [formatBytes] prints is close *)

Lemma round_even_close n d : 0 < d → 2 * Z.abs (round_even n d * d - n) ≤ d.
Proof.
  intros Hd. unfold round_even. pose proof (Z.div_mod n d ltac:(lia)). pose proof (Z.mod_pos_bound n d Hd).
  repeat case_bool_decide; try destruct (Z.even _); nia.
Qed.

Lemma to_float64_close value : 0 < value < 2 ^ 64 → 2 ^ 53 * Z.abs (to_float64 value - value) ≤ value.
Proof.
  intros Hv. unfold to_float64. case_bool_decide as He; [replace (value - value) with 0 by lia; lia|].
  pose proof (Z.log2_spec value ltac:(lia)) as [Hl _].
  pose proof (round_even_close value (2 ^ (Z.log2 value - 52)) ltac:(apply Z.pow_pos_nonneg; lia)) as Hc.
  assert (2 ^ Z.log2 value = 2 ^ (Z.log2 value - 52) * 2 ^ 52) as E by (rewrite <-Z.pow_add_r by lia; f_equal; lia).
  lia.
Qed.

Example format_sizes :
  formatBytes <$> [0; 1023; 1024; 1536; 10240; 1048575; 5368709120; 2 ^ 64 - 1] =
  ["0B"; "1023B"; "1.0KiB"; "1.5KiB"; "10KiB"; "1024KiB"; "5.0GiB"; "16.0EiB"].
Proof. vm_compute. reflexivity. Qed.
