(* ===== verification/ClientRequests.v ===== *)
(** * The requests of the client (cmd/firedoze/main.go) and how the server reads them

    The arguments of a command become the path and the body of a request:
    [url.PathEscape], [url.Values.Encode], [json.Marshal] of a map.  The server
    unescapes the path and decodes the body into the structures of
    internal/api/server.go, which are given here as the instance [go_json] of
    [ApiJSON]; only the guests' memory report, with its floating-point numbers,
    is left an argument of it. *)

From S2P Require Import Prelude GoStrings Paths IPNet Json JsonDecode Types Store Config PrivateNet Memory.
From S2P Require Import World Host Manager SnapshotBundle Usage Wireguard Api ClientArgs.
Open Scope Z_scope.

(** ** Package net/url: escapes *)

Definition hex_upper (d : Z) : ascii := byte_chr (if bool_decide (d < 10) then 48 + d else 55 + d).

Definition percent (c : ascii) : string :=
  String "%" (String (hex_upper (ascii_code c / 16)) (String (hex_upper (ascii_code c mod 16)) "")).

Definition unreserved (c : ascii) : bool := is_letter c || is_digit c || str_mem c "-_.~".

(** [url.PathEscape]: a path segment keeps these too. *)
Definition path_plain (c : ascii) : bool := unreserved c || str_mem c "$&+:=@".

Fixpoint PathEscape (s : string) : string :=
  match s with
  | "" => ""
  | String c s' => (if path_plain c then String c "" else percent c) +:+ PathEscape s'
  end.

Fixpoint QueryEscape (s : string) : string :=
  match s with
  | "" => ""
  | String c s' =>
      (if unreserved c then String c "" else if bool_decide (c = " "%char) then "+" else percent c) +:+ QueryEscape s'
  end.

(** [unescape]: of a path segment, or of a query, where "+" is a blank. *)
Fixpoint unescape (query : bool) (s : string) : option string :=
  match s with
  | "" => Some ""
  | String c s' =>
      if bool_decide (c = "%"%char) then
        match s' with
        | String h (String l s'') =>
            a ← hex_value h; b ← hex_value l; t ← unescape query s''; Some (String (byte_chr (a * 16 + b)) t)
        | _ => None
        end
      else t ← unescape query s'; Some (String (if query && bool_decide (c = "+"%char) then " "%char else c) t)
  end.

(** [url.Values.Encode] of values that are all of one key. *)
Definition values_Encode (key : string) (values : list string) : string :=
  Join ((λ v, key +:+ "=" +:+ QueryEscape v) <$> values) "&".

(** ** What the server makes of a URL *)

(** The values of [key] in a query; pairs that do not unescape, or hold a
    semicolon, are dropped. *)
Definition query_values (key query : string) : list string :=
  omap (λ pair, guard (negb (str_mem ";" pair)) ;;
          let '(k, v) := default (pair, "") (Cut pair "=") in
          k ← unescape true k; v ← unescape true v; if bool_decide (k = key) then Some v else None)
    (if is_empty query then [] else Split query "&").

(** The request that reaches the API: the segments of the path, unescaped, and
    the values of [name]. *)
Definition api_request (method path body : string) : option request :=
  let '(path, query) := default (path, "") (Cut path "?") in
  match path with
  | String "/" rest =>
      segments ← mapM (unescape false) (Split rest "/");
      Some (MkRequest method segments (query_values "name" query) body)
  | _ => None
  end.

(** ** Bodies *)

(** A Go map from strings, which [json.Marshal] writes in the order of its keys. *)
Definition json_map : Type := list (string * json).

Fixpoint map_put (k : string) (v : json) (m : json_map) : json_map :=
  match m with
  | [] => [(k, v)]
  | (k', v') :: m' =>
      match String.compare k k' with
      | Lt => (k, v) :: m
      | Eq => (k, v) :: m'
      | Gt => (k', v') :: map_put k v m'
      end
  end.

Definition addInt (m : json_map) (key : string) (value : Z) : json_map :=
  if bool_decide (value = 0) then m else map_put key (JInt value) m.
Abbreviation addInt64 := addInt.

Record vmCreateParams := MkVMCreateParams {
  vp_VCPUs : Z;
  vp_MemoryMinMiB : Z;
  vp_MemoryMaxMiB : Z;
  vp_DiskBytes : Z;
  vp_DefaultHTTPPort : Z;
  vp_IdleSleepAfterSeconds : Z;
  vp_AutoWake : bool;
  vp_NoAutoWake : bool;
  vp_PublicHTTP : bool;
}.

Definition create_flags : FlagSet :=
  [("vcpus", FlagInt); ("memory-min-mib", FlagInt); ("memory-max-mib", FlagInt); ("disk-bytes", FlagInt);
   ("http-port", FlagInt); ("idle-sleep-after", FlagInt); ("auto-wake", FlagBool); ("no-auto-wake", FlagBool);
   ("publish", FlagBool)].

Definition parseVMCreateArgs (args : list string) : result (vmCreateParams * list string) :=
  '(names, values) ← parseNamesAndFlags create_flags args;
  let memoryMinMiB := flag_int values "memory-min-mib" 0 in
  let memoryMaxMiB := flag_int values "memory-max-mib" 0 in
  if flag_bool values "auto-wake" && flag_bool values "no-auto-wake"
  then Err (ErrOther "-auto-wake and -no-auto-wake cannot both be set") else
  if negb (bool_decide (memoryMinMiB = 0)) && negb (bool_decide (memoryMaxMiB = 0)) &&
     bool_decide (memoryMaxMiB < memoryMinMiB)
  then Err (ErrOther "-memory-min-mib must be less than or equal to -memory-max-mib") else
  Ok (MkVMCreateParams (flag_int values "vcpus" 0) memoryMinMiB memoryMaxMiB (flag_int values "disk-bytes" 0)
        (flag_int values "http-port" 0) (flag_int values "idle-sleep-after" 0) (flag_bool values "auto-wake")
        (flag_bool values "no-auto-wake") (flag_bool values "publish"), names).

Definition parseSnapshotRestoreArgs (args : list string) : result (vmCreateParams * string * string) :=
  '(params, names) ← parseVMCreateArgs args;
  match names with
  | [snapshotName; vmName] => Ok (params, snapshotName, vmName)
  | _ => Err (ErrOther "restore requires snapshot and VM names")
  end.

(** The body of POST /vms, and of a restore, over the map with the name in it. *)
Definition vm_body (params : vmCreateParams) (body : json_map) : json_map :=
  let body := addInt body "vcpus" (vp_VCPUs params) in
  let body := addInt body "memory_min_mib" (vp_MemoryMinMiB params) in
  let body := addInt body "memory_max_mib" (vp_MemoryMaxMiB params) in
  let body := addInt64 body "disk_bytes" (vp_DiskBytes params) in
  let body := addInt body "default_http_port" (vp_DefaultHTTPPort params) in
  let body := addInt body "idle_sleep_after_seconds" (vp_IdleSleepAfterSeconds params) in
  let body := if vp_AutoWake params then map_put "auto_wake" (JBool true) body else body in
  let body := if vp_NoAutoWake params then map_put "auto_wake" (JBool false) body else body in
  if vp_PublicHTTP params then map_put "public_http" (JBool true) body else body.

Definition createVM_body (params : vmCreateParams) (name : string) : json_map :=
  vm_body params [("name", JString name)].
Definition restoreSnapshotBody (params : vmCreateParams) (vmName : string) : json_map :=
  vm_body params [("vm_name", JString vmName)].

Definition settings_flags : FlagSet :=
  [("http-port", FlagInt); ("idle-sleep-after", FlagInt); ("auto-wake", FlagFunc); ("publish", FlagFunc)].

Definition settings_body (values : list (string * string)) : json_map :=
  let httpPort := flag_int values "http-port" (-1) in
  let idle := flag_int values "idle-sleep-after" (-1) in
  let body := if bool_decide (0 ≤ httpPort) then map_put "default_http_port" (JInt httpPort) [] else [] in
  let body := if bool_decide (0 ≤ idle) then map_put "idle_sleep_after_seconds" (JInt idle) body else body in
  let body := match flag_optional values "auto-wake" with
              | Some b => map_put "auto_wake" (JBool b) body | None => body end in
  match flag_optional values "publish" with Some b => map_put "public_http" (JBool b) body | None => body end.

Definition route_body (name vmUUID : string) (port : Z) : json_map :=
  map_put "port" (JInt port) (map_put "vm_uuid" (JString vmUUID) [("name", JString name)]).
Definition snapshot_body (name vmUUID : string) : json_map :=
  map_put "vm_uuid" (JString vmUUID) [("name", JString name)].
Definition hostname_body (hostname : string) : json_map := [("hostname", JString hostname)].
Definition signed_url_body (hostname : string) (ttl : Z) : json_map :=
  map_put "ttl_seconds" (JInt ttl) [("hostname", JString hostname)].

(** ** The server's decoders *)

(** A field: how it is read and replaced. *)
Definition field {A B} (get : A → B) (set : B → A → A) (f : into B) : into A := λ v old,
  x ← f v (get old); Ok (set x old).

Definition zero_request : vm_request := MkVMRequest "" 0 0 0 0 0 0 None false.

Definition vm_request_fields (name : string) : list (string * into vm_request) := [
  (name, field vr_Name (λ x r, MkVMRequest x (vr_VCPUs r) (vr_MemoryMinMiB r) (vr_MemoryMaxMiB r) (vr_DiskBytes r)
     (vr_DefaultHTTPPort r) (vr_IdleSleepAfterSeconds r) (vr_AutoWake r) (vr_PublicHTTP r)) into_string);
  ("vcpus", field vr_VCPUs (λ x r, MkVMRequest (vr_Name r) x (vr_MemoryMinMiB r) (vr_MemoryMaxMiB r) (vr_DiskBytes r)
     (vr_DefaultHTTPPort r) (vr_IdleSleepAfterSeconds r) (vr_AutoWake r) (vr_PublicHTTP r)) into_int);
  ("memory_min_mib", field vr_MemoryMinMiB (λ x r, MkVMRequest (vr_Name r) (vr_VCPUs r) x (vr_MemoryMaxMiB r)
     (vr_DiskBytes r) (vr_DefaultHTTPPort r) (vr_IdleSleepAfterSeconds r) (vr_AutoWake r) (vr_PublicHTTP r)) into_int);
  ("memory_max_mib", field vr_MemoryMaxMiB (λ x r, MkVMRequest (vr_Name r) (vr_VCPUs r) (vr_MemoryMinMiB r) x
     (vr_DiskBytes r) (vr_DefaultHTTPPort r) (vr_IdleSleepAfterSeconds r) (vr_AutoWake r) (vr_PublicHTTP r)) into_int);
  ("disk_bytes", field vr_DiskBytes (λ x r, MkVMRequest (vr_Name r) (vr_VCPUs r) (vr_MemoryMinMiB r)
     (vr_MemoryMaxMiB r) x (vr_DefaultHTTPPort r) (vr_IdleSleepAfterSeconds r) (vr_AutoWake r) (vr_PublicHTTP r)) into_int);
  ("default_http_port", field vr_DefaultHTTPPort (λ x r, MkVMRequest (vr_Name r) (vr_VCPUs r) (vr_MemoryMinMiB r)
     (vr_MemoryMaxMiB r) (vr_DiskBytes r) x (vr_IdleSleepAfterSeconds r) (vr_AutoWake r) (vr_PublicHTTP r)) into_int);
  ("idle_sleep_after_seconds", field vr_IdleSleepAfterSeconds (λ x r, MkVMRequest (vr_Name r) (vr_VCPUs r)
     (vr_MemoryMinMiB r) (vr_MemoryMaxMiB r) (vr_DiskBytes r) (vr_DefaultHTTPPort r) x (vr_AutoWake r)
     (vr_PublicHTTP r)) into_int);
  ("auto_wake", field vr_AutoWake (λ x r, MkVMRequest (vr_Name r) (vr_VCPUs r) (vr_MemoryMinMiB r)
     (vr_MemoryMaxMiB r) (vr_DiskBytes r) (vr_DefaultHTTPPort r) (vr_IdleSleepAfterSeconds r) x (vr_PublicHTTP r))
     (into_pointer false into_bool));
  ("public_http", field vr_PublicHTTP (λ x r, MkVMRequest (vr_Name r) (vr_VCPUs r) (vr_MemoryMinMiB r)
     (vr_MemoryMaxMiB r) (vr_DiskBytes r) (vr_DefaultHTTPPort r) (vr_IdleSleepAfterSeconds r) (vr_AutoWake r) x) into_bool)].

Definition settings_fields : list (string * into UpdateVMParams) := [
  ("default_http_port", field u_DefaultHTTPPort (λ x r, MkUpdateVMParams x (u_IdleSleepAfterSeconds r) (u_AutoWake r)
     (u_PublicHTTP r)) (into_pointer 0 into_int));
  ("idle_sleep_after_seconds", field u_IdleSleepAfterSeconds (λ x r, MkUpdateVMParams (u_DefaultHTTPPort r) x
     (u_AutoWake r) (u_PublicHTTP r)) (into_pointer 0 into_int));
  ("auto_wake", field u_AutoWake (λ x r, MkUpdateVMParams (u_DefaultHTTPPort r) (u_IdleSleepAfterSeconds r) x
     (u_PublicHTTP r)) (into_pointer false into_bool));
  ("public_http", field u_PublicHTTP (λ x r, MkUpdateVMParams (u_DefaultHTTPPort r) (u_IdleSleepAfterSeconds r)
     (u_AutoWake r) x) (into_pointer false into_bool))].

Definition route_fields : list (string * into route_request) := [
  ("name", field rr_Name (λ x r, MkRouteRequest x (rr_VMUUID r) (rr_Port r)) into_string);
  ("vm_uuid", field rr_VMUUID (λ x r, MkRouteRequest (rr_Name r) x (rr_Port r)) into_string);
  ("port", field rr_Port (λ x r, MkRouteRequest (rr_Name r) (rr_VMUUID r) x) into_int)].

Definition signed_url_fields : list (string * into signed_url_request) := [
  ("hostname", field sr_Hostname (λ x r, MkSignedURLRequest x (sr_TTLSeconds r)) into_string);
  ("ttl_seconds", field sr_TTLSeconds (λ x r, MkSignedURLRequest (sr_Hostname r) x) into_int)].

Definition snapshot_fields : list (string * into snapshot_request) := [
  ("name", field ss_Name (λ x r, MkSnapshotRequest x (ss_VMUUID r)) into_string);
  ("vm_uuid", field ss_VMUUID (λ x r, MkSnapshotRequest (ss_Name r) x) into_string)].

Definition go_json (memory_hint_of : string → result memory_hint) : ApiJSON := {|
  decode_create := decode_into zero_request (into_struct (vm_request_fields "name"));
  decode_restore := decode_into zero_request (into_struct (vm_request_fields "vm_name"));
  decode_settings := decode_into (MkUpdateVMParams None None None None) (into_struct settings_fields);
  decode_route := decode_into (MkRouteRequest "" "" 0) (into_struct route_fields);
  decode_hostname := decode_into "" (into_struct [("hostname", into_string)]);
  decode_signed_url := decode_into (MkSignedURLRequest "" 0) (into_struct signed_url_fields);
  decode_snapshot := decode_into (MkSnapshotRequest "" "") (into_struct snapshot_fields);
  decode_memory_hint := memory_hint_of;
|}.

(** ** Escapes are undone *)

Lemma hex_upper_value d : 0 ≤ d < 16 → hex_value (hex_upper d) = Some d.
Proof.
  intros Hd. unfold hex_value, hex_upper.
  rewrite ascii_code_chr by (case_bool_decide; lia).
  destruct (bool_decide_reflect (d < 10)); repeat case_bool_decide; try lia; f_equal; lia.
Qed.

Lemma unescape_percent query c s t :
  unescape query s = Some t → unescape query (percent c +:+ s) = Some (String c t).
Proof.
  intros E. pose proof (ascii_code_bound c). unfold percent. rewrite !str_app_cons, str_app_nil_l.
  cbn [unescape]. rewrite bool_decide_eq_true_2 by done.
  rewrite !hex_upper_value by (pose proof (Z.mod_pos_bound (ascii_code c) 16); pose proof (Z.div_lt_upper_bound (ascii_code c) 16 16);
    pose proof (Z.div_pos (ascii_code c) 16); lia).
  cbn [mbind option_bind]. rewrite E. cbn [mbind option_bind].
  replace (ascii_code c / 16 * 16 + ascii_code c mod 16) with (ascii_code c)
    by (pose proof (Z.div_mod (ascii_code c) 16); lia).
  by rewrite byte_chr_code.
Qed.

Lemma unescape_plain query c s t :
  c ≠ "%"%char → (query = true → c ≠ "+"%char) → unescape query s = Some t →
  unescape query (String c "" +:+ s) = Some (String c t).
Proof.
  intros Hc Hp E. rewrite str_app_cons, str_app_nil_l. cbn [unescape].
  rewrite bool_decide_eq_false_2, E by done. cbn [mbind option_bind].
  destruct query; [|done]. by rewrite bool_decide_eq_false_2 by auto.
Qed.

Lemma PathEscape_inverse s : unescape false (PathEscape s) = Some s.
Proof.
  induction s as [|c s IH]; [done|]. cbn [PathEscape]. destruct (path_plain c) eqn:Hc.
  - apply unescape_plain; [by intros ->|done..].
  - by apply unescape_percent.
Qed.

Lemma QueryEscape_inverse s : unescape true (QueryEscape s) = Some s.
Proof.
  induction s as [|c s IH]; [done|]. cbn [QueryEscape]. destruct (unreserved c) eqn:Hc.
  - apply unescape_plain; [by intros ->|by intros _ ->|done].
  - case_bool_decide as Hb; [subst; rewrite str_app_cons, str_app_nil_l; cbn [unescape]|by apply unescape_percent].
    by rewrite IH.
Qed.

(** ** The bodies are read as they were meant *)

Lemma decode_object {A} (zero : A) fields m :
  fits 0 (JObject m) = true →
  decode_into zero (into_struct fields) (Marshal (JObject m)) = into_fields fields (prod_map id embed <$> m) zero.
Proof. intros Hf. unfold decode_into. by rewrite Decode_Marshal. Qed.

Lemma into_fields_app {A} (fields : list (string * into A)) l1 l2 old :
  into_fields fields (l1 ++ l2) old = (a ← into_fields fields l1 old; into_fields fields l2 a).
Proof.
  revert old. induction l1 as [|[k v] l1 IH]; intros old; [done|]. cbn [app into_fields].
  destruct (match field_of fields k with Some f => f v old | None => Ok old end); [apply IH|done].
Qed.

Definition opt_int (k : string) (z : Z) : json_map := if bool_decide (z = 0) then [] else [(k, JInt z)].
Definition opt_bool (k : string) (b : option bool) : json_map :=
  match b with Some b => [(k, JBool b)] | None => [] end.

Definition wake_of (params : vmCreateParams) : option bool :=
  if vp_NoAutoWake params then Some false else if vp_AutoWake params then Some true else None.
Definition public_of (params : vmCreateParams) : option bool :=
  if vp_PublicHTTP params then Some true else None.

(** What comes before "name", and between it and "vm_name". *)
Definition body_head (p : vmCreateParams) : json_map :=
  opt_bool "auto_wake" (wake_of p) ++ opt_int "default_http_port" (vp_DefaultHTTPPort p) ++
  opt_int "disk_bytes" (vp_DiskBytes p) ++ opt_int "idle_sleep_after_seconds" (vp_IdleSleepAfterSeconds p) ++
  opt_int "memory_max_mib" (vp_MemoryMaxMiB p) ++ opt_int "memory_min_mib" (vp_MemoryMinMiB p).
Definition body_tail (p : vmCreateParams) : json_map :=
  opt_bool "public_http" (public_of p) ++ opt_int "vcpus" (vp_VCPUs p).

Ltac body_cases :=
  unfold vm_body, addInt, body_head, body_tail, opt_int, wake_of, public_of;
  repeat match goal with |- context [if ?b then _ else _] => destruct b end; reflexivity.

Lemma create_body_sorted p name :
  createVM_body p name = body_head p ++ [("name", JString name)] ++ body_tail p.
Proof. unfold createVM_body. destruct p. cbn. body_cases. Qed.

Lemma restore_body_sorted p name :
  restoreSnapshotBody p name = body_head p ++ body_tail p ++ [("vm_name", JString name)].
Proof. unfold restoreSnapshotBody. destruct p. cbn. body_cases. Qed.

Definition int64 (z : Z) : Prop := int_min 64 ≤ z ≤ int_max 64.

Section members.
Context {A : Type} (fields : list (string * into A)).

Lemma into_step l1 l2 old a r :
  into_fields fields (prod_map id embed <$> l1) old = Ok a →
  into_fields fields (prod_map id embed <$> l2) a = r →
  into_fields fields (prod_map id embed <$> l1 ++ l2) old = r.
Proof. intros E1 E2. rewrite fmap_app, into_fields_app, E1. exact E2. Qed.

Lemma into_number k get set z old :
  field_of fields k = Some (field get set into_int) → int64 z →
  into_fields fields (prod_map id embed <$> [(k, JInt z)]) old = Ok (set z old).
Proof.
  intros Hf Hz. cbn [fmap list_fmap prod_map id embed into_fields fst snd]. rewrite Hf. unfold field, into_int.
  rewrite ParseInt_FormatInt by done. done.
Qed.

Lemma into_opt_int k get set z old :
  field_of fields k = Some (field get set into_int) → int64 z → set 0 old = old →
  into_fields fields (prod_map id embed <$> opt_int k z) old = Ok (set z old).
Proof.
  intros Hf Hz H0. unfold opt_int. case_bool_decide as E; [by subst; cbn; rewrite H0|].
  by eapply into_number.
Qed.

Lemma into_opt_pointer k get set b old :
  field_of fields k = Some (field get set (into_pointer false into_bool)) → set None old = old →
  into_fields fields (prod_map id embed <$> opt_bool k b) old = Ok (set b old).
Proof.
  intros Hf H0. destruct b as [b|]; cbn; [|by rewrite H0]. rewrite Hf. done.
Qed.

Lemma into_opt_true k get set b old :
  field_of fields k = Some (field get set into_bool) → set false old = old →
  into_fields fields (prod_map id embed <$> opt_bool k (if b : bool then Some true else None)) old = Ok (set b old).
Proof.
  intros Hf H0. destruct b; cbn; [|by rewrite H0]. rewrite Hf. done.
Qed.

Lemma into_text k get set s old :
  field_of fields k = Some (field get set into_string) →
  into_fields fields (prod_map id embed <$> [(k, JString s)]) old = Ok (set s old).
Proof. intros Hf. cbn. rewrite Hf. done. Qed.
End members.

Lemma fits_parts l1 l2 : fits 0 (JObject l1) = true → fits 0 (JObject l2) = true → fits 0 (JObject (l1 ++ l2)) = true.
Proof. cbn [fits]. rewrite forallb_app. intros H1 H2. simpl in *. by rewrite H1, H2. Qed.
Lemma fits_opt_int k z : is_ascii k = true → fits 0 (JObject (opt_int k z)) = true.
Proof. intros Hk. unfold opt_int. case_bool_decide; [done|]. cbn. by rewrite Hk. Qed.
Lemma fits_opt_bool k b : is_ascii k = true → fits 0 (JObject (opt_bool k b)) = true.
Proof. intros Hk. destruct b; [|done]. cbn. by rewrite Hk. Qed.
Lemma fits_text k s : is_ascii k = true → is_ascii s = true → fits 0 (JObject [(k, JString s)]) = true.
Proof. intros Hk Hs. cbn. by rewrite Hk, Hs. Qed.

Create HintDb fits.
#[export] Hint Resolve fits_parts fits_opt_int fits_opt_bool fits_text : fits.
#[export] Hint Extern 1 (is_ascii _ = true) => reflexivity : fits.

Lemma fits_head p : fits 0 (JObject (body_head p)) = true.
Proof. unfold body_head. auto 20 with fits. Qed.
Lemma fits_tail p : fits 0 (JObject (body_tail p)) = true.
Proof. unfold body_tail. auto 20 with fits. Qed.
#[export] Hint Resolve fits_head fits_tail : fits.

(** The numbers of a command are 64 bits wide. *)
Record params_ok (p : vmCreateParams) : Prop := {
  po_vcpus : int64 (vp_VCPUs p);
  po_min : int64 (vp_MemoryMinMiB p);
  po_max : int64 (vp_MemoryMaxMiB p);
  po_disk : int64 (vp_DiskBytes p);
  po_port : int64 (vp_DefaultHTTPPort p);
  po_idle : int64 (vp_IdleSleepAfterSeconds p);
}.

Lemma parse_params_ok args params names : parseVMCreateArgs args = Ok (params, names) → params_ok params.
Proof.
  unfold parseVMCreateArgs. destruct (parseNamesAndFlags _ _) as [[ns values]|]; [|done].
  cbn [mbind result_mbind]. destruct (_ && _); [done|]. destruct (_ && _); [done|]. intros [= <- _].
  split; by apply flag_int_range.
Qed.

(** The request a command's parameters stand for. *)
Definition request_of (p : vmCreateParams) (name : string) : vm_request :=
  MkVMRequest name (vp_VCPUs p) (vp_MemoryMinMiB p) (vp_MemoryMaxMiB p) (vp_DiskBytes p) (vp_DefaultHTTPPort p)
    (vp_IdleSleepAfterSeconds p) (wake_of p) (vp_PublicHTTP p).

Ltac read_member :=
  first [ eapply into_opt_int; [reflexivity|done|reflexivity]
        | eapply into_opt_pointer; [reflexivity|reflexivity]
        | eapply into_opt_true; [reflexivity|reflexivity]
        | eapply into_text; reflexivity ].
Ltac read_members :=
  repeat lazymatch goal with
    | |- into_fields _ (_ <$> _ ++ _) _ = _ =>
        eapply into_step; [read_member|];
        cbv beta iota delta [zero_request vr_Name vr_VCPUs vr_MemoryMinMiB vr_MemoryMaxMiB vr_DiskBytes
          vr_DefaultHTTPPort vr_IdleSleepAfterSeconds vr_AutoWake vr_PublicHTTP]
    end; etransitivity; [read_member|reflexivity].

Lemma create_read p name :
  params_ok p → into_fields (vm_request_fields "name") (prod_map id embed <$> createVM_body p name) zero_request =
  Ok (request_of p name).
Proof.
  intros []. rewrite create_body_sorted. unfold body_head, body_tail, public_of. rewrite <-!app_assoc.
  read_members.
Qed.

Lemma restore_read p name :
  params_ok p → into_fields (vm_request_fields "vm_name") (prod_map id embed <$> restoreSnapshotBody p name) zero_request =
  Ok (request_of p name).
Proof.
  intros []. rewrite restore_body_sorted. unfold body_head, body_tail, public_of. rewrite <-!app_assoc.
  read_members.
Qed.

(** The settings a command asks for: a negative number is none. *)
Definition opt_setting (k : string) (z : Z) : json_map := if bool_decide (0 ≤ z) then [(k, JInt z)] else [].
Definition setting_of (z : Z) : option Z := if bool_decide (0 ≤ z) then Some z else None.

Lemma settings_sorted values :
  settings_body values =
  opt_bool "auto_wake" (flag_optional values "auto-wake") ++
  opt_setting "default_http_port" (flag_int values "http-port" (-1)) ++
  opt_setting "idle_sleep_after_seconds" (flag_int values "idle-sleep-after" (-1)) ++
  opt_bool "public_http" (flag_optional values "publish").
Proof.
  unfold settings_body, opt_setting.
  destruct (flag_optional values "auto-wake"), (flag_optional values "publish"); do 2 case_bool_decide; reflexivity.
Qed.

Lemma into_opt_setting {A} (fields : list (string * into A)) k get set z old :
  field_of fields k = Some (field get set (into_pointer 0 into_int)) → int64 z → set None old = old →
  into_fields fields (prod_map id embed <$> opt_setting k z) old = Ok (set (setting_of z) old).
Proof.
  intros Hf Hz H0. unfold opt_setting, setting_of. case_bool_decide; [|by cbn; rewrite H0].
  cbn [fmap list_fmap prod_map id embed into_fields fst snd]. rewrite Hf. unfold field, into_pointer, into_int.
  rewrite ParseInt_FormatInt by done. done.
Qed.

Lemma fits_opt_setting k z : is_ascii k = true → fits 0 (JObject (opt_setting k z)) = true.
Proof. intros Hk. unfold opt_setting. case_bool_decide; [|done]. cbn. by rewrite Hk. Qed.
#[export] Hint Resolve fits_opt_setting : fits.

Definition settings_of (values : list (string * string)) : UpdateVMParams :=
  MkUpdateVMParams (setting_of (flag_int values "http-port" (-1))) (setting_of (flag_int values "idle-sleep-after" (-1)))
    (flag_optional values "auto-wake") (flag_optional values "publish").

Lemma settings_read values :
  into_fields settings_fields (prod_map id embed <$> settings_body values) (MkUpdateVMParams None None None None) =
  Ok (settings_of values).
Proof.
  assert (∀ name, int64 (flag_int values name (-1))) as Hi by (intros; by apply flag_int_range).
  rewrite settings_sorted.
  eapply into_step; [read_member|].
  do 2 (eapply into_step; [eapply into_opt_setting; [reflexivity|done|reflexivity]|]).
  etransitivity; [read_member|reflexivity].
Qed.

Lemma fits_route name u port : is_ascii name = true → is_ascii u = true →
  fits 0 (JObject (route_body name u port)) = true.
Proof. intros Hn Hu. apply (fits_parts [_] [_; _]); [by apply fits_text|]. by apply (fits_parts [_] [_]); [|apply fits_text]. Qed.

(** C23.  What the client sends has the types the server reads, and means what
    the command said.  The bodies the client marshals decode, with the
    structures of the server's handlers, to the request of the command: the
    name, every number given (a number not given is absent and read as the
    default), auto-wake set, cleared or left alone, and the settings of exactly
    the flags that were given.  (The text of a name is ASCII, as every name the
    server accepts is.) *)
Theorem bodies_decode memory_hint_of :
  let J := go_json memory_hint_of in
  (∀ args params names name, parseVMCreateArgs args = Ok (params, names) → is_ascii name = true →
     decode_create (Marshal (JObject (createVM_body params name))) = Ok (request_of params name) ∧
     decode_restore (Marshal (JObject (restoreSnapshotBody params name))) = Ok (request_of params name)) ∧
  (∀ args name values, parseNameAndFlags settings_flags args = Ok (name, values) →
     decode_settings (Marshal (JObject (settings_body values))) = Ok (settings_of values)) ∧
  (∀ name vmUUID port, is_ascii name = true → is_ascii vmUUID = true → int64 port →
     decode_route (Marshal (JObject (route_body name vmUUID port))) = Ok (MkRouteRequest name vmUUID port)) ∧
  (∀ name vmUUID, is_ascii name = true → is_ascii vmUUID = true →
     decode_snapshot (Marshal (JObject (snapshot_body name vmUUID))) = Ok (MkSnapshotRequest name vmUUID)) ∧
  (∀ hostname, is_ascii hostname = true →
     decode_hostname (Marshal (JObject (hostname_body hostname))) = Ok hostname) ∧
  (∀ hostname ttl, is_ascii hostname = true → int64 ttl →
     decode_signed_url (Marshal (JObject (signed_url_body hostname ttl))) = Ok (MkSignedURLRequest hostname ttl)).
Proof.
  intros J. cbn [decode_create decode_restore decode_settings decode_route decode_snapshot decode_hostname
    decode_signed_url go_json J]. split_and!.
  - intros args params names name Hp%parse_params_ok Hn. split.
    + rewrite decode_object; [by apply create_read|]. rewrite create_body_sorted. auto 20 with fits.
    + rewrite decode_object; [by apply restore_read|]. rewrite restore_body_sorted. auto 20 with fits.
  - intros args name values _. rewrite decode_object; [apply settings_read|]. rewrite settings_sorted. auto 20 with fits.
  - intros name u port Hn Hu Hport.
    assert (fits 0 (JObject (route_body name u port)) = true) as Hf by (by apply fits_route).
    rewrite decode_object by done. apply (into_step _ [_] [_; _] _ (MkRouteRequest name "" 0)); [done|].
    apply (into_step _ [_] [_] _ (MkRouteRequest name "" port)); [|done].
    etransitivity; [eapply into_number; [reflexivity|done]|done].
  - intros name u Hn Hu. by rewrite decode_object by (by apply (fits_parts [_] [_]); apply fits_text).
  - intros hostname Hh. by rewrite decode_object by by apply fits_text.
  - intros hostname ttl Hh Ht. rewrite decode_object by (by apply (fits_parts [_] [_]); [apply fits_text|]).
    apply (into_step _ [_] [_] _ (MkSignedURLRequest hostname 0)); [done|].
    etransitivity; [eapply into_number; [reflexivity|done]|done].
Qed.

(** ** The paths reach the routes *)

Lemma percent_no d c : hex_value d = None → d ≠ "%"%char → str_mem d (percent c) = false.
Proof.
  intros Hd Hp. pose proof (ascii_code_bound c). unfold percent. cbn [str_mem].
  assert (∀ x, 0 ≤ x < 16 → bool_decide (d = hex_upper x) = false) as Hx.
  { intros x Hx. apply bool_decide_eq_false. intros ->. by rewrite hex_upper_value in Hd. }
  assert (0 ≤ ascii_code c / 16 < 16) by (split; [apply Z.div_pos; lia|apply Z.div_lt_upper_bound; lia]).
  rewrite bool_decide_eq_false_2, !Hx by (done || by apply Z.mod_pos_bound). done.
Qed.

Lemma char_no (plain : ascii → bool) d c : plain d = false → plain c = true → str_mem d (String c "") = false.
Proof. intros Hd Hc. cbn. rewrite bool_decide_eq_false_2; [done|]. intros ->. congruence. Qed.

Lemma PathEscape_no d s : hex_value d = None → d ≠ "%"%char → path_plain d = false → str_mem d (PathEscape s) = false.
Proof.
  intros Hh Hp Hd. induction s as [|c s IH]; [done|]. cbn [PathEscape]. rewrite str_mem_app, IH, orb_false_r.
  destruct (path_plain c) eqn:Hc; [by apply (char_no path_plain)|by apply percent_no].
Qed.

Lemma QueryEscape_no d s :
  hex_value d = None → d ≠ "%"%char → d ≠ "+"%char → unreserved d = false → str_mem d (QueryEscape s) = false.
Proof.
  intros Hh Hp Hplus Hd. induction s as [|c s IH]; [done|]. cbn [QueryEscape]. rewrite str_mem_app, IH, orb_false_r.
  destruct (unreserved c) eqn:Hc; [by apply (char_no unreserved)|].
  case_bool_decide; [|by apply percent_no]. cbn. by rewrite bool_decide_eq_false_2 by congruence.
Qed.

Lemma Split_parts_join sep l : l ≠ [] → Forall (λ s, str_mem sep s = false) l → Split (Join l (String sep "")) sep = l.
Proof.
  intros Hn Hl. induction l as [|a l IH]; [done|]. apply Forall_cons in Hl as [Ha Hl].
  destruct l as [|b l]; [by apply Split_none|].
  change (Join (a :: b :: l) (String sep "")) with (a +:+ String sep (Join (b :: l) (String sep ""))).
  by rewrite Split_app_sep, IH.
Qed.

Lemma mapM_unescape segs : mapM (unescape false) (PathEscape <$> segs) = Some segs.
Proof. induction segs as [|s segs IH]; [done|]. cbn. rewrite PathEscape_inverse. cbn in *. by rewrite IH. Qed.

Definition url_path (segs : list string) : string := "/" +:+ Join (PathEscape <$> segs) "/".

Lemma url_path_no_query segs : str_mem "?" (url_path segs) = false.
Proof.
  unfold url_path. rewrite str_mem_app; cbn [str_mem]. induction segs as [|s segs IH]; [done|].
  destruct segs as [|t segs]; [by apply PathEscape_no|]. rewrite !fmap_cons. cbn [Join].
  rewrite !str_mem_app, PathEscape_no by done. exact IH.
Qed.

Lemma segments_read segs : segs ≠ [] →
  mapM (unescape false) (Split (Join (PathEscape <$> segs) "/") "/") = Some segs.
Proof.
  intros Hs. rewrite Split_parts_join; [apply mapM_unescape|by destruct segs|].
  apply Forall_fmap, Forall_true. intros s. by apply PathEscape_no.
Qed.

(** A path of escaped segments is read as the segments. *)
Lemma api_request_path method segs body :
  segs ≠ [] → api_request method (url_path segs) body = Some (MkRequest method segs [] body).
Proof.
  intros Hs. unfold api_request. rewrite (Cut_None_char _ "?") by apply url_path_no_query.
  unfold url_path. rewrite str_app_cons, str_app_nil_l.
  cbn -[mapM unescape Split Join query_values values_Encode PathEscape]. by rewrite segments_read.
Qed.

Lemma query_values_encode values :
  query_values "name" (values_Encode "name" values) = values.
Proof.
  unfold query_values, values_Encode. destruct values as [|v values]; [done|].
  set (f := λ v : string, "name" +:+ "=" +:+ QueryEscape v).
  assert (is_empty (Join (f <$> v :: values) "&") = false) as -> by (by destruct values).
  rewrite Split_parts_join; [|done|].
  - change (f v :: (f <$> values)) with (f <$> v :: values). induction (v :: values) as [|x l IH]; [done|].
    rewrite fmap_cons. cbn [omap list_omap].
    assert (str_mem ";" (f x) = false) as E1 by (cbn; by apply QueryEscape_no).
    assert (Cut (f x) "=" = Some ("name", QueryEscape x)) as E2
      by exact (Cut_app_char "name" (QueryEscape x) "=" eq_refl).
    rewrite E1, E2. cbn -[unescape QueryEscape]. rewrite QueryEscape_inverse. cbn in IH |- *. by rewrite IH.
  - apply Forall_fmap, Forall_true. intros s. cbn. by apply QueryEscape_no.
Qed.

Lemma api_request_query method segs values body :
  segs ≠ [] → api_request method (url_path segs +:+ "?" +:+ values_Encode "name" values) body =
              Some (MkRequest method segs values body).
Proof.
  intros Hs. unfold api_request.
  change ("?" +:+ values_Encode "name" values) with (String "?" (values_Encode "name" values)).
  rewrite Cut_app_char by apply url_path_no_query.
  unfold url_path. rewrite str_app_cons, str_app_nil_l.
  cbn -[mapM unescape Split Join query_values values_Encode PathEscape].
  by rewrite segments_read, query_values_encode.
Qed.

Lemma bodies_decode_witness :
  ∃ params, parseVMCreateArgs ["web"; "-vcpus"; "2"; "-memory-max-mib=0x800"; "-no-auto-wake"] = Ok (params, ["web"]) ∧
  @decode_create (go_json (λ _, Err (ErrOther "not used"))) (Marshal (JObject (createVM_body params "web"))) =
    Ok (MkVMRequest "web" 2 0 2048 0 0 0 (Some false) false).
Proof.
  exists (MkVMCreateParams 2 0 2048 0 0 0 false true false).
  assert (parseVMCreateArgs ["web"; "-vcpus"; "2"; "-memory-max-mib=0x800"; "-no-auto-wake"] =
          Ok (MkVMCreateParams 2 0 2048 0 0 0 false true false, ["web"])) as Hp by (vm_compute; reflexivity).
  split; [exact Hp|].
  exact (proj1 (proj1 (bodies_decode (λ _, Err (ErrOther "not used"))) _ _ _ "web" Hp eq_refl)).
Defined.
