(* ===== verification/GuestMemory.v ===== *)
(** * The guest's memory daemon (firedoze-memd, cmd/firedoze-image-builder/main.go)

    The image builder installs a script in the guest that reads /proc/meminfo
    every second, asks the host for more memory when little is available and
    gives some back after a minute with much to spare.  Its decision and its
    report are given here, with the decoder of the host's side
    (internal/api/guest.go), and the loop that guest and host form.  The shell
    computes on signed 64-bit integers; the amounts are far from their limits. *)

From S2P Require Import Prelude GoStrings Paths IPNet Json JsonDecode Types Store Config PrivateNet Memory.
From S2P Require Import World Host Manager SnapshotBundle Usage Wireguard Api ClientArgs ClientRequests.
Open Scope Z_scope.

(** ** The script *)

(** What a round reads: megabytes of /proc/meminfo, bytes of the root file
    system, and the text of the load. *)
Record reading := MkReading {
  rd_total : Z; rd_available : Z; rd_free : Z; rd_buffers : Z; rd_cached : Z;
  rd_swap_total : Z; rd_swap_free : Z; rd_disk_total : Z; rd_disk_free : Z; rd_load1 : string }.

(** The variables that outlive a round. *)
Record memd := MkMemd { md_last_target : option Z; md_spare_count : Z }.
Definition memd_init : memd := MkMemd None 0.

Definition grow_threshold (total : Z) : Z :=
  let t := Z.quot total 3 in if bool_decide (t < 256) then 256 else t.
Definition shrink_threshold (total : Z) : Z := Z.quot (total * 2) 3.
Definition swap_used (r : reading) : bool :=
  bool_decide (0 < rd_swap_total r) && bool_decide (rd_swap_free r < Z.quot (rd_swap_total r * 9) 10).

(** The target of a round, and the new count of rounds with memory to spare. *)
Definition memd_target (r : reading) (spare_count : Z) : option Z * Z :=
  let total := rd_total r in
  if bool_decide (0 < total) && bool_decide (0 < rd_available r) then
    if bool_decide (rd_available r < grow_threshold total) || swap_used r then (Some (total + 256), 0)
    else if bool_decide (shrink_threshold total < rd_available r) then
      let spare_count := spare_count + 1 in
      if bool_decide (60 ≤ spare_count) then (Some (total - 128), 0) else (None, spare_count)
    else (None, 0)
  else (None, spare_count).

(** A round: the target it reports, if any. *)
Definition memd_round (r : reading) (m : memd) : option Z * memd :=
  let '(target, spare_count) := memd_target r (md_spare_count m) in
  match target with
  | Some t =>
      if bool_decide (0 < t) && negb (bool_decide (md_last_target m = Some t))
      then (Some t, MkMemd (Some t) spare_count)
      else (None, MkMemd (md_last_target m) spare_count)
  | None => (None, MkMemd (md_last_target m) spare_count)
  end.

(** The body of [post_report]. *)
Definition member (kv : string * string) : string := quote kv.1 +:+ ":" +:+ kv.2.

Definition report_members (r : reading) (target : option Z) : list (string * string) :=
  [("total_mib", FormatInt (rd_total r)); ("available_mib", FormatInt (rd_available r));
   ("free_mib", FormatInt (rd_free r)); ("buffers_mib", FormatInt (rd_buffers r));
   ("cached_mib", FormatInt (rd_cached r)); ("swap_total_mib", FormatInt (rd_swap_total r));
   ("swap_free_mib", FormatInt (rd_swap_free r)); ("root_disk_total_bytes", FormatInt (rd_disk_total r));
   ("root_disk_free_bytes", FormatInt (rd_disk_free r));
   ("load1", if is_empty (rd_load1 r) then "0" else rd_load1 r)] ++
  match target with Some t => [("target_mib", FormatInt t)] | None => [] end.

Definition report_body (r : reading) (target : option Z) : string :=
  "{" +:+ Join (member <$> report_members r target) "," +:+ "}".

(** ** The host's decoder *)

Definition into_uint : into Z := λ v old,
  match v with
  | VNumber lit => match ParseUint lit with Some z => Ok z | None => type_error end
  | VNull => Ok old
  | _ => type_error
  end.

(** A float64 is kept as its literal; [in_range] is what strconv.ParseFloat
    accepts. *)
Definition into_float (in_range : string → bool) : into string := λ v old,
  match v with
  | VNumber lit => if in_range lit then Ok lit else type_error
  | VNull => Ok old
  | _ => type_error
  end.

Definition zero_report : GuestMemoryReport := MkReport "" 0 0 0 0 0 0 0 0 0 "0" "0" "0" 0.
Definition zero_hint : memory_hint := MkMemoryHint None zero_report.

Definition on_report {B} (get : GuestMemoryReport → B) (set : B → GuestMemoryReport → GuestMemoryReport)
    (f : into B) : into memory_hint :=
  field (λ h, get (mh_Report h)) (λ x h, MkMemoryHint (mh_TargetMiB h) (set x (mh_Report h))) f.

Definition memory_hint_fields (in_range : string → bool) : list (string * into memory_hint) := [
  ("target_mib", field mh_TargetMiB (λ x h, MkMemoryHint x (mh_Report h)) (into_pointer 0 into_int));
  ("total_mib", on_report gr_TotalMiB (λ x '(MkReport a _ c d e f g h i j k l m n), MkReport a x c d e f g h i j k l m n) into_int);
  ("available_mib", on_report gr_AvailableMiB (λ x '(MkReport a b _ d e f g h i j k l m n), MkReport a b x d e f g h i j k l m n) into_int);
  ("free_mib", on_report gr_FreeMiB (λ x '(MkReport a b c _ e f g h i j k l m n), MkReport a b c x e f g h i j k l m n) into_int);
  ("buffers_mib", on_report gr_BuffersMiB (λ x '(MkReport a b c d _ f g h i j k l m n), MkReport a b c d x f g h i j k l m n) into_int);
  ("cached_mib", on_report gr_CachedMiB (λ x '(MkReport a b c d e _ g h i j k l m n), MkReport a b c d e x g h i j k l m n) into_int);
  ("swap_total_mib", on_report gr_SwapTotalMiB (λ x '(MkReport a b c d e f _ h i j k l m n), MkReport a b c d e f x h i j k l m n) into_int);
  ("swap_free_mib", on_report gr_SwapFreeMiB (λ x '(MkReport a b c d e f g _ i j k l m n), MkReport a b c d e f g x i j k l m n) into_int);
  ("root_disk_total_bytes", on_report gr_RootDiskTotalBytes (λ x '(MkReport a b c d e f g h _ j k l m n), MkReport a b c d e f g h x j k l m n) into_uint);
  ("root_disk_free_bytes", on_report gr_RootDiskFreeBytes (λ x '(MkReport a b c d e f g h i _ k l m n), MkReport a b c d e f g h i x k l m n) into_uint);
  ("load1", on_report gr_Load1 (λ x '(MkReport a b c d e f g h i j _ l m n), MkReport a b c d e f g h i j x l m n) (into_float in_range));
  ("load5", on_report gr_Load5 (λ x '(MkReport a b c d e f g h i j k _ m n), MkReport a b c d e f g h i j k x m n) (into_float in_range));
  ("load15", on_report gr_Load15 (λ x '(MkReport a b c d e f g h i j k l _ n), MkReport a b c d e f g h i j k l x n) (into_float in_range))].

Definition memory_hint_of (in_range : string → bool) : string → result memory_hint :=
  decode_into zero_hint (into_struct (memory_hint_fields in_range)).

(** ** The report is read as it was written *)

Lemma numbers_text l :
  l ≠ [] → Forall (λ kv : string * string, is_ascii kv.1 = true ∧ text_of 1 (VNumber kv.2) kv.2) l →
  text_of 0 (VObject (prod_map id VNumber <$> l)) ("{" +:+ Join (member <$> l) "," +:+ "}").
Proof.
  intros Hl Hf. apply text_object; [done|]. change (0 + 1) with 1.
  induction Hf as [|[k t] l [Hk Ht] Hf IH]; [done|]. cbn [fst snd] in *. destruct l as [|kv l].
  - cbn [fmap list_fmap Join prod_map]. unfold member. cbn [fst snd]. rewrite !str_app_assoc.
    by apply (members_last 1 k (VNumber t) "" "" "" t "").
  - cbn [fmap list_fmap] in *. cbn [prod_map]. rewrite Join_cons. unfold member at 1. cbn [fst snd].
    rewrite !str_app_assoc. apply (members_more 1 k (VNumber t) "" "" "" t ""); try done. by apply IH.
Qed.

Definition amounts_fit (r : reading) : Prop :=
  int64 (rd_total r) ∧ int64 (rd_available r) ∧ int64 (rd_free r) ∧ int64 (rd_buffers r) ∧ int64 (rd_cached r) ∧
  int64 (rd_swap_total r) ∧ int64 (rd_swap_free r) ∧ 0 ≤ rd_disk_total r < 2 ^ 64 ∧ 0 ≤ rd_disk_free r < 2 ^ 64.

(** /proc/loadavg: digits, a point, digits. *)
Definition load_text (s : string) : Prop :=
  ∃ z ds, s = FormatInt z +:+ "." +:+ ds ∧ ds ≠ "" ∧ str_forall is_digit ds = true.

Definition report_of (r : reading) : GuestMemoryReport :=
  MkReport "" (rd_total r) (rd_available r) (rd_free r) (rd_buffers r) (rd_cached r) (rd_swap_total r)
    (rd_swap_free r) (rd_disk_total r) (rd_disk_free r) (rd_load1 r) "0" "0" 0.

Lemma load_text_nonempty s : load_text s → is_empty s = false.
Proof. intros (z & ds & -> & _). destruct (FormatInt_head z) as (c & t & -> & _). done. Qed.

Lemma report_text r target :
  load_text (rd_load1 r) →
  text_of 0 (VObject (prod_map id VNumber <$> report_members r target)) (report_body r target).
Proof.
  intros Hl. apply numbers_text; [done|]. unfold report_members. rewrite load_text_nonempty by done.
  apply Forall_app. split.
  - repeat (constructor; [split; [done|]; (apply text_int || idtac)|]); [|done].
    destruct Hl as (z & ds & -> & Hne & Hd). by apply text_decimal.
  - destruct target; repeat constructor.
Qed.

Lemma into_member {A} (fields : list (string * into A)) f k v rest old a r :
  field_of fields k = Some f → f v old = Ok a → into_fields fields rest a = r →
  into_fields fields ((k, v) :: rest) old = r.
Proof. intros Hf Ha <-. cbn [into_fields]. by rewrite Hf, Ha. Qed.

Lemma store_int get set z h :
  int64 z → on_report get set into_int (VNumber (FormatInt z)) h = Ok (MkMemoryHint (mh_TargetMiB h) (set z (mh_Report h))).
Proof. intros Hz. unfold on_report, field, into_int. by rewrite ParseInt_FormatInt. Qed.
Lemma store_uint get set z h :
  0 ≤ z < 2 ^ 64 → on_report get set into_uint (VNumber (FormatInt z)) h = Ok (MkMemoryHint (mh_TargetMiB h) (set z (mh_Report h))).
Proof. intros Hz. unfold on_report, field, into_uint. by rewrite ParseUint_FormatInt. Qed.
Lemma store_float in_range get set lit h :
  in_range lit = true →
  on_report get set (into_float in_range) (VNumber lit) h = Ok (MkMemoryHint (mh_TargetMiB h) (set lit (mh_Report h))).
Proof. intros Hr. unfold on_report, field, into_float. by rewrite Hr. Qed.
Lemma store_target t h :
  int64 t → field mh_TargetMiB (λ x h, MkMemoryHint x (mh_Report h)) (into_pointer 0 into_int) (VNumber (FormatInt t)) h =
    Ok (MkMemoryHint (Some t) (mh_Report h)).
Proof. intros Hz. unfold field, into_pointer, into_int. by rewrite ParseInt_FormatInt. Qed.

Lemma memory_hint_read in_range r target :
  amounts_fit r → load_text (rd_load1 r) → in_range (rd_load1 r) = true →
  (match target with Some t => int64 t | None => True end) →
  memory_hint_of in_range (report_body r target) = Ok (MkMemoryHint target (report_of r)).
Proof.
  intros (H1 & H2 & H3 & H4 & H5 & H6 & H7 & H8 & H9) Hl Hr Ht. unfold memory_hint_of, decode_into.
  rewrite (Decode_text _ _ (report_text r target Hl)). unfold report_members. rewrite load_text_nonempty by done.
  cbn [into_struct app fmap list_fmap prod_map id].
  do 7 (eapply into_member; [reflexivity|by apply store_int|]).
  do 2 (eapply into_member; [reflexivity|by apply store_uint|]).
  eapply into_member; [reflexivity|by apply store_float|].
  destruct target as [t|]; [|reflexivity]. cbn [fmap list_fmap prod_map id].
  eapply into_member; [reflexivity|by apply store_target|reflexivity].
Qed.

(** ** Guest and host together

    The guest has its boot memory and what is plugged, less what its kernel keeps
    for itself ([overhead]); the host asks Firecracker for what
    [setVMMemoryTarget] computes, if the report arrives and no branch before the
    PATCH returns; the guest then plugs and unplugs towards that, at its own
    pace.  What is available in a round, and the swap, are arbitrary. *)

Record loop := MkLoop { lp_requested : Z; lp_plugged : Z; lp_memd : memd }.

Definition pressure (r : reading) : Prop :=
  0 < rd_total r ∧ 0 < rd_available r ∧ (rd_available r < grow_threshold (rd_total r) ∨ swap_used r = true).
Definition spare (r : reading) : Prop :=
  0 < rd_total r ∧ 0 < rd_available r ∧ ¬ pressure r ∧ shrink_threshold (rd_total r) < rd_available r.

Section loop.
Context (vm : VM) (overhead : Z).
#[local] Abbreviation minMiB := (vm_MemoryMinMiB vm).
#[local] Abbreviation maxMiB := (vm_MemoryMaxMiB vm).

Definition total_of (l : loop) : Z := minMiB + lp_plugged l - overhead.

(** [applied]: the report reached the host and the request reached Firecracker;
    false where the report is lost, the VM is not known to run, virtio-mem is not
    usable or the PATCH fails. *)
Definition loop_round (applied : bool) (r : reading) (l : loop) : loop :=
  let '(target, m) := memd_round r (lp_memd l) in
  MkLoop (match target with Some t => if applied then requestedMiB vm t else lp_requested l | None => lp_requested l end)
    (lp_plugged l) m.

(** The guest's plugging, to any amount on the way to what was requested. *)
Definition replugged (p : Z) (l : loop) : loop := MkLoop (lp_requested l) p (lp_memd l).
Definition on_the_way (l : loop) (p : Z) : Prop :=
  Z.min (lp_plugged l) (lp_requested l) ≤ p ≤ Z.max (lp_plugged l) (lp_requested l).

(** A boot with any number of slots plugged, then rounds and plugging. *)
Inductive loop_reachable : loop → Prop :=
  | loop_boot p : (128 | p) → 0 ≤ p ≤ maxMiB - minMiB → loop_reachable (MkLoop p p memd_init)
  | loop_next l applied r : loop_reachable l → rd_total r = total_of l → loop_reachable (loop_round applied r l)
  | loop_plug l p : loop_reachable l → on_the_way l p → loop_reachable (replugged p l).

(** The plugging is done, and the last target was carried out. *)
Definition settled (l : loop) : Prop :=
  lp_plugged l = lp_requested l ∧ ∀ t, md_last_target (lp_memd l) = Some t → lp_requested l = requestedMiB vm t.

Context (Hrange : range_valid minMiB maxMiB).

Record loop_ok (l : loop) : Prop := {
  ok_slots : (128 | lp_requested l);
  ok_range : 0 ≤ lp_requested l ≤ maxMiB - minMiB;
  ok_plugged : 0 ≤ lp_plugged l ≤ maxMiB - minMiB;
  ok_count : 0 ≤ md_spare_count (lp_memd l) < 60;
}.

Lemma requested_ok t : (128 | requestedMiB vm t) ∧ 0 ≤ requestedMiB vm t ≤ maxMiB - minMiB.
Proof using Hrange. pose proof (requestedMiB_spec vm t Hrange) as (Hd & Hb & _). split; [done|lia]. Qed.

Lemma memd_target_count r n : 0 ≤ n < 60 → 0 ≤ (memd_target r n).2 < 60.
Proof. intros Hn. unfold memd_target. repeat case_match; cbn; repeat case_bool_decide; try lia; done. Qed.

Lemma round_count applied r l :
  md_spare_count (lp_memd (loop_round applied r l)) = (memd_target r (md_spare_count (lp_memd l))).2.
Proof.
  unfold loop_round, memd_round. destruct (memd_target _ _) as [[t|] n]; [|done].
  by destruct (_ && _).
Qed.

Lemma loop_round_ok applied r l : loop_ok l → loop_ok (loop_round applied r l).
Proof using Hrange.
  intros [Hs Hr Hp Hn].
  assert ((128 | lp_requested (loop_round applied r l)) ∧ 0 ≤ lp_requested (loop_round applied r l) ≤ maxMiB - minMiB ∧
    lp_plugged (loop_round applied r l) = lp_plugged l) as (H1 & H2 & H3).
  { unfold loop_round. destruct (memd_round _ _) as [[t|] m]; [|done]. destruct applied; [|done].
    cbn. destruct (requested_ok t). done. }
  split; [done|done|by rewrite H3|]. rewrite round_count. by apply memd_target_count.
Qed.

Lemma loop_reachable_ok l : loop_reachable l → loop_ok l.
Proof using Hrange.
  induction 1 as [p Hs Hr|l applied r _ IH _|l p _ [H1 H2 H3 H4] Hw].
  - by split.
  - by apply loop_round_ok.
  - unfold on_the_way in Hw. split; cbn; try done. lia.
Qed.

(** A round of a settled loop that is carried out. *)
Lemma settled_round r l :
  settled l →
  lp_requested (loop_round true r l) =
    match (memd_target r (md_spare_count (lp_memd l))).1 with
    | Some t => if bool_decide (0 < t) then requestedMiB vm t else lp_requested l
    | None => lp_requested l
    end ∧
  settled (replugged (lp_requested (loop_round true r l)) (loop_round true r l)).
Proof.
  intros [_ Hl]. unfold settled, loop_round, memd_round. destruct (memd_target _ _) as [[t|] n]; cbn [fst snd]; [|done].
  destruct (bool_decide_reflect (0 < t)) as [Ht|Ht]; [|done]. cbn [andb].
  destruct (bool_decide_reflect (md_last_target (lp_memd l) = Some t)) as [He|He]; cbn.
  - split; [by apply Hl|done].
  - split; [done|]. split; [done|]. by intros t' [= <-].
Qed.

Context (Hover : 0 ≤ overhead < 128).

(** A target 256 more, or 128 less, than the guest's total. *)
Lemma requested_more p :
  (128 | p) → 0 ≤ p ≤ maxMiB - minMiB →
  requestedMiB vm (minMiB + p - overhead + 256) = Z.min (p + 256) (maxMiB - minMiB).
Proof using Hrange Hover.
  intros [k ->] Hp. pose proof (requestedMiB_spec vm (minMiB + k * 128 - overhead + 256) Hrange) as ([j Hj] & Hb & Hc).
  destruct Hrange as (H1 & H2 & [m Hm]). rewrite Hj in *. unfold clampTarget in Hc. repeat case_bool_decide; lia.
Qed.

Lemma requested_less p :
  (128 | p) → 0 ≤ p ≤ maxMiB - minMiB →
  requestedMiB vm (minMiB + p - overhead - 128) = Z.max (p - 128) 0.
Proof using Hrange Hover.
  intros [k ->] Hp. pose proof (requestedMiB_spec vm (minMiB + k * 128 - overhead - 128) Hrange) as ([j Hj] & Hb & Hc).
  destruct Hrange as (H1 & H2 & [m Hm]). rewrite Hj in *. unfold clampTarget in Hc. repeat case_bool_decide; lia.
Qed.

Lemma target_pressure r n : pressure r → memd_target r n = (Some (rd_total r + 256), 0).
Proof.
  intros (Ht & Ha & Hp). unfold memd_target. rewrite !(bool_decide_eq_true_2 (0 < _)) by done. cbn [andb].
  destruct Hp as [Hp|Hp]; [by rewrite (bool_decide_eq_true_2 (_ < _))|]. by rewrite Hp, orb_true_r.
Qed.

Lemma target_spare r n :
  spare r → memd_target r n = if bool_decide (60 ≤ n + 1) then (Some (rd_total r - 128), 0) else (None, n + 1).
Proof.
  intros (Ht & Ha & Hp & Hs). unfold memd_target. rewrite !(bool_decide_eq_true_2 (0 < _)) by done. cbn [andb].
  destruct (bool_decide_reflect (rd_available r < grow_threshold (rd_total r))) as [Hg|Hg].
  { destruct Hp. split_and!; auto. }
  destruct (swap_used r) eqn:Hsw; [destruct Hp; split_and!; auto|]. cbn [orb]. by rewrite bool_decide_eq_true_2 by done.
Qed.

Lemma target_none r n : 0 < rd_total r → ¬ pressure r → ¬ spare r → (memd_target r n).1 = None.
Proof.
  intros Ht Hp Hs. unfold memd_target. rewrite (bool_decide_eq_true_2 (0 < rd_total r)) by done.
  destruct (bool_decide_reflect (0 < rd_available r)) as [Ha|Ha]; [|done]. cbn [andb].
  destruct (bool_decide_reflect (rd_available r < grow_threshold (rd_total r))) as [Hg|Hg].
  { destruct Hp. split_and!; auto. }
  destruct (swap_used r) eqn:Hsw; [destruct Hp; split_and!; auto|]. cbn [orb].
  case_bool_decide; [|done]. by destruct Hs.
Qed.

Lemma settled_pressure r l :
  loop_ok l → settled l → rd_total r = total_of l → pressure r →
  lp_requested (loop_round true r l) = Z.min (lp_plugged l + 256) (maxMiB - minMiB).
Proof using Hrange Hover.
  intros [Hs Hr _ _] Hset Htot Hp. destruct (settled_round r l Hset) as [-> _]. destruct Hset as [Hpl _].
  rewrite target_pressure by done. cbn [fst]. rewrite Htot. unfold total_of.
  assert (0 < rd_total r) by apply Hp. unfold total_of in Htot. rewrite bool_decide_eq_true_2 by lia.
  rewrite Hpl. by apply requested_more.
Qed.

Lemma settled_spare r l :
  loop_ok l → settled l → rd_total r = total_of l → overhead < minMiB → spare r →
  lp_requested (loop_round true r l) =
    if bool_decide (md_spare_count (lp_memd l) = 59) then Z.max (lp_plugged l - 128) 0 else lp_plugged l.
Proof using Hrange Hover.
  intros [Hs Hr _ Hn] Hset Htot Hmin Hsp. destruct (settled_round r l Hset) as [-> _]. destruct Hset as [Hpl _].
  rewrite target_spare by done. rewrite Hpl. unfold total_of in Htot. rewrite Hpl in Htot.
  destruct (bool_decide_reflect (md_spare_count (lp_memd l) = 59)) as [->|Hne]; [|by rewrite bool_decide_eq_false_2 by lia].
  rewrite (bool_decide_eq_true_2 (60 ≤ _)) by lia. cbn [fst]. rewrite Htot, requested_less by done.
  case_bool_decide as Hpos; [done|]. destruct Hs as [k Hk]. lia.
Qed.

(** Giving a slot back does not make a guest of 575 MiB or more short. *)
Lemma spare_enough r r' :
  575 ≤ rd_total r → spare r → rd_total r' = rd_total r - 128 → rd_available r' = rd_available r - 128 →
  swap_used r' = false → ¬ pressure r'.
Proof.
  intros Hbig (_ & _ & _ & Hsh) Htot Ha Hsw (_ & _ & [Hg|Hg]); [|congruence].
  unfold shrink_threshold in Hsh. unfold grow_threshold in Hg.
  rewrite Z.quot_div_nonneg in Hsh by lia. rewrite Z.quot_div_nonneg in Hg by lia.
  pose proof (Z.div_mod (rd_total r * 2) 3). pose proof (Z.mod_pos_bound (rd_total r * 2) 3).
  pose proof (Z.div_mod (rd_total r') 3). pose proof (Z.mod_pos_bound (rd_total r') 3). case_bool_decide; lia.
Qed.
End loop.

(** C24. Guest and host agree on the guest's memory.  For a VM with an accepted
    memory range, in every state of the loop, whatever was available, whichever
    reports were lost or not carried out and however far the guest had come with
    plugging: the memory the host asks for is whole slots within the VM's range,
    and what is plugged is within the range.  Further, where the kernel of the
    guest keeps less than 128 MiB, and less than the VM's minimum, for itself, the last
    target was carried out and the plugging is done ([settled]), a round whose
    report is carried out does this: with the guest short of memory it asks for
    two slots more, up to the maximum; the sixtieth round in a row with much to
    spare gives one back; every other round changes nothing; and when the guest
    has plugged what was asked for the loop is settled again.  There, giving back
    does not make the guest short: with the same memory in use, a guest of 575 MiB
    or more does not ask for it again. *)
Theorem memory_loop vm overhead l r :
  range_valid (vm_MemoryMinMiB vm) (vm_MemoryMaxMiB vm) →
  loop_reachable vm overhead l → rd_total r = total_of vm overhead l →
  let range := vm_MemoryMaxMiB vm - vm_MemoryMinMiB vm in
  (128 | lp_requested l) ∧ 0 ≤ lp_requested l ≤ range ∧ 0 ≤ lp_plugged l ≤ range ∧
  (0 ≤ overhead < 128 → overhead < vm_MemoryMinMiB vm → settled vm l →
   let p := lp_plugged l in
   let l' := loop_round vm true r l in
   (pressure r → lp_requested l' = Z.min (p + 256) range) ∧
   (spare r → lp_requested l' = if bool_decide (md_spare_count (lp_memd l) = 59) then Z.max (p - 128) 0 else p) ∧
   (¬ pressure r → ¬ spare r → lp_requested l' = p) ∧
   settled vm (replugged (lp_requested l') l') ∧
   (∀ r', lp_requested l' < p → 575 ≤ rd_total r → spare r →
      rd_total r' = total_of vm overhead (replugged (lp_requested l') l') →
      rd_available r' = rd_available r - (p - lp_requested l') → swap_used r' = false → ¬ pressure r')).
Proof.
  intros Hrange Hl%loop_reachable_ok Htot range; [|done]. pose proof Hl as [Hs Hr Hp Hn].
  split_and!; try done; try lia. intros Hover Hmin Hset p l'.
  pose proof (settled_spare vm overhead Hrange Hover r l Hl Hset Htot Hmin) as Hspare.
  split_and!.
  - by apply (settled_pressure vm overhead).
  - done.
  - intros Hnp Hns. unfold l'. destruct (settled_round vm r l Hset) as [-> _].
    rewrite target_none; [symmetry; apply Hset| |done..]. rewrite Htot. unfold total_of. lia.
  - by apply settled_round.
  - intros r' Hlt Hbig Hsp Htot' Ha Hsw. fold l' p in Hspare. rewrite (Hspare Hsp) in Hlt, Ha, Htot'.
    case_bool_decide; [|lia]. destruct Hs as [k Hk]. destruct Hset as [Hpl _].
    unfold total_of, replugged in *. cbn [lp_plugged] in *. eapply (spare_enough r r'); [done..|lia|lia|done].
Qed.

(** ** Where the loop is not closed *)

Fixpoint memd_rounds (n : nat) (r : reading) (m : memd) : list (option Z) :=
  match n with
  | O => []
  | S n' => let '(t, m') := memd_round r m in t :: memd_rounds n' r m'
  end.

(** A report that carries a target and gets lost is not repeated: as long as the
    guest reads the same amounts, no later report asks for memory. *)
Lemma lost_report_silent r m t m' n :
  pressure r → memd_round r m = (Some t, m') → Forall (λ x, x = None) (memd_rounds n r m').
Proof.
  intros Hp E.
  assert (∀ m1, md_last_target m1 = Some (rd_total r + 256) →
    memd_round r m1 = (None, MkMemd (Some (rd_total r + 256)) 0)) as Hquiet.
  { intros m1 Hm. unfold memd_round. rewrite target_pressure by done. rewrite Hm, (bool_decide_eq_true_2 (Some _ = _)) by done.
    by rewrite andb_false_r. }
  unfold memd_round in E. rewrite target_pressure in E by done. destruct (_ && _); [|done]. injection E as <- <-.
  assert (∀ m1, md_last_target m1 = Some (rd_total r + 256) → Forall (λ x, x = None) (memd_rounds n r m1)) as Hall.
  { induction n as [|n IH]; intros m1 Hm; cbn [memd_rounds]; [done|]. rewrite Hquiet by done. constructor; [done|]. by apply IH. }
  by apply Hall.
Qed.

(** A guest whose kernel keeps 256 MiB or more for itself asks, under pressure,
    for no more than it has. *)
Lemma large_overhead_stalls vm overhead p :
  range_valid (vm_MemoryMinMiB vm) (vm_MemoryMaxMiB vm) → (128 | p) →
  0 ≤ p ≤ vm_MemoryMaxMiB vm - vm_MemoryMinMiB vm → 256 ≤ overhead →
  requestedMiB vm (vm_MemoryMinMiB vm + p - overhead + 256) ≤ p.
Proof.
  intros Hr [k ->] Hp Ho. pose proof (requestedMiB_spec vm (vm_MemoryMinMiB vm + k * 128 - overhead + 256) Hr) as ([j Hj] & Hb & Hc).
  destruct Hr as (H1 & H2 & [m Hm]). rewrite Hj in *. unfold clampTarget in Hc. repeat case_bool_decide; lia.
Qed.

(** ** Applied *)

Definition idle_reading (total available : Z) : reading := MkReading total available 0 0 0 0 0 0 0 "0.00".

(** A guest whose processes use [used] MiB throughout, each report of which is
    carried out before the next. *)
Fixpoint steady (vm : VM) (overhead used : Z) (n : nat) (l : loop) : loop :=
  match n with
  | O => l
  | S n' => let total := total_of vm overhead l in
            let l' := loop_round vm true (idle_reading total (total - used)) l in
            steady vm overhead used n' (replugged (lp_requested l') l')
  end.

(** With the default range of 384 to 1024 MiB and 150 MiB in use, the guest
    asks for 256 MiB, gives them back within two minutes and asks again: below
    575 MiB the two thresholds are too close for the steps. *)
Example small_guest_swings :
  let after n := lp_plugged (steady (example_vm 384 1024) 40 150 n (MkLoop 0 0 memd_init)) in
  after 1%nat = 256 ∧ after 61%nat = 128 ∧ after 121%nat = 0 ∧ after 122%nat = 256 ∧ after 243%nat = 256.
Proof. vm_compute. split_and!; reflexivity. Qed.

Example report_decodes :
  memory_hint_of (λ _, true) (report_body (idle_reading 344 194) (Some 600)) =
    Ok (MkMemoryHint (Some 600) (report_of (idle_reading 344 194))).
Proof.
  apply memory_hint_read; [|by exists 0, "00"|done|by vm_compute]. unfold amounts_fit, int64. vm_compute. naive_solver.
Qed.

Lemma memory_loop_witness :
  lp_requested (loop_round (example_vm 1024 4096) true (idle_reading 1240 100) (MkLoop 256 256 memd_init)) = 512.
Proof.
  assert (range_valid 1024 4096) as Hr by (split_and!; [lia..|by exists 24]).
  assert (loop_reachable (example_vm 1024 4096) 40 (MkLoop 256 256 memd_init)) as Hl
    by (constructor; [by exists 2|vm_compute; split; discriminate]).
  destruct (memory_loop (example_vm 1024 4096) 40 (MkLoop 256 256 memd_init) (idle_reading 1240 100) Hr Hl eq_refl)
    as (_ & _ & _ & Hset).
  destruct Hset as [Hp _]; [lia|reflexivity|split; [reflexivity|intros t Ht; discriminate Ht]|].
  apply Hp. split_and!; [done..|]. left. vm_compute. reflexivity.
Defined.
