(* ===== verification/ClientCommands.v ===== *)
(** * The client's commands (cmd/firedoze/main.go)

    Each command as a program over the client's machine: the requests it sends,
    in order, what it makes of the answers, the files it writes and the local
    programs it runs.  HTTP is the class [Transport]; the answer to a request is
    what the API encoded ([payload], Api.v) or other text.  A local command is
    the class [LocalCommands].  The API itself is put behind the transport at
    the end, which gives the commands' effect on the daemon. *)

From S2P Require Import Prelude GoStrings Paths IPNet Crypto Json JsonDecode Types Store Config PrivateNet Memory.
From S2P Require Import World FileCopy Host Manager Proxy SnapshotBundle Usage Wireguard SaveFile Api TcpWake.
From S2P Require Import ClientArgs ClientWG ClientConfig ClientShell ClientTables ClientRequests.
Open Scope Z_scope.

(** ** HTTP *)

Record http_request := MkHttp {
  hr_Method : string; hr_URL : string; hr_Body : option string; hr_ContentType : string }.

(** The body of an answer: what the API encoded, or text of something else on
    the way, or what arrived of a body before the connection broke. *)
Inductive answer := FromApi (p : payload) | Bytes (s : string) | CutOff (s : string) (e : error).
Record http_response := MkHttpResponse { hs_Status : Z; hs_Body : answer }.

Class Transport `{FirecrackerVMM} := round_trip : http_request → M World http_response.

(** The text of an error and of a payload, and the payload some text stands for
    when it is decoded into the structure of a command. *)
Class WireText := {
  error_text : error → string;
  payload_text : payload → string;
  parse_payload : string → result payload;
}.

(** A program run on the client's machine, with variables added to its
    environment. *)
Class LocalCommands `{FirecrackerVMM} := run_command : list string → list string → M World unit.

(** Starting a program in the background, how often its broker may still be
    asked, and whether a broker answers on a socket. *)
Class BrokerProcess := {
  broker_pings : nat → string → result unit;
  broker_starts : nat → list string → result unit;
  broker_tries : nat → nat;
  user_id : Z;
}.

(** [uuid.Parse(ref).String()]. *)
Class UuidText := uuid_String : string → string.

(** ** What a command prints *)
Inductive shown :=
  | ShowLines (lines : list string)
  | ShowTable (header : list string) (rows : list (list string))
  | ShowPayload (p : payload)                     (* -json: the answer, indented *)
  | ShowVM (vm : vmInfo)
  | ShowStatus (status : string) (vm : vmInfo)
  | ShowVMs (vms : list vmInfo)
  | ShowObjects (objects : list (list (string * string)))
  | ShowSigned (hostname url : string) (ttl : Z)
  | ShowServer (o : Output)
  | ShowNothing.

Definition zero_vm : VM := MkVM "" "" "" "" 0 0 0 0 0 0 "" "" "" "" "" "" "" false false.
Definition zero_info : vmInfo := MkVMInfo zero_vm "" "" [].

(** ** Decoding the answers

    Into the structure of a command: an object without the member it expects
    leaves the structure as it was. *)
Definition as_any (p : payload) : result payload :=
  match p with
  | PBroken e => Err e
  | PBundle _ => Err (ErrOther "json: syntax error")
  | _ => Ok p
  end.
Definition as_vm (p : payload) : result vmInfo :=
  p ← as_any p; Ok (match p with PVM vm => vm | _ => zero_info end).
Definition as_vms (p : payload) : result (list vmInfo) :=
  p ← as_any p; Ok (match p with PVMs vms => vms | _ => [] end).
Definition as_usages (p : payload) : result (list VMResourceUsage) :=
  p ← as_any p; Ok (match p with PUsages us => us | _ => [] end).
Definition as_snapshots (p : payload) : result (list Snapshot) :=
  p ← as_any p; Ok (match p with PSnapshots ss => ss | _ => [] end).
Definition as_routes (p : payload) : result (list routeInfo) :=
  p ← as_any p; Ok (match p with PRoutes rs => rs | _ => [] end).
Definition as_signed (p : payload) : result (string * string * Z) :=
  p ← as_any p; Ok (match p with PSignedURL h u t => (h, u, t) | PText fields => (default "" (snd <$> (snd <$> list_find (λ f, f.1 = "hostname") fields)), "", 0) | _ => ("", "", 0) end).

(** ** The application *)

Record app := MkApp {
  a_baseURL : string;
  a_brokerSocket : string;
  a_serverName : string;
  a_server : clientServerConfig;
  a_json : bool;
  a_executable : string;                          (* firedozeCommandPath *)
}.

Section commands.
Context `{FirecrackerVMM, Env, GoUnicode, GoSpaces, GoURL, WgTypes, !ClientNet, ClientToml, ClientProcess}.
Context `{UuidLib, UuidText, Timestamps, GoFloats, TcpNet, BrokerProcess, GoTargets, WireText, !Transport, !LocalCommands}.
(** [addSignedURLNext] over net/url: the query parameter [next] set. *)
Context (set_next : string → string → result string).
(** [clientwg.RunBroker], which serves until it has been idle for ten minutes. *)
Context (RunBroker : WGConfig → string → M World unit).
(** [os.Executable], or "firedoze". *)
Context (firedozeCommandPath : string).

(** *** The client *)

Definition error_message (a : answer) : string :=
  match a with
  | FromApi (PError e) => or_string (error_text e) (TrimSpace (payload_text (PError e)))
  | FromApi p => TrimSpace (payload_text p)
  | Bytes s | CutOff s _ =>
      match unmarshal_into "" (into_struct [("error", into_string)]) s with
      | Ok m => or_string m (TrimSpace s)
      | Err _ => TrimSpace s
      end
  end.

Definition doRaw (a : app) (method path : string) (body : option string) (contentType : string) : M World answer :=
  resp ← round_trip (MkHttp method (a_baseURL a +:+ path) body contentType);
  if bool_decide (hs_Status resp < 200) || bool_decide (300 ≤ hs_Status resp)
  then fail (match hs_Body resp with
             | CutOff _ e => e
             | body => ErrAPI (hs_Status resp) (error_message body)
             end)
  else mret (hs_Body resp).

(** The data of an answer, for [json.Unmarshal]. *)
Definition answer_data (a : answer) : result payload :=
  match a with
  | FromApi p => Ok p
  | Bytes s => if is_empty s then Ok (PText []) else parse_payload s
  | CutOff _ e => Err e
  end.

Definition do {A} (decode : payload → result A) (a : app) (method path : string) (body : option json_map) : M World A :=
  answer ← doRaw a method path ((λ m, Marshal (JObject m)) <$> body)
             (match body with Some _ => "application/json" | None => "" end);
  p ← lift_result (answer_data answer);
  lift_result (decode p).

Definition doStreamJSON (a : app) (method path contentType data : string) : M World payload :=
  answer ← doRaw a method path (Some data) contentType;
  p ← lift_result (answer_data answer);
  lift_result (as_any p).

Definition printJSONOrLine (a : app) (value : shown) (line : string) : shown :=
  if a_json a then value else ShowLines [line].

(** *** Virtual machines *)

Definition parseVMUUIDRef (ref : string) : option string :=
  if uuid_Parse_ok ref then Some (uuid_String ref) else None.

Definition find_path (ref : string) : string :=
  match parseVMUUIDRef ref with
  | Some parsed => "/vms/" +:+ PathEscape parsed
  | None => "/vms-by-name/" +:+ PathEscape ref
  end.

Definition findVM (a : app) (ref : string) : M World (option vmInfo) :=
  r ← attempt (do as_vm a "GET" (find_path ref) None);
  match r with
  | Ok vm => mret (Some vm)
  | Err (ErrAPI 404 _) => mret None
  | Err e => fail e
  end.

Definition lookupVM (a : app) (ref : string) : M World vmInfo :=
  found ← findVM a ref;
  match found with Some vm => mret vm | None => fail (ErrOther "VM not found") end.

Definition vm_uuid (vm : vmInfo) : string := vm_UUID (vi_VM vm).
Definition vm_name (vm : vmInfo) : string := vm_Name (vi_VM vm).
Definition vm_ip (vm : vmInfo) : string := vm_PrivateIP (vi_VM vm).

Definition warmBaseImageMetadata (a : app) : M World unit :=
  do as_any a "POST" "/base-image/warmup" None ;; mret tt.

Definition createVM (a : app) (params : vmCreateParams) (name : string) : M World vmInfo :=
  do as_vm a "POST" "/vms" (Some (createVM_body params name)).

Fixpoint create_loop (a : app) (params : vmCreateParams) (names : list string) : M World (list vmInfo) :=
  match names with
  | [] => mret []
  | name :: names' => vm ← createVM a params name; vms ← create_loop a params names'; mret (vm :: vms)
  end.

Definition createVMs (a : app) (params : vmCreateParams) (names : list string) : M World shown :=
  warmBaseImageMetadata a ;;
  created ← create_loop a params names;
  mret (if a_json a then ShowVMs created else ShowLines ((λ vm, vm_name vm +:+ " created") <$> created)).

Definition startVMByUUID (a : app) (vmUUID : string) : M World vmInfo :=
  do as_vm a "POST" ("/vms/" +:+ PathEscape vmUUID +:+ "/start") None.
Definition startVM (a : app) (name : string) : M World vmInfo :=
  vm ← lookupVM a name; startVMByUUID a (vm_uuid vm).
Definition rebootVM (a : app) (name : string) : M World vmInfo :=
  vm ← lookupVM a name; do as_vm a "POST" ("/vms/" +:+ PathEscape (vm_uuid vm) +:+ "/reboot") None.

Definition vmSettings (a : app) (args : list string) : M World shown :=
  '(name, values) ← lift_result (parseNameAndFlags settings_flags args);
  let body := settings_body values in
  if bool_decide (body = []) then fail (ErrOther "no settings provided") else
  vm ← lookupVM a name;
  out ← do as_any a "PATCH" ("/vms/" +:+ PathEscape (vm_uuid vm) +:+ "/settings") (Some body);
  mret (printJSONOrLine a (ShowPayload out) (name +:+ " settings updated")).

Definition updatePublicHTTP (a : app) (name : string) (public : bool) : M World vmInfo :=
  vm ← lookupVM a name;
  do as_vm a "PATCH" ("/vms/" +:+ PathEscape (vm_uuid vm) +:+ "/settings") (Some [("public_http", JBool public)]).

Definition setPublicHTTP (a : app) (name : string) (public : bool) : M World shown :=
  vm ← updatePublicHTTP a name public;
  let status := if public then "public" else "hidden" in
  mret (printJSONOrLine a (ShowStatus status vm) (name +:+ " is now " +:+ status)).

(** The commands that go over several VMs stop at the first error. *)
Fixpoint each_vm {A} (act : string → M World A) (names : list string) : M World (list A) :=
  match names with
  | [] => mret []
  | name :: names' => x ← act name; xs ← each_vm act names'; mret (x :: xs)
  end.

Definition sleep_one (a : app) (name : string) : M World string :=
  vm ← lookupVM a name;
  do as_any a "POST" ("/vms/" +:+ PathEscape (vm_uuid vm) +:+ "/sleep") None ;; mret name.
Definition delete_one (a : app) (name : string) : M World string :=
  vm ← lookupVM a name;
  do as_any a "DELETE" ("/vms/" +:+ PathEscape (vm_uuid vm)) None ;; mret name.

Definition show_names (a : app) (status : string) (names : list string) : shown :=
  if a_json a then ShowObjects ((λ name, [("name", name); ("status", status)]) <$> names)
  else ShowLines ((λ name, name +:+ " " +:+ status) <$> names).

Definition runtimeSinceStart (now : Z) (vm : vmInfo) : string :=
  if negb (bool_decide (vm_State (vi_VM vm) = "running")) || is_empty (vm_LastStartedAt (vi_VM vm)) then "-" else
  match time_Parse (vm_LastStartedAt (vi_VM vm)) with
  | None => "-"
  | Some startedAt => formatDuration (Z.max 0 (now - startedAt))
  end.

Definition list_flags : FlagSet := [("names", FlagBool); ("ids", FlagBool)].

Definition with_names (path : string) (patterns : list string) : string :=
  if bool_decide (patterns = []) then path else path +:+ "?" +:+ values_Encode "name" patterns.

Definition vm_list (a : app) (args : list string) : M World shown :=
  '(values, patterns) ← lift_result (flag_Parse list_flags [] args);
  let namesOnly := flag_bool values "names" in
  let idsOnly := flag_bool values "ids" in
  if namesOnly && idsOnly then fail (ErrOther "firedoze vm list -names and -ids cannot be combined") else
  if a_json a && (namesOnly || idsOnly) then fail (ErrOther "firedoze vm list -names/-ids cannot be combined with -json") else
  vms ← do as_vms a "GET" (with_names "/vms" patterns) None;
  now ← now_ns;
  mret (if a_json a then ShowVMs vms
        else if namesOnly then ShowLines (vm_name <$> vms)
        else if idsOnly then ShowLines (vm_uuid <$> vms)
        else ShowTable ["NAME"; "STATE"; "RUNTIME"; "PRIVATE IP"; "PUBLIC URL"]
               ((λ vm, [vm_name vm; vm_State (vi_VM vm); runtimeSinceStart now vm; vm_ip vm; displayURL vm]) <$> vms)).

Definition vmUsage (a : app) (args : list string) : M World shown :=
  us ← do as_usages a "GET" (with_names "/usage" args) None;
  mret (if a_json a then ShowPayload (PUsages us) else ShowTable usage_header (usage_row <$> us)).

(** *** Connecting *)

Definition usesEmbedded (a : app) : bool := negb (is_empty (a_brokerSocket a)).
Definition proxyCommand (a : app) (vm : vmInfo) : string :=
  sshProxyCommand (usesEmbedded a) (a_executable a) (a_serverName a) (vm_name vm).
Definition sshCommand (a : app) (vm : vmInfo) : list string := sshCommandWithProxy vm (proxyCommand a vm).
Definition remoteExecCommand (a : app) (vm : vmInfo) (commandArgs : list string) : list string :=
  remoteExecCommandWithProxy vm commandArgs (proxyCommand a vm).
Definition rsyncCopyCommand (a : app) (vm : vmInfo) (src dst : copyEndpoint) : result (list string) :=
  rsyncCopyCommandWithProxy vm src dst (proxyCommand a vm).

(** A try every 200 ms until the time is up. *)
Definition waitForSSHWithDial (ip : string) : M World unit :=
  if is_empty ip then fail (ErrOther "VM has no private IP") else
  t ← ticks;
  r ← attempt (wait_loop (tries_left t) (JoinHostPort ip "22"));
  match r with Ok _ => mret tt | Err _ => fail (ErrOther "timed out waiting for SSH") end.

Definition ensureVMReadyForSSH (a : app) (name : string) : M World vmInfo :=
  vm ← lookupVM a name;
  if bool_decide (vm_State (vi_VM vm) = "running") then mret vm else
  vm ← startVMByUUID a (vm_uuid vm);
  waitForSSHWithDial (vm_ip vm) ;;
  mret vm.

Definition touchVMActivityByUUID (a : app) (vmUUID : string) : M World unit :=
  do as_vm a "POST" ("/vms/" +:+ PathEscape vmUUID +:+ "/activity") None ;; mret tt.

(** The first touch of a session; those that follow are [session]
    (ClientShell.v). *)
Definition runWithActivity (a : app) (vm : vmInfo) (argv : list string) : M World shown :=
  attempt (touchVMActivityByUUID a (vm_uuid vm)) ;;
  run_command argv [] ;;
  mret ShowNothing.

Definition ssh (a : app) (args : list string) : M World shown :=
  match args with
  | [] => usage_error
  | name :: rest =>
      vm ← ensureVMReadyForSSH a name;
      runWithActivity a vm (sshCommand a vm ++ rest)
  end.

(** The connection itself is copied in both directions until it ends. *)
Definition sshProxy (a : app) (args : list string) : M World shown :=
  match args with
  | [name] =>
      vm ← ensureVMReadyForSSH a name;
      if is_empty (vm_ip vm) then fail (ErrOther "VM has no private IP") else
      dial_tcp (JoinHostPort (vm_ip vm) "22") ;;
      attempt (touchVMActivityByUUID a (vm_uuid vm)) ;;
      mret ShowNothing
  | _ => usage_error
  end.

Definition exec_args (args : list string) : option (string * list string) :=
  match args with
  | vmName :: first :: rest =>
      let commandArgs := if bool_decide (first = "--") then rest else first :: rest in
      if bool_decide (commandArgs = []) then None else Some (vmName, commandArgs)
  | _ => None
  end.

Definition exec (a : app) (args : list string) : M World shown :=
  match exec_args args with
  | None => usage_error
  | Some (vmName, commandArgs) =>
      vm ← ensureVMReadyForSSH a vmName;
      runWithActivity a vm (remoteExecCommand a vm commandArgs)
  end.

Definition cp (a : app) (args : list string) : M World shown :=
  match args with
  | [src; dst] =>
      '(src, dst) ← lift_result (parseCopyEndpoints src dst);
      vm ← ensureVMReadyForSSH a (vmNameOr src (ce_vmName dst));
      argv ← lift_result (rsyncCopyCommand a vm src dst);
      runWithActivity a vm argv
  | _ => usage_error
  end.

Definition withVMIP (a : app) (args : list string) : M World shown :=
  match args with
  | name :: cmd :: rest =>
      vm ← lookupVM a name;
      if is_empty (vm_ip vm) then fail (ErrOther "VM has no private IP") else
      run_command (cmd :: rest) ["FIREDOZE_VM_IP=" +:+ vm_ip vm] ;;
      mret ShowNothing
  | _ => usage_error
  end.

(** *** vm up *)

Definition publish_on_up (createArgs : list string) (params : vmCreateParams) : bool :=
  if foundFlag createArgs "publish" then vp_PublicHTTP params else true.

Definition with_public (b : bool) (p : vmCreateParams) : vmCreateParams :=
  MkVMCreateParams (vp_VCPUs p) (vp_MemoryMinMiB p) (vp_MemoryMaxMiB p) (vp_DiskBytes p) (vp_DefaultHTTPPort p)
    (vp_IdleSleepAfterSeconds p) (vp_AutoWake p) (vp_NoAutoWake p) b.

Definition up_find (a : app) (params : vmCreateParams) (name : string) : M World vmInfo :=
  found ← findVM a name;
  match found with
  | Some vm => mret vm
  | None =>
      if bool_decide (is_Some (parseVMUUIDRef name)) then fail (ErrOther "VM not found") else
      warmBaseImageMetadata a ;;
      createVM a params name
  end.

Definition up_ready (a : app) (params : vmCreateParams) (name : string) : M World vmInfo :=
  vm ← up_find a params name;
  vm ← (if vp_PublicHTTP params && negb (vm_PublicHTTP (vi_VM vm)) then updatePublicHTTP a name true else mret vm);
  vm ← (if negb (bool_decide (vm_State (vi_VM vm) = "running")) then startVMByUUID a (vm_uuid vm) else mret vm);
  waitForSSHWithDial (vm_ip vm) ;;
  mret vm.

Definition up (a : app) (args : list string) : M World shown :=
  if a_json a then fail (ErrOther "firedoze vm up does not support -json") else
  let '(createArgs, sshArgs) := splitUpArgs args in
  '(params, names) ← lift_result (parseVMCreateArgs createArgs);
  match names with
  | [name] =>
      up_ready a (with_public (publish_on_up createArgs params) params) name ;;
      ssh a (name :: sshArgs)
  | _ => usage_error
  end.

Definition vm (a : app) (args : list string) : M World shown :=
  match args with
  | [] => usage_error
  | cmd :: rest =>
      if bool_decide (cmd = "list" ∨ cmd = "ls") then vm_list a rest
      else if bool_decide (cmd = "usage") then vmUsage a rest
      else if bool_decide (cmd = "inspect" ∨ cmd = "show") then
        match rest with [name] => vm ← lookupVM a name; mret (ShowVM vm) | _ => usage_error end
      else if bool_decide (cmd = "id" ∨ cmd = "uuid") then
        match rest with
        | [name] => vm ← lookupVM a name;
            mret (printJSONOrLine a (ShowObjects [[("uuid", vm_uuid vm)]]) (vm_uuid vm))
        | _ => usage_error
        end
      else if bool_decide (cmd = "create") then
        '(params, names) ← lift_result (parseVMCreateArgs rest); createVMs a params names
      else if bool_decide (cmd = "start") then
        match rest with
        | [name] => vm ← startVM a name;
            mret (printJSONOrLine a (ShowVM vm) (name +:+ " " +:+ pastTense cmd))
        | _ => usage_error
        end
      else if bool_decide (cmd = "stop") then
        match rest with
        | [name] =>
            vm ← lookupVM a name;
            out ← do as_any a "POST" ("/vms/" +:+ PathEscape (vm_uuid vm) +:+ "/" +:+ cmd) None;
            mret (printJSONOrLine a (ShowPayload out) (name +:+ " " +:+ pastTense cmd))
        | _ => usage_error
        end
      else if bool_decide (cmd = "sleep") then
        match rest with [] => usage_error | _ => slept ← each_vm (sleep_one a) rest; mret (show_names a "slept" slept) end
      else if bool_decide (cmd = "reboot") then
        match rest with
        | [] => usage_error
        | _ => rebooted ← each_vm (rebootVM a) rest;
            mret (if a_json a then ShowVMs rebooted else ShowLines ((λ vm, vm_name vm +:+ " rebooted") <$> rebooted))
        end
      else if bool_decide (cmd = "publish" ∨ cmd = "hide") then
        match rest with [name] => setPublicHTTP a name (bool_decide (cmd = "publish")) | _ => usage_error end
      else if bool_decide (cmd = "up") then up a rest
      else if bool_decide (cmd = "delete" ∨ cmd = "rm") then
        match rest with [] => usage_error | _ => deleted ← each_vm (delete_one a) rest; mret (show_names a "deleted" deleted) end
      else if bool_decide (cmd = "settings") then vmSettings a rest
      else fail (ErrOther "unknown vm command")
  end.

(** *** Snapshots *)

(** The bytes of an answer as [io.Copy] reads them, and the error at their end.
    An export that failed at the server ends like any other: its body is what
    was written of the bundle, with the JSON of the error behind it. *)
Definition answer_bytes (a : answer) : string * result unit :=
  match a with
  | FromApi (PBundle bytes) => (bytes, Ok tt)
  | FromApi p => (payload_text p, Ok tt)
  | Bytes s => (s, Ok tt)
  | CutOff s e => (s, Err e)
  end.
Definition copy_body (tmp : string) (a : answer) : M World unit :=
  let '(bytes, err) := answer_bytes a in
  write_at tmp 0 bytes ;; lift_result err.

Definition export_body (a : app) (name tmpPath outputPath : string) : M World unit :=
  answer ← doRaw a "GET" ("/snapshots/" +:+ PathEscape name +:+ "/export") None "";
  copied ← attempt (copy_body tmpPath answer);
  closed ← attempt (ext (mret tt));
  lift_result copied ;;
  lift_result closed ;;
  os_Rename tmpPath outputPath.

Definition create_export_temp (outputPath : string) : M World string :=
  os_CreateTemp (path_Dir outputPath) ("." +:+ filepath_Base outputPath +:+ ".") ".tmp".

Definition exportSnapshot (a : app) (name outputPath : string) : M World shown :=
  if is_empty outputPath then fail (ErrOther "output file is required") else
  tmpPath ← create_export_temp outputPath;
  r ← attempt (export_body a name tmpPath outputPath);
  match r with
  | Err e => attempt (os_Remove tmpPath) ;; fail e
  | Ok _ => mret (printJSONOrLine a (ShowObjects [[("snapshot", name); ("file", outputPath)]])
                    (name +:+ " exported to " +:+ outputPath))
  end.

Definition importSnapshot (a : app) (name inputPath : string) : M World shown :=
  data ← open_read inputPath;
  out ← doStreamJSON a "POST" ("/snapshots/" +:+ PathEscape name +:+ "/import") "application/gzip" data;
  mret (printJSONOrLine a (ShowPayload out) (name +:+ " imported from " +:+ inputPath)).

Definition snapshot (a : app) (args : list string) : M World shown :=
  match args with
  | [] => usage_error
  | cmd :: rest =>
      if bool_decide (cmd = "list" ∨ cmd = "ls") then
        ss ← do as_snapshots a "GET" "/snapshots" None;
        mret (if a_json a then ShowPayload (PSnapshots ss)
              else ShowTable ["NAME"; "SOURCE_VM"; "CREATED_AT"]
                     ((λ s, [sn_Name s; sn_SourceVM s; sn_CreatedAt s]) <$> ss))
      else if bool_decide (cmd = "inspect" ∨ cmd = "show") then
        match rest with
        | [name] => out ← do as_any a "GET" ("/snapshots/" +:+ PathEscape name) None; mret (ShowPayload out)
        | _ => usage_error
        end
      else if bool_decide (cmd = "save") then
        match rest with
        | [name; vmRef] =>
            vm ← lookupVM a vmRef;
            out ← do as_any a "POST" "/snapshots" (Some (snapshot_body name (vm_uuid vm)));
            mret (printJSONOrLine a (ShowPayload out) (name +:+ " saved from " +:+ vmRef))
        | _ => usage_error
        end
      else if bool_decide (cmd = "restore") then
        '(params, snapshotName, vmName) ← lift_result (parseSnapshotRestoreArgs rest);
        out ← do as_any a "POST" ("/snapshots/" +:+ PathEscape snapshotName +:+ "/restore")
                (Some (restoreSnapshotBody params vmName));
        mret (printJSONOrLine a (ShowPayload out) (snapshotName +:+ " restored as " +:+ vmName))
      else if bool_decide (cmd = "export") then
        match rest with [name; file] => exportSnapshot a name file | _ => usage_error end
      else if bool_decide (cmd = "import") then
        match rest with [name; file] => importSnapshot a name file | _ => usage_error end
      else if bool_decide (cmd = "delete" ∨ cmd = "rm") then
        match rest with
        | [name] => out ← do as_any a "DELETE" ("/snapshots/" +:+ PathEscape name) None;
            mret (printJSONOrLine a (ShowPayload out) (name +:+ " deleted"))
        | _ => usage_error
        end
      else fail (ErrOther "unknown snapshot command")
  end.

(** *** Routes *)

Definition route_signed_url (a : app) (args : list string) : M World shown :=
  '(target, ttl) ← lift_result (parseRouteSignedURLArgs args);
  '(hostname, next) ← lift_result (parseRouteSignedURLTarget target);
  '(outHost, outURL, outTTL) ← do as_signed a "POST" "/route-auth/signed-url" (Some (signed_url_body hostname ttl));
  outURL ← (if is_empty next then mret outURL else lift_result (set_next outURL next));
  mret (if a_json a then ShowSigned outHost outURL outTTL else ShowLines [outURL]).

Definition route (a : app) (args : list string) : M World shown :=
  match args with
  | [] => usage_error
  | cmd :: rest =>
      if bool_decide (cmd = "list" ∨ cmd = "ls") then
        rs ← do as_routes a "GET" "/routes" None;
        mret (if a_json a then ShowPayload (PRoutes rs)
              else ShowTable ["NAME"; "VM"; "PORT"; "URL"]
                     ((λ r, [rt_Name (ri_Route r); rt_VMName (ri_Route r); FormatInt (rt_Port (ri_Route r)); ri_URL r]) <$> rs))
      else if bool_decide (cmd = "create") then
        match rest with
        | [name; vmRef; port] =>
            match ParseInt port with
            | None => fail (ErrOther "invalid port")
            | Some p =>
                vm ← lookupVM a vmRef;
                out ← do as_any a "POST" "/routes" (Some (route_body name (vm_uuid vm) p));
                mret (printJSONOrLine a (ShowPayload out) (name +:+ " routes to " +:+ vmRef +:+ ":" +:+ FormatInt p))
            end
        | _ => usage_error
        end
      else if bool_decide (cmd = "delete" ∨ cmd = "rm") then
        match rest with
        | [name] => out ← do as_any a "DELETE" ("/routes/" +:+ PathEscape name) None;
            mret (printJSONOrLine a (ShowPayload out) (name +:+ " deleted"))
        | _ => usage_error
        end
      else if bool_decide (cmd = "protect") then
        match rest with
        | [hostname] => out ← do as_any a "POST" "/route-protections" (Some (hostname_body hostname));
            mret (printJSONOrLine a (ShowPayload out) (hostname +:+ " protected"))
        | _ => usage_error
        end
      else if bool_decide (cmd = "unprotect") then
        match rest with
        | [hostname] => out ← do as_any a "DELETE" ("/route-protections/" +:+ PathEscape hostname) None;
            mret (printJSONOrLine a (ShowPayload out) (hostname +:+ " unprotected"))
        | _ => usage_error
        end
      else if bool_decide (cmd = "get-signed-url") then route_signed_url a rest
      else fail (ErrOther "unknown route command")
  end.

(** *** WireGuard keys *)

Definition private_key_name (cfg : clientConfig) (name : string) : string :=
  let name := or_string (TrimSpace name) (TrimSpace (DefaultServer cfg)) in
  let name := match Servers cfg with [s] => or_string name (cs_Name s) | _ => name end in
  match PendingPeers cfg with [p] => or_string name (pp_Name p) | _ => name end.

Definition findClientWireGuardPrivateKey (cfg : clientConfig) (name : string) : result string :=
  let name := private_key_name cfg name in
  if is_empty name then Err (ErrOther "missing Firedoze server/request name") else
  match findServer cfg name with
  | Some server =>
      match cs_WireGuard server with
      | Some wg => if is_empty (TrimSpace (wgc_PrivateKey wg))
                   then Err (ErrOther "configured Firedoze server has no WireGuard private key")
                   else Ok (wgc_PrivateKey wg)
      | None => Err (ErrOther "configured Firedoze server has no WireGuard private key")
      end
  | None =>
      match findPendingByName cfg name with
      | Some pending => Ok (pp_PrivateKey pending)
      | None => Err (ErrOther "unknown Firedoze server/request")
      end
  end.

Definition wgPubkey (a : app) (args : list string) : M World shown :=
  match args with
  | _ :: _ :: _ => usage_error
  | _ =>
      let name := TrimSpace (match args with [n] => n | _ => a_serverName a end) in
      '(cfg, _) ← loadClientConfig;
      privateKey ← lift_result (findClientWireGuardPrivateKey cfg name);
      publicKey ← lift_result (PublicKeyFromPrivateKey privateKey);
      mret (ShowLines [publicKey])
  end.

Definition wg (a : app) (args : list string) : M World shown :=
  match args with
  | [] => usage_error
  | cmd :: rest =>
      if bool_decide (cmd = "keygen") then
        match rest with
        | [] =>
            t ← ticks;
            keyPair ← ext (lift_result (GenerateClientKeyPair t));
            mret (ShowLines ["private_key = " +:+ ck_PrivateKey keyPair; "public_key = " +:+ ck_PublicKey keyPair])
        | _ => usage_error
        end
      else if bool_decide (cmd = "pubkey") then wgPubkey a rest
      else fail (ErrOther "unknown wg command")
  end.

(** *** The broker of the user-space tunnel *)

Definition os_TempDir : string := or_string (Getenv "TMPDIR") "/tmp".

Definition wireGuardBrokerRuntimeDir : string :=
  let dir := TrimSpace (Getenv "XDG_RUNTIME_DIR") in
  if negb (is_empty dir) then path_Join [dir; "firedoze"]
  else path_Join [os_TempDir; "firedoze-" +:+ FormatInt user_id].

Definition broker_key (server : clientServerConfig) (wg : WGConfig) : string :=
  Join [cs_Name server; cs_APIURL server; wgc_Address wg; wgc_ServerPublicKey wg; wgc_Endpoint wg]
    (String (ascii_of_nat 0) "").

Definition wireGuardBrokerSocketPath (server : clientServerConfig) : result string :=
  match cs_WireGuard server with
  | None => Err (ErrOther "server has no WireGuard config")
  | Some wg =>
      Ok (path_Join [wireGuardBrokerRuntimeDir;
                     "wg-" +:+ hex_encode (str_take 8 (Sum256 (broker_key server wg))) +:+ ".sock"])
  end.

Definition ping (socketPath : string) : M World unit := t ← ticks; ext (lift_result (broker_pings t socketPath)).

(** A try every 100 ms until five seconds are over. *)
Fixpoint ping_loop (n : nat) (socketPath : string) : M World string :=
  match n with
  | O => fail (ErrOther "start wireguard broker")
  | S n' =>
      r ← attempt (ping socketPath);
      match r with Ok _ => mret socketPath | Err _ => ping_loop n' socketPath end
  end.

Definition ensureWireGuardBroker (server : clientServerConfig) : M World string :=
  socketPath ← lift_result (wireGuardBrokerSocketPath server);
  r ← attempt (ping socketPath);
  match r with
  | Ok _ => mret socketPath
  | Err _ =>
      if is_empty (cs_Name server) then fail (ErrOther "imported WireGuard server has no name") else
      t ← ticks;
      ext (lift_result (broker_starts t [firedozeCommandPath; "-server"; cs_Name server; "tunnel-daemon"])) ;;
      t ← ticks;
      ping_loop (broker_tries t) socketPath
  end.

Definition tunnelDaemon (a : app) (args : list string) : M World shown :=
  match args with
  | _ :: _ => usage_error
  | [] =>
      match cs_WireGuard (a_server a) with
      | None => fail (ErrOther "selected server has no imported WireGuard config")
      | Some wg =>
          socketPath ← lift_result (wireGuardBrokerSocketPath (a_server a));
          r ← attempt (RunBroker wg socketPath);
          match r with
          | Ok _ => mret ShowNothing
          | Err e => if bool_decide (e = ErrBrokerAlreadyRunning) then mret ShowNothing else fail e
          end
      end
  end.

(** *** The program *)

Definition commandNeedsAPI (args : list string) : bool :=
  match args with
  | cmd :: _ => bool_decide (cmd ∈ ["health"; "config"; "vm"; "snapshot"; "route"; "ssh"; "ssh-proxy"; "exec"; "cp"; "with-vm-ip"])
  | [] => false
  end.
Definition commandNeedsServerConfig (args : list string) : bool :=
  match args with cmd :: _ => bool_decide (cmd = "tunnel-daemon") | [] => false end.

Definition dispatch (a : app) (args : list string) : M World shown :=
  match args with
  | [] => usage_error
  | cmd :: rest =>
      if bool_decide (cmd ∈ ["help"; "-h"; "--help"]) then mret ShowNothing
      else if bool_decide (cmd = "health") then
        out ← do as_any a "GET" "/health" None; mret (printJSONOrLine a (ShowPayload out) "ok")
      else if bool_decide (cmd = "config") then out ← do as_any a "GET" "/config" None; mret (ShowPayload out)
      else if bool_decide (cmd = "vm") then vm a rest
      else if bool_decide (cmd = "snapshot") then snapshot a rest
      else if bool_decide (cmd = "route") then route a rest
      else if bool_decide (cmd = "wg") then wg a rest
      else if bool_decide (cmd = "server") then o ← server rest; mret (ShowServer o)
      else if bool_decide (cmd = "ssh") then ssh a rest
      else if bool_decide (cmd = "ssh-proxy") then sshProxy a rest
      else if bool_decide (cmd = "exec") then exec a rest
      else if bool_decide (cmd = "cp") then cp a rest
      else if bool_decide (cmd = "with-vm-ip") then withVMIP a rest
      else if bool_decide (cmd = "tunnel-daemon") then tunnelDaemon a rest
      else fail (ErrOther "unknown command")
  end.

(** The client of a server: its URL and the socket of its broker, if it has a
    tunnel. *)
Definition newClientForServer (server : clientServerConfig) : M World (string * string) :=
  normalizedURL ← lift_result (normalizeAPIURL (cs_APIURL server));
  match cs_WireGuard server with
  | None => mret (normalizedURL, "")
  | Some _ => brokerSocket ← ensureWireGuardBroker server; mret (normalizedURL, brokerSocket)
  end.

Definition no_server : clientServerConfig := MkServer "" "" None.

(** Everything before [dispatch]: an error there is exit status 2. *)
Definition prepare (apiURL serverName : string) (json : bool) (args : list string) : M World app :=
  resolved ← (if commandNeedsAPI args || commandNeedsServerConfig args
              then resolveClientServer apiURL serverName else mret no_server);
  '(baseURL, brokerSocket) ← (if commandNeedsAPI args then newClientForServer resolved else mret ("", ""));
  mret (MkApp baseURL brokerSocket (or_string (cs_Name resolved) serverName) resolved json firedozeCommandPath).

(** The exit status and what was printed. *)
Definition run (args : list string) : M World (Z * shown) :=
  match flag_Parse run_flags [] args with
  | Err e => mret (if bool_decide (e = ErrOther "flag: help requested") then 0 else 2, ShowNothing)
  | Ok (_, []) => mret (2, ShowNothing)
  | Ok (values, args) =>
      let apiURL := flag_value values "api" (Getenv "FIREDOZE_API") in
      let serverName := flag_value values "server" (Getenv "FIREDOZE_SERVER") in
      r ← attempt (prepare apiURL serverName (flag_bool values "json") args);
      match r with
      | Err _ => mret (2, ShowNothing)
      | Ok a =>
          out ← attempt (dispatch a args);
          mret (match out with Ok s => (0, s) | Err _ => (1, ShowNothing) end)
      end
  end.
End commands.

(** ** An export is whole or not there *)

Section export.
Context `{FirecrackerVMM, Env, GoUnicode, WireText, !Transport}.
Context (Hnet : ∀ req, Keeps fs (round_trip req)).
Context (a : app) (name outputPath : string).

Abbreviation export_path := ("/snapshots/" +:+ PathEscape name +:+ "/export").

#[local] Instance doRaw_keeps method path body ct : Keeps fs (doRaw a method path body ct).
Proof. unfold doRaw. apply _. Qed.

Lemma export_body_wp m tmp w :
  m !! tmp = None → tmp ≠ outputPath → fs w = <[tmp := File ""]> m →
  wp (export_body a name tmp outputPath) (λ r w',
    is_ok r = false ∧ (∃ c, fs w' = <[tmp := File c]> m) ∨
    ∃ ans w1 data, doRaw a "GET" export_path None "" w = (Ok ans, w1) ∧ answer_bytes ans = (data, Ok tt) ∧
      fs w' = <[outputPath := File data]> m) w.
Proof.
  intros Ht Hne Hw. unfold export_body.
  apply wp_bind_run; [|intros e w1 E; left; split; [done|]; rewrite (keeps_Ok fs _ _ _ _ E); by eexists].
  intros ans w1 E1. pose proof (keeps_Ok fs _ _ _ _ E1) as Hw1. rewrite Hw in Hw1.
  apply wp_bind_attempt. intros copied w2 E2.
  assert ((∃ e, copied = Err e) ∧ (∃ c, fs w2 = <[tmp := File c]> m) ∨
          ∃ data, answer_bytes ans = (data, Ok tt) ∧ copied = Ok tt ∧ fs w2 = <[tmp := File data]> m) as Hcopy.
  { unfold copy_body in E2. destruct (answer_bytes ans) as [data err] eqn:Hans. unfold mbind, M_mbind in E2.
    pose proof (write_temp_wp m tmp data w1 Hw1) as Hwp. unfold wp in Hwp.
    destruct (write_at tmp 0 data w1) as [[[]|e] w3]; cbn [fst snd] in Hwp; destruct Hwp as (c & Hc & Hok);
      injection E2 as <- <-; [|left; eauto].
    destruct err as [[]|e]; [right|left; eauto]. rewrite (Hok eq_refl) in Hc. eauto. }
  apply wp_bind_attempt. intros closed w3 E3. pose proof (keeps_Ok fs _ _ _ _ E3) as Hw3.
  destruct Hcopy as [[[e ->] [c Hc]]|(data & Hans & -> & Hc)].
  { apply wp_bind, wp_lift_result. left. split; [done|]. exists c. congruence. }
  apply wp_bind, wp_lift_result. apply wp_bind, wp_lift_result. destruct closed as [[]|e].
  2:{ left. split; [done|]. exists data. congruence. }
  rewrite Hc in Hw3. eapply wp_mono; [by apply (rename_temp_wp m)|].
  intros r w4 [[Hr Hw4]|Hw4]; [left; split; [done|by eexists]|right]. by exists ans, w1, data.
Qed.

(** What an export makes of the files [m]; [w0] is the state in which the
    request is sent. *)
Definition exported (m : gmap string node) (w0 : World) (ok : bool) (m' : gmap string node) : Prop :=
  (m' !! outputPath = m !! outputPath ∧ ok = false ∨
   ∃ ans w1 data, doRaw a "GET" export_path None "" w0 = (Ok ans, w1) ∧ answer_bytes ans = (data, Ok tt) ∧
     m' !! outputPath = Some (File data)) ∧
  others_kept m outputPath m'.

Lemma exported_left m w0 tmp m' :
  m !! tmp = None → tmp ≠ outputPath → (∀ q, q ≠ tmp → m' !! q = m !! q) → exported m w0 false m'.
Proof.
  intros Ht Hne Hm. split; [left; split; [by apply Hm|done]|].
  intros q n _ Hq. rewrite Hm; [done|congruence].
Qed.

Lemma remove_after tmp e w r w' : (attempt (os_Remove tmp) ;; fail e : M World shown) w = (r, w') →
  r = Err e ∧ (fs w' = fs w ∨ fs w' = delete tmp (fs w)).
Proof.
  intros E. pose proof (remove_temp_wp tmp w) as Hw. unfold wp, mbind, M_mbind, attempt in *.
  destruct (os_Remove tmp w) as [r0 w0]. injection E as <- <-. done.
Qed.

(** C26.  [firedoze snapshot export] never leaves a file that was cut off on the
    way.  Where requests do not touch the client's files and the output's name
    does not end in ".tmp", whatever fails, on the way, at the server or on the
    disk: the output file afterwards is as it was, or holds exactly the body of a successful
    answer that arrived to its end; it is the latter when the command succeeds;
    and every other file is kept.  The body is the bundle where the server's
    export succeeded.  Where it failed part-way the server still answers 200 and
    ends the body, with the JSON of the error behind what it had written, and the
    client cannot tell: [broken_export_kept] below. *)
Theorem export_whole w :
  (∀ z, z +:+ ".tmp" ≠ outputPath) →
  let '(r, w') := exportSnapshot a name outputPath w in
  exported (fs w) (create_export_temp outputPath w).2 (is_ok r) (fs w').
Proof.
  intros Hout. destruct (exportSnapshot a name outputPath w) as [r w'] eqn:E. unfold exportSnapshot in E.
  destruct (is_empty outputPath); [injection E as <- <-; split; [by left|by intros q n]|].
  unfold mbind at 1, M_mbind at 1 in E. destruct (create_export_temp outputPath w) as [rt w0] eqn:E0. cbn [snd].
  pose proof (os_CreateTemp_wp (path_Dir outputPath) ("." +:+ filepath_Base outputPath +:+ ".") ".tmp" w) as Hwp.
  unfold wp in Hwp. change (os_CreateTemp _ _ _ w) with (create_export_temp outputPath w) in Hwp. rewrite E0 in Hwp.
  destruct Hwp as [(tmp & Hr & Ht & Hw0 & z & Hz)|[Hr Hw0]]; cbn [fst snd] in *.
  2:{ destruct rt; [done|]. injection E as <- <-. rewrite Hw0. split; [by left|by intros q n]. }
  assert (tmp ≠ outputPath) as Hne by (subst; apply Hout).
  destruct rt as [tmp'|e]; [destruct Hr as [[= ->]|]; [|done]|].
  2:{ injection E as <- <-. eapply exported_left; [done..|]. intros q Hq. by rewrite Hw0, lookup_insert_ne. }
  unfold mbind at 1, M_mbind at 1, attempt at 1 in E.
  pose proof (export_body_wp (fs w) tmp w0 Ht Hne Hw0) as Hb. unfold wp in Hb.
  destruct (export_body a name tmp outputPath w0) as [rb w1]. cbn [fst snd] in Hb. destruct rb as [[]|e].
  - destruct Hb as [[[=] _]|(ans & w2 & data & Ed & Ha & Hw1)]. injection E as <- <-.
    split; [right; exists ans, w2, data; by rewrite Hw1, lookup_insert_eq|].
    intros q n Hq Hn. by rewrite Hw1, lookup_insert_ne.
  - apply remove_after in E as [-> Hw']. destruct Hb as [[_ [c Hw1]]|(ans & w2 & data & Ed & Ha & Hw1)].
    + eapply exported_left; [done..|]. intros q Hq.
      destruct Hw' as [-> | ->]; rewrite ?lookup_delete_ne by done; by rewrite Hw1, lookup_insert_ne.
    + assert (∀ q, q ≠ tmp → fs w' !! q = <[outputPath := File data]> (fs w) !! q) as Hq
        by (intros q Hq; destruct Hw' as [-> | ->]; rewrite ?lookup_delete_ne by done; by rewrite Hw1).
      split; [right; exists ans, w2, data; by rewrite Hq, lookup_insert_eq|].
      intros q n Hqo Hn. rewrite Hq by congruence. by rewrite lookup_insert_ne.
Qed.
End export.

Definition bundle_server : @Transport toy_vmm := λ _, mret (MkHttpResponse 200 (FromApi (PBundle "bundle"))).
Definition no_text : WireText :=
  {| error_text _ := ""; payload_text _ := ""; parse_payload _ := Err (ErrOther "json: syntax error") |}.
Definition export_app : app := MkApp "http://h:8081" "" "" no_server false "firedoze".
Definition out_world : @World toy_vmm := set_fs (λ _, list_to_map [("/out", Dir); ("/out/other", File "kept")]) empty_world.

Lemma export_whole_witness :
  let out := "/out/s.tar.gz" in
  let '(r, w') := @exportSnapshot toy_vmm calm ascii_only no_text bundle_server export_app "s" out out_world in
  @exported toy_vmm ascii_only no_text bundle_server export_app "s" out (fs out_world)
    (@create_export_temp toy_vmm calm out out_world).2 (is_ok r) (fs w') ∧
  r = Ok (ShowLines ["s exported to /out/s.tar.gz"]) ∧ fs w' !! out = Some (File "bundle").
Proof.
  intros out.
  assert (∀ z, z +:+ ".tmp" ≠ out) as Hout.
  { intros z E. apply (f_equal (λ s, HasSuffix s ".tmp")) in E. by rewrite HasSuffix_app in E. }
  pose proof (@export_whole toy_vmm calm ascii_only no_text bundle_server (λ _ w, eq_refl) export_app "s" out out_world Hout) as Hx.
  assert (let '(r, w') := @exportSnapshot toy_vmm calm ascii_only no_text bundle_server export_app "s" out out_world in
          r = Ok (ShowLines ["s exported to /out/s.tar.gz"]) ∧ fs w' !! out = Some (File "bundle")) as Hr
    by (vm_compute; split; reflexivity).
  destruct (exportSnapshot _ _ _ _) as [r w']. split; [exact Hx|exact Hr].
Defined.

(** An export that breaks at the server is put in place, and reported done. *)
Definition broken_server : @Transport toy_vmm :=
  λ _, mret (MkHttpResponse 200 (FromApi (PBroken (ErrOther "read disk")))).
Definition cut_text : WireText :=
  {| error_text _ := ""; payload_text _ := "bun{}"; parse_payload _ := Err (ErrOther "json: syntax error") |}.

Example broken_export_kept :
  let '(r, w') := @exportSnapshot toy_vmm calm ascii_only cut_text broken_server export_app "s" "/out/s" out_world in
  is_ok r = true ∧ fs w' !! "/out/s" = Some (File "bun{}").
Proof. vm_compute. split; reflexivity. Qed.

(** One that is cut off on the way is not. *)
Example cut_off_export_dropped :
  let '(r, w') := @exportSnapshot toy_vmm calm ascii_only cut_text
    (λ _, mret (MkHttpResponse 200 (CutOff "bun" (ErrOther "unexpected EOF")))) export_app "s" "/out/s" out_world in
  is_ok r = false ∧ fs w' = fs out_world.
Proof. vm_compute. split; reflexivity. Qed.
