(* ===== verification/ClientSystem.v ===== *)
(** * The client and the daemon together

    The commands of ClientCommands.v with the API of Api.v behind their
    transport: a request may be lost on its way, or its answer on the way back.
    The server decodes the bodies the client has marshalled ([go_json],
    ClientRequests.v). *)

From S2P Require Import Prelude GoStrings Paths IPNet Crypto Json JsonDecode Types Store Config PrivateNet Memory.
From S2P Require Import World FileCopy Host Manager ManagerLocks ManagerDisk ManagerInvariant ManagerLifecycle ManagerEffects ManagerExamples Monitors.
From S2P Require Import Proxy SnapshotBundle Usage Wireguard SaveFile Api ApiSafety TcpWake.
From S2P Require Import ClientArgs ClientWG ClientConfig ClientShell ClientTables ClientRequests ClientCommands.
Open Scope Z_scope.

(** ** Handlers that succeed *)

Definition succeeds (resp : response) : Prop := 200 ≤ rs_Status resp < 300.

Lemma found_or_error l e : 300 ≤ found_or l e.
Proof. unfold found_or. repeat case_bool_decide; done. Qed.

Section handlers.
Context `{FirecrackerVMM}.

Lemma writeError_fails status e w resp w' :
  300 ≤ status → writeError status e w = (Ok resp, w') → ¬ succeeds resp.
Proof. intros Hs [= <- _]. unfold succeeds. cbn. lia. Qed.

Lemma or_error_Ok {A} (m : M World A) status k w resp w' :
  (∀ e, 300 ≤ status e) → succeeds resp → or_error m status k w = (Ok resp, w') →
  ∃ x w1, m w = (Ok x, w1) ∧ k x w1 = (Ok resp, w').
Proof.
  intros Hs Hok E. unfold or_error in E. apply bind_Ok in E as ([x|e] & w1 & E1%attempt_Ok & E); [by eauto|].
  by apply writeError_fails in E.
Qed.

Lemma decoded_Ok {A} (r : result A) k w resp w' :
  succeeds resp → decoded r k w = (Ok resp, w') → ∃ x, r = Ok x ∧ k x w = (Ok resp, w').
Proof. intros Hok E. destruct r as [x|e]; [by eauto|]. by apply writeError_fails in E. Qed.

Lemma refuse_Ok b status e k w resp w' :
  300 ≤ status → succeeds resp → refuse b status e k w = (Ok resp, w') → b = false ∧ k w = (Ok resp, w').
Proof. intros Hs Hok E. destruct b; [by apply writeError_fails in E|done]. Qed.

Lemma reconciled_Ok (proxy : option (M World unit)) status v w resp w' :
  succeeds resp → reconciled proxy status v w = (Ok resp, w') →
  reconcileProxy proxy w = (Ok tt, w') ∧ resp = MkResponse status v.
Proof.
  intros Hok E. apply or_error_Ok in E as ([] & w1 & E1 & E); [|done|done]. by injection E as <- <-.
Qed.
End handlers.

Section system.
Context `{FirecrackerVMM, Env, SparseSeek, GoUnicode, UuidLib, TimestampLaws}.
Context `{Kernel, BundleCodec, GoQuote, WgTypes, !RouteAuthSigner}.
Context (cfg : Config) (vmsDir : option string) (NetworkScript : string).
Context (proxy : option (M World unit)) (Hproxy : is_reconciler proxy).
Context (memory_hint_of : string → result memory_hint).
#[local] Instance api_json : ApiJSON := go_json memory_hint_of.

Abbreviation Inv := (inv cfg None).

(** The VM of [info] as the daemon has it. *)
Definition presented (info : vmInfo) (vm : VM) (w : World) : Prop :=
  info = vm_info cfg vm ∧ row (vm_UUID vm) w = Some vm.

#[local] Instance reconcile_keeps_db : Keeps db (reconcileProxy proxy).
Proof. unfold reconcileProxy. destruct proxy; simpl in Hproxy; apply _. Qed.
#[local] Instance reconcile_keeps_running : Keeps running (reconcileProxy proxy).
Proof. unfold reconcileProxy. destruct proxy; simpl in Hproxy; apply _. Qed.

Lemma presented_keeps info vm w w' : db w' = db w → presented info vm w → presented info vm w'.
Proof. intros Hd [Hi Hr]. split; [done|]. unfold row in *. by rewrite Hd. Qed.

Lemma inv_frame w w' : db w' = db w → running w' = running w → Inv w → Inv w'.
Proof. unfold inv. by intros -> ->. Qed.

Lemma reconciled_inv w r w' : reconcileProxy proxy w = (r, w') → Inv w → Inv w'.
Proof.
  intros E. apply inv_frame; [exact (keeps_Ok db _ _ _ _ E)|exact (keeps_Ok running _ _ _ _ E)].
Qed.

(** *** The rows the handlers answer with *)

Lemma GetVMByName_Ok name w vm w' :
  Inv w → dbcall (Store.GetVMByName name) w = (Ok vm, w') →
  row (vm_UUID vm) w = Some vm ∧ vm_Name vm = name ∧ w' = bump w.
Proof.
  intros [Hs _] E. apply dbcall_Ok in E as (s & E & ->). unfold Store.GetVMByName in E.
  destruct (select_vm _ (db w)) as [v|] eqn:Es; [|done]. injection E as -> <-.
  apply select_vm_Ok in Es as (Hn & u & Hu). unfold row. rewrite (ok_uuid _ (so_store _ _ _ Hs) _ _ Hu). done.
Qed.

(** The settings of a VM that a command can give. *)
Definition settings (vm : VM) : Z * Z * Z * Z * Z * Z * bool :=
  (vm_VCPUs vm, vm_MemoryMinMiB vm, vm_MemoryMaxMiB vm, vm_DiskBytes vm, vm_DefaultHTTPPort vm,
   vm_IdleSleepAfterSeconds vm, vm_AutoWake vm).

(** Those of a new VM: the command's, and the daemon's defaults where it gives
    none (a zero); it wakes by itself unless the command says otherwise. *)
Definition asked (p : vmCreateParams) : Z * Z * Z * Z * Z * Z * bool :=
  let fc := Firecracker cfg in
  (or_default (vp_VCPUs p) (fc_DefaultVCPUs fc),
   or_default (vp_MemoryMinMiB p) (fc_DefaultMemoryMinMiB fc),
   or_default (vp_MemoryMaxMiB p) (fc_DefaultMemoryMaxMiB fc),
   or_default (vp_DiskBytes p) (fc_DefaultDiskBytes fc),
   or_default (vp_DefaultHTTPPort p) (DefaultHTTPPort cfg),
   vp_IdleSleepAfterSeconds p, negb (vp_NoAutoWake p)).

Lemma choose_ip_new p w q w' :
  p_PrivateIP p = "" → choose_ip cfg p w = (Ok q, w') → db w' = db w ∧ ∃ ip, q = with_ip ip p.
Proof.
  intros Hip E. unfold choose_ip in E. rewrite Hip in E. simpl in E.
  apply bind_Ok in E as (l & w1 & E1 & E). apply dbcall_Ok in E1 as (s & E1 & ->). injection E1 as _ <-.
  destruct (nextPrivateIP _ _); [|done]. apply bind_Ok in E as (ip & w2 & E2 & E). injection E2 as _ <-.
  injection E as <- <-. eauto.
Qed.

(** A created VM is the row that was inserted; no VM had its name. *)
Lemma CreateVM_row p name w vm w' :
  Inv w → CreateVM cfg (create_params (request_of p name)) w = (Ok vm, w') →
  row (vm_UUID vm) w' = Some vm ∧ vm_Name vm = name ∧ settings vm = asked p ∧
  vm_PublicHTTP vm = vp_PublicHTTP p ∧ ∀ u vm0, row u w = Some vm0 → vm_Name vm0 ≠ name.
Proof.
  intros [Hs _] E. unfold CreateVM in E. apply bind_Ok in E as (b & w1 & E1 & E). destruct b; [done|].
  apply bind_Ok in E as (p1 & w2 & E2 & E). injection E2 as Hfill <-.
  apply bind_Ok in E as (p2 & w3 & E3 & E). apply bind_Ok in E as (md & w4 & E4 & E).
  apply dbcall_Ok in E1 as (s1 & E1 & ->). injection E1 as _ <-. unfold fill_params in Hfill.
  case_bool_decide; [done|]. unfold mbind at 1, result_mbind at 1 in Hfill.
  destruct (validateMemoryHotplugRange _ _); [|done]. case_bool_decide; [done|]. injection Hfill as <-.
  apply choose_ip_new in E3 as (Hd3 & ip & ->); [|done]. pose proof (keeps_Ok db _ _ _ _ E4) as Hd4.
  assert (db w4 = db w) as Hd by (by rewrite Hd4, Hd3).
  apply store_create_Ok in E as (u & now & -> & Hvms & _ & _ & _ & Hfree); [|rewrite Hd; apply Hs].
  unfold row. rewrite Hvms. cbn. rewrite lookup_insert_eq, <-Hd. split_and!; try done.
  unfold settings, asked, wake_of. cbn. by destruct (vp_NoAutoWake p), (vp_AutoWake p).
Qed.

Lemma UpdateVM_row u q w vm w' :
  Inv w → UpdateVM u q w = (Ok vm, w') →
  ∃ vm0, row u w = Some vm0 ∧ row u w' = Some vm ∧ vm_UUID vm = u ∧ vm_Name vm = vm_Name vm0 ∧
    vm_State vm = vm_State vm0 ∧ vm_PublicHTTP vm = default (vm_PublicHTTP vm0) (u_PublicHTTP q) ∧
    (u_DefaultHTTPPort q = None → u_IdleSleepAfterSeconds q = None → u_AutoWake q = None → settings vm = settings vm0).
Proof.
  intros [Hs _] E. unfold UpdateVM in E. apply bind_Ok in E as ([] & w1 & E1 & E). apply bind_Ok in E as ([] & w2 & E2 & E).
  assert (w1 = w) as -> by (repeat case_match; by injection E1).
  assert (w2 = w) as -> by (repeat case_match; by injection E2).
  apply dbcall_Ok in E as (s & E & ->). unfold Store.UpdateVM in E.
  apply bind_Ok in E as (vm0 & s1 & E1' & E). unfold Store.GetVM in E1'. injection E1' as E1' <-.
  destruct (vms (db w) !! u) as [v|] eqn:Hv; [|done]. injection E1' as ->. exists vm0.
  apply bind_Ok in E as ([] & s2 & E3 & E). unfold update_vm in E3. rewrite Hv in E3. injection E3 as <-.
  unfold Store.GetVM in E. cbn in E. rewrite lookup_insert_eq in E. injection E as <- <-.
  unfold row. cbn. rewrite lookup_insert_eq. split_and!; try done.
  - exact (ok_uuid _ (so_store _ _ _ Hs) _ _ Hv).
  - unfold settings. cbn. by intros -> -> ->.
Qed.

(** *** The handlers *)

Lemma get_by_name name w resp w' :
  Inv w → succeeds resp → handleGetVMByName cfg name w = (Ok resp, w') →
  ∃ vm, rs_Body resp = PVM (vm_info cfg vm) ∧ row (vm_UUID vm) w' = Some vm ∧ vm_Name vm = name ∧ w' = bump w.
Proof.
  intros Hw Hok E. apply or_error_Ok in E as (vm & w1 & E1 & E); [|apply found_or_error|done].
  apply GetVMByName_Ok in E1 as (Hr & Hn & ->); [|done]. injection E as <- <-. by exists vm.
Qed.

Lemma get_by_uuid u w resp w' :
  Inv w → succeeds resp → handleGetVM cfg u w = (Ok resp, w') →
  ∃ vm, rs_Body resp = PVM (vm_info cfg vm) ∧ row (vm_UUID vm) w' = Some vm ∧ vm_UUID vm = u ∧ w' = bump w.
Proof.
  intros [Hs _] Hok E. apply or_error_Ok in E as (vm & w1 & E1 & E); [|apply found_or_error|done].
  apply GetVM_Ok in E1 as (Hr & ->). injection E as <- <-.
  pose proof (ok_uuid _ (so_store _ _ _ Hs) _ _ Hr) as Hu. exists vm. by rewrite Hu.
Qed.

Lemma create_handled p name w resp w' :
  Inv w → succeeds resp → params_ok p → is_ascii name = true →
  handleCreateVM cfg proxy (Marshal (JObject (createVM_body p name))) w = (Ok resp, w') →
  Inv w' ∧ ∃ vm, rs_Body resp = PVM (vm_info cfg vm) ∧ row (vm_UUID vm) w' = Some vm ∧ vm_Name vm = name ∧
    settings vm = asked p ∧ vm_PublicHTTP vm = vp_PublicHTTP p ∧ ∀ u vm0, row u w = Some vm0 → vm_Name vm0 ≠ name.
Proof.
  intros Hw Hok Hp Hn E. apply decoded_Ok in E as (req & Er & E); [|done].
  cbn [decode_create api_json go_json] in Er.
  rewrite decode_object, create_read in Er by (done || (rewrite create_body_sorted; auto 20 with fits)).
  injection Er as <-. apply refuse_Ok in E as [Hv%negb_false_iff E]; [|done..].
  apply or_error_Ok in E as (vm & w1 & E1 & E); [|done..].
  pose proof (pres_run Inv _ _ _ _ E1 Hw) as Hw1.
  apply CreateVM_row in E1 as [Hr Hrest]; [|done]. apply reconciled_Ok in E as [E ->]; [|done].
  split; [by eapply reconciled_inv|]. exists vm. unfold row in *. by rewrite (keeps_Ok db _ _ _ _ E).
Qed.

Lemma publish_handled u w resp w' :
  Inv w → succeeds resp →
  handleUpdateVMSettings cfg proxy u (Marshal (JObject [("public_http", JBool true)])) w = (Ok resp, w') →
  Inv w' ∧ ∃ vm vm0, rs_Body resp = PVM (vm_info cfg vm) ∧ row u w = Some vm0 ∧ row u w' = Some vm ∧ vm_UUID vm = u ∧
    vm_Name vm = vm_Name vm0 ∧ settings vm = settings vm0 ∧ vm_PublicHTTP vm = true.
Proof.
  intros Hw Hok E. apply decoded_Ok in E as (req & Er & E); [|done].
  cbn [decode_settings api_json go_json] in Er. rewrite decode_object in Er by done. injection Er as <-.
  apply or_error_Ok in E as (vm & w1 & E1 & E); [|intros e; by case_bool_decide|done].
  pose proof (pres_run Inv _ _ _ _ E1 Hw) as Hw1. apply UpdateVM_row in E1 as (vm0 & U1 & U2 & U3 & U4 & _ & U6 & U7); [|done].
  apply reconciled_Ok in E as [E ->]; [|done]. split; [by eapply reconciled_inv|]. exists vm, vm0.
  unfold row in *. rewrite (keeps_Ok db _ _ _ _ E). by rewrite U7.
Qed.

(** What a start leaves alone in the row: its name, its settings and whether it
    is public. *)
Definition kept (u : string) (w : World) := (λ vm, (vm_Name vm, settings vm, vm_PublicHTTP vm)) <$> row u w.

Lemma update_kept u v f :
  (∀ vm, vm_Name (f vm) = vm_Name vm ∧ settings (f vm) = settings vm ∧ vm_PublicHTTP (f vm) = vm_PublicHTTP vm) →
  Keeps (kept v) (dbcall (update_vm u f)).
Proof.
  intros Hf. apply keeps_ext; [apply _|]. intros w. unfold kept, row, update_vm.
  destruct (vms (db w) !! u) as [vm|] eqn:E; simpl; [|done].
  destruct (decide (u = v)) as [->|Hne]; [|by rewrite lookup_insert_ne].
  rewrite lookup_insert_eq, E. simpl. by destruct (Hf vm) as (-> & -> & ->).
Qed.
#[local] Instance read_kept {A} v (m : M Store A) : (∀ s, (m s).2 = s) → Keeps (kept v) (dbcall m) | 60.
Proof.
  intros Hm. apply keeps_ext; [apply _|]. intros w. specialize (Hm (db w)). destruct (m (db w)); simpl in *. by subst.
Qed.
#[local] Instance SetVMState_kept u v st : Keeps (kept v) (store_SetVMState u st).
Proof. unfold store_SetVMState. apply keeps_bind; [apply _|]. intros now. by apply update_kept. Qed.
#[local] Instance SetVMArchived_kept u v p : Keeps (kept v) (dbcall (Store.SetVMArchivedDiskPath u p)).
Proof. by apply update_kept. Qed.
#[local] Instance GetVM_kept u v : Keeps (kept v) (dbcall (Store.GetVM u)).
Proof. by apply read_kept. Qed.
#[local] Instance loop_kept b u v : Keeps (kept v) (begin_loop 1 b u).
Proof.
  intros w. destruct (begin_loop 1 b u w) as [r w'] eqn:E. apply begin_loop_spec in E as [(Hd & _)%visible_eq _].
  unfold kept, row. simpl. by rewrite Hd.
Qed.
#[local] Instance exited_kept u v : Keeps (kept v) (process_exited u).
Proof. unfold process_exited. apply keeps_bind; [apply _|]. intros run. apply _. Qed.
#[local] Instance stop_kept proc v st : Keeps (kept v) (stopProcess proc st).
Proof. unfold stopProcess, waitForProcessExit. apply _. Qed.
#[local] Instance StopVM_kept u v : Keeps (kept v) (StopVM u).
Proof.
  unfold StopVM. apply keeps_bind; [apply _|]. intros vm. apply keeps_bind; [apply _|]. intros run. apply _.
Qed.
#[local] Instance hydrate_kept vm v : Keeps (kept v) (hydrateColdDisk cfg vm).
Proof.
  assert (∀ a b c, Keeps (kept v) (hydrate_body vm a b c)) as Hb by (intros; unfold hydrate_body; apply _).
  unfold hydrateColdDisk. case_match; [apply _|]. apply keeps_bind; [apply _|].
  intros [|[]]; try apply _; cbv zeta. case_match; [apply _|]. apply keeps_bind; [apply _|].
  intros [|[]]; apply _.
Qed.
#[local] Instance host_bits_kept v : Keeps (kept v) host_bits.
Proof. unfold host_bits. apply _. Qed.
#[local] Instance launch_kept vm l n c v : Keeps (kept v) (launchProcess vmsDir vm l n c).
Proof.
  unfold launchProcess. do 2 (apply keeps_bind; [apply _|intros _]).
  apply keeps_bind; [destruct vmsDir; apply _|]. intros cg.
  apply keeps_bind; [by apply keeps_attempt, keeps_ext; [apply _|intros w]|].
  intros []; [|apply _]. apply keeps_bind; [destruct vmsDir; apply _|]. intros; apply _.
Qed.
#[local] Instance StartVM_kept u v : Keeps (kept v) (StartVM cfg vmsDir NetworkScript u).
Proof.
  assert (Keeps (kept v) (endVMOperation u)) as He by by intros w.
  unfold StartVM, beginStartOperationCancelingColdArchive, resumeVM, boot. apply _.
Qed.

Lemma start_handled u w resp w' :
  Inv w → succeeds resp → handleStartVM cfg vmsDir NetworkScript proxy u w = (Ok resp, w') →
  Inv w' ∧ ∃ vm vm0, rs_Body resp = PVM (vm_info cfg vm) ∧ row u w = Some vm0 ∧ row u w' = Some vm ∧ vm_UUID vm = u ∧
    vm_Name vm = vm_Name vm0 ∧ settings vm = settings vm0 ∧ vm_PublicHTTP vm = vm_PublicHTTP vm0 ∧
    vm_State vm = "running" ∧ is_Some (running w' !! u).
Proof.
  intros Hw Hok E. apply or_error_Ok in E as (vm & w1 & E1 & E); [|apply found_or_error|done].
  pose proof (pres_run Inv _ _ _ _ E1 Hw) as Hw1. pose proof (keeps_Ok (kept u) _ _ _ _ E1) as Hk.
  apply StartVM_up in E1 as (_ & Hr & Hst & proc & Hrun & _); [|apply Hw].
  unfold kept in Hk. change (vms (db w1) !! u) with (row u w1) in Hr. rewrite Hr in Hk.
  destruct (row u w) as [vm0|] eqn:Hr0; [|done]. cbn [fmap option_fmap option_map] in Hk. apply Some_inj in Hk.
  assert (settings vm = settings vm0) as Hset by exact (f_equal (λ x, x.1.2) Hk).
  pose proof (f_equal (λ x, x.1.1) Hk) as Hn. pose proof (f_equal snd Hk) as Hp. clear Hk. cbn in Hn, Hp.
  apply reconciled_Ok in E as [E ->]; [|done]. split; [by eapply reconciled_inv|]. exists vm, vm0.
  pose proof (keeps_Ok db _ _ _ _ E) as Hd. pose proof (keeps_Ok running _ _ _ _ E) as Hrr.
  unfold row in *. rewrite Hd, Hrr, Hrun, lookup_insert_eq. split_and!; try done.
  exact (ok_uuid _ (so_store _ _ _ (proj1 Hw1)) _ _ Hr).
Qed.

(** *** The routes the client's paths take *)

Abbreviation Serve := (ServeHTTP cfg vmsDir NetworkScript proxy).

Lemma route_by_name name body : name ≠ "" →
  Serve (MkRequest "GET" ["vms-by-name"; name] [] body) = handleGetVMByName cfg name.
Proof. intros Hn. destruct name; [done|]. reflexivity. Qed.
Lemma route_by_uuid u body : u ≠ "" → Serve (MkRequest "GET" ["vms"; u] [] body) = handleGetVM cfg u.
Proof. intros Hn. destruct u; [done|]. reflexivity. Qed.
Lemma route_create body : Serve (MkRequest "POST" ["vms"] [] body) = handleCreateVM cfg proxy body.
Proof. reflexivity. Qed.
Lemma route_start u body : u ≠ "" →
  Serve (MkRequest "POST" ["vms"; u; "start"] [] body) = handleStartVM cfg vmsDir NetworkScript proxy u.
Proof. intros Hn. destruct u; [done|]. reflexivity. Qed.
Lemma route_settings u body : u ≠ "" →
  Serve (MkRequest "PATCH" ["vms"; u; "settings"] [] body) = handleUpdateVMSettings cfg proxy u body.
Proof. intros Hn. destruct u; [done|]. reflexivity. Qed.
Lemma route_warmup body : Serve (MkRequest "POST" ["base-image"; "warmup"] [] body) = handleWarmBaseImage cfg.
Proof. reflexivity. Qed.

(** *** The client's calls *)

Context `{UuidText, WireText, TcpNet}.
Context (a : app).

(** The network between the client and the API: the request may be lost, or the
    answer. *)
Definition served : Transport := λ req,
  ext (mret tt) ;;
  match api_request (hr_Method req) (TrimPrefix (hr_URL req) (a_baseURL a)) (default "" (hr_Body req)) with
  | None => mret (MkHttpResponse StatusBadRequest (Bytes "400 Bad Request"))
  | Some rq =>
      resp ← Serve rq;
      ext (mret (MkHttpResponse (rs_Status resp) (FromApi (rs_Body resp))))
  end.
#[local] Existing Instance served.

Definition body_text (body : option json_map) : string := default "" ((λ m, Marshal (JObject m)) <$> body).

(** A call that succeeds was handled by the API, and its answer decoded. *)
Lemma do_Ok {A} (decode : payload → result A) method segs path body w x w' :
  path = url_path segs → segs ≠ [] → do decode a method path body w = (Ok x, w') →
  ∃ resp w1, Serve (MkRequest method segs [] (body_text body)) (bump w) = (Ok resp, w1) ∧ succeeds resp ∧
    decode (rs_Body resp) = Ok x ∧ w' = bump w1.
Proof.
  intros -> Hs E. unfold do, doRaw in E.
  apply bind_Ok in E as (ans & w1 & E1 & E). apply bind_Ok in E as (p & w2 & E2 & E). injection E2 as Hp <-.
  injection E as Hx <-. apply bind_Ok in E1 as (resp & w3 & E3 & E1).
  unfold round_trip, served in E3. apply bind_Ok in E3 as ([] & w4 & E4 & E3). apply ext_Ok in E4. injection E4 as <-.
  cbn [hr_Method hr_URL hr_Body] in E3. rewrite TrimPrefix_app in E3.
  change (default "" (_ <$> body)) with (body_text body) in E3. rewrite api_request_path in E3 by done.
  apply bind_Ok in E3 as (r & w5 & E5 & E3). apply ext_Ok in E3. injection E3 as <- <-. cbn [hs_Status hs_Body] in E1.
  destruct (bool_decide _ || bool_decide _) eqn:Hst; [done|]. injection E1 as <- <-.
  apply orb_false_iff in Hst as [H1'%bool_decide_eq_false H2'%bool_decide_eq_false].
  injection Hp as <-. exists r, w5. split_and!; try done; unfold succeeds; lia.
Qed.

Lemma Inv_bump w : Inv w → Inv (bump w).
Proof. done. Qed.

(** A reference: a name, or a UUID in any of the forms the library reads. *)
Definition refers (ref : string) (vm : VM) : Prop :=
  match parseVMUUIDRef ref with Some u => vm_UUID vm = u | None => vm_Name vm = ref end.

Lemma as_vm_PVM vm x : as_vm (PVM vm) = Ok x → x = vm.
Proof. by intros [= <-]. Qed.

Context (Huuid : ∀ ref, uuid_String ref ≠ "").

Lemma findVM_Ok ref w info w' :
  Inv w → ref ≠ "" → findVM a ref w = (Ok (Some info), w') →
  Inv w' ∧ ∃ vm, presented info vm w' ∧ refers ref vm.
Proof.
  intros Hw Hne E. unfold findVM in E. apply bind_Ok in E as (r & w1 & E1%attempt_Ok & E).
  destruct r as [x|e]; [injection E as <- <-|repeat case_match; done].
  unfold find_path, refers in *. destruct (parseVMUUIDRef ref) as [u|] eqn:Hu.
  - apply (do_Ok _ _ ["vms"; u]) in E1 as (resp & w2 & E1 & Hok & Hx & ->); [|done..].
    rewrite route_by_uuid in E1 by (unfold parseVMUUIDRef in Hu; destruct (uuid_Parse_ok ref); [by simplify_eq|done]).
    apply get_by_uuid in E1 as (vm & Hb & Hr & Hv & ->); [|done..]. rewrite Hb in Hx. apply as_vm_PVM in Hx as ->.
    split; [done|]. by exists vm.
  - apply (do_Ok _ _ ["vms-by-name"; ref]) in E1 as (resp & w2 & E1 & Hok & Hx & ->); [|done..].
    rewrite route_by_name in E1 by done.
    apply get_by_name in E1 as (vm & Hb & Hr & Hv & ->); [|done..]. rewrite Hb in Hx. apply as_vm_PVM in Hx as ->.
    split; [done|]. by exists vm.
Qed.

Lemma info_uuid vm : vm_uuid (vm_info cfg vm) = vm_UUID vm ∧ vm_State (vi_VM (vm_info cfg vm)) = vm_State vm ∧
  vm_PublicHTTP (vi_VM (vm_info cfg vm)) = vm_PublicHTTP vm.
Proof. unfold vm_uuid, vm_info. cbn. by case_bool_decide. Qed.

Lemma lookupVM_Ok ref w info w' :
  Inv w → ref ≠ "" → lookupVM a ref w = (Ok info, w') → Inv w' ∧ ∃ vm, presented info vm w' ∧ refers ref vm.
Proof.
  intros Hw Hne E. unfold lookupVM in E. apply bind_Ok in E as ([x|] & w1 & E1 & E); [|done].
  injection E as <- <-. by eapply findVM_Ok.
Qed.

Lemma start_Ok u w info w' :
  Inv w → startVMByUUID a u w = (Ok info, w') →
  Inv w' ∧ ∃ vm vm0, presented info vm w' ∧ row u w = Some vm0 ∧ vm_UUID vm = u ∧ vm_Name vm = vm_Name vm0 ∧
    settings vm = settings vm0 ∧ vm_PublicHTTP vm = vm_PublicHTTP vm0 ∧ vm_State vm = "running" ∧ is_Some (running w' !! u).
Proof.
  intros Hw E. unfold startVMByUUID in E.
  apply (do_Ok _ _ ["vms"; u; "start"]) in E as (resp & w1 & E & Hok & Hx & ->); [|done..].
  destruct (decide (u = "")) as [->|Hu]; [by apply writeError_fails in E|]. rewrite route_start in E by done.
  apply start_handled in E as (Hi & vm & vm0 & Hb & Hr0 & Hr & <- & Hrest); [|done..].
  rewrite Hb in Hx. apply as_vm_PVM in Hx as ->. split; [done|]. exists vm, vm0. done.
Qed.

(** Two rows a reference refers to are one. *)
Lemma refers_unique ref vm vm' w :
  Inv w → row (vm_UUID vm) w = Some vm → row (vm_UUID vm') w = Some vm' → refers ref vm → refers ref vm' → vm' = vm.
Proof.
  intros [Hs _] Hr Hr' H1' H2'. unfold refers, row in *. destruct (parseVMUUIDRef ref) as [u|].
  - congruence.
  - assert (vm_UUID vm = vm_UUID vm') as Hu by (eapply (ok_name _ (so_store _ _ _ Hs)); [done|done|congruence]).
    congruence.
Qed.

(** A lookup changes nothing at the daemon, whatever its answer. *)
Lemma do_keeps {A B} (f : World → B) (decode : payload → result A) method segs body :
  NoTick f → segs ≠ [] → Keeps f (Serve (MkRequest method segs [] (body_text body))) →
  Keeps f (do decode a method (url_path segs) body).
Proof.
  intros Hf Hs Hk. unfold do, doRaw, round_trip, served. cbn [hr_Method hr_URL hr_Body].
  rewrite TrimPrefix_app, api_request_path by done.
  change (default "" (_ <$> body)) with (body_text body). apply _.
Qed.

Definition daemon_view (w : World) := (db w, running w).

#[local] Instance view_read {A} (m : M Store A) : (∀ s, (m s).2 = s) → Keeps daemon_view (dbcall m) | 60.
Proof.
  intros Hm. apply keeps_ext; [apply _|]. intros w. specialize (Hm (db w)). destruct (m (db w)); simpl in *. by subst.
Qed.

Lemma find_view ref w r w' : ref ≠ "" → findVM a ref w = (r, w') → daemon_view w' = daemon_view w.
Proof.
  intros Hne E. assert (Keeps daemon_view (findVM a ref)) as Hk.
  { unfold findVM. apply keeps_bind; [|intros r0; repeat case_match; apply _]. apply keeps_attempt.
    unfold find_path. destruct (parseVMUUIDRef ref) as [u|] eqn:Hu.
    - apply (do_keeps _ _ _ ["vms"; u]); [apply _|done|]. cbn [body_text default].
      rewrite route_by_uuid by (unfold parseVMUUIDRef in Hu; destruct (uuid_Parse_ok ref); [by simplify_eq|done]).
      unfold handleGetVM, or_error. apply keeps_bind; [by apply keeps_attempt, view_read|]. intros []; apply _.
    - apply (do_keeps _ _ _ ["vms-by-name"; ref]); [apply _|done|]. cbn [body_text default].
      rewrite route_by_name by done.
      unfold handleGetVMByName, or_error. apply keeps_bind; [by apply keeps_attempt, view_read|]. intros []; apply _. }
  exact (keeps_Ok daemon_view _ _ _ _ E).
Qed.

Lemma find_inv ref w r w' : ref ≠ "" → findVM a ref w = (r, w') → Inv w → Inv w'.
Proof. intros Hne E. apply find_view in E as [= Hd Hr]; [|done]. by apply inv_frame. Qed.

Lemma lookup_view ref w info w' : ref ≠ "" → lookupVM a ref w = (Ok info, w') → daemon_view w' = daemon_view w.
Proof.
  intros Hne E. unfold lookupVM in E. apply bind_Ok in E as (o & w1 & E1 & E). apply find_view in E1; [|done].
  by destruct o; injection E as _ <-.
Qed.

Lemma publish_Ok name w vm info w' :
  Inv w → row (vm_UUID vm) w = Some vm → refers name vm → name ≠ "" →
  updatePublicHTTP a name true w = (Ok info, w') →
  Inv w' ∧ ∃ vm', presented info vm' w' ∧ refers name vm' ∧ vm_UUID vm' = vm_UUID vm ∧ settings vm' = settings vm ∧
    vm_PublicHTTP vm' = true.
Proof.
  intros Hw Hvm Hrv Hne E. unfold updatePublicHTTP in E. apply bind_Ok in E as (found & w1 & E1 & E).
  pose proof (lookup_view _ _ _ _ Hne E1) as [= Hd _].
  apply lookupVM_Ok in E1 as (Hw1 & vm2 & [-> Hr] & Href); [|done..].
  assert (row (vm_UUID vm) w1 = Some vm) as Hvm1 by (unfold row in *; by rewrite Hd).
  pose proof (refers_unique name vm vm2 w1 Hw1 Hvm1 Hr Hrv Href) as ->. rewrite (proj1 (info_uuid vm)) in E.
  apply (do_Ok _ _ ["vms"; vm_UUID vm; "settings"]) in E as (resp & w2 & E & Hok & Hx & ->); [|done..].
  destruct (decide (vm_UUID vm = "")) as [Hz|Hu]; [rewrite Hz in E; by apply writeError_fails in E|].
  rewrite route_settings in E by done.
  apply publish_handled in E as (Hi & vm1 & vm0 & Hb & Hr0 & Hr1 & Hu1 & Hn & Hset & Hp); [|done..].
  rewrite Hb in Hx. apply as_vm_PVM in Hx as ->. split; [done|]. exists vm1.
  unfold row in Hr, Hr0. cbn in Hr0. rewrite Hr in Hr0. injection Hr0 as <-.
  assert (refers name vm1) by (unfold refers in *; case_match; congruence).
  rewrite <-Hu1 in Hr1. done.
Qed.

Lemma create_Ok p name w info w' :
  Inv w → params_ok p → is_ascii name = true → createVM a p name w = (Ok info, w') →
  Inv w' ∧ ∃ vm, presented info vm w' ∧ vm_Name vm = name ∧ settings vm = asked p ∧
    vm_PublicHTTP vm = vp_PublicHTTP p ∧ ∀ u vm0, row u w = Some vm0 → vm_Name vm0 ≠ name.
Proof.
  intros Hw Hp Hn E. unfold createVM in E.
  apply (do_Ok _ _ ["vms"]) in E as (resp & w1 & E & Hok & Hx & ->); [|done..].
  rewrite route_create in E. apply create_handled in E as (Hi & vm & Hb & Hr & Hrest); [|done..].
  rewrite Hb in Hx. apply as_vm_PVM in Hx as ->. split; [done|]. by exists vm.
Qed.

Lemma warm_Ok w w' : Inv w → warmBaseImageMetadata a w = (Ok tt, w') → Inv w' ∧ db w' = db w.
Proof.
  intros Hw E. unfold warmBaseImageMetadata in E. apply bind_Ok in E as (x & w1 & E & E1). injection E1 as <-.
  apply (do_Ok _ _ ["base-image"; "warmup"]) in E as (resp & w2 & E & Hok & _ & ->); [|done..].
  rewrite route_warmup in E. apply or_error_Ok in E as (md & w3 & E1 & E); [|done..]. injection E as _ <-.
  pose proof (keeps_Ok db _ _ _ _ E1) as Hd. split; [|exact Hd].
  apply Inv_bump. eapply inv_frame; [exact Hd|exact (keeps_Ok running _ _ _ _ E1)|done].
Qed.

(** *** Getting a VM ready *)

#[local] Instance wait_loop_keeps {B} (f : World → B) n addr : NoTick f → Keeps f (wait_loop n addr).
Proof.
  intros Hf. induction n as [|n IH]; cbn [wait_loop]; (apply keeps_bind; [unfold dial_tcp; apply _|]); intros []; apply _.
Qed.
#[local] Instance wait_keeps {B} (f : World → B) ip : NoTick f → Keeps f (waitForSSHWithDial ip).
Proof. intros Hf. unfold waitForSSHWithDial. apply _. Qed.

(** The daemon's row of a VM that runs and is the one that was asked for. *)
Definition ready (ref : string) (info : vmInfo) (vm : VM) (w : World) : Prop :=
  Inv w ∧ presented info vm w ∧ refers ref vm ∧ vm_State vm = "running".

Lemma waited ref info vm ip w r w' : waitForSSHWithDial ip w = (r, w') → ready ref info vm w → ready ref info vm w'.
Proof.
  intros E (Hi & Hp & Hr). split; [|split; [|done]].
  - eapply inv_frame; [exact (keeps_Ok db _ _ _ _ E)|exact (keeps_Ok running _ _ _ _ E)|done].
  - eapply presented_keeps; [exact (keeps_Ok db _ _ _ _ E)|done].
Qed.

(** A start of the VM that was found gives the same VM, running. *)
Lemma started ref info vm w info' w' :
  Inv w → presented info vm w → refers ref vm → startVMByUUID a (vm_uuid info) w = (Ok info', w') →
  ∃ vm', ready ref info' vm' w' ∧ vm_UUID vm' = vm_UUID vm ∧ settings vm' = settings vm ∧
    vm_PublicHTTP vm' = vm_PublicHTTP vm.
Proof.
  intros Hw [-> Hr] Href E. rewrite (proj1 (info_uuid vm)) in E.
  apply start_Ok in E as (Hw' & vm' & vm0 & Hp & Hr0 & Hu & Hn & Hset & Hpub & Hst & _); [|done].
  rewrite Hr in Hr0. injection Hr0 as <-. exists vm'. split; [|done]. split_and!; try done; try apply Hp.
  unfold refers in *. case_match; congruence.
Qed.

Lemma ensure_Ok ref w info w' :
  Inv w → ref ≠ "" → ensureVMReadyForSSH a ref w = (Ok info, w') → ∃ vm, ready ref info vm w'.
Proof.
  intros Hw Hne E. unfold ensureVMReadyForSSH in E. apply bind_Ok in E as (found & w1 & E1 & E).
  apply lookupVM_Ok in E1 as (Hw1 & vm & Hp & Href); [|done..]. case_bool_decide as Hst.
  - injection E as <- <-. exists vm. destruct Hp as [-> Hr]. rewrite (proj1 (proj2 (info_uuid vm))) in Hst. done.
  - apply bind_Ok in E as (info1 & w2 & E2 & E). apply bind_Ok in E as ([] & w3 & E3 & E). injection E as <- <-.
    destruct (started ref found vm w1 info1 w2 Hw1 Hp Href E2) as (vm' & Hr & _). exists vm'. by eapply waited.
Qed.

(** The VM that is brought up: a new one with what the command asked for, or
    the one there was, as it was. *)
Definition brought (params : vmCreateParams) (name : string) (pub : bool → bool) (w : World) (vm : VM) : Prop :=
  ((∀ u vm0, row u w = Some vm0 → ¬ refers name vm0) ∧ parseVMUUIDRef name = None ∧
   settings vm = asked params ∧ vm_PublicHTTP vm = vp_PublicHTTP params) ∨
  (∃ vm0, row (vm_UUID vm0) w = Some vm0 ∧ refers name vm0 ∧
   vm_UUID vm = vm_UUID vm0 ∧ settings vm = settings vm0 ∧ vm_PublicHTTP vm = pub (vm_PublicHTTP vm0)).

Lemma up_find_Ok params name w info w' :
  Inv w → params_ok params → is_ascii name = true → name ≠ "" → up_find a params name w = (Ok info, w') →
  Inv w' ∧ ∃ vm, presented info vm w' ∧ refers name vm ∧ brought params name id w vm.
Proof.
  intros Hw Hp Ha Hne E. unfold up_find in E. apply bind_Ok in E as ([x|] & w1 & E1 & E).
  - injection E as <- <-. pose proof (find_view _ _ _ _ Hne E1) as [= Hd _].
    apply findVM_Ok in E1 as (Hw1 & vm & Hpr & Href); [|done..]. split; [done|]. exists vm. split; [done|].
    split; [done|]. right. exists vm. destruct Hpr as [_ Hr]. unfold row in *. by rewrite <-Hd.
  - case_bool_decide as Hu; [done|]. apply bind_Ok in E as ([] & w2 & E2 & E).
    assert (parseVMUUIDRef name = None) as Hname by (by apply eq_None_not_Some).
    assert (Inv w1) as Hw1 by exact (find_inv _ _ _ _ Hne E1 Hw).
    pose proof (find_view _ _ _ _ Hne E1) as [= Hd1 _].
    apply warm_Ok in E2 as [Hw2 Hd2]; [|done].
    apply create_Ok in E as (Hw' & vm & Hpr & Hn & Hset & Hpub & Hfree); [|done..].
    split; [done|]. exists vm. split; [done|]. unfold refers. rewrite Hname. split; [done|]. left.
    split; [|done]. intros u vm0 Hr. unfold refers. rewrite Hname. apply (Hfree u). unfold row in *. by rewrite Hd2, Hd1.
Qed.

Lemma up_ready_Ok params name w info w' :
  Inv w → params_ok params → is_ascii name = true → name ≠ "" → up_ready a params name w = (Ok info, w') →
  ∃ vm, ready name info vm w' ∧ brought params name (orb (vp_PublicHTTP params)) w vm.
Proof.
  intros Hw Hp Ha Hne E. unfold up_ready in E. apply bind_Ok in E as (i1 & w1 & E1 & E).
  apply up_find_Ok in E1 as (Hw1 & vm1 & Hp1 & Hr1 & Hb1); [|done..].
  apply bind_Ok in E as (i2 & w2 & E2 & E).
  assert (Inv w2 ∧ ∃ vm2, presented i2 vm2 w2 ∧ refers name vm2 ∧ brought params name (orb (vp_PublicHTTP params)) w vm2)
    as (Hw2 & vm2 & Hp2 & Hr2 & Hb2).
  { pose proof Hp1 as [-> Hrow1]. rewrite (proj2 (proj2 (info_uuid vm1))) in E2.
    destruct (vp_PublicHTTP params && negb (vm_PublicHTTP vm1)) eqn:Hb.
    - apply andb_prop in Hb as [Hpub Hv%negb_true_iff].
      apply (publish_Ok _ _ vm1) in E2 as (Hi & vm2 & ? & ? & Hu2 & Hs2 & Hp2); [|done..].
      split; [done|]. exists vm2. do 2 (split; [done|]). unfold brought. rewrite Hu2, Hs2, Hp2, Hpub.
      destruct Hb1 as [(? & ? & ? & Hq)|(vm0 & ? & ? & ? & ? & _)]; [congruence|right; by exists vm0].
    - injection E2 as <- <-. split; [done|]. exists vm1. do 2 (split; [done|]).
      destruct Hb1 as [?|(vm0 & ? & ? & ? & ? & Hv)]; [by left|right]. exists vm0. split_and!; try done.
      rewrite Hv in *. by destruct (vp_PublicHTTP params), (vm_PublicHTTP vm0). }
  apply bind_Ok in E as (i3 & w3 & E3 & E). apply bind_Ok in E as ([] & w4 & E4 & E). injection E as <- <-.
  case_bool_decide as Hst; cbn [negb] in E3.
  - injection E3 as <- <-. exists vm2. split; [|done]. eapply waited; [done|]. split_and!; try done; try apply Hp2.
    destruct Hp2 as [-> _]. by rewrite (proj1 (proj2 (info_uuid vm2))) in Hst.
  - destruct (started name i2 vm2 w2 i3 w3 Hw2 Hp2 Hr2 E3) as (vm3 & Hr & Hu3 & Hs3 & Hp3). exists vm3.
    split; [by eapply waited|]. unfold brought in *. by rewrite Hu3, Hs3, Hp3.
Qed.

Context `{!LocalCommands}.

(** The VM that is ready is found again. *)
Lemma ensure_again ref info vm w info' w' :
  ready ref info vm w → ref ≠ "" → ensureVMReadyForSSH a ref w = (Ok info', w') →
  info' = info ∧ ready ref info vm w'.
Proof.
  intros (Hw & [-> Hr] & Href & Hst) Hne E. unfold ensureVMReadyForSSH in E. apply bind_Ok in E as (found & w1 & E1 & E).
  pose proof (lookup_view _ _ _ _ Hne E1) as [= Hd Hrun].
  apply lookupVM_Ok in E1 as (Hw1 & vm' & [-> Hr'] & Href'); [|done..].
  assert (row (vm_UUID vm) w1 = Some vm) as Hr1 by (unfold row in *; by rewrite Hd).
  pose proof (refers_unique ref vm vm' w1 Hw1 Hr1 Hr' Href Href') as ->.
  rewrite (proj1 (proj2 (info_uuid vm))), Hst, bool_decide_eq_true_2 in E by done. injection E as <- <-. done.
Qed.

End system.

(** ** Applied: "web" is brought up on a fresh host *)

Definition plain_uuids : UuidText := λ ref, "u" +:+ ref.
Definition plain_text : WireText :=
  {| error_text _ := "error"; payload_text _ := ""; parse_payload _ := Err (ErrOther "json: syntax error") |}.
Definition open_port : TcpNet :=
  {| original_dst _ := Err ErrNotExist; dial _ _ := Ok tt; tries_left _ := 3%nat; listen _ _ := Ok tt |}.
(** A local command leaves its first arguments behind, so that a run shows it. *)
Definition recorded : @LocalCommands toy_vmm := λ argv _, modify (set_fs <["/ran" := File (Join argv " ")]>).

Definition cli : app := MkApp "http://10.0.0.1:8081" "" "home" no_server false "firedoze".

#[local] Abbreviation network := (@served toy_vmm calm dense_seek ascii_only uuid_shape decimal_stamps quiet_kernel
  code_codec ascii_quote plain_keys no_signer cold_config None "script" None
  (λ _, Err (ErrOther "invalid character")) cli).

Definition vm_up (args : list string) (w : @World toy_vmm) : result shown * @World toy_vmm :=
  @up toy_vmm calm ascii_only uuid_shape plain_uuids open_port plain_text network recorded cli args w.

Definition up_args : list string := ["web"; "-memory-max-mib"; "1024"; "-disk-bytes=4"; "--"; "-v"].

Example vm_up_ran :
  (vm_up up_args host_world).1 = Ok ShowNothing ∧
  fs (vm_up up_args host_world).2 !! "/ran" =
    Some (File (Join (sshTransportCommand "" ++ ["ubuntu@fd7a:115c:a1e0::3"; "-v"]) " ")).
Proof. vm_compute. split; reflexivity. Qed.

