(* ===== verification/Hello.v ===== *)
(** * The demonstration server (cmd/firedoze-hello/main.go)

    The binary the image builder puts into every guest: it answers each request
    with a page about the machine.  The clock, the host name, files, commands
    and network interfaces are the class [Machine]. *)

From S2P Require Import Prelude GoStrings Paths IPNet Json Config Memory.
Open Scope Z_scope.

(** An interface's name, and its addresses: an address is a [*net.IPNet], or
    something else. *)
Record interface := MkInterface { if_name : string; if_addrs : result (list (option (Z * Z))) }.

Class Machine := {
  now_RFC3339 : string;
  os_Hostname : result string;
  os_ReadFile : string → result string;
  command_output : list string → result string;
  net_Interfaces : result (list interface);
  os_Getuid : Z;
  parse_float_int64 : string → option Z;   (* strconv.ParseFloat, truncated to an int64 *)
}.

Definition nl : string := String (ascii_of_nat 10) "".
Definition text_line (s : string) : string := s +:+ nl.

Section hello.
Context `{GoUnicode, Machine}.

Definition realCommandOutput (argv : list string) : string :=
  match command_output argv with Ok data => data | Err _ => "" end.
Definition readText (path : string) : string :=
  match os_ReadFile path with Ok data => data | Err _ => "" end.

Definition userText : string :=
  let name := TrimSpace (realCommandOutput ["id"; "-un"]) in
  let name := if is_empty name then "uid" else name in
  let id := TrimSpace (realCommandOutput ["id"]) in
  if negb (is_empty id) then id else name +:+ " (uid " +:+ FormatInt os_Getuid +:+ ")".

Definition kernelText : string :=
  let kernel := TrimSpace (realCommandOutput ["uname"; "-s"; "-r"]) in
  if negb (is_empty kernel) then kernel else
  let name := TrimSpace (readText "/proc/sys/kernel/ostype") in
  let release := TrimSpace (readText "/proc/sys/kernel/osrelease") in
  if negb (is_empty name) || negb (is_empty release) then TrimSpace (name +:+ " " +:+ release) else "unknown".

(** Days, hours and minutes of a number of seconds. *)
Definition uptime_parts (seconds : Z) : Z * Z * Z :=
  (Z.quot seconds 86400, Z.quot (Z.rem seconds 86400) 3600, Z.quot (Z.rem seconds 3600) 60).

Definition uptime_format (seconds : Z) : string :=
  let '(days, hours, minutes) := uptime_parts seconds in
  if bool_decide (0 < days) then FormatInt days +:+ "d " +:+ FormatInt hours +:+ "h " +:+ FormatInt minutes +:+ "m"
  else if bool_decide (0 < hours) then FormatInt hours +:+ "h " +:+ FormatInt minutes +:+ "m"
  else FormatInt minutes +:+ "m".

Definition uptimeText : string :=
  match os_ReadFile "/proc/uptime" with
  | Err _ => "unknown"
  | Ok data =>
      let secondsText := match Cut data " " with Some (s, _) => s | None => data end in
      match parse_float_int64 secondsText with None => "unknown" | Some seconds => uptime_format seconds end
  end.

Definition firstFields (path : string) (count : nat) (fallback : string) : string :=
  let data := readText path in
  if is_empty data then fallback else
  let fields := Fields data in
  let count := if bool_decide (length fields < count)%nat then length fields else count in
  if bool_decide (count = O) then fallback else Join (take count fields) " ".

(** [ip.IsLoopback()] and [ip.IsLinkLocalUnicast()] of an address that is not IPv4. *)
Definition v6_loopback (ip : Z) : bool := bool_decide (ip = 1).
Definition v6_link_local (ip : Z) : bool := bool_decide (ip / 2 ^ 118 = 1018).

(** [%-8s]. *)
Definition pad8 (s : string) : string := s +:+ str_repeat (8 - String.length s) " ".

Definition addr_lines (name : string) (addrs : list (option (Z * Z))) : list string :=
  flat_map (λ addr,
    match addr with
    | None => []
    | Some (ip, ones) =>
        if is_v4 ip || v6_loopback ip || v6_link_local ip then []
        else [pad8 name +:+ " " +:+ IP_String ip +:+ "/" +:+ FormatInt ones]
    end) addrs.

Definition globalIPv6Addrs : list string :=
  match net_Interfaces with
  | Err _ => []
  | Ok ifaces => flat_map (λ iface, match if_addrs iface with Ok addrs => addr_lines (if_name iface) addrs | Err _ => [] end) ifaces
  end.

Definition ipv6Routes : list string :=
  let output := realCommandOutput ["ip"; "-6"; "route"] in
  if is_empty output then [] else
  filter (λ line, line ≠ "") (TrimSpace <$> Split output (ascii_of_nat 10)).

Definition helloText (verbose : bool) : string :=
  let head :=
    text_line "firedoze hello" +:+ text_line "==============" +:+ nl +:+ text_line "Host" +:+
    text_line ("  time:     " +:+ now_RFC3339) +:+
    match os_Hostname with Ok name => text_line ("  hostname: " +:+ name) | Err _ => "" end +:+
    text_line ("  uptime:   " +:+ uptimeText) in
  if negb verbose then head else
  head +:+ text_line ("  user:     " +:+ userText) +:+ text_line ("  kernel:   " +:+ kernelText) +:+
  text_line ("  load:     " +:+ firstFields "/proc/loadavg" 3 "unknown") +:+ nl +:+ text_line "Network" +:+
  Join ((λ l, text_line ("  " +:+ l)) <$> globalIPv6Addrs) "" +:+ nl +:+ text_line "Routes" +:+
  Join ((λ l, text_line ("  " +:+ l)) <$> ipv6Routes) "".

(** The type of the answer, and its text. *)
Definition handleHello (verbose : bool) : string * string := ("text/plain; charset=utf-8", helloText verbose).

(** The arguments: what to listen on and whether to say more, or an exit code. *)
Inductive started := Listen (addr : string) (verbose : bool) | Exit (code : Z).

Fixpoint hello_args (args : list string) (port : string) (verbose : bool) : started + string * bool :=
  match args with
  | [] => inr (port, verbose)
  | arg :: args' =>
      if bool_decide (arg = "-verbose") then hello_args args' port true
      else if bool_decide (arg = "-h" ∨ arg = "--help") then inl (Exit 0)
      else if HasPrefix arg "-" then inl (Exit 2)
      else hello_args args' arg verbose
  end.

Definition hello_main (args : list string) : started :=
  match hello_args args "8080" false with
  | inl e => e
  | inr (port, verbose) =>
      match ParseInt port with
      | Some n => if bool_decide (n < 1 ∨ 65535 < n) then Exit 2 else Listen ("[::]:" +:+ port) verbose
      | None => Exit 2
      end
  end.
End hello.

(** ** Properties *)

(** The page shows the whole uptime, to the minute. *)
Lemma uptime_parts_sum seconds :
  0 ≤ seconds →
  let '(d, h, m) := uptime_parts seconds in
  0 ≤ d ∧ 0 ≤ h < 24 ∧ 0 ≤ m < 60 ∧ 86400 * d + 3600 * h + 60 * m ≤ seconds < 86400 * d + 3600 * h + 60 * m + 60.
Proof.
  intros Hs. unfold uptime_parts. rewrite !Z.rem_mod_nonneg, !Z.quot_div_nonneg by (try apply Z.mod_pos_bound; lia).
  pose proof (Z.div_mod seconds 86400). pose proof (Z.mod_pos_bound seconds 86400).
  pose proof (Z.div_mod (seconds mod 86400) 3600). pose proof (Z.mod_pos_bound (seconds mod 86400) 3600).
  pose proof (Z.div_mod (seconds mod 3600) 60). pose proof (Z.mod_pos_bound (seconds mod 3600) 60).
  assert (seconds mod 86400 mod 3600 = seconds mod 3600) by (apply Z.mod_mod_divide; by exists 24).
  pose proof (Z.div_pos seconds 86400). pose proof (Z.mod_pos_bound seconds 3600).
  pose proof (Z.div_mod seconds 3600). lia.
Qed.

(** The server listens on a port there is, or exits. *)
Lemma hello_main_port args addr verbose :
  hello_main args = Listen addr verbose →
  ∃ port n, addr = "[::]:" +:+ port ∧ ParseInt port = Some n ∧ 1 ≤ n ≤ 65535.
Proof.
  unfold hello_main. destruct (hello_args args "8080" false) as [e|[port v]] eqn:E.
  - assert (∀ args port v e, hello_args args port v = inl e → ∃ c, e = Exit c) as Hx.
    { clear. induction args as [|a args IH]; intros port v e; cbn; [done|]. repeat case_match; eauto; intros [= <-]; eauto. }
    apply Hx in E as [c ->]. done.
  - destruct (ParseInt port) as [n|] eqn:En; [|done]. case_bool_decide; [done|]. intros [= <- <-].
    exists port, n. split_and!; [done|done|lia|lia].
Qed.

Example uptime_shown : uptime_format 93784 = "1d 2h 3m".
Proof. reflexivity. Qed.
