(* ===== verification/ImageText.v ===== *)
(** * The image builder: bytes and text (cmd/firedoze-image-builder/main.go)

    Sizes and digests, the Debian packages the builder takes its files from, the
    kernel inside a boot image, the paths of a tar archive, and the edits of the
    password and group files of the guest.  Byte slices are strings; the
    decompressors are arguments. *)

From S2P Require Import Prelude GoStrings Paths IPNet Crypto Config ClientArgs.
Open Scope Z_scope.

(** ** Sizes and digests *)

Fixpoint last_byte (s : string) : option (string * ascii) :=
  match s with
  | "" => None
  | String c "" => Some ("", c)
  | String c s' => '(t, d) ← last_byte s'; Some (String c t, d)
  end.

Definition size_unit (last : ascii) : option Z :=
  if bool_decide (last = "k"%char ∨ last = "K"%char) then Some 1024
  else if bool_decide (last = "m"%char ∨ last = "M"%char) then Some (1024 * 1024)
  else if bool_decide (last = "g"%char ∨ last = "G"%char) then Some (1024 * 1024 * 1024)
  else None.

(** The product is an [int64]. *)
Definition parse_count (value : string) (unit : Z) : result Z :=
  match ParseInt value with
  | Some n => if bool_decide (n ≤ 0) then Err (ErrOther "invalid size") else Ok (wrap64 (n * unit))
  | None => Err (ErrOther "invalid size")
  end.

Definition parseSize `{GoUnicode} (value : string) : result Z :=
  let value := TrimSpace value in
  match last_byte value with
  | None => Err (ErrOther "size is required")
  | Some (front, last) =>
      if is_digit last then parse_count value 1
      else match size_unit last with
           | Some unit => parse_count front unit
           | None => Err (ErrOther "unsupported size suffix")
           end
  end.

Definition sha256Hex (data : string) : string := hex_encode (Sum256 data).

Definition verifySHA256 `{GoUnicode} (data expected : string) : result unit :=
  let expected := ToLower (TrimSpace expected) in
  if negb (bool_decide (String.length expected = 64%nat)) then Err (ErrOther "invalid SHA-256: expected 64 hex chars") else
  if negb (bool_decide (sha256Hex data = expected)) then Err (ErrOther "SHA-256 mismatch") else Ok tt.

Definition baseImageRelease : string := "resolute".
Definition baseImageSerial : string := "20260421".
Definition baseImageArch : string := "amd64".
Definition cloud_url (file : string) : string :=
  "https://cloud-images.ubuntu.com/" +:+ baseImageRelease +:+ "/" +:+ baseImageSerial +:+ "/" +:+ file.
Definition defaultImageURL : string :=
  cloud_url (baseImageRelease +:+ "-server-cloudimg-" +:+ baseImageArch +:+ "-root.tar.xz").
Definition defaultKernelURL : string :=
  cloud_url ("unpacked/" +:+ baseImageRelease +:+ "-server-cloudimg-" +:+ baseImageArch +:+ "-vmlinuz-generic").
Definition defaultInitrdURL : string :=
  cloud_url ("unpacked/" +:+ baseImageRelease +:+ "-server-cloudimg-" +:+ baseImageArch +:+ "-initrd-generic").

(** ** Debian packages

    A slice out of range makes Go panic: [None]. *)
Definition slice (s : string) (lo hi : Z) : option string :=
  if bool_decide (0 ≤ lo ≤ hi) && bool_decide (hi ≤ Z.of_nat (String.length s))
  then Some (str_take (Z.to_nat (hi - lo)) (str_drop (Z.to_nat lo) s)) else None.

Definition globalHeader : string := "!<arch>" +:+ String (ascii_of_nat 10) "".
Definition member_trailer : string := "`" +:+ String (ascii_of_nat 10) "".

(** One round of the loop over the members, which the three readers share: the
    member at [offset] and where the next one is.  [None] is a panic. *)
Inductive ar_round :=
  | ArEnd
  | ArFail (e : error)
  | ArMember (name data : string) (next : Z).

Definition ar_next `{GoUnicode} (deb : string) (offset : Z) : option ar_round :=
  let len := Z.of_nat (String.length deb) in
  if bool_decide (len ≤ offset) then Some ArEnd else
  if bool_decide (len < offset + 60) then Some (ArFail (ErrOther "truncated deb ar member header")) else
  header ← slice deb offset (offset + 60);
  let offset := offset + 60 in
  nameText ← slice header 0 16;
  let name := TrimSuffix (TrimSpace nameText) "/" in
  sizeText ← slice header 48 58;
  match ParseInt (TrimSpace sizeText) with
  | None => Some (ArFail (ErrOther "invalid deb ar member size"))
  | Some size =>
      if bool_decide (size < 0) then Some (ArFail (ErrOther "invalid deb ar member size")) else
      trailer ← slice header 58 60;
      if negb (bool_decide (trailer = member_trailer)) then Some (ArFail (ErrOther "invalid deb ar member trailer")) else
      let end_ := wrap64 (offset + size) in
      if bool_decide (end_ < offset) || bool_decide (len < end_)
      then Some (ArFail (ErrOther "truncated deb ar member")) else
      data ← slice deb offset end_;
      Some (ArMember name data (if Z.odd size then end_ + 1 else end_))
  end.

(** The loop, up to the first member that [wanted] takes. *)
Fixpoint ar_loop `{GoUnicode} (n : nat) (wanted : string → bool) (missing : error) (deb : string) (offset : Z)
    : option (result (string * string)) :=
  match n with
  | O => None
  | S n' =>
      round ← ar_next deb offset;
      match round with
      | ArEnd => Some (Err missing)
      | ArFail e => Some (Err e)
      | ArMember name data next =>
          if wanted name then Some (Ok (name, data)) else ar_loop n' wanted missing deb next
      end
  end.

Definition ar_find `{GoUnicode} (wanted : string → bool) (missing : error) (deb : string)
    : option (result (string * string)) :=
  if negb (HasPrefix deb globalHeader) then Some (Err (ErrOther "invalid deb ar header")) else
  ar_loop (S (String.length deb)) wanted missing deb (Z.of_nat (String.length globalHeader)).

Definition isDebControlMember (name : string) : bool :=
  bool_decide (name = "control.tar") || HasPrefix name "control.tar.".
Definition isDebDataMember (name : string) : bool :=
  bool_decide (name = "data.tar") || HasPrefix name "data.tar.".

Record debPackageInfo := MkDebInfo { deb_name : string; deb_version : string; deb_arch : string }.

Definition control_line `{GoUnicode} (fields : gmap string string) (line : string) : gmap string string :=
  if is_empty line || HasPrefix line " " || HasPrefix line (String (ascii_of_nat 9) "") then fields else
  match Cut line ":" with
  | None => fields
  | Some (key, value) => <[ToLower (TrimSpace key) := TrimSpace value]> fields
  end.

Definition parseDebControl `{GoUnicode} (data : string) : result debPackageInfo :=
  let fields := foldl control_line ∅ (Split data (ascii_of_nat 10)) in
  let get k := default "" (fields !! k) in
  let info := MkDebInfo (get "package") (get "version") (get "architecture") in
  if is_empty (deb_name info) || is_empty (deb_version info) || is_empty (deb_arch info)
  then Err (ErrOther "deb control file missing Package, Version, or Architecture") else Ok info.

(** ** The paths of an archive *)

Definition skipped_part (part : string) : bool := bool_decide (part = "__MACOSX") || HasPrefix part "._".

Definition cleanTarPath (name : string) : option string :=
  let clean := Clean (TrimPrefix name "/") in
  if bool_decide (clean = ".") || is_empty clean || HasPrefix clean "../" || bool_decide (clean = "..") then None else
  if existsb skipped_part (Split clean "/") then None else Some clean.

Definition ModeSetuid : Z := 2 ^ 23.
Definition ModeSetgid : Z := 2 ^ 22.
Definition ModeSticky : Z := 2 ^ 20.

(** The literals are 0o777, 0o4000, 0o2000 and 0o1000. *)
Definition tarFileMode (hdr_Mode : Z) : Z :=
  let mode := Z.land hdr_Mode 511 in
  let mode := if bool_decide (Z.land hdr_Mode 2048 = 0) then mode else Z.lor mode ModeSetuid in
  let mode := if bool_decide (Z.land hdr_Mode 1024 = 0) then mode else Z.lor mode ModeSetgid in
  if bool_decide (Z.land hdr_Mode 512 = 0) then mode else Z.lor mode ModeSticky.

(** [sort.Strings] of two: the order of the bytes. *)
Definition versionLess (a b : string) : bool :=
  bool_decide (String.compare a b ≠ Gt) && negb (bool_decide (a = b)).

(** ** The kernel inside a boot image *)

Definition isELF (data : string) : bool :=
  HasPrefix data (String (ascii_of_nat 127) "ELF").

(** What [io.ReadAll] of a decompressor returns, complete or not. *)
Class Decompressors := { zstd_ReadAll : string → string; gzip_ReadAll : string → string; xz_ReadAll : string → string }.

Definition bytes_text (l : list nat) : string := foldr (λ n s, String (ascii_of_nat n) s) "" l.

Definition decompressors `{Decompressors} : list (string * (string → string)) :=
  [(bytes_text [0x28; 0xb5; 0x2f; 0xfd]%nat, zstd_ReadAll);
   (bytes_text [0x1f; 0x8b; 0x08]%nat, gzip_ReadAll);
   (bytes_text [0xfd; 0x37; 0x7a; 0x58; 0x5a; 0x00]%nat, xz_ReadAll)].

(** The occurrences of the magic number, one after the other. *)
Fixpoint elf_search (n : nat) (magic : string) (run : string → string) (kernel : string) : option string :=
  match n with
  | O => None
  | S n' =>
      match Cut kernel magic with
      | None => None
      | Some (_, rest) =>
          let data := run (magic +:+ rest) in
          if isELF data then Some data else elf_search n' magic run rest
      end
  end.

Definition extractKernelELF `{Decompressors} (kernel : string) : result string :=
  if isELF kernel then Ok kernel else
  match foldl (λ found d, match found with
                          | Some _ => found
                          | None => elf_search (S (String.length kernel)) d.1 d.2 kernel
                          end) None decompressors with
  | Some data => Ok data
  | None => Err (ErrOther "could not find an embedded ELF kernel payload")
  end.

(** ** Password and group files *)

Definition nl_char : ascii := ascii_of_nat 10.
Definition nl_text : string := String nl_char "".

Definition nonemptyLines (text : string) : list string :=
  let text := TrimRightChar text nl_char in
  if is_empty text then [] else Split text nl_char.

Definition splitCSV (value : string) : list string := if is_empty value then [] else Split value ",".
Definition stringInSlice (values : list string) (want : string) : bool := bool_decide (want ∈ values).

(** The loop over the lines: each replaced or kept, and whether one was found. *)
Definition ensure_lines (replace : string → option string) (line : string) (lines : list string) : list string :=
  let lines' := (λ current, default current (replace current)) <$> lines in
  if existsb (λ current, bool_decide (is_Some (replace current))) lines then lines' else lines' ++ [line].

Definition lines_text (lines : list string) : string := Join lines nl_text +:+ nl_text.

Definition ensureNamedLineText (text name line : string) : string :=
  lines_text (ensure_lines (λ current, if HasPrefix current (name +:+ ":") then Some line else None) line
                (nonemptyLines text)).

Definition with_member (members : list string) (member : string) : list string :=
  if stringInSlice members member then members else members ++ [member].

Definition group_line (name member line : string) : option string :=
  match Split line ":" with
  | [f0; f1; f2; f3] =>
      if bool_decide (f0 = name) then Some (Join [name; f1; f2; Join (with_member (splitCSV f3) member) ","] ":") else None
  | _ => None
  end.

Definition ensureGroupMemberText (text name password gid member : string) : string :=
  lines_text (ensure_lines (group_line name member) (Join [name; password; gid; member] ":") (nonemptyLines text)).


(** ** The members of a package

    A slice in range, as the part of the text it is. *)
Lemma slice_app a b c lo hi :
  lo = Z.of_nat (String.length a) → hi = lo + Z.of_nat (String.length b) →
  slice (a +:+ b +:+ c) lo hi = Some b.
Proof.
  intros -> ->. unfold slice. rewrite !str_length_app, !bool_decide_eq_true_2 by lia. simpl.
  rewrite Nat2Z.id, str_drop_app. replace (Z.to_nat _) with (String.length b) by lia. by rewrite str_take_app.
Qed.

Lemma slice_ok s lo hi : 0 ≤ lo ≤ hi → hi ≤ Z.of_nat (String.length s) →
  ∃ t, slice s lo hi = Some t ∧ Z.of_nat (String.length t) = hi - lo.
Proof.
  intros Hlo Hhi. unfold slice. rewrite !bool_decide_eq_true_2 by done. simpl. eexists; split; [done|].
  rewrite length_str_take. assert (String.length (str_drop (Z.to_nat lo) s) = String.length s - Z.to_nat lo)%nat as ->; [|lia].
  clear. generalize (Z.to_nat lo) as n. induction s as [|c s IH]; intros [|n]; simpl; auto with lia.
Qed.

(** A round never panics, and a member ends after the place it starts. *)
Lemma ar_next_total `{GoUnicode} deb offset : 0 ≤ offset →
  ∃ r, ar_next deb offset = Some r ∧
    ∀ name data next, r = ArMember name data next →
      offset < next ∧ offset < Z.of_nat (String.length deb) ∧ slice deb (offset + 60) (offset + 60 + Z.of_nat (String.length data)) = Some data.
Proof.
  intros Ho. unfold ar_next. set (len := Z.of_nat (String.length deb)).
  case_bool_decide; [by eexists; split|]. case_bool_decide; [by eexists; split|].
  destruct (slice_ok deb offset (offset + 60)) as (hdr & -> & Hl); [lia|lia|]. simpl.
  destruct (slice_ok hdr 0 16) as (nm & -> & _); [lia|lia|]. simpl.
  destruct (slice_ok hdr 48 58) as (st & -> & _); [lia|lia|]. simpl.
  destruct (ParseInt (TrimSpace st)) as [size|]; [|by eexists; split].
  case_bool_decide; [by eexists; split|].
  destruct (slice_ok hdr 58 60) as (tr & -> & _); [lia|lia|]. simpl.
  case_bool_decide; [|by eexists; split]. simpl.
  destruct (bool_decide _ || bool_decide _) eqn:E; [by eexists; split|].
  apply orb_false_iff in E as [E1%bool_decide_eq_false E2%bool_decide_eq_false].
  destruct (slice_ok deb (offset + 60) (wrap64 (offset + 60 + size))) as (data & Ed & Hd); [lia|lia|]. rewrite Ed. simpl.
  eexists; split; [done|]. intros name data' next [= <- <- <-].
  split; [destruct (Z.odd size); lia|]. split; [lia|]. rewrite Hd. rewrite <-Ed. f_equal. lia.
Qed.

Lemma slice_part s lo hi t : slice s lo hi = Some t → ∃ before after, s = before +:+ t +:+ after.
Proof.
  unfold slice. destruct (_ && _); [|done]. intros [= <-].
  assert (∀ n u, u = str_take n u +:+ str_drop n u) as Hsplit.
  { intros n u. revert n. induction u as [|c u IH]; intros [|n]; simpl; rewrite ?str_app_nil_l; try done.
    rewrite str_app_cons. f_equal. apply IH. }
  exists (str_take (Z.to_nat lo) s), (str_drop (Z.to_nat (hi - lo)) (str_drop (Z.to_nat lo) s)). by rewrite <-!Hsplit.
Qed.

Lemma ar_loop_total `{GoUnicode} wanted missing deb n offset : 0 ≤ offset →
  Z.of_nat (String.length deb) - offset < Z.of_nat n → (1 ≤ n)%nat →
  ∃ r, ar_loop n wanted missing deb offset = Some r ∧
    ∀ name data, r = Ok (name, data) → wanted name = true ∧ ∃ before after, deb = before +:+ data +:+ after.
Proof.
  revert offset. induction n as [|n IH]; intros offset Ho Hn H1; [lia|]. simpl.
  destruct (ar_next_total deb offset Ho) as (r & -> & Hr). simpl.
  destruct r as [|e|name data next]; [by eexists..|].
  destruct (Hr _ _ _ eq_refl) as (Hnext & Hlen & Hdata).
  destruct (wanted name) eqn:Hw; [|by apply IH; lia].
  eexists; split; [done|]. intros ? ? [= <- <-]. eauto using slice_part.
Qed.

(** A package as [ar] writes it: the names and sizes padded with blanks, a
    newline after a member of odd size. *)
Definition blanks (n : nat) : string := Nat.iter n (String " "%char) "".
Definition padded (n : nat) (s : string) : string := s +:+ blanks (n - String.length s).

Record ar_member := MkArMember { am_name : string; am_meta : string; am_data : string }.

Definition member_header (m : ar_member) : string :=
  padded 16 (am_name m) +:+ am_meta m +:+ padded 10 (FormatInt (Z.of_nat (String.length (am_data m)))) +:+ member_trailer.
Definition member_padding (m : ar_member) : string :=
  if Z.odd (Z.of_nat (String.length (am_data m))) then nl_text else "".
Definition member_text (m : ar_member) : string := member_header m +:+ am_data m +:+ member_padding m.
Definition archive (ms : list ar_member) : string := globalHeader +:+ foldr (λ m t, member_text m +:+ t) "" ms.

Definition member_ok (m : ar_member) : bool :=
  is_ascii (am_name m) && no_space (am_name m) && negb (HasSuffix (am_name m) "/") &&
  bool_decide (String.length (am_name m) ≤ 16)%nat && bool_decide (String.length (am_meta m) = 32%nat) &&
  bool_decide (String.length (FormatInt (Z.of_nat (String.length (am_data m)))) ≤ 10)%nat.

Lemma length_blanks n : String.length (blanks n) = n.
Proof. induction n; simpl; auto. Qed.
Lemma length_padded n s : (String.length s ≤ n)%nat → String.length (padded n s) = n.
Proof. intros. unfold padded. rewrite str_length_app, length_blanks. lia. Qed.

Lemma trim_blanks n : trim_left (blanks n) = "" ∧ trim_right (blanks n) = "".
Proof. induction n as [|n [IH1 IH2]]; [done|]. simpl. by rewrite IH1, IH2. Qed.

Lemma trim_right_blanks s n : no_space s = true → trim_right (s +:+ blanks n) = s.
Proof.
  unfold no_space. induction s as [|c s IH]; simpl; [intros _; rewrite str_app_nil_l; apply trim_blanks|].
  intros [Hc%negb_true_iff Hs]%andb_true_iff. rewrite IH, Hc by done. by destruct s.
Qed.

Lemma TrimSpace_padded `{GoUnicode} n s : is_ascii s = true → no_space s = true → TrimSpace (padded n s) = s.
Proof.
  intros Ha Hs. unfold TrimSpace, padded. generalize (n - String.length s)%nat as k. intros k.
  assert (is_ascii (blanks k) = true) as Hb by (induction k; [done|by simpl]).
  unfold is_ascii in *. rewrite str_forall_app, Ha, Hb. simpl.
  destruct s as [|c s]; [rewrite str_app_nil_l; by rewrite (proj1 (trim_blanks k))|].
  rewrite str_app_cons, trim_left_id; [|by apply andb_true_iff in Hs as [?%negb_true_iff _]].
  rewrite <-str_app_cons. by apply trim_right_blanks.
Qed.

Lemma TrimSpace_padded_int `{GoUnicode} n z : 0 ≤ z → TrimSpace (padded n (FormatInt z)) = FormatInt z.
Proof.
  intros Hz. pose proof (FormatInt_digits z Hz) as Hd.
  apply TrimSpace_padded; eapply str_forall_impl; try exact Hd; intros c Hc%in_range_true.
  - apply in_range_true. lia.
  - apply negb_true_iff. destruct c as [[] [] [] [] [] [] [] []]; vm_compute in Hc |- *; by try destruct Hc.
Qed.

Lemma member_ok_spec m : member_ok m = true →
  is_ascii (am_name m) = true ∧ no_space (am_name m) = true ∧ HasSuffix (am_name m) "/" = false ∧
  String.length (padded 16 (am_name m)) = 16%nat ∧ String.length (am_meta m) = 32%nat ∧
  String.length (padded 10 (FormatInt (Z.of_nat (String.length (am_data m))))) = 10%nat.
Proof.
  unfold member_ok. intros [[[[[H1 H2]%andb_true_iff H3%negb_true_iff]%andb_true_iff
    H4%bool_decide_eq_true]%andb_true_iff H5%bool_decide_eq_true]%andb_true_iff H6%bool_decide_eq_true]%andb_true_iff.
  repeat split; auto using length_padded.
Qed.

Lemma length_member_header m : member_ok m = true → String.length (member_header m) = 60%nat.
Proof.
  intros (_ & _ & _ & H1 & H2 & H3)%member_ok_spec. unfold member_header. rewrite !str_length_app, H1, H2, H3. done.
Qed.

(** The fields of a header, where the reader looks for them. *)
Lemma member_header_fields m : member_ok m = true →
  slice (member_header m) 0 16 = Some (padded 16 (am_name m)) ∧
  slice (member_header m) 48 58 = Some (padded 10 (FormatInt (Z.of_nat (String.length (am_data m))))) ∧
  slice (member_header m) 58 60 = Some member_trailer.
Proof.
  intros (_ & _ & _ & H1 & H2 & H3)%member_ok_spec. unfold member_header. split_and!.
  - apply (slice_app "" _ _); [done|by rewrite H1].
  - rewrite <-str_app_assoc. apply slice_app; [by rewrite str_length_app, H1, H2|by rewrite H3].
  - rewrite <-!str_app_assoc. rewrite <-(str_app_nil_r (_ +:+ member_trailer)), str_app_assoc.
    apply slice_app; [by rewrite !str_length_app, H1, H2, H3|done].
Qed.

(** The member that starts at the end of [before]. *)
Lemma ar_next_member `{GoUnicode} before m after offset :
  offset = Z.of_nat (String.length before) → member_ok m = true →
  Z.of_nat (String.length (before +:+ member_text m +:+ after)) ≤ int_max 64 →
  ar_next (before +:+ member_text m +:+ after) offset =
    Some (ArMember (am_name m) (am_data m) (offset + Z.of_nat (String.length (member_text m)))).
Proof.
  intros -> Hm Hlen. pose proof (length_member_header m Hm) as Hh.
  destruct (member_header_fields m Hm) as (F1 & F2 & F3).
  destruct (member_ok_spec m Hm) as (Ha & Hs & Hsuf & _).
  set (deb := before +:+ member_text m +:+ after) in *.
  assert (deb = before +:+ member_header m +:+ am_data m +:+ member_padding m +:+ after) as Ed.
  { unfold deb, member_text. by rewrite !str_app_assoc. }
  assert (String.length deb = String.length before + (60 + (String.length (am_data m) +
    (String.length (member_padding m) + String.length after))))%nat as El.
  { rewrite Ed, !str_length_app, Hh. done. }
  unfold ar_next. rewrite El. change (int_max 64) with (2 ^ 63 - 1) in Hlen.
  rewrite !bool_decide_eq_false_2 by lia.
  assert (slice deb (Z.of_nat (String.length before)) (Z.of_nat (String.length before) + 60) = Some (member_header m)) as ->.
  { rewrite Ed. apply slice_app; [done|by rewrite Hh]. }
  cbn [mbind option_bind]. rewrite F1, F2. cbn [mbind option_bind].
  rewrite TrimSpace_padded_int by lia. rewrite ParseInt_FormatInt by (unfold int_min, int_max; lia).
  rewrite bool_decide_eq_false_2 by lia. rewrite F3. cbn [mbind option_bind].
  rewrite bool_decide_eq_true_2 by done. cbn [negb]. rewrite wrap64_id by lia.
  rewrite !bool_decide_eq_false_2 by lia. cbn [orb].
  assert (slice deb (Z.of_nat (String.length before) + 60)
    (Z.of_nat (String.length before) + 60 + Z.of_nat (String.length (am_data m))) = Some (am_data m)) as ->.
  { rewrite Ed, <-str_app_assoc. apply slice_app; [rewrite str_length_app, Hh; lia|done]. }
  cbn [mbind option_bind]. rewrite TrimSpace_padded, TrimSuffix_none by done. f_equal. f_equal.
  unfold member_text. rewrite !str_length_app, Hh. unfold member_padding.
  destruct (Z.odd _); simpl; lia.
Qed.

Lemma ar_loop_archive `{GoUnicode} wanted missing ms : ∀ before n,
  Forall (λ m, member_ok m = true) ms → (length ms < n)%nat →
  let deb := before +:+ foldr (λ m t, member_text m +:+ t) "" ms in
  Z.of_nat (String.length deb) ≤ int_max 64 →
  ar_loop n wanted missing deb (Z.of_nat (String.length before)) =
    Some (match List.find (λ m, wanted (am_name m)) ms with
          | Some m => Ok (am_name m, am_data m)
          | None => Err missing
          end).
Proof.
  induction ms as [|m ms IH]; intros before n Hok Hn deb Hlen; (destruct n as [|n]; [simpl in Hn; lia|]);
    unfold deb in *; cbn [foldr List.find ar_loop] in *.
  - unfold ar_next. rewrite str_app_nil_r. by rewrite bool_decide_eq_true_2 by lia.
  - apply Forall_cons in Hok as [Hm Hok]. rewrite (ar_next_member _ m _ _ eq_refl) by done. cbn [mbind option_bind].
    destruct (wanted (am_name m)); [done|]. rewrite <-str_app_assoc.
    replace (_ + _) with (Z.of_nat (String.length (before +:+ member_text m))) by (rewrite str_length_app; lia).
    apply IH; [done|simpl in Hn; lia|by rewrite str_app_assoc].
Qed.

(** C40.  Reading a package is total and safe: whatever the bytes, the search
    returns (no slice is out of range, and the loop ends), a member it returns is
    one that was asked for, its data a part of the file; and in every archive, of
    less than 2^63 bytes, of members in the common format (a name of at most 16
    ASCII characters without a blank or a final slash, a size of at most ten digits) it finds
    the first member asked for, with exactly its data, or says that there is
    none. *)
Theorem ar_find_correct `{GoUnicode} wanted missing :
  (∀ deb, ∃ r, ar_find wanted missing deb = Some r ∧
     ∀ name data, r = Ok (name, data) → wanted name = true ∧ ∃ before after, deb = before +:+ data +:+ after) ∧
  (∀ ms, Forall (λ m, member_ok m = true) ms → Z.of_nat (String.length (archive ms)) ≤ int_max 64 →
     ar_find wanted missing (archive ms) =
       Some (match List.find (λ m, wanted (am_name m)) ms with
             | Some m => Ok (am_name m, am_data m)
             | None => Err missing
             end)).
Proof.
  split.
  - intros deb. unfold ar_find. destruct (HasPrefix deb globalHeader) eqn:E; [|by eexists; split].
    apply ar_loop_total; lia.
  - intros ms Hok Hlen. unfold ar_find.
    assert (HasPrefix (archive ms) globalHeader = true) as -> by (apply HasPrefix_spec; by eexists).
    simpl negb. cbv iota. apply ar_loop_archive; [done| |done].
    unfold archive. rewrite str_length_app. enough (length ms ≤ String.length (foldr (λ m t, member_text m +:+ t) "" ms))%nat by lia.
    clear Hlen. induction Hok as [|m ms Hm _ IH]; [simpl; lia|]. cbn [foldr length]. unfold member_text at 1.
    rewrite !str_length_app, length_member_header by done. lia.
Qed.

(** The archive a package file is: a control member, then the data. *)
Definition example_members : list ar_member :=
  let meta := padded 12 "0" +:+ padded 6 "0" +:+ padded 6 "0" +:+ padded 8 "100644" in
  [MkArMember "debian-binary" meta ("2.0" +:+ nl_text); MkArMember "control.tar.gz" meta "control";
   MkArMember "data.tar.zst" meta "files"].

Lemma ar_find_correct_witness :
  Forall (λ m, member_ok m = true) example_members ∧
  @ar_find ascii_only isDebDataMember (ErrOther "") (archive example_members) = Some (Ok ("data.tar.zst", "files")).
Proof.
  assert (Forall (λ m, member_ok m = true) example_members) as Hok by (repeat constructor).
  split; [exact Hok|]. rewrite (proj2 (@ar_find_correct ascii_only isDebDataMember (ErrOther "")) example_members Hok); [|vm_compute; discriminate]. reflexivity.
Defined.

(** ** Paths *)

Lemma list_last_cases {A} (l : list A) : l = [] ∨ ∃ l' x, l = l' ++ [x].
Proof. induction l using rev_ind; eauto. Qed.

(** What [path.Clean] leaves of a path: leading [..]s, none for a rooted path,
    then proper components. *)
Lemma clean_parts_shape rooted parts : Forall (λ p, str_mem "/" p = false) parts →
  ∀ good ups, Forall good_part good → (rooted = true → ups = 0%nat) →
  ∃ good' ups', clean_parts rooted (reverse good ++ replicate ups "..") parts = replicate ups' ".." ++ good' ∧
    Forall good_part good' ∧ (rooted = true → ups' = 0%nat).
Proof.
  induction 1 as [|p parts Hp Hparts IH]; intros good ups Hg Hr; cbn [clean_parts].
  { exists good, ups. by rewrite reverse_app, reverse_involutive, reverse_replicate. }
  case_bool_decide as Hskip; [by apply IH|]. case_bool_decide as Hup.
  - destruct (list_last_cases good) as [->|(good' & x & ->)]; [|rewrite reverse_snoc; cbn [app]].
    + destruct ups as [|ups]; cbn [reverse rev_append app replicate].
      * destruct rooted; [by apply (IH [] 0%nat)|]. by apply (IH [] 1%nat).
      * destruct rooted; [by specialize (Hr eq_refl)|]. rewrite bool_decide_eq_true_2 by done. by apply (IH [] (S (S ups))).
    + apply Forall_app in Hg as [Hg Hx]. apply Forall_cons in Hx as [(_ & _ & _ & Hx) _].
      rewrite bool_decide_eq_false_2 by done. by apply IH.
  - change (p :: reverse good ++ replicate ups "..") with ((p :: reverse good) ++ replicate ups "..").
    rewrite <-(reverse_snoc good p). apply IH; [|done].
    apply Forall_app. split; [done|]. apply Forall_singleton. repeat split; naive_solver.
Qed.

(** The path of an archive entry: no element leads out of the directory it is
    unpacked in, and none is a file that macOS adds. *)
Definition confined (p : string) : Prop :=
  ∃ parts, Forall (λ x, good_part x ∧ skipped_part x = false) parts ∧ (p = Join parts "/" ∧ parts ≠ [] ∨ p = abs parts).

Lemma Split_no_slash s : Forall (λ p, str_mem "/" p = false) (Split s "/").
Proof. apply list.Forall_forall. intros x. apply Split_parts. Qed.

Lemma cleanTarPath_confined name p : cleanTarPath name = Some p → confined p.
Proof.
  unfold cleanTarPath. set (s := TrimPrefix name "/").
  destruct (bool_decide (Clean s = ".") || _ || _ || _) eqn:E; [done|].
  apply orb_false_iff in E as [[[E1%bool_decide_eq_false E2]%orb_false_iff E3]%orb_false_iff E4%bool_decide_eq_false].
  destruct (existsb _ _) eqn:Es; [done|]. intros [= <-].
  destruct (clean_parts_shape (IsAbs s) (Split s "/") (Split_no_slash s) [] 0 (Forall_nil_2 _) (λ _, eq_refl))
    as (good & ups & Eparts & Hgood & Hups). cbn [reverse rev_append replicate app] in Eparts.
  assert (∀ x, x ∈ Split (Clean s) "/" → skipped_part x = false) as Hskip.
  { intros x Hx. apply not_true_iff_false. intros Ht. apply not_true_iff_false in Es. apply Es.
    apply existsb_exists. exists x. split; [by apply list_elem_of_In|done]. }
  assert (Forall (λ p, str_mem "/" p = false) good) as Hns by by apply good_no_slash.
  unfold Clean in *. rewrite Eparts in *. exists good. destruct (IsAbs s) eqn:Ea.
  - rewrite Hups in * by done. cbn [replicate app] in *. split; [|right; done].
    apply Forall_and. split; [done|]. apply list.Forall_forall. intros x Hx. apply Hskip.
    destruct good as [|y good]; [by apply not_elem_of_nil in Hx|]. fold (abs (y :: good)).
    rewrite Split_abs by done. by right.
  - destruct ups as [|ups]; cbn [replicate app] in *.
    + destruct (decide (good = [])) as [->|Hne]; [by rewrite bool_decide_eq_true_2 in E1|].
      rewrite bool_decide_eq_false_2 in * by done. split; [|left; done].
      apply Forall_and. split; [done|]. apply list.Forall_forall. intros x Hx. apply Hskip. by rewrite Split_Join_parts.
    + exfalso. rewrite bool_decide_eq_false_2 in E3, E4 by done.
      destruct (replicate ups ".." ++ good) as [|y l]; [done|]. rewrite Join_cons in E3.
      enough (HasPrefix (".." +:+ "/" +:+ Join (y :: l) "/") "../" = true) by congruence.
      apply HasPrefix_spec. by eexists.
Qed.

(** Only a name with two leading slashes keeps one. *)
Lemma cleanTarPath_relative name p :
  HasPrefix name "//" = false → cleanTarPath name = Some p → IsAbs p = false.
Proof.
  intros Hn. unfold cleanTarPath. set (s := TrimPrefix name "/").
  assert (IsAbs s = false) as Hs.
  { unfold s, TrimPrefix. destruct (HasPrefix name "/") eqn:E.
    - apply HasPrefix_spec in E as [t ->]. change (IsAbs t = false). apply not_true_iff_false. intros Ht.
      destruct t as [|c t]; [done|]. unfold IsAbs in Ht. simpl in Ht. apply not_true_iff_false in Hn. apply Hn.
      apply HasPrefix_spec. exists t. case_bool_decide; simplify_eq/=; done.
    - destruct name as [|c name]; [done|]. unfold IsAbs. cbn. apply not_true_iff_false. intros Ht.
      apply not_true_iff_false in E. apply E, HasPrefix_spec. exists name. case_bool_decide; simplify_eq/=; done. }
  destruct (_ || _ || _ || _); [done|]. destruct (existsb _ _); [done|]. intros [= <-].
  destruct (clean_parts_shape (IsAbs s) (Split s "/") (Split_no_slash s) [] 0 (Forall_nil_2 _) (λ _, eq_refl))
    as (good & ups & Eparts & Hgood & _). cbn [reverse rev_append replicate app] in Eparts.
  unfold Clean. rewrite Eparts, Hs. case_bool_decide as Hne; [done|].
  destruct ups as [|ups]; cbn [replicate app] in *.
  - destruct Hgood as [|x l (Hx & Hsl & _)]; [done|]. destruct x as [|c x]; [done|].
    simpl in Hsl. apply orb_false_iff in Hsl as [Hc%bool_decide_eq_false _].
    unfold IsAbs. destruct l; simpl; rewrite bool_decide_eq_false_2; done || congruence.
  - by destruct (replicate ups ".." ++ good).
Qed.

(** ** The lines of a file *)

Lemma Split_Join_sep l sep : l ≠ [] → Forall (λ x, str_mem sep x = false) l → Split (Join l (String sep "")) sep = l.
Proof.
  intros Hne Hl. induction Hl as [|x l Hx Hl IH]; [done|]. destruct l as [|y l]; [by apply Split_none|].
  rewrite Join_cons. change (String sep "" +:+ ?s) with (String sep s).
  rewrite Split_app_sep by done. f_equal. by apply IH.
Qed.

Lemma Join_mem c sep l : str_mem c sep = false → Forall (λ x, str_mem c x = false) l → str_mem c (Join l sep) = false.
Proof.
  intros Hs Hl. induction Hl as [|x l Hx Hl IH]; [done|]. destruct l as [|y l]; [done|].
  rewrite Join_cons, !str_mem_app, Hx, Hs. done.
Qed.

Lemma Join_nonempty x l sep : x ∈ l → x ≠ "" → Join l sep ≠ "".
Proof.
  induction 1 as [x l|x y l Hx IH]; intros Hne; destruct l as [|z l]; [done| |by apply not_elem_of_nil in Hx|];
    rewrite Join_cons; intros [Ha Hb]%str_app_eq_nil; [done|]. apply str_app_eq_nil in Hb as [_ Hb]. by apply IH.
Qed.

(** A line of a file: some text, no newline. *)
Definition line_ok (l : string) : Prop := str_mem nl_char l = false.
(** The lines [nonemptyLines] returns: the last one has some text. *)
Definition lines_ok (ls : list string) : Prop :=
  Forall line_ok ls ∧ ∀ l, last ls = Some l → l ≠ "".

Lemma TrimRightChar_last s c d : c ≠ d → TrimRightChar (s +:+ String d "") c = s +:+ String d "".
Proof.
  intros Hcd. induction s as [|e s IH]; simpl.
  - by rewrite bool_decide_eq_false_2.
  - rewrite IH. by destruct s.
Qed.

Lemma TrimRightChar_drop s c : TrimRightChar (s +:+ String c "") c = TrimRightChar s c.
Proof.
  induction s as [|e s IH]; simpl; [by rewrite bool_decide_eq_true_2|]. by rewrite IH.
Qed.

Lemma str_last_cases s : s = "" ∨ ∃ t c, s = t +:+ String c "".
Proof.
  induction s as [|c s IH]; [by left|right]. destruct IH as [->|(t & d & ->)]; [by exists "", c|by exists (String c t), d].
Qed.

Lemma TrimRightChar_no_last s c : (∀ t, s ≠ t +:+ String c "") → TrimRightChar s c = s.
Proof.
  destruct (str_last_cases s) as [->|(t & d & ->)]; intros Hs; [done|]. apply TrimRightChar_last. intros ->. by eapply Hs.
Qed.

Lemma TrimRightChar_not_last s c t : TrimRightChar s c ≠ t +:+ String c "".
Proof.
  revert t. induction s as [|d s IH]; intros t; simpl; [by destruct t|].
  destruct (TrimRightChar s c) as [|e u] eqn:E.
  - case_bool_decide as Hd; [by destruct t|]. intros Ht. destruct t as [|x t]; [by injection Ht|]. injection Ht as _ Ht. by destruct t.
  - intros Ht. destruct t as [|x t]; [by injection Ht|]. injection Ht as -> Ht. by apply (IH t).
Qed.

Lemma nonemptyLines_ok text : lines_ok (nonemptyLines text).
Proof.
  unfold nonemptyLines. set (s := TrimRightChar text nl_char).
  unfold is_empty. case_bool_decide as Hs; [by split; [constructor|]|]. split.
  - apply list.Forall_forall. intros x. apply Split_parts.
  - intros l Hl ->. destruct (list_last_cases (Split s nl_char)) as [E|(l' & x & E)]; [by apply Split_not_nil in E|].
    rewrite E, last_snoc in Hl. injection Hl as ->. pose proof (Split_Join s nl_char) as EJ. rewrite E in EJ.
    destruct l' as [|y l']; [done|]. rewrite Join_app in EJ by done. change (Join [""] _) with "" in EJ.
    rewrite str_app_nil_r in EJ. by apply (TrimRightChar_not_last text nl_char (Join (y :: l') nl_text)).
Qed.

Lemma lines_text_lines ls : lines_ok ls → ls ≠ [] → nonemptyLines (lines_text ls) = ls.
Proof.
  intros [Hl Hlast] Hne. destruct (list_last_cases ls) as [->|(l' & x & ->)]; [done|].
  specialize (Hlast x (last_snoc _ _)). unfold nonemptyLines, lines_text, nl_text. rewrite TrimRightChar_drop.
  assert (Hx : line_ok x) by by apply Forall_app in Hl as [_ [Hx _]%Forall_cons].
  destruct (str_last_cases x) as [->|(t & d & ->)]; [done|].
  rewrite TrimRightChar_no_last.
  - unfold is_empty. rewrite bool_decide_eq_false_2; [by apply Split_Join_sep|].
    eapply Join_nonempty; [|exact Hlast]. apply elem_of_app. right. by left.
  - intros u Hu. destruct (Join_last l' (t +:+ String d "") (String nl_char "")) as [y Ey]. rewrite Ey, <-str_app_assoc in Hu.
    apply last_char_inj in Hu as ->. unfold line_ok in Hx. rewrite str_mem_app in Hx. simpl in Hx.
    by rewrite orb_true_r in Hx.
Qed.

(** Editing the lines keeps them lines, when what is put in is a line. *)
Lemma ensure_lines_ok replace line ls :
  lines_ok ls → line_ok line → line ≠ "" →
  (∀ l l', line_ok l → replace l = Some l' → line_ok l' ∧ l' ≠ "") →
  lines_ok (ensure_lines replace line ls) ∧ ensure_lines replace line ls ≠ [].
Proof.
  intros [Hls Hlast] Hline Hne Hrep. set (f := λ current, default current (replace current)).
  assert (Hf : lines_ok (f <$> ls)).
  { split.
    - apply Forall_fmap. eapply Forall_impl; [exact Hls|]. intros l Hl. unfold f, compose.
      destruct (replace l) eqn:E; simpl; [by eapply Hrep|done].
    - intros l'. rewrite fmap_last. destruct (last ls) as [l|] eqn:El; [|done]. intros [= <-]. unfold f.
      destruct (replace l) eqn:E; simpl; [|by apply Hlast]. eapply Hrep; [|done].
      rewrite list.Forall_forall in Hls. apply Hls. by apply last_Some_elem_of. }
  unfold ensure_lines. fold f. destruct (existsb _ ls) eqn:E.
  - split; [done|]. by destruct ls.
  - split; [|by destruct ls]. destruct Hf as [Hf _]. split.
    + apply Forall_app. split; [done|]. by repeat constructor.
    + intros l. rewrite last_snoc. by intros [= <-].
Qed.

(** The edit of a list of lines, for a replacement that is stable: afterwards one
    line is as wanted, every line that is to be replaced is already replaced, the
    others are those of before in their order, and editing again changes nothing. *)
Lemma ensure_lines_spec replace line ls :
  (∀ l l', replace l = Some l' → replace l' = Some l') → replace line = Some line →
  let ls' := ensure_lines replace line ls in
  (∃ l, l ∈ ls' ∧ replace l = Some l) ∧ (∀ l, l ∈ ls' → replace l = Some l ∨ replace l = None) ∧
  filter (λ l, replace l = None) ls' = filter (λ l, replace l = None) ls ∧ ensure_lines replace line ls' = ls'.
Proof.
  intros Hstable Hline ls'. set (f := λ current, default current (replace current)).
  assert (Hf : ∀ l, replace (f l) = Some (f l) ∧ is_Some (replace l) ∨ replace (f l) = None ∧ replace l = None ∧ f l = l).
  { intros l. unfold f. destruct (replace l) as [l'|] eqn:E; simpl; [left; eauto|by right]. }
  assert (Hex : ∃ l, l ∈ ls' ∧ replace l = Some l).
  { unfold ls', ensure_lines. fold f. destruct (existsb _ ls) eqn:E.
    - apply existsb_exists in E as (l & Hl%list_elem_of_In & Hr%bool_decide_eq_true). exists (f l).
      split; [apply list_elem_of_fmap; eauto|]. destruct (Hf l) as [[? _]|(_ & Hn & _)]; [done|]. rewrite Hn in Hr. by destruct Hr.
    - exists line. split; [|done]. apply elem_of_app. right. by left. }
  assert (Hall : ∀ l, l ∈ ls' → replace l = Some l ∨ replace l = None).
  { assert (∀ l, l ∈ f <$> ls → replace l = Some l ∨ replace l = None) as Hm.
    { intros l (l0 & -> & _)%list_elem_of_fmap. destruct (Hf l0) as [[? _]|(? & _)]; auto. }
    unfold ls', ensure_lines. fold f. destruct (existsb _ ls); [done|].
    intros l [?| ->%list_elem_of_singleton]%elem_of_app; auto. }
  assert (Hfil : filter (λ l, replace l = None) (f <$> ls) = filter (λ l, replace l = None) ls).
  { clear ls' Hex Hall. induction ls as [|l ls IH]; [done|]. rewrite fmap_cons, !filter_cons.
    destruct (Hf l) as [[Ha [? Hb]]|(Ha & Hb & Hc)]; [|rewrite Hc].
    - by rewrite !decide_False by congruence.
    - by rewrite !decide_True by congruence; f_equal. }
  split; [done|]. split; [done|]. split.
  - unfold ls', ensure_lines. fold f. destruct (existsb _ ls); [done|].
    rewrite filter_app, Hfil, filter_cons, decide_False by congruence. by rewrite filter_nil, app_nil_r.
  - unfold ensure_lines at 1. fold f. assert (f <$> ls' = ls') as ->.
    { rewrite <-(list_fmap_id ls') at 2. apply list_fmap_ext. intros i l Hl%list_elem_of_lookup_2. unfold f.
      destruct (Hall l Hl) as [-> | ->]; done. }
    destruct Hex as (l & Hl & Hr). destruct (existsb _ ls') eqn:E; [done|].
    apply not_true_iff_false in E. exfalso. apply E. apply existsb_exists. exists l.
    split; [by apply list_elem_of_In|]. by apply bool_decide_eq_true; eexists.
Qed.

(** ** Accounts *)

(** A name that can stand in a field of the password and group files. *)
Definition account_name (s : string) : Prop :=
  s ≠ "" ∧ str_mem ":" s = false ∧ str_mem "," s = false ∧ line_ok s.

(** An entry of the group file: name, password, group id, members. *)
Definition group_entry (line : string) : option (string * string * string * list string) :=
  match Split line ":" with
  | [f0; f1; f2; f3] => Some (f0, f1, f2, splitCSV f3)
  | _ => None
  end.

Lemma Split_no_char c sep s : str_mem c s = false → Forall (λ x, str_mem c x = false) (Split s sep).
Proof.
  induction s as [|d s IH]; cbn [Split str_mem]; [by repeat constructor|].
  intros [Hd Hs]%orb_false_iff. specialize (IH Hs). destruct (bool_decide (d = sep)); [by constructor|].
  destruct (Split s sep) as [|x l]; [repeat constructor; cbn [str_mem]; by rewrite Hd|].
  apply Forall_cons in IH as [Hx Hl]. constructor; [|done]. cbn [str_mem]. by rewrite Hd.
Qed.

Lemma splitCSV_members c f : str_mem c f = false → Forall (λ m, str_mem c m = false) (splitCSV f).
Proof. unfold splitCSV. destruct (is_empty f); [constructor|apply Split_no_char]. Qed.

Lemma with_member_spec members member :
  member ∈ with_member members member ∧ members `prefix_of` with_member members member ∧
  with_member (with_member members member) member = with_member members member ∧
  ∀ P : string → Prop, Forall P members → P member → Forall P (with_member members member).
Proof.
  assert (member ∈ with_member members member) as Hin.
  { unfold with_member, stringInSlice. case_bool_decide; [done|]. apply elem_of_app. right. by left. }
  split; [done|]. split; [|split].
  - unfold with_member. destruct (stringInSlice _ _); [done|]. by eexists.
  - unfold with_member at 1, stringInSlice. by rewrite bool_decide_eq_true_2.
  - intros P Hm Hp. unfold with_member. destruct (stringInSlice _ _); [done|]. apply Forall_app. by repeat constructor.
Qed.

Lemma splitCSV_Join members : members ≠ [] → Forall (λ m, str_mem "," m = false) members →
  (∃ m, m ∈ members ∧ m ≠ "") → splitCSV (Join members ",") = members.
Proof.
  intros Hne Hm (m & Hin & Hmne). unfold splitCSV, is_empty.
  rewrite bool_decide_eq_false_2 by by eapply Join_nonempty. by apply Split_Join_sep.
Qed.

(** A group entry with the member added. *)
Lemma group_line_entry name member line line' : account_name name → account_name member →
  group_line name member line = Some line' →
  ∃ password gid members, group_entry line = Some (name, password, gid, members) ∧
    group_entry line' = Some (name, password, gid, with_member members member) ∧
    (line_ok line → line_ok line') ∧ line' ≠ "".
Proof.
  intros (Hn & Hn1 & Hn2 & Hn3) (Hm & Hm1 & Hm2 & Hm3). unfold group_line, group_entry.
  pose proof (Split_parts line ":") as Hparts. pose proof (Split_no_char nl_char ":" line) as Hfields.
  destruct (Split line ":") as [|f0 [|f1 [|f2 [|f3 [|f4 l]]]]]; try done.
  case_bool_decide as E; [|done]. subst f0. intros <-%(inj Some).
  assert (Forall (λ f, str_mem ":" f = false) [f1; f2; f3]) as Hf.
  { repeat constructor; apply Hparts; set_solver. }
  rewrite !Forall_cons in Hf. destruct Hf as (Hf1 & Hf2 & Hf3 & _).
  set (members := splitCSV f3). destruct (with_member_spec members member) as (Hin & _ & _ & Hall).
  assert (str_mem ":" (Join (with_member members member) ",") = false) as Hc.
  { apply Join_mem; [done|]. apply Hall; [|done]. by apply splitCSV_members. }
  exists f1, f2, members. split; [done|]. split; [|split].
  - rewrite (Split_Join_sep [name; f1; f2; Join (with_member members member) ","] ":") by (done || by repeat constructor).
    f_equal. f_equal. apply splitCSV_Join; [intros E; by rewrite E in Hin; apply not_elem_of_nil in Hin| |by exists member].
    apply Hall; [|done]. unfold members, splitCSV. destruct (is_empty f3); [constructor|]. apply list.Forall_forall. intros x. apply Split_parts.
  - intros Hl. specialize (Hfields Hl). rewrite !Forall_cons in Hfields. destruct Hfields as (_ & ? & ? & Hf3l & _).
    apply Join_mem; [done|]. repeat constructor; try done. apply Join_mem; [done|]. apply Hall; [|done]. by apply splitCSV_members.
  - eapply Join_nonempty; [by left|done].
Qed.

Lemma group_line_of_entry name member line : group_line name member line =
  match group_entry line with
  | Some (n, password, gid, members) =>
      if bool_decide (n = name) then Some (Join [name; password; gid; Join (with_member members member) ","] ":") else None
  | None => None
  end.
Proof. unfold group_line, group_entry. by destruct (Split line ":") as [|f0 [|f1 [|f2 [|f3 [|f4 l]]]]]. Qed.

Lemma group_entry_text line n p g ms : group_entry line = Some (n, p, g, ms) → Join [n; p; g; Join ms ","] ":" = line.
Proof.
  unfold group_entry. pose proof (Split_Join line ":") as E. 
  destruct (Split line ":") as [|f0 [|f1 [|f2 [|f3 [|f4 l]]]]]; try done. intros [= <- <- <- <-].
  rewrite <-E. unfold splitCSV, is_empty. case_bool_decide as Hf; [by rewrite Hf|]. by rewrite Split_Join.
Qed.

Lemma group_line_stable name member line line' : account_name name → account_name member →
  group_line name member line = Some line' → group_line name member line' = Some line'.
Proof.
  intros Hn Hm Hl. destruct (group_line_entry _ _ _ _ Hn Hm Hl) as (p & g & ms & _ & He & _).
  rewrite group_line_of_entry, He, bool_decide_eq_true_2 by done. f_equal.
  rewrite (proj1 (proj2 (proj2 (with_member_spec ms member)))). by apply group_entry_text.
Qed.

(** The group an entry is of. *)
Definition entry_group (line : string) : option string := (λ e, e.1.1.1) <$> group_entry line.

Lemma group_line_None name member line : group_line name member line = None ↔ entry_group line ≠ Some name.
Proof.
  rewrite group_line_of_entry. unfold entry_group. destruct (group_entry line) as [[[[n p] g] ms]|]; simpl; [|done].
  case_bool_decide; naive_solver.
Qed.

Lemma new_group_line name password gid member : account_name name → account_name member →
  str_mem ":" password = false → str_mem ":" gid = false →
  group_line name member (Join [name; password; gid; member] ":") = Some (Join [name; password; gid; member] ":").
Proof.
  intros (Hn & Hn1 & Hn2 & Hn3) (Hm & Hm1 & Hm2 & Hm3) Hp Hg. unfold group_line.
  rewrite (Split_Join_sep [name; password; gid; member] ":") by (done || by repeat constructor).
  rewrite bool_decide_eq_true_2 by done. f_equal. f_equal. f_equal. f_equal. f_equal. f_equal.
  assert (splitCSV member = [member]) as ->.
  { unfold splitCSV, is_empty. rewrite bool_decide_eq_false_2 by done. by apply Split_none. }
  unfold with_member, stringInSlice. by rewrite bool_decide_eq_true_2 by by left.
Qed.

Lemma group_text_lines text name password gid member : account_name name → account_name member →
  str_mem ":" password = false → str_mem ":" gid = false → line_ok password → line_ok gid →
  nonemptyLines (ensureGroupMemberText text name password gid member) =
    ensure_lines (group_line name member) (Join [name; password; gid; member] ":") (nonemptyLines text).
Proof.
  intros Hn Hm Hp Hg Hpl Hgl. destruct (ensure_lines_ok (group_line name member) (Join [name; password; gid; member] ":")
    (nonemptyLines text)) as [Hok Hne]; [apply nonemptyLines_ok|..|by apply lines_text_lines].
  - destruct Hn as (_ & _ & _ & Hnl), Hm as (_ & _ & _ & Hml). apply Join_mem; [done|by repeat constructor].
  - eapply Join_nonempty; [by left|apply Hn].
  - intros l l' Hl Hr. destruct (group_line_entry _ _ _ _ Hn Hm Hr) as (_ & _ & _ & _ & _ & Hok & Hne). auto.
Qed.

(** Putting a user into a group of the guest's group file: afterwards the group
    has an entry; in every entry of it the user is a member; an entry it had
    keeps its password, its id and the members it had, in their order; every other
    line of the file is kept, in its order; and doing it again changes nothing. *)
Lemma ensureGroupMember_correct text name password gid member :
  account_name name → account_name member → str_mem ":" password = false → str_mem ":" gid = false →
  line_ok password → line_ok gid →
  let before := nonemptyLines text in
  let text' := ensureGroupMemberText text name password gid member in
  let after := nonemptyLines text' in
  (∃ line, line ∈ after ∧ entry_group line = Some name) ∧
  (∀ line p g ms, line ∈ after → group_entry line = Some (name, p, g, ms) → member ∈ ms) ∧
  (∀ line p g ms, line ∈ before → group_entry line = Some (name, p, g, ms) →
     ∃ line' ms', line' ∈ after ∧ group_entry line' = Some (name, p, g, ms') ∧ ms `prefix_of` ms') ∧
  filter (λ line, entry_group line ≠ Some name) after = filter (λ line, entry_group line ≠ Some name) before ∧
  ensureGroupMemberText text' name password gid member = text'.
Proof.
  intros Hn Hm Hp Hg Hpl Hgl before text' after.
  assert (after = ensure_lines (group_line name member) (Join [name; password; gid; member] ":") before) as Ea
    by by apply group_text_lines.
  destruct (ensure_lines_spec (group_line name member) (Join [name; password; gid; member] ":") before)
    as ((l & Hl & Hr) & Hall & Hfil & Hid);
    [intros l l'; by apply group_line_stable|by apply new_group_line|]. rewrite <-Ea in *.
  assert (∀ line, entry_group line = Some name ↔ group_line name member line ≠ None) as Hnone.
  { intros line. rewrite group_line_None. destruct (decide (entry_group line = Some name)); naive_solver. }
  split; [exists l; split; [done|]; apply Hnone; congruence|]. split; [|split; [|split]].
  - intros line p g ms Hin He. destruct (Hall line Hin) as [Hf|Hf].
    + destruct (group_line_entry _ _ _ _ Hn Hm Hf) as (p' & g' & ms' & E1 & E2 & _).
      rewrite He in E2. injection E2 as -> -> ->. apply with_member_spec.
    + apply group_line_None in Hf. exfalso. apply Hf. unfold entry_group. by rewrite He.
  - intros line p g ms Hin He. destruct (group_line name member line) as [line'|] eqn:Hf.
    + destruct (group_line_entry _ _ _ _ Hn Hm Hf) as (p' & g' & ms' & E1 & E2 & _). simplify_eq.
      exists line', (with_member ms member). split; [|split; [done|apply with_member_spec]].
      rewrite Ea. assert (line' ∈ (λ current, default current (group_line name member current)) <$> before) as Hin'.
      { apply list_elem_of_fmap. exists line. by rewrite Hf. }
      unfold ensure_lines. destruct (existsb _ _); [done|]. apply elem_of_app. by left.
    + apply group_line_None in Hf. exfalso. apply Hf. unfold entry_group. by rewrite He.
  - etrans; [|etrans; [exact Hfil|]]; apply list_filter_iff; intros line; [symmetry|]; apply group_line_None.
  - unfold ensureGroupMemberText at 1. fold after. by rewrite Hid, Ea.
Qed.

Example group_member_added :
  ensureGroupMemberText ("root:x:0:" +:+ nl_text +:+ "sudo:x:27:admin" +:+ nl_text) "sudo" "x" "27" "ubuntu" =
    "root:x:0:" +:+ nl_text +:+ "sudo:x:27:admin,ubuntu" +:+ nl_text.
Proof. reflexivity. Qed.

(** The same for a line that starts with a name, as of the password file. *)
Lemma ensureNamedLine_correct text name line : line_ok line → HasPrefix line (name +:+ ":") = true →
  let before := nonemptyLines text in
  let text' := ensureNamedLineText text name line in
  let after := nonemptyLines text' in
  line ∈ after ∧ (∀ l, l ∈ after → HasPrefix l (name +:+ ":") = true → l = line) ∧
  filter (λ l, HasPrefix l (name +:+ ":") = false) after = filter (λ l, HasPrefix l (name +:+ ":") = false) before ∧
  ensureNamedLineText text' name line = text'.
Proof.
  intros Hl Hp before text' after. set (r := λ current, if HasPrefix current (name +:+ ":") then Some line else None).
  assert (line ≠ "") as Hne. { intros ->. by destruct name. }
  assert (after = ensure_lines r line before) as Ea.
  { destruct (ensure_lines_ok r line before) as [Hok Hne']; [apply nonemptyLines_ok|done|done| |by apply lines_text_lines].
    unfold r. intros l l' _. destruct (HasPrefix l _); by intros [= <-]. }
  assert (r line = Some line) as Hrl by (unfold r; by rewrite Hp).
  destruct (ensure_lines_spec r line before) as ((l & Hin & Hr) & Hall & Hfil & Hid); [|done|].
  { unfold r. intros l l'. destruct (HasPrefix l _); [|done]. intros [= <-]. by rewrite Hp. }
  assert (∀ l, r l = None ↔ HasPrefix l (name +:+ ":") = false) as Hnone.
  { intros l'. unfold r. by destruct (HasPrefix l' _). }
  rewrite <-Ea in *. split; [|split; [|split]].
  - unfold r in Hr. destruct (HasPrefix l _); [|done]. congruence.
  - intros l' Hin' Hp'. destruct (Hall l' Hin') as [E|E]; unfold r in E; rewrite Hp' in E; congruence.
  - etrans; [|etrans; [exact Hfil|]]; apply list_filter_iff; intros l'; [symmetry|]; apply Hnone.
  - unfold ensureNamedLineText at 1. fold after r. by rewrite Hid, Ea.
Qed.

(** ** The kernel *)

Lemma elf_search_Some magic decompress n kernel data : elf_search n magic decompress kernel = Some data →
  isELF data = true ∧ ∃ before rest, kernel = before +:+ magic +:+ rest ∧ data = decompress (magic +:+ rest).
Proof.
  revert kernel. induction n as [|n IH]; intros kernel; cbn [elf_search]; [done|].
  destruct (Cut kernel magic) as [[before rest]|] eqn:Ec; [|done]. apply Cut_Some in Ec as ->. cbv zeta.
  destruct (isELF (decompress (magic +:+ rest))) eqn:Ee; [intros <-%(inj Some); eauto|]. intros (He & b & r & -> & ->)%IH. split; [done|].
  exists (before +:+ magic +:+ b), r. by rewrite !str_app_assoc.
Qed.

(** The searches end before their fuel does: each round leaves less of the kernel. *)
Lemma elf_search_enough magic decompress n kernel : magic ≠ "" → (String.length kernel < n)%nat →
  elf_search n magic decompress kernel = elf_search (S (String.length kernel)) magic decompress kernel.
Proof.
  intros Hm. revert kernel. induction n as [n IH] using lt_wf_ind. intros kernel Hn. destruct n as [|n]; [lia|]. cbn [elf_search].
  destruct (Cut kernel magic) as [[before rest]|] eqn:Ec; [|done]. apply Cut_Some in Ec. cbv zeta.
  destruct (isELF (decompress (magic +:+ rest))); [done|]. assert (String.length rest < String.length kernel)%nat as Hlt.
  { apply (f_equal String.length) in Ec. rewrite !str_length_app in Ec. destruct magic; [done|]. simpl in Ec. lia. }
  rewrite (IH n) by lia. symmetry. destruct (decide (String.length kernel = n)) as [->|]; [by apply IH; lia|]. apply IH; lia.
Qed.

(** The kernel is an ELF image: the boot image itself, or what one of the
    decompressors makes of a part of it that starts with its magic number. *)
Lemma extractKernelELF_Ok `{Decompressors} kernel data : extractKernelELF kernel = Ok data →
  isELF data = true ∧
  (data = kernel ∨ ∃ d before rest, d ∈ decompressors ∧ kernel = before +:+ d.1 +:+ rest ∧ data = d.2 (d.1 +:+ rest)).
Proof.
  unfold extractKernelELF. destruct (isELF kernel) eqn:Ek; [intros [= <-]; auto|].
  assert (∀ ds found, (∀ x, found = Some x → isELF x = true ∧ ∃ d before rest, d ∈ decompressors ∧ kernel = before +:+ d.1 +:+ rest ∧ x = d.2 (d.1 +:+ rest)) →
    (∀ d, d ∈ ds → d ∈ decompressors) →
    ∀ x, foldl (λ found d, match found with Some _ => found | None => elf_search (S (String.length kernel)) d.1 d.2 kernel end) found ds = Some x →
      isELF x = true ∧ ∃ d before rest, d ∈ decompressors ∧ kernel = before +:+ d.1 +:+ rest ∧ x = d.2 (d.1 +:+ rest)) as Hfold.
  { induction ds as [|d ds IH]; intros found Hf Hds; cbn [foldl]; [done|]. apply IH; [|intros; apply Hds; by right].
    destruct found as [y|]; [done|]. intros x (He & b & r & -> & ->)%elf_search_Some. split; [done|].
    exists d, b, r. split; [apply Hds; by left|done]. }
  destruct (foldl _ None decompressors) as [x|] eqn:Ef; [|done]. intros [= <-].
  destruct (Hfold decompressors None ltac:(done) ltac:(done) x Ef) as (He & Hx). split; [done|by right].
Qed.

(** ** Sizes *)

(** A size that fits is read exactly. *)
Lemma parseSize_digits `{GoUnicode} n : 1 ≤ n ≤ int_max 64 → parseSize (FormatInt n) = Ok n.
Proof.
  intros Hn. unfold parseSize. pose proof (FormatInt_digits n ltac:(lia)) as Hd.
  assert (TrimSpace (FormatInt n) = FormatInt n) as ->.
  { pose proof (TrimSpace_padded_int 0 n ltac:(lia)) as E. unfold padded in E. simpl in E. by rewrite str_app_nil_r in E. }
  assert (∀ s, s ≠ "" → str_forall is_digit s = true → ∃ t c, last_byte s = Some (t, c) ∧ is_digit c = true) as Hlast.
  { induction s as [|c s IH]; intros Hne Hs; [done|]. simpl in Hs. apply andb_true_iff in Hs as [Hc Hs].
    destruct s as [|d s]; [by exists "", c|]. destruct (IH ltac:(done) Hs) as (t & e & El & He). exists (String c t), e.
    cbn [last_byte] in *. by rewrite El. }
  destruct (Hlast (FormatInt n)) as (t & c & -> & ->); [by apply FormatInt_nonempty|done|].
  unfold parse_count. rewrite ParseInt_FormatInt by (unfold int_min, int_max in *; lia).
  rewrite bool_decide_eq_false_2 by lia. unfold int_max in Hn. by rewrite Z.mul_1_r, wrap64_id by lia.
Qed.

(** The product of a count and its unit wraps around: 2^34 + 4 gigabytes is read as four. *)
Example parseSize_wraps : @parseSize ascii_only "17179869188G" = @parseSize ascii_only "4G".
Proof. reflexivity. Qed.

(** Versions are compared as text. *)
Example versionLess_text : versionLess "boot/vmlinuz-6.10.0" "boot/vmlinuz-6.9.0" = true.
Proof. reflexivity. Qed.
