(* ===== verification/ImageFS.v ===== *)
(** * The image builder: the guest's file system (cmd/firedoze-image-builder/main.go)

    The Ubuntu root archive and the kernel modules are unpacked into an ext4
    image, files of the guest's own are added, and an overlay replaces the account
    files and masks services.  The ext4 library is an argument: a state and the
    calls the builder makes of it, of which nothing is assumed. *)

From S2P Require Import Prelude GoStrings Paths IPNet Crypto Config ClientArgs ImageText.
Open Scope Z_scope.

(** go-diskfs: its state, and its calls with their errors. *)
Class Ext4 (F : Type) := {
  efs_handle : Type;
  efs_Stat : string → M F bool;                      (* whether it is a directory *)
  efs_Mkdir : string → M F unit;
  efs_Chmod : string → Z → M F unit;
  efs_Chown : string → Z → Z → M F unit;
  efs_Chtimes : string → Z → M F unit;
  efs_Truncate : string → Z → M F unit;
  efs_OpenFile : string → bool → M F efs_handle;     (* O_RDWR, with O_CREATE or without *)
  efs_Write : efs_handle → string → M F unit;        (* io.Copy into the file *)
  efs_CloseFile : efs_handle → M F unit;
  efs_ReadFile : string → M F string;
  efs_ReadLink : string → M F string;
  efs_Symlink : string → string → M F unit;
  efs_Remove : string → M F unit;
}.

(** What a [tar.Reader] meets: headers with what reading their data gives, then
    the end of the archive or an error. *)
Record tar_hdr := MkHdr {
  h_Name : string; h_Typeflag : ascii; h_Mode : Z; h_Uid : Z; h_Gid : Z; h_ModTime : Z; h_Linkname : string }.
Inductive tar_step := TarNext (h : tar_hdr) (data : result string) | TarFail (e : error).

Definition TypeReg : ascii := "0".
Definition TypeRegA : ascii := ascii_of_nat 0.
Definition TypeLink : ascii := "1".
Definition TypeSymlink : ascii := "2".
Definition TypeDir : ascii := "5".

(** [hdr.FileInfo().IsDir()]: the file type bits of the mode, or the type. *)
Definition hdr_IsDir (h : tar_hdr) : bool :=
  bool_decide (Z.land (h_Mode h) (Z.lnot 4095) = 16384) || bool_decide (h_Typeflag h = TypeDir).
Definition hdr_regular (h : tar_hdr) : bool :=
  bool_decide (h_Typeflag h = TypeReg) || bool_decide (h_Typeflag h = TypeRegA).

(** Modes, in octal: 0755, 0644, 0640, 0440. *)
Definition m755 : Z := 493.
Definition m644 : Z := 420.
Definition m640 : Z := 416.
Definition m440 : Z := 288.

(** ** The overlay *)

Record fileOverlay := MkFileOverlay {
  fo_mode : Z; fo_uid : Z; fo_gid : Z; fo_transform : string → string; fo_data : option string }.

Record guestOverlay := MkOverlay {
  ov_files : gmap string fileOverlay; ov_symlinks : gmap string string; ov_skipPrefixes : list string }.

Definition passwd_line : string := "ubuntu:x:1000:1000:Ubuntu:/home/ubuntu:/bin/bash".
Definition shadow_line : string := "ubuntu::19723:0:99999:7:::".
Definition fstab_text : string := "/dev/vda / ext4 defaults,errors=remount-ro 0 1" +:+ nl_text.

(** The units of /etc/systemd/system that are masked. *)
Definition masked_units : list string :=
  ["apparmor.service"; "snapd.apparmor.service"; "ssh.socket"; "cloud-init.service";
   "cloud-init-local.service"; "cloud-config.service"; "cloud-final.service"; "cloud-init-main.service";
   "cloud-init-network.service"; "cloud-init.target"; "systemd-networkd-wait-online.service";
   "systemd-binfmt.service"; "proc-sys-fs-binfmt_misc.mount"; "multipathd.service"; "multipathd.socket";
   "open-iscsi.service"; "iscsid.socket"; "lvm2-monitor.service"; "dm-event.socket"; "lvm2-lvmpolld.socket";
   "snapd.service"; "snapd.socket"; "snapd.seeded.service"; "snapd.autoimport.service";
   "snapd.core-fixup.service"; "snapd.recovery-chooser-trigger.service"; "snapd.snap-repair.timer";
   "snapd.system-shutdown.service"; "unattended-upgrades.service"; "apt-daily.service"; "apt-daily.timer";
   "apt-daily-upgrade.service"; "apt-daily-upgrade.timer"; "man-db.service"; "man-db.timer"; "motd-news.timer";
   "update-notifier-download.timer"; "update-notifier-motd.timer"; "sysstat-collect.timer";
   "sysstat-rotate.timer"; "sysstat-summary.timer"; "sysstat.service"; "pollinate.service";
   "networkd-dispatcher.service"; "ModemManager.service"; "udisks2.service"; "polkit.service";
   "e2scrub_reap.service"; "e2scrub_all.timer"; "xfs_scrub_all.timer"; "fstrim.timer"; "fwupd-refresh.timer";
   "dpkg-db-backup.timer"; "logrotate.timer"; "mdcheck_continue.timer"; "mdcheck_start.timer";
   "mdmonitor-oneshot.timer"; "lxd-installer.socket"; "open-vm-tools.service"; "vgauth.service";
   "secureboot-db.service"; "ua-reboot-cmds.service"; "ubuntu-advantage.service"; "ua-timer.timer";
   "systemd-pstore.service"; "apport-autoreport.path"; "apport-autoreport.timer"; "apport-forward.socket";
   "tpm-udev.path"; "rsyslog.service"; "qemu-guest-agent.service"; "ufw.service"; "apport.service"].

Definition newGuestOverlay : guestOverlay := MkOverlay
  (list_to_map
    [("etc/passwd", MkFileOverlay m644 0 0 (λ data, ensureNamedLineText data "ubuntu" passwd_line) None);
     ("etc/shadow", MkFileOverlay m640 0 42 (λ data, ensureNamedLineText data "ubuntu" shadow_line) None);
     ("etc/group", MkFileOverlay m644 0 0 (λ data,
        ensureGroupMemberText (ensureGroupMemberText data "ubuntu" "x" "1000" "ubuntu") "sudo" "x" "27" "ubuntu") None);
     ("etc/gshadow", MkFileOverlay m640 0 42 (λ data,
        ensureGroupMemberText (ensureGroupMemberText data "ubuntu" "!" "" "ubuntu") "sudo" "*" "" "ubuntu") None);
     ("etc/fstab", MkFileOverlay m644 0 0 (λ _, fstab_text) None)])
  (list_to_map (((λ u, ("etc/systemd/system/" +:+ u, "/dev/null")) <$> masked_units) ++
   [("etc/ssh/sshd_config.d/60-cloudimg-settings.conf", "");
   ("etc/systemd/system/sockets.target.wants/ssh.socket", "");
   ("etc/systemd/system/sysinit.target.wants/firedoze-grow-root.service", "/etc/systemd/system/firedoze-grow-root.service");
   ("etc/systemd/system/sysinit.target.wants/firedoze-network.service", "/etc/systemd/system/firedoze-network.service");
   ("etc/systemd/system/sysinit.target.wants/firedoze-sshd.service", "/etc/systemd/system/firedoze-sshd.service");
   ("etc/systemd/system/multi-user.target.wants/firedoze-memd.service", "/etc/systemd/system/firedoze-memd.service");
   ("etc/systemd/system/multi-user.target.wants/firedoze-zram.service", "/etc/systemd/system/firedoze-zram.service")]))
  ["usr/share/doc/"; "usr/share/man/"; "usr/share/info/"; "usr/share/lintian/"; "usr/share/linda/";
   "usr/share/locale/"; "usr/share/help/"; "usr/share/command-not-found/"; "usr/lib/command-not-found";
   "var/lib/command-not-found/"; "var/cache/man/"; "var/cache/apt/"; "var/lib/apt/lists/"; "var/lib/cloud/";
   "var/log/"; "var/crash/"].

Definition shouldSkip (o : guestOverlay) (p : string) : bool :=
  bool_decide (is_Some (ov_files o !! p)) || bool_decide (is_Some (ov_symlinks o !! p)) ||
  existsb (HasPrefix p) (ov_skipPrefixes o).

Definition with_data (f : fileOverlay) (data : string) : fileOverlay :=
  MkFileOverlay (fo_mode f) (fo_uid f) (fo_gid f) (fo_transform f) (Some data).

Definition captureFile (o : guestOverlay) (p data : string) : option guestOverlay :=
  match ov_files o !! p with
  | None => None
  | Some file =>
      Some (MkOverlay (<[p := with_data file (fo_transform file data)]> (ov_files o)) (ov_symlinks o) (ov_skipPrefixes o))
  end.

(** ** Boot artifacts *)

Record bootArtifact := MkBoot { ba_path : string; ba_data : string }.
Record bootArtifacts := MkBoots { ba_kernel : option bootArtifact; ba_initrd : option bootArtifact }.

Definition later (current : option bootArtifact) (p data : string) : option bootArtifact :=
  match current with
  | Some a => if versionLess (ba_path a) p then Some (MkBoot p data) else current
  | None => Some (MkBoot p data)
  end.

Definition remember (a : bootArtifacts) (p data : string) : bootArtifacts :=
  if bool_decide (path_Dir p = "boot") && HasPrefix (path_Base p) "vmlinuz-"
  then MkBoots (later (ba_kernel a) p data) (ba_initrd a)
  else if bool_decide (path_Dir p = "boot") && HasPrefix (path_Base p) "initrd.img-"
  then MkBoots (ba_kernel a) (later (ba_initrd a) p data)
  else a.

Record pendingHardlink := MkLink { hl_path : string; hl_target : string; hl_header : tar_hdr }.

Section efs.
Context {F : Type} `{Ext4 F}.

(** ** Files, directories and links *)

Fixpoint mkdir_parts (parts : list string) (current : string) : M F unit :=
  match parts with
  | [] => mret tt
  | part :: parts' =>
      if is_empty part then mkdir_parts parts' current else
      let current := path_Join [current; part] in
      info ← attempt (efs_Stat current);
      match info with
      | Ok true => mkdir_parts parts' current
      | Ok false => fail (ErrOther "exists and is not a directory")
      | Err _ => efs_Mkdir current ;; mkdir_parts parts' current
      end
  end.

(** Mode, owner and times; their errors are dropped. *)
Definition set_attributes (p : string) (mode uid gid modTime : Z) : M F unit :=
  attempt (efs_Chmod p mode) ;; attempt (efs_Chown p uid gid) ;; attempt (efs_Chtimes p modTime) ;; mret tt.

Definition mkdirAll (p : string) (mode uid gid modTime : Z) : M F unit :=
  if is_empty p then mret tt else
  mkdir_parts (Split p "/") "" ;; set_attributes p mode uid gid modTime.

Definition writeFile (p data : string) (mode uid gid modTime : Z) : M F unit :=
  mkdirAll (path_Dir p) m755 0 0 modTime ;;
  info ← attempt (efs_Stat p);
  create ← match info with
           | Err _ => mret true
           | Ok _ => efs_Truncate p 0 ;; mret false
           end;
  f ← efs_OpenFile p create;
  copied ← attempt (efs_Write f data);
  match copied with
  | Err e => attempt (efs_CloseFile f) ;; fail e
  | Ok _ => efs_CloseFile f ;; set_attributes p mode uid gid modTime
  end.

Definition symlink (target p : string) (modTime : Z) : M F unit :=
  mkdirAll (path_Dir p) m755 0 0 modTime ;;
  link ← attempt (efs_ReadLink p);
  match link with
  | Ok current =>
      if negb (bool_decide (current = target)) then fail (ErrOther "already points elsewhere")
      else attempt (efs_Chtimes p modTime) ;; mret tt
  | Err _ =>
      info ← attempt (efs_Stat p);
      match info with
      | Ok _ => fail (ErrOther "already exists and is not a symlink")
      | Err _ => efs_Symlink target p
      end
  end.

(** ** Unpacking *)

Record unpacking := MkUnpacking {
  u_overlay : guestOverlay; u_artifacts : bootArtifacts; u_links : list pendingHardlink }.

Definition mkdir_entry (clean : string) (h : tar_hdr) : M F unit :=
  mkdirAll clean (tarFileMode (h_Mode h)) (h_Uid h) (h_Gid h) (h_ModTime h).
Definition write_entry (clean data : string) (h : tar_hdr) : M F unit :=
  writeFile clean data (tarFileMode (h_Mode h)) (h_Uid h) (h_Gid h) (h_ModTime h).

(** One entry of the root archive. *)
Definition populate_entry (h : tar_hdr) (data : result string) (u : unpacking) : M F unpacking :=
  match cleanTarPath (h_Name h) with
  | None => mret u
  | Some clean =>
      if hdr_IsDir h then mkdir_entry clean h ;; mret u else
      if hdr_regular h then
        content ← lift_result data;
        match captureFile (u_overlay u) clean content with
        | Some o => mret (MkUnpacking o (remember (u_artifacts u) clean content) (u_links u))
        | None =>
            if shouldSkip (u_overlay u) clean then mret u else
            write_entry clean content h ;;
            mret (MkUnpacking (u_overlay u) (remember (u_artifacts u) clean content) (u_links u))
        end else
      if bool_decide (h_Typeflag h = TypeDir) then mkdir_entry clean h ;; mret u else
      if bool_decide (h_Typeflag h = TypeSymlink) then
        if shouldSkip (u_overlay u) clean then mret u else symlink (h_Linkname h) clean (h_ModTime h) ;; mret u else
      if bool_decide (h_Typeflag h = TypeLink) then
        match cleanTarPath (h_Linkname h) with
        | None => mret u
        | Some target =>
            if shouldSkip (u_overlay u) clean then mret u else
            mret (MkUnpacking (u_overlay u) (u_artifacts u) (u_links u ++ [MkLink clean target h]))
        end else
      mret u
  end.

Fixpoint populate_loop (steps : list tar_step) (u : unpacking) : M F unpacking :=
  match steps with
  | [] => mret u
  | TarFail e :: _ => fail e
  | TarNext h data :: steps' => u' ← populate_entry h data u; populate_loop steps' u'
  end.

(** The hard links, copied from what their targets hold. *)
Fixpoint link_loop (links : list pendingHardlink) (a : bootArtifacts) : M F bootArtifacts :=
  match links with
  | [] => mret a
  | link :: links' =>
      data ← efs_ReadFile (hl_target link);
      write_entry (hl_path link) data (hl_header link) ;;
      link_loop links' (remember a (hl_path link) data)
  end.

Definition populateRootfs (steps : list tar_step) (overlay : guestOverlay) : M F (bootArtifacts * guestOverlay) :=
  u ← populate_loop steps (MkUnpacking overlay (MkBoots None None) []);
  a ← link_loop (u_links u) (u_artifacts u);
  mret (a, u_overlay u).

(** The entries of a package's data that [include] takes. *)
Definition extract_entry (include : string → bool) (h : tar_hdr) (data : result string) (links : list pendingHardlink)
    : M F (list pendingHardlink) :=
  match cleanTarPath (h_Name h) with
  | None => mret links
  | Some clean =>
      if negb (include clean) then mret links else
      if hdr_IsDir h then mkdir_entry clean h ;; mret links else
      if hdr_regular h then content ← lift_result data; write_entry clean content h ;; mret links else
      if bool_decide (h_Typeflag h = TypeDir) then mkdir_entry clean h ;; mret links else
      if bool_decide (h_Typeflag h = TypeSymlink) then symlink (h_Linkname h) clean (h_ModTime h) ;; mret links else
      if bool_decide (h_Typeflag h = TypeLink) then
        match cleanTarPath (h_Linkname h) with
        | None => mret links
        | Some target => mret (links ++ [MkLink clean target h])
        end else
      mret links
  end.

Fixpoint extract_loop (include : string → bool) (steps : list tar_step) (links : list pendingHardlink)
    : M F (list pendingHardlink) :=
  match steps with
  | [] => mret links
  | TarFail e :: _ => fail e
  | TarNext h data :: steps' => links' ← extract_entry include h data links; extract_loop include steps' links'
  end.

(** Its hard links, of which nothing is remembered. *)
Fixpoint copy_links (links : list pendingHardlink) : M F unit :=
  match links with
  | [] => mret tt
  | link :: links' =>
      data ← efs_ReadFile (hl_target link); write_entry (hl_path link) data (hl_header link) ;; copy_links links'
  end.

Definition overlay_data (file : fileOverlay) : string :=
  match fo_data file with Some d => d | None => fo_transform file "" end.

Definition apply_file (o : guestOverlay) (modTime : Z) (p : string) : M F unit :=
  match ov_files o !! p with
  | None => mret tt
  | Some file => writeFile p (overlay_data file) (fo_mode file) (fo_uid file) (fo_gid file) modTime
  end.

Definition apply_link (o : guestOverlay) (modTime : Z) (p : string) : M F unit :=
  match ov_symlinks o !! p with
  | None => mret tt
  | Some target => if is_empty target then mret tt else symlink target p modTime
  end.

Fixpoint for_each {A} (f : A → M F unit) (ps : list A) : M F unit :=
  match ps with [] => mret tt | p :: ps' => f p ;; for_each f ps' end.

(** [range] visits the keys of a map in an order of its own: [files] and [links]
    are the keys, in the orders of this run. *)
Definition apply (o : guestOverlay) (files links : list string) (modTime : Z) : M F unit :=
  for_each (apply_file o modTime) files ;; for_each (apply_link o modTime) links.
End efs.

(** ** Packages *)

(** What opening a compressed member and reading it as an archive gives: an error,
    or the steps of the reader. *)
Inductive compression := Plain | Zstd | Xz | Gzip.
#[global] Instance compression_eq_dec : EqDecision compression.
Proof. solve_decision. Defined.
Class Untar := open_tar : compression → string → result (list tar_step).

Definition tar_compression (name : string) : option compression :=
  if HasSuffix name ".tar" then Some Plain else
  if HasSuffix name ".zst" then Some Zstd else
  if HasSuffix name ".xz" then Some Xz else
  if HasSuffix name ".gz" then Some Gzip else None.

Definition unsupported : error := ErrOther "unsupported deb data member compression".

Definition compressedTarReader `{Untar} (name data : string) : result (list tar_step) :=
  match tar_compression name with
  | Some c => open_tar c data
  | None => Err unsupported
  end.

Fixpoint control_loop `{GoUnicode} (steps : list tar_step) : result debPackageInfo :=
  match steps with
  | [] => Err (ErrOther "control.tar does not contain control")
  | TarFail e :: _ => Err e
  | TarNext h data :: steps' =>
      if bool_decide (cleanTarPath (h_Name h) = Some "control") then
        if negb (hdr_regular h) then Err (ErrOther "deb control file is not a regular file") else
        control ← data; parseDebControl control
      else control_loop steps'
  end.

Definition parseDebControlTar `{GoUnicode, Untar} (name data : string) : result debPackageInfo :=
  steps ← compressedTarReader name data; control_loop steps.

Fixpoint busybox_loop (steps : list tar_step) : result string :=
  match steps with
  | [] => Err (ErrOther "data.tar does not contain busybox")
  | TarFail e :: _ => Err e
  | TarNext h data :: steps' =>
      match cleanTarPath (h_Name h) with
      | None => busybox_loop steps'
      | Some clean =>
          if negb (bool_decide (clean = "bin/busybox")) && negb (bool_decide (clean = "usr/bin/busybox"))
          then busybox_loop steps' else
          if negb (hdr_regular h) then Err (ErrOther "not a regular file") else data
      end
  end.

(** An uncompressed member is refused here. *)
Definition extractBusyBoxFromDataTar `{Untar} (name data : string) : result string :=
  match tar_compression name with
  | Some c => if bool_decide (c = Plain) then Err unsupported else steps ← open_tar c data; busybox_loop steps
  | None => Err unsupported
  end.

(** [None] is a panic; [ar_find] has none. *)
Definition in_member `{GoUnicode} {A} (wanted : string → bool) (what deb : string) (use : string → string → result A)
    : result A :=
  match ar_find wanted (ErrOther what) deb with
  | Some (Ok (name, data)) => use name data
  | Some (Err e) => Err e
  | None => Err (ErrOther "panic")
  end.

Definition extractBusyBoxFromDeb `{GoUnicode, Untar} (deb : string) : result string :=
  in_member isDebDataMember "deb package has no data.tar member" deb extractBusyBoxFromDataTar.

Definition readDebPackageInfo `{GoUnicode, Untar} (deb : string) : result debPackageInfo :=
  in_member isDebControlMember "deb package has no control.tar member" deb parseDebControlTar.

(** ** The guest's own files *)

(** Where they are and their modes; their text is an argument. *)
Definition guest_files : list (string * Z) :=
  [("etc/ssh/sshd_config.d/99-firedoze.conf", m644);
   ("etc/profile.d/firedoze-prompt.sh", m644);
   ("usr/local/sbin/firedoze-guest-network", m755);
   ("usr/local/sbin/firedoze-memd", m755);
   ("usr/local/sbin/firedoze-zram", m755);
   ("usr/local/sbin/firedoze-grow-root", m755);
   ("usr/local/bin/firedoze-hello", m755);
   ("usr/local/bin/firedoze-stop", m755);
   ("usr/local/bin/firedoze-hello-service", m755);
   ("etc/systemd/system/firedoze-network.service", m644);
   ("etc/systemd/system/firedoze-zram.service", m644);
   ("etc/systemd/system/firedoze-grow-root.service", m644);
   ("etc/systemd/system/firedoze-memd.service", m644);
   ("etc/systemd/system/firedoze-sshd.service", m644);
   ("etc/cloud/cloud.cfg.d/99-firedoze.cfg", m644);
   ("etc/sysctl.d/90-firedoze-zram.conf", m644)].
Definition guest_dirs : list string :=
  ["etc/cloud/cloud.cfg.d"; "etc/firedoze"; "etc/ssh/sshd_config.d"; "etc/sysctl.d"; "etc/systemd/system";
   "etc/systemd/system/multi-user.target.wants"; "etc/systemd/system/sysinit.target.wants"; "etc/sudoers.d";
   "var/lib/firedoze"; "home/ubuntu"; "usr/local/bin"; "usr/local/sbin"].
Definition sudoers_text : string := "ubuntu ALL=(ALL) NOPASSWD:ALL" +:+ nl_text.

Definition zram_modules : list string :=
  ["kernel/drivers/block/zram/zram.ko.zst"; "kernel/lib/lz4/lz4hc_compress.ko.zst"; "kernel/lib/lz4/lz4_compress.ko.zst";
   "kernel/lib/842/842_decompress.ko.zst"; "kernel/lib/842/842_compress.ko.zst"].
Definition zram_deps : list string :=
  ["kernel/drivers/block/zram/zram.ko.zst: kernel/lib/lz4/lz4hc_compress.ko.zst kernel/lib/842/842_decompress.ko.zst kernel/lib/lz4/lz4_compress.ko.zst kernel/lib/842/842_compress.ko.zst";
   "kernel/lib/lz4/lz4hc_compress.ko.zst:"; "kernel/lib/lz4/lz4_compress.ko.zst:";
   "kernel/lib/842/842_decompress.ko.zst:"; "kernel/lib/842/842_compress.ko.zst:"].
Definition baseKernelVersion : string := "7.0.0-14-generic".

(** The text of modules.dep with the lines it lacks. *)
Definition with_dep (text line : string) : string :=
  if GoStrings.Contains text (line +:+ nl_text) then text else text +:+ line +:+ nl_text.
Definition deps_text (data : string) : string :=
  foldl with_dep (if HasSuffix data nl_text then data else data +:+ nl_text) zram_deps.

Definition is_module (clean : string) : bool :=
  bool_decide (clean = "usr/lib/modules") || HasPrefix clean "usr/lib/modules/".

Section guest.
Context {F : Type} `{Ext4 F, GoUnicode, Untar}.

Definition extractDataTarToRootfs (name data : string) (include : string → bool) : M F unit :=
  steps ← lift_result (compressedTarReader name data);
  links ← extract_loop include steps []; copy_links links.

Definition extractDebDataTarToRootfs (deb : string) (include : string → bool) : M F unit :=
  member ← lift_result (in_member isDebDataMember "deb package has no data.tar member" deb (λ name data, Ok (name, data)));
  extractDataTarToRootfs member.1 member.2 include.

Definition ensureZramModuleDeps (kernelVersion : string) (now : Z) : M F unit :=
  let moduleDir := path_Join ["usr/lib/modules"; kernelVersion] in
  for_each (λ module,
    info ← attempt (efs_Stat (path_Join [moduleDir; module]));
    if is_ok info then mret tt else fail (ErrOther "missing module")) zram_modules ;;
  let depsPath := path_Join [moduleDir; "modules.dep"] in
  data ← attempt (efs_ReadFile depsPath);
  writeFile depsPath (deps_text (match data with Ok d => d | Err _ => "" end)) m644 0 0 now ;;
  attempt (efs_Remove (path_Join [moduleDir; "modules.dep.bin"])) ;; mret tt.

Definition installKernelModulesDeb (deb : string) (now : Z) : M F unit :=
  extractDebDataTarToRootfs deb is_module ;; ensureZramModuleDeps baseKernelVersion now.

(** [text] gives the text of each file of [guest_files]. *)
Definition customizeGuest (text : string → string) (overlay : guestOverlay) (files links : list string)
    (helloBinary busyBoxBinary : string) (now : Z) : M F unit :=
  for_each (λ dir, mkdirAll dir m755 0 0 now) guest_dirs ;;
  for_each (λ file, writeFile file.1 (text file.1) file.2 0 0 now) guest_files ;;
  writeFile "usr/local/bin/firedoze-hello" helloBinary m755 0 0 now ;;
  writeFile "usr/bin/busybox" busyBoxBinary m755 0 0 now ;;
  apply overlay files links now ;;
  writeFile "etc/sudoers.d/90-firedoze-ubuntu" sudoers_text m440 0 0 now ;;
  attempt (efs_Chown "home/ubuntu" 1000 1000) ;; mret tt.
End guest.

(** ** The calls made of the file system

    Every implementation, with a record of the paths it is called with. *)
Inductive efs_op := OpStat | OpMkdir | OpChmod | OpChown | OpChtimes | OpTruncate | OpOpen | OpReadFile | OpReadLink
  | OpSymlink | OpRemove.

#[global] Instance efs_op_eq_dec : EqDecision efs_op.
Proof. solve_decision. Defined.

(** The calls that make or change a file or a link, or remove one. *)
Definition op_writes (op : efs_op) : bool :=
  match op with OpTruncate | OpOpen | OpSymlink | OpRemove => true | _ => false end.

Abbreviation call_log := (list (efs_op * string)).

Definition noted {F A} (op : efs_op) (p : string) (m : M F A) : M (F * call_log) A := λ s,
  let '(r, f) := m s.1 in (r, (f, s.2 ++ [(op, p)])).
Definition unnoted {F A} (m : M F A) : M (F * call_log) A := λ s, let '(r, f) := m s.1 in (r, (f, s.2)).

Definition logged {F} (E : Ext4 F) : Ext4 (F * call_log) := {|
  efs_handle := efs_handle;
  efs_Stat p := noted OpStat p (efs_Stat p);
  efs_Mkdir p := noted OpMkdir p (efs_Mkdir p);
  efs_Chmod p mode := noted OpChmod p (efs_Chmod p mode);
  efs_Chown p uid gid := noted OpChown p (efs_Chown p uid gid);
  efs_Chtimes p t := noted OpChtimes p (efs_Chtimes p t);
  efs_Truncate p n := noted OpTruncate p (efs_Truncate p n);
  efs_OpenFile p create := noted OpOpen p (efs_OpenFile p create);
  efs_Write h data := unnoted (efs_Write h data);
  efs_CloseFile h := unnoted (efs_CloseFile h);
  efs_ReadFile p := noted OpReadFile p (efs_ReadFile p);
  efs_ReadLink p := noted OpReadLink p (efs_ReadLink p);
  efs_Symlink target p := noted OpSymlink p (efs_Symlink target p);
  efs_Remove p := noted OpRemove p (efs_Remove p);
|}.

(** ** Paths of the image *)

Definition image_part (x : string) : Prop := good_part x ∧ skipped_part x = false.

Definition path_ok (p : string) : Prop := confined p ∨ p = ".".

Lemma image_parts_good l : Forall image_part l → Forall good_part l.
Proof. intros Hl. eapply Forall_impl; [exact Hl|]. by intros x []. Qed.

Lemma Join_not_abs l : l ≠ [] → Forall good_part l → ∀ t, IsAbs (Join l "/" +:+ t) = false.
Proof.
  intros Hne Hl t. destruct Hl as [|x l (Hx & Hs & _) Hl]; [done|].
  destruct x as [|c x]; [done|]. simpl in Hs. apply orb_false_iff in Hs as [Hc%bool_decide_eq_false _].
  unfold IsAbs. destruct l; simpl; by rewrite bool_decide_eq_false_2 by congruence.
Qed.

Lemma clean_parts_trailing rooted l : ∀ out, Forall good_part l → clean_parts rooted out (l ++ [""]) = clean_parts rooted out l.
Proof.
  induction l as [|y l IH]; intros out Hl; [cbn [app clean_parts]; by rewrite bool_decide_eq_true_2 by auto|].
  apply Forall_cons in Hl as [(H1 & _ & H2 & H3) Hl]. cbn [app clean_parts].
  rewrite !bool_decide_eq_false_2 by naive_solver. by apply IH.
Qed.

Lemma Clean_rel l : l ≠ [] → Forall good_part l →
  Clean (Join l "/") = Join l "/" ∧ Clean (Join l "/" +:+ "/") = Join l "/".
Proof.
  intros Hne Hl. pose proof (good_no_slash l Hl) as Hns.
  assert (clean_parts false [] l = l) as Hc by by rewrite (clean_parts_good false [] l Hl).
  split.
  - unfold Clean. pose proof (Join_not_abs l Hne Hl "") as E. rewrite str_app_nil_r in E.
    rewrite E, Split_Join_parts, Hc by done. by rewrite bool_decide_eq_false_2.
  - unfold Clean. rewrite (Join_not_abs l Hne Hl "/").
    rewrite <-(Join_app l [""] "/" Hne ltac:(done) : Join (l ++ [""]) "/" = Join l "/" +:+ "/").
    rewrite Split_Join_parts; [|by destruct l|apply Forall_app; split; [done|by repeat constructor]].
    rewrite clean_parts_trailing, Hc by done. by rewrite bool_decide_eq_false_2.
Qed.

Lemma path_Dir_ok p : confined p → path_ok (path_Dir p).
Proof.
  intros (l & Hl & [[-> Hne]| ->]).
  - destruct (list_last_cases l) as [->|(l' & x & ->)]; [done|]. apply Forall_app in Hl as [Hl [[Hx _] _]%Forall_cons].
    destruct Hx as (_ & Hx & _). unfold path_Dir. destruct (decide (l' = [])) as [->|Hne'].
    + right. cbn [app Join]. apply CutLast_None in Hx. by rewrite Hx.
    + left. rewrite Join_app by done. change (Join [x] "/") with x. change ("/" +:+ x) with (String "/" x).
      rewrite CutLast_app by done. rewrite (proj2 (Clean_rel l' Hne' (image_parts_good _ Hl))). exists l'. auto.
  - left. destruct (list_last_cases l) as [->|(l' & x & ->)]; [exists []; split; [constructor|by right]|].
    apply Forall_app in Hl as [Hl [[Hx _] _]%Forall_cons]. destruct (decide (l' = [])) as [->|Hne'].
    + exists []. split; [constructor|right]. destruct Hx as (_ & Hx & _). unfold path_Dir, abs. cbn [app Join].
      change ("/" +:+ x) with ("" +:+ String "/" x). by rewrite CutLast_app.
    + rewrite path_Dir_abs by (done || by apply image_parts_good). exists l'. auto.
Qed.

Lemma Forall_one {A} (P : A → Prop) x : P x → Forall P [x].
Proof. intros Hx. constructor; [done|constructor]. Qed.

(** ** Only paths of the image, and only files that may be written *)

Section calls.
Context {F : Type} (E : Ext4 F) (W : string → Prop).
#[local] Existing Instance logged.

(** A call names a path below the root of the image, and one that writes names a
    path in [W]. *)
Definition call_ok (c : efs_op * string) : Prop := path_ok c.2 ∧ (op_writes c.1 = true → W c.2).
Definition log_ok (s : F * call_log) : Prop := Forall call_ok s.2.

Lemma noted_pres {A} op p (m : M F A) : path_ok p → (op_writes op = true → W p) → Pres log_ok (noted op p m).
Proof.
  intros Hp Hw [f l] Hl. unfold noted, log_ok in *. destruct (m _) as [r f']. simpl in *.
  apply Forall_app. split; [done|]. by apply Forall_one.
Qed.
Lemma unnoted_pres {A} (m : M F A) : Pres log_ok (unnoted m).
Proof. intros [f l] Hl. unfold unnoted, log_ok in *. by destruct (m _). Qed.

Lemma set_attributes_pres p mode uid gid t : path_ok p → Pres log_ok (set_attributes p mode uid gid t).
Proof. intros Hp. unfold set_attributes. repeat (apply pres_bind; [apply pres_attempt; by apply noted_pres|intros _]). apply _. Qed.

Lemma mkdir_parts_pres parts : Forall (λ x, x = "" ∨ image_part x) parts →
  ∀ done_, Forall image_part done_ → Pres log_ok (mkdir_parts parts (Join done_ "/")).
Proof.
  induction 1 as [|x parts Hx Hparts IH]; intros l Hl; [apply _|]. cbn [mkdir_parts].
  unfold is_empty. case_bool_decide as Hempty; [by apply IH|]. destruct Hx as [|Hx]; [done|].
  assert (Forall image_part (l ++ [x])) as Hl' by (apply Forall_app; split; [done|by apply Forall_one]).
  assert (path_Join [Join l "/"; x] = Join (l ++ [x]) "/") as ->.
  { unfold path_Join. destruct (decide (l = [])) as [->|Hne].
    - cbn [Join]. rewrite filter_cons, decide_False, filter_cons, decide_True by (done || tauto). cbn [filter list_filter].
      apply (Clean_rel [x]); [done|]. apply Forall_one, Hx.
    - assert (Join l "/" ≠ "") as Hj.
      { destruct l as [|y l]; [done|]. apply Forall_cons in Hl as [[[Hy _] _] _]. eapply Join_nonempty; [by left|done]. }
      rewrite !filter_cons, !decide_True by done. cbn [filter list_filter].
      change (Join [Join l "/"; x] "/") with (Join l "/" +:+ "/" +:+ Join [x] "/"). rewrite <-(Join_app l [x] "/") by done.
      apply Clean_rel; [by destruct l|by apply image_parts_good]. }
  assert (path_ok (Join (l ++ [x]) "/")) as Hp by (left; exists (l ++ [x]); split; [done|left; split; [done|by destruct l]]).
  apply pres_bind; [apply pres_attempt; by apply noted_pres|]. intros [[]|]; [by apply IH|apply _|].
  apply pres_bind; [by apply noted_pres|]. intros _. by apply IH.
Qed.

Lemma mkdirAll_pres p mode uid gid t : path_ok p → Pres log_ok (mkdirAll p mode uid gid t).
Proof.
  intros Hp. unfold mkdirAll. destruct (is_empty p); [apply _|].
  apply pres_bind; [|intros _; by apply set_attributes_pres]. destruct Hp as [(l & Hl & [[-> Hne]| ->])| ->].
  - rewrite Split_Join_parts by (done || by apply good_no_slash, image_parts_good).
    apply (mkdir_parts_pres l) with (done_ := []); [|constructor]. eapply Forall_impl; [exact Hl|auto].
  - destruct (decide (l = [])) as [->|Hne]; [apply (mkdir_parts_pres ["";""]) with (done_ := []); repeat constructor; auto|].
    rewrite Split_abs by (done || by apply image_parts_good).
    apply (mkdir_parts_pres ("" :: l)) with (done_ := []); [|constructor].
    constructor; [by left|]. eapply Forall_impl; [exact Hl|auto].
  - change (Split "." "/") with ["."]. cbn [mkdir_parts]. change (is_empty ".") with false. cbv iota.
    change (path_Join ["";"."]) with ".".
    apply pres_bind; [apply pres_attempt; apply noted_pres; [by right|done]|]. intros [[]|]; [apply _|apply _|].
    apply pres_bind; [apply noted_pres; [by right|done]|]. intros _. apply _.
Qed.

Lemma writeFile_pres p data mode uid gid t : confined p → W p → Pres log_ok (writeFile p data mode uid gid t).
Proof.
  intros Hp Hw. assert (path_ok p) as Hok by by left. unfold writeFile.
  apply pres_bind; [by apply mkdirAll_pres, path_Dir_ok|intros _].
  apply pres_bind; [apply pres_attempt; by apply noted_pres|intros info].
  apply pres_bind; [destruct info; [|apply _]; apply pres_bind; [by apply noted_pres|intros _; apply _]|intros create].
  apply pres_bind; [by apply noted_pres|intros f].
  apply pres_bind; [apply pres_attempt, unnoted_pres|intros [[]|e]].
  - apply pres_bind; [apply unnoted_pres|intros _; by apply set_attributes_pres].
  - apply pres_bind; [apply pres_attempt, unnoted_pres|intros _; apply _].
Qed.

Lemma symlink_pres target p t : confined p → W p → Pres log_ok (symlink target p t).
Proof.
  intros Hp Hw. assert (path_ok p) as Hok by by left. unfold symlink.
  apply pres_bind; [by apply mkdirAll_pres, path_Dir_ok|intros _].
  apply pres_bind; [apply pres_attempt; by apply noted_pres|intros [current|e]].
  - destruct (negb _); [apply _|]. apply pres_bind; [apply pres_attempt; by apply noted_pres|intros _; apply _].
  - apply pres_bind; [apply pres_attempt; by apply noted_pres|intros [info|e']]; [apply _|by apply noted_pres].
Qed.

(** A pending hard link, its path in [W]. *)
Definition link_ok (l : pendingHardlink) : Prop := confined (hl_path l) ∧ W (hl_path l) ∧ confined (hl_target l).

Lemma link_loop_pres links : Forall link_ok links → ∀ a, Pres log_ok (link_loop links a).
Proof.
  induction 1 as [|l links (H1 & H2 & H3) _ IH]; intros a; cbn [link_loop]; [apply _|].
  apply pres_bind; [apply noted_pres; [by left|done]|intros data].
  apply pres_bind; [by apply writeFile_pres|intros _; apply IH].
Qed.

Lemma copy_links_pres links : Forall link_ok links → Pres log_ok (copy_links links).
Proof.
  induction 1 as [|l links (H1 & H2 & H3) _ IH]; cbn [copy_links]; [apply _|].
  apply pres_bind; [apply noted_pres; [by left|done]|intros data].
  apply pres_bind; [by apply writeFile_pres|intros _; apply IH].
Qed.
End calls.

Section unpacked.
Context {F : Type} (E : Ext4 F).

Lemma capture_skips o p data o' q : captureFile o p data = Some o' → shouldSkip o' q = shouldSkip o q.
Proof.
  unfold captureFile. destruct (ov_files o !! p) as [file|] eqn:Ef; [|done]. intros [= <-].
  unfold shouldSkip. cbn [ov_files ov_symlinks ov_skipPrefixes]. f_equal. f_equal. apply bool_decide_ext.
  destruct (decide (p = q)) as [<-|Hne]; [|by rewrite lookup_insert_ne]. rewrite lookup_insert_eq, Ef. by split; eexists.
Qed.

(** What is known while an archive is unpacked with the overlay [o], the paths of
    its entries all in [R]. *)
Section entries.
Context (o : guestOverlay) (R : string → Prop).

Definition may_write (p : string) : Prop := shouldSkip o p = false ∧ R p.
Definition entry_in (step : tar_step) : Prop :=
  match step with TarNext h _ => ∀ p, cleanTarPath (h_Name h) = Some p → R p | TarFail _ => True end.
Definition unpacking_ok (u : unpacking) : Prop :=
  (∀ p, shouldSkip (u_overlay u) p = shouldSkip o p) ∧ Forall (link_ok may_write) (u_links u).

Lemma populate_entry_ok {G} `{Ext4 G} h data u s u' s' :
  entry_in (TarNext h data) → unpacking_ok u → populate_entry h data u s = (Ok u', s') → unpacking_ok u'.
Proof.
  intros HR [Hs Hl]. unfold populate_entry. destruct (cleanTarPath (h_Name h)) as [clean|] eqn:Ec; [|by intros [= <- <-]].
  apply HR in Ec as Hclean. apply cleanTarPath_confined in Ec.
  destruct (hdr_IsDir h); [intros (? & ? & _ & [= <- _])%bind_Ok; done|].
  destruct (hdr_regular h).
  { intros (content & s1 & _ & Hrest)%bind_Ok. destruct (captureFile _ _ _) as [o'|] eqn:Eo.
    - injection Hrest as <- _. split; [|done]. intros p. cbn [u_overlay]. by rewrite (capture_skips _ _ _ _ p Eo).
    - destruct (shouldSkip _ _); [by injection Hrest as <- _|].
      apply bind_Ok in Hrest as (? & ? & _ & [= <- _]). done. }
  case_bool_decide; [intros (? & ? & _ & [= <- _])%bind_Ok; done|].
  case_bool_decide.
  { destruct (shouldSkip _ _); [by intros [= <- _]|]. intros (? & ? & _ & [= <- _])%bind_Ok; done. }
  case_bool_decide; [|by intros [= <- _]].
  destruct (cleanTarPath (h_Linkname h)) as [target|] eqn:Et; [|by intros [= <- _]].
  apply cleanTarPath_confined in Et.
  destruct (shouldSkip (u_overlay u) clean) eqn:Esk; [by intros [= <- _]|]. intros [= <- _]. split; [done|].
  apply Forall_app. split; [done|]. apply Forall_one. split; [done|]. cbn [hl_path]. unfold may_write. by rewrite <-Hs.
Qed.

Lemma populate_entry_pres h data u : entry_in (TarNext h data) → unpacking_ok u →
  Pres (log_ok may_write) (@populate_entry _ (logged E) h data u).
Proof.
  intros HR [Hs Hl]. unfold populate_entry. destruct (cleanTarPath (h_Name h)) as [clean|] eqn:Ec; [|apply _].
  apply HR in Ec as Hclean. apply cleanTarPath_confined in Ec. assert (path_ok clean) as Hok by by left.
  destruct (hdr_IsDir h); [apply pres_bind; [by apply mkdirAll_pres|intros _; apply _]|].
  destruct (hdr_regular h).
  { apply pres_bind; [apply _|intros content]. destruct (captureFile _ _ _); [apply _|].
    destruct (shouldSkip (u_overlay u) clean) eqn:Esk; [apply _|]. rewrite Hs in Esk. assert (may_write clean) by done.
    apply pres_bind; [by apply writeFile_pres|intros _; apply _]. }
  case_bool_decide; [apply pres_bind; [by apply mkdirAll_pres|intros _; apply _]|].
  case_bool_decide.
  { destruct (shouldSkip (u_overlay u) clean) eqn:Esk; [apply _|]. rewrite Hs in Esk. assert (may_write clean) by done.
    apply pres_bind; [by apply symlink_pres|intros _; apply _]. }
  case_bool_decide; [|apply _]. destruct (cleanTarPath (h_Linkname h)); [|apply _].
  destruct (shouldSkip _ _); apply _.
Qed.

Lemma populate_loop_ok {G} `{Ext4 G} steps : Forall entry_in steps → ∀ u s u' s',
  unpacking_ok u → populate_loop steps u s = (Ok u', s') → unpacking_ok u'.
Proof.
  induction 1 as [|[h data|e] steps HR _ IH]; intros u s u' s' Hu; cbn [populate_loop]; [by intros [= <- _]| |done].
  intros (u1 & s1 & E1 & E2)%bind_Ok. eapply IH; [|done]. by eapply populate_entry_ok.
Qed.

Lemma populate_loop_pres steps : Forall entry_in steps → ∀ u, unpacking_ok u →
  Pres (log_ok may_write) (@populate_loop _ (logged E) steps u).
Proof.
  induction 1 as [|[h data|e] steps HR _ IH]; intros u Hu; cbn [populate_loop]; [apply _| |apply _].
  eapply (pres_bind_val _ unpacking_ok); [by apply populate_entry_pres|intros s u' s' _; by apply populate_entry_ok|done].
Qed.

Lemma populateRootfs_pres steps : Forall entry_in steps →
  Pres (log_ok may_write) (@populateRootfs _ (logged E) steps o).
Proof.
  intros HR. unfold populateRootfs. assert (unpacking_ok (MkUnpacking o (MkBoots None None) [])) as Hu by by split.
  eapply (pres_bind_val _ unpacking_ok); [by apply populate_loop_pres|intros s u' s' _; by apply populate_loop_ok|].
  intros u [_ Hl]. apply pres_bind; [by apply link_loop_pres|intros a; apply _].
Qed.
End entries.

(** ** The kernel modules *)

Lemma extract_entry_ok {G} `{Ext4 G} (include : string → bool) h data links s links' s' :
  Forall (link_ok (λ p, include p = true)) links → extract_entry include h data links s = (Ok links', s') →
  Forall (link_ok (λ p, include p = true)) links'.
Proof.
  intros Hl. unfold extract_entry. destruct (cleanTarPath (h_Name h)) as [clean|] eqn:Ec; [|by intros [= <- <-]].
  apply cleanTarPath_confined in Ec. destruct (include clean) eqn:Ei; [|by intros [= <- <-]]. cbn [negb].
  destruct (hdr_IsDir h); [by intros (? & ? & _ & [= <- _])%bind_Ok|].
  destruct (hdr_regular h); [by intros (? & ? & _ & (? & ? & _ & [= <- _])%bind_Ok)%bind_Ok|].
  case_bool_decide; [by intros (? & ? & _ & [= <- _])%bind_Ok|].
  case_bool_decide; [by intros (? & ? & _ & [= <- _])%bind_Ok|].
  case_bool_decide; [|by intros [= <- _]].
  destruct (cleanTarPath (h_Linkname h)) as [target|] eqn:Et; [|by intros [= <- _]]. apply cleanTarPath_confined in Et.
  intros [= <- _]. apply Forall_app. split; [done|]. by apply Forall_one.
Qed.

Lemma extract_entry_pres (include : string → bool) h data links :
  Pres (log_ok (λ p, include p = true)) (@extract_entry _ (logged E) include h data links).
Proof.
  unfold extract_entry. destruct (cleanTarPath (h_Name h)) as [clean|] eqn:Ec; [|apply _].
  apply cleanTarPath_confined in Ec. assert (path_ok clean) as Hok by by left.
  destruct (include clean) eqn:Ei; [|apply _]. cbn [negb].
  destruct (hdr_IsDir h); [apply pres_bind; [by apply mkdirAll_pres|intros _; apply _]|].
  destruct (hdr_regular h).
  { apply pres_bind; [apply _|intros content]. apply pres_bind; [by apply writeFile_pres|intros _; apply _]. }
  case_bool_decide; [apply pres_bind; [by apply mkdirAll_pres|intros _; apply _]|].
  case_bool_decide; [apply pres_bind; [by apply symlink_pres|intros _; apply _]|].
  case_bool_decide; [|apply _]. destruct (cleanTarPath (h_Linkname h)); apply _.
Qed.

Lemma extract_loop_pres (include : string → bool) {A} (k : list pendingHardlink → M _ A) steps : ∀ links,
  Forall (link_ok (λ p, include p = true)) links →
  (∀ links', Forall (link_ok (λ p, include p = true)) links' → Pres (log_ok (λ p, include p = true)) (k links')) →
  Pres (log_ok (λ p, include p = true)) (@extract_loop _ (logged E) include steps links ≫= k).
Proof.
  induction steps as [|[h data|e] steps IH]; intros links Hl Hk; cbn [extract_loop]; [by apply Hk| |apply _].
  intros s Hs. pose proof (extract_entry_pres include h data links s Hs) as Hp.
  pose proof (extract_entry_ok (H := logged E) include h data links s) as Ho. unfold mbind, M_mbind in *.
  destruct (extract_entry include h data links s) as [[links'|e] s1]; cbn [fst snd] in *; [|done].
  by apply (IH links' (Ho _ _ Hl eq_refl) Hk s1).
Qed.

(** A path written out in the program. *)
Lemma confined_text p :
  forallb (λ x, bool_decide (good_part x) && negb (skipped_part x)) (Split p "/") = true → confined p.
Proof.
  intros Hp. exists (Split p "/"). split; [|left; split; [by rewrite Split_Join|apply Split_not_nil]].
  apply list.Forall_forall. intros x Hx. rewrite forallb_forall in Hp. specialize (Hp x ltac:(by apply list_elem_of_In)).
  apply andb_true_iff in Hp as [Hg%bool_decide_eq_true Hs%negb_true_iff]. done.
Qed.

Lemma for_each_pres {A} (I : F * call_log → Prop) (f : A → M (F * call_log) unit) l :
  (∀ x, x ∈ l → Pres I (f x)) → Pres I (for_each f l).
Proof.
  induction l as [|x l IH]; intros Hf; cbn [for_each]; [apply _|].
  apply pres_bind; [apply Hf; by left|intros _; apply IH; intros y Hy; apply Hf; by right].
Qed.

Context `{GoUnicode, Untar}.

Lemma modules_pres deb now :
  Pres (log_ok (λ p, is_module p = true)) (@installKernelModulesDeb _ (logged E) _ _ deb now).
Proof.
  unfold installKernelModulesDeb. apply pres_bind.
  - unfold extractDebDataTarToRootfs. apply pres_bind; [apply _|intros [name data]]. unfold extractDataTarToRootfs.
    apply pres_bind; [apply _|intros steps]. apply extract_loop_pres; [constructor|]. intros links. by apply copy_links_pres.
  - intros _. unfold ensureZramModuleDeps.
    assert (∀ p, forallb (λ x, bool_decide (good_part x) && negb (skipped_part x)) (Split p "/") = true → path_ok p)
      as Htext by (intros p Hp; left; by apply confined_text).
    apply pres_bind; [|intros _].
    + apply for_each_pres. intros m Hm. apply pres_bind; [|intros info; destruct (is_ok info); apply _].
      apply pres_attempt, noted_pres; [|done]. apply Htext. revert m Hm. apply list.Forall_forall.
      repeat apply Forall_cons_2; try reflexivity. constructor.
    + apply pres_bind; [apply pres_attempt, noted_pres; [by apply Htext|done]|intros data].
      apply pres_bind; [apply writeFile_pres; [by apply confined_text|done]|intros _].
      apply pres_bind; [|intros _; apply _]. apply pres_attempt, noted_pres; [by apply Htext|done].
Qed.

(** No entry name begins with two slashes. *)
Definition unrooted (step : tar_step) : Prop :=
  match step with TarNext h _ => HasPrefix (h_Name h) "//" = false | TarFail _ => True end.

End unpacked.

(** ** What the overlay makes of the archive's files *)

(** The data of the last regular file of that name in the archive. *)
Fixpoint last_entry (p : string) (steps : list tar_step) : option string :=
  match steps with
  | [] => None
  | TarFail _ :: _ => None
  | TarNext h data :: steps' =>
      match last_entry p steps' with
      | Some d => Some d
      | None =>
          if bool_decide (cleanTarPath (h_Name h) = Some p) && negb (hdr_IsDir h) && hdr_regular h
          then match data with Ok d => Some d | Err _ => None end else None
      end
  end.

(** A file of the overlay after archive entries that end with [d]. *)
Definition captured (file : fileOverlay) (d : option string) : fileOverlay :=
  match d with Some data => with_data file (fo_transform file data) | None => file end.

Section captured.
Context {F : Type} `{Ext4 F}.

Lemma populate_entry_captures h data u f u' f' p file :
  populate_entry h data u f = (Ok u', f') → ov_files (u_overlay u) !! p = Some file →
  ov_files (u_overlay u') !! p = Some (captured file (last_entry p [TarNext h data])).
Proof.
  unfold populate_entry. cbn [last_entry].
  destruct (cleanTarPath (h_Name h)) as [clean|] eqn:Ec;
    [|intros [= <- _] Hp; by rewrite bool_decide_eq_false_2].
  destruct (hdr_IsDir h); [intros (? & ? & _ & [= <- _])%bind_Ok Hp; by rewrite andb_false_r|].
  destruct (hdr_regular h); [|rewrite andb_false_r].
  - intros (content & s1 & [= -> _] & Hrest)%bind_Ok Hp. rewrite !andb_true_r.
    unfold captureFile in Hrest. destruct (decide (clean = p)) as [->|Hne].
    + rewrite Hp in Hrest. injection Hrest as <- _. rewrite bool_decide_eq_true_2 by done. cbn [u_overlay ov_files].
      by rewrite lookup_insert_eq.
    + rewrite bool_decide_eq_false_2 by congruence. destruct (ov_files (u_overlay u) !! clean).
      * injection Hrest as <- _. cbn [u_overlay ov_files]. by rewrite lookup_insert_ne.
      * destruct (shouldSkip _ _); [by injection Hrest as <- _|]. by apply bind_Ok in Hrest as (? & ? & _ & [= <- _]).
  - case_bool_decide; [by intros (? & ? & _ & [= <- _])%bind_Ok|].
    case_bool_decide; [destruct (shouldSkip _ _); [by intros [= <- _]|by intros (? & ? & _ & [= <- _])%bind_Ok]|].
    case_bool_decide; [|by intros [= <- _]].
    destruct (cleanTarPath (h_Linkname h)); [destruct (shouldSkip _ _)|]; by intros [= <- _].
Qed.

Lemma captured_captured file d d' :
  captured (captured file d) d' = captured file (match d' with Some x => Some x | None => d end).
Proof. by destruct d, d'. Qed.

Lemma populate_loop_captures p steps : ∀ u f u' f' file,
  populate_loop steps u f = (Ok u', f') → ov_files (u_overlay u) !! p = Some file →
  ov_files (u_overlay u') !! p = Some (captured file (last_entry p steps)).
Proof.
  induction steps as [|[h data|e] steps IH]; intros u f u' f' file; cbn [populate_loop]; [by intros [= <- _]| |done].
  intros (u1 & f1 & E1 & E2)%bind_Ok Hp. eapply IH in E2; [|by eapply populate_entry_captures].
  rewrite E2, captured_captured. cbn [last_entry]. by destruct (last_entry p steps).
Qed.

Lemma populateRootfs_captures steps o f a o' f' p file :
  populateRootfs steps o f = (Ok (a, o'), f') → ov_files o !! p = Some file →
  ov_files o' !! p = Some (captured file (last_entry p steps)).
Proof.
  unfold populateRootfs. intros (u & f1 & E1 & (a1 & f2 & _ & [= <- <- _])%bind_Ok)%bind_Ok Hp.
  by eapply populate_loop_captures in E1.
Qed.

Lemma overlay_data_captured file d : fo_data file = None →
  overlay_data (captured file d) = fo_transform file (default "" d).
Proof. destruct d; [done|]. unfold overlay_data, captured. by intros ->. Qed.
End captured.

(** ** The accounts of the guest *)

(** The lines of an account file as the overlay writes it, and as the archive has it. *)
Definition new_lines (o : guestOverlay) (p : string) : list string :=
  match ov_files o !! p with Some file => nonemptyLines (overlay_data file) | None => [] end.
Definition old_lines (steps : list tar_step) (p : string) : list string := nonemptyLines (default "" (last_entry p steps)).

(** The file has one account line for the name, [line], and the other lines it had. *)
Definition has_account (before after : list string) (name line : string) : Prop :=
  line ∈ after ∧ (∀ l, l ∈ after → HasPrefix l (name +:+ ":") = true → l = line) ∧
  filter (λ l, HasPrefix l (name +:+ ":") = false) after = filter (λ l, HasPrefix l (name +:+ ":") = false) before.

(** In every entry of the group the user is a member, there is one, and the
    entries there were keep what they had. *)
Definition has_member (before after : list string) (group member : string) : Prop :=
  (∃ l, l ∈ after ∧ entry_group l = Some group) ∧
  (∀ l p g ms, l ∈ after → group_entry l = Some (group, p, g, ms) → member ∈ ms) ∧
  (∀ l p g ms, l ∈ before → group_entry l = Some (group, p, g, ms) →
     ∃ l' ms', l' ∈ after ∧ group_entry l' = Some (group, p, g, ms') ∧ ms `prefix_of` ms').

Lemma entry_group_kept (P : string → Prop) `{!∀ x, Decision (P x)} (before after : list string) x :
  filter P after = filter P before → P x → (x ∈ after ↔ x ∈ before).
Proof.
  intros Hf Hx. assert (x ∈ filter P after ↔ x ∈ filter P before) as Hl by by rewrite Hf.
  rewrite !list_elem_of_filter in Hl. tauto.
Qed.

Lemma filter_both_r (P Q : string → Prop) `{!∀ x, Decision (P x), !∀ x, Decision (Q x)} (l l' : list string) :
  filter Q l = filter Q l' → filter (λ x, P x ∧ Q x) l = filter (λ x, P x ∧ Q x) l'.
Proof.
  intros Hq. assert (∀ k : list string, filter (λ x, P x ∧ Q x) k = filter P (filter Q k)) as Hs.
  { intros k. rewrite list_filter_filter. by apply list_filter_iff. }
  by rewrite !Hs, Hq.
Qed.
Lemma filter_both_l (P Q : string → Prop) `{!∀ x, Decision (P x), !∀ x, Decision (Q x)} (l l' : list string) :
  filter P l = filter P l' → filter (λ x, P x ∧ Q x) l = filter (λ x, P x ∧ Q x) l'.
Proof.
  intros Hp. assert (∀ k : list string, filter (λ x, P x ∧ Q x) k = filter Q (filter P k)) as Hs.
  { intros k. rewrite list_filter_filter. apply list_filter_iff. tauto. }
  by rewrite !Hs, Hp.
Qed.

(** Two groups, one after the other. *)
Lemma two_groups text pw1 gid1 pw2 gid2 g1 g2 member :
  account_name g1 → account_name g2 → g1 ≠ g2 → account_name member →
  Forall (λ x, str_mem ":" x = false ∧ line_ok x) [pw1; gid1; pw2; gid2] →
  let before := nonemptyLines text in
  let after := nonemptyLines (ensureGroupMemberText (ensureGroupMemberText text g1 pw1 gid1 member) g2 pw2 gid2 member) in
  has_member before after g1 member ∧ has_member before after g2 member ∧
  filter (λ l, entry_group l ≠ Some g1 ∧ entry_group l ≠ Some g2) after =
    filter (λ l, entry_group l ≠ Some g1 ∧ entry_group l ≠ Some g2) before.
Proof.
  intros H1 H2 Hne Hm Hf before after. rewrite !Forall_cons in Hf. destruct Hf as ([] & [] & [] & [] & _).
  destruct (ensureGroupMember_correct text g1 pw1 gid1 member) as (A1 & A2 & A3 & A4 & _); try done.
  set (mid := ensureGroupMemberText text g1 pw1 gid1 member) in *.
  destruct (ensureGroupMember_correct mid g2 pw2 gid2 member) as (B1 & B2 & B3 & B4 & _); try done.
  fold before in A1, A2, A3, A4. change (nonemptyLines (ensureGroupMemberText mid _ _ _ _)) with after in B1, B2, B3, B4.
  assert (Hto : ∀ l p g ms, group_entry l = Some (g1, p, g, ms) → entry_group l ≠ Some g2).
  { intros l p g ms E. unfold entry_group. rewrite E. simpl. congruence. }
  assert (Hfrom : ∀ l p g ms, group_entry l = Some (g2, p, g, ms) → entry_group l ≠ Some g1).
  { intros l p g ms E. unfold entry_group. rewrite E. simpl. congruence. }
  split; [|split].
  - split; [|split].
    + destruct A1 as (l & Hl & E). exists l. split; [|done]. eapply entry_group_kept; [exact B4| |done]. congruence.
    + intros l p g ms Hl E. eapply A2; [|done]. eapply entry_group_kept; [symmetry; exact B4| |done]. by eapply Hto.
    + intros l p g ms Hl E. destruct (A3 _ _ _ _ Hl E) as (l' & ms' & Hl' & E' & Hpre). exists l', ms'.
      split; [|done]. eapply entry_group_kept; [exact B4|by eapply Hto|done].
  - split; [done|]. split; [done|]. intros l p g ms Hl E. eapply B3; [|done].
    eapply entry_group_kept; [exact A4|by eapply Hfrom|done].
  - etrans; [by apply (filter_both_r (λ l, entry_group l ≠ Some g1) (λ l, entry_group l ≠ Some g2)); exact B4|].
    by apply (filter_both_l (λ l, entry_group l ≠ Some g1) (λ l, entry_group l ≠ Some g2)).
Qed.

(** C22. The accounts of the guest, whatever the root archive holds and whatever
    the file system does: when the archive has been unpacked, the data the overlay
    then has to write for the password and shadow files have exactly the ubuntu account of the
    program, and the group file has ubuntu as a member of the groups ubuntu and
    sudo, with the passwords, ids and members these groups had; every other line of
    the last version of these files in the archive is kept, in its order. *)
Theorem guest_accounts {F : Type} `{Ext4 F} steps f a o f' :
  populateRootfs steps newGuestOverlay f = (Ok (a, o), f') →
  let old := old_lines steps in let new := new_lines o in
  has_account (old "etc/passwd") (new "etc/passwd") "ubuntu" passwd_line ∧
  has_account (old "etc/shadow") (new "etc/shadow") "ubuntu" shadow_line ∧
  has_member (old "etc/group") (new "etc/group") "ubuntu" "ubuntu" ∧
  has_member (old "etc/group") (new "etc/group") "sudo" "ubuntu" ∧
  filter (λ l, entry_group l ≠ Some "ubuntu" ∧ entry_group l ≠ Some "sudo") (new "etc/group") =
    filter (λ l, entry_group l ≠ Some "ubuntu" ∧ entry_group l ≠ Some "sudo") (old "etc/group").
Proof.
  intros Hrun old new.
  assert (∀ p file, ov_files newGuestOverlay !! p = Some file → fo_data file = None →
    new p = nonemptyLines (fo_transform file (default "" (last_entry p steps)))) as Hnew.
  { intros p file Hp Hd. unfold new, new_lines. rewrite (populateRootfs_captures _ _ _ _ _ _ _ _ Hrun Hp).
    by rewrite overlay_data_captured. }
  rewrite (Hnew "etc/passwd" _ eq_refl eq_refl), (Hnew "etc/shadow" _ eq_refl eq_refl), (Hnew "etc/group" _ eq_refl eq_refl).
  cbn [fo_transform]. split; [|split].
  1-2: unfold has_account, old, old_lines; edestruct ensureNamedLine_correct as (A1 & A2 & A3 & _); [..|split; [exact A1|split; [exact A2|exact A3]]]; done.
  apply two_groups; repeat split; try done. repeat (apply Forall_cons_2; [done|]). constructor.
Qed.

(** ** A file system in memory *)

Inductive content := IsDir | IsFile (data : string) | IsLink (target : string).
Record inode := MkInode { in_content : content; in_mode : Z; in_uid : Z; in_gid : Z }.
Definition memory := gmap string inode.

Definition on_inode (p : string) (k : inode → inode) : M memory unit := λ m,
  match m !! p with Some i => (Ok tt, <[p := k i]> m) | None => (Err ErrNotExist, m) end.
Definition put_new (p : string) (c : content) : M memory unit := λ m,
  match m !! p with
  | Some _ => (Err (ErrOther "exists"), m)
  | None => (Ok tt, <[p := MkInode c m755 0 0]> m)
  end.

Definition memory_ext4 : Ext4 memory := {|
  efs_handle := string;
  efs_Stat p m := (match m !! p with Some i => Ok (match in_content i with IsDir => true | _ => false end) | None => Err ErrNotExist end, m);
  efs_Mkdir p := put_new p IsDir;
  efs_Chmod p mode := on_inode p (λ i, MkInode (in_content i) mode (in_uid i) (in_gid i));
  efs_Chown p uid gid := on_inode p (λ i, MkInode (in_content i) (in_mode i) uid gid);
  efs_Chtimes p _ := on_inode p id;
  efs_Truncate p _ := on_inode p (λ i, MkInode (IsFile "") (in_mode i) (in_uid i) (in_gid i));
  efs_OpenFile p create := if create then put_new p (IsFile "") ;; mret p else mret p;
  efs_Write p data := on_inode p (λ i, MkInode (IsFile data) (in_mode i) (in_uid i) (in_gid i));
  efs_CloseFile _ := mret tt;
  efs_ReadFile p m := (match m !! p with Some (MkInode (IsFile d) _ _ _) => Ok d | _ => Err ErrNotExist end, m);
  efs_ReadLink p m := (match m !! p with Some (MkInode (IsLink t) _ _ _) => Ok t | _ => Err ErrNotExist end, m);
  efs_Symlink target p := put_new p (IsLink target);
  efs_Remove p m := (Ok tt, delete p m);
|}.

(** A small root archive: directories, the account files, a kernel, a masked
    unit, documentation and a hard link. *)
Definition file_hdr (name : string) (mode : Z) : tar_hdr := MkHdr name TypeReg mode 0 0 0 "".
Definition root_archive : list tar_step :=
  [TarNext (MkHdr "./" TypeDir m755 0 0 0 "") (Ok "");
   TarNext (MkHdr "./root/" TypeDir 448 0 0 0 "") (Ok "");
   TarNext (file_hdr "./root/.bashrc" m644) (Ok "PS1=x");
   TarNext (file_hdr "./etc/passwd" m644) (Ok ("root:x:0:0:root:/root:/bin/bash" +:+ nl_text));
   TarNext (file_hdr "./etc/shadow" m640) (Ok ("root:*:1::" +:+ nl_text));
   TarNext (file_hdr "./etc/group" m644) (Ok ("root:x:0:" +:+ nl_text +:+ "sudo:x:27:admin" +:+ nl_text));
   TarNext (file_hdr "./boot/vmlinuz-7.0.0" m644) (Ok "kernel");
   TarNext (file_hdr "./usr/share/doc/README" m644) (Ok "text");
   TarNext (MkHdr "./etc/systemd/system/ufw.service" TypeSymlink 511 0 0 0 "/usr/lib/ufw.service") (Ok "");
   TarNext (MkHdr "./boot/kernel" TypeLink m644 0 0 0 "boot/vmlinuz-7.0.0") (Ok "");
   TarNext (file_hdr "../escape" m644) (Ok "x")].

Definition populated : result (bootArtifacts * guestOverlay) * memory :=
  @populateRootfs _ memory_ext4 root_archive newGuestOverlay ∅.

(** What is in the image then: the escape, the documentation and what the overlay
    owns are not, and the directory of a file has lost the mode the archive gave it. *)
Example populated_files :
  is_ok populated.1 = true ∧
  (map_to_list populated.2).*1 ≡ₚ ["boot"; "boot/kernel"; "boot/vmlinuz-7.0.0"; "root"; "root/.bashrc"] ∧
  in_mode <$> populated.2 !! "root" = Some m755.
Proof.
  split_and!; [vm_compute; reflexivity| |vm_compute; reflexivity].
  assert ((map_to_list populated.2).*1 = ["root/.bashrc"; "root"; "boot/kernel"; "boot/vmlinuz-7.0.0"; "boot"]) as ->
    by (vm_compute; reflexivity). solve_Permutation.
Qed.

Lemma guest_accounts_witness : ∃ a o f,
  @populateRootfs _ memory_ext4 root_archive newGuestOverlay ∅ = (Ok (a, o), f) ∧
  has_member (old_lines root_archive "etc/group") (new_lines o "etc/group") "sudo" "ubuntu".
Proof.
  assert (is_ok populated.1 = true) as Hok by (vm_compute; reflexivity).
  destruct populated as [[[a o]|e] f] eqn:Ep; [|discriminate Hok]. exists a, o, f. split; [exact Ep|].
  exact (proj1 (proj2 (proj2 (proj2 (@guest_accounts _ memory_ext4 root_archive ∅ a o f Ep))))).
Defined.
