(* ===== verification/ImageBuild.v ===== *)
(** * The image builder: commands (cmd/firedoze-image-builder/main.go)

    The pinned downloads, the build of the image and its boot artifacts, their
    installation, and the commands.  The ext4 library and its backing file, the
    downloads, the archives and the user database are arguments. *)

From S2P Require Import Prelude GoStrings Paths IPNet Types Store Crypto Config World FileCopy ManagerDisk ManagerLifecycle Wireguard SaveFile ClientArgs ClientConfig ImageText ImageFS.
Open Scope Z_scope.

(** [http.Get] of a URL: an error, or the status and what reading the body gives. *)
Class Downloads := http_get : nat → string → result (Z * result string).

(** The ext4 library over a file: a new file system, the bytes the file holds for
    a state, and the last write-back. *)
Class Ext4Image (F : Type) := {
  backend_create : string → Z → result string;       (* the bytes of the new backing file *)
  efs_Create : Z → result F;
  efs_Close : F → result unit;
  efs_bytes : F → string;
}.

(** os/user: the ids, as text. *)
Class UserDatabase := { user_Lookup : string → result string; user_LookupGroup : string → result string }.

(** The texts of the guest's own files. *)
Class GuestTexts := guest_text : string → string.

Definition defaultSize : string := "4G".
Definition defaultOutDir : string := "dist/base-image".
Definition defaultImageInstallDir : string := "/var/lib/firedoze/images".
Definition baseImageVersion : string := "26.04".
Definition baseRootSHA256 : string := "f5e922907ca6da7de57ee22044a399f497c89e84cf6eaa4ca5cff342bd286582".
Definition baseKernelSHA256 : string := "6f11cd68fc0d181bb4f9a72e2d0ec6a1c2a69a59f7b9bd6bf9538630d1102456".
Definition baseInitrdSHA256 : string := "b47e3fcd0a1409b1720e68262e88535c685189ba94a0fa931978901b806a80bc".
Definition baseBusyBoxStaticURL : string :=
  "https://ubuntu.mirror.constant.com/pool/main/b/busybox/busybox-static_1.37.0-7ubuntu1_amd64.deb".
Definition baseBusyBoxStaticSHA256 : string := "fd605342f62268753076aa7d9321ff098b36ba53e47434145a9aedc28fd141a4".
Definition baseKernelModulesURL : string :=
  "https://ubuntu.mirror.constant.com/pool/main/l/linux/linux-modules-7.0.0-14-generic_7.0.0-14.14_amd64.deb".
Definition baseKernelModulesSHA256 : string := "5bbbd6bd424b38a9927a897259f02de1b3caff94e9dc27b931b54d65bf005b8d".

Definition packagedGuestHelloBinaries (arch : string) : string :=
  if bool_decide (arch = "amd64") then "/usr/lib/firedoze/firedoze-hello-linux-amd64" else "".

Definition help_requested : error := ErrOther "flag: help requested".

(** The four files of an image. *)
Definition image_names : list string := ["vmlinux.bin"; "initrd.img"; "rootfs.ext4"; "manifest.txt"].

Section host.
Context `{FirecrackerVMM, Env, GoUnicode, Downloads, ClientProcess}.

(** ** Pinned artifacts *)

Record artifactData := MkArtifact { ad_name : string; ad_data : string }.

Definition download (url : string) : M World string :=
  t ← ticks;
  resp ← ext (lift_result (http_get t url));
  if bool_decide (resp.1 < 200) || bool_decide (299 < resp.1) then fail (ErrOther "download") else lift_result resp.2.

Definition readArtifact (localPath url expectedSHA256 : string) (insecure : bool) : M World artifactData :=
  let name := if is_empty localPath then url else localPath in
  data ← (if is_empty localPath then download url else open_read localPath);
  if is_empty expectedSHA256 && negb insecure then fail (ErrOther "no SHA-256 configured") else
  (if is_empty expectedSHA256 then mret tt else lift_result (verifySHA256 data expectedSHA256)) ;;
  mret (MkArtifact name data).

Definition readBootArtifact (localPath url expectedSHA256 : string) (insecure : bool) : M World bootArtifact :=
  artifact ← readArtifact localPath url expectedSHA256 insecure;
  mret (MkBoot (ad_name artifact) (ad_data artifact)).

Definition readBusyBoxStatic `{Untar} : M World (string * debPackageInfo) :=
  artifact ← readArtifact "" baseBusyBoxStaticURL baseBusyBoxStaticSHA256 false;
  info ← lift_result (readDebPackageInfo (ad_data artifact));
  binary ← lift_result (extractBusyBoxFromDeb (ad_data artifact));
  mret (binary, info).

Definition readKernelModulesDeb `{Untar} : M World (string * debPackageInfo) :=
  artifact ← readArtifact "" baseKernelModulesURL baseKernelModulesSHA256 false;
  info ← lift_result (readDebPackageInfo (ad_data artifact));
  mret (ad_data artifact, info).

(** ** The guest's helper *)

(** Up from [dir] to the directory of the module; [n] bounds the climb. *)
Fixpoint find_root (n : nat) (dir : string) : M World string :=
  match n with
  | O => fail (ErrOther "out of fuel")
  | S n' =>
      data ← attempt (open_read (path_Join [dir; "go.mod"]));
      let parent := path_Dir dir in
      let next := if bool_decide (parent = dir) then fail (ErrOther "could not find firedoze repo root") else find_root n' parent in
      match data with
      | Ok d => if GoStrings.Contains d "module firedoze" then mret dir else next
      | Err _ => next
      end
  end.

Context (cwd : nat → result string).   (* os.Getwd *)

Definition findRepoRoot : M World string :=
  t ← ticks; dir ← ext (lift_result (cwd t)); find_root (S (S (String.length dir))) dir.

Definition TempDir : string := if is_empty (Getenv "TMPDIR") then "/tmp" else Getenv "TMPDIR".

(** [go build] runs in the repository with its own environment. *)
Definition buildGuestHelloBinaryFromSource (arch : string) : M World string :=
  repoRoot ← findRepoRoot;
  tmpPath ← os_CreateTemp TempDir "firedoze-hello-" "";
  deferring (run_cmd "go" ["build"; "-trimpath"; "-ldflags"; "-s -w"; "-o"; tmpPath; "./cmd/firedoze-hello"] ;; open_read tmpPath)
    (attempt (os_Remove tmpPath) ;; mret tt).

Definition buildGuestHelloBinary (arch : string) : M World (string * string) :=
  let from_source := data ← buildGuestHelloBinaryFromSource arch; mret (data, "source:./cmd/firedoze-hello") in
  let path := packagedGuestHelloBinaries arch in
  if is_empty path then from_source else
  data ← attempt (open_read path);
  match data with
  | Ok d => mret (d, path)
  | Err ErrNotExist => from_source
  | Err e => fail e
  end.

(** ** Installing *)

Definition replaceFile (p data : string) : M World unit :=
  let tmp := p +:+ ".tmp" in os_WriteFile tmp data ;; os_Rename tmp p.

Definition parse_id (text : result string) : result Z :=
  t ← text; match ParseInt t with Some z => Ok z | None => Err (ErrOther "parse id") end.

Definition lookupInstallOwner `{UserDatabase} (userName groupName : string) : result (Z * Z) :=
  uid ← (if is_empty userName then Ok (-1) else parse_id (user_Lookup userName));
  gid ← (if is_empty groupName then Ok (-1) else parse_id (user_LookupGroup groupName));
  Ok (uid, gid).

(** Written, given its mode and owner, closed and renamed. *)
Definition install_body (tmpPath dst data : string) : M World unit :=
  write_at tmpPath 0 data ;; ext (mret tt) ;; ext (mret tt) ;; ext (mret tt) ;; os_Rename tmpPath dst.

Definition copyInstallArtifact (src dst : string) (mode uid gid : Z) : M World unit :=
  data ← open_read src;
  ext (mret tt) ;;
  os_MkdirAll (path_Dir dst) ;;
  tmpPath ← os_CreateTemp (path_Dir dst) ("." +:+ path_Base dst +:+ ".tmp-") "";
  r ← attempt (install_body tmpPath dst data);
  match r with
  | Ok _ => mret tt
  | Err e => attempt (os_Remove tmpPath) ;; fail e
  end.

Fixpoint install_files (srcDir dstDir : string) (uid gid : Z) (names : list string) : M World unit :=
  match names with
  | [] => mret tt
  | name :: names' =>
      copyInstallArtifact (path_Join [srcDir; name]) (path_Join [dstDir; name]) m644 uid gid ;;
      install_files srcDir dstDir uid gid names'
  end.

Definition install_flags : FlagSet :=
  [("src", FlagString); ("dst", FlagString); ("user", FlagString); ("group", FlagString)].

Definition installImage `{UserDatabase} (args : list string) : M World unit :=
  match flag_Parse install_flags [] args with
  | Err e => if bool_decide (e = help_requested) then mret tt else fail e
  | Ok (_, _ :: _) => fail (ErrOther "unexpected arguments")
  | Ok (values, []) =>
      let srcDir := flag_value values "src" defaultOutDir in
      let dstDir := flag_value values "dst" defaultImageInstallDir in
      ids ← lift_result (lookupInstallOwner (flag_value values "user" "firedoze") (flag_value values "group" "firedoze"));
      os_MkdirAll dstDir ;; ext (mret tt) ;; ext (mret tt) ;;
      install_files srcDir dstDir ids.1 ids.2 image_names
  end.

(** ** Building *)

Definition Abs (p : string) : M World string :=
  if IsAbs p then mret (Clean p) else t ← ticks; d ← ext (lift_result (cwd t)); mret (path_Join [d; p]).

Definition manifest_text (sourceName : string) (kernel initrd : bootArtifact) (busyBox modules : debPackageInfo)
    (helloSource helloBinary sizeText : string) : string :=
  Join ((λ kv, kv.1 +:+ "=" +:+ kv.2 +:+ nl_text) <$>
   [("release", baseImageRelease); ("ubuntu_version", baseImageVersion); ("arch", baseImageArch);
    ("cloud_image_serial", baseImageSerial); ("source", sourceName); ("rootfs", "rootfs.ext4");
    ("root_sha256", baseRootSHA256); ("root_source_sha256", baseRootSHA256); ("kernel", "vmlinux.bin");
    ("kernel_source", ba_path kernel); ("kernel_sha256", baseKernelSHA256); ("kernel_source_sha256", baseKernelSHA256);
    ("initrd", "initrd.img"); ("initrd_source", ba_path initrd); ("initrd_sha256", baseInitrdSHA256);
    ("initrd_source_sha256", baseInitrdSHA256); ("busybox_package", deb_name busyBox);
    ("busybox_package_version", deb_version busyBox); ("busybox_package_arch", deb_arch busyBox);
    ("busybox_package_source", baseBusyBoxStaticURL); ("busybox_package_sha256", baseBusyBoxStaticSHA256);
    ("kernel_modules_package", deb_name modules); ("kernel_modules_package_version", deb_version modules);
    ("kernel_modules_package_arch", deb_arch modules); ("kernel_modules_source", baseKernelModulesURL);
    ("kernel_modules_sha256", baseKernelModulesSHA256); ("guest_helper_source", helloSource);
    ("guest_helper_sha256", sha256Hex helloBinary); ("size", sizeText);
    ("ssh_auth", "passwordless-ubuntu-over-wireguard");
    ("network", "private dual-stack VM network configured from firedoze kernel args");
    ("zram", "enabled at boot, half guest RAM with 128MiB floor and 1024MiB cap");
    ("builder", "firedoze-image-builder native-go")]) "".

Context {F : Type} `{Ext4 F, Ext4Image F, Untar, GuestTexts, Decompressors}.
Context (files links : list string).   (* the orders in which the overlay's maps are visited *)

(** Calls of the ext4 library write to its file as they go. *)
Definition on_image {A} (tmp : string) (f : F) (m : M F A) : M World (A * F) := λ w,
  let '(r, f') := m f in
  (match r with Ok a => Ok (a, f') | Err e => Err e end, set_fs <[tmp := File (efs_bytes f')]> w).

(** The file system, from the archives to the last write-back. *)
Definition build_rootfs (tmp : string) (f : F) : M World (string * bootArtifacts * debPackageInfo * debPackageInfo * (string * string)) :=
  source ← readArtifact "" defaultImageURL baseRootSHA256 false;
  steps ← lift_result (open_tar Xz (ad_data source));
  populated ← on_image tmp f (populateRootfs steps newGuestOverlay);
  let '((artifacts, overlay), f) := populated in
  modules ← readKernelModulesDeb;
  now ← gets (λ w, now_ms (tick w));
  installed ← on_image tmp f (installKernelModulesDeb modules.1 now);
  hello ← buildGuestHelloBinary baseImageArch;
  busyBox ← readBusyBoxStatic;
  now ← gets (λ w, now_ms (tick w));
  customized ← on_image tmp installed.2 (customizeGuest guest_text overlay files links hello.1 busyBox.1 now);
  lift_result (efs_Close customized.2) ;;
  ext (mret tt) ;;
  mret (ad_name source, artifacts, modules.2, busyBox.2, hello).

(** The boot artifact of the archive, or the pinned download. *)
Definition or_download (artifact : option bootArtifact) (url sha256 : string) : M World bootArtifact :=
  match artifact with Some a => mret a | None => readBootArtifact "" url sha256 false end.

(** The boot artifacts and the manifest, and the rename of the file system. *)
Definition publish_image (absOut tmp rootfs sizeText sourceName : string) (artifacts : bootArtifacts)
    (modulesInfo busyBoxInfo : debPackageInfo) (hello : string * string) : M World unit :=
  kernel ← or_download (ba_kernel artifacts) defaultKernelURL baseKernelSHA256;
  kernelELF ← lift_result (extractKernelELF (ba_data kernel));
  let kernel := MkBoot (ba_path kernel) kernelELF in
  initrd ← or_download (ba_initrd artifacts) defaultInitrdURL baseInitrdSHA256;
  replaceFile (path_Join [absOut; "vmlinux.bin"]) (ba_data kernel) ;;
  replaceFile (path_Join [absOut; "initrd.img"]) (ba_data initrd) ;;
  replaceFile (path_Join [absOut; "manifest.txt"])
    (manifest_text sourceName kernel initrd busyBoxInfo modulesInfo hello.2 hello.1 sizeText) ;;
  os_Rename tmp rootfs.

(** What is done once the file system's file is there. *)
Definition build_body (absOut tmp rootfs sizeText : string) (size : Z) : M World unit :=
  f ← lift_result (efs_Create size);
  built ← build_rootfs tmp f;
  let '(sourceName, artifacts, modulesInfo, busyBoxInfo, hello) := built in
  publish_image absOut tmp rootfs sizeText sourceName artifacts modulesInfo busyBoxInfo hello.

Definition build_flags : FlagSet := [("size", FlagString); ("out", FlagString)].

Definition create_backend (tmp : string) (size : Z) : M World unit :=
  ext (λ w, match backend_create tmp size with
            | Ok bytes => (Ok tt, set_fs <[tmp := File bytes]> w)
            | Err e => (Err e, w)
            end).

Definition build_in (outDir sizeText : string) : M World unit :=
  size ← lift_result (parseSize sizeText);
  if bool_decide (size < 512 * 1024 * 1024) then fail (ErrOther "image size must be at least 512M") else
  os_MkdirAll outDir ;;
  absOut ← Abs outDir;
  let rootfsPath := path_Join [absOut; "rootfs.ext4"] in
  let tmpRootfsPath := rootfsPath +:+ ".tmp" in
  attempt (os_Remove tmpRootfsPath) ;;
  create_backend tmpRootfsPath size ;;
  r ← attempt (build_body absOut tmpRootfsPath rootfsPath sizeText size);
  match r with
  | Ok _ => mret tt
  | Err e => attempt (os_Remove tmpRootfsPath) ;; fail e
  end.

Definition build (args : list string) : M World unit :=
  match flag_Parse build_flags [] args with
  | Err e => if bool_decide (e = help_requested) then mret tt else fail e
  | Ok (_, _ :: _) => fail (ErrOther "unexpected arguments")
  | Ok (values, []) => build_in (flag_value values "out" defaultOutDir) (flag_value values "size" defaultSize)
  end.

Definition setup_flags : FlagSet :=
  [("dst", FlagString); ("size", FlagString); ("work-parent", FlagString); ("user", FlagString); ("group", FlagString)].

Definition setupImage `{UserDatabase} (args : list string) : M World unit :=
  match flag_Parse setup_flags [] args with
  | Err e => if bool_decide (e = help_requested) then mret tt else fail e
  | Ok (_, _ :: _) => fail (ErrOther "unexpected arguments")
  | Ok (values, []) =>
      workDir ← os_MkdirTemp (flag_value values "work-parent" "/var/tmp") "firedoze-base-image-";
      deferring
        (build ["-out"; workDir; "-size"; flag_value values "size" defaultSize] ;;
         installImage ["-src"; workDir; "-dst"; flag_value values "dst" defaultImageInstallDir;
                       "-user"; flag_value values "user" "firedoze"; "-group"; flag_value values "group" "firedoze"])
        (attempt (os_RemoveAll workDir) ;; mret tt)
  end.

(** The exit status. *)
Definition status (m : M World unit) : M World Z := r ← attempt m; mret (if is_ok r then 0 else 1).

Definition run `{UserDatabase} (args : list string) : M World Z :=
  match args with
  | [] => mret 0
  | command :: rest =>
      if bool_decide (command ∈ ["help"; "-h"; "--help"]) then mret 0 else
      if bool_decide (command = "build") then status (build rest) else
      if bool_decide (command = "install") then status (installImage rest) else
      if bool_decide (command = "setup") then status (setupImage rest) else mret 2
  end.
End host.

(** ** Every fuel is enough *)

Section climb.
Context `{FirecrackerVMM, Env}.

Lemma path_Dir_up l x : Forall good_part l → good_part x → path_Dir (abs (l ++ [x])) = abs l.
Proof.
  intros Hl Hx. destruct (decide (l = [])) as [->|Hne]; [|by apply path_Dir_abs].
  destruct Hx as (_ & Hx & _). unfold path_Dir, abs. cbn [app Join]. change ("/" +:+ x) with ("" +:+ String "/" x).
  by rewrite CutLast_app.
Qed.

(** The climb to the root of the file system ends. *)
Lemma find_root_ends l : ∀ n w, Forall good_part l → (length l < n)%nat →
  (find_root n (abs l) w).1 ≠ Err (ErrOther "out of fuel").
Proof.
  induction l as [|x l IH] using rev_ind; intros n w Hl Hn; (destruct n as [|n]; [lia|]); cbn [find_root].
  - change (path_Dir (abs [])) with (abs []). rewrite bool_decide_eq_true_2 by done. unfold mbind, M_mbind, attempt.
    destruct (open_read _ w) as [[d|e] w1]; [destruct (GoStrings.Contains d _)|]; done.
  - apply Forall_app in Hl as [Hl [Hx _]%Forall_cons]. rewrite path_Dir_up by done.
    rewrite length_app in Hn. cbn [length] in Hn. unfold mbind, M_mbind, attempt.
    assert (∀ w, ((if bool_decide (abs l = abs (l ++ [x])) then fail (ErrOther "could not find firedoze repo root")
                   else find_root n (abs l) : M World string) w).1 ≠ Err (ErrOther "out of fuel")) as Hup.
    { intros w'. case_bool_decide; [done|]. apply IH; [done|lia]. }
    destruct (open_read _ w) as [[d|e] w1]; [destruct (GoStrings.Contains d _); [done|]|]; apply Hup.
Qed.
End climb.

(** ** Installing is whole *)

Section install.
Context `{FirecrackerVMM, Env}.

Lemma ext_unit_wp m {A} (k : M World A) Q w :
  fs w = m → (∀ w', fs w' = m → wp k Q w') → (∀ e w', fs w' = m → Q (Err e) w') → wp (ext (mret tt) ;; k) Q w.
Proof.
  intros Hw Hk He. apply wp_bind_run.
  - intros [] w' E. apply Hk. by rewrite (keeps_Ok fs _ _ _ _ E).
  - intros e w' E. apply He. by rewrite (keeps_Ok fs _ _ _ _ E).
Qed.

Lemma install_body_wp m tmp dst new w :
  m !! tmp = None → tmp ≠ dst → fs w = <[tmp := File ""]> m →
  wp (install_body tmp dst new) (λ r w',
    is_ok r = false ∧ (∃ c, fs w' = <[tmp := File c]> m) ∨ fs w' = <[dst := File new]> m) w.
Proof.
  intros Ht Hne Hw. unfold install_body. apply wp_bind. eapply wp_mono; [by apply (write_temp_wp m)|].
  intros [[]|e] w1 (c & Hw1 & Hc); [|left; split; [done|by eexists]]. rewrite (Hc eq_refl) in Hw1. clear c Hc.
  do 3 (eapply ext_unit_wp; [eassumption| |intros e w' ->; left; split; [done|by eexists]]; clear dependent w1; intros w1 Hw1).
  eapply wp_mono; [by apply (rename_temp_wp m)|]. intros r w4 [[Hr Hw4]|Hw4]; [left|by right]. split; [done|by eexists].
Qed.

(** What installing [src] as [dst] makes of the files [m]. *)
Definition installed (m : gmap string node) (src dst : string) (ok : bool) (m' : gmap string node) : Prop :=
  ((∃ c, m !! src = Some (File c) ∧ m' !! dst = Some (File c)) ∨
   ok = false ∧ (∀ n, m !! dst = Some n → m' !! dst = Some n) ∧
   ∀ s, m' !! dst = Some (File s) → m !! dst = Some (File s)) ∧
  others_kept m dst m'.

Lemma saved_installed m src dst c ok m' : m !! src = Some (File c) → saved_file m dst c ok m' → installed m src dst ok m'.
Proof. intros Hc [[Hs|Hs] Ho]; (split; [|done]); [left; eauto|by right]. Qed.

Lemma installed_kept m src dst m' : dirs_added m m' → installed m src dst false m'.
Proof. intros [D1 D2]. split; [right; by auto|]. intros q n _. apply D1. Qed.

Lemma open_read_contents p w c w' : open_read p w = (Ok c, w') → fs w !! p = Some (File c) ∧ fs w' = fs w.
Proof.
  intros E. pose proof (keeps_Ok fs _ _ _ _ E) as Hk. apply ext_Ok in E. cbn [fs bump] in E.
  destruct (fs w !! p) as [[]|]; [done| |done]. by injection E as -> _.
Qed.

(** The temporary name is a longer one in the same directory. *)
Definition in_directory (dst : string) : Prop := dst = path_Dir dst +:+ "/" +:+ path_Base dst.

Lemma temp_name_longer dst z : in_directory dst →
  path_Dir dst +:+ "/" +:+ ("." +:+ path_Base dst +:+ ".tmp-") +:+ z +:+ "" ≠ dst.
Proof.
  unfold in_directory. intros Hd%(f_equal String.length) E%(f_equal String.length).
  rewrite !str_length_app in *. simpl in *. lia.
Qed.

Lemma create_temp_wp dst w : in_directory dst →
  wp (os_CreateTemp (path_Dir dst) ("." +:+ path_Base dst +:+ ".tmp-") "") (λ r w',
    (∃ tmp, (r = Ok tmp ∨ is_ok r = false) ∧ fs w !! tmp = None ∧ tmp ≠ dst ∧ fs w' = <[tmp := File ""]> (fs w)) ∨
    is_ok r = false ∧ fs w' = fs w) w.
Proof.
  intros Hd. unfold os_CreateTemp. apply wp_bind_gets. cbv zeta.
  pose proof (temp_name_longer dst (random_name (tick w)) Hd) as Hne. set (tmp := _ +:+ _) in *.
  unfold wp, mbind, M_mbind, open_excl, ext. cbn [fs bump]. destruct (fs w !! tmp) as [n|] eqn:Ht.
  { right. by destruct (fate _). }
  destruct (parent_ok tmp (fs w)); [|right; by destruct (fate _)].
  destruct (fate _) as [|f|f]; [left|right|left]; [|done|]; exists tmp; split_and!; auto.
Qed.

Lemma copyInstallArtifact_wp src dst mode uid gid w : in_directory dst →
  wp (copyInstallArtifact src dst mode uid gid) (λ r w', installed (fs w) src dst (is_ok r) (fs w')) w.
Proof.
  intros Hd. assert (∀ e w', fs w' = fs w → installed (fs w) src dst (is_ok (Err e : result unit)) (fs w')) as Hsame.
  { intros e w' ->. apply installed_kept. by split. }
  unfold copyInstallArtifact. apply wp_bind_run; [|intros e w1 E; apply Hsame; by rewrite (keeps_Ok fs _ _ _ _ E)].
  intros data w1 [Hsrc Hw1]%open_read_contents.
  apply (ext_unit_wp (fs w)); [done| |done]. clear Hw1. intros w2 Hw2.
  apply wp_bind. eapply wp_mono; [apply os_MkdirAll_wp|]. rewrite Hw2. intros [[]|e] w3 Hdirs; [|by apply installed_kept].
  apply wp_bind. eapply wp_mono; [by apply create_temp_wp|].
  intros r w4 [(tmp & Hr & Ht & Hne & Hw4)|[Hr Hw4]].
  2:{ destruct r; [done|]. rewrite Hw4. by apply installed_kept. }
  destruct r as [tmp'|e]; [destruct Hr as [[= ->]|]; [|done]|].
  2:{ eapply saved_installed; [done|]. eapply saved_left; [done..|]. intros q Hq. by rewrite Hw4, lookup_insert_ne. }
  apply wp_bind_attempt. intros r w5 E5. pose proof (install_body_wp (fs w3) tmp dst data w4 Ht Hne Hw4) as Hb.
  unfold wp in Hb. rewrite E5 in Hb. cbn [fst snd] in Hb. destruct r as [[]|e].
  - destruct Hb as [[[=] _]|Hw5]. apply wp_ret. eapply saved_installed; [done|].
    eapply saved_done; [done..|by rewrite Hw5, lookup_insert_eq|]. intros q _ Hq. by rewrite Hw5, lookup_insert_ne.
  - apply wp_run. intros r w6 E6.
    assert (r = Err e ∧ (fs w6 = fs w5 ∨ fs w6 = delete tmp (fs w5))) as [-> Hw6].
    { pose proof (remove_temp_wp tmp w5) as Hr6. unfold wp, mbind, M_mbind, attempt in *.
      destruct (os_Remove tmp w5) as [r0 w0]. by injection E6 as <- <-. }
    assert (∀ q, q ≠ tmp → fs w6 !! q = fs w5 !! q) as Hq.
    { intros q Hq. destruct Hw6 as [-> | ->]; [done|by rewrite lookup_delete_ne]. }
    eapply saved_installed; [done|]. destruct Hb as [[_ [c Hw5]]|Hw5].
    + eapply saved_left; [done..|]. intros q Hqt. rewrite Hq by done. by rewrite Hw5, lookup_insert_ne.
    + eapply saved_done; [done..| |]; [by rewrite Hq, Hw5, lookup_insert_eq|].
      intros q Hqt Hqd. rewrite Hq by done. by rewrite Hw5, lookup_insert_ne.
Qed.
(** Each file of the image is the source's, or the one that was there; nothing
    else is lost. *)
Definition all_installed (content : string → string) (l : list string) (m : gmap string node) (ok : bool)
    (m' : gmap string node) (names : list string) : Prop :=
  (∀ x, x ∈ names → m' !! abs (l ++ [x]) = Some (File (content x)) ∨
     ok = false ∧ ∀ n, m !! abs (l ++ [x]) = Some n → m' !! abs (l ++ [x]) = Some n) ∧
  ∀ q n, (∀ x, x ∈ names → q ≠ abs (l ++ [x])) → m !! q = Some n → m' !! q = Some n.

Lemma abs_snoc_inj l l' x y : Forall good_part l → Forall good_part l' → good_part x → good_part y →
  abs (l ++ [x]) = abs (l' ++ [y]) → l = l' ∧ x = y.
Proof.
  intros Hl Hl' Hx Hy E. apply abs_inj in E as [<- [= ->]]%app_inj_tail; [done|by destruct l|by destruct l'|..];
    apply Forall_app; (split; [done|by apply Forall_one]).
Qed.

Lemma in_directory_abs l x : l ≠ [] → Forall good_part l → good_part x → in_directory (abs (l ++ [x])).
Proof.
  intros Hne Hl Hx. unfold in_directory. rewrite path_Dir_abs by done. destruct Hx as (_ & Hx & _).
  assert (abs (l ++ [x]) = abs l +:+ String "/" x) as E.
  { unfold abs. rewrite Join_app by done. by rewrite !str_app_assoc. }
  rewrite E. unfold path_Base. by rewrite CutLast_app.
Qed.

Lemma install_files_wp content ls l uid gid names : ∀ w,
  Forall good_part ls → Forall good_part l → l ≠ [] → ls ≠ [] → ls ≠ l → Forall good_part names → NoDup names →
  (∀ x, x ∈ names → fs w !! abs (ls ++ [x]) = Some (File (content x))) →
  wp (install_files (abs ls) (abs l) uid gid names) (λ r w', all_installed content l (fs w) (is_ok r) (fs w') names) w.
Proof.
  induction names as [|x names IH]; intros w Hls Hl Hne Hlsne Hdiff Hnames Hdup Hsrc; cbn [install_files].
  { apply wp_ret. split; [by intros x ?%not_elem_of_nil|done]. }
  apply Forall_cons in Hnames as [Hx Hnames]. apply NoDup_cons in Hdup as [Hnotin Hdup].
  rewrite !(path_Join_abs _ [x]) by (done || by apply Forall_one).
  assert (∀ y, y ∈ names → good_part y) as Hgood by (by rewrite list.Forall_forall in Hnames).
  assert (∀ y, y ∈ names → abs (l ++ [y]) ≠ abs (l ++ [x])) as Hdst.
  { intros y Hy E. apply abs_snoc_inj in E as [_ ->]; auto. }
  assert (∀ y, y ∈ names → abs (ls ++ [y]) ≠ abs (l ++ [x])) as Hsd.
  { intros y Hy E. apply abs_snoc_inj in E as [? _]; auto. }
  apply wp_bind. eapply wp_mono; [apply copyInstallArtifact_wp; by apply in_directory_abs|].
  intros r w1 [Hi Ho]. destruct r as [[]|e].
  - destruct Hi as [(c & Hc & Hw1)|[[=] _]]. rewrite Hsrc in Hc by by left. injection Hc as <-.
    eapply wp_mono; [apply (IH w1); try done|].
    { intros y Hy. apply Ho; [by apply Hsd|]. apply Hsrc. by right. }
    intros r w2 [Hall Hothers]. split.
    + intros y [->|Hy]%elem_of_cons.
      * left. apply Hothers; [|done]. intros y Hy. apply not_eq_sym. by apply Hdst.
      * destruct (Hall y Hy) as [?|[Hr Hk]]; [by left|right; split; [done|]]. intros n Hn. apply Hk, Ho; [by apply Hdst|done].
    + intros q n Hq Hn. apply Hothers; [intros y Hy; apply Hq; by right|]. apply Ho; [apply Hq; by left|done].
  - split.
    + intros y [->|Hy]%elem_of_cons.
      * destruct Hi as [(c & Hc & Hw1)|(_ & Hk & _)]; [left|right; by split].
        rewrite Hsrc in Hc by by left. by injection Hc as <-.
      * right. split; [done|]. intros n Hn. apply Ho; [by apply Hdst|done].
    + intros q n Hq Hn. apply Ho; [apply Hq; by left|done].
Qed.

Lemma install_args src dst userName groupName :
  flag_Parse install_flags [] ["-src"; src; "-dst"; dst; "-user"; userName; "-group"; groupName] =
    Ok ([("group", groupName); ("user", userName); ("dst", dst); ("src", src)], []).
Proof. reflexivity. Qed.

(** Installing an image is whole, file by file: from any state, with any
    failure at any point, each of the kernel, the initrd, the root file system and
    the manifest in the image directory afterwards holds exactly the bytes of the
    built file, or is the file that was there; all four are the built ones when the
    command succeeds; and no other file is lost. *)
Theorem installImage_whole `{UserDatabase} content ls l userName groupName w :
  Forall good_part ls → Forall good_part l → l ≠ [] → ls ≠ [] → ls ≠ l →
  (∀ x, x ∈ image_names → fs w !! abs (ls ++ [x]) = Some (File (content x))) →
  wp (installImage ["-src"; abs ls; "-dst"; abs l; "-user"; userName; "-group"; groupName])
     (λ r w', all_installed content l (fs w) (is_ok r) (fs w') image_names) w.
Proof.
  intros Hls Hl Hne Hlsne Hdiff Hsrc.
  assert (∀ ok w1 m', dirs_added (fs w) (fs w1) → all_installed content l (fs w1) ok m' image_names →
    all_installed content l (fs w) ok m' image_names) as Hdirs.
  { intros ok w1 m' [D1 _] [Ha Ho]. split; [|auto]. intros x Hx. destruct (Ha x Hx) as [?|[? ?]]; auto. }
  assert (∀ w1, all_installed content l (fs w1) false (fs w1) image_names) as Hnone by (intros w1; split; auto).
  unfold installImage. rewrite install_args. change (flag_value _ "src" _) with (abs ls). change (flag_value _ "dst" _) with (abs l).
  apply wp_bind, wp_lift_result. destruct (lookupInstallOwner _ _) as [ids|e]; [|apply Hnone].
  apply wp_bind. eapply wp_mono; [apply os_MkdirAll_wp|]. intros [[]|e] w1 Hd; [|by eapply Hdirs].
  assert (∀ e w', fs w' = fs w1 → all_installed content l (fs w) (is_ok (Err e : result unit)) (fs w') image_names) as Herr.
  { intros e w' Hw'. rewrite Hw'. by eapply Hdirs. }
  apply (ext_unit_wp (fs w1)); [done| |done]. intros w2 Hw2.
  apply (ext_unit_wp (fs w1)); [done| |done]. intros w3 Hw3.
  assert (Forall good_part image_names) as Hgood by (repeat apply Forall_cons_2; [done..|constructor]).
  assert (NoDup image_names) as Hdup by (apply (bool_decide_eq_true_1 _); reflexivity).
  eapply wp_mono; [apply (install_files_wp content ls l); try done|].
  - intros x Hx. rewrite Hw3. apply Hd. by apply Hsrc.
  - intros r w4 Ha. rewrite Hw3 in Ha. by eapply Hdirs.
Qed.
End install.

(** ** Building *)

Section built.
Context `{FirecrackerVMM, Env, !CommandsLocal, GoUnicode, Downloads, ClientProcess}.

(** A file that is there stays as it is. *)
Definition stays (p : string) (n : node) (w : World) : Prop := fs w !! p = Some n.

Lemma stays_keeps p n {A} (m : M World A) : Keeps (λ w, fs w !! p) m → Pres (stays p n) m.
Proof. intros Hk w Hw. unfold stays in *. by rewrite (Hk w). Qed.
Lemma stays_keeps_fs p n {A} (m : M World A) : Keeps fs m → Pres (stays p n) m.
Proof. intros Hk. apply stays_keeps. intros w. by rewrite (Hk w). Qed.

#[local] Instance readArtifact_keeps path url sha insecure : Keeps fs (readArtifact path url sha insecure).
Proof. unfold readArtifact, download. apply _. Qed.
#[local] Instance readBootArtifact_keeps path url sha insecure : Keeps fs (readBootArtifact path url sha insecure).
Proof. unfold readBootArtifact. apply _. Qed.
#[local] Instance or_download_keeps a url sha : Keeps fs (or_download a url sha).
Proof. unfold or_download. apply _. Qed.

(** Data that has passed has the digest. *)
Lemma verifySHA256_Ok data sha : is_ascii sha = true → no_space sha = true → is_lower_text sha = true →
  verifySHA256 data sha = Ok tt → sha256Hex data = sha.
Proof.
  intros Ha Hs Hl. unfold verifySHA256. rewrite TrimSpace_id, ToLower_id by done.
  case_bool_decide; [|done]. simpl. by case_bool_decide.
Qed.

Lemma readArtifact_Ok url sha w a w' :
  sha ≠ "" → is_ascii sha = true → no_space sha = true → is_lower_text sha = true →
  readArtifact "" url sha false w = (Ok a, w') → sha256Hex (ad_data a) = sha ∧ ad_name a = url.
Proof.
  intros Hne Ha Hs Hl. unfold readArtifact. change (is_empty "") with true. cbv iota.
  assert (is_empty sha = false) as -> by by apply bool_decide_eq_false_2. cbn [andb].
  intros (data & w1 & _ & (u & w2 & Ev & [= <- _])%bind_Ok)%bind_Ok. destruct u.
  injection Ev as Ev _. split; [|done]. by apply verifySHA256_Ok.
Qed.

(** [replaceFile] writes its file whole, and keeps the others. *)
Lemma replaceFile_wp p data w :
  wp (replaceFile p data) (λ r w',
    (∀ q n, q ≠ p → q ≠ p +:+ ".tmp" → fs w !! q = Some n → fs w' !! q = Some n) ∧
    (r = Ok tt → fs w' !! p = Some (File data))) w.
Proof.
  assert (p +:+ ".tmp" ≠ p) as Hne.
  { intros E%(f_equal String.length). rewrite str_length_app in E. simpl in E. lia. }
  unfold replaceFile. apply wp_bind_run.
  - intros [] w1 E1. apply wp_run. intros r w2 E2. pose proof (os_WriteFile_Ok _ _ _ _ E1) as Hw1.
    assert (∀ q, q ≠ p +:+ ".tmp" → fs w1 !! q = fs w !! q) as Hk.
    { intros q Hq. pose proof (no_at_ne _ _ Hq). apply (keeps_Ok (λ w, fs w !! q)) in E1; [done|]. unfold os_WriteFile. apply _. }
    destruct (os_Rename_inv _ _ _ _ _ _ Hne Hw1 E2) as [[Hw2 [e ->]]|Hw2].
    + split; [|done]. intros q n Hq Hqt. by rewrite Hw2, Hk.
    + split; [|intros _; by rewrite Hw2, lookup_insert_eq]. intros q n Hq Hqt.
      by rewrite Hw2, lookup_insert_ne, lookup_delete_ne, Hk.
  - intros e w1 E1. split; [|done]. intros q n _ Hqt. pose proof (no_at_ne _ _ Hqt).
    assert (fs w1 !! q = fs w !! q) as ->; [|done]. apply (keeps_Ok (λ w, fs w !! q)) in E1; [done|]. unfold os_WriteFile. apply _.
Qed.

Lemma replaceFile_stays p data q n : q ≠ p → q ≠ p +:+ ".tmp" → Pres (stays q n) (replaceFile p data).
Proof. intros Hq Hqt w Hw. by apply (proj1 (replaceFile_wp p data w)). Qed.

Context (cwd : nat → result string).

#[local] Instance find_root_keeps n : ∀ dir, Keeps fs (find_root n dir).
Proof. induction n as [|n IH]; intros dir; cbn [find_root]; apply _. Qed.
#[local] Instance findRepoRoot_keeps : Keeps fs (findRepoRoot cwd).
Proof. unfold findRepoRoot. apply _. Qed.
#[local] Instance Abs_keeps p : Keeps fs (Abs cwd p).
Proof. unfold Abs. apply _. Qed.

(** The compiler writes only the temporary file. *)
Lemma hello_source_stays arch p n : IsAbs p = true → HasSuffix p ".pub" = false →
  Pres (stays p n) (buildGuestHelloBinaryFromSource cwd arch).
Proof.
  intros Habs Hpub w Hw. unfold buildGuestHelloBinaryFromSource, mbind at 1, M_mbind at 1.
  pose proof (findRepoRoot_keeps w) as Hroot. destruct (findRepoRoot cwd w) as [[root|e] w1]; cbn [snd] in *.
  2:{ unfold stays in *. by rewrite Hroot. }
  assert (stays p n w1) as Hw1 by (unfold stays in *; by rewrite Hroot). clear Hw Hroot w.
  unfold mbind at 1, M_mbind at 1. pose proof (os_CreateTemp_wp TempDir "firedoze-hello-" "" w1) as Ht. unfold wp in Ht.
  destruct (os_CreateTemp _ _ _ w1) as [r w2]. cbn [fst snd] in Ht.
  destruct Ht as [(tmp & Hr & Hnone & Hw2 & _)|[Hr Hw2]].
  2:{ destruct r; [done|]. cbn [snd]. unfold stays in *. by rewrite Hw2. }
  assert (p ≠ tmp) as Hne by (unfold stays in Hw1; congruence).
  assert (stays p n w2) as Hst by (unfold stays in *; by rewrite Hw2, lookup_insert_ne).
  destruct r as [tmp'|e]; [destruct Hr as [[= ->]|]; [|done]|done].
  pose proof (no_at_ne _ _ Hne) as Hno.
  apply pres_deferring; [|apply stays_keeps; apply _|done].
  apply pres_bind; [|intros _; apply stays_keeps_fs, _].
  apply stays_keeps. apply keeps_ext; [done|]. intros w3.
  pose proof (exec_local "go" ["build"; "-trimpath"; "-ldflags"; "-s -w"; "-o"; tmp; "./cmd/firedoze-hello"] (fs w3) p) as Hx.
  destruct (exec_command _ _ _) as [ok m]. cbn [fst snd fs set_fs] in *. apply Hx.
  - intros Hin. rewrite !elem_of_cons in Hin. destruct Hin as [->|[->|[->|[->|[->|[->|[->|Hin]]]]]]]; try done.
    by apply not_elem_of_nil in Hin.
  - intros a _ ->. by rewrite HasSuffix_app in Hpub.
Qed.

Lemma hello_stays arch p n : IsAbs p = true → HasSuffix p ".pub" = false →
  Pres (stays p n) (buildGuestHelloBinary cwd arch).
Proof.
  intros Ha Hp. unfold buildGuestHelloBinary.
  assert (Pres (stays p n) (data ← buildGuestHelloBinaryFromSource cwd arch; mret (data, "source:./cmd/firedoze-hello"))) as Hs
    by (apply pres_bind; [by apply hello_source_stays|intros; apply _]).
  destruct (is_empty _); [done|]. apply pres_bind; [apply pres_attempt, stays_keeps_fs, _|].
  intros [d|[]]; apply _.
Qed.

Context {F : Type} `{Ext4 F, Ext4Image F, Untar, GuestTexts, Decompressors} (files links : list string).

(** [f'] is the finished image of the empty file system [f]: unpacked from a root
    archive, a kernel package and a busybox package with the digests the program
    pins, every step successful up to the last write-back. *)
Definition finished (f f' : F) : Prop :=
  ∃ root steps a o f1 deb t1 f2 busyDeb busy hello t2,
    sha256Hex root = baseRootSHA256 ∧ open_tar Xz root = Ok steps ∧
    populateRootfs steps newGuestOverlay f = (Ok (a, o), f1) ∧
    sha256Hex deb = baseKernelModulesSHA256 ∧ installKernelModulesDeb deb t1 f1 = (Ok tt, f2) ∧
    sha256Hex busyDeb = baseBusyBoxStaticSHA256 ∧ extractBusyBoxFromDeb busyDeb = Ok busy ∧
    customizeGuest guest_text o files links hello busy t2 f2 = (Ok tt, f') ∧ efs_Close f' = Ok tt.

Lemma on_image_Ok {A} tmp f (m : M F A) w a f' w' : on_image tmp f m w = (Ok (a, f'), w') →
  m f = (Ok a, f') ∧ fs w' = <[tmp := File (efs_bytes f')]> (fs w).
Proof. unfold on_image. destruct (m f) as [[b|e] g]; [|done]. by intros [= -> -> <-]. Qed.

Lemma on_image_stays {A} tmp f (m : M F A) p n : p ≠ tmp → Pres (stays p n) (on_image tmp f m).
Proof.
  intros Hne w Hw. unfold on_image. destruct (m f) as [r f']. cbn [snd]. unfold stays in *. cbn [fs set_fs].
  by rewrite lookup_insert_ne.
Qed.

Lemma modules_Ok w r w' : readKernelModulesDeb w = (Ok r, w') → sha256Hex r.1 = baseKernelModulesSHA256 ∧ fs w' = fs w.
Proof.
  intros E. pose proof (keeps_Ok fs _ _ _ _ E) as Hk. unfold readKernelModulesDeb in E.
  apply bind_Ok in E as (a & w1 & E1 & E). apply readArtifact_Ok in E1 as [Hs _]; [|done..].
  apply bind_Ok in E as (i & w2 & _ & [= <- _]). done.
Qed.

Lemma busybox_Ok w r w' : readBusyBoxStatic w = (Ok r, w') →
  ∃ deb, sha256Hex deb = baseBusyBoxStaticSHA256 ∧ extractBusyBoxFromDeb deb = Ok r.1.
Proof.
  unfold readBusyBoxStatic. intros E. apply bind_Ok in E as (a & w1 & E1 & E).
  apply readArtifact_Ok in E1 as [Hs _]; [|done..]. apply bind_Ok in E as (i & w2 & _ & E).
  apply bind_Ok in E as (b & w3 & [= Hb _] & [= <- _]). eauto.
Qed.

Lemma build_rootfs_finished tmp f w res w' : build_rootfs cwd files links tmp f w = (Ok res, w') →
  ∃ f', finished f f' ∧ fs w' !! tmp = Some (File (efs_bytes f')).
Proof.
  unfold build_rootfs. intros E. apply bind_Ok in E as (source & w1 & E1 & E).
  apply readArtifact_Ok in E1 as [Hroot _]; [|done..].
  apply bind_Ok in E as (steps & w2 & [= Hsteps _] & E).
  apply bind_Ok in E as ([[artifacts overlay] f1] & w3 & E3 & E). apply on_image_Ok in E3 as [Hpop _].
  apply bind_Ok in E as (modules & w4 & E4 & E). apply modules_Ok in E4 as [Hmod _].
  apply bind_Ok in E as (t1 & w5 & _ & E).
  apply bind_Ok in E as ([[] f2] & w6 & E6 & E). apply on_image_Ok in E6 as [Hinst _].
  apply bind_Ok in E as (hello & w7 & _ & E).
  apply bind_Ok in E as (busyBox & w8 & E8 & E). apply busybox_Ok in E8 as (busyDeb & Hbusy & Hbb).
  apply bind_Ok in E as (t2 & w9 & _ & E).
  apply bind_Ok in E as ([[] f3] & w10 & E10 & E). apply on_image_Ok in E10 as [Hcust Hw10].
  apply bind_Ok in E as ([] & w11 & [= Hclose <-] & E).
  apply bind_Ok in E as ([] & w12 & E12 & [= _ <-]). apply (keeps_Ok fs) in E12; [|apply _].
  exists f3. split; [|by rewrite E12, Hw10, lookup_insert_eq].
  by exists (ad_data source), steps, artifacts, overlay, f1, modules.1, t1, f2, busyDeb, busyBox.1, hello.1, t2.
Qed.

Lemma build_rootfs_stays tmp f p n : p ≠ tmp → IsAbs p = true → HasSuffix p ".pub" = false →
  Pres (stays p n) (build_rootfs cwd files links tmp f).
Proof.
  intros Hne Ha Hp. unfold build_rootfs.
  apply pres_bind; [apply stays_keeps_fs, _|intros source]. apply pres_bind; [apply _|intros steps].
  apply pres_bind; [by apply on_image_stays|intros [[artifacts overlay] f1]].
  apply pres_bind; [apply stays_keeps_fs; unfold readKernelModulesDeb; apply _|intros modules].
  apply pres_bind; [apply _|intros t1]. apply pres_bind; [by apply on_image_stays|intros installed].
  apply pres_bind; [by apply hello_stays|intros hello].
  apply pres_bind; [apply stays_keeps_fs; unfold readBusyBoxStatic; apply _|intros busyBox].
  apply pres_bind; [apply _|intros t2]. apply pres_bind; [by apply on_image_stays|intros customized].
  apply pres_bind; [apply _|intros _]. apply pres_bind; [apply stays_keeps_fs, _|intros _]. apply _.
Qed.

Lemma abs_snoc_app l x s : l ≠ [] → abs (l ++ [x]) +:+ s = abs (l ++ [x +:+ s]).
Proof. intros Hl. unfold abs. rewrite !Join_app by done. by rewrite !str_app_assoc. Qed.

Context (l : list string) (Hl : Forall good_part l) (Hne : l ≠ []).

(** The file of that name in the output directory. *)
Abbreviation out x := (abs (l ++ [x])).

Lemma out_ne x y : good_part x → good_part y → x ≠ y → out x ≠ out y.
Proof. intros Hx Hy Hxy E. by apply abs_snoc_inj in E as [_ ?]. Qed.

Lemma out_file x : good_part x → path_Join [abs l; x] = out x.
Proof. intros Hx. apply (path_Join_abs l [x]); [done..|by apply Forall_one]. Qed.

(** A finished root file system, with a kernel that is an ELF image. *)
Definition image_ready (size : Z) (m : gmap string node) : Prop :=
  ∃ f f' kernel, efs_Create size = Ok f ∧ finished f f' ∧ m !! out "rootfs.ext4" = Some (File (efs_bytes f')) ∧
    isELF kernel = true ∧ m !! out "vmlinux.bin" = Some (File kernel).

Lemma replace_out_stays x y data n : good_part x → good_part (x +:+ ".tmp") → good_part y → y ≠ x → y ≠ x +:+ ".tmp" →
  Pres (stays (out y) n) (replaceFile (path_Join [abs l; x]) data).
Proof.
  intros Hx Hxt Hy Hyx Hyt. rewrite out_file by done. apply replaceFile_stays; [by apply out_ne|].
  rewrite abs_snoc_app by done. by apply out_ne.
Qed.

Lemma replace_run x y data n w r w' : replaceFile (path_Join [abs l; x]) data w = (r, w') →
  good_part x → good_part (x +:+ ".tmp") → good_part y → y ≠ x → y ≠ x +:+ ".tmp" →
  stays (out y) n w → stays (out y) n w'.
Proof.
  intros E Hx Hxt Hy Hyx Hyt Hw. pose proof (replace_out_stays x y data n Hx Hxt Hy Hyx Hyt w Hw) as Hp. by rewrite E in Hp.
Qed.

(** While the boot artifacts are written: what was the image, and the new file
    system under its temporary name. *)
Definition publishing (old : option node) (bytes : string) (w : World) : Prop :=
  (∀ n, old = Some n → stays (out "rootfs.ext4") n w) ∧ stays (out "rootfs.ext4.tmp") (File bytes) w.

Lemma publishing_keeps old bytes {A} (m : M World A) `{!Keeps fs m} w r w' :
  m w = (r, w') → publishing old bytes w → publishing old bytes w'.
Proof. intros Hk%(keeps_Ok fs); [|done]. unfold publishing, stays. by rewrite Hk. Qed.

Lemma publishing_replace old bytes x data : x ∈ ["vmlinux.bin"; "initrd.img"; "manifest.txt"] →
  Pres (publishing old bytes) (replaceFile (path_Join [abs l; x]) data).
Proof.
  intros Hx w [Ho Ht].
  assert (∀ y n, y ∈ ["rootfs.ext4"; "rootfs.ext4.tmp"] → Pres (stays (out y) n) (replaceFile (path_Join [abs l; x]) data)) as Hy.
  { intros y n Hy.
    repeat (apply elem_of_cons in Hx as [->|Hx]; [|]); try (by apply not_elem_of_nil in Hx);
      repeat (apply elem_of_cons in Hy as [->|Hy]; [by apply replace_out_stays|]); by apply not_elem_of_nil in Hy. }
  split; [intros n Hn|]; apply Hy; auto; set_solver.
Qed.

Lemma publish_image_wp sizeText sourceName artifacts modulesInfo busyBoxInfo hello old bytes w :
  publishing old bytes w →
  wp (publish_image (abs l) (out "rootfs.ext4.tmp") (out "rootfs.ext4") sizeText sourceName artifacts modulesInfo busyBoxInfo hello)
    (λ r w', r ≠ Ok tt ∧ (∀ n, old = Some n → stays (out "rootfs.ext4") n w') ∨
       ∃ kernel, isELF kernel = true ∧ stays (out "vmlinux.bin") (File kernel) w' ∧ stays (out "rootfs.ext4") (File bytes) w') w.
Proof.
  intros Hw. unfold publish_image.
  assert (∀ e w', publishing old bytes w' → Err e ≠ Ok tt ∧ (∀ n, old = Some n → stays (out "rootfs.ext4") n w')) as Herr
    by (by intros e w' [? _]).
  apply wp_bind_run; [|intros e w1 E; left; apply Herr; by refine (publishing_keeps _ _ _ _ _ _ E _)].
  intros kernel w1 E1. eapply publishing_keeps in E1; [|apply _|done]. clear Hw.
  apply wp_bind, wp_lift_result. destruct (extractKernelELF (ba_data kernel)) as [elf|e] eqn:Eelf; [|left; by apply Herr].
  apply extractKernelELF_Ok in Eelf as [Helf _].
  apply wp_bind_run; [|intros e w2 E; left; apply Herr; by refine (publishing_keeps _ _ _ _ _ _ E _)].
  intros initrd w2 E2. eapply publishing_keeps in E2; [|apply _|done]. clear E1. cbn [ba_data].
  assert (∀ x data w r w', x ∈ ["vmlinux.bin"; "initrd.img"; "manifest.txt"] →
    replaceFile (path_Join [abs l; x]) data w = (r, w') → publishing old bytes w → publishing old bytes w') as Hrep.
  { intros x data w3 r w4 Hx E Hw3. pose proof (publishing_replace old bytes x data Hx w3 Hw3) as Hp. by rewrite E in Hp. }
  apply wp_bind_run; [|intros e w3 E; left; apply Herr; eapply Hrep; [|exact E|done]; set_solver].
  intros [] w3 E3. assert (stays (out "vmlinux.bin") (File elf) w3) as Hk3.
  { pose proof (replaceFile_wp (path_Join [abs l; "vmlinux.bin"]) elf w2) as [_ Hw3]. rewrite E3 in Hw3.
    rewrite out_file in Hw3 by done. by apply Hw3. }
  eapply Hrep in E3; [|set_solver|done]. clear E2.
  apply wp_bind_run; [|intros e w4 E; left; apply Herr; eapply Hrep; [|exact E|done]; set_solver].
  intros [] w4 E4. assert (stays (out "vmlinux.bin") (File elf) w4) as Hk4.
  { by apply (replace_run "initrd.img" "vmlinux.bin" _ _ _ _ _ E4). }
  eapply Hrep in E4; [|set_solver|done]. clear E3 Hk3.
  apply wp_bind_run; [|intros e w5 E; left; apply Herr; eapply Hrep; [|exact E|done]; set_solver].
  intros [] w5 E5. assert (stays (out "vmlinux.bin") (File elf) w5) as Hk5.
  { by apply (replace_run "manifest.txt" "vmlinux.bin" _ _ _ _ _ E5). }
  eapply Hrep in E5; [|set_solver|done]. clear E4 Hk4. destruct E5 as [Hold Htmp].
  apply wp_run. intros r w6 E6. unfold stays in *.
  destruct (os_Rename_inv _ _ _ _ _ _ (out_ne "rootfs.ext4.tmp" "rootfs.ext4" ltac:(done) ltac:(done) ltac:(done)) Htmp E6)
    as [[Hw6 [e ->]]|Hw6].
  - left. split; [done|]. intros n Hn. rewrite Hw6. by apply Hold.
  - right. exists elf. split; [done|]. rewrite Hw6, lookup_insert_eq.
    by rewrite lookup_insert_ne, lookup_delete_ne by by apply out_ne.
Qed.

Lemma rootfs_not_pub : HasSuffix (out "rootfs.ext4") ".pub" = false.
Proof.
  unfold abs. destruct (Join_last l "rootfs.ext4" "/") as [z ->]. rewrite <-str_app_assoc.
  apply not_true_iff_false. intros [t Ht]%HasSuffix_spec.
  change "rootfs.ext4" with ("rootfs.ext" +:+ String "4" "") in Ht. change ".pub" with (".pu" +:+ String "b" "") in Ht.
  rewrite <-!str_app_assoc in Ht. by apply last_char_inj in Ht.
Qed.

(** The old image stays until the new one is complete. *)
Lemma build_body_wp sizeText size w :
  wp (build_body cwd files links (abs l) (out "rootfs.ext4.tmp") (out "rootfs.ext4") sizeText size) (λ r w',
    r ≠ Ok tt ∧ (∀ n, stays (out "rootfs.ext4") n w → stays (out "rootfs.ext4") n w') ∨ image_ready size (fs w')) w.
Proof.
  unfold build_body. apply wp_bind, wp_lift_result. destruct (efs_Create size) as [f|e] eqn:Ef; [|left; by auto].
  assert (∀ n r w', build_rootfs cwd files links (out "rootfs.ext4.tmp") f w = (r, w') →
    stays (out "rootfs.ext4") n w → stays (out "rootfs.ext4") n w') as Hroot.
  { intros n r w' E Hw. pose proof (build_rootfs_stays (out "rootfs.ext4.tmp") f (out "rootfs.ext4") n
      (out_ne "rootfs.ext4" "rootfs.ext4.tmp" ltac:(done) ltac:(done) ltac:(done)) eq_refl rootfs_not_pub w Hw) as Hp.
    by rewrite E in Hp. }
  apply wp_bind_run; [|intros e w' E; left; split; [done|]; intros n; by eapply Hroot].
  intros [[[[sourceName artifacts] modulesInfo] busyBoxInfo] hello] w1 E1.
  destruct (build_rootfs_finished _ _ _ _ _ E1) as (f' & Hfin & Htmp).
  eapply wp_mono; [apply (publish_image_wp _ _ _ _ _ _ (fs w !! out "rootfs.ext4") (efs_bytes f'))|].
  - split; [|done]. intros n Hn. by eapply Hroot.
  - intros r w2 [[Hr Hk]|(kernel & Hk & Hv & Hi)]; [left; by auto|right]. by exists f, f', kernel.
Qed.

Lemma build_in_wp sizeText w :
  wp (build_in cwd files links (abs l) sizeText) (λ r w',
    r ≠ Ok tt ∧ (∀ n, stays (out "rootfs.ext4") n w → stays (out "rootfs.ext4") n w') ∨
    ∃ size, parseSize sizeText = Ok size ∧ 512 * 1024 * 1024 ≤ size ∧ image_ready size (fs w')) w.
Proof.
  assert (∀ x, good_part x → out "rootfs.ext4" ≠ out x → Keeps (λ w, fs w !! out "rootfs.ext4") (os_Remove (out x))) as Hrm.
  { intros x _ Hx. pose proof (no_at_ne _ _ Hx). apply _. }
  assert (out "rootfs.ext4" ≠ out "rootfs.ext4.tmp") as Htne by by apply out_ne.
  specialize (Hrm "rootfs.ext4.tmp" ltac:(done) Htne).
  unfold build_in. apply wp_bind, wp_lift_result. destruct (parseSize sizeText) as [size|e]; [|left; by auto].
  case_bool_decide as Hsize; [left; by auto|].
  apply wp_bind. eapply wp_mono; [apply os_MkdirAll_wp|]. intros [[]|e] w1 [D1 _]; [|left; split; [done|]; intros n; apply D1].
  assert (Abs cwd (abs l) = mret (abs l)) as ->.
  { unfold Abs. change (IsAbs (abs l)) with true. cbv iota. by rewrite Clean_abs. }
  apply wp_bind, wp_ret. cbv zeta. rewrite out_file, abs_snoc_app by done.
  change ("rootfs.ext4" +:+ ".tmp") with "rootfs.ext4.tmp".
  apply wp_bind_attempt. intros r2 w2 E2. pose proof (keeps_Ok (λ w, fs w !! out "rootfs.ext4") _ _ _ _ E2) as Hw2.
  assert (Hc : Keeps (λ w, fs w !! out "rootfs.ext4") (create_backend (F := F) (out "rootfs.ext4.tmp") size)).
  { apply keeps_ext; [done|]. intros w'. destruct (backend_create _ _); [|done]. cbn [snd fs set_fs]. by rewrite lookup_insert_ne. }
  apply wp_bind_run.
  2:{ intros e w3 E3. left. split; [done|]. intros n Hn%D1. 
      pose proof (keeps_Ok (λ w, fs w !! out "rootfs.ext4") _ _ _ _ E3) as Hw3. unfold stays. simpl in *. by rewrite Hw3, Hw2. }
  intros [] w3 E3. pose proof (keeps_Ok (λ w, fs w !! out "rootfs.ext4") _ _ _ _ E3) as Hw3.
  assert (∀ n, stays (out "rootfs.ext4") n w → stays (out "rootfs.ext4") n w3) as Hold.
  { intros n Hn%D1. unfold stays. by rewrite Hw3, Hw2. }
  apply wp_bind_attempt. intros r w4 E4. pose proof (build_body_wp sizeText size w3) as Hb. unfold wp in Hb. rewrite E4 in Hb.
  cbn [fst snd] in Hb. assert (512 * 1024 * 1024 ≤ size) as Hge by lia.
  destruct r as [[]|e]; [apply wp_ret; destruct Hb as [[? _]|Hb]; [done|right; eauto]|].
  apply wp_bind_attempt. intros r5 w5 E5. apply wp_fail. pose proof (keeps_Ok (λ w, fs w !! out "rootfs.ext4") _ _ _ _ E5) as Hw5.
  destruct Hb as [[_ Hb]|(f & f' & kernel & Hf & Hfin & Hroot & Helf & Hk)].
  - left. split; [done|]. intros n Hn. unfold stays. rewrite Hw5. by apply Hb, Hold.
  - right. exists size. split; [done|]. split; [done|]. exists f, f', kernel. split; [done|]. split; [done|].
    split; [by rewrite Hw5|]. split; [done|]. assert (out "vmlinux.bin" ≠ out "rootfs.ext4.tmp") as Hvne by by apply out_ne.
    pose proof (no_at_ne _ _ Hvne). by rewrite (keeps_Ok (λ w, fs w !! out "vmlinux.bin") _ _ _ _ E5).
Qed.

(** C20. Building an image replaces the old one whole or not at all: from any
    state, for an output directory given as an absolute clean path, whatever is
    downloaded and whatever fails at any point, rootfs.ext4 of the
    output directory afterwards is the file that was there and the command has
    failed, or it is the complete image of a file system of the requested size,
    of at least 512 MiB, unpacked from a root archive, a kernel package and a busybox package
    whose SHA-256 digests are the pinned ones, and vmlinux.bin is an ELF kernel; the
    latter when the command succeeds. *)
Theorem build_whole sizeText w :
  wp (build cwd files links ["-out"; abs l; "-size"; sizeText]) (λ r w',
    r ≠ Ok tt ∧ (∀ n, fs w !! out "rootfs.ext4" = Some n → fs w' !! out "rootfs.ext4" = Some n) ∨
    ∃ size, parseSize sizeText = Ok size ∧ 512 * 1024 * 1024 ≤ size ∧ image_ready size (fs w')) w.
Proof.
  assert (build cwd files links ["-out"; abs l; "-size"; sizeText] = build_in cwd files links (abs l) sizeText) as -> by reflexivity.
  apply build_in_wp.
Qed.
End built.

(** ** Instances for the examples *)

Definition daemon_user : UserDatabase := {| user_Lookup _ := Ok "998"; user_LookupGroup _ := Ok "998" |}.
Definition work_files : gmap string node := list_to_map
  [("/work", Dir); ("/work/vmlinux.bin", File "kernel"); ("/work/initrd.img", File "initrd");
   ("/work/rootfs.ext4", File "rootfs"); ("/work/manifest.txt", File "release");
   ("/images", Dir); ("/images/rootfs.ext4", File "old"); ("/images/kept", File "kept")].
Definition work_world : @World toy_vmm := set_fs (λ _, work_files) empty_world.
Definition work_content (x : string) : string :=
  if bool_decide (x = "vmlinux.bin") then "kernel" else if bool_decide (x = "initrd.img") then "initrd"
  else if bool_decide (x = "rootfs.ext4") then "rootfs" else "release".

Lemma installImage_whole_witness :
  wp (@installImage toy_vmm calm daemon_user ["-src"; "/work"; "-dst"; "/images"; "-user"; "firedoze"; "-group"; "firedoze"])
     (λ r w', all_installed work_content ["images"] work_files (is_ok r) (fs w') image_names) work_world ∧
  is_ok (@installImage toy_vmm calm daemon_user
           ["-src"; "/work"; "-dst"; "/images"; "-user"; "firedoze"; "-group"; "firedoze"] work_world).1 = true.
Proof.
  split; [|vm_compute; reflexivity].
  apply (@installImage_whole toy_vmm calm daemon_user work_content ["work"] ["images"] "firedoze" "firedoze" work_world).
  - repeat constructor; done.
  - repeat constructor; done.
  - discriminate.
  - discriminate.
  - discriminate.
  - intros x Hx. repeat (apply elem_of_cons in Hx as [->|Hx]; [reflexivity|]). by apply not_elem_of_nil in Hx.
Defined.

(** A file system in memory, over a file; and a network that is down. *)
Definition memory_image : Ext4Image memory :=
  {| backend_create _ _ := Ok ""; efs_Create _ := Ok ∅; efs_Close _ := Ok tt; efs_bytes _ := "image" |}.
Definition no_downloads : Downloads := λ _ _, Err (ErrOther "no route to host").
Definition no_environment : ClientProcess := {| Getenv _ := ""; stdin := "" |}.
Definition no_archives : Untar := λ _ _, Ok [].
Definition no_decompressors : Decompressors := {| zstd_ReadAll s := s; gzip_ReadAll s := s; xz_ReadAll s := s |}.

Lemma build_whole_witness :
  let build := @build toy_vmm calm ascii_only no_downloads no_environment (λ _, Ok "/") memory memory_ext4 memory_image
                 no_archives (λ _, "") no_decompressors [] [] ["-out"; "/images"; "-size"; "4G"] in
  wp build (λ r w', r ≠ Ok tt ∧ (∀ n, fs work_world !! "/images/rootfs.ext4" = Some n → fs w' !! "/images/rootfs.ext4" = Some n) ∨
    ∃ size, @parseSize ascii_only "4G" = Ok size ∧ 512 * 1024 * 1024 ≤ size ∧
      @image_ready ascii_only memory memory_ext4 memory_image no_archives (λ _, "") [] [] ["images"] size (fs w')) work_world ∧
  is_ok (build work_world).1 = false ∧ fs (build work_world).2 !! "/images/rootfs.ext4" = Some (File "old").
Proof.
  intros build. split; [|split; vm_compute; reflexivity].
  refine (@build_whole toy_vmm calm (env_with_local _) ascii_only no_downloads no_environment (λ _, Ok "/") memory memory_ext4
           memory_image no_archives (λ _, "") no_decompressors [] [] ["images"] _ _ "4G" work_world).
  - repeat constructor; done.
  - discriminate.
Defined.
